(* ===== verification/_CoqProject ===== *)
-Q . S2P
Prelude.v
CString.v
Double.v
Strtod.v
Config.v
Db.v
Weights.v
Tier.v
Ring.v
World.v
Ingest.v
Wire.v
Scorer.v
Enforce.v
Cases.v
Emit.v
Consent.v
Verdict.v
Decay.v
Affairs.v
Gaveld.v
Safety.v
Bounds.v
Range.v
Overlord.v
April.v
Table.v
Krang.v
Queues.v
Policy.v
Events.v
Digits.v
Attribution.v
Fleet.v
Nulld.v
Screen.v
Numbers.v
Lengths.v
Reports.v
Clock.v
Sewer.v
Splinter.v
Sink.v
Conv.v
Leo.v
Turtles.v
Dojo.v
Hero.v
HeroData.v
Sightings.v
Backend.v
Batch.v
Probe.v
Idle.v
Alarm.v
Granit.v
Disclosed.v
Tiger.v
Claw.v
Sections.v
Shred.v
Drift.v
Restart.v
Float.v
Escape.v
Scan.v
Rocky.v
Bebop.v
Heat.v
Sensors.v
Members.v
Fugitoid.v
Metal.v
Burned.v
King.v
Rahzar.v
Sar.v
Platform.v
Turtlecom.v
