(* ===== verification/Prelude.v ===== *)
(** * MiuiserPeruser: a verification development

    MiuiserPeruser watches an Android phone from user space.  Sensor daemons
    run commands through a privileged shell, write what they see to JSON files
    and send signals; [gaveld] scores the sources of those signals, judges them
    and, with the user's consent, stops them; [splinterd] keeps them in the
    sewer database; [overlordd] correlates the files of the other daemons;
    [krangd] attributes network connections to apps; the front end [superhero]
    runs the detectors on demand; [April] is the library for detections, events
    and tables.  This development models the C code of those parts as executable
    definitions and proves what they promise.

    ** The program's parts and their files

    Every definition that models code carries the name it has in the source.

    Foundations:
    - [Prelude]: the state monad ([M S A] is [S -> A * S], the notation
      [x <- c; k] sequences), its lemmas and tactics, and [keeps R c], "the
      computation [c] respects the preorder [R]", with the tactic [keeps_tac]
      that proves it by a walk over a body.
    - [CString]: C strings and buffers, and the string functions of the C
      library that the code calls ([strncpy], [snprintf], [strtok], [fgets]...).
      [Conv]: [strtol], [atoi]; [Clock]: the calendar of [strftime], [strptime]
      and [mktime].
    - [Double]: IEEE double arithmetic (Stdlib's [SpecFloat] at precision 53),
      [strtod] and [printf] conversions, and a theory of correct rounding:
      [rounds] says a result is on the same side of every double as the exact
      value, from which monotonicity and bounds follow.  [Strtod]: every value
      a text conversion yields is a canonical double.
      [Float]: the same for binary32, with [strtof].
    - [Digits], [Numbers], [Lengths]: printed integers are read back, decimal and
      hexadecimal; integers below 2^53 are exact doubles; how long a printed
      number can be.

    gaveld ([src/gaveld/]), one file per C file:
    - [Config] (config.h), [Db] (db.c: the eight tables as lists of rows, one
      definition per access function, with its error branch), [Weights]
      (weights.c, mitre_map.c), [Tier] (tier.c);
    - [Ring]: the ring buffer that ingest.c and cases.c share, its
      specification as a bounded list, and the class [BoundedQueue] through
      which the rest uses it;
    - [World]: the records the threads exchange and the daemon's whole state
      (clock, database, files, backend, queues, pending consents, commands
      handed to [system()]);
    - [Ingest] (ingest.c, gaveld_emit.h), [Scorer] (scorer.c), [Cases]
      (cases.c), [Enforce] (enforce.c), [Emit] and [Verdict] (verdict.c),
      [Consent] (consent.c), [Decay] (decay.c), [Affairs] (audit.c);
    - [Gaveld] (gaveld.c): the socket commands, start-up, and the daemon as a
      transition system.  An [event] is a line arriving on the pipe, a socket
      message, a turn of one of the threads, a restart, a change of a file or
      of the database's health, or the passing of time; [steps] is the relation
      of its runs.

    splinterd and the sewer database ([src/core/]):
    - [Sewer] (sewer_db.c, scripts/init_sewer_db.sh): the tables, the record of
      an emission, transitions, the rollup and its notification;
    - [Splinter] (splinterd.c, daemon/splinter_protocol.h): senders, parser,
      connections.  [Sink] has the abstract specification they implement.

    The sensor daemons ([src/daemon/]):
    - [Backend] (backend_exec.c, local_exec.c): which privileged shell is used,
      the cache that the daemons share, quoting, one command, a batch;
    - [Nulld] and [Idle] (nulld.c): the result file, the polling loop;
    - [Granit] (granitord.c): kernel and boot posture, [Tiger] (tigerclawd.c):
      services, certificates and administrators against a baseline, [Shred]
      (shredderd.c): kernel modules against a baseline file; all with their
      checks, scores, alarms, result files and loops;
    - [Scan]: the loop that the scanning daemons share, with their settings,
      alarms and scores, and [Escape]: the JSON strings they write; over them
      [Rocky] (rocksteadyd.c): processor load, clusters and processes, [Bebop]
      (bebopd.c): wake locks and battery, [Heat] (leatherheadd.c): temperatures
      and throttling, [Fugitoid] (fugitoidd.c): the foreground app and the logs,
      [Metal] (metalheadd.c): registered sensors, [Burned] (burned.c): policy and
      privacy properties, [King] (ratkingd.c): processes against a learned
      baseline;
    - [Rahzar] (rahzerd.c, rahzerd.h): wifi, mobile, name resolution and ports
      against a baseline; [Turtlecom] (turtlecomd.c): the log bridge's singleton
      lock, its unix socket and its fallback to a port of the loopback;
    - [Krang] (krangd_net.c, krangd_uid.c, krangd.c): the parser of
      /proc/net/tcp6, the parser of the package manager's output, one poll;
    - [Overlord] (overlordd.c): JSON readers, sliding window, seventeen
      detectors, report.

    The front end and April:
    - [Dojo] (main_superhero.c, superhero/): consent gate, command line, scan
      cycle, loops, over [Leo] (core/detection/leo_detection.c: the tables of
      superhero.db, baseline, export, erasure) and [Turtles] (the nine other
      detectors of core/detection/, and the shell they use);
    - [April] (core/event/april_event.c, part of core/platform/april_common.c)
      and [Table] (core/april_table.c); [Platform] (core/platform/april_linux.c,
      the lists of april_common.c): processes and memory regions.
    - [Sar] (gdpr/sar_engine.c): inventory, export, purge and consent records of
      the subject access request engine, over a map from paths to files.

    Daemons of one file have their theorems in it, below the model; the remaining
    files prove properties of the others and of their composition.  The next
    section lists the theorems.

    ** What the theorems show

    - Consent ([Safety], [Consent], [Verdict]): along every run, commands other
      than a soft kill follow an approval of the user, and the source of none has a
      name in the list of own daemons of tier.c, nor does any word of the command
      when the source has only the characters of names; unanswered requests cause
      notifications only; an answer settles its request once, an approval is
      carried out by the next pass, and the 32 oldest requests survive a restart;
      the verdict machine refines a decision table
      and its ethical floors hold of every request it makes.
    - Scores ([Bounds], [Range], [Db]): scoring is monotone and bounded, decay
      forgets in exactly 42 silent ticks, a tick changes exactly the silent
      rows, and every stored score of every run is in [0, 100].
    - Transport ([Wire], [Lengths], [Queues]): what the daemons emit is what
      gaveld queues, record by record, and nothing within the limits is
      dropped; the queues are bounded FIFO lists.
    - The sink ([Splinter], [Sink]): splinterd reads back what a
      daemon sent, keeps exactly the counts and transitions of an abstract sink,
      its rows are typed, and its notification is one shell word.
    - Policy ([Policy]): the meaning of the sovereignty list, of enforcement,
      of a case and of the audit of the verdict rate.
    - Commands ([Batch], [Probe]): which commands arrive whole, that a batch
      gives each command its own output, that one probe serves all daemons.
    - Idle monitoring ([Idle], [Alarm]): every report of nulld is a function of
      the history of its readings; every alarm reaches gaveld's queue, where the
      one for sent data convicts nulld.
    - Posture ([Granit], [Disclosed]): every report of granitord says what the
      phone answered to the questions of that poll, compared with the numbers read
      at start; its score, diagnosis and text follow from that and the scores
      before, its alarms are those the reports call for, and the kernel's bit masks are written out exactly.
    - Integrity ([Claw], [Sections]): tigerclawd's reports stay
      within their arrays and scores in [0, 100], what is sent is what is
      reported, the parts of a combined command and the score are read back; and
      four theorems say where the comparison with the baseline fails.
    - Modules ([Drift], [Restart]): the drift of every report of
      shredderd is a function of the history of its counts, its score is
      explained by its reasons, and its baseline survives a restart.
    - Scans ([Rocky], [Sensors]): everything that
      rocksteadyd, bebopd and leatherheadd send and report over a run is, scan by
      scan, a function of what is read; clusters are ranked by frequency, a scan
      count ends the loop, no process is ever named; and what overlordd's thermal
      deception pattern decides on.
    - Texts and registers ([Fugitoid], [Metal], [Burned], with [Members] for
      texts among the members of a file): the app switches that fugitoidd reports
      are exactly the changes of the foreground app, metalheadd's alarms are the
      sensitive sensors but the first, burned sends each signal of its tables
      once per scan with the label of the first property that fires it, and overlordd reads their counts exactly.
    - Processes ([King]): the life of every process is counted right over any
      run, the baseline is well formed and frozen after twenty polls, a hog is
      one of the busiest processes; short-lived processes are never reported and
      memory pressure is never attributed.
    - Radios ([Rahzar]): every report of rahzerd is a function of the history of its
      snapshots, outages of name resolution are timed right, keys and port tables
      are read back, open ports are reported only inside a window, the sections
      of the probe file are never found, and a network can name its own address.
    - Log bridge ([Turtlecom]): a run leaves no socket behind, and the unix socket
      is taken back by the first retry that can.
    - Correlation ([Fleet], [Reports], [Screen]): a poll reports each pattern
      at most once and drops none, the window holds the last ten polls, number
      conversions stay in range, the threat level is monotone; integers cross
      from nulld to overlordd exactly, while the screen state never does.
    - Attribution ([Attribution]): the kernel's table is read exactly, a poll
      reports exactly the app connections it means to, and arbitrary text never
      overruns an array.
    - Front end ([Hero], [HeroData], [Sightings]): a scan needs consent (with --bg
      the files of the background process come before the question, an export and
      an erasure ask for none), the files of other processes are read, directly or
      by commands, only by a deep scan, findings
      are stored one by one in typed rows, the export can be read, what each
      erasure erases, and what single detectors do and do not notice.
    - Subject access ([Sar]): a purge erases exactly its category and only
      after DELETE was typed, what a purge of everything keeps, and that a revoked
      consent stops the next scan of the front end.
    - April ([Events]): the event queue's invariant, the end and the result of
      a dispatch whose callbacks push less than they get, that one whose callback
      pushes back what it got never ends, the order of pops, the growth of tables.  [Platform]: the
      lists of processes and of memory regions are exactly those printed.

    Some theorems state faults of the code exactly, so that a repair shows: a NaN
    weight erases a score, case identifiers of one millisecond collide, the
    screen field is never found, pops serve the least urgent detection first,
    a rollup drops a group, an uid is an inode, a changed file is not reported,
    an idle phone reads as an overloaded one,
    tigerclawd's baseline does not survive a restart, a failed poll reads as a
    purge, a failed read of the kernel's configuration is kept for ever, a process
    that lives for less than a poll is never seen, a network's name chooses its
    address, too many listeners are silent, a purge of everything keeps the
    databases.

    ** Bounds and fuel

    - [fgets_lines] takes the length of the text as fuel: every call consumes a
      character ([fgets_lines_fuel]); [lines_go], which splits a text into the
      lines of [strtok], does too.
    - [dispatch_loop] takes the number of its turns and says whether it ended by
      itself; for callbacks that push less than they get, by some measure, as many
      turns as the queue measures are enough ([dispatch_drains]), for others no
      number need be ([pushing_back_never_ends]).
    - [FORGET_TICKS] is 42 and exact.  [hex_of_pos] prints an unsigned int, so
      its 8 digits suffice.
    - A [SELECT] reads at most the rows its C caller has room for (512 scores,
      32 consents, 16 signals), as in the code.
    - Endless loops are their first [n] turns, for any [n] ([polls],
      [security_polls], [integrity_polls], [watch], [hero_turns], [accept_loop]
      over the connections, [scans] over the turns).
    - [hal_temps], [kill_maps] and [tokens] take the length of the text: every
      record, match or token consumes a character.

    ** What is not modelled

    - A handler or one thread turn is one atomic step, and the clock moves
      between steps, not inside one.  The interleaving of the scorer and the
      decay thread inside their read-modify-write of a score is left out.
    - SQLite is its tables: rows in rowid order, statements that succeed or,
      when the database cannot run them, fail.  Partial failures are left out.
    - Log lines, PID files (but for the two files that the front end leaves when it
      goes into the background), opening pipes and sockets, and the exit status of
      [system()] have no effect on the state and are left out, as is the failure
      of [malloc].
    - Signed overflow is undefined in C and not modelled: [int] counters and
      sums are integers.  Unsigned arithmetic wraps where the code uses it.
    - What a command prints is a parameter of [Turtles], [Backend], [Idle],
      [Granit], [Tiger] and [Shred], indexed by the number of commands run before;
      in the files over [Scan] a record holds what each scan reads, in [Bebop] with
      the bytes that its line buffer holds behind the end of a line;
      [Krang] takes its answers the same way from [bexec].  [inet_ntop] is a
      parameter, and so is [qsort] of [King], whose order among equal elements
      the C library does not promise (class [QSort], with its two laws).  A callback of April is a name and what it
      pushes for each detection; a dispatch is the trace of the calls.
    - The answers of system calls ([bind], [flock], [select], [opendir], the files
      of /proc) are parameters of [Turtlecom], [Platform] and [Sar]; the dump script that rahzerd
      forks is a parameter, as is the text it leaves.
    - The logging of April, its printing of capabilities, the set-up that daemons
      share, the toolkit, SQLite's own source, scripts and the Java helper are not
      modelled. *)

From stdpp Require Export base numbers list gmap strings.
From Stdlib Require Export ZArith Lia.

#[global] Open Scope Z_scope.

(** ** The state monad

    The daemons are C programs whose functions read and write process globals,
    database tables and files.  A function of the code becomes a computation
    [M S A]: it takes the state before the call and returns its result with the
    state after it.  stdpp's notation [x ← c; k] sequences them. *)

Definition M (S A : Type) : Type := S → A * S.

Global Instance M_ret {S} : MRet (M S) := λ A a s, (a, s).

Global Instance M_bind {S} : MBind (M S) :=
  λ A B k c s, let '(a, s') := c s in k a s'.

(** Read a component of the state. *)
Definition gets {S A} (f : S → A) : M S A := λ s, (f s, s).

(** Change the state; the C counterpart returns [void]. *)
Definition modify {S} (f : S → S) : M S unit := λ s, (tt, f s).

(** A statement guarded by a condition: [if (b) c;]. *)
Definition mwhen {S} (b : bool) (c : M S unit) : M S unit :=
  if b then c else mret tt.

(** [for] over the elements of a list, in order. *)
Fixpoint mfor {S A} (l : list A) (body : A → M S unit) : M S unit :=
  match l with
  | [] => mret tt
  | a :: l' => _ ← body a; mfor l' body
  end.

(** The state after a computation, and its result. *)
Definition exec {S A} (c : M S A) (s : S) : S := (c s).2.

Definition result {S A} (c : M S A) (s : S) : A := (c s).1.

(** ** Automation *)

Create HintDb mp discriminated.
Create Rewrite HintDb monad.

(** Expose the plumbing of the monad. *)
Ltac unmonad :=
  unfold mbind, mret, M_bind, M_ret, gets, modify, mwhen, exec, result in *.

(** Split the innermost test of a computation, keeping the equation. *)
Ltac split_match :=
  match goal with
  | |- context [match ?x with _ => _ end] =>
      lazymatch x with
      | context [match _ with _ => _ end] => fail
      | _ => destruct x eqn:?
      end
  end.

(** Turn boolean tests in hypotheses into propositions. *)
Ltac bool_hyps :=
  repeat match goal with
  | H : (_ && _)%bool = true |- _ => apply andb_prop in H as [? ?]
  | H : (_ || _)%bool = false |- _ => apply orb_false_elim in H as [? ?]
  | H : negb _ = true |- _ => apply negb_true_iff in H
  | H : negb _ = false |- _ => apply negb_false_iff in H
  | H : String.eqb _ _ = true |- _ => apply String.eqb_eq in H
  | H : String.eqb _ _ = false |- _ => apply String.eqb_neq in H
  | H : (_ <? _)%Z = true |- _ => apply Z.ltb_lt in H
  | H : (_ <? _)%Z = false |- _ => apply Z.ltb_ge in H
  | H : (_ <=? _)%Z = true |- _ => apply Z.leb_le in H
  | H : (_ <=? _)%Z = false |- _ => apply Z.leb_gt in H
  | H : (_ =? _)%Z = true |- _ => apply Z.eqb_eq in H
  | H : (_ =? _)%Z = false |- _ => apply Z.eqb_neq in H
  end.

(** ** Generic lemmas *)

Section monad_lemmas.
Context {S : Type}.

Lemma exec_bind {A B} (c : M S A) (k : A → M S B) s :
  exec (c ≫= k) s = exec (k (result c s)) (exec c s).
Proof. unmonad. by destruct (c s). Qed.

Lemma result_bind {A B} (c : M S A) (k : A → M S B) s :
  result (c ≫= k) s = result (k (result c s)) (exec c s).
Proof. unmonad. by destruct (c s). Qed.

Lemma exec_mret {A} (a : A) (s : S) : exec (mret a) s = s.
Proof. done. Qed.

Lemma result_mret {A} (a : A) (s : S) : result (mret a) s = a.
Proof. done. Qed.

Lemma exec_gets {A} (f : S → A) s : exec (gets f) s = s.
Proof. done. Qed.

Lemma result_gets {A} (f : S → A) s : result (gets f) s = f s.
Proof. done. Qed.

Lemma exec_modify (f : S → S) s : exec (modify f) s = f s.
Proof. done. Qed.

Lemma exec_mwhen (b : bool) (c : M S unit) s :
  exec (mwhen b c) s = if b then exec c s else s.
Proof. by destruct b. Qed.

(** A property kept by every iteration is kept by the loop. *)
Lemma mfor_preserves {A} (P : S → Prop) (l : list A) (body : A → M S unit) s :
  (∀ a s', a ∈ l → P s' → P (exec (body a) s')) →
  P s → P (exec (mfor l body) s).
Proof.
  revert s. induction l as [|a l IH]; intros s Hbody Hs; [done|].
  cbn [mfor]. rewrite exec_bind. apply IH.
  - intros a' s' Ha'. apply Hbody. by right.
  - apply Hbody; [by left | done].
Qed.

End monad_lemmas.

#[export] Hint Rewrite @exec_bind @result_bind @exec_mret @result_mret
  @exec_gets @result_gets @exec_modify @exec_mwhen : monad.

Lemma mfor_map {S A B} (f : A → B) (l : list A) (body : B → M S unit) :
  mfor (map f l) body = mfor l (λ a, body (f a)).
Proof. induction l as [|a l IH]; [done|]. cbn [map mfor]. by rewrite IH. Qed.

(** A relation between the states before and after that is a preorder and that
    every iteration respects is respected by the loop. *)
Lemma mfor_relates {S A} (R : S → S → Prop) `{!PreOrder R} (l : list A)
    (body : A → M S unit) s :
  (∀ a s', a ∈ l → R s' (exec (body a) s')) → R s (exec (mfor l body) s).
Proof.
  intros Hbody. apply (mfor_preserves (R s)); [|reflexivity].
  intros a s' Ha HR. etrans; [exact HR | by apply Hbody].
Qed.

(** ** Computations that respect a relation

    [keeps R c]: the state after [c] is related by [R] to the state before it.
    For a preorder [R] the constructs of the monad preserve it, so a function of
    the code respects [R] as soon as its primitive operations do; the tactic
    [keeps_tac] does that walk over a body. *)

Definition keeps {S A} (R : S → S → Prop) (c : M S A) : Prop := ∀ s, R s (exec c s).

(** A property that a computation does not destroy. *)
Abbreviation preserves I c := (keeps (λ s s', I s → I s') c).

Global Instance implies_preorder {S} (I : S → Prop) : PreOrder (λ s s', I s → I s').
Proof. split; red; auto. Qed.

(** A computation that leaves a part of the state alone. *)
Global Instance same_preorder {S T} (f : S → T) : PreOrder (λ s s', f s' = f s).
Proof. split; red; congruence. Qed.

Section keeps_lemmas.
Context {S : Type} (R : S → S → Prop) `{!PreOrder R}.

Lemma keeps_mret {A} (a : A) : keeps R (mret a).
Proof. intros s. rewrite exec_mret. reflexivity. Qed.

Lemma keeps_gets {A} (f : S → A) : keeps R (gets f).
Proof. intros s. rewrite exec_gets. reflexivity. Qed.

Lemma keeps_bind {A B} (c : M S A) (k : A → M S B) :
  keeps R c → (∀ a, keeps R (k a)) → keeps R (c ≫= k).
Proof. intros Hc Hk s. rewrite exec_bind. etrans; [apply Hc | apply Hk]. Qed.

Lemma keeps_mwhen (b : bool) (c : M S unit) : keeps R c → keeps R (mwhen b c).
Proof. intros Hc s. rewrite exec_mwhen. destruct b; [apply Hc | reflexivity]. Qed.

Lemma keeps_mfor {A} (l : list A) (body : A → M S unit) :
  (∀ a, keeps R (body a)) → keeps R (mfor l body).
Proof. intros Hb s. apply (mfor_relates R). intros a s' _. apply Hb. Qed.

End keeps_lemmas.

#[export] Hint Resolve keeps_mret keeps_gets keeps_bind keeps_mwhen keeps_mfor : mp.

(** Walk over a body: binds, loops and tests; the [mp] database has the
    primitive operations. *)
Ltac keeps_step :=
  lazymatch goal with
  | |- ∀ _, _ => intro
  | |- keeps _ (_ ≫= _) => apply keeps_bind; [apply _ | |]
  | |- keeps _ (mwhen _ _) => apply keeps_mwhen; [apply _ |]
  | |- keeps _ (mfor _ _) => apply keeps_mfor; [apply _ |]
  | |- keeps _ (mret _) => apply keeps_mret; apply _
  | |- keeps _ (gets _) => apply keeps_gets; apply _
  | |- keeps _ (match ?x with _ => _ end) => destruct x eqn:?
  end.

Ltac keeps_tac := repeat first [ solve [auto with mp typeclass_instances] | keeps_step ].

(** ** Results and states together

    [returns P c]: whatever the state, the result of [c] satisfies [P].
    [triple P c Q]: from a state with [P], [c] ends with a result and a state that
    satisfy [Q]. *)

Definition returns {S A} (P : A → Prop) (c : M S A) : Prop := ∀ s, P (result c s).

Definition triple {S A} (P : S → Prop) (c : M S A) (Q : A → S → Prop) : Prop :=
  ∀ s, P s → Q (result c s) (exec c s).

Section triple_lemmas.
Context {S : Type}.

Lemma returns_bind {A B} (Q : A → Prop) (P : B → Prop) (c : M S A) (k : A → M S B) :
  returns Q c → (∀ a, Q a → returns P (k a)) → returns P (c ≫= k).
Proof. intros Hc Hk s. rewrite result_bind. by apply Hk. Qed.

Lemma returns_any {A B} (P : B → Prop) (c : M S A) (k : A → M S B) :
  (∀ a, returns P (k a)) → returns P (c ≫= k).
Proof. intros Hk. apply (returns_bind (λ _, True)); [done|auto]. Qed.

Lemma returns_mret {A} (P : A → Prop) (a : A) : P a → returns (S:=S) P (mret a).
Proof. by intros H s. Qed.

Lemma triple_bind {A B} (P : S → Prop) (Q : A → S → Prop) (R : B → S → Prop) (c : M S A) (k : A → M S B) :
  triple P c Q → (∀ a, triple (Q a) (k a) R) → triple P (c ≫= k) R.
Proof. intros Hc Hk s Hs. rewrite result_bind, exec_bind. by apply Hk, Hc. Qed.

(** The step of a body that keeps an invariant: the invariant says something of
    its result and is still there. *)
Lemma triple_step {A B} (I : S → Prop) (Q : A → Prop) (R : B → S → Prop) (c : M S A) (k : A → M S B) :
  preserves I c → (∀ s, I s → Q (result c s)) → (∀ a, Q a → triple I (k a) R) → triple I (c ≫= k) R.
Proof. intros HI HQ Hk s Hs. rewrite result_bind, exec_bind. apply Hk; [by apply HQ|by apply HI]. Qed.

Lemma triple_skip {A B} (I : S → Prop) (R : B → S → Prop) (c : M S A) (k : A → M S B) :
  preserves I c → (∀ a, triple I (k a) R) → triple I (c ≫= k) R.
Proof. intros HI Hk. apply (triple_step I (λ _, True)); [done|done|auto]. Qed.

Lemma triple_preserves {A} (I : S → Prop) (c : M S A) : triple I c (λ _, I) → preserves I c.
Proof. intros H s. apply H. Qed.

End triple_lemmas.

Section list_lemmas.
Context {A : Type}.

Lemma take_app_exact (l1 l2 : list A) n : n = length l1 → take n (l1 ++ l2) = l1.
Proof. intros ->. apply take_app_length. Qed.

Lemma Forall_take (P : A → Prop) n (l : list A) : Forall P l → Forall P (take n l).
Proof. intros H. revert n. induction H; intros [|n]; simpl; auto. Qed.

End list_lemmas.

#[export] Hint Resolve Forall_take : mp.
