(* ===== verification/CString.v ===== *)
(** * C strings

    The string functions of the C library the daemons call, on Rocq strings of
    bytes.  A C string is the bytes before its terminator, so a [char[n]] buffer
    that starts zeroed and receives [strncpy(buf, s, n - 1)] holds
    [strncpy n s], and [snprintf(buf, n, ...)] leaves [snprintf n text].
    Bytes outside ASCII (the em dash of the log and notification texts) are the
    bytes of their UTF-8 encoding, as in the object file. *)

From S2P Require Import Prelude.
From Stdlib Require Import DecimalString Ascii.

(** ** Characters *)

Definition chr (n : nat) : ascii := ascii_of_nat n.
Definition NL : ascii := chr 10.
Definition NLs : string := String NL "".
Definition QUOTE : string := String (chr 34) "".
Definition code (c : ascii) : Z := Z.of_nat (nat_of_ascii c).

Definition char_in (set : string) (c : ascii) : bool :=
  (fix go s := match s with
   | EmptyString => false
   | String d s' => Ascii.eqb c d || go s'
   end) set.

Definition is_digit (c : ascii) : bool := (48 <=? code c) && (code c <=? 57).

(** [isspace] in the C locale. *)
Definition is_space (c : ascii) : bool :=
  (code c =? 32) || ((9 <=? code c) && (code c <=? 13)).

(** ** Prefixes, suffixes and buffers *)

Fixpoint stake (n : nat) (s : string) : string :=
  match n, s with
  | S n', String c s' => String c (stake n' s')
  | _, _ => EmptyString
  end.

Fixpoint sdrop (n : nat) (s : string) : string :=
  match n, s with
  | S n', String _ s' => sdrop n' s'
  | _, _ => s
  end.

(** [strncpy(buf, s, size - 1)] into a zeroed [char buf[size]]. *)
Definition strncpy (size : nat) (s : string) : string := stake (size - 1) s.

(** The text [snprintf(buf, size, ...)] leaves in [buf]. *)
Definition snprintf (size : nat) (text : string) : string := stake (size - 1) text.

(** [strncat(buf, s, sizeof(buf) - strlen(buf) - 1)]. *)
Definition strncat (size : nat) (buf s : string) : string :=
  buf +:+ stake (size - String.length buf - 1) s.

(** [strncmp(s, p, strlen(p)) == 0]. *)
Fixpoint has_prefix (p s : string) : bool :=
  match p, s with
  | EmptyString, _ => true
  | String a p', String b s' => Ascii.eqb a b && has_prefix p' s'
  | String _ _, EmptyString => false
  end.

(** Split at the first character that satisfies [f]. *)
Fixpoint break_at (f : ascii → bool) (s : string) : string * string :=
  match s with
  | EmptyString => (EmptyString, EmptyString)
  | String c s' =>
      if f c then (EmptyString, s)
      else let '(a, b) := break_at f s' in (String c a, b)
  end.

Fixpoint skip_while (f : ascii → bool) (s : string) : string :=
  match s with
  | String c s' => if f c then skip_while f s' else s
  | EmptyString => EmptyString
  end.

(** [char *nl = strchr(s, c); if (nl) *nl = 0;] *)
Definition cut_at (c : ascii) (s : string) : string := (break_at (Ascii.eqb c) s).1.

(** [strchr(s, c)]: the suffix that starts at the first [c]. *)
Definition strchr (c : ascii) (s : string) : option string :=
  match (break_at (Ascii.eqb c) s).2 with
  | EmptyString => None
  | r => Some r
  end.

(** [strrchr(s, c)], as the suffix that follows the last [c]. *)
Fixpoint after_last (c : ascii) (s : string) : option string :=
  match s with
  | EmptyString => None
  | String d s' =>
      match after_last c s' with
      | Some r => Some r
      | None => if Ascii.eqb c d then Some s' else None
      end
  end.

(** [strstr(hay, needle)]: the suffix that starts at the first match. *)
Fixpoint strstr (hay needle : string) : option string :=
  if has_prefix needle hay then Some hay
  else match hay with
       | EmptyString => None
       | String _ hay' => strstr hay' needle
       end.

Definition contains (hay needle : string) : bool :=
  match strstr hay needle with Some _ => true | None => false end.

(** [x && strlen(x) > n]. *)
Definition longer (n : nat) (s : string) : bool := (n <? String.length s)%nat.

Definition NUL : ascii := chr 0.

(** The C string at the start of a buffer. *)
Definition c_str (s : string) : string := cut_at NUL s.

(** [c == '\n' || c == '\r']. *)
Definition is_line_end (c : ascii) : bool := Ascii.eqb c NL || Ascii.eqb c (chr 13).

(** Remove trailing characters that satisfy [f]. *)
Fixpoint trim_end (f : ascii → bool) (s : string) : string :=
  match s with
  | EmptyString => EmptyString
  | String c s' =>
      match trim_end f s' with
      | EmptyString => if f c then EmptyString else String c EmptyString
      | t => String c t
      end
  end.

(** [strtok] on the text that is left: skip delimiters, return the token and
    what follows the delimiter that ends it.  [None] is the NULL result, after
    which the saved position stays at the end. *)
Definition strtok (delims : string) (s : string) : option (string * string) :=
  match skip_while (char_in delims) s with
  | EmptyString => None
  | s' => let '(tok, r) := break_at (char_in delims) s' in Some (tok, sdrop 1 r)
  end.

(** One [strtok] call in a row of calls: the token and the text left. *)
Definition strtok_next (delims : string) (s : string) : option string * string :=
  match strtok delims s with
  | Some (tok, r) => (Some tok, r)
  | None => (None, EmptyString)
  end.

(** [buf[strcspn(buf, "\n")] = 0]. *)
Definition first_line (s : string) : string := cut_at NL s.

(** Every token of [strtok(.., "\n")]: the nonempty lines. *)
Fixpoint lines_go (fuel : nat) (s : string) : list string :=
  match fuel with
  | O => []
  | S fuel' =>
      match strtok NLs s with
      | Some (tok, rest) => tok :: lines_go fuel' rest
      | None => []
      end
  end.

Definition token_lines (s : string) : list string := lines_go (String.length s) s.

(** [fgets(line, size, fp)] on the text left in the stream. *)
Fixpoint fgets_go (n : nat) (s : string) : string * string :=
  match n, s with
  | S n', String c s' =>
      if Ascii.eqb c NL then (String c EmptyString, s')
      else let '(l, r) := fgets_go n' s' in (String c l, r)
  | _, _ => (EmptyString, s)
  end.

Definition fgets (size : nat) (s : string) : option (string * string) :=
  match s with
  | EmptyString => None
  | _ => Some (fgets_go (size - 1) s)
  end.

(** Every line [fgets] returns, with the size of the buffer; each call consumes
    at least one character when the buffer has room for one. *)
Fixpoint fgets_lines (fuel size : nat) (s : string) : list string :=
  match fuel with
  | O => []
  | S fuel' =>
      match fgets size s with
      | None => []
      | Some (l, r) => l :: fgets_lines fuel' size r
      end
  end.

Definition read_lines (size : nat) (s : string) : list string :=
  fgets_lines (String.length s) size s.

(** The concatenation of pieces, as a format string interleaves them. *)
Fixpoint scat (l : list string) : string :=
  match l with [] => EmptyString | s :: l' => s +:+ scat l' end.

Definition slen (s : string) : Z := Z.of_nat (String.length s).

(** Double quotes in the fixed text, written with single ones. *)
Definition dq (s : string) : string :=
  (fix go s := match s with
   | EmptyString => EmptyString
   | String c s' => String (if Ascii.eqb c "'" then chr 34 else c) (go s')
   end) s.

Definition BACKSLASH : ascii := chr 92.

(** ** Integers *)

(** [%d], [%ld] and [%u]. *)
Definition fmt_d (z : Z) : string := NilZero.string_of_int (Z.to_int z).

Definition wrap_u64 (z : Z) : Z := z mod 2 ^ 64.

(** ** Lemmas *)

Lemma length_stake n s : String.length (stake n s) = Nat.min n (String.length s).
Proof. revert s. induction n as [|n IH]; intros [|c s]; simpl; auto. Qed.

Lemma stake_all n s : (String.length s ≤ n)%nat → stake n s = s.
Proof.
  revert s. induction n as [|n IH]; intros [|c s]; simpl; intros H; auto; [lia|].
  f_equal. apply IH. lia.
Qed.

Lemma stake_stake n m s : stake n (stake m s) = stake (Nat.min n m) s.
Proof.
  revert m s. induction n as [|n IH]; intros [|m] [|c s]; simpl; auto. f_equal. apply IH.
Qed.

Lemma length_strncpy size s : (String.length (strncpy size s) ≤ size - 1)%nat.
Proof. unfold strncpy. rewrite length_stake. lia. Qed.

Lemma strncpy_id size s : (String.length s < size)%nat → strncpy size s = s.
Proof. intros H. apply stake_all. lia. Qed.

Lemma strncpy_idemp size s : strncpy size (strncpy size s) = strncpy size s.
Proof. unfold strncpy. rewrite stake_stake. f_equal. lia. Qed.

Lemma snprintf_id size s : (String.length s < size)%nat → snprintf size s = s.
Proof. apply strncpy_id. Qed.

Lemma length_app_str s1 s2 :
  String.length (s1 +:+ s2) = (String.length s1 + String.length s2)%nat.
Proof. induction s1; simpl; auto. Qed.

Lemma app_assoc_str s1 s2 s3 : (s1 +:+ s2) +:+ s3 = s1 +:+ s2 +:+ s3.
Proof. induction s1; simpl; auto. unfold String.app in *. simpl. by rewrite IHs1. Qed.

Lemma app_nil_r_str s : s +:+ "" = s.
Proof. induction s; auto. unfold String.app in *; simpl. by rewrite IHs. Qed.

Lemma app_cons_str c s t : String c s +:+ t = String c (s +:+ t).
Proof. done. Qed.

Lemma has_prefix_app p s : has_prefix p (p +:+ s) = true.
Proof.
  induction p as [|c p IH]; [done|]. rewrite app_cons_str. cbn [has_prefix].
  by rewrite Ascii.eqb_refl.
Qed.

(** Characters of a string. *)
Fixpoint schars (s : string) : list ascii :=
  match s with EmptyString => [] | String c s' => c :: schars s' end.

(** No character of [s] satisfies [f]. *)
Definition none_of (f : ascii → bool) (s : string) : bool :=
  forallb (λ c, negb (f c)) (schars s).

Lemma none_of_cons f c s : none_of f (String c s) = negb (f c) && none_of f s.
Proof. done. Qed.

Lemma none_of_weaken (f g : ascii → bool) s :
  (∀ c, g c = true → f c = true) → none_of f s = true → none_of g s = true.
Proof.
  intros Hfg. unfold none_of. rewrite !forallb_forall. intros Hs c Hc.
  specialize (Hs c Hc). destruct (g c) eqn:Hg; [|done]. apply Hfg in Hg. by rewrite Hg in Hs.
Qed.

(** A stop character after text free of stop characters is where the text is
    split. *)
Lemma break_at_stop f s c t :
  none_of f s = true → f c = true → break_at f (s +:+ String c t) = (s, String c t).
Proof.
  intros Hs Hc. induction s as [|a s IH].
  { change ("" +:+ String c t) with (String c t). cbn [break_at]. by rewrite Hc. }
  rewrite none_of_cons in Hs. apply andb_prop in Hs as [Ha Hs].
  rewrite app_cons_str. cbn [break_at]. apply negb_true_iff in Ha. by rewrite Ha, IH.
Qed.

Lemma break_at_none f s : none_of f s = true → break_at f s = (s, "").
Proof.
  induction s as [|a s IH]; [done|]. rewrite none_of_cons. intros Hs.
  apply andb_prop in Hs as [Ha Hs]. cbn [break_at]. apply negb_true_iff in Ha.
  by rewrite Ha, IH.
Qed.

Lemma c_str_id s : none_of (Ascii.eqb NUL) s = true → c_str s = s.
Proof. intros Hs. unfold c_str, cut_at. by rewrite break_at_none. Qed.

Lemma skip_while_none f c s : f c = false → skip_while f (String c s) = String c s.
Proof. intros H. cbn. by rewrite H. Qed.

(** The token before a delimiter. *)
Lemma strtok_token d tok c t :
  tok ≠ "" → none_of (char_in d) tok = true → char_in d c = true →
  strtok d (tok +:+ String c t) = Some (tok, t).
Proof.
  intros Hne Htok Hc. unfold strtok. destruct tok as [|a tok]; [done|].
  pose proof Htok as Ha. rewrite none_of_cons in Ha. apply andb_prop in Ha as [Ha _].
  apply negb_true_iff in Ha. rewrite app_cons_str, skip_while_none by done.
  rewrite <- app_cons_str. rewrite break_at_stop by done. done.
Qed.

(** The last token, with no delimiter after it. *)
Lemma strtok_last d tok :
  tok ≠ "" → none_of (char_in d) tok = true → strtok d tok = Some (tok, "").
Proof.
  intros Hne Htok. unfold strtok. destruct tok as [|a tok]; [done|].
  pose proof Htok as Ha. rewrite none_of_cons in Ha. apply andb_prop in Ha as [Ha _].
  apply negb_true_iff in Ha. rewrite skip_while_none by done.
  by rewrite break_at_none.
Qed.

Lemma strtok_delims d s : skip_while (char_in d) s = "" → strtok d s = None.
Proof. unfold strtok. by intros ->. Qed.

Lemma schars_app s t : schars (s +:+ t) = schars s ++ schars t.
Proof. induction s as [|c s IH]; [done|]. rewrite app_cons_str. cbn [schars]. by rewrite IH. Qed.

Lemma none_of_app f s t : none_of f (s +:+ t) = none_of f s && none_of f t.
Proof. unfold none_of. by rewrite schars_app, forallb_app. Qed.

Lemma trim_end_stop f s c t :
  f c = false → trim_end f (s +:+ String c t) = s +:+ trim_end f (String c t).
Proof.
  intros Hc. assert (∃ a b, trim_end f (String c t) = String a b) as (a & b & Hab).
  { cbn [trim_end]. destruct (trim_end f t); [rewrite Hc|]; eauto. }
  induction s as [|x s IH]; [done|]. rewrite !app_cons_str. cbn [trim_end] in *.
  rewrite IH, Hab. destruct s; rewrite ?app_cons_str; done.
Qed.

Lemma sdrop_app s t : sdrop (String.length s) (s +:+ t) = t.
Proof. induction s as [|c s IH]; [by destruct t|]. rewrite app_cons_str. apply IH. Qed.

Lemma app_nil_l_str s : "" +:+ s = s.
Proof. done. Qed.

Lemma stake_app n s t :
  stake n (s +:+ t) = stake n s +:+ stake (n - String.length s) t.
Proof.
  revert n. induction s as [|c s IH]; intros n.
  - rewrite !app_nil_l_str. destruct n; [done|]. cbn [stake String.length]. by rewrite Nat.sub_0_r.
  - rewrite app_cons_str. destruct n as [|n]; [by destruct t|].
    cbn [stake String.length Nat.sub]. by rewrite IH, app_cons_str.
Qed.

Lemma stake_app_all s t : stake (String.length s) (s +:+ t) = s.
Proof. rewrite stake_app, stake_all, Nat.sub_diag by lia. by destruct t; rewrite app_nil_r_str. Qed.

Lemma none_of_stake f n s : none_of f s = true → none_of f (stake n s) = true.
Proof.
  revert n. induction s as [|c s IH]; intros [|n]; [done..|]. cbn [stake].
  rewrite !none_of_cons. intros [-> Hs]%andb_prop. by apply IH.
Qed.

(** Text whose last character stays keeps its end. *)
Lemma trim_end_none f s : none_of f s = true → trim_end f s = s.
Proof.
  induction s as [|c s IH]; [done|]. rewrite none_of_cons. intros [Hc%negb_true_iff Hs]%andb_prop.
  cbn [trim_end]. rewrite IH by done. destruct s; [by rewrite Hc|done].
Qed.

Lemma trim_end_app f s t :
  t ≠ "" → none_of f t = true → trim_end f (s +:+ t) = s +:+ t.
Proof.
  destruct t as [|c t]; [done|]. intros _ Ht. pose proof Ht as Hc. rewrite none_of_cons in Hc.
  apply andb_prop in Hc as [Hc%negb_true_iff _].
  by rewrite trim_end_stop, trim_end_none.
Qed.

Lemma break_at_prefix f s : none_of f (break_at f s).1 = true.
Proof.
  induction s as [|c s IH]; [done|]. cbn [break_at]. destruct (f c) eqn:Hc; [done|].
  destruct (break_at f s) as [a b]. cbn [fst] in *. by rewrite none_of_cons, Hc.
Qed.

Lemma break_at_app f s : s = (break_at f s).1 +:+ (break_at f s).2.
Proof.
  induction s as [|c s IH]; [done|]. cbn [break_at]. destruct (f c); [done|].
  destruct (break_at f s) as [a b]. cbn [fst snd] in *. by rewrite app_cons_str, <- IH.
Qed.

Lemma none_of_suffix f s t : none_of f (s +:+ t) = true → none_of f t = true.
Proof. rewrite none_of_app. by intros [_ ?]%andb_prop. Qed.

Lemma skip_while_suffix f s : ∃ p, s = p +:+ skip_while f s.
Proof.
  induction s as [|c s [p Hp]]; [by exists ""|]. cbn [skip_while].
  destruct (f c); [|by exists ""]. exists (String c p). by rewrite app_cons_str, <- Hp.
Qed.

Lemma sdrop_suffix n s : ∃ p, s = p +:+ sdrop n s.
Proof.
  revert s. induction n as [|n IH]; intros s; [by exists ""|]. destruct s as [|c s]; [by exists ""|].
  destruct (IH s) as [p Hp]. exists (String c p). cbn [sdrop]. by rewrite app_cons_str, <- Hp.
Qed.

(** A token and the rest hold only characters of the text, and the token no
    delimiter. *)
Lemma strtok_none g d s tok rest :
  none_of g s = true → strtok d s = Some (tok, rest) →
  none_of g tok = true ∧ none_of g rest = true ∧ none_of (char_in d) tok = true.
Proof.
  intros Hs. unfold strtok. destruct (skip_while_suffix (char_in d) s) as [p Hp].
  destruct (skip_while (char_in d) s) as [|c t] eqn:Ht; [done|].
  pose proof (break_at_app (char_in d) (String c t)) as Happ.
  pose proof (break_at_prefix (char_in d) (String c t)) as Hpre.
  destruct (break_at (char_in d) (String c t)) as [a r]. cbn [fst snd] in *. intros [= <- <-].
  rewrite Hp in Hs. apply none_of_suffix in Hs. rewrite Happ in Hs. pose proof Hs as Hr.
  apply none_of_suffix in Hr. rewrite none_of_app in Hs. apply andb_prop in Hs as [Ha _].
  split_and!; [done| |done]. destruct (sdrop_suffix 1 r) as [q Hq]. rewrite Hq in Hr.
  by apply none_of_suffix in Hr.
Qed.

Lemma trim_end_none_of g f s : none_of g s = true → none_of g (trim_end f s) = true.
Proof.
  induction s as [|c s IH]; [done|]. rewrite none_of_cons. intros [Hc Hs]%andb_prop.
  cbn [trim_end]. specialize (IH Hs). destruct (trim_end f s).
  - destruct (f c); [done|]. by rewrite none_of_cons, Hc.
  - by rewrite none_of_cons, Hc.
Qed.

Create Rewrite HintDb cstr.
#[export] Hint Rewrite app_nil_r_str app_assoc_str length_app_str length_stake : cstr.

(** Buffers stay folded in simplifications. *)
#[global] Arguments strncpy : simpl never.
#[global] Arguments snprintf : simpl never.

(** ** Searching in longer texts *)

Lemma stake_sdrop n : ∀ s, stake n s +:+ sdrop n s = s.
Proof. induction n as [|n IH]; intros [|c s]; cbn [stake sdrop]; try done. by rewrite app_cons_str, IH. Qed.

Lemma has_prefix_split n : ∀ s, has_prefix n s = true → ∃ r, s = n +:+ r.
Proof.
  induction n as [|c n IH]; intros s Hs; [by exists s|]. destruct s as [|d s]; [done|]. cbn [has_prefix] in Hs.
  apply andb_prop in Hs as [<-%Ascii.eqb_eq Hs]. apply IH in Hs as [r ->]. by exists r.
Qed.

Lemma has_prefix_more n : ∀ p q, has_prefix n p = true → has_prefix n (p +:+ q) = true.
Proof.
  induction n as [|c n IH]; intros p q; [by destruct (p +:+ q)|]. destruct p as [|d p]; [done|].
  rewrite app_cons_str. cbn [has_prefix]. intros [-> H]%andb_prop. by apply IH.
Qed.

(** What is not in a text is not in its beginning. *)
Lemma strstr_prefix p q n : n ≠ "" → strstr (p +:+ q) n = None → strstr p n = None.
Proof.
  intros Hn. induction p as [|c p IH]; [by destruct n|]. rewrite app_cons_str. cbn [strstr].
  destruct (has_prefix n (String c p)) eqn:Hp; [|split_match; [done|exact IH]].
  apply (has_prefix_more _ _ q) in Hp. rewrite app_cons_str in Hp. by rewrite Hp.
Qed.

Lemma has_prefix_less n : ∀ p q,
  has_prefix n (p +:+ q) = true → (String.length n ≤ String.length p)%nat → has_prefix n p = true.
Proof.
  induction n as [|c n IH]; intros p q; [by destruct p|]. destruct p as [|d p]; cbn [String.length]; [lia|].
  rewrite app_cons_str. cbn [has_prefix]. intros [-> H]%andb_prop Hl. apply (IH p q H). lia.
Qed.

Lemma has_prefix_length n : ∀ p, has_prefix n p = true → (String.length n ≤ String.length p)%nat.
Proof.
  induction n as [|c n IH]; intros [|d p]; cbn [has_prefix String.length]; try done; [lia..|].
  intros [_ H%IH]%andb_prop. lia.
Qed.

Lemma strstr_skip c n p t : none_of (Ascii.eqb c) p = true → strstr (p +:+ t) (String c n) = strstr t (String c n).
Proof.
  induction p as [|d p IH]; [done|]. rewrite none_of_cons, app_cons_str. intros [Hc%negb_true_iff Hp]%andb_prop.
  cbn [strstr has_prefix]. rewrite Hc. by apply IH.
Qed.

Lemma contains_stake k s n : n ≠ "" → contains s n = false → contains (stake k s) n = false.
Proof.
  intros Hn. unfold contains. destruct (strstr s n) eqn:E; [done|]. intros _.
  rewrite <-(stake_sdrop k s) in E. by rewrite (strstr_prefix _ _ _ Hn E).
Qed.

Lemma strstr_length n : ∀ p x, strstr p n = Some x → (String.length n ≤ String.length p)%nat.
Proof.
  induction p as [|c p IH]; intros x; cbn [strstr]; split_match; intros [= <-] || intros Hx; try done.
  - by apply has_prefix_length.
  - by apply has_prefix_length.
  - apply IH in Hx. cbn. lia.
Qed.

(** A text that was found is found at the same place of a longer one. *)
Lemma strstr_app p q n x : n ≠ "" → strstr p n = Some x → strstr (p +:+ q) n = Some (x +:+ q).
Proof.
  intros Hn. induction p as [|c p IH]; [by destruct n|]. rewrite app_cons_str. cbn [strstr].
  destruct (has_prefix n (String c p)) eqn:Hp.
  - intros [= <-]. apply (has_prefix_more _ _ q) in Hp. rewrite app_cons_str in *. by rewrite Hp.
  - intros Hx. destruct (has_prefix n (String c (p +:+ q))) eqn:Hp'; [|by apply IH].
    exfalso. apply strstr_length in Hx. rewrite <-app_cons_str in Hp'.
    apply has_prefix_less in Hp'; [congruence|cbn; lia].
Qed.
