(* ===== verification/Double.v ===== *)
(** * Binary64 numbers

    [double] of the C code is the IEEE-754 binary64 format of the Standard
    Library's executable specification [SpecFloat], rounding to nearest even.
    The file gives the operations the daemons use, [strtod]/[atof], the [printf]
    conversions [%.Nf] and [%.6g], and a theory of rounding: the order of
    doubles is the order of the integers [dz], and a rounded result stays on the
    same side of every double as the exact result. *)

From S2P Require Import Prelude CString.
From Stdlib Require Export SpecFloat.
From Stdlib Require Import Ascii.

(** ** Operations *)

Abbreviation double := spec_float (only parsing).

Definition dprec : Z := 53.
Definition demax : Z := 1024.

Definition dadd : double → double → double := SFadd dprec demax.
Definition dsub : double → double → double := SFsub dprec demax.
Definition dmul : double → double → double := SFmul dprec demax.
Definition ddiv : double → double → double := SFdiv dprec demax.
Definition dlt : double → double → bool := SFltb.
Definition dle : double → double → bool := SFleb.

Declare Scope double_scope.
Delimit Scope double_scope with D.
Infix "+" := dadd : double_scope.
Infix "-" := dsub : double_scope.
Infix "*" := dmul : double_scope.
Infix "/" := ddiv : double_scope.
Infix "<?" := dlt : double_scope.
Infix "<=?" := dle : double_scope.

Definition is_nan (x : double) : bool :=
  match x with S754_nan => true | _ => false end.
Definition is_inf (x : double) : bool :=
  match x with S754_infinity _ => true | _ => false end.

(** Conversion of an integer, and [(int)d] of a finite double. *)
Definition d_of_Z (z : Z) : double := binary_normalize dprec demax z 0 false.

Definition Z_of_d (x : double) : Z :=
  match x with
  | S754_finite s m e =>
      cond_Zopp s (if 0 <=? e then Zpos m * 2 ^ e else Zpos m / 2 ^ (- e))
  | _ => 0
  end.

(** ** [strtod] *)

Definition hex_digit (c : ascii) : option Z :=
  let n := code c in
  if (48 <=? n) && (n <=? 57) then Some (n - 48)
  else if (97 <=? n) && (n <=? 102) then Some (n - 87)
  else if (65 <=? n) && (n <=? 70) then Some (n - 55)
  else None.

Definition digit_val (base : Z) (c : ascii) : option Z :=
  match hex_digit c with
  | Some d => if d <? base then Some d else None
  | None => None
  end.

(** Read digits: the value so far, how many digits, and the text left. *)
Fixpoint read_digits (base acc : Z) (n : nat) (s : string) : Z * nat * string :=
  match s with
  | String c s' =>
      match digit_val base c with
      | Some d => read_digits base (acc * base + d) (S n) s'
      | None => (acc, n, s)
      end
  | EmptyString => (acc, n, s)
  end.

Definition read_sign (s : string) : bool * string :=
  match s with
  | String "-" s' => (true, s')
  | String "+" s' => (false, s')
  | _ => (false, s)
  end.

(** Digits with an optional point: mantissa, digits after the point, digits in
    all, and the text left. *)
Definition read_mantissa (base : Z) (s : string) : Z * nat * nat * string :=
  let '(m, n, r) := read_digits base 0 O s in
  match r with
  | String "." r' =>
      let '(m', n', r'') := read_digits base m O r' in
      if Nat.eqb (n + n') 0 then (m, O, O, r) else (m', n', (n + n')%nat, r'')
  | _ => (m, O, n, r)
  end.

(** An exponent part counts only when a digit follows its letter and sign. *)
Definition read_exponent (lower upper : ascii) (s : string) : Z * string :=
  match s with
  | String c s' =>
      if Ascii.eqb c lower || Ascii.eqb c upper then
        let '(neg, s2) := read_sign s' in
        let '(e, n, r) := read_digits 10 0 O s2 in
        if Nat.eqb n 0 then (0, s) else ((if neg then - e else e), r)
      else (0, s)
  | EmptyString => (0, s)
  end.

Definition lower (c : ascii) : ascii :=
  if (65 <=? code c) && (code c <=? 90) then chr (Z.to_nat (code c + 32)) else c.

Fixpoint has_prefix_ci (p s : string) : bool :=
  match p, s with
  | EmptyString, _ => true
  | String a p', String b s' => Ascii.eqb a (lower b) && has_prefix_ci p' s'
  | String _ _, EmptyString => false
  end.

(** [m * 10^k], correctly rounded. *)
Definition scale10 (m k : Z) : double :=
  match m with
  | Zpos p =>
      if 0 <=? k then binary_normalize dprec demax (m * 10 ^ k) 0 false
      else ddiv (S754_finite false p 0) (S754_finite false (Z.to_pos (10 ^ (- k))) 0)
  | _ => S754_zero false
  end.

Definition is_nan_char (c : ascii) : bool :=
  let n := code (lower c) in
  is_digit c || ((97 <=? n) && (n <=? 122)) || (n =? 95).

(** The optional [(chars)] after [nan]. *)
Definition skip_nan_payload (s : string) : string :=
  match s with
  | String "(" s' =>
      match skip_while is_nan_char s' with
      | String ")" r => r
      | _ => s
      end
  | _ => s
  end.

Definition strtod_dec (s : string) : option (double * string) :=
  let '(m, nfrac, n, r) := read_mantissa 10 s in
  if Nat.eqb n 0 then None
  else let '(e, r') := read_exponent "e" "E" r in
       Some (scale10 m (e - Z.of_nat nfrac), r').

Definition strtod_hex (s : string) : option (double * string) :=
  let '(m, nfrac, n, r) := read_mantissa 16 s in
  if Nat.eqb n 0 then None
  else let '(e, r') := read_exponent "p" "P" r in
       Some (binary_normalize dprec demax m (e - 4 * Z.of_nat nfrac) false, r').

Definition strtod_unsigned (s : string) : option (double * string) :=
  if has_prefix_ci "infinity" s then Some (S754_infinity false, sdrop 8 s)
  else if has_prefix_ci "inf" s then Some (S754_infinity false, sdrop 3 s)
  else if has_prefix_ci "nan" s then Some (S754_nan, skip_nan_payload (sdrop 3 s))
  else if has_prefix_ci "0x" s then
    match strtod_hex (sdrop 2 s) with
    | Some r => Some r
    | None => strtod_dec s
    end
  else strtod_dec s.

(** [strtod(s, &end)]: the value and the text at [end]; [None] when no
    conversion is possible, that is [end == s]. *)
Definition strtod (s : string) : option (double * string) :=
  let '(neg, s') := read_sign (skip_while is_space s) in
  match strtod_unsigned s' with
  | Some (d, r) => Some ((if neg then SFopp d else d), r)
  | None => None
  end.

(** [atof(s)]; a floating literal of the source is read the same way. *)
Definition atof (s : string) : double :=
  match strtod s with Some (d, _) => d | None => S754_zero false end.

(** ** [printf] conversions *)

(** [n / d] rounded to the nearest integer, halves to even. *)
Definition round_div (n d : Z) : Z :=
  let q := n / d in
  let r := n mod d in
  if 2 * r <? d then q
  else if d <? 2 * r then q + 1
  else if Z.even q then q else q + 1.

(** [m * 2^e * 10^k] rounded to an integer. *)
Definition scaled (m : positive) (e k : Z) : Z :=
  round_div (Zpos m * 2 ^ Z.max 0 e * 10 ^ Z.max 0 k)
            (2 ^ Z.max 0 (- e) * 10 ^ Z.max 0 (- k)).

Fixpoint zeros (n : nat) : string :=
  match n with O => EmptyString | S n' => String "0" (zeros n') end.

(** Left padding with zeros to [n] characters. *)
Definition pad_zeros (n : nat) (s : string) : string :=
  zeros (n - String.length s) +:+ s.

(** The decimal text of [n / 10^p] with [p] digits after the point. *)
Definition fmt_fixed (p : nat) (n : Z) : string :=
  let ten := 10 ^ Z.of_nat p in
  match p with
  | O => fmt_d n
  | _ => fmt_d (n / ten) +:+ "." +:+ pad_zeros p (fmt_d (n mod ten))
  end.

Definition with_sign (s : bool) (t : string) : string := if s then "-" +:+ t else t.

(** [%.pf]. *)
Definition fmt_f (p : nat) (x : double) : string :=
  match x with
  | S754_nan => "nan"
  | S754_infinity s => with_sign s "inf"
  | S754_zero s => with_sign s (fmt_fixed p 0)
  | S754_finite s m e => with_sign s (fmt_fixed p (scaled m e (Z.of_nat p)))
  end.

(** The decimal exponent of [m * 2^e]: an estimate from its binary exponent,
    off by at most one, corrected by comparison with the powers of ten. *)
Definition ge_pow10 (m : positive) (e x : Z) : bool :=
  10 ^ Z.max 0 x * 2 ^ Z.max 0 (- e) <=? Zpos m * 2 ^ Z.max 0 e * 10 ^ Z.max 0 (- x).

Definition exp10 (m : positive) (e : Z) : Z :=
  let x := (Z.log2 (Zpos m) + e) * 30103 / 100000 in
  if ge_pow10 m e (x + 1) then x + 1 else if ge_pow10 m e x then x else x - 1.

Definition drop_zeros (s : string) : string :=
  trim_end (Ascii.eqb ".") (trim_end (Ascii.eqb "0") s).

(** [%.6g]. *)
Definition fmt_g6 (x : double) : string :=
  match x with
  | S754_nan => "nan"
  | S754_infinity s => with_sign s "inf"
  | S754_zero s => with_sign s "0"
  | S754_finite s m e =>
      let x0 := exp10 m e in
      let n0 := scaled m e (5 - x0) in
      let '(x, n) := if n0 =? 1000000 then (x0 + 1, 100000) else (x0, n0) in
      with_sign s
        (if (-4 <=? x) && (x <? 6) then
           let t := fmt_fixed (Z.to_nat (5 - x)) n in
           if x =? 5 then t else drop_zeros t
         else drop_zeros (fmt_fixed 5 n) +:+ "e" +:+ (if x <? 0 then "-" else "+")
              +:+ pad_zeros 2 (fmt_d (Z.abs x)))
  end.

(** ** Values

    A finite double is an integer multiple of [2^-1074]; [dz] is that integer. *)

Definition dz (x : double) : Z :=
  match x with
  | S754_finite s m e => cond_Zopp s (Zpos m * 2 ^ (e + 1074))
  | _ => 0
  end.

(** Finite, and in canonical form: what every operation returns. *)
Definition fin (x : double) : bool :=
  match x with
  | S754_zero _ => true
  | S754_finite _ m e => bounded dprec demax m e
  | _ => false
  end.

(** Not negative, not a NaN; infinity is allowed. *)
Definition nonneg (x : double) : bool :=
  match x with
  | S754_zero _ => true
  | S754_infinity s => negb s
  | S754_nan => false
  | S754_finite s m e => negb s && bounded dprec demax m e
  end.

(** ** The rounding theory *)

Lemma digits2_bounds p :
  2 ^ (Zpos (digits2_pos p) - 1) <= Zpos p < 2 ^ Zpos (digits2_pos p).
Proof.
  induction p as [p IH|p IH|]; cbn [digits2_pos]; [| |by cbn];
    rewrite Pos2Z.inj_succ;
    replace (Z.succ (Zpos (digits2_pos p)) - 1) with (Z.succ (Zpos (digits2_pos p) - 1)) by lia;
    rewrite !Z.pow_succ_r by lia; lia.
Qed.

Lemma digits2_unique p d :
  0 < d → 2 ^ (d - 1) <= Zpos p < 2 ^ d → Zpos (digits2_pos p) = d.
Proof.
  intros Hd Hp. pose proof (digits2_bounds p) as Hq.
  assert (Zpos (digits2_pos p) - 1 < d) by (apply (Z.pow_lt_mono_r_iff 2); lia).
  assert (d - 1 < Zpos (digits2_pos p)) by (apply (Z.pow_lt_mono_r_iff 2); lia).
  lia.
Qed.

Definition E (e : Z) : Z := fexp dprec demax e.

Lemma E_eq e : E e = Z.max (e - 53) (-1074).
Proof. done. Qed.

Lemma bounded_spec m e :
  bounded dprec demax m e = true ↔
  E (Zpos (digits2_pos m) + e) = e ∧ e <= 971.
Proof.
  unfold bounded, canonical_mantissa. rewrite andb_true_iff, Z.eqb_eq, Z.leb_le. done.
Qed.

Lemma bounded_range m e :
  bounded dprec demax m e = true →
  Zpos m < 2 ^ 53 ∧ -1074 <= e <= 971 ∧ (e = -1074 ∨ 2 ^ 52 <= Zpos m).
Proof.
  rewrite bounded_spec, E_eq. intros [He Hle].
  pose proof (digits2_bounds m) as [Hlo Hhi].
  assert (Zpos (digits2_pos m) <= 53) by lia.
  split; [|split; [lia|]].
  - eapply Z.lt_le_trans; [exact Hhi|]. apply Z.pow_le_mono_r; lia.
  - destruct (decide (e = -1074)) as [->|]; [by left|right].
    replace 52 with (Zpos (digits2_pos m) - 1) by lia. done.
Qed.

Lemma iter_pos_nat {A} (f : A → A) p x : iter_pos f p x = Nat.iter (Pos.to_nat p) f x.
Proof.
  revert x. induction p as [p IH|p IH|]; intros x; cbn [iter_pos]; [| |done].
  - rewrite !IH, Pos2Nat.inj_xI.
    replace (S (2 * Pos.to_nat p)) with (Pos.to_nat p + (Pos.to_nat p + 1))%nat by lia.
    rewrite !Nat.iter_add. done.
  - rewrite !IH, Pos2Nat.inj_xO.
    replace (2 * Pos.to_nat p)%nat with (Pos.to_nat p + Pos.to_nat p)%nat by lia.
    by rewrite Nat.iter_add.
Qed.

(** After [k] shifts the record holds the quotient by [2^k], and its two bits
    are clear exactly when nothing was lost. *)
Definition shifted (k : nat) (M : Z) (mrs : shr_record) : Prop :=
  shr_m mrs = M / 2 ^ Z.of_nat k ∧
  (shr_r mrs = false ∧ shr_s mrs = false ↔ M mod 2 ^ Z.of_nat k = 0).

Lemma shr_1_spec mrs :
  0 <= shr_m mrs →
  shr_m (shr_1 mrs) = shr_m mrs / 2 ∧
  shr_r (shr_1 mrs) = Z.odd (shr_m mrs) ∧
  shr_s (shr_1 mrs) = shr_r mrs || shr_s mrs.
Proof.
  destruct mrs as [m r s]; cbn [shr_m shr_r shr_s]. intros Hm.
  destruct m as [|[p|p|]|p]; cbn -[Z.div]; try (split; [|done]); try lia; try done.
  - rewrite Pos2Z.inj_xI. by rewrite Z.mul_comm, Z.div_add_l, Z.add_0_r by lia.
  - rewrite Pos2Z.inj_xO. by rewrite Z.mul_comm, Z.div_mul by lia.
Qed.

Lemma shifted_step k M mrs :
  0 <= M → shifted k M mrs → shifted (S k) M (shr_1 mrs).
Proof.
  intros HM [Hm Hrs]. assert (0 < 2 ^ Z.of_nat k) by lia.
  assert (0 <= shr_m mrs) as Hpos by (rewrite Hm; apply Z.div_pos; lia).
  destruct (shr_1_spec mrs Hpos) as (Em & Er & Es).
  unfold shifted. rewrite Nat2Z.inj_succ, Z.pow_succ_r, (Z.mul_comm 2) by lia. split.
  - rewrite Em, Hm, Z.div_div by lia. done.
  - rewrite Er, Es, Z.rem_mul_r by lia. rewrite <- Hm, Zmod_odd, orb_false_iff, Hrs.
    pose proof (Z.mod_pos_bound M (2 ^ Z.of_nat k)).
    destruct (Z.odd (shr_m mrs)); rewrite ?Z.mul_1_r, ?Z.mul_0_r, ?Z.add_0_r;
      intuition (done || lia).
Qed.

Lemma shr_spec m n :
  0 <= m → 0 <= n →
  let r := shr (Build_shr_record m false false) 0 n in
  shr_m r.1 = m / 2 ^ n ∧
  (loc_of_shr_record r.1 = loc_Exact ↔ m mod 2 ^ n = 0) ∧ r.2 = n.
Proof.
  intros Hm Hn. destruct n as [|p|p]; [|clear Hn|lia].
  { cbn. rewrite Z.div_1_r, Z.mod_1_r. done. }
  cbn -[Z.pow Z.div Z.modulo]. rewrite iter_pos_nat.
  assert (shifted (Pos.to_nat p) m (Nat.iter (Pos.to_nat p) shr_1
            (Build_shr_record m false false))) as [H1 H2].
  { induction (Pos.to_nat p) as [|k IH]; [|by apply shifted_step].
    split; cbn; [by rewrite Z.div_1_r | by rewrite Z.mod_1_r]. }
  rewrite positive_nat_Z in H1, H2. split_and!; [done | | done].
  rewrite <- H2. destruct (Nat.iter _ _ _) as [m' [] []]; cbn; intuition done.
Qed.

(** *** Rounding to the nearest double *)

(** The integer that rounding leaves: the quotient or its successor, and the
    quotient itself when the division is exact. *)
Lemma round_even_spec mrs :
  let r := round_nearest_even (shr_m mrs) (loc_of_shr_record mrs) in
  (r = shr_m mrs ∨ r = shr_m mrs + 1) ∧
  (loc_of_shr_record mrs = loc_Exact → r = shr_m mrs).
Proof.
  destruct mrs as [m [] []]; cbn; try (split; [auto|done]).
  destruct (Z.even m); auto.
Qed.

Lemma shr_fexp_small r e :
  0 <= r < 2 ^ 53 → -1074 <= e →
  shr_fexp dprec demax r e loc_Exact = (Build_shr_record r false false, e).
Proof.
  intros Hr He. unfold shr_fexp. change (fexp dprec demax) with E.
  assert (E (Zdigits2 r + e) - e <= 0) as Hn.
  { rewrite E_eq. destruct r as [|p|p]; cbn [Zdigits2]; [lia| |lia].
    pose proof (digits2_bounds p) as [Hlo _].
    assert (Zpos (digits2_pos p) - 1 < 53) by (apply (Z.pow_lt_mono_r_iff 2); lia). lia. }
  unfold shr. cbn [shr_record_of_loc]. 
  revert Hn. generalize (E (Zdigits2 r + e) - e). intros [|n|n] Hn; [done| |done].
  exfalso. lia.
Qed.

Lemma shr_fexp_top e :
  -1074 <= e →
  shr_fexp dprec demax (2 ^ 53) e loc_Exact = (Build_shr_record (2 ^ 52) false false, e + 1).
Proof.
  intros He. unfold shr_fexp. change (fexp dprec demax) with E.
  replace (E (Zdigits2 (2 ^ 53) + e) - e) with 1; [done|].
  rewrite E_eq. change (Zdigits2 (2 ^ 53)) with 54. lia.
Qed.

(** The scale on which magnitudes with different exponents are compared. *)
Definition mag (m e : Z) : Z := m * 2 ^ (e + 3000).

Lemma mag_shift m e k : -3000 <= e → 0 <= k → mag (m * 2 ^ k) e = mag m (e + k).
Proof.
  intros He Hk. unfold mag. rewrite <- Z.mul_assoc, <- Z.pow_add_r by lia.
  f_equal. f_equal. lia.
Qed.

Lemma mag_le m1 m2 e : -3000 <= e → mag m1 e <= mag m2 e ↔ m1 <= m2.
Proof. intros He. unfold mag. assert (0 < 2 ^ (e + 3000)) by lia. nia. Qed.

(** What the second normalisation makes of the rounded integer [r]. *)
Definition pack (s : bool) (r e : Z) : double :=
  match r with
  | Zpos p =>
      if r =? 2 ^ 53
      then if e + 1 <=? 971 then S754_finite s (2 ^ 52) (e + 1) else S754_infinity s
      else if e <=? 971 then S754_finite s p e else S754_infinity s
  | _ => S754_zero s
  end.

Lemma quotient_range m e :
  e <= E (Zpos (digits2_pos m) + e) →
  let e1 := E (Zpos (digits2_pos m) + e) in
  let q := Zpos m / 2 ^ (e1 - e) in
  0 <= q < 2 ^ 53 ∧ (e1 = -1074 ∨ 2 ^ 52 <= q).
Proof.
  intros He e1 q. subst e1 q. pose proof (digits2_bounds m) as [Hlo Hhi].
  set (d := Zpos (digits2_pos m)) in *. rewrite E_eq in *.
  set (n := Z.max (d + e - 53) (-1074) - e). assert (0 <= n) by lia.
  assert (0 < 2 ^ n) by lia. split; [split; [apply Z.div_pos; lia|]|].
  - apply Z.div_lt_upper_bound; [lia|]. rewrite <- Z.pow_add_r by lia.
    eapply Z.lt_le_trans; [exact Hhi|]. apply Z.pow_le_mono_r; lia.
  - destruct (decide (Z.max (d + e - 53) (-1074) = -1074)); [by left|right].
    apply Z.div_le_lower_bound; [lia|]. rewrite <- Z.pow_add_r by lia.
    replace (n + 52) with (d - 1) by lia. done.
Qed.

Lemma bra_char s m e :
  e <= E (Zpos (digits2_pos m) + e) →
  let e1 := E (Zpos (digits2_pos m) + e) in
  let q := Zpos m / 2 ^ (e1 - e) in
  ∃ r, (r = q ∨ r = q + 1) ∧ (Zpos m mod 2 ^ (e1 - e) = 0 → r = q) ∧
       binary_round_aux dprec demax s (Zpos m) e loc_Exact = pack s r e1.
Proof.
  intros He e1 q. pose proof (quotient_range m e He) as [Hq _]. fold e1 q in Hq.
  unfold binary_round_aux.
  assert (shr_fexp dprec demax (Zpos m) e loc_Exact =
          ((shr (Build_shr_record (Zpos m) false false) 0 (e1 - e)).1, e1)) as ->.
  { unfold shr_fexp. change (fexp dprec demax) with E. cbn [Zdigits2 shr_record_of_loc].
    fold e1. unfold shr. destruct (e1 - e) eqn:Hn; cbn [fst]; f_equal; lia. }
  destruct (shr_spec (Zpos m) (e1 - e)) as (Hm & Hloc & _); [lia|lia|].
  set (mrs := (shr _ 0 (e1 - e)).1) in *.
  destruct (round_even_spec mrs) as [Hr Hex]. fold q in Hm. revert Hr Hex.
  set (r := round_nearest_even (shr_m mrs) (loc_of_shr_record mrs)) in *.
  rewrite Hm. intros Hr Hex.
  exists r. split; [done|]. split; [intros H0; by apply Hex, Hloc|].
  assert (-1074 <= e1) by (subst e1; rewrite E_eq; lia).
  assert (r = 2 ^ 53 ∨ 0 <= r < 2 ^ 53) as [->|Hlt] by lia.
  - rewrite shr_fexp_top by done. cbn [shr_m]. done.
  - rewrite shr_fexp_small by done. cbn [shr_m]. unfold pack.
    destruct r as [|p|p]; [done| |lia].
    destruct (Z.eqb_spec (Zpos p) (2 ^ 53)); [lia|done].
Qed.

Lemma mag_mono m1 m2 e : -3000 <= e → m1 <= m2 → mag m1 e <= mag m2 e.
Proof. intros He Hm. by apply mag_le. Qed.

Lemma mag_exp m e1 e2 : -3000 <= e1 → e1 <= e2 → 0 <= m → mag m e1 <= mag m e2.
Proof.
  intros H1 H2 Hm. unfold mag. apply Z.mul_le_mono_nonneg_l; [done|].
  apply Z.pow_le_mono_r; lia.
Qed.

Section rounding.
Context (m : positive) (e : Z) (Hlow : -3000 <= e).
Let e1 := E (Zpos (digits2_pos m) + e).
Context (He : e <= e1).
Let q := Zpos m / 2 ^ (e1 - e).

Local Lemma q_bounds : q * 2 ^ (e1 - e) <= Zpos m < (q + 1) * 2 ^ (e1 - e).
Proof.
  assert (0 < 2 ^ (e1 - e)) by lia. subst q.
  pose proof (Z.div_mod (Zpos m) (2 ^ (e1 - e))).
  pose proof (Z.mod_pos_bound (Zpos m) (2 ^ (e1 - e))). nia.
Qed.

Local Lemma e1_low : -1074 <= e1.
Proof. subst e1. rewrite E_eq. lia. Qed.

(** A double below the exponent range of the result is below the result. *)
Local Lemma small_below mz ez :
  bounded dprec demax mz ez = true → ez < e1 → mag (Zpos mz) ez < mag q e1.
Proof.
  intros Hz Hlt. apply bounded_range in Hz as (Hmz & Hez & _).
  pose proof (quotient_range m e He) as [_ Hq]. fold e1 in Hq. fold q in Hq.
  destruct Hq as [Heq|Hq]; [lia|].
  apply Z.lt_le_trans with (mag (2 ^ 53) ez).
  { unfold mag. assert (0 < 2 ^ (ez + 3000)) by lia. nia. }
  change 53 with (52 + 1). rewrite Z.pow_add_r, mag_shift by lia.
  trans (mag (2 ^ 52) e1); [apply mag_exp; lia|apply mag_mono; lia].
Qed.

Lemma core_upper r mz ez :
  (r = q ∨ r = q + 1) → (Zpos m mod 2 ^ (e1 - e) = 0 → r = q) →
  bounded dprec demax mz ez = true →
  mag (Zpos m) e <= mag (Zpos mz) ez → mag r e1 <= mag (Zpos mz) ez.
Proof.
  intros Hr Hex Hz HV. pose proof q_bounds as Hq. pose proof e1_low as Hlow1.
  assert (0 < 2 ^ (e1 - e)) as Hn by lia.
  destruct (Z.lt_ge_cases ez e1) as [Hlt|Hge].
  { exfalso. pose proof (small_below _ _ Hz Hlt).
    assert (mag q e1 <= mag (Zpos m) e); [|lia].
    replace e1 with (e + (e1 - e)) by lia. rewrite <- mag_shift by lia.
    apply mag_mono; [done|apply Hq]. }
  apply bounded_range in Hz as (_ & Hez & _).
  replace ez with (e1 + (ez - e1)) in HV |- * by lia. rewrite <- mag_shift in HV |- * by lia.
  set (k := Zpos mz * 2 ^ (ez - e1)) in *. apply mag_mono; [lia|].
  replace e1 with (e + (e1 - e)) in HV by lia. rewrite <- mag_shift, mag_le in HV by lia.
  destruct (decide (Zpos m mod 2 ^ (e1 - e) = 0)) as [H0|H0].
  - rewrite Hex by done. subst q. nia.
  - assert (Zpos m ≠ k * 2 ^ (e1 - e)) by (intros Heq; apply H0; rewrite Heq; apply Z.mod_mul; lia).
    nia.
Qed.

Lemma core_lower mz ez :
  bounded dprec demax mz ez = true →
  mag (Zpos mz) ez <= mag (Zpos m) e → mag (Zpos mz) ez <= mag q e1.
Proof.
  intros Hz HV. pose proof q_bounds as Hq. pose proof e1_low as Hlow1.
  assert (0 < 2 ^ (e1 - e)) as Hn by lia.
  destruct (Z.lt_ge_cases ez e1) as [Hlt|Hge].
  { apply Z.lt_le_incl. by apply small_below. }
  apply bounded_range in Hz as (_ & Hez & _).
  replace ez with (e1 + (ez - e1)) in HV |- * by lia. rewrite <- mag_shift in HV |- * by lia.
  set (k := Zpos mz * 2 ^ (ez - e1)) in *. apply mag_mono; [lia|].
  replace e1 with (e + (e1 - e)) in HV by lia.
  rewrite <- mag_shift, mag_le in HV by lia. nia.
Qed.

End rounding.

Lemma pack_cases s r e :
  0 <= r <= 2 ^ 53 → -1074 <= e → (e = -1074 ∨ 2 ^ 52 <= r) →
  (pack s r e = S754_infinity s ∧ mag (2 ^ 53) 971 <= mag r e) ∨
  (fin (pack s r e) = true ∧ dz (pack s r e) = cond_Zopp s (r * 2 ^ (e + 1074))).
Proof.
  intros Hr He Hn. destruct (decide (r = 0)) as [->|Hr0].
  { right. split; [done|]. by destruct s. }
  destruct r as [|p|p]; [done| |lia]. cbn [pack].
  destruct (Z.eqb_spec (Zpos p) (2 ^ 53)) as [Hp|Hp].
  - destruct (Z.leb_spec (e + 1) 971); [right|left]; split; try done.
    + cbn [fin]. apply bounded_spec. change (Zpos (digits2_pos (2 ^ 52))) with 53.
      rewrite E_eq. lia.
    + cbn [dz]. rewrite Hp. change (Zpos (2 ^ 52)) with (2 ^ 52).
      rewrite <- !Z.pow_add_r by lia. do 2 f_equal. lia.
    + rewrite Hp. apply mag_exp; lia.
  - destruct (Z.leb_spec e 971) as [Hle|Hgt]; [right|left]; split; try done.
    + cbn [fin]. apply bounded_spec. split; [|done]. rewrite E_eq.
      pose proof (digits2_bounds p) as [Hlo _].
      assert (Zpos (digits2_pos p) - 1 < 53) by (apply (Z.pow_lt_mono_r_iff 2); lia).
      destruct Hn as [->|Hn]; [lia|]. rewrite (digits2_unique p 53) by lia. lia.
    + replace (2 ^ 53) with (2 ^ 52 * 2 ^ 1) by done. rewrite mag_shift by lia.
      trans (mag (2 ^ 52) e); [apply mag_exp; lia|apply mag_mono; lia].
Qed.

(** [R] is the exact magnitude [V], on the scale of [mag], rounded: infinite
    only above every double, and otherwise on the same side of every double as
    [V]. *)
Definition rounds (s : bool) (V : Z) (R : double) : Prop :=
  (R = S754_infinity s ∧
   ∀ z, fin z = true → 0 <= dz z → mag (dz z) (-1074) < V) ∨
  (fin R = true ∧ ∃ v, 0 <= v ∧ dz R = cond_Zopp s v ∧
   ∀ z, fin z = true → 0 <= dz z →
     (V <= mag (dz z) (-1074) → v <= dz z) ∧
     (mag (dz z) (-1074) <= V → dz z <= v)).

Lemma mag_dz m e s :
  -1074 <= e → mag (dz (S754_finite s m e)) (-1074) = cond_Zopp s (mag (Zpos m) e).
Proof.
  intros He. assert (mag (Zpos m * 2 ^ (e + 1074)) (-1074) = mag (Zpos m) e) as Heq.
  { rewrite mag_shift by lia. f_equal. lia. }
  destruct s; cbn [dz cond_Zopp]; [|done].
  rewrite <- Heq. unfold mag. by rewrite Z.mul_opp_l.
Qed.

Lemma fin_pos_inv z :
  fin z = true → 0 < dz z →
  ∃ m e, z = S754_finite false m e ∧ bounded dprec demax m e = true.
Proof.
  destruct z as [s|s| |s m e]; cbn [fin dz]; try done; intros Hb Hp.
  destruct s; cbn [cond_Zopp] in Hp; [|by exists m, e].
  apply bounded_range in Hb. assert (0 < 2 ^ (e + 1074)) by lia. nia.
Qed.

Lemma mag_bounded_lt m e :
  bounded dprec demax m e = true → mag (Zpos m) e < mag (2 ^ 53) 971.
Proof.
  intros Hb. apply bounded_range in Hb as (Hm & He & _).
  apply Z.lt_le_trans with (mag (2 ^ 53) e); [|apply mag_exp; lia].
  unfold mag. assert (0 < 2 ^ (e + 3000)) by lia. nia.
Qed.

Lemma mag_pos m e : -3000 <= e → 0 < mag (Zpos m) e.
Proof. intros He. unfold mag. lia. Qed.

Lemma bra_rounds s m e :
  -3000 <= e → e <= E (Zpos (digits2_pos m) + e) →
  rounds s (mag (Zpos m) e) (binary_round_aux dprec demax s (Zpos m) e loc_Exact).
Proof.
  intros Hlow He. destruct (bra_char s m e He) as (r & Hr & Hex & ->).
  destruct (quotient_range m e He) as [Hq Hn].
  assert (-1074 <= E (Zpos (digits2_pos m) + e)) as He1 by (rewrite E_eq; lia).
  set (e1 := E _) in *. set (q := Zpos m / _) in *.
  pose proof (core_upper m e Hlow He r) as Hup.
  pose proof (core_lower m e Hlow He) as Hlo. fold e1 in Hup, Hlo. fold q in Hup, Hlo.
  destruct (pack_cases s r e1) as [[Hp Hbig]|[Hf Hd]]; [lia..|left|right].
  - split; [done|]. intros z Hz Hz0.
    destruct (decide (dz z = 0)) as [->|]; [by apply mag_pos|].
    destruct (fin_pos_inv z) as (mz & ez & -> & Hb); [done|lia|].
    rewrite mag_dz by (apply bounded_range in Hb; lia). cbn [cond_Zopp].
    pose proof (mag_bounded_lt _ _ Hb).
    destruct (Z.lt_ge_cases (mag (Zpos mz) ez) (mag (Zpos m) e)) as [|Hge]; [done|].
    pose proof (Hup mz ez Hr Hex Hb Hge). lia.
  - split; [done|]. exists (r * 2 ^ (e1 + 1074)).
    assert (0 < 2 ^ (e1 + 1074)) by lia.
    assert (mag (r * 2 ^ (e1 + 1074)) (-1074) = mag r e1) as Hv
      by (rewrite mag_shift by lia; f_equal; lia).
    split; [nia|]. split; [done|]. intros z Hz Hz0.
    destruct (decide (dz z = 0)) as [->|].
    { pose proof (mag_pos m e Hlow). change (mag 0 (-1074)) with 0. split; [lia|nia]. }
    destruct (fin_pos_inv z) as (mz & ez & -> & Hb); [done|lia|].
    assert (-1074 <= ez) by (apply bounded_range in Hb; lia).
    rewrite mag_dz by done. cbn [cond_Zopp].
    rewrite <- (mag_le _ (dz _) (-1074)), <- (mag_le (dz _) _ (-1074)), !mag_dz, Hv by done.
    cbn [cond_Zopp]. split; intros HV; [by apply Hup|].
    trans (mag q e1); [by apply Hlo|apply mag_mono; lia].
Qed.

Lemma digits2_shift m d : Zpos (digits2_pos (Pos.iter xO m d)) = Zpos (digits2_pos m) + Zpos d.
Proof.
  induction d as [|d IH] using Pos.peano_ind; [cbn; lia|].
  rewrite Pos.iter_succ. cbn [digits2_pos]. lia.
Qed.

Lemma iter_xO m d : Zpos (Pos.iter xO m d) = Zpos m * 2 ^ Zpos d.
Proof.
  induction d as [|d IH] using Pos.peano_ind; [cbn; lia|].
  rewrite Pos.iter_succ, Pos2Z.inj_succ, Z.pow_succ_r by lia. lia.
Qed.

Lemma binary_round_rounds s m e :
  -1074 <= e → rounds s (mag (Zpos m) e) (binary_round dprec demax s m e).
Proof.
  intros He. unfold binary_round, shl_align. change (fexp dprec demax) with E.
  destruct (E (Zpos (digits2_pos m) + e) - e) as [|p|d] eqn:Hd.
  - apply bra_rounds; lia.
  - apply bra_rounds; lia.
  - assert (-1074 <= E (Zpos (digits2_pos m) + e)) by (rewrite E_eq; lia).
    replace (mag (Zpos m) e) with
      (mag (Zpos (Pos.iter xO m d)) (E (Zpos (digits2_pos m) + e))).
    + apply bra_rounds; [lia|]. rewrite digits2_shift.
      apply Z.eq_le_incl. f_equal. lia.
    + rewrite iter_xO, mag_shift by lia. f_equal. lia.
Qed.

(** ** Products and sums of nonnegative doubles *)

Lemma nonneg_fin_dz x : nonneg x = true → fin x = true → 0 <= dz x.
Proof.
  destruct x as [s|s| |s m e]; cbn [nonneg fin dz]; try done; try lia.
  intros Hn Hb. apply andb_prop in Hn as [Hs _]. destruct s; [done|]. cbn [cond_Zopp].
  apply bounded_range in Hb. assert (0 < 2 ^ (e + 1074)) by lia. nia.
Qed.

Lemma nonneg_not_nan x : nonneg x = true → is_nan x = false.
Proof. by destruct x. Qed.

Lemma nonneg_cases x : nonneg x = true → x = S754_infinity false ∨ fin x = true.
Proof.
  destruct x as [s|[]| |s m e]; cbn [nonneg fin]; auto; try done.
  intros H. apply andb_prop in H as [_ H]. auto.
Qed.

(** [rounds] for the positive sign, with the product or sum of two doubles as
    the exact value. *)
Definition rounds_to (V : Z) (R : double) : Prop :=
  (R = S754_infinity false ∧
   ∀ z, fin z = true → 0 <= dz z → mag (dz z) (-1074) < V) ∨
  (fin R = true ∧ nonneg R = true ∧ ∀ z, fin z = true → 0 <= dz z →
     (V <= mag (dz z) (-1074) → dz R <= dz z) ∧
     (mag (dz z) (-1074) <= V → dz z <= dz R)).

Lemma rounds_pos V R : rounds false V R → rounds_to V R.
Proof.
  intros [H|(Hf & v & Hv & Hd & Hz)]; [by left|right]. cbn [cond_Zopp] in Hd.
  split; [done|]. split; [|by rewrite Hd].
  destruct R as [s|s| |s m e]; cbn [fin nonneg] in *; try done. rewrite Hf.
  destruct s; [|done]. cbn [dz cond_Zopp] in Hd. apply bounded_range in Hf.
  assert (0 < 2 ^ (e + 1074)) by lia. nia.
Qed.

Lemma rounds_to_zero s : rounds_to 0 (S754_zero s).
Proof. right. split; [done|]. split; [done|]. intros z _ Hz. cbn [dz]. unfold mag. lia. Qed.

Lemma mul_exponent m1 e1 m2 e2 :
  bounded dprec demax m1 e1 = true → bounded dprec demax m2 e2 = true →
  e1 + e2 <= E (Zpos (digits2_pos (m1 * m2)) + (e1 + e2)).
Proof.
  intros H1 H2. apply bounded_range in H1 as (_ & H1 & Hn1).
  apply bounded_range in H2 as (_ & H2 & Hn2). rewrite E_eq.
  pose proof (digits2_bounds (m1 * m2)) as [_ Hd].
  destruct (decide (e1 = -1074 ∧ e2 = -1074)) as [[-> ->]|Hne]; [lia|].
  assert (2 ^ 52 <= Zpos (m1 * m2)) as Hbig by (rewrite Pos2Z.inj_mul; destruct Hn1, Hn2; nia).
  assert (52 < Zpos (digits2_pos (m1 * m2))) by (apply (Z.pow_lt_mono_r_iff 2); lia).
  lia.
Qed.

Lemma dmul_rounds x y :
  fin x = true → fin y = true → nonneg x = true → nonneg y = true →
  rounds_to (dz x * dz y * 2 ^ 852) (dmul x y).
Proof.
  destruct x as [sx|sx| |sx mx ex], y as [sy|sy| |sy my ey];
    cbn [fin nonneg]; try done; intros Hx Hy Hsx Hsy; cbn [dz dmul SFmul];
    rewrite ?Z.mul_0_l, ?Z.mul_0_r, ?Z.mul_0_l; try apply rounds_to_zero.
  apply andb_prop in Hsx as [Hsx _], Hsy as [Hsy _].
  destruct sx, sy; try done. cbn [cond_Zopp xorb].
  pose proof (mul_exponent _ _ _ _ Hx Hy) as He.
  apply bounded_range in Hx as (_ & Hx & _), Hy as (_ & Hy & _).
  apply rounds_pos. replace (_ * 2 ^ 852) with (mag (Zpos (mx * my)) (ex + ey)).
  - apply bra_rounds; [lia|done].
  - unfold mag. rewrite Pos2Z.inj_mul.
    replace (ex + ey + 3000) with ((ex + 1074) + (ey + 1074) + 852) by lia.
    set (a := ex + 1074). set (b := ey + 1074). rewrite (Z.pow_add_r 2 (a + b)), (Z.pow_add_r 2 a) by lia. ring.
Qed.

Lemma shl_align_value m e ez :
  ez <= e → Zpos (fst (shl_align m e ez)) = Zpos m * 2 ^ (e - ez).
Proof.
  intros He. unfold shl_align. destruct (ez - e) as [|p|d] eqn:Hd; cbn [fst].
  - replace (e - ez) with 0 by lia. lia.
  - lia.
  - rewrite iter_xO. do 2 f_equal. lia.
Qed.

Lemma dadd_rounds x y :
  fin x = true → fin y = true → nonneg x = true → nonneg y = true →
  rounds_to (mag (dz x + dz y) (-1074)) (dadd x y).
Proof.
  assert (∀ R, fin R = true → nonneg R = true → rounds_to (mag (dz R) (-1074)) R) as Hself.
  { intros R Hf Hn. right. split; [done|]. split; [done|]. intros z Hz Hz0.
    rewrite !mag_le by lia. done. }
  destruct x as [sx|sx| |sx mx ex], y as [sy|sy| |sy my ey];
    cbn [fin nonneg]; try done; intros Hx Hy Hsx Hsy; cbn [dadd SFadd];
    try (rewrite ?Z.add_0_r; by apply Hself).
  { destruct sx, sy; apply rounds_to_zero. }
  apply andb_prop in Hsx as [Hsx _], Hsy as [Hsy _].
  destruct sx, sy; try done. cbn [cond_Zopp dz].
  apply bounded_range in Hx as (_ & Hx & _), Hy as (_ & Hy & _).
  set (ez := Z.min ex ey). set (p := fst (shl_align mx ex ez)).
  set (p' := fst (shl_align my ey ez)). rewrite <- Pos2Z.inj_add.
  cbn [binary_normalize]. apply rounds_pos.
  replace (mag _ (-1074)) with (mag (Zpos (p + p')) ez);
    [apply binary_round_rounds; lia|].
  subst p p'. rewrite Pos2Z.inj_add, !shl_align_value by lia. unfold mag.
  rewrite !Z.mul_add_distr_r, <- !Z.mul_assoc, <- !Z.pow_add_r by lia.
  f_equal; do 2 f_equal; lia.
Qed.

(** A nonnegative product, infinity included. *)
Lemma dmul_nonneg x y :
  nonneg x = true → nonneg y = true → fin y = true → 0 < dz y → nonneg (dmul x y) = true.
Proof.
  intros Hx Hy Hfy Hpos. destruct (nonneg_cases x Hx) as [->|Hfx].
  - destruct (fin_pos_inv y) as (m & e & -> & _); [done..|]. done.
  - by destruct (dmul_rounds x y) as [[-> _]|(_ & ? & _)].
Qed.

Lemma dadd_nonneg x y : nonneg x = true → nonneg y = true → nonneg (dadd x y) = true.
Proof.
  intros Hx Hy. destruct (nonneg_cases x Hx) as [->|Hfx], (nonneg_cases y Hy) as [->|Hfy].
  - done.
  - by destruct y as [| | |[]].
  - by destruct x as [| | |[]].
  - by destruct (dadd_rounds x y) as [[-> _]|(_ & ? & _)].
Qed.

(** ** Comparisons *)

Lemma bounded_compare m1 e1 m2 e2 :
  bounded dprec demax m1 e1 = true → bounded dprec demax m2 e2 = true →
  e1 < e2 → Zpos m1 * 2 ^ (e1 + 1074) < Zpos m2 * 2 ^ (e2 + 1074).
Proof.
  intros H1 H2 He. apply bounded_range in H1 as (H1 & ? & _).
  apply bounded_range in H2 as (_ & ? & Hn). destruct Hn as [|Hn]; [lia|].
  replace (e2 + 1074) with ((e1 + 1074) + (1 + (e2 - e1 - 1))) by lia.
  set (a := e1 + 1074). set (b := e2 - e1 - 1).
  rewrite (Z.pow_add_r 2 a), (Z.pow_add_r 2 1) by lia. change (2 ^ 1) with 2.
  assert (0 < 2 ^ a) by lia. assert (0 < 2 ^ b) by lia.
  apply Z.lt_le_trans with (2 ^ 53 * 2 ^ a); [nia|].
  assert (2 ^ 53 <= Zpos m2 * (2 * 2 ^ b)) by nia. nia.
Qed.

Lemma SFcompare_dz x y :
  fin x = true → fin y = true → SFcompare x y = Some (dz x ?= dz y).
Proof.
  assert (∀ m e, bounded dprec demax m e = true → 0 < Zpos m * 2 ^ (e + 1074)) as Hp.
  { intros m e Hb. apply bounded_range in Hb. lia. }
  destruct x as [sx|sx| |sx mx ex], y as [sy|sy| |sy my ey];
    cbn [fin]; try done; intros Hx Hy; cbn [SFcompare dz]; f_equal; symmetry.
  - pose proof (Hp _ _ Hy). destruct sy; cbn [cond_Zopp]; [apply Z.compare_gt_iff|apply Z.compare_lt_iff]; lia.
  - pose proof (Hp _ _ Hx). destruct sx; cbn [cond_Zopp]; [apply Z.compare_lt_iff|apply Z.compare_gt_iff]; lia.
  - pose proof (Hp _ _ Hx). pose proof (Hp _ _ Hy).
    assert (∀ a b, Z.compare (- a) (- b) = CompOpp (Z.compare a b)) as Hopp
      by (intros a b; destruct (Z.compare_spec (- a) (- b)), (Z.compare_spec a b); cbn; lia || done).
    assert ((Zpos mx * 2 ^ (ex + 1074) ?= Zpos my * 2 ^ (ey + 1074)) =
            match ex ?= ey with Lt => Lt | Gt => Gt | Eq => Pos.compare_cont Eq mx my end) as Hc.
    { destruct (Z.compare_spec ex ey) as [->|Hlt|Hgt].
      - rewrite <- Zmult_compare_compat_r by lia. done.
      - apply Z.compare_lt_iff. by apply bounded_compare.
      - apply Z.compare_gt_iff. by apply bounded_compare. }
    destruct sx, sy; cbn [cond_Zopp].
    + rewrite Hopp, Hc. by destruct (ex ?= ey).
    + apply Z.compare_lt_iff. lia.
    + apply Z.compare_gt_iff. lia.
    + exact Hc.
Qed.

Lemma dlt_spec x y : fin x = true → fin y = true → dlt x y = (dz x <? dz y).
Proof.
  intros Hx Hy. unfold dlt, SFltb. rewrite SFcompare_dz by done.
  unfold Z.ltb. by destruct (dz x ?= dz y).
Qed.

Lemma dle_spec x y : fin x = true → fin y = true → dle x y = (dz x <=? dz y).
Proof.
  intros Hx Hy. unfold dle, SFleb. rewrite SFcompare_dz by done.
  unfold Z.leb. by destruct (dz x ?= dz y).
Qed.
