(* ===== verification/Strtod.v ===== *)
(** * Every number a parser reads is a double

    [strtod] scales a decimal or hexadecimal mantissa with one correctly rounded
    operation; whatever the text, its result is in the canonical form that the
    arithmetic of [Double.v] expects. *)

From S2P Require Import Prelude CString Double.

(** Canonical when finite. *)
Definition canon (x : double) : bool :=
  match x with S754_finite _ m e => bounded dprec demax m e | _ => true end.

Lemma shr_quotient mrs e n :
  0 <= shr_m mrs → 0 <= n →
  shr_m (shr mrs e n).1 = shr_m mrs / 2 ^ n ∧ (shr mrs e n).2 = e + n.
Proof.
  intros Hm Hn. destruct n as [|p|p]; [|clear Hn|lia].
  { cbn. rewrite Z.div_1_r. lia. }
  cbn -[Z.pow Z.div]. rewrite iter_pos_nat, <- (positive_nat_Z p). split; [|lia].
  assert (∀ k, 0 <= shr_m (Nat.iter k shr_1 mrs) ∧
             shr_m (Nat.iter k shr_1 mrs) = shr_m mrs / 2 ^ Z.of_nat k) as H.
  { induction k as [|k [Hpos IH]]; [cbn; rewrite Z.div_1_r; lia|].
    change (Nat.iter (S k) shr_1 mrs) with (shr_1 (Nat.iter k shr_1 mrs)).
    destruct (shr_1_spec _ Hpos) as (-> & _).
    rewrite IH, Nat2Z.inj_succ, Z.pow_succ_r, Z.div_div, (Z.mul_comm 2) by lia.
    split; [apply Z.div_pos; lia|done]. }
  apply H.
Qed.

Lemma record_of_loc_m m l : shr_m (shr_record_of_loc m l) = m.
Proof. by destruct l as [|[]]. Qed.

Lemma pack_canon s r e :
  0 <= r <= 2 ^ 53 → -1074 <= e → (e = -1074 ∨ 2 ^ 52 <= r) → canon (pack s r e) = true.
Proof.
  intros Hr He Hn. destruct (pack_cases s r e Hr He Hn) as [[-> _]|[Hf _]]; [done|].
  by destruct (pack s r e).
Qed.

(** Rounding an aligned mantissa of either exactness gives a double. *)
Lemma bra_canon s m e l :
  0 <= m → e <= E (Zdigits2 m + e) → canon (binary_round_aux dprec demax s m e l) = true.
Proof.
  intros Hm He. unfold binary_round_aux, shr_fexp at 1. change (fexp dprec demax) with E.
  set (e1 := E (Zdigits2 m + e)) in *.
  assert (-1074 <= e1) as He1 by (subst e1; rewrite E_eq; lia).
  destruct (shr_quotient (shr_record_of_loc m l) e (e1 - e)) as [Hq He'];
    [by rewrite record_of_loc_m|lia|].
  rewrite record_of_loc_m in Hq.
  destruct (shr _ e (e1 - e)) as [mrs e']. cbn [fst snd] in *.
  replace e' with e1 by lia. clear He' e'.
  assert (0 <= m / 2 ^ (e1 - e) < 2 ^ 53 ∧ (e1 = -1074 ∨ 2 ^ 52 <= m / 2 ^ (e1 - e))) as [Hr Hn].
  { destruct m as [|p|p]; [| |lia].
    - rewrite Z.div_0_l by lia. split; [lia|]. subst e1. rewrite E_eq in *. cbn [Zdigits2] in *. lia.
    - apply (quotient_range p e He). }
  destruct (round_even_spec mrs) as [Hround _]. revert Hround.
  set (r := round_nearest_even _ _). rewrite Hq. intros Hround.
  assert (r = 2 ^ 53 ∨ 0 <= r < 2 ^ 53) as [->|Hlt] by lia.
  - rewrite shr_fexp_top by done. apply (pack_canon s (2 ^ 53) e1); lia.
  - rewrite shr_fexp_small by done. cbn [shr_m].
    pose proof (pack_canon s r e1 ltac:(lia) He1 ltac:(lia)) as Hp. revert Hp. unfold pack.
    destruct r as [|p|p]; [done| |lia]. by destruct (Z.eqb_spec (Zpos p) (2 ^ 53)); [lia|].
Qed.

Lemma binary_round_canon s m e : canon (binary_round dprec demax s m e) = true.
Proof.
  unfold binary_round, shl_align. change (fexp dprec demax) with E.
  destruct (E (Zpos (digits2_pos m) + e) - e) as [|p|d] eqn:Hd;
    apply bra_canon; cbn [Zdigits2]; try lia.
  rewrite digits2_shift. apply Z.eq_le_incl. f_equal. lia.
Qed.

Lemma binary_normalize_canon m e s : canon (binary_normalize dprec demax m e s) = true.
Proof. destruct m; [done|apply binary_round_canon..]. Qed.

(** The quotient of a division has at least the digits the exponent asks for. *)
Lemma quotient_digits m q k d :
  0 < d → 0 <= k → 2 ^ k <= q → Zpos m = q → d <= k + 1 → d <= Zpos (digits2_pos m).
Proof.
  intros Hd Hk Hq <- Hdk. pose proof (digits2_bounds m) as [_ Hhi].
  assert (k < Zpos (digits2_pos m)) by (apply (Z.pow_lt_mono_r_iff 2); lia). lia.
Qed.

Lemma div_canon s m1 m2 : canon (ddiv (S754_finite s m1 0) (S754_finite false m2 0)) = true.
Proof.
  unfold ddiv, SFdiv, SFdiv_core_binary. change (fexp dprec demax) with E. cbn [Zdigits2].
  set (d1 := Zpos (digits2_pos m1)). set (d2 := Zpos (digits2_pos m2)).
  replace (d1 + 0 - (d2 + 0)) with (d1 - d2) by lia. rewrite Z.sub_0_r.
  set (e' := Z.min (E (d1 - d2)) 0).
  set (m' := match 0 - e' with Z0 => _ | _ => _ end).
  assert (m' = Zpos m1 * 2 ^ (- e')) as Hm'.
  { subst m'. replace (0 - e') with (- e') by lia. assert (0 <= - e') as Hn by lia.
    destruct (- e') as [|p|p]; [cbn; lia| |lia]. by rewrite Z.shiftl_mul_pow2. }
  pose proof (Z_div_mod m' (Zpos m2) ltac:(lia)) as Hdm.
  destruct (Z.div_eucl m' (Zpos m2)) as [q r]. destruct Hdm as [Hq Hr].
  pose proof (digits2_bounds m1) as [H1 _]. pose proof (digits2_bounds m2) as [_ H2].
  fold d1 in H1. fold d2 in H2.
  assert (0 < 2 ^ (- e')) by lia. assert (0 <= q) as Hq0 by nia.
  apply bra_canon; [done|].
  transitivity (E (d1 - d2)); [lia|]. rewrite !E_eq.
  destruct (decide (d1 - d2 - e' - 1 < 0)) as [Hneg|Hpos].
  { subst e'. rewrite E_eq in *. destruct q; cbn [Zdigits2]; lia. }
  assert (2 ^ (d1 - d2 - e' - 1) <= q) as Hbig.
  { assert (2 ^ (d1 - 1 - e') <= m') as Hlo.
    { rewrite Hm'. replace (d1 - 1 - e') with ((d1 - 1) + - e') by lia.
      rewrite Z.pow_add_r by (subst d1; lia). nia. }
    assert (2 ^ (d1 - 1 - e') = 2 ^ (d1 - d2 - e' - 1) * 2 ^ d2) as Hsplit
      by (rewrite <- Z.pow_add_r by (subst d2; lia); f_equal; lia).
    assert (0 < 2 ^ (d1 - d2 - e' - 1)) by lia.
    apply Z.lt_succ_r. apply (Z.mul_lt_mono_pos_r (Zpos m2)); [lia|]. nia. }
  destruct q as [|p|p]; [lia| |lia]. cbn [Zdigits2].
  assert (d1 - d2 - e' <= Zpos (digits2_pos p)) by
    (destruct (decide (d1 - d2 - e' = 0)); [lia|];
     apply (quotient_digits p (Zpos p) (d1 - d2 - e' - 1)); lia).
  lia.
Qed.

Lemma scale10_canon m k : canon (scale10 m k) = true.
Proof.
  destruct m as [|p|p]; [done| |done]. cbn [scale10].
  destruct (0 <=? k); [apply binary_normalize_canon|apply div_canon].
Qed.

Lemma canon_opp x : canon (SFopp x) = canon x.
Proof. by destruct x. Qed.

Lemma strtod_dec_canon s d r : strtod_dec s = Some (d, r) → canon d = true.
Proof.
  unfold strtod_dec. destruct (read_mantissa 10 s) as [[[m nfrac] n] r'].
  destruct (Nat.eqb n 0); [done|]. destruct (read_exponent _ _ r').
  intros [= <- _]. apply scale10_canon.
Qed.

Lemma strtod_hex_canon s d r : strtod_hex s = Some (d, r) → canon d = true.
Proof.
  unfold strtod_hex. destruct (read_mantissa 16 s) as [[[m nfrac] n] r'].
  destruct (Nat.eqb n 0); [done|]. destruct (read_exponent _ _ r').
  intros [= <- _]. apply binary_normalize_canon.
Qed.

Lemma strtod_canon s d r : strtod s = Some (d, r) → canon d = true.
Proof.
  unfold strtod. destruct (read_sign (skip_while is_space s)) as [neg s'].
  destruct (strtod_unsigned s') as [[d' r']|] eqn:Hu; [|done]. intros [= <- _].
  assert (canon d' = true) as Hd.
  { revert Hu. unfold strtod_unsigned.
    destruct (has_prefix_ci "infinity" s'); [by intros [= <- _]|].
    destruct (has_prefix_ci "inf" s'); [by intros [= <- _]|].
    destruct (has_prefix_ci "nan" s'); [by intros [= <- _]|].
    destruct (has_prefix_ci "0x" s'); [|by apply strtod_dec_canon].
    destruct (strtod_hex (sdrop 2 s')) as [[d'' r'']|] eqn:Hh; [|by apply strtod_dec_canon].
    intros [= <- _]. by eapply strtod_hex_canon. }
  by destruct neg; rewrite ?canon_opp.
Qed.

Lemma atof_canon s : canon (atof s) = true.
Proof.
  unfold atof. destruct (strtod s) as [[d r]|] eqn:H; [|done]. by eapply strtod_canon.
Qed.

Lemma d_of_Z_canon z : canon (d_of_Z z) = true.
Proof. apply binary_normalize_canon. Qed.

(** ** Signs *)

(** A canonical number that is not a NaN and not below zero. *)
Lemma canon_nonneg x : canon x = true → is_nan x = false → (x <? S754_zero false)%D = false → nonneg x = true.
Proof. by destruct x as [s|[]| |[] m e]; cbn; intros; rewrite ?andb_true_r. Qed.

Lemma canon_pos x : canon x = true → is_nan x = false → (x <=? S754_zero false)%D = false → nonneg x = true.
Proof. by destruct x as [[]|[]| |[] m e]; cbn; intros; rewrite ?andb_true_r. Qed.

Lemma binary_round_pack s m e : ∃ r e1, binary_round dprec demax s m e = pack s r e1.
Proof.
  unfold binary_round, shl_align. change (fexp dprec demax) with E.
  destruct (E (Zpos (digits2_pos m) + e) - e) as [|p|d] eqn:Hd.
  1, 2: destruct (bra_char s m e) as (r & _ & _ & ->); [lia|eauto].
  edestruct (bra_char s (Pos.iter xO m d)) as (r & _ & _ & ->); [|eauto].
  rewrite digits2_shift. apply Z.eq_le_incl. f_equal. lia.
Qed.

(** An integer keeps its sign, and is a number. *)
Lemma d_of_Z_nonneg z : 0 <= z → nonneg (d_of_Z z) = true.
Proof.
  intros Hz. pose proof (d_of_Z_canon z) as Hc. destruct z as [|p|p]; [done| |lia].
  unfold d_of_Z in *. cbn [binary_normalize] in *.
  destruct (binary_round_pack false p 0) as (r & e & He). rewrite He in *.
  unfold pack in *. destruct r as [|q|q]; [done| |done].
  destruct (Zpos q =? 2 ^ 53); [destruct (e + 1 <=? 971)|destruct (e <=? 971)]; done.
Qed.

(** The arithmetic of non-negative numbers never makes a NaN; only one that was
    already there gets through. *)
Lemma dmul_nan_l x y : is_nan x = true → is_nan (dmul x y) = true.
Proof. by destruct x, y. Qed.

Lemma dadd_nan_r x y : is_nan y = true → is_nan (dadd x y) = true.
Proof. by destruct x, y. Qed.
