(* ===== verification/Config.v ===== *)
(** * gaveld: configuration

    The constants of [src/gaveld/config.h].  A floating constant is the double
    its decimal literal denotes, computed once with [atof]. *)

From S2P Require Import Prelude CString Double.

(** ** Paths *)

Definition BASE_DIR : string := "/data/data/com.termux/files/home/MiuiserPeruser".
Definition INGEST_PIPE : string := BASE_DIR +:+ "/pipes/ingest.pipe".
Definition GAVELD_SOCK : string := BASE_DIR +:+ "/pipes/gaveld.sock".
Definition RISH_PATH : string := BASE_DIR +:+ "/rish".

(** ** Scoring thresholds *)

Definition THRESH_JAILED : double := Eval vm_compute in atof "80.0".
Definition THRESH_HOUSE_ARREST : double := Eval vm_compute in atof "70.0".
Definition THRESH_QUARANTINED : double := Eval vm_compute in atof "50.0".
Definition THRESH_WARNED : double := Eval vm_compute in atof "40.0".
Definition THRESH_WATCHED : double := Eval vm_compute in atof "20.0".
Definition MAX_SCORE : double := Eval vm_compute in atof "100.0".
Definition SCORE_FLOOR : double := Eval vm_compute in atof "0.0".

(** ** Decay *)

Definition DECAY_INTERVAL_SEC : Z := 120.
Definition DECAY_FACTOR : double := Eval vm_compute in atof "0.88".
Definition SIGNAL_WINDOW_SEC : Z := 120.

(** ** Consent timeouts (seconds) *)

Definition CONSENT_TIMEOUT_JAILED : Z := 0.
Definition CONSENT_TIMEOUT_HOUSE_ARREST : Z := 1800.
Definition CONSENT_TIMEOUT_QUARANTINED : Z := 600.
Definition CONSENT_JAILED_HARD_LIMIT : Z := 86400.
Definition CONSENT_RENOTIFY_INTERVAL : Z := 600.

(** ** Ethical floors *)

Definition FLOOR_CLEAN_SIGNAL_MAX_AGE_SEC : Z := 60.

(** ** Audit *)

Definition AUDIT_INTERVAL_SEC : Z := 300.
Definition AUDIT_FLAG_WINDOW_SEC : Z := 3600.
Definition AUDIT_REPEAT_THRESHOLD : Z := 3.
Definition AUDIT_VERDICT_RATE_MAX : Z := 30.
Definition AUDIT_SCORE_INFLATION : double := Eval vm_compute in atof "60.0".

(** ** Covariance multipliers *)

Definition COV_INTEGRITY_VIOLATION : double := Eval vm_compute in atof "1.80".
Definition COV_NETWORK_CPU : double := Eval vm_compute in atof "1.60".
Definition COV_WAKELOCK_NETWORK : double := Eval vm_compute in atof "1.50".
Definition COV_THERMAL_CPU_CRITICAL : double := Eval vm_compute in atof "1.40".
Definition COV_THERMAL_NETWORK : double := Eval vm_compute in atof "1.30".
Definition COV_CPU_WAKELOCK : double := Eval vm_compute in atof "1.20".
Definition COV_STACK_BONUS : double := Eval vm_compute in atof "1.20".
Definition COV_STACK_MIN_SIGNALS : nat := 3.

(** ** Tier modifiers *)

Definition TIER_MOD_OWN_DAEMON : double := Eval vm_compute in atof "0.40".
Definition TIER_MOD_SOVEREIGNTY : double := Eval vm_compute in atof "0.15".
Definition TIER_MOD_MIUI_AOSP : double := Eval vm_compute in atof "0.60".
Definition TIER_MOD_UNKNOWN : double := Eval vm_compute in atof "1.00".

(** ** Recidivism multipliers *)

Definition RECID_MULTI_JAIL : double := Eval vm_compute in atof "2.00".
Definition RECID_SINGLE_JAIL : double := Eval vm_compute in atof "1.60".
Definition RECID_QUARANTINE : double := Eval vm_compute in atof "1.30".
Definition RECID_NONE : double := Eval vm_compute in atof "1.00".

(** ** Queue and buffer sizes *)

Definition INGEST_QUEUE_SIZE : nat := 256.
Definition VERDICT_QUEUE_SIZE : nat := 64.
Definition CONSENT_QUEUE_SIZE : nat := 32.
Definition BUF_SIZE : nat := 2048.

(** Sizes of the character arrays of the records. *)
Definition SOURCE_LEN : nat := 256.
Definition SIGNAL_LEN : nat := 64.
Definition CTX_LEN : nat := 512.
Definition STATE_LEN : nat := 32.
Definition CASE_ID_LEN : nat := 32.

(** 1.0 of the scorer. *)
Definition d_one : double := Eval vm_compute in atof "1.00".
Definition d_zero : double := S754_zero false.
