(* ===== verification/Db.v ===== *)
(** * gaveld: the database ([src/gaveld/db.c])

    The eight tables of [db_init_schema], each a list of rows in rowid order,
    and one definition per access function: what the SQL statement of the
    function reads from or does to those rows.  [db_ok] says whether SQLite can
    prepare and step statements on the connection; when it cannot, every
    function takes its error branch.  A [REAL] column is [option double]:
    SQLite stores a NaN bound with [sqlite3_bind_double] as NULL, and
    [sqlite3_column_double] reads NULL as 0.0. *)

From S2P Require Import Prelude CString Double Config.

(** ** Rows *)

Record threat_row := ThreatRow {
  tr_source : string; tr_score : option double; tr_updated : Z;
  tr_state : string; tr_jails : Z; tr_quarantines : Z }.

Record signal_row := SignalRow { sg_source : string; sg_signal : string; sg_epoch : Z }.

Record case_row := CaseRow {
  cs_id : string; cs_source : string; cs_signal : string; cs_score : option double;
  cs_context : string; cs_status : string; cs_created : Z }.

Record verdict_row := VerdictRow {
  vd_case : string; vd_source : string; vd_verdict : string; vd_score : option double;
  vd_epoch : Z; vd_required : Z; vd_granted : Z; vd_mitre : string; vd_tactic : string }.

Record criminal_row := CriminalRow {
  cr_source : string; cr_verdict : string; cr_reason : string; cr_actor : string; cr_epoch : Z }.

Record scoring_row := ScoringRow {
  sl_epoch : Z; sl_source : string; sl_signal : string; sl_base : option double;
  sl_addition : option double; sl_prev : option double; sl_new : option double;
  sl_state : string; sl_modifiers : string }.

Record consent_row := ConsentRow {
  cq_case : string; cq_source : string; cq_verdict : string; cq_score : option double;
  cq_queued : Z; cq_timeout : Z; cq_action : string }.

Record audit_row := AuditRow { al_epoch : Z; al_check : string; al_result : string; al_detail : string }.

Record db := Db {
  db_ok : bool;
  threat_scores : list threat_row;
  signal_window : list signal_row;
  cases : list case_row;
  verdicts : list verdict_row;
  criminal_record : list criminal_row;
  scoring_log : list scoring_row;
  consent_queue : list consent_row;
  audit_log : list audit_row }.

(** The database [db_init_schema] creates. *)
Definition db_empty : db := Db true [] [] [] [] [] [] [] [].

Definition set_threats (f : list threat_row → list threat_row) (d : db) : db :=
  Db (db_ok d) (f (threat_scores d)) (signal_window d) (cases d) (verdicts d)
     (criminal_record d) (scoring_log d) (consent_queue d) (audit_log d).
Definition set_signals (f : list signal_row → list signal_row) (d : db) : db :=
  Db (db_ok d) (threat_scores d) (f (signal_window d)) (cases d) (verdicts d)
     (criminal_record d) (scoring_log d) (consent_queue d) (audit_log d).
Definition set_cases (f : list case_row → list case_row) (d : db) : db :=
  Db (db_ok d) (threat_scores d) (signal_window d) (f (cases d)) (verdicts d)
     (criminal_record d) (scoring_log d) (consent_queue d) (audit_log d).
Definition set_verdicts (f : list verdict_row → list verdict_row) (d : db) : db :=
  Db (db_ok d) (threat_scores d) (signal_window d) (cases d) (f (verdicts d))
     (criminal_record d) (scoring_log d) (consent_queue d) (audit_log d).
Definition set_criminal (f : list criminal_row → list criminal_row) (d : db) : db :=
  Db (db_ok d) (threat_scores d) (signal_window d) (cases d) (verdicts d)
     (f (criminal_record d)) (scoring_log d) (consent_queue d) (audit_log d).
Definition set_scoring (f : list scoring_row → list scoring_row) (d : db) : db :=
  Db (db_ok d) (threat_scores d) (signal_window d) (cases d) (verdicts d)
     (criminal_record d) (f (scoring_log d)) (consent_queue d) (audit_log d).
Definition set_consents (f : list consent_row → list consent_row) (d : db) : db :=
  Db (db_ok d) (threat_scores d) (signal_window d) (cases d) (verdicts d)
     (criminal_record d) (scoring_log d) (f (consent_queue d)) (audit_log d).
Definition set_audits (f : list audit_row → list audit_row) (d : db) : db :=
  Db (db_ok d) (threat_scores d) (signal_window d) (cases d) (verdicts d)
     (criminal_record d) (scoring_log d) (consent_queue d) (f (audit_log d)).

(** SQLite stops or starts being able to run statements. *)
Definition set_health (ok : bool) (d : db) : db :=
  Db ok (threat_scores d) (signal_window d) (cases d) (verdicts d)
     (criminal_record d) (scoring_log d) (consent_queue d) (audit_log d).

(** ** Binding and reading columns *)

Definition bind_double (x : double) : option double :=
  if is_nan x then None else Some x.

Definition column_double (c : option double) : double := default d_zero c.

(** A statement run with [sqlite3_step]: 0 when it is done, -1 otherwise. *)
Definition run_stmt (f : db → db) : M db Z :=
  λ d, if db_ok d then (0, f d) else (-1, d).

(** A [SELECT] that leaves [dflt] when it cannot be prepared. *)
Definition query {A} (dflt : A) (f : db → A) : M db A :=
  λ d, (if db_ok d then f d else dflt, d).

(** [INSERT ... ON CONFLICT(key) DO UPDATE]: replace the row with the key where
    it stands, or append it. *)
Fixpoint upsert {R} (same : R → bool) (r : R) (l : list R) : list R :=
  match l with
  | [] => [r]
  | r' :: l' => if same r' then r :: l' else r' :: upsert same r l'
  end.

(** ** threat_scores *)

Record db_threat_t := DbThreat {
  dt_source : string; dt_score : double; dt_state : string;
  dt_jails : Z; dt_quarantines : Z; dt_updated : Z }.

Definition threat_key (source : string) (r : threat_row) : bool :=
  String.eqb (tr_source r) source.

(** The record a row fills, over the defaults of a zeroed record. *)
Definition threat_of_row (source : string) (r : threat_row) : db_threat_t :=
  DbThreat (strncpy SOURCE_LEN source) (column_double (tr_score r))
    (strncpy STATE_LEN (tr_state r)) (tr_jails r) (tr_quarantines r) (tr_updated r).

Definition threat_default (source : string) : db_threat_t :=
  DbThreat (strncpy SOURCE_LEN source) d_zero "CLEAN" 0 0 0.

Definition db_threat_load (source : string) : M db (bool * db_threat_t) :=
  query (false, threat_default source) (λ d,
    match List.find (threat_key source) (threat_scores d) with
    | Some r => (true, threat_of_row source r)
    | None => (false, threat_default source)
    end).

Definition row_of_threat (rec : db_threat_t) : threat_row :=
  ThreatRow (dt_source rec) (bind_double (dt_score rec)) (dt_updated rec)
    (dt_state rec) (dt_jails rec) (dt_quarantines rec).

Definition db_threat_upsert (rec : db_threat_t) : M db Z :=
  run_stmt (set_threats (upsert (threat_key (dt_source rec)) (row_of_threat rec))).

Definition db_threat_all (max : nat) : M db (list db_threat_t) :=
  query [] (λ d, map (λ r, threat_of_row (tr_source r) r) (take max (threat_scores d))).

(** ** signal_window *)

Definition db_signal_insert (source signal : string) (epoch : Z) : M db Z :=
  run_stmt (set_signals (λ l, l ++ [SignalRow source signal epoch])).

Definition db_signal_prune (cutoff : Z) : M db Z :=
  λ d, (0, if db_ok d
           then set_signals (List.filter (λ r, negb (sg_epoch r <? cutoff))) d else d).

Definition in_window (source : string) (since : Z) (r : signal_row) : bool :=
  String.eqb (sg_source r) source && (since <? sg_epoch r).

(** [SELECT DISTINCT]: each value at its first occurrence. *)
Fixpoint distinct (seen l : list string) : list string :=
  match l with
  | [] => []
  | s :: l' => if existsb (String.eqb s) seen then distinct seen l'
               else s :: distinct (s :: seen) l'
  end.

Definition db_signal_distinct (source : string) (since : Z) : M db (list string) :=
  query [] (λ d,
    map (strncpy SIGNAL_LEN)
      (take 16 (distinct [] (map sg_signal
         (List.filter (in_window source since) (signal_window d)))))).

Definition db_signal_active (source : string) (since : Z) : M db bool :=
  query false (λ d, existsb (in_window source since) (signal_window d)).

(** ** cases *)

Record db_case_t := DbCase {
  dc_id : string; dc_source : string; dc_signal : string; dc_score : double;
  dc_context : string; dc_status : string; dc_created : Z }.

Definition row_of_case (c : db_case_t) : case_row :=
  CaseRow (dc_id c) (dc_source c) (dc_signal c) (bind_double (dc_score c))
    (dc_context c) (dc_status c) (dc_created c).

(** [INSERT OR IGNORE]: a row with the same [case_id] makes it a no-op. *)
Definition db_case_insert (c : db_case_t) : M db Z :=
  run_stmt (set_cases (λ l,
    if existsb (λ r, String.eqb (cs_id r) (dc_id c)) l then l else l ++ [row_of_case c])).

Definition with_status (status : string) (r : case_row) : case_row :=
  CaseRow (cs_id r) (cs_source r) (cs_signal r) (cs_score r) (cs_context r) status (cs_created r).

Definition db_case_update_status (case_id status : string) : M db Z :=
  run_stmt (set_cases (map (λ r,
    if String.eqb (cs_id r) case_id then with_status status r else r))).

(** ** verdicts *)

Record db_verdict_t := DbVerdict {
  dv_case : string; dv_source : string; dv_verdict : string; dv_score : double;
  dv_epoch : Z; dv_required : Z; dv_granted : Z; dv_mitre : string; dv_tactic : string }.

Definition row_of_verdict (v : db_verdict_t) : verdict_row :=
  VerdictRow (dv_case v) (dv_source v) (dv_verdict v) (bind_double (dv_score v))
    (dv_epoch v) (dv_required v) (dv_granted v) (dv_mitre v) (dv_tactic v).

Definition db_verdict_insert (v : db_verdict_t) : M db Z :=
  run_stmt (set_verdicts (λ l, l ++ [row_of_verdict v])).

(** [SELECT COUNT( * ) ... WHERE f]. *)
Definition count_where {R} (f : R → bool) (l : list R) : Z :=
  Z.of_nat (length (List.filter f l)).

Definition db_verdict_count_all (since : Z) : M db Z :=
  query 0 (λ d, count_where (λ r, since <? vd_epoch r) (verdicts d)).

Definition db_verdict_count_by_type (verdict : string) (since : Z) : M db Z :=
  query 0 (λ d, count_where (λ r,
    String.eqb (vd_verdict r) verdict && (since <? vd_epoch r)) (verdicts d)).

Definition db_verdict_count_recent (source verdict : string) (since : Z) : M db Z :=
  query 0 (λ d, count_where (λ r,
    String.eqb (vd_source r) source && String.eqb (vd_verdict r) verdict
    && (since <? vd_epoch r)) (verdicts d)).

(** ** criminal_record and scoring_log *)

Definition db_criminal_record_insert (source verdict reason actor : string) (epoch : Z) : M db Z :=
  run_stmt (set_criminal (λ l, l ++ [CriminalRow source verdict reason actor epoch])).

Definition db_scoring_log_insert (epoch : Z) (source signal : string)
    (base_weight final_addition prev_score new_score : double)
    (state modifiers : string) : M db Z :=
  run_stmt (set_scoring (λ l, l ++
    [ScoringRow epoch source signal (bind_double base_weight) (bind_double final_addition)
       (bind_double prev_score) (bind_double new_score) state modifiers])).

(** ** consent_queue *)

Record db_consent_t := DbConsent {
  dq_case : string; dq_source : string; dq_verdict : string; dq_score : double;
  dq_queued : Z; dq_timeout : Z; dq_action : string }.

Definition row_of_consent (c : db_consent_t) : consent_row :=
  ConsentRow (dq_case c) (dq_source c) (dq_verdict c) (bind_double (dq_score c))
    (dq_queued c) (dq_timeout c) (dq_action c).

(** [INSERT OR REPLACE]: the old row with the key goes, the new one gets a new
    rowid. *)
Definition db_consent_insert (c : db_consent_t) : M db Z :=
  run_stmt (set_consents (λ l,
    List.filter (λ r, negb (String.eqb (cq_case r) (dq_case c))) l ++ [row_of_consent c])).

Definition db_consent_remove (case_id : string) : M db Z :=
  run_stmt (set_consents (List.filter (λ r, negb (String.eqb (cq_case r) case_id)))).

(** [ORDER BY queued ASC], rows with equal keys in rowid order. *)
Fixpoint insert_by_queued (r : consent_row) (l : list consent_row) : list consent_row :=
  match l with
  | [] => [r]
  | r' :: l' => if cq_queued r' <=? cq_queued r then r' :: insert_by_queued r l' else r :: l
  end.

Definition order_by_queued (l : list consent_row) : list consent_row :=
  fold_left (λ acc r, insert_by_queued r acc) l [].

Definition consent_of_row (r : consent_row) : db_consent_t :=
  DbConsent (strncpy CASE_ID_LEN (cq_case r)) (strncpy SOURCE_LEN (cq_source r))
    (strncpy STATE_LEN (cq_verdict r)) (column_double (cq_score r)) (cq_queued r)
    (cq_timeout r) (strncpy 16 (cq_action r)).

Definition db_consent_pending (max : nat) : M db (list db_consent_t) :=
  query [] (λ d, map consent_of_row (take max (order_by_queued (consent_queue d)))).

(** ** audit_log *)

Definition db_audit_log_insert (epoch : Z) (check_ result_ detail : string) : M db Z :=
  run_stmt (set_audits (λ l, l ++ [AuditRow epoch check_ result_ detail])).

Definition db_audit_flag_count (check_ : string) (since : Z) : M db Z :=
  query 0 (λ d, count_where (λ r,
    String.eqb (al_check r) check_ && String.eqb (al_result r) "FLAG"
    && (since <? al_epoch r)) (audit_log d)).

(** ** Lemmas *)

Lemma insert_by_queued_elem r l x : x ∈ insert_by_queued r l ↔ x = r ∨ x ∈ l.
Proof.
  induction l as [|r' l IH]; cbn [insert_by_queued].
  - rewrite elem_of_cons. tauto.
  - destruct (_ <=? _); rewrite !elem_of_cons, ?IH; tauto.
Qed.

Lemma order_by_queued_elem l x : x ∈ order_by_queued l ↔ x ∈ l.
Proof.
  assert (∀ acc, x ∈ fold_left (λ acc r, insert_by_queued r acc) l acc ↔ x ∈ l ∨ x ∈ acc) as H.
  { induction l as [|r l IH]; intros acc; cbn [fold_left].
    - rewrite elem_of_nil. tauto.
    - rewrite IH, insert_by_queued_elem, elem_of_cons. tauto. }
  unfold order_by_queued. rewrite H, elem_of_nil. tauto.
Qed.

Lemma find_upsert_same {R} (same : R → bool) (r : R) l :
  same r = true → List.find same (upsert same r l) = Some r.
Proof.
  intros Hr. induction l as [|x l IH]; cbn [upsert List.find]; [by rewrite Hr|].
  destruct (same x) eqn:Hs; cbn [List.find]; [by rewrite Hr|by rewrite Hs].
Qed.

Lemma find_upsert_other {R} (same other : R → bool) (r : R) l :
  (∀ x, same x = true → other x = false) → same r = true →
  List.find other (upsert same r l) = List.find other l.
Proof.
  intros Hdisj Hr. induction l as [|x l IH]; cbn [upsert List.find]; [by rewrite Hdisj|].
  destruct (same x) eqn:Hs; cbn [List.find]; [by rewrite !Hdisj|by rewrite IH].
Qed.

Lemma threat_key_spec source r : threat_key source r = true ↔ tr_source r = source.
Proof. apply String.eqb_eq. Qed.

(** A record whose strings fit its arrays. *)
Definition threat_fits (t : db_threat_t) : Prop :=
  strncpy SOURCE_LEN (dt_source t) = dt_source t ∧ strncpy STATE_LEN (dt_state t) = dt_state t.

(** ** Theorems *)

(** The score table is a map from sources to records: after a record is
    written, loading its source gives it back (a score that is not a number
    comes back as 0), and loading any other source gives what it gave before. *)
Theorem threat_upsert_load t d source :
  db_ok d = true → threat_fits t →
  let d' := exec (db_threat_upsert t) d in
  result (db_threat_upsert t) d = 0 ∧
  result (db_threat_load source) d' =
    if String.eqb source (dt_source t)
    then (true, DbThreat (dt_source t) (if is_nan (dt_score t) then d_zero else dt_score t)
                  (dt_state t) (dt_jails t) (dt_quarantines t) (dt_updated t))
    else result (db_threat_load source) d.
Proof.
  intros Hok [Hsrc Hst]. cbv zeta. unfold db_threat_upsert, db_threat_load, run_stmt, query, exec, result.
  rewrite Hok. cbn [fst snd db_ok set_threats threat_scores]. rewrite Hok. split; [done|].
  destruct (String.eqb_spec source (dt_source t)) as [->|Hne].
  - rewrite find_upsert_same by apply String.eqb_refl. unfold threat_of_row. cbn.
    rewrite Hsrc, Hst. unfold bind_double. by destruct (is_nan (dt_score t)).
  - rewrite find_upsert_other; [done| |apply String.eqb_refl].
    intros x Hx%threat_key_spec. apply String.eqb_neq. congruence.
Qed.

Lemma threat_upsert_load_witness :
  let t := DbThreat "com.bad.app" (d_of_Z 60) "QUARANTINED" 0 1 1000 in
  result (db_threat_load "com.bad.app") (exec (db_threat_upsert t) db_empty) = (true, t).
Proof.
  cbv zeta.
  destruct (threat_upsert_load (DbThreat "com.bad.app" (d_of_Z 60) "QUARANTINED" 0 1 1000)
    db_empty "com.bad.app") as [_ ->]; [reflexivity|split; reflexivity|].
  reflexivity.
Defined.
