(* ===== verification/Weights.v ===== *)
(** * gaveld: signal weights and ATT&CK mapping
    ([src/gaveld/weights.c], [src/gaveld/mitre_map.c])

    The two constant tables, in the order of the source, and the linear scans
    over them. *)

From S2P Require Import Prelude CString.

Record weight_entry_t := Weight {
  we_signal : string; base_weight : Z; mitre_id : option string }.

Definition WEIGHT_TABLE : list weight_entry_t :=
  [
   Weight "HYPEROS_DETECTED" 0 None;
   Weight "EEA_BUILD" 0 None;
   Weight "IMEI_EXPOSED" 35 (Some "T1592");
   Weight "FACEBOOK_PARTNER_BAKED" 22 (Some "T1195");
   Weight "APPSFLYER_PREINSTALL" 20 (Some "T1195");
   Weight "PARTNER_BLOATWARE" 10 None;
   Weight "DEVICE_SERIAL_EXPOSED" 18 (Some "T1592");
   Weight "GOOGLE_CLIENT_XIAOMI" 12 (Some "T1195");
   Weight "MSA_TELEMETRY_ACTIVE" 22 (Some "T1056");
   Weight "MISIGHT_ANALYTICS_ON" 18 (Some "T1056");
   Weight "CLOUD_SYNC_ACTIVE" 12 None;
   Weight "MIUI_OPTIMIZATION_OFF" 10 None;
   Weight "MIUI_OPTIMIZATIONS_OFF" 8 None;
   Weight "MIUI_RESTRICTED_MODE" 15 None;
   Weight "POWERKEEPER_ACTIVE" 8 None;
   Weight "GAME_TURBO_ACTIVE" 10 None;
   Weight "CLEANER_AGGRESSIVE" 12 None;
   Weight "RAM_EXTENSION_ACTIVE" 8 None;
   Weight "DUAL_APPS_ACTIVE" 12 (Some "T1078");
   Weight "MIUI_BOOSTER_RTMODE" 8 None;
   Weight "PROCESS_KILL_AGGRESSIVE" 10 None;
   Weight "APP_DOWNGRADE_ACTIVE" 8 None;
   Weight "SMART_GC_AGGRESSIVE" 8 None;
   Weight "MIUI_POLICY_ACTIVE" 18 None;
   Weight "MIUI_PROPERTY_CHANGED" 15 (Some "T1112");
   Weight "VERIFIED_BOOT_FAIL" 30 (Some "T1542");
   Weight "BOOTLOADER_UNLOCKED" 25 (Some "T1542");
   Weight "ROOT_DETECTED" 35 (Some "T1068");
   Weight "MAGISK_DETECTED" 35 (Some "T1601");
   Weight "SU_PRESENT" 20 (Some "T1068");
   Weight "DEBUGGABLE_BUILD" 15 (Some "T1562");
   Weight "ENCRYPTION_OFF" 30 (Some "T1486");
   Weight "ADB_ENABLED" 25 (Some "T1133");
   Weight "ADB_TCP_ENABLED" 32 (Some "T1133");
   Weight "CHINESE_SUPL_SERVER" 22 (Some "T1071");
   Weight "SELINUX_PERMISSIVE" 30 (Some "T1562");
   Weight "RAM_FAULT_REBOOT" 15 None;
   Weight "FORCED_REBOOT_POLICY" 8 None;
   Weight "SECURITY_SCORE_LOW" 28 (Some "T1562");
   Weight "THERMAL_HAL_MISMATCH" 18 None;
   Weight "THERMAL_WARN" 12 None;
   Weight "THERMAL_CRITICAL" 22 None;
   Weight "CPU_THROTTLING" 15 None;
   Weight "SKIN_TEMP_HIGH" 15 None;
   Weight "BATTERY_TEMP_HIGH" 18 None;
   Weight "THERMAL_STATUS_NONZERO" 20 None;
   Weight "CPU_HOG" 18 (Some "T1641");
   Weight "CPU_HOG_CRITICAL" 28 (Some "T1641");
   Weight "CPU_CLUSTER_IMBALANCE" 12 None;
   Weight "GOVERNOR_PERFORMANCE" 8 None;
   Weight "ALL_CORES_MAXED" 20 (Some "T1641");
   Weight "WAKELOCK_ANOMALY" 20 (Some "T1641");
   Weight "WAKELOCK_FULL_HELD" 25 (Some "T1641");
   Weight "WAKELOCK_DRAIN_HIGH" 20 (Some "T1641");
   Weight "DOZE_INTERRUPTED" 15 None;
   Weight "INCALL_WAKELOCK_ORPHAN" 22 (Some "T1641");
   Weight "BATTERY_LEVEL_CRITICAL" 18 None;
   Weight "BATTERY_SAVER_OFF_LOW" 10 None;
   Weight "EXCESSIVE_CONNECTIONS" 25 (Some "T1071");
   Weight "CONNECTION_SPIKE" 20 (Some "T1071");
   Weight "UNKNOWN_LISTENER" 28 (Some "T1049");
   Weight "DNS_ANOMALY" 22 (Some "T1071");
   Weight "CLEARTEXT_EXFIL" 30 (Some "T1048");
   Weight "WIFI_BSSID_CHANGE" 18 (Some "T1557");
   Weight "VPN_ACTIVE" 10 None;
   Weight "ROAMING_DATA_ACTIVE" 8 None;
   Weight "DUAL_SIM_ACTIVE" 5 None;
   Weight "NO_DNS_RESOLUTION" 20 (Some "T1071");
   Weight "PRIVATE_DNS_INACTIVE" 12 None;
   Weight "ZOMBIE_DETECTED" 18 (Some "T1014");
   Weight "MEM_PRESSURE" 20 (Some "T1499");
   Weight "RAM_CRITICAL" 25 (Some "T1499");
   Weight "SWAP_HIGH" 15 None;
   Weight "LMK_KILL_RATE_HIGH" 15 None;
   Weight "BG_APP_LIMIT_HIGH" 8 None;
   Weight "CPU_HOG_PROCESS" 18 (Some "T1641");
   Weight "SENSOR_ACCESS_ANOMALY" 22 (Some "T1056");
   Weight "SENSOR_FLOOD" 18 (Some "T1641");
   Weight "SENSITIVE_SENSOR_ACTIVE" 20 (Some "T1056");
   Weight "SENSOR_CLIENT_SPIKE" 15 (Some "T1056");
   Weight "KERNEL_MODULE_UNKNOWN" 35 (Some "T1014");
   Weight "DEBUGFS_MOUNTED" 20 (Some "T1014");
   Weight "ROOT_PROCESS_COUNT_HIGH" 25 (Some "T1068");
   Weight "INTEGRITY_SCORE_LOW" 30 (Some "T1565");
   Weight "ROOT_PERSISTENCE" 38 (Some "T1601");
   Weight "ROOTKIT_MODULE" 40 (Some "T1014");
   Weight "INTEGRITY_VIOLATION" 45 (Some "T1565");
   Weight "RWX_MEMORY_PAGE" 35 (Some "T1055");
   Weight "REFLECTIVE_CODE" 35 (Some "T1055");
   Weight "HIDDEN_PROCESS" 38 (Some "T1014");
   Weight "SUSPICIOUS_PATH" 25 (Some "T1036");
   Weight "UNUSUAL_PARENT" 22 (Some "T1055");
   Weight "ANR_DETECTED" 15 None;
   Weight "CRASH_DETECTED" 18 None;
   Weight "OOM_KILL_EVENT" 20 (Some "T1499");
   Weight "APP_SWITCH_ANOMALY" 10 None;
   Weight "WATCHDOG_TRIGGER" 22 None;
   Weight "SERVICE_COUNT_HIGH" 10 None;
   Weight "ANON_EXEC_MEM" 40 (Some "T1055");
   Weight "SYS_TABLE_EXPOSED" 40 (Some "T1014");
   Weight "KPTR_LEAK" 30 (Some "T1014");
   Weight "LD_PRELOAD" 30 (Some "T1574");
   Weight "MIUI_SCRAPER" 25 (Some "T1056");
   Weight "MIUI_MQSAS_ACTIVE" 18 (Some "T1056");
   Weight "MIGARD_ACTIVE" 12 None;
   Weight "PERFSHIELDER_ACTIVE" 8 None;
   Weight "BATTERY_HEALTH_LOW" 20 None;
   Weight "OLD_KERNEL" 15 None;
   Weight "BACKGROUND_RESTRICTED_APPS" 10 None].

Definition signal_is (signal : string) (e : weight_entry_t) : bool :=
  String.eqb (we_signal e) signal.

(** The base weight of the first entry with the signal's name, or 0. *)
Definition weight_lookup (signal : string) : Z :=
  match List.find (signal_is signal) WEIGHT_TABLE with
  | Some e => base_weight e
  | None => 0
  end.

Definition weight_mitre (signal : string) : option string :=
  match List.find (signal_is signal) WEIGHT_TABLE with
  | Some e => mitre_id e
  | None => None
  end.

Definition weight_table_size : nat := length WEIGHT_TABLE.

(** The ATT&CK Mobile table, without its NULL sentinel. *)
Record mitre_entry_t := Mitre {
  signal_type : string; technique_id : string; tactic : string; technique_name : string }.

Definition g_map : list mitre_entry_t :=
  [
   Mitre "KERNEL_MODULE_UNKNOWN" "T1406" "defense-evasion" "Obfuscated Files or Information";
   Mitre "ROOTKIT_MODULE" "T1406" "defense-evasion" "Obfuscated Files or Information";
   Mitre "ANON_RWX_MEM" "T1631" "defense-evasion" "Process Injection";
   Mitre "INJECTOR_LIB" "T1617" "defense-evasion" "Hooking";
   Mitre "EXEC_FROM_DATA" "T1540" "persistence" "Code Injection";
   Mitre "MILLET_ACTIVE" "T1631" "defense-evasion" "Process Injection";
   Mitre "SUSPECT_PORT" "T1421" "discovery" "System Network Connections Discovery";
   Mitre "ADB_TCP_ACTIVE" "T1421" "discovery" "System Network Connections Discovery";
   Mitre "DNS_ANOMALY" "T1521" "command-and-control" "Encrypted Channel";
   Mitre "CONNECTIVITY_DRIFT" "T1410" "collection" "Network Traffic Capture or Redirection";
   Mitre "UNKNOWN_LISTENER" "T1423" "discovery" "Network Service Scanning";
   Mitre "PRIVATE_DNS_INACTIVE" "T1521" "command-and-control" "Encrypted Channel";
   Mitre "FB_PARTNER_ID" "T1643" "impact" "Generate Traffic from Victim";
   Mitre "PARTNER_TOKEN" "T1643" "impact" "Generate Traffic from Victim";
   Mitre "SNO_TRACKING" "T1643" "impact" "Generate Traffic from Victim";
   Mitre "MIUI_ANALYTICS" "T1643" "impact" "Generate Traffic from Victim";
   Mitre "MIUI_DAEMON" "T1426" "discovery" "System Information Discovery";
   Mitre "GDPR_OPT_OUT" "T1426" "discovery" "System Information Discovery";
   Mitre "GUARD_PROVIDER" "T1418" "discovery" "Software Discovery";
   Mitre "EXCESSIVE_WAKELOCK" "T1603" "persistence" "Scheduled Task/Job";
   Mitre "EXCESSIVE_FDS" "T1424" "discovery" "Process Discovery";
   Mitre "ZOMBIE_PROCESSES" "T1424" "discovery" "Process Discovery";
   Mitre "HIDDEN_GAP" "T1424" "discovery" "Process Discovery";
   Mitre "FRIDA_DETECTED" "T1617" "defense-evasion" "Hooking";
   Mitre "XPOSED_DETECTED" "T1617" "defense-evasion" "Hooking"].

Definition mitre_lookup (signal : string) : option mitre_entry_t :=
  List.find (λ e, String.eqb (signal_type e) signal) g_map.
