(* ===== verification/Tier.v ===== *)
(** * gaveld: source tiers ([src/gaveld/tier.c])

    How far a source is trusted.  [sov] is the content of the sovereignty list
    ([None] when the file cannot be opened). *)

From S2P Require Import Prelude CString Double Config.
From Stdlib Require Import Ascii.

Definition OWN_DAEMONS : list string :=
  [
   "splinterd"; "krangd"; "turtlecomd"; "rahzerd"; "leatherheadd"; "metalheadd";
   "granitord"; "ratkingd"; "shredderd"; "fugitoidd"; "bebopd"; "burned"; "rocksteadyd";
   "tigerclawd"; "connectivityd"; "networkd"; "foot_clan_supreme"; "foot_portwatchd";
   "foot_resurrectord"; "foot_ipcshadowd"; "footrunner"; "cpud"; "processd"; "storaged";
   "thermald"; "sysportd"; "daemonhunterd"; "miuiserperuser"; "miuiserperuser-daemon";
   "miuid"; "brain-ctl"; "april_o_neil"; "court_orchestrator"; "court_core_engine";
   "judge_executor"; "parole_engine"; "scoring_engine"; "scored"; "gaveld";
   "internal_affairs"; "consent_gate"; "escalation_daemon"; "visitors_pass_daemon";
   "turtlepower_daemon"; "superhero_adapter"; "superhero"; "baxter_stockman";
   "court_dispatcher"].

Definition SYSTEM_PREFIXES : list string :=
  [
   "com.miui."; "com.xiaomi."; "com.hyperos."; "android."; "com.android."; "miui.";
   "com.lbe."; "com.qualcomm."; "com.qti."; "org.codeaurora."].

(** Strip the path. *)
Definition basename_of (source : string) : string :=
  match after_last "/" source with
  | Some p => p
  | None => source
  end.

Definition tier_is_own_daemon (source : string) : bool :=
  existsb (String.eqb (basename_of source)) OWN_DAEMONS.

(** The package a line of the sovereignty list names: [sscanf "%255[^|\n]"]
    into a zeroed buffer, with trailing blanks removed. *)
Definition sovereignty_pkg (line : string) : string :=
  trim_end (λ c, Ascii.eqb c " " || Ascii.eqb c (chr 9))
    (stake 255 (break_at (λ c, Ascii.eqb c "|" || Ascii.eqb c NL) line).1).

(** Comments and empty lines are skipped. *)
Definition sovereignty_skips (line : string) : bool :=
  match line with
  | String c _ => Ascii.eqb c "#" || Ascii.eqb c NL
  | EmptyString => false
  end.

Definition sovereignty_matches (source line : string) : bool :=
  negb (sovereignty_skips line)
  && negb (String.eqb (sovereignty_pkg line) "")
  && String.eqb (sovereignty_pkg line) source.

Definition tier_is_sovereignty (sov : option string) (source : string) : bool :=
  match sov with
  | None => false
  | Some text => existsb (sovereignty_matches source) (read_lines 512 text)
  end.

Definition tier_is_system (source : string) : bool :=
  existsb (λ p, has_prefix p source) SYSTEM_PREFIXES.

Definition tier_modifier (sov : option string) (source : string) : double :=
  if String.eqb source "" then TIER_MOD_UNKNOWN
  else if tier_is_own_daemon source then TIER_MOD_OWN_DAEMON
  else if tier_is_sovereignty sov source then TIER_MOD_SOVEREIGNTY
  else if tier_is_system source then TIER_MOD_MIUI_AOSP
  else TIER_MOD_UNKNOWN.

#[global] Arguments tier_is_own_daemon : simpl never.
#[global] Arguments tier_is_sovereignty : simpl never.
#[global] Arguments tier_is_system : simpl never.
