(* ===== verification/Ring.v ===== *)
(** * Bounded queues

    The two thread queues of gaveld ([g_queue] of [src/gaveld/ingest.c] and of
    [src/gaveld/cases.c]) are the same ring buffer: a fixed array with a read
    position, a write position and a count, which drops its oldest element when
    a push finds it full.  The ring, its specification as a bounded FIFO list,
    and the interface [BoundedQueue] through which the rest of gaveld uses it. *)

From S2P Require Import Prelude.

(** ** The ring buffer *)

Record ring (A : Type) := Ring {
  r_buf : list A; r_head : nat; r_tail : nat; r_count : nat }.
Arguments Ring {A}.
Arguments r_buf {A}.
Arguments r_head {A}.
Arguments r_tail {A}.
Arguments r_count {A}.

Section ring_def.
Context {A : Type} (n : nat).

(** The statics before the first push: a zeroed array, all positions 0. *)
Definition ring_init (zero : A) : ring A := Ring (replicate n zero) 0 0 0.

(** [if (g_count >= SIZE)]: forget the oldest element. *)
Definition ring_make_room (q : ring A) : ring A :=
  if (n <=? r_count q)%nat
  then Ring (r_buf q) ((r_head q + 1) mod n) (r_tail q) (r_count q - 1)
  else q.

Definition ring_push (x : A) (q : ring A) : ring A :=
  let q := ring_make_room q in
  Ring (<[r_tail q := x]> (r_buf q)) (r_head q) ((r_tail q + 1) mod n) (r_count q + 1).

(** The dequeue after its wait: [None] is the result 0 of an empty queue. *)
Definition ring_pop (q : ring A) : option (A * ring A) :=
  if (r_count q =? 0)%nat then None
  else match r_buf q !! r_head q with
       | Some x => Some (x, Ring (r_buf q) ((r_head q + 1) mod n) (r_tail q) (r_count q - 1))
       | None => None
       end.

Definition ring_depth (q : ring A) : nat := r_count q.

(** The elements from the oldest to the newest. *)
Definition ring_elems (q : ring A) : list A :=
  omap (λ i, r_buf q !! ((r_head q + i) mod n)%nat) (seq 0 (r_count q)).

(** Positions are inside the array and the write position is [count] ahead of
    the read position. *)
Record ring_wf (q : ring A) : Prop := RingWf {
  rw_size : (0 < n)%nat;
  rw_len : length (r_buf q) = n;
  rw_head : (r_head q < n)%nat;
  rw_count : (r_count q <= n)%nat;
  rw_tail : r_tail q = ((r_head q + r_count q) mod n)%nat }.

End ring_def.

(** ** The specification: a list that keeps the newest [cap] elements *)

Definition fifo_push {A} (cap : nat) (x : A) (l : list A) : list A :=
  (if (cap <=? length l)%nat then tail l else l) ++ [x].

Definition fifo_pop {A} (l : list A) : option (A * list A) :=
  match l with [] => None | x :: l' => Some (x, l') end.

(** What a queue promises to the threads that use it. *)
Class BoundedQueue (Q A : Type) (cap : nat) := {
  bq_wf : Q → Prop;
  bq_elems : Q → list A;
  bq_push : A → Q → Q;
  bq_pop : Q → option (A * Q);
  bq_push_wf x q : bq_wf q → bq_wf (bq_push x q);
  bq_push_elems x q : bq_wf q → bq_elems (bq_push x q) = fifo_push cap x (bq_elems q);
  bq_pop_wf q x q' : bq_wf q → bq_pop q = Some (x, q') → bq_wf q';
  bq_pop_elems q : bq_wf q →
    match bq_pop q with
    | Some (x, q') => bq_elems q = x :: bq_elems q'
    | None => bq_elems q = []
    end;
  bq_bound q : bq_wf q → (length (bq_elems q) <= cap)%nat }.

(** ** The ring meets the specification *)

Section ring_facts.
Context {A : Type} (n : nat).
Implicit Types (q : ring A) (x : A).

Lemma ring_init_wf (zero : A) : (0 < n)%nat → ring_wf n (ring_init n zero).
Proof.
  intros Hn. split; cbn; [done|apply length_replicate|done|lia|].
  symmetry. by apply Nat.mod_small.
Qed.

Lemma mod_shift a b : (0 < n)%nat → ((a mod n + b) mod n = (a + b) mod n)%nat.
Proof. intros Hn. by rewrite Nat.Div0.add_mod_idemp_l. Qed.

(** Inside the ring two offsets below [n] reach the same cell only if equal. *)
Lemma mod_inj h i j :
  (i < n)%nat → (j < n)%nat → ((h + i) mod n = (h + j) mod n)%nat → i = j.
Proof.
  intros Hi Hj Heq.
  pose proof (Nat.div_mod_eq (h + i) n). pose proof (Nat.div_mod_eq (h + j) n).
  assert (((h + i) / n = (h + j) / n) ∨ ((h + i) / n ≠ (h + j) / n))%nat as [|Hne] by lia; [nia|].
  exfalso. apply Nat.lt_gt_cases in Hne. nia.
Qed.

Lemma make_room_wf q : ring_wf n q → ring_wf n (ring_make_room n q).
Proof.
  intros [Hn Hl Hh Hc Ht]. unfold ring_make_room.
  destruct (Nat.leb_spec n (r_count q)) as [Hfull|]; [|done].
  split; cbn; [done|done|apply Nat.mod_upper_bound; lia|lia|].
  rewrite mod_shift, Ht by done. f_equal. lia.
Qed.

Lemma make_room_count q : ring_wf n q → (r_count (ring_make_room n q) < n)%nat.
Proof.
  intros [Hn _ _ Hc _]. unfold ring_make_room.
  destruct (Nat.leb_spec n (r_count q)); cbn; lia.
Qed.

Lemma omap_seq_shift (f : nat → option A) k c :
  omap f (seq (S k) c) = omap (λ i, f (S i)) (seq k c).
Proof. revert k. induction c as [|c IH]; intros k; cbn; [done|]. by rewrite IH. Qed.

Lemma omap_seq_ext (f g : nat → option A) k c :
  (∀ i, (k <= i < k + c)%nat → f i = g i) → omap f (seq k c) = omap g (seq k c).
Proof.
  revert k. induction c as [|c IH]; intros k H; cbn; [done|].
  rewrite H by lia. rewrite (IH (S k)); [done|]. intros i Hi. apply H. lia.
Qed.

(** Dropping the oldest element. *)
Lemma drop_oldest q :
  ring_wf n q → (0 < r_count q)%nat →
  ∃ x, r_buf q !! r_head q = Some x ∧
    ring_elems n q =
    x :: ring_elems n (Ring (r_buf q) ((r_head q + 1) mod n) (r_tail q) (r_count q - 1)).
Proof.
  intros [Hn Hl Hh Hc Ht] Hpos.
  destruct (r_buf q !! r_head q) as [x|] eqn:Hx; [|apply lookup_ge_None in Hx; lia].
  exists x. split; [done|]. unfold ring_elems at 1.
  destruct (r_count q) as [|c] eqn:Hcount; [lia|]. cbn.
  rewrite Nat.add_0_r, Nat.mod_small, Hx by done. f_equal.
  unfold ring_elems. cbn. rewrite omap_seq_shift, Nat.sub_0_r.
  apply omap_seq_ext. intros i _. f_equal. rewrite mod_shift by done. f_equal. lia.
Qed.

Lemma make_room_elems q :
  ring_wf n q →
  ring_elems n (ring_make_room n q) =
  if (n <=? r_count q)%nat then tail (ring_elems n q) else ring_elems n q.
Proof.
  intros Hwf. unfold ring_make_room. destruct (Nat.leb_spec n (r_count q)); [|done].
  destruct (drop_oldest q Hwf) as (x & _ & ->); [destruct Hwf; lia|done].
Qed.

Lemma length_elems q : ring_wf n q → length (ring_elems n q) = r_count q.
Proof.
  remember (r_count q) as c eqn:Hc. revert q Hc.
  induction c as [|c IH]; intros q Hc Hwf.
  { unfold ring_elems. by rewrite <- Hc. }
  destruct (drop_oldest q Hwf) as (x & _ & ->); [lia|]. cbn [length]. f_equal.
  apply IH; cbn; [lia|]. destruct Hwf as [Hn Hl Hh Hcc Ht].
  split; cbn; [done|done|apply Nat.mod_upper_bound; lia|lia|].
  rewrite mod_shift, Ht by done. f_equal. lia.
Qed.

Lemma ring_push_wf x q : ring_wf n q → ring_wf n (ring_push n x q).
Proof.
  intros Hwf. pose proof (make_room_count q Hwf) as Hlt.
  apply make_room_wf in Hwf as [Hn Hl Hh Hc Ht]. unfold ring_push.
  split; cbn; [done|by rewrite length_insert|done|lia|].
  rewrite Ht, mod_shift by done. f_equal. lia.
Qed.

Lemma ring_push_elems x q :
  ring_wf n q → ring_elems n (ring_push n x q) = fifo_push n x (ring_elems n q).
Proof.
  intros Hwf. unfold fifo_push. rewrite length_elems, <- make_room_elems by done.
  pose proof (make_room_count q Hwf) as Hlt. apply make_room_wf in Hwf.
  unfold ring_push. set (q1 := ring_make_room n q) in *.
  destruct Hwf as [Hn Hl Hh Hc Ht]. unfold ring_elems at 1. cbn.
  rewrite Nat.add_1_r, seq_S, omap_app. f_equal.
  - apply omap_seq_ext. intros i Hi. apply list_lookup_insert_ne.
    rewrite Ht. intros Heq. apply mod_inj in Heq; lia.
  - cbn. rewrite Ht, list_lookup_insert_eq; [done|].
    rewrite Hl. apply Nat.mod_upper_bound. lia.
Qed.

Lemma ring_pop_wf q x q' : ring_wf n q → ring_pop n q = Some (x, q') → ring_wf n q'.
Proof.
  intros [Hn Hl Hh Hc Ht]. unfold ring_pop. destruct (Nat.eqb_spec (r_count q) 0); [done|].
  destruct (r_buf q !! r_head q); [|done]. intros [= _ <-].
  split; cbn; [done|done|apply Nat.mod_upper_bound; lia|lia|].
  rewrite mod_shift, Ht by done. f_equal. lia.
Qed.

Lemma ring_pop_elems q :
  ring_wf n q →
  match ring_pop n q with
  | Some (x, q') => ring_elems n q = x :: ring_elems n q'
  | None => ring_elems n q = []
  end.
Proof.
  intros Hwf. unfold ring_pop. destruct (Nat.eqb_spec (r_count q) 0) as [H0|H0].
  { unfold ring_elems. by rewrite H0. }
  destruct (drop_oldest q Hwf) as (x & -> & ->); [lia|done].
Qed.

Lemma ring_bound q : ring_wf n q → (length (ring_elems n q) <= n)%nat.
Proof. intros Hwf. rewrite length_elems by done. apply Hwf. Qed.

Lemma fifo_push_last x (l : list A) : last (fifo_push n x l) = Some x.
Proof. unfold fifo_push. apply last_snoc. Qed.

Lemma elem_of_fifo_push x y (l : list A) : y ∈ fifo_push n x l → y = x ∨ y ∈ l.
Proof.
  unfold fifo_push. rewrite elem_of_app, list_elem_of_singleton.
  destruct (n <=? length l)%nat, l as [|z l]; cbn; rewrite ?elem_of_cons; tauto.
Qed.

End ring_facts.

#[export] Instance ring_queue (A : Type) (n : nat) : BoundedQueue (ring A) A n := {|
  bq_wf := ring_wf n;
  bq_elems := ring_elems n;
  bq_push := ring_push n;
  bq_pop := ring_pop n;
  bq_push_wf := ring_push_wf n;
  bq_push_elems := ring_push_elems n;
  bq_pop_wf := ring_pop_wf n;
  bq_pop_elems := ring_pop_elems n;
  bq_bound := ring_bound n |}.
