(* ===== verification/World.v ===== *)
(** * gaveld: the process state

    Everything the threads of the daemon share: the clock, the database, the
    two flag files, the thread queues, the pending consent table, the backend
    chosen by [enforce_init] and the commands handed to [system()], in order.
    A function of gaveld is a computation [G A] over this state.  The clock does
    not move inside one function call; the steps of the daemon ([Gaveld.v]) move
    it between calls.  Log lines ([glog]) are not part of the state. *)

From S2P Require Import Prelude CString Double Config Db Ring.

(** ** The records the threads exchange *)

(** [ingest_record_t] of [ingest.h]. *)
Record ingest_record_t := Ingest {
  in_source : string; in_signal : string; in_weight : double; in_ctx : string;
  in_is_query : bool; in_query_cmd : string }.

(** [score_result_t] of [scorer.h]. *)
Record score_result_t := ScoreResult {
  sr_source : string; sr_prev : double; sr_new : double; sr_delta : double;
  sr_state : string; sr_jails : Z; sr_quarantines : Z }.

(** [case_record_t] of [cases.h]. *)
Record case_record_t := CaseRecord {
  ca_id : string; ca_source : string; ca_signal : string; ca_state : string;
  ca_score : double; ca_delta : double; ca_ctx : string; ca_epoch : Z }.

(** [consent_request_t] of [consent.h]. *)
Record consent_request_t := ConsentRequest {
  rq_case : string; rq_source : string; rq_verdict : string; rq_score : double;
  rq_queued : Z; rq_timeout : Z; rq_action : string }.

(** [pending_t] of [consent.c]. *)
Record pending_t := Pending {
  pd_req : consent_request_t; pd_notified : Z; pd_active : bool; pd_reply : Z }.

(** Zeroed records, what [memset(.., 0, ..)] and the statics hold. *)
Definition ingest_zero : ingest_record_t := Ingest "" "" d_zero "" false "".
Definition case_zero : case_record_t := CaseRecord "" "" "" "" d_zero d_zero "" 0.
Definition request_zero : consent_request_t := ConsentRequest "" "" "" d_zero 0 0 "".
Definition pending_zero : pending_t := Pending request_zero 0 false 0.

(** [backend_t] of [enforce.c]. *)
Inductive backend_t := BACKEND_RISH | BACKEND_ADB | BACKEND_DIRECT.

(** Which function handed a command to [system()]. *)
Inductive call_site := SiteEnforce | SiteNotify | SiteDismiss | SiteAudit.

#[export] Instance call_site_eq_dec : EqDecision call_site.
Proof. solve_decision. Defined.

Record sys_call := SysCall { sc_site : call_site; sc_cmd : string }.

(** ** The state *)

Record world := World {
  w_ms : Z;                       (* CLOCK_REALTIME, in milliseconds *)
  w_db : db;
  w_sov : option string;          (* content of SOVEREIGNTY_LIST *)
  w_ia_lock : bool;               (* IA_LOCK can be opened *)
  w_backend : backend_t;
  w_ingest : ring ingest_record_t;
  w_cases : ring case_record_t;
  w_pending : list pending_t;
  w_ia_signal : bool;
  w_sys : list sys_call }.

Definition set_ms (x : Z) (w : world) : world :=
  World x (w_db w) (w_sov w) (w_ia_lock w) (w_backend w) (w_ingest w) (w_cases w)
    (w_pending w) (w_ia_signal w) (w_sys w).
Definition set_db (x : db) (w : world) : world :=
  World (w_ms w) x (w_sov w) (w_ia_lock w) (w_backend w) (w_ingest w) (w_cases w)
    (w_pending w) (w_ia_signal w) (w_sys w).
Definition set_files (sov : option string) (lock : bool) (w : world) : world :=
  World (w_ms w) (w_db w) sov lock (w_backend w) (w_ingest w) (w_cases w)
    (w_pending w) (w_ia_signal w) (w_sys w).
Definition set_backend (x : backend_t) (w : world) : world :=
  World (w_ms w) (w_db w) (w_sov w) (w_ia_lock w) x (w_ingest w) (w_cases w)
    (w_pending w) (w_ia_signal w) (w_sys w).
Definition set_ingest (x : ring ingest_record_t) (w : world) : world :=
  World (w_ms w) (w_db w) (w_sov w) (w_ia_lock w) (w_backend w) x (w_cases w)
    (w_pending w) (w_ia_signal w) (w_sys w).
Definition set_caseq (x : ring case_record_t) (w : world) : world :=
  World (w_ms w) (w_db w) (w_sov w) (w_ia_lock w) (w_backend w) (w_ingest w) x
    (w_pending w) (w_ia_signal w) (w_sys w).
Definition set_pending (x : list pending_t) (w : world) : world :=
  World (w_ms w) (w_db w) (w_sov w) (w_ia_lock w) (w_backend w) (w_ingest w) (w_cases w)
    x (w_ia_signal w) (w_sys w).
Definition set_ia_signal (x : bool) (w : world) : world :=
  World (w_ms w) (w_db w) (w_sov w) (w_ia_lock w) (w_backend w) (w_ingest w) (w_cases w)
    (w_pending w) x (w_sys w).
Definition set_sys (x : list sys_call) (w : world) : world :=
  World (w_ms w) (w_db w) (w_sov w) (w_ia_lock w) (w_backend w) (w_ingest w) (w_cases w)
    (w_pending w) (w_ia_signal w) x.

Abbreviation G := (M world).

(** A database call. *)
Definition on_db {A} (c : M db A) : G A := λ w,
  let '(a, d) := c (w_db w) in (a, set_db d w).

(** [time(NULL)]. *)
Definition time_now : G Z := gets (λ w, w_ms w / 1000).

(** [system(cmd)]; its exit status only reaches the log. *)
Definition system (site : call_site) (cmd : string) : G unit :=
  modify (λ w, set_sys (w_sys w ++ [SysCall site cmd]) w).

(** The daemon before its threads start. *)
Definition world_init (d : db) (sov : option string) (lock : bool) (b : backend_t) (ms : Z) : world :=
  World ms d sov lock b (ring_init INGEST_QUEUE_SIZE ingest_zero)
    (ring_init VERDICT_QUEUE_SIZE case_zero)
    (replicate CONSENT_QUEUE_SIZE pending_zero) false [].

(** ** Lemmas *)

Lemma exec_on_db {A} (c : M db A) w : exec (on_db c) w = set_db (exec c (w_db w)) w.
Proof. unfold on_db. unmonad. by destruct (c (w_db w)). Qed.

Lemma result_on_db {A} (c : M db A) w : result (on_db c) w = result c (w_db w).
Proof. unfold on_db. unmonad. by destruct (c (w_db w)). Qed.

Lemma exec_time_now w : exec time_now w = w.
Proof. done. Qed.

Lemma result_time_now w : result time_now w = w_ms w / 1000.
Proof. done. Qed.

Lemma exec_system site cmd w :
  exec (system site cmd) w = set_sys (w_sys w ++ [SysCall site cmd]) w.
Proof. done. Qed.

Lemma exec_run_stmt f d : exec (run_stmt f) d = if db_ok d then f d else d.
Proof. unfold run_stmt. unmonad. by destruct (db_ok d). Qed.

Lemma result_run_stmt f d : result (run_stmt f) d = if db_ok d then 0 else -1.
Proof. unfold run_stmt. unmonad. by destruct (db_ok d). Qed.

Lemma exec_query {A} (a : A) f d : exec (query a f) d = d.
Proof. done. Qed.

Lemma result_query {A} (a : A) f d : result (query a f) d = if db_ok d then f d else a.
Proof. done. Qed.

#[export] Hint Rewrite @exec_on_db @result_on_db exec_time_now result_time_now
  exec_system exec_run_stmt result_run_stmt @exec_query @result_query : monad.

(** ** Calls that only touch the database *)

Definition db_only (w w' : world) : Prop := ∃ d, w' = set_db d w.

Global Instance db_only_preorder : PreOrder db_only.
Proof.
  split.
  - intros w. exists (w_db w). by destruct w.
  - intros w1 w2 w3 [d ->] [d' ->]. by exists d'.
Qed.

Lemma keeps_on_db {A} (c : M db A) : keeps db_only (on_db c).
Proof. intros w. rewrite exec_on_db. eexists; reflexivity. Qed.

Lemma keeps_time_now R `{!PreOrder R} : keeps R time_now.
Proof. apply keeps_gets, _. Qed.

#[export] Hint Resolve keeps_on_db keeps_time_now : mp.

(** What a call that only touches the database leaves alone. *)
Lemma db_only_fields w w' :
  db_only w w' →
  w_ms w' = w_ms w ∧ w_sov w' = w_sov w ∧ w_ia_lock w' = w_ia_lock w ∧
  w_backend w' = w_backend w ∧ w_ingest w' = w_ingest w ∧ w_cases w' = w_cases w ∧
  w_pending w' = w_pending w ∧ w_ia_signal w' = w_ia_signal w ∧ w_sys w' = w_sys w.
Proof. intros [d ->]. by destruct w. Qed.

(** ** Calls that leave a part of the state alone

    [same_on f]: the view [f] of the state is the same before and after. *)

Definition same_on {T} (f : world → T) (w w' : world) : Prop := f w' = f w.

Global Instance same_on_preorder {T} (f : world → T) : PreOrder (same_on f).
Proof. split; red; unfold same_on; congruence. Qed.

Lemma same_on_db {T A} (f : world → T) (c : M db A) :
  (∀ w, f (set_db (exec c (w_db w)) w) = f w) → keeps (same_on f) (on_db c).
Proof. intros Hc w. unfold same_on. by rewrite exec_on_db. Qed.

Lemma same_on_modify {T} (f : world → T) g :
  (∀ w, f (g w) = f w) → keeps (same_on f) (modify g).
Proof. intros Hg w. apply Hg. Qed.

(** An invariant that only reads a view is preserved with it. *)
Lemma same_on_preserves {T A} (f : world → T) (I : world → Prop) (c : G A) :
  (∀ w w', f w' = f w → I w → I w') → keeps (same_on f) c → preserves I c.
Proof. intros HI Hc w. apply HI, Hc. Qed.

(** Database calls and assignments that do not touch the view. *)
Ltac same_on_prim :=
  lazymatch goal with
  | |- keeps (same_on _) (on_db _) =>
      apply same_on_db; intros [? [[]]]; reflexivity
  | |- keeps (same_on _) (modify _) => apply same_on_modify; intros []; reflexivity
  end.

#[export] Hint Extern 5 (keeps (same_on _) (on_db _)) => same_on_prim : mp.
#[export] Hint Extern 5 (keeps (same_on _) (modify _)) => same_on_prim : mp.
