(* ===== verification/Ingest.v ===== *)
(** * gaveld: signal ingestion ([src/gaveld/ingest.c], [src/gaveld/gaveld_emit.h])

    The line format [SOURCE|SIGNAL|WEIGHT|CONTEXT], its writer in the daemons,
    its parser, and the queue between the ingest and scorer threads. *)

From S2P Require Import Prelude CString Double Config Ring World.
From Stdlib Require Import Ascii.

(** ** The writer *)

(** The record [gaveld_emit] writes to the pipe, or [None] when it does not fit
    its buffer of 900 bytes. *)
Definition gaveld_emit (source signal : string) (weight : double) (ctx : string) : option string :=
  let buf := source +:+ "|" +:+ signal +:+ "|" +:+ fmt_g6 weight +:+ "|" +:+ ctx +:+ NLs in
  if (String.length buf <? 900)%nat then Some buf else None.

Definition gaveld_emit_signal (source signal : string) : option string :=
  gaveld_emit source signal d_zero "".

Definition gaveld_emit_ctx (source signal ctx : string) : option string :=
  gaveld_emit source signal d_zero ctx.

Definition gaveld_emit_weighted (source signal : string) (weight : double) : option string :=
  gaveld_emit source signal weight "".

(** ** The parser *)

Definition parse_line (line : string) : option ingest_record_t :=
  if has_prefix "QUERY|" line then
    Some (Ingest "" "" d_zero "" true (cut_at NL (strncpy 32 (sdrop 6 line))))
  else
    let tmp := strncpy BUF_SIZE line in
    let '(src, r1) := strtok_next "|" tmp in
    let '(sig, r2) := strtok_next "|" r1 in
    let '(wgt, r3) := strtok_next "|" r2 in
    let '(ctx, _) := strtok_next NLs r3 in
    match src, sig with
    | Some src, Some sig =>
        Some (Ingest (strncpy SOURCE_LEN src) (strncpy SIGNAL_LEN sig)
                (match wgt with Some w => atof w | None => d_zero end)
                (match ctx with Some c => strncpy CTX_LEN c | None => "" end)
                false "")
    | _, _ => None
    end.

(** ** The queue *)

Definition queue_push (rec : ingest_record_t) : G unit :=
  modify (λ w, set_ingest (bq_push (cap := INGEST_QUEUE_SIZE) rec (w_ingest w)) w).

(** [ingest_dequeue] once the queue is not empty or ingestion has stopped. *)
Definition ingest_dequeue : G (option ingest_record_t) := λ w,
  match bq_pop (cap := INGEST_QUEUE_SIZE) (w_ingest w) with
  | Some (rec, q) => (Some rec, set_ingest q w)
  | None => (None, w)
  end.

Definition ingest_queue_depth : G nat := gets (λ w, ring_depth (w_ingest w)).

(** One line of the reading loop. *)
Definition ingest_line (line : string) : G unit :=
  match line with
  | EmptyString => mret tt
  | String c _ =>
      if Ascii.eqb c NL then mret tt
      else match parse_line line with
           | Some rec => queue_push rec
           | None => mret tt
           end
  end.

(** The reading loop over the text that arrives on the pipe. *)
Definition ingest_thread (text : string) : G unit :=
  mfor (read_lines BUF_SIZE text) ingest_line.
