(* ===== verification/Wire.v ===== *)
(** * gaveld: the wire format between the daemons and gaveld

    What [gaveld_emit] writes to the pipe is what [ingest_thread] queues, record
    by record. *)

From S2P Require Import Prelude CString Double Strtod Config Ring World Ingest.
From Stdlib Require Import Ascii DecimalString.

(** ** The characters of printed numbers *)

Definition all_in (set s : string) : bool := forallb (char_in set) (schars s).

Definition NUMERIC : string := "0123456789+-.einfa".

Lemma all_in_app set s t : all_in set (s +:+ t) = all_in set s && all_in set t.
Proof. unfold all_in. by rewrite schars_app, forallb_app. Qed.

Lemma uint_digits u : all_in NUMERIC (NilEmpty.string_of_uint u) = true.
Proof. induction u; cbn [NilEmpty.string_of_uint]; try done; unfold all_in in *; cbn [schars forallb]; by rewrite IHu. Qed.

Lemma nil_zero_digits u : all_in NUMERIC (NilZero.string_of_uint u) = true.
Proof. destruct u; [done|apply uint_digits..]. Qed.

Lemma fmt_d_numeric z : all_in NUMERIC (fmt_d z) = true.
Proof.
  unfold fmt_d. destruct (Z.to_int z) as [u|u]; cbn [NilZero.string_of_int]; [apply nil_zero_digits|].
  change (all_in NUMERIC ("-" +:+ NilZero.string_of_uint u) = true).
  by rewrite all_in_app, nil_zero_digits.
Qed.

Lemma zeros_numeric n : all_in NUMERIC (zeros n) = true.
Proof. by induction n. Qed.

Lemma pad_zeros_numeric n s : all_in NUMERIC s = true → all_in NUMERIC (pad_zeros n s) = true.
Proof. intros Hs. unfold pad_zeros. by rewrite all_in_app, zeros_numeric. Qed.

Lemma trim_end_all_in set f s : all_in set s = true → all_in set (trim_end f s) = true.
Proof.
  unfold all_in. induction s as [|c s IH]; [done|]. cbn [schars forallb trim_end].
  intros [Hc Hs]%andb_prop. specialize (IH Hs). destruct (trim_end f s).
  - destruct (f c); [done|]. cbn [schars forallb]. by rewrite Hc.
  - cbn [schars forallb] in *. by rewrite Hc.
Qed.

Lemma with_sign_numeric b t : all_in NUMERIC t = true → all_in NUMERIC (with_sign b t) = true.
Proof. intros Ht. unfold with_sign. destruct b; [by rewrite all_in_app, Ht|done]. Qed.

Lemma fmt_fixed_numeric p n : all_in NUMERIC (fmt_fixed p n) = true.
Proof.
  unfold fmt_fixed. destruct p; [apply fmt_d_numeric|].
  rewrite !all_in_app, fmt_d_numeric, pad_zeros_numeric; [done|apply fmt_d_numeric].
Qed.

Lemma drop_zeros_numeric s : all_in NUMERIC s = true → all_in NUMERIC (drop_zeros s) = true.
Proof. intros. unfold drop_zeros. by repeat apply trim_end_all_in. Qed.

Lemma fmt_g6_numeric x : all_in NUMERIC (fmt_g6 x) = true.
Proof.
  destruct x as [s|s| |s m e]; cbn [fmt_g6];
    [by apply with_sign_numeric..|done|].
  destruct (if scaled m e (5 - exp10 m e) =? 1000000 then _ else _) as [x n].
  apply with_sign_numeric. destruct (_ && _).
  - destruct (x =? 5); [|apply drop_zeros_numeric]; apply fmt_fixed_numeric.
  - rewrite !all_in_app, drop_zeros_numeric, pad_zeros_numeric by
      (apply fmt_fixed_numeric || apply fmt_d_numeric).
    by destruct (x <? 0).
Qed.

(** A printed number holds none of the separators. *)
Lemma numeric_none f s :
  (∀ c, char_in NUMERIC c = true → f c = false) → all_in NUMERIC s = true → none_of f s = true.
Proof.
  intros Hf. unfold all_in, none_of. rewrite !forallb_forall. intros Hs c Hc.
  by rewrite (Hf c (Hs c Hc)).
Qed.

Lemma numeric_no_bar c : char_in NUMERIC c = true → char_in "|" c = false.
Proof. destruct c as [[] [] [] [] [] [] [] []]; vm_compute; congruence. Qed.

Lemma numeric_no_newline c : char_in NUMERIC c = true → char_in NLs c = false.
Proof. destruct c as [[] [] [] [] [] [] [] []]; vm_compute; congruence. Qed.

(** A printed number is not empty. *)
Lemma uint_nonempty u : NilZero.string_of_uint u ≠ "".
Proof. by destruct u. Qed.

Lemma fmt_d_nonempty z : fmt_d z ≠ "".
Proof. unfold fmt_d. destruct (Z.to_int z); cbn; [apply uint_nonempty|done]. Qed.

Lemma fmt_d_no_dot z c t : fmt_d z = String c t → Ascii.eqb "." c = false.
Proof.
  intros H. assert (∀ u, forallb (λ c, negb (Ascii.eqb "." c)) (schars (NilEmpty.string_of_uint u)) = true)
    as Hu by (induction u; done).
  assert (forallb (λ c, negb (Ascii.eqb "." c)) (schars (fmt_d z)) = true) as Hd.
  { unfold fmt_d. destruct (Z.to_int z) as [u|u]; destruct u; cbn; try done; apply Hu. }
  rewrite H in Hd. cbn [schars forallb] in Hd. by apply andb_prop in Hd as [Hd%negb_true_iff _].
Qed.

Lemma trim_end_first f c s : f c = false → trim_end f (String c s) ≠ "".
Proof. intros Hc. cbn [trim_end]. by destruct (trim_end f s); [rewrite Hc|]. Qed.

Lemma drop_zeros_nonempty z b : drop_zeros (fmt_d z +:+ "." +:+ b) ≠ "".
Proof.
  unfold drop_zeros. change ("." +:+ b) with (String "." b). rewrite trim_end_stop by done.
  destruct (fmt_d z) as [|c t] eqn:Hz; [by apply fmt_d_nonempty in Hz|].
  rewrite app_cons_str. apply trim_end_first. by eapply fmt_d_no_dot.
Qed.

Lemma fmt_fixed_drop p n : drop_zeros (fmt_fixed (S p) n) ≠ "".
Proof. apply drop_zeros_nonempty. Qed.

Lemma app_nonempty s t : s ≠ "" → s +:+ t ≠ "".
Proof. by destruct s. Qed.

Lemma fmt_fixed_nonempty p n : fmt_fixed p n ≠ "".
Proof. destruct p; [apply fmt_d_nonempty|]. cbn [fmt_fixed]. apply app_nonempty, fmt_d_nonempty. Qed.

Lemma with_sign_nonempty b t : t ≠ "" → with_sign b t ≠ "".
Proof. by destruct b. Qed.

Lemma fmt_g6_nonempty x : fmt_g6 x ≠ "".
Proof.
  destruct x as [s|s| |s m e]; cbn [fmt_g6];
    [by apply with_sign_nonempty..|done|].
  destruct (if scaled m e (5 - exp10 m e) =? 1000000 then _ else _) as [x n].
  apply with_sign_nonempty. destruct ((-4 <=? x) && (x <? 6)) eqn:Hx.
  - destruct (Z.eqb_spec x 5) as [->|Hne]; [apply fmt_fixed_nonempty|]. bool_hyps.
    replace (Z.to_nat (5 - x)) with (S (Z.to_nat (4 - x))) by lia. apply fmt_fixed_drop.
  - apply app_nonempty, fmt_fixed_drop.
Qed.

(** ** One record *)

(** A field that holds no separator. *)
Definition field_ok (s : string) : Prop :=
  s ≠ "" ∧ none_of (char_in "|") s = true ∧ none_of (char_in NLs) s = true.

(** What a daemon may emit so that nothing is lost: fields without separators
    that fit their arrays, a context without a line break, and a source that is
    not the word that introduces a query. *)
Record emission_ok (source signal ctx : string) : Prop := EmissionOk {
  em_source : field_ok source;
  em_signal : field_ok signal;
  em_ctx : none_of (char_in NLs) ctx = true;
  em_query : source ≠ "QUERY";
  em_source_len : (String.length source < SOURCE_LEN)%nat;
  em_signal_len : (String.length signal < SIGNAL_LEN)%nat;
  em_ctx_len : (String.length ctx < CTX_LEN)%nat }.

(** The record gaveld should see. *)
Definition emitted_record (source signal : string) (weight : double) (ctx : string) : ingest_record_t :=
  Ingest source signal (atof (fmt_g6 weight)) ctx false "".

Lemma prefix_up_to_bar p : ∀ s rest,
  none_of (char_in "|") p = true → none_of (char_in "|") s = true →
  has_prefix (p +:+ "|") (s +:+ String "|" rest) = true → s = p.
Proof.
  induction p as [|a p IH]; intros [|b s] rest Hp Hs; rewrite ?app_cons_str; cbn [has_prefix].
  - done.
  - rewrite none_of_cons in Hs. apply andb_prop in Hs as [Hb _].
    change ("" +:+ "|") with (String "|" ""). cbn [has_prefix]. intros [Heq _]%andb_prop.
    apply Ascii.eqb_eq in Heq. by subst.
  - rewrite none_of_cons in Hp. apply andb_prop in Hp as [Ha _].
    change ("" +:+ String "|" rest) with (String "|" rest). cbn [has_prefix].
    intros [Heq _]%andb_prop. apply Ascii.eqb_eq in Heq. by subst.
  - rewrite none_of_cons in Hp, Hs. apply andb_prop in Hp as [_ Hp], Hs as [_ Hs].
    intros [->%Ascii.eqb_eq H]%andb_prop. f_equal. by eapply IH.
Qed.

Lemma not_query source rest :
  none_of (char_in "|") source = true → source ≠ "QUERY" →
  has_prefix "QUERY|" (source +:+ String "|" rest) = false.
Proof.
  intros Hs Hne. apply not_true_iff_false. intros H. apply Hne.
  by apply (prefix_up_to_bar "QUERY" source rest).
Qed.

Lemma strtok_next_token d tok c t :
  tok ≠ "" → none_of (char_in d) tok = true → char_in d c = true →
  strtok_next d (tok +:+ String c t) = (Some tok, t).
Proof. intros. unfold strtok_next. by rewrite strtok_token. Qed.

(** The context: the rest of the line, or nothing. *)
Lemma strtok_next_context ctx :
  none_of (char_in NLs) ctx = true →
  match (strtok_next NLs (ctx +:+ NLs)).1 with Some c => c | None => "" end = ctx.
Proof.
  intros Hctx. destruct ctx as [|c ctx]; [done|].
  change (String c ctx +:+ NLs) with (String c ctx +:+ String NL "").
  by rewrite strtok_next_token.
Qed.

Lemma parse_emitted source signal weight ctx rest :
  emission_ok source signal ctx →
  rest = source +:+ "|" +:+ signal +:+ "|" +:+ fmt_g6 weight +:+ "|" +:+ ctx +:+ NLs →
  (String.length rest < BUF_SIZE)%nat →
  parse_line rest = Some (emitted_record source signal weight ctx).
Proof.
  intros [(Hs & Hsb & _) (Hg & Hgb & _) Hc Hq Hsl Hgl Hcl] -> Hlen.
  assert (∀ t, "|" +:+ t = String "|" t) as Hbar by done.
  unfold parse_line. rewrite !Hbar in *.
  rewrite not_query by done. rewrite (strncpy_id BUF_SIZE) by done.
  rewrite !strtok_next_token by
    first [done | apply fmt_g6_nonempty | apply (numeric_none _ _ numeric_no_bar), fmt_g6_numeric].
  pose proof (strtok_next_context ctx Hc) as Hctx.
  destruct (strtok_next NLs (ctx +:+ NLs)) as [c r]. cbn [fst] in Hctx.
  rewrite !strncpy_id by done. unfold emitted_record. do 2 f_equal.
  destruct c as [c|]; [|done]. by rewrite Hctx, strncpy_id.
Qed.

(** A record survives the pipe: what [gaveld_emit] accepts to write for
    well-formed fields, [parse_line] reads back as the same source, signal and
    context (bars inside the context included) and the number its printed
    weight denotes. *)
Theorem emit_parse_round_trip source signal weight ctx line :
  emission_ok source signal ctx → gaveld_emit source signal weight ctx = Some line →
  parse_line line = Some (emitted_record source signal weight ctx).
Proof.
  intros Hok. unfold gaveld_emit. cbv zeta.
  destruct (Nat.ltb_spec (String.length (source +:+ "|" +:+ signal +:+ "|" +:+ fmt_g6 weight
    +:+ "|" +:+ ctx +:+ NLs)) 900) as [Hlen|]; [|done].
  intros [= <-]. eapply parse_emitted; [done|done|]. unfold BUF_SIZE. lia.
Qed.

Lemma sample_emission : emission_ok "rahzerd" "NETWORK_ANOMALY" "pid=7|port=443".
Proof. split; try split_and!; try done; unfold SOURCE_LEN, SIGNAL_LEN, CTX_LEN; cbn; lia. Qed.

Lemma emit_parse_round_trip_witness :
  ∃ line, gaveld_emit "rahzerd" "NETWORK_ANOMALY" (d_of_Z 25) "pid=7|port=443" = Some line ∧
    parse_line line = Some (Ingest "rahzerd" "NETWORK_ANOMALY" (d_of_Z 25) "pid=7|port=443" false "").
Proof.
  eexists. split; [vm_compute; reflexivity|].
  rewrite (emit_parse_round_trip "rahzerd" "NETWORK_ANOMALY" (d_of_Z 25) "pid=7|port=443");
    [vm_compute; reflexivity | apply sample_emission | vm_compute; reflexivity].
Defined.

(** ** A stream of records *)

Lemma fgets_go_line n l rest :
  none_of (char_in NLs) l = true → (String.length l < n)%nat →
  fgets_go n (l +:+ NLs +:+ rest) = (l +:+ NLs, rest).
Proof.
  revert n. induction l as [|c l IH]; intros [|n] Hl Hn; try (cbn in Hn; lia).
  - done.
  - rewrite none_of_cons in Hl. apply andb_prop in Hl as [Hc Hl]. rewrite app_cons_str.
    cbn [fgets_go]. unfold char_in, NLs in Hc. cbn [schars] in Hc.
    replace (Ascii.eqb c NL) with false.
    + rewrite IH by (done || cbn in Hn; lia). done.
    + symmetry. apply Ascii.eqb_neq. intros ->. discriminate Hc.
Qed.

Lemma fgets_go_cons n c s :
  fgets_go (S n) (String c s) =
  if Ascii.eqb c NL then (String c "", s)
  else let '(l, r) := fgets_go n s in (String c l, r).
Proof. done. Qed.

Lemma fgets_go_shorter n c s l r :
  fgets_go (S n) (String c s) = (l, r) → (String.length r <= String.length s)%nat.
Proof.
  revert c s l r. induction n as [|n IH]; intros c s l r; rewrite fgets_go_cons;
    (case (Ascii.eqb c NL); [by intros [= <- <-]|]).
  - destruct s; by intros [= <- <-].
  - destruct s as [|c' s]; [by intros [= <- <-]|].
    destruct (fgets_go (S n) (String c' s)) as [l' r'] eqn:H. intros [= <- <-].
    apply IH in H. cbn. lia.
Qed.

(** Enough fuel reads every line. *)
Lemma fgets_lines_fuel size : (2 <= size)%nat → ∀ n s,
  (String.length s <= n)%nat → fgets_lines n size s = read_lines size s.
Proof.
  intros Hsize. unfold read_lines.
  assert (∀ n s, (String.length s <= n)%nat → ∀ m, (String.length s <= m)%nat →
    fgets_lines n size s = fgets_lines m size s) as H; [|by intros; apply H].
  induction n as [|n IH]; intros s Hn m Hm.
  - destruct s; [|cbn in Hn; lia]. by destruct m.
  - destruct s as [|c s]; [by destruct m|]. cbn in Hn, Hm. destruct m as [|m]; [lia|].
    cbn [fgets_lines]. unfold fgets. destruct (size - 1)%nat as [|k] eqn:Hk; [lia|].
    destruct (fgets_go (S k) (String c s)) as [l r] eqn:Hgo.
    apply fgets_go_shorter in Hgo. f_equal. apply IH; lia.
Qed.

Lemma read_lines_cons size l rest :
  none_of (char_in NLs) l = true → (String.length l + 1 < size)%nat →
  read_lines size (l +:+ NLs +:+ rest) = (l +:+ NLs) :: read_lines size rest.
Proof.
  intros Hl Hsize. unfold read_lines at 1.
  assert (String.length (l +:+ NLs +:+ rest) = S (String.length l + String.length rest)) as ->
    by (rewrite !length_app_str; change (String.length NLs) with 1%nat; lia).
  cbn [fgets_lines]. unfold fgets.
  assert (∃ c t, l +:+ NLs +:+ rest = String c t) as (c & t & Heq)
    by (destruct l; rewrite ?app_cons_str; eauto).
  rewrite Heq, <- Heq, fgets_go_line by (done || lia). f_equal.
  apply fgets_lines_fuel; lia.
Qed.

(** A daemon's emission: its four arguments. *)
Definition emission : Type := string * string * double * string.

Definition emission_fits (e : emission) : Prop :=
  let '(s, g, _, c) := e in emission_ok s g c.

Definition line_of (e : emission) : string :=
  let '(s, g, w, c) := e in default "" (gaveld_emit s g w c).

Definition emission_record (e : emission) : ingest_record_t :=
  let '(s, g, w, c) := e in emitted_record s g w c.

(** The line of an emission that was not dropped. *)
Lemma line_shape e :
  emission_fits e → line_of e ≠ "" →
  ∃ l, line_of e = l +:+ NLs ∧ none_of (char_in NLs) l = true ∧ (String.length l < 899)%nat ∧
    parse_line (line_of e) = Some (emission_record e) ∧ l ≠ "".
Proof.
  destruct e as [[[s g] w] c]. cbn [emission_fits line_of emission_record]. intros Hok Hne.
  destruct (gaveld_emit s g w c) as [line|] eqn:He; [|done]. cbn [default] in *.
  exists (s +:+ "|" +:+ g +:+ "|" +:+ fmt_g6 w +:+ "|" +:+ c).
  pose proof Hok as [(Hs & _ & Hsn) (_ & _ & Hgn) Hc _ _ _ _].
  unfold gaveld_emit in He. cbv zeta in He.
  destruct (Nat.ltb_spec (String.length (s +:+ "|" +:+ g +:+ "|" +:+ fmt_g6 w +:+ "|" +:+ c +:+ NLs)) 900)
    as [Hlen|]; [|done]. injection He as <-.
  rewrite !app_assoc_str. split_and!; [done| | | |by destruct s].
  - rewrite !none_of_app, Hsn, Hgn, Hc.
    by rewrite (numeric_none _ _ numeric_no_newline (fmt_g6_numeric w)).
  - clear -Hlen. rewrite !length_app_str in *. change (String.length NLs) with 1%nat in Hlen. lia.
  - eapply parse_emitted; [done|done|]. unfold id, BUF_SIZE. lia.
Qed.

Lemma ingest_line_emitted e w :
  emission_fits e → line_of e ≠ "" →
  exec (ingest_line (line_of e)) w = exec (queue_push (emission_record e)) w.
Proof.
  intros Hok Hne. destruct (line_shape e Hok Hne) as (l & Hl & Hnl & _ & Hp & Hlne).
  unfold ingest_line. rewrite Hp. rewrite Hl. destruct l as [|c l]; [done|].
  rewrite app_cons_str. rewrite none_of_cons in Hnl. apply andb_prop in Hnl as [Hc _].
  replace (Ascii.eqb c NL) with false; [done|].
  symmetry. apply Ascii.eqb_neq. intros ->. discriminate Hc.
Qed.

(** The records that were not dropped are queued in order. *)
Lemma ingest_lines es w :
  Forall emission_fits es → Forall (λ e, line_of e ≠ "") es →
  exec (ingest_thread (scat (map line_of es))) w =
  exec (mfor (map emission_record es) queue_push) w.
Proof.
  unfold ingest_thread. intros Hok Hne. revert w.
  induction es as [|e es IH]; intros w; [done|].
  apply Forall_cons in Hok as [He Hok], Hne as [Hn Hne].
  destruct (line_shape e He Hn) as (l & Hl & Hnl & Hlen & _).
  cbn [map scat]. rewrite Hl, app_assoc_str, read_lines_cons, <- Hl by (done || unfold BUF_SIZE; lia).
  cbn [mfor]. rewrite !exec_bind, ingest_line_emitted by done. by apply IH.
Qed.
