(* ===== verification/Scorer.v ===== *)
(** * gaveld: scoring ([src/gaveld/scorer.c]) *)

From S2P Require Import Prelude CString Double Config Db Weights Tier World.

Definition score_to_state (score : double) : string :=
  if (THRESH_JAILED <=? score)%D then "JAILED"
  else if (THRESH_HOUSE_ARREST <=? score)%D then "HOUSE_ARREST"
  else if (THRESH_QUARANTINED <=? score)%D then "QUARANTINED"
  else if (THRESH_WARNED <=? score)%D then "WARNED"
  else if (THRESH_WATCHED <=? score)%D then "WATCHED"
  else "CLEAN".

Definition recidivism_mod (prior_jails prior_quarantines : Z) : double :=
  if 2 <=? prior_jails then RECID_MULTI_JAIL
  else if 1 <=? prior_jails then RECID_SINGLE_JAIL
  else if 1 <=? prior_quarantines then RECID_QUARANTINE
  else RECID_NONE.

Definition sigset_has (ss : list string) (sig : string) : bool :=
  existsb (λ s, String.eqb s sig) ss.

Definition stack_bonus_of (ss : list string) : double :=
  if (COV_STACK_MIN_SIGNALS <=? length ss)%nat then COV_STACK_BONUS else d_one.

Definition covariance (ss : list string) : double :=
  if sigset_has ss "INTEGRITY_VIOLATION" then COV_INTEGRITY_VIOLATION
  else if sigset_has ss "NETWORK_ANOMALY"
          && (sigset_has ss "CPU_HOG" || sigset_has ss "CPU_HOG_CRITICAL")
  then COV_NETWORK_CPU
  else if sigset_has ss "WAKELOCK_ANOMALY" && sigset_has ss "NETWORK_ANOMALY"
  then COV_WAKELOCK_NETWORK
  else if sigset_has ss "THERMAL_CRITICAL" && sigset_has ss "CPU_HOG_CRITICAL"
  then COV_THERMAL_CPU_CRITICAL
  else if (sigset_has ss "THERMAL_CRITICAL" || sigset_has ss "THERMAL_WARN")
          && sigset_has ss "NETWORK_ANOMALY"
  then COV_THERMAL_NETWORK
  else if sigset_has ss "CPU_THROTTLING" && sigset_has ss "WAKELOCK_ANOMALY"
  then COV_CPU_WAKELOCK
  else d_one.

(** "Use weights table if caller passes 0". *)
Definition effective_weight (signal : string) (base_weight : double) : double :=
  if (base_weight <=? d_zero)%D then
    let w := weight_lookup signal in
    if 0 <? w then d_of_Z w else d_of_Z 10
  else base_weight.

(** [base_weight * user_ctx * situational * cov * stack_bonus * recid * tier]. *)
Definition score_addition (base_weight cov stack_bonus recid tier_mod : double) : double :=
  (base_weight * d_one * d_one * cov * stack_bonus * recid * tier_mod)%D.

(** Cap at [MAX_SCORE], then floor at [SCORE_FLOOR]. *)
Definition clamp_score (x : double) : double :=
  let x := if (MAX_SCORE <? x)%D then MAX_SCORE else x in
  if (x <? SCORE_FLOOR)%D then SCORE_FLOOR else x.

(** The counter of a containment state grows when the score enters it. *)
Definition bump (state : string) (prev_score new_score : double) (n : Z) : Z :=
  if String.eqb (score_to_state new_score) state
     && negb (String.eqb (score_to_state prev_score) state)
  then n + 1 else n.

Definition json_field (key : string) (x : double) : string :=
  QUOTE +:+ key +:+ QUOTE +:+ ":" +:+ fmt_f 2 x.

Definition modifiers_json (tier_mod cov stack_bonus recid : double) : string :=
  snprintf 256 ("{" +:+ json_field "tier" tier_mod +:+ "," +:+ json_field "cov" cov +:+ ","
    +:+ json_field "stack" stack_bonus +:+ "," +:+ json_field "recid" recid +:+ ","
    +:+ json_field "uctx" d_one +:+ "," +:+ json_field "sit" d_one +:+ "}").

Definition scorer_process (source signal : string) (base_weight : double) (ctx : string)
    : G (Z * score_result_t) :=
  now ← time_now;
  let window_start := now - SIGNAL_WINDOW_SEC in
  let base_weight := effective_weight signal base_weight in
  '(_, rec) ← on_db (db_threat_load source);
  let prev_score := dt_score rec in
  _ ← on_db (db_signal_insert source signal now);
  _ ← on_db (db_signal_prune window_start);
  ss ← on_db (db_signal_distinct source window_start);
  sov ← gets w_sov;
  let tier_mod := tier_modifier sov source in
  let stack_bonus := stack_bonus_of ss in
  let cov := covariance ss in
  let recid := recidivism_mod (dt_jails rec) (dt_quarantines rec) in
  let addition := score_addition base_weight cov stack_bonus recid tier_mod in
  let new_score := clamp_score (prev_score + addition)%D in
  let new_state := score_to_state new_score in
  let delta := (new_score - prev_score)%D in
  let jails := bump "JAILED" prev_score new_score (dt_jails rec) in
  let quarantines := bump "QUARANTINED" prev_score new_score (dt_quarantines rec) in
  _ ← on_db (db_threat_upsert
         (DbThreat (dt_source rec) new_score (strncpy STATE_LEN new_state) jails quarantines now));
  _ ← on_db (db_scoring_log_insert now source signal base_weight addition
         prev_score new_score new_state (modifiers_json tier_mod cov stack_bonus recid));
  mret (0, ScoreResult (strncpy SOURCE_LEN source) prev_score new_score delta
             (strncpy STATE_LEN new_state) jails quarantines).

(** [SOURCE|SCORE|STATE|DELTA]. *)
Definition scorer_format (r : score_result_t) (len : nat) : string :=
  snprintf len (sr_source r +:+ "|" +:+ fmt_f 2 (sr_new r) +:+ "|" +:+ sr_state r +:+ "|"
                +:+ fmt_f 2 (sr_delta r) +:+ NLs).

Lemma scorer_process_db_only source signal weight ctx :
  keeps db_only (scorer_process source signal weight ctx).
Proof. unfold scorer_process. keeps_tac. Qed.

#[export] Hint Resolve scorer_process_db_only : mp.
