(* ===== verification/Enforce.v ===== *)
(** * gaveld: enforcement ([src/gaveld/enforce.c]) *)

From S2P Require Import Prelude CString Double Config Tier World.

(** [enforce_init] with the results of its two probes. *)
Definition enforce_init (probe_rish probe_adb : bool) : G unit :=
  modify (set_backend (if probe_rish then BACKEND_RISH
                       else if probe_adb then BACKEND_ADB else BACKEND_DIRECT)).

(** The command line [run_cmd] builds around a shell command. *)
Definition wrap_cmd (b : backend_t) (shell_cmd : string) : string :=
  snprintf 1024
    match b with
    | BACKEND_RISH => RISH_PATH +:+ " -c '" +:+ shell_cmd +:+ "' 2>/dev/null"
    | BACKEND_ADB => "adb shell '" +:+ shell_cmd +:+ "' 2>/dev/null"
    | BACKEND_DIRECT => shell_cmd +:+ " 2>/dev/null"
    end.

Definition run_cmd (shell_cmd : string) : G unit :=
  b ← gets w_backend; system SiteEnforce (wrap_cmd b shell_cmd).

Definition can_disable_user (sov : option string) (source : string) : bool :=
  if tier_is_sovereignty sov source then false
  else if tier_is_system source then false
  else if tier_is_own_daemon source then false
  else true.

(** The three commands, in the 512-byte buffer of [enforce_execute]. *)
Definition cmd_kill (source : string) : string := snprintf 512 ("am kill " +:+ source).
Definition cmd_force_stop (source : string) : string := snprintf 512 ("am force-stop " +:+ source).
Definition cmd_disable (source : string) : string :=
  snprintf 512 ("pm disable-user --user 0 " +:+ source).

Definition enforce_execute (source verdict : string) : G Z :=
  if String.eqb verdict "WARNED" then
    _ ← run_cmd (cmd_kill source); mret 0
  else if String.eqb verdict "QUARANTINED" || String.eqb verdict "HOUSE_ARREST" then
    _ ← run_cmd (cmd_force_stop source); mret 0
  else if String.eqb verdict "JAILED" then
    _ ← run_cmd (cmd_force_stop source);
    sov ← gets w_sov;
    _ ← mwhen (can_disable_user sov source) (run_cmd (cmd_disable source));
    mret 0
  else mret (-1).

(** ** Specification

    The shell commands a verdict stands for, before they are wrapped for the
    backend, and the result the caller gets. *)

Definition enforce_plan (sov : option string) (source verdict : string) : list string :=
  if String.eqb verdict "WARNED" then [cmd_kill source]
  else if String.eqb verdict "QUARANTINED" || String.eqb verdict "HOUSE_ARREST" then
    [cmd_force_stop source]
  else if String.eqb verdict "JAILED" then
    cmd_force_stop source ::
    (if can_disable_user sov source then [cmd_disable source] else [])
  else [].

Definition enforce_calls (w : world) (source verdict : string) : list sys_call :=
  map (λ c, SysCall SiteEnforce (wrap_cmd (w_backend w) c))
    (enforce_plan (w_sov w) source verdict).

(** ** Lemmas *)

Lemma exec_run_cmd c w :
  exec (run_cmd c) w = set_sys (w_sys w ++ [SysCall SiteEnforce (wrap_cmd (w_backend w) c)]) w.
Proof. done. Qed.

#[export] Hint Rewrite exec_run_cmd : monad.

Lemma exec_enforce_execute source verdict w :
  exec (enforce_execute source verdict) w = set_sys (w_sys w ++ enforce_calls w source verdict) w.
Proof.
  unfold enforce_execute, enforce_calls, enforce_plan.
  destruct (String.eqb verdict "WARNED"); [done|].
  destruct (_ || _); [done|].
  destruct (String.eqb verdict "JAILED"); autorewrite with monad.
  - cbn.
    destruct (can_disable_user _ _); autorewrite with monad; cbn; by rewrite <- ?app_assoc.
  - cbn. rewrite app_nil_r. by destruct w.
Qed.

Lemma result_enforce_execute source verdict w :
  result (enforce_execute source verdict) w =
  if String.eqb verdict "WARNED" || String.eqb verdict "QUARANTINED"
     || String.eqb verdict "HOUSE_ARREST" || String.eqb verdict "JAILED" then 0 else -1.
Proof.
  unfold enforce_execute.
  destruct (String.eqb verdict "WARNED"); [done|].
  destruct (String.eqb verdict "QUARANTINED"); cbn [orb]; [done|].
  destruct (String.eqb verdict "HOUSE_ARREST"); [done|].
  destruct (String.eqb verdict "JAILED"); [|done].
  by rewrite !result_bind.
Qed.

(** A planned command is one of the three. *)
Lemma enforce_plan_elem sov source verdict c :
  c ∈ enforce_plan sov source verdict →
  (c = cmd_kill source ∧ verdict = "WARNED")
  ∨ (c ∈ [cmd_force_stop source; cmd_disable source] ∧ verdict ≠ "WARNED").
Proof.
  unfold enforce_plan. destruct (String.eqb_spec verdict "WARNED") as [->|Hne].
  - intros ?%list_elem_of_singleton. auto.
  - intros Hc. right. split; [|done]. revert Hc.
    destruct (_ || _); [intros ->%list_elem_of_singleton; by left|].
    destruct (String.eqb verdict "JAILED"); [|by intros ?%elem_of_nil].
    destruct (can_disable_user _ _); [done|].
    intros ->%list_elem_of_singleton. by left.
Qed.
