(* ===== verification/Cases.v ===== *)
(** * gaveld: case assembly ([src/gaveld/cases.c]) *)

From S2P Require Import Prelude CString Double Config Db Ring World.

Definition queue_case (rec : case_record_t) : G unit :=
  modify (λ w, set_caseq (bq_push (cap := VERDICT_QUEUE_SIZE) rec (w_cases w)) w).

(** [cases_dequeue] once the queue is not empty or the daemon stops. *)
Definition cases_dequeue : G (option case_record_t) := λ w,
  match bq_pop (cap := VERDICT_QUEUE_SIZE) (w_cases w) with
  | Some (rec, q) => (Some rec, set_caseq q w)
  | None => (None, w)
  end.

Definition cases_queue_depth : G nat := gets (λ w, ring_depth (w_cases w)).

(** Millisecond clock in decimal. *)
Definition make_case_id : G string :=
  gets (λ w, snprintf CASE_ID_LEN ("case_" +:+ fmt_d (w_ms w))).

Definition PENDING_JUDGEMENT : string := "PENDING_JUDGEMENT".

Definition cases_assemble (r : score_result_t) (signal ctx : string) : G Z :=
  now ← time_now;
  id ← make_case_id;
  let crec := CaseRecord id (strncpy SOURCE_LEN (sr_source r)) (strncpy SIGNAL_LEN signal)
                (strncpy STATE_LEN (sr_state r)) (sr_new r) (sr_delta r)
                (strncpy CTX_LEN ctx) now in
  _ ← on_db (db_case_insert
         (DbCase (ca_id crec) (ca_source crec) (ca_signal crec) (ca_score crec)
            (ca_ctx crec) PENDING_JUDGEMENT now));
  if String.eqb (ca_state crec) "CLEAN" || String.eqb (ca_state crec) "WATCHED" then
    _ ← on_db (db_case_update_status (ca_id crec) "DISMISSED"); mret 0
  else
    _ ← queue_case crec; mret 0.
