(* ===== verification/Emit.v ===== *)
(** * gaveld: recording a verdict ([verdict_emit] of [src/gaveld/verdict.c])

    Shared by the verdict thread and the consent thread. *)

From S2P Require Import Prelude CString Double Config Db Weights World.

(** The verdicts that enter the criminal record. *)
Definition serious (verdict : string) : bool :=
  String.eqb verdict "JAILED" || String.eqb verdict "HOUSE_ARREST"
  || String.eqb verdict "QUARANTINED".

(** The two ATT&CK columns; the map is asked for the record's source. *)
Definition mitre_columns (source : string) : string * string :=
  match mitre_lookup source with
  | Some m => (strncpy 16 (technique_id m), strncpy 32 (tactic m))
  | None => ("", "")
  end.

Definition verdict_emit (case_id source verdict : string) (score : double)
    (consent_required consent_granted : Z) : G unit :=
  now ← time_now;
  let src := strncpy SOURCE_LEN source in
  let '(mid, mtac) := mitre_columns src in
  _ ← on_db (db_verdict_insert
         (DbVerdict (strncpy CASE_ID_LEN case_id) src (strncpy STATE_LEN verdict) score now
            consent_required consent_granted mid mtac));
  _ ← mwhen (serious verdict)
         (_ ← on_db (db_criminal_record_insert source verdict "verdict_thread" "gaveld" now);
          mret tt);
  _ ← on_db (db_case_update_status case_id verdict);
  mret tt.

Lemma verdict_emit_db_only case_id source verdict score req granted :
  keeps db_only (verdict_emit case_id source verdict score req granted).
Proof. unfold verdict_emit. keeps_tac. Qed.

#[export] Hint Resolve verdict_emit_db_only : mp.

(** ** What one call records *)

Definition emit_row (now : Z) (case_id source verdict : string) (score : double)
    (required granted : Z) : verdict_row :=
  let src := strncpy SOURCE_LEN source in
  VerdictRow (strncpy CASE_ID_LEN case_id) src (strncpy STATE_LEN verdict) (bind_double score)
    now required granted (mitre_columns src).1 (mitre_columns src).2.

Definition emitted (now : Z) (case_id source verdict : string) (score : double)
    (required granted : Z) (d : db) : db :=
  Db (db_ok d) (threat_scores d) (signal_window d)
    (map (λ r, if String.eqb (cs_id r) case_id then with_status verdict r else r) (cases d))
    (verdicts d ++ [emit_row now case_id source verdict score required granted])
    (criminal_record d ++
       (if serious verdict
        then [CriminalRow source verdict "verdict_thread" "gaveld" now] else []))
    (scoring_log d) (consent_queue d) (audit_log d).

Lemma exec_verdict_emit case_id source verdict score req granted w :
  exec (verdict_emit case_id source verdict score req granted) w =
  set_db (if db_ok (w_db w)
          then emitted (w_ms w / 1000) case_id source verdict score req granted (w_db w)
          else w_db w) w.
Proof.
  destruct w as [ms [[] ts sw cs vs cr sl cq al] sov lock b iq cq' pd ia sys];
    unfold verdict_emit, emitted, emit_row; cbn [w_db db_ok];
    rewrite exec_bind, result_time_now, exec_time_now; cbn [w_ms w_db];
    destruct (mitre_columns _) as [mid mtac];
    (destruct (serious verdict) eqn:Hs; unmonad; unfold on_db, run_stmt, db_verdict_insert,
       db_criminal_record_insert, db_case_update_status; cbn; rewrite ?Hs; cbn;
     rewrite ?app_nil_r; reflexivity).
Qed.
