(* ===== verification/Consent.v ===== *)
(** * gaveld: the consent gate ([src/gaveld/consent.c]) *)

From stdpp Require Import sorting.
From S2P Require Import Prelude CString Double Config Db World Enforce Emit.
From Stdlib Require Import Ascii.

(** ** Notifications *)

(** The djb2 hash in a 64-bit [unsigned long]: [((h << 5) + h) + c]. *)
Fixpoint djb2 (h : Z) (s : string) : Z :=
  match s with
  | EmptyString => h
  | String c s' => djb2 (wrap_u64 (wrap_u64 (wrap_u64 (Z.shiftl h 5) + h) + code c)) s'
  end.

Definition notif_id (case_id : string) : Z := Z.land (djb2 5381 case_id) (2 ^ 31 - 1).

Definition notification_cmd (r : consent_request_t) : string :=
  let q := QUOTE in
  snprintf 1024
    ("termux-notification --id " +:+ fmt_d (notif_id (rq_case r))
     +:+ " --title " +:+ q +:+ "gaveld — " +:+ rq_verdict r +:+ q
     +:+ " --content " +:+ q +:+ rq_source r +:+ " | score: " +:+ fmt_f 0 (rq_score r) +:+ q
     +:+ " --button1 " +:+ q +:+ "Approve" +:+ q
     +:+ " --button1-action " +:+ q +:+ "echo 'APPROVE|" +:+ rq_case r
     +:+ "' | socat - UNIX-CONNECT:" +:+ GAVELD_SOCK +:+ q
     +:+ " --button2 " +:+ q +:+ "Deny" +:+ q
     +:+ " --button2-action " +:+ q +:+ "echo 'DENY|" +:+ rq_case r
     +:+ "' | socat - UNIX-CONNECT:" +:+ GAVELD_SOCK +:+ q
     +:+ " 2>/dev/null").

Definition send_notification (r : consent_request_t) : G unit :=
  system SiteNotify (notification_cmd r).

Definition dismiss_notification (case_id : string) : G unit :=
  system SiteDismiss
    (snprintf 256 ("termux-notification-remove " +:+ fmt_d (notif_id case_id) +:+ " 2>/dev/null")).

(** ** The pending table *)

(** The first index whose entry satisfies [f]. *)
Fixpoint find_slot (f : pending_t → bool) (l : list pending_t) : option nat :=
  match l with
  | [] => None
  | p :: l' => if f p then Some O else S <$> find_slot f l'
  end.

Definition find_pending (case_id : string) : list pending_t → option nat :=
  find_slot (λ p, pd_active p && String.eqb (rq_case (pd_req p)) case_id).

Definition free_slot : list pending_t → option nat := find_slot (λ p, negb (pd_active p)).

(** A request takes the first free slot; with none it is dropped. *)
Definition consent_enqueue (req : consent_request_t) : G unit :=
  modify (λ w,
    match free_slot (w_pending w) with
    | Some i => set_pending (<[i := Pending req 0 true 0]> (w_pending w)) w
    | None => w
    end).

Definition consent_reply (case_id : string) (approved : bool) : G unit :=
  modify (λ w,
    match find_pending case_id (w_pending w) with
    | Some i =>
        set_pending (alter (λ p, Pending (pd_req p) (pd_notified p) (pd_active p)
                                   (if approved then 1 else -1)) i (w_pending w)) w
    | None => w
    end).

(** ** The consent thread *)

(** [resolve_entry]: free the slot, then act on the reply. *)
Definition resolve_entry (i : nat) (p : pending_t) : G unit :=
  let req := pd_req p in
  _ ← modify (λ w, set_pending
         (<[i := Pending req (pd_notified p) false (pd_reply p)]> (w_pending w)) w);
  _ ← dismiss_notification (rq_case req);
  _ ← on_db (db_consent_remove (rq_case req));
  if pd_reply p =? 1 then
    _ ← verdict_emit (rq_case req) (rq_source req) (rq_verdict req) (rq_score req) 1 1;
    _ ← enforce_execute (rq_source req) (rq_verdict req);
    mret tt
  else
    verdict_emit (rq_case req) (rq_source req) "CONSENT_DENIED" (rq_score req) 1 0.

(** [p->req.queued = now; p->last_notified = 0;]. *)
Definition requeue (now : Z) (p : pending_t) : pending_t :=
  let r := pd_req p in
  Pending (ConsentRequest (rq_case r) (rq_source r) (rq_verdict r) (rq_score r) now
             (rq_timeout r) (rq_action r)) 0 (pd_active p) (pd_reply p).

(** The 24h limit of requests that wait indefinitely. *)
Definition check_hard_limit (now : Z) (p : pending_t) : pending_t :=
  if (rq_timeout (pd_req p) =? 0)
     && (CONSENT_JAILED_HARD_LIMIT <? now - rq_queued (pd_req p))
  then requeue now p else p.

(** The timeout of the others: hold and notify again. *)
Definition check_timeout (now : Z) (p : pending_t) : pending_t :=
  if (0 <? rq_timeout (pd_req p))
     && (rq_timeout (pd_req p) <=? now - rq_queued (pd_req p))
  then requeue now p else p.

Definition needs_notification (now : Z) (p : pending_t) : bool :=
  (pd_notified p =? 0) || (CONSENT_RENOTIFY_INTERVAL <=? now - pd_notified p).

Definition put_slot (i : nat) (p : pending_t) : G unit :=
  modify (λ w, set_pending (<[i := p]> (w_pending w)) w).

(** The body of the scan for one slot. *)
Definition consent_slot (now : Z) (i : nat) : G unit :=
  slots ← gets w_pending;
  match slots !! i with
  | None => mret tt
  | Some p =>
      if negb (pd_active p) then mret tt
      else if negb (pd_reply p =? 0) then resolve_entry i p
      else
        let p := check_timeout now (check_hard_limit now p) in
        if needs_notification now p then
          _ ← send_notification (pd_req p);
          put_slot i (Pending (pd_req p) now (pd_active p) (pd_reply p))
        else put_slot i p
  end.

(** One pass of the main loop over the table. *)
Definition consent_pass : G unit :=
  now ← time_now;
  mfor (seq 0 CONSENT_QUEUE_SIZE) (consent_slot now).

(** The request a row of the queue table stands for. *)
Definition request_of_db (c : db_consent_t) : consent_request_t :=
  ConsentRequest (strncpy CASE_ID_LEN (dq_case c)) (strncpy SOURCE_LEN (dq_source c))
    (strncpy STATE_LEN (dq_verdict c)) (dq_score c) (dq_queued c) (dq_timeout c)
    (strncpy 16 (dq_action c)).

(** [consent_start] clears the table and the thread reloads what the database
    still holds. *)
Definition consent_start : G unit :=
  _ ← modify (set_pending (replicate CONSENT_QUEUE_SIZE pending_zero));
  dbc ← on_db (db_consent_pending CONSENT_QUEUE_SIZE);
  mfor dbc (λ c, consent_enqueue (request_of_db c)).

(** The row that stores a request. *)
Definition row_of_request (r : consent_request_t) : consent_row :=
  ConsentRow (rq_case r) (rq_source r) (rq_verdict r) (bind_double (rq_score r)) (rq_queued r)
    (rq_timeout r) (rq_action r).

(** ** Lemmas on the pending table *)

Lemma find_slot_Some f l i :
  find_slot f l = Some i ↔
  ∃ p, l !! i = Some p ∧ f p = true ∧ ∀ j q, (j < i)%nat → l !! j = Some q → f q = false.
Proof.
  revert i. induction l as [|q l IH]; intros i; cbn [find_slot].
  - split; [done|]. by intros (p & Hp & _).
  - destruct (f q) eqn:Hq.
    + split.
      * intros [= <-]. exists q. split_and!; [done..|]. intros j. lia.
      * intros (p & Hp & Hfp & Hmin). destruct i as [|i]; [done|].
        specialize (Hmin O q). rewrite Hmin in Hq; [done|lia|done].
    + rewrite fmap_Some. split.
      * intros (i' & Hi' & ->). apply IH in Hi' as (p & Hp & Hfp & Hmin).
        exists p. split_and!; [done..|]. intros [|j] q' Hj; cbn.
        { by intros [= <-]. } { apply Hmin. lia. }
      * intros (p & Hp & Hfp & Hmin). destruct i as [|i].
        { cbn in Hp. congruence. }
        exists i. split; [|done]. apply IH. exists p. split_and!; [done..|].
        intros j q' Hj. apply (Hmin (S j)). lia.
Qed.

Lemma find_slot_None f l : find_slot f l = None ↔ Forall (λ p, f p = false) l.
Proof.
  induction l as [|q l IH]; cbn [find_slot]; [done|].
  rewrite Forall_cons. destruct (f q) eqn:Hq; [split; [done|by intros [? _]]|].
  rewrite fmap_None, IH. tauto.
Qed.

Lemma find_pending_case case_id l i p :
  find_pending case_id l = Some i → l !! i = Some p → rq_case (pd_req p) = case_id.
Proof.
  intros (q & Hq & Hf & _)%find_slot_Some Hp. simplify_eq. by bool_hyps.
Qed.

(** ** Holding a request *)

(** What a pass may not change in a slot: everything but the clock fields. *)
Definition same_request (p q : pending_t) : Prop :=
  pd_active q = pd_active p ∧ pd_reply q = pd_reply p ∧
  rq_case (pd_req q) = rq_case (pd_req p) ∧ rq_source (pd_req q) = rq_source (pd_req p) ∧
  rq_verdict (pd_req q) = rq_verdict (pd_req p) ∧ rq_score (pd_req q) = rq_score (pd_req p) ∧
  rq_timeout (pd_req q) = rq_timeout (pd_req p) ∧ rq_action (pd_req q) = rq_action (pd_req p).

Global Instance same_request_preorder : PreOrder same_request.
Proof.
  split; red; unfold same_request; [by intros ?|].
  intros x y z (? & ? & ? & ? & ? & ? & ? & ?) (? & ? & ? & ? & ? & ? & ? & ?).
  split_and!; congruence.
Qed.

Definition unanswered (p : pending_t) : Prop := pd_active p = true → pd_reply p = 0.

(** Only notifications were sent, and no request changed. *)
Definition only_notified (w w' : world) : Prop :=
  w_db w' = w_db w ∧ Forall2 same_request (w_pending w) (w_pending w') ∧
  ∃ l, w_sys w' = w_sys w ++ l ∧ Forall (λ c, sc_site c = SiteNotify) l.

Global Instance only_notified_preorder : PreOrder only_notified.
Proof.
  split.
  - intros w. split_and!; [done|reflexivity|]. exists []. by rewrite app_nil_r.
  - intros w1 w2 w3 (Hd & Hp & l & Hl & Hn) (Hd' & Hp' & l' & Hl' & Hn').
    split_and!; [congruence|by etrans|].
    exists (l ++ l'). rewrite Hl', Hl, app_assoc. split; [done|by apply Forall_app].
Qed.

Lemma Forall2_insert_same {A} (R : A → A → Prop) `{!Reflexive R} (l : list A) i x y :
  l !! i = Some x → R x y → Forall2 R l (<[i := y]> l).
Proof.
  intros Hi Hxy. rewrite <- (list_insert_id l i x Hi) at 1.
  apply Forall2_insert; [reflexivity|done].
Qed.

Lemma check_timeout_same now p : same_request p (check_timeout now p).
Proof. unfold check_timeout. by destruct (_ && _). Qed.

Lemma check_hard_limit_same now p : same_request p (check_hard_limit now p).
Proof. unfold check_hard_limit. by destruct (_ && _). Qed.

Lemma unanswered_same l l' :
  Forall unanswered l → Forall2 same_request l l' → Forall unanswered l'.
Proof.
  intros Hl H. induction H as [|p q l l' (Ha & Hr & _) _ IH]; [done|].
  apply Forall_cons in Hl as [Hp Hl]. constructor; [|by apply IH].
  unfold unanswered. rewrite Ha, Hr. exact Hp.
Qed.

Lemma consent_slot_unanswered now i w :
  Forall unanswered (w_pending w) → only_notified w (exec (consent_slot now i) w).
Proof.
  intros Hun. unfold consent_slot. rewrite exec_bind, result_gets, exec_gets.
  destruct (w_pending w !! i) as [p|] eqn:Hi; [|reflexivity].
  destruct (pd_active p) eqn:Hact; cbn [negb]; [|reflexivity].
  pose proof (Forall_lookup_1 _ _ _ _ Hun Hi Hact) as ->. change (negb (0 =? 0)) with false. cbn iota.
  assert (same_request p (check_timeout now (check_hard_limit now p))) as Hsame.
  { etrans; [apply check_hard_limit_same|apply check_timeout_same]. }
  cbv zeta. set (q := check_timeout now (check_hard_limit now p)) in *. destruct (needs_notification now q).
  - unfold put_slot, send_notification. autorewrite with monad. cbn [w_db w_pending w_sys set_sys set_pending].
    split_and!; [done| |].
    + by eapply Forall2_insert_same; [apply _|exact Hi|].
    + eexists [_]. split; [reflexivity|by apply Forall_singleton].
  - unfold put_slot. rewrite exec_modify. split_and!; [done| |].
    + by eapply Forall2_insert_same; [apply _|exact Hi|].
    + exists []. by rewrite app_nil_r.
Qed.

(** C10. Silence is not consent: as long as the user has answered no pending
    request, a pass of the consent thread, at any time and whatever timeouts
    have run out, sends notifications only; it records no verdict, runs no
    enforcement command and keeps every request as it was. *)
Theorem silence_is_not_consent w :
  Forall unanswered (w_pending w) → only_notified w (exec consent_pass w).
Proof.
  intros Hun. unfold consent_pass. rewrite exec_bind, result_time_now, exec_time_now.
  apply (mfor_preserves (λ w', only_notified w w' ∧ Forall unanswered (w_pending w'))).
  - intros i w' _ [Hw Hun'].
    pose proof (consent_slot_unanswered (w_ms w / 1000) i w' Hun') as Hstep.
    split; [by etrans|]. destruct Hstep as (_ & Hp & _). by eapply unanswered_same.
  - split; [reflexivity|done].
Qed.

(** ** Acting on an answer *)

Lemma exec_resolve_entry i p w :
  exec (resolve_entry i p) w =
  let req := pd_req p in
  let w1 := set_sys (w_sys w ++
              [SysCall SiteDismiss (snprintf 256 ("termux-notification-remove "
                 +:+ fmt_d (notif_id (rq_case req)) +:+ " 2>/dev/null"))])
              (set_pending (<[i := Pending req (pd_notified p) false (pd_reply p)]> (w_pending w)) w) in
  let w2 := set_db (if db_ok (w_db w)
                    then set_consents (List.filter (λ r, negb (String.eqb (cq_case r) (rq_case req))))
                           (w_db w)
                    else w_db w) w1 in
  if pd_reply p =? 1 then
    exec (_ ← verdict_emit (rq_case req) (rq_source req) (rq_verdict req) (rq_score req) 1 1;
          enforce_execute (rq_source req) (rq_verdict req)) w2
  else exec (verdict_emit (rq_case req) (rq_source req) "CONSENT_DENIED" (rq_score req) 1 0) w2.
Proof.
  unfold resolve_entry, dismiss_notification, db_consent_remove. cbv zeta.
  rewrite !exec_bind, exec_modify, exec_system, exec_on_db, exec_run_stmt.
  destruct (pd_reply p =? 1); [|done]. by rewrite !exec_bind, exec_mret.
Qed.

(** An answer settles its request exactly once: the scan of a slot whose
    request was answered frees the slot, removes the stored request and records
    one verdict, with the consent columns (1,1) and the requested verdict when
    the user approved, (1,0) and CONSENT_DENIED otherwise; commands reach the
    shell only on approval, and they are those of the requested verdict. *)
Theorem answer_settles now i p w :
  db_ok (w_db w) = true → w_pending w !! i = Some p → pd_active p = true → pd_reply p ≠ 0 →
  let req := pd_req p in
  let yes := pd_reply p =? 1 in
  let w' := exec (consent_slot now i) w in
  w_pending w' = <[i := Pending req (pd_notified p) false (pd_reply p)]> (w_pending w) ∧
  consent_queue (w_db w') =
    List.filter (λ r, negb (String.eqb (cq_case r) (rq_case req))) (consent_queue (w_db w)) ∧
  verdicts (w_db w') = verdicts (w_db w) ++
    [emit_row (w_ms w / 1000) (rq_case req) (rq_source req)
       (if yes then rq_verdict req else "CONSENT_DENIED") (rq_score req) 1 (if yes then 1 else 0)] ∧
  ∃ dismissal, sc_site dismissal = SiteDismiss ∧
    w_sys w' = w_sys w ++ dismissal ::
      (if yes then enforce_calls w (rq_source req) (rq_verdict req) else []).
Proof.
  intros Hok Hi Hact Hrep. cbv zeta. unfold consent_slot.
  rewrite exec_bind, result_gets, exec_gets, Hi, Hact.
  apply Z.eqb_neq in Hrep. rewrite Hrep. cbn [negb].
  rewrite exec_resolve_entry, Hok. cbv zeta. destruct (pd_reply p =? 1).
  - rewrite exec_bind, exec_enforce_execute, exec_verdict_emit. cbn. rewrite Hok. cbn.
    split_and!; [done..|]. eexists. split; [|by rewrite <- app_assoc]. done.
  - rewrite exec_verdict_emit. cbn. rewrite Hok. cbn.
    split_and!; [done..|]. eexists. split; [|reflexivity]. done.
Qed.

(** A world with one request in slot 0, answered as [reply] says. *)
Definition sample_request : consent_request_t :=
  ConsentRequest "case_7" "com.bad.app" "JAILED" (d_of_Z 90) 900 0 "hold".

Definition sample_pending (reply : Z) : world :=
  exec (_ ← on_db (modify (set_consents (λ _, [row_of_request sample_request])));
        modify (λ w, set_pending (<[0%nat := Pending sample_request 900 true reply]> (w_pending w)) w))
    (world_init db_empty None false BACKEND_DIRECT 1000000).

Lemma silence_is_not_consent_witness :
  Forall unanswered (w_pending (sample_pending 0)) ∧
  only_notified (sample_pending 0) (exec consent_pass (sample_pending 0)).
Proof.
  assert (Forall unanswered (w_pending (sample_pending 0))) as H.
  { apply Forall_forall. intros p Hp _. revert p Hp. apply Forall_forall.
    vm_compute. repeat constructor. }
  split; [exact H|]. exact (silence_is_not_consent (sample_pending 0) H).
Defined.

Lemma answer_settles_witness :
  let w' := exec (consent_slot 1000 0) (sample_pending 1) in
  map vd_verdict (verdicts (w_db w')) = ["JAILED"] ∧ consent_queue (w_db w') = [] ∧
  map sc_site (w_sys w') = [SiteDismiss; SiteEnforce; SiteEnforce].
Proof.
  cbv zeta.
  destruct (answer_settles 1000 0 (Pending sample_request 900 true 1) (sample_pending 1))
    as (_ & -> & -> & d & Hd & ->); [reflexivity|reflexivity|reflexivity|discriminate|].
  split; [reflexivity|]. split; [vm_compute; reflexivity|].
  rewrite List.map_app. cbn [map]. rewrite Hd. vm_compute. reflexivity.
Defined.

(** ** An approval is acted on in the next pass *)

(** What the scan of one slot leaves to the others. *)
Definition slot_frame (i : nat) (w w' : world) : Prop :=
  w_pending w' !! i = w_pending w !! i ∧ w_backend w' = w_backend w ∧ w_sov w' = w_sov w ∧
  w_ms w' = w_ms w ∧ db_ok (w_db w') = db_ok (w_db w) ∧
  w_sys w `prefix_of` w_sys w' ∧ verdicts (w_db w) `prefix_of` verdicts (w_db w').

Global Instance slot_frame_preorder i : PreOrder (slot_frame i).
Proof.
  split; red; unfold slot_frame; [by intros ?|].
  intros x y z (? & ? & ? & ? & ? & ? & ?) (? & ? & ? & ? & ? & ? & ?).
  split_and!; first [congruence | by etrans].
Qed.

Lemma slot_frame_emit i c s v sc r g : keeps (slot_frame i) (verdict_emit c s v sc r g).
Proof.
  intros w. rewrite exec_verdict_emit. unfold slot_frame. cbn.
  destruct (db_ok (w_db w)) eqn:Hok; cbn; split_and!; try done. by apply prefix_app_r.
Qed.

Lemma slot_frame_enforce i s v : keeps (slot_frame i) (enforce_execute s v).
Proof.
  intros w. rewrite exec_enforce_execute. unfold slot_frame. cbn. split_and!; try done.
  by apply prefix_app_r.
Qed.

Lemma slot_frame_system i site cmd : keeps (slot_frame i) (system site cmd).
Proof.
  intros w. rewrite exec_system. unfold slot_frame. cbn. split_and!; try done.
  by apply prefix_app_r.
Qed.

Lemma slot_frame_put i j p :
  i ≠ j → keeps (slot_frame i) (modify (λ w, set_pending (<[j := p]> (w_pending w)) w)).
Proof.
  intros Hne w. rewrite exec_modify. unfold slot_frame. cbn. split_and!; try done.
  by apply list_lookup_insert_ne.
Qed.

Lemma slot_frame_remove i case_id : keeps (slot_frame i) (on_db (db_consent_remove case_id)).
Proof.
  intros w. rewrite exec_on_db. unfold db_consent_remove. rewrite exec_run_stmt.
  unfold slot_frame. cbn. destruct (db_ok (w_db w)) eqn:Hok; cbn; by split_and!.
Qed.

#[export] Hint Resolve slot_frame_emit slot_frame_enforce slot_frame_system slot_frame_put
  slot_frame_remove : mp.

Lemma consent_slot_frame now i j : i ≠ j → keeps (slot_frame i) (consent_slot now j).
Proof.
  intros Hne.
  unfold consent_slot, resolve_entry, put_slot, send_notification, dismiss_notification.
  keeps_tac.
Qed.

Lemma mfor_app {S A} (l1 l2 : list A) (body : A → M S unit) s :
  exec (mfor (l1 ++ l2) body) s = exec (mfor l2 body) (exec (mfor l1 body) s).
Proof.
  revert s. induction l1 as [|a l1 IH]; intros s; [done|].
  cbn [mfor app]. by rewrite !exec_bind, IH.
Qed.

(** C11. An approval is carried out by the next pass, wherever its request sits
    in the table and whatever else the pass does: the slot ends free, the
    requested verdict is on record with consent granted, and every command the
    verdict stands for, under the sovereignty list of that moment, reached the
    shell. *)
Theorem approval_carried_out i p w :
  db_ok (w_db w) = true → w_pending w !! i = Some p → (i < CONSENT_QUEUE_SIZE)%nat →
  pd_active p = true → pd_reply p = 1 →
  let req := pd_req p in
  let w' := exec consent_pass w in
  (∃ q, w_pending w' !! i = Some q ∧ pd_active q = false) ∧
  emit_row (w_ms w / 1000) (rq_case req) (rq_source req) (rq_verdict req) (rq_score req) 1 1
    ∈ verdicts (w_db w') ∧
  ∀ c, c ∈ enforce_calls w (rq_source req) (rq_verdict req) → c ∈ w_sys w'.
Proof.
  intros Hok Hi Hlt Hact Hrep. cbv zeta. unfold consent_pass.
  rewrite exec_bind, result_time_now, exec_time_now. set (now := w_ms w / 1000).
  replace (seq 0 CONSENT_QUEUE_SIZE) with (seq 0 i ++ i :: seq (S i) (CONSENT_QUEUE_SIZE - S i))
    by (change (i :: seq (S i) (CONSENT_QUEUE_SIZE - S i))
          with (seq (0 + i) (S (CONSENT_QUEUE_SIZE - S i)));
        rewrite <- seq_app; f_equal; lia).
  rewrite mfor_app. cbn [mfor]. rewrite exec_bind.
  assert (slot_frame i w (exec (mfor (seq 0 i) (consent_slot now)) w)) as H1.
  { apply mfor_relates; [apply _|]. intros j w1 Hj. apply consent_slot_frame.
    apply elem_of_seq in Hj. lia. }
  set (w1 := exec (mfor (seq 0 i) _) w) in *.
  destruct H1 as (Hi1 & Hb1 & Hs1 & Hm1 & Hok1 & _ & _).
  destruct (answer_settles now i p w1) as (Hp2 & _ & Hv2 & d & _ & Hs2);
    [congruence|congruence|done|lia|].
  rewrite Hrep in Hv2, Hs2. cbn [Z.eqb Pos.eqb] in Hv2, Hs2.
  set (w2 := exec (consent_slot now i) w1) in *.
  assert (slot_frame i w2 (exec (mfor (seq (S i) (CONSENT_QUEUE_SIZE - S i)) (consent_slot now)) w2))
    as (Hi3 & _ & _ & _ & _ & [ls Hls] & [lv Hlv]).
  { apply mfor_relates; [apply _|]. intros j w3 Hj. apply consent_slot_frame.
    apply elem_of_seq in Hj. lia. }
  split_and!.
  - eexists. rewrite Hi3, Hp2. split; [apply list_lookup_insert_eq|done].
    eapply lookup_lt_Some. rewrite Hi1. exact Hi.
  - rewrite Hlv, Hv2, Hm1, !elem_of_app, list_elem_of_singleton. auto.
  - intros c Hc. rewrite Hls, Hs2. unfold enforce_calls in *.
    rewrite Hb1, Hs1, !elem_of_app, elem_of_cons. auto.
Qed.

Lemma approval_carried_out_witness :
  let w := sample_pending 1 in
  enforce_calls w "com.bad.app" "JAILED" =
    [SysCall SiteEnforce "am force-stop com.bad.app 2>/dev/null";
     SysCall SiteEnforce "pm disable-user --user 0 com.bad.app 2>/dev/null"] ∧
  ∀ c, c ∈ enforce_calls w "com.bad.app" "JAILED" → c ∈ w_sys (exec consent_pass w).
Proof.
  cbv zeta. split; [vm_compute; reflexivity|].
  apply (approval_carried_out 0 (Pending sample_request 900 true 1) (sample_pending 1));
    [reflexivity | reflexivity | unfold CONSENT_QUEUE_SIZE; lia | reflexivity | reflexivity].
Defined.

(** ** Reload at start *)

(** A request whose texts are in the arrays of [consent_request_t]. *)
Record fits (r : consent_request_t) : Prop := Fits {
  ft_case : strncpy CASE_ID_LEN (rq_case r) = rq_case r;
  ft_source : strncpy SOURCE_LEN (rq_source r) = rq_source r;
  ft_verdict : strncpy STATE_LEN (rq_verdict r) = rq_verdict r;
  ft_action : strncpy 16 (rq_action r) = rq_action r }.

(** What the table gives back: SQLite stores a NaN as NULL, which reads as 0. *)
Definition as_stored (r : consent_request_t) : consent_request_t :=
  ConsentRequest (rq_case r) (rq_source r) (rq_verdict r) (if is_nan (rq_score r) then d_zero else rq_score r)
    (rq_queued r) (rq_timeout r) (rq_action r).

(** The request a row brings back: its texts in their arrays, its times, its score. *)
Definition restored (r : consent_row) : consent_request_t :=
  ConsentRequest (strncpy CASE_ID_LEN (cq_case r)) (strncpy SOURCE_LEN (cq_source r)) (strncpy STATE_LEN (cq_verdict r))
    (default d_zero (cq_score r)) (cq_queued r) (cq_timeout r) (strncpy 16 (cq_action r)).

Lemma request_restored r : request_of_db (consent_of_row r) = restored r.
Proof. unfold request_of_db, consent_of_row, restored. cbn. by rewrite !strncpy_idemp. Qed.

Lemma request_round_trip r : fits r → restored (row_of_request r) = as_stored r.
Proof.
  intros [Hc Hs Hv Ha]. destruct r. unfold row_of_request, restored, as_stored, bind_double. cbn in *.
  rewrite Hc, Hs, Hv, Ha. by destruct (is_nan _).
Qed.

(** The oldest rows first; those of one second in the order they are stored. *)
Abbreviation by_age := (λ a b : consent_row, cq_queued a <= cq_queued b).

Lemma insert_by_queued_perm x l : insert_by_queued x l ≡ₚ x :: l.
Proof.
  induction l as [|y l IH]; [done|]. cbn [insert_by_queued]. destruct (cq_queued y <=? cq_queued x); [|done].
  rewrite IH. apply Permutation_swap.
Qed.

Lemma insert_by_queued_sorted x l : StronglySorted by_age l → StronglySorted by_age (insert_by_queued x l).
Proof.
  induction 1 as [|y l Hl IH Hy]; cbn [insert_by_queued]; [by repeat constructor|].
  destruct (Z.leb_spec (cq_queued y) (cq_queued x)).
  - constructor; [exact IH|]. rewrite insert_by_queued_perm. by constructor.
  - constructor; [by constructor|]. constructor; [lia|]. eapply Forall_impl; [exact Hy|]. intros z Hz. cbn in *. lia.
Qed.

Lemma insert_by_queued_last acc x : Forall (λ y, cq_queued y <= cq_queued x) acc → insert_by_queued x acc = acc ++ [x].
Proof. induction 1 as [|y acc Hy _ IH]; [done|]. cbn [insert_by_queued]. by rewrite (proj2 (Z.leb_le _ _) Hy), IH. Qed.

Lemma order_by_queued_ok l :
  order_by_queued l ≡ₚ l ∧ Sorted by_age (order_by_queued l) ∧ (Sorted by_age l → order_by_queued l = l).
Proof.
  assert (∀ acc, StronglySorted by_age acc →
    fold_left (λ acc r, insert_by_queued r acc) l acc ≡ₚ acc ++ l ∧
    StronglySorted by_age (fold_left (λ acc r, insert_by_queued r acc) l acc) ∧
    (StronglySorted by_age (acc ++ l) → fold_left (λ acc r, insert_by_queued r acc) l acc = acc ++ l)) as H.
  { induction l as [|x l IH]; intros acc Ha; cbn [fold_left]; [by rewrite app_nil_r|].
    destruct (IH (insert_by_queued x acc)) as (H1 & H2 & H3); [by apply insert_by_queued_sorted|]. split_and!; [|done|].
    - rewrite H1, insert_by_queued_perm. cbn [app]; by rewrite (Permutation_middle acc l x).
    - intros Hs. assert (insert_by_queued x acc = acc ++ [x]) as E.
      { apply insert_by_queued_last. apply StronglySorted_app in Hs as (Hc & _ & _). apply Forall_forall. intros y Hy.
        apply Hc; [done|by left]. }
      rewrite E in *. rewrite <-app_assoc in H3. by apply H3. }
  destruct (H []) as (H1 & H2 & H3); [constructor|]. split_and!; [done|by apply StronglySorted_Sorted|].
  intros Hs. apply H3. apply Sorted_StronglySorted; [intros ? ? ?; lia|done].
Qed.

(** Enqueueing into a table that is full up to a point fills the next slot. *)
Lemma enqueue_next ps n req w :
  Forall (λ p, pd_active p = true) ps → w_pending w = ps ++ replicate (S n) pending_zero →
  exec (consent_enqueue req) w =
  set_pending ((ps ++ [Pending req 0 true 0]) ++ replicate n pending_zero) w.
Proof.
  intros Hps Hw. unfold consent_enqueue. rewrite exec_modify, Hw.
  assert (free_slot (ps ++ replicate (S n) pending_zero) = Some (length ps)) as ->.
  { apply find_slot_Some. exists pending_zero. split_and!; [|done|].
    - by rewrite lookup_app_r, Nat.sub_diag by lia.
    - intros j q Hj. rewrite lookup_app_l by done. intros Hq.
      rewrite Forall_lookup in Hps. by rewrite (Hps j q Hq). }
  f_equal. rewrite insert_app_r_alt, Nat.sub_diag by lia. by rewrite <- app_assoc.
Qed.

Lemma enqueue_all reqs : ∀ ps n w,
  Forall (λ p, pd_active p = true) ps → (length reqs <= n)%nat →
  w_pending w = ps ++ replicate n pending_zero →
  exec (mfor reqs consent_enqueue) w =
  set_pending ((ps ++ map (λ r, Pending r 0 true 0) reqs)
               ++ replicate (n - length reqs) pending_zero) w.
Proof.
  induction reqs as [|r reqs IH]; intros ps n w Hps Hn Hw; cbn [length map] in *.
  - rewrite app_nil_r, Nat.sub_0_r, <- Hw. by destruct w.
  - destruct n as [|n]; [lia|]. cbn [mfor]. rewrite exec_bind, (enqueue_next ps n) by done.
    rewrite (IH (ps ++ [Pending r 0 true 0]) n).
    + rewrite <- !app_assoc. by destruct w.
    + apply Forall_app. split; [done|]. by apply Forall_singleton.
    + lia.
    + done.
Qed.

(** C14. Outstanding requests survive a restart, as far as the table in memory has
    room: whatever rows the queue table holds, the consent thread starts with the
    requests of its 32 oldest, the oldest first, none of them answered, each due for
    an immediate notification.  Up to 32 rows these are all that are stored, and of
    more the newer ones are not in memory.  A request that was in the arrays of
    [consent_request_t] comes back from its row with its own texts, times and score,
    except that a score that is not a number comes back as 0. *)
Theorem requests_survive_restart w :
  db_ok (w_db w) = true →
  let rows := consent_queue (w_db w) in
  (∃ oldest, oldest ≡ₚ rows ∧ Sorted by_age oldest ∧ (Sorted by_age rows → oldest = rows) ∧
    w_pending (exec consent_start w) =
      map (λ r, Pending (restored r) 0 true 0) (take CONSENT_QUEUE_SIZE oldest) ++
      replicate (CONSENT_QUEUE_SIZE - length rows) pending_zero) ∧
  ∀ r, fits r → restored (row_of_request r) = as_stored r.
Proof.
  intros Hok rows. split; [|exact request_round_trip]. destruct (order_by_queued_ok rows) as (Hp & Hs & Hid).
  exists (order_by_queued rows). split_and!; [done..|]. unfold consent_start.
  rewrite !exec_bind, exec_modify, exec_on_db, result_on_db.
  unfold db_consent_pending at 1 2. rewrite exec_query, result_query. cbn [w_db set_pending set_db].
  rewrite Hok. fold rows. rewrite <-(Permutation_length Hp).
  rewrite <-(mfor_map request_of_db), List.map_map, (map_ext _ _ request_restored).
  rewrite (enqueue_all _ [] CONSENT_QUEUE_SIZE); [|done|rewrite length_map, length_take; lia|done].
  rewrite List.map_map, length_map, length_take. cbn [app w_pending set_pending]. do 2 f_equal. lia.
Qed.

(** Two requests stored the newer one first. *)
Lemma requests_survive_restart_witness :
  let older := ConsentRequest "CASE-0" "com.bad.app" "JAILED" (d_of_Z 90) 100 0 "hold" in
  let w := exec (on_db (modify (set_consents (λ _, [row_of_request sample_request; row_of_request older])))) (sample_pending 1) in
  w_pending (exec consent_start w) = Pending older 0 true 0 :: Pending sample_request 0 true 0 :: replicate 30 pending_zero.
Proof.
  cbv zeta. destruct (requests_survive_restart
    (exec (on_db (modify (set_consents (λ _, [row_of_request sample_request;
      row_of_request (ConsentRequest "CASE-0" "com.bad.app" "JAILED" (d_of_Z 90) 100 0 "hold")])))) (sample_pending 1)))
    as [(oldest & Hp & Hs & _ & ->) _]; [reflexivity|].
  apply Permutation_sym, Permutation_length_2_inv in Hp as [-> | ->]; [|reflexivity].
  apply Sorted_inv in Hs as [_ Hs]. inversion Hs as [|? ? Hle]. vm_compute in Hle. by destruct Hle.
Defined.

(** With 33 outstanding requests the newest one is not there after a restart. *)
Lemma newest_not_reloaded :
  let reqs := map (λ n, ConsentRequest (fmt_d n) "com.bad.app" "JAILED" (d_of_Z 90) n 0 "hold") (seqZ 1 33) in
  let w := exec (on_db (modify (set_consents (λ _, map row_of_request reqs)))) (sample_pending 1) in
  find_pending "32" (w_pending (exec consent_start w)) = Some 31%nat ∧ find_pending "33" (w_pending (exec consent_start w)) = None.
Proof. vm_compute. done. Qed.
