(* ===== verification/Verdict.v ===== *)
(** * gaveld: the verdict machine ([src/gaveld/verdict.c]) *)

From S2P Require Import Prelude CString Double Config Db Tier World Enforce Emit Consent Cases.

Definition ia_lock_active : G bool := gets w_ia_lock.

(** Sovereignty apps are capped at QUARANTINED. *)
Definition apply_sovereignty_cap (source state : string) : G string :=
  sov ← gets w_sov;
  mret (if tier_is_sovereignty sov source then
          if String.eqb state "JAILED" || String.eqb state "HOUSE_ARREST"
          then "QUARANTINED" else state
        else state).

(** JAILED needs a containment verdict in the last 24 hours. *)
Definition apply_floor_jailed (source state : string) : G string :=
  if negb (String.eqb state "JAILED") then mret state
  else
    now ← time_now;
    let session_start := now - 24 * 3600 in
    prior_ha ← on_db (db_verdict_count_recent source "HOUSE_ARREST" session_start);
    prior_q ← on_db (db_verdict_count_recent source "QUARANTINED" session_start);
    mret (if (prior_ha =? 0) && (prior_q =? 0) then "HOUSE_ARREST" else state).

(** No enforcement without a signal in the last minute. *)
Definition floor_has_fresh_signal (source : string) : G bool :=
  now ← time_now;
  on_db (db_signal_active source (now - FLOOR_CLEAN_SIGNAL_MAX_AGE_SEC)).

Definition audit_signal_ia_referral : G unit := modify (set_ia_signal true).

Definition consent_timeout (state : string) : Z :=
  if String.eqb state "JAILED" then CONSENT_TIMEOUT_JAILED
  else if String.eqb state "HOUSE_ARREST" then CONSENT_TIMEOUT_HOUSE_ARREST
  else CONSENT_TIMEOUT_QUARANTINED.

(** The containment states that need consent. *)
Definition containment (state : string) : bool :=
  String.eqb state "QUARANTINED" || String.eqb state "HOUSE_ARREST"
  || String.eqb state "JAILED".

(** Step 8: hand the case to the consent gate. *)
Definition request_consent (crec : case_record_t) (state : string) : G unit :=
  now ← time_now;
  let req := ConsentRequest (strncpy CASE_ID_LEN (ca_id crec)) (strncpy SOURCE_LEN (ca_source crec))
               (strncpy STATE_LEN state) (ca_score crec) now (consent_timeout state) "hold" in
  _ ← on_db (db_consent_insert
         (DbConsent (rq_case req) (rq_source req) (rq_verdict req) (rq_score req)
            (rq_queued req) (rq_timeout req) (rq_action req)));
  consent_enqueue req.

Definition verdict_process (crec : case_record_t) : G unit :=
  let state := strncpy STATE_LEN (ca_state crec) in
  lock ← ia_lock_active;
  if (lock : bool) then
    _ ← on_db (db_case_update_status (ca_id crec) "SUSPENDED"); mret tt
  else if tier_is_own_daemon (ca_source crec) then
    _ ← verdict_emit (ca_id crec) (ca_source crec) "IA_REFERRAL" (ca_score crec) 0 0;
    audit_signal_ia_referral
  else
    fresh ← floor_has_fresh_signal (ca_source crec);
    if negb fresh then
      verdict_emit (ca_id crec) (ca_source crec) "DISMISSED_STALE" (ca_score crec) 0 0
    else
      state ← apply_sovereignty_cap (ca_source crec) state;
      state ← apply_floor_jailed (ca_source crec) state;
      if String.eqb state "WARNED" then
        _ ← verdict_emit (ca_id crec) (ca_source crec) "WARNED" (ca_score crec) 0 1;
        _ ← enforce_execute (ca_source crec) state;
        mret tt
      else if negb (containment state) then
        verdict_emit (ca_id crec) (ca_source crec) "DISMISSED" (ca_score crec) 0 0
      else request_consent crec state.

(** One turn of the verdict thread. *)
Definition verdict_turn : G unit :=
  c ← cases_dequeue;
  match c with
  | Some crec => verdict_process crec
  | None => mret tt
  end.

(** ** Specification: the decision, and what follows from it *)

Inductive decision :=
  | Suspend | Refer | Stale | Warn | Dismiss | AskConsent (state : string).

(** What the machine looks at. *)
Record facts := Facts {
  f_lock : bool;        (* internal affairs hold the lock *)
  f_own : bool;         (* the source is one of the own daemons *)
  f_fresh : bool;       (* it had a signal in the last minute *)
  f_sov : bool;         (* it is on the sovereignty list *)
  f_prior : bool }.     (* it was contained in the last 24 hours *)

Definition decide_state (f : facts) (state : string) : string :=
  if f_sov f then
    if String.eqb state "JAILED" || String.eqb state "HOUSE_ARREST" then "QUARANTINED" else state
  else if String.eqb state "JAILED" && negb (f_prior f) then "HOUSE_ARREST" else state.

Definition decide_case (f : facts) (state : string) : decision :=
  if f_lock f then Suspend
  else if f_own f then Refer
  else if negb (f_fresh f) then Stale
  else
    let s := decide_state f state in
    if String.eqb s "WARNED" then Warn
    else if containment s then AskConsent s else Dismiss.

(** A containment verdict on the source after [since]. *)
Definition contained_since (source : string) (since : Z) (r : verdict_row) : bool :=
  String.eqb (vd_source r) source
  && (String.eqb (vd_verdict r) "HOUSE_ARREST" || String.eqb (vd_verdict r) "QUARANTINED")
  && (since <? vd_epoch r).

Definition observe (source : string) (w : world) : facts :=
  let now := w_ms w / 1000 in
  let d := w_db w in
  Facts (w_ia_lock w) (tier_is_own_daemon source)
    (db_ok d && existsb (in_window source (now - FLOOR_CLEAN_SIGNAL_MAX_AGE_SEC)) (signal_window d))
    (tier_is_sovereignty (w_sov w) source)
    (db_ok d && existsb (contained_since source (now - 24 * 3600)) (verdicts d)).

(** The request of a case. *)
Definition request_of_case (now : Z) (c : case_record_t) (state : string) : consent_request_t :=
  ConsentRequest (strncpy CASE_ID_LEN (ca_id c)) (strncpy SOURCE_LEN (ca_source c))
    (strncpy STATE_LEN state) (ca_score c) now (consent_timeout state) "hold".

(** The verdict a decision records, with its two consent columns. *)
Definition recorded (d : decision) : option (string * Z) :=
  match d with
  | Refer => Some ("IA_REFERRAL", 0)
  | Stale => Some ("DISMISSED_STALE", 0)
  | Warn => Some ("WARNED", 1)
  | Dismiss => Some ("DISMISSED", 0)
  | Suspend | AskConsent _ => None
  end.

(** ** Lemmas *)

Lemma count_where_zero {R} (f : R → bool) l : (count_where f l =? 0) = negb (existsb f l).
Proof.
  unfold count_where. induction l as [|r l IH]; [done|]. cbn [List.filter existsb].
  destruct (f r); cbn [orb negb]; [|done]. apply Z.eqb_neq. cbn [length]. lia.
Qed.

Lemma existsb_or {R} (f g : R → bool) l :
  existsb (λ r, f r || g r) l = existsb f l || existsb g l.
Proof.
  induction l as [|r l IH]; [done|]. cbn [existsb]. rewrite IH.
  destruct (f r), (g r), (existsb f l); done.
Qed.

Lemma existsb_ext' {R} (f g : R → bool) l : (∀ r, f r = g r) → existsb f l = existsb g l.
Proof. intros H. induction l as [|r l IH]; [done|]. cbn [existsb]. by rewrite H, IH. Qed.

Lemma on_db_query {A} (a : A) (f : db → A) w :
  on_db (query a f) w = (if db_ok (w_db w) then f (w_db w) else a, w).
Proof. destruct w. done. Qed.

Lemma fresh_signal_spec source w :
  floor_has_fresh_signal source w = (f_fresh (observe source w), w).
Proof.
  unfold floor_has_fresh_signal, db_signal_active, time_now. unmonad.
  cbn -[on_db Z.sub]. rewrite on_db_query. by destruct (db_ok (w_db w)).
Qed.

Lemma cap_spec source state w :
  apply_sovereignty_cap source state w =
  (if f_sov (observe source w)
   then if String.eqb state "JAILED" || String.eqb state "HOUSE_ARREST"
        then "QUARANTINED" else state
   else state, w).
Proof. done. Qed.

Lemma floor_spec source state w :
  apply_floor_jailed source state w =
  (if String.eqb state "JAILED" && negb (f_prior (observe source w))
   then "HOUSE_ARREST" else state, w).
Proof.
  unfold apply_floor_jailed. destruct (String.eqb state "JAILED"); [|done].
  unfold db_verdict_count_recent, time_now. unmonad.
  cbn -[Z.mul Z.sub on_db]. rewrite !on_db_query. cbn -[Z.mul Z.sub on_db].
  destruct (db_ok (w_db w)); [|done]. cbn [andb].
  rewrite !count_where_zero, <- negb_orb, <- existsb_or.
  rewrite (existsb_ext' _ (contained_since source (w_ms w / 1000 - 24 * 3600))); [done|].
  intros r. unfold contained_since.
  destruct (String.eqb (vd_source r) source), (String.eqb (vd_verdict r) "HOUSE_ARREST"),
    (String.eqb (vd_verdict r) "QUARANTINED"); cbn [andb orb]; try done; by destruct (_ <? _).
Qed.

(** The state after both floors, as one step. *)
Lemma decide_state_spec source state w :
  let f := observe source w in
  (if String.eqb
        (if f_sov f then if String.eqb state "JAILED" || String.eqb state "HOUSE_ARREST"
                         then "QUARANTINED" else state else state) "JAILED"
      && negb (f_prior f)
   then "HOUSE_ARREST"
   else if f_sov f then if String.eqb state "JAILED" || String.eqb state "HOUSE_ARREST"
                        then "QUARANTINED" else state else state)
  = decide_state f state.
Proof.
  cbv zeta. unfold decide_state. destruct (f_sov _); [|done].
  destruct (String.eqb_spec state "JAILED") as [->|Hj]; [done|]. cbn [orb].
  destruct (String.eqb state "HOUSE_ARREST"); [done|].
  by rewrite (proj2 (String.eqb_neq _ _) Hj).
Qed.

(** [verdict_process] is its decision followed by one action. *)
Lemma exec_verdict_process c w :
  exec (verdict_process c) w =
  match decide_case (observe (ca_source c) w) (strncpy STATE_LEN (ca_state c)) with
  | Suspend => exec (on_db (db_case_update_status (ca_id c) "SUSPENDED")) w
  | Refer => set_ia_signal true
               (exec (verdict_emit (ca_id c) (ca_source c) "IA_REFERRAL" (ca_score c) 0 0) w)
  | Stale => exec (verdict_emit (ca_id c) (ca_source c) "DISMISSED_STALE" (ca_score c) 0 0) w
  | Warn => exec (_ ← verdict_emit (ca_id c) (ca_source c) "WARNED" (ca_score c) 0 1;
                  enforce_execute (ca_source c) "WARNED") w
  | Dismiss => exec (verdict_emit (ca_id c) (ca_source c) "DISMISSED" (ca_score c) 0 0) w
  | AskConsent s => exec (request_consent c s) w
  end.
Proof.
  unfold verdict_process, decide_case, ia_lock_active.
  rewrite exec_bind, result_gets, exec_gets. cbn [f_lock f_own observe].
  destruct (w_ia_lock w); [by rewrite exec_bind|].
  destruct (tier_is_own_daemon (ca_source c)); [by rewrite exec_bind|].
  rewrite exec_bind. unfold result at 1, exec at 2. rewrite fresh_signal_spec. cbn [fst snd].
  destruct (f_fresh (observe (ca_source c) w)); cbn [negb]; [|done].
  assert (∀ {A} (k : string → G A),
    exec (s ← apply_sovereignty_cap (ca_source c) (strncpy STATE_LEN (ca_state c));
          s' ← apply_floor_jailed (ca_source c) s; k s') w
    = exec (k (decide_state (observe (ca_source c) w) (strncpy STATE_LEN (ca_state c)))) w) as ->.
  { intros A k. rewrite !exec_bind. unfold result, exec at 2 3 4.
    rewrite cap_spec. cbn [fst snd]. rewrite floor_spec. cbn [fst snd].
    by rewrite decide_state_spec. }
  cbv zeta. set (s := decide_state _ _). destruct (String.eqb_spec s "WARNED") as [->|_].
  - by rewrite !exec_bind, exec_mret.
  - by destruct (containment s).
Qed.

(** *** Its effect, table by table *)

Lemma exec_request_consent c s w :
  let req := request_of_case (w_ms w / 1000) c s in
  exec (request_consent c s) w =
  exec (consent_enqueue req)
    (set_db (if db_ok (w_db w)
             then set_consents (λ l,
                    List.filter (λ r, negb (String.eqb (cq_case r) (rq_case req))) l
                    ++ [row_of_request req]) (w_db w)
             else w_db w) w).
Proof.
  cbv zeta. unfold request_consent. rewrite exec_bind, result_time_now, exec_time_now.
  rewrite exec_bind, exec_on_db. unfold db_consent_insert. by rewrite exec_run_stmt.
Qed.

Lemma consent_enqueue_fields req w :
  let w' := exec (consent_enqueue req) w in
  w_db w' = w_db w ∧ w_sys w' = w_sys w ∧ w_ia_signal w' = w_ia_signal w.
Proof. unfold consent_enqueue. rewrite exec_modify. by destruct (free_slot _). Qed.

(** *** The floors *)

Lemma containment_inv state :
  containment state = true → state = "QUARANTINED" ∨ state = "HOUSE_ARREST" ∨ state = "JAILED".
Proof.
  unfold containment. intros H. repeat (apply orb_prop in H as [H|H]);
    apply String.eqb_eq in H; auto.
Qed.

Lemma containment_short state : containment state = true → strncpy STATE_LEN state = state.
Proof. intros H. apply containment_inv in H. by destruct_or!; subst. Qed.

Lemma sovereign_state f st :
  f_sov f = true → containment (decide_state f st) = true → decide_state f st = "QUARANTINED".
Proof.
  intros Hs. unfold decide_state. rewrite Hs.
  destruct (String.eqb_spec st "JAILED") as [->|Hj]; [done|].
  destruct (String.eqb_spec st "HOUSE_ARREST") as [->|Hh]; [done|]. cbn [orb].
  intros Hc%containment_inv. by destruct_or!.
Qed.

Lemma jailed_state f st : decide_state f st = "JAILED" → f_prior f = true.
Proof.
  unfold decide_state. destruct (f_sov f).
  - destruct (String.eqb_spec st "JAILED"); [done|].
    destruct (String.eqb st "HOUSE_ARREST"); cbn [orb]; [done|by intros ->].
  - destruct (String.eqb_spec st "JAILED"); cbn [andb]; [|by intros ->]. by destruct (f_prior f).
Qed.

Lemma prior_spec source w :
  f_prior (observe source w) = true →
  ∃ v, v ∈ verdicts (w_db w) ∧ vd_source v = source ∧
    (vd_verdict v = "HOUSE_ARREST" ∨ vd_verdict v = "QUARANTINED") ∧
    w_ms w / 1000 - 24 * 3600 < vd_epoch v.
Proof.
  cbn [f_prior observe]. intros [_ (v & Hv & Hc)%existsb_exists]%andb_prop.
  exists v. unfold contained_since in Hc. bool_hyps.
  split_and!; [by apply list_elem_of_In|done| |done].
  match goal with
  | H : (_ || _) = true |- _ => apply orb_prop in H as [H|H]; apply String.eqb_eq in H; auto
  end.
Qed.

(** A row that [verdict_process] adds is the request its decision asks for. *)
Lemma new_request c w r :
  r ∈ consent_queue (w_db (exec (verdict_process c) w)) → r ∉ consent_queue (w_db w) →
  ∃ s, decide_case (observe (ca_source c) w) (strncpy STATE_LEN (ca_state c)) = AskConsent s ∧
    r = row_of_request (request_of_case (w_ms w / 1000) c s).
Proof.
  rewrite exec_verdict_process. destruct (decide_case _ _) as [| | | | |s].
  6: { rewrite exec_request_consent.
       rewrite (proj1 (consent_enqueue_fields _ _)). cbn [w_db set_db].
       destruct (db_ok _); [|by intros ? ?]. cbn [consent_queue set_consents].
       intros [Hin|Hin]%elem_of_app Hnew; [|by apply list_elem_of_singleton in Hin as ->; eauto].
       apply list_elem_of_In, List.filter_In in Hin as [Hin _]. by apply list_elem_of_In in Hin. }
  1: rewrite exec_on_db; unfold db_case_update_status; rewrite exec_run_stmt.
  4: rewrite exec_bind, exec_enforce_execute.
  2-5: rewrite exec_verdict_emit.
  all: cbn; destruct (db_ok _); by intros ? ?.
Qed.

(** ** Theorems *)

(** C7. The verdict machine refines its decision table.  Whatever the state, a
    case leaves exactly the verdict row, the shell commands, the referral to the
    audit thread and the stored consent request that [decide_case] calls for on
    the facts observed at that moment, and no score or signal changes. *)
Theorem verdict_process_refines c w :
  db_ok (w_db w) = true →
  let now := w_ms w / 1000 in
  let d := decide_case (observe (ca_source c) w) (strncpy STATE_LEN (ca_state c)) in
  let w' := exec (verdict_process c) w in
  verdicts (w_db w') = verdicts (w_db w) ++
    option_list ((λ '(v, g), emit_row now (ca_id c) (ca_source c) v (ca_score c) 0 g) <$> recorded d) ∧
  w_sys w' = w_sys w ++
    (match d with Warn => enforce_calls w (ca_source c) "WARNED" | _ => [] end) ∧
  w_ia_signal w' = (match d with Refer => true | _ => w_ia_signal w end) ∧
  consent_queue (w_db w') =
    (match d with
     | AskConsent s =>
         List.filter (λ r, negb (String.eqb (cq_case r) (strncpy CASE_ID_LEN (ca_id c))))
           (consent_queue (w_db w)) ++ [row_of_request (request_of_case now c s)]
     | _ => consent_queue (w_db w)
     end) ∧
  threat_scores (w_db w') = threat_scores (w_db w) ∧
  signal_window (w_db w') = signal_window (w_db w).
Proof.
  intros Hok. cbv zeta. rewrite exec_verdict_process.
  destruct (decide_case _ _) as [| | | | |s]; cbn [recorded fmap option_fmap option_map option_list].
  - rewrite exec_on_db. unfold db_case_update_status. rewrite exec_run_stmt, Hok. cbn.
    by rewrite !app_nil_r.
  - rewrite exec_verdict_emit, Hok. cbn. by rewrite !app_nil_r.
  - rewrite exec_verdict_emit, Hok. cbn. by rewrite !app_nil_r.
  - rewrite exec_bind, exec_enforce_execute, exec_verdict_emit, Hok. done.
  - rewrite exec_verdict_emit, Hok. cbn. by rewrite !app_nil_r.
  - rewrite exec_request_consent, Hok.
    destruct (consent_enqueue_fields (request_of_case (w_ms w / 1000) c s)
      (set_db (set_consents (λ l, List.filter (λ r, negb (String.eqb (cq_case r)
          (rq_case (request_of_case (w_ms w / 1000) c s)))) l
          ++ [row_of_request (request_of_case (w_ms w / 1000) c s)]) (w_db w)) w))
      as (-> & -> & ->).
    cbn. by rewrite !app_nil_r.
Qed.

(** A case on a source with a signal ten seconds old, and the world it meets. *)
Definition sample_case (state : string) : case_record_t :=
  CaseRecord "case_1" "com.bad.app" "ROOT_DETECTED" state (d_of_Z 85) (d_of_Z 35) "su" 1000.

Definition sample_world (prior : list verdict_row) : world :=
  world_init (Db true [] [SignalRow "com.bad.app" "ROOT_DETECTED" 990] [] prior [] [] [] [])
    None false BACKEND_DIRECT 1000000.

Lemma verdict_process_refines_witness :
  let w := sample_world [] in
  let w' := exec (verdict_process (sample_case "JAILED")) w in
  db_ok (w_db w) = true ∧ w_sys w' = [] ∧ map cq_verdict (consent_queue (w_db w')) = ["HOUSE_ARREST"].
Proof.
  cbv zeta. split; [reflexivity|].
  destruct (verdict_process_refines (sample_case "JAILED") (sample_world []) eq_refl)
    as (_ & -> & _ & -> & _).
  split; vm_compute; reflexivity.
Defined.

(** C9. What the two ethical floors promise: a consent request that the machine
    adds never asks for more than QUARANTINED when the source is on the
    sovereignty list, and asks for JAILED only when the source already had a
    HOUSE_ARREST or QUARANTINED verdict in the last 24 hours. *)
Theorem floors_bound_requests c w r :
  r ∈ consent_queue (w_db (exec (verdict_process c) w)) →
  r ∉ consent_queue (w_db w) →
  (tier_is_sovereignty (w_sov w) (ca_source c) = true → cq_verdict r = "QUARANTINED") ∧
  (cq_verdict r = "JAILED" →
     ∃ v, v ∈ verdicts (w_db w) ∧ vd_source v = ca_source c ∧
       (vd_verdict v = "HOUSE_ARREST" ∨ vd_verdict v = "QUARANTINED") ∧
       w_ms w / 1000 - 24 * 3600 < vd_epoch v).
Proof.
  intros Hin Hnew. destruct (new_request c w r Hin Hnew) as (s & Hs & ->).
  cbn [row_of_request request_of_case cq_verdict rq_verdict].
  unfold decide_case in Hs.
  set (f := observe (ca_source c) w) in *.
  destruct (f_lock f), (f_own f), (f_fresh f); cbn [negb] in Hs; try done.
  destruct (String.eqb _ "WARNED"); [done|].
  destruct (containment _) eqn:Hc; [|done]. injection Hs as <-.
  rewrite (containment_short _ Hc). split.
  - intros Hsov. by apply sovereign_state.
  - intros Hj. by eapply prior_spec, jailed_state.
Qed.

Lemma floors_bound_requests_witness :
  let prior := [VerdictRow "case_0" "com.bad.app" "QUARANTINED" None 500 1 1 "" ""] in
  let w := sample_world prior in
  ∃ r, r ∈ consent_queue (w_db (exec (verdict_process (sample_case "JAILED")) w)) ∧
    cq_verdict r = "JAILED" ∧
    (∃ v, v ∈ verdicts (w_db w) ∧ vd_source v = "com.bad.app" ∧
       (vd_verdict v = "HOUSE_ARREST" ∨ vd_verdict v = "QUARANTINED") ∧
       w_ms w / 1000 - 24 * 3600 < vd_epoch v).
Proof.
  exists (row_of_request (request_of_case 1000 (sample_case "JAILED") "JAILED")).
  split; [apply (list_elem_of_lookup_2 _ 0%nat); vm_compute; reflexivity|].
  split; [reflexivity|].
  apply (floors_bound_requests (sample_case "JAILED") _
           (row_of_request (request_of_case 1000 (sample_case "JAILED") "JAILED"))).
  - apply (list_elem_of_lookup_2 _ 0%nat). vm_compute. reflexivity.
  - apply not_elem_of_nil.
  - reflexivity.
Defined.
