(* ===== verification/Decay.v ===== *)
(** * gaveld: score decay ([src/gaveld/decay.c]) *)

From S2P Require Import Prelude CString Double Config Db World.

(** Severity order of the states. *)
Definition state_rank (state : string) : Z :=
  if String.eqb state "JAILED" then 5
  else if String.eqb state "HOUSE_ARREST" then 4
  else if String.eqb state "QUARANTINED" then 3
  else if String.eqb state "WARNED" then 2
  else if String.eqb state "WATCHED" then 1
  else 0.

(** The copy of [score_to_state] private to [decay.c]. *)
Definition decay_score_to_state (score : double) : string :=
  if (THRESH_JAILED <=? score)%D then "JAILED"
  else if (THRESH_HOUSE_ARREST <=? score)%D then "HOUSE_ARREST"
  else if (THRESH_QUARANTINED <=? score)%D then "QUARANTINED"
  else if (THRESH_WARNED <=? score)%D then "WARNED"
  else if (THRESH_WATCHED <=? score)%D then "WATCHED"
  else "CLEAN".

Definition DECAY_CUTOFF : double := Eval vm_compute in atof "0.5".

(** The score after one tick without signals. *)
Definition decayed (score : double) : double :=
  let x := (score * DECAY_FACTOR)%D in
  if (x <? DECAY_CUTOFF)%D then d_zero else x.

(** One row of the tick. *)
Definition decay_row (now active_since : Z) (r : db_threat_t) : G unit :=
  active ← on_db (db_signal_active (dt_source r) active_since);
  if (active : bool) then mret tt
  else
    let new_score := decayed (dt_score r) in
    _ ← on_db (db_threat_upsert
           (DbThreat (dt_source r) new_score (strncpy STATE_LEN (decay_score_to_state new_score))
              (dt_jails r) (dt_quarantines r) now));
    mret tt.

Definition decay_tick : G unit :=
  lock ← gets w_ia_lock;
  if (lock : bool) then mret tt
  else
    now ← time_now;
    let active_since := now - SIGNAL_WINDOW_SEC in
    rows ← on_db (db_threat_all 512);
    _ ← mfor rows (decay_row now active_since);
    _ ← on_db (db_signal_prune (now - SIGNAL_WINDOW_SEC));
    mret tt.

Lemma decay_row_db_only now since r : keeps db_only (decay_row now since r).
Proof. unfold decay_row. keeps_tac. Qed.

#[export] Hint Resolve decay_row_db_only : mp.

Lemma decay_tick_db_only : keeps db_only decay_tick.
Proof. unfold decay_tick. keeps_tac. Qed.
