(* ===== verification/Affairs.v ===== *)
(** * gaveld: internal affairs ([src/gaveld/audit.c]) *)

From S2P Require Import Prelude CString Double Config Db World.

Definition notify_user (title content : string) : G unit :=
  let q := QUOTE in
  system SiteAudit
    (snprintf 512 ("termux-notification --title " +:+ q +:+ "gaveld audit: " +:+ title +:+ q
       +:+ " --content " +:+ q +:+ content +:+ q +:+ " 2>/dev/null")).

(** Write the FLAG line, and notify when the check has been flagged often enough
    in the window. *)
Definition raise_flag (now since : Z) (check_ detail title content : string) : G unit :=
  _ ← on_db (db_audit_log_insert now check_ "FLAG" detail);
  flags ← on_db (db_audit_flag_count check_ since);
  mwhen (AUDIT_REPEAT_THRESHOLD <=? flags) (notify_user title content).

Definition check_verdict_rate (now : Z) : G unit :=
  let since := now - AUDIT_FLAG_WINDOW_SEC in
  total ← on_db (db_verdict_count_all since);
  jailed ← on_db (db_verdict_count_by_type "JAILED" since);
  if total <? 5 then mret tt
  else
    let pct := (jailed * 100) / total in
    if AUDIT_VERDICT_RATE_MAX <? pct then
      raise_flag now since "verdict_rate" "JAILED verdict rate exceeded threshold"
        "verdict rate" "High JAILED rate — possible false positives"
    else _ ← on_db (db_audit_log_insert now "verdict_rate" "OK" ""); mret tt.

Definition total_score (rows : list db_threat_t) : double :=
  fold_left (λ acc r, (acc + dt_score r)%D) rows d_zero.

Definition check_score_inflation (now : Z) : G unit :=
  let since := now - AUDIT_FLAG_WINDOW_SEC in
  rows ← on_db (db_threat_all 512);
  match rows with
  | [] => mret tt
  | _ =>
      let avg := (total_score rows / d_of_Z (Z.of_nat (length rows)))%D in
      if (AUDIT_SCORE_INFLATION <? avg)%D then
        raise_flag now since "score_inflation" "Average score exceeds inflation threshold"
          "score inflation" "Average threat score elevated — review scoring weights"
      else _ ← on_db (db_audit_log_insert now "score_inflation" "OK" ""); mret tt
  end.

(** The stall check only writes a log line. *)
Definition check_stalls (now : Z) : G unit := mret tt.

Definition check_ia_referrals (now : Z) : G unit :=
  let since := now - AUDIT_INTERVAL_SEC * 2 in
  refs ← on_db (db_verdict_count_by_type "IA_REFERRAL" since);
  if 0 <? refs then
    _ ← on_db (db_audit_log_insert now "ia_referral" "REVIEWED"
           "IA_REFERRAL verdicts logged, no enforcement"); mret tt
  else mret tt.

Definition audit_tick : G unit :=
  now ← time_now;
  _ ← check_verdict_rate now;
  _ ← check_score_inflation now;
  _ ← check_stalls now;
  check_ia_referrals now.

(** One turn of the audit thread: it clears a pending IA signal and then audits,
    or audits because its interval has passed. *)
Definition audit_turn : G unit :=
  _ ← modify (set_ia_signal false);
  audit_tick.
