(* ===== verification/Gaveld.v ===== *)
(** * gaveld: threads and socket ([src/gaveld/gaveld.c])

    The scorer thread, the socket commands, and the daemon as a transition
    system whose steps are the turns of its threads. *)

From S2P Require Import Prelude CString Double Config Db Tier Ring World Ingest Scorer.
From S2P Require Import Enforce Cases Emit Consent Verdict Decay Affairs.
From Stdlib Require Import Ascii.

(** ** Scorer thread *)

(** One turn: a queue record is scored and its case assembled. *)
Definition scorer_turn : G unit :=
  r ← ingest_dequeue;
  match r with
  | None => mret tt
  | Some rec =>
      if in_is_query rec then mret tt
      else
        '(rc, res) ← scorer_process (in_source rec) (in_signal rec) (in_weight rec) (in_ctx rec);
        if rc =? 0 then
          _ ← cases_assemble res (in_signal rec) (in_ctx rec); mret tt
        else mret tt
  end.

(** ** Socket server *)

Definition status_line (r : db_threat_t) : string :=
  snprintf 512 (dt_source r +:+ "|" +:+ fmt_f 2 (dt_score r) +:+ "|" +:+ dt_state r +:+ "|"
    +:+ fmt_d (dt_jails r) +:+ "|" +:+ fmt_d (dt_quarantines r) +:+ NLs).

Definition handle_status : G string :=
  rows ← on_db (db_threat_all 512);
  mret (scat (map status_line rows) +:+ "END" +:+ NLs).

(** The signal of a socket line: [SOURCE|SIGNAL|WEIGHT|CONTEXT]. *)
Definition parse_signal (buf : string) : option ingest_record_t :=
  let tmp := strncpy BUF_SIZE buf in
  let '(src, r1) := strtok_next "|" tmp in
  let '(sig, r2) := strtok_next "|" r1 in
  let '(wgt, r3) := strtok_next "|" r2 in
  let '(ctx, _) := strtok_next "" r3 in
  match src, sig with
  | Some src, Some sig =>
      Some (Ingest (strncpy SOURCE_LEN src) (strncpy SIGNAL_LEN sig)
              (match wgt with Some w => atof w | None => d_zero end)
              (match ctx with Some c => strncpy CTX_LEN c | None => "" end)
              false "")
  | _, _ => None
  end.

Definition handle_signal (buf : string) : G string :=
  match parse_signal buf with
  | None => mret ("ERROR" +:+ NLs)
  | Some rec =>
      '(rc, res) ← scorer_process (in_source rec) (in_signal rec) (in_weight rec) (in_ctx rec);
      if rc =? 0 then
        _ ← cases_assemble res (in_signal rec) (in_ctx rec);
        mret (scorer_format res 256)
      else mret ("ERROR" +:+ NLs)
  end.

(** The buffer of [handle_client]: one [read], its trailing newline stripped. *)
Definition client_buf (msg : string) : string := cut_at NL (stake (BUF_SIZE - 1) msg).

(** [handle_client]: what one [read] delivered, and the reply written. *)
Definition handle_client (msg : string) : G string :=
  let ok := "OK" +:+ NLs in
  if String.eqb msg "" then mret ""
  else
    let buf := client_buf msg in
    if has_prefix "QUERY|STATUS" buf then handle_status
    else if has_prefix "QUERY|DECAY" buf then _ ← decay_tick; mret ok
    else if has_prefix "APPROVE|" buf then _ ← consent_reply (sdrop 8 buf) true; mret ok
    else if has_prefix "DENY|" buf then _ ← consent_reply (sdrop 5 buf) false; mret ok
    else handle_signal buf.

(** ** The daemon as a transition system

    One event is one turn of one thread, a message on the socket, text on the
    pipe, a restart of the process, or a change of the environment: time passes,
    the flag files change, the database fails or recovers. *)

Inductive event :=
  | EvIngest (text : string)        (* text arrives on the pipe *)
  | EvScore                         (* scorer thread *)
  | EvVerdict                       (* verdict thread *)
  | EvConsent                       (* consent thread, one pass *)
  | EvClient (msg : string)         (* socket server *)
  | EvDecay                         (* decay thread *)
  | EvAudit                         (* audit thread *)
  | EvRestart (rish adb : bool)     (* [main] runs again on the same database *)
  | EvClock (ms : Z)
  | EvFiles (sov : option string) (lock : bool)
  | EvDbHealth (ok : bool).

(** What [main] does before its accept loop: empty queues, the backend probe,
    the pending table from the database. *)
Definition gaveld_boot (rish adb : bool) : G unit :=
  _ ← modify (set_ingest (ring_init INGEST_QUEUE_SIZE ingest_zero));
  _ ← modify (set_caseq (ring_init VERDICT_QUEUE_SIZE case_zero));
  _ ← modify (set_ia_signal false);
  _ ← enforce_init rish adb;
  consent_start.

Definition turn (e : event) : G unit :=
  match e with
  | EvIngest text => ingest_thread text
  | EvScore => scorer_turn
  | EvVerdict => verdict_turn
  | EvConsent => consent_pass
  | EvClient msg => _ ← handle_client msg; mret tt
  | EvDecay => decay_tick
  | EvAudit => audit_turn
  | EvRestart rish adb => gaveld_boot rish adb
  | EvClock ms => modify (set_ms ms)
  | EvFiles sov lock => modify (set_files sov lock)
  | EvDbHealth ok => on_db (modify (set_health ok))
  end.

(** The clock does not run backwards. *)
Definition enabled (e : event) (w : world) : Prop :=
  match e with EvClock ms => w_ms w <= ms | _ => True end.

Inductive step : world → event → world → Prop :=
  | step_turn w e : enabled e w → step w e (exec (turn e) w).

(** A run from [w0], with the events it took in order. *)
Inductive steps (w0 : world) : list event → world → Prop :=
  | steps_init : steps w0 [] w0
  | steps_snoc es w e w' : steps w0 es w → step w e w' → steps w0 (es ++ [e]) w'.

(** The daemon that starts on database [d]. *)
Definition gaveld_start (d : db) (sov : option string) (lock : bool) (ms : Z) (rish adb : bool) : world :=
  exec (gaveld_boot rish adb) (world_init d sov lock BACKEND_DIRECT ms).

(** Executable runs. *)
Definition run (es : list event) (w : world) : world := exec (mfor es turn) w.

Fixpoint all_enabled (es : list event) (w : world) : Prop :=
  match es with
  | [] => True
  | e :: es' => enabled e w ∧ all_enabled es' (exec (turn e) w)
  end.

(** ** A concrete run

    One emission is scored, judged QUARANTINED, put to the user, approved four
    seconds later, and enforced. *)

Definition sample_start : world := gaveld_start db_empty None false 1000000 false false.

Definition sample_run : list event :=
  [EvIngest ("com.bad.app|ROOT_DETECTED|60|found su" +:+ NLs); EvScore; EvVerdict;
   EvConsent; EvClock 1004000; EvClient ("APPROVE|case_1000000" +:+ NLs); EvConsent].

(** ** Lemmas *)

(** A property of the start that every event preserves holds along every run. *)
Lemma steps_invariant (I : list event → world → Prop) w0 es w :
  steps w0 es w → I [] w0 →
  (∀ es w e, I es w → I (es ++ [e]) (exec (turn e) w)) → I es w.
Proof.
  intros Hs H0 Hstep. induction Hs as [|es w e w' Hs IH Hst]; [done|].
  destruct Hst. by apply Hstep.
Qed.

Lemma run_steps_from w0 es0 es w :
  steps w0 es0 w → all_enabled es w → steps w0 (es0 ++ es) (run es w).
Proof.
  revert es0 w. induction es as [|e es IH]; intros es0 w Hs Hen.
  - by rewrite app_nil_r.
  - destruct Hen as [He Hes]. unfold run. cbn [mfor]. rewrite exec_bind.
    replace (es0 ++ e :: es) with ((es0 ++ [e]) ++ es) by by rewrite <- app_assoc.
    apply IH; [|done]. eapply steps_snoc; [done|by constructor].
Qed.

(** An executable run is a run. *)
Lemma run_steps w0 es : all_enabled es w0 → steps w0 es (run es w0).
Proof. intros H. apply (run_steps_from w0 [] es); [constructor|done]. Qed.

Lemma sample_steps : steps sample_start sample_run (run sample_run sample_start).
Proof. apply run_steps. vm_compute. repeat split; discriminate. Qed.
