(* ===== verification/Safety.v ===== *)
(** * gaveld: who may be enforced on

    Invariants of whole runs of the daemon: every command handed to the shell by
    [enforce_execute] is either the soft kill of a WARNED source or follows an
    approval of the user, and its target is no own daemon of [tier.c]. *)

From S2P Require Import Prelude CString Double Config Db Tier Ring World Ingest Scorer.
From S2P Require Import Enforce Cases Emit Consent Verdict Decay Affairs Gaveld.
From Stdlib Require Import Ascii.

(** ** Approvals *)

(** The case a socket message approves. *)
Definition approval_of (msg : string) : option string :=
  if has_prefix "APPROVE|" (client_buf msg) then Some (sdrop 8 (client_buf msg)) else None.

(** The user approved the case at some point of the run. *)
Definition approved (es : list event) (case_id : string) : Prop :=
  ∃ msg, EvClient msg ∈ es ∧ approval_of msg = Some case_id.

(** Not in the list of own daemons of [tier.c], and in the array of its record. *)
Definition foreign (source : string) : Prop :=
  tier_is_own_daemon source = false ∧ (String.length source < SOURCE_LEN)%nat.

Lemma foreign_strncpy s : tier_is_own_daemon (strncpy SOURCE_LEN s) = false → foreign (strncpy SOURCE_LEN s).
Proof. intros H. split; [done|]. pose proof (length_strncpy SOURCE_LEN s). unfold SOURCE_LEN in *. lia. Qed.

(** A command of [enforce_execute] that the run justifies. *)
Inductive justified (es : list event) : string → Prop :=
  | justified_warned b source :
      foreign source → justified es (wrap_cmd b (cmd_kill source))
  | justified_consent b source case_id cmd :
      foreign source → approved es case_id →
      cmd ∈ [cmd_force_stop source; cmd_disable source] →
      justified es (wrap_cmd b cmd).

(** ** The invariant *)

Definition sys_ok (es : list event) (c : sys_call) : Prop :=
  sc_site c = SiteEnforce → justified es (sc_cmd c).

Definition pending_ok (es : list event) (p : pending_t) : Prop :=
  pd_active p = true →
  foreign (rq_source (pd_req p)) ∧
  containment (rq_verdict (pd_req p)) = true ∧
  (pd_reply p = 1 → approved es (rq_case (pd_req p))).

(** A stored request that may be reloaded. *)
Definition consent_row_ok (r : consent_row) : Prop :=
  tier_is_own_daemon (strncpy SOURCE_LEN (cq_source r)) = false ∧
  containment (strncpy STATE_LEN (cq_verdict r)) = true.

Record safe (es : list event) (w : world) : Prop := Safe {
  safe_sys : Forall (sys_ok es) (w_sys w);
  safe_pending : Forall (pending_ok es) (w_pending w);
  safe_rows : Forall consent_row_ok (consent_queue (w_db w)) }.

(** ** Lemmas *)

Lemma approved_snoc es e c : approved es c → approved (es ++ [e]) c.
Proof. intros (m & Hm & Ha). exists m. split; [set_solver|done]. Qed.

Lemma justified_snoc es e cmd : justified es cmd → justified (es ++ [e]) cmd.
Proof.
  intros []; [by constructor|].
  econstructor; [done|by apply approved_snoc|done].
Qed.

#[export] Hint Resolve approved_snoc justified_snoc : mp.

Lemma safe_snoc es e w : safe es w → safe (es ++ [e]) w.
Proof.
  intros [Hs Hp Hr]. split; [| |done].
  - eapply Forall_impl; [exact Hs|]. intros c Hc Hsite. by apply justified_snoc, Hc.
  - eapply Forall_impl; [exact Hp|]. intros p Hpd Hact.
    destruct (Hpd Hact) as (? & ? & ?). split_and!; auto with mp.
Qed.

Lemma elem_of_list_pair {A} (x a b : A) : x ∈ [a; b] → x = a ∨ x = b.
Proof. rewrite !elem_of_cons, elem_of_nil. tauto. Qed.

(** *** Calls that leave the three parts alone *)

Definition safe_view (w : world) : list sys_call * list pending_t * list consent_row :=
  (w_sys w, w_pending w, consent_queue (w_db w)).

Lemma safe_same es {A} (c : G A) : keeps (same_on safe_view) c → preserves (safe es) c.
Proof.
  apply same_on_preserves. intros w w' [= Hs' Hp' Hr'] [Hs Hp Hr]. split; congruence.
Qed.

Lemma verdict_emit_view c s v sc r g : keeps (same_on safe_view) (verdict_emit c s v sc r g).
Proof. unfold verdict_emit. keeps_tac. Qed.
#[export] Hint Resolve verdict_emit_view : mp.

Lemma scorer_process_view s g x c : keeps (same_on safe_view) (scorer_process s g x c).
Proof. unfold scorer_process. keeps_tac. Qed.
#[export] Hint Resolve scorer_process_view : mp.

Lemma cases_assemble_view r s c : keeps (same_on safe_view) (cases_assemble r s c).
Proof. unfold cases_assemble, make_case_id, queue_case. keeps_tac. Qed.
#[export] Hint Resolve cases_assemble_view : mp.

Lemma decay_tick_view : keeps (same_on safe_view) decay_tick.
Proof. unfold decay_tick, decay_row. keeps_tac. Qed.
#[export] Hint Resolve decay_tick_view : mp.

Lemma handle_status_view : keeps (same_on safe_view) handle_status.
Proof. unfold handle_status. keeps_tac. Qed.

Lemma handle_signal_view buf : keeps (same_on safe_view) (handle_signal buf).
Proof. unfold handle_signal. keeps_tac. Qed.
#[export] Hint Resolve handle_status_view handle_signal_view : mp.

Lemma ingest_thread_view text : keeps (same_on safe_view) (ingest_thread text).
Proof. unfold ingest_thread, ingest_line, queue_push. keeps_tac. Qed.

Lemma ingest_dequeue_view : keeps (same_on safe_view) ingest_dequeue.
Proof. intros w. unfold ingest_dequeue. unmonad. by destruct (bq_pop _) as [[]|]. Qed.

Lemma cases_dequeue_view : keeps (same_on safe_view) cases_dequeue.
Proof. intros w. unfold cases_dequeue. unmonad. by destruct (bq_pop _) as [[]|]. Qed.
#[export] Hint Resolve ingest_thread_view ingest_dequeue_view cases_dequeue_view : mp.

Lemma scorer_turn_view : keeps (same_on safe_view) scorer_turn.
Proof. unfold scorer_turn. keeps_tac. Qed.
#[export] Hint Resolve scorer_turn_view : mp.

(** *** Calls that change them *)

Lemma safe_db es d w :
  consent_queue d = consent_queue (w_db w) → safe es w → safe es (set_db d w).
Proof. intros Hd [Hs Hp Hr]. split; cbn; [done|done|by rewrite Hd]. Qed.

Lemma safe_rows_on_db es {A} (c : M db A) :
  (∀ d, Forall consent_row_ok (consent_queue d) → Forall consent_row_ok (consent_queue (exec c d))) →
  preserves (safe es) (on_db c).
Proof. intros Hc w [Hs Hp Hr]. rewrite exec_on_db. split; cbn; auto. Qed.

(** A shell command of another function. *)
Lemma safe_system es site cmd : site ≠ SiteEnforce → preserves (safe es) (system site cmd).
Proof.
  intros Hsite w [Hs Hp Hr]. rewrite exec_system. split; cbn; [|done|done].
  apply Forall_app. split; [done|]. apply Forall_singleton. intros H. by destruct Hsite.
Qed.

Lemma safe_set_pending es i p :
  pending_ok es p →
  preserves (safe es) (modify (λ w, set_pending (<[i := p]> (w_pending w)) w)).
Proof.
  intros Hok w [Hs Hp Hr]. rewrite exec_modify. split; cbn; [done| |done].
  by apply Forall_insert.
Qed.

Lemma safe_consent_enqueue es req :
  foreign (rq_source req) → containment (rq_verdict req) = true →
  preserves (safe es) (consent_enqueue req).
Proof.
  intros Ho Hv w Hw. unfold consent_enqueue. rewrite exec_modify.
  destruct (free_slot (w_pending w)) as [i|]; [|done].
  apply (safe_set_pending es i (Pending req 0 true 0)); [|done].
  intros _. cbn. split_and!; [done..|lia].
Qed.

Lemma safe_consent_insert es c :
  tier_is_own_daemon (strncpy SOURCE_LEN (dq_source c)) = false →
  containment (strncpy STATE_LEN (dq_verdict c)) = true →
  preserves (safe es) (on_db (db_consent_insert c)).
Proof.
  intros Ho Hv. apply safe_rows_on_db. intros d Hd. unfold db_consent_insert.
  rewrite exec_run_stmt. destruct (db_ok d); [|done]. cbn.
  apply Forall_app. split; [|by apply Forall_singleton].
  apply Forall_forall. intros r Hr. apply list_elem_of_In, List.filter_In in Hr as [Hr _].
  rewrite Forall_forall in Hd. by apply Hd, list_elem_of_In.
Qed.

Lemma safe_consent_remove es id : preserves (safe es) (on_db (db_consent_remove id)).
Proof.
  apply safe_rows_on_db. intros d Hd. unfold db_consent_remove.
  rewrite exec_run_stmt. destruct (db_ok d); [|done]. cbn.
  apply Forall_forall. intros r Hr. apply list_elem_of_In, List.filter_In in Hr as [Hr _].
  rewrite Forall_forall in Hd. by apply Hd, list_elem_of_In.
Qed.

(** Enforcement is safe where its commands are justified. *)
Lemma safe_enforce es source verdict :
  foreign source →
  (verdict ≠ "WARNED" → ∃ case_id, approved es case_id) →
  preserves (safe es) (enforce_execute source verdict).
Proof.
  intros Ho Ha w [Hs Hp Hr]. rewrite exec_enforce_execute. split; cbn; [|done|done].
  apply Forall_app. split; [done|].
  apply Forall_forall. intros call Hcall.
  apply list_elem_of_fmap in Hcall as (c & -> & Hc). intros _. cbn.
  apply enforce_plan_elem in Hc as [[-> _]|[Hc Hne]]; [by constructor|].
  destruct (Ha Hne) as [case_id Hcase]. by econstructor.
Qed.

#[export] Hint Resolve safe_consent_remove safe_same : mp.

(** *** The consent thread *)

Lemma containment_not_warned v : containment v = true → v ≠ "WARNED".
Proof. by intros H ->. Qed.

Lemma safe_lookup es w i p : safe es w → w_pending w !! i = Some p → pending_ok es p.
Proof. intros [_ Hp _] Hi. by eapply Forall_lookup_1. Qed.

Lemma requeue_ok es now p : pending_ok es p → pending_ok es (requeue now p).
Proof. done. Qed.

Lemma check_hard_limit_ok es now p : pending_ok es p → pending_ok es (check_hard_limit now p).
Proof. unfold check_hard_limit. by destruct (_ && _). Qed.

Lemma check_timeout_ok es now p : pending_ok es p → pending_ok es (check_timeout now p).
Proof. unfold check_timeout. by destruct (_ && _). Qed.

Lemma safe_resolve es i p :
  pending_ok es p → pd_active p = true → preserves (safe es) (resolve_entry i p).
Proof.
  intros Hok Hact. destruct (Hok Hact) as (Ho & Hv & Ha). unfold resolve_entry.
  apply keeps_bind; [apply _|by apply safe_set_pending|intros _].
  apply keeps_bind; [apply _|by apply safe_system|intros _].
  apply keeps_bind; [apply _|auto with mp|intros _].
  destruct (pd_reply p =? 1) eqn:Hr; bool_hyps; [|auto with mp].
  apply keeps_bind; [apply _|auto with mp|intros _].
  apply keeps_bind; [apply _| |intros _; apply keeps_mret, _].
  apply safe_enforce; [done|]. eauto.
Qed.

Lemma safe_consent_slot es now i : preserves (safe es) (consent_slot now i).
Proof.
  intros w Hw. unfold consent_slot. rewrite exec_bind, result_gets, exec_gets.
  destruct (w_pending w !! i) as [p|] eqn:Hi; [|done].
  pose proof (safe_lookup es w i p Hw Hi) as Hok.
  destruct (pd_active p) eqn:Hact; [|done]. cbn [negb].
  destruct (pd_reply p =? 0) eqn:Hrep; cbn [negb]; [|by apply safe_resolve].
  pose proof (check_timeout_ok es now _ (check_hard_limit_ok es now p Hok)) as Hok'.
  destruct (needs_notification _ _); [|by apply safe_set_pending].
  rewrite exec_bind. apply safe_set_pending; [done|]. by apply safe_system.
Qed.

Lemma safe_consent_pass es : preserves (safe es) consent_pass.
Proof.
  unfold consent_pass. apply keeps_bind; [apply _|auto with mp|intros now].
  apply keeps_mfor; [apply _|]. intros i. apply safe_consent_slot.
Qed.

Lemma consent_row_ok_pending max d c :
  Forall consent_row_ok (consent_queue d) → c ∈ result (db_consent_pending max) d →
  foreign (rq_source (request_of_db c))
  ∧ containment (rq_verdict (request_of_db c)) = true.
Proof.
  intros Hd Hc. unfold db_consent_pending in Hc. rewrite result_query in Hc.
  destruct (db_ok d); [|set_solver].
  apply list_elem_of_fmap in Hc as (r & -> & Hr).
  assert (consent_row_ok r) as [Ho Hv].
  { rewrite Forall_forall in Hd. apply Hd, order_by_queued_elem.
    apply elem_of_take in Hr as (i & Hi & _). by eapply list_elem_of_lookup_2. }
  cbn. rewrite !strncpy_idemp. split; [by apply foreign_strncpy|done].
Qed.

Lemma safe_consent_start es : preserves (safe es) consent_start.
Proof.
  intros w [Hs Hp Hr]. unfold consent_start.
  rewrite !exec_bind, exec_modify, exec_on_db, result_on_db.
  unfold db_consent_pending at 2. rewrite exec_query. cbn [w_db set_pending set_db].
  apply mfor_preserves.
  - intros c w' Hc Hw'.
    destruct (consent_row_ok_pending _ _ c Hr Hc) as [Ho Hv].
    by apply safe_consent_enqueue.
  - split; [done| |done]. apply Forall_replicate. by intros ?.
Qed.

(** *** The verdict thread *)

(** What [cases_assemble] puts in the queue. *)
Definition case_ok (c : case_record_t) : Prop :=
  strncpy SOURCE_LEN (ca_source c) = ca_source c.

Definition caseq_ok (w : world) : Prop :=
  bq_wf (cap := VERDICT_QUEUE_SIZE) (w_cases w)
  ∧ Forall case_ok (bq_elems (cap := VERDICT_QUEUE_SIZE) (w_cases w)).

Lemma case_foreign c : case_ok c → tier_is_own_daemon (ca_source c) = false → foreign (ca_source c).
Proof. unfold case_ok. intros <-. apply foreign_strncpy. Qed.
#[export] Hint Resolve case_foreign : mp.

Lemma safe_request_consent es c state :
  foreign (ca_source c) → case_ok c → containment state = true →
  strncpy STATE_LEN state = state →
  preserves (safe es) (request_consent c state).
Proof.
  intros Ho Hc Hv Hs. unfold request_consent.
  apply keeps_bind; [apply _|auto with mp|intros now].
  apply keeps_bind; [apply _| |intros _].
  - apply safe_consent_insert; cbn; rewrite strncpy_idemp; [rewrite Hc; by destruct Ho|by rewrite Hs].
  - apply safe_consent_enqueue; cbn; [by rewrite Hc|by rewrite Hs].
Qed.

Lemma safe_verdict_process es c : case_ok c → preserves (safe es) (verdict_process c).
Proof.
  intros Hc. unfold verdict_process, ia_lock_active, floor_has_fresh_signal,
    apply_sovereignty_cap, apply_floor_jailed, audit_signal_ia_referral.
  keeps_tac; bool_hyps; subst.
  - apply safe_enforce; auto with mp. by intros [].
  - apply safe_request_consent; auto with mp.
    match goal with H : containment _ = true |- _ => apply containment_inv in H end.
    by destruct_or!; subst.
Qed.

(** *** The case queue *)

Lemma caseq_same {A} (c : G A) : keeps (same_on w_cases) c → preserves caseq_ok c.
Proof. apply same_on_preserves. unfold caseq_ok. by intros w w' ->. Qed.

Lemma caseq_db_only {A} (c : G A) : keeps db_only c → preserves caseq_ok c.
Proof.
  intros Hc. apply caseq_same. intros w. destruct (Hc w) as [d ->]. done.
Qed.

Lemma enforce_execute_caseq s v : keeps (same_on w_cases) (enforce_execute s v).
Proof. intros w. rewrite exec_enforce_execute. done. Qed.
#[export] Hint Resolve enforce_execute_caseq : mp.

Lemma verdict_emit_caseq c s v sc r g : keeps (same_on w_cases) (verdict_emit c s v sc r g).
Proof. unfold verdict_emit. keeps_tac. Qed.
#[export] Hint Resolve verdict_emit_caseq : mp.

Lemma consent_enqueue_caseq r : keeps (same_on w_cases) (consent_enqueue r).
Proof. apply same_on_modify. intros w. by destruct (free_slot (w_pending w)). Qed.
#[export] Hint Resolve consent_enqueue_caseq : mp.

Lemma verdict_process_caseq c : keeps (same_on w_cases) (verdict_process c).
Proof.
  unfold verdict_process, ia_lock_active, floor_has_fresh_signal, apply_sovereignty_cap,
    apply_floor_jailed, audit_signal_ia_referral, request_consent.
  keeps_tac.
Qed.
#[export] Hint Resolve verdict_process_caseq : mp.

Lemma consent_pass_caseq : keeps (same_on w_cases) consent_pass.
Proof.
  unfold consent_pass, consent_slot, resolve_entry, put_slot, send_notification,
    dismiss_notification, system.
  keeps_tac.
Qed.

Lemma consent_reply_caseq c b : keeps (same_on w_cases) (consent_reply c b).
Proof. apply same_on_modify. intros w. by destruct (find_pending _ _). Qed.

Lemma consent_start_caseq : keeps (same_on w_cases) consent_start.
Proof. unfold consent_start. keeps_tac. Qed.

Lemma audit_turn_caseq : keeps (same_on w_cases) audit_turn.
Proof.
  unfold audit_turn, audit_tick, check_verdict_rate, check_score_inflation, check_stalls,
    check_ia_referrals, raise_flag, notify_user, system.
  keeps_tac.
Qed.
#[export] Hint Resolve consent_pass_caseq consent_reply_caseq consent_start_caseq
  audit_turn_caseq : mp.

Lemma caseq_set q w :
  bq_wf (cap := VERDICT_QUEUE_SIZE) q →
  Forall case_ok (bq_elems (cap := VERDICT_QUEUE_SIZE) q) → caseq_ok (set_caseq q w).
Proof. by split. Qed.

Lemma caseq_push rec : case_ok rec → preserves caseq_ok (queue_case rec).
Proof.
  intros Hrec w [Hwf Hall]. unfold queue_case. rewrite exec_modify. apply caseq_set.
  - by apply bq_push_wf.
  - rewrite bq_push_elems by done. apply Forall_forall. intros c Hc.
    apply elem_of_fifo_push in Hc as [->|Hc]; [done|].
    rewrite Forall_forall in Hall. by apply Hall.
Qed.

Lemma caseq_assemble r s c : preserves caseq_ok (cases_assemble r s c).
Proof.
  unfold cases_assemble, make_case_id.
  keeps_tac; try solve [apply caseq_same; auto with mp].
  apply caseq_push. unfold case_ok. cbn. by rewrite strncpy_idemp.
Qed.

Lemma scorer_turn_caseq : preserves caseq_ok scorer_turn.
Proof.
  unfold scorer_turn. keeps_tac; try solve [apply caseq_db_only; auto with mp].
  - intros w Hw. unfold ingest_dequeue. unmonad. by destruct (bq_pop _) as [[]|].
  - apply caseq_assemble.
Qed.

Lemma caseq_dequeue w :
  caseq_ok w →
  caseq_ok (exec cases_dequeue w) ∧
  match result cases_dequeue w with Some c => case_ok c | None => True end.
Proof.
  intros [Hwf Hall]. unfold cases_dequeue, exec, result.
  pose proof (bq_pop_elems (w_cases w) Hwf) as Hpop.
  destruct (bq_pop (w_cases w)) as [[c q]|] eqn:Hq; [|done].
  rewrite Hpop in Hall. apply Forall_cons in Hall as [Hc Hall].
  split; [|done]. apply caseq_set; [|done]. by eapply bq_pop_wf.
Qed.

Lemma verdict_turn_caseq : preserves caseq_ok verdict_turn.
Proof.
  intros w Hw. destruct (caseq_dequeue w Hw) as [Hw' _].
  unfold verdict_turn. rewrite exec_bind. destruct (result cases_dequeue w); [|done].
  revert Hw'. apply caseq_same. auto with mp.
Qed.

Lemma handle_client_caseq msg : preserves caseq_ok (handle_client msg).
Proof.
  unfold handle_client, handle_status, handle_signal.
  keeps_tac; try solve [apply caseq_same; auto with mp | apply caseq_db_only; auto with mp].
  - apply caseq_db_only, decay_tick_db_only.
  - apply caseq_assemble.
Qed.

Lemma boot_caseq rish adb w : caseq_ok (exec (gaveld_boot rish adb) w).
Proof.
  unfold gaveld_boot. rewrite !exec_bind.
  apply (caseq_same (A := unit)); [auto with mp|].
  apply (caseq_same (A := unit)); [unfold enforce_init; auto with mp|].
  rewrite !exec_modify. apply caseq_set; [apply ring_init_wf; unfold VERDICT_QUEUE_SIZE; lia|].
  by constructor.
Qed.

Lemma turn_caseq e : preserves caseq_ok (turn e).
Proof.
  destruct e; cbn [turn].
  - apply caseq_same. unfold ingest_thread, ingest_line, queue_push. keeps_tac.
  - apply scorer_turn_caseq.
  - apply verdict_turn_caseq.
  - apply caseq_same. auto with mp.
  - apply keeps_bind; [apply _|apply handle_client_caseq|intros _; apply keeps_mret, _].
  - apply caseq_db_only, decay_tick_db_only.
  - apply caseq_same. auto with mp.
  - intros w _. apply boot_caseq.
  - apply caseq_same. auto with mp.
  - apply caseq_same. auto with mp.
  - apply caseq_same. auto with mp.
Qed.

(** *** Every event *)

Lemma safe_consent_reply es msg case_id b :
  (b = true → approval_of msg = Some case_id) →
  preserves (safe (es ++ [EvClient msg])) (consent_reply case_id b).
Proof.
  intros Hb w Hw. unfold consent_reply. rewrite exec_modify.
  destruct (find_pending case_id (w_pending w)) as [i|] eqn:Hi; [|done].
  destruct Hw as [Hs Hp Hr]. split; cbn; [done| |done].
  apply Forall_alter; [done|]. intros p Hpi Hok Hact. cbn in *.
  destruct (Hok Hact) as (? & ? & _). split_and!; [done..|].
  intros Hrep. exists msg. split; [set_solver|].
  destruct b; [|lia]. rewrite Hb by done. f_equal.
  symmetry. by eapply find_pending_case.
Qed.

Lemma safe_handle_client es msg :
  preserves (safe (es ++ [EvClient msg])) (handle_client msg).
Proof.
  unfold handle_client. keeps_tac; try solve [apply safe_same; auto with mp].
  all: apply safe_consent_reply; [|done..].
  all: try done. intros _. unfold approval_of. by rewrite Heqb2.
Qed.

Lemma safe_audit_turn es : preserves (safe es) audit_turn.
Proof.
  unfold audit_turn, audit_tick, check_verdict_rate, check_score_inflation, check_stalls,
    check_ia_referrals, raise_flag, notify_user.
  keeps_tac; try solve [apply safe_same; auto with mp | by apply safe_system].
Qed.

Lemma safe_boot es rish adb : preserves (safe es) (gaveld_boot rish adb).
Proof.
  unfold gaveld_boot, enforce_init.
  keeps_tac; try solve [apply safe_same; auto with mp]. apply safe_consent_start.
Qed.

Lemma safe_verdict_turn es w : caseq_ok w → safe es w → safe es (exec verdict_turn w).
Proof.
  intros Hq Hw. destruct (caseq_dequeue w Hq) as [_ Hc].
  unfold verdict_turn. rewrite exec_bind.
  apply (safe_same es cases_dequeue) in Hw; [|auto with mp].
  destruct (result cases_dequeue w); [|done]. by apply safe_verdict_process.
Qed.

Lemma safe_turn es e w : caseq_ok w → safe es w → safe (es ++ [e]) (exec (turn e) w).
Proof.
  intros Hq Hw%(safe_snoc es e). revert Hw. destruct e; cbn [turn].
  - apply safe_same. auto with mp.
  - apply safe_same. auto with mp.
  - by apply safe_verdict_turn.
  - apply safe_consent_pass.
  - intros Hw. rewrite exec_bind. by apply safe_handle_client.
  - apply safe_same. auto with mp.
  - apply safe_audit_turn.
  - apply safe_boot.
  - apply safe_same. auto with mp.
  - apply safe_same. auto with mp.
  - apply safe_same. auto with mp.
Qed.

Lemma safe_start d sov lock ms rish adb :
  Forall consent_row_ok (consent_queue d) →
  safe [] (gaveld_start d sov lock ms rish adb)
  ∧ caseq_ok (gaveld_start d sov lock ms rish adb).
Proof.
  intros Hd. unfold gaveld_start. split; [|apply boot_caseq].
  apply safe_boot. split; [by constructor| |done].
  apply Forall_replicate. by intros ?.
Qed.

Lemma safe_steps w0 es w :
  safe [] w0 → caseq_ok w0 → steps w0 es w → safe es w.
Proof.
  intros Hw Hq Hs.
  apply (steps_invariant (λ es w, safe es w ∧ caseq_ok w) w0 es w Hs); [done|].
  intros es' w' e [? ?]. split; [by apply safe_turn|by apply turn_caseq].
Qed.

(** ** Theorems *)

(** C1. Along every run of the daemon, whatever arrives on the pipe and the
    socket, however its threads interleave and restart, every command that
    enforcement hands to the shell is the soft kill [am kill] of a source, or a
    force-stop or disable that follows an [APPROVE] message of the user. *)
Theorem enforcement_needs_approval d sov lock ms rish adb es w cmd :
  Forall consent_row_ok (consent_queue d) →
  steps (gaveld_start d sov lock ms rish adb) es w →
  SysCall SiteEnforce cmd ∈ w_sys w →
  (∃ b source, cmd = wrap_cmd b (cmd_kill source))
  ∨ (∃ b source case_id, approved es case_id ∧
       (cmd = wrap_cmd b (cmd_force_stop source) ∨ cmd = wrap_cmd b (cmd_disable source))).
Proof.
  intros Hd Hs Hin. destruct (safe_start d sov lock ms rish adb Hd) as [Hw Hq].
  destruct (safe_steps _ _ _ Hw Hq Hs) as [Hsys _ _].
  rewrite Forall_forall in Hsys. pose proof (Hsys _ Hin eq_refl) as Hj. cbn in Hj.
  destruct Hj as [|b source case_id c Ho Ha Hc].
  - left. eauto.
  - right. exists b, source, case_id. split; [done|].
    apply elem_of_list_pair in Hc as [-> | ->]; auto.
Qed.

Lemma enforcement_needs_approval_witness :
  let w := run sample_run sample_start in
  let cmd := "am force-stop com.bad.app 2>/dev/null" in
  SysCall SiteEnforce cmd ∈ w_sys w ∧
  ((∃ b source, cmd = wrap_cmd b (cmd_kill source))
   ∨ (∃ b source case_id, approved sample_run case_id ∧
       (cmd = wrap_cmd b (cmd_force_stop source) ∨ cmd = wrap_cmd b (cmd_disable source)))).
Proof.
  assert (SysCall SiteEnforce "am force-stop com.bad.app 2>/dev/null"
          ∈ w_sys (run sample_run sample_start)) as Hin.
  { apply (list_elem_of_lookup_2 _ 2%nat). vm_compute. reflexivity. }
  split; [exact Hin|].
  eapply (enforcement_needs_approval db_empty None false 1000000 false false);
    [constructor | exact sample_steps | exact Hin].
Defined.

(** ** What a command names *)

(** The characters of package and process names. *)
Definition name_char (c : ascii) : bool :=
  is_digit c || ((65 <=? code c) && (code c <=? 90)) || ((97 <=? code c) && (code c <=? 122)) || char_in "._-:/" c.

(** A source made of them: what the daemons write into a record by themselves. *)
Definition plain (source : string) : bool := none_of (λ c, negb (name_char c)) source.

(** The pieces of a command between blanks and single quotes. *)
Definition cmd_break (c : ascii) : bool := is_space c || Ascii.eqb c "'".

Fixpoint cmd_words (w s : string) : list string :=
  match s with
  | EmptyString => [w]
  | String c s' => if cmd_break c then w :: cmd_words "" s' else cmd_words (w +:+ String c "") s'
  end.

Lemma cmd_words_word p : ∀ w s, none_of cmd_break p = true → cmd_words w (p +:+ s) = cmd_words (w +:+ p) s.
Proof.
  induction p as [|c p IH]; intros w s Hp; [by rewrite app_nil_r_str|].
  rewrite none_of_cons in Hp. apply andb_prop in Hp as [Hc Hp]. apply negb_true_iff in Hc.
  rewrite app_cons_str. cbn [cmd_words]. by rewrite Hc, IH, app_assoc_str.
Qed.

Lemma cmd_words_break a : ∀ w c b, cmd_break c = true → cmd_words w (a +:+ String c b) = cmd_words w a ++ cmd_words "" b.
Proof.
  induction a as [|d a IH]; intros w c b Hc; cbn [cmd_words].
  - change ("" +:+ String c b) with (String c b). cbn [cmd_words]. by rewrite Hc.
  - rewrite app_cons_str. cbn [cmd_words]. destruct (cmd_break d); cbn [app]; by rewrite IH.
Qed.

Lemma plain_word s : plain s = true → none_of cmd_break s = true.
Proof. apply none_of_weaken. intros [[] [] [] [] [] [] [] []]; vm_compute; done. Qed.

(** A plain source between two breaks is a word, next to those of the rest. *)
Lemma cmd_words_plain pre c source d post :
  cmd_break c = true → cmd_break d = true → plain source = true →
  cmd_words "" (pre +:+ String c (source +:+ String d post)) = cmd_words "" pre ++ source :: cmd_words "" post.
Proof.
  intros Hc Hd Hs%plain_word. rewrite cmd_words_break, cmd_words_word by done. cbn [cmd_words String.append].
  by rewrite Hd.
Qed.

(** The word of a command whose basename is an own daemon of [tier.c], if any. *)
Definition names_own (cmd : string) : bool := existsb tier_is_own_daemon (cmd_words "" cmd).

Lemma names_own_plain b op source :
  op ∈ ["am kill"; "am force-stop"; "pm disable-user --user 0"] → foreign source → plain source = true →
  names_own (wrap_cmd b (snprintf 512 (op +:+ " " +:+ source))) = false.
Proof.
  intros Hop [Ho Hl] Hs. unfold SOURCE_LEN in Hl.
  assert (String.length op <= 24)%nat as Hlen.
  { revert op Hop. apply Forall_forall. repeat constructor; vm_compute; lia. }
  rewrite (snprintf_id 512) by (rewrite !length_app_str; cbn; lia).
  unfold names_own, wrap_cmd.
  assert (∀ pre d post, cmd_break d = true → existsb tier_is_own_daemon (cmd_words "" pre) = false →
    existsb tier_is_own_daemon (cmd_words "" post) = false →
    existsb tier_is_own_daemon (cmd_words "" (pre +:+ String " " (source +:+ String d post))) = false) as H.
  { intros pre d post Hd H1 H2. rewrite cmd_words_plain, List.existsb_app by done. cbn [existsb]. by rewrite H1, Ho, H2. }
  assert (String.length RISH_PATH <= 100)%nat as Hr by (vm_compute; lia).
  destruct b; rewrite (snprintf_id 1024) by (rewrite !length_app_str; cbn [String.length]; lia).
  - replace (_ +:+ _) with ((RISH_PATH +:+ " -c '" +:+ op) +:+ String " " (source +:+ String "'" " 2>/dev/null"))
      by (by rewrite !app_assoc_str).
    apply H; [done| |done]. clear Hlen. revert op Hop. by apply Forall_forall; repeat constructor.
  - replace (_ +:+ _) with (("adb shell '" +:+ op) +:+ String " " (source +:+ String "'" " 2>/dev/null"))
      by (by rewrite !app_assoc_str).
    apply H; [done| |done]. clear Hlen. revert op Hop. by apply Forall_forall; repeat constructor.
  - replace (_ +:+ _) with (op +:+ String " " (source +:+ String " " "2>/dev/null")) by (by rewrite !app_assoc_str).
    apply H; [done| |done]. clear Hlen. revert op Hop. by apply Forall_forall; repeat constructor.
Qed.

(** C2. Every command of enforcement is a kill, a force-stop or a disable of a
    source whose basename is not in the list of own daemons of [tier.c] and that is
    not cut.  If that source is made of the characters of package and process names
    then no word of the command, the backend's included, has such a basename. *)
Theorem own_daemons_never_enforced d sov lock ms rish adb es w cmd :
  Forall consent_row_ok (consent_queue d) →
  steps (gaveld_start d sov lock ms rish adb) es w →
  SysCall SiteEnforce cmd ∈ w_sys w →
  ∃ b source, tier_is_own_daemon source = false ∧ (String.length source < SOURCE_LEN)%nat ∧
    cmd ∈ map (wrap_cmd b) [cmd_kill source; cmd_force_stop source; cmd_disable source] ∧
    (plain source = true → names_own cmd = false).
Proof.
  intros Hd Hs Hin. destruct (safe_start d sov lock ms rish adb Hd) as [Hw Hq].
  destruct (safe_steps _ _ _ Hw Hq Hs) as [Hsys _ _].
  rewrite Forall_forall in Hsys. pose proof (Hsys _ Hin eq_refl) as Hj. cbn in Hj.
  assert (∃ b source, foreign source ∧ cmd ∈ map (wrap_cmd b) [cmd_kill source; cmd_force_stop source; cmd_disable source])
    as (b & source & [Ho Hl] & Hc).
  { destruct Hj as [b source Ho|b source case_id c Ho Ha Hc]; exists b, source; (split; [done|]); [by left|].
    right. apply elem_of_list_pair in Hc as [-> | ->]; [left|right; left]. }
  exists b, source. split_and!; [done..|]. intros Hp. cbn [map] in Hc. rewrite !elem_of_cons, elem_of_nil in Hc.
  destruct Hc as [-> |[-> |[-> |[]]]];
    [apply (names_own_plain b "am kill")|apply (names_own_plain b "am force-stop")|apply (names_own_plain b "pm disable-user --user 0")];
    done || (rewrite !elem_of_cons; tauto).
Qed.

Lemma own_daemons_never_enforced_witness :
  let w := run sample_run sample_start in
  let cmd := "am force-stop com.bad.app 2>/dev/null" in
  SysCall SiteEnforce cmd ∈ w_sys w ∧
  ∃ b source, tier_is_own_daemon source = false ∧ (String.length source < SOURCE_LEN)%nat ∧
    cmd ∈ map (wrap_cmd b) [cmd_kill source; cmd_force_stop source; cmd_disable source] ∧
    (plain source = true → names_own cmd = false).
Proof.
  assert (SysCall SiteEnforce "am force-stop com.bad.app 2>/dev/null"
          ∈ w_sys (run sample_run sample_start)) as Hin.
  { apply (list_elem_of_lookup_2 _ 2%nat). vm_compute. reflexivity. }
  split; [exact Hin|].
  eapply (own_daemons_never_enforced db_empty None false 1000000 false false);
    [constructor | exact sample_steps | exact Hin].
Defined.

(** A source with a blank in it is not that: the command is not quoted and its last
    word is [gaveld].  Neither are the correlator and the idle monitor, which the list
    of [tier.c] lacks. *)
Lemma unquoted_source_names_gaveld b :
  tier_is_own_daemon "x gaveld" = false ∧ names_own (wrap_cmd b (cmd_kill "x gaveld")) = true ∧
  tier_is_own_daemon "overlordd" = false ∧ tier_is_own_daemon "nulld" = false.
Proof. destruct b; vm_compute; done. Qed.
