(* ===== verification/Bounds.v ===== *)
(** * gaveld: bounds on scores ([src/gaveld/scorer.c], [src/gaveld/decay.c])

    IEEE double arithmetic keeps a score in [0, 100]: what one scoring step and
    one decay step do to it. *)

From S2P Require Import Prelude CString Double Strtod Config Db Weights Tier World Scorer Decay.

(** ** Scores and multipliers *)

(** A finite double between 0 and [MAX_SCORE]. *)
Definition score_ok (x : double) : Prop := fin x = true ∧ 0 <= dz x <= dz MAX_SCORE ∧ nonneg x = true.

(** A finite positive multiplier. *)
Definition factor (y : double) : Prop := fin y = true ∧ nonneg y = true ∧ 0 < dz y.

Lemma factor_one : factor d_one.
Proof. split_and!; reflexivity. Qed.

Ltac factor_const := split_and!; vm_compute; reflexivity.

Lemma covariance_factor ss : factor (covariance ss).
Proof. unfold covariance. repeat split_match; factor_const. Qed.

Lemma stack_bonus_factor ss : factor (stack_bonus_of ss).
Proof. unfold stack_bonus_of. split_match; factor_const. Qed.

Lemma recidivism_factor j q : factor (recidivism_mod j q).
Proof. unfold recidivism_mod. repeat split_match; factor_const. Qed.

Lemma tier_factor sov source : factor (tier_modifier sov source).
Proof. unfold tier_modifier. repeat split_match; factor_const. Qed.

#[export] Hint Resolve factor_one covariance_factor stack_bonus_factor recidivism_factor
  tier_factor : mp.

Lemma dmul_factor x y : nonneg x = true → factor y → nonneg (dmul x y) = true.
Proof. intros Hx (? & ? & ?). by apply dmul_nonneg. Qed.

Lemma addition_nonneg w cov stack recid tier :
  nonneg w = true → factor cov → factor stack → factor recid → factor tier →
  nonneg (score_addition w cov stack recid tier) = true.
Proof. intros. unfold score_addition. repeat apply dmul_factor; auto with mp. Qed.

Lemma addition_nan w cov stack recid tier :
  is_nan w = true → is_nan (score_addition w cov stack recid tier) = true.
Proof. intros. unfold score_addition. by repeat apply dmul_nan_l. Qed.

(** The weight that enters the product is positive or a NaN. *)
Lemma effective_weight_nonneg signal w :
  canon w = true → is_nan w = false → nonneg (effective_weight signal w) = true.
Proof.
  intros Hc Hn. unfold effective_weight.
  destruct (w <=? d_zero)%D eqn:Hle; [|by apply canon_pos].
  cbv zeta. destruct (0 <? weight_lookup signal) eqn:Hw; [|reflexivity]. bool_hyps.
  apply d_of_Z_nonneg. lia.
Qed.

Lemma effective_weight_nan signal w : is_nan w = true → effective_weight signal w = w.
Proof. destruct w; [discriminate..|reflexivity|discriminate]. Qed.

(** ** The clamp *)

(** Finiteness of a variable or of a constant. *)
Ltac fin_tac := first [eassumption | vm_compute; reflexivity].

Lemma max_score_ok : score_ok MAX_SCORE.
Proof. split_and!; vm_compute; congruence. Qed.

Lemma floor_ok : score_ok SCORE_FLOOR.
Proof. split_and!; vm_compute; congruence. Qed.

Lemma clamp_ok x : nonneg x = true → score_ok (clamp_score x).
Proof.
  intros Hx. destruct (nonneg_cases x Hx) as [->|Hf]; [exact max_score_ok|].
  pose proof (nonneg_fin_dz x Hx Hf) as H0. unfold clamp_score. cbv zeta.
  rewrite (dlt_spec MAX_SCORE x) by fin_tac. destruct (Z.ltb_spec (dz MAX_SCORE) (dz x)); [exact max_score_ok|].
  rewrite dlt_spec by fin_tac. destruct (Z.ltb_spec (dz x) (dz SCORE_FLOOR)) as [|];
    [exact floor_ok|]. by split_and!.
Qed.

(** Clamping does not go below what was there before. *)
Lemma clamp_add_ge s a :
  score_ok s → nonneg a = true → dz s <= dz (clamp_score (dadd s a)).
Proof.
  intros (Hf & [H0 H100] & Hn) Ha.
  pose proof (dadd_nonneg s a Hn Ha) as Hsum.
  destruct (nonneg_cases _ Hsum) as [->|Hfs]; [exact H100|].
  assert (dz s <= dz (dadd s a)) as Hle.
  { destruct (nonneg_cases a Ha) as [->|Hfa]; [by destruct s|].
    destruct (dadd_rounds s a Hf Hfa Hn Ha) as [[He _]|(_ & _ & Hr)]; [by rewrite He in Hfs|].
    apply (Hr s Hf H0). apply mag_le; [lia|]. pose proof (nonneg_fin_dz a Ha Hfa). lia. }
  unfold clamp_score. cbv zeta. rewrite (dlt_spec MAX_SCORE) by fin_tac.
  destruct (Z.ltb_spec (dz MAX_SCORE) (dz (dadd s a))); [done|].
  rewrite dlt_spec by fin_tac. pose proof (nonneg_fin_dz _ Hsum Hfs) as Hs0.
  change (dz SCORE_FLOOR) with 0. by rewrite (proj2 (Z.ltb_ge _ _) Hs0).
Qed.

Lemma clamp_nan x : is_nan x = true → clamp_score x = x.
Proof. by destruct x. Qed.

(** ** States *)

Definition state_of (z : Z) : string :=
  if dz THRESH_JAILED <=? z then "JAILED"
  else if dz THRESH_HOUSE_ARREST <=? z then "HOUSE_ARREST"
  else if dz THRESH_QUARANTINED <=? z then "QUARANTINED"
  else if dz THRESH_WARNED <=? z then "WARNED"
  else if dz THRESH_WATCHED <=? z then "WATCHED" else "CLEAN".

Lemma score_to_state_dz x : fin x = true → score_to_state x = state_of (dz x).
Proof. intros Hx. unfold score_to_state, state_of. by rewrite !dle_spec by fin_tac. Qed.

Lemma decay_score_to_state_eq x : decay_score_to_state x = score_to_state x.
Proof. reflexivity. Qed.

(** Higher scores have states that are at least as severe. *)
Lemma state_of_mono a b : a <= b → state_rank (state_of a) <= state_rank (state_of b).
Proof.
  intros Hab. unfold state_of.
  repeat match goal with
  | |- context [dz ?t <=? ?z] => destruct (Z.leb_spec (dz t) z)
  end; cbn; try lia; vm_compute dz in *; lia.
Qed.

(** ** One scoring step *)

(** The record a source has before it is scored. *)
Definition loaded (source : string) (w : world) : db_threat_t :=
  (result (db_threat_load source) (w_db w)).2.

(** The signals of the source in the window, the new one included. *)
Definition window_signals (source signal : string) (w : world) : list string :=
  let now := w_ms w / 1000 in
  result (db_signal_distinct source (now - SIGNAL_WINDOW_SEC))
    (exec (_ ← db_signal_insert source signal now; db_signal_prune (now - SIGNAL_WINDOW_SEC)) (w_db w)).

(** The addition of the step: the product of the weight and its multipliers. *)
Definition step_addition (source signal : string) (weight : double) (w : world) : double :=
  let rec := loaded source w in
  let ss := window_signals source signal w in
  score_addition (effective_weight signal weight) (covariance ss) (stack_bonus_of ss)
    (recidivism_mod (dt_jails rec) (dt_quarantines rec)) (tier_modifier (w_sov w) source).

Definition step_score (source signal : string) (weight : double) (w : world) : double :=
  clamp_score (dt_score (loaded source w) + step_addition source signal weight w)%D.

(** The row the step writes. *)
Definition step_row (source signal : string) (weight : double) (w : world) : threat_row :=
  let rec := loaded source w in
  let new := step_score source signal weight w in
  ThreatRow (dt_source rec) (bind_double new) (w_ms w / 1000)
    (strncpy STATE_LEN (score_to_state new))
    (bump "JAILED" (dt_score rec) new (dt_jails rec))
    (bump "QUARANTINED" (dt_score rec) new (dt_quarantines rec)).

Lemma loaded_source source w : dt_source (loaded source w) = strncpy SOURCE_LEN source.
Proof.
  unfold loaded, db_threat_load. rewrite result_query.
  destruct (db_ok (w_db w)); [|done]. by destruct (List.find _ _).
Qed.

Lemma scorer_process_step source signal weight ctx w :
  let rec := loaded source w in
  let new := step_score source signal weight w in
  result (scorer_process source signal weight ctx) w =
    (0, ScoreResult (strncpy SOURCE_LEN source) (dt_score rec) new (new - dt_score rec)%D
          (strncpy STATE_LEN (score_to_state new)) (tr_jails (step_row source signal weight w))
          (tr_quarantines (step_row source signal weight w))) ∧
  threat_scores (w_db (exec (scorer_process source signal weight ctx) w)) =
    (if db_ok (w_db w)
     then upsert (threat_key (dt_source rec)) (step_row source signal weight w)
            (threat_scores (w_db w))
     else threat_scores (w_db w)).
Proof.
  cbv zeta. unfold scorer_process, step_row, step_score, step_addition, loaded.
  rewrite !result_bind, !exec_bind, result_time_now, exec_time_now, result_on_db, exec_on_db.
  change (exec (db_threat_load source) (w_db w)) with (w_db w).
  destruct (result (db_threat_load source) (w_db w)) as [found rec].
  destruct w as [ms [[] ts sw cs vs cr sl cq al] sov lock b iq caq pd ia sys];
    split; reflexivity.
Qed.

(** Scoring does not change whether the database works. *)
Lemma scorer_process_ok source signal weight ctx w :
  db_ok (w_db (exec (scorer_process source signal weight ctx) w)) = db_ok (w_db w).
Proof.
  assert (keeps (same_on (λ w, db_ok (w_db w))) (scorer_process source signal weight ctx)) as H.
  { unfold scorer_process. keeps_tac. }
  apply H.
Qed.

Lemma state_short x : strncpy STATE_LEN (score_to_state x) = score_to_state x.
Proof. unfold score_to_state. by repeat split_match. Qed.

Lemma score_ok_le a b : score_ok a → score_ok b → dz a <= dz b → (a <=? b)%D = true.
Proof. intros (Ha & _) (Hb & _) Hab. rewrite dle_spec by done. by apply Z.leb_le. Qed.

Lemma step_score_ok source signal weight w :
  canon weight = true → is_nan weight = false → score_ok (dt_score (loaded source w)) →
  score_ok (step_score source signal weight w) ∧
  dz (dt_score (loaded source w)) <= dz (step_score source signal weight w).
Proof.
  intros Hc Hn Hprev.
  assert (nonneg (step_addition source signal weight w) = true) as Ha.
  { apply addition_nonneg; auto with mp. by apply effective_weight_nonneg. }
  split; [|by apply clamp_add_ge].
  apply clamp_ok, dadd_nonneg; [|done]. by destruct Hprev as (_ & _ & ?).
Qed.

(** ** Theorems *)

(** C17. Scoring is monotone and bounded: from a score in [0, 100] and any
    weight that is a number, however it was spelt (negative, infinite or beyond
    the range of doubles), the new score is in [0, 100], is not below the old
    one, and its state is at least as severe. *)
Theorem scoring_monotone_bounded source signal weight ctx w :
  canon weight = true → is_nan weight = false → score_ok (dt_score (loaded source w)) →
  let r := (result (scorer_process source signal weight ctx) w).2 in
  sr_prev r = dt_score (loaded source w) ∧
  score_ok (sr_new r) ∧ (sr_prev r <=? sr_new r)%D = true ∧
  state_rank (score_to_state (sr_prev r)) <= state_rank (sr_state r).
Proof.
  intros Hc Hn Hprev. cbv zeta.
  destruct (scorer_process_step source signal weight ctx w) as [-> _].
  cbn [snd sr_prev sr_new sr_state]. rewrite state_short.
  destruct (step_score_ok source signal weight w Hc Hn Hprev) as [Hnew Hle].
  split_and!; [done|done|by apply score_ok_le|].
  destruct Hprev as (Hf & _), Hnew as (Hf' & _).
  rewrite !score_to_state_dz by done. by apply state_of_mono.
Qed.

(** A world where [com.bad.app] stands at 60. *)
Definition sample_scores : world :=
  world_init (Db true [ThreatRow "com.bad.app" (Some (d_of_Z 60)) 990 "QUARANTINED" 0 1]
                [] [] [] [] [] [] []) None false BACKEND_DIRECT 1000000.

Lemma scoring_monotone_bounded_witness :
  let r := (result (scorer_process "com.bad.app" "ROOT_DETECTED" (atof "-1e999") "") sample_scores).2 in
  score_ok (sr_new r) ∧ (sr_prev r <=? sr_new r)%D = true.
Proof.
  destruct (scoring_monotone_bounded "com.bad.app" "ROOT_DETECTED" (atof "-1e999") "" sample_scores)
    as (_ & ? & ? & _); [apply atof_canon|vm_compute; reflexivity| |by split].
  split_and!; vm_compute; congruence.
Defined.

(** A weight that is not a number erases a record.  Whatever a source has
    on its account, one signal with the weight [nan] leaves it with score 0 and
    state CLEAN: the product and the sum are NaN, every comparison of the clamp
    and of the thresholds is false, and the database keeps NaN as NULL, which
    reads back as 0. *)
Theorem nan_weight_erases_score source signal weight ctx w :
  is_nan weight = true → db_ok (w_db w) = true → strncpy SOURCE_LEN source = source →
  let w' := exec (scorer_process source signal weight ctx) w in
  dt_score (loaded source w') = d_zero ∧ dt_state (loaded source w') = "CLEAN".
Proof.
  intros Hn Hok Hsrc. cbv zeta.
  assert (is_nan (step_score source signal weight w) = true) as Hnan.
  { unfold step_score. rewrite clamp_nan; apply dadd_nan_r, addition_nan;
      by rewrite effective_weight_nan. }
  destruct (scorer_process_step source signal weight ctx w) as [_ Hts].
  destruct (scorer_process_db_only source signal weight ctx w) as [d Hd].
  assert (db_ok d = true) as Hokd.
  { rewrite <- Hok. change d with (w_db (set_db d w)). rewrite <- Hd.
    apply scorer_process_ok. }
  rewrite Hd in Hts |- *. rewrite Hok in Hts. cbn [w_db set_db] in Hts.
  unfold loaded, db_threat_load. rewrite result_query. cbn [w_db set_db]. rewrite Hokd, Hts.
  unfold step_row. rewrite loaded_source, Hsrc, find_upsert_same by apply String.eqb_refl.
  unfold threat_of_row, bind_double. cbn [snd dt_score dt_state tr_score tr_state].
  rewrite Hnan, strncpy_idemp, state_short.
  split; [done|]. by destruct (step_score source signal weight w).
Qed.

Lemma nan_weight_erases_score_witness :
  dt_score (loaded "com.bad.app" sample_scores) = d_of_Z 60 ∧
  let w' := exec (scorer_process "com.bad.app" "ROOT_DETECTED" (atof "nan") "") sample_scores in
  dt_score (loaded "com.bad.app" w') = d_zero ∧ dt_state (loaded "com.bad.app" w') = "CLEAN".
Proof.
  split; [reflexivity|].
  apply (nan_weight_erases_score "com.bad.app" "ROOT_DETECTED" (atof "nan") "" sample_scores);
    vm_compute; reflexivity.
Defined.

(** ** One decay step *)

Definition HALF_LIFE_SCALE : Z := dz DECAY_FACTOR * 2 ^ 852.

Lemma decay_factor : factor DECAY_FACTOR.
Proof. factor_const. Qed.

Lemma decay_cutoff : fin DECAY_CUTOFF = true.
Proof. reflexivity. Qed.

(** The product with the factor stays below any double that bounds the exact
    product. *)
Lemma decay_product_le s b :
  score_ok s → fin b = true → 0 <= dz b → dz s * HALF_LIFE_SCALE <= mag (dz b) (-1074) →
  fin (s * DECAY_FACTOR)%D = true ∧ nonneg (s * DECAY_FACTOR)%D = true ∧
  dz (s * DECAY_FACTOR)%D <= dz b.
Proof.
  intros (Hf & _ & Hn) Hb Hb0 HV. destruct decay_factor as (Hff & Hfn & _).
  unfold HALF_LIFE_SCALE in HV. rewrite Z.mul_assoc in HV.
  destruct (dmul_rounds s DECAY_FACTOR Hf Hff Hn Hfn) as [[_ Hinf]|(HfR & HnR & Hr)].
  - specialize (Hinf b Hb Hb0). lia.
  - split; [done|]. split; [done|]. by apply (Hr b Hb Hb0).
Qed.

Lemma scale_below_one z : 0 <= z → z * HALF_LIFE_SCALE <= mag z (-1074).
Proof.
  intros Hz. unfold mag. apply Z.mul_le_mono_nonneg_l; [done|]. vm_compute. congruence.
Qed.

(** One tick keeps a score in range and below any such bound. *)
Lemma decayed_le s b :
  score_ok s → fin b = true → 0 <= dz b → dz s * HALF_LIFE_SCALE <= mag (dz b) (-1074) →
  score_ok (decayed s) ∧ dz (decayed s) <= dz b ∧ (dz b < dz DECAY_CUTOFF → decayed s = d_zero).
Proof.
  intros Hs Hb Hb0 HV. destruct (decay_product_le s b Hs Hb Hb0 HV) as (Hf & Hn & Hle).
  pose proof (nonneg_fin_dz _ Hn Hf) as H0.
  assert (dz (s * DECAY_FACTOR)%D <= dz s) as Hdown.
  { pose proof Hs as (Hfs & [Hs0 _] & _).
    by apply (decay_product_le s s Hs Hfs Hs0), scale_below_one. }
  pose proof Hs as (_ & [_ H100] & _).
  unfold decayed. cbv zeta. rewrite dlt_spec by (done || exact decay_cutoff).
  destruct (Z.ltb_spec (dz (s * DECAY_FACTOR)%D) (dz DECAY_CUTOFF)) as [Hlt|Hge].
  - split_and!; [apply floor_ok|exact Hb0|done].
  - split_and!; [split_and!; [done|lia|lia|done]|done|lia].
Qed.

Lemma decayed_down s : score_ok s → score_ok (decayed s) ∧ dz (decayed s) <= dz s.
Proof.
  intros Hs. pose proof Hs as (Hf & [H0 _] & _).
  destruct (decayed_le s s) as (? & ? & _); [done..|by apply scale_below_one|done].
Qed.

(** ** Decay to nothing

    Upper bounds on the score after each tick, from [MAX_SCORE] down: each is a
    double not below the exact product of the one before with the factor. *)

Definition next_bound (b : double) : double := SFsucc dprec demax (b * DECAY_FACTOR)%D.

Definition bound_ok (b b' : double) : bool :=
  fin b' && (0 <=? dz b') && (dz b * HALF_LIFE_SCALE <=? mag (dz b') (-1074)).

Fixpoint bounds_ok (n : nat) (b : double) : bool :=
  match n with O => true | S n' => bound_ok b (next_bound b) && bounds_ok n' (next_bound b) end.

Lemma iter_decayed_le n : ∀ b s,
  score_ok s → dz s <= dz b → 0 <= HALF_LIFE_SCALE → bounds_ok n b = true →
  score_ok (Nat.iter n decayed s) ∧ dz (Nat.iter n decayed s) <= dz (Nat.iter n next_bound b).
Proof.
  induction n as [|n IH]; intros b s Hs Hsb Hsc Hok; [done|].
  cbn [bounds_ok] in Hok. apply andb_prop in Hok as [Hb Hok].
  unfold bound_ok in Hb. bool_hyps. rewrite !Nat.iter_succ_r.
  destruct (decayed_le s (next_bound b)) as (Hs' & Hle & _); [done|done|done| |].
  - etrans; [|eassumption]. by apply Z.mul_le_mono_nonneg_r.
  - by apply IH.
Qed.

(** The number of ticks that empty any account: 84 minutes of silence. *)
Definition FORGET_TICKS : nat := 42.

Lemma last_tick x : score_ok x → dz x <= dz (Nat.iter 41 next_bound MAX_SCORE) → decayed x = d_zero.
Proof.
  intros Hx Hle. apply (decayed_le x (next_bound (Nat.iter 41 next_bound MAX_SCORE)));
    [exact Hx|vm_compute; reflexivity|vm_compute; congruence| |vm_compute; reflexivity].
  etrans; [apply Z.mul_le_mono_nonneg_r; [vm_compute; congruence|exact Hle]|].
  vm_compute. congruence.
Qed.

(** Silence clears a record: whatever score a source has, after 42 ticks
    without a signal it is exactly 0, and each tick on the way keeps it in [0,
    100] and never raises it.  The bound is exact: a score of 100 is still not 0
    after 41 ticks. *)
Theorem decay_forgets s :
  score_ok s →
  (score_ok (decayed s) ∧ (decayed s <=? s)%D = true) ∧
  Nat.iter FORGET_TICKS decayed s = d_zero ∧
  Nat.iter (FORGET_TICKS - 1) decayed MAX_SCORE ≠ d_zero.
Proof.
  intros Hs. split; [|split].
  - destruct (decayed_down s Hs) as [Hok Hle]. split; [done|]. by apply score_ok_le.
  - replace FORGET_TICKS with (S 41) by reflexivity. rewrite Nat.iter_succ.
    destruct (iter_decayed_le 41 MAX_SCORE s) as [Hok Hle];
      [done|apply Hs|vm_compute; congruence|vm_compute; reflexivity|].
    by apply last_tick.
  - vm_compute. congruence.
Qed.

Lemma decay_forgets_witness :
  score_ok (atof "73.25") ∧ Nat.iter FORGET_TICKS decayed (atof "73.25") = d_zero.
Proof.
  assert (score_ok (atof "73.25")) as H by (split_and!; vm_compute; congruence).
  split; [exact H|]. exact (proj1 (proj2 (decay_forgets _ H))).
Defined.

(** ** The tick over the table *)

(** The row a tick leaves in the place of [r]. *)
Definition ticked (now : Z) (active : string → bool) (r : threat_row) : threat_row :=
  if active (tr_source r) then r
  else
    let new := decayed (column_double (tr_score r)) in
    ThreatRow (tr_source r) (bind_double new) now (score_to_state new) (tr_jails r)
      (tr_quarantines r).

Definition active_in (d : db) (since : Z) (source : string) : bool :=
  existsb (in_window source since) (signal_window d).

Lemma upsert_at {R} (same : R → bool) r x l1 l2 :
  (∀ y, y ∈ l1 → same y = false) → same x = true →
  upsert same r (l1 ++ x :: l2) = l1 ++ r :: l2.
Proof.
  intros H1 Hx. induction l1 as [|y l1 IH]; cbn [app upsert]; [by rewrite Hx|].
  rewrite (H1 y) by left. rewrite IH; [done|]. intros z Hz. apply H1. by right.
Qed.

Definition row_fits (r : threat_row) : Prop := strncpy SOURCE_LEN (tr_source r) = tr_source r.

(** One row of the tick, in the middle of the table. *)
Lemma exec_decay_row now since r l1 l2 w :
  db_ok (w_db w) = true → row_fits r →
  threat_scores (w_db w) = l1 ++ r :: l2 → (∀ y, y ∈ l1 → tr_source y ≠ tr_source r) →
  exec (decay_row now since (threat_of_row (tr_source r) r)) w =
  set_db (set_threats (λ _, l1 ++ ticked now (active_in (w_db w) since) r :: l2) (w_db w)) w.
Proof.
  intros Hok Hfit Hts Hnew. unfold decay_row, ticked, active_in.
  rewrite exec_bind, exec_on_db, result_on_db. unfold db_signal_active at 1.
  rewrite result_query, Hok. change (exec (db_signal_active _ since) (w_db w)) with (w_db w).
  cbn [threat_of_row dt_source]. rewrite Hfit.
  destruct (existsb (in_window (tr_source r) since) (signal_window (w_db w))).
  - rewrite exec_mret, <- Hts. destruct w as [ms [] sov lock b iq cq pd ia sys]. done.
  - rewrite exec_bind, exec_mret, exec_on_db. unfold db_threat_upsert. rewrite exec_run_stmt.
    cbn [w_db set_db dt_source threat_of_row dt_score dt_jails dt_quarantines].
    rewrite Hok. unfold set_threats at 1. rewrite Hts, (upsert_at _ _ r).
    + unfold row_of_threat. cbn [dt_source dt_score dt_state dt_updated dt_jails dt_quarantines].
      rewrite decay_score_to_state_eq, state_short.
      destruct w as [ms [] sov lock b iq cq pd ia sys]. done.
    + intros y Hy. apply String.eqb_neq. by apply Hnew.
    + apply String.eqb_refl.
Qed.

Lemma exec_decay_rows now since l2 : ∀ l1 w,
  db_ok (w_db w) = true → Forall row_fits l2 → NoDup (map tr_source (l1 ++ l2)) →
  threat_scores (w_db w) = l1 ++ l2 →
  exec (mfor (map (λ r, threat_of_row (tr_source r) r) l2) (decay_row now since)) w =
  set_db (set_threats (λ _, l1 ++ map (ticked now (active_in (w_db w) since)) l2) (w_db w)) w.
Proof.
  induction l2 as [|r l2 IH]; intros l1 w Hok Hfit Hnd Hts; cbn [map mfor].
  - rewrite exec_mret, <- Hts. destruct w as [ms [] sov lock b iq cq pd ia sys]. done.
  - apply Forall_cons in Hfit as [Hr Hfit]. rewrite exec_bind.
    assert (∀ y, y ∈ l1 → tr_source y ≠ tr_source r) as Hnew.
    { intros y Hy Heq. rewrite List.map_app in Hnd. apply NoDup_app in Hnd as (_ & Hd & _).
      apply (Hd (tr_source y)); [by apply list_elem_of_fmap_2|]. rewrite Heq. by left. }
    rewrite (exec_decay_row now since r l1 l2) by done.
    rewrite (IH (l1 ++ [ticked now (active_in (w_db w) since) r])).
    + cbn [w_db set_db]. rewrite <- app_assoc.
      destruct w as [ms [] sov lock b iq cq pd ia sys]. done.
    + by destruct (w_db w).
    + done.
    + rewrite <- app_assoc. cbn [app]. rewrite !List.map_app in *. cbn [map] in *.
      replace (tr_source (ticked _ _ r)) with (tr_source r); [done|].
      unfold ticked. by destruct (active_in _ _ _).
    + cbn [w_db set_db]. rewrite <- app_assoc. by destruct (w_db w).
Qed.

(** A decay tick multiplies exactly the scores of the silent sources:
    unless internal affairs hold the lock, every row of the table keeps its
    place, a source with a signal in the window keeps its row untouched, and
    every other row gets the decayed score, the state of that score, and its
    prior counts. *)
Theorem decay_tick_table w :
  db_ok (w_db w) = true → (length (threat_scores (w_db w)) <= 512)%nat →
  Forall row_fits (threat_scores (w_db w)) → NoDup (map tr_source (threat_scores (w_db w))) →
  threat_scores (w_db (exec decay_tick w)) =
  if w_ia_lock w then threat_scores (w_db w)
  else map (ticked (w_ms w / 1000) (active_in (w_db w) (w_ms w / 1000 - SIGNAL_WINDOW_SEC)))
         (threat_scores (w_db w)).
Proof.
  intros Hok Hlen Hfit Hnd. unfold decay_tick. rewrite exec_bind, result_gets, exec_gets.
  destruct (w_ia_lock w); [done|].
  rewrite exec_bind, result_time_now, exec_time_now. cbv zeta.
  rewrite exec_bind, exec_on_db, result_on_db. unfold db_threat_all at 1.
  rewrite result_query, Hok. change (exec (db_threat_all 512) (w_db w)) with (w_db w).
  rewrite take_ge by done.
  rewrite exec_bind, (exec_decay_rows _ _ _ [] (set_db (w_db w) w)) by done.
  rewrite exec_bind, exec_mret, exec_on_db. unfold db_signal_prune. cbn.
  by destruct (db_ok (w_db w)).
Qed.

Lemma decay_tick_table_witness :
  map tr_state (threat_scores (w_db (exec decay_tick sample_scores))) = ["QUARANTINED"] ∧
  map tr_state (threat_scores (w_db (exec decay_tick (exec decay_tick sample_scores)))) = ["WARNED"].
Proof.
  split.
  - rewrite (decay_tick_table sample_scores); [reflexivity|reflexivity|cbn; lia| |];
      repeat constructor. by intros ?%elem_of_nil.
  - vm_compute. reflexivity.
Defined.
