(* ===== verification/Range.v ===== *)
(** * gaveld: scores stay in range along every run

    Whatever text arrives on the pipe and the socket, every stored score is
    either absent or a finite double between 0 and 100. *)

From S2P Require Import Prelude CString Double Strtod Config Db Tier Ring World Ingest Scorer.
From S2P Require Import Enforce Cases Emit Consent Verdict Decay Affairs Gaveld Bounds.

(** ** The invariant *)

Definition column_ok (c : option double) : Prop :=
  match c with Some x => score_ok x | None => True end.

Definition row_ok (r : threat_row) : Prop := column_ok (tr_score r).

(** A record whose weight some text denotes. *)
Definition record_ok (r : ingest_record_t) : Prop := canon (in_weight r) = true.

Definition range_view (w : world) : list threat_row * ring ingest_record_t :=
  (threat_scores (w_db w), w_ingest w).

Record in_range (w : world) : Prop := InRange {
  ir_rows : Forall row_ok (threat_scores (w_db w));
  ir_wf : bq_wf (cap := INGEST_QUEUE_SIZE) (w_ingest w);
  ir_queue : Forall record_ok (bq_elems (cap := INGEST_QUEUE_SIZE) (w_ingest w)) }.

Lemma range_same {A} (c : G A) : keeps (same_on range_view) c → preserves in_range c.
Proof.
  apply same_on_preserves. intros w w' [= Ht Hq] [Hr Hw He]. split; congruence.
Qed.

(** ** Calls that change neither the table nor the queue *)

Lemma verdict_emit_range c s v sc r g : keeps (same_on range_view) (verdict_emit c s v sc r g).
Proof. unfold verdict_emit. keeps_tac. Qed.
#[export] Hint Resolve verdict_emit_range : mp.

Lemma cases_assemble_range r s c : keeps (same_on range_view) (cases_assemble r s c).
Proof. unfold cases_assemble, make_case_id, queue_case. keeps_tac. Qed.

Lemma enforce_execute_range s v : keeps (same_on range_view) (enforce_execute s v).
Proof. intros w. by rewrite exec_enforce_execute. Qed.

Lemma consent_enqueue_range r : keeps (same_on range_view) (consent_enqueue r).
Proof. apply same_on_modify. intros w. by destruct (free_slot (w_pending w)). Qed.

Lemma consent_reply_range c b : keeps (same_on range_view) (consent_reply c b).
Proof. apply same_on_modify. intros w. by destruct (find_pending _ _). Qed.

#[export] Hint Resolve cases_assemble_range enforce_execute_range consent_enqueue_range
  consent_reply_range : mp.

Lemma verdict_turn_range : keeps (same_on range_view) verdict_turn.
Proof.
  unfold verdict_turn, verdict_process, ia_lock_active, floor_has_fresh_signal,
    apply_sovereignty_cap, apply_floor_jailed, audit_signal_ia_referral, request_consent.
  keeps_tac. intros w. unfold cases_dequeue. unmonad. by destruct (bq_pop _) as [[]|].
Qed.

Lemma consent_pass_range : keeps (same_on range_view) consent_pass.
Proof.
  unfold consent_pass, consent_slot, resolve_entry, put_slot, send_notification,
    dismiss_notification, system.
  keeps_tac.
Qed.

Lemma consent_start_range : keeps (same_on range_view) consent_start.
Proof. unfold consent_start. keeps_tac. Qed.

Lemma audit_turn_range : keeps (same_on range_view) audit_turn.
Proof.
  unfold audit_turn, audit_tick, check_verdict_rate, check_score_inflation, check_stalls,
    check_ia_referrals, raise_flag, notify_user, system.
  keeps_tac.
Qed.

#[export] Hint Resolve verdict_turn_range consent_pass_range consent_start_range
  audit_turn_range : mp.

(** ** The table *)

Lemma column_score c : column_ok c → score_ok (column_double c).
Proof. destruct c; [done|]. intros _. apply floor_ok. Qed.

Lemma bind_score x : score_ok x → column_ok (bind_double x).
Proof. unfold bind_double. by destruct (is_nan x). Qed.

Lemma upsert_Forall {R} (P : R → Prop) same r l : P r → Forall P l → Forall P (upsert same r l).
Proof.
  intros Hr Hl. induction Hl as [|x l Hx Hl IH]; cbn [upsert]; [by constructor|].
  destruct (same x); by constructor.
Qed.

Lemma find_Forall {R} (P : R → Prop) f l r : Forall P l → List.find f l = Some r → P r.
Proof. intros Hl [Hr _]%find_some. rewrite Forall_forall in Hl. by apply Hl, list_elem_of_In. Qed.

Lemma loaded_ok source w : Forall row_ok (threat_scores (w_db w)) → score_ok (dt_score (loaded source w)).
Proof.
  intros Hr. unfold loaded, db_threat_load. rewrite result_query.
  destruct (db_ok (w_db w)); [|apply floor_ok].
  destruct (List.find _ _) as [r|] eqn:Hf; [|apply floor_ok].
  by apply column_score, (find_Forall _ _ _ _ Hr Hf).
Qed.

(** Scoring: a number keeps the score in range, a NaN makes it absent. *)
Lemma scorer_range source signal weight ctx :
  canon weight = true → preserves in_range (scorer_process source signal weight ctx).
Proof.
  intros Hc w [Hr Hw Hq].
  destruct (scorer_process_step source signal weight ctx w) as [_ Hts].
  destruct (db_only_fields _ _ (scorer_process_db_only source signal weight ctx w))
    as (_ & _ & _ & _ & Hi & _).
  split; [|by rewrite Hi..]. rewrite Hts. destruct (db_ok (w_db w)); [|done].
  apply upsert_Forall; [|done]. unfold row_ok, step_row. cbn [tr_score].
  destruct (is_nan weight) eqn:Hn.
  - unfold bind_double. replace (is_nan _) with true; [done|]. symmetry.
    unfold step_score. rewrite clamp_nan; apply dadd_nan_r, addition_nan;
      by rewrite effective_weight_nan.
  - by apply bind_score, step_score_ok, loaded_ok.
Qed.

(** Writing a score in range. *)
Lemma upsert_range rec : score_ok (dt_score rec) → preserves in_range (on_db (db_threat_upsert rec)).
Proof.
  intros Hs w [Hr Hw Hq]. rewrite exec_on_db. unfold db_threat_upsert. rewrite exec_run_stmt.
  destruct (db_ok (w_db w)); split; try done. cbn. apply upsert_Forall; [|done].
  by apply bind_score.
Qed.

Lemma decay_row_range now since r : score_ok (dt_score r) → preserves in_range (decay_row now since r).
Proof.
  intros Hs. unfold decay_row. keeps_tac; try solve [apply range_same; auto with mp].
  apply upsert_range. by apply decayed_down.
Qed.

Lemma decay_tick_range : preserves in_range decay_tick.
Proof.
  intros w Hw. unfold decay_tick. rewrite exec_bind, result_gets, exec_gets.
  destruct (w_ia_lock w); [done|].
  rewrite exec_bind, result_time_now, exec_time_now. cbv zeta.
  rewrite exec_bind, exec_on_db, result_on_db, exec_bind.
  change (exec (db_threat_all 512) (w_db w)) with (w_db w).
  rewrite exec_bind, exec_mret. apply (range_same (on_db _)); [auto with mp|].
  apply mfor_preserves.
  - intros r w' Hin Hw'. apply decay_row_range; [|done].
    destruct Hw as [Hr _ _]. unfold db_threat_all in Hin. rewrite result_query in Hin.
    destruct (db_ok _); [|by apply elem_of_nil in Hin].
    apply list_elem_of_fmap in Hin as (row & -> & Hrow). apply column_score.
    apply (Forall_take _ 512) in Hr. rewrite Forall_forall in Hr. by apply Hr.
  - destruct Hw. by split.
Qed.

(** ** The queue *)

Lemma parse_line_ok line rec : parse_line line = Some rec → record_ok rec.
Proof.
  unfold parse_line, record_ok. destruct (has_prefix "QUERY|" line); [by intros [= <-]|].
  destruct (strtok_next "|" (strncpy BUF_SIZE line)) as [src r1].
  destruct (strtok_next "|" r1) as [sig r2]. destruct (strtok_next "|" r2) as [wgt r3].
  destruct (strtok_next NLs r3) as [ctx r4]. destruct src, sig; try done. intros [= <-].
  destruct wgt; [apply atof_canon|done].
Qed.

Lemma parse_signal_ok buf rec : parse_signal buf = Some rec → record_ok rec.
Proof.
  unfold parse_signal, record_ok.
  destruct (strtok_next "|" (strncpy BUF_SIZE buf)) as [src r1].
  destruct (strtok_next "|" r1) as [sig r2]. destruct (strtok_next "|" r2) as [wgt r3].
  destruct (strtok_next "" r3) as [ctx r4]. destruct src, sig; try done. intros [= <-].
  destruct wgt; [apply atof_canon|done].
Qed.

Lemma in_range_set q w :
  in_range w → bq_wf (cap := INGEST_QUEUE_SIZE) q →
  Forall record_ok (bq_elems (cap := INGEST_QUEUE_SIZE) q) → in_range (set_ingest q w).
Proof. by intros [Hr _ _]. Qed.

Lemma push_range rec : record_ok rec → preserves in_range (queue_push rec).
Proof.
  intros Hrec w Hw. unfold queue_push. rewrite exec_modify.
  pose proof Hw as [_ Hwf Hq]. apply in_range_set; [done|by apply bq_push_wf|].
  rewrite bq_push_elems by done. apply Forall_forall. intros c Hc.
  apply elem_of_fifo_push in Hc as [->|Hc]; [done|].
  rewrite Forall_forall in Hq. by apply Hq.
Qed.

Lemma ingest_range text : preserves in_range (ingest_thread text).
Proof.
  unfold ingest_thread. apply keeps_mfor; [apply _|]. intros line. unfold ingest_line.
  keeps_tac. by eapply push_range, parse_line_ok.
Qed.

Lemma dequeue_range w :
  in_range w →
  in_range (exec ingest_dequeue w) ∧
  match result ingest_dequeue w with Some r => record_ok r | None => True end.
Proof.
  intros Hw. pose proof Hw as [_ Hwf Hq]. unfold ingest_dequeue, exec, result.
  pose proof (bq_pop_elems (w_ingest w) Hwf) as Hpop.
  destruct (bq_pop (w_ingest w)) as [[c q]|] eqn:Hp; [|done].
  rewrite Hpop in Hq. apply Forall_cons in Hq as [Hc Hq].
  split; [|done]. apply in_range_set; [done|by eapply bq_pop_wf|done].
Qed.

Lemma scorer_turn_range : preserves in_range scorer_turn.
Proof.
  intros w Hw. destruct (dequeue_range w Hw) as [Hw' Hrec].
  unfold scorer_turn. rewrite exec_bind. destruct (result ingest_dequeue w) as [rec|]; [|done].
  revert Hw'. generalize (exec ingest_dequeue w).
  change (preserves in_range (if in_is_query rec then mret tt
    else '(rc, res) ← scorer_process (in_source rec) (in_signal rec) (in_weight rec) (in_ctx rec);
         if rc =? 0 then _ ← cases_assemble res (in_signal rec) (in_ctx rec); mret tt
         else mret tt)).
  keeps_tac; try solve [apply range_same; auto with mp]. by apply scorer_range.
Qed.

Lemma client_range msg : preserves in_range (handle_client msg).
Proof.
  unfold handle_client, handle_signal, handle_status.
  keeps_tac; try solve [apply range_same; auto with mp].
  - apply decay_tick_range.
  - by eapply scorer_range, parse_signal_ok.
Qed.

Lemma boot_range rish adb w :
  Forall row_ok (threat_scores (w_db w)) → in_range (exec (gaveld_boot rish adb) w).
Proof.
  intros Hr. unfold gaveld_boot, enforce_init. rewrite !exec_bind.
  apply (range_same (A := unit)); [auto with mp|].
  rewrite !exec_modify. split; [done| |by constructor].
  apply ring_init_wf. unfold INGEST_QUEUE_SIZE. lia.
Qed.

Lemma turn_range e : preserves in_range (turn e).
Proof.
  destruct e; cbn [turn]; try solve [apply range_same; auto with mp].
  - apply ingest_range.
  - apply scorer_turn_range.
  - apply keeps_bind; [apply _|apply client_range|intros _; apply keeps_mret, _].
  - apply decay_tick_range.
  - intros w [Hr _ _]. by apply boot_range.
Qed.

(** ** Theorem *)

(** C15. Along every run of the daemon from a database whose scores are in
    range, every stored score is absent or a finite double in [0, 100]: no
    sequence of records, socket messages, ticks and restarts makes one
    negative, infinite, or larger than 100. *)
Theorem scores_stay_in_range d sov lock ms rish adb es w r :
  Forall row_ok (threat_scores d) →
  steps (gaveld_start d sov lock ms rish adb) es w →
  r ∈ threat_scores (w_db w) →
  tr_score r = None ∨ ∃ x, tr_score r = Some x ∧
    (SCORE_FLOOR <=? x)%D = true ∧ (x <=? MAX_SCORE)%D = true.
Proof.
  intros Hd Hs Hin.
  assert (in_range w) as [Hr _ _].
  { apply (steps_invariant (λ _, in_range) _ es w Hs); [by apply boot_range|].
    intros _ w' e. apply turn_range. }
  rewrite Forall_forall in Hr. specialize (Hr r Hin). unfold row_ok, column_ok in Hr.
  destruct (tr_score r) as [x|]; [right|by left]. exists x.
  pose proof Hr as (_ & [H0 H100] & _).
  split_and!; [done|by apply score_ok_le; [apply floor_ok|..]|].
  by apply score_ok_le; [|apply max_score_ok|].
Qed.

Lemma scores_stay_in_range_witness :
  map tr_score (threat_scores (w_db (run sample_run sample_start))) = [Some (d_of_Z 60)] ∧
  ∀ r, r ∈ threat_scores (w_db (run sample_run sample_start)) →
    tr_score r = None ∨ ∃ x, tr_score r = Some x ∧
      (SCORE_FLOOR <=? x)%D = true ∧ (x <=? MAX_SCORE)%D = true.
Proof.
  split; [vm_compute; reflexivity|]. intros r.
  apply (scores_stay_in_range db_empty None false 1000000 false false sample_run);
    [constructor | exact sample_steps].
Defined.
