(* ===== verification/Overlord.v ===== *)
(** * overlordd: correlation across the fleet ([src/daemon/overlordd.c])

    The JSON field readers, the sliding window, the seventeen detectors and one
    poll of the daemon.  The state monad carries the pattern table, the window
    and what was written to gaveld's pipe and to splinterd; the result files of
    the other daemons are the argument [files], from daemon name to content. *)

From S2P Require Import Prelude CString Double Ingest.
From Stdlib Require Import Ascii.

(** ** State *)

Record pattern := Pattern {
  pt_name : string; pt_severity : string; pt_detail : string; pt_mitre : string;
  pt_confidence : double }.

Record window_snap := WindowSnap {
  ws_ts : Z; thermal_score : Z; trust_score : Z; spike_events : Z; kernel_drift : Z;
  selinux_ok : Z; tcp_total : Z; ws_crashes : Z; ws_ooms : Z; ws_drain : double }.

Definition snap_zero : window_snap := WindowSnap 0 0 0 0 0 0 0 0 0 (S754_zero false).

Definition MAX_PATTERNS : nat := 32.
Definition WINDOW_SIZE : nat := 10.

Record overlord := Overlord {
  o_patterns : list pattern;          (* g_patterns[0 .. g_pattern_count) *)
  o_window : list window_snap;        (* g_window *)
  o_pos : nat;                        (* g_window_pos *)
  o_full : bool;                      (* g_window_full *)
  o_polls : Z;                        (* g_poll_count *)
  o_pipe : list string;               (* records for gaveld *)
  o_splinter : list (string * Z) }.   (* buffer and byte count of each write *)

Definition overlord_init : overlord :=
  Overlord [] (replicate WINDOW_SIZE snap_zero) 0 false 0 [] [].

#[local] Abbreviation O := (M overlord).

(** The message buffer for splinterd, and the length [snprintf] returns, which
    is the byte count handed to [write]. *)
Definition splinterd_emit (type payload : string) : string * Z :=
  let text := scat ["APRIL|overlordd|"; type; "|"; payload; NLs] in
  (snprintf 512 text, Z.of_nat (String.length text)).

Definition add_pattern (name sev detail mitre : string) (confidence : double) : O unit :=
  modify (λ o,
    if (MAX_PATTERNS <=? length (o_patterns o))%nat then o
    else
      Overlord
        (o_patterns o ++ [Pattern (strncpy 64 name) (strncpy 16 sev) (strncpy 512 detail)
                            (strncpy 16 mitre) confidence])
        (o_window o) (o_pos o) (o_full o) (o_polls o)
        (o_pipe o ++ option_list (gaveld_emit "overlordd" name confidence detail))
        (o_splinter o ++ [splinterd_emit "pattern_detected" detail])).

(** ** JSON fields *)

Definition skip_spaces (s : string) : string := skip_while (Ascii.eqb " ") s.

(** The text after the first occurrence of [needle]. *)
Definition find_after (json needle : string) : option string :=
  match strstr json needle with
  | Some p => Some (sdrop (String.length needle) p)
  | None => None
  end.

Definition json_needle (key : string) : string := snprintf 128 (QUOTE +:+ key +:+ QUOTE +:+ ":").

Definition json_get_double (json key : string) : option double :=
  match find_after json (json_needle key) with
  | None => None
  | Some p => match strtod (skip_spaces p) with
              | Some (v, _) => Some v
              | None => None
              end
  end.

Definition INT_MAX : Z := 2147483647.
Definition INT_MIN : Z := -2147483648.

Definition json_get_int (json key : string) : option Z :=
  match json_get_double json key with
  | None => None
  | Some d =>
      if is_nan d || is_inf d || (d_of_Z INT_MAX <? d)%D || (d <? d_of_Z INT_MIN)%D then None
      else Some (Z_of_d d)
  end.

Definition read_bool (p : string) : option bool :=
  if has_prefix "true" p then Some true
  else if has_prefix "false" p then Some false
  else None.

Definition json_get_bool (json key : string) : option bool :=
  match find_after json (json_needle key) with
  | None => None
  | Some p => read_bool (skip_spaces p)
  end.

(** The buffer [out] of [outlen] bytes after the call, when it was zeroed. *)
Definition json_get_str (json key : string) (outlen : nat) : string :=
  match find_after json (snprintf 128 (QUOTE +:+ key +:+ QUOTE +:+ ":" +:+ QUOTE)) with
  | None => ""
  | Some p => stake (outlen - 1) (break_at (Ascii.eqb (chr 34)) p).1
  end.

Definition burned_prop_fired (json propkey : string) : option bool :=
  let needle := snprintf 128 (QUOTE +:+ "key" +:+ QUOTE +:+ ":" +:+ QUOTE +:+ propkey +:+ QUOTE) in
  let fired_key := QUOTE +:+ "fired" +:+ QUOTE +:+ ":" in
  match strstr json needle with
  | None => None
  | Some p =>
      match strstr p fired_key with
      | None => None
      | Some fired =>
          let past_end := match strchr "}" p with
                          | Some obj_end => (String.length fired <? String.length obj_end)%nat
                          | None => false
                          end in
          if past_end then None
          else read_bool (skip_spaces (sdrop (String.length fired_key) fired))
      end
  end.

(** [int x = d; bool ok = json_get_int(json, key, &x);] with [ok] unused. *)
Definition int_or (json key : string) (d : Z) : Z := default d (json_get_int json key).

(** The same when the file may be missing. *)
Definition int_or_file (file : option string) (key : string) (d : Z) : Z :=
  match file with Some j => int_or j key d | None => d end.

Definition double_or_file (file : option string) (key : string) (d : double) : double :=
  match file with Some j => default d (json_get_double j key) | None => d end.

Definition bool_of_file (file : option string) (key : string) : option bool :=
  match file with Some j => json_get_bool j key | None => None end.

(** [ok && test(x)] on an optional read. *)
Definition read_and {A} (x : option A) (test : A → bool) : bool :=
  match x with Some a => test a | None => false end.

(** ** Sliding window *)

Section poll.
Context (files : string → option string).

Definition read_daemon (name : string) : option string :=
  match files name with Some t => Some (stake (Z.to_nat 65535) t) | None => None end.

Definition bool_Z (b : bool) : Z := if b then 1 else 0.

Definition take_snap (now : Z) : window_snap :=
  let leather := read_daemon "leatherheadd" in
  let tiger := read_daemon "tigerclawd" in
  let nulld := read_daemon "nulld" in
  let shred := read_daemon "shredderd" in
  let granite := read_daemon "granitord" in
  let rahzerd := read_daemon "rahzerd" in
  let fugi := read_daemon "fugitoidd" in
  let bebopd := read_daemon "bebopd" in
  WindowSnap now
    (int_or_file leather "thermal_score" (-1))
    (int_or_file tiger "trust_score" (-1))
    (int_or_file nulld "total_spike_events" 0)
    (bool_Z (default false (bool_of_file shred "detected")))
    (bool_Z (default true (bool_of_file granite "selinux_enforcing")))
    (int_or_file rahzerd "established_tcp4" 0 + int_or_file rahzerd "established_tcp6" 0)
    (int_or_file fugi "crashes" 0)
    (int_or_file fugi "oom_events" 0)
    (double_or_file bebopd "drain_mah_h" (S754_zero false)).

Definition update_window (now : Z) : O unit :=
  modify (λ o,
    let pos := ((o_pos o + 1) mod WINDOW_SIZE)%nat in
    Overlord (o_patterns o) (<[o_pos o := take_snap now]> (o_window o)) pos
      (if negb (o_full o) && (pos =? 0)%nat then true else o_full o)
      (o_polls o) (o_pipe o) (o_splinter o)).

Definition window_count (o : overlord) : nat := if o_full o then WINDOW_SIZE else o_pos o.

(** The snapshots from the oldest to the newest. *)
Definition window_seq (o : overlord) : list window_snap :=
  let count := window_count o in
  omap (λ i, o_window o !! ((o_pos o + i + WINDOW_SIZE - count) mod WINDOW_SIZE)%nat)
    (seq 0 count).

(** The loop of [window_trend_falling]: drops between consecutive values, with
    [prev] the value before. *)
Fixpoint count_falling (prev : Z) (vals : list Z) : Z :=
  match vals with
  | [] => 0
  | v :: vals' => (if (0 <=? prev) && (v <? prev) then 1 else 0) + count_falling v vals'
  end.

Definition window_trend_falling (getter : window_snap → Z) (threshold : Z) (o : overlord) : bool :=
  if (window_count o <? 3)%nat then false
  else threshold <=? count_falling (-1) (map getter (window_seq o)).

(** ** Detectors *)

Definition lit (s : string) : double := atof s.

(** [x > n] for a double and an integer constant. *)
Definition above (x : double) (n : Z) : bool := (d_of_Z n <? x)%D.

Definition cap (x bound : double) : double := if (bound <? x)%D then bound else x.

Definition add_if (b : bool) (x : double) (inc : string) : double :=
  if b then (x + lit inc)%D else x.

(** Pattern 1. *)
Definition detect_thermal_oom : O unit :=
  match read_daemon "leatherheadd", read_daemon "ratkingd", read_daemon "fugitoidd" with
  | Some leather, Some ratking, Some fugi =>
      let thermal := json_get_int leather "thermal_score" in
      let throttled := json_get_int leather "throttled_cores" in
      let zombies := json_get_int ratking "zombies" in
      let crashes := json_get_int fugi "crashes" in
      let ooms := json_get_int fugi "oom_events" in
      let mem_low := json_get_bool ratking "memory_low" in
      if read_and thermal (λ t, (0 <? t) && (t <? 70))
         && (read_and mem_low id || read_and ooms (λ n, 0 <? n))
         && (read_and crashes (λ n, 0 <? n) || read_and zombies (λ n, 3 <? n))
      then
        let detail := snprintf 512 (scat
          ["Thermal "; fmt_d (default 0 thermal); "/100 + ";
           (if read_and mem_low id then "memory_low" else "OOM events"); " + ";
           fmt_d (default 0 crashes); " crashes + "; fmt_d (default 0 zombies);
           " zombies — HyperOS thermal-triggered OOM targeting suspected"]) in
        let conf := lit "0.6" in
        let conf := add_if (read_and throttled (λ n, 4 <? n)) conf "0.1" in
        let conf := add_if (read_and ooms (λ n, 0 <? n)) conf "0.15" in
        add_pattern "THERMAL_OOM_MANIPULATION" "CRITICAL" detail "T1426" conf
      else mret tt
  | _, _, _ => mret tt
  end.

(** Pattern 2. *)
Definition detect_idle_surveillance : O unit :=
  match read_daemon "nulld", read_daemon "rahzerd" with
  | Some nulld, Some rahzerd =>
      let spikes := json_get_int nulld "total_spike_events" in
      let idle_sec := int_or nulld "idle_seconds" 0 in
      let tcp4 := int_or rahzerd "established_tcp4" 0 in
      let tcp6 := int_or rahzerd "established_tcp6" 0 in
      if read_and spikes (λ n, 2 <? n) then
        let n := default 0 spikes in
        let detail := snprintf 512 (scat
          [fmt_d n; " connection spikes during "; fmt_d idle_sec;
           "s idle — background surveillance activity detected. Active connections: ";
           fmt_d tcp4; " TCP4 + "; fmt_d tcp6; " TCP6"]) in
        let conf := cap (lit "0.5" + d_of_Z n * lit "0.08")%D (lit "0.95") in
        add_pattern "IDLE_SURVEILLANCE_CYCLE" "WARNING" detail "T1430" conf
      else mret tt
  | _, _ => mret tt
  end.

(** Pattern 3. *)
Definition detect_sensor_exfil : O unit :=
  match read_daemon "metalheadd", read_daemon "rahzerd" with
  | Some metal, Some rahzerd =>
      let sensitive := json_get_int metal "sensitive_active" in
      let sen_score := int_or metal "sensor_score" 0 in
      let tcp4 := int_or rahzerd "established_tcp4" 0 in
      let tcp6 := int_or rahzerd "established_tcp6" 0 in
      let drain := double_or_file (read_daemon "bebopd") "drain_mah_h" (S754_zero false) in
      if read_and sensitive (λ n, 2 <? n) && (20 <? tcp4 + tcp6) then
        let n := default 0 sensitive in
        let detail := snprintf 512 (scat
          [fmt_d n; " sensitive sensors active with "; fmt_d (tcp4 + tcp6);
           " TCP connections — possible sensor data exfiltration. Score: "; fmt_d sen_score;
           "/100. Drain: "; fmt_f 1 drain; " mAh/hr"]) in
        let conf := (lit "0.4" + d_of_Z n * lit "0.1")%D in
        let conf := add_if (above drain 300) conf "0.15" in
        add_pattern "SENSOR_NETWORK_EXFILTRATION" "WARNING" detail "T1430" conf
      else mret tt
  | _, _ => mret tt
  end.

(** The five anomalies of pattern 4, with the label each appends. *)
Definition weakening_checks (tiger shred granite : string) : list (bool * string) :=
  [(read_and (json_get_int tiger "trust_score") (λ t, (0 <? t) && (t <? 75)), "low_trust; ");
   (read_and (json_get_int tiger "drift") (λ d, 5 <? Z.abs d), "binder_drift; ");
   (read_and (json_get_bool tiger "selinux_anomaly") id, "selinux_anomaly; ");
   (read_and (json_get_bool shred "detected") id, "kernel_drift; ");
   (read_and (json_get_bool granite "root_present") id, "root_present; ")].

(** Append the labels of the checks that hold, each with a bounded [strncat]. *)
Definition append_labels (size : nat) (checks : list (bool * string)) : string :=
  fold_left (λ (buf : string) (c : bool * string), if fst c then strncat size buf (snd c) else buf) checks "".

Definition count_true (l : list (bool * string)) : Z :=
  Z.of_nat (length (List.filter fst l)).

(** Pattern 4. *)
Definition detect_security_weakening : O unit :=
  match read_daemon "tigerclawd", read_daemon "shredderd", read_daemon "granitord" with
  | Some tiger, Some shred, Some granite =>
      let trust := int_or tiger "trust_score" 0 in
      let g_score := int_or granite "score" 0 in
      let checks := weakening_checks tiger shred granite in
      let count := count_true checks in
      let detail := append_labels 512 checks in
      if 2 <=? count then
        let full := snprintf 512 (scat
          [fmt_d count; " concurrent security anomalies: "; detail; "(trust="; fmt_d trust;
           "/100 granite="; fmt_d g_score; "/100)"]) in
        let conf := cap (lit "0.3" + d_of_Z count * lit "0.15")%D (lit "0.95") in
        add_pattern "COORDINATED_SECURITY_WEAKENING"
          (if 3 <=? count then "CRITICAL" else "WARNING") full "T1462" conf
      else mret tt
  | _, _, _ => mret tt
  end.

(** Pattern 5. *)
Definition detect_privacy_erosion : O unit :=
  match read_daemon "burned" with
  | Some burned =>
      let sigs := json_get_int burned "privacy_signal_count" in
      let spikes := int_or_file (read_daemon "nulld") "total_spike_events" 0 in
      let trust := int_or_file (read_daemon "tigerclawd") "trust_score" 100 in
      if read_and sigs (λ n, 5 <=? n) && (0 <? spikes) then
        let detail := snprintf 512 (scat
          [fmt_d (default 0 sigs); " privacy signals in ROM + "; fmt_d spikes;
           " idle transmission spikes + device trust "; fmt_d trust;
           "/100 — systemic privacy erosion. Leith, Patras & Liu (TCD/Edinburgh 2021) confirmed on this device."]) in
        add_pattern "SYSTEMIC_PRIVACY_EROSION" "CRITICAL" detail "T1429" (lit "0.90")
      else mret tt
  | None => mret tt
  end.

(** Pattern 6. *)
Definition detect_thermal_deception : O unit :=
  match read_daemon "leatherheadd" with
  | Some leather =>
      let thermal := json_get_int leather "thermal_score" in
      let throttl := int_or leather "throttled_cores" 0 in
      let r_throttl := int_or_file (read_daemon "rocksteadyd") "throttled_cores" 0 in
      let drain := double_or_file (read_daemon "bebopd") "drain_mah_h" (S754_zero false) in
      if read_and thermal (λ t, (0 <? t) && (t <? 75))
         && (throttl =? 0) && (r_throttl =? 0) && above drain 150
      then
        let detail := snprintf 512 (scat
          ["Thermal score "; fmt_d (default 0 thermal);
           "/100 but ZERO throttled cores — HyperOS underreporting temps to Android framework. Drain ";
           fmt_f 1 drain;
           " mAh/hr while system believes device is cool. Confirmed 18C HAL vs cached delta on this device."]) in
        add_pattern "THERMAL_DECEPTION_CYCLE" "CRITICAL" detail "T1481" (lit "0.85")
      else mret tt
  | None => mret tt
  end.

Definition screen_off (nulld : string) : bool :=
  String.eqb (json_get_str nulld "screen" 16) "off".

(** Pattern 7. *)
Definition detect_idle_exfil_beacon : O unit :=
  match read_daemon "nulld" with
  | Some nulld =>
      let spikes := json_get_int nulld "total_spike_events" in
      let idle_sec := int_or nulld "idle_seconds" 0 in
      let priv_sigs := int_or_file (read_daemon "burned") "privacy_signal_count" 0 in
      let drain := double_or_file (read_daemon "bebopd") "drain_mah_h" (S754_zero false) in
      if screen_off nulld && read_and spikes (λ n, 0 <? n) && above drain 50 && (5 <=? priv_sigs)
      then
        let detail := snprintf 512 (scat
          ["Screen off "; fmt_d idle_sec; "s — "; fmt_d (default 0 spikes);
           " idle connection spikes + "; fmt_f 1 drain; " mAh/hr drain + "; fmt_d priv_sigs;
           " ROM privacy signals. Xiaomi beaconing to Azure every ~10min confirmed via PCAPdroid (fr.resolver.msg.global.xiaomi.net)"]) in
        add_pattern "IDLE_EXFILTRATION_BEACON" "CRITICAL" detail "T1430" (lit "0.88")
      else mret tt
  | None => mret tt
  end.

(** Pattern 8. *)
Definition detect_sensor_stalking : O unit :=
  match read_daemon "metalheadd", read_daemon "rahzerd", read_daemon "nulld" with
  | Some metal, Some rahzerd, Some nulld =>
      let sensitive := json_get_int metal "sensitive_active" in
      let tcp4 := int_or rahzerd "established_tcp4" 0 in
      let tcp6 := int_or rahzerd "established_tcp6" 0 in
      let trust := int_or_file (read_daemon "tigerclawd") "trust_score" 100 in
      if read_and sensitive (λ n, 1 <? n) && (10 <? tcp4 + tcp6) && screen_off nulld && (80 <=? trust)
      then
        let detail := snprintf 512 (scat
          [fmt_d (default 0 sensitive); " sensitive sensors active + "; fmt_d (tcp4 + tcp6);
           " TCP connections while screen is off + trust score "; fmt_d trust;
           "/100 (appears normal). INVISIBLE to individual daemons — only visible via correlation. Possible sensor-based location tracking during sleep."]) in
        add_pattern "SENSOR_STALKING_CAMOUFLAGE" "WARNING" detail "T1430" (lit "0.70")
      else mret tt
  | _, _, _ => mret tt
  end.

(** Pattern 9. *)
Definition detect_wakelock_abuse : O unit :=
  match read_daemon "nulld", read_daemon "bebopd" with
  | Some nulld, Some bebopd =>
      let idle_sec := int_or nulld "idle_seconds" 0 in
      let spikes := json_get_int nulld "total_spike_events" in
      let drain := json_get_double bebopd "drain_mah_h" in
      let anrs := int_or_file (read_daemon "fugitoidd") "anrs" 0 in
      if screen_off nulld && (300 <? idle_sec) && read_and drain (λ d, above d 100)
         && read_and spikes (λ n, 1 <? n)
      then
        let d := default (S754_zero false) drain in
        let detail := snprintf 512 (scat
          [fmt_d idle_sec; "s idle but "; fmt_f 1 d; " mAh/hr drain + "; fmt_d (default 0 spikes);
           " network spikes + "; fmt_d anrs;
           " ANRs — services holding wake locks against Doze. GMS + MIUI Security Center confirmed active during idle on this device."]) in
        let conf := lit "0.65" in
        let conf := add_if (0 <? anrs) conf "0.1" in
        let conf := add_if (above d 200) conf "0.1" in
        add_pattern "WAKE_LOCK_ABUSE_SYNDROME" "WARNING" detail "T1426" conf
      else mret tt
  | _, _ => mret tt
  end.

(** [cur == 1 && prev_drift == 0] somewhere in the window. *)
Fixpoint drift_appears (prev : Z) (vals : list Z) : bool :=
  match vals with
  | [] => false
  | v :: vals' => ((v =? 1) && (prev =? 0)) || drift_appears v vals'
  end.

(** Pattern 10. *)
Definition detect_priv_escalation : O unit := λ o,
  if negb (o_full o) && (o_pos o <? 3)%nat then (tt, o)
  else
    let count := window_count o in
    let trust_falling := window_trend_falling trust_score 2 o in
    let kern_drift_appeared := drift_appears 0 (map kernel_drift (window_seq o)) in
    if trust_falling && kern_drift_appeared then
      let detail := snprintf 512 (scat
        ["Trust score falling trend over "; fmt_d (Z.of_nat count);
         " polls + kernel module drift appeared mid-window — possible staged privilege escalation: debug props changed → rootkit loaded → exfiltration"]) in
      add_pattern "PRIVILEGE_ESCALATION_CHAIN" "CRITICAL" detail "T1471" (lit "0.75") o
    else (tt, o).

(** The disclosed-behaviour entries of burned that the memory patterns consult. *)
Definition disclosure_checks (burned : option string) (props : list (string * string))
    : list (bool * string) :=
  match burned with
  | None => []
  | Some j => map (λ p : string * string, (read_and (burned_prop_fired j (fst p)) id, snd p)) props
  end.

Definition props_trap : list (string * string) :=
  [("persist.sys.memory_extension_enabled", "ram_extension; ");
   ("persist.sys.miui_scout_binder_full_kill_process", "binder_full_kill; ");
   ("persist.sys.cleaner_level", "cleaner_aggressive; ")].

Definition props_pressure : list (string * string) :=
  props_trap ++ [("persist.sys.powerkeeper", "powerkeeper; ")].

(** Confidence of pattern 11. *)
Definition pressure_confidence (throttled : Z) (drain : double) (ooms : Z) (disclosed : bool) : double :=
  let conf := lit "0.55" in
  let conf := add_if (4 <? throttled) conf "0.1" in
  let conf := add_if (lit "400.0" <? drain)%D conf "0.1" in
  let conf := add_if (1 <? ooms) conf "0.1" in
  if disclosed then (conf - lit "0.25")%D else conf.

(** Pattern 11. *)
Definition detect_memory_pressure_manip : O unit :=
  match read_daemon "ratkingd", read_daemon "fugitoidd" with
  | Some ratking, Some fugi =>
      let avail := json_get_int ratking "avail_mb" in
      let mem_low := json_get_bool ratking "memory_low" in
      let zombies := int_or ratking "zombies" 0 in
      let ooms := int_or fugi "oom_events" 0 in
      let crashes := int_or fugi "crashes" 0 in
      let throttled := int_or_file (read_daemon "rocksteadyd") "throttled_cores" 0 in
      let drain := double_or_file (read_daemon "bebopd") "drain_mah_h" (S754_zero false) in
      let reported_healthy := read_and mem_low negb && read_and avail (λ n, 400 <? n) in
      let actual_pressure := (0 <? ooms) || (0 <? crashes) || (3 <? zombies) in
      if reported_healthy && actual_pressure then
        let checks := disclosure_checks (read_daemon "burned") props_pressure in
        let disclosed := existsb fst checks in
        let explain := append_labels 160 checks in
        let conf := pressure_confidence throttled drain ooms disclosed in
        if (lit "0.30" <=? conf)%D then
          let head := scat ["Reported healthy (avail="; fmt_d (default 0 avail);
                "MB, memory_low=false) but "; fmt_d ooms; " OOMs + "; fmt_d crashes;
                " crashes + "; fmt_d zombies; " zombies say otherwise — "] in
          let detail := snprintf 512
            (if disclosed then scat [head; "partially explained by disclosed HyperOS behavior (";
                                     explain; "), confidence reduced accordingly"]
             else head +:+ "memory state may be misreported or artificially masked") in
          add_pattern "MEMORY_PRESSURE_MANIPULATION" (if disclosed then "WARNING" else "HIGH")
            detail "T1414" conf
        else mret tt
      else mret tt
  | _, _ => mret tt
  end.

(** Pattern 12. *)
Definition detect_doze_bypass : O unit :=
  match read_daemon "nulld", read_daemon "bebopd" with
  | Some nulld, Some bebopd =>
      let idle_sec := int_or nulld "idle_seconds" 0 in
      let spikes := json_get_int nulld "total_spike_events" in
      let drain := json_get_double bebopd "drain_mah_h" in
      let anrs := int_or_file (read_daemon "fugitoidd") "anrs" 0 in
      if screen_off nulld && (600 <? idle_sec) && read_and spikes (λ n, 2 <? n)
         && read_and drain (λ d, above d 80)
      then
        let d := default (S754_zero false) drain in
        let detail := snprintf 512 (scat
          ["Screen off "; fmt_d idle_sec; "s but "; fmt_d (default 0 spikes); " spikes + ";
           fmt_f 1 d; " mAh/hr drain + "; fmt_d anrs;
           " ANRs -- Doze bypassed. PARTIAL_WAKE_LOCK held by system component. Precursor to IDLE_EXFILTRATION_BEACON."]) in
        let conf := (lit "0.70" + (if (0 <? anrs)%Z then lit "0.10" else lit "0.0")
                     + (if above d 200 then lit "0.10" else lit "0.0"))%D in
        add_pattern "DOZE_BYPASS_SYNDROME" "WARNING" detail "T1426" conf
      else mret tt
  | _, _ => mret tt
  end.

(** Pattern 13. *)
Definition detect_thermal_amnesia : O unit :=
  match read_daemon "leatherheadd" with
  | Some leather =>
      let thermal := json_get_int leather "thermal_score" in
      let throttled := int_or leather "throttled_cores" 0 in
      let r_throttl := int_or_file (read_daemon "rocksteadyd") "throttled_cores" 0 in
      let kern_drift := bool_of_file (read_daemon "shredderd") "detected" in
      let selinux := bool_of_file (read_daemon "granitord") "selinux_enforcing" in
      if read_and thermal (λ t, (0 <? t) && (t <? 60))
         && ((2 <? throttled) || (2 <? r_throttl))
         && read_and kern_drift id && read_and selinux negb
      then
        let detail := snprintf 512 (scat
          ["Thermal "; fmt_d (default 0 thermal); "/100 but "; fmt_d (throttled + r_throttl);
           " cores throttled + kernel drift + SELinux permissive -- thermal HAL interception. Dynamic deception: history rewritten post-boot."]) in
        add_pattern "THERMAL_AMNESIA_SEQUENCE" "CRITICAL" detail "T1481" (lit "0.80")
      else mret tt
  | None => mret tt
  end.

(** Pattern 14. *)
Definition detect_binder_proximity : O unit :=
  match read_daemon "tigerclawd", read_daemon "ratkingd" with
  | Some tiger, Some ratking =>
      let rahzerd := read_daemon "rahzerd" in
      let trust := json_get_int tiger "trust_score" in
      let drift := json_get_int tiger "drift" in
      let orphans := json_get_int ratking "orphans" in
      let tcp4 := int_or_file rahzerd "established_tcp4" 0 in
      let tcp6 := int_or_file rahzerd "established_tcp6" 0 in
      let priv := int_or_file (read_daemon "burned") "privacy_signal_count" 0 in
      if read_and drift (λ d, (2 <=? d) && (d <=? 6)) && read_and trust (λ t, 85 <? t)
         && read_and orphans (λ n, 2 <? n) && (tcp4 + tcp6 <? 5) && (5 <=? priv)
      then
        let detail := snprintf 512 (scat
          ["Binder drift "; fmt_d (default 0 drift); " but trust "; fmt_d (default 0 trust);
           "/100 + "; fmt_d (default 0 orphans); " orphans + "; fmt_d (tcp4 + tcp6);
           " TCP -- binder injection staging. Orphans (PPID=1) suggest parent killed post-exploit. Low TCP = pre-exfil."]) in
        add_pattern "BINDER_PROXIMITY_EXPLOIT" "CRITICAL" detail "T1437" (lit "0.72")
      else mret tt
  | _, _ => mret tt
  end.

(** Confidence of pattern 15. *)
Definition trap_confidence (throttled : Z) (disclosed : bool) : double :=
  let conf := (lit "0.68" + (if (2 <? throttled)%Z then lit "0.10" else lit "0.0"))%D in
  if disclosed then (conf - lit "0.25")%D else conf.

(** Pattern 15. *)
Definition detect_memory_extension_trap : O unit :=
  match read_daemon "ratkingd", read_daemon "fugitoidd" with
  | Some ratking, Some fugi =>
      let mem_low := json_get_bool ratking "memory_low" in
      let ooms := int_or fugi "oom_events" 0 in
      let crashes := int_or fugi "crashes" 0 in
      let drain := double_or_file (read_daemon "bebopd") "drain_mah_h" (S754_zero false) in
      let throttled := int_or_file (read_daemon "rocksteadyd") "throttled_cores" 0 in
      if read_and mem_low negb && (0 <? ooms) && (0 <? crashes) && above drain 150 then
        let checks := disclosure_checks (read_daemon "burned") props_trap in
        let disclosed := existsb fst checks in
        let explain := append_labels 160 checks in
        let conf := trap_confidence throttled disclosed in
        if (lit "0.30" <=? conf)%D then
          let head := scat ["memory_low=false but "; fmt_d ooms; " OOMs + "; fmt_d crashes;
                " crashes + "; fmt_f 1 drain; " mAh/hr + "; fmt_d throttled; " throttled -- "] in
          let detail := snprintf 512
            (if disclosed then
               scat [head; "matches HyperOS Memory Extension pattern, but disclosed as active in policy (";
                     explain; "); likely expected behavior, not a hidden trap"]
             else head +:+ "directed kills via HyperOS Memory Extension. Targets likely privacy tools or VPN processes.") in
          add_pattern "MEMORY_EXTENSION_TRAP" (if disclosed then "LOW" else "WARNING")
            detail "T1426" conf
        else mret tt
      else mret tt
  | _, _ => mret tt
  end.

(** Pattern 16. *)
Definition detect_radio_silence : O unit :=
  match read_daemon "rahzerd", read_daemon "nulld" with
  | Some rahzerd, Some nulld =>
      let tcp4 := int_or rahzerd "established_tcp4" 0 in
      let tcp6 := int_or rahzerd "established_tcp6" 0 in
      let spikes := json_get_int nulld "total_spike_events" in
      let idle_sec := int_or nulld "idle_seconds" 0 in
      let drain := double_or_file (read_daemon "bebopd") "drain_mah_h" (S754_zero false) in
      if screen_off nulld && (300 <? idle_sec) && (tcp4 + tcp6 <? 3)
         && read_and spikes (λ n, 2 <? n) && above drain 100
      then
        let detail := snprintf 512 (scat
          ["Screen off "; fmt_d idle_sec; "s: only "; fmt_d (tcp4 + tcp6); " TCP + ";
           fmt_d (default 0 spikes); " spikes + "; fmt_f 1 drain;
           " mAh/hr -- possible QUIC/UDP fallback. Device may have detected network monitor and switched to UDP to evade TCP inspection."]) in
        add_pattern "RADIO_SILENCE_FLIP" "WARNING" detail "T1437" (lit "0.65")
      else mret tt
  | _, _ => mret tt
  end.

(** Pattern 17. *)
Definition detect_privacy_decoy : O unit :=
  match read_daemon "burned" with
  | Some burned =>
      let sigs := json_get_int burned "privacy_signal_count" in
      let trust := int_or_file (read_daemon "tigerclawd") "trust_score" 100 in
      let g_score := int_or_file (read_daemon "granitord") "score" 100 in
      if read_and sigs (λ n, 10 <=? n) && (90 <? trust) && (90 <? g_score) then
        let detail := snprintf 512 (scat
          [fmt_d (default 0 sigs); " signals but trust "; fmt_d trust; "/100 + posture ";
           fmt_d g_score;
           "/100 high -- decoy flood. High-volume benign signals masking critical insertion. Review signal list manually."]) in
        add_pattern "PRIVACY_SIGNAL_DECOY" "WARNING" detail "T1429" (lit "0.60")
      else mret tt
  | None => mret tt
  end.

(** The detectors in the order [main] calls them. *)
Definition detectors : list (O unit) :=
  [detect_thermal_oom; detect_idle_surveillance; detect_sensor_exfil;
   detect_security_weakening; detect_privacy_erosion; detect_thermal_deception;
   detect_idle_exfil_beacon; detect_sensor_stalking; detect_wakelock_abuse;
   detect_priv_escalation; detect_memory_pressure_manip; detect_doze_bypass;
   detect_thermal_amnesia; detect_binder_proximity; detect_memory_extension_trap;
   detect_radio_silence; detect_privacy_decoy].

(** [g_pattern_count = 0; g_poll_count++;]. *)
Definition begin_poll : O unit :=
  modify (λ o, Overlord [] (o_window o) (o_pos o) (o_full o) (o_polls o + 1)
                 (o_pipe o) (o_splinter o)).

(** One iteration of the main loop, up to the report. *)
Definition poll_once (now : Z) : O unit :=
  _ ← begin_poll;
  _ ← update_window now;
  mfor detectors id.

End poll.

(** ** Report *)

Definition count_severity (sev : string) (l : list pattern) : Z :=
  Z.of_nat (length (List.filter (λ p, String.eqb (pt_severity p) sev) l)).

Definition threat_level (l : list pattern) : string :=
  let critical := count_severity "CRITICAL" l in
  let warning := count_severity "WARNING" l in
  if 3 <=? critical then "CRITICAL"
  else if 2 <=? critical then "HIGH"
  else if 1 <=? critical then "ELEVATED"
  else if 2 <=? warning then "GUARDED"
  else if 1 <=? warning then "LOW"
  else "NOMINAL".

Definition json_str_field (indent key value : string) : string :=
  scat [indent; QUOTE; key; QUOTE; ": "; QUOTE; value; QUOTE].

Definition json_raw_field (indent key value : string) : string :=
  scat [indent; QUOTE; key; QUOTE; ": "; value].

Definition pattern_json (p : pattern) : string :=
  scat ["    {"; NLs;
        json_str_field "      " "name" (pt_name p); ","; NLs;
        json_str_field "      " "severity" (pt_severity p); ","; NLs;
        json_str_field "      " "mitre" (pt_mitre p); ","; NLs;
        json_raw_field "      " "confidence" (fmt_f 2 (pt_confidence p)); ","; NLs;
        json_str_field "      " "detail" (pt_detail p); NLs;
        "    }"].

(** The array elements, each with a comma unless it is the last. *)
Fixpoint patterns_json (l : list pattern) : string :=
  match l with
  | [] => ""
  | [p] => pattern_json p +:+ NLs
  | p :: l' => scat [pattern_json p; ","; NLs; patterns_json l']
  end.

(** The text of the result file; [ts] is the formatted local time. *)
Definition write_json (ts : string) (poll_ms : Z) (o : overlord) : string :=
  scat ["{"; NLs;
        json_str_field "  " "daemon" "overlordd"; ","; NLs;
        json_str_field "  " "version" "1.0"; ","; NLs;
        json_str_field "  " "timestamp" ts; ","; NLs;
        json_raw_field "  " "poll_number" (fmt_d (o_polls o)); ","; NLs;
        json_str_field "  " "threat_level" (threat_level (o_patterns o)); ","; NLs;
        json_raw_field "  " "pattern_count" (fmt_d (Z.of_nat (length (o_patterns o)))); ","; NLs;
        json_raw_field "  " "patterns" "["; NLs;
        patterns_json (o_patterns o);
        "  ],"; NLs;
        json_raw_field "  " "poll_duration_ms" (fmt_d poll_ms); NLs;
        "}"; NLs].
