(* ===== verification/April.v ===== *)
(** * April: events and detections
    ([src/core/event/april_event.c], [src/core/platform/april_common.c],
     [src/core/include/sensei_types.h])

    The detection record and its enumerations, the detection list, and the
    priority event queue with its callback dispatch.  A chain of heap nodes
    reached from [head] is the list of its records; [malloc] and [calloc]
    succeed or fail as their argument [alloc] says. *)

From S2P Require Import Prelude CString.

(** ** Enumerations *)

Inductive SENSEI_STATUS :=
  | STATUS_OK | STATUS_ERROR | STATUS_NO_MEMORY | STATUS_NOT_FOUND
  | STATUS_ACCESS_DENIED | STATUS_TIMEOUT | STATUS_UNSUPPORTED.

#[export] Instance status_eq_dec : EqDecision SENSEI_STATUS.
Proof. solve_decision. Defined.

(** The integer values of the C enumeration. *)
Definition status_code (s : SENSEI_STATUS) : Z :=
  match s with
  | STATUS_OK => 0 | STATUS_ERROR => -1 | STATUS_NO_MEMORY => -2 | STATUS_NOT_FOUND => -3
  | STATUS_ACCESS_DENIED => -4 | STATUS_TIMEOUT => -5 | STATUS_UNSUPPORTED => -6
  end.

Inductive SENSEI_DETECTION_CLASS :=
  | CLASS_NONE | CLASS_ROOTKIT | CLASS_MALWARE | CLASS_KERNEL | CLASS_HOOK
  | CLASS_BEHAVIOR | CLASS_MEMORY | CLASS_NETWORK.

Inductive SENSEI_MITRE_TECHNIQUE :=
  | MITRE_NONE | MITRE_T1055 | MITRE_T1055_001 | MITRE_T1055_002 | MITRE_T1055_003
  | MITRE_T1055_004 | MITRE_T1055_012 | MITRE_T1014 | MITRE_T1036 | MITRE_T1562_001
  | MITRE_T1134 | MITRE_T1574 | MITRE_T1547 | MITRE_T1543 | MITRE_T1068 | MITRE_T1071.

(** [SENSEI_EVENT_PRIORITY]: LOW, MEDIUM, HIGH and CRITICAL are 0 to 3; the field
    of a detection is an integer. *)
Definition PRIORITY_LOW : Z := 0.
Definition PRIORITY_MEDIUM : Z := 1.
Definition PRIORITY_HIGH : Z := 2.
Definition PRIORITY_CRITICAL : Z := 3.
Definition PRIORITY_COUNT : Z := 4.

Definition class_to_string (c : SENSEI_DETECTION_CLASS) : string :=
  match c with
  | CLASS_MEMORY => "Memory" | CLASS_HOOK => "Hook" | CLASS_BEHAVIOR => "Behavior"
  | CLASS_NETWORK => "Network" | CLASS_KERNEL => "Kernel" | _ => "Unknown"
  end.

Definition mitre_to_string (t : SENSEI_MITRE_TECHNIQUE) : string :=
  match t with
  | MITRE_NONE => "N/A"
  | MITRE_T1055_001 => "T1055.001 - DLL Injection"
  | MITRE_T1055_002 => "T1055.002 - PE Injection"
  | MITRE_T1055_003 => "T1055.003 - Thread Hijacking"
  | MITRE_T1055_004 => "T1055.004 - APC Injection"
  | MITRE_T1055_012 => "T1055.012 - Process Hollowing"
  | MITRE_T1014 => "T1014 - Rootkit"
  | MITRE_T1562_001 => "T1562.001 - Disable Tools"
  | MITRE_T1134 => "T1134 - Token Manipulation"
  | MITRE_T1574 => "T1574 - Hijack Execution Flow"
  | MITRE_T1547 => "T1547 - Autostart"
  | MITRE_T1543 => "T1543 - Create System Process"
  | MITRE_T1068 => "T1068 - Priv Escalation"
  | MITRE_T1071 => "T1071 - App Layer Protocol"
  | MITRE_T1036 => "T1036 - Masquerading"
  | MITRE_T1055 => "T1055 - Process Injection"
  end.

Definition priority_to_string (p : Z) : string :=
  if p =? PRIORITY_LOW then "Low" else if p =? PRIORITY_MEDIUM then "Medium"
  else if p =? PRIORITY_HIGH then "High" else if p =? PRIORITY_CRITICAL then "Critical"
  else "Unknown".

Definition status_to_string (s : SENSEI_STATUS) : string :=
  match s with
  | STATUS_OK => "OK" | STATUS_ERROR => "Error" | STATUS_NO_MEMORY => "Out of memory"
  | STATUS_ACCESS_DENIED => "Access denied" | STATUS_NOT_FOUND => "Not found"
  | STATUS_TIMEOUT => "Timeout" | STATUS_UNSUPPORTED => "Unsupported"
  end.

(** ** Detections *)

Record SENSEI_DETECTION := Detection {
  det_pid : Z; det_name : string; det_class : SENSEI_DETECTION_CLASS; det_priority : Z;
  det_mitre : SENSEI_MITRE_TECHNIQUE; det_type : string; det_description : string;
  det_confidence : Z }.

(** A detection list: its nodes and the [uint32_t] count. *)
Record detection_list := DetectionList { dl_nodes : list SENSEI_DETECTION; dl_count : Z }.

Definition april_detection_list_append (alloc : bool) (det : SENSEI_DETECTION)
    : M detection_list SENSEI_STATUS := λ l,
  if alloc then (STATUS_OK, DetectionList (dl_nodes l ++ [det]) ((dl_count l + 1) mod 2 ^ 32))
  else (STATUS_NO_MEMORY, l).

Definition april_detection_list_free : M detection_list unit := λ _, (tt, DetectionList [] 0).

(** ** The event queue *)

(** [SENSEI_PRIORITY_QUEUE]. *)
Record prio_queue := PrioQueue { pq_nodes : list SENSEI_DETECTION; pq_count : Z }.

(** [SENSEI_EVENT_QUEUE]: four queues indexed by priority. *)
Record event_queue := EventQueue {
  eq_queues : list prio_queue; eq_total : Z; eq_running : bool }.

Definition pq_empty : prio_queue := PrioQueue [] 0.

Definition april_event_queue_init : event_queue := EventQueue (replicate 4 pq_empty) 0 true.

Definition april_event_queue_destroy : M event_queue unit := λ _,
  (tt, EventQueue (replicate 4 pq_empty) 0 false).

(** The queue of a detection; a priority out of range counts as MEDIUM. *)
Definition queue_index (det : SENSEI_DETECTION) : nat :=
  let idx := det_priority det in
  Z.to_nat (if (idx <? 0) || (PRIORITY_COUNT <=? idx) then PRIORITY_MEDIUM else idx).

Definition pq_push (det : SENSEI_DETECTION) (q : prio_queue) : prio_queue :=
  PrioQueue (pq_nodes q ++ [det]) (pq_count q + 1).

Definition april_event_queue_push (alloc : bool) (det : SENSEI_DETECTION)
    : M event_queue SENSEI_STATUS := λ q,
  if negb (eq_running q) then (STATUS_ERROR, q)
  else if negb alloc then (STATUS_NO_MEMORY, q)
  else (STATUS_OK, EventQueue (alter (pq_push det) (queue_index det) (eq_queues q))
                     (eq_total q + 1) (eq_running q)).

(** The scan of [april_event_queue_pop]: the first nonempty queue gives its head. *)
Fixpoint pop_first (l : list prio_queue) : option (SENSEI_DETECTION * list prio_queue) :=
  match l with
  | [] => None
  | q :: l' =>
      match pq_nodes q with
      | d :: rest => Some (d, PrioQueue rest (pq_count q - 1) :: l')
      | [] => match pop_first l' with
              | Some (d, l'') => Some (d, q :: l'')
              | None => None
              end
      end
  end.

Definition april_event_queue_pop : M event_queue (option SENSEI_DETECTION) := λ q,
  match pop_first (eq_queues q) with
  | Some (d, l) => (Some d, EventQueue l (eq_total q - 1) (eq_running q))
  | None => (None, q)
  end.

(** Callbacks, the last registered first.  A callback gets the detection and its
    user data, through which it can reach the queue: it is known by its name and
    by what it pushes, for each detection it is called with, in order, with the
    answers of the allocator; the calls are the trace. *)
Record callback_entry := Callback {
  cb_priority : Z; cb_name : string; cb_pushes : SENSEI_DETECTION → list (bool * SENSEI_DETECTION) }.

Definition april_event_register_callback (alloc : bool) (priority : Z) (name : string)
    (pushes : SENSEI_DETECTION → list (bool * SENSEI_DETECTION)) (cbs : list callback_entry) : list callback_entry :=
  if alloc then Callback priority name pushes :: cbs else cbs.

(** The walk over the callbacks for one detection. *)
Fixpoint dispatch_one (cbs : list callback_entry) (d : SENSEI_DETECTION)
    : M event_queue (list (string * SENSEI_DETECTION)) :=
  match cbs with
  | [] => mret []
  | c :: cbs' =>
      if cb_priority c <=? det_priority d then
        _ ← mfor (cb_pushes c d) (λ '(alloc, e), _ ← april_event_queue_push alloc e; mret tt);
        calls ← dispatch_one cbs' d;
        mret ((cb_name c, d) :: calls)
      else dispatch_one cbs' d
  end.

(** [while (pop == OK)], stopped after [fuel] turns: whether it has ended by
    itself, and the calls so far. *)
Fixpoint dispatch_loop (fuel : nat) (cbs : list callback_entry)
    : M event_queue (bool * list (string * SENSEI_DETECTION)) :=
  match fuel with
  | O => mret (false, [])
  | S fuel' =>
      d ← april_event_queue_pop;
      match d with
      | None => mret (true, [])
      | Some d =>
          calls ← dispatch_one cbs d;
          '(ended, more) ← dispatch_loop fuel' cbs;
          mret (ended, calls ++ more)
      end
  end.

Definition april_dispatch_events : nat → list callback_entry → M event_queue (bool * list (string * SENSEI_DETECTION)) :=
  dispatch_loop.

Definition queued (q : event_queue) : list SENSEI_DETECTION :=
  concat (map pq_nodes (eq_queues q)).

(** ** The lightweight emitter *)

Inductive APRIL_EVENT_TYPE :=
  | EVENT_BACKEND_SELECTED | EVENT_SCAN_START | EVENT_SCAN_END
  | EVENT_METRIC_THERMAL | EVENT_METRIC_BATTERY | EVENT_METRIC_CPUFREQ.

Definition april_event_name (t : APRIL_EVENT_TYPE) : string :=
  match t with
  | EVENT_BACKEND_SELECTED => "backend_selected"
  | EVENT_SCAN_START => "scan_start"
  | EVENT_SCAN_END => "scan_end"
  | EVENT_METRIC_THERMAL => "thermal"
  | EVENT_METRIC_BATTERY => "battery"
  | EVENT_METRIC_CPUFREQ => "cpu_freq"
  end.

(** The line printed; [json] is [getenv("APRIL_EVENT_JSON")]. *)
Definition april_emit_event (json : option string) (t : APRIL_EVENT_TYPE) (value : Z) : string :=
  let json_mode := match json with
                   | Some j => negb (String.eqb j "") && negb (String.eqb j "0")
                   | None => false
                   end in
  if json_mode then
    scat ["{"; QUOTE; "event"; QUOTE; ":"; QUOTE; april_event_name t; QUOTE; ",";
          QUOTE; "value"; QUOTE; ":"; fmt_d value; "}"; NLs]
  else scat ["["; april_event_name t; "] "; fmt_d value; NLs].
