(* ===== verification/Table.v ===== *)
(** * April tables ([src/core/april_table.c])

    The growable table of key/value rows and its four printers.  The heap array
    is the list of its rows with the capacity beside it; [realloc] is assumed to
    succeed, as the code assumes. *)

From S2P Require Import Prelude CString.
From Stdlib Require Import Ascii.

Inductive april_table_mode_t := TABLE_NORMAL | TABLE_COLOR | TABLE_JSON | TABLE_QUIET.

Record table_entry := Entry { te_key : string; te_value : string }.

Record april_table := AprilTable {
  at_mode : april_table_mode_t; at_entries : list table_entry; at_count : Z; at_capacity : Z }.

Definition ensure_capacity (t : april_table) : april_table :=
  if at_count t <? at_capacity t then t
  else AprilTable (at_mode t) (at_entries t) (at_count t)
         (if at_capacity t =? 0 then 8 else (at_capacity t * 2) mod 2 ^ 32).

Definition april_table_create (mode : april_table_mode_t) : april_table := AprilTable mode [] 0 0.

Definition april_table_add (key value : string) (t : april_table) : april_table :=
  let t := ensure_capacity t in
  AprilTable (at_mode t) (at_entries t ++ [Entry key value]) ((at_count t + 1) mod 2 ^ 32)
    (at_capacity t).

Definition longest_key (t : april_table) : nat :=
  fold_left (λ acc e, if (acc <? String.length (te_key e))%nat
                      then String.length (te_key e) else acc) (at_entries t) O.

Fixpoint spaces (n : nat) : string :=
  match n with O => EmptyString | S n' => String " " (spaces n') end.

(** [%-*s]. *)
Definition pad_right (w : nat) (s : string) : string := s +:+ spaces (w - String.length s).

Definition DASHES : string := "----------------".

Definition rule (w : nat) : string := scat ["+-"; pad_right w DASHES; "-+---------+"].
Definition header_row (w : nat) : string := scat ["| "; pad_right w "Metric"; " | Value   |"].
Definition value_row (w : nat) (e : table_entry) : string :=
  scat ["| "; pad_right w (te_key e); " | "; pad_right 7 (te_value e); " |"].

(** A line, between the escape sequences of a colour when there is one. *)
Definition line_in (colour text : string) : string :=
  let esc := String (chr 27) "" in
  if String.eqb colour "" then text +:+ NLs
  else scat [esc; "["; colour; "m"; text; esc; "[0m"; NLs].

Definition print_rows (frame row : string) (t : april_table) : string :=
  let w := longest_key t in
  scat [line_in frame (rule w); line_in frame (header_row w); line_in frame (rule w);
        scat (map (λ e, line_in row (value_row w e)) (at_entries t)); line_in frame (rule w)].

Definition print_normal (t : april_table) : string := print_rows "" "" t.

Definition print_color (t : april_table) : string := print_rows "36" "32" t.

Fixpoint json_rows (l : list table_entry) : string :=
  match l with
  | [] => ""
  | e :: l' =>
      scat ["  "; QUOTE; te_key e; QUOTE; ": "; QUOTE; te_value e; QUOTE;
            (match l' with [] => "" | _ => "," end); NLs; json_rows l']
  end.

Definition print_json (t : april_table) : string :=
  scat ["{"; NLs; json_rows (at_entries t); "}"; NLs].

Fixpoint quiet_values (l : list table_entry) : string :=
  match l with
  | [] => ""
  | [e] => te_value e
  | e :: l' => scat [te_value e; " "; quiet_values l']
  end.

Definition print_quiet (t : april_table) : string := quiet_values (at_entries t) +:+ NLs.

Definition april_table_print (t : april_table) : string :=
  match at_mode t with
  | TABLE_COLOR => print_color t
  | TABLE_JSON => print_json t
  | TABLE_QUIET => print_quiet t
  | TABLE_NORMAL => print_normal t
  end.
