(* ===== verification/Krang.v ===== *)
(** * krangd: IPv6 connection attribution
    ([src/daemon/krangd_net.c], [src/daemon/krangd_uid.c], [src/daemon/krangd.c])

    The parser of [/proc/net/tcp6], the parser of the package manager's output,
    and one poll of the daemon.  [inet_ntop] belongs to the system's network
    library: the functions that print an address take it as [ntop4] and [ntop6],
    from the bytes of an address to its text.  The backend ([bexec]) is the
    argument [bexec], from a command to its output. *)

From S2P Require Import Prelude CString Double.
From Stdlib Require Import Ascii.

(** ** Statuses and records *)

Inductive parse_status_t := PARSE_FOUND | PARSE_ERROR | PARSE_NOT_FOUND.

#[export] Instance parse_status_eq_dec : EqDecision parse_status_t.
Proof. solve_decision. Defined.

Record krang_connection := Connection {
  kc_local : string; kc_local_port : Z; kc_remote : string; kc_remote_port : Z;
  kc_state : Z; kc_uid : Z; kc_inode : Z }.

(** ** Hexadecimal *)

Definition hex_value (c : ascii) : option Z := hex_digit c.

Fixpoint snth (n : nat) (s : string) : option ascii :=
  match n, s with
  | O, String c _ => Some c
  | S n', String _ s' => snth n' s'
  | _, EmptyString => None
  end.

(** [(high << 4) | low] for the two digits at [i]. *)
Definition byte_at (s : string) (i : nat) : option Z :=
  match snth i s, snth (S i) s with
  | Some a, Some b =>
      match hex_value a, hex_value b with
      | Some high, Some low => Some (Z.lor (Z.shiftl high 4) low)
      | _, _ => None
      end
  | _, _ => None
  end.

(** The position of byte [4 * word + byte] of the address in the text. *)
Definition source_index (k : nat) : nat :=
  ((k / 4) * 8 + (3 - k mod 4) * 2)%nat.

(** The sixteen bytes of the address, in network order. *)
Definition decode_bytes (encoded : string) : option (list Z) :=
  if (String.length encoded =? 32)%nat
  then mapM (λ k, byte_at encoded (source_index k)) (seq 0 16)
  else None.

(** [IN6_IS_ADDR_V4MAPPED]. *)
Definition v4mapped (bytes : list Z) : bool :=
  bool_decide (take 12 bytes = [0; 0; 0; 0; 0; 0; 0; 0; 0; 0; 255; 255]).

(** ** [sscanf] conversions *)

(** [%Ns]: skip white space, read up to [n] other characters. *)
Definition scan_s (n : nat) (s : string) : option (string * string) :=
  let s' := skip_while is_space s in
  let tok := stake n (break_at is_space s').1 in
  if String.eqb tok "" then None else Some (tok, sdrop (String.length tok) s').

(** An integer conversion in the given base: optional sign, for base 16 an
    optional [0x], then at least one digit. *)
Definition scan_int (base : Z) (s : string) : option (Z * string) :=
  let '(neg, s1) := read_sign (skip_while is_space s) in
  let s2 := if (base =? 16) && has_prefix_ci "0x" s1 then sdrop 2 s1 else s1 in
  let '(v, n, r) := read_digits base 0 O s2 in
  if Nat.eqb n 0 then None else Some ((if neg then - v else v), r).

Definition to_u32 (z : Z) : Z := z mod 2 ^ 32.
Definition to_u64 (z : Z) : Z := z mod 2 ^ 64.
Definition to_i32 (z : Z) : Z := (z + 2 ^ 31) mod 2 ^ 32 - 2 ^ 31.

Definition scan_char (c : ascii) (s : string) : option string :=
  match s with
  | String d s' => if Ascii.eqb c d then Some s' else None
  | EmptyString => None
  end.

(** The fields of ["%u: %63s %63s %x %63s %63s %x %d %d %llu"] the parser keeps:
    local, remote, state, uid, inode. *)
Definition scan_fields (line : string) : option (string * string * Z * Z * Z) :=
  '(_, r) ← scan_int 10 line;
  r ← scan_char ":" r;
  '(local, r) ← scan_s 63 r;
  '(remote, r) ← scan_s 63 r;
  '(state, r) ← scan_int 16 r;
  '(_, r) ← scan_s 63 r;
  '(_, r) ← scan_s 63 r;
  '(_, r) ← scan_int 16 r;
  '(uid, r) ← scan_int 10 r;
  '(_, r) ← scan_int 10 r;
  '(inode, _) ← scan_int 10 r;
  Some (local, remote, to_u32 state, to_i32 uid, to_u64 inode).

Section krang.
Context (ntop4 ntop6 : list Z → string).

Definition decode_proc_address (encoded : string) : option string :=
  match decode_bytes encoded with
  | None => None
  | Some bytes => Some (if v4mapped bytes then ntop4 (drop 12 bytes) else ntop6 bytes)
  end.

Definition is_hex (c : ascii) : bool :=
  match hex_digit c with Some _ => true | None => false end.

(** [%N[0-9A-Fa-f]]: the run of hex digits at the start, at most [n]. *)
Definition scan_hex (n : nat) (s : string) : option (string * string) :=
  let tok := stake n (break_at (λ c, negb (is_hex c)) s).1 in
  if String.eqb tok "" then None else Some (tok, sdrop (String.length tok) s).

(** The four digits of the port, [(parsed_port << 4) | digit]. *)
Fixpoint port_value (acc : Z) (s : string) : option Z :=
  match s with
  | EmptyString => Some acc
  | String c s' =>
      match hex_value c with
      | Some d => port_value (Z.lor (Z.shiftl acc 4) d) s'
      | None => None
      end
  end.

Definition decode_endpoint (encoded : string) : option (string * Z) :=
  '(address_hex, r) ← scan_hex 32 encoded;
  r ← scan_char ":" r;
  '(port_hex, _) ← scan_hex 4 r;
  if (String.length address_hex =? 32)%nat && (String.length port_hex =? 4)%nat then
    parsed_port ← port_value 0 port_hex;
    address ← decode_proc_address address_hex;
    Some (address, parsed_port)
  else None.

Definition krang_parse_tcp6_line (line : string) : parse_status_t * option krang_connection :=
  let line := skip_while is_space line in
  if String.eqb line "" || has_prefix "sl " line then (PARSE_NOT_FOUND, None)
  else
    match scan_fields line with
    | None => (PARSE_ERROR, None)
    | Some (local, remote, state, uid, inode) =>
        match decode_endpoint local, decode_endpoint remote with
        | Some (la, lp), Some (ra, rp) =>
            (PARSE_FOUND, Some (Connection la lp ra rp state uid inode))
        | _, _ => (PARSE_ERROR, None)
        end
    end.

(** The lines of the text; a final newline does not start another line. *)
Fixpoint split_lines (s : string) : list string :=
  match s with
  | EmptyString => []
  | String c s' =>
      if Ascii.eqb c NL then EmptyString :: split_lines s'
      else match split_lines s' with
           | [] => [String c EmptyString]
           | l :: ls => String c l :: ls
           end
  end.

(** The loop over the lines: [Some] of the connections stored, the number found
    and whether a line was malformed; [None] when a line overflows the buffer. *)
Fixpoint parse_lines (capacity : nat) (lines : list string)
    (out : list krang_connection) (count : nat) (saw_error : bool)
    : option (list krang_connection * nat * bool) :=
  match lines with
  | [] => Some (out, count, saw_error)
  | l :: lines' =>
      if (512 <=? String.length l)%nat then None
      else
        match krang_parse_tcp6_line l with
        | (PARSE_ERROR, _) => parse_lines capacity lines' out count true
        | (PARSE_FOUND, Some c) =>
            parse_lines capacity lines' (if (count <? capacity)%nat then out ++ [c] else out)
              (S count) saw_error
        | _ => parse_lines capacity lines' out count saw_error
        end
  end.

(** The status, the connections written and [*parsed_count]. *)
Definition krang_parse_tcp6 (text : string) (capacity : nat)
    : parse_status_t * list krang_connection * nat :=
  match parse_lines capacity (split_lines text) [] 0 false with
  | None => (PARSE_ERROR, [], O)
  | Some (out, count, saw_error) =>
      let count := Nat.min count capacity in
      (if (saw_error : bool) then PARSE_ERROR
       else if (0 <? count)%nat then PARSE_FOUND else PARSE_NOT_FOUND, out, count)
  end.

Definition krang_is_nonstandard_app_connection (c : krang_connection) : bool :=
  if kc_uid c <? 10000 then false
  else negb (kc_remote_port c =? 53) && negb (kc_remote_port c =? 80)
       && negb (kc_remote_port c =? 443).

(** ** Packages *)

Definition is_alnum (c : ascii) : bool :=
  let n := code (lower c) in is_digit c || ((97 <=? n) && (n <=? 122)).

Definition package_character_ok (c : ascii) : bool :=
  is_alnum c || Ascii.eqb c "." || Ascii.eqb c "_" || Ascii.eqb c "-".

Definition is_blank (c : ascii) : bool := Ascii.eqb c " " || Ascii.eqb c (chr 9).

(** The name that follows [package:]. *)
Definition package_of (rest : string) (package_size : nat) : parse_status_t * string :=
  let name := (break_at is_space (skip_while is_blank rest)).1 in
  if (String.length name =? 0)%nat || (package_size <=? String.length name)%nat
  then (PARSE_ERROR, "")
  else if forallb package_character_ok (schars name) then (PARSE_FOUND, name)
  else (PARSE_ERROR, "").

(** The first line that starts with [package:] decides. *)
Fixpoint find_package (lines : list string) (package_size : nat) : parse_status_t * string :=
  match lines with
  | [] => (PARSE_NOT_FOUND, "")
  | l :: lines' =>
      let l := skip_while (λ c, is_blank c || Ascii.eqb c (chr 13)) l in
      if has_prefix "package:" l then package_of (sdrop 8 l) package_size
      else find_package lines' package_size
  end.

Definition krang_parse_package_output (output : string) (package_size : nat)
    : parse_status_t * string :=
  if (package_size <? 2)%nat then (PARSE_ERROR, "")
  else find_package (split_lines output) package_size.

Context (bexec : string → option string).

Definition krang_resolve_uid_package (uid : Z) (package_size : nat) : parse_status_t * string :=
  if (uid <? 0) || (package_size <? 2)%nat then (PARSE_ERROR, "")
  else
    match bexec (scat ["cmd package list packages --uid "; fmt_d uid; " 2>/dev/null"]) with
    | None => (PARSE_ERROR, "")
    | Some output => krang_parse_package_output output package_size
    end.

(** ** The daemon *)

(** [poll_seconds] on the value of [KRANGD_POLL_SEC]. *)
Definition poll_seconds (env : option string) : Z :=
  match env with
  | None => 30
  | Some value =>
      if String.eqb value "" then 30
      else match scan_int 10 value with
           | Some (v, r) =>
               if negb (String.eqb r "") || (v <? 1) || (3600 <? v) then 30 else v
           | None => 30
           end
  end.

Fixpoint hex_of_pos (fuel : nat) (n : Z) : string :=
  match fuel with
  | O => ""
  | S fuel' =>
      let d := n mod 16 in
      let c := String (chr (Z.to_nat (if d <? 10 then 48 + d else 55 + d))) "" in
      if n <? 16 then c else hex_of_pos fuel' (n / 16) +:+ c
  end.

(** [%02X] of an unsigned int. *)
Definition fmt_02X (n : Z) : string := pad_zeros 2 (hex_of_pos 8 n).

Definition candidate (c : krang_connection) : bool :=
  (kc_state c =? 1) && krang_is_nonstandard_app_connection c.

Definition payload_of (c : krang_connection) : string :=
  let package := match krang_resolve_uid_package (kc_uid c) 128 with
                 | (PARSE_FOUND, p) => p
                 | _ => snprintf 128 ("uid-" +:+ fmt_d (kc_uid c))
                 end in
  snprintf 384 (scat ["package="; package; " uid="; fmt_d (kc_uid c); " remote="; kc_remote c; ":";
                      fmt_d (kc_remote_port c); " state="; fmt_02X (kc_state c)]).

(** The payloads sent to splinterd by one poll. *)
Definition poll_connections : list string :=
  match bexec "cat /proc/net/tcp6 2>/dev/null" with
  | None => []
  | Some raw =>
      match krang_parse_tcp6 raw 256 with
      | (PARSE_ERROR, _, _) => []
      | (_, out, count) => map payload_of (List.filter candidate (take count out))
      end
  end.

End krang.
