(* ===== verification/Queues.v ===== *)
(** * gaveld: what the queues keep

    The ring buffers against plain lists: a run of pushes and pops answers like
    a list that forgets its oldest element when it is full, and a burst of
    records leaves the newest ones.  Proved from the interface [BoundedQueue]. *)

From S2P Require Import Prelude CString Double Config Db Ring World Ingest.

(** ** Runs of operations *)

Inductive queue_op (A : Type) := Push (x : A) | Pop.
Arguments Push {A}.
Arguments Pop {A}.

(** The answers of the pops, and the queue after the run. *)
Fixpoint run_ops {Q A} (push : A → Q → Q) (pop : Q → option (A * Q)) (ops : list (queue_op A))
    (q : Q) : list (option A) * Q :=
  match ops with
  | [] => ([], q)
  | Push x :: ops' => run_ops push pop ops' (push x q)
  | Pop :: ops' =>
      match pop q with
      | Some (x, q') => let '(out, q'') := run_ops push pop ops' q' in (Some x :: out, q'')
      | None => let '(out, q'') := run_ops push pop ops' q in (None :: out, q'')
      end
  end.

(** The newest [n] elements. *)
Definition keep_last {A} (n : nat) (l : list A) : list A := drop (length l - n) l.

Section bounded_queue.
Context `{!BoundedQueue Q A cap}.

Lemma run_ops_simulates ops : ∀ q,
  bq_wf q →
  let '(out, q') := run_ops bq_push bq_pop ops q in
  bq_wf q' ∧ run_ops (fifo_push cap) fifo_pop ops (bq_elems q) = (out, bq_elems q').
Proof.
  induction ops as [|[x|] ops IH]; intros q Hq; cbn [run_ops]; [done| |].
  - rewrite <- bq_push_elems by done. by apply IH, bq_push_wf.
  - pose proof (bq_pop_elems q Hq) as Helems. destruct (bq_pop q) as [[x q1]|] eqn:Hpop.
    + rewrite Helems. cbn [fifo_pop]. specialize (IH q1 (bq_pop_wf _ _ _ Hq Hpop)).
      destruct (run_ops bq_push bq_pop ops q1) as [out q2]. destruct IH as [Hwf IH].
      by rewrite IH.
    + rewrite Helems. cbn [fifo_pop]. specialize (IH q Hq).
      destruct (run_ops bq_push bq_pop ops q) as [out q2]. destruct IH as [Hwf IH].
      rewrite Helems in IH. by rewrite IH.
Qed.

Lemma fifo_push_keep_last x (l : list A) :
  (0 < cap)%nat → fifo_push cap x (keep_last cap l) = keep_last cap (l ++ [x]).
Proof.
  intros Hcap. unfold fifo_push, keep_last. rewrite length_drop, length_app. cbn [length].
  destruct (Nat.leb_spec cap (length l - (length l - cap))) as [Hfull|Hfree].
  - rewrite drop_app_le by lia. f_equal.
    replace (length l + 1 - cap)%nat with (S (length l - cap)) by lia.
    rewrite <- Nat.add_1_r, <- drop_drop. by destruct (drop (length l - cap) l).
  - replace (length l - cap)%nat with 0%nat by lia.
    replace (length l + 1 - cap)%nat with 0%nat by lia. done.
Qed.

(** A burst of pushes. *)
Lemma burst_keeps_newest (xs : list A) : (0 < cap)%nat → ∀ q,
  bq_wf q →
  bq_wf (foldl (λ q x, bq_push x q) q xs) ∧
  bq_elems (foldl (λ q x, bq_push x q) q xs) = keep_last cap (bq_elems q ++ xs).
Proof.
  intros Hcap. induction xs as [|x xs IH] using rev_ind; intros q Hq.
  - split; [done|]. rewrite app_nil_r. unfold keep_last.
    pose proof (bq_bound q Hq). by replace (length (bq_elems q) - cap)%nat with 0%nat by lia.
  - rewrite foldl_snoc. destruct (IH q Hq) as [Hwf Helems]. split; [by apply bq_push_wf|].
    by rewrite bq_push_elems, Helems, fifo_push_keep_last, app_assoc.
Qed.

End bounded_queue.

(** The ring buffers of [ingest.c] and [cases.c] are bounded first-in
    first-out queues: on any sequence of pushes and pops from the zeroed statics,
    every answer, and the elements left, are those of the list specification that
    drops the oldest element when a push finds [n] of them. *)
Theorem ring_run_refines {A} (n : nat) (zero : A) (ops : list (queue_op A)) :
  (0 < n)%nat →
  let '(out, q) := run_ops (ring_push n) (ring_pop n) ops (ring_init n zero) in
  ring_wf n q ∧ run_ops (fifo_push n) fifo_pop ops [] = (out, ring_elems n q).
Proof.
  intros Hn. exact (run_ops_simulates (cap := n) ops (ring_init n zero) (ring_init_wf n zero Hn)).
Qed.

Lemma ring_run_refines_witness :
  run_ops (fifo_push 2) fifo_pop [Push 1; Push 2; Push 3; Pop; Pop; Pop] [] =
  ([Some 2; Some 3; None], []).
Proof.
  pose proof (ring_run_refines 2 0 [Push 1; Push 2; Push 3; Pop; Pop; Pop] ltac:(lia)) as H.
  vm_compute run_ops in H. destruct H as [_ H]. exact H.
Defined.

(** A burst on the ingest pipe: after the records are pushed the queue holds
    the newest [INGEST_QUEUE_SIZE] of what it held and what came, in arrival
    order, and nothing else of the daemon's state has changed. *)
Theorem ingest_burst recs w :
  ring_wf INGEST_QUEUE_SIZE (w_ingest w) →
  let w' := exec (mfor recs queue_push) w in
  ring_elems INGEST_QUEUE_SIZE (w_ingest w') =
    keep_last INGEST_QUEUE_SIZE (ring_elems INGEST_QUEUE_SIZE (w_ingest w) ++ recs) ∧
  w' = set_ingest (w_ingest w') w.
Proof.
  intros Hwf.
  assert (∀ w, exec (mfor recs queue_push) w =
    set_ingest (foldl (λ q x, ring_push INGEST_QUEUE_SIZE x q) (w_ingest w) recs) w) as Hrun.
  { clear. induction recs as [|r recs IH]; intros w; [by destruct w|].
    cbn [mfor foldl]. rewrite exec_bind, IH. by destruct w. }
  cbv zeta. rewrite Hrun. split; [|by destruct w].
  refine (proj2 (burst_keeps_newest (cap := INGEST_QUEUE_SIZE) recs _ (w_ingest w) Hwf)).
  unfold INGEST_QUEUE_SIZE. lia.
Qed.

Lemma ingest_burst_witness :
  let w := world_init db_empty None false BACKEND_ADB 0 in
  let recs := repeat ingest_zero 300 in
  length (ring_elems INGEST_QUEUE_SIZE (w_ingest (exec (mfor recs queue_push) w))) = 256%nat.
Proof.
  cbv zeta.
  rewrite (proj1 (ingest_burst (repeat ingest_zero 300) (world_init db_empty None false BACKEND_ADB 0)
    (ring_init_wf INGEST_QUEUE_SIZE ingest_zero ltac:(unfold INGEST_QUEUE_SIZE; lia)))).
  vm_compute. reflexivity.
Defined.
