(* ===== verification/Policy.v ===== *)
(** * gaveld: policy decisions

    What the sovereignty list means, what an enforcement runs, how a scored
    signal becomes a case, and when the audit of the verdict rate raises a
    flag. *)

From S2P Require Import Prelude CString Double Config Db Ring World Ingest Tier Enforce Cases.
From S2P Require Import Affairs Wire.
From Stdlib Require Import Ascii.

(** ** The sovereignty list *)

(** An entry: a package and why the user keeps it. *)
Definition sov_line (e : string * string) : string := fst e +:+ "|" +:+ snd e +:+ NLs.

Record sov_entry_ok (e : string * string) : Prop := SovEntryOk {
  so_pkg : none_of (λ c, Ascii.eqb c "|" || Ascii.eqb c NL) (fst e) = true;
  so_reason : none_of (char_in NLs) (snd e) = true;
  so_named : sovereignty_skips (fst e) = false ∧ fst e ≠ "";
  so_trimmed : trim_end (λ c, Ascii.eqb c " " || Ascii.eqb c (chr 9)) (fst e) = fst e;
  so_short : (String.length (fst e) <= 255)%nat;
  so_line : (String.length (fst e) + String.length (snd e) < 510)%nat }.

Lemma sovereignty_pkg_line e : sov_entry_ok e → sovereignty_pkg (sov_line e) = fst e.
Proof.
  intros [Hp _ _ Ht Hs _]. unfold sovereignty_pkg, sov_line.
  change ("|" +:+ snd e +:+ NLs) with (String "|" (snd e +:+ NLs)).
  rewrite break_at_stop by done. cbn [fst]. by rewrite stake_all.
Qed.

Lemma sovereignty_matches_line source e :
  sov_entry_ok e → sovereignty_matches source (sov_line e) = String.eqb (fst e) source.
Proof.
  intros He. unfold sovereignty_matches. rewrite sovereignty_pkg_line by done.
  destruct He as [_ _ [Hs Hne] _ _ _].
  replace (sovereignty_skips (sov_line e)) with (sovereignty_skips (fst e))
    by (unfold sov_line; destruct (fst e); done).
  rewrite Hs. by rewrite (proj2 (String.eqb_neq (fst e) "") Hne).
Qed.

Lemma newline_stops c : char_in NLs c = true → Ascii.eqb c "|" || Ascii.eqb c NL = true.
Proof.
  unfold char_in, NLs. rewrite orb_false_r. intros ->. apply orb_true_r.
Qed.

Lemma read_sov_lines es :
  Forall sov_entry_ok es → read_lines 512 (scat (map sov_line es)) = map sov_line es.
Proof.
  induction 1 as [|e es [Hp Hr _ _ _ Hl] _ IH]; [done|]. cbn [map scat].
  unfold sov_line at 1 3. rewrite <- !app_assoc_str.
  rewrite (app_assoc_str _ NLs), read_lines_cons, IH; [done| |].
  - rewrite none_of_app, none_of_app, Hr. rewrite (none_of_weaken _ _ _ newline_stops Hp). done.
  - rewrite !length_app_str. change (String.length "|") with 1%nat. lia.
Qed.

(** The sovereignty list is read as the set of its packages: for a file of
    well-formed entries a source is sovereign exactly when some entry names it,
    whatever the reasons say and wherever the entry stands. *)
Theorem sovereignty_file_decides es source :
  Forall sov_entry_ok es →
  tier_is_sovereignty (Some (scat (map sov_line es))) source = existsb (String.eqb source) (map fst es).
Proof.
  intros Hes. unfold tier_is_sovereignty. rewrite read_sov_lines by done.
  induction Hes as [|e es He _ IH]; [done|]. cbn [map existsb].
  by rewrite sovereignty_matches_line, IH, String.eqb_sym by done.
Qed.

Definition sample_sov : list (string * string) :=
  [("com.example.notes", "my notes"); ("com.example.bank", "")].

Lemma sovereignty_file_decides_witness :
  tier_is_sovereignty (Some (scat (map sov_line sample_sov))) "com.example.bank" = true ∧
  tier_is_sovereignty (Some (scat (map sov_line sample_sov))) "com.example" = false.
Proof.
  assert (Forall sov_entry_ok sample_sov) as H.
  { repeat constructor; cbn; try done; lia. }
  split; by rewrite (sovereignty_file_decides _ _ H).
Defined.

(** ** Enforcement *)

Definition enforceable (verdict : string) : Prop :=
  verdict ∈ ["WARNED"; "QUARANTINED"; "HOUSE_ARREST"; "JAILED"].

(** [enforce_execute] answers -1 exactly for a word that is not an
    enforceable verdict, and then runs nothing; otherwise it answers 0 and hands
    the planned commands to the shell in order: a soft kill for a warning, a
    force-stop for the heavier ones, and for JAILED alone a disable after the
    force-stop, which sovereign, system and own sources never get. *)
Theorem enforce_execute_contract source verdict w :
  let w' := exec (enforce_execute source verdict) w in
  (result (enforce_execute source verdict) w = -1 ∧ ¬ enforceable verdict ∧ w' = w) ∨
  (result (enforce_execute source verdict) w = 0 ∧ enforceable verdict ∧
   w' = set_sys (w_sys w ++ enforce_calls w source verdict) w ∧
   enforce_plan (w_sov w) source verdict =
     (if String.eqb verdict "WARNED" then [cmd_kill source] else [cmd_force_stop source]) ++
     (if String.eqb verdict "JAILED" && negb (tier_is_sovereignty (w_sov w) source)
         && negb (tier_is_system source) && negb (tier_is_own_daemon source)
      then [cmd_disable source] else [])).
Proof.
  cbv zeta. rewrite exec_enforce_execute, result_enforce_execute.
  unfold enforceable, enforce_calls, enforce_plan, can_disable_user.
  destruct (String.eqb_spec verdict "WARNED") as [->|H1].
  { right. split_and!; [done|set_solver|done|done]. }
  destruct (String.eqb_spec verdict "QUARANTINED") as [->|H2].
  { right. split_and!; [done|set_solver|done|done]. }
  destruct (String.eqb_spec verdict "HOUSE_ARREST") as [->|H3].
  { right. split_and!; [done|set_solver|done|done]. }
  destruct (String.eqb_spec verdict "JAILED") as [->|H4].
  - right. split_and!; [done|set_solver|done|].
    by destruct (tier_is_sovereignty _ _), (tier_is_system _), (tier_is_own_daemon _).
  - left. split_and!; [done|rewrite !elem_of_cons, elem_of_nil; tauto|]. cbn. rewrite app_nil_r. by destruct w.
Qed.

(** ** Cases *)

(** The identifier of a case assembled now. *)
Definition case_id_now (w : world) : string := snprintf CASE_ID_LEN ("case_" +:+ fmt_d (w_ms w)).

Definition minor (state : string) : bool := String.eqb state "CLEAN" || String.eqb state "WATCHED".

(** The record of a case and its row. *)
Definition case_of (r : score_result_t) (signal ctx : string) (w : world) : case_record_t :=
  CaseRecord (case_id_now w) (strncpy SOURCE_LEN (sr_source r)) (strncpy SIGNAL_LEN signal)
    (strncpy STATE_LEN (sr_state r)) (sr_new r) (sr_delta r) (strncpy CTX_LEN ctx) (w_ms w / 1000).

Definition case_row_of (c : case_record_t) (status : string) : case_row :=
  CaseRow (ca_id c) (ca_source c) (ca_signal c) (bind_double (ca_score c)) (ca_ctx c) status (ca_epoch c).

Definition has_id (id : string) (r : case_row) : bool := String.eqb (cs_id r) id.

(** Give a status to the rows of a case. *)
Definition mark (id status : string) (l : list case_row) : list case_row :=
  map (λ r, if has_id id r then with_status status r else r) l.

(** The row of a case once it is in the table or ignored. *)
Definition insert_case (c : case_record_t) (l : list case_row) : list case_row :=
  if existsb (has_id (ca_id c)) l then l else l ++ [case_row_of c PENDING_JUDGEMENT].

Lemma exec_cases_assemble r signal ctx w :
  db_ok (w_db w) = true →
  let c := case_of r signal ctx w in
  exec (cases_assemble r signal ctx) w =
  if minor (ca_state c)
  then set_db (set_cases (λ l, mark (ca_id c) "DISMISSED" (insert_case c l)) (w_db w)) w
  else set_db (set_cases (insert_case c) (w_db w))
         (set_caseq (ring_push VERDICT_QUEUE_SIZE c (w_cases w)) w).
Proof.
  intros Hok. destruct w as [ms d sov lock b iq cq pd ia sys]. destruct d as [ok ts sw cs vs cr sl cqs al].
  cbn in Hok. subst ok. cbv zeta. unfold minor, insert_case, mark. cbn [case_of ca_id ca_state w_db].
  unfold cases_assemble, make_case_id. cbv zeta.
  cbn [ca_id ca_source ca_signal ca_score ca_ctx ca_state sr_source].
  change (snprintf CASE_ID_LEN ("case_" +:+ fmt_d ms)) with
    (case_id_now (World ms (Db true ts sw cs vs cr sl cqs al) sov lock b iq cq pd ia sys)).
  rewrite !exec_bind. unfold case_id_now.
  destruct (_ || _); unmonad; reflexivity.
Qed.

Lemma mark_fresh id status l : existsb (has_id id) l = false → mark id status l = l.
Proof.
  unfold mark. induction l as [|r l IH]; [done|]. cbn [existsb map].
  intros [-> Hl]%orb_false_elim. by rewrite IH.
Qed.

(** Every scored signal opens exactly one case: when no case carries its
    identifier yet, its row is appended with the score that opened it, closed as
    DISMISSED for a CLEAN or WATCHED source, and otherwise left pending with its
    record pushed to the verdict thread. *)
Theorem case_opened r signal ctx w :
  db_ok (w_db w) = true →
  existsb (has_id (case_id_now w)) (cases (w_db w)) = false →
  let c := case_of r signal ctx w in
  let w' := exec (cases_assemble r signal ctx) w in
  cases (w_db w') = cases (w_db w) ++
    [case_row_of c (if minor (ca_state c) then "DISMISSED" else PENDING_JUDGEMENT)] ∧
  w_cases w' = (if minor (ca_state c) then w_cases w
                else ring_push VERDICT_QUEUE_SIZE c (w_cases w)).
Proof.
  intros Hok Hfresh. cbv zeta. rewrite exec_cases_assemble by done. cbv zeta.
  assert (insert_case (case_of r signal ctx w) (cases (w_db w)) =
    cases (w_db w) ++ [case_row_of (case_of r signal ctx w) PENDING_JUDGEMENT]) as Hins
    by (unfold insert_case; cbn [case_of ca_id]; by rewrite Hfresh).
  destruct (minor _); cbn [set_db set_cases set_caseq w_db cases w_cases]; rewrite Hins; [|done].
  split; [|done]. unfold mark. rewrite map_app. fold (mark (ca_id (case_of r signal ctx w)) "DISMISSED" (cases (w_db w))).
  rewrite mark_fresh by done. f_equal. cbn [map]. unfold has_id, case_row_of. cbn [cs_id].
  by rewrite String.eqb_refl.
Qed.

Definition sample_result (state : string) : score_result_t :=
  ScoreResult "com.example.app" d_zero (d_of_Z 85) (d_of_Z 85) state 0 0.

Definition sample_cases : world := world_init db_empty None false BACKEND_ADB 1700000000123.

Lemma case_opened_witness :
  cases (w_db (exec (cases_assemble (sample_result "WATCHED") "CPU_HOG" "") sample_cases)) =
  [CaseRow "case_1700000000123" "com.example.app" "CPU_HOG" (Some (d_of_Z 85)) "" "DISMISSED" 1700000000].
Proof.
  rewrite (proj1 (case_opened (sample_result "WATCHED") "CPU_HOG" "" sample_cases eq_refl eq_refl)).
  vm_compute. reflexivity.
Defined.

(** Case identifiers are millisecond stamps, so two cases of one millisecond
    share theirs: the later one gets no row of its own, and if its source is only
    CLEAN or WATCHED it marks the earlier case, whoever it accuses, DISMISSED. *)
Theorem case_id_collision r signal ctx w :
  db_ok (w_db w) = true →
  existsb (has_id (case_id_now w)) (cases (w_db w)) = true →
  let c := case_of r signal ctx w in
  let w' := exec (cases_assemble r signal ctx) w in
  length (cases (w_db w')) = length (cases (w_db w)) ∧
  cases (w_db w') = (if minor (ca_state c) then mark (case_id_now w) "DISMISSED" (cases (w_db w))
                     else cases (w_db w)).
Proof.
  intros Hok Hdup. cbv zeta. rewrite exec_cases_assemble by done. cbv zeta.
  assert (insert_case (case_of r signal ctx w) (cases (w_db w)) = cases (w_db w)) as Hins
    by (unfold insert_case; cbn [case_of ca_id]; by rewrite Hdup).
  destruct (minor _); cbn [set_db set_cases set_caseq w_db cases]; rewrite Hins; [|done].
  split; [|done]. unfold mark. by rewrite length_map.
Qed.

(** A jailed source's case, then a watched one's in the same millisecond. *)
Lemma case_id_collision_witness :
  let w := exec (cases_assemble (sample_result "JAILED") "ROOTKIT_MODULE" "") sample_cases in
  map cs_status (cases (w_db w)) = [PENDING_JUDGEMENT] ∧
  map cs_status (cases (w_db (exec (cases_assemble (sample_result "WATCHED") "CPU_HOG" "") w))) =
    ["DISMISSED"].
Proof.
  cbv zeta. split; [vm_compute; reflexivity|].
  rewrite (proj2 (case_id_collision (sample_result "WATCHED") "CPU_HOG" ""
    (exec (cases_assemble (sample_result "JAILED") "ROOTKIT_MODULE" "") sample_cases)
    ltac:(vm_compute; reflexivity) ltac:(vm_compute; reflexivity))).
  vm_compute. reflexivity.
Defined.

(** ** The audit of the verdict rate *)

(** Verdicts of the last hour, and the JAILED ones among them. *)
Definition recent_verdicts (now : Z) (d : db) : Z :=
  count_where (λ r, now - AUDIT_FLAG_WINDOW_SEC <? vd_epoch r) (verdicts d).

Definition recent_jailed (now : Z) (d : db) : Z :=
  count_where (λ r, String.eqb (vd_verdict r) "JAILED"
                    && (now - AUDIT_FLAG_WINDOW_SEC <? vd_epoch r)) (verdicts d).

(** At least five verdicts, with more than the allowed percentage JAILED. *)
Definition rate_excessive (now : Z) (d : db) : bool :=
  (5 <=? recent_verdicts now d)
  && (AUDIT_VERDICT_RATE_MAX <? (recent_jailed now d * 100) / recent_verdicts now d).

Definition recent_flags (now : Z) (d : db) : Z :=
  count_where (λ r, String.eqb (al_check r) "verdict_rate" && String.eqb (al_result r) "FLAG"
                    && (now - AUDIT_FLAG_WINDOW_SEC <? al_epoch r)) (audit_log d).

(** The line of one check. *)
Definition rate_line (now : Z) (d : db) : list audit_row :=
  if recent_verdicts now d <? 5 then []
  else [if rate_excessive now d
        then AuditRow now "verdict_rate" "FLAG" "JAILED verdict rate exceeded threshold"
        else AuditRow now "verdict_rate" "OK" ""].

Lemma count_where_app {R} (f : R → bool) l1 l2 :
  count_where f (l1 ++ l2) = count_where f l1 + count_where f l2.
Proof. unfold count_where. rewrite List.filter_app, length_app. lia. Qed.

Lemma count_one {R} (f : R → bool) r : f r = true → count_where f [r] = 1.
Proof. intros Hr. unfold count_where. cbn. by rewrite Hr. Qed.

Lemma rate_excessive_spec now d :
  (recent_verdicts now d <? 5) = false →
  rate_excessive now d =
  (AUDIT_VERDICT_RATE_MAX <? (recent_jailed now d * 100) / recent_verdicts now d).
Proof. intros H. apply Z.ltb_ge, Z.leb_le in H. unfold rate_excessive. by rewrite H. Qed.

Lemma exec_if {S A} (b : bool) (c1 c2 : M S A) s :
  exec (if b then c1 else c2) s = if b then exec c1 s else exec c2 s.
Proof. by destruct b. Qed.

Lemma exec_check_verdict_rate now w :
  db_ok (w_db w) = true →
  exec (check_verdict_rate now) w =
  if recent_verdicts now (w_db w) <? 5 then w
  else if AUDIT_VERDICT_RATE_MAX <?
            (recent_jailed now (w_db w) * 100) / recent_verdicts now (w_db w)
  then exec (raise_flag now (now - AUDIT_FLAG_WINDOW_SEC) "verdict_rate"
               "JAILED verdict rate exceeded threshold" "verdict rate"
               "High JAILED rate — possible false positives") w
  else set_db (set_audits (λ l, l ++ [AuditRow now "verdict_rate" "OK" ""]) (w_db w)) w.
Proof.
  destruct w as [ms [ok ts sw cs vs cr sl cqs al] sov lock b iq cq pd ia sys].
  cbn [w_db db_ok]. intros ->. unfold check_verdict_rate. cbv zeta.
  rewrite !exec_bind, !result_on_db, !exec_on_db.
  rewrite !exec_if. reflexivity.
Qed.

(** The audit of the verdict rate writes nothing below five verdicts in the
    hour, and otherwise one line, a FLAG exactly when more than
    [AUDIT_VERDICT_RATE_MAX] percent of them are JAILED; the user is notified,
    once, exactly when that flag makes [AUDIT_REPEAT_THRESHOLD] in the hour.
    Everything else of the state stays. *)
Theorem verdict_rate_audit now w :
  db_ok (w_db w) = true →
  let d := w_db w in
  let notified := rate_excessive now d && (AUDIT_REPEAT_THRESHOLD <=? recent_flags now d + 1) in
  let w' := exec (check_verdict_rate now) w in
  w_db w' = set_audits (λ l, l ++ rate_line now d) d ∧
  (∃ cmd, w_sys w' = w_sys w ++ (if notified then [SysCall SiteAudit cmd] else [])) ∧
  w' = set_sys (w_sys w') (set_db (w_db w') w).
Proof.
  intros Hok. cbv zeta. rewrite exec_check_verdict_rate by done. unfold rate_line.
  destruct (recent_verdicts now (w_db w) <? 5) eqn:H5.
  { unfold rate_excessive. rewrite (proj2 (Z.leb_gt _ _)) by (by apply Z.ltb_lt).
    cbn [andb]. split_and!; [|exists ""; by rewrite app_nil_r|by destruct w].
    unfold set_audits. rewrite app_nil_r. by destruct (w_db w). }
  rewrite (rate_excessive_spec _ _ H5).
  destruct (AUDIT_VERDICT_RATE_MAX <? _); cbn [andb].
  2:{ split_and!; [done|exists ""; by rewrite app_nil_r|done]. }
  destruct w as [ms [ok ts sw cs vs cr sl cqs al] sov lock b iq cq pd ia sys].
  cbn in Hok. subst ok. unfold raise_flag. rewrite !exec_bind, !result_on_db, !exec_on_db, exec_mwhen.
  change (result (db_audit_flag_count _ _) _) with
    (recent_flags now (Db true ts sw cs vs cr sl cqs
       (al ++ [AuditRow now "verdict_rate" "FLAG" "JAILED verdict rate exceeded threshold"]))).
  unfold recent_flags. cbn [audit_log w_db]. rewrite count_where_app.
  rewrite (count_one _ (AuditRow now _ _ _)) by
    (cbn; apply Z.ltb_lt; unfold AUDIT_FLAG_WINDOW_SEC; lia).
  destruct (AUDIT_REPEAT_THRESHOLD <=? _); cbn.
  - split_and!; [done|by eexists|done].
  - split_and!; [done|exists ""; by rewrite app_nil_r|done].
Qed.

(** Five verdicts, two of them JAILED. *)
Definition sample_verdicts : world :=
  set_db (set_verdicts (λ _, map (λ v, VerdictRow "c" "s" v None 9000 0 0 "" "")
    ["JAILED"; "WARNED"; "JAILED"; "WARNED"; "WARNED"]) db_empty) sample_cases.

Lemma verdict_rate_audit_witness :
  audit_log (w_db (exec (check_verdict_rate 9500) sample_verdicts)) =
  [AuditRow 9500 "verdict_rate" "FLAG" "JAILED verdict rate exceeded threshold"].
Proof.
  rewrite (proj1 (verdict_rate_audit 9500 sample_verdicts eq_refl)). vm_compute. reflexivity.
Defined.
