(* ===== verification/Events.v ===== *)
(** * April: what the event queue and the tables guarantee *)

From S2P Require Import Prelude CString April Table.

(** ** Well-formed event queues *)

(** Queue [i] counts its nodes and holds the detections of priority class [i]. *)
Definition pq_wf (i : nat) (q : prio_queue) : Prop :=
  pq_count q = Z.of_nat (length (pq_nodes q)) ∧ Forall (λ d, queue_index d = i) (pq_nodes q).

(** The queues from index [i] on are well formed. *)
Fixpoint pqs_wf (i : nat) (l : list prio_queue) : Prop :=
  match l with
  | [] => True
  | q :: l' => pq_wf i q ∧ pqs_wf (S i) l'
  end.

Record eq_wf (q : event_queue) : Prop := EqWf {
  ew_four : length (eq_queues q) = 4%nat;
  ew_queues : pqs_wf 0 (eq_queues q);
  ew_total : eq_total q = Z.of_nat (length (queued q));
  ew_stopped : eq_running q = false → queued q = [] }.

(** The operations a program can apply to a queue. *)
Inductive eq_op :=
  | OpPush (alloc : bool) (det : SENSEI_DETECTION) | OpPop
  | OpDispatch (turns : nat) (cbs : list callback_entry) | OpDestroy.

Definition apply_op (op : eq_op) (q : event_queue) : event_queue :=
  match op with
  | OpPush alloc det => exec (april_event_queue_push alloc det) q
  | OpPop => exec april_event_queue_pop q
  | OpDispatch turns cbs => exec (april_dispatch_events turns cbs) q
  | OpDestroy => exec april_event_queue_destroy q
  end.

Lemma queue_index_lt d : (queue_index d < 4)%nat.
Proof.
  unfold queue_index, PRIORITY_COUNT, PRIORITY_MEDIUM.
  destruct (det_priority d <? 0) eqn:H0; cbn [orb]; [cbn; lia|].
  destruct (4 <=? det_priority d) eqn:H4; [cbn; lia|]. bool_hyps. lia.
Qed.

Lemma wf_nil i q : pq_nodes q = [] → pq_wf i q → pq_count q = 0.
Proof. intros Hn [Hc _]. by rewrite Hc, Hn. Qed.

Lemma alter_wf d : ∀ l i j,
  pqs_wf j l → (i + j = queue_index d)%nat →
  pqs_wf j (alter (pq_push d) i l).
Proof.
  induction l as [|q l IH]; intros [|i] j; cbn; [done|done| |].
  - intros [[Hc Hf] Hl] Hi. split; [split; cbn|done].
    + rewrite length_app, Hc. cbn. lia.
    + apply Forall_app. split; [done|]. repeat constructor. lia.
  - intros [Hq Hl] Hi. split; [done|]. apply IH; [done|lia].
Qed.

Lemma alter_head (f : prio_queue → prio_queue) q l : alter f 0%nat (q :: l) = f q :: l.
Proof. done. Qed.

Lemma alter_tail (f : prio_queue → prio_queue) i q l : alter f (S i) (q :: l) = q :: alter f i l.
Proof. done. Qed.

Lemma alter_nodes d : ∀ (l : list prio_queue) i,
  (i < length l)%nat →
  concat (map pq_nodes (alter (pq_push d) i l)) ≡ₚ concat (map pq_nodes l) ++ [d].
Proof.
  induction l as [|q l IH]; intros [|i]; cbn [length]; [lia|lia| |]; intros Hi.
  - rewrite alter_head. cbn [map concat pq_push pq_nodes]. rewrite <-!app_assoc. apply Permutation_app_head.
    apply (Permutation_app_comm [d]).
  - rewrite alter_tail. cbn [map concat]. rewrite <-app_assoc, IH by lia. done.
Qed.

(** A push stores what it is given, when the queue runs and memory is there. *)
Lemma push_spec alloc d q :
  eq_wf q →
  let q' := exec (april_event_queue_push alloc d) q in
  eq_wf q' ∧ eq_running q' = eq_running q ∧
  if eq_running q && alloc then queued q' ≡ₚ queued q ++ [d] else q' = q.
Proof.
  intros Hwf. cbv zeta. unfold april_event_queue_push, exec. destruct (eq_running q) eqn:Hr, alloc; cbn; try done.
  destruct Hwf as [H4 Hq Ht Hs].
  assert (queued (EventQueue (alter (pq_push d) (queue_index d) (eq_queues q)) (eq_total q + 1) true) ≡ₚ queued q ++ [d]) as Hp.
  { apply alter_nodes. rewrite H4. apply queue_index_lt. }
  split_and!; [|done|exact Hp]. split; cbn [eq_queues eq_total eq_running].
  - by rewrite length_alter.
  - apply alter_wf; [done|lia].
  - rewrite (Permutation_length Hp), length_app. cbn [length]. lia.
  - done.
Qed.

(** One scan of the queues: it removes the first detection of the first
    nonempty queue. *)
Lemma pop_first_spec : ∀ l i,
  pqs_wf i l →
  match pop_first l with
  | Some (d, l') =>
      pqs_wf i l' ∧ length l' = length l ∧
      concat (map pq_nodes l) = d :: concat (map pq_nodes l') ∧
      Forall (λ e, (queue_index d <= queue_index e)%nat) (concat (map pq_nodes l'))
  | None => concat (map pq_nodes l) = []
  end.
Proof.
  assert (∀ l i, pqs_wf i l → Forall (λ e, (i <= queue_index e)%nat) (concat (map pq_nodes l))) as Hge.
  { induction l as [|q l IH]; intros i; cbn; [constructor|]. intros [[_ Hf] Hl].
    apply Forall_app. split.
    - eapply Forall_impl; [exact Hf|]. cbn. lia.
    - eapply Forall_impl; [apply (IH _ Hl)|]. cbn. lia. }
  induction l as [|q l IH]; intros i; cbn; [done|]. intros [[Hc Hf] Hl].
  destruct (pq_nodes q) as [|d rest] eqn:Hn.
  - specialize (IH _ Hl). destruct (pop_first l) as [[d l']|]; [|by rewrite IH].
    cbn. rewrite Hn. destruct IH as (H1 & H2 & H3 & H4). split_and!; [|done|lia|done|done].
    split; by rewrite Hn.
  - cbn. apply Forall_cons in Hf as [Hd Hf]. split_and!; [|done|done|done|].
    + split; cbn; [|done]. rewrite Hc. cbn. lia.
    + apply Forall_app. split.
      * eapply Forall_impl; [exact Hf|]. cbn. lia.
      * eapply Forall_impl; [apply (Hge _ _ Hl)|]. cbn. lia.
Qed.

Lemma pop_spec q :
  eq_wf q →
  match april_event_queue_pop q with
  | (Some d, q') => eq_wf q' ∧ eq_running q' = eq_running q ∧ queued q = d :: queued q' ∧
      Forall (λ e, (queue_index d <= queue_index e)%nat) (queued q')
  | (None, q') => q' = q ∧ queued q = []
  end.
Proof.
  intros [H4 Hq Ht Hs]. unfold april_event_queue_pop. pose proof (pop_first_spec _ _ Hq) as Hp.
  destruct (pop_first (eq_queues q)) as [[d l]|]; [|done].
  destruct Hp as (Hl & Hlen & Hc & Hf). split_and!; [|done|done|done].
  unfold queued in *. split; cbn [eq_queues eq_total eq_running]; [lia|done| |].
  - unfold queued. cbn [eq_queues]. rewrite Ht, Hc. cbn [length]. lia.
  - intros Hr. by rewrite (Hs Hr) in Hc.
Qed.

(** ** The dispatch *)

(** The callbacks a detection concerns, the calls they get, and what they push. *)
Definition concerned (cbs : list callback_entry) (d : SENSEI_DETECTION) : list callback_entry :=
  List.filter (λ c, cb_priority c <=? det_priority d) cbs.

Definition calls_of (cbs : list callback_entry) (d : SENSEI_DETECTION) : list (string * SENSEI_DETECTION) :=
  map (λ c, (cb_name c, d)) (concerned cbs d).

Definition stored (l : list (bool * SENSEI_DETECTION)) : list SENSEI_DETECTION := map snd (List.filter fst l).

Definition pushes_of (cbs : list callback_entry) (d : SENSEI_DETECTION) : list SENSEI_DETECTION :=
  flat_map (λ c, stored (cb_pushes c d)) (concerned cbs d).

Lemma pushes_spec l : ∀ q,
  eq_wf q → eq_running q = true →
  let q' := exec (mfor l (λ '(alloc, e), _ ← april_event_queue_push alloc e; mret tt)) q in
  eq_wf q' ∧ eq_running q' = true ∧ queued q' ≡ₚ queued q ++ stored l ∧ (stored l = [] → q' = q).
Proof.
  induction l as [|[alloc e] l IH]; intros q Hwf Hr; cbn [mfor]; cbv zeta.
  - rewrite exec_mret. unfold stored. cbn. by rewrite app_nil_r.
  - rewrite exec_bind. assert (exec (_ ← april_event_queue_push alloc e; mret tt) q = exec (april_event_queue_push alloc e) q) as ->
      by by rewrite exec_bind.
    destruct (push_spec alloc e q Hwf) as (Hwf1 & Hr1 & Hq1). rewrite Hr in Hr1, Hq1. cbn [andb] in Hq1.
    destruct (IH _ Hwf1 Hr1) as (Hwf2 & Hr2 & Hq2 & He). split_and!; [done|done| |].
    + rewrite Hq2. unfold stored. cbn [List.filter fst]. destruct alloc; [|by rewrite Hq1].
      cbn [map snd]. rewrite Hq1, <-app_assoc. done.
    + unfold stored in *. cbn [List.filter fst]. destruct alloc; [done|]. intros Hs. by rewrite He, Hq1.
Qed.

Lemma dispatch_one_spec cbs d : ∀ q,
  eq_wf q → eq_running q = true →
  let q' := exec (dispatch_one cbs d) q in
  result (dispatch_one cbs d) q = calls_of cbs d ∧ eq_wf q' ∧ eq_running q' = true ∧
  queued q' ≡ₚ queued q ++ pushes_of cbs d ∧ (pushes_of cbs d = [] → q' = q).
Proof.
  unfold calls_of, pushes_of, concerned. induction cbs as [|c cbs IH]; intros q Hwf Hr; cbn [dispatch_one List.filter]; cbv zeta.
  - cbn. by rewrite app_nil_r.
  - destruct (cb_priority c <=? det_priority d); [|by apply IH]. cbn [map flat_map].
    destruct (pushes_spec (cb_pushes c d) q Hwf Hr) as (Hwf1 & Hr1 & Hq1 & He1).
    rewrite !result_bind, !exec_bind. set (q1 := exec (mfor _ _) q) in *.
    destruct (IH q1 Hwf1 Hr1) as (Hc & Hwf2 & Hr2 & Hq2 & He2). rewrite Hc. split_and!; [done|done|done| |].
    + rewrite exec_mret, Hq2, Hq1, <-app_assoc. done.
    + intros [H1 H2]%app_eq_nil. rewrite exec_mret, He2, He1 by done. done.
Qed.

(** A queue that does not run holds nothing, so nothing is called. *)
Lemma dispatch_wf turns cbs : ∀ q, eq_wf q → eq_wf (exec (april_dispatch_events turns cbs) q).
Proof.
  unfold april_dispatch_events. induction turns as [|n IH]; intros q Hwf; cbn [dispatch_loop]; [done|].
  rewrite exec_bind. pose proof (pop_spec q Hwf) as Hp. unfold exec, result in *. destruct (april_event_queue_pop q) as [[d|] q1]; cbn [fst snd].
  - destruct Hp as (Hwf1 & Hr & Hq & _).
    assert (eq_running q1 = true) as Hr1.
    { destruct (eq_running q1) eqn:E; [done|]. by rewrite (ew_stopped _ Hwf) in Hq. }
    destruct (dispatch_one_spec cbs d q1 Hwf1 Hr1) as (_ & Hwf2 & _). unfold mbind, M_bind, exec in *.
    destruct (dispatch_one cbs d q1) as [calls q2]. cbn [snd] in Hwf2. specialize (IH q2 Hwf2).
    by destruct (dispatch_loop n cbs q2) as [[ended more] q3].
  - by destruct Hp as [-> _].
Qed.

(** The sum of a measure over some detections. *)
Definition weight (size : SENSEI_DETECTION → nat) (l : list SENSEI_DETECTION) : nat := foldr (λ d n, (size d + n)%nat) 0%nat l.

Lemma weight_app size l1 l2 : weight size (l1 ++ l2) = (weight size l1 + weight size l2)%nat.
Proof. unfold weight. induction l1 as [|d l1 IH]; cbn [app foldr]; lia. Qed.

Global Instance weight_proper size : Proper ((≡ₚ) ==> eq) (weight size).
Proof. intros l1 l2. unfold weight. induction 1; cbn [foldr]; lia. Qed.

(** The dispatch, with more turns than the detections weigh. *)
Lemma dispatch_loop_spec size cbs :
  (∀ d, (weight size (pushes_of cbs d) < size d)%nat) → ∀ n q, eq_wf q → (weight size (queued q) < n)%nat →
  ∃ served q', dispatch_loop n cbs q = (true, flat_map (calls_of cbs) served, q') ∧
    served ≡ₚ queued q ++ flat_map (pushes_of cbs) served ∧
    ((∀ d, pushes_of cbs d = []) → served = queued q) ∧ eq_wf q' ∧ queued q' = [] ∧ eq_running q' = eq_running q.
Proof.
  intros Hsize. induction n as [|n IH]; intros q Hwf Hn; [lia|]. cbn [dispatch_loop].
  pose proof (pop_spec q Hwf) as Hp. unfold mbind, M_bind. destruct (april_event_queue_pop q) as [[d|] q1].
  2:{ destruct Hp as [-> Hq]. exists [], q. by rewrite Hq. }
  destruct Hp as (Hwf1 & Hr & Hq & _).
  assert (eq_running q1 = true) as Hr1.
  { destruct (eq_running q1) eqn:E; [done|]. by rewrite (ew_stopped _ Hwf) in Hq. }
  destruct (dispatch_one_spec cbs d q1 Hwf1 Hr1) as (Hc & Hwf2 & Hr2 & Hq2 & He). unfold exec, result in *.
  destruct (dispatch_one cbs d q1) as [calls q2]. cbn [fst snd] in *.
  destruct (IH q2 Hwf2) as (served & q' & Hd & Hs & Hi & Hwf' & Hq' & Hr').
  { rewrite Hq2, weight_app. rewrite Hq in Hn. cbn [weight foldr] in Hn. fold (weight size (queued q1)) in Hn. specialize (Hsize d). lia. }
  rewrite Hd. exists (d :: served), q'. rewrite Hc. cbn [flat_map]. split_and!; [done| | |done|done|congruence].
  - rewrite Hq. cbn [app]. constructor. rewrite Hs at 1. rewrite Hq2, <-app_assoc. done.
  - intros Hnone. rewrite Hi, He, Hq by done. done.
Qed.

Lemma apply_op_wf op q : eq_wf q → eq_wf (apply_op op q).
Proof.
  intros Hwf. destruct op as [alloc d| |turns cbs|]; unfold apply_op.
  - by apply push_spec.
  - pose proof (pop_spec q Hwf) as Hp. unfold exec.
    destruct (april_event_queue_pop q) as [[d|] q']; cbn; [apply Hp|].
    by destruct Hp as [-> _].
  - by apply dispatch_wf.
  - unfold april_event_queue_destroy, exec. cbn. split; cbn; [done| |done|done].
    unfold pq_wf. cbn. auto 10.
Qed.

Lemma init_wf : eq_wf april_event_queue_init.
Proof. split; cbn; [done| |done|done]. unfold pq_wf. cbn. auto 10. Qed.

Definition run_queue (ops : list eq_op) : event_queue :=
  foldl (λ q op, apply_op op q) april_event_queue_init ops.

Lemma run_queue_wf ops : eq_wf (run_queue ops).
Proof.
  induction ops as [|op ops IH] using rev_ind; [apply init_wf|].
  unfold run_queue. rewrite foldl_snoc. by apply apply_op_wf.
Qed.

(** After any sequence of pushes, pops, dispatches and destructions the
    event queue is well formed: four queues, each counting its nodes and holding
    the detections of its own priority, and a total that counts them all. *)
Theorem event_queue_invariant ops : eq_wf (run_queue ops).
Proof. apply run_queue_wf. Qed.

(** C40. A dispatch ends whenever its callbacks push less than they are given: if
    some measure of detections is, for each one, greater than what the callbacks
    called for it push, then from every reachable queue the loop ends by itself,
    within as many turns as the waiting detections measure, with an empty queue.
    Every detection that waited or was pushed meanwhile is served once, and each
    gets exactly the callbacks registered at its priority or below, the last
    registered first; callbacks that push nothing serve the queue in its order. *)
Theorem dispatch_drains size ops cbs turns :
  (∀ d, (weight size (pushes_of cbs d) < size d)%nat) →
  (weight size (queued (run_queue ops)) < turns)%nat →
  ∃ served q', april_dispatch_events turns cbs (run_queue ops) = (true, flat_map (calls_of cbs) served, q') ∧
    served ≡ₚ queued (run_queue ops) ++ flat_map (pushes_of cbs) served ∧
    ((∀ d, pushes_of cbs d = []) → served = queued (run_queue ops)) ∧
    queued q' = [] ∧ eq_total q' = 0 ∧ eq_running q' = eq_running (run_queue ops).
Proof.
  intros Hs Hn. destruct (dispatch_loop_spec size cbs Hs turns _ (run_queue_wf ops) Hn) as (served & q' & Hd & Hp & Hi & [_ _ Ht _] & Hq & Hr).
  exists served, q'. split_and!; [done|done|done|done|by rewrite Ht, Hq|done].
Qed.

(** A HIGH detection for which the first callback pushes one of LOW priority, for
    which only the second is called. *)
Definition sample_detection (priority : Z) : SENSEI_DETECTION := Detection 1 "p" CLASS_HOOK priority MITRE_NONE "T" "d" 50.

Definition sample_callbacks : list callback_entry :=
  [Callback PRIORITY_HIGH "escalate" (λ _, [(true, sample_detection PRIORITY_LOW)]); Callback PRIORITY_LOW "log" (λ _, [])].

Lemma dispatch_drains_witness :
  let q := run_queue [OpPush true (sample_detection PRIORITY_HIGH)] in
  let r := april_dispatch_events 3 sample_callbacks q in
  r.1 = (true, [("escalate", sample_detection PRIORITY_HIGH); ("log", sample_detection PRIORITY_HIGH); ("log", sample_detection PRIORITY_LOW)]) ∧
  queued r.2 = [] ∧ eq_total r.2 = 0.
Proof.
  cbv zeta. destruct (dispatch_drains (λ d, if PRIORITY_HIGH <=? det_priority d then 2%nat else 1%nat)
    [OpPush true (sample_detection PRIORITY_HIGH)] sample_callbacks 3) as (served & q' & Hr & _ & _ & Hq & Ht & _).
  - intros d. unfold pushes_of, concerned, sample_callbacks. cbn [List.filter cb_priority].
    destruct (PRIORITY_HIGH <=? det_priority d), (PRIORITY_LOW <=? det_priority d); vm_compute; repeat constructor.
  - vm_compute. repeat constructor.
  - rewrite Hr. cbn [fst snd]. split; [|done]. apply (f_equal fst) in Hr. cbn [fst] in Hr. rewrite <-Hr. vm_compute. reflexivity.
Defined.

(** A callback that pushes back what it is given keeps the loop going for ever:
    whatever the number of turns, it has not ended by itself. *)
Theorem pushing_back_never_ends cbs d turns q :
  eq_wf q → eq_running q = true → d ∈ queued q → d ∈ pushes_of cbs d →
  (result (april_dispatch_events turns cbs) q).1 = false.
Proof.
  intros Hwf Hr Hd Hp. unfold april_dispatch_events. revert q Hwf Hr Hd. induction turns as [|n IH]; intros q Hwf Hr Hd; [done|].
  cbn [dispatch_loop]. unfold mbind, M_bind, result in *. pose proof (pop_spec q Hwf) as Hpop.
  destruct (april_event_queue_pop q) as [[e|] q1]; [|destruct Hpop as [-> Hq]; by rewrite Hq, elem_of_nil in Hd].
  destruct Hpop as (Hwf1 & Hr1 & Hq & _). rewrite Hr in Hr1.
  destruct (dispatch_one_spec cbs e q1 Hwf1 Hr1) as (_ & Hwf2 & Hr2 & Hq2 & _). unfold exec in *.
  destruct (dispatch_one cbs e q1) as [calls q2]. cbn [snd] in *.
  assert (d ∈ queued q2) as Hd2.
  { rewrite Hq2, elem_of_app. rewrite Hq in Hd. apply elem_of_cons in Hd as [->|Hd]; auto. }
  specialize (IH q2 Hwf2 Hr2 Hd2). by destruct (dispatch_loop n cbs q2) as [[ended more] q3].
Qed.

(** Pops serve the least urgent first: from every reachable queue a pop
    finds a detection whenever one waits, returns the oldest of the lowest
    nonempty priority, and nothing that stays behind has a lower one, so a
    CRITICAL detection waits for every LOW, MEDIUM and HIGH one. *)
Theorem pop_least_urgent_first ops :
  let q := run_queue ops in
  match result april_event_queue_pop q with
  | None => queued q = []
  | Some d => ∃ rest, queued q = d :: rest ∧
      queued (exec april_event_queue_pop q) = rest ∧
      Forall (λ e, (queue_index d <= queue_index e)%nat) rest
  end.
Proof.
  cbv zeta. pose proof (pop_spec _ (run_queue_wf ops)) as Hp. unfold result, exec.
  destruct (april_event_queue_pop (run_queue ops)) as [[d|] q']; cbn [fst snd].
  - exists (queued q'). tauto.
  - tauto.
Qed.

(** ** Tables *)

Definition table_of (mode : april_table_mode_t) (rows : list (string * string)) : april_table :=
  foldl (λ t r, april_table_add (fst r) (snd r) t) (april_table_create mode) rows.

(** The capacity after [n] rows: 8 doubled until it holds them. *)
Record table_ok (n : nat) (t : april_table) : Prop := TableOk {
  to_entries : length (at_entries t) = n;
  to_count : at_count t = Z.of_nat n;
  to_room : at_count t <= at_capacity t;
  to_power : at_capacity t = 0 ∨ ∃ k, 0 <= k ∧ at_capacity t = 8 * 2 ^ k;
  to_tight : at_capacity t <= 8 ∨ at_capacity t < 2 * at_count t }.

Lemma table_add_ok n key value t :
  Z.of_nat n < 2 ^ 31 → table_ok n t → table_ok (S n) (april_table_add key value t).
Proof.
  intros Hn [He Hc Hr Hp Ht]. unfold april_table_add, ensure_capacity.
  destruct (Z.ltb_spec (at_count t) (at_capacity t)) as [Hlt|Hge].
  - split; cbn; rewrite ?length_app, ?He; cbn; [lia| | |done|];
      rewrite ?Z.mod_small by lia; try lia.
  - assert (at_capacity t = at_count t) as Heq by lia.
    destruct (Z.eqb_spec (at_capacity t) 0) as [H0|H0].
    + split; cbn; rewrite ?length_app, ?He; cbn; [lia| | | |];
        rewrite ?Z.mod_small by lia; try lia. right. by exists 0.
    + split; cbn; rewrite ?length_app, ?He; cbn; [lia| | | |];
        rewrite ?Z.mod_small by lia; try lia.
      right. destruct Hp as [|(k & Hk & Hp)]; [done|]. exists (k + 1). split; [lia|].
      rewrite Hp, Z.pow_add_r by lia. lia.
Qed.

(** A table never writes a row past its array: after any number of
    additions below 2^31 the rows are those added, in order, the count is their
    number and fits the capacity, which is 0 or 8 doubled, and less than twice
    the rows once it is above 8. *)
Theorem table_capacity mode rows :
  Z.of_nat (length rows) <= 2 ^ 31 →
  table_ok (length rows) (table_of mode rows) ∧
  at_entries (table_of mode rows) = map (λ r, Entry (fst r) (snd r)) rows.
Proof.
  induction rows as [|[k v] rows IH] using rev_ind; intros Hn.
  { split; [|done]. split; cbn; try done; [by left|left; lia]. }
  rewrite length_app in *. cbn [length] in *. destruct IH as [IH1 IH2]; [lia|].
  unfold table_of in *. rewrite foldl_snoc. cbn [fst snd].
  rewrite Nat.add_1_r. split; [apply table_add_ok; [lia|done]|].
  rewrite map_app, <- IH2. unfold april_table_add, ensure_capacity. by destruct (_ <? _).
Qed.

Lemma table_capacity_witness :
  at_capacity (table_of TABLE_JSON (repeat ("k", "v") 9)) = 16 ∧
  table_ok 9 (table_of TABLE_JSON (repeat ("k", "v") 9)).
Proof.
  split; [vm_compute; reflexivity|].
  apply (table_capacity TABLE_JSON (repeat ("k", "v") 9)). cbn. lia.
Defined.
