(* ===== verification/Digits.v ===== *)
(** * Printed integers read back

    What [%d] and the fixed-width [%0nX] print, the integer conversions of
    [sscanf] read: the digits in front of any text are consumed and their value
    is the number printed. *)

From S2P Require Import Prelude CString Double Krang.
From Stdlib Require Import Ascii DecimalString DecimalFacts DecimalPos DecimalZ.

(** ** Hexadecimal digits *)

(** The upper-case digit of a value below 16. *)
Definition hexd (d : Z) : ascii := chr (Z.to_nat (if d <? 10 then 48 + d else 55 + d)).

#[global] Arguments hexd : simpl never.

Lemma hexd_case (P : Z → Prop) d :
  0 <= d < 16 →
  P 0 → P 1 → P 2 → P 3 → P 4 → P 5 → P 6 → P 7 → P 8 → P 9 → P 10 → P 11 → P 12 → P 13 → P 14 → P 15 →
  P d.
Proof.
  intros Hd. intros.
  assert (d = 0 ∨ d = 1 ∨ d = 2 ∨ d = 3 ∨ d = 4 ∨ d = 5 ∨ d = 6 ∨ d = 7 ∨ d = 8 ∨ d = 9 ∨ d = 10
    ∨ d = 11 ∨ d = 12 ∨ d = 13 ∨ d = 14 ∨ d = 15) as Hc by lia.
  repeat (destruct Hc as [->|Hc]; [assumption|]). by subst.
Qed.

Lemma hexd_value d : 0 <= d < 16 → hex_digit (hexd d) = Some d.
Proof. intros Hd. by apply (hexd_case (λ d, hex_digit (hexd d) = Some d)). Qed.

Lemma hexd_space d : 0 <= d < 16 → is_space (hexd d) = false.
Proof. intros Hd. by apply (hexd_case (λ d, is_space (hexd d) = false)). Qed.

Lemma hexd_sign d s : 0 <= d < 16 → read_sign (String (hexd d) s) = (false, String (hexd d) s).
Proof. intros Hd. by apply (hexd_case (λ d, read_sign (String (hexd d) s) = (false, String (hexd d) s))). Qed.

Lemma hexd_prefix a d s : 0 <= d < 16 → has_prefix_ci "0x" (String a (String (hexd d) s)) = false.
Proof.
  intros Hd. cbn [has_prefix_ci]. rewrite andb_false_iff. right.
  by apply (hexd_case (λ d, Ascii.eqb "x" (lower (hexd d)) && true = false)).
Qed.

(** The last [k] hexadecimal digits of [v]. *)
Fixpoint hexN (k : nat) (v : Z) : string :=
  match k with
  | O => ""
  | S k' => hexN k' (v / 16) +:+ String (hexd (v mod 16)) ""
  end.

Lemma length_hexN k v : String.length (hexN k v) = k.
Proof. revert v. induction k as [|k IH]; intros v; [done|]. cbn [hexN]. rewrite length_app_str, IH. cbn. lia. Qed.

Lemma hexN_all (P : ascii → bool) k v :
  (∀ d, 0 <= d < 16 → P (hexd d) = true) → forallb P (schars (hexN k v)) = true.
Proof.
  intros HP. revert v. induction k as [|k IH]; intros v; [done|]. cbn [hexN].
  assert (∀ s t, schars (s +:+ t) = schars s ++ schars t) as ->
    by (induction s as [|c s IHs]; intros t; [done|rewrite app_cons_str; cbn [schars]; by rewrite IHs]).
  rewrite forallb_app, IH. cbn [schars forallb]. rewrite HP; [done|]. apply Z.mod_pos_bound. lia.
Qed.

Lemma hexN_none f k v : (∀ d, 0 <= d < 16 → f (hexd d) = false) → none_of f (hexN k v) = true.
Proof. intros Hf. apply hexN_all. intros d Hd. by rewrite Hf. Qed.

(** The digits in front of a text. *)
Lemma read_hexN k : ∀ v acc n r,
  0 <= v < 16 ^ Z.of_nat k →
  read_digits 16 acc n (hexN k v +:+ r) = read_digits 16 (acc * 16 ^ Z.of_nat k + v) (n + k) r.
Proof.
  induction k as [|k IH]; intros v acc n r Hv.
  - cbn [hexN]. change ("" +:+ r) with r. rewrite Nat.add_0_r. f_equal. lia.
  - rewrite Nat2Z.inj_succ, Z.pow_succ_r in Hv by lia. cbn [hexN]. rewrite app_assoc_str, IH.
    2:{ split; [apply Z.div_pos; lia|]. apply Z.div_lt_upper_bound; lia. }
    change (String (hexd (v mod 16)) "" +:+ r) with (String (hexd (v mod 16)) r).
    assert (0 <= v mod 16 < 16) as Hm by (apply Z.mod_pos_bound; lia).
    cbn [read_digits]. unfold digit_val. rewrite hexd_value by done.
    replace (v mod 16 <? 16) with true by (symmetry; apply Z.ltb_lt; lia).
    replace (n + S k)%nat with (S (n + k)) by lia. f_equal.
    rewrite Nat2Z.inj_succ, Z.pow_succ_r by lia. pose proof (Z.div_mod v 16). lia.
Qed.

(** ** Decimal digits *)

Fixpoint uint_value (acc : Z) (u : Decimal.uint) : Z :=
  match u with
  | Decimal.Nil => acc
  | Decimal.D0 u => uint_value (acc * 10 + 0) u
  | Decimal.D1 u => uint_value (acc * 10 + 1) u
  | Decimal.D2 u => uint_value (acc * 10 + 2) u
  | Decimal.D3 u => uint_value (acc * 10 + 3) u
  | Decimal.D4 u => uint_value (acc * 10 + 4) u
  | Decimal.D5 u => uint_value (acc * 10 + 5) u
  | Decimal.D6 u => uint_value (acc * 10 + 6) u
  | Decimal.D7 u => uint_value (acc * 10 + 7) u
  | Decimal.D8 u => uint_value (acc * 10 + 8) u
  | Decimal.D9 u => uint_value (acc * 10 + 9) u
  end.

Lemma uint_value_acc u : ∀ p, Zpos (Pos.of_uint_acc u p) = uint_value (Zpos p) u.
Proof.
  induction u; intros p; cbn [Pos.of_uint_acc uint_value]; [done|..];
    rewrite IHu; f_equal; lia.
Qed.

Lemma uint_value_of u : Z.of_uint u = uint_value 0 u.
Proof.
  unfold Z.of_uint. induction u; cbn [Pos.of_uint uint_value]; [done|apply IHu|..];
    apply uint_value_acc.
Qed.

Lemma read_digit c d acc n r :
  digit_val 10 c = Some d →
  read_digits 10 acc n (String c r) = read_digits 10 (acc * 10 + d) (S n) r.
Proof. intros Hd. cbn [read_digits]. by rewrite Hd. Qed.

Lemma read_uint u : ∀ acc n r,
  read_digits 10 acc n (NilEmpty.string_of_uint u +:+ r) =
  read_digits 10 (uint_value acc u) (n + String.length (NilEmpty.string_of_uint u)) r.
Proof.
  induction u; intros acc n r; cbn [NilEmpty.string_of_uint uint_value String.length];
    [change ("" +:+ r) with r; by rewrite Nat.add_0_r|..];
    rewrite app_cons_str, <- Nat.add_succ_comm; erewrite read_digit by reflexivity; apply IHu.
Qed.

Lemma nonneg_digits z : 0 <= z → ∃ u,
  fmt_d z = NilZero.string_of_uint u ∧ uint_value 0 u = z.
Proof.
  intros Hz. pose proof (DecimalZ.of_to z) as H. unfold fmt_d.
  destruct z as [|p|p]; [|..|lia].
  - by exists (Decimal.D0 Decimal.Nil).
  - exists (Pos.to_uint p). split; [done|]. by rewrite <- uint_value_of.
Qed.

(** [fmt_d] of a number that is not negative: its first digit, and its value. *)
Lemma read_fmt_d z r :
  0 <= z →
  ∃ n, (0 < n)%nat ∧ read_digits 10 0 0 (fmt_d z +:+ r) = read_digits 10 z n r.
Proof.
  intros Hz. destruct (nonneg_digits z Hz) as (u & -> & <-).
  assert (u = Decimal.Nil ∨ u ≠ Decimal.Nil) as [->|Hu] by (destruct u; auto).
  { exists 1%nat. split; [lia|done]. }
  replace (NilZero.string_of_uint u) with (NilEmpty.string_of_uint u) by (by destruct u).
  exists (String.length (NilEmpty.string_of_uint u)). split; [destruct u; cbn; try done; lia|].
  apply read_uint.
Qed.

Lemma fmt_d_first z :
  0 <= z → ∃ d s, 0 <= d < 16 ∧ fmt_d z = String (hexd d) s.
Proof.
  intros Hz. destruct (nonneg_digits z Hz) as (u & -> & _).
  destruct u as [|u|u|u|u|u|u|u|u|u|u]; cbn.
  1-2: exists 0. 3: exists 1. 4: exists 2. 5: exists 3. 6: exists 4. 7: exists 5. 8: exists 6.
  9: exists 7. 10: exists 8. 11: exists 9.
  all: eexists; split; [lia|reflexivity].
Qed.

(** ** The integer conversions *)

(** [n] blanks. *)
Fixpoint blanks (n : nat) : string := match n with O => "" | S n' => String " " (blanks n') end.

Lemma skip_blanks n d s :
  0 <= d < 16 →
  skip_while is_space (blanks n +:+ String (hexd d) s) = String (hexd d) s.
Proof.
  intros Hd. induction n as [|n IH]; cbn [blanks].
  - change ("" +:+ String (hexd d) s) with (String (hexd d) s). cbn [skip_while].
    by rewrite hexd_space.
  - rewrite app_cons_str. apply IH.
Qed.

(** The text after a number: its end, or a character that is no digit. *)
Definition stops (base : Z) (r : string) : Prop :=
  match r with String c _ => digit_val base c = None | EmptyString => True end.

Lemma read_stops base v n r : stops base r → read_digits base v n r = (v, n, r).
Proof. destruct r as [|c r]; [done|]. cbn. by intros ->. Qed.

Lemma scan_decimal pad z r :
  0 <= z → stops 10 r → scan_int 10 (blanks pad +:+ fmt_d z +:+ r) = Some (z, r).
Proof.
  intros Hz Hr. unfold scan_int. destruct (fmt_d_first z Hz) as (d & s & Hd & Hs).
  destruct (read_fmt_d z r Hz) as (n & Hn & Hrd). rewrite Hs in *. rewrite app_cons_str in *.
  rewrite skip_blanks, hexd_sign by done. cbv zeta. change (10 =? 16) with false. cbn [andb].
  rewrite Hrd, read_stops by done. by destruct n; [lia|].
Qed.

Lemma hexN_first k v :
  ∃ a b s, 0 <= a < 16 ∧ 0 <= b < 16 ∧ hexN (S (S k)) v = String (hexd a) (String (hexd b) s).
Proof.
  revert v. induction k as [|k IH]; intros v.
  - exists (v / 16 mod 16), (v mod 16), "". split_and!; try done; apply Z.mod_pos_bound; lia.
  - destruct (IH (v / 16)) as (a & b & s & Ha & Hb & Heq). cbn [hexN] in *. rewrite Heq.
    exists a, b. eexists. split_and!; [lia..|]. by rewrite !app_cons_str.
Qed.

Lemma scan_hexadecimal pad k v r :
  0 <= v < 16 ^ Z.of_nat (S (S k)) → stops 16 r →
  scan_int 16 (blanks pad +:+ hexN (S (S k)) v +:+ r) = Some (v, r).
Proof.
  intros Hv Hr. unfold scan_int. pose proof (read_hexN (S (S k)) v 0 0 r Hv) as Hrd.
  destruct (hexN_first k v) as (a & b & s & Ha & Hb & Hs).
  rewrite Hs in *. rewrite !app_cons_str in *.
  rewrite skip_blanks, hexd_sign by done. cbv zeta. rewrite hexd_prefix by done.
  rewrite andb_false_r, Hrd, read_stops by done. cbn [Nat.add Nat.eqb]. do 2 f_equal.
Qed.
