(* ===== verification/Attribution.v ===== *)
(** * krangd: the connections of the kernel's table are the ones reported

    The text the kernel writes to [/proc/net/tcp6], line by line, and what the
    parsers of krangd make of it.  [inet_ntop] stays the parameters [ntop4] and
    [ntop6]; the backend is the parameter [bexec]. *)

From S2P Require Import Prelude CString Double Wire Krang Digits.
From Stdlib Require Import Ascii.

(** ** Addresses *)

Definition byte_ok (b : Z) : Prop := 0 <= b < 256.

(** Sixteen bytes, in network order. *)
Definition address_ok (bytes : list Z) : Prop := length bytes = 16%nat ∧ Forall byte_ok bytes.

(** One byte, and the four words, each printed from its last byte to its first. *)
Definition hex2 (b : Z) : string := String (hexd (b / 16)) (String (hexd (b mod 16)) "").

Definition encode_address (bytes : list Z) : string :=
  scat (map (λ k, hex2 (nth ((k / 4) * 4 + (3 - k mod 4))%nat bytes 0)) (seq 0 16)).

Lemma byte_digits b : byte_ok b → 0 <= b / 16 < 16 ∧ 0 <= b mod 16 < 16.
Proof.
  intros [H1 H2]. split; [split; [apply Z.div_pos; lia|apply Z.div_lt_upper_bound; lia]|].
  apply Z.mod_pos_bound. lia.
Qed.

Lemma lor_digits a b : 0 <= b < 16 → Z.lor (Z.shiftl a 4) b = a * 16 + b.
Proof.
  intros Hb. rewrite <- Z.add_nocarry_lor.
  - rewrite Z.shiftl_mul_pow2 by lia. done.
  - apply Z.bits_inj'. intros n Hn. rewrite Z.land_spec, Z.bits_0.
    destruct (Z.ltb_spec n 4) as [Hlt|Hge]; [by rewrite Z.shiftl_spec_low|].
    rewrite (Z.bits_above_log2 b n), andb_false_r; [done|lia|].
    destruct (Z.eq_dec b 0) as [->|]; [cbn; lia|]. apply Z.log2_lt_pow2; [lia|].
    apply Z.lt_le_trans with (2 ^ 4); [lia|]. apply Z.pow_le_mono_r; lia.
Qed.

Lemma byte_value b :
  byte_ok b → ∃ hi lo, hex_value (hexd (b / 16)) = Some hi ∧ hex_value (hexd (b mod 16)) = Some lo ∧
    Z.lor (Z.shiftl hi 4) lo = b.
Proof.
  intros Hb. destruct (byte_digits b Hb) as [Hd Hm]. exists (b / 16), (b mod 16).
  unfold hex_value. rewrite !hexd_value, lor_digits by done. split_and!; [done..|].
  pose proof (Z.div_mod b 16). lia.
Qed.

(** The byte at a position, whatever the hex digits around it. *)
Lemma byte_at_pair b s :
  byte_ok b → byte_at (hex2 b +:+ s) 0 = Some b.
Proof.
  intros Hb. destruct (byte_value b Hb) as (hi & lo & Hhi & Hlo & Hv).
  unfold byte_at, hex2. rewrite !app_cons_str. cbn [snth]. by rewrite Hhi, Hlo, Hv.
Qed.

Lemma byte_at_shift b s i : byte_at (hex2 b +:+ s) (S (S i)) = byte_at s i.
Proof. done. Qed.

(** Sixteen pairs of digits hold their bytes. *)
Lemma byte_at_pairs : ∀ (l : list Z) i,
  Forall byte_ok l → (i < length l)%nat →
  byte_at (scat (map hex2 l)) (2 * i) = l !! i.
Proof.
  induction l as [|b l IH]; intros i Hl Hi; [cbn in Hi; lia|].
  apply Forall_cons in Hl as [Hb Hl]. cbn [map scat].
  destruct i as [|i]; [by rewrite byte_at_pair|].
  replace (2 * S i)%nat with (S (S (2 * i))) by lia.
  rewrite byte_at_shift. cbn [length] in Hi. apply IH; [done|lia].
Qed.

Lemma encode_pairs b0 b1 b2 b3 b4 b5 b6 b7 b8 b9 b10 b11 b12 b13 b14 b15 :
  encode_address [b0; b1; b2; b3; b4; b5; b6; b7; b8; b9; b10; b11; b12; b13; b14; b15] =
  scat (map hex2 [b3; b2; b1; b0; b7; b6; b5; b4; b11; b10; b9; b8; b15; b14; b13; b12]).
Proof. done. Qed.

Lemma decode_encode bytes : address_ok bytes → decode_bytes (encode_address bytes) = Some bytes.
Proof.
  intros [Hlen Hb].
  destruct bytes as [|b0 [|b1 [|b2 [|b3 [|b4 [|b5 [|b6 [|b7 [|b8 [|b9 [|b10 [|b11 [|b12 [|b13
    [|b14 [|b15 [|]]]]]]]]]]]]]]]]]; try discriminate Hlen. clear Hlen.
  rewrite !Forall_cons in Hb.
  destruct Hb as (?&?&?&?&?&?&?&?&?&?&?&?&?&?&?&?&_).
  rewrite encode_pairs. unfold decode_bytes.
  set (l := [b3; b2; b1; b0; b7; b6; b5; b4; b11; b10; b9; b8; b15; b14; b13; b12]).
  replace (String.length (scat (map hex2 l))) with 32%nat by done. cbn [Nat.eqb].
  assert (Forall byte_ok l) as Hl by (unfold l; rewrite !Forall_cons; auto 20).
  assert (∀ i b, (i < 16)%nat → l !! i = Some b →
    byte_at (scat (map hex2 l)) (2 * i) = Some b) as Hat
    by (intros i b Hi <-; by apply byte_at_pairs).
  apply mapM_Some_2. cbn [seq]. repeat apply Forall2_cons_2; [..|apply Forall2_nil_2];
    match goal with |- byte_at _ (source_index ?k) = _ =>
      let i := eval vm_compute in (Nat.div (source_index k) 2) in
      change (source_index k) with (2 * i)%nat; apply Hat; [lia|done] end.
Qed.

(** ** Endpoints *)

Definition encode_endpoint (bytes : list Z) (port : Z) : string :=
  encode_address bytes +:+ ":" +:+ hexN 4 port.

Definition port_ok (p : Z) : Prop := 0 <= p < 65536.

Lemma hexd_is_hex d : 0 <= d < 16 → is_hex (hexd d) = true.
Proof. intros Hd. unfold is_hex. by rewrite hexd_value. Qed.

Lemma none_of_pairs f l :
  (∀ d, 0 <= d < 16 → f (hexd d) = false) → Forall byte_ok l →
  none_of f (scat (map hex2 l)) = true.
Proof.
  intros Hf. induction 1 as [|b l Hb _ IH]; [done|]. cbn [map scat].
  destruct (byte_digits b Hb) as [Hd Hm]. unfold hex2. rewrite !app_cons_str, !none_of_cons.
  rewrite !Hf by done. apply IH.
Qed.

Lemma length_pairs l : String.length (scat (map hex2 l)) = (2 * length l)%nat.
Proof. induction l as [|b l IH]; [done|]. cbn [map scat]. rewrite length_app_str, IH. cbn. lia. Qed.

Lemma nth_byte_ok bytes i : Forall byte_ok bytes → byte_ok (nth i bytes 0).
Proof.
  intros Hb. revert i. induction Hb as [|b l Hb _ IH]; intros [|i]; cbn; try done;
    unfold byte_ok; lia.
Qed.

Lemma encode_is_pairs bytes :
  encode_address bytes =
  scat (map hex2 (map (λ k, nth ((k / 4) * 4 + (3 - k mod 4))%nat bytes 0) (seq 0 16))).
Proof. unfold encode_address. by rewrite map_map. Qed.

Lemma none_of_address f bytes :
  (∀ d, 0 <= d < 16 → f (hexd d) = false) → Forall byte_ok bytes →
  none_of f (encode_address bytes) = true.
Proof.
  intros Hf Hb. rewrite encode_is_pairs. apply none_of_pairs; [done|].
  apply Forall_map, Forall_forall. intros k _. by apply nth_byte_ok.
Qed.

Lemma length_address bytes : String.length (encode_address bytes) = 32%nat.
Proof. rewrite encode_is_pairs, length_pairs, length_map. done. Qed.

Lemma scan_hex_stop n tok c r :
  tok ≠ "" → (String.length tok <= n)%nat →
  none_of (λ c, negb (is_hex c)) tok = true → is_hex c = false →
  scan_hex n (tok +:+ String c r) = Some (tok, String c r).
Proof.
  intros Hne Hlen Htok Hc. unfold scan_hex. rewrite break_at_stop by (rewrite ?Hc; done).
  cbn [fst]. rewrite stake_all by done.
  rewrite (proj2 (String.eqb_neq tok "") Hne), sdrop_app. done.
Qed.

Lemma scan_hex_end n tok :
  tok ≠ "" → (String.length tok <= n)%nat →
  none_of (λ c, negb (is_hex c)) tok = true →
  scan_hex n tok = Some (tok, "").
Proof.
  intros Hne Hlen Htok. unfold scan_hex. rewrite break_at_none by done. cbn [fst].
  rewrite stake_all by done. rewrite (proj2 (String.eqb_neq tok "") Hne).
  rewrite <- (app_nil_r_str tok) at 3. by rewrite sdrop_app.
Qed.

Lemma port_value_hexN p : port_ok p → port_value 0 (hexN 4 p) = Some p.
Proof.
  intros [Hp1 Hp2]. cbn [hexN]. rewrite !app_assoc_str, !app_cons_str.
  change (port_value 0 (String (hexd (p / 16 / 16 / 16 mod 16)) (String (hexd (p / 16 / 16 mod 16))
    (String (hexd (p / 16 mod 16)) (String (hexd (p mod 16)) "")))) = Some p).
  assert (∀ z, 0 <= z mod 16 < 16) as Hm by (intros z; apply Z.mod_pos_bound; lia).
  cbn [port_value]. unfold hex_value. rewrite !hexd_value by done.
  rewrite !lor_digits by done. f_equal.
  pose proof (Z.div_mod p 16). pose proof (Z.div_mod (p / 16) 16).
  pose proof (Z.div_mod (p / 16 / 16) 16). pose proof (Z.div_mod (p / 16 / 16 / 16) 16).
  assert (p / 16 / 16 / 16 / 16 = 0); [|lia].
  rewrite !Z.div_div by lia. apply Z.div_small. lia.
Qed.

(** ** Lines *)

(** One line of the table.  The two tokens that the parser skips stand for the
    queue lengths and the timer; [pl_rest] is what follows the inode. *)
Record proc_line := ProcLine {
  pl_pad : nat; pl_slot : Z;
  pl_local : list Z; pl_lport : Z; pl_remote : list Z; pl_rport : Z; pl_state : Z;
  pl_queues : string; pl_timer : string; pl_retransmit : Z;
  pl_uid_pad : nat; pl_uid : Z; pl_timeout_pad : nat; pl_timeout : Z; pl_inode : Z;
  pl_rest : string }.

Definition token_ok (s : string) : Prop :=
  s ≠ "" ∧ (String.length s <= 63)%nat ∧ none_of is_space s = true.

Record line_ok (l : proc_line) : Prop := LineOk {
  lo_slot : 0 <= pl_slot l;
  lo_local : address_ok (pl_local l) ∧ port_ok (pl_lport l);
  lo_remote : address_ok (pl_remote l) ∧ port_ok (pl_rport l);
  lo_state : 0 <= pl_state l < 256;
  lo_tokens : token_ok (pl_queues l) ∧ token_ok (pl_timer l);
  lo_retransmit : 0 <= pl_retransmit l < 2 ^ 32;
  lo_uid : 0 <= pl_uid l < 2 ^ 31;
  lo_timeout : 0 <= pl_timeout l;
  lo_inode : 0 <= pl_inode l < 2 ^ 64;
  lo_rest : stops 10 (pl_rest l) ∧ none_of (char_in NLs) (pl_rest l) = true }.

(** ["%4d: %s:%04X %s:%04X %02X %s %s %08X %5u %8d %lu"] and the rest. *)
Definition proc_text (l : proc_line) : string :=
  blanks (pl_pad l) +:+ fmt_d (pl_slot l) +:+ ": " +:+
  encode_endpoint (pl_local l) (pl_lport l) +:+ " " +:+
  encode_endpoint (pl_remote l) (pl_rport l) +:+ " " +:+
  hexN 2 (pl_state l) +:+ " " +:+ pl_queues l +:+ " " +:+ pl_timer l +:+ " " +:+
  hexN 8 (pl_retransmit l) +:+ " " +:+
  blanks (pl_uid_pad l) +:+ fmt_d (pl_uid l) +:+ " " +:+
  blanks (pl_timeout_pad l) +:+ fmt_d (pl_timeout l) +:+ " " +:+
  fmt_d (pl_inode l) +:+ pl_rest l.

Lemma scan_s_stop n tok c r :
  is_space c = true → tok ≠ "" → (String.length tok <= n)%nat → none_of is_space tok = true →
  scan_s n (" " +:+ tok +:+ String c r) = Some (tok, String c r).
Proof.
  intros Hc Hne Hlen Htok. unfold scan_s.
  change (skip_while is_space (" " +:+ tok +:+ String c r))
    with (skip_while is_space (tok +:+ String c r)).
  assert (skip_while is_space (tok +:+ String c r) = tok +:+ String c r) as ->.
  { destruct tok as [|d tok]; [done|]. rewrite none_of_cons in Htok.
    apply andb_prop in Htok as [Hd%negb_true_iff _]. rewrite app_cons_str. cbn [skip_while].
    by rewrite Hd. }
  rewrite break_at_stop by done. cbn [fst]. rewrite stake_all by done.
  by rewrite (proj2 (String.eqb_neq tok "") Hne), sdrop_app.
Qed.

Lemma scan_s_token n tok r :
  tok ≠ "" → (String.length tok <= n)%nat → none_of is_space tok = true →
  scan_s n (" " +:+ tok +:+ String " " r) = Some (tok, String " " r).
Proof. by apply scan_s_stop. Qed.

Lemma endpoint_token bytes port :
  Forall byte_ok bytes →
  encode_endpoint bytes port ≠ "" ∧ (String.length (encode_endpoint bytes port) <= 63)%nat ∧
  none_of is_space (encode_endpoint bytes port) = true.
Proof.
  intros Hb. unfold encode_endpoint. split_and!.
  - intros He. pose proof (length_app_str (encode_address bytes) (":" +:+ hexN 4 port)) as Hl.
    rewrite He, length_address in Hl. done.
  - rewrite !length_app_str, length_address, length_hexN. cbn [String.length]. lia.
  - rewrite !none_of_app, none_of_address, hexN_none; auto using hexd_space.
Qed.

Lemma bind_some {A B} (c : option A) (k : A → option B) a r : c = Some a → k a = r → (c ≫= k) = r.
Proof. by intros -> <-. Qed.

Lemma scan_fields_text l :
  line_ok l →
  scan_fields (fmt_d (pl_slot l) +:+ ": " +:+
    encode_endpoint (pl_local l) (pl_lport l) +:+ " " +:+
    encode_endpoint (pl_remote l) (pl_rport l) +:+ " " +:+
    hexN 2 (pl_state l) +:+ " " +:+ pl_queues l +:+ " " +:+ pl_timer l +:+ " " +:+
    hexN 8 (pl_retransmit l) +:+ " " +:+
    blanks (pl_uid_pad l) +:+ fmt_d (pl_uid l) +:+ " " +:+
    blanks (pl_timeout_pad l) +:+ fmt_d (pl_timeout l) +:+ " " +:+
    fmt_d (pl_inode l) +:+ pl_rest l) =
  Some (encode_endpoint (pl_local l) (pl_lport l), encode_endpoint (pl_remote l) (pl_rport l),
        pl_state l, pl_uid l, pl_inode l).
Proof.
  intros [Hslot [[_ Hl] _] [[_ Hr] _] Hst [(Hq1 & Hq2 & Hq3) (Ht1 & Ht2 & Ht3)] Hre Hu Hto Hi [Hrest _]].
  destruct (endpoint_token (pl_local l) (pl_lport l) Hl) as (L1 & L2 & L3).
  destruct (endpoint_token (pl_remote l) (pl_rport l) Hr) as (R1 & R2 & R3).
  unfold scan_fields.
  eapply bind_some; [refine (scan_decimal 0 (pl_slot l) _ Hslot _); reflexivity|]; cbv beta iota.
  eapply bind_some; [reflexivity|]; cbv beta iota.
  eapply bind_some; [refine (scan_s_token 63 _ _ L1 L2 L3)|]; cbv beta iota.
  eapply bind_some; [refine (scan_s_token 63 _ _ R1 R2 R3)|]; cbv beta iota.
  eapply bind_some; [refine (scan_hexadecimal 1 0 (pl_state l) _ Hst _); reflexivity|]; cbv beta iota.
  eapply bind_some; [refine (scan_s_token 63 _ _ Hq1 Hq2 Hq3)|]; cbv beta iota.
  eapply bind_some; [refine (scan_s_token 63 _ _ Ht1 Ht2 Ht3)|]; cbv beta iota.
  eapply bind_some; [refine (scan_hexadecimal 1 6 (pl_retransmit l) _ Hre _); reflexivity|]; cbv beta iota.
  eapply bind_some; [refine (scan_decimal (S (pl_uid_pad l)) (pl_uid l) _ (proj1 Hu) _); reflexivity|]; cbv beta iota.
  eapply bind_some; [refine (scan_decimal (S (pl_timeout_pad l)) (pl_timeout l) _ Hto _); reflexivity|]; cbv beta iota.
  eapply bind_some; [refine (scan_decimal 1 (pl_inode l) _ (proj1 Hi) Hrest)|]; cbv beta iota.
  unfold to_u32, to_i32, to_u64.
  rewrite (Z.mod_small (pl_state l)), (Z.mod_small (pl_uid l + 2 ^ 31)), (Z.mod_small (pl_inode l)) by lia.
  do 2 f_equal. f_equal. lia.
Qed.

(** ** Texts of lines *)

Lemma newline_space c : char_in NLs c = true → is_space c = true.
Proof. unfold char_in, NLs. rewrite orb_false_r. by intros ->%Ascii.eqb_eq. Qed.

Lemma hexd_newline d : 0 <= d < 16 → char_in NLs (hexd d) = false.
Proof. intros Hd. by apply (hexd_case (λ d, char_in NLs (hexd d) = false)). Qed.

Lemma blanks_newline n : none_of (char_in NLs) (blanks n) = true.
Proof. by induction n. Qed.

Lemma fmt_d_newline z : none_of (char_in NLs) (fmt_d z) = true.
Proof. apply (numeric_none _ _ numeric_no_newline), fmt_d_numeric. Qed.

Lemma proc_text_newline l : line_ok l → none_of (char_in NLs) (proc_text l) = true.
Proof.
  intros [_ [[_ Hl] _] [[_ Hr] _] _ [(_ & _ & Hq) (_ & _ & Ht)] _ _ _ _ [_ Hrest]].
  apply (none_of_weaken _ _ _ newline_space) in Hq, Ht.
  unfold proc_text, encode_endpoint.
  rewrite !none_of_app, !none_of_address, !hexN_none, !blanks_newline, !fmt_d_newline, Hq, Ht, Hrest
    by auto using hexd_newline. done.
Qed.

(** Lines that end in a newline. *)
Definition unlines (ls : list string) : string := scat (map (λ l, l +:+ NLs) ls).

Lemma split_line l rest :
  none_of (char_in NLs) l = true → split_lines (l +:+ NLs +:+ rest) = l :: split_lines rest.
Proof.
  induction l as [|c l IH]; [done|]. rewrite none_of_cons. intros [Hc Hl]%andb_prop.
  rewrite app_cons_str. cbn [split_lines]. rewrite IH by done.
  unfold char_in, NLs in Hc. rewrite orb_false_r in Hc. apply negb_true_iff in Hc. by rewrite Hc.
Qed.

Lemma split_unlines ls :
  Forall (λ l, none_of (char_in NLs) l = true) ls → split_lines (unlines ls) = ls.
Proof.
  unfold unlines. induction 1 as [|l ls Hl _ IH]; [done|]. cbn [map scat].
  by rewrite app_assoc_str, split_line, IH.
Qed.

Section table.
Context (ntop4 ntop6 : list Z → string).

(** The text of an address: the last four bytes when it is a mapped IPv4 one. *)
Definition address_text (bytes : list Z) : string :=
  if v4mapped bytes then ntop4 (drop 12 bytes) else ntop6 bytes.

Lemma decode_endpoint_encode bytes port :
  address_ok bytes → port_ok port →
  decode_endpoint ntop4 ntop6 (encode_endpoint bytes port) = Some (address_text bytes, port).
Proof.
  intros Hb Hp. unfold decode_endpoint, encode_endpoint.
  change (":" +:+ hexN 4 port) with (String ":" (hexN 4 port)).
  assert (encode_address bytes ≠ "") as Hne
    by (intros He; pose proof (length_address bytes) as Hl; rewrite He in Hl; done).
  assert (∀ d, 0 <= d < 16 → negb (is_hex (hexd d)) = false) as Hhex
    by (intros d Hd; by rewrite hexd_is_hex).
  rewrite scan_hex_stop; [|done|by rewrite length_address|apply none_of_address; [done|apply Hb]|done].
  cbn [mbind option_bind scan_char Ascii.eqb Bool.eqb].
  rewrite scan_hex_end;
    [|intros He; pose proof (length_hexN 4 port) as Hl; rewrite He in Hl; done
     |by rewrite length_hexN|by apply hexN_none].
  cbn [mbind option_bind]. rewrite length_address, length_hexN. cbn [Nat.eqb andb].
  rewrite port_value_hexN by done. cbn [mbind option_bind]. unfold decode_proc_address.
  by rewrite decode_encode.
Qed.

(** The connection a line stands for. *)
Definition connection_of (l : proc_line) : krang_connection :=
  Connection (address_text (pl_local l)) (pl_lport l) (address_text (pl_remote l)) (pl_rport l)
    (pl_state l) (pl_uid l) (pl_inode l).

Lemma parse_line_text l :
  line_ok l → krang_parse_tcp6_line ntop4 ntop6 (proc_text l) = (PARSE_FOUND, Some (connection_of l)).
Proof.
  intros Hl. pose proof (scan_fields_text l Hl) as Hscan.
  unfold krang_parse_tcp6_line, proc_text. destruct (fmt_d_first (pl_slot l)) as (d & s & Hd & Hs); [apply Hl|].
  rewrite Hs in *. rewrite !(app_cons_str (hexd d)) in *. rewrite skip_blanks by done.
  cbv zeta. change (String.eqb (String ?c ?r) "") with false.
  assert (∀ r, has_prefix "sl " (String (hexd d) r) = false) as ->.
  { intros r. by apply (hexd_case (λ d, has_prefix "sl " (String (hexd d) r) = false)). }
  cbn [orb]. rewrite Hscan. destruct Hl as [_ [Hl1 Hl2] [Hr1 Hr2] _ _ _ _ _ _ _].
  by rewrite !decode_endpoint_encode.
Qed.

Definition header_ok (h : string) : Prop :=
  has_prefix "sl " (skip_while is_space h) = true ∧ none_of (char_in NLs) h = true ∧
  (String.length h < 512)%nat.

(** The whole file: the header and a line per connection. *)
Definition proc_table (h : string) (ls : list proc_line) : string := unlines (h :: map proc_text ls).

Definition lines_ok (ls : list proc_line) : Prop :=
  Forall (λ l, line_ok l ∧ (String.length (proc_text l) < 512)%nat) ls.

Lemma parse_lines_text capacity : ∀ ls out count,
  lines_ok ls →
  parse_lines ntop4 ntop6 capacity (map proc_text ls) out count false =
  Some (out ++ take (capacity - count) (map connection_of ls), (count + length ls)%nat, false).
Proof.
  intros ls out count Hls. revert out count.
  induction Hls as [|l ls [Hl Hlen] _ IH]; intros out count; cbn [map parse_lines].
  { by rewrite take_nil, app_nil_r, Nat.add_0_r. }
  rewrite (proj2 (Nat.leb_gt _ _) Hlen), parse_line_text, IH by done. cbn [length].
  rewrite Nat.add_succ_r. do 3 f_equal. destruct (Nat.ltb_spec count capacity) as [Hlt|Hge].
  - rewrite <- app_assoc. f_equal. replace (capacity - count)%nat with (S (capacity - S count)) by lia.
    done.
  - replace (capacity - count)%nat with 0%nat by lia.
    by replace (capacity - S count)%nat with 0%nat by lia.
Qed.

Lemma parse_table h ls capacity :
  header_ok h → lines_ok ls →
  krang_parse_tcp6 ntop4 ntop6 (proc_table h ls) capacity =
  (if (0 <? Nat.min (length ls) capacity)%nat then PARSE_FOUND else PARSE_NOT_FOUND,
   take capacity (map connection_of ls), Nat.min (length ls) capacity).
Proof.
  intros (Hh1 & Hh2 & Hh3) Hls. unfold krang_parse_tcp6, proc_table.
  rewrite split_unlines.
  2:{ constructor; [done|]. apply Forall_map. eapply Forall_impl; [exact Hls|].
      intros l [Hl _]. by apply proc_text_newline. }
  cbn [parse_lines]. rewrite (proj2 (Nat.leb_gt _ _) Hh3).
  unfold krang_parse_tcp6_line at 1. cbv zeta. rewrite Hh1, orb_true_r.
  by rewrite parse_lines_text, Nat.sub_0_r.
Qed.

(** The kernel's table is read exactly: from a text with the kernel's header
    and one line per connection, in the format of [/proc/net/tcp6], the parser
    returns the connections in order (the first [capacity] of them), each with
    its addresses unscrambled, its ports, state, uid and inode, and their number. *)
Theorem tcp6_table_read h ls capacity :
  header_ok h → lines_ok ls →
  krang_parse_tcp6 ntop4 ntop6 (proc_table h ls) capacity =
  (if (0 <? Nat.min (length ls) capacity)%nat then PARSE_FOUND else PARSE_NOT_FOUND,
   take capacity (map connection_of ls), Nat.min (length ls) capacity).
Proof. apply parse_table. Qed.

(** C24. What krangd tells splinterd: when the backend returns the kernel's table,
    one poll sends one payload for each of its first 256 connections that is
    established, belongs to an app and talks to a port other than 53, 80 and 443,
    in the order of the table, and nothing else. *)
Theorem poll_reports_apps (bexec : string → option string) h ls :
  header_ok h → lines_ok ls →
  bexec "cat /proc/net/tcp6 2>/dev/null" = Some (proc_table h ls) →
  poll_connections ntop4 ntop6 bexec =
  map (λ l, payload_of bexec (connection_of l))
    (List.filter (λ l, (pl_state l =? 1) && (10000 <=? pl_uid l) && negb (pl_rport l =? 53)
                       && negb (pl_rport l =? 80) && negb (pl_rport l =? 443)) (take 256 ls)).
Proof.
  intros Hh Hls Hx. unfold poll_connections. rewrite Hx, parse_table by done.
  assert (take (Nat.min (length ls) 256) (take 256 (map connection_of ls)) =
    map connection_of (take 256 ls)) as Htake.
  { rewrite take_take, firstn_map. f_equal.
    destruct (Nat.le_gt_cases (length ls) 256); [|f_equal; lia].
    rewrite !take_ge by lia. done. }
  assert (∀ l, candidate (connection_of l) =
    (pl_state l =? 1) && (10000 <=? pl_uid l) && negb (pl_rport l =? 53)
    && negb (pl_rport l =? 80) && negb (pl_rport l =? 443)) as Hcand.
  { intros l. unfold candidate, krang_is_nonstandard_app_connection. cbn.
    rewrite Z.leb_antisym. destruct (pl_uid l <? 10000), (pl_state l =? 1); done. }
  assert (∀ l', map (payload_of bexec) (List.filter candidate (map connection_of l')) =
    map (λ l, payload_of bexec (connection_of l))
      (List.filter (λ l, (pl_state l =? 1) && (10000 <=? pl_uid l) && negb (pl_rport l =? 53)
                         && negb (pl_rport l =? 80) && negb (pl_rport l =? 443)) l')) as Hmap.
  { induction l' as [|l l' IH]; [done|]. cbn [map List.filter]. rewrite Hcand.
    destruct (_ && _); cbn [map]; by rewrite IH. }
  destruct (0 <? _)%nat; rewrite Htake; apply Hmap.
Qed.

End table.

(** ** A concrete table *)

Definition sample_header : string := "  sl  local_address                         remote_address st".

(** An address printed as its hexadecimal bytes. *)
Definition sample_ntop (bytes : list Z) : string := scat (map hex2 bytes).

Definition sample_line : proc_line :=
  ProcLine 3 0 (replicate 15 0 ++ [1]) 5037 ([32; 1; 13; 184] ++ replicate 11 0 ++ [7]) 8443 1
    "00000000:00000000" "00:00000000" 0 0 10123 8 0 45678 " 1 0000000000000000 20 4 30 10 -1".

Lemma sample_line_ok : lines_ok [sample_line].
Proof.
  repeat constructor; cbn; try (unfold byte_ok, port_ok; lia); try done; unfold byte_ok; try lia.
Qed.

Lemma sample_header_ok : header_ok sample_header.
Proof. split_and!; [done..|]. apply Nat.ltb_lt. done. Qed.

Lemma tcp6_table_read_witness :
  krang_parse_tcp6 sample_ntop sample_ntop (proc_table sample_header [sample_line]) 4 =
  (PARSE_FOUND,
   [Connection "00000000000000000000000000000001" 5037 "20010DB8000000000000000000000007" 8443
      1 10123 45678], 1%nat).
Proof.
  rewrite (tcp6_table_read sample_ntop sample_ntop sample_header [sample_line] 4
    sample_header_ok sample_line_ok). vm_compute. reflexivity.
Defined.

Definition sample_bexec (cmd : string) : option string :=
  if String.eqb cmd "cat /proc/net/tcp6 2>/dev/null" then Some (proc_table sample_header [sample_line])
  else Some ("package:com.example.chat uid:10123" +:+ NLs).

Lemma poll_reports_apps_witness :
  poll_connections sample_ntop sample_ntop sample_bexec =
  ["package=com.example.chat uid=10123 remote=20010DB8000000000000000000000007:8443 state=01"].
Proof.
  rewrite (poll_reports_apps sample_ntop sample_ntop sample_bexec sample_header [sample_line]
    sample_header_ok sample_line_ok eq_refl). vm_compute. reflexivity.
Defined.

(** ** Any text *)

Section any_text.
Context (ntop4 ntop6 : list Z → string).

(** The ranges of the fields of a connection. *)
Record connection_ok (c : krang_connection) : Prop := ConnectionOk {
  cn_local : port_ok (kc_local_port c);
  cn_remote : port_ok (kc_remote_port c);
  cn_state : 0 <= kc_state c < 2 ^ 32;
  cn_uid : - 2 ^ 31 <= kc_uid c < 2 ^ 31;
  cn_inode : 0 <= kc_inode c < 2 ^ 64 }.

Lemma hex_digit_range c d : hex_digit c = Some d → 0 <= d < 16.
Proof.
  unfold hex_digit.
  repeat match goal with |- context [if ?b then _ else _] => destruct b eqn:? end;
    intros [= <-]; bool_hyps; lia.
Qed.

Lemma port_value_range s : ∀ acc p,
  0 <= acc → port_value acc s = Some p → 0 <= p < (acc + 1) * 16 ^ Z.of_nat (String.length s).
Proof.
  induction s as [|c s IH]; intros acc p Hacc; cbn [port_value String.length].
  - intros [= <-]. lia.
  - unfold hex_value. destruct (hex_digit c) as [d|] eqn:Hd; [|done]. apply hex_digit_range in Hd.
    rewrite lor_digits by done. intros [H1 H2]%IH; [|lia].
    rewrite Nat2Z.inj_succ, Z.pow_succ_r by lia. split; [done|].
    eapply Z.lt_le_trans; [exact H2|].
    replace ((acc + 1) * (16 * 16 ^ Z.of_nat (String.length s)))
      with (((acc + 1) * 16) * 16 ^ Z.of_nat (String.length s)) by lia.
    apply Z.mul_le_mono_nonneg_r; lia.
Qed.

Lemma endpoint_port s a p : decode_endpoint ntop4 ntop6 s = Some (a, p) → port_ok p.
Proof.
  unfold decode_endpoint. intros ([ah r] & _ & H)%bind_Some.
  apply bind_Some in H as (r1 & _ & H). apply bind_Some in H as ([ph r2] & _ & H).
  destruct (_ && (String.length ph =? 4)%nat) eqn:Hlen; [|done]. apply andb_prop in Hlen as [_ Hlen].
  apply Nat.eqb_eq in Hlen. apply bind_Some in H as (v & Hv & H).
  apply bind_Some in H as (a' & _ & [= _ <-]).
  apply port_value_range in Hv; [|lia]. rewrite Hlen in Hv. exact Hv.
Qed.

Lemma line_connection_ok l c :
  krang_parse_tcp6_line ntop4 ntop6 l = (PARSE_FOUND, Some c) → connection_ok c.
Proof.
  unfold krang_parse_tcp6_line. cbv zeta. destruct (_ || _); [done|].
  destruct (scan_fields _) as [[[[[loc rem] st] uid] ino]|] eqn:Hf; [|done].
  destruct (decode_endpoint ntop4 ntop6 loc) as [[la lp]|] eqn:Hl; [|done].
  destruct (decode_endpoint ntop4 ntop6 rem) as [[ra rp]|] eqn:Hr; [|done].
  intros [= <-]. apply endpoint_port in Hl, Hr.
  assert (∃ a b d, st = to_u32 a ∧ uid = to_i32 b ∧ ino = to_u64 d) as (a & b & d & -> & -> & ->).
  { revert Hf. unfold scan_fields.
    repeat match goal with
    | |- (_ ≫= _) = Some _ → _ => let p := fresh "p" in intros (p & _ & Hf)%bind_Some;
        lazymatch type of p with (_ * _)%type => destruct p | _ => idtac end; revert Hf
    end; intros [= <- <- <- <- <-]; do 3 eexists; split_and!; reflexivity. }
  split; cbn; [done|done|..]; unfold to_u32, to_i32, to_u64.
  - apply Z.mod_pos_bound. lia.
  - pose proof (Z.mod_pos_bound (b + 2 ^ 31) (2 ^ 32)). lia.
  - apply Z.mod_pos_bound. lia.
Qed.

Lemma parse_lines_ok capacity lines : ∀ out count err out' count' err',
  parse_lines ntop4 ntop6 capacity lines out count err = Some (out', count', err') →
  length out = Nat.min count capacity → Forall connection_ok out →
  length out' = Nat.min count' capacity ∧ Forall connection_ok out'.
Proof.
  induction lines as [|l lines IH]; intros out count err out' count' err'; cbn [parse_lines].
  { by intros [= <- <- <-]. }
  destruct (512 <=? String.length l)%nat; [done|].
  destruct (krang_parse_tcp6_line ntop4 ntop6 l) as [[] [c|]] eqn:Hl; intros H Hlen Hok;
    (eapply IH; [exact H| |]); try done; apply line_connection_ok in Hl.
  - destruct (Nat.ltb_spec count capacity); [rewrite length_app, Hlen; cbn [length]|rewrite Hlen]; lia.
  - destruct (count <? capacity)%nat; [|done]. apply Forall_app. auto.
Qed.

(** Whatever the text, the parser never stores past its array: the count it
    reports is the number of connections stored and at most the capacity, and
    every connection stored has its ports, state, uid and inode in the range of
    their C types. *)
Theorem tcp6_bounded text capacity :
  let '(status, out, count) := krang_parse_tcp6 ntop4 ntop6 text capacity in
  (count <= capacity)%nat ∧ (length out = count) ∧ Forall connection_ok out.
Proof.
  unfold krang_parse_tcp6.
  destruct (parse_lines _ _ _ _ _ _ _) as [[[out count] err]|] eqn:Hp.
  - destruct (parse_lines_ok _ _ _ _ _ _ _ _ Hp) as [Hlen Hok]; [done|constructor|].
    split_and!; [lia|done|done].
  - cbn. split_and!; [lia|done|constructor].
Qed.

End any_text.

(** ** Packages and the polling interval *)

Definition package_name_ok (size : nat) (name : string) : Prop :=
  name ≠ "" ∧ (String.length name < size)%nat ∧ forallb package_character_ok (schars name) = true.

Lemma package_of_found rest size name :
  package_of rest size = (PARSE_FOUND, name) → package_name_ok size name.
Proof.
  unfold package_of. set (n := (break_at _ _).1). destruct (_ || _) eqn:Hlen; [done|].
  apply orb_false_elim in Hlen as [H0%Nat.eqb_neq H1%Nat.leb_gt].
  destruct (forallb _ _) eqn:Hf; [|done]. intros [= <-]. split_and!; [|done|done].
  intros Hn. rewrite Hn in H0. done.
Qed.

Lemma find_package_found lines size name :
  find_package lines size = (PARSE_FOUND, name) → package_name_ok size name.
Proof.
  induction lines as [|l lines IH]; [done|]. cbn [find_package]. cbv zeta.
  destruct (has_prefix _ _); [apply package_of_found|done].
Qed.

(** A character of a package name is no white space. *)
Lemma package_character_space c : package_character_ok c = true → is_space c = false.
Proof. destruct c as [[] [] [] [] [] [] [] []]; vm_compute; congruence. Qed.

Lemma package_name_found size name :
  package_name_ok size name → package_of name size = (PARSE_FOUND, name).
Proof.
  intros (Hne & Hlen & Hf). unfold package_of.
  assert (none_of is_space name = true) as Hs.
  { unfold none_of. rewrite forallb_forall in Hf |- *. intros c Hc. rewrite package_character_space; auto. }
  assert (skip_while is_blank name = name) as ->.
  { destruct name as [|c name]; [done|]. rewrite none_of_cons in Hs.
    apply andb_prop in Hs as [Hc%negb_true_iff _]. cbn [skip_while].
    replace (is_blank c) with false; [done|]. symmetry. apply not_true_iff_false.
    unfold is_blank. intros [H|H]%orb_prop; apply Ascii.eqb_eq in H; by subst. }
  rewrite break_at_none by done. cbn [fst].
  replace (String.length name =? 0)%nat with false by (by destruct name).
  rewrite (proj2 (Nat.leb_gt _ _) Hlen), Hf. done.
Qed.

Definition not_package (l : string) : Prop :=
  none_of (char_in NLs) l = true ∧
  has_prefix "package:" (skip_while (λ c, is_blank c || Ascii.eqb c (chr 13)) l) = false.

Lemma find_package_skips size before l :
  Forall not_package before → find_package (before ++ l) size = find_package l size.
Proof.
  induction 1 as [|b before [_ Hb] _ IH]; [done|]. rewrite <- app_comm_cons.
  cbn [find_package]. cbv zeta. by rewrite Hb.
Qed.

(** The package name krangd attributes a connection to can be put in a
    message as it is: whatever the package manager prints, a name is reported only
    when it is not empty, fits its buffer and is made of letters, digits, dots,
    underscores and hyphens; and the name of a first ["package:"] line that is so
    is reported, whatever lines stand around it. *)
Theorem package_name_reported output size :
  (∀ name, krang_parse_package_output output size = (PARSE_FOUND, name) → package_name_ok size name) ∧
  (∀ before after name, (2 <= size)%nat → Forall not_package before →
     Forall (λ l, none_of (char_in NLs) l = true) after → package_name_ok size name →
     output = unlines (before ++ ("package:" +:+ name) :: after) →
     krang_parse_package_output output size = (PARSE_FOUND, name)).
Proof.
  unfold krang_parse_package_output. split.
  - intros name. destruct (size <? 2)%nat; [done|]. apply find_package_found.
  - intros before after name Hsize Hb Ha Hname ->. rewrite (proj2 (Nat.ltb_ge _ _) Hsize).
    rewrite split_unlines.
    + rewrite find_package_skips by done. cbn [find_package].
      assert (skip_while (λ c, is_blank c || Ascii.eqb c (chr 13)) ("package:" +:+ name) =
        "package:" +:+ name) as -> by done.
      rewrite has_prefix_app. cbv zeta. by apply package_name_found.
    + apply Forall_app. split; [eapply Forall_impl; [exact Hb|]; by intros ? []|].
      constructor; [|done]. rewrite none_of_app. apply andb_true_intro. split; [done|].
      destruct Hname as (_ & _ & Hf). unfold none_of. rewrite forallb_forall in Hf |- *.
      intros c Hc. apply Hf, package_character_space in Hc.
      destruct (char_in NLs c) eqn:Hn; [|done]. apply newline_space in Hn. congruence.
Qed.

Lemma package_name_reported_witness :
  krang_parse_package_output ("Packages:" +:+ NLs +:+ "package:com.example.chat" +:+ NLs) 128 =
  (PARSE_FOUND, "com.example.chat").
Proof.
  apply (proj2 (package_name_reported ("Packages:" +:+ NLs +:+ "package:com.example.chat" +:+ NLs) 128)
    ["Packages:"] [] "com.example.chat"); [lia|by repeat constructor|constructor| |done].
  split_and!; [done| |done]. apply Nat.ltb_lt. done.
Defined.

Lemma read_digits_nonneg base s : 0 <= base → ∀ acc n v m r,
  0 <= acc → read_digits base acc n s = (v, m, r) → 0 <= v.
Proof.
  intros Hbase. induction s as [|c s IH]; intros acc n v m r Hacc; cbn [read_digits].
  { by intros [= <- _ _]. }
  destruct (digit_val base c) as [d|] eqn:Hd; [|by intros [= <- _ _]].
  apply IH. unfold digit_val in Hd. destruct (hex_digit c) as [d'|] eqn:Hh; [|done].
  apply hex_digit_range in Hh. destruct (d' <? base); [|done]. injection Hd as <-. nia.
Qed.

Lemma scan_negative s v r : scan_int 10 (String "-" s) = Some (v, r) → v <= 0.
Proof.
  unfold scan_int. change (skip_while is_space (String "-" s)) with (String "-" s).
  cbv beta iota zeta delta [read_sign]. cbn [andb Z.eqb Pos.eqb].
  destruct (read_digits 10 0 0 s) as [[v' n] r'] eqn:Hr. apply read_digits_nonneg in Hr; [|lia..].
  destruct (n =? 0)%nat; [done|]. intros [= <- <-]. lia.
Qed.

Lemma poll_seconds_range env : 1 <= poll_seconds env <= 3600.
Proof.
  destruct env as [s|]; cbn [poll_seconds]; [|lia]. destruct (String.eqb s ""); [lia|].
  destruct (scan_int 10 s) as [[v r]|]; [|lia].
  destruct (_ || (3600 <? v)) eqn:Hb; [lia|]. bool_hyps. lia.
Qed.

(** The polling interval is between one second and an hour whatever the
    environment says, and a printed number in that range is taken as it is; any
    other number means the default of 30. *)
Theorem poll_interval env z :
  1 <= poll_seconds env <= 3600 ∧
  poll_seconds (Some (fmt_d z)) = (if (1 <=? z) && (z <=? 3600) then z else 30).
Proof.
  split; [apply poll_seconds_range|]. cbn [poll_seconds].
  rewrite (proj2 (String.eqb_neq (fmt_d z) "") (fmt_d_nonempty z)).
  destruct (Z.lt_ge_cases z 0) as [Hz|Hz].
  - rewrite (proj2 (Z.leb_gt 1 z)) by lia. cbn [andb].
    assert (∃ s, fmt_d z = String "-" s) as [s ->] by (destruct z; try lia; eexists; reflexivity).
    destruct (scan_int 10 _) as [[v r]|] eqn:Hv; [|done]. apply scan_negative in Hv.
    rewrite (proj2 (Z.ltb_lt v 1)) by lia. by rewrite orb_true_r.
  - pose proof (scan_decimal 0 z "" Hz I) as Hs. rewrite app_nil_r_str in Hs.
    change (blanks 0 +:+ fmt_d z) with (fmt_d z) in Hs. rewrite Hs. cbn [String.eqb negb orb].
    rewrite (Z.ltb_antisym 1 z), (Z.ltb_antisym z 3600).
    destruct (1 <=? z), (z <=? 3600); done.
Qed.
