(* ===== verification/Fleet.v ===== *)
(** * overlordd: what a poll can and cannot report *)

From S2P Require Import Prelude CString Double Strtod Ring World Ingest Queues Overlord.
From Stdlib Require Import Ascii.

(** ** The patterns of one poll *)

(** [adds name d]: the detector [d] does nothing or adds one pattern [name]. *)
Definition adds (name : string) (d : M overlord unit) : Prop :=
  strncpy 64 name = name ∧
  ∀ o, exec d o = o ∨
    ∃ sev detail mitre conf, exec d o = exec (add_pattern name sev detail mitre conf) o.

Section adds.
Context (name : string) (Hname : strncpy 64 name = name).

Lemma adds_nothing : adds name (mret tt).
Proof. split; [done|]. intros o. by left. Qed.

Lemma adds_pattern sev detail mitre conf : adds name (add_pattern name sev detail mitre conf).
Proof. split; [done|]. intros o. right. by exists sev, detail, mitre, conf. Qed.

End adds.

(** Walk over the tests of a detector. *)
Ltac adds_tac :=
  cbv zeta;
  repeat match goal with
  | |- adds _ (mret tt) => by apply adds_nothing
  | |- adds _ (add_pattern _ _ _ _ _) => by apply adds_pattern
  | |- adds _ (if ?b then _ else _) => destruct b
  | |- adds _ (match ?x with _ => _ end) => destruct x
  end.

(** The names, in the order of the detectors. *)
Definition PATTERN_NAMES : list string :=
  ["THERMAL_OOM_MANIPULATION"; "IDLE_SURVEILLANCE_CYCLE"; "SENSOR_NETWORK_EXFILTRATION";
   "COORDINATED_SECURITY_WEAKENING"; "SYSTEMIC_PRIVACY_EROSION"; "THERMAL_DECEPTION_CYCLE";
   "IDLE_EXFILTRATION_BEACON"; "SENSOR_STALKING_CAMOUFLAGE"; "WAKE_LOCK_ABUSE_SYNDROME";
   "PRIVILEGE_ESCALATION_CHAIN"; "MEMORY_PRESSURE_MANIPULATION"; "DOZE_BYPASS_SYNDROME";
   "THERMAL_AMNESIA_SEQUENCE"; "BINDER_PROXIMITY_EXPLOIT"; "MEMORY_EXTENSION_TRAP";
   "RADIO_SILENCE_FLIP"; "PRIVACY_SIGNAL_DECOY"].

Lemma priv_escalation_adds : adds "PRIVILEGE_ESCALATION_CHAIN" detect_priv_escalation.
Proof.
  split; [done|]. intros o. unfold detect_priv_escalation, exec. cbv zeta.
  destruct (_ && _); [by left|]. destruct (_ && _); [|by left]. right. by repeat eexists.
Qed.

Lemma detectors_add files : Forall2 adds PATTERN_NAMES (detectors files).
Proof.
  unfold PATTERN_NAMES, detectors.
  repeat (apply Forall2_cons_2; [first [apply priv_escalation_adds |
    match goal with |- adds _ (?d files) => unfold d; adds_tac end]|]).
  apply Forall2_nil_2.
Qed.

(** The state a detector may change: patterns, pipe and socket. *)
Definition window_view (o : overlord) := (o_window o, o_pos o, o_full o, o_polls o).

Lemma add_pattern_room name sev detail mitre conf o :
  (length (o_patterns o) < MAX_PATTERNS)%nat →
  let o' := exec (add_pattern name sev detail mitre conf) o in
  (∃ p, o_patterns o' = o_patterns o ++ [p] ∧ pt_name p = strncpy 64 name) ∧
  length (o_splinter o') = S (length (o_splinter o)) ∧ window_view o' = window_view o.
Proof.
  intros Hroom. unfold add_pattern. rewrite exec_modify.
  rewrite (proj2 (Nat.leb_gt _ _) Hroom). cbv zeta. cbn [o_patterns o_splinter].
  rewrite length_app. cbn [length]. split_and!; [|lia|done]. by eexists.
Qed.

(** A detector that may add the named pattern, or, with no name, none. *)
Definition may_add (name : option string) (d : M overlord unit) : Prop :=
  match name with Some n => adds n d | None => ∀ o, exec d o = o end.

(** Detectors run in a row while there is room. *)
Lemma detectors_run names ds :
  Forall2 may_add names ds → ∀ o,
  (length (o_patterns o) + length names <= MAX_PATTERNS)%nat →
  let o' := exec (mfor ds id) o in
  ∃ ps, o_patterns o' = o_patterns o ++ ps ∧ sublist (map pt_name ps) (omap id names) ∧
    length (o_splinter o') = (length (o_splinter o) + length ps)%nat ∧
    window_view o' = window_view o.
Proof.
  induction 1 as [|name d names ds Hd _ IH]; intros o Hroom; cbv zeta.
  { cbn [mfor]. rewrite exec_mret. exists []. rewrite app_nil_r. cbn [map length].
    split_and!; [done|constructor|lia|done]. }
  cbn [mfor length] in *. rewrite exec_bind. change (id d) with d.
  destruct name as [name|]; cbn [may_add] in Hd.
  2:{ rewrite Hd. destruct (IH o) as (ps & H); [lia|]. by exists ps. }
  cbn [omap list_omap id]. destruct Hd as [Hname Hd].
  destruct (Hd o) as [->|(sev & detail & mitre & conf & ->)].
  - destruct (IH o) as (ps & H1 & H2 & H3 & H4); [lia|]. exists ps.
    split_and!; [done|by constructor|done|done].
  - destruct (add_pattern_room name sev detail mitre conf o) as ((p & Hp & Hn) & Hs & Hw); [lia|].
    destruct (IH (exec (add_pattern name sev detail mitre conf) o)) as (ps & H1 & H2 & H3 & H4).
    { rewrite Hp, length_app. cbn [length]. lia. }
    exists (p :: ps). rewrite H1, H3, H4, Hp, Hs, Hw. cbn [map length].
    rewrite Hn, Hname, <- app_assoc. split_and!; [done|by constructor|lia|done].
Qed.

(** The patterns of a poll, when the detectors add at most the names. *)
Lemma poll_reports names files now o :
  Forall2 may_add names (detectors files) →
  let o' := exec (poll_once files now) o in
  sublist (map pt_name (o_patterns o')) (omap id names) ∧
  length (o_splinter o') = (length (o_splinter o) + length (o_patterns o'))%nat ∧
  window_view o' = window_view (exec (update_window files now) (exec begin_poll o)).
Proof.
  intros Hadd. unfold poll_once. rewrite !exec_bind. cbv zeta.
  set (o1 := exec (update_window files now) (exec begin_poll o)).
  destruct (detectors_run _ _ Hadd o1) as (ps & H1 & H2 & H3 & H4).
  { apply Forall2_length in Hadd. rewrite Hadd. unfold MAX_PATTERNS. cbn. lia. }
  change (o_patterns o1) with (@nil pattern) in H1. rewrite app_nil_l in H1.
  change (length (o_splinter o1)) with (length (o_splinter o)) in H3.
  rewrite H1. split_and!; done.
Qed.

Lemma poll_once_run files now o :
  let o' := exec (poll_once files now) o in
  sublist (map pt_name (o_patterns o')) PATTERN_NAMES ∧
  length (o_splinter o') = (length (o_splinter o) + length (o_patterns o'))%nat ∧
  window_view o' = window_view (exec (update_window files now) (exec begin_poll o)).
Proof.
  apply (poll_reports (map Some PATTERN_NAMES)). apply Forall2_fmap_l.
  eapply Forall2_impl; [apply detectors_add|done].
Qed.

(** One poll reports each of the seventeen patterns at most once, in the order
    of the detectors, so the table of 32 never fills and no pattern is dropped;
    and splinterd is sent exactly one message per pattern reported.  This holds
    whatever the other daemons wrote and whatever the state before. *)
Theorem poll_patterns files now o :
  let o' := exec (poll_once files now) o in
  sublist (map pt_name (o_patterns o')) PATTERN_NAMES ∧
  (length (o_patterns o') < MAX_PATTERNS)%nat ∧
  length (o_splinter o') = (length (o_splinter o) + length (o_patterns o'))%nat.
Proof.
  destruct (poll_once_run files now o) as (H1 & H2 & _). cbv zeta. split_and!; [done| |done].
  apply sublist_length in H1. rewrite length_map in H1. unfold MAX_PATTERNS. cbn in H1. lia.
Qed.

(** ** The sliding window *)

(** Polls with what the other daemons had written at each, and the clock. *)
Definition poll_input : Type := (string → option string) * Z.

Definition run_polls (polls : list poll_input) : overlord :=
  foldl (λ o p, exec (poll_once (fst p) (snd p)) o) overlord_init polls.

Definition snap_of (p : poll_input) : window_snap := take_snap (fst p) (snd p).

(** After the polls [l]: the position counts them modulo the size, and each of
    the last ten snapshots stands at its number modulo the size. *)
Record window_ok (l : list poll_input) (o : overlord) : Prop := WindowOk {
  wo_len : length (o_window o) = WINDOW_SIZE;
  wo_pos : o_pos o = (length l mod WINDOW_SIZE)%nat;
  wo_full : o_full o = (WINDOW_SIZE <=? length l)%nat;
  wo_cells : ∀ j p, l !! j = Some p → (length l <= j + WINDOW_SIZE)%nat →
    o_window o !! (j mod WINDOW_SIZE)%nat = Some (snap_of p) }.

Lemma window_view_ok l o o' : window_view o' = window_view o → window_ok l o → window_ok l o'.
Proof. intros [= Hw Hp Hf _] [H1 H2 H3 H4]. split; by rewrite ?Hw, ?Hp, ?Hf. Qed.

Lemma full_step k : 
  (if negb (WINDOW_SIZE <=? k)%nat && (((k mod WINDOW_SIZE) + 1) mod WINDOW_SIZE =? 0)%nat
   then true else (WINDOW_SIZE <=? k)%nat) = (WINDOW_SIZE <=? S k)%nat.
Proof.
  unfold WINDOW_SIZE. destruct (Nat.leb_spec 10 k) as [Hk|Hk].
  - cbn [negb andb]. symmetry. apply Nat.leb_le. lia.
  - do 10 (destruct k as [|k]; [done|]). lia.
Qed.

Lemma update_window_ok l o p :
  window_ok l o → window_ok (l ++ [p]) (exec (update_window (fst p) (snd p)) (exec begin_poll o)).
Proof.
  intros [H1 H2 H3 H4]. unfold update_window, begin_poll. rewrite !exec_modify.
  split; cbn [o_window o_pos o_full]; rewrite ?length_app; cbn [length].
  - by rewrite length_insert.
  - rewrite H2. apply Nat.Div0.add_mod_idemp_l.
  - rewrite H2, H3, (Nat.add_1_r (length l)). apply full_step.
  - intros j q Hj Hlast. apply lookup_app_Some in Hj as [Hj|[Hge Hj]].
    + pose proof (lookup_lt_Some _ _ _ Hj) as Hlt.
      rewrite list_lookup_insert_ne; [apply H4; [done|lia]|].
      rewrite H2. intros Heq. unfold WINDOW_SIZE in *.
      pose proof (Nat.div_mod_eq j 10). pose proof (Nat.div_mod_eq (length l) 10).
      assert (j / 10 = length l / 10 ∨ (j / 10 + 1 <= length l / 10)%nat)%nat as [|] by
        (pose proof (Nat.Div0.div_le_mono j (length l) 10); lia); lia.
    + apply list_lookup_singleton_Some in Hj as [Hj <-].
      replace j with (length l) by lia. rewrite H2. apply list_lookup_insert_eq.
      rewrite H1. apply Nat.mod_upper_bound. done.
Qed.

Lemma run_polls_ok polls : window_ok polls (run_polls polls).
Proof.
  induction polls as [|p polls IH] using rev_ind.
  - split; try done.
  - unfold run_polls. rewrite foldl_snoc. fold (run_polls polls).
    destruct (poll_once_run (fst p) (snd p) (run_polls polls)) as (_ & _ & Hw).
    eapply window_view_ok; [exact Hw|]. by apply update_window_ok.
Qed.

Lemma omap_seq_lookup {A B} (f : A → B) (l : list A) (g : nat → option B) start count :
  (start + count = length l)%nat →
  (∀ i p, (i < count)%nat → l !! (start + i)%nat = Some p → g i = Some (f p)) →
  omap g (seq 0 count) = map f (drop start l).
Proof.
  revert start g. induction count as [|c IH]; intros start g Hlen Hg.
  - by rewrite drop_ge by lia.
  - destruct (lookup_lt_is_Some_2 l start) as [p Hp]; [lia|].
    rewrite (drop_S _ _ _ Hp). cbn. rewrite (Hg 0%nat p) by (try lia; by rewrite Nat.add_0_r).
    f_equal. rewrite omap_seq_shift. apply IH; [lia|]. intros i q Hi Hq. apply Hg; [lia|].
    by rewrite Nat.add_succ_r.
Qed.

(** The sliding window holds the last ten polls: after any sequence of polls
    the snapshots that the trend detectors read, from the oldest to the newest,
    are those taken at the last ten polls (all of them when there were fewer),
    each from what the daemons had written then. *)
Theorem window_last_ten polls :
  window_seq (run_polls polls) = map snap_of (keep_last WINDOW_SIZE polls).
Proof.
  pose proof (run_polls_ok polls) as [H1 H2 H3 H4]. unfold window_seq, keep_last, window_count.
  rewrite H2, H3. set (n := length polls).
  set (count := if (WINDOW_SIZE <=? n)%nat then WINDOW_SIZE else (n mod WINDOW_SIZE)%nat).
  assert (count = Nat.min n WINDOW_SIZE) as Hc.
  { unfold count. destruct (Nat.leb_spec WINDOW_SIZE n); [lia|]. rewrite Nat.mod_small by done. lia. }
  rewrite Hc. apply omap_seq_lookup; [lia|]. intros i p Hi Hp.
  replace (n mod WINDOW_SIZE + i + WINDOW_SIZE - Nat.min n WINDOW_SIZE)%nat
    with (n mod WINDOW_SIZE + (i + WINDOW_SIZE - Nat.min n WINDOW_SIZE))%nat
    by (unfold WINDOW_SIZE in *; lia).
  rewrite Nat.Div0.add_mod_idemp_l.
  replace ((n + (i + WINDOW_SIZE - Nat.min n WINDOW_SIZE)) mod WINDOW_SIZE)%nat
    with ((n - WINDOW_SIZE + i) mod WINDOW_SIZE)%nat.
  - apply H4; [done|]. unfold n. lia.
  - destruct (Nat.le_gt_cases WINDOW_SIZE n).
    + replace (n + (i + WINDOW_SIZE - Nat.min n WINDOW_SIZE))%nat
        with (n - WINDOW_SIZE + i + 1 * WINDOW_SIZE)%nat by lia. by rewrite Nat.Div0.mod_add.
    + replace (n + (i + WINDOW_SIZE - Nat.min n WINDOW_SIZE))%nat
        with (n - WINDOW_SIZE + i + 1 * WINDOW_SIZE)%nat by lia. by rewrite Nat.Div0.mod_add.
Qed.

(** ** The threat level *)

Definition threat_rank (level : string) : Z :=
  if String.eqb level "CRITICAL" then 5 else if String.eqb level "HIGH" then 4
  else if String.eqb level "ELEVATED" then 3 else if String.eqb level "GUARDED" then 2
  else if String.eqb level "LOW" then 1 else 0.

(** The rank as a function of the two counts. *)
Definition rank_of (critical warning : Z) : Z :=
  if 3 <=? critical then 5 else if 2 <=? critical then 4 else if 1 <=? critical then 3
  else if 2 <=? warning then 2 else if 1 <=? warning then 1 else 0.

Lemma threat_level_rank l :
  threat_rank (threat_level l) = rank_of (count_severity "CRITICAL" l) (count_severity "WARNING" l).
Proof.
  unfold threat_level, rank_of. cbv zeta.
  repeat match goal with |- context [if ?b then _ else _] => destruct b; [done|] end. done.
Qed.

Lemma count_severity_app sev l1 l2 :
  count_severity sev (l1 ++ l2) = count_severity sev l1 + count_severity sev l2.
Proof. unfold count_severity. rewrite List.filter_app, length_app. lia. Qed.

Lemma rank_of_mono c1 c2 w1 w2 : c1 <= c2 → w1 <= w2 → rank_of c1 w1 <= rank_of c2 w2.
Proof.
  intros Hc Hw. unfold rank_of.
  repeat match goal with |- context [?a <=? ?b] => destruct (Z.leb_spec a b) end; lia.
Qed.

(** More evidence never lowers the reported level: adding patterns to a
    report keeps its level or raises it; patterns of severity HIGH or LOW leave
    it as it is. *)
Theorem threat_level_monotone l extra :
  threat_rank (threat_level l) <= threat_rank (threat_level (l ++ extra)) ∧
  (Forall (λ p, pt_severity p = "HIGH" ∨ pt_severity p = "LOW") extra →
   threat_level (l ++ extra) = threat_level l).
Proof.
  split.
  - rewrite !threat_level_rank, !count_severity_app.
    apply rank_of_mono; unfold count_severity; lia.
  - intros Hx. unfold threat_level. rewrite !count_severity_app.
    assert (∀ sev, sev ≠ "HIGH" → sev ≠ "LOW" → count_severity sev extra = 0) as H0.
    { intros sev H1 H2. unfold count_severity. induction Hx as [|p extra Hp _ IH]; [done|].
      cbn [List.filter]. destruct (String.eqb_spec (pt_severity p) sev) as [Heq|]; [|done].
      destruct Hp as [Hp|Hp]; congruence. }
    by rewrite !H0, !Z.add_0_r by done.
Qed.

Definition pattern_with (sev : string) : pattern := Pattern "P" sev "" "" (S754_zero false).

Lemma threat_level_monotone_witness :
  threat_level [pattern_with "WARNING"; pattern_with "HIGH"] = "LOW".
Proof.
  exact (proj2 (threat_level_monotone [pattern_with "WARNING"] [pattern_with "HIGH"])
    ltac:(repeat constructor)).
Defined.

(** ** Confidences *)

(** Disclosure lowers a memory pattern's confidence but cannot hide it: for
    all readings the confidence of patterns 11 and 15 stays at or above the 0.30
    their last test asks for, so that test never fails. *)
Theorem disclosure_never_hides throttled drain ooms disclosed :
  (lit "0.30" <=? pressure_confidence throttled drain ooms disclosed)%D = true ∧
  (lit "0.30" <=? trap_confidence throttled disclosed)%D = true.
Proof.
  unfold pressure_confidence, trap_confidence. cbv zeta. unfold add_if.
  destruct (4 <? throttled), (lit "400.0" <? drain)%D, (1 <? ooms), (2 <? throttled), disclosed;
    split; vm_compute; reflexivity.
Qed.

(** ** Integers of the result files *)

Lemma dz_abs m e : bounded dprec demax m e = true →
  Z.abs (Z_of_d (S754_finite false m e)) * 2 ^ 1074 <= Zpos m * 2 ^ (e + 1074).
Proof.
  intros Hb. apply bounded_range in Hb as (_ & He & _). cbn [Z_of_d cond_Zopp].
  destruct (Z.leb_spec 0 e) as [Hp|Hn].
  - rewrite Z.pow_add_r by lia. rewrite Z.abs_eq by lia. lia.
  - rewrite Z.abs_eq by (apply Z.div_pos; lia).
    replace (2 ^ 1074) with (2 ^ (- e) * 2 ^ (e + 1074)) by (rewrite <- Z.pow_add_r by lia; f_equal; lia).
    pose proof (Z.mul_div_le (Zpos m) (2 ^ (- e))). nia.
Qed.

(** A finite double between two integers truncates to an integer between them. *)
Lemma trunc_between d hi :
  0 <= hi → fin d = true → Z.abs (dz d) <= hi * 2 ^ 1074 → Z.abs (Z_of_d d) <= hi.
Proof.
  intros Hhi Hd Hle. destruct d as [s|s| |s m e]; try done; cbn [fin dz] in *.
  assert (Z.abs (Z_of_d (S754_finite s m e)) = Z.abs (Z_of_d (S754_finite false m e))) as ->
    by (destruct s; cbn [Z_of_d cond_Zopp]; lia).
  pose proof (dz_abs m e Hd).
  assert (Z.abs (cond_Zopp s (Zpos m * 2 ^ (e + 1074))) = Zpos m * 2 ^ (e + 1074)) as Heq.
  { apply bounded_range in Hd as (_ & He & _). destruct s; cbn [cond_Zopp]; lia. }
  rewrite Heq in Hle. nia.
Qed.

Lemma json_get_double_canon json key d : json_get_double json key = Some d → canon d = true.
Proof.
  unfold json_get_double. destruct (find_after _ _) as [p|]; [|done].
  destruct (strtod (skip_spaces p)) as [[v r]|] eqn:Hs; [|done]. intros [= <-].
  by apply strtod_canon in Hs.
Qed.

Lemma d_of_int_max : fin (d_of_Z INT_MAX) = true ∧ dz (d_of_Z INT_MAX) = INT_MAX * 2 ^ 1074.
Proof. split; vm_compute; reflexivity. Qed.

Lemma d_of_int_min : fin (d_of_Z INT_MIN) = true ∧ dz (d_of_Z INT_MIN) = INT_MIN * 2 ^ 1074.
Proof. split; vm_compute; reflexivity. Qed.

Lemma trunc_sign s m e : if (s : bool) then Z_of_d (S754_finite s m e) <= 0 else 0 <= Z_of_d (S754_finite s m e).
Proof.
  assert (0 <= if 0 <=? e then Zpos m * 2 ^ e else Zpos m / 2 ^ (- e)).
  { destruct (Z.leb_spec 0 e); [apply Z.mul_nonneg_nonneg; lia|apply Z.div_pos; lia]. }
  destruct s; cbn [Z_of_d cond_Zopp]; lia.
Qed.

Lemma in_int_range d :
  fin d = true → INT_MIN * 2 ^ 1074 <= dz d <= INT_MAX * 2 ^ 1074 → INT_MIN <= Z_of_d d <= INT_MAX.
Proof.
  intros Hd [Hlo Hhi]. destruct d as [s|s| |s m e]; try done.
  pose proof (trunc_sign s m e) as Hs. cbn [fin] in Hd.
  assert (0 <= Zpos m * 2 ^ (e + 1074)) by (apply bounded_range in Hd as (_ & He & _); lia).
  unfold INT_MIN, INT_MAX in *. destruct s; cbn [dz cond_Zopp] in Hlo, Hhi.
  - pose proof (trunc_between (S754_finite true m e) 2147483648 ltac:(lia) Hd) as Ht.
    cbn [dz cond_Zopp] in Ht. lia.
  - pose proof (trunc_between (S754_finite false m e) 2147483647 ltac:(lia) Hd) as Ht.
    cbn [dz cond_Zopp] in Ht. lia.
Qed.

(** Whatever number a result file holds, [json_get_int] either reports a
    failure or delivers a C [int]: the conversion it performs is never out of
    range, for NaN, infinite and huge values included. *)
Theorem json_int_in_range json key z : json_get_int json key = Some z → INT_MIN <= z <= INT_MAX.
Proof.
  unfold json_get_int. destruct (json_get_double json key) as [d|] eqn:Hd; [|done].
  apply json_get_double_canon in Hd. destruct (_ || (d <? d_of_Z INT_MIN)%D) eqn:Hg; [done|].
  apply orb_false_elim in Hg as [Hg Hmin]. apply orb_false_elim in Hg as [Hg Hmax].
  apply orb_false_elim in Hg as [Hnan Hinf]. intros [= <-].
  assert (fin d = true) as Hf by (destruct d; done).
  destruct d_of_int_max as [Hf1 Hv1], d_of_int_min as [Hf2 Hv2].
  rewrite dlt_spec in Hmax, Hmin by done. rewrite Hv1 in Hmax. rewrite Hv2 in Hmin.
  bool_hyps. apply in_int_range; [exact Hf|split; assumption].
Qed.

Definition sample_json (value : string) : string :=
  "{" +:+ QUOTE +:+ "crashes" +:+ QUOTE +:+ ": " +:+ value +:+ "}".

Lemma json_int_in_range_witness :
  json_get_int (sample_json "2147483647") "crashes" = Some INT_MAX ∧ INT_MIN <= INT_MAX <= INT_MAX ∧
  json_get_int (sample_json "1e300") "crashes" = None.
Proof.
  split_and!; [vm_compute; reflexivity| | |vm_compute; reflexivity].
  all: apply (json_int_in_range (sample_json "2147483647") "crashes" INT_MAX);
    vm_compute; reflexivity.
Defined.

(** ** Two hostile result files *)

(** The files of a poll, each a JSON object with the given members. *)
Definition member (m : string * string) : string := QUOTE +:+ fst m +:+ QUOTE +:+ ": " +:+ snd m.

Fixpoint members (l : list (string * string)) : string :=
  match l with [] => "" | [m] => member m | m :: l' => member m +:+ ", " +:+ members l' end.

Definition daemon_file (l : list (string * string)) : string := "{" +:+ members l +:+ "}".

Definition files_of (l : list (string * list (string * string))) (name : string) : option string :=
  match List.find (λ p, String.eqb (fst p) name) l with
  | Some p => Some (daemon_file (snd p))
  | None => None
  end.

(** Ten active sensors. *)
Definition busy_sensors : string → option string :=
  files_of [("metalheadd", [("sensitive_active", "10")]); ("rahzerd", [("established_tcp4", "30")])].

(** A cool device that drains 1e300 mAh per hour. *)
Definition absurd_drain : string → option string :=
  files_of [("leatherheadd", [("thermal_score", "50"); ("throttled_cores", "0")]);
            ("bebopd", [("drain_mah_h", "1e300")])].

(** Two things a poll does not bound.  The confidence of the sensor pattern
    grows with the number of sensors and passes 1; and the byte count handed to
    [write] for splinterd is what [snprintf] returns, so a long enough detail,
    which one hostile number in a result file is enough to cause, makes it larger
    than the 512-byte buffer. *)
Theorem poll_unbounded :
  (∃ p, o_patterns (exec (poll_once busy_sensors 0) overlord_init) = [p] ∧
        pt_name p = "SENSOR_NETWORK_EXFILTRATION" ∧ (lit "1.0" <? pt_confidence p)%D = true) ∧
  (∃ buf n, o_splinter (exec (poll_once absurd_drain 0) overlord_init) = [(buf, n)] ∧
        String.length buf = 511%nat ∧ 512 < n).
Proof.
  split.
  - eexists. split; [vm_compute; reflexivity|]. split; vm_compute; reflexivity.
  - do 2 eexists. split; [vm_compute; reflexivity|]. split; vm_compute; reflexivity.
Qed.
