(* ===== verification/Nulld.v ===== *)
(** * nulld: the result file ([write_json] of [src/daemon/nulld.c])

    The text overlordd reads about the screen, the idle time and the connection
    spikes. *)

From S2P Require Import Prelude CString.

Inductive screen_state_t := SCREEN_UNKNOWN | SCREEN_ON | SCREEN_OFF.

Definition screen_str (s : screen_state_t) : string :=
  match s with SCREEN_ON => "on" | SCREEN_OFF => "off" | SCREEN_UNKNOWN => "unknown" end.

(** The arguments of [write_json], the formatted local time and the two globals
    of the backend's health. *)
Record nulld_report := NulldReport {
  nr_ts : string; nr_screen : screen_state_t; nr_tcp4 : Z; nr_tcp6 : Z; nr_rx : Z; nr_tx : Z;
  nr_spike : bool; nr_idle : Z; nr_idle_rx : Z; nr_idle_tx : Z; nr_suspicious : string;
  nr_events : Z; nr_healthy : bool; nr_failures : Z }.

Definition bool_str (b : bool) : string := if b then "true" else "false".

(** A member of the object, on its own line: its name, and the text of its value. *)
Definition json_line (indent name value : string) : string :=
  indent +:+ QUOTE +:+ name +:+ QUOTE +:+ ": " +:+ value +:+ NLs.

Definition quoted (s : string) : string := QUOTE +:+ s +:+ QUOTE.

Definition nulld_write_json (r : nulld_report) : string :=
  scat
   ["{" +:+ NLs;
    json_line "  " "daemon" (quoted "nulld" +:+ ",");
    json_line "  " "version" (quoted "1.1" +:+ ",");
    json_line "  " "timestamp" (quoted (nr_ts r) +:+ ",");
    json_line "  " "screen" (quoted (screen_str (nr_screen r)) +:+ ",");
    json_line "  " "idle_seconds" (fmt_d (nr_idle r) +:+ ",");
    json_line "  " "connections" "{";
    json_line "    " "tcp4" (fmt_d (nr_tcp4 r) +:+ ",");
    json_line "    " "tcp6" (fmt_d (nr_tcp6 r));
    "  }," +:+ NLs;
    json_line "  " "traffic" "{";
    json_line "    " "rx_bytes" (fmt_d (nr_rx r) +:+ ",");
    json_line "    " "tx_bytes" (fmt_d (nr_tx r) +:+ ",");
    json_line "    " "idle_rx_delta" (fmt_d (nr_idle_rx r) +:+ ",");
    json_line "    " "idle_tx_delta" (fmt_d (nr_idle_tx r));
    "  }," +:+ NLs;
    json_line "  " "idle_spike_detected" (bool_str (nr_spike r) +:+ ",");
    json_line "  " "total_spike_events" (fmt_d (nr_events r) +:+ ",");
    json_line "  " "suspicious_transmitters" (quoted (nr_suspicious r) +:+ ",");
    json_line "  " "sensor_health" "{";
    json_line "    " "adb_reachable" (bool_str (nr_healthy r) +:+ ",");
    json_line "    " "consecutive_failures" (fmt_d (nr_failures r));
    "  }" +:+ NLs;
    "}" +:+ NLs].
