(* ===== verification/Screen.v ===== *)
(** * overlordd reads nulld: the screen field

    [json_get_str] looks for a name followed by a colon and, at once, a quote;
    nulld writes a space between them.  The consequences for the patterns that
    ask whether the screen is off. *)

From S2P Require Import Prelude CString Double Wire Ring World Ingest Queues Overlord Nulld Fleet.
From Stdlib Require Import Ascii.

(** ** No quote right after a colon *)

Definition quote : ascii := chr 34.

(** Read [s] after a character that is a colon if [p]: no quote follows a colon. *)
Fixpoint apart (p : bool) (s : string) : bool :=
  match s with
  | EmptyString => true
  | String c s' => negb (p && Ascii.eqb c quote) && apart (Ascii.eqb c ":") s'
  end.

(** Whether the last character read is a colon. *)
Fixpoint colon_last (p : bool) (s : string) : bool :=
  match s with EmptyString => p | String c s' => colon_last (Ascii.eqb c ":") s' end.

(** Reading [s] from [p] to [q] meets no quote after a colon. *)
Definition reads (p : bool) (s : string) (q : bool) : Prop := apart p s = true ∧ colon_last p s = q.

Lemma reads_app p s q t r : reads p s q → reads q t r → reads p (s +:+ t) r.
Proof.
  unfold reads. revert p. induction s as [|c s IH]; intros p.
  - intros [_ <-] Ht. exact Ht.
  - rewrite app_cons_str. cbn [apart colon_last]. intros [[Hc Hs]%andb_prop Hq] Ht.
    rewrite Hc. cbn [andb]. by apply IH.
Qed.

(** A text without quotes and colons. *)
Lemma reads_plain p s :
  s ≠ "" → none_of (λ c, Ascii.eqb c quote || Ascii.eqb c ":") s = true → reads p s false.
Proof.
  unfold reads. revert p. induction s as [|c s IH]; intros p Hne; [done|].
  rewrite none_of_cons. intros [Hc Hs]%andb_prop. apply negb_true_iff, orb_false_elim in Hc as [Hq Hc].
  cbn [apart colon_last]. rewrite Hq, Hc, andb_false_r. cbn [negb andb].
  destruct s as [|c' s]; [done|]. by apply IH.
Qed.

Lemma reads_number p z : reads p (fmt_d z) false.
Proof.
  apply reads_plain; [apply fmt_d_nonempty|]. apply (numeric_none _ _) with (2 := fmt_d_numeric z).
  intros c. destruct c as [[] [] [] [] [] [] [] []]; vm_compute; congruence.
Qed.

Lemma reads_scat l : Forall (λ s, reads false s false) l → reads false (scat l) false.
Proof. induction 1 as [|s l Hs _ IH]; [done|]. cbn [scat]. by eapply reads_app. Qed.

Lemma reads_json_line indent name value :
  reads false indent false → reads false name false → reads false value false →
  reads false (json_line indent name value) false.
Proof.
  intros Hi Hn Hv. unfold json_line. repeat (eapply reads_app; [eassumption || (split; reflexivity)|]).
  split; reflexivity.
Qed.

Lemma reads_quoted s : reads false s false → reads false (quoted s +:+ ",") false.
Proof.
  intros Hs. unfold quoted. rewrite !app_assoc_str.
  repeat (eapply reads_app; [eassumption || (split; reflexivity)|]). split; reflexivity.
Qed.

Lemma reads_number_comma z : reads false (fmt_d z +:+ ",") false.
Proof. eapply reads_app; [apply reads_number|split; reflexivity]. Qed.

(** A report whose two free texts hold no quote after a colon and do not end in
    one: a formatted time, and the sanitised list of packages. *)
Definition report_ok (r : nulld_report) : Prop :=
  reads false (nr_ts r) false ∧ reads false (nr_suspicious r) false.

Lemma nulld_reads r : report_ok r → reads false (nulld_write_json r) false.
Proof.
  intros [Hts Hsus]. unfold nulld_write_json. apply reads_scat.
  repeat apply Forall_cons_2; try apply Forall_nil_2;
    try (apply reads_json_line; [split; reflexivity|split; reflexivity|]);
    try (by apply reads_quoted); try apply reads_number_comma; try apply reads_number;
    try (split; reflexivity).
  - by destruct (nr_screen r).
  - by destruct (nr_spike r).
  - by destruct (nr_healthy r).
Qed.

(** ** The field is never found *)

Lemma apart_false p s : apart p s = true → apart false s = true.
Proof. destruct s as [|c s]; [done|]. cbn [apart andb negb]. by intros [_ ->]%andb_prop. Qed.

Lemma apart_stake n p s : apart p s = true → apart p (stake n s) = true.
Proof.
  revert p s. induction n as [|n IH]; intros p [|c s]; cbn [stake apart]; try done.
  intros [-> Hs]%andb_prop. by apply IH.
Qed.

(** The text json_get_str looks for. *)
Definition screen_needle : string := snprintf 128 (QUOTE +:+ "screen" +:+ QUOTE +:+ ":" +:+ QUOTE).

Lemma no_needle s : apart false s = true → strstr s screen_needle = None.
Proof.
  induction s as [|c s IH]; intros Hs; cbn [strstr];
    destruct (has_prefix screen_needle _) eqn:Hp; try done.
  - apply has_prefix_split in Hp as [r Hr]. by rewrite Hr in Hs.
  - apply IH. cbn [apart] in Hs. apply andb_prop in Hs as [_ Hs]. by eapply apart_false.
Qed.

Lemma screen_never_off text : apart false text = true → screen_off text = false.
Proof.
  intros Ht. unfold screen_off, json_get_str, find_after.
  change (snprintf 128 _) with screen_needle. by rewrite no_needle.
Qed.

(** ** The five patterns *)

(** The detectors that never add their pattern when the screen field is not found. *)
Definition SCREEN_PATTERNS : list string :=
  ["IDLE_EXFILTRATION_BEACON"; "SENSOR_STALKING_CAMOUFLAGE"; "WAKE_LOCK_ABUSE_SYNDROME";
   "DOZE_BYPASS_SYNDROME"; "RADIO_SILENCE_FLIP"].

Definition live_names : list (option string) :=
  map (λ n, if existsb (String.eqb n) SCREEN_PATTERNS then None else Some n) PATTERN_NAMES.

Section blind.
Context (files : string → option string) (text : string).
Context (Hfile : read_daemon files "nulld" = Some text) (Hoff : screen_off text = false).

Ltac dead_tac :=
  intros o; cbv zeta; rewrite ?Hfile;
  repeat match goal with
  | |- exec (match read_daemon files ?n with _ => _ end) _ = _ => destruct (read_daemon files n); [|done]
  end;
  rewrite ?Hfile, Hoff, ?andb_false_r; cbn [andb]; reflexivity.

Lemma detectors_blind : Forall2 may_add live_names (detectors files).
Proof.
  pose proof (detectors_add files) as Hadd. unfold PATTERN_NAMES, detectors in Hadd.
  rewrite !Forall2_cons in Hadd. destruct Hadd as (?&?&?&?&?&?&?&?&?&?&?&?&?&?&?&?&?&_).
  unfold live_names, detectors. cbn [map PATTERN_NAMES existsb SCREEN_PATTERNS String.eqb Ascii.eqb Bool.eqb orb].
  repeat apply Forall2_cons_2; try assumption; [..|apply Forall2_nil_2].
  - unfold detect_idle_exfil_beacon. dead_tac.
  - unfold detect_sensor_stalking. dead_tac.
  - unfold detect_wakelock_abuse. dead_tac.
  - unfold detect_doze_bypass. dead_tac.
  - unfold detect_radio_silence. dead_tac.
Qed.

End blind.

(** overlordd never learns that the screen is off: on every file nulld can
    write, with the screen off or not, the screen field is not found, and so no
    poll ever reports one of the five patterns of [SCREEN_PATTERNS], whatever the
    other daemons wrote. *)
Theorem screen_patterns_never_reported files now o r :
  report_ok r → files "nulld" = Some (nulld_write_json r) →
  Forall (λ p, pt_name p ∉ SCREEN_PATTERNS) (o_patterns (exec (poll_once files now) o)).
Proof.
  intros Hr Hfile.
  assert (read_daemon files "nulld" = Some (stake (Z.to_nat 65535) (nulld_write_json r))) as Hread
    by (unfold read_daemon; by rewrite Hfile).
  destruct (poll_reports live_names files now o) as (Hsub & _).
  { eapply detectors_blind; [exact Hread|]. apply screen_never_off, apart_stake, nulld_reads, Hr. }
  apply Forall_forall. intros p Hp Hin.
  assert (pt_name p ∈ omap id live_names) as Hlive.
  { eapply elem_of_sublist; [|exact Hsub]. apply list_elem_of_In, in_map, list_elem_of_In, Hp. }
  revert Hin. revert Hlive. generalize (pt_name p). clear. intros n Hlive Hin.
  assert (forallb (λ n, negb (existsb (String.eqb n) SCREEN_PATTERNS)) (omap id live_names) = true) as Hf by by vm_compute.
  rewrite forallb_forall in Hf. specialize (Hf n (proj1 (list_elem_of_In _ _) Hlive)). apply negb_true_iff in Hf.
  apply not_true_iff_false in Hf. apply Hf. apply existsb_exists. exists n.
  split; [by apply list_elem_of_In|apply String.eqb_refl].
Qed.

(** The screen has been off for ten minutes, with three spikes and a heavy drain. *)
Definition sample_report : nulld_report :=
  NulldReport "2026-07-27T12:00:00" SCREEN_OFF 3 1 0 0 true 900 0 0 "com.miui.analytics(+2) " 3 true 0.

Definition sample_files (name : string) : option string :=
  if String.eqb name "nulld" then Some (nulld_write_json sample_report)
  else files_of [("bebopd", [("drain_mah_h", "250.0")]); ("burned", [("privacy_signal_count", "7")])] name.

Lemma screen_patterns_never_reported_witness :
  Forall (λ p, pt_name p ∉ SCREEN_PATTERNS) (o_patterns (exec (poll_once sample_files 0) overlord_init)).
Proof.
  apply (screen_patterns_never_reported sample_files 0 overlord_init sample_report); [|reflexivity].
  split; split; reflexivity.
Defined.
