(* ===== verification/Numbers.v ===== *)
(** * Numbers of the result files

    An integer printed by one daemon with [%d] and read by another through
    [strtod] and a conversion to [int] is the same integer: every integer below
    2^53 in magnitude is a double, and the conversions are exact on it. *)

From S2P Require Import Prelude CString Double Strtod Wire Krang Digits.
From Stdlib Require Import Ascii.

(** ** Integers are doubles *)

(** [d] has the value [z]. *)
Definition value_is (d : double) (z : Z) : Prop := fin d = true ∧ dz d = z * 2 ^ 1074.

Lemma exact_double p : Zpos p < 2 ^ 53 → ∃ x, value_is x (Zpos p).
Proof.
  intros Hp. pose proof (digits2_bounds p) as Hd. set (d := Zpos (digits2_pos p)) in *.
  assert (d <= 53) as Hle.
  { destruct (Z.le_gt_cases d 53); [done|]. assert (2 ^ 53 <= 2 ^ (d - 1)) by (apply Z.pow_le_mono_r; lia). lia. }
  destruct (Z.eq_dec d 53) as [Heq|Hne].
  - exists (S754_finite false p 0). split; [|cbn [dz cond_Zopp]; by rewrite Z.add_0_l].
    cbn [fin]. apply bounded_spec. fold d. rewrite E_eq. lia.
  - set (k := Z.to_pos (53 - d)). assert (Zpos k = 53 - d) as Hk by (unfold k; rewrite Z2Pos.id; lia).
    exists (S754_finite false (Pos.iter xO p k) (- Zpos k)). split.
    + cbn [fin]. apply bounded_spec. rewrite digits2_shift. fold d. rewrite E_eq. lia.
    + cbn [dz cond_Zopp]. rewrite iter_xO, <- Z.mul_assoc, <- Z.pow_add_r by lia. do 2 f_equal. lia.
Qed.

Lemma round_exact s p :
  Zpos p < 2 ^ 53 →
  fin (binary_round dprec demax s p 0) = true ∧
  dz (binary_round dprec demax s p 0) = cond_Zopp s (Zpos p * 2 ^ 1074).
Proof.
  intros Hp. destruct (exact_double p Hp) as (x & Hx & Hv).
  assert (mag (dz x) (-1074) = mag (Zpos p) 0) as Hm.
  { rewrite Hv, mag_shift by lia. done. }
  assert (0 <= dz x) as H0 by (rewrite Hv; lia).
  destruct (binary_round_rounds s p 0 ltac:(lia)) as [[_ Hinf]|(Hf & v & _ & Hd & Hz)].
  - specialize (Hinf x Hx H0). lia.
  - split; [done|]. rewrite Hd. f_equal. destruct (Hz x Hx H0) as [H1 H2]. rewrite Hv in *. lia.
Qed.

Lemma d_of_Z_value z : 0 <= z < 2 ^ 53 → value_is (d_of_Z z) z.
Proof.
  intros Hz. destruct z as [|p|p]; [done| |lia]. unfold d_of_Z. cbn [binary_normalize].
  destruct (round_exact false p) as [Hf Hd]; [lia|]. by split.
Qed.

(** A double with an integer value converts to it. *)
Lemma value_int d z : value_is d z → Z_of_d d = z.
Proof.
  intros [Hf Hd]. destruct d as [s|s| |s m e]; cbn [fin dz] in *; try done; [cbn [Z_of_d]; lia|].
  apply bounded_range in Hf as (_ & He & _). cbn [Z_of_d].
  assert (Zpos m * 2 ^ (e + 1074) = Z.abs z * 2 ^ 1074) as Ha
    by (destruct s; cbn [cond_Zopp] in Hd; lia).
  assert ((if 0 <=? e then Zpos m * 2 ^ e else Zpos m / 2 ^ (- e)) = Z.abs z) as ->.
  { destruct (Z.leb_spec 0 e).
    - rewrite Z.pow_add_r in Ha by lia. nia.
    - replace (2 ^ 1074) with (2 ^ (- e) * 2 ^ (e + 1074)) in Ha
        by (rewrite <- Z.pow_add_r by lia; f_equal; lia).
      assert (Zpos m = Z.abs z * 2 ^ (- e)) as -> by nia.
      apply Z.div_mul. lia. }
  assert (0 < 2 ^ (e + 1074)) by lia.
  destruct s; cbn [cond_Zopp] in *; lia.
Qed.

(** ** Reading a printed integer *)

(** What may follow a number: the end, a comma, a line break, a brace, a space. *)
Definition number_ends (r : string) : Prop :=
  r = "" ∨ ∃ c r', r = String c r' ∧ c ∈ [","%char; NL; "}"%char; " "%char].

Lemma ends_stops r : number_ends r → stops 10 r.
Proof. intros [->|(c & r' & -> & Hc)]; [done|]. rewrite !elem_of_cons, elem_of_nil in Hc. by destruct Hc as [->|[->|[->|[->|[]]]]]. Qed.

Lemma numeric_no_x c : char_in NUMERIC c = true → Ascii.eqb "x" (lower c) = false.
Proof. destruct c as [[] [] [] [] [] [] [] []]; vm_compute; congruence. Qed.

Lemma no_hex_prefix z r : number_ends r → has_prefix_ci "0x" (fmt_d z +:+ r) = false.
Proof.
  intros Hr. pose proof (fmt_d_numeric z) as Hn. destruct (fmt_d z) as [|a s] eqn:Hz.
  { by apply fmt_d_nonempty in Hz. }
  rewrite app_cons_str. cbn [has_prefix_ci]. apply andb_false_iff. right.
  unfold all_in in Hn. cbn [schars forallb] in Hn. apply andb_prop in Hn as [_ Hn].
  destruct s as [|b s].
  - change ("" +:+ r) with r. destruct Hr as [->|(c & r' & -> & Hc)]; [done|].
    rewrite !elem_of_cons, elem_of_nil in Hc. by destruct Hc as [->|[->|[->|[->|[]]]]].
  - cbn [schars forallb] in Hn. apply andb_prop in Hn as [Hb _]. rewrite app_cons_str.
    by rewrite (numeric_no_x b Hb).
Qed.

Lemma no_word_prefix w d s :
  0 <= d < 16 → w ∈ ["infinity"; "inf"; "nan"] → has_prefix_ci w (String (hexd d) s) = false.
Proof.
  intros Hd Hw. rewrite !elem_of_cons, elem_of_nil in Hw.
  destruct Hw as [->|[->|[->|[]]]]; cbn [has_prefix_ci]; apply andb_false_iff; left;
    by apply (hexd_case (λ d, Ascii.eqb _ (lower (hexd d)) = false)).
Qed.

Lemma read_mantissa_int z r :
  0 <= z → number_ends r → ∃ n, (0 < n)%nat ∧ read_mantissa 10 (fmt_d z +:+ r) = (z, 0%nat, n, r).
Proof.
  intros Hz Hr. destruct (read_fmt_d z r Hz) as (n & Hn & Hrd). exists n. split; [done|].
  unfold read_mantissa. rewrite Hrd, read_stops by (by apply ends_stops).
  destruct Hr as [->|(c & r' & -> & Hc)]; [done|].
  rewrite !elem_of_cons, elem_of_nil in Hc. by destruct Hc as [->|[->|[->|[->|[]]]]].
Qed.

Lemma read_exponent_none r : number_ends r → read_exponent "e" "E" r = (0, r).
Proof.
  intros [->|(c & r' & -> & Hc)]; [done|].
  rewrite !elem_of_cons, elem_of_nil in Hc. by destruct Hc as [->|[->|[->|[->|[]]]]].
Qed.

Lemma scale10_int z : 0 <= z → scale10 z 0 = d_of_Z z.
Proof.
  intros Hz. destruct z as [|p|p]; [done| |lia]. unfold scale10. change (0 <=? 0) with true.
  cbv iota. by rewrite Z.pow_0_r, Z.mul_1_r.
Qed.

Lemma strtod_unsigned_int z r :
  0 <= z → number_ends r → strtod_unsigned (fmt_d z +:+ r) = Some (d_of_Z z, r).
Proof.
  intros Hz Hr. destruct (fmt_d_first z Hz) as (d & s & Hd & Hs).
  pose proof (no_hex_prefix z r Hr) as Hx. unfold strtod_unsigned. rewrite Hx.
  rewrite Hs, app_cons_str, !no_word_prefix, <- app_cons_str, <- Hs by (done || (rewrite !elem_of_cons; auto)).
  destruct (read_mantissa_int z r Hz Hr) as (n & Hn & Hm). unfold strtod_dec.
  rewrite Hm, read_exponent_none by done. rewrite scale10_int by done. by destruct n; [lia|].
Qed.

Lemma fmt_d_neg z : z < 0 → fmt_d z = String "-" (fmt_d (- z)).
Proof. intros Hz. by destruct z; try lia. Qed.

Lemma SFopp_value d z : value_is d z → value_is (SFopp d) (- z).
Proof.
  intros [Hf Hd]. destruct d as [s|s| |s m e]; cbn [fin dz SFopp] in *; try done.
  - split; [done|]. cbn [dz]. lia.
  - split; [done|]. cbn [dz]. destruct s; cbn [negb cond_Zopp] in *; lia.
Qed.

Lemma strtod_int z r :
  - 2 ^ 53 < z < 2 ^ 53 → number_ends r →
  ∃ d, strtod (fmt_d z +:+ r) = Some (d, r) ∧ value_is d z.
Proof.
  intros Hz Hr. unfold strtod. destruct (Z.lt_ge_cases z 0) as [Hneg|Hpos].
  - rewrite fmt_d_neg, app_cons_str by done.
    change (skip_while is_space (String "-" ?s)) with (String "-" s).
    change (read_sign (String "-" (fmt_d (- z) +:+ r))) with (true, fmt_d (- z) +:+ r).
    cbv beta iota. rewrite strtod_unsigned_int by (done || lia).
    eexists. split; [reflexivity|]. replace z with (- - z) at 2 by lia.
    apply SFopp_value, d_of_Z_value. lia.
  - destruct (fmt_d_first z Hpos) as (d & s & Hd & Hs).
    pose proof (strtod_unsigned_int z r Hpos Hr) as Hu. rewrite Hs, app_cons_str in *.
    pose proof (skip_blanks 0 d (s +:+ r) Hd) as Hskip. cbn [blanks] in Hskip.
    change ("" +:+ String (hexd d) (s +:+ r)) with (String (hexd d) (s +:+ r)) in Hskip.
    rewrite Hskip, hexd_sign, Hu by done. eexists. split; [reflexivity|]. apply d_of_Z_value. lia.
Qed.
