(* ===== verification/Lengths.v ===== *)
(** * How long a printed number is

    [%d] prints at most [k] digits of an integer below [10^k], and [%g] fewer
    than fifty characters of any double, so a record whose fields fit their
    arrays always fits the line of [gaveld_emit]. *)

From S2P Require Import Prelude CString Double Strtod Config World Ingest Wire Digits Numbers.
From Stdlib Require Import Ascii Decimal DecimalString DecimalFacts DecimalPos SpecFloat.

(** ** Integers *)

Lemma uint_value_ge u : ∀ acc, 0 <= acc →
  acc * 10 ^ Z.of_nat (String.length (NilEmpty.string_of_uint u)) <= uint_value acc u.
Proof.
  induction u; intros acc Hacc; cbn [NilEmpty.string_of_uint String.length uint_value]; [rewrite Z.mul_1_r; lia|..];
    rewrite Nat2Z.inj_succ, Z.pow_succ_r by lia; (etrans; [|apply IHu; lia]); nia.
Qed.

(** A positive number is printed without leading zeros. *)
Lemma to_uint_normal p : ∀ u, Pos.to_uint p ≠ D0 u.
Proof.
  intros u Hu. pose proof (Unsigned.to_of (Pos.to_uint p)) as H.
  rewrite Unsigned.of_to in H. cbn in H. rewrite Hu in H. unfold unorm in H.
  destruct (nzhead (D0 u)) eqn:Hn; try discriminate H; [|by apply nzhead_nonzero in Hn].
  apply (Unsigned.to_uint_nonzero p). by rewrite Hu, H.
Qed.

Lemma length_fmt_d z k : (0 < k)%nat → 0 <= z < 10 ^ Z.of_nat k → (String.length (fmt_d z) ≤ k)%nat.
Proof.
  intros Hk [H0 Hz]. destruct z as [|p|p]; [cbn; lia| |lia].
  unfold fmt_d. cbn [Z.to_int DecimalString.NilZero.string_of_int].
  pose proof (uint_value_of (Pos.to_uint p)) as Hv.
  assert (Z.of_uint (Pos.to_uint p) = Zpos p) as Hp.
  { unfold Z.of_uint. by rewrite Unsigned.of_to. }
  rewrite Hp in Hv. destruct (Nat.le_gt_cases (String.length (NilZero.string_of_uint (Pos.to_uint p))) k)
    as [|Hlong]; [done|]. exfalso.
  assert (∀ d u, 1 <= d → Zpos p = uint_value d u →
    (k ≤ String.length (NilEmpty.string_of_uint u))%nat → False) as Hbig.
  { intros d u Hd Hu Hl. pose proof (uint_value_ge u d ltac:(lia)) as Hge. rewrite <-Hu in Hge.
    assert (10 ^ Z.of_nat k <= 10 ^ Z.of_nat (String.length (NilEmpty.string_of_uint u)))
      by (apply Z.pow_le_mono_r; lia). nia. }
  pose proof (to_uint_normal p) as Hn.
  destruct (Pos.to_uint p) eqn:Hu; cbn [uint_value NilZero.string_of_uint NilEmpty.string_of_uint String.length] in *;
    [lia|by eapply Hn|..]; (eapply Hbig; [|exact Hv|]; lia).
Qed.

(** ** Doubles *)

Lemma round_div_bound n d b : 0 < d → 0 <= n <= b * d → 0 <= round_div n d <= b + 1.
Proof.
  intros Hd Hn. unfold round_div.
  assert (0 <= n / d) by (apply Z.div_pos; lia).
  assert (n / d <= b) by (apply Z.div_le_upper_bound; lia).
  repeat split_match; lia.
Qed.

(** Linear arithmetic with divisions by constants. *)
Ltac div_lia := Z.to_euclidean_division_equations; lia.

(** Powers of two between powers of ten. *)
Lemma two_le_ten a : 0 <= a → 2 ^ a <= 10 ^ (10 * (a / 33 + 1)).
Proof.
  intros Ha. etrans; [apply (Z.pow_le_mono_r 2 a (33 * (a / 33 + 1))); div_lia|].
  rewrite !Z.pow_mul_r by div_lia. apply Z.pow_le_mono_l. lia.
Qed.

Lemma ten_le_two b : 0 <= b → 10 ^ (3 * (b / 10)) <= 2 ^ b.
Proof.
  intros Hb. etrans; [|apply (Z.pow_le_mono_r 2 (10 * (b / 10)) b); div_lia].
  rewrite !Z.pow_mul_r by div_lia. apply Z.pow_le_mono_l. lia.
Qed.

(** The value below [2^a], the scale [10^k]. *)
Lemma scale_bound a k c :
  0 <= c → (0 <= a → 10 * (a / 33 + 1) + k <= c) → (a < 0 → k <= c + 3 * (- a / 10)) →
  2 ^ Z.max 0 a * 10 ^ Z.max 0 k <= 10 ^ c * (2 ^ Z.max 0 (- a) * 10 ^ Z.max 0 (- k)).
Proof.
  intros Hc Hpos Hneg.
  assert (0 < 10 ^ Z.max 0 (- k)) by (apply Z.pow_pos_nonneg; lia).
  destruct (Z.leb_spec 0 a).
  - rewrite (Z.max_r 0 a), (Z.max_l 0 (- a)), Z.pow_0_r, Z.mul_1_l, <-Z.pow_add_r by lia.
    etrans; [apply Z.mul_le_mono_nonneg_r; [lia|by apply two_le_ten]|].
    rewrite <-Z.pow_add_r by div_lia. apply Z.pow_le_mono_r; lia.
  - rewrite (Z.max_l 0 a), (Z.max_r 0 (- a)), Z.pow_0_r, Z.mul_1_l by lia.
    etrans; [|apply Z.mul_le_mono_nonneg_l; [lia|apply Z.mul_le_mono_nonneg_r; [lia|apply ten_le_two; lia]]].
    rewrite <-!Z.pow_add_r by div_lia. apply Z.pow_le_mono_r; lia.
Qed.

(** The same for a mantissa below [2^d] with the exponent [e]. *)
Lemma scale_mantissa d m e P Q :
  0 <= d → 0 < m < 2 ^ d → 0 <= P →
  2 ^ Z.max 0 (d + e) * P <= Q * 2 ^ Z.max 0 (- (d + e)) →
  m * 2 ^ Z.max 0 e * P <= Q * 2 ^ Z.max 0 (- e).
Proof.
  intros Hd Hm HP H.
  etrans; [apply Z.mul_le_mono_nonneg_r; [done|apply Z.mul_le_mono_nonneg_r;
    [apply Z.pow_nonneg; lia|apply Z.lt_le_incl, Hm]]|].
  destruct (Z.leb_spec 0 e); [|destruct (Z.leb_spec 0 (d + e))].
  - rewrite !Z.max_r, !Z.max_l, !Z.pow_0_r in * by lia. by rewrite <-Z.pow_add_r by lia.
  - rewrite (Z.max_r 0 (d + e)), (Z.max_l 0 (- (d + e))), Z.pow_0_r, Z.mul_1_r in H by lia.
    rewrite (Z.max_l 0 e), (Z.max_r 0 (- e)), Z.pow_0_r, Z.mul_1_r by lia.
    replace d with (d + e + - e) at 1 by lia. rewrite Z.pow_add_r by lia.
    pose proof (Z.pow_pos_nonneg 2 (- e) ltac:(lia) ltac:(lia)). nia.
  - rewrite (Z.max_l 0 (d + e)), (Z.max_r 0 (- (d + e))), Z.pow_0_r, Z.mul_1_l in H by lia.
    rewrite (Z.max_l 0 e), (Z.max_r 0 (- e)), Z.pow_0_r, Z.mul_1_r by lia.
    replace (- e) with (d + - (d + e)) by lia. rewrite (Z.pow_add_r 2 d) by lia.
    pose proof (Z.pow_pos_nonneg 2 d ltac:(lia) ltac:(lia)). nia.
Qed.

(** [%g] rounds to six digits; twenty-five are a safe bound. *)
Lemma scaled_small m e :
  bounded dprec demax m e = true →
  0 <= scaled m e (5 - exp10 m e) <= 10 ^ 24 + 1 ∧ -400 <= exp10 m e <= 400.
Proof.
  intros (Hm & He & _)%bounded_range.
  pose proof (Z.log2_spec (Zpos m) ltac:(lia)) as [_ Hlog]. set (l := Z.log2 (Zpos m)) in *.
  assert (0 <= l <= 53) as Hl.
  { split; [apply Z.log2_nonneg|]. apply (Z.log2_le_mono _ (2 ^ 53)). lia. }
  assert (let x := (l + e) * 30103 / 100000 in x - 1 <= exp10 m e <= x + 1) as Hx.
  { cbv zeta. unfold exp10. fold l. repeat split_match; lia. }
  cbv zeta in Hx. set (x := exp10 m e) in *. clearbody x.
  split; [|div_lia].
  unfold scaled. apply round_div_bound; [apply Z.mul_pos_pos; apply Z.pow_pos_nonneg; lia|].
  split; [repeat apply Z.mul_nonneg_nonneg; try apply Z.pow_nonneg; lia|].
  assert (2 ^ Z.max 0 (l + 1 + e) * 10 ^ Z.max 0 (5 - x) <=
          10 ^ 24 * (2 ^ Z.max 0 (- (l + 1 + e)) * 10 ^ Z.max 0 (- (5 - x)))) as Hs
    by (apply scale_bound; [lia|div_lia|div_lia]).
  rewrite (Z.mul_comm (2 ^ Z.max 0 (- (l + 1 + e)))), Z.mul_assoc in Hs.
  rewrite (Z.mul_comm (2 ^ Z.max 0 (- e))), Z.mul_assoc.
  apply (scale_mantissa (l + 1)); [lia|lia|apply Z.pow_nonneg; lia|done].
Qed.

Lemma length_trim_end f s : (String.length (trim_end f s) ≤ String.length s)%nat.
Proof.
  induction s as [|c s IH]; [done|]. cbn [trim_end String.length].
  destruct (trim_end f s); [destruct (f c)|]; cbn [String.length] in *; lia.
Qed.

Lemma length_drop_zeros s : (String.length (drop_zeros s) ≤ String.length s)%nat.
Proof. unfold drop_zeros. etrans; apply length_trim_end. Qed.

Lemma length_zeros n : String.length (zeros n) = n.
Proof. induction n; cbn; congruence. Qed.

Lemma length_pad_zeros n s : String.length (pad_zeros n s) = Nat.max n (String.length s).
Proof. unfold pad_zeros. rewrite length_app_str, length_zeros. lia. Qed.

Lemma length_fmt_fixed p k n :
  (0 < k)%nat → 0 <= n < 10 ^ Z.of_nat k → (String.length (fmt_fixed p n) ≤ k + 1 + p)%nat.
Proof.
  intros Hk Hn. unfold fmt_fixed. destruct p as [|p]; [etrans; [by apply (length_fmt_d n k)|lia]|].
  set (ten := 10 ^ Z.of_nat (S p)). assert (0 < ten) by (apply Z.pow_pos_nonneg; lia).
  assert (String.length (fmt_d (n / ten)) ≤ k)%nat.
  { apply length_fmt_d; [done|]. split; [apply Z.div_pos; lia|].
    apply Z.div_lt_upper_bound; [done|]. nia. }
  assert (String.length (fmt_d (n mod ten)) ≤ S p)%nat.
  { apply length_fmt_d; [lia|]. apply Z.mod_pos_bound. done. }
  rewrite !length_app_str, length_pad_zeros. cbn [String.length]. lia.
Qed.

Lemma length_with_sign b t : (String.length (with_sign b t) ≤ S (String.length t))%nat.
Proof. destruct b; cbn [with_sign]; [by rewrite length_app_str|lia]. Qed.

Lemma length_fmt_g6 x : canon x = true → (String.length (fmt_g6 x) ≤ 50)%nat.
Proof.
  destruct x as [s|s| |s m e]; cbn [canon fmt_g6]; intros Hc;
    [by destruct s; apply Nat.leb_le|by destruct s; apply Nat.leb_le|cbn; lia|].
  destruct (scaled_small m e Hc) as [Hn Hx].
  assert (∃ x n, (if scaled m e (5 - exp10 m e) =? 1000000 then (exp10 m e + 1, 100000)
                  else (exp10 m e, scaled m e (5 - exp10 m e))) = (x, n) ∧
          0 <= n < 10 ^ Z.of_nat 25 ∧ -400 <= x <= 401) as (x & n & -> & Hn' & Hx').
  { destruct (_ =? 1000000); do 2 eexists; (split; [done|]); lia. }
  etrans; [apply length_with_sign|].
  destruct ((-4 <=? x) && (x <? 6)) eqn:Hr.
  - bool_hyps. pose proof (length_fmt_fixed (Z.to_nat (5 - x)) 25 n ltac:(lia) Hn').
    pose proof (length_drop_zeros (fmt_fixed (Z.to_nat (5 - x)) n)).
    destruct (x =? 5); lia.
  - pose proof (length_fmt_fixed 5 25 n ltac:(lia) Hn').
    pose proof (length_drop_zeros (fmt_fixed 5 n)).
    pose proof (length_fmt_d (Z.abs x) 3 ltac:(lia) ltac:(lia)).
    rewrite !length_app_str, length_pad_zeros. destruct (x <? 0); cbn [String.length]; lia.
Qed.

(** ** Integer weights

    [%g] prints an integer below a million as [%d] does. *)

Lemma ge_pow10_neg m e l y :
  e <= 0 → 0 <= y → Zpos m = l * 2 ^ (- e) → ge_pow10 m e y = (10 ^ y <=? l).
Proof.
  intros He Hy Hm. unfold ge_pow10.
  rewrite (Z.max_r 0 y), (Z.max_r 0 (- e)), (Z.max_l 0 e), (Z.max_l 0 (- y)), !Z.pow_0_r, !Z.mul_1_r, Hm by lia.
  pose proof (Z.pow_pos_nonneg 2 (- e) ltac:(lia) ltac:(lia)).
  destruct (Z.leb_spec (10 ^ y) l), (Z.leb_spec (10 ^ y * 2 ^ (- e)) (l * 2 ^ (- e))); nia.
Qed.

(** The estimate of [exp10] between the powers of two below [2^20]. *)
Definition estimate_ok (l : Z) : bool :=
  let x := l * 30103 / 100000 in (0 <=? x) && (10 ^ x <=? 2 ^ l) && (2 ^ (l + 1) <=? 10 ^ (x + 2)).

Lemma estimates l : 0 <= l < 20 → estimate_ok l = true.
Proof.
  intros Hl. assert (forallb (λ n, estimate_ok (Z.of_nat n)) (seq 0 20) = true) as H by reflexivity.
  rewrite forallb_forall in H. rewrite <-(Z2Nat.id l) by lia. apply H, in_seq. lia.
Qed.

Lemma exp10_int m e k :
  e <= 0 → 1 <= k < 10 ^ 6 → Zpos m = k * 2 ^ (- e) →
  0 <= exp10 m e <= 5 ∧ 10 ^ exp10 m e <= k < 10 ^ (exp10 m e + 1).
Proof.
  intros He Hk Hm. unfold exp10.
  assert (Z.log2 (Zpos m) + e = Z.log2 k) as ->.
  { rewrite Hm, Z.log2_mul_pow2 by lia. lia. }
  pose proof (Z.log2_spec k ltac:(lia)) as [Hlo Hhi].
  assert (0 <= Z.log2 k < 20) as Hl.
  { split; [apply Z.log2_nonneg|]. apply Z.log2_lt_pow2; lia. }
  pose proof (estimates _ Hl) as Hest. unfold estimate_ok in Hest. set (x := Z.log2 k * 30103 / 100000) in *.
  cbv zeta in Hest. bool_hyps. rewrite !(ge_pow10_neg m e k) by (done || lia).
  assert (∀ y, 10 ^ y <= k → y <= 5) as Hy.
  { intros y Hy. destruct (Z.le_gt_cases y 5); [done|]. assert (10 ^ 6 <= 10 ^ y) by (apply Z.pow_le_mono_r; lia). lia. }
  rewrite (proj2 (Z.leb_le (10 ^ x) k)) by lia. replace (Z.succ (Z.log2 k)) with (Z.log2 k + 1) in Hhi by lia.
  destruct (Z.leb_spec (10 ^ (x + 1)) k) as [Hup|Hup]; split.
  - specialize (Hy _ Hup). lia.
  - replace (x + 1 + 1) with (x + 2) by lia. lia.
  - specialize (Hy x ltac:(lia)). lia.
  - lia.
Qed.

Lemma round_div_exact q d : 0 < d → round_div (q * d) d = q.
Proof.
  intros Hd. unfold round_div. rewrite Z.div_mul, Z.mod_mul by lia.
  by rewrite (proj2 (Z.ltb_lt _ _)) by lia.
Qed.

Lemma scaled_int m e k p :
  e <= 0 → 0 <= p → Zpos m = k * 2 ^ (- e) → scaled m e p = k * 10 ^ p.
Proof.
  intros He Hp Hm. unfold scaled.
  rewrite (Z.max_l 0 e), (Z.max_r 0 p), (Z.max_r 0 (- e)), (Z.max_l 0 (- p)), !Z.pow_0_r, !Z.mul_1_r, Hm by lia.
  replace (k * 2 ^ (- e) * 10 ^ p) with (k * 10 ^ p * 2 ^ (- e)) by ring.
  apply round_div_exact, Z.pow_pos_nonneg; lia.
Qed.

Lemma trim_zeros f n s : f "0"%char = true → trim_end f (s +:+ zeros n) = trim_end f s.
Proof.
  intros Hf. induction s as [|c s IH].
  - rewrite app_nil_l_str. induction n as [|n IH]; [done|]. cbn [zeros trim_end]. by rewrite IH, Hf.
  - rewrite app_cons_str. cbn [trim_end]. by rewrite IH.
Qed.

Lemma fmt_d_no_point z : 0 <= z → none_of (Ascii.eqb ".") (fmt_d z) = true.
Proof.
  intros Hz. destruct (nonneg_digits z Hz) as (u & -> & _).
  assert (∀ u, none_of (Ascii.eqb ".") (NilEmpty.string_of_uint u) = true) as H
    by (clear u; intros u; induction u as [|u IH|u IH|u IH|u IH|u IH|u IH|u IH|u IH|u IH|u IH]; [done|exact IH..]).
  destruct u as [|u|u|u|u|u|u|u|u|u|u]; [done|..]; cbn [NilZero.string_of_uint NilEmpty.string_of_uint];
    rewrite none_of_cons; apply H.
Qed.

(** The point and the zeros that [%g] removes. *)
Lemma drop_zeros_int k p : 0 <= k → drop_zeros (fmt_d k +:+ "." +:+ zeros p) = fmt_d k.
Proof.
  intros Hk. unfold drop_zeros. rewrite <-app_assoc_str, trim_zeros by done.
  change "." with (String "." ""). rewrite trim_end_stop by done.
  change (trim_end (Ascii.eqb "0") (String "." "")) with (String "." "").
  destruct (fmt_d k) eqn:Hf; [by apply fmt_d_nonempty in Hf|].
  rewrite <-Hf. clear Hf. pose proof (fmt_d_no_point k Hk) as Hn.
  induction (fmt_d k) as [|c t IH]; [done|]. rewrite none_of_cons in Hn. apply andb_prop in Hn as [Hc%negb_true_iff Hn].
  rewrite app_cons_str. cbn [trim_end]. rewrite IH by done. destruct t; [by rewrite Hc|done].
Qed.

Lemma pad_zero p : pad_zeros (S p) (fmt_d 0) = zeros (S p).
Proof.
  unfold pad_zeros. change (fmt_d 0) with (zeros 1). change (String.length (zeros 1)) with 1%nat.
  rewrite Nat.sub_1_r. cbn [Nat.pred]. induction p as [|p IH]; [done|].
  cbn [zeros] in *. by rewrite app_cons_str, IH.
Qed.

Lemma fmt_fixed_int p k : 0 <= k → fmt_fixed (S p) (k * 10 ^ Z.of_nat (S p)) = fmt_d k +:+ "." +:+ zeros (S p).
Proof.
  intros Hk. unfold fmt_fixed. cbv zeta.
  pose proof (Z.pow_pos_nonneg 10 (Z.of_nat (S p)) ltac:(lia) ltac:(lia)).
  rewrite Z.div_mul, Z.mod_mul by lia. do 2 f_equal. exact (pad_zero p).
Qed.

Lemma fmt_g6_int k : 0 <= k < 10 ^ 6 → fmt_g6 (d_of_Z k) = fmt_d k.
Proof.
  intros Hk. destruct (Z.eq_dec k 0) as [->|H0]; [done|].
  destruct (d_of_Z_value k ltac:(lia)) as [Hf Hv].
  destruct (d_of_Z k) as [s|s| |s m e]; cbn [fin dz] in *; try done; [lia|].
  apply bounded_range in Hf as (Hm & He & Hbig).
  assert (s = false) as -> by (destruct s; [cbn [cond_Zopp] in Hv; nia|done]). cbn [cond_Zopp] in Hv.
  assert (e <= 0) as He0.
  { destruct (Z.le_gt_cases e 0); [done|]. replace (e + 1074) with (1074 + e) in Hv by lia.
    rewrite Z.pow_add_r in Hv by lia. assert (2 ^ 1 <= 2 ^ e) by (apply Z.pow_le_mono_r; lia). nia. }
  assert (Zpos m = k * 2 ^ (- e)) as Hmk.
  { replace (2 ^ 1074) with (2 ^ (- e) * 2 ^ (e + 1074)) in Hv
      by (rewrite <-Z.pow_add_r by lia; f_equal; lia).
    pose proof (Z.pow_pos_nonneg 2 (e + 1074) ltac:(lia) ltac:(lia)).
    apply (Z.mul_reg_r _ _ (2 ^ (e + 1074))); lia. }
  destruct (exp10_int m e k He0 ltac:(lia) Hmk) as [Hx Hkx]. set (x := exp10 m e) in *.
  cbn [fmt_g6]. fold x. rewrite (scaled_int m e k (5 - x)) by (done || lia).
  assert (k * 10 ^ (5 - x) < 1000000) as Hlt.
  { assert (10 ^ (x + 1) * 10 ^ (5 - x) = 10 ^ 6) as Hten by (rewrite <-Z.pow_add_r by lia; f_equal; lia).
    change 1000000 with (10 ^ 6). rewrite <-Hten.
    apply Z.mul_lt_mono_pos_r; [apply Z.pow_pos_nonneg|]; lia. }
  rewrite (proj2 (Z.eqb_neq _ _)) by lia. cbn beta iota.
  replace ((-4 <=? x) && (x <? 6)) with true by lia. cbn [with_sign].
  destruct (Z.eqb_spec x 5) as [->|Hx5]; [by rewrite Z.mul_1_r|].
  replace (5 - x) with (Z.of_nat (S (Z.to_nat (4 - x)))) by lia. rewrite Nat2Z.id.
  rewrite fmt_fixed_int, drop_zeros_int by lia. done.
Qed.

(** An integer weight below a million crosses the pipe unchanged. *)
Lemma weight_crosses k : 0 <= k < 10 ^ 6 → value_is (atof (fmt_g6 (d_of_Z k))) k.
Proof.
  intros Hk. rewrite fmt_g6_int by done. destruct (strtod_int k "") as (d & Hd & Hv); [lia|by left|].
  rewrite app_nil_r_str in Hd. unfold atof. by rewrite Hd.
Qed.

(** ** Records *)

(** No record whose fields fit their arrays is dropped. *)
Lemma emitted source signal weight ctx :
  emission_ok source signal ctx → canon weight = true →
  gaveld_emit source signal weight ctx = Some (scat [source; "|"; signal; "|"; fmt_g6 weight; "|"; ctx; NLs]).
Proof.
  intros [_ _ _ _ Hs Hg Hc] Hw%length_fmt_g6. unfold gaveld_emit. cbv zeta.
  unfold SOURCE_LEN, SIGNAL_LEN, CTX_LEN in *.
  rewrite (proj2 (Nat.ltb_lt _ _)); [done|].
  rewrite !length_app_str. change (String.length NLs) with 1%nat. cbn [String.length]. lia.
Qed.

(** An emission within the limits of the protocol. *)
Definition sendable (e : emission) : Prop := emission_fits e ∧ canon e.1.2 = true.

Lemma ingest_sent es w :
  Forall sendable es →
  exec (ingest_thread (scat (map line_of es))) w = exec (mfor (map emission_record es) queue_push) w.
Proof.
  intros Hs. apply ingest_lines; (eapply Forall_impl; [exact Hs|]); intros [[[s g] x] c] [Hok Hx]; [done|].
  cbn [line_of]. rewrite emitted by done. cbn [default id scat foldr].
  apply app_nonempty. apply Hok.
Qed.

(** C18. Nothing is lost or reordered on the pipe: when the daemons' emissions,
    with fields that fit their arrays and any doubles as weights, arrive back to
    back in one stream, the ingest thread pushes exactly their records, in order,
    onto the queue; [gaveld_emit] drops none of them. *)
Theorem ingest_stream es w :
  Forall sendable es →
  exec (ingest_thread (scat (map line_of es))) w =
  exec (mfor (map emission_record es) queue_push) w.
Proof. apply ingest_sent. Qed.

Lemma ingest_stream_witness :
  let es : list emission :=
    [("rahzerd", "NETWORK_ANOMALY", d_of_Z 25, "pid=7|port=443");
     ("leatherheadd", "THERMAL_WARN", d_zero, "")] in
  let w := world_init Db.db_empty None false BACKEND_ADB 0 in
  exec (ingest_thread (scat (map line_of es))) w =
  exec (mfor (map emission_record es) queue_push) w.
Proof.
  cbv zeta. apply ingest_stream.
  repeat constructor; try done; cbn; try congruence; unfold SOURCE_LEN, SIGNAL_LEN, CTX_LEN; try lia.
Defined.
