(* ===== verification/Reports.v ===== *)
(** * overlordd reads nulld: the numbers

    A member of a result file whose value is an integer is found by its name and
    read back exactly, whatever the members before it. *)

From S2P Require Import Prelude CString Double Strtod Wire Krang Digits Numbers.
From S2P Require Import Ring World Ingest Queues Overlord Nulld Fleet Screen.
From Stdlib Require Import Ascii.

(** ** Texts the search passes over *)

Definition no_quotes (s : string) : Prop := none_of (Ascii.eqb quote) s = true.

(** A member name: no quotes, not empty, and not starting like punctuation. *)
Definition key_ok (key : string) : Prop :=
  no_quotes key ∧ (String.length key < 100)%nat ∧
  ∃ c k, key = String c k ∧ c ≠ ":"%char ∧ c ≠ ","%char.

Definition needle_of (key : string) : string := QUOTE +:+ key +:+ QUOTE +:+ ":".

Lemma json_needle_full key : key_ok key → json_needle key = needle_of key.
Proof.
  intros (_ & Hlen & _). unfold json_needle. apply snprintf_id.
  unfold needle_of. rewrite !length_app_str. change (String.length QUOTE) with 1%nat.
  change (String.length ":") with 1%nat. lia.
Qed.

(** The search for [key] passes over [s], whatever follows. *)
Definition passes (key s : string) : Prop :=
  ∀ t, strstr (s +:+ t) (needle_of key) = strstr t (needle_of key).

Section passes.
Context (key : string) (Hkey : key_ok key).

Lemma passes_app s t : passes key s → passes key t → passes key (s +:+ t).
Proof. intros Hs Ht u. by rewrite app_assoc_str, Hs, Ht. Qed.

Lemma passes_plain s : no_quotes s → passes key s.
Proof.
  unfold no_quotes. intros Hs t. induction s as [|c s IH]; [done|].
  rewrite none_of_cons in Hs. apply andb_prop in Hs as [Hc%negb_true_iff Hs].
  rewrite app_cons_str. cbn [strstr].
  replace (has_prefix (needle_of key) (String c (s +:+ t))) with false; [by apply IH|].
  unfold needle_of. change (QUOTE +:+ key +:+ QUOTE +:+ ":") with (String quote (key +:+ QUOTE +:+ ":")).
  cbn [has_prefix]. by rewrite Hc.
Qed.

(** A quote that the key cannot follow. *)
Lemma passes_quote s t :
  has_prefix (key +:+ QUOTE +:+ ":") (s +:+ t) = false →
  strstr (QUOTE +:+ s +:+ t) (needle_of key) = strstr (s +:+ t) (needle_of key).
Proof.
  intros Hp. change (QUOTE +:+ s +:+ t) with (String quote (s +:+ t)). cbn [strstr].
  assert (has_prefix (needle_of key) (String quote (s +:+ t)) = false) as ->; [|done].
  unfold needle_of. change (QUOTE +:+ key +:+ QUOTE +:+ ":") with (String quote (key +:+ QUOTE +:+ ":")).
  cbn [has_prefix]. by rewrite Hp, andb_false_r.
Qed.

(** Two quoted words with the same continuation are the same word. *)
Lemma quoted_prefix : ∀ k s t,
  no_quotes k → no_quotes s →
  has_prefix (k +:+ QUOTE +:+ ":") (s +:+ QUOTE +:+ t) = true → k = s ∧ has_prefix ":" t = true.
Proof.
  unfold no_quotes. induction k as [|a k IH]; intros [|b s] t Hk Hs; rewrite ?app_cons_str.
  - change ("" +:+ QUOTE +:+ ":") with (String quote ":").
    change ("" +:+ QUOTE +:+ t) with (String quote t). cbn [has_prefix].
    by intros [_ H]%andb_prop.
  - rewrite none_of_cons in Hs. apply andb_prop in Hs as [Hb _]. apply negb_true_iff in Hb.
    change ("" +:+ QUOTE +:+ ":") with (String quote ":"). cbn [has_prefix]. by rewrite Hb.
  - rewrite none_of_cons in Hk. apply andb_prop in Hk as [Ha _]. apply negb_true_iff in Ha.
    change ("" +:+ QUOTE +:+ t) with (String quote t). cbn [has_prefix].
    intros [Heq _]%andb_prop. apply Ascii.eqb_eq in Heq. subst. by rewrite Ascii.eqb_refl in Ha.
  - rewrite none_of_cons in Hk, Hs. apply andb_prop in Hk as [_ Hk], Hs as [_ Hs].
    cbn [has_prefix]. intros [->%Ascii.eqb_eq H]%andb_prop. apply IH in H as [-> H]; done.
Qed.

(** A quoted word, with what follows its closing quote. *)
Lemma passes_quoted s c t :
  no_quotes s → (c = ":"%char ∨ c = ","%char) → (c = ":"%char → s ≠ key) →
  strstr (QUOTE +:+ s +:+ QUOTE +:+ String c t) (needle_of key) = strstr t (needle_of key).
Proof.
  intros Hs Hc Hne. destruct Hkey as (Hk & _ & k & key' & Hkeq & Hk1 & Hk2).
  rewrite passes_quote.
  - rewrite (passes_plain s Hs). change (QUOTE +:+ String c t) with (QUOTE +:+ String c "" +:+ t).
    rewrite passes_quote.
    + apply passes_plain. destruct Hc as [-> | ->]; reflexivity.
    + rewrite Hkeq, app_cons_str, app_cons_str. cbn [has_prefix].
      replace (Ascii.eqb k c) with false; [done|]. symmetry. apply Ascii.eqb_neq.
      destruct Hc as [-> | ->]; congruence.
  - destruct (has_prefix _ _) eqn:Hp; [|done]. exfalso.
    apply quoted_prefix in Hp as [Heq Hcolon]; [|done..]. cbn [has_prefix] in Hcolon.
    apply andb_prop in Hcolon as [Hcolon _]. apply Ascii.eqb_eq in Hcolon.
    by apply Hne.
Qed.

(** A member with another name. *)
Lemma passes_line indent name value :
  no_quotes indent → no_quotes name → name ≠ key → passes key value →
  passes key (json_line indent name value).
Proof.
  intros Hi Hn Hne Hv t. unfold json_line. rewrite !app_assoc_str.
  rewrite (passes_plain indent Hi).
  change (": " +:+ value +:+ NLs +:+ t) with (String ":" (" " +:+ value +:+ NLs +:+ t)).
  rewrite passes_quoted by auto. rewrite (passes_plain " ") by done. rewrite Hv.
  by apply passes_plain.
Qed.

Lemma passes_string s : no_quotes s → passes key (quoted s +:+ ",").
Proof.
  intros Hs t. unfold quoted. rewrite !app_assoc_str.
  change ("," +:+ t) with (String "," t). by rewrite passes_quoted by auto.
Qed.

Lemma number_no_quotes z : no_quotes (fmt_d z).
Proof.
  apply (numeric_none _ _) with (2 := fmt_d_numeric z).
  intros c. destruct c as [[] [] [] [] [] [] [] []]; vm_compute; congruence.
Qed.

Lemma passes_number z : passes key (fmt_d z +:+ ",").
Proof. apply passes_app; [apply passes_plain, number_no_quotes|by apply passes_plain]. Qed.

Lemma passes_scat l t : Forall (passes key) l → strstr (scat l +:+ t) (needle_of key) = strstr t (needle_of key).
Proof.
  induction 1 as [|s l Hs _ IH]; [done|]. cbn [scat]. by rewrite app_assoc_str, Hs, IH.
Qed.

(** ** A number among the members *)

Lemma skip_spaces_number z r : skip_spaces (" " +:+ fmt_d z +:+ r) = fmt_d z +:+ r.
Proof.
  change (skip_spaces (" " +:+ fmt_d z +:+ r)) with (skip_spaces (fmt_d z +:+ r)).
  destruct (Z.lt_ge_cases z 0) as [Hz|Hz].
  - rewrite fmt_d_neg by done. done.
  - destruct (fmt_d_first z Hz) as (d & s & Hd & ->). rewrite app_cons_str.
    unfold skip_spaces. apply skip_while_none.
    by apply (hexd_case (λ d, Ascii.eqb " " (hexd d) = false)).
Qed.

Lemma find_member pre indent value post :
  Forall (passes key) pre → no_quotes indent →
  find_after (scat (pre ++ json_line indent key value :: post)) (json_needle key) =
  Some (" " +:+ value +:+ NLs +:+ scat post).
Proof.
  intros Hpre Hi. rewrite json_needle_full by done. unfold find_after.
  assert (∀ l1 l2, scat (l1 ++ l2) = scat l1 +:+ scat l2) as ->.
  { induction l1 as [|s l1 IH]; intros l2; [done|]. cbn [scat app]. by rewrite IH, app_assoc_str. }
  rewrite passes_scat by done. cbn [scat]. unfold json_line. rewrite !app_assoc_str.
  rewrite (passes_plain indent Hi).
  assert (QUOTE +:+ key +:+ QUOTE +:+ ": " +:+ value +:+ NLs +:+ scat post =
    needle_of key +:+ " " +:+ value +:+ NLs +:+ scat post) as ->.
  { unfold needle_of. rewrite !app_assoc_str. done. }
  assert (∀ n t, n ≠ "" → strstr (n +:+ t) n = Some (n +:+ t)) as Hfound.
  { intros n t Hn. pose proof (has_prefix_app n t) as Hp. destruct n as [|c n]; [done|].
    rewrite app_cons_str in *. cbn [strstr]. by rewrite Hp. }
  rewrite Hfound by done. f_equal.
  generalize (needle_of key). intros n. induction n as [|c n IH]; [by destruct value|].
  rewrite app_cons_str. apply IH.
Qed.

Lemma fin_number d : fin d = true → is_nan d = false ∧ is_inf d = false.
Proof. by destruct d. Qed.

Lemma scaled_ltb a b k : 0 < k → (a * k <? b * k) = (a <? b).
Proof.
  intros Hk. destruct (Z.ltb_spec a b), (Z.ltb_spec (a * k) (b * k)); try done; nia.
Qed.

Lemma read_member pre indent z tail post :
  Forall (passes key) pre → no_quotes indent → INT_MIN <= z <= INT_MAX →
  number_ends (tail +:+ NLs +:+ scat post) →
  json_get_int (scat (pre ++ json_line indent key (fmt_d z +:+ tail) :: post)) key = Some z.
Proof.
  intros Hpre Hi Hz Hends. unfold json_get_int, json_get_double.
  rewrite find_member by done. rewrite app_assoc_str, skip_spaces_number.
  destruct (strtod_int z (tail +:+ NLs +:+ scat post)) as (d & -> & Hd);
    [unfold INT_MIN, INT_MAX in Hz; lia|done|].
  pose proof Hd as [Hf Hv]. destruct d_of_int_max as [Hf1 Hv1], d_of_int_min as [Hf2 Hv2].
  rewrite !dlt_spec, Hv, Hv1, Hv2 by done.
  destruct (fin_number d Hf) as [-> ->].
  rewrite !scaled_ltb by (apply Z.pow_pos_nonneg; lia).
  rewrite (proj2 (Z.ltb_ge INT_MAX z)), (proj2 (Z.ltb_ge z INT_MIN)) by apply Hz. cbn [orb].
  by rewrite (value_int d z Hd).
Qed.

End passes.

(** ** nulld's report *)

Ltac key_tac := split_and!; [done|apply Nat.ltb_lt; done|do 2 eexists; split_and!; [reflexivity|done..]].

Lemma screen_no_quotes s : no_quotes (screen_str s).
Proof. by destruct s. Qed.

Lemma bool_no_quotes b : no_quotes (bool_str b).
Proof. by destruct b. Qed.

Lemma passes_word key s : no_quotes s → passes key (s +:+ ",").
Proof. intros Hs. apply passes_app; [by apply passes_plain|by apply passes_plain]. Qed.

Ltac quotes_tac :=
  solve [ assumption | apply screen_no_quotes | apply number_no_quotes | apply bool_no_quotes
        | vm_compute; reflexivity ].

(** Discharge the members before the one that is read. *)
Ltac passes_tac :=
  repeat apply Forall_cons_2; try apply Forall_nil_2;
  first [ apply passes_plain; quotes_tac
        | apply passes_line; [key_tac|quotes_tac|quotes_tac|discriminate|];
          first [ apply passes_string; [key_tac|quotes_tac]
                | apply passes_word; quotes_tac
                | apply passes_plain; quotes_tac ] ].

(** The numbers get across: from every report nulld writes, with a time
    stamp free of quotes, overlordd reads the idle time and the number of spikes
    exactly as they were, for every pair of C integers. *)
Theorem nulld_numbers_read r :
  no_quotes (nr_ts r) → INT_MIN <= nr_idle r <= INT_MAX → INT_MIN <= nr_events r <= INT_MAX →
  json_get_int (nulld_write_json r) "idle_seconds" = Some (nr_idle r) ∧
  json_get_int (nulld_write_json r) "total_spike_events" = Some (nr_events r).
Proof.
  intros Hts Hidle Hev. unfold nulld_write_json. split.
  - match goal with |- json_get_int (scat (?a :: ?b :: ?c :: ?d :: ?e :: _ :: ?l)) _ = _ =>
      apply (read_member "idle_seconds") with (pre := [a; b; c; d; e]) (tail := ",") (post := l) end;
      [key_tac|passes_tac|reflexivity|done|right; do 2 eexists; split; [reflexivity|by left]].
  - match goal with |- json_get_int (scat (?a1 :: ?a2 :: ?a3 :: ?a4 :: ?a5 :: ?a6 :: ?a7 :: ?a8 :: ?a9
        :: ?b1 :: ?b2 :: ?b3 :: ?b4 :: ?b5 :: ?b6 :: ?b7 :: ?b8 :: _ :: ?l)) _ = _ =>
      apply (read_member "total_spike_events") with (tail := ",") (post := l)
        (pre := [a1; a2; a3; a4; a5; a6; a7; a8; a9; b1; b2; b3; b4; b5; b6; b7; b8]) end;
      [key_tac|passes_tac|reflexivity|done|right; do 2 eexists; split; [reflexivity|by left]].
Qed.

Lemma nulld_numbers_read_witness :
  json_get_int (nulld_write_json sample_report) "idle_seconds" = Some 900 ∧
  json_get_int (nulld_write_json sample_report) "total_spike_events" = Some 3.
Proof.
  apply (nulld_numbers_read sample_report); [reflexivity|split; vm_compute; discriminate..].
Defined.
