(* ===== verification/Clock.v ===== *)
(** * Wall-clock text

    [strftime(buf, n, "%Y-%m-%dT%H:%M:%S", localtime(&t))] and the [strptime] and
    [mktime] that read it back, as the C library of the platform (bionic) does
    them.  A wall clock is a number of seconds, the time of day and the date of
    the place read as if it were UTC; [localtime] is the map from [time(NULL)] to
    it, a parameter of the code that uses it.  [mktime] runs on a zeroed
    [struct tm], so [tm_isdst] is 0 and two wall clocks differ by the difference
    of their texts. *)

From S2P Require Import Prelude CString.
From Stdlib Require Import Ascii.

(** ** The calendar *)

Record civil := Civil { cv_year : Z; cv_month : Z; cv_day : Z }.

Definition civil_from_days (days : Z) : civil :=
  let z := days + 719468 in
  let era := z / 146097 in
  let doe := z mod 146097 in
  let yoe := (doe - doe / 1460 + doe / 36524 - doe / 146096) / 365 in
  let doy := doe - (365 * yoe + yoe / 4 - yoe / 100) in
  let mp := (5 * doy + 2) / 153 in
  let m := if mp <? 10 then mp + 3 else mp - 9 in
  Civil (yoe + era * 400 + (if m <=? 2 then 1 else 0)) m (doy - (153 * mp + 2) / 5 + 1).

Definition days_from_civil (c : civil) : Z :=
  let y := cv_year c - (if cv_month c <=? 2 then 1 else 0) in
  let era := y / 400 in
  let yoe := y mod 400 in
  let mp := if 2 <? cv_month c then cv_month c - 3 else cv_month c + 9 in
  let doy := (153 * mp + 2) / 5 + cv_day c - 1 in
  era * 146097 + (yoe * 365 + yoe / 4 - yoe / 100 + doy) - 719468.

(** ** The broken-down time *)

Record tm := Tm { tm_year : Z; tm_mon : Z; tm_mday : Z; tm_hour : Z; tm_min : Z; tm_sec : Z }.

(** [struct tm x = {0}]; the year counts from 1900 and the month from 0. *)
Definition tm_zero : tm := Tm 0 0 0 0 0 0.

Definition tm_of (clock : Z) : tm :=
  let c := civil_from_days (clock / 86400) in
  let s := clock mod 86400 in
  Tm (cv_year c - 1900) (cv_month c - 1) (cv_day c) (s / 3600) (s / 60 mod 60) (s mod 60).

Definition mktime (t : tm) : Z :=
  (days_from_civil (Civil (tm_year t + 1900) (tm_mon t + 1) 1) + tm_mday t - 1) * 86400 +
  tm_hour t * 3600 + tm_min t * 60 + tm_sec t.

(** ** Printing *)

Definition dig (d : Z) : ascii := chr (Z.to_nat (48 + d)).

(** [%02d] of a number below 100. *)
Definition pad2 (v : Z) : string := String (dig (v / 10 mod 10)) (String (dig (v mod 10)) "").

Definition strftime_iso (clock : Z) : string :=
  let t := tm_of clock in
  let y := tm_year t + 1900 in
  scat [pad2 (y / 100); pad2 (y mod 100); "-"; pad2 (tm_mon t + 1); "-"; pad2 (tm_mday t); "T";
        pad2 (tm_hour t); ":"; pad2 (tm_min t); ":"; pad2 (tm_sec t)].

(** ** Reading *)

(** The digits of a number of at most [ulim]: [rulim] bounds their count. *)
Fixpoint conv_digits (fuel : nat) (ulim rulim acc : Z) (s : string) : Z * string :=
  match fuel, s with
  | S fuel', String c s' =>
      if is_digit c then
        let r := acc * 10 + (code c - 48) in
        let rulim' := rulim / 10 in
        if (r * 10 <=? ulim) && negb (rulim' =? 0) then conv_digits fuel' ulim rulim' r s'
        else (r, s')
      else (acc, s)
  | _, _ => (acc, s)
  end.

Definition conv_num (llim ulim : Z) (s : string) : option (Z * string) :=
  match s with
  | String c _ =>
      if is_digit c then
        let '(r, s') := conv_digits (String.length s) ulim ulim 0 s in
        if (r <? llim) || (ulim <? r) then None else Some (r, s')
      else None
  | EmptyString => None
  end.

(** The items of the format: a field with its limits, or a character. *)
Inductive fmt_item :=
  | Num (llim ulim : Z) (set : Z → tm → tm)
  | Lit (c : ascii).

Definition ISO_FORMAT : list fmt_item :=
  [Num 0 9999 (λ v t, Tm (v - 1900) (tm_mon t) (tm_mday t) (tm_hour t) (tm_min t) (tm_sec t));
   Lit "-";
   Num 1 12 (λ v t, Tm (tm_year t) (v - 1) (tm_mday t) (tm_hour t) (tm_min t) (tm_sec t));
   Lit "-";
   Num 1 31 (λ v t, Tm (tm_year t) (tm_mon t) v (tm_hour t) (tm_min t) (tm_sec t));
   Lit "T";
   Num 0 23 (λ v t, Tm (tm_year t) (tm_mon t) (tm_mday t) v (tm_min t) (tm_sec t));
   Lit ":";
   Num 0 59 (λ v t, Tm (tm_year t) (tm_mon t) (tm_mday t) (tm_hour t) v (tm_sec t));
   Lit ":";
   Num 0 61 (λ v t, Tm (tm_year t) (tm_mon t) (tm_mday t) (tm_hour t) (tm_min t) v)].

(** The fields read before a mismatch stay set. *)
Fixpoint strptime_go (fmt : list fmt_item) (s : string) (t : tm) : tm :=
  match fmt with
  | [] => t
  | Num lo hi set :: fmt' =>
      match conv_num lo hi s with
      | Some (v, s') => strptime_go fmt' s' (set v t)
      | None => t
      end
  | Lit c :: fmt' =>
      match s with
      | String d s' => if Ascii.eqb c d then strptime_go fmt' s' t else t
      | EmptyString => t
      end
  end.

(** [strptime(s, "%Y-%m-%dT%H:%M:%S", &t); mktime(&t)] with [t] zeroed. *)
Definition read_clock (s : string) : Z := mktime (strptime_go ISO_FORMAT s tm_zero).

(** ** The calendar round trip *)

(** What has to be seen of the days of one era of 400 years. *)
Definition era_ok (doe : Z) : bool :=
  let yoe := (doe - doe / 1460 + doe / 36524 - doe / 146096) / 365 in
  let doy := doe - (365 * yoe + yoe / 4 - yoe / 100) in
  let mp := (5 * doy + 2) / 153 in
  let d := doy - (153 * mp + 2) / 5 + 1 in
  (0 <=? yoe) && (yoe <? 400) && (0 <=? mp) && (mp <? 12) && (1 <=? d) && (d <=? 31) &&
  ((mp <? 10) || (yoe <? 399) || (146037 <=? doe)).

(** The year and the day of the year are within their ranges. *)
Lemma year_range doe :
  0 <= doe < 146097 →
  let yoe := (doe - doe / 1460 + doe / 36524 - doe / 146096) / 365 in
  0 <= yoe < 400 ∧ 0 <= doe - (365 * yoe + yoe / 4 - yoe / 100) <= 365.
Proof. intros H yoe. unfold yoe. split; Z.to_euclidean_division_equations; lia. Qed.

Lemma era_day doe : 0 <= doe < 146097 → era_ok doe = true.
Proof.
  intros H. destruct (year_range doe H) as [Hy Hd]. unfold era_ok. cbv zeta in *.
  set (yoe := (doe - doe / 1460 + doe / 36524 - doe / 146096) / 365) in *. clearbody yoe.
  remember (doe - (365 * yoe + yoe / 4 - yoe / 100)) as doy eqn:Hdoy.
  rewrite !andb_true_iff, !orb_true_iff, !Z.leb_le, !Z.ltb_lt.
  repeat split; try lia; try (clear Hdoy; Z.to_euclidean_division_equations; lia).
  Z.to_euclidean_division_equations; lia.
Qed.

(** The pieces of a date, with their ranges. *)
Lemma civil_shape days :
  ∃ era yoe mp doy,
    0 <= yoe < 400 ∧ 0 <= mp < 12 ∧
    1 <= doy - (153 * mp + 2) / 5 + 1 <= 31 ∧
    days + 719468 = era * 146097 + (365 * yoe + yoe / 4 - yoe / 100 + doy) ∧
    civil_from_days days =
      Civil (yoe + era * 400 + (if mp <? 10 then 0 else 1)) (if mp <? 10 then mp + 3 else mp - 9)
        (doy - (153 * mp + 2) / 5 + 1) ∧
    era = (days + 719468) / 146097 ∧
    (mp < 10 ∨ yoe < 399 ∨ 146037 <= (days + 719468) mod 146097).
Proof.
  pose proof (Z.mod_pos_bound (days + 719468) 146097 ltac:(lia)) as Hdoe.
  pose proof (Z.div_mod (days + 719468) 146097 ltac:(lia)) as Hdm.
  pose proof (era_day _ Hdoe) as Hok. unfold civil_from_days.
  remember ((days + 719468) mod 146097) as doe eqn:Hdoe_def.
  unfold era_ok in Hok. cbv zeta in *.
  remember ((doe - doe / 1460 + doe / 36524 - doe / 146096) / 365) as yoe eqn:Hy.
  remember (doe - (365 * yoe + yoe / 4 - yoe / 100)) as doy eqn:Hdoy.
  remember ((5 * doy + 2) / 153) as mp eqn:Hmp. bool_hyps.
  exists ((days + 719468) / 146097), yoe, mp, doy.
  split_and!; try lia.
  f_equal. destruct (mp <? 10) eqn:Hm; bool_hyps;
    [destruct (mp + 3 <=? 2) eqn:? | destruct (mp - 9 <=? 2) eqn:?]; bool_hyps; lia.
Qed.

Lemma days_from_civil_from_days days : days_from_civil (civil_from_days days) = days.
Proof.
  destruct (civil_shape days) as (era & yoe & mp & doy & Hy & Hm & _ & Hdays & -> & _).
  unfold days_from_civil. cbn [cv_year cv_month cv_day].
  assert (∀ b, (yoe + era * 400 + b - b) / 400 = era) as Hera
    by (intros b; symmetry; apply (Z.div_unique _ 400 _ yoe); lia).
  assert (∀ b, (yoe + era * 400 + b - b) mod 400 = yoe) as Hyoe
    by (intros b; symmetry; apply (Z.mod_unique _ 400 era); lia).
  destruct (mp <? 10) eqn:Hmp; bool_hyps.
  - destruct (mp + 3 <=? 2) eqn:?; bool_hyps; [lia|]. rewrite Hera, Hyoe.
    destruct (2 <? mp + 3) eqn:?; bool_hyps; [|lia]. replace (mp + 3 - 3) with mp by lia. lia.
  - destruct (mp - 9 <=? 2) eqn:?; bool_hyps; [|lia]. rewrite Hera, Hyoe.
    destruct (2 <? mp - 9) eqn:?; bool_hyps; [lia|]. replace (mp - 9 + 9) with mp by lia. lia.
Qed.

(** The first of the month, and the day counted from it. *)
Lemma days_from_civil_first y m d :
  days_from_civil (Civil y m d) = days_from_civil (Civil y m 1) + d - 1.
Proof. unfold days_from_civil. cbn [cv_year cv_month cv_day]. lia. Qed.

Lemma mktime_tm_of clock : mktime (tm_of clock) = clock.
Proof.
  unfold mktime, tm_of. cbn [tm_year tm_mon tm_mday tm_hour tm_min tm_sec].
  pose proof (days_from_civil_from_days (clock / 86400)) as H.
  destruct (civil_from_days (clock / 86400)) as [y m d]. cbn [cv_year cv_month cv_day].
  rewrite days_from_civil_first in H.
  replace (y - 1900 + 1900) with y by lia. replace (m - 1 + 1) with m by lia. rewrite H.
  pose proof (Z.div_mod clock 86400 ltac:(lia)). remember (clock mod 86400) as s.
  pose proof (Z.mod_pos_bound clock 86400 ltac:(lia)).
  pose proof (Z.div_mod (s / 60) 60 ltac:(lia)). pose proof (Z.div_mod s 60 ltac:(lia)).
  rewrite Z.div_div in * by lia. change (60 * 60) with 3600 in *. lia.
Qed.

(** ** The text round trip *)

#[local] Ltac Zify.zify_post_hook ::= Z.to_euclidean_division_equations.

Lemma dig_case (P : Z → Prop) d :
  0 <= d < 10 → P 0 → P 1 → P 2 → P 3 → P 4 → P 5 → P 6 → P 7 → P 8 → P 9 → P d.
Proof.
  intros Hd ??????????.
  assert (d = 0 ∨ d = 1 ∨ d = 2 ∨ d = 3 ∨ d = 4 ∨ d = 5 ∨ d = 6 ∨ d = 7 ∨ d = 8 ∨ d = 9) as Hc by lia.
  repeat destruct Hc as [->|Hc]; subst; done.
Qed.

Lemma is_digit_dig d : 0 <= d < 10 → is_digit (dig d) = true.
Proof. intros Hd. by apply (dig_case (λ d, is_digit (dig d) = true)). Qed.

Lemma code_dig d : 0 <= d < 10 → code (dig d) = 48 + d.
Proof. intros Hd. by apply (dig_case (λ d, code (dig d) = 48 + d)). Qed.

#[local] Opaque dig is_digit.

(** Two digits that a character other than a digit follows. *)
Lemma conv_pad2 lo hi v c r :
  lo <= v <= hi → 0 <= v → 9 < hi < 100 → is_digit c = false →
  conv_num lo hi (pad2 v +:+ String c r) = Some (v, String c r).
Proof.
  intros Hv H0 Hhi Hc. unfold pad2. rewrite !app_cons_str, !app_nil_l_str.
  assert (0 <= v / 10 < 10) by lia. rewrite (Z.mod_small (v / 10)) by lia.
  pose proof (Z.mod_pos_bound v 10 ltac:(lia)).
  unfold conv_num. cbn [String.length conv_digits].
  rewrite !is_digit_dig, !code_dig, Hc by lia.
  assert ((hi / 10 =? 0) = false) as -> by lia. assert ((hi / 10 / 10 =? 0) = true) as -> by lia.
  replace ((0 * 10 + (48 + v / 10 - 48)) * 10 + (48 + v mod 10 - 48)) with v by lia.
  rewrite andb_false_r. cbn [negb]. rewrite andb_true_r.
  assert (((0 * 10 + (48 + v / 10 - 48)) * 10 <=? hi) = true) as -> by lia.
  assert ((v <? lo) || (hi <? v) = false) as -> by lia. done.
Qed.

Lemma conv_pad2_end lo hi v :
  lo <= v <= hi → 0 <= v → 9 < hi < 100 → conv_num lo hi (pad2 v) = Some (v, "").
Proof.
  intros Hv H0 Hhi. unfold pad2.
  assert (0 <= v / 10 < 10) by lia. rewrite (Z.mod_small (v / 10)) by lia.
  pose proof (Z.mod_pos_bound v 10 ltac:(lia)).
  unfold conv_num. cbn [String.length conv_digits].
  rewrite !is_digit_dig, !code_dig by lia.
  assert ((hi / 10 =? 0) = false) as -> by lia. assert ((hi / 10 / 10 =? 0) = true) as -> by lia.
  replace ((0 * 10 + (48 + v / 10 - 48)) * 10 + (48 + v mod 10 - 48)) with v by lia.
  rewrite andb_false_r. cbn [negb]. rewrite andb_true_r.
  assert (((0 * 10 + (48 + v / 10 - 48)) * 10 <=? hi) = true) as -> by lia.
  assert ((v <? lo) || (hi <? v) = false) as -> by lia. done.
Qed.

Lemma conv_year y r :
  0 <= y <= 9999 →
  conv_num 0 9999 (pad2 (y / 100) +:+ pad2 (y mod 100) +:+ String "-" r) = Some (y, String "-" r).
Proof.
  intros Hy. unfold pad2. rewrite !app_cons_str, !app_nil_l_str.
  assert (0 <= y / 100 < 100) by lia. pose proof (Z.mod_pos_bound y 100 ltac:(lia)).
  remember (y / 100) as a. remember (y mod 100) as b.
  assert (y = 100 * a + b) as Hab by lia.
  rewrite (Z.mod_small (a / 10)), (Z.mod_small (b / 10)) by lia.
  pose proof (Z.mod_pos_bound a 10 ltac:(lia)). pose proof (Z.mod_pos_bound b 10 ltac:(lia)).
  unfold conv_num. cbn [String.length].
  do 4 (cbn [conv_digits]; rewrite is_digit_dig, code_dig by lia;
    try match goal with |- context [(?x <=? 9999) && ?y] =>
      (assert ((x <=? 9999) && y = true) as -> by lia) || (assert ((x <=? 9999) && y = false) as -> by lia) end).
  match goal with |- context [if (?v <? 0) || _ then _ else _] => replace v with y by lia end.
  assert ((y <? 0) || (9999 <? y) = false) as -> by lia. done.
Qed.

#[local] Ltac Zify.zify_post_hook ::= idtac.

(** The last second of the year 9999. *)
Definition CLOCK_MAX : Z := 253402300800.

Definition tm_printable (t : tm) : Prop :=
  0 <= tm_year t + 1900 <= 9999 ∧ 0 <= tm_mon t <= 11 ∧ 1 <= tm_mday t <= 31 ∧
  0 <= tm_hour t <= 23 ∧ 0 <= tm_min t <= 59 ∧ 0 <= tm_sec t <= 59.

Lemma tm_of_printable clock : 0 <= clock < CLOCK_MAX → tm_printable (tm_of clock).
Proof.
  unfold CLOCK_MAX. intros Hc. unfold tm_printable, tm_of.
  cbn [tm_year tm_mon tm_mday tm_hour tm_min tm_sec].
  assert (0 <= clock / 86400 < 2932897) as Hd
    by (split; [apply Z.div_pos|apply Z.div_lt_upper_bound]; lia).
  pose proof (Z.mod_pos_bound clock 86400 ltac:(lia)) as Hs.
  remember (clock mod 86400) as s. remember (clock / 86400) as days.
  assert (0 <= s / 3600 < 24) by (split; [apply Z.div_pos|apply Z.div_lt_upper_bound]; lia).
  pose proof (Z.mod_pos_bound (s / 60) 60 ltac:(lia)). pose proof (Z.mod_pos_bound s 60 ltac:(lia)).
  destruct (civil_shape days) as (era & yoe & mp & doy & Hy & Hm & Hday & _ & -> & Hera & Hend).
  cbn [cv_year cv_month cv_day].
  assert (4 <= era < 25) as Hera' by (subst era; split;
    [apply Z.div_le_lower_bound|apply Z.div_lt_upper_bound]; lia).
  assert (yoe + era * 400 + (if mp <? 10 then 0 else 1) <= 9999) as Hmax.
  { destruct (mp <? 10) eqn:?; bool_hyps; [lia|]. destruct Hend as [?|[?|Hend]]; [lia|lia|].
    assert (era <> 24); [|lia]. intros ->.
    pose proof (Z.div_mod (days + 719468) 146097 ltac:(lia)). lia. }
  split_and!; try lia; destruct (mp <? 10) eqn:?; bool_hyps; lia.
Qed.

#[local] Arguments pad2 : simpl never.

(** A printed time is read back. *)
Lemma strptime_strftime t :
  tm_printable t →
  strptime_go ISO_FORMAT
    (scat [pad2 ((tm_year t + 1900) / 100); pad2 ((tm_year t + 1900) mod 100); "-"; pad2 (tm_mon t + 1);
           "-"; pad2 (tm_mday t); "T"; pad2 (tm_hour t); ":"; pad2 (tm_min t); ":"; pad2 (tm_sec t)])
    tm_zero = t.
Proof.
  intros (Hy & Hm & Hd & Hh & Hi & Hs). unfold ISO_FORMAT, scat.
  rewrite app_nil_r_str.
  repeat match goal with
  | |- context [?s +:+ "-" +:+ ?r] => change ("-" +:+ r) with (String "-" r)
  | |- context [?s +:+ "T" +:+ ?r] => change ("T" +:+ r) with (String "T" r)
  | |- context [?s +:+ ":" +:+ ?r] => change (":" +:+ r) with (String ":" r)
  end.
  cbn [strptime_go]. rewrite conv_year by lia. cbn [strptime_go Ascii.eqb Bool.eqb].
  rewrite conv_pad2 by (done || lia). cbn [strptime_go Ascii.eqb Bool.eqb].
  rewrite conv_pad2 by (done || lia). cbn [strptime_go Ascii.eqb Bool.eqb].
  rewrite conv_pad2 by (done || lia). cbn [strptime_go Ascii.eqb Bool.eqb].
  rewrite conv_pad2 by (done || lia). cbn [strptime_go Ascii.eqb Bool.eqb].
  rewrite conv_pad2_end by lia. cbn [tm_year tm_mon tm_mday tm_hour tm_min tm_sec].
  destruct t; cbn [tm_year tm_mon tm_mday tm_hour tm_min tm_sec] in *. f_equal; lia.
Qed.

Lemma read_clock_strftime clock :
  0 <= clock < CLOCK_MAX → read_clock (strftime_iso clock) = clock.
Proof.
  intros Hc. unfold read_clock, strftime_iso. cbv zeta.
  rewrite strptime_strftime by (by apply tm_of_printable). apply mktime_tm_of.
Qed.

Lemma length_strftime clock : String.length (strftime_iso clock) = 19%nat.
Proof. done. Qed.

#[global] Arguments strftime_iso : simpl never.
