(* ===== verification/Sewer.v ===== *)
(** * The sewer database ([src/core/sewer_db.c])

    splinterd's store of emissions: the four tables that the code uses, as
    lists of rows in rowid order, the upserts of [sewer_db_record_emit], the
    rollup of the transition table and the notification it fires.

    [sw_open] is [g_db != NULL], [sw_tables] says whether the statements can be
    prepared ([sewer_db_init] creates no table: the schema comes from
    [scripts/init_sewer_db.sh]).  [sw_clock] is [time(NULL)] and [local] the
    wall clock it stands for.  The keys [id] of the append-only tables are never
    read and are left out; [fork] succeeds. *)

From S2P Require Import Prelude CString Clock.
From Stdlib Require Import Ascii.

Definition ROLLUP_CAP : Z := 500.
Definition GAP_THRESHOLD_SEC : Z := 1800.

(** ** Tables *)

Record emit_state_row := EmitState {
  es_source : string; es_type : string; es_first : string; es_last : string;
  es_count : Z; es_detail : string }.

Record transition_row := Transition {
  et_source : string; et_type : string; et_kind : string; et_ts : string; et_detail : string }.

(** The two last columns are NULL until the daemon emits. *)
Record stat_row := Stat {
  ds_name : string; ds_total : Z; ds_last_type : option string; ds_last_time : option string }.

Record rat_row := Rat { rt_ts : string; rt_summary : string }.

Record sewer := Sewer {
  sw_open : bool;
  sw_tables : bool;
  sw_clock : Z;
  emit_state : list emit_state_row;
  emit_transitions : list transition_row;
  daemon_stats : list stat_row;
  sewer_rats : list rat_row;
  sw_notified : list string     (* the commands given to rish *) }.

Definition set_clock (x : Z) (s : sewer) : sewer :=
  Sewer (sw_open s) (sw_tables s) x (emit_state s) (emit_transitions s) (daemon_stats s)
    (sewer_rats s) (sw_notified s).
Definition set_state (f : list emit_state_row → list emit_state_row) (s : sewer) : sewer :=
  Sewer (sw_open s) (sw_tables s) (sw_clock s) (f (emit_state s)) (emit_transitions s)
    (daemon_stats s) (sewer_rats s) (sw_notified s).
Definition set_transitions (f : list transition_row → list transition_row) (s : sewer) : sewer :=
  Sewer (sw_open s) (sw_tables s) (sw_clock s) (emit_state s) (f (emit_transitions s))
    (daemon_stats s) (sewer_rats s) (sw_notified s).
Definition set_stats (f : list stat_row → list stat_row) (s : sewer) : sewer :=
  Sewer (sw_open s) (sw_tables s) (sw_clock s) (emit_state s) (emit_transitions s)
    (f (daemon_stats s)) (sewer_rats s) (sw_notified s).
Definition set_rats (f : list rat_row → list rat_row) (s : sewer) : sewer :=
  Sewer (sw_open s) (sw_tables s) (sw_clock s) (emit_state s) (emit_transitions s)
    (daemon_stats s) (f (sewer_rats s)) (sw_notified s).
Definition set_notified (f : list string → list string) (s : sewer) : sewer :=
  Sewer (sw_open s) (sw_tables s) (sw_clock s) (emit_state s) (emit_transitions s)
    (daemon_stats s) (sewer_rats s) (f (sw_notified s)).
Definition set_open (b : bool) (s : sewer) : sewer :=
  Sewer b (sw_tables s) (sw_clock s) (emit_state s) (emit_transitions s) (daemon_stats s)
    (sewer_rats s) (sw_notified s).

(** The daemons the schema script registers. *)
Definition DAEMON_SOURCES : list string :=
  ["krangd"; "turtlecomd"; "tigerclawd"; "rocksteadyd"; "ratkingd"; "rahzerd"; "leatherheadd";
   "bebopd"; "fugitoidd"; "shredderd"; "burned"; "granitord"; "metalheadd"].

(** The database the schema script leaves, before splinterd opens it. *)
Definition sewer_schema (clock : Z) : sewer :=
  Sewer false true clock [] [] ((λ d, Stat d 0 None None) <$> DAEMON_SOURCES) [] [].

(** ** Statements *)

Abbreviation W := (M sewer).

Definition stmt (f : sewer → sewer) : W unit := modify (λ s, if sw_tables s then f s else s).

Definition fetch {A} (dflt : A) (f : sewer → A) : W A :=
  gets (λ s, if sw_tables s then f s else dflt).

(** [INSERT ... ON CONFLICT(key) DO UPDATE SET ...]. *)
Fixpoint on_conflict {R} (same : R → bool) (upd : R → R) (new : R) (l : list R) : list R :=
  match l with
  | [] => [new]
  | r :: l' => if same r then upd r :: l' else r :: on_conflict same upd new l'
  end.

(** ** The notification *)

(** The loop of [shell_quote]; [o] is the next index of [out]. *)
Fixpoint quote_body (outsize o : Z) (s : string) : string :=
  match s with
  | EmptyString => EmptyString
  | String c s' =>
      if o <? wrap_u64 (outsize - 5) then
        if Ascii.eqb c "'" then "'\''" +:+ quote_body outsize (o + 4) s'
        else String c (quote_body outsize (o + 1) s')
      else EmptyString
  end.

Definition shell_quote (s : string) (outsize : Z) : string :=
  let last := wrap_u64 (outsize - 1) in
  let opening := if 0 <? last then "'" else "" in
  let body := quote_body outsize (slen opening) s in
  opening +:+ body +:+ (if slen opening + slen body <? last then "'" else "").

Definition notification_cmd (summary : string) : string :=
  snprintf 2048 ("cmd notification post -S bigtext -t 'sewer.db rollup' sewer_rollup " +:+
                 shell_quote summary 1536).

Definition fire_notification (summary : string) : W unit :=
  modify (set_notified (λ l, l ++ [notification_cmd summary])).

Section splinterd.
Context (local : Z → Z).

Definition now_iso : W string := gets (λ s, strftime_iso (local (sw_clock s))).

(** ** The rollup *)

(** The group keys, in the order of their bytes. *)
Fixpoint insert_kind (k : string) (l : list string) : list string :=
  match l with
  | [] => [k]
  | k' :: l' =>
      if String.eqb k k' then l
      else if String.leb k k' then k :: l else k' :: insert_kind k l'
  end.

Definition group_kinds (rows : list transition_row) : list string :=
  foldr insert_kind [] (et_kind <$> rows).

(** [DISTINCT]: the first occurrence of each. *)
Fixpoint first_seen (seen : list string) (l : list string) : list string :=
  match l with
  | [] => []
  | x :: l' =>
      if existsb (String.eqb x) seen then first_seen seen l'
      else x :: first_seen (x :: seen) l'
  end.

Fixpoint comma_list (l : list string) : string :=
  match l with
  | [] => ""
  | [x] => x
  | x :: l' => x +:+ "," +:+ comma_list l'
  end.

Definition of_kind (k : string) (rows : list transition_row) : list transition_row :=
  List.filter (λ r, String.eqb (et_kind r) k) rows.

(** One row of the SELECT: kind, COUNT, GROUP_CONCAT(DISTINCT source). *)
Definition rollup_groups (rows : list transition_row) : list (string * Z * string) :=
  (λ k, (k, Z.of_nat (length (of_kind k rows)),
         comma_list (first_seen [] (et_source <$> of_kind k rows)))) <$> group_kinds rows.

Definition group_text (g : string * Z * string) : string :=
  let '(kind, cnt, sources) := g in
  scat [kind; " x"; fmt_d cnt; " ("; sources; "); "].

(** The [while] loop: [off] grows by the length of the untruncated text. *)
Fixpoint summarize (gs : list (string * Z * string)) (summary : string) (off : Z) : string * Z :=
  match gs with
  | [] => (summary, off)
  | g :: gs' =>
      if off <? 1024 - 150 then
        summarize gs' (summary +:+ snprintf (Z.to_nat (1024 - off)) (group_text g))
          (off + slen (group_text g))
      else (summary, off)
  end.

Definition rollup_summary (rows : list transition_row) : string :=
  let '(summary, off) := summarize (rollup_groups rows) "" 0 in
  if off =? 0 then "no transitions this period" else summary.

Definition do_rollup : W unit :=
  ts ← now_iso;
  summary ← fetch "no transitions this period" (λ s, rollup_summary (emit_transitions s));
  _ ← stmt (set_rats (λ l, l ++ [Rat ts summary]));
  _ ← fire_notification summary;
  stmt (set_transitions (λ _, [])).

Definition maybe_rollup : W unit :=
  count ← fetch 0 (λ s, Z.of_nat (length (emit_transitions s)));
  if ROLLUP_CAP <=? count then do_rollup else mret tt.

(** ** Recording an emission *)

Definition state_key (source event_type : string) (r : emit_state_row) : bool :=
  String.eqb (es_source r) source && String.eqb (es_type r) event_type.

(** The [last_seen] of the pair, in the [char[32]] of the caller. *)
Definition select_last_seen (source event_type : string) : W (option string) :=
  fetch None (λ s, strncpy 32 ∘ es_last <$> List.find (state_key source event_type) (emit_state s)).

Definition transition_of (found : option string) (ts : string) : option string :=
  match found with
  | None => Some "first_seen"
  | Some last_seen =>
      if String.eqb last_seen "" then None
      else if GAP_THRESHOLD_SEC <=? read_clock ts - read_clock last_seen then Some "resumed"
      else None
  end.

Definition upsert_emit_state (source event_type ts detail : string) : W unit :=
  stmt (set_state (on_conflict (state_key source event_type)
    (λ r, EmitState (es_source r) (es_type r) (es_first r) ts (es_count r + 1) detail)
    (EmitState source event_type ts ts 1 detail))).

Definition insert_transition (source event_type kind ts detail : string) : W unit :=
  stmt (set_transitions (λ l, l ++ [Transition source event_type kind ts detail])).

Definition upsert_daemon_stats (source event_type ts : string) : W unit :=
  stmt (set_stats (on_conflict (λ r, String.eqb (ds_name r) source)
    (λ r, Stat (ds_name r) (ds_total r + 1) (Some event_type) (Some ts))
    (Stat source 1 (Some event_type) (Some ts)))).

Definition sewer_db_record_emit (source event_type : string) (detail : option string) : W unit :=
  open ← gets sw_open;
  if negb open then mret tt
  else
    ts ← now_iso;
    found ← select_last_seen source event_type;
    let detail := default "" detail in
    _ ← upsert_emit_state source event_type ts detail;
    match transition_of found ts with
    | Some kind =>
        _ ← insert_transition source event_type kind ts detail;
        _ ← upsert_daemon_stats source event_type ts;
        maybe_rollup
    | None => upsert_daemon_stats source event_type ts
    end.

(** [sewer_db_init], when SQLite can open the file or not, and [sewer_db_close]. *)
Definition sewer_db_init (can_open : bool) : W Z :=
  _ ← modify (set_open can_open); mret (if can_open then 0 else -1).

Definition sewer_db_close : W unit := modify (set_open false).

End splinterd.
