(* ===== verification/Splinter.v ===== *)
(** * splinterd: the event sink ([src/core/splinterd.c])

    The records that the daemons send, [APRIL|source|type|payload], the parser,
    and one accepted connection.  The bytes of a connection are a string that
    may hold any byte, NUL included; a C string made of it ends at the first
    NUL ([c_str]).  A receive time-out ends the bytes like the end of the
    stream. *)

From S2P Require Import Prelude CString Clock Sewer.
From Stdlib Require Import Ascii.

Definition RECV_BUF_SIZE : nat := 1284.
Definition SPLINTER_PREFIX : string := "APRIL".
Definition SPLINTER_MAX_SOURCE : nat := 32.
Definition SPLINTER_MAX_TYPE : nat := 32.
Definition SPLINTER_MAX_PAYLOAD : nat := 1024.

Record splinter_event_t := SplinterEvent { ev_source : string; ev_type : string; ev_payload : string }.

(** ** The sending side: [splinterd_emit] of every daemon *)

(** The bytes [write(fd, buf, n)] takes: [n] is the length [snprintf] wants, so
    a long record sends its 511 first bytes, the terminator, and what lies in
    memory behind [buf]. *)
Definition splinterd_emit (daemon type payload beyond : string) : string :=
  let text := scat ["APRIL|"; daemon; "|"; type; "|"; payload; NLs] in
  stake (String.length text) (snprintf 512 text +:+ String NUL beyond).

(** [splinter_emit] of [splinter_protocol.h], the header's client: newlines
    become blanks, and a record that does not fit is not sent. *)
Definition SPLINTER_EMIT_BUF : nat := 2048.

Definition smap (f : ascii → ascii) : string → string :=
  fix go s := match s with EmptyString => EmptyString | String c s' => String (f c) (go s') end.

Definition unline (c : ascii) : ascii :=
  if Ascii.eqb c NL || Ascii.eqb c (chr 13) then " "%char else c.

Definition splinter_emit (source type payload : string) : string :=
  let safe := smap unline (strncpy SPLINTER_EMIT_BUF payload) in
  let text := scat ["APRIL|"; source; "|"; type; "|"; safe; NLs] in
  if (String.length text <? SPLINTER_EMIT_BUF)%nat then text else "".

(** ** The parser *)

(** [!tok || strlen(tok) == 0 || strlen(tok) >= max], negated. *)
Definition fits (max : nat) (tok : string) : bool :=
  negb (String.length tok =? 0)%nat && (String.length tok <? max)%nat.

Definition parse_event (line : string) : option splinter_event_t :=
  let buf := trim_end is_line_end (strncpy RECV_BUF_SIZE line) in
  if (String.length buf =? 0)%nat then None
  else
    '(tok, rest) ← strtok "|" buf;
    if negb (String.eqb tok SPLINTER_PREFIX) then None
    else
      '(source, rest) ← strtok "|" rest;
      if negb (fits SPLINTER_MAX_SOURCE source) then None
      else
        '(type, rest) ← strtok "|" rest;
        if negb (fits SPLINTER_MAX_TYPE type) then None
        else
          '(payload, _) ← strtok "" rest;
          Some (SplinterEvent (strncpy SPLINTER_MAX_SOURCE source) (strncpy SPLINTER_MAX_TYPE type)
                  (strncpy SPLINTER_MAX_PAYLOAD payload)).

(** ** A connection *)

(** The receive loop: at most [n] bytes, up to a newline. *)
Fixpoint receive (n : nat) (stream : string) : string :=
  match n, stream with
  | S n', String c s =>
      if Ascii.eqb c NL then EmptyString else String c (receive n' s)
  | _, _ => EmptyString
  end.

Section splinterd.
Context (local : Z → Z).

(** The payload is not passed on. *)
Definition dispatch_event (ev : splinter_event_t) : W unit :=
  sewer_db_record_emit local (ev_source ev) (ev_type ev) None.

Definition handle_connection (stream : string) : W unit :=
  let buf := receive (RECV_BUF_SIZE - 1) stream in
  if (String.length buf =? 0)%nat then mret tt
  else
    match parse_event (c_str buf) with
    | None => mret tt
    | Some ev => dispatch_event ev
    end.

(** [main]'s loop over connections, each at its time. *)
Definition accept_loop (conns : list (Z * string)) : W unit :=
  mfor conns (λ '(t, stream), _ ← modify (set_clock t); handle_connection stream).

End splinterd.

(** ** Round trip *)

(** A name the protocol can carry. *)
Definition wire_char_bad (c : ascii) : bool :=
  Ascii.eqb c "|" || is_line_end c || Ascii.eqb c NUL.

Definition token_ok (tok : string) : Prop :=
  tok ≠ "" ∧ (String.length tok < 32)%nat ∧ none_of wire_char_bad tok = true.

Definition token_okb (tok : string) : bool :=
  negb (String.eqb tok "") && (String.length tok <? 32)%nat && none_of wire_char_bad tok.

Lemma token_okb_ok tok : token_okb tok = true → token_ok tok.
Proof.
  unfold token_okb, token_ok. intros [[H1%negb_true_iff H2]%andb_prop H3]%andb_prop.
  split_and!; [by apply String.eqb_neq|by apply Nat.ltb_lt|done].
Qed.

(** A payload the protocol can carry. *)
Definition text_char_bad (c : ascii) : bool := is_line_end c || Ascii.eqb c NUL.

Definition header (source type : string) : string := scat ["APRIL|"; source; "|"; type; "|"].

Lemma header_length source type :
  String.length (header source type) = (8 + String.length source + String.length type)%nat.
Proof. unfold header, scat. rewrite !length_app_str. cbn. lia. Qed.

Lemma receive_app n s r :
  none_of (λ c, Ascii.eqb c NL) s = true → (String.length s ≤ n)%nat →
  receive n (s +:+ r) = s +:+ receive (n - String.length s) r.
Proof.
  revert n. induction s as [|c s IH]; intros n Hs Hn.
  - rewrite !app_nil_l_str. cbn [String.length]. by rewrite Nat.sub_0_r.
  - destruct n as [|n]; [cbn in Hn; lia|]. rewrite none_of_cons in Hs.
    apply andb_prop in Hs as [Hc%negb_true_iff Hs].
    rewrite app_cons_str. cbn [receive String.length Nat.sub]. rewrite Hc, IH; [done|done|].
    cbn in Hn. lia.
Qed.

Lemma c_str_stop s r : none_of (Ascii.eqb NUL) s = true → c_str (s +:+ String NUL r) = s.
Proof. intros Hs. unfold c_str, cut_at. by rewrite break_at_stop. Qed.

(** The parser on a record whose fields it can carry. *)
Lemma parse_record source type payload :
  token_ok source → token_ok type → payload ≠ "" → none_of is_line_end payload = true →
  (String.length (header source type +:+ payload) < RECV_BUF_SIZE)%nat →
  parse_event (header source type +:+ payload) =
    Some (SplinterEvent source type (strncpy SPLINTER_MAX_PAYLOAD payload)).
Proof.
  intros (Hs & Hsl & Hsc) (Ht & Htl & Htc) Hp Hpc Hlen. unfold parse_event.
  rewrite strncpy_id, trim_end_app by done.
  assert ((String.length (header source type +:+ payload) =? 0)%nat = false) as ->.
  { apply Nat.eqb_neq. rewrite length_app_str, header_length. lia. }
  assert (∀ tok, none_of wire_char_bad tok = true → none_of (char_in "|") tok = true) as Hbar.
  { intros tok. apply none_of_weaken. intros c. unfold wire_char_bad. cbn. by destruct (Ascii.eqb c "|"). }
  assert (∀ tok, tok ≠ "" → (String.length tok < 32)%nat → fits 32 tok = true) as Hfits.
  { intros [|c tok] Hne Hl; [done|]. unfold fits. rewrite andb_true_iff. split; [done|].
    by apply Nat.ltb_lt. }
  unfold header, scat. rewrite !app_nil_r_str, !app_assoc_str.
  change ("APRIL|" +:+ ?x) with ("APRIL" +:+ String "|" x).
  rewrite strtok_token by done. cbn [mbind option_bind].
  change (String.eqb "APRIL" SPLINTER_PREFIX) with true. cbn [negb].
  repeat change ("|" +:+ ?x) with (String "|" x).
  rewrite (strtok_token "|" source) by auto. cbn [mbind option_bind].
  unfold SPLINTER_MAX_SOURCE, SPLINTER_MAX_TYPE. rewrite Hfits by done. cbn [negb].
  rewrite (strtok_token "|" type) by auto. cbn [mbind option_bind].
  rewrite Hfits by done. cbn [negb].
  rewrite strtok_last; [|done|]; cbn [mbind option_bind].
  - by rewrite !(strncpy_id 32).
  - unfold none_of. apply forallb_forall. done.
Qed.

Lemma bad_char_weaken (g : ascii → bool) tok :
  (∀ c, g c = true → wire_char_bad c = true) → none_of wire_char_bad tok = true → none_of g tok = true.
Proof. apply none_of_weaken. Qed.

(** The header holds none of the characters that end a record. *)
Lemma header_none (g : ascii → bool) source type :
  (∀ c, g c = true → text_char_bad c = true) →
  token_ok source → token_ok type → none_of g (header source type) = true.
Proof.
  intros Hg (_ & _ & Hs) (_ & _ & Ht).
  assert (∀ c, g c = true → wire_char_bad c = true) as Hw.
  { intros c Hc%Hg. unfold wire_char_bad, text_char_bad in *. by rewrite <- orb_assoc, Hc, orb_true_r. }
  assert (∀ c, text_char_bad c = false → g c = false) as Hn
    by (intros c Hc; destruct (g c) eqn:Hgc; [by rewrite (Hg c Hgc) in Hc|done]).
  unfold header, scat. rewrite !none_of_app.
  rewrite (bad_char_weaken g source), (bad_char_weaken g type) by done.
  unfold none_of, schars, forallb. by rewrite !Hn.
Qed.

(** What arrives of a record is its first 511 bytes at most. *)
Lemma received_emit source type payload beyond :
  token_ok source → token_ok type → none_of text_char_bad payload = true →
  c_str (receive (RECV_BUF_SIZE - 1) (splinterd_emit source type payload beyond)) =
    stake 511 (header source type +:+ payload).
Proof.
  intros Hs Ht Hp.
  assert (∀ g, (∀ c, g c = true → text_char_bad c = true) →
    none_of g (header source type +:+ payload) = true) as Hnone.
  { intros g Hg. rewrite none_of_app, header_none by done. by apply (none_of_weaken text_char_bad). }
  assert (none_of (λ c, Ascii.eqb c NL) (header source type +:+ payload) = true) as Hnl.
  { apply Hnone. unfold text_char_bad, is_line_end. intros c Hc. by rewrite Hc. }
  assert (none_of (Ascii.eqb NUL) (header source type +:+ payload) = true) as Hnul.
  { apply Hnone. unfold text_char_bad. intros c Hc. rewrite Ascii.eqb_sym, Hc. apply orb_true_r. }
  assert (splinterd_emit source type payload beyond =
    let text := (header source type +:+ payload) +:+ NLs in
    stake (String.length text) (stake 511 text +:+ String NUL beyond)) as ->.
  { unfold splinterd_emit, header, scat, snprintf. cbv zeta. by rewrite ?app_nil_r_str, ?app_assoc_str. }
  cbv zeta. remember (header source type +:+ payload) as body eqn:Hbody. clear Hbody Hnone Hp Hs Ht.
  rewrite length_app_str. cbn [String.length NLs].
  destruct (decide (String.length body < 511)%nat) as [Hlen|Hlen].
  - rewrite (stake_all 511 (body +:+ NLs)) by (rewrite length_app_str; cbn; lia).
    replace (String.length body + 1)%nat with (String.length (body +:+ NLs))
      by (rewrite length_app_str; done).
    rewrite stake_app_all, receive_app by (done || unfold RECV_BUF_SIZE; lia).
    rewrite stake_all by lia. unfold NLs. replace (RECV_BUF_SIZE - 1 - String.length body)%nat
      with (S (RECV_BUF_SIZE - 2 - String.length body)) by (unfold RECV_BUF_SIZE; lia).
    cbn [receive]. rewrite Ascii.eqb_refl, app_nil_r_str. by apply c_str_id.
  - rewrite (stake_app 511 body). replace (511 - String.length body)%nat with 0%nat by lia.
    change (stake 0 NLs) with "". rewrite app_nil_r_str.
    assert (String.length (stake 511 body) = 511%nat) as Hl by (rewrite length_stake; lia).
    pose proof (none_of_stake _ 511 _ Hnl) as Hnl'. pose proof (none_of_stake _ 511 _ Hnul) as Hnul'.
    remember (stake 511 body) as sent. rewrite stake_app, (stake_all _ sent) by lia.
    replace (String.length body + 1 - String.length sent)%nat
      with (S (String.length body - 511)) by lia.
    cbn [stake]. rewrite receive_app by (done || unfold RECV_BUF_SIZE; lia).
    rewrite Hl. change (RECV_BUF_SIZE - 1 - 511)%nat with (S 771). cbn [receive].
    by apply c_str_stop.
Qed.

Lemma splinter_emit_parse_aux source type payload beyond :
  token_ok source → token_ok type → payload ≠ "" → none_of text_char_bad payload = true →
  parse_event (c_str (receive (RECV_BUF_SIZE - 1) (splinterd_emit source type payload beyond))) =
    Some (SplinterEvent source type (stake (511 - String.length (header source type)) payload)).
Proof.
  intros Hs Ht Hne Hp. rewrite received_emit by done.
  pose proof Hs as (_ & Hsl & _). pose proof Ht as (_ & Htl & _).
  rewrite stake_app, stake_all by (rewrite header_length; lia).
  rewrite parse_record; [|done|done| | |].
  - unfold SPLINTER_MAX_PAYLOAD, strncpy. by rewrite stake_stake, Nat.min_r by lia.
  - rewrite header_length. destruct payload as [|c p]; [done|].
    replace (511 - _)%nat with (S (502 - String.length source - String.length type)) by lia. done.
  - apply none_of_stake. apply (none_of_weaken text_char_bad); [|done].
    intros c Hc. unfold text_char_bad. by rewrite Hc.
  - rewrite length_app_str, length_stake, header_length. unfold RECV_BUF_SIZE. lia.
Qed.

(** What reaches the database is the source and the type: a connection that
    carries a record has the effect of recording the pair. *)
Lemma connection_records local source type payload beyond s :
  token_ok source → token_ok type → payload ≠ "" → none_of text_char_bad payload = true →
  exec (handle_connection local (splinterd_emit source type payload beyond)) s =
  exec (sewer_db_record_emit local source type None) s.
Proof.
  intros Hs Ht Hne Hp. unfold handle_connection.
  pose proof (received_emit source type payload beyond Hs Ht Hp) as Hr.
  destruct (String.length _ =? 0)%nat eqn:Hz.
  { apply Nat.eqb_eq in Hz. destruct (receive _ _); [|done]. exfalso.
    assert (String.length (c_str "") = 0%nat) as Hl by done. rewrite Hr, length_stake in Hl.
    rewrite length_app_str, header_length in Hl. lia. }
  rewrite splinter_emit_parse_aux by done. done.
Qed.

(** Transport to the sink: whatever lies in memory behind the sender's buffer,
    and however long the payload, splinterd parses a daemon's record into its
    source, its type and the part of its payload that fits in 511 bytes; and of
    these only the source and the type reach the database. *)
Theorem splinter_round_trip local source type payload beyond s :
  token_ok source → token_ok type → payload ≠ "" → none_of text_char_bad payload = true →
  let stream := splinterd_emit source type payload beyond in
  parse_event (c_str (receive (RECV_BUF_SIZE - 1) stream)) =
    Some (SplinterEvent source type (stake (511 - String.length (header source type)) payload)) ∧
  exec (handle_connection local stream) s = exec (sewer_db_record_emit local source type None) s.
Proof. intros. split; [by apply splinter_emit_parse_aux|by apply connection_records]. Qed.

(** A string of [n] letters. *)
Definition letters (n : nat) : string := Nat.iter n (String "x") "".

Lemma splinter_round_trip_witness :
  parse_event (c_str (receive (RECV_BUF_SIZE - 1)
    (splinterd_emit "nulld" "XIAOMI_IDLE_TELEMETRY" (letters 600) ("stack" +:+ letters 3000)))) =
  Some (SplinterEvent "nulld" "XIAOMI_IDLE_TELEMETRY" (letters 477)).
Proof.
  destruct (splinter_round_trip (λ t, t) "nulld" "XIAOMI_IDLE_TELEMETRY" (letters 600)
    ("stack" +:+ letters 3000) (sewer_schema 0)) as [H _];
    [by apply token_okb_ok|by apply token_okb_ok|done|by vm_compute|].
  rewrite H. by vm_compute.
Defined.
