(* ===== verification/Sink.v ===== *)
(** * The sink's guarantees

    What splinterd and its database promise together: the notification command
    is one shell word per argument whatever the daemons are called; the tables
    implement a map from pairs to counters; the rows stay well formed and carry
    nothing of a payload, whatever bytes arrive.  The last part types the columns of
    the four tables. *)

From S2P Require Import Prelude CString Clock Sewer Splinter.
From Stdlib Require Import Ascii DecimalString.
From Stdlib Require Import Ascii.

(** ** A reference shell reader

    The words of a simple POSIX command: blanks separate, single quotes and
    backslashes quote.  A character with any other meaning to the shell makes
    the result [None]. *)

Definition sh_special : string := ";&|<>()$`#*?[]~{}!" +:+ QUOTE +:+ NLs.

Definition sh_add (c : ascii) (w : option string) : option string :=
  Some (default "" w +:+ String c "").

Fixpoint sh_words (quoted : bool) (w : option string) (s : string) : option (list string) :=
  match s with
  | EmptyString => if quoted then None else Some (option_list w)
  | String c s' =>
      if quoted then
        if Ascii.eqb c "'" then sh_words false w s' else sh_words true (sh_add c w) s'
      else if Ascii.eqb c "'" then sh_words true (Some (default "" w)) s'
      else if Ascii.eqb c "\" then
        match s' with
        | String d s'' => sh_words false (sh_add d w) s''
        | EmptyString => None
        end
      else if Ascii.eqb c " " then
        match w with
        | Some x => cons x <$> sh_words false None s'
        | None => sh_words false None s'
        end
      else if char_in sh_special c then None
      else sh_words false (sh_add c w) s'
  end.

(** The part of the text that [quote_body] takes. *)
Fixpoint quote_taken (outsize o : Z) (s : string) : nat :=
  match s with
  | EmptyString => 0
  | String c s' =>
      if o <? wrap_u64 (outsize - 5) then
        if Ascii.eqb c "'" then S (quote_taken outsize (o + 4) s')
        else S (quote_taken outsize (o + 1) s')
      else 0
  end.

Lemma quote_body_word outsize s : ∀ o w,
  sh_words true (Some w) (quote_body outsize o s +:+ "'") =
  Some [w +:+ stake (quote_taken outsize o s) s].
Proof.
  induction s as [|c s IH]; intros o w; cbn [quote_body quote_taken].
  { by rewrite app_nil_r_str. }
  destruct (o <? _).
  2: { by rewrite app_nil_r_str. }
  destruct (Ascii.eqb c "'") eqn:Hc.
  - apply Ascii.eqb_eq in Hc as ->. rewrite app_assoc_str.
    change ("'\''" +:+ ?x) with (String "'" (String "\" (String "'" (String "'" x)))).
    cbn [sh_words Ascii.eqb Bool.eqb sh_add default]. rewrite IH. cbn [stake].
    unfold id. by rewrite app_assoc_str.
  - rewrite app_cons_str. cbn [sh_words]. rewrite Hc. unfold sh_add at 1. cbn [default from_option].
    rewrite IH. cbn [stake]. unfold id. by rewrite app_assoc_str.
Qed.

Lemma quote_body_length s : ∀ o, o <= 1534 → o + slen (quote_body 1536 o s) <= 1534.
Proof.
  unfold slen. induction s as [|c s IH]; intros o Hle; cbn [quote_body]; [cbn; lia|].
  change (wrap_u64 (1536 - 5)) with 1531. destruct (o <? 1531) eqn:Ho; [|cbn; lia]. bool_hyps.
  destruct (Ascii.eqb c "'").
  - rewrite length_app_str. specialize (IH (o + 4)). cbn [String.length]. lia.
  - specialize (IH (o + 1)). cbn [String.length]. lia.
Qed.

Lemma quote_taken_all s : ∀ o,
  o + 4 * slen s <= 1531 → (String.length s ≤ quote_taken 1536 o s)%nat.
Proof.
  unfold slen. induction s as [|c s IH]; intros o Ho; cbn [quote_taken String.length] in *; [lia|].
  change (wrap_u64 (1536 - 5)) with 1531. assert ((o <? 1531) = true) as -> by lia.
  destruct (Ascii.eqb c "'"); [specialize (IH (o + 4)) | specialize (IH (o + 1))]; lia.
Qed.

Lemma shell_quote_1536 s :
  shell_quote s 1536 = "'" +:+ quote_body 1536 1 s +:+ "'".
Proof.
  unfold shell_quote. change (wrap_u64 (1536 - 1)) with 1535.
  change (0 <? 1535) with true. cbv iota. change (slen "'") with 1.
  pose proof (quote_body_length s 1 ltac:(lia)). assert ((1 + slen (quote_body 1536 1 s) <? 1535) = true) as -> by lia.
  done.
Qed.

(** C13. No text that the daemons choose reaches the shell unquoted: the rollup's
    command, read by a shell, is [cmd notification post] with its fixed
    arguments and one last word that begins the summary, and is all of it when
    the summary has at most 382 bytes. *)
Theorem notification_is_one_word summary :
  ∃ n, sh_words false None (notification_cmd summary) =
    Some ["cmd"; "notification"; "post"; "-S"; "bigtext"; "-t"; "sewer.db rollup"; "sewer_rollup";
          stake n summary] ∧
    (slen summary <= 382 → stake n summary = summary).
Proof.
  exists (quote_taken 1536 1 summary). split.
  - unfold notification_cmd. rewrite shell_quote_1536, snprintf_id.
    + change ("cmd notification post -S bigtext -t 'sewer.db rollup' sewer_rollup " +:+ ?x)
        with ("cmd notification post -S bigtext -t 'sewer.db rollup' sewer_rollup '" +:+
              (quote_body 1536 1 summary +:+ "'")).
      pose proof (quote_body_word 1536 summary 1 "") as H.
      remember (quote_body 1536 1 summary +:+ "'") as body. clear Heqbody.
      unfold String.app at 1. cbn. unfold String.app in H. by rewrite H.
    + pose proof (quote_body_length summary 1 ltac:(lia)). unfold slen in *.
      rewrite !length_app_str. cbn [String.length]. lia.
  - intros Hs. apply stake_all, quote_taken_all. lia.
Qed.

Lemma notification_is_one_word_witness :
  ∃ n, sh_words false None (notification_cmd "first_seen x1 (it's; reboot); ") =
    Some ["cmd"; "notification"; "post"; "-S"; "bigtext"; "-t"; "sewer.db rollup"; "sewer_rollup";
          stake n "first_seen x1 (it's; reboot); "] ∧
    stake n "first_seen x1 (it's; reboot); " = "first_seen x1 (it's; reboot); ".
Proof.
  destruct (notification_is_one_word "first_seen x1 (it's; reboot); ") as (n & H1 & H2).
  exists n. split; [exact H1|]. apply H2. by vm_compute.
Defined.

(** ** The abstract sink *)

(** What is known of a pair: the wall clocks of its first and last emission and
    the number of emissions. *)
Record entry := Entry { en_first : Z; en_last : Z; en_count : Z }.

(** A transition: source, type, whether it resumes, when. *)
Record change := Change { ch_source : string; ch_type : string; ch_resumed : bool; ch_clock : Z }.

(** A map of entries, the open batch of transitions, the batches rolled up with
    the wall clock of the rollup, and the totals per daemon. *)
Record sink := Sink {
  sk_pairs : gmap (string * string) entry;
  sk_open : list change;
  sk_batches : list (Z * list change);
  sk_totals : gmap string Z }.

Definition due (w : Z) (e : option entry) : option bool :=
  match e with
  | None => Some false
  | Some e => if 1800 <=? w - en_last e then Some true else None
  end.

Definition close_batch (w : Z) (k : sink) : sink :=
  if 500 <=? Z.of_nat (length (sk_open k)) then
    Sink (sk_pairs k) [] (sk_batches k ++ [(w, sk_open k)]) (sk_totals k)
  else k.

Definition sink_record (w : Z) (source type : string) (k : sink) : sink :=
  let e := sk_pairs k !! (source, type) in
  let pairs := <[(source, type) :=
    match e with
    | Some e => Entry (en_first e) w (en_count e + 1)
    | None => Entry w w 1
    end]> (sk_pairs k) in
  let totals := <[source := default 0 (sk_totals k !! source) + 1]> (sk_totals k) in
  match due w e with
  | Some r => close_batch w (Sink pairs (sk_open k ++ [Change source type r w]) (sk_batches k) totals)
  | None => Sink pairs (sk_open k) (sk_batches k) totals
  end.

(** The rows of an abstract sink. *)
Definition state_row (source type : string) (e : entry) : emit_state_row :=
  EmitState source type (strftime_iso (en_first e)) (strftime_iso (en_last e)) (en_count e) "".

Definition change_row (c : change) : transition_row :=
  Transition (ch_source c) (ch_type c) (if ch_resumed c then "resumed" else "first_seen")
    (strftime_iso (ch_clock c)) "".

Definition batch_summary (b : Z * list change) : string := rollup_summary (change_row <$> b.2).

Record implements (s : sewer) (k : sink) : Prop := Implements {
  im_open : sw_open s = true;
  im_tables : sw_tables s = true;
  im_pairs source type :
    List.find (state_key source type) (emit_state s) =
    state_row source type <$> sk_pairs k !! (source, type);
  im_changes : emit_transitions s = change_row <$> sk_open k;
  im_rats : sewer_rats s = (λ b, Rat (strftime_iso b.1) (batch_summary b)) <$> sk_batches k;
  im_notified : sw_notified s = (notification_cmd ∘ batch_summary) <$> sk_batches k;
  im_totals source :
    ds_total <$> List.find (λ r, String.eqb (ds_name r) source) (daemon_stats s) =
    sk_totals k !! source;
  im_clocks p e : sk_pairs k !! p = Some e → 0 <= en_last e < CLOCK_MAX }.

(** ** The upsert *)

Section on_conflict.
Context {R : Type} (same : R → bool) (upd : R → R) (new : R).
Hypothesis Hupd : ∀ r, same r = true → same (upd r) = true.
Hypothesis Hnew : same new = true.

Lemma find_on_conflict l :
  List.find same (on_conflict same upd new l) =
  Some (match List.find same l with Some r => upd r | None => new end).
Proof.
  induction l as [|r l IH]; cbn [on_conflict List.find]; [by rewrite Hnew|].
  destruct (same r) eqn:Hr; cbn [List.find]; [by rewrite Hupd|]. by rewrite Hr.
Qed.

Lemma find_on_conflict_other other l :
  (∀ r, same r = true → other r = false) →
  List.find other (on_conflict same upd new l) = List.find other l.
Proof.
  intros Ho. induction l as [|r l IH]; cbn [on_conflict List.find]; [by rewrite Ho|].
  destruct (same r) eqn:Hr; cbn [List.find].
  - rewrite (Ho r), (Ho (upd r)) by auto. done.
  - by rewrite IH.
Qed.

End on_conflict.

Lemma state_key_eq source type r :
  state_key source type r = true ↔ es_source r = source ∧ es_type r = type.
Proof. unfold state_key. by rewrite andb_true_iff, !String.eqb_eq. Qed.

(** ** The refinement *)

Section refinement.
Context (local : Z → Z).

Definition rolled (s : sewer) : sewer :=
  let summary := rollup_summary (emit_transitions s) in
  set_transitions (λ _, []) (set_notified (λ l, l ++ [notification_cmd summary])
    (set_rats (λ l, l ++ [Rat (strftime_iso (local (sw_clock s))) summary]) s)).

Definition rolled_when_full (s : sewer) : sewer :=
  if ROLLUP_CAP <=? Z.of_nat (length (emit_transitions s)) then rolled s else s.

(** [sewer_db_record_emit] on an open database. *)
Lemma exec_record source type s :
  sw_open s = true → sw_tables s = true →
  exec (sewer_db_record_emit local source type None) s =
  let ts := strftime_iso (local (sw_clock s)) in
  let s1 := set_state (on_conflict (state_key source type)
    (λ r, EmitState (es_source r) (es_type r) (es_first r) ts (es_count r + 1) "")
    (EmitState source type ts ts 1 "")) s in
  let counted := set_stats (on_conflict (λ r, String.eqb (ds_name r) source)
    (λ r, Stat (ds_name r) (ds_total r + 1) (Some type) (Some ts))
    (Stat source 1 (Some type) (Some ts))) in
  match transition_of (strncpy 32 ∘ es_last <$> List.find (state_key source type) (emit_state s)) ts with
  | Some kind =>
      rolled_when_full (counted (set_transitions (λ l, l ++ [Transition source type kind ts ""]) s1))
  | None => counted s1
  end.
Proof.
  intros Ho Ht. unfold sewer_db_record_emit.
  rewrite exec_bind, exec_gets, result_gets, Ho. cbn [negb].
  unfold now_iso, select_last_seen, upsert_emit_state, upsert_daemon_stats, insert_transition, stmt, fetch.
  autorewrite with monad. destruct s as [o tb c es et st ra no]; cbn in Ho, Ht; subst. cbv zeta.
  cbn [sw_tables sw_clock emit_state set_state].
  destruct (transition_of _ _) as [kind|]; autorewrite with monad; [|done].
  unfold maybe_rollup, fetch, rolled_when_full. autorewrite with monad.
  cbn [sw_tables set_stats set_transitions set_state emit_transitions].
  destruct (ROLLUP_CAP <=? _); [|done].
  unfold do_rollup, now_iso, fetch, stmt, fire_notification. by autorewrite with monad.
Qed.

Lemma transition_due w (e : option entry) source type :
  0 <= w < CLOCK_MAX → (∀ x, e = Some x → 0 <= en_last x < CLOCK_MAX) →
  transition_of (strncpy 32 ∘ es_last <$> (state_row source type <$> e)) (strftime_iso w) =
  (λ r : bool, if r then "resumed" else "first_seen") <$> due w e.
Proof.
  intros Hw He. destruct e as [e|]; [|done]. cbn [fmap option_fmap option_map compose es_last state_row].
  rewrite strncpy_id by (rewrite length_strftime; lia). unfold transition_of, due.
  assert (String.eqb (strftime_iso (en_last e)) "" = false) as ->.
  { apply String.eqb_neq. intros Hn. by assert (String.length (strftime_iso (en_last e)) = 0%nat) by by rewrite Hn. }
  rewrite !read_clock_strftime by auto. unfold GAP_THRESHOLD_SEC. by destruct (_ <=? _).
Qed.

(** Closing a full batch. *)
Lemma rolled_implements s k :
  implements s k →
  implements (rolled_when_full s) (close_batch (local (sw_clock s)) k).
Proof.
  intros [Ho Ht Hp Hc Hr Hn Htot Hcl]. unfold rolled_when_full, close_batch, ROLLUP_CAP.
  rewrite Hc, length_fmap. destruct (500 <=? _); [|done].
  unfold rolled. destruct s; cbn in *. subst. split; cbn; try done.
  - by rewrite fmap_app.
  - by rewrite fmap_app.
Qed.

Lemma record_implements s k source type :
  implements s k → 0 <= local (sw_clock s) < CLOCK_MAX →
  implements (exec (sewer_db_record_emit local source type None) s)
    (sink_record (local (sw_clock s)) source type k).
Proof.
  intros [Ho Ht Hp Hc Hr Hn Htot Hcl] Hw. rewrite exec_record by done. cbv zeta.
  rewrite Hp, transition_due by (done || intros; by eapply Hcl). unfold sink_record.
  assert (∀ tr tr', tr = change_row <$> tr' → implements
    (set_stats (on_conflict (λ r, String.eqb (ds_name r) source)
        (λ r, Stat (ds_name r) (ds_total r + 1) (Some type) (Some (strftime_iso (local (sw_clock s)))))
        (Stat source 1 (Some type) (Some (strftime_iso (local (sw_clock s))))))
      (set_transitions (λ _, tr) (set_state (on_conflict (state_key source type)
        (λ r, EmitState (es_source r) (es_type r) (es_first r) (strftime_iso (local (sw_clock s))) (es_count r + 1) "")
        (EmitState source type (strftime_iso (local (sw_clock s))) (strftime_iso (local (sw_clock s))) 1 "")) s)))
    (Sink (<[(source, type) := match sk_pairs k !! (source, type) with
       | Some e => Entry (en_first e) (local (sw_clock s)) (en_count e + 1)
       | None => Entry (local (sw_clock s)) (local (sw_clock s)) 1 end]> (sk_pairs k))
       tr' (sk_batches k) (<[source := default 0 (sk_totals k !! source) + 1]> (sk_totals k)))) as Hcounted.
  { intros tr tr' Htr. split; cbn; try done.
    - intros src ty. destruct (decide ((src, ty) = (source, type))) as [[= -> ->]|Hne].
      + rewrite lookup_insert_eq, find_on_conflict, Hp.
        * destruct (sk_pairs k !! (source, type)); done.
        * intros r. by rewrite !state_key_eq.
        * by apply state_key_eq.
      + rewrite lookup_insert_ne, find_on_conflict_other, Hp; [done|..|congruence].
        * intros r. by rewrite !state_key_eq.
        * by apply state_key_eq.
        * intros r Hk%state_key_eq. apply not_true_iff_false. rewrite state_key_eq. intros [??]; destruct Hk; congruence.
    - intros src. destruct (decide (src = source)) as [->|Hne].
      + rewrite lookup_insert_eq, find_on_conflict; cbn; [|done|apply String.eqb_refl].
        rewrite <- Htot. by destruct (List.find _ _).
      + rewrite lookup_insert_ne, find_on_conflict_other by
          (done || apply String.eqb_refl || by intros r ->%String.eqb_eq; apply String.eqb_neq). done.
    - intros p e. rewrite lookup_insert_Some. intros [[<- <-]|[_ He]]; [|by eapply Hcl].
      by destruct (sk_pairs k !! _). }
  destruct (due _ _) as [r|]; cbn [fmap option_fmap option_map].
  - pose proof (rolled_implements _ _ (Hcounted
      (emit_transitions s ++ [change_row (Change source type r (local (sw_clock s)))])
      (sk_open k ++ [Change source type r (local (sw_clock s))])
      ltac:(by rewrite fmap_app, Hc))) as H.
    clear -H. destruct s. exact H.
  - pose proof (Hcounted _ _ Hc) as H. clear -H. destruct s. exact H.
Qed.

(** ** Runs *)

(** The record a connection carries. *)
Definition event_of (stream : string) : option splinter_event_t :=
  parse_event (c_str (receive (RECV_BUF_SIZE - 1) stream)).

Definition sink_conn (k : sink) (conn : Z * string) : sink :=
  match event_of conn.2 with
  | Some ev => sink_record (local conn.1) (ev_source ev) (ev_type ev) k
  | None => k
  end.

Lemma handle_event stream s :
  exec (handle_connection local stream) s =
  match event_of stream with
  | Some ev => exec (sewer_db_record_emit local (ev_source ev) (ev_type ev) None) s
  | None => s
  end.
Proof.
  unfold handle_connection, event_of. destruct (receive _ _) as [|c r]; [done|].
  cbn [String.length Nat.eqb]. by destruct (parse_event _).
Qed.

Lemma accept_cons t stream conns s :
  exec (accept_loop local ((t, stream) :: conns)) s =
  exec (accept_loop local conns) (exec (handle_connection local stream) (set_clock t s)).
Proof. unfold accept_loop. cbn [mfor]. by autorewrite with monad. Qed.

Lemma set_clock_implements t s k : implements s k → implements (set_clock t s) k.
Proof. intros []. by split. Qed.

Lemma accept_implements conns : ∀ s k,
  implements s k → Forall (λ c, 0 <= local c.1 < CLOCK_MAX) conns →
  implements (exec (accept_loop local conns) s) (foldl sink_conn k conns).
Proof.
  induction conns as [|[t stream] conns IH]; intros s k Hk Hc; [done|].
  apply Forall_cons in Hc as [Ht Hc]. rewrite accept_cons. cbn [foldl]. apply IH; [|done].
  rewrite handle_event. unfold sink_conn. cbn [fst snd] in *.
  apply (set_clock_implements t) in Hk. destruct (event_of stream) as [ev|]; [|done].
  replace (local t) with (local (sw_clock (set_clock t s))) by done.
  by apply record_implements.
Qed.

End refinement.

(** The registered daemons at zero. *)
Definition sink_init : sink := Sink ∅ [] [] (list_to_map ((λ d, (d, 0)) <$> DAEMON_SOURCES)).

(** splinterd after [sewer_db_init] opened the database of the schema script. *)
Definition splinterd_start (clock : Z) : sewer := exec (sewer_db_init true) (sewer_schema clock).

Lemma start_implements clock : implements (splinterd_start clock) sink_init.
Proof.
  split; try done.
  intros source. unfold splinterd_start, sewer_schema, sink_init. cbn [daemon_stats exec].
  change (daemon_stats _) with ((λ d, Stat d 0 None None) <$> DAEMON_SOURCES).
  cbn [sk_totals]. generalize DAEMON_SOURCES. intros l.
  induction l as [|d l IH]; [done|]. cbn [fmap list_fmap List.find ds_name].
  destruct (String.eqb d source) eqn:Hd.
  - apply String.eqb_eq in Hd as ->. cbn. by rewrite lookup_insert_eq.
  - apply String.eqb_neq in Hd. cbn. by rewrite lookup_insert_ne, <- IH.
Qed.

(** C8. splinterd implements an abstract sink: over any sequence of connections,
    whatever bytes they carry, the four tables and the notifications are those
    of a map from pairs to (first, last, count), totals per daemon and batches
    of 500 changes, computed on clock values; no other text is stored. *)
Theorem splinterd_refines_sink local clock conns :
  Forall (λ c, 0 <= local c.1 < CLOCK_MAX) conns →
  implements (exec (accept_loop local conns) (splinterd_start clock))
    (foldl (sink_conn local) sink_init conns).
Proof. intros Hc. apply accept_implements; [apply start_implements|done]. Qed.

Definition sample_conns : list (Z * string) :=
  [(1000, splinterd_emit "nulld" "IDLE" "idle" "");
   (1010, splinterd_emit "nulld" "IDLE" "again" "");
   (1020, "GET / HTTP/1.1" +:+ NLs);
   (9000, splinterd_emit "nulld" "IDLE" "back" "")].

Lemma splinterd_refines_sink_witness :
  emit_state (exec (accept_loop (λ t, t) sample_conns) (splinterd_start 0)) =
  [EmitState "nulld" "IDLE" "1970-01-01T00:16:40" "1970-01-01T02:30:00" 3 ""].
Proof.
  assert (implements (exec (accept_loop (λ t, t) sample_conns) (splinterd_start 0))
    (foldl (sink_conn (λ t, t)) sink_init sample_conns)) as [_ _ Hp _ _ _ _ _].
  { apply splinterd_refines_sink. repeat constructor; vm_compute; congruence. }
  vm_compute. reflexivity.
Defined.

(** ** Accounting *)

Section accounting.
Context (local : Z → Z).

Definition is_pair (source type : string) (conn : Z * string) : bool :=
  match event_of conn.2 with
  | Some ev => String.eqb (ev_source ev) source && String.eqb (ev_type ev) type
  | None => false
  end.

Definition is_from (source : string) (conn : Z * string) : bool :=
  match event_of conn.2 with
  | Some ev => String.eqb (ev_source ev) source
  | None => false
  end.

Definition number_of (f : Z * string → bool) (conns : list (Z * string)) : Z :=
  Z.of_nat (length (List.filter f conns)).

Definition count_in (k : sink) (source type : string) : Z :=
  match sk_pairs k !! (source, type) with Some e => en_count e | None => 0 end.

Lemma close_batch_pairs w k : sk_pairs (close_batch w k) = sk_pairs k.
Proof. unfold close_batch. by destruct (_ <=? _). Qed.

Lemma close_batch_totals w k : sk_totals (close_batch w k) = sk_totals k.
Proof. unfold close_batch. by destruct (_ <=? _). Qed.

Lemma sink_record_pairs w source type k :
  sk_pairs (sink_record w source type k) = <[(source, type) :=
    match sk_pairs k !! (source, type) with
    | Some e => Entry (en_first e) w (en_count e + 1)
    | None => Entry w w 1
    end]> (sk_pairs k).
Proof. unfold sink_record. destruct (due _ _); [by rewrite close_batch_pairs|done]. Qed.

Lemma sink_record_totals w source type k :
  sk_totals (sink_record w source type k) =
  <[source := default 0 (sk_totals k !! source) + 1]> (sk_totals k).
Proof. unfold sink_record. destruct (due _ _); [by rewrite close_batch_totals|done]. Qed.

Lemma number_cons f c conns :
  number_of f (c :: conns) = (if f c then 1 else 0) + number_of f conns.
Proof. unfold number_of. cbn [List.filter]. destruct (f c); cbn [length]; lia. Qed.

Lemma counts conns : ∀ k source type,
  count_in (foldl (sink_conn local) k conns) source type =
  count_in k source type + number_of (is_pair source type) conns.
Proof.
  induction conns as [|c conns IH]; intros k source type; [unfold number_of; cbn; lia|].
  cbn [foldl]. rewrite IH, number_cons. enough (count_in (sink_conn local k c) source type =
    count_in k source type + (if is_pair source type c then 1 else 0)) by lia.
  unfold sink_conn, is_pair, count_in. destruct (event_of c.2) as [[src ty pl]|]; [|lia].
  cbn [ev_source ev_type]. rewrite sink_record_pairs.
  destruct (decide ((src, ty) = (source, type))) as [[= -> ->]|Hne].
  - rewrite lookup_insert_eq, !String.eqb_refl. destruct (sk_pairs k !! _); cbn; lia.
  - rewrite lookup_insert_ne by done.
    assert (String.eqb src source && String.eqb ty type = false) as ->; [|lia].
    apply not_true_iff_false. rewrite andb_true_iff, !String.eqb_eq. intros [-> ->]. done.
Qed.

Lemma totals conns : ∀ k source,
  default 0 (sk_totals (foldl (sink_conn local) k conns) !! source) =
  default 0 (sk_totals k !! source) + number_of (is_from source) conns.
Proof.
  induction conns as [|c conns IH]; intros k source; [unfold number_of; cbn; lia|].
  cbn [foldl]. rewrite IH, number_cons. enough (default 0 (sk_totals (sink_conn local k c) !! source) =
    default 0 (sk_totals k !! source) + (if is_from source c then 1 else 0)) by lia.
  unfold sink_conn, is_from. destruct (event_of c.2) as [[src ty pl]|]; [|lia].
  cbn [ev_source ev_type]. rewrite sink_record_totals.
  destruct (decide (src = source)) as [->|Hne].
  - rewrite lookup_insert_eq, String.eqb_refl. done.
  - rewrite lookup_insert_ne by done. apply String.eqb_neq in Hne as ->. lia.
Qed.

(** Nothing is miscounted: after any sequence of connections to a fresh
    database, [repeat_count] of every pair and [total_emitted] of every daemon
    are the numbers of connections that carried them; a pair without a row was
    never sent; and no row has a detail. *)
Theorem emissions_counted clock conns source type :
  Forall (λ c, 0 <= local c.1 < CLOCK_MAX) conns →
  let s := exec (accept_loop local conns) (splinterd_start clock) in
  (match List.find (state_key source type) (emit_state s) with
   | Some r => es_count r = number_of (is_pair source type) conns ∧ es_detail r = ""
   | None => number_of (is_pair source type) conns = 0
   end) ∧
  default 0 (ds_total <$> List.find (λ r, String.eqb (ds_name r) source) (daemon_stats s)) =
    number_of (is_from source) conns.
Proof.
  intros Hc. cbv zeta. pose proof (accept_implements local conns _ _ (start_implements clock) Hc) as Him.
  rewrite (im_totals _ _ Him), totals, (im_pairs _ _ Him). split.
  - pose proof (counts conns sink_init source type) as Hn. unfold count_in in Hn at 1.
    assert (count_in sink_init source type = 0) as Hz by done. rewrite Hz in Hn.
    destruct (sk_pairs _ !! _) as [e|]; [split; [exact Hn|done]|]. cbn [fmap option_fmap option_map]. lia.
  - cbn [sk_totals sink_init]. assert (default 0 ((list_to_map ((λ d, (d, 0)) <$> DAEMON_SOURCES)
      : gmap string Z) !! source) = 0) as ->; [|lia].
    destruct (_ !! source) as [n|] eqn:Hl; [|done].
    apply elem_of_list_to_map_2, list_elem_of_fmap in Hl as (d & [= _ ->] & _). done.
Qed.

End accounting.

Lemma emissions_counted_witness :
  number_of (is_pair "nulld" "IDLE") sample_conns = 3 ∧
  default 0 (ds_total <$> List.find (λ r, String.eqb (ds_name r) "nulld")
    (daemon_stats (exec (accept_loop (λ t, t) sample_conns) (splinterd_start 0)))) = 3.
Proof.
  destruct (emissions_counted (λ t, t) 0 sample_conns "nulld" "IDLE") as [_ ->].
  { repeat constructor; vm_compute; congruence. }
  split; vm_compute; reflexivity.
Defined.

(** ** Transitions *)

Section transitions.
Context (local : Z → Z).

(** Every change in order: the closed batches, then the open one. *)
Definition all_changes (k : sink) : list change := concat (sk_batches k).*2 ++ sk_open k.

Definition changes_of (source type : string) (l : list change) : list (bool * Z) :=
  (λ c, (ch_resumed c, ch_clock c)) <$>
  List.filter (λ c, String.eqb (ch_source c) source && String.eqb (ch_type c) type) l.

(** The wall clocks at which a pair arrived. *)
Definition pair_clocks (source type : string) (conns : list (Z * string)) : list Z :=
  (λ c, local c.1) <$> List.filter (is_pair source type) conns.

(** What a pair should log: its first appearance, and each appearance after a
    silence of half an hour or more. *)
Fixpoint expected_changes (last : option Z) (ws : list Z) : list (bool * Z) :=
  match ws with
  | [] => []
  | w :: ws' =>
      match last with
      | None => [(false, w)]
      | Some l => if 1800 <=? w - l then [(true, w)] else []
      end ++ expected_changes (Some w) ws'
  end.

Definition batches_ok (k : sink) : Prop :=
  Forall (λ b, length b.2 = 500%nat) (sk_batches k) ∧ (length (sk_open k) < 500)%nat.

Lemma close_batch_changes w k : all_changes (close_batch w k) = all_changes k.
Proof.
  unfold close_batch, all_changes. destruct (_ <=? _); [|done]. cbn [sk_batches sk_open].
  rewrite fmap_app, concat_app. cbn. by rewrite !app_nil_r.
Qed.

Lemma close_batch_ok w k :
  Forall (λ b, length b.2 = 500%nat) (sk_batches k) → (length (sk_open k) ≤ 500)%nat →
  batches_ok (close_batch w k).
Proof.
  intros Hb Hl. unfold close_batch, batches_ok.
  destruct (500 <=? _) eqn:He; bool_hyps; cbn [sk_batches sk_open]; [|split; [done|lia]].
  split; [|cbn; lia]. apply Forall_app. split; [done|]. repeat constructor. cbn [snd]. lia.
Qed.

Lemma sink_record_ok w source type k : batches_ok k → batches_ok (sink_record w source type k).
Proof.
  intros [Hb Hl]. unfold sink_record. destruct (due _ _); [|done].
  apply close_batch_ok; cbn [sk_batches sk_open]; [done|rewrite length_app; cbn; lia].
Qed.

Lemma changes_of_app source type l l' :
  changes_of source type (l ++ l') = changes_of source type l ++ changes_of source type l'.
Proof. unfold changes_of. by rewrite List.filter_app, fmap_app. Qed.

Lemma sink_record_changes w source type k src ty :
  changes_of src ty (all_changes (sink_record w source type k)) =
  changes_of src ty (all_changes k) ++
  (if String.eqb source src && String.eqb type ty then
     match due w (sk_pairs k !! (source, type)) with Some r => [(r, w)] | None => [] end
   else []).
Proof.
  unfold sink_record. destruct (due _ _) as [r|].
  - rewrite close_batch_changes. unfold all_changes. cbn [sk_batches sk_open].
    rewrite app_assoc, changes_of_app. f_equal. unfold changes_of. cbn.
    by destruct (String.eqb source src && String.eqb type ty).
  - destruct (_ && _); by rewrite app_nil_r.
Qed.

Lemma changes_expected conns : ∀ k source type,
  changes_of source type (all_changes (foldl (sink_conn local) k conns)) =
  changes_of source type (all_changes k) ++
  expected_changes (en_last <$> sk_pairs k !! (source, type)) (pair_clocks source type conns).
Proof.
  induction conns as [|c conns IH]; intros k source type; [by rewrite app_nil_r|].
  cbn [foldl]. rewrite IH. unfold sink_conn, pair_clocks. cbn [List.filter].
  unfold is_pair at 2. destruct (event_of c.2) as [[src ty pl]|]; [|done]. cbn [ev_source ev_type].
  rewrite sink_record_changes, sink_record_pairs, <- app_assoc. f_equal.
  destruct (String.eqb src source && String.eqb ty type) eqn:Hp.
  - apply andb_prop in Hp as [->%String.eqb_eq ->%String.eqb_eq].
    rewrite lookup_insert_eq. cbn [fmap list_fmap expected_changes].
    destruct (sk_pairs k !! _) as [e|]; cbn [due fmap option_fmap option_map en_last]; [|done].
    by destruct (1800 <=? _).
  - rewrite lookup_insert_ne; [done|]. intros [= -> ->]. by rewrite !String.eqb_refl in Hp.
Qed.

Lemma fold_ok conns : ∀ k, batches_ok k → batches_ok (foldl (sink_conn local) k conns).
Proof.
  induction conns as [|c conns IH]; intros k Hk; [done|]. cbn [foldl]. apply IH.
  unfold sink_conn. destruct (event_of _); [by apply sink_record_ok|done].
Qed.

(** The filter of the transition table: after any run the table holds fewer
    than 500 rows, every rollup took exactly 500, each produced one summary and
    one notification, and, rollups and table together, every pair logged its
    first appearance and its returns after half an hour of silence, in order,
    and nothing else. *)
Theorem transitions_are_changes clock conns :
  Forall (λ c, 0 <= local c.1 < CLOCK_MAX) conns →
  let s := exec (accept_loop local conns) (splinterd_start clock) in
  ∃ (batches : list (Z * list change)) (opened : list change),
    emit_transitions s = change_row <$> opened ∧ (length opened < 500)%nat ∧
    Forall (λ b, length b.2 = 500%nat) batches ∧
    sewer_rats s = (λ b, Rat (strftime_iso b.1) (batch_summary b)) <$> batches ∧
    sw_notified s = (notification_cmd ∘ batch_summary) <$> batches ∧
    ∀ source type,
      changes_of source type (concat batches.*2 ++ opened) =
      expected_changes None (pair_clocks source type conns).
Proof.
  intros Hc. cbv zeta. pose proof (accept_implements local conns _ _ (start_implements clock) Hc) as Him.
  destruct (fold_ok conns sink_init) as [Hb Ho]; [by split; [constructor|vm_compute; lia]|].
  eexists _, _. split_and!; [apply Him|done|done|apply Him|apply Him|].
  intros source type. apply (changes_expected conns sink_init).
Qed.

End transitions.

Lemma transitions_are_changes_witness :
  (∃ batches opened, emit_transitions (exec (accept_loop (λ t, t) sample_conns) (splinterd_start 0)) =
     change_row <$> opened ∧
   changes_of "nulld" "IDLE" (concat (batches : list (Z * list change)).*2 ++ opened) =
     [(false, 1000); (true, 9000)]) ∧
  et_kind <$> emit_transitions (exec (accept_loop (λ t, t) sample_conns) (splinterd_start 0)) =
    ["first_seen"; "resumed"].
Proof.
  split; [|vm_compute; reflexivity].
  destruct (transitions_are_changes (λ t, t) 0 sample_conns) as (b & o & Ho & _ & _ & _ & _ & Hx).
  { repeat constructor; vm_compute; congruence. }
  exists b, o. split; [exact Ho|]. rewrite Hx. vm_compute. reflexivity.
Defined.

(** A rollup whose first group names many sources leaves out the next one: of
    these 500 transitions, the one of kind [resumed] is deleted with the others
    and appears in no summary. *)
Definition crowded : list transition_row :=
  ((λ n, Transition ("a_daemon_with_a_long_name_" +:+ fmt_d (Z.of_nat n)) "T" "first_seen" "" "") <$> seq 0 499) ++
  [Transition "gaveld" "T" "resumed" "" ""].

Lemma rollup_drops_group :
  Z.of_nat (length crowded) = ROLLUP_CAP ∧ strstr (rollup_summary crowded) "resumed" = None.
Proof. split; vm_compute; reflexivity. Qed.

(** ** The sewer's rows are well typed

    The columns of the four tables, whatever bytes arrive at splinterd: names
    that the protocol can carry, empty details, positive counters, kinds of the
    two names, keys without duplicates, summaries that fit their buffer. *)

(** ** Well-formed tables *)

Definition name_char_bad (c : ascii) : bool := Ascii.eqb c "|" || Ascii.eqb c NL || Ascii.eqb c NUL.

(** A name as the parser lets it through. *)
Definition name_ok (s : string) : Prop :=
  s ≠ "" ∧ (String.length s < 32)%nat ∧ none_of name_char_bad s = true.

Definition state_ok (r : emit_state_row) : Prop :=
  name_ok (es_source r) ∧ name_ok (es_type r) ∧ es_detail r = "" ∧ 1 <= es_count r ∧
  String.length (es_first r) = 19%nat ∧ String.length (es_last r) = 19%nat.

Definition transition_ok (r : transition_row) : Prop :=
  name_ok (et_source r) ∧ name_ok (et_type r) ∧ et_detail r = "" ∧
  (et_kind r = "first_seen" ∨ et_kind r = "resumed").

Definition stat_ok (r : stat_row) : Prop := name_ok (ds_name r) ∧ 0 <= ds_total r.

Definition state_pair (r : emit_state_row) : string * string := (es_source r, es_type r).

Record sewer_wf (s : sewer) : Prop := SewerWf {
  wf_state : Forall state_ok (emit_state s);
  wf_pairs : NoDup (state_pair <$> emit_state s);
  wf_transitions : Forall transition_ok (emit_transitions s);
  wf_stats : Forall stat_ok (daemon_stats s);
  wf_names : NoDup (ds_name <$> daemon_stats s);
  wf_rats : Forall (λ r, (String.length (rt_summary r) < 1024)%nat) (sewer_rats s) }.

Lemma fits_ok tok g :
  fits 32 tok = true → none_of g tok = true → none_of (char_in "|") tok = true →
  (∀ c, name_char_bad c = true → g c = true ∨ c = "|"%char) →
  name_ok (strncpy 32 tok).
Proof.
  unfold fits. intros [Hne%negb_true_iff%Nat.eqb_neq Hl%Nat.ltb_lt]%andb_prop Hg Hbar Hname.
  rewrite strncpy_id by done. split_and!; [by intros ->|done|].
  unfold none_of in *. rewrite forallb_forall in *. intros c Hc.
  destruct (name_char_bad c) eqn:Hb; [|done]. destruct (Hname c Hb) as [Hgc| ->].
  - specialize (Hg c Hc). by rewrite Hgc in Hg.
  - by specialize (Hbar _ Hc).
Qed.

Lemma receive_none n s : none_of (λ c, Ascii.eqb c NL) (receive n s) = true.
Proof.
  revert s. induction n as [|n IH]; intros [|c s]; [done..|]. cbn [receive].
  destruct (Ascii.eqb c NL) eqn:Hc; [done|]. by rewrite none_of_cons, Hc, IH.
Qed.

Definition line_char_bad (c : ascii) : bool := Ascii.eqb c NL || Ascii.eqb c NUL.

Lemma received_none stream :
  none_of line_char_bad (c_str (receive (RECV_BUF_SIZE - 1) stream)) = true.
Proof.
  unfold c_str, cut_at. pose proof (receive_none (RECV_BUF_SIZE - 1) stream) as Hr.
  remember (receive _ _) as buf. clear Heqbuf.
  pose proof (break_at_app (Ascii.eqb NUL) buf) as Happ. pose proof (break_at_prefix (Ascii.eqb NUL) buf) as Hp.
  rewrite Happ, none_of_app in Hr. apply andb_prop in Hr as [Hr _].
  unfold none_of in *. rewrite forallb_forall in *. intros c Hc.
  specialize (Hr c Hc). specialize (Hp c Hc). unfold line_char_bad.
  rewrite Ascii.eqb_sym in Hp. apply negb_true_iff in Hr, Hp. by rewrite Hr, Hp.
Qed.

(** What the parser accepts has well-formed names. *)
Lemma event_names_ok stream ev :
  event_of stream = Some ev → name_ok (ev_source ev) ∧ name_ok (ev_type ev).
Proof.
  unfold event_of, parse_event. pose proof (received_none stream) as Hb.
  remember (c_str _) as line. clear Heqline. apply (none_of_stake _ (RECV_BUF_SIZE - 1)) in Hb.
  apply (trim_end_none_of _ is_line_end) in Hb. unfold strncpy at 1 3.
  remember (trim_end _ _) as buf. clear Heqbuf.
  destruct (_ =? 0)%nat; [done|].
  destruct (strtok "|" buf) as [[t0 r0]|] eqn:H0; [|done]. cbn [mbind option_bind].
  destruct (negb _); [done|]. eapply strtok_none in H0 as (_ & Hr0 & _); [|done].
  destruct (strtok "|" r0) as [[t1 r1]|] eqn:H1; [|done]. cbn [mbind option_bind].
  destruct (fits SPLINTER_MAX_SOURCE t1) eqn:Hf1; cbn [negb]; [|done].
  eapply strtok_none in H1 as (Ht1 & Hr1 & Hb1); [|done].
  destruct (strtok "|" r1) as [[t2 r2]|] eqn:H2; [|done]. cbn [mbind option_bind].
  destruct (fits SPLINTER_MAX_TYPE t2) eqn:Hf2; cbn [negb]; [|done].
  eapply strtok_none in H2 as (Ht2 & Hr2 & Hb2); [|done].
  destruct (strtok "" r2) as [[t3 r3]|]; [|done]. intros [= <-]. cbn [ev_source ev_type].
  assert (∀ c, name_char_bad c = true → line_char_bad c = true ∨ c = "|"%char) as Hname.
  { intros c. unfold name_char_bad, line_char_bad. destruct (Ascii.eqb c "|") eqn:Hc.
    - apply Ascii.eqb_eq in Hc. auto.
    - auto. }
  unfold SPLINTER_MAX_SOURCE, SPLINTER_MAX_TYPE in *.
  split; (eapply fits_ok; [done| | |exact Hname]; done).
Qed.

(** ** The operations keep the rows *)

Section on_conflict_rows.
Context {R K : Type} (same : R → bool) (upd : R → R) (new : R) (key : R → K).

Lemma on_conflict_Forall (P : R → Prop) l :
  (∀ r, P r → P (upd r)) → P new → Forall P l → Forall P (on_conflict same upd new l).
Proof.
  intros Hu Hn Hl. induction Hl as [|r l Hr Hl IH]; cbn [on_conflict]; [by constructor|].
  destruct (same r); constructor; auto.
Qed.

Lemma on_conflict_keys k l :
  k ∈ key <$> on_conflict same upd new l → (∀ r, key (upd r) = key r) →
  k = key new ∨ k ∈ key <$> l.
Proof.
  intros Hk Hu. induction l as [|r l IH]; cbn [on_conflict fmap list_fmap] in *.
  - apply list_elem_of_singleton in Hk. auto.
  - destruct (same r); cbn [fmap list_fmap] in *; apply elem_of_cons in Hk as [->|Hk].
    + right. rewrite Hu. apply list_elem_of_here.
    + right. by apply list_elem_of_further.
    + right. apply list_elem_of_here.
    + destruct (IH Hk) as [?|?]; [auto|right; by apply list_elem_of_further].
Qed.

Lemma on_conflict_NoDup l :
  (∀ r, key (upd r) = key r) → (∀ r, same r = false → key r ≠ key new) →
  NoDup (key <$> l) → NoDup (key <$> on_conflict same upd new l).
Proof.
  intros Hu Hs. induction l as [|r l IH]; cbn [on_conflict fmap list_fmap].
  { intros _. apply NoDup_singleton. }
  intros [Hr Hl]%NoDup_cons. destruct (same r) eqn:He; cbn [fmap list_fmap]; apply NoDup_cons.
  - by rewrite Hu.
  - split; [|by apply IH]. intros Hin. apply on_conflict_keys in Hin as [Hin|Hin]; [|done|done].
    by apply (Hs r He).
Qed.

End on_conflict_rows.

Lemma summarize_bound gs : ∀ summary off,
  off = slen summary → off <= 1023 →
  (String.length (summarize gs summary off).1 < 1024)%nat.
Proof.
  unfold slen. induction gs as [|g gs IH]; intros summary off Hoff Hle; cbn [summarize fst]; [lia|].
  destruct (off <? 1024 - 150) eqn:Ho; [|cbn [fst]; lia]. bool_hyps.
  assert (0 <= slen (group_text g)) as Hg by (unfold slen; lia).
  destruct (decide (off + slen (group_text g) <= 1023)) as [Hfit|Hfit].
  - apply IH; [|unfold slen in *; lia]. rewrite length_app_str, snprintf_id by (unfold slen in *; lia).
    unfold slen in *. lia.
  - match goal with |- context [summarize gs ?x ?o] => assert (summarize gs x o = (x, o)) as -> end.
    { destruct gs; [done|]. cbn [summarize].
      match goal with |- context [?x <? 1024 - 150] => assert ((x <? 1024 - 150) = false) as -> by lia end.
      done. }
    cbn [fst]. rewrite length_app_str. pose proof (length_strncpy (Z.to_nat (1024 - off)) (group_text g)).
    unfold snprintf, strncpy in *. lia.
Qed.

Lemma rollup_summary_bound rows : (String.length (rollup_summary rows) < 1024)%nat.
Proof.
  unfold rollup_summary. pose proof (summarize_bound (rollup_groups rows) "" 0 eq_refl ltac:(lia)) as H.
  destruct (summarize _ _ _) as [summary off]. cbn [fst] in H. destruct (off =? 0); [cbn; lia|done].
Qed.

Lemma keeps_stmt f : (∀ s, sewer_wf s → sewer_wf (f s)) → preserves sewer_wf (stmt f).
Proof. intros Hf s Hs. unfold stmt. autorewrite with monad. destruct (sw_tables s); auto. Qed.

Lemma transition_of_kind found ts kind :
  transition_of found ts = Some kind → kind = "first_seen" ∨ kind = "resumed".
Proof.
  unfold transition_of. destruct found as [l|]; [|intros [= <-]; auto].
  destruct (String.eqb l ""); [done|]. destruct (_ <=? _); [intros [= <-]; auto|done].
Qed.

Section wf.
Context (local : Z → Z).

Lemma rollup_wf : preserves sewer_wf (maybe_rollup local).
Proof.
  intros s Hs. unfold maybe_rollup, fetch. autorewrite with monad.
  destruct (ROLLUP_CAP <=? _); [|by autorewrite with monad].
  unfold do_rollup, now_iso, fetch, fire_notification, stmt. autorewrite with monad.
  destruct s as [o tb c es et st ra no], Hs; cbn in *. destruct tb; cbn; split; cbn; auto.
  apply Forall_app. split; [done|]. constructor; [|done]. cbn. apply rollup_summary_bound.
Qed.

Lemma record_wf source type :
  name_ok source → name_ok type →
  preserves sewer_wf (sewer_db_record_emit local source type None).
Proof.
  intros Hsrc Hty s Hs. unfold sewer_db_record_emit, now_iso, select_last_seen, fetch.
  autorewrite with monad. destruct (sw_open s); cbn [negb]; [|by autorewrite with monad].
  autorewrite with monad. remember (strftime_iso (local (sw_clock s))) as ts.
  assert (String.length ts = 19%nat) as Hts by (subst; apply length_strftime).
  assert (∀ s, sewer_wf s → sewer_wf (exec (upsert_emit_state source type ts (default "" None)) s)) as Hup.
  { apply keeps_stmt. intros [o tb c es et st ra no] [H1 H2 H3 H4 H5 H6]. split; cbn in *; auto.
    - apply on_conflict_Forall; [|split_and!; done || lia|done].
      intros r (?&?&?&?&?&?). split_and!; cbn; done || lia.
    - apply on_conflict_NoDup; [done| |done]. intros r Hr [= <- <-].
      unfold state_key in Hr. by rewrite !String.eqb_refl in Hr. }
  assert (∀ s, sewer_wf s → sewer_wf (exec (upsert_daemon_stats source type ts) s)) as Hst.
  { apply keeps_stmt. intros [o tb c es et st ra no] [H1 H2 H3 H4 H5 H6]. split; cbn in *; auto.
    - apply on_conflict_Forall; [|split; done || lia|done].
      intros r (?&?). split; cbn; done || lia.
    - apply on_conflict_NoDup; [done| |done]. intros r Hr Hk. cbn in Hk. subst.
      by rewrite String.eqb_refl in Hr. }
  destruct (transition_of _ _) as [kind|] eqn:Hk; autorewrite with monad; [|by apply Hst, Hup].
  apply rollup_wf, Hst. apply keeps_stmt; [|by apply Hup].
  intros [o tb c es et st ra no] [H1 H2 H3 H4 H5 H6]. split; cbn in *; auto.
  apply Forall_app. split; [done|]. constructor; [|done].
  split_and!; [done|done|done|]. by eapply transition_of_kind.
Qed.

(** Every row of the sewer database is well typed, whatever bytes the
    connections carry and whether or not the database is open: names that hold
    no separator and fit their columns, one row per key, empty details, positive
    counters, 19-byte times, summaries that fit their buffer. *)
Theorem sewer_rows_typed conns s :
  sewer_wf s → sewer_wf (exec (accept_loop local conns) s).
Proof.
  revert s. induction conns as [|[t stream] conns IH]; intros s Hs; [done|].
  rewrite accept_cons. apply IH. rewrite handle_event.
  assert (sewer_wf (set_clock t s)) as Hc by (by destruct s, Hs).
  destruct (event_of stream) as [ev|] eqn:Hev; [|done].
  apply event_names_ok in Hev as [? ?]. by apply record_wf.
Qed.

End wf.

Lemma sewer_rows_typed_witness :
  sewer_wf (splinterd_start 0) ∧
  sewer_wf (exec (accept_loop (λ t, t) sample_conns) (splinterd_start 0)).
Proof.
  assert (sewer_wf (splinterd_start 0)) as H.
  { split; [constructor|constructor|constructor| | |constructor].
    - unfold splinterd_start. cbn. unfold DAEMON_SOURCES. cbn [fmap list_fmap].
      repeat (apply Forall_cons; split; [split; [split_and!; [done|vm_compute; lia|done]|done]|]). constructor.
    - change (NoDup DAEMON_SOURCES). apply (bool_decide_unpack _). vm_compute. exact I. }
  split; [exact H|]. by apply sewer_rows_typed.
Defined.
