(* ===== verification/Conv.v ===== *)
(** * Integer conversions of the C library

    [strtol], [atoi] and [atol] on 64-bit longs: the value is clamped to the
    range of [long], and an [int] keeps its low 32 bits. *)

From S2P Require Import Prelude CString Double Krang.

Definition LONG_MAX : Z := 2 ^ 63 - 1.
Definition LONG_MIN : Z := - 2 ^ 63.

Definition strtol (base : Z) (s : string) : Z :=
  match scan_int base s with
  | Some (v, _) => Z.max LONG_MIN (Z.min LONG_MAX v)
  | None => 0
  end.

Definition atol (s : string) : Z := strtol 10 s.

Definition atoi (s : string) : Z := to_i32 (atol s).

(** The conversions [%lu] and [%zu], and [%ld]. *)
Definition scan_lu (s : string) : option (Z * string) :=
  '(v, r) ← scan_int 10 s;
  Some (if Z.abs v <? 2 ^ 64 then to_u64 v else 2 ^ 64 - 1, r).

Definition scan_ld (s : string) : option (Z * string) :=
  '(v, r) ← scan_int 10 s;
  Some (Z.max LONG_MIN (Z.min LONG_MAX v), r).
