(* ===== verification/Leo.v ===== *)
(** * Leonardo: the detection store ([src/core/detection/leo_detection.c])

    The four tables of superhero.db, the life of a scan (record, baseline,
    detections, summary), the subject access export and the purge.

    [lo_open]: the connection can prepare statements.  The key sequence of
    scan_history survives deletions ([AUTOINCREMENT]); the other keys are never
    read, so their tables are lists in key order.  [lo_now] is [time(NULL)].
    Lines printed to the terminal are left out. *)

From S2P Require Import Prelude CString Config Weights.
From Stdlib Require Import Ascii.

Definition BASELINE_CYCLES : Z := 12.
Definition RETENTION_SECONDS : Z := 7776000.

(** ** Tables *)

Record detection_row := DetectionRow {
  dr_scan : Z; dr_time : Z; dr_turtle : string; dr_type : string; dr_description : string;
  dr_priority : string; dr_confidence : Z; dr_mitre : string; dr_tactic : string }.

Record scan_row := ScanRow {
  sn_id : Z; sn_time : Z; sn_depth : string; sn_findings : Z; sn_new : Z;
  sn_thermal : Z; sn_battery : Z; sn_cpu : Z }.

(** [bl_average] is the sum and the number of the counts that [AVG] divides. *)
Record baseline_row := BaselineRow {
  bl_time : Z; bl_scans : Z; bl_types : string; bl_average : Z * Z }.

Record gdpr_row := GdprRow { gd_time : Z; gd_action : string; gd_detail : string }.

Record leo := Leo {
  lo_now : Z;
  lo_open : bool;
  lo_detections : list detection_row;
  lo_scans : list scan_row;
  lo_scan_seq : Z;
  lo_baselines : list baseline_row;
  lo_gdpr : list gdpr_row;
  lo_current : Z;     (* current_scan_id *)
  lo_cycle : Z        (* cycle *) }.

Definition set_now (x : Z) (l : leo) : leo :=
  Leo x (lo_open l) (lo_detections l) (lo_scans l) (lo_scan_seq l) (lo_baselines l) (lo_gdpr l)
    (lo_current l) (lo_cycle l).
Definition set_open (x : bool) (l : leo) : leo :=
  Leo (lo_now l) x (lo_detections l) (lo_scans l) (lo_scan_seq l) (lo_baselines l) (lo_gdpr l)
    (lo_current l) (lo_cycle l).
Definition set_detections (f : list detection_row → list detection_row) (l : leo) : leo :=
  Leo (lo_now l) (lo_open l) (f (lo_detections l)) (lo_scans l) (lo_scan_seq l) (lo_baselines l)
    (lo_gdpr l) (lo_current l) (lo_cycle l).
Definition set_scans (f : list scan_row → list scan_row) (l : leo) : leo :=
  Leo (lo_now l) (lo_open l) (lo_detections l) (f (lo_scans l)) (lo_scan_seq l) (lo_baselines l)
    (lo_gdpr l) (lo_current l) (lo_cycle l).
Definition set_scan_seq (x : Z) (l : leo) : leo :=
  Leo (lo_now l) (lo_open l) (lo_detections l) (lo_scans l) x (lo_baselines l) (lo_gdpr l)
    (lo_current l) (lo_cycle l).
Definition set_baselines (f : list baseline_row → list baseline_row) (l : leo) : leo :=
  Leo (lo_now l) (lo_open l) (lo_detections l) (lo_scans l) (lo_scan_seq l) (f (lo_baselines l))
    (lo_gdpr l) (lo_current l) (lo_cycle l).
Definition set_gdpr (f : list gdpr_row → list gdpr_row) (l : leo) : leo :=
  Leo (lo_now l) (lo_open l) (lo_detections l) (lo_scans l) (lo_scan_seq l) (lo_baselines l)
    (f (lo_gdpr l)) (lo_current l) (lo_cycle l).
Definition set_current (x : Z) (l : leo) : leo :=
  Leo (lo_now l) (lo_open l) (lo_detections l) (lo_scans l) (lo_scan_seq l) (lo_baselines l)
    (lo_gdpr l) x (lo_cycle l).
Definition set_cycle (x : Z) (l : leo) : leo :=
  Leo (lo_now l) (lo_open l) (lo_detections l) (lo_scans l) (lo_scan_seq l) (lo_baselines l)
    (lo_gdpr l) (lo_current l) x.

(** The process before [leo_init], on the tables left by earlier runs. *)
Definition leo_process (now seq : Z) (ds : list detection_row) (ss : list scan_row)
    (bs : list baseline_row) (gs : list gdpr_row) : leo :=
  Leo now false ds ss seq bs gs 0 0.

Abbreviation L := (M leo).

(** A statement on the connection. *)
Definition db_exec (f : leo → leo) : L unit := modify (λ l, if lo_open l then f l else l).

(** A [SELECT] that leaves [dflt] when it cannot be prepared. *)
Definition db_query {A} (dflt : A) (f : leo → A) : L A := gets (λ l, if lo_open l then f l else dflt).

Definition gdpr_note (action detail : string) : L unit :=
  db_exec (λ l, set_gdpr (λ g, g ++ [GdprRow (lo_now l) action detail]) l).

(** ** Schema and retention *)

Definition create_schema : L unit :=
  _ ← db_exec (λ l, set_detections
        (List.filter (λ r, negb (dr_time r <? lo_now l - RETENTION_SECONDS))) l);
  db_exec (λ l, set_scans
        (List.filter (λ r, negb (sn_time r <? lo_now l - RETENTION_SECONDS))) l).

Definition leo_init (can_open : bool) : L bool :=
  _ ← modify (set_open can_open);
  if negb can_open then mret false
  else
    _ ← create_schema;
    count ← db_query 0 (λ l, Z.of_nat (length (lo_scans l)));
    _ ← modify (set_cycle (if 12 <=? count then 12 else count));
    mret true.

Definition leo_shutdown : L unit := modify (set_open false).

(** ** Writers *)

Definition leo_write_detection (turtle type description priority : string) (confidence : Z) : L unit :=
  let m := mitre_lookup type in
  let mitre_id := match m with Some e => technique_id e | None => "" end in
  let mitre_tactic := match m with Some e => tactic e | None => "" end in
  db_exec (λ l, set_detections (λ d, d ++ [DetectionRow (lo_current l) (lo_now l) turtle type
    description priority confidence mitre_id mitre_tactic]) l).

Definition write_scan_history (depth : string) (finding_count new_findings thermal battery cpu_freq : Z) : L Z :=
  open ← gets lo_open;
  if negb open then mret 0
  else
    seq ← gets lo_scan_seq;
    _ ← modify (λ l, set_scan_seq (seq + 1) (set_scans (λ s, s ++
          [ScanRow (seq + 1) (lo_now l) depth finding_count new_findings thermal battery cpu_freq]) l));
    mret (seq + 1).

(** ** The baseline *)

Definition baseline_exists : L bool := db_query false (λ l, negb (bool_decide (lo_baselines l = []))).

(** [SELECT DISTINCT x ... ORDER BY x], in the order of the bytes. *)
Fixpoint insert_sorted (x : string) (xs : list string) : list string :=
  match xs with
  | [] => [x]
  | y :: ys => if String.eqb x y then xs else if String.leb x y then x :: xs else y :: insert_sorted x ys
  end.

Definition distinct_sorted (xs : list string) : list string := foldr insert_sorted [] xs.

(** [SELECT DISTINCT x], in the order of first appearance. *)
Fixpoint distinct_from (seen xs : list string) : list string :=
  match xs with
  | [] => []
  | x :: xs' =>
      if existsb (String.eqb x) seen then distinct_from seen xs'
      else x :: distinct_from (x :: seen) xs'
  end.

(** One turn of the loop that fills [char normal_types[2048]]. *)
Definition add_type (buf t : string) : string :=
  let rem := wrap_u64 (2048 - Z.of_nat (String.length buf) - 2) in
  stake 2047 (buf +:+ stake (Z.to_nat (Z.min rem (Z.of_nat (String.length t)))) t +:+ ",").

Definition normal_types (types : list string) : string := foldl add_type "" types.

Definition establish_baseline (scan_count : Z) : L unit :=
  types ← db_query "" (λ l, normal_types (distinct_sorted (dr_type <$> lo_detections l)));
  avg ← db_query (0, 0) (λ l, (foldr Z.add 0 (sn_findings <$> lo_scans l), Z.of_nat (length (lo_scans l))));
  _ ← db_exec (λ l, set_baselines (λ b, b ++ [BaselineRow (lo_now l) scan_count types avg]) l);
  gdpr_note "BASELINE_ESTABLISHED" "Behavioural baseline created from scan history".

(** A type is new unless its name occurs anywhere in the baseline's text. *)
Definition count_new_findings : L Z :=
  baseline ← db_query "" (λ l, match last (lo_baselines l) with
                               | Some b => strncpy 2048 (bl_types b)
                               | None => ""
                               end);
  db_query 0 (λ l, Z.of_nat (length (List.filter (λ t, negb (bool_decide (is_Some (strstr baseline t))))
    (distinct_from [] (dr_type <$> List.filter (λ r, dr_scan r =? lo_current l) (lo_detections l)))))).

(** ** A scan *)

Definition leo_full_scan : L unit :=
  _ ← modify (λ l, set_cycle (lo_cycle l + 1) l);
  id ← write_scan_history "surface" 0 0 (-1) (-1) (-1);
  _ ← modify (set_current id);
  known ← baseline_exists;
  cycle ← gets lo_cycle;
  if negb known && (BASELINE_CYCLES <=? cycle) then establish_baseline cycle else mret tt.

Definition leo_post_scan (finding_count thermal battery cpu_freq : Z) (depth : string) : L unit :=
  known ← baseline_exists;
  new_findings ← (if known : bool then count_new_findings else mret 0);
  _ ← db_exec (λ l, set_scans (fmap (λ r,
        if sn_id r =? lo_current l
        then ScanRow (sn_id r) (sn_time r) depth finding_count new_findings thermal battery cpu_freq
        else r)) l);
  gdpr_note "SCAN_COMPLETE" "Scan data stored on-device only".

(** ** Subject access and erasure *)

(** The escaping loop of [safe_desc]; [j] is the next index, its bound 508. *)
Fixpoint safe_desc (j : Z) (desc : string) : string :=
  match desc with
  | EmptyString => EmptyString
  | String c desc' =>
      if j <? 508 then
        if Ascii.eqb c (chr 34) then String BACKSLASH (String (chr 34) (safe_desc (j + 2) desc'))
        else if Ascii.eqb c BACKSLASH then String BACKSLASH (String BACKSLASH (safe_desc (j + 2) desc'))
        else if Ascii.eqb c NL then String BACKSLASH (String "n" (safe_desc (j + 2) desc'))
        else if Ascii.eqb c (chr 13) then String BACKSLASH (String "r" (safe_desc (j + 2) desc'))
        else if Ascii.eqb c (chr 9) then String BACKSLASH (String "t" (safe_desc (j + 2) desc'))
        else String c (safe_desc (j + 1) desc')
      else EmptyString
  end.

(** [ORDER BY timestamp DESC]; rows of one second stay in key order. *)
Fixpoint insert_desc {R} (time : R → Z) (x : R) (xs : list R) : list R :=
  match xs with
  | [] => [x]
  | y :: ys => if time x <? time y then y :: insert_desc time x ys else x :: xs
  end.

Definition newest_first {R} (time : R → Z) (xs : list R) : list R := foldr (insert_desc time) [] xs.

(** [if (!first) ",\n"] between the entries. *)
Fixpoint entries (l : list string) : string :=
  match l with
  | [] => ""
  | [x] => x
  | x :: l' => x +:+ "," +:+ NLs +:+ entries l'
  end.

Definition sar_scan (r : scan_row) : string :=
  scat [dq "    {'timestamp':"; fmt_d (sn_time r); dq ",'depth':'"; sn_depth r; dq "','findings':";
        fmt_d (sn_findings r); dq ",'thermal':"; fmt_d (sn_thermal r); dq ",'battery':";
        fmt_d (sn_battery r); "}"].

Definition sar_detection (r : detection_row) : string :=
  scat [dq "    {'timestamp':"; fmt_d (dr_time r); dq ",'turtle':'"; dr_turtle r; dq "','type':'";
        dr_type r; dq "','description':'"; safe_desc 0 (dr_description r); dq "','priority':'";
        dr_priority r; dq "'}"].

Definition sar_text (now : Z) (scans : list scan_row) (ds : list detection_row) : string :=
  scat ["{" +:+ NLs;
    dq "  'sar_type': 'Subject Access Request'," +:+ NLs;
    dq "  'tool': 'MiuiserPeruser Superhero Mode'," +:+ NLs;
    dq "  'exported_at': " +:+ fmt_d now +:+ "," +:+ NLs;
    dq "  'data_controller': 'Device owner'," +:+ NLs;
    dq "  'purpose': 'Personal device security monitoring'," +:+ NLs;
    dq "  'legal_basis': 'Legitimate interest — personal device security'," +:+ NLs;
    dq "  'retention_policy': '90 days rolling, purge on request'," +:+ NLs +:+ NLs;
    dq "  'scan_history': [" +:+ NLs;
    entries (sar_scan <$> newest_first sn_time scans);
    NLs +:+ "  ]," +:+ NLs +:+ NLs;
    dq "  'detections': [" +:+ NLs;
    entries (sar_detection <$> newest_first dr_time ds);
    NLs +:+ "  ]," +:+ NLs +:+ NLs;
    dq "  'gdpr_rights': {" +:+ NLs;
    dq "    'right_to_access': 'This document'," +:+ NLs;
    dq "    'right_to_erasure': 'Run: superhero --purge'," +:+ NLs;
    dq "    'right_to_portability': 'JSON format — machine readable'," +:+ NLs;
    dq "    'data_location': 'On-device only — never transmitted'" +:+ NLs;
    "  }" +:+ NLs +:+ "}" +:+ NLs].

(** The text of the file, unless it cannot be created. *)
Definition leo_export_sar (can_create : bool) : L (option string) :=
  if negb can_create then mret None
  else
    now ← gets lo_now;
    scans ← db_query [] lo_scans;
    ds ← db_query [] lo_detections;
    _ ← gdpr_note "SAR_EXPORT" "Subject Access Request export generated";
    mret (Some (sar_text now scans ds)).

Definition leo_purge_all : L unit :=
  _ ← db_exec (set_detections (λ _, []));
  _ ← db_exec (set_scans (λ _, []));
  _ ← db_exec (set_baselines (λ _, []));
  gdpr_note "DATA_PURGE" "All scan data purged on user request — right to erasure exercised".
