(* ===== verification/Turtles.v ===== *)
(** * The turtles: the detectors of a superhero scan
    ([src/core/detection/]: raph_network.c, raph_memory.c, casey_hook.c,
     casey_kernel.c, casey_input.c, don_behavior.c, don_memorypressure.c,
     don_integrity.c, mikey_miui.c, and [src/core/platform/shell_bridge.c])

    A detector runs shell commands, reads what they print and appends findings.
    [reply n text] is what the [n]-th command given to [popen] prints, [None]
    when [popen] fails: two runs of one command may print different texts.
    [read_file] reads the small files that the detectors open themselves.
    Allocation succeeds; log lines and printing are left out. *)

From S2P Require Import Prelude CString Double Krang Conv April.
From Stdlib Require Import Ascii.

(** ** The state of a scan *)

Record file_record_t := FileRecord { fr_path : string; fr_mtime : Z; fr_hash : string }.

Record scan := Scan {
  sc_results : detection_list;         (* the caller's list *)
  sc_calls : list string;              (* the commands given to popen *)
  sc_kmods : option string;            (* KMOD_BASELINE *)
  sc_cache : list file_record_t;       (* the static cache of don_integrity.c *)
  sc_cache_loaded : bool;
  sc_cache_file : option string        (* CACHE_FILE *) }.

Definition set_results (x : detection_list) (s : scan) : scan :=
  Scan x (sc_calls s) (sc_kmods s) (sc_cache s) (sc_cache_loaded s) (sc_cache_file s).
Definition set_calls (x : list string) (s : scan) : scan :=
  Scan (sc_results s) x (sc_kmods s) (sc_cache s) (sc_cache_loaded s) (sc_cache_file s).
Definition set_kmods (x : option string) (s : scan) : scan :=
  Scan (sc_results s) (sc_calls s) x (sc_cache s) (sc_cache_loaded s) (sc_cache_file s).
Definition set_cache (x : list file_record_t) (loaded : bool) (s : scan) : scan :=
  Scan (sc_results s) (sc_calls s) (sc_kmods s) x loaded (sc_cache_file s).
Definition set_cache_file (x : option string) (s : scan) : scan :=
  Scan (sc_results s) (sc_calls s) (sc_kmods s) (sc_cache s) (sc_cache_loaded s) x.

Abbreviation T := (M scan).

Definition SENSEI_MAX_DETECTION_TYPE : nat := 64.
Definition SENSEI_MAX_DESCRIPTION : nat := 512.

(** A finding of a detector: the record [add_det] builds and appends. *)
Definition add_det (cls : SENSEI_DETECTION_CLASS) (pri : Z) (mitre : SENSEI_MITRE_TECHNIQUE)
    (conf : Z) (type desc : string) : T unit :=
  modify (λ s, set_results (exec (april_detection_list_append true
    (Detection 0 "" cls pri mitre (strncpy SENSEI_MAX_DETECTION_TYPE type)
       (strncpy SENSEI_MAX_DESCRIPTION desc) conf)) (sc_results s)) s).

(** ** Running commands *)

(** The text [rish_cmd] and [direct_exec] hand to [popen]. *)
Definition rish_full (cmd : string) : string :=
  snprintf 2048 (scat ["RISH_APPLICATION_ID=com.termux ";
    "/data/data/com.termux/files/home/Rish/rish -c '"; cmd; "' 2>/dev/null"]).

(** [run_shell_cmd]: double quotes escaped, at most about 1000 bytes. *)
Fixpoint bridge_escape (n : nat) (s : string) : string :=
  match s with
  | EmptyString => EmptyString
  | String c s' =>
      if (n <? 1000)%nat then
        if Ascii.eqb c (chr 34) then String BACKSLASH (String c (bridge_escape (n + 2) s'))
        else String c (bridge_escape (n + 1) s')
      else EmptyString
  end.

Definition bridge_full (cmd : string) : string :=
  snprintf 2048 (scat ["export PATH=$PATH:$HOME/.shizuku:$PREFIX/bin && ";
    "source $HOME/MiuiserPeruser/lib/miuiserperuser_common.sh && ";
    "run_shell "; QUOTE; bridge_escape 0 cmd; QUOTE; " 2>/dev/null"]).

Section turtles.
Context (reply : nat → string → option string).
Context (read_file : string → option string).

Definition popen (full : string) : T (option string) := λ s,
  (reply (length (sc_calls s)) full, set_calls (sc_calls s ++ [full]) s).

Definition rish_cmd (cmd : string) : T (option string) := popen (rish_full cmd).

Definition rish_pipe_command (cmd : string) : T (option string) := popen (bridge_full cmd).

(** The command printed something longer than [n]. *)
Definition on_output (n : nat) (out : option string) (k : string → T unit) : T unit :=
  match out with
  | Some o => if longer n o then k o else mret tt
  | None => mret tt
  end.

(** [out && atoi(out) > 0]. *)
Definition positive (out : option string) : bool :=
  match out with Some o => 0 <? atoi o | None => false end.

(** ** Raphael: the network *)

Definition SUSPECT_PORTS : list (Z * string) :=
  [(27042, "Frida server default port"); (27043, "Frida alt port");
   (4444, "Common RAT/backdoor port"); (1234, "Common debug/backdoor port");
   (9999, "Common backdoor port"); (5554, "Android emulator port");
   (5555, "ADB TCP (should only be loopback)"); (7777, "Common trojan port");
   (31337, "Classic backdoor port (eleet)")].

Definition XIAOMI_RANGES : list string := ["36.152."; "58.83."; "120.92."; "111.206."; "106.38."].

Definition uid_to_package (uid : Z) : T string :=
  out ← rish_cmd (snprintf 128 (scat ["pm list packages -U 2>/dev/null | grep uid:"; fmt_d uid;
                                      " | cut -d: -f2 | head -1"]));
  mret (match out with
        | Some o => if longer 2 o then first_line (strncpy 128 o) else snprintf 128 ("uid=" +:+ fmt_d uid)
        | None => snprintf 128 ("uid=" +:+ fmt_d uid)
        end).

Definition is_loopback (addr : string) : bool :=
  contains addr "0100007F" || contains addr "00000000000000000000000001000000".

(** [%*s]. *)
Definition skip_s (s : string) : option string := snd <$> scan_s (String.length s) s.

(** The variables of the [sscanf] with the format
    [" %*d: %63s %63s %7s %*s %*s %*s %*s %*s %d"]: those before the first
    conversion that fails are set. *)
Definition raph_fields (line : string) : string * string * string * Z :=
  match ('(_, r) ← scan_int 10 line; scan_char ":" r) with
  | None => ("", "", "", 0)
  | Some r =>
      match scan_s 63 r with
      | None => ("", "", "", 0)
      | Some (local, r) =>
          match scan_s 63 r with
          | None => (local, "", "", 0)
          | Some (rem, r) =>
              match scan_s 7 r with
              | None => (local, rem, "", 0)
              | Some (state, r) =>
                  match (r ← skip_s r; r ← skip_s r; r ← skip_s r; r ← skip_s r; r ← skip_s r;
                         scan_int 10 r) with
                  | Some (uid, _) => (local, rem, state, to_i32 uid)
                  | None => (local, rem, state, 0)
                  end
              end
          end
      end
  end.

(** The port after the last colon. *)
Definition port_of (addr : string) : Z :=
  match after_last ":" addr with
  | Some p => to_i32 (strtol 16 p)
  | None => 0
  end.

(** The first suspect port that the entry uses ends the search, reported or not. *)
Definition suspect_port (lport rport : Z) : option (Z * string) :=
  List.find (λ p, (lport =? p.1) || (rport =? p.1)) SUSPECT_PORTS.

Definition raph_line (line : string) : T unit :=
  let '(local, rem, state, uid) := raph_fields line in
  if negb (String.eqb state "01") && negb (String.eqb state "0A") then mret tt
  else
    match suspect_port (port_of local) (port_of rem) with
    | None => mret tt
    | Some (port, name) =>
        if (port =? 5555) && (is_loopback local || is_loopback rem) then mret tt
        else
          pkg ← uid_to_package uid;
          add_det CLASS_NETWORK PRIORITY_HIGH MITRE_T1071 85 "SUSPECT_PORT"
            (snprintf SENSEI_MAX_DESCRIPTION
               (scat ["Suspicious port "; fmt_d port; " ("; name; ") — uid="; fmt_d uid; " pkg="; pkg]))
    end.

Definition raph_table (file : string) : T unit :=
  raw ← rish_cmd (snprintf 128 (scat ["cat /proc/net/"; file; " 2>/dev/null"]));
  match raw with
  | None => mret tt
  | Some raw => mfor (drop 1 (token_lines raw)) raph_line
  end.

Definition raph_network_scan : T unit :=
  _ ← raph_table "tcp";
  _ ← raph_table "tcp6";
  netstat ← rish_cmd "ss -tnp 2>/dev/null | grep ESTAB | awk '{print $5}' | grep -v '127\.' | head -20";
  _ ← on_output 2 netstat (λ out, mfor (token_lines out) (λ tok, mfor XIAOMI_RANGES (λ range,
        mwhen (contains tok range)
          (add_det CLASS_NETWORK PRIORITY_MEDIUM MITRE_T1071 80 "XIAOMI_TELEMETRY_CONN"
             (snprintf SENSEI_MAX_DESCRIPTION ("Active connection to Xiaomi telemetry IP: " +:+ tok))))));
  pkt ← rish_cmd "cat /proc/net/packet 2>/dev/null | awk 'NR>1 && $7>10000 {print $7}' | sort -u";
  _ ← on_output 1 pkt (λ out,
        add_det CLASS_NETWORK PRIORITY_HIGH MITRE_T1071 85 "PACKET_SNIFFER"
          (snprintf SENSEI_MAX_DESCRIPTION
             (scat ["Raw packet socket owned by app UID: "; out; " — possible sniffer"])));
  adb ← rish_cmd "getprop service.adb.tcp.port 2>/dev/null";
  on_output 0 adb (λ out,
    mwhen (negb (String.eqb out NLs) && negb (String.eqb out ("-1" +:+ NLs)))
      (add_det CLASS_NETWORK PRIORITY_MEDIUM MITRE_T1071 70 "ADB_TCP_ACTIVE"
         (snprintf SENSEI_MAX_DESCRIPTION
            (scat ["ADB TCP port active: "; first_line out; " — remote shell access possible"])))).

(** ** Raphael: memory *)

(** The counters of a pid in the maps summary: the line that starts with it. *)
Definition lookup_pid_maps (summary : string) (pid : Z) : Z * Z * Z :=
  let needle := snprintf 32 (fmt_d pid +:+ ":") in
  let found := match strstr summary (NLs +:+ needle) with
               | Some p => Some p
               | None => if has_prefix needle summary then Some (NLs +:+ summary) else None
               end in
  match (p ← found; strchr ":" p) with
  | None => (0, 0, 0)
  | Some p =>
      match scan_int 10 (sdrop 1 p) with
      | None => (0, 0, 0)
      | Some (rwx, r) =>
          match (r ← scan_char ":" r; scan_int 10 r) with
          | None => (to_i32 rwx, 0, 0)
          | Some (inj, r) =>
              match (r ← scan_char ":" r; scan_int 10 r) with
              | None => (to_i32 rwx, to_i32 inj, 0)
              | Some (exd, _) => (to_i32 rwx, to_i32 inj, to_i32 exd)
              end
          end
      end
  end.

Definition PID_MAPS : string :=
  "/data/data/com.termux/files/home/MiuiserPeruser/pipes/state/pid_maps_summary".

(** [g_maps_summary]: at most 65535 bytes of the file. *)
Definition maps_summary : string := stake (Z.to_nat 65535) (default "" (read_file PID_MAPS)).

Definition raph_memory_scan (pid : Z) : T unit :=
  if pid <=? 0 then mret tt
  else
    let '(rwx, inj, exd) := lookup_pid_maps maps_summary pid in
    _ ← mwhen (0 <? rwx) (add_det CLASS_MEMORY PRIORITY_HIGH MITRE_T1055 85 "ANON_RWX_MEM"
          (snprintf SENSEI_MAX_DESCRIPTION
             (scat ["Anonymous RWX memory in PID "; fmt_d pid; " — possible injector"])));
    _ ← mwhen (0 <? inj) (add_det CLASS_HOOK PRIORITY_CRITICAL MITRE_T1055 99 "INJECTOR_LIB"
          (snprintf SENSEI_MAX_DESCRIPTION
             (scat ["Injector library in PID "; fmt_d pid; " maps"])));
    mwhen (0 <? exd) (add_det CLASS_MEMORY PRIORITY_HIGH MITRE_T1055 80 "EXEC_FROM_DATA"
          (snprintf SENSEI_MAX_DESCRIPTION
             (scat ["Suspicious exec mapping from /data in PID "; fmt_d pid]))).

(** ** Casey: hooks *)

(** [cmd_hit]: two runs that both print something. *)
Definition cmd_hit (cmd : string) : T bool :=
  o1 ← rish_cmd cmd;
  match o1 with
  | Some o1 =>
      if longer 0 o1 then
        o2 ← rish_cmd cmd;
        mret (match o2 with Some o2 => longer 0 o2 | None => false end)
      else mret false
  | None => mret false
  end.

Definition when_hit (cmd : string) (k : T unit) : T unit :=
  hit ← cmd_hit cmd; mwhen hit k.

Definition check_frida : T unit :=
  _ ← when_hit "ps -A 2>/dev/null | grep -v grep | grep ' frida-server'"
        (add_det CLASS_HOOK PRIORITY_CRITICAL MITRE_T1055 99 "FRIDA_SERVER"
           "frida-server process found - dynamic instrumentation active");
  _ ← when_hit "cat /proc/net/tcp6 /proc/net/tcp 2>/dev/null | grep ' 0A ' | awk '{print $2}' | grep -i ':699A'"
        (add_det CLASS_HOOK PRIORITY_CRITICAL MITRE_T1055 97 "FRIDA_PORT"
           "Port 27042 open - default Frida server port");
  _ ← when_hit "cat /proc/*/maps 2>/dev/null | grep '/frida-agent.so'"
        (add_det CLASS_HOOK PRIORITY_CRITICAL MITRE_T1055 99 "FRIDA_AGENT"
           "frida-agent.so loaded in process memory");
  when_hit "cat /proc/*/maps 2>/dev/null | grep -E '^[0-9a-f]+-[0-9a-f]+ rwxp 00000000 00:00 0 *$'"
        (add_det CLASS_HOOK PRIORITY_HIGH MITRE_T1055 85 "ANON_RWX_MEM"
           "Anonymous RWX pages found - possible injector artefact").

Definition check_xposed : T unit :=
  _ ← when_hit "pm list packages 2>/dev/null | grep '^package:.*lsposed\|^package:.*xposed\|^package:.*edxposed'"
        (add_det CLASS_HOOK PRIORITY_CRITICAL MITRE_T1055 99 "XPOSED_PKG"
           "Xposed/LSPosed package installed - Zygote hooking framework");
  when_hit "test -f /system/framework/XposedBridge.jar && echo yes"
        (add_det CLASS_HOOK PRIORITY_CRITICAL MITRE_T1055 99 "XPOSED_JAR"
           "XposedBridge.jar in /system/framework").

Definition check_magisk : T unit :=
  _ ← when_hit "test -d /data/adb/magisk && echo yes"
        (add_det CLASS_ROOTKIT PRIORITY_LOW MITRE_T1014 50 "MAGISK_FILES"
           "Magisk files found - expected on intentionally rooted devices");
  when_hit "test -e /sys/kernel/ksu && echo yes"
        (add_det CLASS_ROOTKIT PRIORITY_LOW MITRE_T1014 50 "KERNELSU"
           "KernelSU detected - expected if intentionally installed").

Definition check_ld_preload : T unit :=
  when_hit "cat /proc/1/environ 2>/dev/null | tr '\0' '\n' | grep '^LD_PRELOAD='"
        (add_det CLASS_HOOK PRIORITY_CRITICAL MITRE_T1055 95 "LD_PRELOAD_INIT"
           "LD_PRELOAD set on init process - persistent library injection").

(** An enabled service outside the safe packages; the description buffer holds
    510 bytes, one less than elsewhere. *)
Definition check_services (cmd : string) (safe : list string) (conf : Z) (type prefix : string) : T unit :=
  out ← rish_cmd cmd;
  on_output 2 out (λ o,
    mwhen (negb (String.eqb o ("null" +:+ NLs)) && negb (existsb (contains o) safe))
      (add_det CLASS_BEHAVIOR PRIORITY_HIGH MITRE_T1055 conf type
         (snprintf (SENSEI_MAX_DESCRIPTION - 1) (prefix +:+ o)))).

Definition check_overlay_keylogger : T unit :=
  _ ← check_services "settings get secure enabled_accessibility_services 2>/dev/null"
        ["com.google."; "com.android."; "com.miui."; "com.xiaomi."; "com.samsung."]
        88 "SUSPICIOUS_A11Y" "Unknown accessibility service: ";
  check_services "settings get secure enabled_notification_listeners 2>/dev/null"
        ["com.google."; "com.android."; "com.miui."; "com.xiaomi."]
        85 "NOTIF_LISTENER" "Unknown notification listener: ".

Definition casey_hook_check : T unit :=
  _ ← check_frida; _ ← check_xposed; _ ← check_magisk; _ ← check_ld_preload;
  check_overlay_keylogger.

(** ** Casey: the kernel *)

Definition KERNEL_PARAMS : list (string * string * string * string) :=
  [("/proc/sys/kernel/kptr_restrict", "0", "KPTR_EXPOSED",
    "kptr_restrict=0 — kernel pointers visible in /proc, aids rootkit development");
   ("/proc/sys/kernel/dmesg_restrict", "0", "DMESG_EXPOSED",
    "dmesg_restrict=0 — kernel log readable by unprivileged processes");
   ("/proc/sys/kernel/randomize_va_space", "0", "ASLR_DISABLED",
    "ASLR disabled (randomize_va_space=0) — memory layout predictable, exploits easier");
   ("/proc/sys/kernel/perf_event_paranoid", "0", "PERF_EXPOSED",
    "perf_event_paranoid=0 — performance events accessible, side-channel risk")].

Definition check_kernel_params : T unit :=
  mfor KERNEL_PARAMS (λ '(path, bad_val, type, desc),
    val ← rish_cmd (snprintf 256 (scat ["cat "; path; " 2>/dev/null"]));
    match val with
    | None => mret tt
    | Some val =>
        mwhen (String.eqb (first_line val) bad_val)
          (add_det CLASS_KERNEL (if String.eqb bad_val "0" then PRIORITY_HIGH else PRIORITY_MEDIUM)
             MITRE_T1014 85 type desc)
    end).

Definition when_positive (cmd : string) (k : T unit) : T unit :=
  out ← rish_cmd cmd; mwhen (positive out) k.

Definition check_syscall_table : T unit :=
  when_positive "grep -c sys_call_table /proc/kallsyms 2>/dev/null"
    (add_det CLASS_KERNEL PRIORITY_CRITICAL MITRE_T1014 95 "SYSCALL_TABLE_EXPOSED"
       "sys_call_table address visible in /proc/kallsyms — rootkit could patch syscalls").

Definition check_debugfs : T unit :=
  when_positive "mount 2>/dev/null | grep -c debugfs"
    (add_det CLASS_KERNEL PRIORITY_HIGH MITRE_T1014 80 "DEBUGFS_MOUNTED"
       "debugfs is mounted — exposes kernel internals").

Definition check_kernelsu : T unit :=
  out ← rish_cmd "test -e /sys/kernel/ksu && echo yes 2>/dev/null";
  _ ← on_output 1 out (λ _, add_det CLASS_ROOTKIT PRIORITY_LOW MITRE_T1014 50 "KERNELSU"
        "KernelSU detected — kernel-level root. Expected if intentionally installed.");
  when_positive "ps -A 2>/dev/null | grep -c ksud"
    (add_det CLASS_ROOTKIT PRIORITY_LOW MITRE_T1014 50 "KERNELSU_DAEMON"
       "KernelSU daemon (ksud) running — kernel root management active").

Definition check_kthread_impersonation : T unit :=
  out ← rish_cmd (scat ["for f in /proc/[0-9]*/status 2>/dev/null; do ";
    "n=$(grep ^Name: $f | cut -f2); p=$(grep ^Pid: $f | cut -f2); ";
    "pp=$(grep ^PPid: $f | cut -f2); ";
    dq "[ -n '$n' ] && [ '${n:0:1}' = '[' ] && ";
    dq "[ '$p' -gt 2 ] 2>/dev/null && [ '$pp' != '2' ] 2>/dev/null && ";
    "echo $p $n $pp; done 2>/dev/null | head -3"]);
  on_output 2 out (λ o, add_det CLASS_KERNEL PRIORITY_CRITICAL MITRE_T1036 90 "KTHREAD_IMPERSONATION"
    (snprintf SENSEI_MAX_DESCRIPTION ("Kernel thread impersonation detected: " +:+ o))).

(** [sscanf(line, "%127s", modname)]. *)
Definition module_name (line : string) : string :=
  match scan_s 127 line with Some (tok, _) => tok | None => "" end.

(** A module whose name occurs nowhere in the text of the baseline; the first
    run records the baseline, when the file can be created. *)
Definition check_kernel_modules (can_create : bool) : T unit :=
  mods ← rish_cmd "cat /proc/modules 2>/dev/null | awk '{print $1}' | sort";
  on_output 0 mods (λ mods,
    known ← gets sc_kmods;
    match known with
    | None => mwhen can_create (modify (set_kmods (Some mods)))
    | Some baseline =>
        mfor (token_lines mods) (λ line,
          let modname := module_name line in
          mwhen (longer 0 modname && negb (contains baseline modname))
            (add_det CLASS_KERNEL PRIORITY_CRITICAL MITRE_T1014 93 "NEW_KMODULE"
               (snprintf SENSEI_MAX_DESCRIPTION ("NEW kernel module since baseline: " +:+ modname))))
    end).

Definition casey_kernel_check (can_create : bool) : T unit :=
  _ ← check_kernel_params; _ ← check_syscall_table; _ ← check_debugfs; _ ← check_kernelsu;
  _ ← check_kthread_impersonation;
  check_kernel_modules can_create.

(** ** Casey: input services *)

(** [ScanResult]; its [report] stays empty. *)
Record ScanResult := MkScanResult { threat_level : Z; anomaly_score : Z; summary : string }.

Definition scan_casey_input : T ScanResult :=
  services ← rish_pipe_command "settings get secure enabled_accessibility_services";
  mret (match services with
        | Some s =>
            if longer 0 s && negb (String.eqb s "null") then
              if contains s "com.miui." || contains s "com.xiaomi."
              then MkScanResult 1 85 "MIUI Scraper Active"
              else MkScanResult 0 0 "Clear"
            else MkScanResult 0 0 ""
        | None => MkScanResult 0 0 ""
        end).

(** ** Donatello: behaviour of a process *)

(** Entries of /proc/PID/fd, -1 when it cannot be opened. *)
Context (count_fds : Z → Z).

(** The first line of /proc/PID/file, without its end. *)
Definition proc_read (pid : Z) (file : string) : option string :=
  match read_file (snprintf 128 (scat ["/proc/"; fmt_d pid; "/"; file])) with
  | None => None
  | Some text =>
      let buf := trim_end is_line_end (match fgets 512 text with Some (l, _) => l | None => "" end) in
      if longer 0 buf then Some buf else None
  end.

(** The 127 bytes of [cmdline]: NULs after the first byte become blanks, those
    of the unused tail too. *)
Definition blank_nul (c : ascii) : ascii := if Ascii.eqb c (chr 0) then " "%char else c.

Fixpoint blanked (n : nat) (s : string) : string :=
  match n with
  | O => EmptyString
  | S n' =>
      match s with
      | String c s' => String (blank_nul c) (blanked n' s')
      | EmptyString => String " " (blanked n' EmptyString)
      end
  end.

Definition cmdline_text (raw : string) : string :=
  match raw with
  | EmptyString => EmptyString
  | String c rest => if Ascii.eqb c (chr 0) then EmptyString else String c (blanked 126 rest)
  end.

Definition EXPECTED_RUNNERS : list string :=
  ["com.android"; "com.google"; "system"; "kworker"; "com.miui"].

Definition don_behavior_analyze (pid : Z) : T SENSEI_STATUS :=
  if pid =? 0 then mret STATUS_ERROR
  else
    let fds := count_fds pid in
    _ ← mwhen (500 <? fds) (add_det CLASS_BEHAVIOR PRIORITY_MEDIUM MITRE_T1071 70 "EXCESSIVE_FDS"
          (snprintf SENSEI_MAX_DESCRIPTION
             (scat ["PID "; fmt_d pid; " has "; fmt_d fds; " open file descriptors — possible fd leak or exfil"])));
    _ ← match proc_read pid "status" with
        | None => mret tt
        | Some state =>
            if contains state "R (running)" then
              match read_file (snprintf 128 (scat ["/proc/"; fmt_d pid; "/cmdline"])) with
              | None => mret tt
              | Some raw =>
                  let cmdline := cmdline_text raw in
                  mwhen (longer 3 cmdline && negb (existsb (contains cmdline) EXPECTED_RUNNERS))
                    (add_det CLASS_BEHAVIOR PRIORITY_LOW MITRE_T1071 50 "UNEXPECTED_ACTIVE_PROC"
                       (snprintf SENSEI_MAX_DESCRIPTION
                          (scat ["PID "; fmt_d pid; " ("; cmdline; ") actively running — unexpected wakeup"])))
              end
            else mret tt
        end;
    mret STATUS_OK.

(** ** Donatello: memory pressure *)

(** The last line with the prefix gives the value. *)
Definition meminfo_value (prefix : string) (ls : list string) : Z :=
  foldl (λ v line, if has_prefix prefix line then atol (sdrop (String.length prefix) line) else v) 0 ls.

Definition used_percent (total available : Z) : Z := to_i32 (100 - Z.quot (available * 100) total).

Definition don_memorypressure_check : T SENSEI_STATUS :=
  out ← rish_cmd "cat /proc/meminfo 2>/dev/null";
  match out with
  | None => mret STATUS_ERROR
  | Some out =>
      let ls := token_lines out in
      let total := meminfo_value "MemTotal:" ls in
      let available := meminfo_value "MemAvailable:" ls in
      _ ← (if 0 <? total then
             let used_pct := used_percent total available in
             if 90 <=? used_pct then
               add_det CLASS_BEHAVIOR PRIORITY_CRITICAL MITRE_NONE 90 "RAM_CRITICAL"
                 (snprintf SENSEI_MAX_DESCRIPTION (scat ["RAM critically low ("; fmt_d used_pct;
                    "% used). MIUI may start killing processes."]))
             else if 80 <=? used_pct then
               add_det CLASS_BEHAVIOR PRIORITY_HIGH MITRE_NONE 80 "RAM_HIGH"
                 (snprintf SENSEI_MAX_DESCRIPTION (scat ["RAM pressure high ("; fmt_d used_pct; "% used)"]))
             else mret tt
           else mret tt);
      mret STATUS_OK
  end.

(** ** Donatello: file integrity *)

Definition MAX_FILES : nat := 64.

Definition critical_paths : list string :=
  ["/system/bin/init"; "/system/bin/zygote"; "/system/bin/zygote64"; "/system/bin/surfaceflinger";
   "/system/bin/logd"; "/system/bin/vold"; "/system/bin/adbd"; "/system/bin/servicemanager";
   "/system/bin/bootanimation"; "/system/bin/netd"; "/system/bin/installd"; "/system/bin/keystore";
   "/system/bin/mediaserver"; "/system/bin/drmserver"; "/system/bin/gatekeeperd";
   "/system/lib/libc.so"; "/system/lib64/libc.so"; "/system/lib/libm.so"; "/system/lib64/libm.so";
   "/system/lib/libdl.so"; "/system/lib64/libdl.so"; "/system/lib/libsqlite.so";
   "/system/lib64/libsqlite.so"; "/system/lib/libandroid_runtime.so";
   "/system/lib64/libandroid_runtime.so"; "/system/lib/libbinder.so"; "/system/lib64/libbinder.so";
   "/system/build.prop"; "/system/etc/hosts"; "/system/etc/security/permissions/platform.xml";
   "/data/data/com.termux/files/home/.bashrc"; "/data/data/com.termux/files/usr/bin/bash";
   "/data/data/com.termux/files/usr/bin/login"; "/data/data/com.termux/files/usr/lib/libtermux-exec.so";
   "/system/bin/mi_thermald"; "/system/bin/miui-booster"; "/system/bin/xiaomi-security"].

(** [sscanf(line, "%511s %31s %64s", ...) == 3]. *)
Definition cache_record (line : string) : option file_record_t :=
  '(path, r) ← scan_s 511 line;
  '(mtime, r) ← scan_s 31 r;
  '(hash, _) ← scan_s 64 r;
  Some (FileRecord path (atol mtime) hash).

Definition load_cache (text : string) : list file_record_t :=
  take MAX_FILES (omap cache_record (read_lines 1024 text)).

Definition save_cache (cache : list file_record_t) : string :=
  scat ((λ r, scat [fr_path r; " "; fmt_d (fr_mtime r); " "; fr_hash r; NLs]) <$> cache).

Definition compute_sha256_via_rish (path : string) : T (option string) :=
  out ← rish_pipe_command (snprintf 1024 (scat ["cat "; QUOTE; path; QUOTE; " 2>/dev/null | sha256sum"]));
  mret (match out with
        | Some o => if (String.length o <? 64)%nat then None else Some (stake 64 o)
        | None => None
        end).

(** The first record of the path. *)
Fixpoint update_record (path : string) (f : file_record_t → file_record_t) (cache : list file_record_t)
    : list file_record_t :=
  match cache with
  | [] => []
  | r :: cache' =>
      if String.eqb (fr_path r) path then f r :: cache' else r :: update_record path f cache'
  end.

(** One path; the result is the path when a THREAT line is logged for it. *)
Definition integrity_path (path : string) : T (list string) :=
  exists_ ← rish_pipe_command (snprintf 512 (scat ["test -f "; QUOTE; path; QUOTE; " && echo yes"]));
  if negb (match exists_ with Some e => contains e "yes" | None => false end) then mret []
  else
    hash ← compute_sha256_via_rish path;
    match hash with
    | None => mret []
    | Some current_hash =>
        mtime_str ← rish_pipe_command (snprintf 512 (scat ["stat -c %Y "; QUOTE; path; QUOTE; " 2>/dev/null"]));
        let current_mtime := match mtime_str with Some m => atol m | None => 0 end in
        cache ← gets sc_cache;
        match List.find (λ r, String.eqb (fr_path r) path) cache with
        | None =>
            _ ← mwhen (length cache <? MAX_FILES)%nat
                  (modify (set_cache (cache ++ [FileRecord path current_mtime current_hash]) true));
            mret []
        | Some rec =>
            _ ← modify (set_cache (update_record path
                  (λ r, FileRecord (fr_path r) current_mtime current_hash) cache) true);
            mret (if String.eqb (fr_hash rec) current_hash then [] else [path])
        end
    end.

Fixpoint integrity_paths (paths : list string) : T (list string) :=
  match paths with
  | [] => mret []
  | p :: paths' => a ← integrity_path p; b ← integrity_paths paths'; mret (a ++ b)
  end.

Definition don_integrity_check (can_save : bool) : T (list string) :=
  loaded ← gets sc_cache_loaded;
  file ← gets sc_cache_file;
  cache ← gets sc_cache;
  _ ← mwhen (negb loaded) (modify (set_cache
        (match file with Some text => load_cache text | None => cache end) true));
  changed ← integrity_paths critical_paths;
  cache ← gets sc_cache;
  _ ← mwhen can_save (modify (set_cache_file (Some (save_cache cache))));
  mret changed.

(** ** Michelangelo: HyperOS and MIUI *)

Definition prop (key : string) : T (option string) :=
  out ← rish_cmd (snprintf 256 (scat ["getprop "; key; " 2>/dev/null"]));
  mret (first_line <$> out).

(** The first property, or the second one when the first is short. *)
Definition prop_or (key other : string) : T (option string) :=
  out ← prop key;
  match out with
  | Some o => if (String.length o <? 2)%nat then prop other else mret out
  | None => prop other
  end.

Definition TOKENS : list (string * string) :=
  [("ro.appsflyer.preinstall.path", "AppsFlyer preinstall tracker");
   ("ro.netflix.channel", "Netflix channel tracking ID");
   ("ro.com.google.clientidbase", "Google client base (xiaomi-branded)");
   ("ro.spotify.partner", "Spotify partner token");
   ("ro.microsoft.preinstall_partner", "Microsoft preinstall partner")].

(** The checks of a running component: pattern, class, priority, technique,
    confidence, type, description. *)
Definition MIUI_PROCESSES :
    list (string * SENSEI_DETECTION_CLASS * Z * SENSEI_MITRE_TECHNIQUE * Z * string * string) :=
  [("dumpsys activity processes 2>/dev/null | grep -c com.miui.msa.global",
    CLASS_BEHAVIOR, PRIORITY_HIGH, MITRE_T1071, 90, "MSA_ACTIVE",
    "MSA (MIUI System Ads) running — transmits encrypted data to api.ad.intl.xiaomi.com per TCD 2021 study");
   ("dumpsys activity processes 2>/dev/null | grep -c com.miui.analytics",
    CLASS_BEHAVIOR, PRIORITY_MEDIUM, MITRE_T1071, 88, "MIUI_ANALYTICS",
    "MIUI Analytics running — screen touches and interaction logs sent to data.mistat.intl.xiaomi.com");
   ("dumpsys activity processes 2>/dev/null | grep -c com.miui.daemon",
    CLASS_BEHAVIOR, PRIORITY_MEDIUM, MITRE_T1071, 85, "MIUI_DAEMON",
    "MiuiDaemon running — background device data collection service");
   ("dumpsys activity processes 2>/dev/null | grep -c com.xiaomi.discover",
    CLASS_BEHAVIOR, PRIORITY_MEDIUM, MITRE_T1071, 80, "XIAOMI_DISCOVER",
    "Xiaomi Discover/GetApps running — known to bypass DNS blocking for telemetry");
   ("dumpsys activity processes 2>/dev/null | grep -c com.miui.guardprovider",
    CLASS_BEHAVIOR, PRIORITY_LOW, MITRE_T1071, 70, "GUARD_PROVIDER",
    "Guard Provider active — Xiaomi security scanning with cloud telemetry component");
   ("lsmod 2>/dev/null | grep -c millet",
    CLASS_KERNEL, PRIORITY_MEDIUM, MITRE_T1014, 85, "MILLET_ACTIVE",
    "MILLET kernel scheduler active — Xiaomi process prioritisation with binder monitoring");
   ("dumpsys activity processes 2>/dev/null | grep -c com.miui.voiceassist",
    CLASS_BEHAVIOR, PRIORITY_MEDIUM, MITRE_T1071, 80, "XIAOAI_ACTIVE",
    "XiaoAI voice assistant running — microphone access, cloud speech processing");
   ("dumpsys activity processes 2>/dev/null | grep -c com.milink.service",
    CLASS_BEHAVIOR, PRIORITY_LOW, MITRE_T1071, 70, "MILINK_ACTIVE",
    "MiLink service running — Xiaomi cross-device data bridge (clipboard sync, file transfer)");
   ("dumpsys activity processes 2>/dev/null | grep -c com.miui.micloudsync",
    CLASS_BEHAVIOR, PRIORITY_LOW, MITRE_T1071, 75, "MICLOUD_SYNC",
    "Mi Cloud sync running — contacts, SMS, photos synced to Xiaomi servers")].

Definition mikey_miui : T unit :=
  sno ← prop_or "ro.miui.cust.sno" "persist.sys.miui.sno";
  _ ← on_output 2 sno (λ v, add_det CLASS_BEHAVIOR PRIORITY_LOW MITRE_T1071 90 "SNO_TRACKING"
        (snprintf SENSEI_MAX_DESCRIPTION (scat ["Device SNO tracking ID present: "; v;
           " — persists across factory reset, used for cross-device ad attribution"])));
  fb ← prop_or "persist.sys.facebook.partnerid" "ro.facebook.partnerid";
  _ ← on_output 2 fb (λ v, add_det CLASS_BEHAVIOR PRIORITY_MEDIUM MITRE_T1071 95 "FB_PARTNER_ID"
        (snprintf SENSEI_MAX_DESCRIPTION (scat ["Facebook Partner ID baked into device: "; v;
           " — pre-authorises Facebook data collection at hardware level"])));
  _ ← mfor TOKENS (λ '(key, name),
        val ← prop key;
        on_output 2 val (λ v, add_det CLASS_BEHAVIOR PRIORITY_LOW MITRE_T1071 85 "PARTNER_TOKEN"
          (snprintf SENSEI_MAX_DESCRIPTION (scat [name; " present: "; v; " — pre-installed tracking token"]))));
  _ ← mfor MIUI_PROCESSES (λ '(cmd, cls, pri, mitre, conf, type, desc),
        when_positive cmd (add_det cls pri mitre conf type desc));
  gdpr ← prop "persist.sys.miui.gdpr";
  mwhen (match gdpr with Some g => negb (String.eqb g "1") | None => true end)
    (add_det CLASS_BEHAVIOR PRIORITY_MEDIUM MITRE_T1071 70 "GDPR_OPT_OUT"
       "MIUI GDPR opt-out not confirmed — telemetry may be active under EEA law").

End turtles.
