(* ===== verification/Dojo.v ===== *)
(** * Superhero mode ([src/superhero/splinter_dojo.c], [superhero_mode.c],
      [backend_strategy.c], [src/main_superhero.c])

    The front end: command line, consent gate, scan cycle at a depth, metrics,
    purge and export.  The state is the process with the files and the database
    it leaves behind; standard input is a text.  [reply], [read_file] and
    [count_fds] are the device, as for the detectors.  Terminal output other
    than the event lines is left out; of the two processes of
    [--bg] the parent writes its file and ends, and the child is the one that
    goes on. *)

From S2P Require Import Prelude CString Double Krang Conv April Leo Turtles.
From Stdlib Require Import Ascii.

Inductive BACKEND_TYPE := BACKEND_NONE | BACKEND_RISH | BACKEND_ADB | BACKEND_LOCAL.

Definition backend_code (b : BACKEND_TYPE) : Z :=
  match b with BACKEND_NONE => 0 | BACKEND_RISH => 1 | BACKEND_ADB => 2 | BACKEND_LOCAL => 3 end.

Definition backend_name (b : BACKEND_TYPE) : string :=
  match b with
  | BACKEND_RISH => "rish" | BACKEND_ADB => "adb" | BACKEND_LOCAL => "local" | BACKEND_NONE => "none"
  end.

Record hero := Hero {
  h_stdin : string;
  h_scan : scan;
  h_leo : leo;
  h_lock : option string;               (* CONSENT_LOCK *)
  h_dojo_db : bool;                     (* sensei_dojo.db exists *)
  h_log : option string;                (* last_scan.json *)
  h_depth : string;                     (* g_scan_depth *)
  h_backend : BACKEND_TYPE;
  h_events : list (APRIL_EVENT_TYPE * Z);
  h_sar : option string;                (* SAR_export.json *)
  h_pid : option string;                (* pipes/pids/superhero.pid *)
  h_bg_log : bool                       (* logs/superhero.log exists *) }.

Definition set_stdin (x : string) (h : hero) : hero :=
  Hero x (h_scan h) (h_leo h) (h_lock h) (h_dojo_db h) (h_log h) (h_depth h) (h_backend h) (h_events h) (h_sar h) (h_pid h) (h_bg_log h).
Definition set_scan (x : scan) (h : hero) : hero :=
  Hero (h_stdin h) x (h_leo h) (h_lock h) (h_dojo_db h) (h_log h) (h_depth h) (h_backend h) (h_events h) (h_sar h) (h_pid h) (h_bg_log h).
Definition set_leo (x : leo) (h : hero) : hero :=
  Hero (h_stdin h) (h_scan h) x (h_lock h) (h_dojo_db h) (h_log h) (h_depth h) (h_backend h) (h_events h) (h_sar h) (h_pid h) (h_bg_log h).
Definition set_lock (x : option string) (h : hero) : hero :=
  Hero (h_stdin h) (h_scan h) (h_leo h) x (h_dojo_db h) (h_log h) (h_depth h) (h_backend h) (h_events h) (h_sar h) (h_pid h) (h_bg_log h).
Definition set_dojo_db (x : bool) (h : hero) : hero :=
  Hero (h_stdin h) (h_scan h) (h_leo h) (h_lock h) x (h_log h) (h_depth h) (h_backend h) (h_events h) (h_sar h) (h_pid h) (h_bg_log h).
Definition set_log (x : option string) (h : hero) : hero :=
  Hero (h_stdin h) (h_scan h) (h_leo h) (h_lock h) (h_dojo_db h) x (h_depth h) (h_backend h) (h_events h) (h_sar h) (h_pid h) (h_bg_log h).
Definition set_depth (x : string) (h : hero) : hero :=
  Hero (h_stdin h) (h_scan h) (h_leo h) (h_lock h) (h_dojo_db h) (h_log h) x (h_backend h) (h_events h) (h_sar h) (h_pid h) (h_bg_log h).
Definition set_backend (x : BACKEND_TYPE) (h : hero) : hero :=
  Hero (h_stdin h) (h_scan h) (h_leo h) (h_lock h) (h_dojo_db h) (h_log h) (h_depth h) x (h_events h) (h_sar h) (h_pid h) (h_bg_log h).
Definition set_events (x : list (APRIL_EVENT_TYPE * Z)) (h : hero) : hero :=
  Hero (h_stdin h) (h_scan h) (h_leo h) (h_lock h) (h_dojo_db h) (h_log h) (h_depth h) (h_backend h) x (h_sar h) (h_pid h) (h_bg_log h).
Definition set_sar (x : option string) (h : hero) : hero :=
  Hero (h_stdin h) (h_scan h) (h_leo h) (h_lock h) (h_dojo_db h) (h_log h) (h_depth h) (h_backend h) (h_events h) x (h_pid h) (h_bg_log h).
Definition set_pid (x : option string) (h : hero) : hero :=
  Hero (h_stdin h) (h_scan h) (h_leo h) (h_lock h) (h_dojo_db h) (h_log h) (h_depth h) (h_backend h) (h_events h) (h_sar h) x (h_bg_log h).
Definition set_bg_log (x : bool) (h : hero) : hero :=
  Hero (h_stdin h) (h_scan h) (h_leo h) (h_lock h) (h_dojo_db h) (h_log h) (h_depth h) (h_backend h) (h_events h) (h_sar h) (h_pid h) x.

Abbreviation H := (M hero).

Definition on_scan {A} (c : M scan A) : H A := λ h,
  let '(a, s) := c (h_scan h) in (a, set_scan s h).

Definition on_leo {A} (c : M leo A) : H A := λ h,
  let '(a, l) := c (h_leo h) in (a, set_leo l h).

Definition emit (t : APRIL_EVENT_TYPE) (value : Z) : H unit :=
  modify (λ h, set_events (h_events h ++ [(t, value)]) h).

(** ** Printing and storing findings *)

Definition priority_name (p : Z) : string :=
  if p =? PRIORITY_CRITICAL then "CRITICAL" else if p =? PRIORITY_HIGH then "HIGH"
  else if p =? PRIORITY_MEDIUM then "MEDIUM" else "LOW".

Definition finding_json (turtle : string) (d : SENSEI_DETECTION) : string :=
  scat [dq "  {'turtle':'"; turtle; dq "','priority':'"; priority_name (det_priority d);
        dq "','type':'"; det_type d; dq "','description':'"; det_description d; dq "'}"].

(** The log while it is open: its text and [g_findings_count]. *)
Definition print_findings (turtle : string) (log : option (string * Z)) : H (option (string * Z)) :=
  results ← gets (λ h, dl_nodes (sc_results (h_scan h)));
  (fix go ds log :=
     match ds with
     | [] => mret log
     | d :: ds' =>
         let log' := match log with
                     | Some (text, n) =>
                         Some (text +:+ (if 0 <? n then "," +:+ NLs else "") +:+ finding_json turtle d, n + 1)
                     | None => None
                     end in
         _ ← on_leo (leo_write_detection turtle (det_type d) (det_description d)
               (priority_name (det_priority d)) (det_confidence d));
         go ds' log'
     end) results log.

Definition free_results : H unit :=
  on_scan (modify (set_results (DetectionList [] 0))).

(** The conversion of a double in the range of [int]. *)
Definition double_to_int (x : double) : Z :=
  match x with
  | S754_finite s m e =>
      let v := if 0 <=? e then Zpos m * 2 ^ e else Zpos m / 2 ^ (- e) in
      if s then - v else v
  | _ => 0
  end.

Section dojo.
Context (reply : nat → string → option string) (read_file : string → option string).
Context (count_fds : Z → Z).

(** ** The backend *)

Definition alive (full : string) : H bool :=
  out ← on_scan (popen reply full);
  mret (match out with
        | Some o => has_prefix "alive" (match fgets 16 o with Some (l, _) => l | None => "" end)
        | None => false
        end).

Definition rish_alive : H bool :=
  alive ("RISH_APPLICATION_ID=com.termux " +:+
         "/data/data/com.termux/files/home/Rish/rish -c 'echo alive' 2>/dev/null").

Definition adb_alive : H bool := alive "adb -s 127.0.0.1:5555 shell echo alive 2>/dev/null".

Definition backend_strategy_select : H BACKEND_TYPE :=
  rish ← rish_alive;
  if rish : bool then mret BACKEND_RISH
  else
    adb ← adb_alive;
    mret (if adb : bool then BACKEND_ADB else BACKEND_LOCAL).

Definition splinter_set_depth (depth : string) : H unit := modify (set_depth (strncpy 32 depth)).

Definition splinter_init (can_open : bool) : H unit :=
  b ← backend_strategy_select;
  _ ← modify (set_backend b);
  _ ← emit EVENT_BACKEND_SELECTED (backend_code b);
  _ ← on_leo (leo_init can_open);
  mret tt.

(** ** The scan cycle *)

(** A detector, its findings stored under the turtle's name, the list freed. *)
Definition audit {A} (turtle : string) (c : M scan A) (log : option (string * Z))
    : H (option (string * Z)) :=
  _ ← on_scan c;
  log ← print_findings turtle log;
  _ ← free_results;
  mret log.

Definition PID_NAMES : string :=
  "/data/data/com.termux/files/home/MiuiserPeruser/pipes/state/pid_names".

(** The pids of the dump: the lines with a colon, before it. *)
Definition dumped_pids : list Z :=
  omap (λ tok, match strchr ":" tok with
               | Some _ => Some (to_u32 (atoi (cut_at ":" tok)))
               | None => None
               end)
    (token_lines (stake (Z.to_nat 65535) (default "" (read_file PID_NAMES)))).

Fixpoint scan_pids (pids : list Z) (log : option (string * Z)) : H (option (string * Z)) :=
  match pids with
  | [] => mret log
  | pid :: pids' =>
      if 1 <? pid then
        _ ← on_scan (raph_memory_scan read_file pid);
        _ ← on_scan (don_behavior_analyze read_file count_fds pid);
        count ← gets (λ h, dl_count (sc_results (h_scan h)));
        log ← (if 0 <? count then print_findings "    " log else mret log);
        _ ← free_results;
        scan_pids pids' log
      else scan_pids pids' log
  end.

Definition splinter_run_scan_cycle (can_log can_save : bool) : H unit :=
  depth ← gets h_depth;
  let deep := String.eqb depth "deep" in
  let standard := deep || String.eqb depth "standard" in
  let log := if can_log then Some ("[" +:+ NLs, 0) else None in
  _ ← emit EVENT_SCAN_START 0;
  _ ← on_leo leo_full_scan;
  log ← (if standard then
           log ← audit "RAPH_NET" (raph_network_scan reply) log;
           log ← audit "MIKEY" (mikey_miui reply) log;
           log ← audit "DON_INTEGRITY" (don_integrity_check reply can_save) log;
           audit "DON_MEM" (don_memorypressure_check reply) log
         else mret log);
  log ← (if deep then
           log ← audit "CASEY_HOOK" (casey_hook_check reply) log;
           log ← audit "CASEY_KERNEL" (casey_kernel_check reply can_save) log;
           _ ← on_scan (scan_casey_input reply);
           scan_pids dumped_pids log
         else mret log);
  _ ← emit EVENT_SCAN_END 0;
  match log with
  | Some (text, _) => modify (set_log (Some (text +:+ NLs +:+ "]" +:+ NLs)))
  | None => mret tt
  end.

(** ** Metrics *)

Record splinter_metrics_t := Metrics { m_thermal : Z; m_battery : Z; m_cpu_freq : Z }.

Definition splinter_collect_metrics : H splinter_metrics_t :=
  b ← on_scan (rish_cmd reply "dumpsys battery 2>/dev/null | grep level:");
  let battery := match (o ← b; strstr o "level:") with
                 | Some l => atoi (sdrop 6 l)
                 | None => -1
                 end in
  t ← on_scan (rish_cmd reply "dumpsys thermalservice 2>/dev/null | grep -m1 'mName=CPU' | grep -oE 'mValue=[0-9.]+' | cut -d= -f2");
  let thermal := match t with
                 | Some o => if longer 0 o then double_to_int (dmul (atof o) (d_of_Z 1000)) else -1
                 | None => -1
                 end in
  c ← on_scan (rish_cmd reply "cat /sys/devices/system/cpu/cpufreq/policy6/scaling_cur_freq 2>/dev/null");
  let cpu_freq := match c with
                  | Some o => if longer 0 o then atoi o else -1
                  | None => -1
                  end in
  _ ← emit EVENT_METRIC_THERMAL thermal;
  _ ← emit EVENT_METRIC_BATTERY battery;
  _ ← emit EVENT_METRIC_CPUFREQ cpu_freq;
  mret (Metrics thermal battery cpu_freq).

Definition splinter_shutdown : H unit := on_leo leo_shutdown.

(** ** The loops of superhero_mode.c *)

(** [run_actions] after a cycle: the metrics (the table is only printed). *)
Definition run_actions : H unit := _ ← splinter_collect_metrics; mret tt.

Definition superhero_run_once (can_open can_log can_save : bool) : H unit :=
  _ ← splinter_init can_open;
  _ ← splinter_run_scan_cycle can_log can_save;
  _ ← run_actions;
  splinter_shutdown.

(** The first [n] turns of the endless loop; time passes between them. *)
Fixpoint hero_turns (n : nat) (interval : Z) (can_log can_save : bool) : H unit :=
  match n with
  | O => mret tt
  | S n' =>
      _ ← splinter_run_scan_cycle can_log can_save;
      _ ← run_actions;
      _ ← on_leo (modify (λ l, set_now (lo_now l + interval) l));
      hero_turns n' interval can_log can_save
  end.

Definition superhero_run_loop (n : nat) (interval : Z) (can_open can_log can_save : bool) : H unit :=
  _ ← splinter_init can_open;
  hero_turns n interval can_log can_save.

(** [count] turns; no pause after the last one. *)
Fixpoint bounded_turns (count : nat) (interval : Z) (can_log can_save : bool) : H unit :=
  match count with
  | O => mret tt
  | S count' =>
      _ ← splinter_run_scan_cycle can_log can_save;
      _ ← run_actions;
      _ ← mwhen (0 <? count')%nat (on_leo (modify (λ l, set_now (lo_now l + interval) l)));
      bounded_turns count' interval can_log can_save
  end.

Definition superhero_run_n_times (count : nat) (interval : Z) (can_open can_log can_save : bool) : H unit :=
  _ ← splinter_init can_open;
  _ ← bounded_turns count interval can_log can_save;
  splinter_shutdown.

(** ** The consent gate *)

(** [fgets(buf, size, stdin)], then [buf[strcspn(buf, "\n")] = 0]. *)
Definition read_stdin (size : nat) : H (option string) := λ h,
  match fgets size (h_stdin h) with
  | Some (line, rest) => (Some (first_line line), set_stdin rest h)
  | None => (None, h)
  end.

Definition consent_granted : H bool := gets (λ h, bool_decide (is_Some (h_lock h))).

Definition write_consent_lock (can_write : bool) (depth : string) : H unit :=
  mwhen can_write (modify (set_lock (Some (depth +:+ NLs)))).

(** The depth, or [None] where the code calls [exit(0)]. *)
Definition run_consent_gate (can_write : bool) : H (option string) :=
  input ← read_stdin 64;
  match input with
  | None => mret None
  | Some input =>
      if negb (String.eqb input "I CONSENT") then mret None
      else
        choice ← read_stdin 8;
        match choice with
        | None => mret (Some "standard")
        | Some choice =>
            if String.eqb choice "3" then
              confirm ← read_stdin 32;
              match confirm with
              | None => mret None
              | Some confirm =>
                  let depth := if String.eqb confirm "DEEP CONFIRMED" then "deep" else "standard" in
                  _ ← write_consent_lock can_write depth;
                  mret (Some depth)
              end
            else
              let depth := if String.eqb choice "1" then "surface" else "standard" in
              _ ← write_consent_lock can_write depth;
              mret (Some depth)
        end
  end.

Definition get_saved_depth : H string :=
  lock ← gets h_lock;
  mret (match lock with
        | None => "standard"
        | Some text => match fgets 32 text with Some (l, _) => first_line l | None => "standard" end
        end).

(** ** The command line *)

Definition DEPTH_FLAGS : list (string * string) :=
  [("--surface", "surface"); ("--standard", "standard"); ("--deep", "deep")].

(** The first depth flag. *)
Fixpoint depth_flag (args : list string) : option string :=
  match args with
  | [] => None
  | a :: args' =>
      match List.find (λ f, String.eqb f.1 a) DEPTH_FLAGS with
      | Some (_, depth) => Some depth
      | None => depth_flag args'
      end
  end.

(** The first pass over the arguments: loop mode, background, interval. *)
Fixpoint loop_flags (args : list string) (loop bg : bool) (interval : Z) : bool * bool * Z :=
  match args with
  | [] => (loop, bg, interval)
  | a :: args' =>
      if String.eqb a "--loop" then
        match args' with
        | b :: args'' =>
            if has_prefix "-" b then loop_flags args' true bg interval
            else loop_flags args'' true bg (atoi b)
        | [] => (true, bg, interval)
        end
      else if String.eqb a "--bg" then loop_flags args' loop true interval
      else loop_flags args' loop bg interval
  end.

Definition purge_data : H unit := modify (set_dojo_db false).

(** The depth of a run: the gate for a new user, whatever the flags; the flag or
    the saved depth for a returning one. *)
Definition choose_depth (args : list string) (can_write : bool) : H (option string) :=
  granted ← consent_granted;
  if negb granted then run_consent_gate can_write
  else
    match depth_flag args with
    | Some depth => mret (Some depth)
    | None => depth ← get_saved_depth; mret (Some depth)
    end.

(** What the file system and SQLite let a run do, and the number of turns of the
    loop before the process is stopped; the pid of the child, if [fork] works,
    and whether the two files of [--bg] can be opened. *)
Record hero_io := HeroIo { io_open : bool; io_log : bool; io_save : bool; io_lock : bool;
  io_sar : bool; io_turns : nat; io_fork : option Z; io_pid : bool; io_bg_log : bool }.

(** [--bg]: the parent writes the pid file, the child redirects its output to the
    log, which is created if need be.  The result says whether a child goes on. *)
Definition go_background (io : hero_io) : H bool :=
  match io_fork io with
  | None => mret false
  | Some pid =>
      _ ← mwhen (io_pid io) (modify (set_pid (Some (fmt_d pid +:+ NLs))));
      _ ← mwhen (io_bg_log io) (modify (set_bg_log true));
      mret true
  end.

(** Behind the fork. *)
Definition hero_run (io : hero_io) (args : list string) (loop : bool) (interval : Z) : H unit :=
  if existsb (String.eqb "--export-sar") args then
    _ ← on_leo (leo_init (io_open io));
    text ← on_leo (leo_export_sar (io_sar io));
    _ ← match text with Some t => modify (set_sar (Some t)) | None => mret tt end;
    on_leo leo_shutdown
  else if existsb (String.eqb "--purge") args then purge_data
  else
    depth ← choose_depth args (io_lock io);
    match depth with
    | None => mret tt
    | Some depth =>
        _ ← splinter_set_depth depth;
        _ ← splinter_init (io_open io);
        _ ← on_leo (leo_init (io_open io));
        _ ← splinter_run_scan_cycle (io_log io) (io_save io);
        _ ← splinter_collect_metrics;
        _ ← mwhen loop (superhero_run_loop (io_turns io) interval (io_open io) (io_log io) (io_save io));
        splinter_shutdown
    end.

Definition hero_main (io : hero_io) (args : list string) : H unit :=
  let '(loop, bg, interval) := loop_flags args false false 300 in
  if bg then
    child ← go_background io;
    if child : bool then hero_run io args true interval else mret tt
  else hero_run io args loop interval.

End dojo.

(** ** The summary of a run *)

(** What the queries of [print_scan_summary] find in superhero.db: the counts of
    the last scan, the recent detections, the number of scans.  A query on a
    column that the table has not fails and prints no row. *)
Definition DETECTION_COLUMNS : list string :=
  ["id"; "scan_id"; "timestamp"; "turtle"; "type"; "description"; "priority"; "confidence";
   "mitre_id"; "mitre_tactic"; "is_baseline"].

Definition SUMMARY_COLUMNS : list string := ["detection_type"; "description"].

Definition recent_detections (l : leo) : list string :=
  if forallb (λ c, existsb (String.eqb c) DETECTION_COLUMNS) SUMMARY_COLUMNS then
    (λ r, scat [dr_type r; "|"; dr_description r]) <$> take 5 (rev (lo_detections l))
  else [].

Definition scan_counts (l : leo) : option (Z * Z) :=
  (λ r, (sn_findings r, sn_new r)) <$> last (lo_scans l).
