(* ===== verification/Hero.v ===== *)
(** * What superhero mode promises

    Consent before anything is read, depth before the files of processes are read, findings
    stored as they are found, one baseline, rows of the declared shape; and what
    [--purge] leaves behind.  The second part is about the rows. *)

From S2P Require Import Prelude CString Double Wire Weights April Krang Conv Leo Turtles Dojo.
From Stdlib Require Import Ascii.

(** ** Lifted calls *)

Lemma exec_on_scan {A} (c : M scan A) h : exec (on_scan c) h = set_scan (exec c (h_scan h)) h.
Proof. unfold on_scan. unmonad. by destruct (c (h_scan h)). Qed.

Lemma result_on_scan {A} (c : M scan A) h : result (on_scan c) h = result c (h_scan h).
Proof. unfold on_scan. unmonad. by destruct (c (h_scan h)). Qed.

Lemma exec_on_leo {A} (c : M leo A) h : exec (on_leo c) h = set_leo (exec c (h_leo h)) h.
Proof. unfold on_leo. unmonad. by destruct (c (h_leo h)). Qed.

Lemma result_on_leo {A} (c : M leo A) h : result (on_leo c) h = result c (h_leo h).
Proof. unfold on_leo. unmonad. by destruct (c (h_leo h)). Qed.

#[export] Hint Rewrite @exec_on_scan @result_on_scan @exec_on_leo @result_on_leo : monad.

(** A part of the state that a computation leaves alone. *)
Definition same_part {T} (f : hero → T) (h h' : hero) : Prop := f h' = f h.

Global Instance same_part_preorder {T} (f : hero → T) : PreOrder (same_part f).
Proof. split; red; unfold same_part; congruence. Qed.

Lemma same_part_scan {T A} (f : hero → T) (c : M scan A) :
  (∀ s h, f (set_scan s h) = f h) → keeps (same_part f) (on_scan c).
Proof. intros Hf h. unfold same_part. by rewrite exec_on_scan. Qed.

Lemma same_part_leo {T A} (f : hero → T) (c : M leo A) :
  (∀ l h, f (set_leo l h) = f h) → keeps (same_part f) (on_leo c).
Proof. intros Hf h. unfold same_part. by rewrite exec_on_leo. Qed.

Lemma same_part_modify {T} (f : hero → T) g : (∀ h, f (g h) = f h) → keeps (same_part f) (modify g).
Proof. intros Hf h. apply Hf. Qed.

Ltac same_part_prim :=
  lazymatch goal with
  | |- keeps (same_part _) (on_scan _) => apply same_part_scan; reflexivity
  | |- keeps (same_part _) (on_leo _) => apply same_part_leo; reflexivity
  | |- keeps (same_part _) (modify _) => apply same_part_modify; reflexivity
  | |- keeps (same_part _) (emit _ _) => apply same_part_modify; reflexivity
  | |- keeps (same_part _) free_results => apply same_part_scan; reflexivity
  end.

#[export] Hint Extern 3 (keeps (same_part _) _) => same_part_prim : mp.

Lemma print_findings_part {T} (f : hero → T) turtle log :
  (∀ l h, f (set_leo l h) = f h) → keeps (same_part f) (print_findings turtle log).
Proof.
  intros Hf. unfold print_findings. apply keeps_bind; [apply _|apply keeps_gets, _|]. intros ds.
  revert log. induction ds as [|d ds IH]; intros log; [apply keeps_mret, _|].
  apply keeps_bind; [apply _|by apply same_part_leo|]. intros _. apply IH.
Qed.

#[export] Hint Extern 3 (keeps (same_part _) (print_findings _ _)) =>
  apply print_findings_part; reflexivity : mp.

#[local] Arguments mitre_lookup : simpl never.

Section hero.
Context (reply : nat → string → option string).

(** ** Consent *)

(** [--bg] may stand anywhere. *)
Lemma loop_flags_bg : ∀ args loop bg interval,
  (loop_flags args loop bg interval).1.2 = bg || existsb (String.eqb "--bg") args.
Proof.
  assert (∀ n args loop bg interval, (length args ≤ n)%nat →
    (loop_flags args loop bg interval).1.2 = bg || existsb (String.eqb "--bg") args) as H; [|intros; by eapply H].
  induction n as [|n IH]; intros args loop bg interval Hn; [destruct args; [cbn; by rewrite orb_false_r|cbn in Hn; lia]|].
  destruct args as [|a args]; [cbn; by rewrite orb_false_r|]. cbn [length] in Hn. cbn [loop_flags existsb].
  destruct (String.eqb_spec a "--loop") as [->|Ha].
  - change (String.eqb "--bg" "--loop") with false. cbn [orb]. destruct args as [|b args]; [cbn; by rewrite orb_false_r|].
    destruct (has_prefix "-" b) eqn:Hb; rewrite IH by (cbn [length] in *; lia); [done|].
    cbn [existsb]. destruct (String.eqb_spec "--bg" b) as [<-|]; [discriminate Hb|done].
  - rewrite (String.eqb_sym "--bg" a). destruct (String.eqb_spec a "--bg") as [->|]; rewrite IH by lia; cbn [orb]; by rewrite ?orb_true_r.
Qed.

(** What [--bg] leaves behind before anything else is done: its pid file and its
    log file, as far as they can be opened. *)
Definition left_behind (io : hero_io) (args : list string) (h : hero) : hero :=
  match io_fork io with
  | Some pid =>
      if existsb (String.eqb "--bg") args then
        set_bg_log (h_bg_log h || io_bg_log io) (set_pid (if io_pid io then Some (fmt_d pid +:+ NLs) else h_pid h) h)
      else h
  | None => h
  end.

Lemma exec_background io h :
  exec (go_background io) h =
  match io_fork io with
  | Some pid => set_bg_log (h_bg_log h || io_bg_log io) (set_pid (if io_pid io then Some (fmt_d pid +:+ NLs) else h_pid h) h)
  | None => h
  end.
Proof.
  unfold go_background. destruct (io_fork io) as [pid|]; [|done]. autorewrite with monad.
  destruct h, (io_pid io), (io_bg_log io); unfold set_bg_log, set_pid; cbn; by rewrite ?orb_true_r, ?orb_false_r.
Qed.

(** A run is what comes behind the fork, or nothing when that fails. *)
Lemma main_run read_file count_fds io args h :
  ∃ loop interval,
  hero_main reply read_file count_fds io args h =
    if existsb (String.eqb "--bg") args && negb (bool_decide (is_Some (io_fork io))) then (tt, h)
    else hero_run reply read_file count_fds io args loop interval (left_behind io args h).
Proof.
  unfold hero_main. pose proof (loop_flags_bg args false false 300) as Hbg. destruct (loop_flags args false false 300) as [[loop bg] interval].
  cbn [fst snd orb] in Hbg. subst bg. exists (if existsb (String.eqb "--bg") args then true else loop), interval.
  unfold left_behind. destruct (existsb (String.eqb "--bg") args); cbn [andb].
  - pose proof (exec_background io h) as He. unfold exec in He. unfold mbind, M_bind.
    assert (result (go_background io) h = bool_decide (is_Some (io_fork io))) as Hr.
    { unfold go_background. destruct (io_fork io); autorewrite with monad; done. }
    unfold result in Hr. destruct (go_background io h) as [child h1]. cbn [fst snd] in He, Hr. subst.
    destruct (io_fork io); cbn; [done|done].
  - by destruct (io_fork io).
Qed.

(** The line a user types first. *)
Definition first_input (h : hero) : option string := (λ p, first_line p.1) <$> fgets 64 (h_stdin h).

Lemma left_behind_part {T} (f : hero → T) io args h :
  (∀ x y h, f (set_bg_log x (set_pid y h)) = f h) → f (left_behind io args h) = f h.
Proof. intros Hf. unfold left_behind. destruct (io_fork io); [|done]. by destruct (existsb (String.eqb "--bg") args). Qed.

(** Without a recorded consent and without the typed one the gate stays closed. *)
Lemma gate_closed read_file count_fds io args h :
  h_lock h = None → first_input h ≠ Some "I CONSENT" →
  existsb (String.eqb "--export-sar") args = false → existsb (String.eqb "--purge") args = false →
  ∃ rest, exec (hero_main reply read_file count_fds io args) h = set_stdin rest (left_behind io args h).
Proof.
  intros Hlock Hin Hsar Hpurge. destruct (main_run read_file count_fds io args h) as (loop & interval & Hmain).
  unfold exec at 1. rewrite Hmain. destruct (_ && _) eqn:Hf.
  { exists (h_stdin h). apply andb_prop in Hf as [_ Hf]. unfold left_behind. revert Hf. destruct (io_fork io); [discriminate|]. by destruct h. }
  assert (h_lock (left_behind io args h) = None) as Hlock' by (by rewrite left_behind_part).
  assert (first_input (left_behind io args h) ≠ Some "I CONSENT") as Hin' by (by rewrite left_behind_part).
  revert Hlock' Hin'. generalize (left_behind io args h). clear h Hlock Hin Hmain Hf. intros h Hlock Hin.
  change ((hero_run reply read_file count_fds io args loop interval h).2) with (exec (hero_run reply read_file count_fds io args loop interval) h).
  unfold hero_run. rewrite Hsar, Hpurge. unfold choose_depth, consent_granted, run_consent_gate.
  rewrite exec_bind, exec_bind, result_bind, exec_gets, result_gets, Hlock. cbn [negb bool_decide].
  unfold first_input in Hin. unfold read_stdin. unmonad. cbn.
  destruct (fgets 64 (h_stdin h)) as [[line rest]|]; cbn in *.
  - exists rest. destruct (String.eqb (first_line line) "I CONSENT") eqn:Heq; cbn; [|done].
    apply String.eqb_eq in Heq. by rewrite Heq in Hin.
  - exists (h_stdin h). by destruct h.
Qed.

(** C3. Nothing happens without consent: for a user without a recorded consent
    who does not type [I CONSENT], a run that is neither an export nor a purge
    (these ask for none) consumes standard input and, with [--bg], leaves the pid
    file and the log file of its background process; everything else is as it was:
    no command is run, no other file is read or written, no row is stored.  Without
    [--bg] nothing but standard input has changed. *)
Theorem no_consent_no_scan read_file count_fds io args h :
  h_lock h = None → first_input h ≠ Some "I CONSENT" →
  existsb (String.eqb "--export-sar") args = false → existsb (String.eqb "--purge") args = false →
  ∃ rest, exec (hero_main reply read_file count_fds io args) h = set_stdin rest (left_behind io args h) ∧
    (existsb (String.eqb "--bg") args = false → left_behind io args h = h).
Proof.
  intros Hl Hi Hs Hp. destruct (gate_closed read_file count_fds io args h Hl Hi Hs Hp) as [rest Hr]. exists rest.
  split; [done|]. intros Hbg. unfold left_behind. rewrite Hbg. by destruct (io_fork io).
Qed.

(** ** Depth *)

(** The three lines a new user types. *)
Definition typed (h : hero) : option (string * string * string) :=
  '(l1, r1) ← fgets 64 (h_stdin h);
  '(l2, r2) ← fgets 8 r1;
  '(l3, _) ← fgets 32 r2;
  Some (first_line l1, first_line l2, first_line l3).

(** A deep scan was asked for: by the dialogue of a new user, or by a flag or
    the recorded depth of a returning one. *)
Definition deep_confirmed (args : list string) (h : hero) : Prop :=
  match h_lock h with
  | None => typed h = Some ("I CONSENT", "3", "DEEP CONFIRMED")
  | Some text =>
      match depth_flag args with
      | Some depth => depth = "deep"
      | None => (λ p, first_line p.1) <$> fgets 32 text = Some "deep"
      end
  end.

Lemma choose_deep args can_write h :
  result (choose_depth args can_write) h = Some "deep" → deep_confirmed args h.
Proof.
  unfold choose_depth, deep_confirmed, consent_granted. autorewrite with monad.
  destruct (h_lock h) as [text|] eqn:Hlock; cbn [negb bool_decide is_Some].
  - rewrite bool_decide_true by eauto. cbn [negb].
    destruct (depth_flag args) as [d|]; [by intros [= ->]|].
    unfold get_saved_depth. autorewrite with monad. rewrite Hlock.
    destruct (fgets 32 text) as [[l r]|]; [|done]. intros [= Hl]. cbn. by rewrite Hl.
  - rewrite bool_decide_false by (by intros [? ?]). cbn [negb].
    unfold run_consent_gate, read_stdin, typed. unmonad. cbn.
    destruct (fgets 64 (h_stdin h)) as [[l1 r1]|]; cbn; [|done].
    destruct (String.eqb (first_line l1) "I CONSENT") eqn:H1; cbn; [|done].
    destruct (fgets 8 r1) as [[l2 r2]|]; cbn; [|done].
    destruct (String.eqb (first_line l2) "3") eqn:H2; cbn.
    + destruct (fgets 32 r2) as [[l3 r3]|]; cbn; [|done].
      destruct (String.eqb (first_line l3) "DEEP CONFIRMED") eqn:H3; cbn.
      * apply String.eqb_eq in H1 as ->, H2 as ->, H3 as ->. done.
      * destruct can_write; done.
    + destruct (String.eqb (first_line l2) "1"); cbn; destruct can_write; done.
Qed.

(** The buffer of the depth holds the whole word. *)
Lemma stored_deep d : strncpy 32 d = "deep" → d = "deep".
Proof.
  intros Hd. unfold strncpy in Hd. destruct (decide (String.length d ≤ 31)%nat) as [Hl|Hl].
  - by rewrite stake_all in Hd by lia.
  - assert (String.length (stake (32 - 1) d) = 4%nat) as H4 by by rewrite Hd.
    rewrite length_stake in H4. lia.
Qed.

Lemma depth_on_leo {A} (c : M leo A) h : h_depth (exec (on_leo c) h) = h_depth h.
Proof. by rewrite exec_on_leo. Qed.

Lemma keeps_depth {A} (c : H A) h : keeps (same_part h_depth) c → h_depth (exec c h) = h_depth h.
Proof. intros Hc. apply Hc. Qed.

Lemma audit_depth {A} turtle (c : M scan A) log : keeps (same_part h_depth) (audit turtle c log).
Proof. unfold audit. keeps_tac. Qed.

#[local] Hint Resolve audit_depth : mp.

Lemma scan_pids_depth rf cf pids log : keeps (same_part h_depth) (scan_pids rf cf pids log).
Proof.
  revert log. induction pids as [|p pids IH]; intros log; cbn [scan_pids]; keeps_tac; apply IH.
Qed.

#[local] Hint Resolve scan_pids_depth : mp.

Lemma cycle_depth rf cf can_log can_save :
  keeps (same_part h_depth) (splinter_run_scan_cycle reply rf cf can_log can_save).
Proof. unfold splinter_run_scan_cycle. keeps_tac. Qed.

Lemma metrics_depth : keeps (same_part h_depth) (splinter_collect_metrics reply).
Proof. unfold splinter_collect_metrics. keeps_tac. Qed.

Lemma actions_depth : keeps (same_part h_depth) (run_actions reply).
Proof. unfold run_actions. apply keeps_bind; [apply _|apply metrics_depth|]. intros _. apply keeps_mret, _. Qed.

Lemma init_depth can_open : keeps (same_part h_depth) (splinter_init reply can_open).
Proof. unfold splinter_init, backend_strategy_select, rish_alive, adb_alive, alive. keeps_tac. Qed.

(** A whole cycle leaves the depth of the process alone. *)
Lemma turn_depth rf cf can_log can_save h :
  h_depth (exec (splinter_run_scan_cycle reply rf cf can_log can_save) h) = h_depth h.
Proof. apply (keeps_depth _ _ (cycle_depth _ _ _ _)). Qed.

End hero.

(** ** Reads of other processes

    Below a deep scan neither the files of other processes nor the commands that
    read them matter: two devices that differ in nothing else lead to the same
    run, and none of these commands is run. *)

(** A command that names files of other processes in /proc. *)
Definition names_processes (cmd : string) : bool :=
  contains cmd "/proc/*/" || contains cmd "/proc/[0-9]" || contains cmd "/proc/1/".

(** Two computations that do the same from a state, and add to the commands in
    [calls] only such as name no files of processes. *)
Definition alike_at {S A} (calls : S → list string) (c c' : M S A) (s : S) : Prop :=
  c s = c' s ∧ ∃ l, calls (exec c s) = calls s ++ l ∧ Forall (λ x, names_processes x = false) l.

Definition alike {S A} (calls : S → list string) (c c' : M S A) : Prop := ∀ s, alike_at calls c c' s.

Section alike.
Context {S : Type} (calls : S → list string).

Lemma alike_bind_at {A B} (c c' : M S A) (k k' : A → M S B) s :
  alike_at calls c c' s → alike_at calls (k (result c s)) (k' (result c s)) (exec c s) → alike_at calls (c ≫= k) (c' ≫= k') s.
Proof.
  intros [Hc (l & Hl & Hf)] [Hk (l' & Hl' & Hf')]. split.
  - unfold mbind, M_bind. rewrite <-Hc. unfold exec, result in Hk. by destruct (c s).
  - exists (l ++ l'). rewrite exec_bind, Hl', Hl, app_assoc. split; [done|]. by apply Forall_app.
Qed.

Lemma alike_bind {A B} (c c' : M S A) (k k' : A → M S B) :
  alike calls c c' → (∀ a, alike calls (k a) (k' a)) → alike calls (c ≫= k) (c' ≫= k').
Proof. intros Hc Hk s. apply alike_bind_at; [apply Hc|apply Hk]. Qed.

(** What runs no command is like itself. *)
Lemma alike_same {A} (c : M S A) : keeps (λ s s', calls s' = calls s) c → alike calls c c.
Proof. intros Hc s. split; [done|]. exists []. by rewrite app_nil_r. Qed.

Lemma alike_mfor {A} (l : list A) (b b' : A → M S unit) :
  (∀ a, a ∈ l → alike calls (b a) (b' a)) → alike calls (mfor l b) (mfor l b').
Proof.
  induction l as [|a l IH]; intros H; cbn [mfor]; [by apply alike_same|].
  apply alike_bind; [apply H; by left|intros _]. apply IH. intros a' Ha. apply H. by right.
Qed.

Lemma alike_mwhen b (c c' : M S unit) : alike calls c c' → alike calls (mwhen b c) (mwhen b c').
Proof. intros H. destruct b; [done|by apply alike_same]. Qed.

End alike.

Abbreviation scan_alike := (alike sc_calls).
Abbreviation hero_alike := (alike (λ h, sc_calls (h_scan h))).

Lemma alike_on_scan {A} (c c' : M scan A) : scan_alike c c' → hero_alike (on_scan c) (on_scan c').
Proof.
  intros H h. destruct (H (h_scan h)) as [He Hl]. split.
  - unfold on_scan. by rewrite <-He.
  - by rewrite exec_on_scan.
Qed.

Lemma alike_on_leo {A} (c : M leo A) : hero_alike (on_leo c) (on_leo c).
Proof. apply alike_same. intros h. by rewrite exec_on_leo. Qed.

Create HintDb alike discriminated.

Section devices.
Context (reply reply' : nat → string → option string) (rf rf' : string → option string) (cf cf' : Z → Z).
Context (Hreply : ∀ n cmd, names_processes cmd = false → reply n cmd = reply' n cmd).

Lemma alike_popen full : names_processes full = false → scan_alike (popen reply full) (popen reply' full).
Proof. intros Hf s. split; [unfold popen; by rewrite Hreply|]. exists [full]. split; [done|]. by constructor. Qed.

Lemma alike_add_det cls pri mitre conf type desc :
  scan_alike (add_det cls pri mitre conf type desc) (add_det cls pri mitre conf type desc).
Proof. by apply alike_same. Qed.

(** Every suffix of [p] differs from [n] within [p]. *)
Fixpoint differs (n p : string) : bool :=
  match n, p with
  | String a n', String b p' => if Ascii.eqb a b then differs n' p' else true
  | _, _ => false
  end.

Fixpoint free_of (n p : string) : bool :=
  match p with EmptyString => true | String _ p' => differs n p && free_of n p' end.

Lemma differs_app n : ∀ p t, differs n p = true → has_prefix n (p +:+ t) = false.
Proof.
  induction n as [|a n IH]; intros p t; [done|]. destruct p as [|b p]; [done|]. rewrite app_cons_str. cbn [differs has_prefix].
  destruct (Ascii.eqb a b); cbn [andb]; [apply IH|done].
Qed.

Lemma contains_free n p t : free_of n p = true → contains (p +:+ t) n = contains t n.
Proof.
  unfold contains. induction p as [|c p IH]; [done|]. intros Hf. pose proof Hf as [Hd Hp]%andb_prop.
  apply (differs_app _ _ t) in Hd. rewrite app_cons_str in *. cbn [strstr]. by rewrite Hd, IH.
Qed.

Lemma contains_skip c n p t : none_of (Ascii.eqb c) p = true → contains (p +:+ t) (String c n) = contains t (String c n).
Proof. intros Hp. unfold contains. by rewrite strstr_skip. Qed.

(** A command whose variable part holds no slash. *)
Lemma package_command uid : names_processes (rish_full (snprintf 128 (scat ["pm list packages -U 2>/dev/null | grep uid:"; fmt_d uid;
  " | cut -d: -f2 | head -1"]))) = false.
Proof.
  assert (none_of (Ascii.eqb "/") (fmt_d uid) = true) as Hd.
  { apply numeric_none; [|apply fmt_d_numeric]. intros c. destruct c as [[] [] [] [] [] [] [] []]; vm_compute; congruence. }
  set (p := "pm list packages -U 2>/dev/null | grep uid:"). set (t := fmt_d uid +:+ " | cut -d: -f2 | head -1").
  assert (snprintf 128 (scat [p; fmt_d uid; " | cut -d: -f2 | head -1"]) = p +:+ stake 84 t) as -> by reflexivity.
  assert (none_of (Ascii.eqb "/") (stake 84 t) = true) as Ht by (apply none_of_stake; unfold t; by rewrite none_of_app, Hd).
  generalize dependent (stake 84 t). intros tail Ht.
  assert (∀ n, free_of (String "/" n) p = true → free_of (String "/" n) "RISH_APPLICATION_ID=com.termux " = true →
    free_of (String "/" n) "/data/data/com.termux/files/home/Rish/rish -c '" = true → contains "' 2>/dev/null" (String "/" n) = false →
    contains (rish_full (p +:+ tail)) (String "/" n) = false) as H.
  { intros n H1 H2 H3 H4. unfold rish_full, snprintf. apply contains_stake; [done|]. cbn [scat].
    rewrite !app_assoc_str, (contains_free _ _ _ H2), (contains_free _ _ _ H3), (contains_free _ _ _ H1), contains_skip by done.
    by rewrite app_nil_r_str. }
  unfold names_processes. by rewrite !H by (vm_compute; reflexivity).
Qed.

#[local] Arguments names_processes : simpl never.

Lemma alike_rish cmd : names_processes (rish_full cmd) = false → scan_alike (rish_cmd reply cmd) (rish_cmd reply' cmd).
Proof. apply alike_popen. Qed.

Lemma alike_output n out k k' : (∀ o, scan_alike (k o) (k' o)) → scan_alike (on_output n out k) (on_output n out k').
Proof. intros H. unfold on_output. destruct out as [o|]; [|by apply alike_same]. destruct (longer n o); [apply H|by apply alike_same]. Qed.

Ltac alike_step :=
  lazymatch goal with
  | |- ∀ _, _ => intro
  | |- alike _ (on_scan _) (on_scan _) => apply alike_on_scan
  | |- alike _ (on_leo _) (on_leo _) => apply alike_on_leo
  | |- alike _ (_ ≫= _) (_ ≫= _) => apply alike_bind
  | |- alike _ (mwhen _ _) (mwhen _ _) => apply alike_mwhen
  | |- alike _ (mfor _ _) (mfor _ _) => apply alike_mfor
  | |- alike _ (on_output _ _ _) (on_output _ _ _) => apply alike_output
  | |- alike _ (add_det _ _ _ _ _ _) _ => apply alike_add_det
  | |- alike _ (popen _ _) (popen _ _) => apply alike_popen; vm_compute; reflexivity
  | |- alike _ (rish_cmd _ _) (rish_cmd _ _) => apply alike_rish; vm_compute; reflexivity
  | |- alike _ (mret _) _ => by apply alike_same
  | |- alike _ (gets _) _ => by apply alike_same
  | |- alike _ (modify _) _ => by apply alike_same
  | |- alike _ (emit _ _) _ => by apply alike_same
  | |- alike _ (match ?x with _ => _ end) _ => destruct x
  end.

Ltac alike_tac := repeat first [solve [auto 1 with alike nocore] | alike_step].

Lemma alike_package uid : scan_alike (uid_to_package reply uid) (uid_to_package reply' uid).
Proof. apply alike_bind; [apply alike_rish, package_command|]. intros out. by apply alike_same. Qed.

#[local] Hint Extern 1 (alike _ (uid_to_package _ _) _) => apply alike_package : alike.

Lemma alike_raph_line line : scan_alike (raph_line reply line) (raph_line reply' line).
Proof. unfold raph_line. alike_tac. Qed.

#[local] Hint Extern 1 (alike _ (raph_line _ _) _) => apply alike_raph_line : alike.

Lemma alike_raph_table file : file = "tcp" ∨ file = "tcp6" → scan_alike (raph_table reply file) (raph_table reply' file).
Proof. intros [->| ->]; unfold raph_table; alike_tac. Qed.

#[local] Hint Extern 1 (alike _ (raph_table _ _) _) => apply alike_raph_table; tauto : alike.

Lemma alike_network : scan_alike (raph_network_scan reply) (raph_network_scan reply').
Proof. unfold raph_network_scan. alike_tac. Qed.

Lemma alike_memory : scan_alike (don_memorypressure_check reply) (don_memorypressure_check reply').
Proof. unfold don_memorypressure_check. alike_tac. Qed.

(** The three commands of a path. *)
Definition path_commands (path : string) : list string :=
  map bridge_full [snprintf 512 (scat ["test -f "; QUOTE; path; QUOTE; " && echo yes"]);
    snprintf 1024 (scat ["cat "; QUOTE; path; QUOTE; " 2>/dev/null | sha256sum"]);
    snprintf 512 (scat ["stat -c %Y "; QUOTE; path; QUOTE; " 2>/dev/null"])].

Lemma critical_commands path cmd : path ∈ critical_paths → cmd ∈ path_commands path → names_processes cmd = false.
Proof.
  assert (forallb (λ p, forallb (λ c, negb (names_processes c)) (path_commands p)) critical_paths = true) as H by (vm_compute; reflexivity).
  intros Hp Hc. rewrite forallb_forall in H. specialize (H path (proj1 (list_elem_of_In _ _) Hp)).
  rewrite forallb_forall in H. by apply negb_true_iff, H, list_elem_of_In.
Qed.

Lemma alike_integrity_path path : path ∈ critical_paths → scan_alike (integrity_path reply path) (integrity_path reply' path).
Proof.
  intros Hp. pose proof (λ c, critical_commands path c Hp) as Hc. unfold path_commands in Hc. cbn [map] in Hc.
  unfold integrity_path, compute_sha256_via_rish, rish_pipe_command.
  apply alike_bind; [apply alike_popen, Hc; by left|]. intros yes. destruct (negb _); [by apply alike_same|].
  apply alike_bind; [apply alike_bind; [apply alike_popen, Hc; right; by left|intros out; by apply alike_same]|].
  intros [hash|]; [|by apply alike_same].
  apply alike_bind; [apply alike_popen, Hc; do 2 right; by left|]. intros mtime. alike_tac.
Qed.

Lemma alike_integrity can_save : scan_alike (don_integrity_check reply can_save) (don_integrity_check reply' can_save).
Proof.
  unfold don_integrity_check. alike_tac.
  assert (∀ l, (∀ p, p ∈ l → p ∈ critical_paths) → scan_alike (integrity_paths reply l) (integrity_paths reply' l)) as H; [|by apply H].
  induction l as [|p l IH]; intros Hl; cbn [integrity_paths]; [by apply alike_same|].
  apply alike_bind; [apply alike_integrity_path, Hl; by left|intros ?]. apply alike_bind; [apply IH; intros q Hq; apply Hl; by right|].
  intros ?. by apply alike_same.
Qed.

Lemma alike_prop key : names_processes (rish_full (snprintf 256 (scat ["getprop "; key; " 2>/dev/null"]))) = false →
  scan_alike (prop reply key) (prop reply' key).
Proof. intros H. apply alike_bind; [by apply alike_rish|]. intros out. by apply alike_same. Qed.

#[local] Hint Extern 1 (alike _ (prop _ _) _) => apply alike_prop; vm_compute; reflexivity : alike.

Lemma miui_commands x : x ∈ MIUI_PROCESSES → names_processes (rish_full x.1.1.1.1.1.1) = false.
Proof.
  assert (forallb (λ x : string * SENSEI_DETECTION_CLASS * Z * SENSEI_MITRE_TECHNIQUE * Z * string * string,
    negb (names_processes (rish_full x.1.1.1.1.1.1))) MIUI_PROCESSES = true) as H by (vm_compute; reflexivity).
  intros Hx. rewrite forallb_forall in H. by apply negb_true_iff, H, list_elem_of_In.
Qed.

Lemma token_commands x : x ∈ TOKENS → names_processes (rish_full (snprintf 256 (scat ["getprop "; x.1; " 2>/dev/null"]))) = false.
Proof.
  assert (forallb (λ x : string * string, negb (names_processes (rish_full (snprintf 256 (scat ["getprop "; x.1; " 2>/dev/null"]))))) TOKENS = true)
    as H by (vm_compute; reflexivity).
  intros Hx. rewrite forallb_forall in H. by apply negb_true_iff, H, list_elem_of_In.
Qed.

Lemma alike_miui : scan_alike (mikey_miui reply) (mikey_miui reply').
Proof.
  unfold mikey_miui, prop_or.
  repeat lazymatch goal with
  | |- alike _ (mfor TOKENS _) _ => apply alike_mfor; intros [key name] Hk; apply alike_bind; [apply alike_prop, (token_commands _ Hk)|]
  | |- alike _ (mfor MIUI_PROCESSES _) _ =>
      apply alike_mfor; intros [[[[[[cmd cls] pri] mitre] conf] type] desc] Hx; apply alike_bind; [apply alike_rish, (miui_commands _ Hx)|]
  | |- _ => first [solve [auto 1 with alike nocore] | alike_step]
  end.
Qed.

(** ** The front end *)

Lemma alike_print turtle log : hero_alike (print_findings turtle log) (print_findings turtle log).
Proof. apply alike_same, (print_findings_part (λ h, sc_calls (h_scan h))). done. Qed.

#[local] Hint Extern 1 (alike _ (print_findings _ _) _) => apply alike_print : alike.

Lemma alike_audit {A} turtle (c c' : M scan A) log : scan_alike c c' → hero_alike (audit turtle c log) (audit turtle c' log).
Proof.
  intros H. apply alike_bind; [by apply alike_on_scan|intros _]. apply alike_bind; [apply alike_print|intros log'].
  apply alike_bind; [by apply alike_same|intros _]. by apply alike_same.
Qed.

Lemma alike_init can_open : hero_alike (splinter_init reply can_open) (splinter_init reply' can_open).
Proof.
  unfold splinter_init, backend_strategy_select, rish_alive, adb_alive, alive. alike_tac.
Qed.

Lemma alike_metrics : hero_alike (splinter_collect_metrics reply) (splinter_collect_metrics reply').
Proof. unfold splinter_collect_metrics. alike_tac. Qed.

Lemma alike_actions : hero_alike (run_actions reply) (run_actions reply').
Proof. apply alike_bind; [apply alike_metrics|]. intros _. by apply alike_same. Qed.

Lemma alike_cycle can_log can_save h :
  h_depth h ≠ "deep" →
  alike_at (λ h, sc_calls (h_scan h)) (splinter_run_scan_cycle reply rf cf can_log can_save)
    (splinter_run_scan_cycle reply' rf' cf' can_log can_save) h.
Proof.
  intros Hd%String.eqb_neq. unfold splinter_run_scan_cycle. apply alike_bind_at; [by apply alike_same|].
  rewrite result_gets, exec_gets, Hd. cbv zeta. cbn [orb]. revert h Hd. intros h _.
  match goal with |- alike_at ?f ?c ?c' h => enough (alike f c c') as H by apply H end.
  pose proof alike_network. pose proof alike_miui. pose proof (alike_integrity can_save). pose proof alike_memory.
  repeat lazymatch goal with
  | |- alike _ (audit _ _ _) _ => apply alike_audit; assumption
  | |- _ => alike_step
  end.
Qed.

Lemma alike_turns n interval can_log can_save : ∀ h,
  h_depth h ≠ "deep" →
  alike_at (λ h, sc_calls (h_scan h)) (hero_turns reply rf cf n interval can_log can_save) (hero_turns reply' rf' cf' n interval can_log can_save) h.
Proof.
  induction n as [|n IH]; intros h Hd; cbn [hero_turns]; [by apply alike_same|].
  apply alike_bind_at; [by apply alike_cycle|]. apply alike_bind_at; [apply alike_actions|].
  apply alike_bind_at; [apply alike_on_leo|]. apply IH.
  by rewrite depth_on_leo, (keeps_depth _ _ (actions_depth _)), turn_depth.
Qed.

Lemma alike_run io args loop interval h :
  ¬ deep_confirmed args h →
  alike_at (λ h, sc_calls (h_scan h)) (hero_run reply rf cf io args loop interval) (hero_run reply' rf' cf' io args loop interval) h.
Proof.
  intros Hdeep. unfold hero_run. destruct (existsb (String.eqb "--export-sar") args).
  { match goal with |- alike_at ?f ?c ?c' h => enough (alike f c c') as H by apply H end. repeat alike_step. }
  destruct (existsb (String.eqb "--purge") args); [by apply alike_same|].
  assert (hero_alike (choose_depth args (io_lock io)) (choose_depth args (io_lock io))) as Hchoose.
  { apply alike_same. change (keeps (same_part (λ h, sc_calls (h_scan h))) (choose_depth args (io_lock io))).
    assert (∀ n, keeps (same_part (λ h, sc_calls (h_scan h))) (read_stdin n)) as Hread.
    { intros n h'. unfold read_stdin, exec. by destruct (fgets n (h_stdin h')) as [[]|]. }
    unfold choose_depth, consent_granted, get_saved_depth, run_consent_gate, write_consent_lock. keeps_tac. }
  apply alike_bind_at; [apply Hchoose|]. destruct (result (choose_depth args (io_lock io)) h) as [depth|] eqn:Hdepth; [|by apply alike_same].
  assert (strncpy 32 depth ≠ "deep") as Hne.
  { intros ->%stored_deep. by apply choose_deep in Hdepth. }
  generalize (exec (choose_depth args (io_lock io)) h). intros h1.
  apply alike_bind_at; [by apply alike_same|]. apply alike_bind_at; [apply alike_init|]. apply alike_bind_at; [apply alike_on_leo|].
  match goal with |- alike_at _ _ _ ?x => set (h2 := x) end.
  assert (h_depth h2 ≠ "deep") as Hd2.
  { unfold h2. rewrite depth_on_leo, (keeps_depth _ _ (init_depth _ _)). unfold splinter_set_depth. by rewrite exec_modify. }
  apply alike_bind_at; [by apply alike_cycle|]. apply alike_bind_at; [apply alike_metrics|].
  apply alike_bind_at; [|apply alike_on_leo]. destruct loop; [|by apply alike_same].
  apply alike_bind_at; [apply alike_init|]. apply alike_turns.
  by rewrite (keeps_depth _ _ (init_depth _ _)), (keeps_depth _ _ (metrics_depth _)), turn_depth.
Qed.

(** C12. Other processes are read only in a confirmed deep scan.  If the user did
    not ask for one, a run does the same on two devices that differ in the files
    of their processes (their maps, descriptors, state and command line) and in
    what the commands print that name such files; and it runs none of these
    commands.  The standard scan's [ss -tnp] and [dumpsys activity processes] name
    no such file: what these services list of processes is read in it. *)
Theorem process_reads_need_deep io args h :
  ¬ deep_confirmed args h →
  let h' := exec (hero_main reply rf cf io args) h in
  h' = exec (hero_main reply' rf' cf' io args) h ∧
  ∃ cmds, sc_calls (h_scan h') = sc_calls (h_scan h) ++ cmds ∧ Forall (λ cmd, names_processes cmd = false) cmds.
Proof.
  intros Hdeep h'. unfold h'. unfold hero_main. destruct (loop_flags _ _ _ _) as [[loop bg] interval].
  match goal with |- exec ?c h = exec ?c' h ∧ _ => enough (alike_at (λ h, sc_calls (h_scan h)) c c' h) as [He Hl] end.
  { split; [unfold exec; by rewrite He|exact Hl]. }
  destruct bg; [|by apply alike_run].
  apply alike_bind_at.
  - apply alike_same. intros s. rewrite exec_background. by destruct (io_fork io).
  - destruct (result (go_background io) h) eqn:Hr; [|by apply alike_same]. apply alike_run.
    rewrite exec_background. by destruct (io_fork io).
Qed.

End devices.

Section stores.
Context (reply : nat → string → option string).

(** ** What a cycle stores *)

Lemma exec_write_scan depth f n th b c l :
  exec (write_scan_history depth f n th b c) l =
  if lo_open l then set_scan_seq (lo_scan_seq l + 1) (set_scans (λ s, s ++
    [ScanRow (lo_scan_seq l + 1) (lo_now l) depth f n th b c]) l) else l.
Proof. unfold write_scan_history. autorewrite with monad. by destruct (lo_open l); autorewrite with monad. Qed.

Lemma result_write_scan depth f n th b c l :
  result (write_scan_history depth f n th b c) l = if lo_open l then lo_scan_seq l + 1 else 0.
Proof. unfold write_scan_history. autorewrite with monad. by destruct (lo_open l); autorewrite with monad. Qed.

Lemma exec_db_exec f l : exec (db_exec f) l = if lo_open l then f l else l.
Proof. done. Qed.

Lemma result_db_query {A} (a : A) f l : result (db_query a f) l = if lo_open l then f l else a.
Proof. done. Qed.

Lemma exec_db_query {A} (a : A) f l : exec (db_query a f) l = l.
Proof. done. Qed.

(** A new scan on an open database. *)
Lemma exec_full_scan l :
  lo_open l = true →
  exec leo_full_scan l =
  let cycle := lo_cycle l + 1 in
  let id := lo_scan_seq l + 1 in
  let scans := lo_scans l ++ [ScanRow id (lo_now l) "surface" 0 0 (-1) (-1) (-1)] in
  let due := bool_decide (lo_baselines l = []) && (12 <=? cycle) in
  Leo (lo_now l) true (lo_detections l) scans id
    (lo_baselines l ++ if due then [BaselineRow (lo_now l) cycle
       (normal_types (distinct_sorted (dr_type <$> lo_detections l)))
       (foldr Z.add 0 (sn_findings <$> scans), Z.of_nat (length scans))] else [])
    (lo_gdpr l ++ if due then [GdprRow (lo_now l) "BASELINE_ESTABLISHED"
       "Behavioural baseline created from scan history"] else [])
    id cycle.
Proof.
  intros Ho. unfold leo_full_scan, baseline_exists. autorewrite with monad.
  rewrite exec_write_scan, result_write_scan, exec_db_query, result_db_query.
  destruct l as [now op ds ss seq bs gs cur cyc]. cbn in Ho. subst. cbn.
  unfold BASELINE_CYCLES. rewrite negb_involutive.
  destruct (bool_decide (bs = []) && (12 <=? cyc + 1)) eqn:Hd; cbn; [done|by rewrite !app_nil_r].
Qed.

(** A surface scan reads nothing: it runs no command, and the only rows it
    can add are its own line of scan_history and, when due, the baseline. *)
Theorem surface_scan_reads_nothing rf cf can_log can_save h :
  h_depth h ≠ "standard" → h_depth h ≠ "deep" →
  let h' := exec (splinter_run_scan_cycle reply rf cf can_log can_save) h in
  h_scan h' = h_scan h ∧ h_lock h' = h_lock h ∧
  h_leo h' = exec leo_full_scan (h_leo h) ∧
  (lo_open (h_leo h) = true → lo_detections (h_leo h') = lo_detections (h_leo h)).
Proof.
  intros Hs%String.eqb_neq Hd%String.eqb_neq. cbv zeta.
  assert (∀ rest, exec (splinter_run_scan_cycle reply rf cf can_log can_save) h = rest →
    h_scan rest = h_scan h ∧ h_lock rest = h_lock h ∧ h_leo rest = exec leo_full_scan (h_leo h)) as Hmain.
  { intros rest <-. unfold splinter_run_scan_cycle. rewrite exec_bind, exec_gets, result_gets, Hd, Hs.
    cbn [orb]. autorewrite with monad. unfold emit.
    destruct can_log; autorewrite with monad; unfold set_log, set_events, set_leo; cbn; done. }
  destruct (Hmain _ eq_refl) as (H1 & H2 & H3). split_and!; try done.
  intros Ho. by rewrite H3, exec_full_scan.
Qed.

(** The row of a finding. *)
Definition row_of (l : leo) (turtle : string) (d : SENSEI_DETECTION) : detection_row :=
  let m := mitre_lookup (det_type d) in
  DetectionRow (lo_current l) (lo_now l) turtle (det_type d) (det_description d)
    (priority_name (det_priority d)) (det_confidence d)
    (match m with Some e => technique_id e | None => "" end)
    (match m with Some e => tactic e | None => "" end).

(** [print_findings] on a list. *)
Fixpoint print_list (turtle : string) (ds : list SENSEI_DETECTION) (log : option (string * Z))
    : H (option (string * Z)) :=
  match ds with
  | [] => mret log
  | d :: ds' =>
      let log' := match log with
                  | Some (text, n) =>
                      Some (text +:+ (if 0 <? n then "," +:+ NLs else "") +:+ finding_json turtle d, n + 1)
                  | None => None
                  end in
      _ ← on_leo (leo_write_detection turtle (det_type d) (det_description d)
            (priority_name (det_priority d)) (det_confidence d));
      print_list turtle ds' log'
  end.

Lemma print_findings_list turtle log h :
  print_findings turtle log h = print_list turtle (dl_nodes (sc_results (h_scan h))) log h.
Proof.
  unfold print_findings. unfold mbind at 1, M_bind, gets.
  generalize (dl_nodes (sc_results (h_scan h))). intros ds. revert log h.
  induction ds as [|d ds IH]; intros log h; [done|]. cbn [print_list].
  unfold mbind, M_bind. destruct (on_leo _ h) as [u h']. apply IH.
Qed.

Lemma exec_print_list turtle ds : ∀ log h,
  lo_open (h_leo h) = true →
  exec (print_list turtle ds log) h =
    set_leo (set_detections (λ rows, rows ++ (row_of (h_leo h) turtle <$> ds)) (h_leo h)) h.
Proof.
  induction ds as [|d ds IH]; intros log h Ho; cbn [print_list].
  - rewrite exec_mret, fmap_nil. destruct h as [? ? [] ? ? ? ? ? ? ? ? ?]. unfold set_leo, set_detections. cbn. by rewrite app_nil_r.
  - autorewrite with monad. unfold leo_write_detection at 1. rewrite exec_db_exec, Ho.
    rewrite IH by (destruct h as [? ? [] ? ? ? ? ? ? ? ? ?]; exact Ho).
    rewrite fmap_cons. destruct h as [? ? [] ? ? ? ? ? ? ? ? ?]. unfold set_leo, set_detections. cbn. by rewrite <- app_assoc.
Qed.

(** No finding is lost between a detector and the database: whatever the
    detector, each of its findings becomes one row of [detections], in order,
    under the turtle's name, with the scan's number, the time, the priority's
    name, the confidence and the ATT&CK tags of its type; the list is empty
    afterwards, and no other table changes. *)
Theorem findings_stored {A} turtle (c : M scan A) log h :
  lo_open (h_leo h) = true → sc_results (h_scan h) = DetectionList [] 0 →
  let found := dl_nodes (sc_results (exec c (h_scan h))) in
  let h' := exec (audit turtle c log) h in
  h_leo h' = set_detections (λ rows, rows ++ (row_of (h_leo h) turtle <$> found)) (h_leo h) ∧
  sc_results (h_scan h') = DetectionList [] 0.
Proof.
  intros Ho Hr. cbv zeta. unfold audit. autorewrite with monad.
  unfold exec at 2 5. rewrite print_findings_list. cbn [h_scan set_scan].
  fold (exec (print_list turtle (dl_nodes (sc_results (exec c (h_scan h)))) log) (set_scan (exec c (h_scan h)) h)).
  rewrite exec_print_list by done. unfold free_results. rewrite exec_on_scan, exec_modify. done.
Qed.

End stores.

(** ** The rows that superhero mode stores

    Every finding of every detector, and with them every row of superhero.db,
    has the declared shape, whatever the device replies and whatever the command
    line; the summary columns of a scan are never filled in. *)

(** ** Findings *)

Definition det_ok (d : SENSEI_DETECTION) : Prop :=
  (String.length (det_type d) < 64)%nat ∧ (String.length (det_description d) < 512)%nat ∧
  50 <= det_confidence d <= 99.

Definition found_ok (s : scan) : Prop := Forall det_ok (dl_nodes (sc_results s)).

Lemma add_det_ok cls pri mitre conf type desc :
  50 <= conf <= 99 → preserves found_ok (add_det cls pri mitre conf type desc).
Proof.
  intros Hc s Hs. unfold add_det. rewrite exec_modify. unfold found_ok, set_results. cbn.
  apply Forall_app. split; [exact Hs|]. constructor; [|done].
  split_and!; cbn; [| |lia|lia].
  - pose proof (length_strncpy 64 type). unfold SENSEI_MAX_DETECTION_TYPE. lia.
  - pose proof (length_strncpy 512 desc). unfold SENSEI_MAX_DESCRIPTION. lia.
Qed.

Lemma found_modify g :
  (∀ s, sc_results (g s) = sc_results s) → preserves found_ok (modify g).
Proof. intros Hg s Hs. rewrite exec_modify. unfold found_ok. by rewrite Hg. Qed.

Lemma found_popen reply full : preserves found_ok (popen reply full).
Proof. intros s Hs. exact Hs. Qed.

Ltac found_prim :=
  lazymatch goal with
  | |- keeps _ (add_det _ _ _ _ _ _) => apply add_det_ok; lia
  | |- keeps _ (modify _) => apply found_modify; reflexivity
  | |- keeps _ (popen _ _) => apply found_popen
  end.

#[local] Hint Extern 3 (keeps _ _) => found_prim : mp.

Section detectors.
Context (reply : nat → string → option string) (read_file : string → option string).
Context (count_fds : Z → Z).

Lemma found_rish cmd : preserves found_ok (rish_cmd reply cmd).
Proof. apply found_popen. Qed.

Lemma found_pipe cmd : preserves found_ok (rish_pipe_command reply cmd).
Proof. apply found_popen. Qed.

Lemma found_on_output n out k :
  (∀ o, preserves found_ok (k o)) → preserves found_ok (on_output n out k).
Proof. intros Hk. unfold on_output. keeps_tac. Qed.

#[local] Hint Resolve found_rish found_pipe found_on_output : mp.

Lemma found_hit cmd k : preserves found_ok k → preserves found_ok (when_hit reply cmd k).
Proof. intros Hk. unfold when_hit, cmd_hit. keeps_tac. Qed.

Lemma found_positive cmd k : preserves found_ok k → preserves found_ok (when_positive reply cmd k).
Proof. intros Hk. unfold when_positive. keeps_tac. Qed.

Lemma found_package uid : preserves found_ok (uid_to_package reply uid).
Proof. unfold uid_to_package. keeps_tac. Qed.

Lemma found_prop key : preserves found_ok (prop reply key).
Proof. unfold prop. keeps_tac. Qed.

#[local] Hint Resolve found_hit found_positive found_package found_prop : mp.

Lemma found_prop_or key other : preserves found_ok (prop_or reply key other).
Proof. unfold prop_or. keeps_tac. Qed.

#[local] Hint Resolve found_prop_or : mp.

Lemma found_raph_line line : preserves found_ok (raph_line reply line).
Proof. unfold raph_line. keeps_tac. Qed.

#[local] Hint Resolve found_raph_line : mp.

Lemma found_raph_network : preserves found_ok (raph_network_scan reply).
Proof. unfold raph_network_scan, raph_table. keeps_tac. Qed.

Lemma found_raph_memory pid : preserves found_ok (raph_memory_scan read_file pid).
Proof. unfold raph_memory_scan. keeps_tac. Qed.

Lemma found_services cmd safe conf type prefix :
  50 <= conf <= 99 → preserves found_ok (check_services reply cmd safe conf type prefix).
Proof. intros Hc. unfold check_services. keeps_tac. Qed.

Lemma found_casey_hook : preserves found_ok (casey_hook_check reply).
Proof.
  unfold casey_hook_check, check_frida, check_xposed, check_magisk, check_ld_preload,
    check_overlay_keylogger.
  keeps_tac; apply found_services; lia.
Qed.

Lemma found_casey_kernel can_create : preserves found_ok (casey_kernel_check reply can_create).
Proof.
  unfold casey_kernel_check, check_kernel_params, check_syscall_table, check_debugfs,
    check_kernelsu, check_kthread_impersonation, check_kernel_modules.
  keeps_tac. apply found_on_output. intros o. keeps_tac.
Qed.

Lemma found_casey_input : preserves found_ok (scan_casey_input reply).
Proof. unfold scan_casey_input. keeps_tac. Qed.

Lemma found_don_behavior pid : preserves found_ok (don_behavior_analyze read_file count_fds pid).
Proof. unfold don_behavior_analyze. keeps_tac. Qed.

Lemma found_don_memory : preserves found_ok (don_memorypressure_check reply).
Proof. unfold don_memorypressure_check. keeps_tac. Qed.

(** The integrity check never touches the results. *)
Lemma integrity_path_keeps (R : scan → scan → Prop) `{!PreOrder R} path :
  (∀ full, keeps R (popen reply full)) → (∀ c b, keeps R (modify (set_cache c b))) →
  keeps R (integrity_path reply path).
Proof.
  intros Hp Hm. unfold integrity_path, compute_sha256_via_rish, rish_pipe_command. keeps_tac.
  all: first [apply Hp | apply Hm].
Qed.

Lemma integrity_paths_keeps (R : scan → scan → Prop) `{!PreOrder R} paths :
  (∀ full, keeps R (popen reply full)) → (∀ c b, keeps R (modify (set_cache c b))) →
  keeps R (integrity_paths reply paths).
Proof.
  intros Hp Hm. induction paths as [|p ps IH]; cbn [integrity_paths]; [apply keeps_mret, _|].
  apply keeps_bind; [apply _|by apply integrity_path_keeps|]. intros found.
  apply keeps_bind; [apply _|exact IH|]. intros more. apply keeps_mret, _.
Qed.

Lemma integrity_keeps (R : scan → scan → Prop) `{!PreOrder R} can_save :
  (∀ full, keeps R (popen reply full)) → (∀ c b, keeps R (modify (set_cache c b))) →
  (∀ f, keeps R (modify (set_cache_file f))) →
  keeps R (don_integrity_check reply can_save).
Proof.
  intros Hp Hm Hf. unfold don_integrity_check. generalize critical_paths. intros paths.
  pose proof (integrity_paths_keeps R paths Hp Hm) as Hpaths. keeps_tac.
Qed.

Lemma found_integrity can_save : preserves found_ok (don_integrity_check reply can_save).
Proof. apply integrity_keeps; [apply _|..]; intros; found_prim. Qed.

Lemma found_mikey : preserves found_ok (mikey_miui reply).
Proof.
  unfold mikey_miui, MIUI_PROCESSES. cbn [mfor].
  keeps_tac.
Qed.

End detectors.

(** ** Rows *)

#[local] Arguments mitre_lookup : simpl never.

Definition row_ok (r : detection_row) : Prop :=
  (String.length (dr_type r) < 64)%nat ∧ (String.length (dr_description r) < 512)%nat ∧
  50 <= dr_confidence r <= 99 ∧ dr_priority r ∈ ["LOW"; "MEDIUM"; "HIGH"; "CRITICAL"] ∧
  (dr_mitre r, dr_tactic r) =
    match mitre_lookup (dr_type r) with Some e => (technique_id e, tactic e) | None => ("", "") end.

(** The line of a scan as [leo_full_scan] leaves it. *)
Definition scan_unfilled (s : scan_row) : Prop :=
  sn_depth s = "surface" ∧ sn_findings s = 0 ∧ sn_new s = 0.

Record leo_ok (l : leo) : Prop := LeoOk {
  lk_rows : Forall row_ok (lo_detections l);
  lk_scans : Forall scan_unfilled (lo_scans l);
  lk_baseline : (length (lo_baselines l) ≤ 1)%nat }.

Definition hero_ok (h : hero) : Prop := leo_ok (h_leo h) ∧ found_ok (h_scan h).

Lemma priority_name_in p : priority_name p ∈ ["LOW"; "MEDIUM"; "HIGH"; "CRITICAL"].
Proof.
  unfold priority_name. destruct (p =? _); [set_solver|]. destruct (p =? _); [set_solver|].
  destruct (p =? _); set_solver.
Qed.

Lemma leo_modify (f : leo → leo) :
  (∀ l, lo_detections (f l) = lo_detections l ∧ lo_scans (f l) = lo_scans l ∧ lo_baselines (f l) = lo_baselines l) →
  preserves leo_ok (modify f).
Proof.
  intros Hf l [H1 H2 H3]. rewrite exec_modify. destruct (Hf l) as (E1 & E2 & E3).
  split; by rewrite ?E1, ?E2, ?E3.
Qed.

Lemma leo_db_exec f : (∀ l, leo_ok l → leo_ok (f l)) → preserves leo_ok (db_exec f).
Proof. intros Hf l Hl. rewrite exec_db_exec. destruct (lo_open l); auto. Qed.

Lemma leo_note action detail : preserves leo_ok (gdpr_note action detail).
Proof. apply leo_db_exec. intros l [H1 H2 H3]. by split. Qed.

Lemma leo_write turtle d :
  det_ok d → preserves leo_ok (leo_write_detection turtle (det_type d) (det_description d)
    (priority_name (det_priority d)) (det_confidence d)).
Proof.
  intros (Ht & Hd & Hc). apply leo_db_exec. intros l [H1 H2 H3]. split; try done.
  cbn [lo_detections set_detections]. apply Forall_app. split; [done|]. constructor; [|done].
  split_and!; cbn; try done; try lia; [apply priority_name_in|].
  by destruct (mitre_lookup (det_type d)).
Qed.

Lemma Forall_filter_of {A} (P : A → Prop) f (l : list A) : Forall P l → Forall P (List.filter f l).
Proof. intros H. induction H; cbn [List.filter]; [done|]. destruct (f x); auto. Qed.

Lemma leo_schema_ok : preserves leo_ok create_schema.
Proof.
  unfold create_schema. apply keeps_bind; [apply _| |intros _];
    apply leo_db_exec; intros [] []; split; cbn in *; try done; by apply Forall_filter_of.
Qed.

Lemma leo_init_ok can_open : preserves leo_ok (leo_init can_open).
Proof.
  pose proof leo_schema_ok. unfold leo_init, db_query. keeps_tac; apply leo_modify; intros ?; by repeat split.
Qed.

Lemma leo_full_scan_ok : preserves leo_ok leo_full_scan.
Proof.
  intros l [H1 H2 H3]. destruct (lo_open l) eqn:Ho.
  - rewrite exec_full_scan by done. cbv zeta. split; cbn [lo_detections lo_scans lo_baselines]; [done| |].
    + apply Forall_app. split; [done|]. by repeat constructor.
    + rewrite length_app. destruct (bool_decide_reflect (lo_baselines l = [])) as [->|]; cbn [andb].
      * destruct (12 <=? _); cbn; lia.
      * cbn. lia.
  - unfold leo_full_scan, baseline_exists. autorewrite with monad.
    rewrite exec_write_scan, exec_db_query, result_db_query. destruct l; cbn in Ho; subst. cbn.
    destruct (BASELINE_CYCLES <=? _); cbn; split; done.
Qed.

(** ** The front end *)

Lemma hero_on_scan {A} (c : M scan A) : preserves found_ok c → preserves hero_ok (on_scan c).
Proof. intros Hc h [Hl Hf]. rewrite exec_on_scan. split; [done|]. by apply Hc. Qed.

Lemma hero_on_leo {A} (c : M leo A) : preserves leo_ok c → preserves hero_ok (on_leo c).
Proof. intros Hc h [Hl Hf]. rewrite exec_on_leo. split; [by apply Hc|done]. Qed.

Lemma hero_modify g :
  (∀ h, h_leo (g h) = h_leo h ∧ h_scan (g h) = h_scan h) → preserves hero_ok (modify g).
Proof. intros Hg h Hh. rewrite exec_modify. unfold hero_ok. by destruct (Hg h) as [-> ->]. Qed.

Lemma hero_print_list turtle ds log :
  Forall det_ok ds → preserves hero_ok (print_list turtle ds log).
Proof.
  intros Hds. revert log. induction Hds as [|d ds Hd Hds IH]; intros log; cbn [print_list].
  - apply keeps_mret, _.
  - apply keeps_bind; [apply _|by apply hero_on_leo, leo_write|]. intros _. apply IH.
Qed.

Lemma hero_print turtle log : preserves hero_ok (print_findings turtle log).
Proof.
  intros h Hh. unfold exec. rewrite print_findings_list. apply hero_print_list; [|done]. apply Hh.
Qed.

Lemma hero_free : preserves hero_ok free_results.
Proof. apply hero_on_scan. intros s _. rewrite exec_modify. constructor. Qed.

Ltac hero_prim :=
  lazymatch goal with
  | |- keeps _ (modify _) => apply hero_modify; intros ?; by split
  | |- keeps _ (emit _ _) => apply hero_modify; intros ?; by split
  | |- keeps _ (print_findings _ _) => apply hero_print
  | |- keeps _ free_results => apply hero_free
  | |- keeps _ (on_scan (popen _ _)) => apply hero_on_scan, found_popen
  | |- keeps _ (on_scan (rish_cmd _ _)) => apply hero_on_scan, found_popen
  | |- keeps _ (on_leo (leo_init _)) => apply hero_on_leo, leo_init_ok
  | |- keeps _ (on_leo leo_full_scan) => apply hero_on_leo, leo_full_scan_ok
  | |- keeps _ (on_leo leo_shutdown) => apply hero_on_leo, leo_modify; intros ?; by repeat split
  | |- keeps _ (on_leo (modify _)) => apply hero_on_leo, leo_modify; intros ?; by repeat split
  end.

#[local] Hint Extern 3 (keeps _ _) => hero_prim : mp.

Section front_end.
Context (reply : nat → string → option string) (read_file : string → option string).
Context (count_fds : Z → Z).

Lemma hero_audit {A} turtle (c : M scan A) log :
  preserves found_ok c → preserves hero_ok (audit turtle c log).
Proof. intros Hc. pose proof (hero_on_scan c Hc). unfold audit. keeps_tac. Qed.

#[local] Hint Resolve hero_audit hero_on_scan found_raph_network found_raph_memory found_casey_hook
  found_casey_kernel found_casey_input found_don_behavior found_don_memory found_integrity
  found_mikey : mp.

Lemma hero_pids pids log : preserves hero_ok (scan_pids read_file count_fds pids log).
Proof.
  revert log. induction pids as [|p pids IH]; intros log; cbn [scan_pids]; keeps_tac; apply IH.
Qed.

#[local] Hint Resolve hero_pids : mp.

Lemma hero_cycle can_log can_save :
  preserves hero_ok (splinter_run_scan_cycle reply read_file count_fds can_log can_save).
Proof. unfold splinter_run_scan_cycle. keeps_tac. Qed.

Lemma hero_metrics : preserves hero_ok (splinter_collect_metrics reply).
Proof. unfold splinter_collect_metrics. keeps_tac. Qed.

Lemma hero_init can_open : preserves hero_ok (splinter_init reply can_open).
Proof. unfold splinter_init, backend_strategy_select, rish_alive, adb_alive, alive. keeps_tac. Qed.

#[local] Hint Resolve hero_cycle hero_metrics hero_init : mp.

Lemma hero_turns_ok n interval can_log can_save :
  preserves hero_ok (hero_turns reply read_file count_fds n interval can_log can_save).
Proof. induction n as [|n IH]; cbn [hero_turns]; unfold run_actions; keeps_tac. Qed.

#[local] Hint Resolve hero_turns_ok : mp.

Lemma hero_read_stdin size : preserves hero_ok (read_stdin size).
Proof. intros h Hh. unfold read_stdin. unmonad. by destruct (fgets size (h_stdin h)) as [[? ?]|]. Qed.

#[local] Hint Resolve hero_read_stdin : mp.

Lemma hero_depth args can_write : preserves hero_ok (choose_depth args can_write).
Proof.
  unfold choose_depth, consent_granted, get_saved_depth, run_consent_gate, write_consent_lock. keeps_tac.
Qed.

#[local] Hint Resolve hero_depth : mp.

Lemma hero_export can_create : preserves hero_ok (on_leo (leo_export_sar can_create)).
Proof.
  apply hero_on_leo. unfold leo_export_sar, db_query. pose proof leo_note. keeps_tac.
Qed.

#[local] Hint Resolve hero_export : mp.

(** C16. The rows of superhero.db keep their shape over every run of the front
    end, whatever the command line, the user's input and the replies of the
    device: types and descriptions that fit, one of four priority names, a
    confidence between 50 and 99, the ATT&CK tags of the type, at most one
    baseline; and the summary columns of a scan are never filled in. *)
Theorem hero_rows_typed io args h :
  hero_ok h → hero_ok (exec (hero_main reply read_file count_fds io args) h).
Proof.
  revert h. change (preserves hero_ok (hero_main reply read_file count_fds io args)).
  unfold hero_main, hero_run, go_background, purge_data, splinter_set_depth, superhero_run_loop, splinter_shutdown.
  destruct (loop_flags _ _ _ _) as [[loop bg] interval]. keeps_tac.
Qed.

End front_end.
