(* ===== verification/HeroData.v ===== *)
(** * The data superhero mode keeps

    The learning phase and its one baseline, the retention of 90 days, the
    escaping of the subject access export, and the two purges: the one the
    command line runs and the one that erases. *)

From S2P Require Import Prelude CString Double Krang Conv Weights April Leo Turtles Dojo Hero.
From Stdlib Require Import Ascii.

(** ** What a cycle does to the scan tables *)

(** The parts of the store that only [leo_full_scan] changes in a cycle. *)
Definition core (l : leo) : Z * bool * list scan_row * Z * list baseline_row * Z :=
  (lo_now l, lo_open l, lo_scans l, lo_scan_seq l, lo_baselines l, lo_cycle l).

Lemma core_inv l l' :
  core l = core l' →
  lo_now l = lo_now l' ∧ lo_open l = lo_open l' ∧ lo_scans l = lo_scans l' ∧
  lo_scan_seq l = lo_scan_seq l' ∧ lo_baselines l = lo_baselines l' ∧ lo_cycle l = lo_cycle l'.
Proof. unfold core. intros [= ? ? ? ? ? ?]. done. Qed.

Abbreviation same_core := (same_part (core ∘ h_leo)).

Lemma print_core turtle log : keeps same_core (print_findings turtle log).
Proof.
  intros h. unfold exec. rewrite print_findings_list. generalize (dl_nodes (sc_results (h_scan h))).
  intros ds. revert log h. change (∀ log, keeps same_core (print_list turtle ds log)).
  induction ds as [|d ds IH]; intros log; cbn [print_list]; [apply keeps_mret, _|].
  apply keeps_bind; [apply _| |intros _; apply IH].
  intros h. unfold same_part. rewrite exec_on_leo. unfold leo_write_detection. rewrite exec_db_exec.
  cbn [compose h_leo set_leo]. by destruct (lo_open (h_leo h)).
Qed.

#[local] Hint Resolve print_core : mp.

Section cycles.
Context (reply : nat → string → option string) (read_file : string → option string).
Context (count_fds : Z → Z).

Lemma audit_core {A} turtle (c : M scan A) log : keeps same_core (audit turtle c log).
Proof. unfold audit. keeps_tac. Qed.

Lemma pids_core pids log : keeps same_core (scan_pids read_file count_fds pids log).
Proof.
  revert log. induction pids as [|p pids IH]; intros log; cbn [scan_pids]; keeps_tac; apply IH.
Qed.

#[local] Hint Resolve audit_core pids_core : mp.

Lemma core_step {A} (c : H A) h : keeps same_core c → core (h_leo (exec c h)) = core (h_leo h).
Proof. intros Hc. apply (Hc h). Qed.

Lemma cycle_core can_log can_save h :
  core (h_leo (exec (splinter_run_scan_cycle reply read_file count_fds can_log can_save) h)) =
  core (exec leo_full_scan (h_leo h)).
Proof.
  unfold splinter_run_scan_cycle. rewrite exec_bind, exec_gets, result_gets, exec_bind.
  rewrite exec_bind. set (h1 := exec (on_leo leo_full_scan) _).
  assert (core (h_leo h1) = core (exec leo_full_scan (h_leo h))) as <-.
  { unfold h1. rewrite exec_on_leo. done. }
  apply core_step. generalize (String.eqb (h_depth h) "deep"), (String.eqb (h_depth h) "standard").
  intros deep standard. keeps_tac.
Qed.

Lemma metrics_core : keeps same_core (run_actions reply).
Proof. unfold run_actions, splinter_collect_metrics. keeps_tac. Qed.

Lemma init_core can_open h :
  core (h_leo (exec (splinter_init reply can_open) h)) = core (exec (leo_init can_open) (h_leo h)).
Proof.
  unfold splinter_init, emit. autorewrite with monad. cbn [h_leo set_leo].
  unfold set_events, set_backend. cbn [h_leo].
  assert (keeps (same_part h_leo) (backend_strategy_select reply)) as Hb
    by (unfold backend_strategy_select, rish_alive, adb_alive, alive; keeps_tac).
  by rewrite (Hb h).
Qed.

(** The scans younger than the retention period. *)
Definition retained (l : leo) : list scan_row :=
  List.filter (λ r, negb (sn_time r <? lo_now l - RETENTION_SECONDS)) (lo_scans l).

Lemma exec_leo_init l :
  exec (leo_init true) l =
  Leo (lo_now l) true
    (List.filter (λ r, negb (dr_time r <? lo_now l - RETENTION_SECONDS)) (lo_detections l))
    (retained l) (lo_scan_seq l) (lo_baselines l) (lo_gdpr l) (lo_current l)
    (if 12 <=? Z.of_nat (length (retained l)) then 12 else Z.of_nat (length (retained l))).
Proof. unfold leo_init, create_schema. autorewrite with monad. by destruct l. Qed.

(** One turn of the loop, on the tables. *)
Lemma turn_core n interval can_log can_save h :
  lo_open (h_leo h) = true →
  ∃ h1, exec (hero_turns reply read_file count_fds (S n) interval can_log can_save) h =
      exec (hero_turns reply read_file count_fds n interval can_log can_save) h1 ∧
    lo_open (h_leo h1) = true ∧
    lo_scans (h_leo h1) = lo_scans (exec leo_full_scan (h_leo h)) ∧
    lo_baselines (h_leo h1) = lo_baselines (exec leo_full_scan (h_leo h)) ∧
    lo_cycle (h_leo h1) = lo_cycle (h_leo h) + 1.
Proof.
  intros Ho. cbn [hero_turns]. rewrite !exec_bind. eexists. split; [reflexivity|].
  pose proof (cycle_core can_log can_save h) as Hc.
  set (h0 := exec (splinter_run_scan_cycle _ _ _ _ _) h) in *.
  pose proof (core_step _ h0 metrics_core) as Hm. rewrite Hc in Hm.
  set (h2 := exec (run_actions reply) h0) in *.
  rewrite exec_on_leo, exec_modify. cbn [h_leo set_leo].
  apply core_inv in Hm as (_ & H2 & H3 & _ & H5 & H6). unfold set_now. cbn [lo_open lo_scans lo_baselines lo_cycle].
  rewrite H2, H3, H5, H6. split_and!; try done; by rewrite exec_full_scan by done.
Qed.

(** Once a baseline exists it stays the only one. *)
Lemma turns_known n interval can_log can_save : ∀ h,
  lo_open (h_leo h) = true → lo_baselines (h_leo h) ≠ [] →
  let l := h_leo (exec (hero_turns reply read_file count_fds n interval can_log can_save) h) in
  lo_cycle l = lo_cycle (h_leo h) + Z.of_nat n ∧
  length (lo_scans l) = (length (lo_scans (h_leo h)) + n)%nat ∧
  lo_baselines l = lo_baselines (h_leo h).
Proof.
  induction n as [|n IH]; intros h Ho Hb; cbv zeta.
  { cbn [hero_turns]. rewrite exec_mret. split_and!; [lia|lia|done]. }
  destruct (turn_core n interval can_log can_save h Ho) as (h1 & -> & Ho1 & Hs1 & Hb1 & Hc1).
  rewrite exec_full_scan in Hs1, Hb1 by done. cbn [lo_scans lo_baselines] in *.
  rewrite bool_decide_false, andb_false_l, app_nil_r in Hb1 by done.
  destruct (IH h1 Ho1 ltac:(by rewrite Hb1)) as (E1 & E2 & E3).
  rewrite E1, E2, E3, Hc1, Hs1, Hb1, length_app. cbn [length]. split_and!; [lia|lia|done].
Qed.

(** The learning phase: the cycle, the scans, and the baseline they make. *)
Lemma turns_learning n interval can_log can_save : ∀ h,
  lo_open (h_leo h) = true → lo_baselines (h_leo h) = [] → 0 <= lo_cycle (h_leo h) <= 12 →
  let l := h_leo (exec (hero_turns reply read_file count_fds n interval can_log can_save) h) in
  lo_cycle l = lo_cycle (h_leo h) + Z.of_nat n ∧
  length (lo_scans l) = (length (lo_scans (h_leo h)) + n)%nat ∧
  bl_scans <$> lo_baselines l =
    if (0 <? Z.of_nat n) && (12 <=? lo_cycle (h_leo h) + Z.of_nat n)
    then [Z.max 12 (lo_cycle (h_leo h) + 1)] else [].
Proof.
  induction n as [|n IH]; intros h Ho Hb Hc; cbv zeta.
  { cbn [hero_turns]. rewrite exec_mret, Hb. split_and!; [lia|lia|done]. }
  destruct (turn_core n interval can_log can_save h Ho) as (h1 & -> & Ho1 & Hs1 & Hb1 & Hc1).
  rewrite exec_full_scan in Hs1, Hb1 by done. cbn [lo_scans lo_baselines] in *.
  rewrite Hb, bool_decide_true, andb_true_l in Hb1 by done. cbn [app] in Hb1.
  destruct (12 <=? lo_cycle (h_leo h) + 1) eqn:H12; bool_hyps.
  - destruct (turns_known n interval can_log can_save h1 Ho1 ltac:(by rewrite Hb1)) as (E1 & E2 & E3).
    rewrite E1, E2, E3, Hc1, Hs1, Hb1, length_app. cbn [length]. split_and!; [lia|lia|].
    rewrite (proj2 (Z.ltb_lt 0 (Z.of_nat (S n)))), (proj2 (Z.leb_le _ _)) by lia.
    cbn. f_equal. lia.
  - destruct (IH h1 Ho1 Hb1 ltac:(lia)) as (E1 & E2 & E3).
    rewrite E1, E2, E3, Hc1, Hs1, length_app. cbn [length]. split_and!; [lia|lia|].
    replace (lo_cycle (h_leo h) + 1 + Z.of_nat n) with (lo_cycle (h_leo h) + Z.of_nat (S n)) by lia.
    destruct (12 <=? lo_cycle (h_leo h) + Z.of_nat (S n)) eqn:Hn; bool_hyps;
      [|by rewrite !andb_false_r].
    rewrite (proj2 (Z.ltb_lt 0 (Z.of_nat n))), (proj2 (Z.ltb_lt 0 (Z.of_nat (S n)))) by lia.
    cbn. f_equal. lia.
Qed.

(** The learning phase ends at the twelfth scan: the loop of superhero mode
    started without a baseline on [k] scans of the last 90 days makes exactly one
    baseline, at the turn in which the cycle count [min k 12 + n] reaches twelve,
    and none before; every turn adds one scan. *)
Theorem one_baseline_after_twelve n interval can_log can_save h :
  lo_baselines (h_leo h) = [] →
  let k := length (retained (h_leo h)) in
  let cycle := Z.min (Z.of_nat k) 12 + Z.of_nat n in
  let l := h_leo (exec (superhero_run_loop reply read_file count_fds n interval true can_log can_save) h) in
  lo_cycle l = cycle ∧ length (lo_scans l) = (k + n)%nat ∧
  bl_scans <$> lo_baselines l =
    if (0 <? Z.of_nat n) && (12 <=? cycle) then [Z.max 12 (Z.min (Z.of_nat k) 12 + 1)] else [].
Proof.
  intros Hb. cbv zeta. unfold superhero_run_loop. rewrite exec_bind.
  pose proof (init_core true h) as Hi. rewrite exec_leo_init in Hi.
  set (h1 := exec (splinter_init reply true) h) in *. apply core_inv in Hi as (_ & Ho & Hs & _ & Hbl & Hc).
  cbn [lo_open lo_scans lo_baselines lo_cycle] in *.
  assert (lo_cycle (h_leo h1) = Z.min (Z.of_nat (length (retained (h_leo h)))) 12) as Hc1.
  { rewrite Hc. destruct (12 <=? _) eqn:?; bool_hyps; lia. }
  destruct (turns_learning n interval can_log can_save h1 Ho) as (E1 & E2 & E3);
    [by rewrite Hbl|lia|].
  rewrite E1, E2, E3, Hc1, Hs. done.
Qed.

End cycles.

(** ** A sample device *)

(** A user with the given recorded consent, on empty tables. *)
Definition hero_start (stdin : string) (lock : option string) : hero :=
  Hero stdin (Scan (DetectionList [] 0) [] None [] false None) (leo_process 1000000000 0 [] [] [] [])
    lock true None "standard" BACKEND_NONE [] None None false.

(** Every command prints [yes]; the files hold one process. *)
Definition sample_reply (n : nat) (full : string) : option string := Some ("yes" +:+ NLs).
Definition sample_file (path : string) : option string := Some ("77:app" +:+ NLs).
Definition sample_fds (pid : Z) : Z := 3.
Definition sample_io : hero_io := HeroIo true true true true true 2 (Some 4711) true true.

Lemma one_baseline_witness :
  let l := h_leo (exec (superhero_run_loop sample_reply sample_file sample_fds 13 300 true true true)
    (hero_start "" (Some ("surface" +:+ NLs)))) in
  lo_cycle l = 13 ∧ bl_scans <$> lo_baselines l = [12].
Proof.
  destruct (one_baseline_after_twelve sample_reply sample_file sample_fds 13 300 true true
    (hero_start "" (Some ("surface" +:+ NLs))) eq_refl) as (H1 & _ & H3).
  cbv zeta. rewrite H1, H3. split; vm_compute; reflexivity.
Defined.

Lemma hero_rows_typed_witness :
  let h := hero_start "" (Some ("standard" +:+ NLs)) in
  hero_ok h ∧ hero_ok (exec (hero_main sample_reply sample_file sample_fds sample_io []) h) ∧
  length (lo_detections (h_leo (exec (hero_main sample_reply sample_file sample_fds sample_io []) h))) = 10%nat.
Proof.
  cbv zeta. assert (hero_ok (hero_start "" (Some ("standard" +:+ NLs)))) as H.
  { split; [split; [constructor|constructor|vm_compute; lia]|constructor]. }
  split; [exact H|]. split; [by apply hero_rows_typed|]. vm_compute. reflexivity.
Defined.

(** With [--bg] the two files are there, and the consent is not. *)
Lemma no_consent_witness :
  let h' := exec (hero_main sample_reply sample_file sample_fds sample_io ["--deep"; "--bg"]) (hero_start ("no" +:+ NLs) None) in
  h_pid h' = Some ("4711" +:+ NLs) ∧ h_bg_log h' = true ∧ h_scan h' = h_scan (hero_start "" None) ∧ h_lock h' = None.
Proof.
  cbv zeta. destruct (no_consent_no_scan sample_reply sample_file sample_fds sample_io ["--deep"; "--bg"] (hero_start ("no" +:+ NLs) None))
    as (rest & -> & _); [reflexivity| |reflexivity|reflexivity|]; [vm_compute; congruence|].
  split_and!; vm_compute; reflexivity.
Defined.

(** A device whose processes cannot be read. *)
Lemma process_reads_witness :
  exec (hero_main sample_reply sample_file sample_fds sample_io ["--loop"]) (hero_start "" (Some ("standard" +:+ NLs))) =
  exec (hero_main (λ n cmd, if names_processes cmd then None else sample_reply n cmd) (λ _, None) (λ _, 1000) sample_io ["--loop"])
    (hero_start "" (Some ("standard" +:+ NLs))).
Proof.
  apply (process_reads_need_deep sample_reply (λ n cmd, if names_processes cmd then None else sample_reply n cmd) sample_file (λ _, None)
    sample_fds (λ _, 1000)); [intros n cmd ->; reflexivity|vm_compute; congruence].
Defined.

(** A deep scan runs such commands. *)
Lemma deep_reads_processes :
  existsb names_processes (sc_calls (h_scan (exec (hero_main sample_reply sample_file sample_fds sample_io [])
    (hero_start "" (Some ("deep" +:+ NLs)))))) = true.
Proof. vm_compute. reflexivity. Qed.

Lemma surface_witness :
  h_scan (exec (splinter_run_scan_cycle sample_reply sample_file sample_fds true true)
    (set_depth "surface" (hero_start "" None))) = h_scan (hero_start "" None).
Proof.
  destruct (surface_scan_reads_nothing sample_reply sample_file sample_fds true true
    (set_depth "surface" (hero_start "" None))) as (H & _); [vm_compute; congruence..|]. exact H.
Defined.

Lemma findings_stored_witness :
  let h := set_leo (set_open true (h_leo (hero_start "" None))) (hero_start "" None) in
  dr_type <$> lo_detections (h_leo (exec (audit "DON_MEM" (don_memorypressure_check (λ _ _,
    Some ("MemTotal: 100 kB" +:+ NLs +:+ "MemAvailable: 5 kB" +:+ NLs))) None) h)) = ["RAM_CRITICAL"].
Proof.
  cbv zeta. rewrite (proj1 (findings_stored "DON_MEM" _ None
    (set_leo (set_open true (h_leo (hero_start "" None))) (hero_start "" None)) eq_refl eq_refl)).
  vm_compute. reflexivity.
Defined.

(** ** Erasure *)

(** The two purges.  [leo_purge_all] erases every row about the device and
    records the erasure; the purge of the command line, which the consent text
    and the export name, changes no row of superhero.db: it removes another
    file. *)
Theorem purges reply read_file count_fds io args h l :
  existsb (String.eqb "--purge") args = true → existsb (String.eqb "--export-sar") args = false →
  io_fork io ≠ None → lo_open l = true →
  (let h' := exec (hero_main reply read_file count_fds io args) h in
   h_leo h' = h_leo h ∧ h_lock h' = h_lock h ∧ h_log h' = h_log h ∧ h_dojo_db h' = false) ∧
  (let l' := exec leo_purge_all l in
   lo_detections l' = [] ∧ lo_scans l' = [] ∧ lo_baselines l' = [] ∧
   lo_gdpr l' = lo_gdpr l ++ [GdprRow (lo_now l) "DATA_PURGE"
     "All scan data purged on user request — right to erasure exercised"]).
Proof.
  intros Hp Hs Hf Ho. split; cbv zeta.
  - destruct (main_run reply read_file count_fds io args h) as (loop & interval & Hm). unfold exec. rewrite Hm.
    rewrite bool_decide_true by (by destruct (io_fork io); eauto). rewrite andb_false_r. unfold hero_run. rewrite Hs, Hp.
    split_and!; cbn [snd]; unfold purge_data, modify; cbn [snd set_dojo_db h_leo h_lock h_log h_dojo_db]; by rewrite ?(left_behind_part h_leo), ?(left_behind_part h_lock), ?(left_behind_part h_log).
  - destruct l; cbn in Ho; subst. done.
Qed.

Lemma purges_witness :
  lo_detections (h_leo (exec (hero_main sample_reply sample_file sample_fds sample_io ["--purge"])
    (exec (hero_main sample_reply sample_file sample_fds sample_io [])
      (hero_start "" (Some ("standard" +:+ NLs)))))) ≠ [] .
Proof.
  destruct (purges sample_reply sample_file sample_fds sample_io ["--purge"]
    (exec (hero_main sample_reply sample_file sample_fds sample_io [])
      (hero_start "" (Some ("standard" +:+ NLs)))) (set_open true (leo_process 0 0 [] [] [] []))
    eq_refl eq_refl ltac:(discriminate) eq_refl) as [(H & _) _].
  rewrite H. vm_compute. congruence.
Defined.

(** ** Export *)

(** The text of a JSON string, up to its closing quote: the escapes that the
    export uses. *)
Fixpoint json_text (s : string) : option (string * string) :=
  match s with
  | EmptyString => None
  | String c s' =>
      if Ascii.eqb c (chr 34) then Some (EmptyString, s')
      else if Ascii.eqb c BACKSLASH then
        match s' with
        | String e s'' =>
            let plain := if Ascii.eqb e "n" then Some NL
                         else if Ascii.eqb e "r" then Some (chr 13)
                         else if Ascii.eqb e "t" then Some (chr 9)
                         else if Ascii.eqb e (chr 34) || Ascii.eqb e BACKSLASH then Some e else None in
            p ← plain; '(t, r) ← json_text s''; Some (String p t, r)
        | EmptyString => None
        end
      else '(t, r) ← json_text s'; Some (String c t, r)
  end.

(** How much of a description the export keeps. *)
Fixpoint safe_taken (j : Z) (desc : string) : nat :=
  match desc with
  | EmptyString => 0
  | String c desc' =>
      if j <? 508 then
        S (safe_taken (if char_in (String (chr 34) (String BACKSLASH (String NL
             (String (chr 13) (String (chr 9) ""))))) c then j + 2 else j + 1) desc')
      else 0
  end.

Lemma safe_desc_read desc r : ∀ j,
  json_text (safe_desc j desc +:+ String (chr 34) r) = Some (stake (safe_taken j desc) desc, r).
Proof.
  induction desc as [|c desc IH]; intros j; cbn [safe_desc safe_taken]; [done|].
  destruct (j <? 508); [|done]. cbn [char_in stake].
  destruct (Ascii.eqb c (chr 34)) eqn:E1.
  { apply Ascii.eqb_eq in E1 as ->. cbn [orb]. rewrite !app_cons_str.
    cbn -[safe_desc safe_taken stake]. by rewrite IH. }
  destruct (Ascii.eqb c BACKSLASH) eqn:E2.
  { apply Ascii.eqb_eq in E2 as ->. cbn [orb]. rewrite !app_cons_str.
    cbn -[safe_desc safe_taken stake]. by rewrite IH. }
  destruct (Ascii.eqb c NL) eqn:E3.
  { apply Ascii.eqb_eq in E3 as ->. cbn [orb]. rewrite !app_cons_str.
    cbn -[safe_desc safe_taken stake]. by rewrite IH. }
  destruct (Ascii.eqb c (chr 13)) eqn:E4.
  { apply Ascii.eqb_eq in E4 as ->. cbn [orb]. rewrite !app_cons_str.
    cbn -[safe_desc safe_taken stake]. by rewrite IH. }
  destruct (Ascii.eqb c (chr 9)) eqn:E5.
  { apply Ascii.eqb_eq in E5 as ->. cbn [orb]. rewrite !app_cons_str.
    cbn -[safe_desc safe_taken stake]. by rewrite IH. }
  cbn [orb]. rewrite app_cons_str. cbn [json_text]. rewrite E1, E2, IH. done.
Qed.

Lemma safe_taken_all desc : ∀ j,
  j + 2 * slen desc <= 509 → (String.length desc ≤ safe_taken j desc)%nat.
Proof.
  unfold slen. induction desc as [|c desc IH]; intros j Hj; cbn [safe_taken String.length] in *; [lia|].
  assert ((j <? 508) = true) as -> by lia. apply le_n_S, IH. destruct (char_in _ c); lia.
Qed.

(** The export quotes a finding's description so that a JSON reader gets it
    back: whatever the description holds, the reader stops at the export's own
    closing quote and has read a prefix of it, all of it up to 254 bytes. *)
Theorem export_description_read desc r :
  json_text (safe_desc 0 desc +:+ String (chr 34) r) = Some (stake (safe_taken 0 desc) desc, r) ∧
  (slen desc <= 254 → stake (safe_taken 0 desc) desc = desc).
Proof.
  split; [apply safe_desc_read|]. intros Hd. apply stake_all, safe_taken_all. lia.
Qed.

Lemma export_description_witness :
  json_text (safe_desc 0 ("a" +:+ QUOTE +:+ NLs) +:+ String (chr 34) "}") =
  Some ("a" +:+ QUOTE +:+ NLs, "}").
Proof.
  destruct (export_description_read ("a" +:+ QUOTE +:+ NLs) "}") as [H1 H2].
  rewrite H1, H2; [reflexivity|vm_compute; congruence].
Defined.

(** Retention: after [leo_init] the database holds the detections and the
    scans of the last 90 days, all of them and nothing older. *)
Theorem retention_ninety_days l :
  let l' := exec (leo_init true) l in
  (∀ r, r ∈ lo_detections l' ↔ r ∈ lo_detections l ∧ lo_now l - 90 * 86400 <= dr_time r) ∧
  (∀ s, s ∈ lo_scans l' ↔ s ∈ lo_scans l ∧ lo_now l - 90 * 86400 <= sn_time s).
Proof.
  cbv zeta. rewrite exec_leo_init. cbn [lo_detections lo_scans]. unfold retained, RETENTION_SECONDS.
  split; intros r; rewrite !list_elem_of_In, filter_In; apply and_iff_compat_l;
    rewrite negb_true_iff, Z.ltb_ge; lia.
Qed.
