(* ===== verification/Sightings.v ===== *)
(** * What single detectors see

    The socket table, the quoting of commands, the integrity cache, the state of
    a process and the pressure of memory: what each detector makes of its input,
    exactly. *)

From S2P Require Import Prelude CString Double Krang Conv Wire Digits Attribution April Leo Turtles Dojo Hero HeroData.
From Stdlib Require Import Ascii DecimalString.

(** ** Raphael's socket table *)

(** A line of /proc/net/tcp, as the kernel prints it. *)
Record tcp_line := TcpLine {
  tl_slot : Z; tl_local : string; tl_remote : string; tl_state : string;
  tl_queues : string; tl_timer : string; tl_retrans : string; tl_uid : Z; tl_timeout : Z;
  tl_inode : Z; tl_rest : string }.

Definition tcp_text (pad : nat) (l : tcp_line) : string :=
  scat [blanks pad; fmt_d (tl_slot l); ": "; tl_local l; " "; tl_remote l; " "; tl_state l; " ";
        tl_queues l; " "; tl_timer l; " "; tl_retrans l; " "; blanks 4; fmt_d (tl_uid l); " ";
        blanks 8; fmt_d (tl_timeout l); " "; fmt_d (tl_inode l); " "; tl_rest l].

Definition field_ok (n : nat) (s : string) : Prop :=
  s ≠ "" ∧ (String.length s ≤ n)%nat ∧ none_of is_space s = true.

Definition tcp_line_ok (l : tcp_line) : Prop :=
  0 <= tl_slot l ∧ field_ok 63 (tl_local l) ∧ field_ok 63 (tl_remote l) ∧ field_ok 7 (tl_state l) ∧
  field_ok 63 (tl_queues l) ∧ field_ok 63 (tl_timer l) ∧ field_ok 63 (tl_retrans l) ∧
  0 <= tl_uid l ∧ 0 <= tl_timeout l ∧ 0 <= tl_inode l < 2 ^ 31.

Lemma skip_blanks_str n s : skip_while is_space (blanks n +:+ s) = skip_while is_space s.
Proof. by induction n. Qed.

(** [%*s] over blanks and a token. *)
Lemma skip_s_token k tok r :
  tok ≠ "" → none_of is_space tok = true →
  skip_s (" " +:+ blanks k +:+ tok +:+ String " " r) = Some (String " " r).
Proof.
  intros Hne Htok. unfold skip_s.
  set (n := String.length (" " +:+ blanks k +:+ tok +:+ String " " r)).
  assert (String.length tok ≤ n)%nat as Hn by (unfold n; rewrite !length_app_str; lia).
  clearbody n. pose proof (scan_s_token n tok r Hne Hn Htok) as Hs. unfold scan_s in *.
  change (skip_while is_space (" " +:+ ?x)) with (skip_while is_space x) in *.
  rewrite skip_blanks_str.
  match goal with H : (if ?c then _ else _) = _ |- _ => destruct c; [done|] end.
  injection Hs as H1 H2. cbn. rewrite H1 in *. by rewrite H2.
Qed.

Lemma fmt_d_nonspace z : none_of is_space (fmt_d z) = true.
Proof.
  apply numeric_none; [|apply fmt_d_numeric]. intros c. destruct c as [[] [] [] [] [] [] [] []]; vm_compute; congruence.
Qed.

(** The network detector names the wrong number: on every line that the
    kernel prints, the [uid] it reports, and asks the package manager about, is
    the socket's inode; the addresses and the state are read correctly. *)
Theorem raph_uid_is_inode pad l :
  tcp_line_ok l →
  raph_fields (tcp_text pad l) = (tl_local l, tl_remote l, tl_state l, tl_inode l).
Proof.
  intros (Hsl & HL & HR & HS & HQ & HT & HU & Huid & Hto & Hin).
  unfold raph_fields, tcp_text, scat.
  change (": " +:+ ?x) with (String ":" (" " +:+ x)).
  rewrite (scan_decimal pad) by done. cbn [mbind option_bind scan_char Ascii.eqb Bool.eqb].
  rewrite !app_nil_r_str.
  repeat change (" " +:+ ?x) with (String " " x).
  assert (∀ n tok x, field_ok n tok → scan_s n (String " " (tok +:+ String " " x)) = Some (tok, String " " x))
    as Hscan by (intros n tok x (?&?&?); by apply scan_s_token).
  assert (∀ k tok x, tok ≠ "" → none_of is_space tok = true →
    skip_s (String " " (blanks k +:+ tok +:+ String " " x)) = Some (String " " x)) as Hskip
    by (intros; by apply skip_s_token).
  assert (∀ tok x, field_ok 63 tok → skip_s (String " " (tok +:+ String " " x)) = Some (String " " x))
    as Hskip0 by (intros tok x (?&_&?); by apply (Hskip O)).
  rewrite (Hscan 63%nat (tl_local l)), (Hscan 63%nat (tl_remote l)), (Hscan 7%nat (tl_state l)) by done.
  rewrite (Hskip0 (tl_queues l)) by done. cbn [mbind option_bind].
  rewrite (Hskip0 (tl_timer l)) by done. cbn [mbind option_bind].
  rewrite (Hskip0 (tl_retrans l)) by done. cbn [mbind option_bind].
  rewrite Hskip by (apply fmt_d_nonempty || apply fmt_d_nonspace). cbn [mbind option_bind].
  rewrite Hskip by (apply fmt_d_nonempty || apply fmt_d_nonspace). cbn [mbind option_bind].
  change (String " " (fmt_d (tl_inode l) +:+ ?x)) with (blanks 1 +:+ fmt_d (tl_inode l) +:+ x).
  rewrite scan_decimal by (done || lia). unfold to_i32. rewrite Z.mod_small by lia.
  f_equal. lia.
Qed.

Definition sample_tcp : tcp_line :=
  TcpLine 3 "0100007F:1538" "00000000:0000" "0A" "00000000:00000000" "00:00000000" "00000000"
    10123 0 55501 "1 0000000000000000 100 0 0 10 0".

Lemma raph_uid_witness :
  raph_fields (tcp_text 3 sample_tcp) = ("0100007F:1538", "00000000:0000", "0A", 55501).
Proof.
  rewrite raph_uid_is_inode; [reflexivity|].
  repeat split; first [done | vm_compute; congruence | vm_compute; lia].
Defined.

(** ** Quoting *)

(** The word that the shell of [popen] makes of the text after [-c]: it ends at
    an unquoted blank; [None] for a character with another meaning. *)
Fixpoint shell_word (quoted : bool) (s : string) : option string :=
  match s with
  | EmptyString => if quoted then None else Some ""
  | String c s' =>
      if quoted then
        if Ascii.eqb c "'" then shell_word false s' else String c <$> shell_word true s'
      else if Ascii.eqb c "'" then shell_word true s'
      else if Ascii.eqb c " " then Some ""
      else if char_in (";&|<>()$`\" +:+ QUOTE +:+ NLs) c then None
      else String c <$> shell_word false s'
  end.

Definition RISH_PREFIX : string :=
  "RISH_APPLICATION_ID=com.termux /data/data/com.termux/files/home/Rish/rish -c ".

(** What rish receives as its command. *)
Definition rish_argument (full : string) : option string :=
  shell_word false (sdrop (String.length RISH_PREFIX) full).

Lemma shell_word_quoted cmd r :
  none_of (Ascii.eqb "'") cmd = true →
  shell_word true (cmd +:+ String "'" (String " " r)) = Some cmd.
Proof.
  induction cmd as [|c cmd IH]; [done|]. rewrite none_of_cons. intros [Hc%negb_true_iff Hs]%andb_prop.
  rewrite app_cons_str. cbn [shell_word]. rewrite Ascii.eqb_sym, Hc, IH by done. done.
Qed.

(** The detectors' commands reach rish whole as long as they hold no single
    quote and fit the buffer; the commands that quote a pattern do not: of the
    search for frida-server, rish receives a [grep] without its pattern. *)
Theorem rish_quoting :
  (∀ cmd, none_of (Ascii.eqb "'") cmd = true → (String.length cmd < 1900)%nat →
     rish_argument (rish_full cmd) = Some cmd) ∧
  rish_argument (rish_full "ps -A 2>/dev/null | grep -v grep | grep ' frida-server'") =
    Some "ps -A 2>/dev/null | grep -v grep | grep ".
Proof.
  split; [|vm_compute; reflexivity].
  intros cmd Hq Hl. unfold rish_argument, rish_full.
  rewrite snprintf_id by (unfold scat; rewrite !length_app_str; cbn [String.length]; lia).
  assert (scat ["RISH_APPLICATION_ID=com.termux "; "/data/data/com.termux/files/home/Rish/rish -c '";
    cmd; "' 2>/dev/null"] = RISH_PREFIX +:+ String "'" (cmd +:+ String "'" (String " " "2>/dev/null"))) as ->.
  { unfold scat, RISH_PREFIX. rewrite app_nil_r_str. done. }
  rewrite sdrop_app. cbn [shell_word Ascii.eqb Bool.eqb]. by apply shell_word_quoted.
Qed.

(** ** Donatello's integrity cache *)

Definition same_results (s s' : scan) : Prop := sc_results s' = sc_results s.

Global Instance same_results_preorder : PreOrder same_results.
Proof. split; red; unfold same_results; congruence. Qed.

Section integrity.
Context (reply : nat → string → option string).

(** The three replies about a path, from the [n]-th command on. *)
Definition replies (n : nat) (path hash mtime : string) : Prop :=
  (∃ e, reply n (bridge_full (snprintf 512 (scat ["test -f "; QUOTE; path; QUOTE; " && echo yes"]))) = Some e ∧
        contains e "yes" = true) ∧
  (∃ rest, reply (S n) (bridge_full (snprintf 1024 (scat ["cat "; QUOTE; path; QUOTE;
     " 2>/dev/null | sha256sum"]))) = Some (hash +:+ rest)) ∧
  reply (S (S n)) (bridge_full (snprintf 512 (scat ["stat -c %Y "; QUOTE; path; QUOTE; " 2>/dev/null"]))) =
    Some mtime ∧
  String.length hash = 64%nat.

(** A changed file is noticed once and reported nowhere: of a file with a
    cached record, the check logs a threat exactly when the hash differs, and
    takes the new hash as the reference from then on; and the whole check, on
    any replies, adds no finding, so nothing about integrity reaches the
    database. *)
Theorem integrity_noticed_not_reported path hash mtime rec s can_save :
  replies (length (sc_calls s)) path hash mtime →
  List.find (λ r, String.eqb (fr_path r) path) (sc_cache s) = Some rec →
  result (integrity_path reply path) s = (if String.eqb (fr_hash rec) hash then [] else [path]) ∧
  sc_cache (exec (integrity_path reply path) s) =
    update_record path (λ r, FileRecord (fr_path r) (atol mtime) hash) (sc_cache s) ∧
  sc_results (exec (don_integrity_check reply can_save) s) = sc_results s.
Proof.
  intros ((e & He & Hy) & (rest & Hh) & Hm & Hlen) Hrec.
  assert (integrity_path reply path s =
    (if String.eqb (fr_hash rec) hash then [] else [path],
     set_cache (update_record path (λ r, FileRecord (fr_path r) (atol mtime) hash) (sc_cache s)) true
       (exec (popen reply (bridge_full (snprintf 512 (scat ["stat -c %Y "; QUOTE; path; QUOTE; " 2>/dev/null"]))))
       (exec (popen reply (bridge_full (snprintf 1024 (scat ["cat "; QUOTE; path; QUOTE; " 2>/dev/null | sha256sum"]))))
       (exec (popen reply (bridge_full (snprintf 512 (scat ["test -f "; QUOTE; path; QUOTE; " && echo yes"])))) s))))) as Hrun.
  { unfold integrity_path, compute_sha256_via_rish, rish_pipe_command, popen. unmonad. cbv zeta.
    rewrite He, Hy. cbn [negb sc_calls set_calls]. rewrite length_app. cbn [length].
    replace (length (sc_calls s) + 1)%nat with (S (length (sc_calls s))) by lia.
    rewrite Hh. rewrite (proj2 (Nat.ltb_ge _ _)) by (rewrite length_app_str; lia).
    assert (stake 64 (hash +:+ rest) = hash) as -> by (rewrite <- Hlen; apply stake_app_all).
    cbn [sc_calls set_calls]. rewrite !length_app. cbn [length].
    replace (length (sc_calls s) + 1 + 1)%nat with (S (S (length (sc_calls s)))) by lia.
    rewrite Hm. cbn [sc_cache set_calls]. rewrite Hrec. done. }
  split_and!.
  - unfold result. by rewrite Hrun.
  - unfold exec at 1. by rewrite Hrun.
  - apply (integrity_keeps reply same_results can_save).
    + intros full s'. reflexivity.
    + intros c b s'. reflexivity.
    + intros f s'. reflexivity.
Qed.

End integrity.

Definition letters64 : string := Nat.iter 64 (String "a") "".

(** A device whose file answers with the given hash. *)
Definition hash_reply (n : nat) (full : string) : option string :=
  match n with
  | O => Some ("yes" +:+ NLs)
  | S O => Some (letters64 +:+ "  -" +:+ NLs)
  | _ => Some ("1700000000" +:+ NLs)
  end.

Lemma integrity_witness :
  result (integrity_path hash_reply "/system/etc/hosts")
    (Scan (DetectionList [] 0) [] None [FileRecord "/system/etc/hosts" 0 "old"] true None) =
  ["/system/etc/hosts"].
Proof.
  destruct (integrity_noticed_not_reported hash_reply "/system/etc/hosts" letters64 ("1700000000" +:+ NLs)
    (FileRecord "/system/etc/hosts" 0 "old")
    (Scan (DetectionList [] 0) [] None [FileRecord "/system/etc/hosts" 0 "old"] true None) true) as (H & _).
  - split_and!; [|exists ("  -" +:+ NLs); reflexivity|reflexivity|reflexivity].
    exists ("yes" +:+ NLs). split; reflexivity.
  - reflexivity.
  - rewrite H. reflexivity.
Defined.

(** ** The state of a process *)

(** [/proc/PID/status] is read up to its first line, which holds the name; the
    state is on a later one. *)
Lemma fgets_first n line rest :
  none_of (λ c, Ascii.eqb c NL) line = true → (S (String.length line) < n)%nat →
  fgets n (line +:+ String NL rest) = Some (line +:+ NLs, rest).
Proof.
  intros Hl Hn. unfold fgets. assert (fgets_go (n - 1) (line +:+ String NL rest) = (line +:+ NLs, rest)) as ->.
  { revert Hn. generalize n. clear n. induction line as [|c line IH]; intros n Hn.
    - destruct n as [|[|n]]; cbn in Hn; [lia|lia|]. done.
    - destruct n as [|[|n]]; cbn in Hn; [lia|lia|]. rewrite none_of_cons in Hl.
      apply andb_prop in Hl as [Hc%negb_true_iff Hl]. rewrite app_cons_str.
      replace (S (S n) - 1)%nat with (S (S n - 1)) by lia. cbn [fgets_go].
      rewrite Hc, (IH Hl (S n)) by lia. done. }
  destruct line; done.
Qed.

Section behaviour.
Context (read_file : string → option string) (count_fds : Z → Z).

(** The description of the open-files finding. *)
Definition fd_finding (pid : Z) : M scan unit :=
  mwhen (500 <? count_fds pid) (add_det CLASS_BEHAVIOR PRIORITY_MEDIUM MITRE_T1071 70 "EXCESSIVE_FDS"
    (snprintf SENSEI_MAX_DESCRIPTION (scat ["PID "; fmt_d pid; " has "; fmt_d (count_fds pid);
       " open file descriptors — possible fd leak or exfil"]))).

(** The behaviour detector never sees a process run: whatever the kernel
    writes below the first line of [/proc/PID/status], the state included, a
    process whose name does not spell [R (running)] yields at most the finding
    about its open files. *)
Theorem behaviour_ignores_state pid name rest s :
  pid ≠ 0 →
  read_file (snprintf 128 (scat ["/proc/"; fmt_d pid; "/status"])) =
    Some ("Name:" +:+ String (chr 9) name +:+ String NL rest) →
  none_of is_line_end name = true → (String.length name <= 15)%nat →
  contains ("Name:" +:+ String (chr 9) name) "R (running)" = false →
  exec (don_behavior_analyze read_file count_fds pid) s = exec (fd_finding pid) s.
Proof.
  intros Hpid%Z.eqb_neq Hfile Hname Hlen Hrun. unfold don_behavior_analyze, proc_read.
  rewrite Hpid. change (scat ["/proc/"; fmt_d pid; "/"; "status"]) with (scat ["/proc/"; fmt_d pid; "/status"]).
  rewrite Hfile. change ("Name:" +:+ String (chr 9) name +:+ String NL rest)
    with (("Name:" +:+ String (chr 9) name) +:+ String NL rest).
  remember ("Name:" +:+ String (chr 9) name) as line eqn:Hline.
  assert (none_of is_line_end line = true) as Heol by (rewrite Hline; unfold none_of; cbn; exact Hname).
  assert (String.length line <= 21)%nat as Hll by (rewrite Hline, length_app_str; cbn [String.length]; lia).
  rewrite fgets_first; [|by apply (none_of_weaken is_line_end); [intros c Hc; unfold is_line_end; by rewrite Hc|]|lia].
  assert (trim_end is_line_end (line +:+ NLs) = line) as ->.
  { clear -Heol. induction line as [|c line IH]; [done|]. rewrite none_of_cons in Heol.
    apply andb_prop in Heol as [Hc%negb_true_iff Hl]. rewrite app_cons_str. cbn [trim_end].
    rewrite IH by done. destruct line; [by rewrite Hc|done]. }
  assert (longer 0 line = true) as -> by (by rewrite Hline).
  rewrite Hrun. unfold fd_finding. cbv zeta. by autorewrite with monad.
Qed.

End behaviour.

Definition running_status (path : string) : option string :=
  if String.eqb path "/proc/77/status" then
    Some ("Name:" +:+ String (chr 9) "miner" +:+ String NL ("State:" +:+ String (chr 9) "R (running)"))
  else Some "miner".

Lemma behaviour_witness :
  exec (don_behavior_analyze running_status (λ _, 3) 77) (Scan (DetectionList [] 0) [] None [] false None) =
  Scan (DetectionList [] 0) [] None [] false None.
Proof.
  rewrite (behaviour_ignores_state running_status (λ _, 3) 77 "miner"
    ("State:" +:+ String (chr 9) "R (running)")); [reflexivity|lia|reflexivity|reflexivity|vm_compute; lia|reflexivity].
Defined.

(** ** Memory pressure *)

(** The levels of the memory detector, for the values the kernel prints:
    the percentage stays between 0 and 100, and the finding is critical when
    less than 11 percent of the memory is available, high when less than 21
    percent is, and absent otherwise. *)
Theorem memory_levels reply out total available s :
  reply (length (sc_calls s)) (rish_full "cat /proc/meminfo 2>/dev/null") = Some out →
  meminfo_value "MemTotal:" (token_lines out) = total →
  meminfo_value "MemAvailable:" (token_lines out) = available →
  sc_results s = DetectionList [] 0 → 0 <= available <= total → 0 < total →
  0 <= used_percent total available <= 100 ∧
  det_type <$> dl_nodes (sc_results (exec (don_memorypressure_check reply) s)) =
    if 100 * available <? 11 * total then ["RAM_CRITICAL"]
    else if 100 * available <? 21 * total then ["RAM_HIGH"] else [].
Proof.
  intros Hr Ht Ha Hs Hb Hp.
  assert (used_percent total available = 100 - 100 * available / total) as Hu.
  { unfold used_percent. rewrite Z.quot_div_nonneg, (Z.mul_comm available) by lia.
    assert (0 <= 100 * available / total <= 100) by
      (split; [apply Z.div_pos|apply Z.div_le_upper_bound]; lia).
    unfold to_i32. rewrite Z.mod_small; lia. }
  assert (0 <= 100 * available / total <= 100) as Hq by
    (split; [apply Z.div_pos|apply Z.div_le_upper_bound]; lia).
  split; [lia|].
  unfold don_memorypressure_check, rish_cmd, popen. rewrite exec_bind. unfold exec at 2, result. cbn [fst snd].
  rewrite Hr. cbv zeta. rewrite Ht, Ha, exec_bind, exec_mret, (proj2 (Z.ltb_lt 0 total)) by lia. rewrite Hu.
  assert (∀ k, 0 <= k → (100 - 100 * available / total <? 100 - k) = negb (100 * available <? (k + 1) * total)) as Hk.
  { intros k Hk. destruct (100 * available <? (k + 1) * total) eqn:E; bool_hyps; cbn [negb].
    - apply Z.ltb_ge. assert (100 * available / total < k + 1) by (apply Z.div_lt_upper_bound; lia). lia.
    - apply Z.ltb_lt. assert (k + 1 <= 100 * available / total) by (apply Z.div_le_lower_bound; lia). lia. }
  rewrite !Z.leb_antisym. change 90 with (100 - 10). change 80 with (100 - 20). pose proof (Hk 10 ltac:(lia)) as ->. pose proof (Hk 20 ltac:(lia)) as ->.
  rewrite !negb_involutive. change (10 + 1) with 11. change (20 + 1) with 21.
  destruct (100 * available <? 11 * total); [|destruct (100 * available <? 21 * total)];
    rewrite ?exec_mret; unfold add_det; rewrite ?exec_modify; cbn; rewrite Hs; done.
Qed.

Lemma memory_levels_witness :
  det_type <$> dl_nodes (sc_results (exec (don_memorypressure_check (λ _ _,
    Some ("MemTotal:  8000000 kB" +:+ NLs +:+ "MemAvailable:  1200000 kB" +:+ NLs)))
    (Scan (DetectionList [] 0) [] None [] false None))) = ["RAM_HIGH"].
Proof.
  destruct (memory_levels (λ _ _, Some ("MemTotal:  8000000 kB" +:+ NLs +:+ "MemAvailable:  1200000 kB" +:+ NLs))
    ("MemTotal:  8000000 kB" +:+ NLs +:+ "MemAvailable:  1200000 kB" +:+ NLs) 8000000 1200000
    (Scan (DetectionList [] 0) [] None [] false None)) as [_ H];
    [reflexivity|vm_compute; reflexivity|vm_compute; reflexivity|reflexivity|lia|lia|].
  rewrite H. reflexivity.
Defined.
