(* ===== verification/Backend.v ===== *)
(** * The command backend of the sensor daemons
    ([src/daemon/backend_exec.c], [src/daemon/local_exec.c])

    How a daemon picks a privileged shell, remembers the choice for the other
    daemons, runs one command, and runs several in one go.  What the outside
    world answers is given by parameters: which files are there, what a command
    prints through a pseudo terminal ([pty]) or through [popen] ([sh]), both
    indexed by the number of commands run before, so that two runs of one command
    may differ.  [malloc] is assumed to succeed. *)

From S2P Require Import Prelude CString Double Krang Conv.
From Stdlib Require Import Ascii.

Inductive BACKEND_TYPE := BACKEND_RISH | BACKEND_ADB | BACKEND_DIRECT | BACKEND_ADB_CLI.

#[export] Instance backend_eq_dec : EqDecision BACKEND_TYPE.
Proof. solve_decision. Defined.

Definition backend_code (b : BACKEND_TYPE) : Z :=
  match b with BACKEND_RISH => 0 | BACKEND_ADB => 1 | BACKEND_DIRECT => 2 | BACKEND_ADB_CLI => 3 end.

(** The cast from [int]. *)
Definition backend_of (z : Z) : BACKEND_TYPE :=
  if z =? 0 then BACKEND_RISH else if z =? 1 then BACKEND_ADB
  else if z =? 2 then BACKEND_DIRECT else BACKEND_ADB_CLI.

Definition backend_name (b : BACKEND_TYPE) : string :=
  match b with
  | BACKEND_RISH => "rish" | BACKEND_ADB => "adb" | BACKEND_ADB_CLI => "adb_cli"
  | BACKEND_DIRECT => "direct"
  end.

Definition ADB_PORT_DEFAULT : Z := 5555.
Definition ADB_PORT_SCAN_LO : Z := 30000.
Definition ADB_PORT_SCAN_HI : Z := 45000.
Definition PORTSCAN_PATH : string := "/data/data/com.termux/files/home/MiuiserPeruser/bin/portscan".
Definition ADB_CLI_PATH : string := "/data/data/com.termux/files/home/.cargo/bin/adb_cli".
Definition BEXEC_CACHE_TTL : Z := 300.
Definition BEXEC_CMD_BUDGET : Z := 1450.
Definition BEXEC_MAX_BATCH : nat := 12.

(** ** State *)

(** How a command was run. *)
Inductive launch := ByPty | ByPopen | ByLocal.

Record bexec_state := Bexec {
  bx_now : Z;
  bx_cache : option string;           (* .bexec_backend *)
  bx_modes : gmap string Z;           (* the permission bits of the files *)
  bx_backend : BACKEND_TYPE;          (* g_backend *)
  bx_init : bool;                     (* g_init_done *)
  bx_rish_path : string;              (* g_rish_path *)
  bx_disabled : bool;                 (* g_rish_disabled *)
  bx_transport : string;              (* g_adb_transport *)
  bx_cli : string;                    (* g_adb_cli_transport *)
  bx_calls : list (launch * string)   (* the commands run, oldest first *) }.

Definition set_cache (x : option string) (s : bexec_state) : bexec_state :=
  Bexec (bx_now s) x (bx_modes s) (bx_backend s) (bx_init s) (bx_rish_path s) (bx_disabled s)
    (bx_transport s) (bx_cli s) (bx_calls s).
Definition set_modes (f : gmap string Z → gmap string Z) (s : bexec_state) : bexec_state :=
  Bexec (bx_now s) (bx_cache s) (f (bx_modes s)) (bx_backend s) (bx_init s) (bx_rish_path s)
    (bx_disabled s) (bx_transport s) (bx_cli s) (bx_calls s).
Definition set_backend (x : BACKEND_TYPE) (s : bexec_state) : bexec_state :=
  Bexec (bx_now s) (bx_cache s) (bx_modes s) x (bx_init s) (bx_rish_path s) (bx_disabled s)
    (bx_transport s) (bx_cli s) (bx_calls s).
Definition set_init (x : bool) (s : bexec_state) : bexec_state :=
  Bexec (bx_now s) (bx_cache s) (bx_modes s) (bx_backend s) x (bx_rish_path s) (bx_disabled s)
    (bx_transport s) (bx_cli s) (bx_calls s).
Definition set_rish_path (x : string) (s : bexec_state) : bexec_state :=
  Bexec (bx_now s) (bx_cache s) (bx_modes s) (bx_backend s) (bx_init s) x (bx_disabled s)
    (bx_transport s) (bx_cli s) (bx_calls s).
Definition set_disabled (x : bool) (s : bexec_state) : bexec_state :=
  Bexec (bx_now s) (bx_cache s) (bx_modes s) (bx_backend s) (bx_init s) (bx_rish_path s) x
    (bx_transport s) (bx_cli s) (bx_calls s).
Definition set_transports (x y : string) (s : bexec_state) : bexec_state :=
  Bexec (bx_now s) (bx_cache s) (bx_modes s) (bx_backend s) (bx_init s) (bx_rish_path s)
    (bx_disabled s) x y (bx_calls s).
Definition add_call (l : launch) (cmd : string) (s : bexec_state) : bexec_state :=
  Bexec (bx_now s) (bx_cache s) (bx_modes s) (bx_backend s) (bx_init s) (bx_rish_path s)
    (bx_disabled s) (bx_transport s) (bx_cli s) (bx_calls s ++ [(l, cmd)]).

Abbreviation B := (M bexec_state).

(** ** The pseudo terminal *)

(** The turns of the poll loop that do something, and how it ends: an error, the
    exit of the child or the deadline, the last two with what a final drain
    reads. *)
Inductive pty_end := PtyBroken | PtyExit (drained : list string) | PtyDeadline (drained : list string).

Record pty_run := PtyRun { pty_reads : list string; pty_stop : pty_end }.

(** [if (total + n < outsize - 1) memcpy]: a chunk is taken whole or not at all. *)
Definition take_chunk (outsize : nat) (out chunk : string) : string :=
  if (String.length out + String.length chunk <? outsize - 1)%nat then out +:+ chunk else out.

Definition pty_output (outsize : nat) (run : pty_run) : string :=
  let out := foldl (take_chunk outsize) "" (pty_reads run) in
  match pty_stop run with
  | PtyBroken => out
  | PtyExit drained | PtyDeadline drained => foldl (take_chunk outsize) out drained
  end.

(** The lines of the loop over [fgets(tmp, 4096, f)], up to [room] bytes. *)
Fixpoint collect (room : nat) (lines : list string) : string :=
  match lines with
  | [] => EmptyString
  | l :: lines' =>
      if (room =? 0)%nat then EmptyString
      else
        let tmp := stake room (c_str l) in
        tmp +:+ collect (room - String.length tmp) lines'
  end.

(** Trailing line ends and blanks. *)
Definition local_blank (c : ascii) : bool := is_line_end c || Ascii.eqb c " ".

(** The text before the last slash. *)
Definition before_last (c : ascii) (s : string) : option string :=
  (λ r, stake (String.length s - String.length r - 1) s) <$> after_last c s.

(** Write permission for somebody. *)
Definition writable (mode : Z) : bool := negb (Z.land mode (128 + 16 + 2) =? 0).

Section backend.
Context (pty : nat → string → option pty_run).
Context (sh : nat → string → option (string * Z)).
Context (x_ok r_ok chmod_ok : string → bool).
Context (home : option string) (no_rish can_save : bool).

(** [None] where the function returns -1. *)
Definition run_via_pty (cmd : string) (outsize : nat) : B (option string) := λ s,
  (pty_output outsize <$> pty (length (bx_calls s)) cmd, add_call ByPty cmd s).

Definition popen (l : launch) (cmd : string) : B (option (string * Z)) := λ s,
  (sh (length (bx_calls s)) cmd, add_call l cmd s).

Definition local_exec (cmd : string) : B (option string) :=
  out ← popen ByLocal cmd;
  mret (match out with
        | None => None
        | Some (text, status) =>
            let buf := scat (c_str <$> read_lines 256 text) in
            if negb (status =? 0) && (String.length buf =? 0)%nat then None
            else Some (trim_end local_blank buf)
        end).

(** ** Probing *)

Definition resolve_adb_port : B unit :=
  port ← (if x_ok PORTSCAN_PATH then
            out ← local_exec (snprintf 256 (scat [PORTSCAN_PATH; " "; fmt_d ADB_PORT_SCAN_LO; " ";
                                                  fmt_d ADB_PORT_SCAN_HI; " 127.0.0.1"]));
            mret (match out with
                  | Some o =>
                      if longer 0 o then
                        let found := atoi o in
                        if (0 <? found) && (found <=? 65535) then found else ADB_PORT_DEFAULT
                      else ADB_PORT_DEFAULT
                  | None => ADB_PORT_DEFAULT
                  end)
          else mret ADB_PORT_DEFAULT);
  modify (set_transports
    (snprintf 192 (scat ["/data/data/com.termux/files/home/.cargo/bin/adb_cli tcp 127.0.0.1:";
                         fmt_d port; " shell"]))
    (snprintf 192 (scat ["timeout 5 "; ADB_CLI_PATH; " tcp 127.0.0.1:"; fmt_d port; " shell"]))).

Definition try_run (cmd expected_out : string) : B bool :=
  out ← run_via_pty cmd 128;
  mret (match out with
        | Some o =>
            longer 0 o && String.eqb (break_at is_line_end (c_str o)).1 expected_out
        | None => false
        end).

Definition candidates : list string := ["/Rish/rish"; "/rish"].

(** The permission bits the candidate's dex must not have, after an attempt to
    take them away. *)
Definition dex_readonly (dex : string) : B bool :=
  mode ← gets (λ s, bx_modes s !! dex);
  match mode with
  | None => mret false
  | Some mode =>
      if writable mode then
        if negb (chmod_ok dex) then mret false
        else
          _ ← modify (set_modes (λ m, <[dex := 256]> m));
          mode ← gets (λ s, bx_modes s !! dex);
          mret (match mode with Some mode => negb (writable mode) | None => false end)
      else mret true
  end.

(** One candidate. *)
Definition try_candidate (path : string) : B bool :=
  if negb (x_ok path) then mret false
  else
    match before_last "/" path with
    | None => mret false
    | Some dir =>
        let dex := snprintf 256 (dir +:+ "/rish_shizuku.dex") in
        readonly ← dex_readonly dex;
        if negb readonly || negb (r_ok dex) then mret false
        else
          let probe := snprintf 512 (scat ["RISH_APPLICATION_ID=com.termux "; path; " -c ";
                                           QUOTE; "echo rish_ok"; QUOTE]) in
          first ← try_run probe "rish_ok";
          if first : bool then mret true else try_run probe "rish_ok"
    end.

Fixpoint try_candidates (paths : list string) : B bool :=
  match paths with
  | [] => _ ← modify (set_disabled true); mret false
  | path :: paths' =>
      ok ← try_candidate path;
      if ok : bool then _ ← modify (set_rish_path (snprintf 256 path)); mret true
      else try_candidates paths'
  end.

Definition probe_rish : B bool :=
  disabled ← gets bx_disabled;
  if disabled : bool then mret false
  else if no_rish then _ ← modify (set_disabled true); mret false
  else
    match home with
    | None => _ ← modify (set_disabled true); mret false
    | Some home => try_candidates ((λ c, snprintf 256 (home +:+ c)) <$> candidates)
    end.

Definition probe_adb_cli : B bool :=
  if negb (x_ok ADB_CLI_PATH) then mret false
  else
    cli ← gets bx_cli;
    try_run (snprintf 224 (cli +:+ " echo adb_cli_ok")) "adb_cli_ok".

Definition probe_adb : B bool :=
  transport ← gets bx_transport;
  try_run (snprintf 224 (transport +:+ " echo adb_ok")) "adb_ok".

(** ** The cache *)

(** [fscanf(f, "%ld %d %255s")], the three fields or a failure. *)
Definition cache_fields (text : string) : option (Z * Z * string) :=
  '(ts, r) ← scan_int 10 text;
  '(backend, r) ← scan_int 10 r;
  '(path, _) ← scan_s 255 r;
  Some (Z.max LONG_MIN (Z.min LONG_MAX ts), to_i32 (Z.max LONG_MIN (Z.min LONG_MAX backend)), path).

Definition try_load_cache : B bool :=
  now ← gets bx_now;
  file ← gets bx_cache;
  match (text ← file; cache_fields text) with
  | None => mret false
  | Some (ts, backend, path) =>
      if (backend <? backend_code BACKEND_RISH) || (backend_code BACKEND_ADB_CLI <? backend) then mret false
      else if BEXEC_CACHE_TTL <? now - ts then mret false
      else
        _ ← modify (set_backend (backend_of backend));
        _ ← mwhen (bool_decide (backend_of backend = BACKEND_RISH) && negb (String.eqb path "-"))
              (modify (set_rish_path (snprintf 256 path)));
        mret true
  end.

Definition cache_text (now : Z) (b : BACKEND_TYPE) (path : string) : string :=
  scat [fmt_d now; " "; fmt_d (backend_code b); " "; (if longer 0 path then path else "-"); NLs].

Definition save_cache : B unit :=
  mwhen can_save (modify (λ s, set_cache (Some (cache_text (bx_now s) (bx_backend s) (bx_rish_path s))) s)).

Definition delete_cache : B unit := modify (set_cache None).

(** ** [bexec_init] *)

(** The choice is kept and saved. *)
Definition settle (b : BACKEND_TYPE) : B unit := _ ← modify (set_backend b); save_cache.

Definition bexec_init : B unit :=
  done ← gets bx_init;
  if done : bool then mret tt
  else
    _ ← modify (set_init true);
    cached ← try_load_cache;
    if cached : bool then
      b ← gets bx_backend;
      mwhen (bool_decide (b = BACKEND_ADB) || bool_decide (b = BACKEND_ADB_CLI)) resolve_adb_port
    else
      rish ← probe_rish;
      if rish : bool then settle BACKEND_RISH
      else
        _ ← resolve_adb_port;
        cli ← probe_adb_cli;
        if cli : bool then settle BACKEND_ADB_CLI
        else
          adb ← probe_adb;
          if adb : bool then settle BACKEND_ADB else settle BACKEND_DIRECT.

Definition backend_reprobe : B unit :=
  _ ← modify (set_init false);
  _ ← modify (set_disabled false);
  _ ← modify (set_rish_path "");
  _ ← modify (set_backend BACKEND_DIRECT);
  _ ← delete_cache;
  bexec_init.

(** ** One command *)

Fixpoint escape_for_adb (cmd : string) : string :=
  match cmd with
  | EmptyString => EmptyString
  | String c cmd' =>
      if Ascii.eqb c (chr 34) || Ascii.eqb c BACKSLASH
      then String BACKSLASH (String c (escape_for_adb cmd'))
      else String c (escape_for_adb cmd')
  end.

(** The text given to the local shell; only rish's has a fixed buffer. *)
Definition full_command (s : bexec_state) (cmd : string) : string :=
  match bx_backend s with
  | BACKEND_RISH =>
      snprintf 1600 (scat ["RISH_APPLICATION_ID=com.termux "; bx_rish_path s; " -c "; QUOTE; cmd; QUOTE])
  | BACKEND_ADB_CLI => scat [bx_cli s; " "; QUOTE; cmd; QUOTE; " 2>/dev/null"]
  | BACKEND_ADB => scat [bx_transport s; " "; QUOTE; escape_for_adb cmd; QUOTE; " 2>/dev/null"]
  | BACKEND_DIRECT => cmd +:+ " 2>/dev/null"
  end.

Definition bexec_n (cmd : string) (max_bytes : nat) : B (option string) :=
  done ← gets bx_init;
  _ ← (if done : bool then mret tt else bexec_init);
  let cap := if (0 <? max_bytes)%nat then S max_bytes else Z.to_nat (65536 + 1) in
  b ← gets bx_backend;
  full ← gets (λ s, full_command s cmd);
  if bool_decide (b = BACKEND_RISH) then
    out ← run_via_pty full cap;
    mret (Some (c_str (default "" out)))
  else
    out ← popen ByPopen full;
    mret ((λ o : string * Z, collect (cap - 1) (read_lines 4096 o.1)) <$> out).

Definition bexec (cmd : string) : B (option string) := bexec_n cmd (Z.to_nat 65536).

(** ** Several commands in one *)

Record bexec_batch_item_t := BatchItem { bi_cmd : string; bi_result : option string }.

Definition marker (i : nat) : string := scat ["__BX_"; fmt_d (Z.of_nat i); "__"].

(** The combined command from item [i] on, unless it outgrows [char combined[4096]]. *)
Fixpoint combine (i : nat) (items : list bexec_batch_item_t) (combined : string) : option string :=
  match items with
  | [] => Some combined
  | it :: items' =>
      let text := scat [(if (i =? 0)%nat then "" else "; "); "echo "; marker i; "; "; bi_cmd it] in
      if (4096 - String.length combined <=? String.length text)%nat then None
      else combine (S i) items' (combined +:+ text)
  end.

(** The results: the text after the item's marker, up to the next marker. *)
Fixpoint demux (i : nat) (items : list bexec_batch_item_t) (cursor : string) : list bexec_batch_item_t :=
  match items with
  | [] => []
  | it :: items' =>
      match strstr cursor (marker i) with
      | None => BatchItem (bi_cmd it) None :: demux (S i) items' cursor
      | Some at_marker =>
          let start := skip_while is_line_end (sdrop (String.length (marker i)) at_marker) in
          let stop := match items' with [] => None | _ => strstr start (marker (S i)) end in
          let text := match stop with
                      | Some e => stake (String.length start - String.length e) start
                      | None => start
                      end in
          let res := trim_end is_line_end text in
          BatchItem (bi_cmd it) (Some res) ::
            demux (S i) items' (match stop with Some e => e | None => sdrop (String.length res) start end)
      end
  end.

(** The status, and the items afterwards. *)
Definition bexec_batch (items : list bexec_batch_item_t) : B (Z * list bexec_batch_item_t) :=
  _ ← bexec_init;
  if (length items =? 0)%nat || (BEXEC_MAX_BATCH <? length items)%nat then mret (-1, items)
  else
    match combine 0 items "" with
    | None => mret (-1, items)
    | Some combined =>
        if BEXEC_CMD_BUDGET <? slen combined then mret (-1, items)
        else
          raw ← bexec combined;
          mret (match raw with
                | None => (-1, (λ it, BatchItem (bi_cmd it) None) <$> items)
                | Some raw => (0, demux 0 items raw)
                end)
    end.

End backend.
