(* ===== verification/Batch.v ===== *)
(** * The backend: quoting, reading and batches

    What of a command reaches the privileged shell, what of its output comes
    back, and that a batch gives every command its own output. *)

From S2P Require Import Prelude CString Double Krang Conv Wire Backend.
From Stdlib Require Import Ascii.

(** ** Output *)

(** Everything a pseudo terminal delivered. *)
Definition pty_text (run : pty_run) : string :=
  scat (pty_reads run) +:+
  match pty_stop run with PtyBroken => "" | PtyExit l | PtyDeadline l => scat l end.

Lemma scat_cons x l : scat (x :: l) = x +:+ scat l.
Proof. done. Qed.

Lemma take_chunks_all outsize l : ∀ out,
  (String.length out + String.length (scat l) < outsize - 1)%nat →
  foldl (take_chunk outsize) out l = out +:+ scat l.
Proof.
  induction l as [|c l IH]; intros out Hl; cbn [foldl].
  - by rewrite app_nil_r_str.
  - rewrite scat_cons in *. rewrite length_app_str in Hl. unfold take_chunk at 2.
    rewrite (proj2 (Nat.ltb_lt _ _)) by lia. rewrite IH by (rewrite length_app_str; lia).
    by rewrite app_assoc_str.
Qed.

Lemma pty_complete outsize run :
  (String.length (pty_text run) < outsize - 1)%nat → pty_output outsize run = pty_text run.
Proof.
  unfold pty_text, pty_output. rewrite length_app_str. intros Hl.
  rewrite (take_chunks_all outsize (pty_reads run) "") by (cbn [String.length]; lia).
  rewrite app_nil_l_str. destruct (pty_stop run); [by rewrite app_nil_r_str|..];
    by rewrite take_chunks_all by lia.
Qed.

Lemma none_of_scat f ls : none_of f (scat ls) = forallb (none_of f) ls.
Proof. induction ls as [|l ls IH]; [done|]. by rewrite scat_cons, none_of_app, IH. Qed.

Lemma collect_spec ls : ∀ room,
  none_of (Ascii.eqb NUL) (scat ls) = true → collect room ls = stake room (scat ls).
Proof.
  induction ls as [|l ls IH]; intros room Hn; cbn [collect]; [by destruct room|].
  rewrite scat_cons, none_of_app in Hn. apply andb_prop in Hn as [Hl Hls].
  destruct (Nat.eqb_spec room 0) as [->|Hr]; [done|].
  rewrite c_str_id, IH by done. rewrite scat_cons, stake_app, length_stake. f_equal. f_equal. lia.
Qed.

Lemma fgets_go_split n : ∀ s, (fgets_go n s).1 +:+ (fgets_go n s).2 = s.
Proof.
  induction n as [|n IH]; intros [|c s]; cbn; try done.
  destruct (Ascii.eqb c NL); [done|]. specialize (IH s). destruct (fgets_go n s) as [l r].
  cbn in *. by rewrite app_cons_str, IH.
Qed.

Lemma fgets_lines_all size fuel : ∀ s,
  (2 ≤ size)%nat → (String.length s ≤ fuel)%nat → scat (fgets_lines fuel size s) = s.
Proof.
  induction fuel as [|fuel IH]; intros s Hs Hf.
  { by destruct s; [|cbn in Hf; lia]. }
  destruct s as [|c s]; [done|]. cbn [fgets_lines fgets].
  destruct size as [|[|n]]; [lia..|]. replace (S (S n) - 1)%nat with (S n) by lia.
  pose proof (fgets_go_split (S n) (String c s)) as Heq.
  destruct (fgets_go (S n) (String c s)) as [l r] eqn:Hgo. cbn [fst snd] in Heq.
  rewrite scat_cons, IH; [done|lia|]. apply fgets_go_shorter in Hgo. cbn in Hf. lia.
Qed.

Lemma popen_complete room text :
  none_of (Ascii.eqb NUL) text = true → (String.length text ≤ room)%nat →
  collect room (read_lines 4096 text) = text.
Proof.
  intros Hn Hr. rewrite collect_spec; unfold read_lines; rewrite fgets_lines_all by lia; [|done].
  by rewrite stake_all.
Qed.

(** ** Quoting *)

(** What a POSIX shell reads inside double quotes, up to the closing one, and
    the text behind it; [None] for an expansion or an open quote. *)
Fixpoint dq_word (s : string) : option (string * string) :=
  match s with
  | EmptyString => None
  | String c s' =>
      if Ascii.eqb c (chr 34) then Some ("", s')
      else if char_in "$`" c then None
      else if Ascii.eqb c BACKSLASH then
        match s' with
        | String d s'' =>
            if Ascii.eqb d NL then dq_word s''
            else if char_in (String BACKSLASH ("$`" +:+ QUOTE)) d
            then (λ p, (String d p.1, p.2)) <$> dq_word s''
            else (λ p, (String c p.1, p.2)) <$> dq_word s'
        | EmptyString => None
        end
      else (λ p, (String c p.1, p.2)) <$> dq_word s'
  end.

Definition expands (c : ascii) : bool := char_in "$`" c.
Definition special (c : ascii) : bool := expands c || Ascii.eqb c (chr 34) || Ascii.eqb c BACKSLASH.

Lemma dq_word_plain cmd r :
  none_of special cmd = true → dq_word (cmd +:+ String (chr 34) r) = Some (cmd, r).
Proof.
  induction cmd as [|c cmd IH]; [done|]. rewrite none_of_cons, app_cons_str.
  intros [Hc%negb_true_iff Hs]%andb_prop. unfold special, expands in Hc.
  apply orb_false_iff in Hc as [[Hx Hq]%orb_false_iff Hb]. cbn [dq_word].
  by rewrite Hq, Hx, Hb, IH.
Qed.

Lemma dq_word_open cmd : none_of special cmd = true → dq_word cmd = None.
Proof.
  induction cmd as [|c cmd IH]; [done|]. rewrite none_of_cons.
  intros [Hc%negb_true_iff Hs]%andb_prop. unfold special, expands in Hc.
  apply orb_false_iff in Hc as [[Hx Hq]%orb_false_iff Hb]. cbn [dq_word].
  by rewrite Hq, Hx, Hb, IH.
Qed.

Lemma dq_word_escaped cmd r :
  none_of expands cmd = true →
  dq_word (escape_for_adb cmd +:+ String (chr 34) r) = Some (cmd, r).
Proof.
  induction cmd as [|c cmd IH]; [done|]. rewrite none_of_cons. intros [Hc%negb_true_iff Hs]%andb_prop.
  specialize (IH Hs). cbn [escape_for_adb].
  destruct (Ascii.eqb c (chr 34)) eqn:Hq.
  { apply Ascii.eqb_eq in Hq as ->. cbn [orb]. rewrite !app_cons_str. cbn [dq_word].
    cbn [Ascii.eqb Bool.eqb chr BACKSLASH]. by rewrite IH. }
  destruct (Ascii.eqb c BACKSLASH) eqn:Hb.
  { apply Ascii.eqb_eq in Hb as ->. cbn [orb]. rewrite !app_cons_str. cbn [dq_word].
    by rewrite IH. }
  cbn [orb]. rewrite app_cons_str. cbn [dq_word]. unfold expands in Hc. by rewrite Hq, Hc, Hb, IH.
Qed.

(** The words before the quoted command, and what follows it in the buffer. *)
Definition command_head (s : bexec_state) : string :=
  match bx_backend s with
  | BACKEND_RISH => scat ["RISH_APPLICATION_ID=com.termux "; bx_rish_path s; " -c "; QUOTE]
  | BACKEND_ADB_CLI => scat [bx_cli s; " "; QUOTE]
  | BACKEND_ADB => scat [bx_transport s; " "; QUOTE]
  | BACKEND_DIRECT => ""
  end.

(** The argument that the shell hands to the backend's program. *)
Definition received (s : bexec_state) (cmd : string) : option string :=
  fst <$> dq_word (sdrop (String.length (command_head s)) (full_command s cmd)).

(** Which characters a backend's quoting cannot carry. *)
Definition carried (b : BACKEND_TYPE) (cmd : string) : bool :=
  match b with BACKEND_ADB => none_of expands cmd | _ => none_of special cmd end.

Lemma sdrop_stake n : ∀ m s, sdrop n (stake m s) = stake (m - n) (sdrop n s).
Proof.
  induction n as [|n IH]; intros [|m] [|c s]; cbn [sdrop stake Nat.sub]; try done.
  - by destruct (m - n)%nat.
Qed.

(** The quoted part of a command with a word before it and a redirection behind. *)
Lemma quoted_part program w :
  sdrop (String.length (scat [program; " "; QUOTE])) (scat [program; " "; QUOTE; w; QUOTE; " 2>/dev/null"])
  = w +:+ String (chr 34) " 2>/dev/null".
Proof.
  assert (scat [program; " "; QUOTE; w; QUOTE; " 2>/dev/null"] =
          scat [program; " "; QUOTE] +:+ w +:+ String (chr 34) " 2>/dev/null") as ->.
  { unfold scat. rewrite !app_nil_r_str, !app_assoc_str. done. }
  apply sdrop_app.
Qed.

(** A command reaches the privileged shell as it was written: through adb always
    (but for the characters that the shell expands), through adb_cli and rish
    unless it holds a quote or a backslash, and through rish exactly when it
    fits the 1600-byte buffer; a longer one loses its closing quote, and the
    shell runs nothing. *)
Theorem commands_delivered s cmd :
  bx_backend s ≠ BACKEND_DIRECT → carried (bx_backend s) cmd = true →
  received s cmd =
    if bool_decide (bx_backend s = BACKEND_RISH) && (1600 <? 38 + slen (bx_rish_path s) + slen cmd)
    then None else Some cmd.
Proof.
  unfold received, command_head, full_command, carried, slen. intros Hd Hc.
  destruct (bx_backend s) eqn:Hb; [|..|done|];
    rewrite ?bool_decide_eq_true_2 by done; rewrite ?bool_decide_eq_false_2 by done; cbn [andb].
  - set (p := scat ["RISH_APPLICATION_ID=com.termux "; bx_rish_path s; " -c "; QUOTE]).
    assert (scat ["RISH_APPLICATION_ID=com.termux "; bx_rish_path s; " -c "; QUOTE; cmd; QUOTE]
            = p +:+ cmd +:+ QUOTE) as ->.
    { unfold p, scat. rewrite !app_nil_r_str, !app_assoc_str. done. }
    assert (String.length p = (36 + String.length (bx_rish_path s))%nat) as Hp.
    { unfold p, scat. rewrite !length_app_str. cbn. lia. }
    unfold snprintf. destruct (1600 <? _) eqn:Hl; [apply Z.ltb_lt in Hl|apply Z.ltb_ge in Hl].
    + rewrite sdrop_stake, sdrop_app, stake_app.
      assert (1600 - 1 - String.length p - String.length cmd = 0)%nat as -> by lia.
      cbn [stake QUOTE]. rewrite app_nil_r_str, dq_word_open; [done|by apply none_of_stake].
    + rewrite stake_all by (rewrite !length_app_str, Hp; cbn; lia).
      rewrite sdrop_app. unfold QUOTE. by rewrite dq_word_plain.
  - by rewrite quoted_part, dq_word_escaped.
  - by rewrite quoted_part, dq_word_plain.
Qed.

(** ** Demultiplexing *)

Lemma marker_shape i : (i ≤ 12)%nat →
  ∃ d m, marker i = "__BX_" +:+ String d m ∧ Ascii.eqb d "_" = false.
Proof.
  intros Hi. do 13 (destruct i as [|i]; [eexists _, _; split; vm_compute; reflexivity|]). lia.
Qed.

Lemma has_prefix_short p q s : has_prefix (p +:+ q) s = true → has_prefix p s = true.
Proof.
  revert s. induction p as [|a p IH]; intros [|c s]; try done. rewrite app_cons_str. cbn.
  intros [-> Hp]%andb_prop. by eapply IH.
Qed.

Lemma has_prefix_within p s t :
  (String.length p ≤ String.length s)%nat → has_prefix p (s +:+ t) = has_prefix p s.
Proof.
  revert s. induction p as [|a p IH]; intros [|c s] Hl; cbn in Hl; try done; [lia|].
  rewrite app_cons_str. cbn. by rewrite IH by lia.
Qed.

Lemma contains_cons c s p :
  contains (String c s) p = has_prefix p (String c s) || contains s p.
Proof. unfold contains. cbn [strstr]. by destruct (has_prefix p (String c s)). Qed.

(** A marker is found where it is, behind a text that holds none. *)
Lemma strstr_marker i o r :
  (i ≤ 12)%nat → contains o "__BX_" = false → strstr (o +:+ marker i +:+ r) (marker i) = Some (marker i +:+ r).
Proof.
  intros (d & m & Hm & Hd)%marker_shape. rewrite Hm. set (M := "__BX_" +:+ String d m).
  induction o as [|c o IH].
  - intros _. rewrite app_nil_l_str. unfold strstr. destruct (M +:+ r) eqn:E; rewrite <-E, has_prefix_app; done.
  - rewrite contains_cons. intros [Hp Ho]%orb_false_iff. rewrite app_cons_str.
    cbn [strstr]. rewrite IH by done.
    assert (has_prefix M (String c (o +:+ M +:+ r)) = false) as ->; [|done].
    apply not_true_iff_false. intros Hx.
    destruct o as [|c1 [|c2 [|c3 [|c4 o]]]].
    5: { apply has_prefix_short in Hx.
      change (String c (String c1 (String c2 (String c3 (String c4 o))) +:+ M +:+ r))
        with (String c (String c1 (String c2 (String c3 (String c4 o)))) +:+ (M +:+ r)) in Hx.
      rewrite has_prefix_within in Hx by (cbn; lia). congruence. }
    all: unfold M in Hx; rewrite ?app_cons_str, ?app_nil_l_str, ?app_cons_str, ?app_nil_l_str in Hx;
      cbn [has_prefix] in Hx; change (Ascii.eqb "B" "_") with false in Hx;
      change (Ascii.eqb "X" "_") with false in Hx; rewrite ?Hd, ?andb_false_l, ?andb_false_r in Hx; done.
Qed.

(** No marker in a text without ["__BX_"]. *)
Lemma strstr_no_marker i o : (i ≤ 12)%nat → contains o "__BX_" = false → strstr o (marker i) = None.
Proof.
  intros (d & m & Hm & Hd)%marker_shape. rewrite Hm. induction o as [|c o IH]; [done|].
  rewrite contains_cons. intros [Hp Ho]%orb_false_iff. cbn [strstr]. rewrite IH by done.
  destruct (has_prefix (_ +:+ _) _) eqn:Hx; [|done]. apply has_prefix_short in Hx. congruence.
Qed.

(** What the shell prints for the combined command: every marker, and the output
    of its command behind it; the last commands may be missing. *)
Fixpoint answer (i : nat) (outs : list string) : string :=
  match outs with
  | [] => EmptyString
  | o :: outs' => marker i +:+ o +:+ answer (S i) outs'
  end.

(** An output without the line ends around it. *)
Definition strip (o : string) : string := trim_end is_line_end (skip_while is_line_end o).

(** Every command with its own output, the others without. *)
Fixpoint answered (items : list bexec_batch_item_t) (outs : list string) : list bexec_batch_item_t :=
  match items, outs with
  | it :: items', o :: outs' => BatchItem (bi_cmd it) (Some (strip o)) :: answered items' outs'
  | it :: items', [] => BatchItem (bi_cmd it) None :: answered items' []
  | [], _ => []
  end.

(** An output that could be taken for a marker. *)
Definition marked (o : string) : bool := contains o "__BX_".

Lemma contains_suffix p s t : contains (p +:+ s) t = false → contains s t = false.
Proof.
  induction p as [|c p IH]; [done|]. rewrite app_cons_str, contains_cons.
  intros [_ H]%orb_false_iff. by apply IH.
Qed.

Lemma marked_sdrop n s : marked s = false → marked (sdrop n s) = false.
Proof. destruct (sdrop_suffix n s) as [p Hp]. unfold marked. rewrite Hp at 1. apply contains_suffix. Qed.

Lemma marked_skip f s : marked s = false → marked (skip_while f s) = false.
Proof. destruct (skip_while_suffix f s) as [p Hp]. unfold marked. rewrite Hp at 1. apply contains_suffix. Qed.

Lemma skip_while_app f s c t :
  f c = false → skip_while f (s +:+ String c t) = skip_while f s +:+ String c t.
Proof.
  intros Hc. induction s as [|d s IH]; [by rewrite !app_nil_l_str; cbn; rewrite Hc|].
  rewrite !app_cons_str. cbn [skip_while]. by destruct (f d).
Qed.

Lemma strstr_here p r : strstr (p +:+ r) p = Some (p +:+ r).
Proof. destruct (p +:+ r) eqn:E; cbn [strstr]; by rewrite <-E, has_prefix_app. Qed.

Lemma demux_nothing items : ∀ i cursor,
  (i + length items ≤ 12)%nat → marked cursor = false → demux i items cursor = answered items [].
Proof.
  induction items as [|it items IH]; intros i cursor Hi Hc; [done|]. cbn in Hi. cbn [demux answered].
  rewrite strstr_no_marker by (done || lia). by rewrite IH by (done || lia).
Qed.

Lemma demux_answer items : ∀ i outs,
  (i + length items ≤ 12)%nat → (length outs ≤ length items)%nat →
  Forall (λ o, marked o = false) outs → demux i items (answer i outs) = answered items outs.
Proof.
  induction items as [|it items IH]; intros i [|o outs] Hi Hl Hm; cbn in Hi, Hl; try (done || lia).
  - by apply demux_nothing.
  - inversion_clear Hm as [|?? Ho Hos]. cbn [demux answer answered].
    rewrite strstr_here, sdrop_app. destruct outs as [|o' outs].
    + cbn [answer]. rewrite app_nil_r_str.
      assert (strstr (skip_while is_line_end o) (marker (S i)) = None) as Hn.
      { apply strstr_no_marker; [lia|]. by apply marked_skip. }
      destruct items as [|it' items]; [done|]. rewrite Hn. f_equal.
      apply demux_nothing; [lia|]. by apply marked_sdrop, marked_skip.
    + destruct items as [|it' items]; [cbn in Hl; lia|].
      destruct (marker_shape (S i)) as (d & m & Hd & _); [cbn in Hi; lia|].
      assert (skip_while is_line_end (o +:+ answer (S i) (o' :: outs)) =
              skip_while is_line_end o +:+ answer (S i) (o' :: outs)) as ->.
      { cbn [answer]. rewrite Hd, !app_cons_str. by apply skip_while_app. }
      cbn [answer]. rewrite strstr_marker by (apply marked_skip || (cbn in Hi; lia); done).
      rewrite (length_app_str (skip_while _ _)), Nat.add_sub, stake_app_all. f_equal.
      apply (IH (S i) (o' :: outs)); [cbn in *; lia..|done].
Qed.

(** ** The combined command *)

Fixpoint script (i : nat) (items : list bexec_batch_item_t) : string :=
  match items with
  | [] => EmptyString
  | it :: items' =>
      scat [(if (i =? 0)%nat then "" else "; "); "echo "; marker i; "; "; bi_cmd it] +:+
      script (S i) items'
  end.

Lemma combine_script items : ∀ i c, (String.length c < 4096)%nat →
  combine i items c =
    if (String.length c + String.length (script i items) <? 4096)%nat then Some (c +:+ script i items)
    else None.
Proof.
  induction items as [|it items IH]; intros i c Hc; cbn [combine script].
  - rewrite app_nil_r_str. by rewrite (proj2 (Nat.ltb_lt _ _)) by (cbn; lia).
  - set (text := scat [_; _; _; _; _]). rewrite length_app_str.
    destruct (Nat.leb_spec (4096 - String.length c) (String.length text)) as [H|H].
    + by rewrite (proj2 (Nat.ltb_ge _ _)) by lia.
    + rewrite IH by (rewrite length_app_str; lia). by rewrite length_app_str, Nat.add_assoc, app_assoc_str.
Qed.

Section batch.
Context (pty : nat → string → option pty_run) (sh : nat → string → option (string * Z)).
Context (x_ok r_ok chmod_ok : string → bool) (home : option string) (no_rish can_save : bool).

Abbreviation init := (bexec_init pty sh x_ok r_ok chmod_ok home no_rish can_save).
Abbreviation run_batch := (bexec_batch pty sh x_ok r_ok chmod_ok home no_rish can_save).
Abbreviation run_one := (bexec pty sh x_ok r_ok chmod_ok home no_rish can_save).

(** The shell given the text [full] prints [text]: no NUL byte, and less than the
    64 KiB that [bexec] reads. *)
Definition prints (s : bexec_state) (full text : string) : Prop :=
  none_of (Ascii.eqb NUL) text = true ∧ slen text < 65536 ∧
  match bx_backend s with
  | BACKEND_RISH => ∃ run, pty (length (bx_calls s)) full = Some run ∧ pty_text run = text
  | _ => ∃ status, sh (length (bx_calls s)) full = Some (text, status)
  end.

Lemma bexec_n_output s cmd text max :
  bx_init s = true → prints s (full_command s cmd) text → (0 < max)%nat → (String.length text < max)%nat →
  result (bexec_n pty sh x_ok r_ok chmod_ok home no_rish can_save cmd max) s = Some text.
Proof.
  intros Hi (Hn & _ & Hp) Hm Hl. unfold bexec_n. autorewrite with monad. rewrite Hi.
  autorewrite with monad. rewrite (proj2 (Nat.ltb_lt _ _)) by lia.
  assert (∀ status, collect (S max - 1) (read_lines 4096 (text, status : Z).1) = text) as Hr.
  { intros status. apply popen_complete; [done|]. cbn [fst]. lia. }
  destruct (bx_backend s) eqn:Hb; cbn in Hp.
  2-4: destruct Hp as (status & Hp); rewrite bool_decide_eq_false_2 by done; unfold popen;
    autorewrite with monad; unfold result; cbn [fst]; rewrite Hp;
    cbn [fmap option_fmap option_map]; by rewrite Hr.
  rewrite bool_decide_eq_true_2 by done. autorewrite with monad. unfold run_via_pty, result. cbn [fst].
  destruct Hp as (run & -> & Hrun). cbn [fmap option_fmap option_map default from_option id].
  rewrite pty_complete by (rewrite Hrun; lia). by rewrite Hrun, c_str_id.
Qed.

Lemma bexec_output s cmd text :
  bx_init s = true → prints s (full_command s cmd) text → result (run_one cmd) s = Some text.
Proof.
  intros Hi Hp. pose proof Hp as (_ & Hl & _). unfold slen in Hl. apply bexec_n_output; [done..| |]; lia.
Qed.

(** Only the first line of [bexec_init] touches [g_init_done]. *)
Abbreviation same_init := (λ s s', bx_init s' = bx_init s).

Lemma same_init_modify f : (∀ s, bx_init (f s) = bx_init s) → keeps same_init (modify f).
Proof. intros Hf s. rewrite exec_modify. apply Hf. Qed.

Lemma same_init_pty cmd n : keeps same_init (run_via_pty pty cmd n).
Proof. by intros s. Qed.

Lemma same_init_popen l cmd : keeps same_init (popen sh l cmd).
Proof. by intros s. Qed.

Hint Resolve same_init_pty same_init_popen : mp.

Ltac init_tac := keeps_tac; by apply same_init_modify.

Lemma same_init_resolve : keeps same_init (resolve_adb_port sh x_ok).
Proof. unfold resolve_adb_port, local_exec. init_tac. Qed.

Lemma same_init_candidates paths : keeps same_init (try_candidates pty x_ok r_ok chmod_ok paths).
Proof.
  induction paths as [|p paths IH]; cbn [try_candidates]; [init_tac|].
  unfold try_candidate, dex_readonly, try_run. init_tac.
Qed.

Lemma same_init_settle b : keeps same_init (settle can_save b).
Proof. unfold settle, save_cache. init_tac. Qed.

Hint Resolve same_init_resolve same_init_candidates same_init_settle : mp.

Lemma bexec_init_done s : bx_init (exec init s) = true.
Proof.
  unfold bexec_init. autorewrite with monad. destruct (bx_init s) eqn:Hi; [by autorewrite with monad|].
  autorewrite with monad.
  match goal with |- bx_init (exec ?c (exec ?d ?s0)) = true =>
    assert (keeps same_init c) as Hc; [|assert (keeps same_init d) as Hd]; [| |by rewrite Hc, Hd] end.
  - unfold probe_rish, probe_adb_cli, probe_adb, try_run. init_tac.
  - unfold try_load_cache. init_tac.
Qed.

(** A batch of at most twelve commands within the budget gives every command the
    output that the shell printed for it, without the line ends around it, and
    no result to a command whose marker did not come back; a batch over the
    budget is refused, and runs nothing.  A batch within the budget reaches the
    privileged shell whole if the path of rish has at most 112 bytes. *)
Theorem batch_results items outs s :
  let s1 := exec init s in
  let c := script 0 items in
  (1 ≤ length items ≤ 12)%nat → (length outs ≤ length items)%nat →
  Forall (λ o, marked o = false) outs →
  (slen c <= 1450 → prints s1 (full_command s1 c) (answer 0 outs) →
     result (run_batch items) s = (0, answered items outs) ∧
     (bx_backend s1 ≠ BACKEND_DIRECT → carried (bx_backend s1) c = true → slen (bx_rish_path s1) <= 112 →
      received s1 c = Some c)) ∧
  (1450 < slen c → result (run_batch items) s = (-1, items) ∧ exec (run_batch items) s = s1).
Proof.
  intros s1 c Hi Ho Hm. unfold bexec_batch. autorewrite with monad. fold s1.
  rewrite (proj2 (Nat.eqb_neq _ _)) by lia.
  rewrite (proj2 (Nat.ltb_ge BEXEC_MAX_BATCH _)) by (unfold BEXEC_MAX_BATCH; lia). cbn [orb].
  rewrite combine_script by (cbn; lia). fold c. cbn [String.length Nat.add].
  rewrite app_nil_l_str. unfold BEXEC_CMD_BUDGET, slen. split.
  - intros Hc Hp. rewrite (proj2 (Nat.ltb_lt _ _)) by lia. rewrite (proj2 (Z.ltb_ge _ _)) by lia. split.
    + autorewrite with monad. 
      pose proof (bexec_output s1 c _ (bexec_init_done s) Hp) as Hr. rewrite Hr.
      f_equal. apply demux_answer; [lia|done..].
    + intros Hd Hcar Hpath. rewrite commands_delivered by done. unfold slen.
      rewrite (proj2 (Z.ltb_ge _ _)) by lia. by rewrite andb_false_r.
  - intros Hc. destruct (Nat.ltb_spec (String.length c) 4096).
    + rewrite (proj2 (Z.ltb_lt _ _)) by lia. by autorewrite with monad.
    + by autorewrite with monad.
Qed.
End batch.

(** ** Samples *)

Definition rish_state (path : string) : bexec_state :=
  Bexec 0 None ∅ BACKEND_RISH true path false "" "" [].

(** A shell that answers the sample batch, with the line ends of a terminal. *)
Definition sample_pty (n : nat) (cmd : string) : option pty_run :=
  Some (PtyRun ["__BX_0__" +:+ String (chr 13) NLs; "uid=2000" +:+ String (chr 13) NLs]
          (PtyExit ["__BX_1__" +:+ String (chr 13) NLs])).

Definition sample_items : list bexec_batch_item_t :=
  [BatchItem "id -u" None; BatchItem "getprop ro.debuggable" (Some "old")].

Lemma commands_delivered_witness :
  received (rish_state "/home/Rish/rish") "dumpsys battery" = Some "dumpsys battery".
Proof.
  rewrite (commands_delivered (rish_state "/home/Rish/rish") "dumpsys battery"); [vm_compute; reflexivity|done|].
  vm_compute; reflexivity.
Defined.

Lemma batch_results_witness :
  result (bexec_batch sample_pty (λ _ _, None) (λ _, true) (λ _, true) (λ _, true) None false false
            sample_items) (rish_state "/home/Rish/rish") =
  (0, [BatchItem "id -u" (Some "uid=2000"); BatchItem "getprop ro.debuggable" (Some "")]).
Proof.
  pose proof (batch_results sample_pty (λ _ _, None) (λ _, true) (λ _, true) (λ _, true) None false false
    sample_items [String (chr 13) NLs +:+ "uid=2000" +:+ String (chr 13) NLs; String (chr 13) NLs]
    (rish_state "/home/Rish/rish")) as [H _].
  - cbn. lia.
  - cbn. lia.
  - repeat constructor.
  - destruct H as [H _]; [vm_compute; discriminate| |exact H].
    split_and!; [vm_compute; reflexivity|vm_compute; reflexivity|].
    eexists. split; [reflexivity|vm_compute; reflexivity].
Defined.
