(* ===== verification/Probe.v ===== *)
(** * The backend: one probe for all daemons

    The probes of the backends are slow, so a daemon writes its choice to a file
    that the others read.  The file is read back as it was written, and within
    five minutes no other daemon probes, or decides differently. *)

From S2P Require Import Prelude CString Double Krang Conv Wire Digits Attribution Backend.
From Stdlib Require Import Ascii.

Section probe.
Context (pty : nat → string → option pty_run) (sh : nat → string → option (string * Z)).
Context (x_ok r_ok chmod_ok : string → bool) (home : option string) (no_rish can_save : bool).

Abbreviation init := (bexec_init pty sh x_ok r_ok chmod_ok home no_rish can_save).

(** ** What a probe leaves alone *)

(** A path that survives the cache file. *)
Definition path_ok (p : string) : Prop :=
  (String.length p ≤ 255)%nat ∧ none_of is_space p = true ∧ p ≠ "-".

Definition home_ok : Prop := match home with Some h => none_of is_space h = true | None => True end.

Definition probing (s s' : bexec_state) : Prop :=
  bx_now s' = bx_now s ∧ bx_cache s' = bx_cache s ∧ bx_init s' = bx_init s ∧
  bx_backend s' = bx_backend s ∧ (path_ok (bx_rish_path s) → path_ok (bx_rish_path s')).

Instance probing_preorder : PreOrder probing.
Proof. split; [by intros s|]. intros a b c (?&?&?&?&?) (?&?&?&?&?). split_and!; [congruence..|auto]. Qed.

Lemma probing_modify f : (∀ s, probing s (f s)) → keeps probing (modify f).
Proof. intros Hf s. rewrite exec_modify. apply Hf. Qed.

Lemma probing_pty cmd n : keeps probing (run_via_pty pty cmd n).
Proof. by intros s. Qed.

Lemma probing_popen l cmd : keeps probing (popen sh l cmd).
Proof. by intros s. Qed.

Hint Resolve probing_pty probing_popen : mp.

Lemma probing_try_run cmd e : keeps probing (try_run pty cmd e).
Proof. unfold try_run. keeps_tac. Qed.

Hint Resolve probing_try_run : mp.

Lemma probing_resolve : keeps probing (resolve_adb_port sh x_ok).
Proof.
  unfold resolve_adb_port, local_exec. keeps_tac. by apply probing_modify.
Qed.

Lemma candidate_path_ok h c :
  none_of is_space h = true → c ∈ candidates → path_ok (snprintf 256 (snprintf 256 (h +:+ c))).
Proof.
  intros Hh Hc. unfold snprintf. rewrite stake_stake, Nat.min_id.
  assert (none_of is_space (h +:+ c) = true ∧ (4 < String.length c)%nat) as [Hs Hl].
  { rewrite none_of_app, Hh. unfold candidates in Hc. set_unfold in Hc.
    destruct Hc as [->|Hc]; [|destruct Hc as [->|[]]]; vm_compute; split; (reflexivity || lia). }
  split_and!.
  - rewrite length_stake. lia.
  - by apply none_of_stake.
  - intros He%(f_equal String.length). rewrite length_stake, length_app_str in He.
    change (String.length "-") with 1%nat in He. lia.
Qed.

Lemma probing_candidates paths :
  (∀ p, p ∈ paths → path_ok (snprintf 256 p)) →
  keeps probing (try_candidates pty x_ok r_ok chmod_ok paths).
Proof.
  induction paths as [|p paths IH]; intros Hp; cbn [try_candidates].
  - keeps_tac. by apply probing_modify.
  - unfold try_candidate, dex_readonly. keeps_tac; try by apply probing_modify.
    all: try (apply IH; set_solver).
    apply probing_modify. intros s. split_and!; try done. intros _. apply Hp. set_solver.
Qed.

Lemma probing_rish : home_ok → keeps probing (probe_rish pty x_ok r_ok chmod_ok home no_rish).
Proof.
  unfold home_ok, probe_rish. intros Hh. keeps_tac; try by apply probing_modify.
  apply probing_candidates. intros p. set_unfold. intros (c & -> & Hc). apply candidate_path_ok; [done|].
  set_unfold. tauto.
Qed.

Lemma probing_cli : keeps probing (probe_adb_cli pty x_ok).
Proof. unfold probe_adb_cli. keeps_tac. Qed.

Lemma probing_adb : keeps probing (probe_adb pty).
Proof. unfold probe_adb. keeps_tac. Qed.

(** ** The cache file *)

Lemma cache_read_back t b p :
  0 <= t < 2 ^ 63 → path_ok p →
  cache_fields (cache_text t b p) = Some (t, backend_code b, if longer 0 p then p else "-").
Proof.
  intros Ht (Hl & Hs & Hd). unfold cache_fields, cache_text.
  set (q := if longer 0 p then p else "-").
  assert (q ≠ "" ∧ (String.length q ≤ 255)%nat ∧ none_of is_space q = true) as (Hq & Hql & Hqs).
  { unfold q. destruct p as [|c p]; cbn; split_and!; try done; cbn in *; lia. }
  assert (scat [fmt_d t; " "; fmt_d (backend_code b); " "; q; NLs] =
    blanks 0 +:+ fmt_d t +:+ (blanks 1 +:+ fmt_d (backend_code b) +:+ (" " +:+ q +:+ String NL ""))) as ->.
  { unfold scat. rewrite app_nil_r_str. done. }
  rewrite scan_decimal by (lia || done). cbn [mbind option_bind].
  rewrite scan_decimal by (by destruct b). cbn [mbind option_bind].
  rewrite scan_s_stop by done. cbn [mbind option_bind].
  unfold LONG_MIN, LONG_MAX. do 2 f_equal. f_equal; [lia|]. by destruct b.
Qed.

Definition process (now : Z) (s : bexec_state) : bexec_state :=
  Bexec now (bx_cache s) (bx_modes s) BACKEND_DIRECT false "" false "" "" (bx_calls s).

(** The commands that needed a privileged shell. *)
Definition probes (s : bexec_state) : list (launch * string) :=
  List.filter (λ c, match c.1 with ByLocal => false | _ => true end) (bx_calls s).

(** The daemons that start one after another, at their times. *)
Definition daemons (times : list Z) (s : bexec_state) : bexec_state :=
  foldl (λ s t, exec init (process t s)) s times.

(** What the file says, and what a process makes of it. *)
Lemma load_spec s :
  try_load_cache s =
  match bx_cache s ≫= cache_fields with
  | None => (false, s)
  | Some (ts, b, path) =>
      if ((b <? 0) || (3 <? b)) || (BEXEC_CACHE_TTL <? bx_now s - ts) then (false, s)
      else
        let s' := set_backend (backend_of b) s in
        (true, if bool_decide (backend_of b = BACKEND_RISH) && negb (String.eqb path "-")
               then set_rish_path (snprintf 256 path) s' else s')
  end.
Proof.
  unfold try_load_cache, gets, modify, mwhen, mbind, M_bind, mret, M_ret. cbn -[option_bind cache_fields].
  change (option_bind ?A ?B ?f ?x) with (x ≫= f).
  destruct (bx_cache s ≫= cache_fields) as [[[ts b] path]|]; [|done].
  destruct (_ || _); [done|]. destruct (_ <? _); [done|]. by destruct (_ && _).
Qed.

(** A process that finds no cache ends in a decision, whatever it probed. *)
Lemma init_settles s :
  home_ok → bx_init s = false → bx_cache s = None →
  ∃ b s', probing (set_init true s) s' ∧ exec init s = exec (settle can_save b) s'.
Proof.
  intros Hh Hi Hc. unfold bexec_init. autorewrite with monad. rewrite Hi.
  autorewrite with monad. set (s0 := set_init true s).
  assert (try_load_cache s0 = (false, s0)) as Hl.
  { rewrite load_spec. subst s0. cbn. by rewrite Hc. }
  unfold result at 1, exec at 2. rewrite Hl. cbn [fst snd]. autorewrite with monad.
  set (r := probe_rish _ _ _ _ _ _).
  pose proof (probing_rish Hh s0 : probing s0 (exec r s0)) as Hr.
  destruct (result r s0); [eauto|]. autorewrite with monad.
  set (s1 := exec (resolve_adb_port _ _) _).
  assert (probing s0 s1) as H1 by (etrans; [exact Hr|apply probing_resolve]).
  set (c := probe_adb_cli _ _).
  assert (probing s0 (exec c s1)) as H2 by (etrans; [exact H1|apply probing_cli]).
  destruct (result c s1); [eauto|]. autorewrite with monad.
  set (d := probe_adb _).
  assert (probing s0 (exec d (exec c s1))) as H3 by (etrans; [exact H2|apply probing_adb]).
  destruct (result d _); eauto.
Qed.

Lemma exec_settle b s :
  exec (settle can_save b) s =
  let s' := set_backend b s in
  if can_save then set_cache (Some (cache_text (bx_now s) b (bx_rish_path s))) s' else s'.
Proof. unfold settle, save_cache. autorewrite with monad. by destruct can_save. Qed.

(** Every process leaves the cache as it decided. *)
Lemma init_caches s :
  home_ok → can_save = true → bx_cache s = None → path_ok (bx_rish_path s) → bx_init s = false →
  let s1 := exec init s in
  bx_cache s1 = Some (cache_text (bx_now s) (bx_backend s1) (bx_rish_path s1)) ∧ path_ok (bx_rish_path s1).
Proof.
  intros Hh Hs Hc Hp Hi. destruct (init_settles s Hh Hi Hc) as (b & s' & (Hn & _ & _ & _ & Hp') & Heq).
  cbn in Hn, Hp'. rewrite Heq, exec_settle, Hs. cbn. rewrite Hn. auto.
Qed.

Lemma resolve_local s : probes (exec (resolve_adb_port sh x_ok) s) = probes s.
Proof.
  assert (keeps (λ s s', probes s' = probes s) (resolve_adb_port sh x_ok)) as H; [|apply H].
  unfold resolve_adb_port, local_exec. keeps_tac.
  - intros s0. unfold probes, popen, exec. cbn. rewrite List.filter_app. apply app_nil_r.
  - intros s0. by rewrite exec_modify.
Qed.

Lemma resolve_path s : bx_rish_path (exec (resolve_adb_port sh x_ok) s) = bx_rish_path s.
Proof.
  assert (keeps (λ s s', bx_rish_path s' = bx_rish_path s) (resolve_adb_port sh x_ok)) as H; [|apply H].
  unfold resolve_adb_port, local_exec. keeps_tac; intros s0; [done|by rewrite exec_modify].
Qed.

(** A process that finds a fresh cache takes its word. *)
Lemma init_cached t b p s :
  0 <= t < 2 ^ 63 → path_ok p → bx_cache s = Some (cache_text t b p) → bx_now s <= t + 300 →
  bx_init s = false → bx_rish_path s = "" →
  let s1 := exec init s in
  bx_backend s1 = b ∧ bx_rish_path s1 = (if bool_decide (b = BACKEND_RISH) then p else "") ∧
  bx_cache s1 = bx_cache s ∧ probes s1 = probes s.
Proof.
  intros Ht Hp Hc Hn Hi Hr s1. subst s1. unfold bexec_init. autorewrite with monad. rewrite Hi.
  autorewrite with monad. set (s0 := set_init true s).
  set (s2 := if bool_decide (b = BACKEND_RISH) then set_rish_path p (set_backend b s0) else set_backend b s0).
  assert (try_load_cache s0 = (true, s2)) as Hl.
  { rewrite load_spec. replace (bx_cache s0) with (bx_cache s) by done. rewrite Hc.
    cbn [mbind option_bind]. rewrite cache_read_back by done.
    assert ((BEXEC_CACHE_TTL <? bx_now s0 - t) = false) as ->.
    { apply Z.ltb_ge. unfold BEXEC_CACHE_TTL. change (bx_now s0) with (bx_now s). lia. }
    subst s2. destruct b; try done. destruct Hp as (Hl & _ & Hd). cbn -[String.eqb snprintf].
    destruct p as [|c p]; [|cbn -[String.eqb snprintf]; rewrite (proj2 (String.eqb_neq _ _) Hd), snprintf_id by lia; done].
    subst s0. destruct s; cbn in *. by subst. }
  assert (result try_load_cache s0 = true) as -> by (unfold result; by rewrite Hl).
  assert (exec try_load_cache s0 = s2) as -> by (unfold exec; by rewrite Hl).
  autorewrite with monad.
  assert (∀ c : bool, let s3 := if c then exec (resolve_adb_port sh x_ok) s2 else s2 in
    bx_backend s3 = bx_backend s2 ∧ bx_rish_path s3 = bx_rish_path s2 ∧ bx_cache s3 = bx_cache s2 ∧
    probes s3 = probes s2) as Hk.
  { intros [|]; [|done]. destruct (probing_resolve s2) as (_ & H1 & _ & H2 & _).
    split_and!; [done|apply resolve_path|done|apply resolve_local]. }
  destruct (Hk (bool_decide (bx_backend s2 = BACKEND_ADB) ||
    bool_decide (bx_backend s2 = BACKEND_ADB_CLI))) as (H1 & H2 & H3 & H4).
  rewrite H1, H2, H3, H4. subst s2 s0. by destruct b.
Qed.

(** One probe for all: once a daemon has decided at time [t], any number of
    daemons that start within the next five minutes decide the same, with the
    same path, run no probe, and leave the file as it is; a daemon that starts
    later does not trust the file. *)
Theorem probed_once t times s :
  home_ok → can_save = true → bx_cache s = None → 0 <= t < 2 ^ 63 →
  Forall (λ t', t' <= t + 300) times →
  let s1 := exec init (process t s) in
  let s2 := daemons times s1 in
  bx_cache s2 = bx_cache s1 ∧ probes s2 = probes s1 ∧ bx_backend s2 = bx_backend s1 ∧
  (bx_backend s1 = BACKEND_RISH → bx_rish_path s2 = bx_rish_path s1) ∧
  (∀ t', t + 300 < t' → result try_load_cache (process t' s2) = false).
Proof.
  intros Hh Hs Hc Ht Hts s1.
  destruct (init_caches (process t s) Hh Hs Hc) as [Hc1 Hp1]; [by split_and!; [cbn; lia|..]|done|].
  fold s1 in Hc1, Hp1. change (bx_now (process t s)) with t in Hc1.
  assert (∀ s2 : bexec_state, s2 = s1 ∨
    (∃ t' s3, t' <= t + 300 ∧ s2 = exec init (process t' s3) ∧ bx_cache s3 = bx_cache s1 ∧
       probes s3 = probes s1) →
    bx_cache s2 = bx_cache s1 ∧ probes s2 = probes s1 ∧ bx_backend s2 = bx_backend s1 ∧
    (bx_backend s1 = BACKEND_RISH → bx_rish_path s2 = bx_rish_path s1)) as Hstep.
  { intros s2 [->|(t' & s3 & Ht' & -> & H3 & H4)]; [done|].
    destruct (init_cached t (bx_backend s1) (bx_rish_path s1) (process t' s3)) as (E1 & E2 & E3 & E4);
      try done; [change (bx_cache (process t' s3)) with (bx_cache s3); congruence|].
    rewrite E1, E3, E4. split_and!; [done..|]. intros Hb. by rewrite E2, bool_decide_eq_true_2. }
  assert (∀ ts s2, Forall (λ t', t' <= t + 300) ts →
    bx_cache s2 = bx_cache s1 → probes s2 = probes s1 →
    let s3 := daemons ts s2 in s3 = s2 ∨
    (∃ t' s4, t' <= t + 300 ∧ s3 = exec init (process t' s4) ∧ bx_cache s4 = bx_cache s1 ∧
       probes s4 = probes s1)) as Hall.
  { induction ts as [|t' ts IH]; intros s2 Hf H2 H3; [by left|]. inversion_clear Hf as [|?? Ht' Hf'].
    right. destruct (Hstep (exec init (process t' s2))) as (E1 & E2 & _); [by eauto 10|].
    unfold daemons. cbn [foldl]. fold (daemons ts (exec init (process t' s2))).
    destruct (IH _ Hf' E1 E2) as [->|H]; [by eauto 10|exact H]. }
  intros s2. destruct (Hstep s2) as (E1 & E2 & E3 & E4); [by apply Hall|].
  split_and!; [done..|]. intros t' Ht'. unfold result. rewrite load_spec.
  change (bx_cache (process t' s2)) with (bx_cache s2). rewrite E1, Hc1. cbn [mbind option_bind].
  rewrite cache_read_back by done.
  assert ((BEXEC_CACHE_TTL <? bx_now (process t' s2) - t) = true) as ->.
  { apply Z.ltb_lt. unfold BEXEC_CACHE_TTL. cbn. lia. }
  by rewrite orb_true_r.
Qed.

End probe.

(** A device with rish, which a first daemon finds at time 1000. *)
Definition sample_device : bexec_state :=
  Bexec 0 None {[ "/home/Rish/rish_shizuku.dex" := 420 ]} BACKEND_DIRECT false "" false "" "" [].

Definition rish_answers (n : nat) (cmd : string) : option pty_run :=
  Some (PtyRun ["rish_ok" +:+ NLs] (PtyExit [])).

Abbreviation sample_init :=
  (bexec_init rish_answers (λ _ _, None) (λ _, true) (λ _, true) (λ _, true) (Some "/home") false true).

Lemma probed_once_witness :
  let s1 := exec sample_init (process 1000 sample_device) in
  let s2 := daemons rish_answers (λ _ _, None) (λ _, true) (λ _, true) (λ _, true) (Some "/home") false true
              [1001; 1200; 1300] s1 in
  bx_backend s1 = BACKEND_RISH ∧ bx_rish_path s1 = "/home/Rish/rish" ∧ length (probes s1) = 1%nat ∧
  bx_backend s2 = BACKEND_RISH ∧ probes s2 = probes s1 ∧
  result try_load_cache (process 1301 s2) = false.
Proof.
  intros s1 s2.
  destruct (probed_once rish_answers (λ _ _, None) (λ _, true) (λ _, true) (λ _, true) (Some "/home") false true
    1000 [1001; 1200; 1300] sample_device) as (_ & H1 & H2 & _ & H3).
  1-4: first [done | lia | reflexivity].
  - repeat constructor; lia.
  - assert (bx_backend s1 = BACKEND_RISH) as Hb by (vm_compute; reflexivity).
    split_and!; [exact Hb|vm_compute; reflexivity|vm_compute; reflexivity| |exact H1|apply H3; lia].
    etrans; [exact H2|exact Hb].
Defined.
