(* ===== verification/Idle.v ===== *)
(** * nulld: the polling loop ([main] of [src/daemon/nulld.c])

    Every ten seconds nulld asks whether the screen is on, counts the TCP
    connections and the bytes of the wireless interface, and, while the screen is
    off, compares them with what it saw when the screen went off.  [reply] is
    [null_run]: what the [n]-th command prints, [None] when that is nothing.  The
    second part proves what a night of such readings reports. *)

From S2P Require Import Prelude CString Double Krang Nulld Conv.
From Stdlib Require Import Ascii.

Definition POLL_SEC : Z := 10.
Definition IDLE_SPIKE_THRESHOLD : Z := 5.
Definition IDLE_BYTES_THRESHOLD : Z := 102400.

Definition SUSPICIOUS_IDLE_PKGS : list string :=
  ["com.miui.analytics"; "com.xiaomi.market"; "com.miui.daemon"; "com.xiaomi.finddevice";
   "com.miui.systemAdSolution"; "com.miui.cloudbackup"; "com.miui.cloudservice"; "com.miui.stats"].

#[export] Instance screen_eq_dec : EqDecision screen_state_t.
Proof. solve_decision. Defined.

Record net_snapshot_t := Snapshot { ns_tcp4 : Z; ns_tcp6 : Z; ns_rx : Z; ns_tx : Z; ns_ts : Z }.

Record pkg_sessions_t := PkgSessions { ps_pkg : string; ps_uid : Z; ps_sessions : Z }.

(** The arguments of [gaveld_emit] and of [splinterd_emit]. *)
Inductive nulld_output :=
| ToGaveld (signal : string) (weight : double) (ctx : string)
| ToSplinter (type payload : string).

Record idle := Idle {
  nu_now : Z;
  nu_screen : screen_state_t;                  (* g_screen *)
  nu_prev : screen_state_t;                    (* g_prev_screen *)
  nu_baseline : net_snapshot_t;                (* g_idle_baseline *)
  nu_idle_secs : Z;                            (* g_idle_secs *)
  nu_spikes : Z;                               (* g_spike_count *)
  nu_events : Z;                               (* g_total_events *)
  nu_healthy : bool;                           (* g_adb_healthy *)
  nu_failures : Z;                             (* g_consecutive_failures *)
  nu_sessions : list pkg_sessions_t;           (* g_baseline_sessions *)
  nu_rx0 : Z; nu_tx0 : Z;                      (* baseline_rx, baseline_tx *)
  nu_calls : nat;                              (* commands run *)
  nu_out : list nulld_output;
  nu_reports : list nulld_report               (* the calls of write_json, oldest first *) }.

Definition set_screens (x y : screen_state_t) (s : idle) : idle :=
  Idle (nu_now s) x y (nu_baseline s) (nu_idle_secs s) (nu_spikes s) (nu_events s) (nu_healthy s)
    (nu_failures s) (nu_sessions s) (nu_rx0 s) (nu_tx0 s) (nu_calls s) (nu_out s) (nu_reports s).
Definition set_baseline (b : net_snapshot_t) (s : idle) : idle :=
  Idle (nu_now s) (nu_screen s) (nu_prev s) b (nu_idle_secs s) (nu_spikes s) (nu_events s) (nu_healthy s)
    (nu_failures s) (nu_sessions s) (ns_rx b) (ns_tx b) (nu_calls s) (nu_out s) (nu_reports s).
Definition set_idle_secs (x : Z) (s : idle) : idle :=
  Idle (nu_now s) (nu_screen s) (nu_prev s) (nu_baseline s) x (nu_spikes s) (nu_events s) (nu_healthy s)
    (nu_failures s) (nu_sessions s) (nu_rx0 s) (nu_tx0 s) (nu_calls s) (nu_out s) (nu_reports s).
Definition set_counts (spikes events : Z) (s : idle) : idle :=
  Idle (nu_now s) (nu_screen s) (nu_prev s) (nu_baseline s) (nu_idle_secs s) spikes events (nu_healthy s)
    (nu_failures s) (nu_sessions s) (nu_rx0 s) (nu_tx0 s) (nu_calls s) (nu_out s) (nu_reports s).
Definition set_health (b : bool) (failures : Z) (s : idle) : idle :=
  Idle (nu_now s) (nu_screen s) (nu_prev s) (nu_baseline s) (nu_idle_secs s) (nu_spikes s) (nu_events s) b
    failures (nu_sessions s) (nu_rx0 s) (nu_tx0 s) (nu_calls s) (nu_out s) (nu_reports s).
Definition add_out (o : nulld_output) (s : idle) : idle :=
  Idle (nu_now s) (nu_screen s) (nu_prev s) (nu_baseline s) (nu_idle_secs s) (nu_spikes s) (nu_events s)
    (nu_healthy s) (nu_failures s) (nu_sessions s) (nu_rx0 s) (nu_tx0 s) (nu_calls s) (nu_out s ++ [o])
    (nu_reports s).
Definition add_call (s : idle) : idle :=
  Idle (nu_now s) (nu_screen s) (nu_prev s) (nu_baseline s) (nu_idle_secs s) (nu_spikes s) (nu_events s)
    (nu_healthy s) (nu_failures s) (nu_sessions s) (nu_rx0 s) (nu_tx0 s) (S (nu_calls s)) (nu_out s)
    (nu_reports s).
Definition add_report (r : nulld_report) (s : idle) : idle :=
  Idle (nu_now s) (nu_screen s) (nu_prev s) (nu_baseline s) (nu_idle_secs s) (nu_spikes s) (nu_events s)
    (nu_healthy s) (nu_failures s) (nu_sessions s) (nu_rx0 s) (nu_tx0 s) (nu_calls s) (nu_out s)
    (nu_reports s ++ [r]).
Definition set_now (x : Z) (s : idle) : idle :=
  Idle x (nu_screen s) (nu_prev s) (nu_baseline s) (nu_idle_secs s) (nu_spikes s) (nu_events s) (nu_healthy s)
    (nu_failures s) (nu_sessions s) (nu_rx0 s) (nu_tx0 s) (nu_calls s) (nu_out s) (nu_reports s).

Definition nulld_start (now : Z) : idle :=
  Idle now SCREEN_UNKNOWN SCREEN_UNKNOWN (Snapshot 0 0 0 0 0) 0 0 0 true 0 [] 0 0 0 [] [].

Abbreviation N := (M idle).

(** ** Texts *)

(** [sanitize_field] on a C string. *)
Definition unsafe (c : ascii) : bool :=
  Ascii.eqb c (chr 34) || Ascii.eqb c BACKSLASH || (code c <? 32).

Fixpoint sanitize_field (buf : string) : string :=
  match buf with
  | EmptyString => EmptyString
  | String c buf' => String (if unsafe c then "_"%char else c) (sanitize_field buf')
  end.

(** What [%d] stores of a number. *)
Definition scanned_int (z : Z) : Z := to_i32 (Z.max LONG_MIN (Z.min LONG_MAX z)).

(** Literal characters of a [scanf] format. *)
Definition scan_lit (lit s : string) : option string :=
  if has_prefix lit s then Some (sdrop (String.length lit) s) else None.

(** [" {uid=%d,package=%127[^}]}=%d"], all three fields. *)
Definition session_fields (line : string) : option pkg_sessions_t :=
  r ← scan_lit "{uid=" (skip_while is_space line);
  '(uid, r) ← scan_int 10 r;
  r ← scan_lit ",package=" r;
  let pkg := stake 127 (break_at (Ascii.eqb "}") r).1 in
  if String.eqb pkg "" then None
  else
    r ← scan_lit "}=" (sdrop (String.length pkg) r);
    '(sessions, _) ← scan_int 10 r;
    Some (PkgSessions pkg (scanned_int uid) (scanned_int sessions)).

(** The first baseline entry with the uid. *)
Definition baseline_of (uid : Z) (base : list pkg_sessions_t) : Z :=
  match List.find (λ b, ps_uid b =? uid) base with Some b => ps_sessions b | None => 0 end.

Definition entry_text (p : pkg_sessions_t) (delta : Z) : string :=
  snprintf 256 (scat [ps_pkg p; "(+"; fmt_d delta; ") "]).

(** An entry is added if it leaves room in [char report[512]]. *)
Definition add_entry (report entry : string) : string :=
  if (String.length report + String.length entry <? 511)%nat then report +:+ entry else report.

Section nulld.
Context (reply : nat → string → option string).
Context (strftime : Z → string).

Definition null_run (cmd : string) : N (option string) := λ s,
  (match reply (nu_calls s) cmd with
   | Some out => if longer 0 out then Some out else None
   | None => None
   end, add_call s).

Definition out (o : nulld_output) : N unit := modify (add_out o).

(** ** Readings *)

Definition check_adb_health : N bool :=
  o ← null_run "echo adb_ok";
  let healthy := match o with Some o => contains o "adb_ok" | None => false end in
  failures ← gets nu_failures;
  _ ← modify (set_health healthy (if healthy then 0 else failures + 1));
  mret healthy.

Definition get_screen_state : N screen_state_t :=
  o ← null_run "dumpsys power | grep mWakefulness";
  mret (match o with
        | None => SCREEN_UNKNOWN
        | Some o =>
            if contains o "Asleep" || contains o "Dozing" then SCREEN_OFF
            else if contains o "Awake" then SCREEN_ON else SCREEN_UNKNOWN
        end).

Definition count_of (o : option string) : Z := match o with Some t => atoi t - 1 | None => 0 end.

Definition get_tcp_counts : N (Z * Z) :=
  t4 ← null_run "cat /proc/net/tcp 2>/dev/null | wc -l";
  t6 ← null_run "cat /proc/net/tcp6 2>/dev/null | wc -l";
  mret (count_of t4, count_of t6).

(** Nine [%ld]s: those before the first that fails. *)
Fixpoint scan_longs (n : nat) (s : string) : list Z :=
  match n with
  | O => []
  | S n' =>
      match scan_int 10 s with
      | Some (v, r) => Z.max LONG_MIN (Z.min LONG_MAX v) :: scan_longs n' r
      | None => []
      end
  end.

Definition get_net_bytes : N (Z * Z) :=
  o ← null_run "cat /proc/net/dev 2>/dev/null | grep wlan0";
  mret (match (o ← o; strchr ":" o) with
        | None => (0, 0)
        | Some p => let fields := scan_longs 9 (sdrop 1 p) in (nth 0 fields 0, nth 8 fields 0)
        end).

Definition get_package_sessions (max : nat) : N (list pkg_sessions_t) :=
  raw ← null_run (dq "dumpsys netstats | grep 'uid=.*package='");
  mret (match raw with
        | None => []
        | Some raw =>
            take max ((λ p, PkgSessions (sanitize_field (ps_pkg p)) (ps_uid p) (ps_sessions p)) <$>
                      omap session_fields (token_lines raw))
        end).

(** ** Suspicious transmitters *)

Definition telemetry_text (p : pkg_sessions_t) (delta : Z) : string :=
  snprintf 256 (scat ["Xiaomi telemetry active while idle: "; ps_pkg p; " +"; fmt_d delta; " sessions"]).

Definition check_package (report : string) (p : pkg_sessions_t) : N string :=
  base ← gets nu_sessions;
  let delta := ps_sessions p - baseline_of (ps_uid p) base in
  if 0 <? delta then
    _ ← mfor SUSPICIOUS_IDLE_PKGS (λ known,
          mwhen (contains (ps_pkg p) known) (
            _ ← out (ToGaveld "XIAOMI_IDLE_TELEMETRY" (d_of_Z delta) (telemetry_text p delta));
            out (ToSplinter "XIAOMI_IDLE_TELEMETRY" (telemetry_text p delta))));
    mret (add_entry report (entry_text p delta))
  else mret report.

Fixpoint check_packages (report : string) (ps : list pkg_sessions_t) : N string :=
  match ps with
  | [] => mret report
  | p :: ps' => report ← check_package report p; check_packages report ps'
  end.

Definition check_suspicious_transmitters : N string :=
  current ← get_package_sessions 64;
  check_packages "" current.

(** ** A poll *)

Record reading := Reading { rd_screen : screen_state_t; rd_tcp4 : Z; rd_tcp6 : Z; rd_rx : Z; rd_tx : Z }.

Definition observe : N reading :=
  _ ← check_adb_health;
  screen ← get_screen_state;
  '(tcp4, tcp6) ← get_tcp_counts;
  '(rx, tx) ← get_net_bytes;
  mret (Reading screen tcp4 tcp6 rx tx).

Definition spike_text (delta tcp4 tcp6 secs : Z) : string :=
  snprintf 256 (scat ["CONNECTION SPIKE while idle: +"; fmt_d delta; " connections (tcp4="; fmt_d tcp4;
                      " tcp6="; fmt_d tcp6; ") after "; fmt_d secs; "s idle"]).

Definition data_text (tx rx secs : Z) : string :=
  snprintf 256 (scat ["DATA TRANSMITTED while idle: "; fmt_d (Z.quot tx 1024); "KB tx, ";
                      fmt_d (Z.quot rx 1024); "KB rx after "; fmt_d secs; "s idle"]).

(** The screen just turned off. *)
Definition take_baseline (r : reading) : N unit :=
  _ ← modify (λ s, set_baseline (Snapshot (rd_tcp4 r) (rd_tcp6 r) (rd_rx r) (rd_tx r) (nu_now s)) s);
  modify (set_idle_secs 0).

Definition check_connections (r : reading) : N bool :=
  base ← gets nu_baseline;
  secs ← gets nu_idle_secs;
  let tcp_delta := (rd_tcp4 r + rd_tcp6 r) - (ns_tcp4 base + ns_tcp6 base) in
  if IDLE_SPIKE_THRESHOLD <=? tcp_delta then
    _ ← modify (λ s, set_counts (nu_spikes s + 1) (nu_events s + 1) s);
    let msg := spike_text tcp_delta (rd_tcp4 r) (rd_tcp6 r) secs in
    _ ← out (ToGaveld "IDLE_CONNECTION_SPIKE" (d_of_Z tcp_delta) msg);
    _ ← out (ToSplinter "IDLE_CONNECTION_SPIKE" msg);
    mret true
  else mret false.

Definition check_data (idle_rx_delta idle_tx_delta : Z) : N bool :=
  secs ← gets nu_idle_secs;
  if IDLE_BYTES_THRESHOLD <? idle_tx_delta then
    _ ← modify (λ s, set_counts (nu_spikes s) (nu_events s + 1) s);
    let msg := data_text idle_tx_delta idle_rx_delta secs in
    _ ← out (ToGaveld "IDLE_DATA_TRANSMISSION" (d_of_Z (Z.quot idle_tx_delta 1024)) msg);
    _ ← out (ToSplinter "IDLE_DATA_TRANSMISSION" msg);
    mret true
  else mret false.

(** Every sixty seconds. *)
Definition check_transmitters : N string :=
  secs ← gets nu_idle_secs;
  if (Z.rem secs 60 =? 0) && (0 <? secs) then
    suspicious ← check_suspicious_transmitters;
    _ ← mwhen (longer 0 suspicious) (
          _ ← out (ToGaveld "SUSPICIOUS_IDLE_TRANSMITTER" (d_of_Z 1) suspicious);
          out (ToSplinter "SUSPICIOUS_IDLE_TRANSMITTER" suspicious));
    mret suspicious
  else mret "".

(** What a poll adds to the reading: spike, deltas, suspicious transmitters. *)
Definition monitor (r : reading) : N (bool * Z * Z * string) :=
  _ ← modify (λ s, set_idle_secs (nu_idle_secs s + POLL_SEC) s);
  rx0 ← gets nu_rx0;
  tx0 ← gets nu_tx0;
  let idle_rx_delta := rd_rx r - rx0 in
  let idle_tx_delta := rd_tx r - tx0 in
  spike1 ← check_connections r;
  spike2 ← check_data idle_rx_delta idle_tx_delta;
  suspicious ← check_transmitters;
  mret (spike1 || spike2, idle_rx_delta, idle_tx_delta, suspicious).

Definition react (r : reading) : N unit :=
  prev ← gets nu_prev;
  _ ← modify (set_screens (rd_screen r) prev);
  let off := bool_decide (rd_screen r = SCREEN_OFF) in
  _ ← mwhen (off && bool_decide (prev = SCREEN_ON)) (take_baseline r);
  '(spike, idle_rx_delta, idle_tx_delta, suspicious) ←
     (if off then monitor r else mret (false, 0, 0, ""));
  _ ← mwhen (bool_decide (rd_screen r = SCREEN_ON) && bool_decide (prev = SCREEN_OFF))
        (modify (set_idle_secs 0));
  _ ← modify (λ s, add_report (NulldReport (strftime (nu_now s)) (rd_screen r) (rd_tcp4 r) (rd_tcp6 r)
        (rd_rx r) (rd_tx r) spike (nu_idle_secs s) idle_rx_delta idle_tx_delta suspicious (nu_events s)
        (nu_healthy s) (nu_failures s)) s);
  modify (set_screens (rd_screen r) (rd_screen r)).

Definition poll : N unit := r ← observe; react r.

(** The loop, stopped after [n] polls. *)
Fixpoint polls (n : nat) : N unit :=
  match n with
  | O => mret tt
  | S n' => _ ← poll; _ ← modify (λ s, set_now (nu_now s + POLL_SEC) s); polls n'
  end.

End nulld.

(** ** nulld over a night

    What nulld reports, as a function of the history of its readings: the idle
    time and the deltas refer to the last time the screen went off, the alarms to
    the thresholds. *)

(** ** The history, newest reading first *)

Definition is_off (r : reading) : bool := bool_decide (rd_screen r = SCREEN_OFF).
Definition is_on (r : reading) : bool := bool_decide (rd_screen r = SCREEN_ON).

Definition nothing_seen : reading := Reading SCREEN_UNKNOWN 0 0 0 0.

(** The reading at which the screen last went from on to off. *)
Fixpoint went_off (h : list reading) : reading :=
  match h with
  | b :: ((a :: _) as h') => if is_on a && is_off b then b else went_off h'
  | _ => nothing_seen
  end.

(** The polls with the screen off since it last went on or off. *)
Fixpoint off_polls (h : list reading) : Z :=
  match h with
  | [] => 0
  | b :: h' =>
      (if is_off b then 1 else 0) +
      match h' with
      | a :: _ => if (is_on a && is_off b) || (is_off a && is_on b) then 0 else off_polls h'
      | [] => 0
      end
  end.

Definition new_connections (h : list reading) : Z :=
  match h with
  | [] => 0
  | r :: _ => (rd_tcp4 r + rd_tcp6 r) - (rd_tcp4 (went_off h) + rd_tcp6 (went_off h))
  end.

Definition sent_bytes (h : list reading) : Z :=
  match h with [] => 0 | r :: _ => rd_tx r - rd_tx (went_off h) end.

Definition received_bytes (h : list reading) : Z :=
  match h with [] => 0 | r :: _ => rd_rx r - rd_rx (went_off h) end.

Definition now_off (h : list reading) : bool := match h with r :: _ => is_off r | [] => false end.

Definition connection_alarm (h : list reading) : bool := now_off h && (5 <=? new_connections h).
Definition data_alarm (h : list reading) : bool := now_off h && (102400 <? sent_bytes h).

(** The alarms of the whole history. *)
Fixpoint alarms (h : list reading) : Z :=
  match h with
  | [] => 0
  | _ :: h' => (if connection_alarm h then 1 else 0) + (if data_alarm h then 1 else 0) + alarms h'
  end.

(** The report that the history calls for; time stamp, transmitters and health
    aside. *)
Definition report_for (h : list reading) (r : nulld_report) : Prop :=
  match h with
  | [] => False
  | o :: _ =>
      nr_screen r = rd_screen o ∧ nr_tcp4 r = rd_tcp4 o ∧ nr_tcp6 r = rd_tcp6 o ∧
      nr_rx r = rd_rx o ∧ nr_tx r = rd_tx o ∧
      nr_idle r = 10 * off_polls h ∧
      nr_idle_rx r = (if now_off h then received_bytes h else 0) ∧
      nr_idle_tx r = (if now_off h then sent_bytes h else 0) ∧
      nr_spike r = connection_alarm h || data_alarm h ∧
      nr_events r = alarms h
  end.

Section night.
Context (reply : nat → string → option string) (strftime : Z → string).

(** The readings of [n] polls from a state. *)
Fixpoint readings (n : nat) (s : idle) : list reading :=
  match n with
  | O => []
  | S n' =>
      result (observe reply) s ::
      readings n' (set_now (nu_now (exec (poll reply strftime) s) + POLL_SEC) (exec (poll reply strftime) s))
  end.

(** ** The state, as the history determines it *)

Definition core (s : idle) := (nu_prev s, nu_baseline s, nu_rx0 s, nu_tx0 s, nu_idle_secs s, nu_events s, nu_reports s).

Abbreviation same_core := (λ s s', core s' = core s).

Lemma same_core_modify f : (∀ s, core (f s) = core s) → keeps same_core (modify f).
Proof. intros Hf s. rewrite exec_modify. apply Hf. Qed.

Lemma same_core_run cmd : keeps same_core (null_run reply cmd).
Proof. by intros s. Qed.

Lemma same_core_out o : keeps same_core (out o).
Proof. by apply same_core_modify. Qed.

Hint Resolve same_core_run same_core_out : mp.

Lemma observe_core : keeps same_core (observe reply).
Proof.
  unfold observe, check_adb_health, get_screen_state, get_tcp_counts, get_net_bytes.
  keeps_tac. by apply same_core_modify.
Qed.

Lemma check_packages_core ps : ∀ report, keeps same_core (check_packages report ps).
Proof.
  induction ps as [|p ps IH]; intros report; cbn [check_packages]; unfold check_package; keeps_tac.
  all: apply IH.
Qed.

Lemma transmitters_core : keeps same_core (check_transmitters reply).
Proof.
  unfold check_transmitters, check_suspicious_transmitters, get_package_sessions. keeps_tac.
  all: apply check_packages_core.
Qed.

(** Two turns of the checks. *)
Lemma connections_spec r s :
  let conn := 5 <=? (rd_tcp4 r + rd_tcp6 r) - (ns_tcp4 (nu_baseline s) + ns_tcp6 (nu_baseline s)) in
  result (check_connections r) s = conn ∧
  core (exec (check_connections r) s) =
    (nu_prev s, nu_baseline s, nu_rx0 s, nu_tx0 s, nu_idle_secs s,
     (if conn then 1 else 0) + nu_events s, nu_reports s).
Proof.
  unfold check_connections, IDLE_SPIKE_THRESHOLD, out. autorewrite with monad.
  destruct (5 <=? _); autorewrite with monad; unfold core; cbn [fst snd]; split; try done.
  cbn. by rewrite (Z.add_comm 1).
Qed.

Lemma data_spec rx tx s :
  result (check_data rx tx) s = (102400 <? tx) ∧
  core (exec (check_data rx tx) s) =
    (nu_prev s, nu_baseline s, nu_rx0 s, nu_tx0 s, nu_idle_secs s,
     (if 102400 <? tx then 1 else 0) + nu_events s, nu_reports s).
Proof.
  unfold check_data, IDLE_BYTES_THRESHOLD, out. autorewrite with monad.
  destruct (102400 <? tx); autorewrite with monad; unfold core; split; try done.
  cbn. by rewrite (Z.add_comm 1).
Qed.

Lemma core_inj s s' : core s' = core s →
  nu_prev s' = nu_prev s ∧ nu_baseline s' = nu_baseline s ∧ nu_rx0 s' = nu_rx0 s ∧ nu_tx0 s' = nu_tx0 s ∧
  nu_idle_secs s' = nu_idle_secs s ∧ nu_events s' = nu_events s ∧ nu_reports s' = nu_reports s.
Proof. unfold core. intros [= -> -> -> -> -> -> ->]. done. Qed.

Lemma core_eq s p b rx tx i e l : core s = (p, b, rx, tx, i, e, l) →
  nu_prev s = p ∧ nu_baseline s = b ∧ nu_rx0 s = rx ∧ nu_tx0 s = tx ∧ nu_idle_secs s = i ∧
  nu_events s = e ∧ nu_reports s = l.
Proof. unfold core. by intros [= -> -> -> -> -> -> ->]. Qed.

Lemma monitor_spec r s :
  let conn := 5 <=? (rd_tcp4 r + rd_tcp6 r) - (ns_tcp4 (nu_baseline s) + ns_tcp6 (nu_baseline s)) in
  let data := 102400 <? rd_tx r - nu_tx0 s in
  (∃ suspicious, result (monitor reply r) s =
     (conn || data, rd_rx r - nu_rx0 s, rd_tx r - nu_tx0 s, suspicious)) ∧
  core (exec (monitor reply r) s) =
    (nu_prev s, nu_baseline s, nu_rx0 s, nu_tx0 s, nu_idle_secs s + 10,
     (if data then 1 else 0) + ((if conn then 1 else 0) + nu_events s), nu_reports s).
Proof.
  unfold monitor. autorewrite with monad. set (s0 := set_idle_secs _ s).
  change (nu_rx0 s0) with (nu_rx0 s). change (nu_tx0 s0) with (nu_tx0 s).
  destruct (connections_spec r s0) as [Hr1 (P1&P2&P3&P4&P5&P6&P7)%core_eq]. set (s1 := exec _ s0) in *.
  destruct (data_spec (rd_rx r - nu_rx0 s) (rd_tx r - nu_tx0 s) s1) as [Hr2 (Q1&Q2&Q3&Q4&Q5&Q6&Q7)%core_eq].
  set (s2 := exec _ s1) in *.
  pose proof (transmitters_core s2) as (R1&R2&R3&R4&R5&R6&R7)%core_inj.
  rewrite Hr1, Hr2. split; [by eexists|]. unfold core.
  rewrite R1, R2, R3, R4, R5, R6, R7, Q1, Q2, Q3, Q4, Q5, Q6, Q7, P1, P2, P3, P4, P5, P6, P7. done.
Qed.

(** The screen at the last reading. *)
Definition last_screen (h : list reading) : screen_state_t :=
  match h with r :: _ => rd_screen r | [] => SCREEN_UNKNOWN end.

Lemma went_off_step r h :
  went_off (r :: h) = if bool_decide (last_screen h = SCREEN_ON) && is_off r then r else went_off h.
Proof. by destruct h. Qed.

Lemma off_polls_step r h :
  off_polls (r :: h) =
    (if is_off r then 1 else 0) +
    (if (bool_decide (last_screen h = SCREEN_ON) && is_off r) ||
        (bool_decide (last_screen h = SCREEN_OFF) && is_on r) then 0 else off_polls h).
Proof. by destruct h; cbn; rewrite ?orb_diag. Qed.

(** The screen just turned off, or back on. *)
Definition turned_off (h : list reading) (r : reading) : bool :=
  bool_decide (rd_screen r = SCREEN_OFF) && bool_decide (last_screen h = SCREEN_ON).
Definition turned_on (h : list reading) (r : reading) : bool :=
  bool_decide (rd_screen r = SCREEN_ON) && bool_decide (last_screen h = SCREEN_OFF).

(** The baseline is that of the history [g], idle time and alarms those of [h]. *)
Record follows (g : list reading) (idle_secs events : Z) (s : idle) : Prop := Follows {
  fo_tcp4 : ns_tcp4 (nu_baseline s) = rd_tcp4 (went_off g);
  fo_tcp6 : ns_tcp6 (nu_baseline s) = rd_tcp6 (went_off g);
  fo_rx : nu_rx0 s = rd_rx (went_off g);
  fo_tx : nu_tx0 s = rd_tx (went_off g);
  fo_idle : nu_idle_secs s = idle_secs;
  fo_events : nu_events s = events }.

Definition tracks (h : list reading) (s : idle) : Prop :=
  nu_prev s = last_screen h ∧ follows h (10 * off_polls h) (alarms h) s.

Lemma baseline_follows h r s :
  follows h (10 * off_polls h) (alarms h) s →
  follows (r :: h) (if turned_off h r then 0 else 10 * off_polls h) (alarms h)
    (if turned_off h r then exec (take_baseline r) s else s).
Proof.
  intros [H4 H6 Hrx Htx Hi He]. unfold take_baseline. autorewrite with monad.
  split; rewrite ?went_off_step, ?(andb_comm (bool_decide (last_screen h = SCREEN_ON)));
    unfold is_off; fold (turned_off h r); by destruct (turned_off h r).
Qed.

(** A poll with the screen off. *)
Lemma off_follows h r s :
  is_off r = true →
  follows (r :: h) (if turned_off h r then 0 else 10 * off_polls h) (alarms h) s →
  follows (r :: h) (10 * off_polls (r :: h)) (alarms (r :: h)) (exec (monitor reply r) s) ∧
  nu_reports (exec (monitor reply r) s) = nu_reports s ∧
  ∃ suspicious, result (monitor reply r) s =
    (connection_alarm (r :: h) || data_alarm (r :: h), received_bytes (r :: h), sent_bytes (r :: h), suspicious).
Proof.
  intros Hoff [H4 H6 Hrx Htx Hi He].
  destruct (monitor_spec r s) as [[susp Hres] (C1&C2&C3&C4&C5&C6&C7)%core_eq].
  assert (connection_alarm (r :: h) = (5 <=? rd_tcp4 r + rd_tcp6 r -
            (ns_tcp4 (nu_baseline s) + ns_tcp6 (nu_baseline s)))) as Hconn.
  { rewrite H4, H6. unfold connection_alarm, now_off. by rewrite Hoff. }
  assert (data_alarm (r :: h) = (102400 <? rd_tx r - nu_tx0 s)) as Hdata.
  { rewrite Htx. unfold data_alarm, now_off. by rewrite Hoff. }
  rewrite Hres, Hconn, Hdata, Hrx, Htx. split; [|split; [done|by eexists]].
  split; rewrite ?C2, ?C3, ?C4, ?C5, ?C6, ?Hi, ?He; try done.
  - rewrite off_polls_step, Hoff. unfold turned_off.
    apply bool_decide_eq_true in Hoff as Hs. unfold is_on. rewrite Hs, (andb_comm (bool_decide (last_screen h = SCREEN_OFF))).
    cbn [andb bool_decide decide_rel screen_eq_dec orb]. rewrite andb_true_r.
    change (bool_decide (SCREEN_OFF = SCREEN_OFF)) with true. change (bool_decide (SCREEN_OFF = SCREEN_ON)) with false.
    cbn [andb]. rewrite orb_false_r. destruct (bool_decide _); lia.
  - cbn [alarms]. rewrite Hconn, Hdata. lia.
Qed.

(** A poll with the screen on or unknown. *)
Lemma on_follows h r s :
  is_off r = false →
  follows (r :: h) (10 * off_polls h) (alarms h) s →
  follows (r :: h) (10 * off_polls (r :: h)) (alarms (r :: h)) (if turned_on h r then set_idle_secs 0 s else s).
Proof.
  intros Hoff [H4 H6 Hrx Htx Hi He].
  assert (alarms (r :: h) = alarms h) as ->.
  { cbn [alarms]. unfold connection_alarm, data_alarm, now_off. by rewrite Hoff. }
  rewrite off_polls_step, Hoff, andb_false_r, (andb_comm (bool_decide (last_screen h = SCREEN_OFF))).
  unfold is_on. fold (turned_on h r). by destruct (turned_on h r); split.
Qed.

Lemma follows_screens g i e x y s : follows g i e (set_screens x y s) ↔ follows g i e s.
Proof. by split; intros []. Qed.

Lemma follows_report g i e x s : follows g i e (add_report x s) ↔ follows g i e s.
Proof. by split; intros []. Qed.

Lemma react_tracks h s r :
  tracks h s →
  let s' := exec (react reply strftime r) s in
  tracks (r :: h) s' ∧ ∃ rep, nu_reports s' = nu_reports s ++ [rep] ∧ report_for (r :: h) rep.
Proof.
  intros [Hp Hf]. unfold react. autorewrite with monad. rewrite Hp.
  apply (follows_screens _ _ _ (rd_screen r) (last_screen h)) in Hf.
  apply (baseline_follows h r) in Hf.
  change (bool_decide (rd_screen r = SCREEN_OFF) && bool_decide (last_screen h = SCREEN_ON)) with (turned_off h r).
  set (s2 := if turned_off h r then exec (take_baseline r) _ else _) in *.
  assert (nu_reports s2 = nu_reports s) as Hr by (subst s2; by destruct (turned_off h r)).
  change (bool_decide (rd_screen r = SCREEN_OFF)) with (is_off r). cbv zeta.
  change (bool_decide (rd_screen r = SCREEN_ON) && bool_decide (last_screen h = SCREEN_OFF)) with (turned_on h r).
  clearbody s2. destruct (is_off r) eqn:Hoff.
  - destruct (off_follows h r s2 Hoff Hf) as (Hf' & Hr' & susp & Hres). rewrite Hres. cbn beta iota.
    autorewrite with monad.
    replace (turned_on h r) with false by (unfold turned_on; apply bool_decide_eq_true in Hoff as ->; done).
    split; [split; [done|]; by rewrite follows_screens, follows_report|].
    eexists. split; [cbn; by rewrite Hr', Hr|]. split_and!; try done; [apply Hf'|..|apply Hf'].
    + by replace (now_off (r :: h)) with true.
    + by replace (now_off (r :: h)) with true.
  - replace (turned_off h r) with false in Hf by (unfold turned_off; unfold is_off in Hoff; by rewrite Hoff).
    pose proof (on_follows h r s2 Hoff Hf) as Hf'. cbn beta iota. autorewrite with monad.
    split; [split; [done|]; by rewrite follows_screens, follows_report|].
    set (s3 := if turned_on h r then set_idle_secs 0 s2 else s2) in *.
    assert (nu_reports s3 = nu_reports s2) as Hr3 by (subst s3; by destruct (turned_on h r)).
    eexists. split; [cbn; by rewrite Hr3, Hr|].
    unfold report_for, connection_alarm, data_alarm, now_off. rewrite Hoff.
    split_and!; try done; apply Hf'.
Qed.

Lemma tracks_core h s s' : core s' = core s → tracks h s → tracks h s'.
Proof.
  intros (C1&C2&C3&C4&C5&C6&_)%core_inj [? [? ? ? ? ? ?]].
  split; [by rewrite C1|]. split; rewrite ?C2, ?C3, ?C4, ?C5, ?C6; done.
Qed.

(** One turn of the loop. *)
Abbreviation turn s := (set_now (nu_now (exec (poll reply strftime) s) + POLL_SEC) (exec (poll reply strftime) s)).

Lemma poll_tracks h s :
  tracks h s →
  let r := result (observe reply) s in
  tracks (r :: h) (turn s) ∧
  ∃ rep, nu_reports (turn s) = nu_reports s ++ [rep] ∧ report_for (r :: h) rep.
Proof.
  intros Ht r. unfold poll. rewrite exec_bind. fold r.
  pose proof (observe_core s) as Hc. apply core_inj in Hc as Hr. destruct Hr as (_&_&_&_&_&_&Hr).
  destruct (react_tracks h (exec (observe reply) s) r) as [Ht' (rep & Hrep & Hfor)];
    [by apply (tracks_core h s)|].
  rewrite Hr in Hrep. split; [by eapply tracks_core; [|exact Ht']|]. exists rep. by split.
Qed.

Lemma exec_polls n s : exec (polls reply strftime (S n)) s = exec (polls reply strftime n) (turn s).
Proof. cbn [polls]. by autorewrite with monad. Qed.

Lemma polls_history n : ∀ past s,
  tracks past s →
  ∃ reps, nu_reports (exec (polls reply strftime n) s) = nu_reports s ++ reps ∧ length reps = n ∧
    ∀ i rep, reps !! i = Some rep → report_for (rev (take (S i) (readings n s)) ++ past) rep.
Proof.
  induction n as [|n IH]; intros past s Ht.
  - exists []. cbn [polls]. autorewrite with monad. rewrite app_nil_r. split_and!; done.
  - rewrite exec_polls. destruct (poll_tracks past s Ht) as [Ht' (rep0 & Hrep & Hfor)].
    destruct (IH _ _ Ht') as (reps & Hreps & Hlen & Hall).
    exists (rep0 :: reps). rewrite Hreps, Hrep, <-app_assoc. split_and!; [done|cbn; by rewrite Hlen|].
    intros [|i] rep; cbn [lookup list_lookup].
    + intros [= <-]. exact Hfor.
    + intros Hi. cbn [readings take rev]. rewrite <-app_assoc. by apply Hall.
Qed.

(** C20. nulld reports what happened since the screen went off: in a run of [n]
    polls from a fresh start, whatever the commands answer, the report of the
    [i]-th poll shows that poll's readings, ten seconds for every poll with the
    screen off since it last went on or off, the bytes since the reading at which
    it last went off (since boot when it never did), an alarm exactly for five
    new connections or more than 100 KiB sent, and the number of all alarms so
    far. *)
Theorem reports_since_screen_off n now i rep :
  let s := exec (polls reply strftime n) (nulld_start now) in
  length (nu_reports s) = n ∧
  (nu_reports s !! i = Some rep → report_for (rev (take (S i) (readings n (nulld_start now)))) rep).
Proof.
  intros s. destruct (polls_history n [] (nulld_start now)) as (reps & Hreps & Hlen & Hall); [done|].
  cbn in Hreps. subst s. rewrite Hreps. split; [done|]. intros Hi%Hall. by rewrite app_nil_r in Hi.
Qed.

End night.

Lemma reports_since_screen_off_witness :
  let reply := (λ n cmd, if contains cmd "power" then Some (if (n =? 1)%nat then "Awake" else "Asleep")
                         else if contains cmd "tcp6" then Some (if (n <? 10)%nat then "1" else "7")
                         else None) in
  let s := exec (polls reply (λ _, "") 3) (nulld_start 0) in
  ∃ rep, nu_reports s !! 2%nat = Some rep ∧ nr_spike rep = true ∧
    report_for (rev (take 3 (readings reply (λ _, "") 3 (nulld_start 0)))) rep.
Proof.
  cbv zeta. eexists. split; [vm_compute; reflexivity|]. split; [reflexivity|].
  apply (reports_since_screen_off _ (λ _, "") 3 0 2). vm_compute. reflexivity.
Defined.
