(* ===== verification/Alarm.v ===== *)
(** * nulld's alarms in gaveld

    The signals nulld sends over a run of its loop cross the pipe: every one is
    a record that fits its line, and gaveld queues them all.  What the daemon
    convicts by them is nulld itself. *)

From S2P Require Import Prelude CString Double Strtod Config Db Weights Tier World Ingest Scorer Wire Bounds Numbers Lengths Krang Conv Nulld Idle Batch.
From Stdlib Require Import Ascii.

(** ** What nulld sends *)

Definition nulld_emissions (outs : list nulld_output) : list emission :=
  omap (λ o, match o with
             | ToGaveld signal weight ctx => Some ("nulld", signal, weight, ctx)
             | ToSplinter _ _ => None
             end) outs.

(** A message for gaveld that crosses the pipe. *)
Definition crosses (o : nulld_output) : Prop :=
  match o with
  | ToGaveld signal weight ctx => emission_ok "nulld" signal ctx ∧ canon weight = true
  | ToSplinter _ _ => True
  end.

Abbreviation all_cross := (λ s, Forall crosses (nu_out s)).

(** A text without line breaks. *)
Abbreviation unbroken s := (none_of (char_in NLs) s = true).

Lemma fmt_d_unbroken z : unbroken (fmt_d z).
Proof. apply (numeric_none _ _ numeric_no_newline), fmt_d_numeric. Qed.

Lemma sanitize_unbroken s : unbroken (sanitize_field s).
Proof.
  induction s as [|c s IH]; [done|]. cbn [sanitize_field]. rewrite none_of_cons, IH, andb_true_r.
  destruct (unsafe c) eqn:Hc; [done|]. destruct c as [[] [] [] [] [] [] [] []]; try done; discriminate Hc.
Qed.

Lemma snprintf_unbroken n s : unbroken s → unbroken (snprintf n s).
Proof. apply none_of_stake. Qed.

Lemma length_snprintf n s : (String.length (snprintf n s) ≤ n - 1)%nat.
Proof. unfold snprintf. rewrite length_stake. lia. Qed.

(** The texts that [out] sends. *)
Lemma spike_unbroken d t4 t6 secs : unbroken (spike_text d t4 t6 secs).
Proof. apply snprintf_unbroken. rewrite none_of_scat. cbn [forallb]. by rewrite !fmt_d_unbroken. Qed.

Lemma data_unbroken tx rx secs : unbroken (data_text tx rx secs).
Proof. apply snprintf_unbroken. rewrite none_of_scat. cbn [forallb]. by rewrite !fmt_d_unbroken. Qed.

Lemma telemetry_unbroken p d : unbroken (ps_pkg p) → unbroken (telemetry_text p d).
Proof.
  intros Hp. apply snprintf_unbroken. rewrite none_of_scat. cbn [forallb]. by rewrite Hp, !fmt_d_unbroken.
Qed.

Lemma entry_unbroken p d : unbroken (ps_pkg p) → unbroken (entry_text p d).
Proof.
  intros Hp. apply snprintf_unbroken. rewrite none_of_scat. cbn [forallb]. by rewrite Hp, !fmt_d_unbroken.
Qed.

(** A context nulld may send: [char report[512]] or [char msg[256]]. *)
Definition ctx_ok (s : string) : Prop := unbroken s ∧ (String.length s < CTX_LEN)%nat.

Lemma text_ok s : unbroken (snprintf 256 s) → ctx_ok (snprintf 256 s).
Proof. intros Hs. split; [done|]. pose proof (length_snprintf 256 s). unfold CTX_LEN. lia. Qed.

Lemma add_entry_ok report entry : ctx_ok report → unbroken entry → ctx_ok (add_entry report entry).
Proof.
  intros [Hr Hl] He. unfold add_entry. destruct (Nat.ltb_spec (String.length report + String.length entry) 511); [|done].
  split; [by rewrite none_of_app, Hr, He|]. rewrite length_app_str. unfold CTX_LEN. lia.
Qed.

Lemma nulld_crosses signal k ctx :
  field_ok signal → (String.length signal < SIGNAL_LEN)%nat → ctx_ok ctx →
  crosses (ToGaveld signal (d_of_Z k) ctx).
Proof.
  intros Hs Hl [Hc Hcl]. split; [|apply d_of_Z_canon].
  by split; [split_and!|..]; try done; unfold SOURCE_LEN; cbn; lia.
Qed.

Section alarm.
Context (reply : nat → string → option string) (strftime : Z → string).

Lemma modify_cross f : (∀ s, nu_out (f s) = nu_out s) → preserves all_cross (modify f).
Proof. intros Hf s. rewrite exec_modify, Hf. done. Qed.

Lemma run_cross cmd : preserves all_cross (null_run reply cmd).
Proof. by intros s. Qed.

Lemma out_cross o : crosses o → preserves all_cross (out o).
Proof.
  intros Ho s Hs. unfold out. rewrite exec_modify. cbn. apply Forall_app. by split; [|constructor].
Qed.

Lemma splinter_cross t p : preserves all_cross (out (ToSplinter t p)).
Proof. by apply out_cross. Qed.

Hint Resolve run_cross splinter_cross : mp.
Hint Extern 1 (keeps _ (modify _)) => apply modify_cross; by intros [] : mp.

Ltac signal_tac := apply nulld_crosses; [by split_and!|unfold SIGNAL_LEN; cbn; lia|].

Lemma packages_cross ps : ∀ report s,
  Forall (λ p, unbroken (ps_pkg p)) ps → ctx_ok report → all_cross s →
  all_cross (exec (check_packages report ps) s) ∧ ctx_ok (result (check_packages report ps) s).
Proof.
  induction ps as [|p ps IH]; intros report s Hps Hr Hs; cbn [check_packages]; [done|].
  apply Forall_cons in Hps as [Hp Hps]. rewrite exec_bind, result_bind. apply IH; [done|..].
  - unfold check_package. autorewrite with monad. cbv zeta. destruct (0 <? _); autorewrite with monad; done || idtac.
    by apply add_entry_ok, entry_unbroken.
  - revert s Hs. change (preserves all_cross (check_package report p)). unfold check_package. keeps_tac.
    apply out_cross. signal_tac. by apply text_ok, telemetry_unbroken.
Qed.

Lemma sessions_unbroken s :
  Forall (λ p, unbroken (ps_pkg p)) (result (get_package_sessions reply 64) s).
Proof.
  unfold get_package_sessions. autorewrite with monad. destruct (result _ s) as [raw|]; [|constructor].
  apply Forall_take, Forall_fmap, Forall_true. intros p. apply sanitize_unbroken.
Qed.

Lemma suspicious_cross s : all_cross s →
  all_cross (exec (check_suspicious_transmitters reply) s) ∧
  ctx_ok (result (check_suspicious_transmitters reply) s).
Proof.
  intros Hs. unfold check_suspicious_transmitters. rewrite exec_bind, result_bind.
  apply packages_cross; [apply sessions_unbroken|by split; [|unfold CTX_LEN; cbn; lia]|].
  revert s Hs. change (preserves all_cross (get_package_sessions reply 64)).
  unfold get_package_sessions. keeps_tac.
Qed.

Lemma transmitters_cross : preserves all_cross (check_transmitters reply).
Proof.
  intros s Hs. unfold check_transmitters. autorewrite with monad.
  destruct (_ && _); [|done]. destruct (suspicious_cross s Hs) as [Hs' Hr].
  autorewrite with monad. destruct (longer 0 _); [|done].
  apply splinter_cross, out_cross; [|done]. by signal_tac.
Qed.

Lemma react_cross r : preserves all_cross (react reply strftime r).
Proof.
  unfold react, monitor, take_baseline, check_connections, check_data.
  keeps_tac; first [apply transmitters_cross|apply out_cross; signal_tac; apply text_ok].
  - apply spike_unbroken.
  - apply data_unbroken.
Qed.

Lemma poll_cross : preserves all_cross (poll reply strftime).
Proof.
  unfold poll, observe, check_adb_health, get_screen_state, get_tcp_counts, get_net_bytes.
  keeps_tac. apply react_cross.
Qed.

Lemma polls_cross n : preserves all_cross (polls reply strftime n).
Proof.
  induction n as [|n IH]; cbn [polls]; keeps_tac; first [apply poll_cross|apply IH].
Qed.

(** C19. Every alarm of nulld arrives: over a run of [n] polls from a fresh
    start, whatever the commands answer, gaveld's ingest thread queues one record
    for each signal nulld emitted, in order, with its name, its weight as printed
    and its whole context, and nothing else. *)
Theorem night_reaches_gaveld n now w :
  let es := nulld_emissions (nu_out (exec (polls reply strftime n) (nulld_start now))) in
  exec (ingest_thread (scat (map line_of es))) w = exec (mfor (map emission_record es) queue_push) w.
Proof.
  cbv zeta. apply ingest_sent.
  pose proof (polls_cross n (nulld_start now) (Forall_nil_2 _)) as H.
  induction H as [|[signal weight ctx|] outs Ho _ IH]; cbn; [constructor| |done].
  by constructor.
Qed.

End alarm.

(** ** Whom they convict *)

(** At least [b]. *)
Definition at_least (b x : double) : Prop := nonneg x = true ∧ (fin x = true → dz b <= dz x).

(** A multiplier of at least one. *)
Definition raises (y : double) : Prop := factor y ∧ dz d_one <= dz y.

Lemma dmul_raises b x y :
  fin b = true → 0 <= dz b → at_least b x → raises y → at_least b (dmul x y).
Proof.
  intros Hb Hb0 [Hn Hx] [Hf H1]. split; [by apply dmul_factor|].
  pose proof Hf as (Hfy & Hny & Hpos). intros Hfin.
  destruct (nonneg_cases x Hn) as [->|Hfx].
  { destruct (fin_pos_inv y) as (m & e & -> & _); [done..|]. done. }
  destruct (dmul_rounds x y Hfx Hfy Hn Hny) as [[Hi _]|(_ & _ & Hr)]; [by rewrite Hi in Hfin|].
  apply (Hr b Hb Hb0). specialize (Hx Hfx). unfold mag.
  change (-1074 + 3000) with (1074 + 852). rewrite Z.pow_add_r, Z.mul_assoc by lia.
  apply Z.mul_le_mono_nonneg_r; [apply Z.pow_nonneg; lia|].
  change (dz d_one) with (2 ^ 1074) in H1.
  apply Z.mul_le_mono_nonneg; [done|done|apply Z.pow_nonneg; lia|done].
Qed.

Lemma dadd_raises b s x : fin b = true → 0 <= dz b → score_ok s → at_least b x → at_least b (dadd s x).
Proof.
  intros Hb Hb0 (Hf & [H0 _] & Hn) [Hnx Hx]. split; [by apply dadd_nonneg|]. intros Hfin.
  destruct (nonneg_cases x Hnx) as [->|Hfx]; [by destruct s|].
  destruct (dadd_rounds s x Hf Hfx Hn Hnx) as [[Hi _]|(_ & _ & Hr)]; [by rewrite Hi in Hfin|].
  apply (Hr b Hb Hb0), mag_le; [lia|]. specialize (Hx Hfx). lia.
Qed.

Lemma clamp_at_least x : at_least MAX_SCORE x → value_is (clamp_score x) 100 ∧ score_to_state (clamp_score x) = "JAILED".
Proof.
  intros [Hn Hx].
  assert (fin (clamp_score x) = true ∧ dz (clamp_score x) = dz MAX_SCORE) as [Hf Hd].
  { pose proof (clamp_ok x Hn) as (Hf & [_ Hle] & _). split; [done|].
    destruct (nonneg_cases x Hn) as [->|Hfx]; [done|]. specialize (Hx Hfx).
    unfold clamp_score in *. cbv zeta in *. rewrite (dlt_spec MAX_SCORE x) in * by fin_tac.
    destruct (Z.ltb_spec (dz MAX_SCORE) (dz x)); [done|].
    rewrite dlt_spec by fin_tac. rewrite (proj2 (Z.ltb_ge _ _)); [lia|].
    etrans; [|exact Hx]. vm_compute. congruence. }
  split; [split; [done|by rewrite Hd]|]. rewrite score_to_state_dz, Hd by done. reflexivity.
Qed.

Lemma covariance_raises ss : raises (covariance ss).
Proof. split; [apply covariance_factor|]. unfold covariance. repeat split_match; vm_compute; congruence. Qed.

Lemma stack_raises ss : raises (stack_bonus_of ss).
Proof. split; [apply stack_bonus_factor|]. unfold stack_bonus_of. split_match; vm_compute; congruence. Qed.

Lemma recidivism_raises j q : raises (recidivism_mod j q).
Proof. split; [apply recidivism_factor|]. unfold recidivism_mod. repeat split_match; vm_compute; congruence. Qed.

Lemma one_raises : raises d_one.
Proof. split; [apply factor_one|done]. Qed.

(** A source without privileges is convicted by one signal of weight 100. *)
Lemma heavy_signal source signal weight ctx w k :
  value_is weight k → 100 <= k → tier_modifier (w_sov w) source = d_one →
  score_ok (dt_score (loaded source w)) →
  let r := (result (scorer_process source signal weight ctx) w).2 in
  value_is (sr_new r) 100 ∧ sr_state r = "JAILED".
Proof.
  intros [Hf Hd] Hk Htier Hprev. cbv zeta.
  destruct (scorer_process_step source signal weight ctx w) as [-> _]. cbn [snd sr_new sr_state].
  rewrite state_short. apply clamp_at_least, dadd_raises; [done|by vm_compute|done|].
  unfold step_addition. cbv zeta. rewrite Htier. unfold score_addition.
  assert (0 < dz weight) as Hpos by (rewrite Hd; nia).
  assert (effective_weight signal weight = weight) as ->.
  { unfold effective_weight. rewrite dle_spec by done. change (dz d_zero) with 0.
    by rewrite (proj2 (Z.leb_gt _ _)). }
  do 6 (apply dmul_raises; [done|by vm_compute| |
          auto using covariance_raises, stack_raises, recidivism_raises, one_raises]).
  destruct (fin_pos_inv weight) as (m & e & -> & Hb); [done..|]. split; [cbn; by rewrite Hb|].
  intros _. rewrite Hd. change (dz MAX_SCORE) with (100 * 2 ^ 1074). nia.
Qed.

(** nulld convicts itself: the alarm it sends for more than 100 KiB (up to a
    gigabyte) sent with the screen off names nulld as the source and has the
    kilobytes as its weight, which is 100 or more; gaveld does not count nulld
    among its own daemons, so unless the user listed it, that one signal raises
    its score to exactly 100 and its state to JAILED, whatever it was. *)
Theorem data_alarm_jails_nulld rx tx s w :
  102400 < tx < 1024 * 10 ^ 6 →
  tier_is_sovereignty (w_sov w) "nulld" = false → score_ok (dt_score (loaded "nulld" w)) →
  ∃ e, nulld_emissions (nu_out (exec (check_data rx tx) s)) = nulld_emissions (nu_out s) ++ [e] ∧
    let r := emission_record e in
    let v := (result (scorer_process (in_source r) (in_signal r) (in_weight r) (in_ctx r)) w).2 in
    in_source r = "nulld" ∧ tier_is_own_daemon (in_source r) = false ∧
    value_is (sr_new v) 100 ∧ sr_state v = "JAILED".
Proof.
  intros Htx Hsov Hprev. unfold check_data, IDLE_BYTES_THRESHOLD, out. autorewrite with monad.
  rewrite (proj2 (Z.ltb_lt _ _)) by lia. autorewrite with monad. cbn [add_out nu_out set_counts].
  unfold nulld_emissions. rewrite !omap_app. cbn [omap list_omap]. rewrite app_nil_r.
  eexists. split; [done|]. cbn [emission_record emitted_record in_source in_signal in_weight in_ctx].
  assert (100 <= Z.quot tx 1024 < 10 ^ 6) as Hk by (Z.to_euclidean_division_equations; lia).
  split; [done|]. split; [by vm_compute|].
  eapply heavy_signal; [apply weight_crosses; lia|lia| |done].
  unfold tier_modifier. rewrite Hsov. by vm_compute.
Qed.

Lemma data_alarm_jails_nulld_witness :
  ∃ e, nulld_emissions (nu_out (exec (check_data 0 102401) (nulld_start 0))) = [e] ∧
    let r := emission_record e in
    let v := (result (scorer_process (in_source r) (in_signal r) (in_weight r) (in_ctx r)) sample_scores).2 in
    in_source r = "nulld" ∧ tier_is_own_daemon (in_source r) = false ∧
    value_is (sr_new v) 100 ∧ sr_state v = "JAILED".
Proof.
  apply (data_alarm_jails_nulld 0 102401 (nulld_start 0) sample_scores); [lia|reflexivity|].
  split_and!; vm_compute; congruence.
Defined.
