(* ===== verification/Granit.v ===== *)
(** * granitord: the security posture ([src/daemon/granitord.c])

    Every half minute granitord asks the phone about SELinux, verified boot,
    root and the kernel, compares with the baseline it took at start, turns the
    answers into a score and a guess at what they mean together, and writes
    granitord.json.  The outside world answers through [reply] (what [bexec]
    returns), [fopen] and [access], indexed by the number of questions asked
    before, so that no two answers need agree.  The second part proves what a run
    reports and sends. *)

From S2P Require Import Prelude CString Double Wire Krang Nulld Conv.
From Stdlib Require Import Ascii.
From Stdlib Require Import Ascii SpecFloat.

Definition VERSION : string := "2.0".
Definition POLL_SEC : Z := 30.
Definition SCORE_WARN : Z := 60.
Definition SCORE_CRITICAL : Z := 40.

(** Opening a file: its text, permission denied, or another error. *)
Inductive opened := File (text : string) | Denied | Missing.

(** [param_baseline_t], time stamp aside: it is never read. *)
Record param_baseline_t := ParamBaseline { pb_param : string; pb_value : Z }.

(** The arguments of [gaveld_emit] and [splinterd_emit]. *)
Inductive granit_output :=
| ToGaveld (signal : string) (weight : double) (ctx : string)
| ToSplinter (type payload : string).

(** The six values of the kernel, and whether reading one was forbidden. *)
Record kernel_params := KernelParams {
  kp_kptr : Z; kp_dmesg : Z; kp_perf : Z; kp_aslr : Z; kp_hardlinks : Z; kp_symlinks : Z; kp_eacces : bool }.

(** What the score depends on. *)
Record posture := Posture {
  po_selinux : string; po_read_blocked : bool; po_enforcing : bool;
  po_vb_state : string; po_vb_mode : string; po_flash_lock : string;
  po_ro_secure : string; po_ro_debug : string; po_ro_encrypt : string;
  po_has_su : bool; po_has_magisk : bool; po_params : kernel_params }.

(** The texts of the deep checks. *)
Record findings := Findings {
  fi_taint : string; fi_cap : string; fi_seccomp : string; fi_hard : string; fi_vuln : string;
  fi_drift : string; fi_attest : string; fi_persist : string; fi_mimd : string }.

(** The arguments of [write_json], and [confirmed_degradation]. *)
Record granit_report := GranitReport {
  gr_ts : string; gr_score : Z; gr_grade : string; gr_posture : posture; gr_findings : findings;
  gr_threat : string; gr_confirmed : bool }.

Record granit := Granit {
  gn_now : Z;
  gn_asked : nat;                          (* questions asked *)
  gn_params : list param_baseline_t;       (* baseline_params *)
  gn_established : bool;                   (* baseline_established *)
  gn_boot : string;                        (* baseline_boot_hash *)
  gn_vbmeta : string;                      (* baseline_vbmeta_hash *)
  gn_last_score : Z;                       (* last_score *)
  gn_drops : Z;                            (* score_drops *)
  gn_confirmed : bool;                     (* confirmed_degradation *)
  gn_slot : option string;                 (* g_slot_suffix, once queried *)
  gn_out : list granit_output;
  gn_reports : list granit_report          (* the calls of write_json, oldest first *) }.

Definition ask (s : granit) : granit :=
  Granit (gn_now s) (S (gn_asked s)) (gn_params s) (gn_established s) (gn_boot s) (gn_vbmeta s) (gn_last_score s)
    (gn_drops s) (gn_confirmed s) (gn_slot s) (gn_out s) (gn_reports s).
Definition put_params (l : list param_baseline_t) (s : granit) : granit :=
  Granit (gn_now s) (gn_asked s) l (gn_established s) (gn_boot s) (gn_vbmeta s) (gn_last_score s)
    (gn_drops s) (gn_confirmed s) (gn_slot s) (gn_out s) (gn_reports s).
Definition put_established (s : granit) : granit :=
  Granit (gn_now s) (gn_asked s) (gn_params s) true (gn_boot s) (gn_vbmeta s) (gn_last_score s)
    (gn_drops s) (gn_confirmed s) (gn_slot s) (gn_out s) (gn_reports s).
Definition put_boot (h : string) (s : granit) : granit :=
  Granit (gn_now s) (gn_asked s) (gn_params s) (gn_established s) h (gn_vbmeta s) (gn_last_score s)
    (gn_drops s) (gn_confirmed s) (gn_slot s) (gn_out s) (gn_reports s).
Definition put_vbmeta (h : string) (s : granit) : granit :=
  Granit (gn_now s) (gn_asked s) (gn_params s) (gn_established s) (gn_boot s) h (gn_last_score s)
    (gn_drops s) (gn_confirmed s) (gn_slot s) (gn_out s) (gn_reports s).
Definition put_trend (last drops : Z) (confirmed : bool) (s : granit) : granit :=
  Granit (gn_now s) (gn_asked s) (gn_params s) (gn_established s) (gn_boot s) (gn_vbmeta s) last
    drops confirmed (gn_slot s) (gn_out s) (gn_reports s).
Definition put_slot (x : string) (s : granit) : granit :=
  Granit (gn_now s) (gn_asked s) (gn_params s) (gn_established s) (gn_boot s) (gn_vbmeta s) (gn_last_score s)
    (gn_drops s) (gn_confirmed s) (Some x) (gn_out s) (gn_reports s).
Definition put_out (o : granit_output) (s : granit) : granit :=
  Granit (gn_now s) (gn_asked s) (gn_params s) (gn_established s) (gn_boot s) (gn_vbmeta s) (gn_last_score s)
    (gn_drops s) (gn_confirmed s) (gn_slot s) (gn_out s ++ [o]) (gn_reports s).
Definition put_report (r : granit_report) (s : granit) : granit :=
  Granit (gn_now s) (gn_asked s) (gn_params s) (gn_established s) (gn_boot s) (gn_vbmeta s) (gn_last_score s)
    (gn_drops s) (gn_confirmed s) (gn_slot s) (gn_out s) (gn_reports s ++ [r]).
Definition put_now (x : Z) (s : granit) : granit :=
  Granit x (gn_asked s) (gn_params s) (gn_established s) (gn_boot s) (gn_vbmeta s) (gn_last_score s)
    (gn_drops s) (gn_confirmed s) (gn_slot s) (gn_out s) (gn_reports s).

Definition granit_start (now : Z) : granit := Granit now 0 [] false "" "" 100 0 false None [] [].

Abbreviation GN := (M granit).

(** ** Texts *)

Definition unsafe_char (c : ascii) : bool :=
  Ascii.eqb c (chr 34) || Ascii.eqb c BACKSLASH || Ascii.eqb c "|" || (code c <? 32).

Fixpoint sanitize_field (s : string) : string :=
  match s with
  | EmptyString => EmptyString
  | String c s' => String (if unsafe_char c then "_"%char else c) (sanitize_field s')
  end.

(** A trailing comma. *)
Fixpoint strip_trailing_comma (s : string) : string :=
  match s with
  | EmptyString => EmptyString
  | String c s' =>
      match s' with
      | EmptyString => if Ascii.eqb c "," then EmptyString else s
      | _ => String c (strip_trailing_comma s')
      end
  end.

(** [fscanf(f, "%ld", &v)] with [v] at -1 before. *)
Definition scan_long (text : string) : Z :=
  match scan_int 10 text with
  | Some (v, _) => Z.max LONG_MIN (Z.min LONG_MAX v)
  | None => -1
  end.

(** [strtoull(s, NULL, 16)]. *)
Definition strtoull16 (s : string) : Z :=
  match scan_int 16 s with
  | Some (v, _) =>
      if Z.abs v <? 2 ^ 64 then v mod 2 ^ 64 else 2 ^ 64 - 1
  | None => 0
  end.

(** [(float)n / 100.0f], passed as a double. *)
Definition percent_f (n : Z) : double :=
  let f := SFdiv 24 128 (binary_normalize 24 128 n 0 false) (binary_normalize 24 128 100 0 false) in
  match f with
  | S754_finite s m e => binary_normalize dprec demax (cond_Zopp s (Zpos m)) e s
  | _ => f
  end.

Definition lower_hex (c : ascii) : bool :=
  (code "0" <=? code c) && (code c <=? code "9") || (code "a" <=? code c) && (code c <=? code "f").

Definition PARAMS : list string :=
  ["/proc/sys/kernel/kptr_restrict"; "/proc/sys/kernel/dmesg_restrict";
   "/proc/sys/kernel/perf_event_paranoid"; "/proc/sys/kernel/randomize_va_space";
   "/proc/sys/fs/protected_hardlinks"; "/proc/sys/fs/protected_symlinks"].

Definition TAINT_BIT_NAMES : list string :=
  ["PROPRIETARY_MODULE"; "FORCED_MODULE"; "CPU_OUT_OF_SPEC"; "FORCED_RMMOD";
   "MACHINE_CHECK"; "BAD_PAGE"; "USER"; "DIED_RECENTLY";
   "ACPI_OVERRIDE"; "WARN"; "STAGING_DRIVER"; "FIRMWARE_WORKAROUND";
   "OUT_OF_TREE_MODULE"; "UNSIGNED_MODULE"; "SOFT_LOCKUP"; "LIVEPATCH";
   "AUX"; "RANDSTRUCT"].

Definition CAP_NAMES : list string :=
  ["CHOWN"; "DAC_OVERRIDE"; "DAC_READ_SEARCH"; "FOWNER"; "FSETID"; "KILL";
   "SETGID"; "SETUID"; "SETPCAP"; "LINUX_IMMUTABLE"; "NET_BIND_SERVICE";
   "NET_BROADCAST"; "NET_ADMIN"; "NET_RAW"; "IPC_LOCK"; "IPC_OWNER";
   "SYS_MODULE"; "SYS_RAWIO"; "SYS_CHROOT"; "SYS_PTRACE"; "SYS_PACCT";
   "SYS_ADMIN"; "SYS_BOOT"; "SYS_NICE"; "SYS_RESOURCE"; "SYS_TIME";
   "SYS_TTY_CONFIG"; "MKNOD"; "LEASE"; "AUDIT_WRITE"; "AUDIT_CONTROL"; "SETFCAP"].

Definition CPU_VULN_FILES : list string :=
  ["meltdown"; "spectre_v1"; "spectre_v2"; "spec_store_bypass";
   "l1tf"; "mds"; "srbds"; "tsx_async_abort"; "itlb_multihit";
   "mmio_stale_data"; "retbleed"].

(** The names of the bits of [val] that are set, quoted, each with a comma, in a
    buffer of [size] bytes; [i] is the bit of the first name. *)
Fixpoint bit_names (size : nat) (names : list string) (i val : Z) (buf : string) : string :=
  match names with
  | [] => buf
  | name :: names' =>
      bit_names size names' (i + 1) val
        (if Z.testbit val i
         then buf +:+ stake (size - String.length buf - 1) (snprintf 32 (QUOTE +:+ name +:+ QUOTE +:+ ","))
         else buf)
  end.

Section granit.
Context (reply : nat → string → option string).
Context (fopen : nat → string → opened).
Context (access : nat → string → bool).
Context (strftime : Z → string).

(** ** Questions *)

Definition rish_read (cmd : string) (bufsize : nat) : GN string := λ s,
  (match reply (gn_asked s) cmd with
   | None => ""
   | Some result => trim_end is_line_end (strncpy bufsize result)
   end, ask s).

Definition open_file (path : string) : GN opened := λ s, (fopen (gn_asked s) path, ask s).

Definition exists_file (path : string) : GN bool := λ s, (access (gn_asked s) path, ask s).

Definition get_slot_suffix : GN string :=
  slot ← gets gn_slot;
  match slot with
  | Some x => mret x
  | None =>
      x ← rish_read "getprop ro.boot.slot_suffix 2>/dev/null" 32;
      let x := snprintf 8 x in
      _ ← modify (put_slot x);
      mret x
  end.

Definition sha256_file (path : string) : GN string := λ s,
  (match reply (gn_asked s) (snprintf 512 (scat ["sha256sum '"; path; "' 2>/dev/null"])) with
   | None => "UNAVAILABLE"
   | Some result =>
       if (String.length result <? 64)%nat then "UNAVAILABLE"
       else if forallb lower_hex (schars (stake 64 result)) then stake 64 result else "UNAVAILABLE"
   end, ask s).

(** ** The baseline *)

Fixpoint read_baseline (params : list string) : GN (list param_baseline_t) :=
  match params with
  | [] => mret []
  | p :: params' =>
      f ← open_file p;
      rest ← read_baseline params';
      mret (match f with File text => ParamBaseline p (scan_long text) :: rest | _ => rest end)
  end.

(** The hash of a partition named like [image], if the shell answers with its path. *)
Definition partition_hash (image : string) : GN (option string) :=
  slot ← get_slot_suffix;
  dev ← rish_read (snprintf 256 (scat ["echo /dev/block/by-name/"; image; slot])) 512;
  if longer 0 dev && has_prefix "/dev/block" dev then
    h ← sha256_file dev;
    mret (Some h)
  else mret None.

Definition establish_baseline : GN unit :=
  params ← read_baseline PARAMS;
  _ ← modify (put_params params);
  boot ← partition_hash "boot";
  _ ← (match boot with Some h => modify (put_boot h) | None => mret tt end);
  vbmeta ← partition_hash "vbmeta";
  _ ← (match vbmeta with Some h => modify (put_vbmeta h) | None => mret tt end);
  modify put_established.

Definition drift_entry (b : param_baseline_t) (current now : Z) : string :=
  snprintf 512 (scat [dq "{'param':'"; pb_param b; dq "','baseline':"; fmt_d (pb_value b);
                      dq ",'current':"; fmt_d current; dq ",'changed_at':'"; fmt_d now; dq "'},"]).

Fixpoint detect_param_drift (baseline : list param_baseline_t) (drift_json : string) : GN string :=
  match baseline with
  | [] => mret drift_json
  | b :: baseline' =>
      f ← open_file (pb_param b);
      now ← gets gn_now;
      detect_param_drift baseline'
        (match f with
         | File text =>
             let current := scan_long text in
             if current =? pb_value b then drift_json else drift_json +:+ drift_entry b current now
         | _ => drift_json
         end)
  end.

(** ** Deep checks *)

Definition mismatch_entry (type baseline current : string) : string :=
  snprintf 512 (scat [dq "{'type':'"; type; dq "','baseline':'"; stake 16 baseline;
                      dq "...','current':'"; stake 16 current; dq "...'},"]).

(** What the partition [image] hashes to now, against its baseline. *)
Definition partition_check (image type : string) (bufsize : nat) (baseline : string) : GN string :=
  slot ← get_slot_suffix;
  dev ← rish_read (snprintf 256 (scat ["echo /dev/block/by-name/"; image; slot])) bufsize;
  if longer 0 dev && longer 0 baseline then
    h ← sha256_file dev;
    mret (if String.eqb h baseline then "" else mismatch_entry type baseline h)
  else mret "".

Definition tee_entry (tee : string) : string :=
  snprintf 256 (scat [dq "{'type':'tee_present','path':'"; sanitize_field tee; dq "'},"]).

Definition check_hardware_attestation : GN string :=
  baseline ← gets gn_vbmeta;
  entry ← partition_check "vbmeta" "vbmeta_hash_mismatch" 256 baseline;
  tee ← rish_read "ls /dev/tee* 2>/dev/null | head -1" 256;
  mret (entry +:+ (if longer 0 tee then tee_entry tee else "")).

Definition files_entry (type files : string) : string :=
  snprintf 256 (scat [dq "{'type':'"; type; dq "','files':'"; stake 100 (sanitize_field files); dq "'},"]).

Definition audit_persistence : GN string :=
  init_rc ← rish_read (scat ["find /system/etc/init /vendor/etc/init -name '*.rc' -newer /system/build.prop";
                             " 2>/dev/null | tr '"; NLs; "' ' '"]) 512;
  let persist := if longer 0 init_rc then files_entry "init_rc_modified" init_rc else "" in
  postfs ← rish_read (scat ["ls /data/adb/post-fs-data.d/ 2>/dev/null | tr '"; NLs; "' ' '"]) 512;
  let persist := persist +:+ (if longer 0 postfs then files_entry "postfs_hooks" postfs else "") in
  baseline ← gets gn_boot;
  if longer 0 baseline then
    entry ← partition_check "boot" "boot_image_modified" 512 baseline;
    mret (persist +:+ entry)
  else mret persist.

Definition check_mimd_cage : GN string :=
  cgroup ← rish_read "grep memory /proc/self/cgroup 2>/dev/null" 512;
  let cgroup := sanitize_field cgroup in
  let cgroup_read_blocked := contains cgroup "Request timeout" in
  let caged := negb cgroup_read_blocked && contains cgroup "mimd" in
  let entry := snprintf 512 (scat [dq "{'type':'mimd_cage','caged':"; bool_str caged;
        dq ",'read_blocked':"; bool_str cgroup_read_blocked; dq ",'cgroup':'";
        stake 200 (if cgroup_read_blocked then "unavailable (Shizuku IPC timeout)" else cgroup); dq "'},"]) in
  frozen ← rish_read (scat ["ls -d /sys/fs/cgroup/*frozen* /sys/fs/cgroup/*unfrozen* 2>/dev/null | tr '"; NLs; "' ' '"]) 512;
  mret (entry +:+
        if longer 0 frozen
        then snprintf 512 (scat [dq "{'type':'mimd_freeze_cgroups_present','paths':'";
                                 stake 200 (sanitize_field frozen); dq "'},"])
        else "").

Definition taint_bits (val : Z) : string :=
  if 0 <? val then strip_trailing_comma (bit_names 512 TAINT_BIT_NAMES 0 val "") else "".

Definition check_kernel_taint : GN string :=
  t ← rish_read "cat /proc/sys/kernel/tainted 2>/dev/null" 64;
  let read_blocked := negb (longer 0 t) in
  let val := if read_blocked then -1 else atol t in
  mret (snprintf 512 (scat [dq "{'value':"; fmt_d val; dq ",'tainted':";
          bool_str (negb read_blocked && (0 <? val)); dq ",'read_blocked':"; bool_str read_blocked;
          dq ",'bits':["; taint_bits val; "]}"])).

Definition cap_names (val : Z) : string := strip_trailing_comma (bit_names 1024 CAP_NAMES 0 val "").

Definition check_capabilities : GN string :=
  status ← rish_read "grep CapBnd /proc/self/status 2>/dev/null" 4096;
  let '(hex, val) :=
    match (if longer 0 status then strchr ":" status else None) with
    | Some colon =>
        let hex := strncpy 32 (skip_while (λ c, Ascii.eqb c " " || Ascii.eqb c (chr 9)) (sdrop 1 colon)) in
        (hex, strtoull16 hex)
    | None => ("unknown", 0)
    end in
  mret (snprintf 1024 (scat [dq "{'cap_bnd':'"; hex; dq "','capabilities':["; cap_names val; "]}"])).

Definition check_seccomp : GN string :=
  status ← rish_read "grep -i ^Seccomp: /proc/self/status 2>/dev/null" 4096;
  let mode := match (if longer 0 status then strchr ":" status else None) with
              | Some colon => atoi (sdrop 1 colon)
              | None => -1
              end in
  mret (snprintf 256 (scat [dq "{'mode':"; fmt_d mode; dq ",'enabled':"; bool_str (0 <? mode); "}"])).

Definition check_kernel_hardening : GN string :=
  cfg ← rish_read "zcat /proc/config.gz 2>/dev/null" (Z.to_nat 8192);
  cfg ← (if longer 0 cfg then mret cfg else rish_read "cat /proc/config.gz 2>/dev/null" (Z.to_nat 8192));
  mret (snprintf 512
    (if longer 0 cfg then
       scat [dq "{'read_blocked':false,'kasan':"; bool_str (contains cfg "CONFIG_KASAN=y");
             dq ",'cfi_clang':"; bool_str (contains cfg "CONFIG_CFI_CLANG=y"); "}"]
     else dq "{'read_blocked':true,'kasan':null,'cfi_clang':null}")).

(** The entries of the files, and whether one could be read. *)
Fixpoint vuln_entries (files : list string) (vuln_json : string) (any_read : bool) : GN (string * bool) :=
  match files with
  | [] => mret (vuln_json, any_read)
  | file :: files' =>
      line ← rish_read (snprintf 160 (scat ["cat /sys/devices/system/cpu/vulnerabilities/"; file; " 2>/dev/null"])) 256;
      if longer 0 line then
        let line := sanitize_field line in
        vuln_entries files'
          (if contains line "Not affected" then vuln_json
           else vuln_json +:+ stake (4096 - String.length vuln_json - 1)
                  (snprintf 384 (scat [dq "{'name':'"; file; dq "','status':'"; stake 200 line; dq "'},"])))
          true
      else vuln_entries files' vuln_json any_read
  end.

Definition check_cpu_vulnerabilities : GN string :=
  '(vuln_json, any_read) ← vuln_entries CPU_VULN_FILES "" false;
  mret (if any_read : bool then vuln_json else snprintf 4096 (dq "{'name':'_meta','status':'read_blocked'},")).

(** ** The posture *)

Definition or_default (default s : string) : string := if longer 0 s then s else default.

(** [strncpy(dst, prop && strlen(prop) > 0 ? prop : default, size - 1)]. *)
Definition read_prop (cmd default : string) (size : nat) : GN string :=
  x ← rish_read cmd 4096;
  mret (strncpy size (or_default default x)).

Definition read_selinux : GN string :=
  se ← rish_read "getenforce 2>/dev/null" 4096;
  if longer 0 se && negb (contains se "Permission") then mret (strncpy 32 se)
  else
    prop ← rish_read "getprop ro.boot.selinux 2>/dev/null" 4096;
    mret (if longer 0 prop then strncpy 32 prop else "unknown").

Fixpoint exists_any (paths : list string) : GN bool :=
  match paths with
  | [] => mret false
  | p :: paths' => b ← exists_file p; if b : bool then mret true else exists_any paths'
  end.

(** One parameter: its value, -1 without one, and whether it was forbidden. *)
Definition kernel_param (path : string) : GN (Z * bool) :=
  f ← open_file path;
  mret (match f with
        | File text => (scan_long text, false)
        | Denied => (-1, true)
        | Missing => (-1, false)
        end).

Definition read_kernel_params : GN kernel_params :=
  '(kptr, e1) ← kernel_param "/proc/sys/kernel/kptr_restrict";
  '(dmesg, e2) ← kernel_param "/proc/sys/kernel/dmesg_restrict";
  '(perf, e3) ← kernel_param "/proc/sys/kernel/perf_event_paranoid";
  '(aslr, e4) ← kernel_param "/proc/sys/kernel/randomize_va_space";
  '(hardlinks, e5) ← kernel_param "/proc/sys/fs/protected_hardlinks";
  '(symlinks, e6) ← kernel_param "/proc/sys/fs/protected_symlinks";
  mret (KernelParams kptr dmesg perf aslr hardlinks symlinks (e1 || e2 || e3 || e4 || e5 || e6)).

Definition read_posture : GN posture :=
  selinux ← read_selinux;
  let selinux_read_blocked := String.eqb selinux "unknown" || contains selinux "Request timeout"
                              || contains selinux "Permission" in
  let selinux := if selinux_read_blocked then "unknown" else selinux in
  let enforcing := contains selinux "enforcing" || contains selinux "Enforcing" in
  vb_state ← read_prop "getprop ro.boot.verifiedbootstate" "unknown" 32;
  vb_mode ← read_prop "getprop ro.boot.veritymode" "unknown" 32;
  flash_lock ← read_prop "getprop ro.boot.flash.locked" "unknown" 16;
  ro_secure ← read_prop "getprop ro.secure" "(unset)" 8;
  ro_debug ← read_prop "getprop ro.debuggable" "(unset)" 8;
  ro_encrypt ← read_prop "getprop ro.crypto.state" "(unset)" 32;
  has_su ← exists_any ["/system/bin/su"; "/system/xbin/su"; "/sbin/su"; "/su/bin/su"];
  has_magisk ← exists_any ["/data/adb/magisk"; "/data/adb/modules"];
  params ← read_kernel_params;
  mret (Posture selinux selinux_read_blocked enforcing vb_state vb_mode flash_lock ro_secure ro_debug ro_encrypt
          has_su has_magisk params).

Definition rooted (p : posture) : bool := po_has_su p || po_has_magisk p.

Definition selinux_blocks_kernel_params (p : posture) : bool :=
  kp_eacces (po_params p) && po_enforcing p.

(** [if (b) score -= n;]. *)
Definition deduct (b : bool) (n score : Z) : Z := if b then score - n else score.

(** The score of a poll before it is raised to 0. *)
Definition raw_score (p : posture) : Z :=
  let k := po_params p in
  let score := 100 in
  let score := deduct (negb (po_read_blocked p) && negb (po_enforcing p)) 25 score in
  let score := deduct (negb (String.eqb (po_vb_state p) "green")) 15 score in
  let score := deduct (negb (String.eqb (po_flash_lock p) "1")) 10 score in
  let score := deduct (negb (String.eqb (po_ro_secure p) "1")) 10 score in
  let score := deduct (String.eqb (po_ro_debug p) "1") 10 score in
  let score := deduct (rooted p) 20 score in
  if selinux_blocks_kernel_params p then score
  else
    let score := deduct (kp_kptr k <? 1) 2 score in
    let score := deduct (kp_dmesg k <? 1) 2 score in
    let score := deduct (kp_perf k =? -1) 3 score in
    let score := deduct (kp_aslr k <? 2) 3 score in
    let score := deduct (kp_hardlinks k =? 0) 1 score in
    deduct (kp_symlinks k =? 0) 1 score.

Definition grade_of (score : Z) : string :=
  if 90 <=? score then "SECURE" else if 70 <=? score then "CAUTION"
  else if 50 <=? score then "AT RISK" else "COMPROMISED".

(** The deep checks after the drift. *)
Definition other_checks (drift : string) : GN findings :=
  attest ← check_hardware_attestation;
  persist ← audit_persistence;
  mimd ← check_mimd_cage;
  taint ← check_kernel_taint;
  cap ← check_capabilities;
  seccomp ← check_seccomp;
  hard ← check_kernel_hardening;
  vuln ← check_cpu_vulnerabilities;
  mret (Findings taint cap seccomp hard vuln drift attest persist mimd).

Definition deep_checks : GN findings :=
  established ← gets gn_established;
  baseline ← gets gn_params;
  drift ← (if established : bool then detect_param_drift baseline "" else mret "");
  other_checks drift.

(** ** Correlation *)

(** "Score degradation confirmation". *)
Definition track_score (score : Z) : GN unit :=
  last ← gets gn_last_score;
  drops ← gets gn_drops;
  confirmed ← gets gn_confirmed;
  if score <? last then
    modify (put_trend score (drops + 1) (if 2 <=? drops + 1 then true else confirmed))
  else modify (put_trend score 0 false).

(** The rules: the confidence and the description. *)
Definition correlation (confirmed enforcing rooted : bool) (drift attest fs_events persist : string) : Z * string :=
  if confirmed && longer 0 drift && rooted then
    (95, "Confirmed degradation + parameter drift + root = active tampering")
  else if longer 0 fs_events && negb enforcing then
    (90, "Filesystem integrity failure + SELinux permissive = exploit aftermath")
  else if longer 0 persist && rooted then
    (85, "Persistence mechanisms + root = maintained access")
  else if longer 0 attest && negb rooted then
    (80, "Hardware attestation failure without root = possible hardware attack")
  else if confirmed && longer 0 drift then
    (75, "Confirmed degradation with parameter drift = policy change or attack")
  else (0, "").

Definition correlate_threats (score : Z) (enforcing rooted : bool) (drift attest fs_events persist : string)
    : GN (Z * string) :=
  _ ← track_score score;
  confirmed ← gets gn_confirmed;
  let '(confidence, description) := correlation confirmed enforcing rooted drift attest fs_events persist in
  mret (confidence,
        if 0 <? confidence then
          snprintf 512 (scat [dq "{'type':'correlated','confidence':"; fmt_d confidence; dq ",'score':"; fmt_d score;
            dq ",'description':'"; description; dq "','degradation_confirmed':"; bool_str confirmed; "}"])
        else "").

(** ** The result file *)

(** A member whose value is an array of entries. *)
Definition array (entries : string) : string := "[" +:+ entries +:+ "]".

Definition buffer (size : Z) (s : string) : string := strncpy (Z.to_nat size) s.

Definition granit_write_json (r : granit_report) : string :=
  let p := gr_posture r in
  let k := po_params p in
  let f := gr_findings r in
  let d := strip_trailing_comma (buffer 4096 (fi_drift f)) in
  let a := strip_trailing_comma (buffer 4096 (fi_attest f)) in
  let ps := strip_trailing_comma (buffer 4096 (fi_persist f)) in
  let m := strip_trailing_comma (buffer 4096 (fi_mimd f)) in
  let hw := buffer 512 (fi_hard f) in
  let vu := strip_trailing_comma (buffer 4096 (fi_vuln f)) in
  scat
   ["{" +:+ NLs;
    json_line "  " "daemon" (quoted "granitord" +:+ ",");
    json_line "  " "version" (quoted VERSION +:+ ",");
    json_line "  " "timestamp" (quoted (gr_ts r) +:+ ",");
    json_line "  " "poll_interval_sec" (fmt_d POLL_SEC +:+ "," +:+ NLs);
    json_line "  " "posture" "{";
    json_line "    " "score" (fmt_d (gr_score r) +:+ ",");
    json_line "    " "grade" (quoted (gr_grade r) +:+ ",");
    json_line "    " "selinux" (quoted (po_selinux p) +:+ ",");
    json_line "    " "verified_boot_state" (quoted (po_vb_state p) +:+ ",");
    json_line "    " "verified_boot_mode" (quoted (po_vb_mode p) +:+ ",");
    json_line "    " "ro_secure" (quoted (po_ro_secure p) +:+ ",");
    json_line "    " "ro_debuggable" (quoted (po_ro_debug p) +:+ ",");
    json_line "    " "encryption" (quoted (po_ro_encrypt p) +:+ ",");
    json_line "    " "root_present" (bool_str (rooted p) +:+ ",");
    json_line "    " "su_found" (bool_str (po_has_su p) +:+ ",");
    json_line "    " "magisk" (bool_str (po_has_magisk p));
    "  }," +:+ NLs +:+ NLs;
    json_line "  " "kernel_params" "{";
    json_line "    " "kptr_restrict" (fmt_d (kp_kptr k) +:+ ",");
    json_line "    " "dmesg_restrict" (fmt_d (kp_dmesg k) +:+ ",");
    json_line "    " "perf_paranoid" (fmt_d (kp_perf k) +:+ ",");
    json_line "    " "aslr" (fmt_d (kp_aslr k) +:+ ",");
    json_line "    " "protected_hardlinks" (fmt_d (kp_hardlinks k) +:+ ",");
    json_line "    " "protected_symlinks" (fmt_d (kp_symlinks k) +:+ ",");
    json_line "    " "selinux_blocks_kernel_params" (bool_str (selinux_blocks_kernel_params p));
    "  }," +:+ NLs +:+ NLs;
    json_line "  " "kernel_taint" (fi_taint f +:+ "," +:+ NLs);
    json_line "  " "capabilities" (fi_cap f +:+ "," +:+ NLs);
    json_line "  " "seccomp" (fi_seccomp f +:+ "," +:+ NLs);
    json_line "  " "kernel_hardening" (hw +:+ "," +:+ NLs);
    json_line "  " "cpu_vulnerabilities" (array vu +:+ "," +:+ NLs);
    json_line "  " "drift" "{";
    json_line "    " "detected" (bool_str (longer 0 d) +:+ ",");
    json_line "    " "confirmed_degradation" (bool_str (gr_confirmed r) +:+ ",");
    json_line "    " "param_changes" (array d);
    "  }," +:+ NLs +:+ NLs;
    json_line "  " "hardware_attestation" (array a +:+ "," +:+ NLs);
    json_line "  " "persistence_audit" (array ps +:+ "," +:+ NLs);
    json_line "  " "mimd_cgroup" (array m +:+ "," +:+ NLs);
    json_line "  " "threat_indicators" (array (gr_threat r));
    "}" +:+ NLs].

(** ** A poll *)

Definition alert (signal : string) (confidence : Z) (threat : string) : GN unit :=
  _ ← modify (put_out (ToGaveld signal (percent_f confidence) threat));
  modify (put_out (ToSplinter signal threat)).

Definition raise_alarm (score confidence : Z) (threat : string) : GN unit :=
  if (score <? SCORE_CRITICAL) || (90 <=? confidence) then alert "SECURITY_CRITICAL" confidence threat
  else if (score <? SCORE_WARN) || (75 <=? confidence) then alert "SECURITY_WARN" confidence threat
  else mret tt.

Definition poll_security : GN unit :=
  now ← gets gn_now;
  p ← read_posture;
  f ← deep_checks;
  '(confidence, threat) ← correlate_threats (raw_score p) (po_enforcing p) (rooted p) (fi_drift f) (fi_attest f)
                            "" (fi_persist f);
  let score := if raw_score p <? 0 then 0 else raw_score p in
  _ ← raise_alarm score confidence threat;
  confirmed ← gets gn_confirmed;
  modify (put_report (GranitReport (strftime now) score (grade_of score) p f threat confirmed)).

(** The loop of [main], stopped after [n] polls. *)
Fixpoint security_polls (n : nat) : GN unit :=
  match n with
  | O => mret tt
  | S n' => _ ← poll_security; _ ← modify (λ s, put_now (gn_now s + POLL_SEC) s); security_polls n'
  end.

Definition granit_main (n : nat) : GN unit := _ ← establish_baseline; security_polls n.

End granit.

(** ** granitord over a run

    Every report is a function of the facts of its poll and of the scores before
    it; which alarms are sent follows from the reports.  Names of bits are
    decoded without loss, the score crosses to overlordd, and some alarms have
    other causes than they say. *)

(** ** What a report should say *)

(** The points each failing indicator costs. *)
Definition penalties (p : posture) : list (bool * Z) :=
  let k := po_params p in
  let readable := negb (selinux_blocks_kernel_params p) in
  [(negb (po_read_blocked p) && negb (po_enforcing p), 25);
   (bool_decide (po_vb_state p ≠ "green"), 15);
   (bool_decide (po_flash_lock p ≠ "1"), 10);
   (bool_decide (po_ro_secure p ≠ "1"), 10);
   (bool_decide (po_ro_debug p = "1"), 10);
   (po_has_su p || po_has_magisk p, 20);
   (readable && (kp_kptr k <? 1), 2);
   (readable && (kp_dmesg k <? 1), 2);
   (readable && (kp_perf k =? -1), 3);
   (readable && (kp_aslr k <? 2), 3);
   (readable && (kp_hardlinks k =? 0), 1);
   (readable && (kp_symlinks k =? 0), 1)].

Definition points (l : list (bool * Z)) : Z := foldr (λ q acc, (if q.1 : bool then q.2 else 0) + acc) 0 l.

(** The score before it is raised to 0. *)
Definition health (p : posture) : Z := 100 - points (penalties p).

(** How often in a row the health has just fallen; newest poll first, 100 before
    the first. *)
Fixpoint falls (h : list Z) : Z :=
  match h with
  | [] => 0
  | a :: h' => if a <? hd 100 h' then 1 + falls h' else 0
  end.

(** The confidence of a report's diagnosis. *)
Definition certainty (r : granit_report) : Z :=
  let f := gr_findings r in
  let drifting := gr_confirmed r && longer 0 (fi_drift f) in
  if rooted (gr_posture r)
  then (if drifting then 95 else if longer 0 (fi_persist f) then 85 else 0)
  else (if longer 0 (fi_attest f) then 80 else if drifting then 75 else 0).

(** The alarm a report calls for. *)
Definition alarm_of (r : granit_report) : list granit_output :=
  let alarm signal := [ToGaveld signal (percent_f (certainty r)) (gr_threat r); ToSplinter signal (gr_threat r)] in
  if (gr_score r <? 40) || (certainty r =? 95) then alarm "SECURITY_CRITICAL"
  else if (gr_score r <? 60) || (0 <? certainty r) then alarm "SECURITY_WARN"
  else [].

(** What a certainty stands for. *)
Definition diagnosis (certainty : Z) : string :=
  if certainty =? 95 then "Confirmed degradation + parameter drift + root = active tampering"
  else if certainty =? 85 then "Persistence mechanisms + root = maintained access"
  else if certainty =? 80 then "Hardware attestation failure without root = possible hardware attack"
  else "Confirmed degradation with parameter drift = policy change or attack".

(** The threat indicator of a report: none without a diagnosis. *)
Definition indicator (r : granit_report) : string :=
  if certainty r =? 0 then ""
  else snprintf 512 (scat [dq "{'type':'correlated','confidence':"; fmt_d (certainty r);
         dq ",'score':"; fmt_d (health (gr_posture r)); dq ",'description':'"; diagnosis (certainty r);
         dq "','degradation_confirmed':"; bool_str (gr_confirmed r); "}"]).

(** The report that the healths so far, its own included, call for. *)
Definition sound (h : list Z) (r : granit_report) : Prop :=
  gr_score r = Z.max 0 (health (gr_posture r)) ∧ 0 <= gr_score r <= 100 ∧
  gr_grade r = (if 90 <=? gr_score r then "SECURE" else if 70 <=? gr_score r then "CAUTION"
                else if 50 <=? gr_score r then "AT RISK" else "COMPROMISED") ∧
  gr_confirmed r = (2 <=? falls h) ∧
  gr_threat r = indicator r ∧ (gr_threat r = "" ↔ certainty r = 0).

(** ** The score *)

Lemma deduct_eq b n s : deduct b n s = s - (if b then n else 0).
Proof. destruct b; cbn; lia. Qed.

Lemma raw_score_health p : raw_score p = health p.
Proof.
  unfold raw_score, health, penalties, rooted. cbv zeta. cbn [points foldr fst snd].
  assert (∀ s t, bool_decide (s ≠ t) = negb (String.eqb s t)) as Hne.
  { intros s t. destruct (String.eqb_spec s t); case_bool_decide; naive_solver. }
  assert (∀ s t, bool_decide (s = t) = String.eqb s t) as Heq.
  { intros s t. destruct (String.eqb_spec s t); case_bool_decide; naive_solver. }
  rewrite !deduct_eq, !Hne, !Heq. destruct (selinux_blocks_kernel_params p); cbn [negb andb]; lia.
Qed.

Lemma points_nonneg l : Forall (λ q, 0 <= q.2) l → 0 <= points l.
Proof. induction 1 as [|q l Hq _ IH]; [done|]. cbn [points foldr] in *. destruct q.1; unfold points in IH; lia. Qed.

Lemma health_le p : health p <= 100.
Proof.
  unfold health. assert (0 <= points (penalties p)); [|lia].
  apply points_nonneg. unfold penalties. cbv zeta.
  repeat (apply Forall_cons_2; [cbn; lia|]). apply Forall_nil_2.
Qed.

(** ** Runs *)

Lemma certainty_correlation r :
  correlation (gr_confirmed r) (po_enforcing (gr_posture r)) (rooted (gr_posture r)) (fi_drift (gr_findings r))
     (fi_attest (gr_findings r)) "" (fi_persist (gr_findings r))
  = (certainty r, if certainty r =? 0 then "" else diagnosis (certainty r)).
Proof.
  unfold correlation, certainty. cbv zeta. change (longer 0 "") with false.
  destruct (gr_confirmed r), (longer 0 (fi_drift _)), (rooted _), (longer 0 (fi_persist _)), (longer 0 (fi_attest _));
    reflexivity.
Qed.

Lemma certainty_nonneg r : 0 <= certainty r.
Proof. unfold certainty. cbv zeta. by repeat split_match. Qed.

Section run.
Context (reply : nat → string → option string) (fopen : nat → string → opened).
Context (access : nat → string → bool) (strftime : Z → string).

(** *** What was asked during a poll

    The world is asked question after question; [lo] and [hi] are the numbers of
    questions asked before a poll and after it. *)

(** What the shell said to a command when it was asked as question [k]. *)
Definition said (k : nat) (cmd : string) (size : nat) : string :=
  match reply k cmd with None => "" | Some text => trim_end is_line_end (strncpy size text) end.

Definition during (lo hi : nat) (P : nat → Prop) : Prop := ∃ k, (lo <= k < hi)%nat ∧ P k.

(** A property, cut to its buffer, with a default where the shell says nothing. *)
Definition prop_read (cmd default : string) (size lo hi : nat) (x : string) : Prop :=
  during lo hi (λ k, let a := said k cmd 4096 in x = strncpy size (if String.eqb a "" then default else a)).

(** The mode of SELinux: what getenforce says, the property where it may not. *)
Definition selinux_read (lo hi : nat) (x : string) : Prop :=
  during lo hi (λ k, let a := said k "getenforce 2>/dev/null" 4096 in
    if negb (String.eqb a "") && negb (contains a "Permission") then x = strncpy 32 a
    else prop_read "getprop ro.boot.selinux 2>/dev/null" "unknown" 32 lo hi x).

(** One of the files is there, or every one was missing when it was looked for. *)
Definition any_there (paths : list string) (lo hi : nat) (b : bool) : Prop :=
  if b then ∃ p, p ∈ paths ∧ during lo hi (λ k, access k p = true)
  else ∀ p, p ∈ paths → during lo hi (λ k, access k p = false).

(** The number in a kernel file, -1 without one, and whether it may not be read. *)
Definition param_read (path : string) (lo hi : nat) (v : Z * bool) : Prop :=
  during lo hi (λ k, v = match fopen k path with
    | File text => (scan_long text, false) | Denied => (-1, true) | Missing => (-1, false) end).

Definition params_read (lo hi : nat) (k : kernel_params) : Prop := ∃ e1 e2 e3 e4 e5 e6,
  param_read "/proc/sys/kernel/kptr_restrict" lo hi (kp_kptr k, e1) ∧
  param_read "/proc/sys/kernel/dmesg_restrict" lo hi (kp_dmesg k, e2) ∧
  param_read "/proc/sys/kernel/perf_event_paranoid" lo hi (kp_perf k, e3) ∧
  param_read "/proc/sys/kernel/randomize_va_space" lo hi (kp_aslr k, e4) ∧
  param_read "/proc/sys/fs/protected_hardlinks" lo hi (kp_hardlinks k, e5) ∧
  param_read "/proc/sys/fs/protected_symlinks" lo hi (kp_symlinks k, e6) ∧
  kp_eacces k = existsb id [e1; e2; e3; e4; e5; e6].

(** A mode of SELinux that is an error text counts as unknown. *)
Definition mode_blocked (x : string) : bool :=
  String.eqb x "unknown" || contains x "Request timeout" || contains x "Permission".

Definition posture_read (lo hi : nat) (p : posture) : Prop :=
  (∃ x, selinux_read lo hi x ∧ po_read_blocked p = mode_blocked x ∧
        po_selinux p = if mode_blocked x then "unknown" else x) ∧
  po_enforcing p = contains (po_selinux p) "enforcing" || contains (po_selinux p) "Enforcing" ∧
  prop_read "getprop ro.boot.verifiedbootstate" "unknown" 32 lo hi (po_vb_state p) ∧
  prop_read "getprop ro.boot.veritymode" "unknown" 32 lo hi (po_vb_mode p) ∧
  prop_read "getprop ro.boot.flash.locked" "unknown" 16 lo hi (po_flash_lock p) ∧
  prop_read "getprop ro.secure" "(unset)" 8 lo hi (po_ro_secure p) ∧
  prop_read "getprop ro.debuggable" "(unset)" 8 lo hi (po_ro_debug p) ∧
  prop_read "getprop ro.crypto.state" "(unset)" 32 lo hi (po_ro_encrypt p) ∧
  any_there ["/system/bin/su"; "/system/xbin/su"; "/sbin/su"; "/su/bin/su"] lo hi (po_has_su p) ∧
  any_there ["/data/adb/magisk"; "/data/adb/modules"] lo hi (po_has_magisk p) ∧
  params_read lo hi (po_params p).

(** The baseline: the numbers in the files that could be opened. *)
Fixpoint baseline_read (paths : list string) (lo hi : nat) (l : list param_baseline_t) : Prop :=
  match paths with
  | [] => l = []
  | p :: paths' => ∃ l', baseline_read paths' lo hi l' ∧
      during lo hi (λ k, l = match fopen k p with File text => ParamBaseline p (scan_long text) :: l' | _ => l' end)
  end.

(** The drift: an entry for every file with another number than at start. *)
Fixpoint drift_read (now : Z) (baseline : list param_baseline_t) (lo hi : nat) (d : string) : Prop :=
  match baseline with
  | [] => d = ""
  | b :: baseline' => ∃ d', drift_read now baseline' lo hi d' ∧
      during lo hi (λ k, d = match fopen k (pb_param b) with
        | File text => if scan_long text =? pb_value b then d' else drift_entry b (scan_long text) now +:+ d'
        | _ => d' end)
  end.

(** *** A logic of readings

    [reads P c]: the result of [c] is what [P] says of the questions it asks. *)

Definition reads {A} (P : nat → nat → A → Prop) (c : M granit A) : Prop :=
  ∀ s, (gn_asked s <= gn_asked (exec c s))%nat ∧ P (gn_asked s) (gn_asked (exec c s)) (result c s).

(** True of more questions. *)
Class Widens {A} (P : nat → nat → A → Prop) : Prop :=
  widen lo hi lo' hi' x : (lo' <= lo)%nat → (hi <= hi')%nat → P lo hi x → P lo' hi' x.

#[global] Arguments widen {_ P _} lo hi lo' hi' x : rename.

#[global] Instance during_widens {A} (Q : A → nat → Prop) : Widens (λ lo hi x, during lo hi (Q x)).
Proof. intros lo hi lo' hi' x H1 H2 (k & Hk & HQ). exists k. split; [lia|done]. Qed.

#[global] Instance prop_read_widens cmd d n : Widens (prop_read cmd d n).
Proof. apply during_widens. Qed.

#[global] Instance selinux_read_widens : Widens selinux_read.
Proof.
  intros lo hi lo' hi' x H1 H2 (k & Hk & H). exists k. split; [lia|]. cbv zeta in *. destruct (_ && _); [done|].
  by apply (widen lo hi).
Qed.

#[global] Instance any_there_widens paths : Widens (any_there paths).
Proof.
  intros lo hi lo' hi' [] H1 H2 H; cbn [any_there] in *.
  - destruct H as (p & Hp & k & Hk & H). exists p. split; [done|]. exists k. split; [lia|done].
  - intros p Hp. destruct (H p Hp) as (k & Hk & Ha). exists k. split; [lia|done].
Qed.

#[global] Instance param_read_widens path : Widens (param_read path).
Proof. apply (during_widens (λ v k, v = _)). Qed.

#[global] Instance params_read_widens : Widens params_read.
Proof.
  intros lo hi lo' hi' x H1 H2 (e1 & e2 & e3 & e4 & e5 & e6 & H). exists e1, e2, e3, e4, e5, e6.
  destruct_and!. split_and!; try (by eapply (widen lo hi)); done.
Qed.

#[global] Instance baseline_read_widens paths : Widens (baseline_read paths).
Proof.
  induction paths as [|p paths IH]; intros lo hi lo' hi' x H1 H2 H; [done|].
  destruct H as (l & Hl & k & Hk & H). exists l. split; [by eapply IH|]. exists k. split; [lia|done].
Qed.

#[global] Instance drift_read_widens now l : Widens (drift_read now l).
Proof.
  induction l as [|b l IH]; intros lo hi lo' hi' x H1 H2 H; [done|].
  destruct H as (d & Hd & k & Hk & H). exists d. split; [by eapply IH|]. exists k. split; [lia|done].
Qed.

Lemma reads_bind {A B} P (Q : A → nat → nat → B → Prop) (c : M granit A) (f : A → M granit B) :
  reads P c → (∀ x, reads (Q x) (f x)) →
  reads (λ lo hi y, ∃ m x, (lo <= m <= hi)%nat ∧ P lo m x ∧ Q x m hi y) (c ≫= f).
Proof.
  intros Hc Hf s. rewrite exec_bind, result_bind. destruct (Hc s) as [H1 HP].
  destruct (Hf (result c s) (exec c s)) as [H2 HQ]. split; [lia|]. exists (gn_asked (exec c s)), (result c s). split; [lia|done].
Qed.

Lemma reads_mret {A} (x : A) : reads (λ _ _ y, y = x) (mret x).
Proof. by intros s. Qed.

Lemma reads_weaken {A} (P Q : nat → nat → A → Prop) (c : M granit A) :
  reads P c → (∀ lo hi x, (lo <= hi)%nat → P lo hi x → Q lo hi x) → reads Q c.
Proof. intros Hc H s. destruct (Hc s) as [H1 HP]. split; [done|by apply H]. Qed.

Lemma reads_rish cmd n : reads (λ lo hi x, during lo hi (λ k, x = said k cmd n)) (rish_read reply cmd n).
Proof. intros s. split; [cbn; lia|]. exists (gn_asked s). split; [cbn; lia|done]. Qed.

Lemma reads_open path : reads (λ lo hi x, during lo hi (λ k, x = fopen k path)) (open_file fopen path).
Proof. intros s. split; [cbn; lia|]. exists (gn_asked s). split; [cbn; lia|done]. Qed.

Lemma reads_exists path : reads (λ lo hi x, during lo hi (λ k, x = access k path)) (exists_file access path).
Proof. intros s. split; [cbn; lia|]. exists (gn_asked s). split; [cbn; lia|done]. Qed.

Lemma longer_empty s : longer 0 s = negb (String.eqb s "").
Proof. by destruct s. Qed.

(** The readings of a chain of questions, widened to all of them. *)
Ltac readings := repeat match goal with H : ∃ _, _ |- _ => destruct H | H : _ ∧ _ |- _ => destruct H end; subst.

Lemma reads_prop cmd d n : reads (prop_read cmd d n) (read_prop reply cmd d n).
Proof.
  eapply reads_weaken; [unfold read_prop; eapply reads_bind; [apply reads_rish|intros x; apply reads_mret]|].
  intros lo hi x _ (m & a & Hm & (k & Hk & ->) & ->). exists k. split; [lia|]. cbv zeta. unfold or_default.
  rewrite longer_empty. by destruct (String.eqb _ "").
Qed.

Lemma reads_any paths : reads (any_there paths) (exists_any access paths).
Proof.
  induction paths as [|p paths IH]; cbn [exists_any].
  { intros s. split; [done|]. by intros p Hp%elem_of_nil. }
  eapply reads_weaken; [eapply (reads_bind _ (λ b : bool, if b then (λ _ _ y, y = true) else any_there paths)); [apply reads_exists|]|].
  { intros []; [apply reads_mret|apply IH]. }
  intros lo hi y _ (m & x & Hm & Hk & H). destruct x.
  - subst. destruct Hk as (k & Hk & E). exists p. split; [by left|]. exists k. split; [lia|done].
  - apply (widen m hi lo hi) in H; [|lia..]. destruct Hk as (k & Hk & E). destruct y; cbn [any_there] in *.
    + destruct H as (q & Hq & H). exists q. split; [by right|done].
    + intros q [->|Hq]%elem_of_cons; [exists k; split; [lia|done]|by apply H].
Qed.

Lemma reads_selinux : reads selinux_read (read_selinux reply).
Proof.
  unfold read_selinux.
  eapply reads_weaken; [eapply (reads_bind _ (λ se lo hi y,
    if negb (String.eqb se "") && negb (contains se "Permission") then y = strncpy 32 se
    else prop_read "getprop ro.boot.selinux 2>/dev/null" "unknown" 32 lo hi y)); [apply reads_rish|]|].
  - intros se. rewrite longer_empty. destruct (_ && _); [apply reads_mret|].
    eapply reads_weaken; [eapply reads_bind; [apply reads_rish|intros x; apply reads_mret]|].
    intros lo hi x _ (m & a & Hm & (k & Hk & ->) & ->). exists k. split; [lia|]. cbv zeta. rewrite longer_empty.
    by destruct (String.eqb _ "").
  - intros lo hi x _ (m & se & Hm & (k & Hk & ->) & H). exists k. split; [lia|]. cbv zeta. destruct (_ && _); [done|].
    apply (widen m hi); done || lia.
Qed.

Lemma reads_param path : reads (param_read path) (kernel_param fopen path).
Proof.
  eapply reads_weaken; [eapply reads_bind; [apply reads_open|intros x; apply reads_mret]|].
  intros lo hi x _ (m & a & Hm & (k & Hk & ->) & ->). exists k. split; [lia|done].
Qed.

(** Reading on: [lo] questions were asked before the first and [m] are so far. *)
Definition reads_on {A} (R : nat → nat → A → Prop) (lo m : nat) (c : M granit A) : Prop :=
  ∀ s, (m <= gn_asked s)%nat → (gn_asked s <= gn_asked (exec c s))%nat ∧ R lo (gn_asked (exec c s)) (result c s).

Lemma reads_all {A} (R : nat → nat → A → Prop) c : (∀ lo, reads_on R lo lo c) → reads R c.
Proof. intros H s. by apply H. Qed.

Lemma reads_next {A B} P `{!Widens P} (R : nat → nat → B → Prop) lo m (c : M granit A) (f : A → M granit B) :
  reads P c → (lo <= m)%nat → (∀ m' x, (m <= m')%nat → P lo m' x → reads_on R lo m' (f x)) → reads_on R lo m (c ≫= f).
Proof.
  intros Hc Hlo Hf s Hs. rewrite exec_bind, result_bind. destruct (Hc s) as [H1 HP].
  destruct (Hf (gn_asked (exec c s)) (result c s)) with (s := exec c s) as [H2 HR]; [lia|by apply (widen (gn_asked s) (gn_asked (exec c s))); [lia..|]|lia|].
  split; [lia|done].
Qed.

Lemma reads_done {A} (R : nat → nat → A → Prop) lo m x : (∀ hi, (m <= hi)%nat → R lo hi x) → reads_on R lo m (mret x).
Proof. intros H s Hs. split; [done|by apply H]. Qed.

(** The property of what the next question reads. *)
Ltac read_next := match goal with
  | |- reads_on _ _ _ (kernel_param _ ?p ≫= _) => apply (reads_next (param_read p)); [apply reads_param|lia|]
  | |- reads_on _ _ _ (read_prop _ ?c ?d ?n ≫= _) => apply (reads_next (prop_read c d n)); [apply reads_prop|lia|]
  | |- reads_on _ _ _ (exists_any _ ?l ≫= _) => apply (reads_next (any_there l)); [apply reads_any|lia|]
  end.

(** Widens a reading to the questions of the goal. *)
Ltac widen_tac := match goal with
  | H : ?P ?lo ?hi _ |- ?P _ _ _ => apply (widen lo hi); [lia|lia|exact H] end.

Lemma reads_params : reads params_read (read_kernel_params fopen).
Proof.
  apply reads_all. intros lo. unfold read_kernel_params.
  do 6 (read_next; intros ? [? ?] ? ?).
  apply reads_done. intros hi ?.
  match goal with b1 : bool, b2 : bool, b3 : bool, b4 : bool, b5 : bool, b6 : bool |- _ => exists b1, b2, b3, b4, b5, b6 end.
  split_and!; [widen_tac..|]. cbn. by rewrite orb_false_r, !orb_assoc.
Qed.

Lemma reads_posture : reads posture_read (read_posture reply fopen access).
Proof.
  apply reads_all. intros lo. unfold read_posture.
  apply (reads_next selinux_read); [apply reads_selinux|lia|intros ? x ? ?]. cbv zeta.
  do 8 (read_next; intros ? ? ? ?).
  apply (reads_next params_read); [apply reads_params|lia|intros ? ? ? ?].
  apply reads_done. intros hi ?. split; [exists x; split; [widen_tac|done]|]. split; [done|]. split_and!; widen_tac.
Qed.

Lemma reads_baseline paths : reads (baseline_read paths) (read_baseline fopen paths).
Proof.
  induction paths as [|p paths IH]; cbn [read_baseline]; [apply reads_mret|].
  apply reads_all. intros lo. apply (reads_next (λ lo hi x, during lo hi (λ k, x = fopen k p))); [apply reads_open|lia|].
  intros m f Hm Hf. apply (reads_next (baseline_read paths)); [exact IH|lia|]. intros m' l Hm' Hl.
  apply reads_done. intros hi Hhi. destruct Hf as (k & Hk & ->). exists l. split; [widen_tac|]. exists k. split; [lia|done].
Qed.

Lemma reads_drift l : ∀ d, ∀ s, (gn_asked s <= gn_asked (exec (detect_param_drift fopen l d) s))%nat ∧
  ∃ d', result (detect_param_drift fopen l d) s = d +:+ d' ∧
    drift_read (gn_now s) l (gn_asked s) (gn_asked (exec (detect_param_drift fopen l d) s)) d'.
Proof.
  induction l as [|b l IH]; intros d s; cbn [detect_param_drift].
  { split; [done|]. exists "". by rewrite app_nil_r_str. }
  autorewrite with monad. change (exec (open_file fopen (pb_param b)) s) with (ask s).
  change (result (open_file fopen (pb_param b)) s) with (fopen (gn_asked s) (pb_param b)).
  match goal with |- context [detect_param_drift fopen l ?e] => destruct (IH e (ask s)) as (H1 & d' & H2 & H3) end.
  cbn [gn_asked gn_now ask] in *. split; [lia|]. rewrite H2.
  exists (match fopen (gn_asked s) (pb_param b) with
    | File text => if scan_long text =? pb_value b then d' else drift_entry b (scan_long text) (gn_now s) +:+ d'
    | _ => d' end).
  split.
  - destruct (fopen _ _); [|done..]. cbv zeta. destruct (_ =? _); [done|]. by rewrite app_assoc_str.
  - cbn [drift_read]. exists d'. split; [eapply widen; [| |exact H3]; lia|]. exists (gn_asked s). split; [lia|done].
Qed.

(** *** What a poll leaves alone *)

(** What questions leave alone. *)
Abbreviation tally s := (gn_last_score s, gn_drops s, gn_confirmed s, gn_out s, gn_reports s).
Abbreviation same_tally := (λ s s', gn_now s' = gn_now s ∧ gn_params s' = gn_params s ∧
  gn_established s' = gn_established s ∧ tally s' = tally s ∧ (gn_asked s <= gn_asked s')%nat).

#[local] Instance same_tally_preorder : PreOrder same_tally.
Proof. split; [done|]. intros a b c (? & ? & ? & ? & ?) (? & ? & ? & ? & ?). split_and!; [congruence..|lia]. Qed.

Lemma same_tally_ask s : same_tally s (ask s).
Proof. split_and!; [done..|cbn; lia]. Qed.

Lemma tally_rish cmd n : keeps same_tally (rish_read reply cmd n).
Proof. exact same_tally_ask. Qed.

Lemma tally_open path : keeps same_tally (open_file fopen path).
Proof. exact same_tally_ask. Qed.

Lemma tally_exists path : keeps same_tally (exists_file access path).
Proof. exact same_tally_ask. Qed.

Lemma tally_sha path : keeps same_tally (sha256_file reply path).
Proof. exact same_tally_ask. Qed.

Lemma tally_slot : keeps same_tally (get_slot_suffix reply).
Proof.
  intros s. unfold get_slot_suffix. autorewrite with monad. destruct (gn_slot s); autorewrite with monad; [done|].
  split_and!; [done..|cbn; lia].
Qed.

Hint Resolve tally_rish tally_open tally_exists tally_sha tally_slot : mp.

Lemma tally_any paths : keeps same_tally (exists_any access paths).
Proof. induction paths as [|p paths IH]; cbn [exists_any]; keeps_tac. Qed.

Lemma tally_drift l : ∀ d, keeps same_tally (detect_param_drift fopen l d).
Proof. induction l as [|b l IH]; intros d; cbn [detect_param_drift]; keeps_tac; apply IH. Qed.

Lemma tally_vulns l : ∀ v a, keeps same_tally (vuln_entries reply l v a).
Proof. induction l as [|b l IH]; intros v a; cbn [vuln_entries]; keeps_tac; apply IH. Qed.

Lemma tally_baseline l : keeps same_tally (read_baseline fopen l).
Proof. induction l as [|b l IH]; cbn [read_baseline]; keeps_tac. Qed.

Lemma tally_hash image : keeps same_tally (partition_hash reply image).
Proof. unfold partition_hash. keeps_tac. Qed.

Hint Resolve tally_any tally_drift tally_vulns tally_baseline tally_hash : mp.

Lemma tally_posture : keeps same_tally (read_posture reply fopen access).
Proof. unfold read_posture, read_selinux, read_prop, read_kernel_params, kernel_param. keeps_tac. Qed.

Lemma tally_other d : keeps same_tally (other_checks reply d).
Proof.
  unfold other_checks, check_hardware_attestation, audit_persistence, partition_check, check_mimd_cage,
    check_kernel_taint, check_capabilities, check_seccomp, check_kernel_hardening, check_cpu_vulnerabilities.
  keeps_tac.
Qed.
Hint Resolve tally_other : mp.

Lemma tally_deep : keeps same_tally (deep_checks reply fopen).
Proof. unfold deep_checks. keeps_tac. Qed.

(** The trend agrees with the healths so far. *)
Definition trend_of (h : list Z) (s : granit) : Prop :=
  gn_last_score s = hd 100 h ∧ gn_drops s = falls h ∧ gn_confirmed s = (2 <=? falls h).

Lemma falls_nonneg h : 0 <= falls h.
Proof. induction h as [|a h IH]; cbn [falls]; [done|]. destruct (a <? _); lia. Qed.


Lemma establish_ground s :
  let s' := exec (establish_baseline reply fopen) s in
  gn_now s' = gn_now s ∧ gn_established s' = true ∧ tally s' = tally s ∧
  baseline_read PARAMS (gn_asked s) (gn_asked s') (gn_params s').
Proof.
  cbv zeta. unfold establish_baseline. autorewrite with monad.
  destruct (reads_baseline PARAMS s) as [H1 HP]. destruct (tally_baseline PARAMS s) as (Hn & Hp & He & Ht & _).
  set (l := result _ s) in *. set (s1 := exec _ s) in *. destruct (tally_hash "boot" (put_params l s1)) as (Hn2 & Hp2 & He2 & Ht2 & Hl2).
  set (s2 := exec (partition_hash reply "boot") _) in *.
  set (s3 := exec match result _ (put_params l s1) with Some h => _ | None => _ end s2).
  assert (same_tally s2 s3) as (Hn3 & Hp3 & He3 & Ht3 & Hl3) by (unfold s3; by destruct (result _ (put_params _ _))).
  destruct (tally_hash "vbmeta" s3) as (Hn4 & Hp4 & He4 & Ht4 & Hl4). set (s4 := exec (partition_hash reply "vbmeta") s3) in *.
  set (s5 := exec _ s4). assert (same_tally s4 s5) as (Hn5 & Hp5 & He5 & Ht5 & Hl5) by (unfold s5; by destruct (result _ s3)).
  cbn [put_established put_params gn_now gn_established gn_params gn_last_score gn_drops gn_confirmed gn_out gn_reports gn_asked] in *.
  rewrite Hn5, Hn4, Hn3, Hn2, Hp5, Hp4, Hp3, Hp2. split_and!; [done|done|congruence|]. eapply widen; [| |exact HP]; lia.
Qed.

Lemma deep_drift s :
  gn_established s = true →
  let f := result (deep_checks reply fopen) s in
  drift_read (gn_now s) (gn_params s) (gn_asked s) (gn_asked (exec (deep_checks reply fopen) s)) (fi_drift f).
Proof.
  intros He. cbv zeta. unfold deep_checks. autorewrite with monad. rewrite He.
  destruct (reads_drift (gn_params s) "" s) as (H1 & d & Hd & HD). rewrite Hd. change ("" +:+ d) with d.
  set (s1 := exec (detect_param_drift _ _ _) s) in *. destruct (tally_other d s1) as (_ & _ & _ & _ & Hl).
  assert (returns (λ f, fi_drift f = d) (other_checks reply d)) as Hf.
  { unfold other_checks. do 8 (apply returns_any; intros ?). by intros s'. }
  rewrite Hf. eapply widen; [| |exact HD]; lia.
Qed.

Lemma track_trend h a s :
  trend_of h s →
  trend_of (a :: h) (exec (track_score a) s) ∧
  let s' := exec (track_score a) s in
  gn_now s' = gn_now s ∧ gn_params s' = gn_params s ∧ gn_established s' = gn_established s ∧
  gn_out s' = gn_out s ∧ gn_reports s' = gn_reports s ∧ gn_asked s' = gn_asked s.
Proof.
  intros (Hl & Hd & Hc). unfold track_score. cbv zeta. autorewrite with monad. rewrite Hl, Hd, Hc.
  pose proof (falls_nonneg h). unfold trend_of. cbn [hd falls].
  destruct (a <? hd 100 h); autorewrite with monad; cbn; [|done].
  split; [|done]. split; [done|]. split; [lia|].
  destruct (Z.leb_spec 2 (falls h + 1)), (Z.leb_spec 2 (falls h)), (Z.leb_spec 2 (1 + falls h)); lia || done.
Qed.
(** *** Polls *)

Lemma raise_alarm_out r s :
  exec (raise_alarm (gr_score r) (certainty r) (gr_threat r)) s =
  Granit (gn_now s) (gn_asked s) (gn_params s) (gn_established s) (gn_boot s) (gn_vbmeta s) (gn_last_score s)
    (gn_drops s) (gn_confirmed s) (gn_slot s) (gn_out s ++ alarm_of r) (gn_reports s).
Proof.
  unfold raise_alarm, alarm_of, SCORE_CRITICAL, SCORE_WARN, alert. cbv zeta.
  assert ((90 <=? certainty r) = (certainty r =? 95) ∧ (75 <=? certainty r) = (0 <? certainty r)) as [-> ->].
  { unfold certainty. cbv zeta. by repeat split_match. }
  destruct s as [? ? ? ? ? ? ? ? ? ? o ?].
  destruct ((gr_score r <? 40) || _); [|destruct ((gr_score r <? 60) || _)]; autorewrite with monad;
    unfold put_out; cbn; by rewrite <-?app_assoc, ?app_nil_r.
Qed.

Lemma threat_nonempty rest : snprintf 512 (dq "{'type':'correlated','confidence':" +:+ rest) ≠ "".
Proof.
  change (dq "{'type':'correlated','confidence':") with (String "{" (dq "'type':'correlated','confidence':")).
  by rewrite app_cons_str.
Qed.

(** Correlating yields the diagnosis and the text of the report [r] it is for. *)
Lemma correlate_result r s :
  gr_confirmed r = gn_confirmed (exec (track_score (health (gr_posture r))) s) →
  let c := correlate_threats (health (gr_posture r)) (po_enforcing (gr_posture r)) (rooted (gr_posture r))
             (fi_drift (gr_findings r)) (fi_attest (gr_findings r)) "" (fi_persist (gr_findings r)) in
  exec c s = exec (track_score (health (gr_posture r))) s ∧ result c s = (certainty r, indicator r).
Proof.
  intros Hc. cbv zeta. unfold correlate_threats. autorewrite with monad. rewrite <-Hc, certainty_correlation.
  autorewrite with monad. split; [done|]. unfold indicator. pose proof (certainty_nonneg r).
  destruct (Z.eqb_spec (certainty r) 0) as [->|Hne]; [done|]. by rewrite (proj2 (Z.ltb_lt 0 _)) by lia.
Qed.

Lemma indicator_empty r : indicator r = "" ↔ certainty r = 0.
Proof.
  unfold indicator. destruct (Z.eqb_spec (certainty r) 0); [done|]. split; [|done]. intros H. by apply threat_nonempty in H.
Qed.

(** The report of a poll that starts in a state. *)
Definition polled (s : granit) (r : granit_report) : Prop :=
  gr_ts r = strftime (gn_now s) ∧
  gr_posture r = result (read_posture reply fopen access) s ∧
  gr_findings r = result (deep_checks reply fopen) (exec (read_posture reply fopen access) s).

Lemma poll_report h s :
  trend_of h s →
  let s' := exec (poll_security reply fopen access strftime) s in
  ∃ r, polled s r ∧ gn_reports s' = gn_reports s ++ [r] ∧ gn_out s' = gn_out s ++ alarm_of r ∧
    trend_of (health (gr_posture r) :: h) s' ∧ sound (health (gr_posture r) :: h) r ∧
    gn_now s' = gn_now s ∧ gn_params s' = gn_params s ∧ gn_established s' = gn_established s ∧
    gn_asked s' = gn_asked (exec (deep_checks reply fopen) (exec (read_posture reply fopen access) s)).
Proof.
  intros Ht. unfold poll_security. autorewrite with monad.
  destruct (tally_posture s) as (Hn1 & Hp1 & He1 & [= Hl1 Hd1 Hc1 Ho1 Hr1] & _). set (p := result (read_posture _ _ _) s).
  set (s1 := exec (read_posture _ _ _) s) in *.
  destruct (tally_deep s1) as (Hn2 & Hp2 & He2 & [= Hl2 Hd2 Hc2 Ho2 Hr2] & _). set (f := result (deep_checks _ _) s1).
  set (s2 := exec (deep_checks _ _) s1) in *.
  assert (trend_of h s2) as Ht2 by (unfold trend_of in *; by rewrite Hl2, Hd2, Hc2, Hl1, Hd1, Hc1).
  destruct (track_trend h (health p) s2 Ht2) as (Ht3 & Hn3 & Hp3 & He3 & Ho3 & Hr3 & Ha3).
  set (s3 := exec (track_score (health p)) s2) in *.
  set (score := if raw_score p <? 0 then 0 else raw_score p).
  set (r0 := GranitReport (strftime (gn_now s)) score (grade_of score) p f "" (gn_confirmed s3)).
  set (r := GranitReport (strftime (gn_now s)) score (grade_of score) p f (indicator r0) (gn_confirmed s3)).
  destruct (correlate_result r s2 eq_refl) as [Hx Hy]. cbn [r gr_posture gr_findings] in Hx, Hy.
  rewrite raw_score_health, Hx, Hy. fold s3. autorewrite with monad.
  change score with (gr_score r). change (indicator r) with (gr_threat r).
  exists r. rewrite raise_alarm_out.
  assert (gr_score r = Z.max 0 (health p)) as Hs.
  { cbn [gr_score r]. unfold score. rewrite raw_score_health. destruct (Z.ltb_spec (health p) 0); lia. }
  pose proof (health_le p).
  cbn [put_report gn_reports gn_out gn_now gn_params gn_established gn_asked gn_confirmed].
  split; [done|]. split; [by rewrite Hr3, Hr2, Hr1|]. split; [by rewrite Ho3, Ho2, Ho1|]. split; [exact Ht3|].
  split; [|split_and!; congruence].
  split; [done|]. split; [rewrite Hs; lia|]. split; [done|]. split; [apply Ht3|]. split; [done|].
  apply (indicator_empty r).
Qed.

(** *** A run from the start *)

Abbreviation run now n := (exec (granit_main reply fopen access strftime n) (granit_start now)).

Lemma polls_snoc n : ∀ s,
  exec (security_polls reply fopen access strftime (S n)) s =
  (let s' := exec (poll_security reply fopen access strftime) (exec (security_polls reply fopen access strftime n) s) in
   put_now (gn_now s' + POLL_SEC) s').
Proof.
  induction n as [|n IH]; intros s; [by cbn [security_polls]; autorewrite with monad|].
  change (security_polls _ _ _ _ (S (S n))) with (poll_security reply fopen access strftime ≫=
    λ _, modify (λ s, put_now (gn_now s + POLL_SEC) s) ≫= λ _, security_polls reply fopen access strftime (S n)).
  cbn [security_polls] in *. rewrite !exec_bind, !exec_modify.
  match goal with |- exec _ (put_now (gn_now (exec _ ?x) + _) _) = _ => specialize (IH x) end.
  rewrite !exec_bind, !exec_modify in IH. exact IH.
Qed.

Lemma run_snoc now n :
  run now (S n) = (let s' := exec (poll_security reply fopen access strftime) (run now n) in put_now (gn_now s' + POLL_SEC) s').
Proof. unfold granit_main. rewrite !exec_bind. apply polls_snoc. Qed.

(** What the report of the poll after [run now i] is. *)
Definition report_of (now : Z) (i : nat) (r : granit_report) : Prop :=
  let s := run now i in
  let hi := gn_asked (run now (S i)) in
  gr_ts r = strftime (now + POLL_SEC * Z.of_nat i) ∧
  posture_read (gn_asked s) hi (gr_posture r) ∧
  drift_read (now + POLL_SEC * Z.of_nat i) (gn_params (run now 0)) (gn_asked s) hi (fi_drift (gr_findings r)) ∧
  gr_findings r = result (deep_checks reply fopen) (exec (read_posture reply fopen access) s).

Lemma report_polled now i r :
  gn_now (run now i) = now + POLL_SEC * Z.of_nat i → gn_params (run now i) = gn_params (run now 0) →
  gn_established (run now i) = true →
  gn_asked (run now (S i)) = gn_asked (exec (deep_checks reply fopen) (exec (read_posture reply fopen access) (run now i))) →
  polled (run now i) r → report_of now i r.
Proof.
  intros Hn Hp He Ha (Ht & Hpo & Hfi). unfold report_of. rewrite Ha, Hpo, Hfi, Ht, Hn. set (s := run now i) in *.
  destruct (reads_posture s) as [H1 HP]. destruct (tally_posture s) as (Hn1 & Hp1 & He1 & _ & _).
  set (s1 := exec (read_posture _ _ _) s) in *. destruct (tally_deep s1) as (_ & _ & _ & _ & H2).
  pose proof (deep_drift s1) as HD. cbv zeta in HD. rewrite Hn1, Hp1, Hp, Hn in HD.
  split; [done|]. split; [|split; [|done]].
  - destruct HP as ((x & Hx & Hb & Hs) & He2 & HP). split; [exists x; split; [widen_tac|by rewrite Hb]|]. split; [exact He2|].
    destruct HP as (P1 & P2 & P3 & P4 & P5 & P6 & P7 & P8 & P9). do 8 (split; [widen_tac|]). widen_tac.
  - apply (widen (gn_asked s1) (gn_asked (exec (deep_checks reply fopen) s1))); [exact H1|reflexivity|].
    apply HD. by rewrite He1, He.
Qed.

Lemma run_reports n now :
  let s := run now n in
  let healths rs := rev (map (health ∘ gr_posture) rs) in
  length (gn_reports s) = n ∧ gn_out s = flat_map alarm_of (gn_reports s) ∧ trend_of (healths (gn_reports s)) s ∧
  gn_now s = now + POLL_SEC * Z.of_nat n ∧ gn_established s = true ∧ gn_params s = gn_params (run now 0) ∧
  ∀ i r, gn_reports s !! i = Some r →
    sound (healths (take (S i) (gn_reports s))) r ∧ polled (run now i) r ∧ report_of now i r.
Proof.
  cbv zeta. induction n as [|n IH].
  - unfold granit_main. cbn [security_polls]. autorewrite with monad.
    destruct (establish_ground (granit_start now)) as (Hn & He & [= Hl Hd Hc Ho Hr] & _).
    rewrite Hr, Ho, Hn, He. split_and!; [done|done|by split_and!|cbn; lia|done|done|]. by intros i r.
  - destruct IH as (Hlen & Ho & Ht & Hn & He & Hp & Hall).
    destruct (poll_report _ _ Ht) as (r & Hpo & Hr & Ho' & Ht' & Hs & Hn' & Hp' & He' & Ha).
    pose proof (run_snoc now n) as E. cbv zeta in E.
    set (s1 := exec (poll_security _ _ _ _) (run now n)) in *.
    assert (gn_reports (run now (S n)) = gn_reports (run now n) ++ [r]) as Er by by rewrite E.
    assert (healths' : rev (map (health ∘ gr_posture) (gn_reports (run now n) ++ [r]))
      = health (gr_posture r) :: rev (map (health ∘ gr_posture) (gn_reports (run now n)))).
    { rewrite map_app, rev_app_distr. done. }
    rewrite !Er, healths', length_app, flat_map_app. split_and!.
    + rewrite Hlen. cbn. lia.
    + rewrite E. cbn [put_now gn_out]. rewrite Ho', Ho. cbn [flat_map]. by rewrite app_nil_r.
    + rewrite E. exact Ht'.
    + rewrite E. cbn [put_now gn_now]. rewrite Hn', Hn. lia.
    + rewrite E. cbn [put_now gn_established]. by rewrite He', He.
    + rewrite E. cbn [put_now gn_params]. by rewrite Hp', Hp.
    + intros i q Hi. destruct (decide (i = n)) as [->|Hne].
      * rewrite lookup_app_r, Hlen, Nat.sub_diag in Hi by lia. injection Hi as <-.
        rewrite take_ge by (rewrite length_app, Hlen; cbn; lia). rewrite healths'. split; [done|]. split; [done|].
        apply report_polled; [done..| |done]. rewrite E. exact Ha.
      * apply lookup_app_Some in Hi as [Hi|[Hge Hi]].
        -- pose proof (lookup_lt_Some _ _ _ Hi) as Hlt. rewrite take_app_le by exact Hlt. by apply Hall.
        -- apply lookup_lt_Some in Hi. cbn [length] in Hi. rewrite Hlen in *. lia.
Qed.

(** C21. granitord's reports over any run: one per poll.  Its posture is what the
    phone answered to the questions asked during that very poll; its drift names the
    files whose number, read during the poll, is not the one read at start, and its
    other findings are what the deep checks of that poll yield.  Its score is 100
    less the points of the failing indicators, never outside [0, 100], with the
    grade of that score; a degradation is confirmed exactly when the score fell in
    both of the last two polls; the diagnosis and its text depend only on that and on
    what the poll found, 90 is never its confidence; and the alarms sent are those the
    reports call for, in order. *)
Theorem posture_reports n now i r :
  let s := run now n in
  baseline_read PARAMS 0 (gn_asked (run now 0)) (gn_params (run now 0)) ∧
  length (gn_reports s) = n ∧ gn_out s = flat_map alarm_of (gn_reports s) ∧
  (gn_reports s !! i = Some r →
     sound (rev (map (health ∘ gr_posture) (take (S i) (gn_reports s)))) r ∧ report_of now i r).
Proof.
  destruct (run_reports n now) as (Hlen & Ho & _ & _ & _ & _ & Hall). split_and!; [|done|done|].
  - unfold granit_main. cbn [security_polls]. autorewrite with monad. apply (establish_ground (granit_start now)).
  - intros Hi. by destruct (Hall i r Hi) as (? & _ & ?).
Qed.

(** ** Alarms with other causes *)

Lemma exists_none paths s : (∀ k p, access k p = false) → result (exists_any access paths) s = false.
Proof.
  intros Ha. revert s. induction paths as [|p paths IH]; intros s; cbn [exists_any]; autorewrite with monad; [done|].
  change (result (exists_file access p) s) with (access (gn_asked s) p). rewrite Ha. apply IH.
Qed.

Lemma posture_unrooted s : (∀ k p, access k p = false) → rooted (result (read_posture reply fopen access) s) = false.
Proof.
  intros Ha. revert s. change (returns (λ p, rooted p = false) (read_posture reply fopen access)). unfold read_posture.
  do 7 (apply returns_any; intros ?).
  do 2 (apply (returns_bind (λ b : bool, b = false)); [intros s; by apply exists_none|intros ? ->]).
  apply returns_any. intros k s. done.
Qed.

(** The command whose answer counts as a failed attestation. *)
Definition TEE_CMD : string := "ls /dev/tee* 2>/dev/null | head -1".

Definition tee_answers : Prop := ∀ k, ∃ t, reply k TEE_CMD = Some t ∧ trim_end is_line_end (strncpy 256 t) ≠ "".

Lemma longer_nonempty s : s ≠ "" → longer 0 s = true.
Proof. by destruct s. Qed.

Lemma attest_tee s : tee_answers → result (check_hardware_attestation reply) s ≠ "".
Proof.
  intros Ht. revert s. change (returns (λ a, a ≠ "") (check_hardware_attestation reply)).
  unfold check_hardware_attestation. do 2 (apply returns_any; intros ?).
  apply (returns_bind (λ t, t ≠ "")).
  - intros s. destruct (Ht (gn_asked s)) as (t & Hr & Hne). unfold TEE_CMD in Hr. unfold rish_read, result. cbn [fst]. by rewrite Hr.
  - intros tee Htee s. rewrite result_mret, longer_nonempty by done.
    intros H%(f_equal String.length). rewrite length_app_str in H. unfold tee_entry in H.
    change (dq "{'type':'tee_present','path':'") with (String "{" (dq "'type':'tee_present','path':'")) in H.
    cbn [scat foldr] in H. rewrite app_cons_str in H. unfold snprintf in H. cbn in H. lia.
Qed.

Lemma deep_tee s : tee_answers → fi_attest (result (deep_checks reply fopen) s) ≠ "".
Proof.
  intros Ht. revert s. change (returns (λ f, fi_attest f ≠ "") (deep_checks reply fopen)). unfold deep_checks.
  do 3 (apply returns_any; intros ?). unfold other_checks.
  apply (returns_bind (λ a, a ≠ "")); [intros s; by apply attest_tee|intros x Hx'].
  do 7 (apply returns_any; intros ?). by intros s.
Qed.

(** The mere presence of a trusted execution environment is reported as a
    failed hardware attestation: on a phone without root on which /dev/tee* lists
    a device, every poll, whatever else it finds, diagnoses a possible hardware
    attack with confidence 80 and sends gaveld and splinterd an alarm. *)
Theorem tee_alarms n now :
  tee_answers → (∀ k p, access k p = false) →
  let s := exec (granit_main reply fopen access strftime n) (granit_start now) in
  Forall (λ r, certainty r = 80 ∧ gr_threat r ≠ "") (gn_reports s) ∧ length (gn_out s) = (2 * n)%nat.
Proof.
  intros Ht Ha. cbv zeta. destruct (run_reports n now) as (Hlen & Ho & _ & _ & _ & _ & Hs).
  set (s := exec _ _) in *.
  assert (Forall (λ r, certainty r = 80) (gn_reports s)) as Hc.
  { apply Forall_lookup. intros i r Hi. destruct (Hs i r Hi) as (_ & (_ & Hpo & Hfi) & _). unfold certainty.
    rewrite Hpo, posture_unrooted by done. by rewrite Hfi, longer_nonempty by (by apply deep_tee). }
  split.
  - apply Forall_lookup. intros i r Hi. rewrite Forall_lookup in Hc. specialize (Hc i r Hi).
    split; [done|]. destruct (Hs i r Hi) as ((_ & _ & _ & _ & _ & He) & _). rewrite He, Hc. lia.
  - rewrite Ho, <-Hlen. clear -Hc. induction Hc as [|r rs Hr _ IH]; [done|].
    cbn [flat_map length]. rewrite length_app, IH. unfold alarm_of. cbv zeta. rewrite Hr, orb_true_r.
    destruct (_ || _); cbn; lia.
Qed.

End run.

Definition sample_reply (k : nat) (cmd : string) : option string :=
  if contains cmd "tee" then Some ("/dev/tee0" +:+ NLs) else if contains cmd "getenforce" then Some "Enforcing" else None.

Lemma tee_alarms_witness :
  let s := exec (granit_main sample_reply (λ _ _, Denied) (λ _ _, false) (λ _, "12:00:00") 2) (granit_start 0) in
  Forall (λ r, certainty r = 80 ∧ gr_threat r ≠ "") (gn_reports s) ∧ length (gn_out s) = 4%nat.
Proof.
  apply (tee_alarms sample_reply (λ _ _, Denied) (λ _ _, false) (λ _, "12:00:00") 2 0).
  - intros k. eexists. split; [reflexivity|]. vm_compute. discriminate.
  - reflexivity.
Defined.

Lemma posture_reports_witness :
  let s := exec (granit_main sample_reply (λ _ _, Denied) (λ _ _, false) (λ _, "12:00:00") 2) (granit_start 0) in
  ∃ r, gn_reports s !! 1%nat = Some r ∧ sound (rev (map (health ∘ gr_posture) (take 2 (gn_reports s)))) r ∧
    report_of sample_reply (λ _ _, Denied) (λ _ _, false) (λ _, "12:00:00") 0 1 r.
Proof.
  cbv zeta. eexists. split; [vm_compute; reflexivity|].
  apply (posture_reports sample_reply (λ _ _, Denied) (λ _ _, false) (λ _, "12:00:00") 2 0 1). vm_compute. reflexivity.
Defined.
