(* ===== verification/Disclosed.v ===== *)
(** * What granitord discloses

    The bit masks of the kernel are written out as the names of exactly the bits
    that are set, the score and the root flag of every report reach overlordd,
    and the weight of an alarm falls when its diagnosis is certain. *)

From S2P Require Import Prelude CString Double Strtod Wire Krang Conv Digits Numbers Lengths.
From S2P Require Import Config Weights World Ingest Tier Scorer Overlord Fleet Screen Nulld Reports Granit.
From Stdlib Require Import Ascii.

(** ** Bits *)

(** The names at the positions of the bits that are set. *)
Definition pick (names : list string) (val : Z) (i k : nat) : option string :=
  if Z.testbit val (Z.of_nat k) then names !! (k - i)%nat else None.

Definition bits_set (names : list string) (val : Z) : list string :=
  omap (pick names val 0) (seq 0 (length names)).

(** The names as the members of a JSON array. *)
Fixpoint members (names : list string) : string :=
  match names with
  | [] => ""
  | [name] => quoted name
  | name :: names' => quoted name +:+ "," +:+ members names'
  end.

Definition entry_of (name : string) : string := quoted name +:+ ",".

Lemma strip_comma s : strip_trailing_comma (s +:+ ",") = s.
Proof.
  induction s as [|c s IH]; [done|]. rewrite app_cons_str. cbn [strip_trailing_comma].
  destruct (s +:+ ",") as [|d t] eqn:Hs; [by destruct s|]. by f_equal.
Qed.

Lemma entries_members names : names ≠ [] → scat (map entry_of names) = members names +:+ ",".
Proof.
  induction names as [|n names IH]; [done|]. intros _. cbn [map scat members]. destruct names as [|m names].
  - cbn [map scat]. by rewrite app_nil_r_str.
  - rewrite IH by done. unfold entry_of. by rewrite !app_assoc_str.
Qed.

Lemma strip_entries names : strip_trailing_comma (scat (map entry_of names)) = members names.
Proof.
  destruct names as [|n names]; [done|]. by rewrite entries_members, strip_comma.
Qed.

(** The names from position [i] on. *)
Lemma picks names val i n :
  omap (pick (n :: names) val i) (seq i (S (length names))) =
  (if Z.testbit val (Z.of_nat i) then [n] else []) ++ omap (pick names val (S i)) (seq (S i) (length names)).
Proof.
  assert (omap (pick (n :: names) val i) (seq (S i) (length names)) = omap (pick names val (S i)) (seq (S i) (length names))) as H.
  { apply list_omap_ext, Forall2_same_length_lookup. split; [done|].
    intros j x y Hx Hy. rewrite Hx in Hy. injection Hy as <-. apply lookup_seq in Hx as [-> _].
    unfold pick. by replace (S i + j - i)%nat with (S (S i + j - S i)) by lia. }
  change (omap (pick (n :: names) val i) (seq i (S (length names)))) with
    (match pick (n :: names) val i i with
     | Some y => y :: omap (pick (n :: names) val i) (seq (S i) (length names))
     | None => omap (pick (n :: names) val i) (seq (S i) (length names))
     end).
  rewrite H. unfold pick at 1. rewrite Nat.sub_diag. cbn [lookup list_lookup].
  by destruct (Z.testbit val (Z.of_nat i)).
Qed.

(** With room for all names nothing is cut off. *)
Lemma bit_names_all size names val : ∀ i buf,
  Forall (λ n, (String.length n ≤ 28)%nat) names →
  (String.length buf + foldr (λ n acc, String.length n + 3 + acc)%nat 0%nat names < size)%nat →
  bit_names size names (Z.of_nat i) val buf = buf +:+
    scat (map entry_of (omap (pick names val i) (seq i (length names)))).
Proof.
  induction names as [|n names IH]; intros i buf Hf Hl; [cbn; by rewrite app_nil_r_str|].
  apply Forall_cons in Hf as [Hn Hf]. cbn [foldr length] in *. rewrite picks. cbn [bit_names].
  replace (Z.of_nat i + 1) with (Z.of_nat (S i)) by lia.
  destruct (Z.testbit val (Z.of_nat i)); [|by rewrite IH by (done || lia)].
  assert (String.length (entry_of n) = String.length n + 3)%nat as He.
  { unfold entry_of, quoted. rewrite !length_app_str. change (String.length QUOTE) with 1%nat. cbn [String.length]. lia. }
  change (QUOTE +:+ n +:+ QUOTE +:+ ",") with (QUOTE +:+ n +:+ (QUOTE +:+ ",")).
  replace (QUOTE +:+ n +:+ QUOTE +:+ ",") with (entry_of n) by (unfold entry_of, quoted; by rewrite !app_assoc_str).
  rewrite snprintf_id, stake_all by lia.
  rewrite IH by (done || (rewrite length_app_str; lia)). cbn [map app scat]. by rewrite app_assoc_str.
Qed.

Lemma bits_members size names val :
  Forall (λ n, (String.length n ≤ 28)%nat) names →
  (foldr (λ n acc, String.length n + 3 + acc)%nat 0%nat names < size)%nat →
  strip_trailing_comma (bit_names size names 0 val "") = members (bits_set names val).
Proof.
  intros Hf Hl. rewrite <-strip_entries. f_equal. pose proof (bit_names_all size names val 0 "" Hf) as H.
  change (Z.of_nat 0) with 0 in H. rewrite H by (cbn; lia). by rewrite app_nil_l_str.
Qed.

Section masks.
Context (reply : nat → string → option string).

Lemma members_length names val size :
  (foldr (λ n acc, String.length n + 3 + acc)%nat 0%nat names ≤ size)%nat →
  (String.length (members (bits_set names val)) ≤ size)%nat.
Proof.
  intros Hl. etrans; [|exact Hl]. clear Hl. unfold bits_set.
  assert (∀ i, String.length (members (omap (pick names val i) (seq i (length names)))) ≤
               foldr (λ n acc, String.length n + 3 + acc) 0 names)%nat as H; [|apply H].
  induction names as [|n names IH]; intros i; [done|]. cbn [length foldr]. rewrite picks. specialize (IH (S i)).
  destruct (Z.testbit val (Z.of_nat i)); [|cbn [app]; lia].
  cbn [app members]. unfold quoted. change (String.length QUOTE) with 1%nat.
  destruct (omap _ _); rewrite !length_app_str; change (String.length QUOTE) with 1%nat; cbn [String.length] in *; lia.
Qed.

Lemma length_long v : LONG_MIN <= v <= LONG_MAX → (String.length (fmt_d v) ≤ 20)%nat.
Proof.
  unfold LONG_MIN, LONG_MAX. intros Hv. destruct (Z.lt_ge_cases v 0).
  - rewrite fmt_d_neg by done. cbn [String.length].
    pose proof (length_fmt_d (- v) 19 ltac:(lia) ltac:(lia)). lia.
  - pose proof (length_fmt_d v 19 ltac:(lia) ltac:(lia)). lia.
Qed.

Lemma atol_long s : LONG_MIN <= atol s <= LONG_MAX.
Proof. unfold atol, strtol, LONG_MIN, LONG_MAX. destruct (scan_int 10 s) as [[v r]|]; lia. Qed.

(** The taint of the kernel is decoded exactly: whatever the kernel answers,
    the text of the check holds the number it printed and, when that is
    positive, the names of exactly the bits below 18 that are set, in order; no
    buffer cuts it short; and when nothing was read the text says so. *)
Theorem taint_decoded s :
  let t := result (rish_read reply "cat /proc/sys/kernel/tainted 2>/dev/null" 64) s in
  let text v tainted blocked names :=
    scat [dq "{'value':"; fmt_d v; dq ",'tainted':"; bool_str tainted; dq ",'read_blocked':"; bool_str blocked;
          dq ",'bits':["; members names; "]}"] in
  result (check_kernel_taint reply) s =
    if longer 0 t
    then text (atol t) (0 <? atol t) false (if 0 <? atol t then bits_set TAINT_BIT_NAMES (atol t) else [])
    else text (-1) false true [].
Proof.
  cbv zeta. unfold check_kernel_taint. autorewrite with monad. set (t := result _ s).
  assert (∀ v tainted blocked names, (String.length (fmt_d v) ≤ 20)%nat → (String.length (members names) ≤ 300)%nat →
    String.length (scat [dq "{'value':"; fmt_d v; dq ",'tainted':"; bool_str tainted; dq ",'read_blocked':";
                         bool_str blocked; dq ",'bits':["; members names; "]}"]) < 512)%nat as Hfit.
  { intros v tainted blocked names Hv Hn. cbn [scat]. rewrite !length_app_str.
    change (String.length (dq "{'value':")) with 9%nat. change (String.length (dq ",'tainted':")) with 11%nat.
    change (String.length (dq ",'read_blocked':")) with 16%nat. change (String.length (dq ",'bits':[")) with 9%nat.
    destruct tainted, blocked; cbn [bool_str String.length]; lia. }
  destruct (longer 0 t); cbn [negb andb].
  - assert (taint_bits (atol t) = members (if 0 <? atol t then bits_set TAINT_BIT_NAMES (atol t) else [])) as ->.
    { unfold taint_bits. destruct (0 <? atol t); [|done]. apply bits_members; [by repeat constructor; cbn; lia|cbn; lia]. }
    apply snprintf_id, Hfit; [apply length_long, atol_long|].
    destruct (0 <? atol t); [apply members_length; cbn; lia|cbn; lia].
  - change (taint_bits (-1)) with (members []). apply snprintf_id, Hfit; cbn; lia.
Qed.

End masks.

(** ** The report in overlordd *)

(** A truth value among the members. *)
Lemma read_bool_member key pre indent b tail post :
  key_ok key → Forall (passes key) pre → no_quotes indent →
  json_get_bool (scat (pre ++ json_line indent key (bool_str b +:+ tail) :: post)) key = Some b.
Proof.
  intros Hkey Hpre Hi. unfold json_get_bool. rewrite find_member by done. by destruct b.
Qed.

(** The texts of the posture hold no quotes. *)
Definition clean (r : granit_report) : Prop :=
  let p := gr_posture r in
  no_quotes (gr_ts r) ∧ no_quotes (gr_grade r) ∧ no_quotes (po_selinux p) ∧ no_quotes (po_vb_state p) ∧
  no_quotes (po_vb_mode p) ∧ no_quotes (po_ro_secure p) ∧ no_quotes (po_ro_debug p) ∧ no_quotes (po_ro_encrypt p).

(** The posture reaches overlordd: from every report of granitord whose
    property texts hold no quotes, overlordd reads the score and whether the
    phone is rooted exactly, whatever the deep checks put into the rest. *)
Theorem posture_read r :
  clean r → INT_MIN <= gr_score r <= INT_MAX →
  json_get_int (granit_write_json r) "score" = Some (gr_score r) ∧
  json_get_bool (granit_write_json r) "root_present" = Some (rooted (gr_posture r)).
Proof.
  intros (Hts & Hg & H1 & H2 & H3 & H4 & H5 & H6) Hs. unfold granit_write_json. cbv zeta. split.
  - match goal with |- json_get_int (scat (?a1 :: ?a2 :: ?a3 :: ?a4 :: ?a5 :: ?a6 :: _ :: ?l)) _ = _ =>
      apply (read_member "score") with (pre := [a1; a2; a3; a4; a5; a6]) (tail := ",") (post := l) end;
      [key_tac|passes_tac|reflexivity|done|right; do 2 eexists; split; [reflexivity|by left]].
  - match goal with |- json_get_bool (scat (?a1 :: ?a2 :: ?a3 :: ?a4 :: ?a5 :: ?a6 :: ?a7 :: ?a8 :: ?a9
        :: ?b1 :: ?b2 :: ?b3 :: ?b4 :: ?b5 :: _ :: ?l)) _ = _ =>
      apply (read_bool_member "root_present") with (pre := [a1; a2; a3; a4; a5; a6; a7; a8; a9; b1; b2; b3; b4; b5])
        (tail := ",") (post := l) end;
      [key_tac|passes_tac|reflexivity].
Qed.

Definition sample_posture : posture :=
  Posture "Enforcing" false true "green" "enforcing" "1" "1" "0" "encrypted" false true
    (KernelParams 2 1 3 2 1 1 false).

Definition sample_granit : granit_report :=
  GranitReport "12:00:00" 80 "CAUTION" sample_posture
    (Findings "{}" "{}" "{}" "{}" "" "" "" "" "") "" false.

Lemma posture_read_witness :
  json_get_int (granit_write_json sample_granit) "score" = Some 80 ∧
  json_get_bool (granit_write_json sample_granit) "root_present" = Some true.
Proof.
  apply (posture_read sample_granit); [split_and!; reflexivity|split; vm_compute; discriminate].
Defined.

(** ** The weight of an alarm *)

Lemma certainty_cases r : certainty r ∈ [0; 75; 80; 85; 95].
Proof. unfold certainty. cbv zeta. repeat split_match; rewrite !elem_of_cons; tauto. Qed.

(** The surer, the lighter: gaveld scores an alarm of granitord by the
    weight it carries, which is the confidence as a fraction of one, and by its
    default of ten points only when that is zero; so an alarm with a diagnosis
    weighs less than one point, and one without ten. *)
Theorem certain_alarms_weigh_less r signal weight ctx :
  ToGaveld signal weight ctx ∈ alarm_of r →
  let w := effective_weight signal (atof (fmt_g6 weight)) in
  (certainty r = 0 → w = d_of_Z 10) ∧ (certainty r ≠ 0 → (w <? d_one)%D = true).
Proof.
  unfold alarm_of. cbv zeta. intros Hin.
  assert ((signal = "SECURITY_CRITICAL" ∨ signal = "SECURITY_WARN") ∧ weight = percent_f (certainty r)) as [Hs ->].
  { repeat case_match; rewrite ?elem_of_cons, ?elem_of_nil in Hin;
      repeat destruct Hin as [Hin|Hin]; try done; injection Hin as -> -> ->; auto. }
  clear Hin. pose proof (certainty_cases r) as Hc. rewrite !elem_of_cons, elem_of_nil in Hc.
  destruct Hs as [-> | ->], Hc as [-> | [-> | [-> | [-> | [-> | []]]]]]; split; intros H; try done; by vm_compute.
Qed.

Lemma certain_alarms_weigh_less_witness :
  let r := GranitReport "" 100 "SECURE" sample_posture (Findings "" "" "" "" "" "" "" "x" "") "t" false in
  certainty r = 85 ∧ (effective_weight "SECURITY_WARN" (atof (fmt_g6 (percent_f 85))) <? d_one)%D = true.
Proof.
  cbv zeta. split; [reflexivity|].
  apply (certain_alarms_weigh_less (GranitReport "" 100 "SECURE" sample_posture (Findings "" "" "" "" "" "" "" "x" "") "t" false)
    "SECURITY_WARN" (percent_f 85) "t"); [by left|discriminate].
Defined.
