(* ===== verification/Tiger.v ===== *)
(** * tigerclawd: device integrity ([src/daemon/tigerclawd.c])

    Every half minute tigerclawd runs three combined commands, cuts their output
    into sections, and compares what it finds (services, certificates, device
    administrators, properties) with the baseline of an earlier poll.  [reply] is
    what [bexec] returns, indexed by the number of commands run before. *)

From S2P Require Import Prelude CString Double Krang Conv Nulld.
From Stdlib Require Import Ascii.

Definition MAX_ANOMALIES : nat := 16.
Definition MAX_CERTS : nat := 512.
Definition MAX_ADMINS : nat := 32.
Definition PKG_NAME_MAX : nat := 128.
Definition MAX_KILL_POLICIES : nat := 64.
Definition DEFAULT_POLL : Z := 30.
Definition TC_SECTION_SCRATCH_SIZE : Z := 65536.
Definition TC_PROBE_CMD_BUDGET : Z := 1450.
Definition SYSTEM_CA_PATH : string := "/system/etc/security/cacerts".
Definition USER_CA_PATH : string := "/data/misc/user/0/cacerts-added".

Record anomaly_t := Anomaly { an_type : string; an_code : string; an_detail : string }.

(** [is_removed] is never written. *)
Record cert_entry_t := Cert { ce_fingerprint : string; ce_subject : string; ce_is_system : bool; ce_is_new : bool }.

Record admin_entry_t := Admin {
  ad_package : string; ad_class : string; ad_profile_owner : bool; ad_device_owner : bool; ad_is_new : bool }.

Record miui_surface_t := Surface {
  mi_selinux_mode : string; mi_verified_boot : string; mi_optimization : bool; mi_shizuku_bound : bool;
  mi_kill_targets : list string }.

Record device_t := Device {
  dv_codename : string; dv_board : string; dv_hardware : string; dv_hyperos : string; dv_sec_patch : string;
  dv_bootloader : string }.

(** [tigerclaw_report_t] when it is written; its counts of lists are their lengths. *)
Record tigerclaw_report_t := Report {
  tr_device : device_t; tr_svc_count : Z; tr_svc_drift : Z; tr_suspicious : Z; tr_prop_drift : bool;
  tr_trust : Z; tr_anomalies : list anomaly_t; tr_certs : list cert_entry_t; tr_cert_new : Z;
  tr_cert_removed : Z; tr_admins : list admin_entry_t; tr_admin_new : Z; tr_miui : miui_surface_t;
  tr_sequence : Z; tr_timestamp : string; tr_poll_ms : Z; tr_baseline : Z (* g_baseline_svc *) }.

(** The baseline globals.  The arrays keep zeroed entries beyond the lists. *)
Record baseline := Baseline {
  bl_established : bool; bl_svc : Z; bl_prop_hash : Z;
  bl_cert_count : Z; bl_certs : list cert_entry_t; bl_admin_count : Z; bl_admins : list admin_entry_t }.

Inductive tiger_output :=
| ToGaveld (signal : string) (weight : double) (ctx : string)
| ToSplinter (type payload : string).

Record tiger := Tiger {
  tg_now : Z;
  tg_asked : nat;                              (* commands run *)
  tg_file : option string;                     (* BASELINE_FILE *)
  tg_probe : option string;                    (* g_probe_buf, when g_probe_loaded *)
  tg_baseline : baseline;
  tg_sequence : Z;
  tg_anomalies : list anomaly_t;               (* rpt.anomalies *)
  tg_out : list tiger_output;
  tg_reports : list tigerclaw_report_t         (* the calls of write_json *) }.

Definition asking (s : tiger) : tiger :=
  Tiger (tg_now s) (S (tg_asked s)) (tg_file s) (tg_probe s) (tg_baseline s) (tg_sequence s) (tg_anomalies s) (tg_out s) (tg_reports s).
Definition with_file (x : option string) (s : tiger) : tiger :=
  Tiger (tg_now s) (tg_asked s) x (tg_probe s) (tg_baseline s) (tg_sequence s) (tg_anomalies s) (tg_out s) (tg_reports s).
Definition with_probe (x : option string) (s : tiger) : tiger :=
  Tiger (tg_now s) (tg_asked s) (tg_file s) x (tg_baseline s) (tg_sequence s) (tg_anomalies s) (tg_out s) (tg_reports s).
Definition with_baseline (x : baseline) (s : tiger) : tiger :=
  Tiger (tg_now s) (tg_asked s) (tg_file s) (tg_probe s) x (tg_sequence s) (tg_anomalies s) (tg_out s) (tg_reports s).
Definition with_sequence (x : Z) (s : tiger) : tiger :=
  Tiger (tg_now s) (tg_asked s) (tg_file s) (tg_probe s) (tg_baseline s) x (tg_anomalies s) (tg_out s) (tg_reports s).
Definition with_anomalies (x : list anomaly_t) (s : tiger) : tiger :=
  Tiger (tg_now s) (tg_asked s) (tg_file s) (tg_probe s) (tg_baseline s) (tg_sequence s) x (tg_out s) (tg_reports s).
Definition with_out (x : tiger_output) (s : tiger) : tiger :=
  Tiger (tg_now s) (tg_asked s) (tg_file s) (tg_probe s) (tg_baseline s) (tg_sequence s) (tg_anomalies s) (tg_out s ++ [x]) (tg_reports s).
Definition with_report (x : tigerclaw_report_t) (s : tiger) : tiger :=
  Tiger (tg_now s) (tg_asked s) (tg_file s) (tg_probe s) (tg_baseline s) (tg_sequence s) (tg_anomalies s) (tg_out s) (tg_reports s ++ [x]).
Definition with_now (x : Z) (s : tiger) : tiger :=
  Tiger x (tg_asked s) (tg_file s) (tg_probe s) (tg_baseline s) (tg_sequence s) (tg_anomalies s) (tg_out s) (tg_reports s).

Definition no_baseline : baseline := Baseline false 0 0 0 [] 0 [].

(** The process starts; the file may be there from an earlier run. *)
Definition tiger_start (now : Z) (file : option string) : tiger := Tiger now 0 file None no_baseline 0 [] [] [].

Abbreviation TG := (M tiger).

(** ** Texts *)

Definition unsafe_char (c : ascii) : bool :=
  Ascii.eqb c (chr 34) || Ascii.eqb c BACKSLASH || Ascii.eqb c "|" || (code c <? 32).

Fixpoint sanitize_field (s : string) : string :=
  match s with
  | EmptyString => EmptyString
  | String c s' => String (if unsafe_char c then "_"%char else c) (sanitize_field s')
  end.

(** Newlines. *)
Fixpoint count_lines (s : string) : Z :=
  match s with
  | EmptyString => 0
  | String c s' => (if Ascii.eqb c NL then 1 else 0) + count_lines s'
  end.

(** [h = ((h << 5) + h) + c] on [uint32_t]. *)
Fixpoint djb2_from (h : Z) (s : string) : Z :=
  match s with
  | EmptyString => h
  | String c s' => djb2_from (to_u32 (to_u32 (to_u32 (Z.shiftl h 5) + h) + code c)) s'
  end.

Definition djb2 (s : option string) : Z := djb2_from 5381 (default "" s).

Definition marker_of (tag : string) : string := snprintf 64 (scat ["=="; tag; "=="]).

(** The text between the marker of [tag] and the next line that starts with [==]. *)
Definition section_of (buf tag : string) : option string :=
  at_marker ← strstr buf (marker_of tag);
  let start := skip_while is_line_end (sdrop (String.length (marker_of tag)) at_marker) in
  let text := match strstr start (NLs +:+ "==") with
              | Some stop => stake (String.length start - String.length stop) start
              | None => start
              end in
  Some (trim_end is_line_end (stake (Z.to_nat (TC_SECTION_SCRATCH_SIZE - 1)) text)).

Definition nonempty (v : option string) : bool := match v with Some v => longer 0 v | None => false end.

Definition has (v : option string) (needle : string) : bool :=
  match v with Some v => contains v needle | None => false end.

(** [strtoul(s, NULL, 10)], to [uint32_t]. *)
Definition strtoul32 (s : string) : Z :=
  match scan_int 10 s with
  | Some (v, _) => to_u32 (if Z.abs v <? 2 ^ 64 then v else 2 ^ 64 - 1)
  | None => 0
  end.

Section tiger.
Context (reply : nat → string → option string).
Context (strftime : Z → string).
Context (poll_ms : Z → Z).
Context (dirs_ok : bool).

Definition bexec (cmd : string) : TG (option string) := λ s, (reply (tg_asked s) cmd, asking s).

Definition add_anomaly (type code detail : string) : TG unit :=
  anomalies ← gets tg_anomalies;
  if (MAX_ANOMALIES <=? length anomalies)%nat then mret tt
  else
    _ ← modify (with_anomalies (anomalies ++ [Anomaly (strncpy 16 type) (strncpy 32 code) (strncpy 256 detail)]));
    _ ← modify (with_out (ToGaveld code (d_of_Z 1) detail));
    modify (with_out (ToSplinter code detail)).

(** ** The probe *)

Definition probe_section (tag : string) : TG (option string) :=
  probe ← gets tg_probe;
  mret (buf ← probe; section_of buf tag).

(** [None] where the function fails, otherwise the buffer afterwards. *)
Definition append_probe_chunk (cmd buf : string) : TG (option string) :=
  if TC_PROBE_CMD_BUDGET <? slen cmd then mret None
  else
    raw ← bexec cmd;
    mret ((λ raw, buf +:+ stake (Z.to_nat (262144 - slen buf - 1)) raw) <$> raw).

(** [echo ==TAG==; cmd 2>/dev/null;] *)
Definition probe_line (tag cmd : string) : string := scat ["echo =="; tag; "==; "; cmd; ";"].

Definition cmd_fast : string :=
  scat [probe_line "CODENAME" "getprop ro.product.device 2>/dev/null";
        probe_line "BOARD" "getprop ro.product.board 2>/dev/null";
        probe_line "HARDWARE" "getprop ro.hardware 2>/dev/null";
        probe_line "HYPEROS1" "getprop ro.miui.ui.version.name 2>/dev/null";
        probe_line "HYPEROS2" "getprop ro.build.version.hyperos 2>/dev/null";
        probe_line "SECPATCH" "getprop ro.build.version.security_patch 2>/dev/null";
        probe_line "VBSTATE" "getprop ro.boot.verifiedbootstate 2>/dev/null";
        probe_line "GETENFORCE" "getenforce 2>/dev/null";
        probe_line "DEBUGGABLE" "getprop ro.debuggable 2>/dev/null";
        probe_line "SECURE" "getprop ro.secure 2>/dev/null";
        probe_line "BUILDTYPE" "getprop ro.build.type 2>/dev/null";
        probe_line "USBSTATE" "getprop sys.usb.state 2>/dev/null";
        probe_line "ADBTCP" "getprop persist.adb.tcp.port 2>/dev/null";
        probe_line "MIUIOPT" "getprop persist.sys.miui_optimization 2>/dev/null";
        probe_line "SVCLIST" "service list 2>/dev/null";
        probe_line "SECCENTERPATH" "pm path com.miui.securitycenter 2>/dev/null";
        probe_line "SECCENTERCOUNT" "service list 2>/dev/null | grep -c securitycenter"].

Definition cmd_dumpsys : string :=
  scat [probe_line "SHIZUKU" "dumpsys activity service com.shizuku 2>/dev/null";
        probe_line "PROCMGR" "dumpsys ProcessManager 2>/dev/null";
        probe_line "DEVICEPOLICY" "dumpsys device_policy 2>/dev/null"].

Definition find_certs (dir : string) : string :=
  scat ["find "; dir; " -maxdepth 1 -type f -exec sha256sum {} "; String BACKSLASH ";"; " 2>/dev/null"].

Definition cmd_certs : string :=
  scat [probe_line "SYSCERTS" (find_certs SYSTEM_CA_PATH); probe_line "USERCERTS" (find_certs USER_CA_PATH)].

Definition load_probe_data : TG unit :=
  _ ← modify (with_probe None);
  fast ← append_probe_chunk cmd_fast "";
  match fast with
  | None => mret tt
  | Some buf =>
      dumpsys ← append_probe_chunk cmd_dumpsys buf;
      match dumpsys with
      | None => mret tt
      | Some buf =>
          certs ← append_probe_chunk cmd_certs buf;
          match certs with
          | None => mret tt
          | Some buf => modify (with_probe (Some buf))
          end
      end
  end.

(** ** Device and services *)

Definition or_unknown (v : option string) : string :=
  match v with Some v => strncpy 32 v | None => "unknown" end.

Definition get_device_info : TG device_t :=
  codename ← probe_section "CODENAME";
  board ← probe_section "BOARD";
  hardware ← probe_section "HARDWARE";
  hyperos1 ← probe_section "HYPEROS1";
  hyperos ← (if nonempty hyperos1 then mret hyperos1
             else hyperos2 ← probe_section "HYPEROS2"; mret (if nonempty hyperos2 then hyperos2 else None));
  sec_patch ← probe_section "SECPATCH";
  bootloader ← probe_section "VBSTATE";
  mret (Device (or_unknown codename) (or_unknown board) (or_unknown hardware) (or_unknown hyperos)
               (or_unknown sec_patch) (or_unknown bootloader)).

Definition BAD_SERVICES : list string :=
  ["frida"; "xposed"; "inject"; "magisk"; "supersu"; "substrate"; "lspatch"; "hook"; "edxp"; "taichi"].

Definition check_suspicious_services (services : option string) : TG Z :=
  let found := List.filter (has services) BAD_SERVICES in
  _ ← mfor found (λ bad,
        add_anomaly "URGENT" "SUSPICIOUS_BINDER_SERVICE" (snprintf 128 ("Suspicious binder service: " +:+ bad)));
  mret (Z.of_nat (length found)).

Definition check_selinux : TG bool :=
  mode ← probe_section "GETENFORCE";
  if has mode "Permissive" then
    _ ← add_anomaly "URGENT" "SELINUX_PERMISSIVE" "SELinux is PERMISSIVE";
    mret false
  else mret true.

Definition DEBUG_CHECKS : list (string * string * string) :=
  [("DEBUGGABLE", "ro.debuggable", "0"); ("SECURE", "ro.secure", "1"); ("BUILDTYPE", "ro.build.type", "user")].

Fixpoint check_props (checks : list (string * string * string)) (clean : bool) : TG bool :=
  match checks with
  | [] => mret clean
  | (tag, prop, safe) :: checks' =>
      v ← probe_section tag;
      match v with
      | Some x =>
          if longer 0 x && negb (String.eqb x safe) then
            _ ← add_anomaly "URGENT" "DEBUG_PROP_ANOMALY"
                  (snprintf 256 (scat [prop; "="; x; " (expected "; safe; ")"]));
            check_props checks' false
          else check_props checks' clean
      | None => check_props checks' clean
      end
  end.

Definition check_debug_props : TG bool := check_props DEBUG_CHECKS true.

Definition positive (v : option string) : bool := match v with Some x => 0 <? atoi x | None => false end.

Definition check_security_center : TG bool :=
  pm ← probe_section "SECCENTERPATH";
  if negb (has pm "package:") then
    _ ← add_anomaly "WARNING" "SECURITY_CENTER_MISSING" "MIUI Security Center not installed";
    mret false
  else
    svc ← probe_section "SECCENTERCOUNT";
    if positive svc then mret true
    else
      _ ← add_anomaly "WARNING" "SECURITY_CENTER_DOWN" "MIUI Security Center installed but not running";
      mret false.

(** The main loop does not call it. *)
Definition check_xiaomi_services (services : option string) : TG Z :=
  let missing := List.filter (λ core, negb (has services core)) ["MiuiInit"; "ProcessManager"; "anrrescue"] in
  _ ← mfor missing (λ core,
        add_anomaly "INFO" "XIAOMI_SERVICE_MISSING" (snprintf 128 ("Core Xiaomi service absent: " +:+ core)));
  mret (Z.of_nat (length missing)).

(** Developer options, adb, adb over the network. *)
Definition check_dev_state : TG (bool * bool * bool) :=
  v ← probe_section "DEBUGGABLE";
  let dev_opts := match v with Some x => longer 0 x && negb (String.eqb x "0") | None => false end in
  usb ← probe_section "USBSTATE";
  let adb_enabled := has usb "adb" in
  tcp ← probe_section "ADBTCP";
  let adb_net := positive tcp in
  _ ← mwhen dev_opts (add_anomaly "WARNING" "DEV_OPTIONS_ENABLED" "Developer options enabled");
  _ ← mwhen adb_net (add_anomaly "WARNING" "ADB_OVER_NETWORK" "ADB over network enabled");
  mret (dev_opts, adb_enabled, adb_net).

Definition get_prop_hash : TG Z :=
  props ← bexec (scat ["getprop 2>/dev/null | grep -E '^"; String BACKSLASH "[ro"; String BACKSLASH ".' | sort"]);
  mret (djb2 props).

(** ** Certificates *)

Definition cert_of (is_system : bool) (line : string) : option cert_entry_t :=
  '(hash, rest) ← scan_s 127 line;
  '(path, _) ← scan_s 511 rest;
  if (String.length hash <? 64)%nat then None
  else Some (Cert (stake 64 hash) (snprintf 256 (default path (after_last "/" path))) is_system false).

(** The loop over the lines that are left. *)
Fixpoint parse_certs (is_system : bool) (lines : list string) (certs : list cert_entry_t) : list cert_entry_t :=
  match lines with
  | [] => certs
  | line :: lines' =>
      if (MAX_CERTS <=? length certs)%nat then certs
      else parse_certs is_system lines'
             (match cert_of is_system line with Some c => certs ++ [c] | None => certs end)
  end.

Definition parse_cert_section (raw : option string) (is_system : bool) (certs : list cert_entry_t) : list cert_entry_t :=
  match raw with
  | Some raw => if longer 0 raw then parse_certs is_system (token_lines (strncpy (Z.to_nat 32768) raw)) certs else certs
  | None => certs
  end.

Definition probe_certs : TG (list cert_entry_t) :=
  sys ← probe_section "SYSCERTS";
  let certs := parse_cert_section sys true [] in
  user ← probe_section "USERCERTS";
  mret (parse_cert_section user false certs).

(** ** Device administrators *)

Inductive policy_state := ST_NONE | ST_DEVICE_OWNER | ST_PROFILE_OWNER | ST_ADMIN_LIST.

Record policy := Policy {
  po_state : policy_state; po_device_owner : string; po_profile_owners : list string; po_admins : list admin_entry_t }.

(** The name after [package=], in a buffer of [PKG_NAME_MAX] bytes. *)
Definition package_at (line : string) : option string :=
  (λ p, strncpy PKG_NAME_MAX (break_at (λ c, Ascii.eqb c " " || is_line_end c) (sdrop 8 p)).1)
  <$> strstr line "package=".

Definition is_blank_at (i : nat) (line : string) : bool :=
  match snth i line with Some c => Ascii.eqb c " " | None => false end.

(** The line of an administrator, [    package/class:]. *)
Definition admin_line (line : string) : option (string * string) :=
  slash ← strchr "/" line;
  if forallb (λ i, is_blank_at i line) [0; 1; 2; 3]%nat && negb (is_blank_at 4 line)
     && (match strchr ":" slash with Some _ => true | None => false end) && negb (contains line "count=") then
    Some (strncpy PKG_NAME_MAX (stake (String.length line - String.length slash - 4) (sdrop 4 line)),
          strncpy PKG_NAME_MAX (break_at (λ c, Ascii.eqb c " " || is_line_end c || Ascii.eqb c ":") (sdrop 1 slash)).1)
  else None.

Definition enter (state : policy_state) (p : policy) : policy :=
  Policy state (po_device_owner p) (po_profile_owners p) (po_admins p).

(** A heading of the next block: two blanks, then text with a colon. *)
Definition ends_owner (line : string) : bool :=
  contains line ":" && is_blank_at 0 line && is_blank_at 1 line && negb (is_blank_at 2 line)
  && negb (contains line "package=") && negb (contains line "admin=").

Definition policy_line (p : policy) (line : string) : policy :=
  if contains line "Device Owner:" then enter ST_DEVICE_OWNER p
  else if contains line "Profile Owner" then enter ST_PROFILE_OWNER p
  else if contains line "Enabled Device Admins" then enter ST_ADMIN_LIST p
  else
    let state := match po_state p with
                 | ST_DEVICE_OWNER | ST_PROFILE_OWNER => if ends_owner line then ST_NONE else po_state p
                 | state => state
                 end in
    match state with
    | ST_NONE => enter ST_NONE p
    | ST_DEVICE_OWNER =>
        match package_at line with
        | Some x => Policy state x (po_profile_owners p) (po_admins p)
        | None => p
        end
    | ST_PROFILE_OWNER =>
        match package_at line with
        | Some x => if (length (po_profile_owners p) <? 8)%nat
                    then Policy state (po_device_owner p) (po_profile_owners p ++ [x]) (po_admins p)
                    else p
        | None => p
        end
    | ST_ADMIN_LIST =>
        if (length (po_admins p) <? MAX_ADMINS)%nat then
          match admin_line line with
          | Some (package, class) =>
              Policy state (po_device_owner p) (po_profile_owners p)
                (po_admins p ++ [Admin package class
                   (existsb (String.eqb package) (po_profile_owners p))
                   (longer 0 (po_device_owner p) && String.eqb package (po_device_owner p)) true])
          | None => p
          end
        else p
    end.

Definition parse_policy (text : string) : list admin_entry_t :=
  po_admins (foldl policy_line (Policy ST_NONE "" [] []) (token_lines text)).

Definition probe_admins : TG (list admin_entry_t) :=
  raw ← probe_section "DEVICEPOLICY";
  mret (match raw with Some text => parse_policy text | None => [] end).

(** ** The MIUI surface *)

Definition kill_target (line : string) : option string :=
  if contains line "mKillingPackageMaps" then
    (λ eq, strncpy 128 (cut_at "," (skip_while (Ascii.eqb " ") (sdrop 1 eq)))) <$> strchr "=" line
  else None.

Definition probe_miui_surface : TG miui_surface_t :=
  se ← probe_section "GETENFORCE";
  vb ← probe_section "VBSTATE";
  opt ← probe_section "MIUIOPT";
  shizuku ← probe_section "SHIZUKU";
  procmgr ← probe_section "PROCMGR";
  mret (Surface (snprintf 16 (default "unknown" se)) (snprintf 16 (default "unknown" vb))
          (has opt "1") (has shizuku "ShizukuService")
          (match procmgr with
           | Some text => take MAX_KILL_POLICIES (omap kill_target (token_lines text))
           | None => []
           end)).

(** ** The baseline *)

(** What [buf] holds after [needle]. *)
Definition past (needle buf : string) : option string := sdrop (String.length needle) <$> strstr buf needle.

Definition read_baseline_line (buf : string) (b : baseline) : baseline :=
  let int key d := match past (dq key) buf with Some p => atoi p | None => d end in
  let svc := int "'service_count':" (bl_svc b) in
  Baseline (0 <? svc) svc
    (match past (dq "'prop_hash':") buf with Some p => strtoul32 p | None => bl_prop_hash b end)
    (int "'cert_count':" (bl_cert_count b)) (bl_certs b)
    (int "'admin_count':" (bl_admin_count b)) (bl_admins b).

Definition load_baseline : TG unit :=
  file ← gets tg_file;
  match file with
  | None => mret tt
  | Some text =>
      match fgets 1024 text with
      | None => mret tt
      | Some (buf, _) => modify (λ s, with_baseline (read_baseline_line buf (tg_baseline s)) s)
      end
  end.

Definition baseline_text (svc hash certs admins now : Z) : string :=
  scat ["{"; NLs;
        "  "; dq "'service_count':"; fmt_d svc; ","; NLs;
        "  "; dq "'prop_hash':"; fmt_d hash; ","; NLs;
        "  "; dq "'cert_count':"; fmt_d certs; ","; NLs;
        "  "; dq "'admin_count':"; fmt_d admins; ","; NLs;
        "  "; dq "'established_at':"; fmt_d now; NLs;
        "}"; NLs].

(** [dirs_ok]: the directories are there and their files can be written. *)
Definition save_baseline (svc_count : Z) (certs : list cert_entry_t) (admins : list admin_entry_t) : TG unit :=
  if negb dirs_ok then mret tt
  else
    hash ← get_prop_hash;
    now ← gets tg_now;
    _ ← modify (with_file (Some (baseline_text svc_count hash (Z.of_nat (length certs)) (Z.of_nat (length admins)) now)));
    hash ← get_prop_hash;
    modify (with_baseline (Baseline true svc_count hash (Z.of_nat (length certs)) certs
                             (Z.of_nat (length admins)) admins)).

Definition zero_cert : cert_entry_t := Cert "" "" false false.
Definition zero_admin : admin_entry_t := Admin "" "" false false false.

(** The entries up to a count; those that were never written are zero. *)
Definition up_to {A} (zero : A) (count : Z) (l : list A) : list A :=
  map (λ i, nth i l zero) (seq 0 (Z.to_nat count)).

Definition baseline_certs (b : baseline) : list cert_entry_t := up_to zero_cert (bl_cert_count b) (bl_certs b).
Definition baseline_admins (b : baseline) : list admin_entry_t := up_to zero_admin (bl_admin_count b) (bl_admins b).

Definition same_cert (c d : cert_entry_t) : bool := String.eqb (ce_fingerprint c) (ce_fingerprint d).
Definition same_admin (a b : admin_entry_t) : bool :=
  String.eqb (ad_package a) (ad_package b) && String.eqb (ad_class a) (ad_class b).

Definition unknown_cert (base : list cert_entry_t) (c : cert_entry_t) : bool := negb (existsb (same_cert c) base).
Definition unknown_admin (base : list admin_entry_t) (a : admin_entry_t) : bool := negb (existsb (same_admin a) base).

Definition mark_cert (base : list cert_entry_t) (c : cert_entry_t) : cert_entry_t :=
  Cert (ce_fingerprint c) (ce_subject c) (ce_is_system c) (unknown_cert base c).
Definition mark_admin (base : list admin_entry_t) (a : admin_entry_t) : admin_entry_t :=
  Admin (ad_package a) (ad_class a) (ad_profile_owner a) (ad_device_owner a) (unknown_admin base a).

Definition cert_message (what : string) (c : cert_entry_t) : string :=
  snprintf 256 (scat [what; " cert: "; ce_subject c; " (fp="; stake 16 (ce_fingerprint c); "...)"]).

Definition admin_message (a : admin_entry_t) : string :=
  snprintf 256 (scat ["New device admin: "; ad_package a; "/"; ad_class a;
                      if ad_device_owner a then " [DEVICE_OWNER]" else "";
                      if ad_profile_owner a then " [PROFILE_OWNER]" else ""]).

(** The entries of the report, marked, and the numbers of new certificates,
    removed certificates and new administrators. *)
Definition compute_delta (certs : list cert_entry_t) (admins : list admin_entry_t)
  : TG (list cert_entry_t * list admin_entry_t * Z * Z * Z) :=
  b ← gets tg_baseline;
  if negb (bl_established b) then mret (certs, admins, 0, 0, 0)
  else
    let new := List.filter (unknown_cert (baseline_certs b)) certs in
    _ ← mfor new (λ c, add_anomaly "WARNING" "CERT_STORE_DELTA" (cert_message "New" c));
    let removed := List.filter (unknown_cert certs) (baseline_certs b) in
    _ ← mfor removed (λ c, add_anomaly "WARNING" "CERT_STORE_DELTA" (cert_message "Removed" c));
    let joined := List.filter (unknown_admin (baseline_admins b)) admins in
    _ ← mfor joined (λ a, add_anomaly "URGENT" "DEVICE_ADMIN_NEW" (admin_message a));
    mret (map (mark_cert (baseline_certs b)) certs, map (mark_admin (baseline_admins b)) admins,
          Z.of_nat (length new), Z.of_nat (length removed), Z.of_nat (length joined)).

Definition enforcing (mode : string) : bool := contains mode "enforcing" || contains mode "Enforcing".

Definition calc_trust_score (mode : string) (suspicious cert_new cert_removed admin_new : Z) : Z :=
  Z.max 0 (100 - (if enforcing mode then 0 else 25) - suspicious * 15 - cert_new * 5
           - cert_removed * 3 - admin_new * 10).

(** ** The report *)

Definition sanitize_cert (c : cert_entry_t) : cert_entry_t :=
  Cert (sanitize_field (ce_fingerprint c)) (sanitize_field (ce_subject c)) (ce_is_system c) (ce_is_new c).
Definition sanitize_admin (a : admin_entry_t) : admin_entry_t :=
  Admin (sanitize_field (ad_package a)) (sanitize_field (ad_class a)) (ad_profile_owner a) (ad_device_owner a) (ad_is_new a).
Definition sanitize_anomaly (a : anomaly_t) : anomaly_t :=
  Anomaly (sanitize_field (an_type a)) (sanitize_field (an_code a)) (sanitize_field (an_detail a)).
Definition sanitize_device (d : device_t) : device_t :=
  Device (sanitize_field (dv_codename d)) (sanitize_field (dv_board d)) (sanitize_field (dv_hardware d))
         (sanitize_field (dv_hyperos d)) (sanitize_field (dv_sec_patch d)) (sanitize_field (dv_bootloader d)).
Definition sanitize_surface (m : miui_surface_t) : miui_surface_t :=
  Surface (sanitize_field (mi_selinux_mode m)) (sanitize_field (mi_verified_boot m)) (mi_optimization m)
          (mi_shizuku_bound m) (map sanitize_field (mi_kill_targets m)).

Definition sanitize_report_strings (r : tigerclaw_report_t) : tigerclaw_report_t :=
  Report (sanitize_device (tr_device r)) (tr_svc_count r) (tr_svc_drift r) (tr_suspicious r) (tr_prop_drift r)
         (tr_trust r) (map sanitize_anomaly (tr_anomalies r)) (map sanitize_cert (tr_certs r)) (tr_cert_new r)
         (tr_cert_removed r) (map sanitize_admin (tr_admins r)) (tr_admin_new r) (sanitize_surface (tr_miui r))
         (tr_sequence r) (tr_timestamp r) (tr_poll_ms r) (tr_baseline r).

(** A line [indent"name": value], with the comma or what ends it. *)
Definition item (indent name value ending : string) : string := json_line indent name (value +:+ ending).

Definition cert_lines (c : cert_entry_t) : string :=
  scat ["      {"; NLs;
        item "        " "fingerprint" (quoted (ce_fingerprint c)) ",";
        item "        " "subject" (quoted (ce_subject c)) ",";
        item "        " "system" (bool_str (ce_is_system c)) ",";
        item "        " "new" (bool_str (ce_is_new c)) "";
        "      }"].

Definition admin_lines (a : admin_entry_t) : string :=
  scat ["      {"; NLs;
        item "        " "package" (quoted (ad_package a)) ",";
        item "        " "class" (quoted (ad_class a)) ",";
        item "        " "profile_owner" (bool_str (ad_profile_owner a)) ",";
        item "        " "device_owner" (bool_str (ad_device_owner a)) ",";
        item "        " "new" (bool_str (ad_is_new a)) "";
        "      }"].

Definition anomaly_lines (a : anomaly_t) : string :=
  scat ["    {"; NLs;
        item "      " "type" (quoted (an_type a)) ",";
        item "      " "code" (quoted (an_code a)) ",";
        item "      " "detail" (quoted (an_detail a)) "";
        "    }"].

(** The entries of an array, with a comma after every one but the last. *)
Fixpoint listed (entries : list string) : string :=
  match entries with
  | [] => ""
  | [e] => e +:+ NLs
  | e :: entries' => e +:+ "," +:+ NLs +:+ listed entries'
  end.

(** The text before the score. *)
Definition json_head (r : tigerclaw_report_t) : string :=
  scat ["{"; NLs;
        item "  " "daemon" (quoted "tigerclawd") ",";
        item "  " "version" (quoted "1.2.2") ",";
        item "  " "sequence" (fmt_d (tr_sequence r)) ",";
        item "  " "timestamp" (quoted (tr_timestamp r)) ",";
        item "  " "poll_interval_sec" (fmt_d DEFAULT_POLL) ",";
        item "  " "poll_duration_ms" (fmt_d (tr_poll_ms r)) ",";
        item "  " "device" "{" "";
        item "    " "codename" (quoted (dv_codename (tr_device r))) ",";
        item "    " "board" (quoted (dv_board (tr_device r))) ",";
        item "    " "hardware" (quoted (dv_hardware (tr_device r))) ",";
        item "    " "hyperos_version" (quoted (dv_hyperos (tr_device r))) ",";
        item "    " "security_patch" (quoted (dv_sec_patch (tr_device r))) ",";
        item "    " "bootloader_locked"
          (bool_str (String.eqb (dv_bootloader (tr_device r)) "green" || String.eqb (dv_bootloader (tr_device r)) "locked")) "";
        "  },"; NLs;
        item "  " "binder" "{" "";
        item "    " "service_count" (fmt_d (tr_svc_count r)) ",";
        item "    " "baseline_count" (fmt_d (tr_baseline r)) ",";
        item "    " "drift" (fmt_d (tr_svc_drift r)) ",";
        item "    " "suspicious_services" (fmt_d (tr_suspicious r)) "";
        "  },"; NLs;
        item "  " "integrity" "{" "";
        item "    " "selinux_enforcing" (bool_str (enforcing (mi_selinux_mode (tr_miui r)))) ",";
        item "    " "debug_props_clean" "true" ",";
        item "    " "security_center_running" "true" ",";
        item "    " "developer_options" "false" ",";
        item "    " "adb_enabled" "false" ",";
        item "    " "adb_over_network" "false" ",";
        item "    " "prop_hash_drift" (bool_str (tr_prop_drift r)) "";
        "  },"; NLs;
        item "  " "cert_store" "{" "";
        item "    " "count" (fmt_d (Z.of_nat (length (tr_certs r)))) ",";
        item "    " "delta_new" (fmt_d (tr_cert_new r)) ",";
        item "    " "delta_removed" (fmt_d (tr_cert_removed r)) ",";
        item "    " "certs" "[" "";
        listed (map cert_lines (tr_certs r));
        "    ]"; NLs; "  },"; NLs;
        item "  " "device_admins" "{" "";
        item "    " "count" (fmt_d (Z.of_nat (length (tr_admins r)))) ",";
        item "    " "delta_new" (fmt_d (tr_admin_new r)) ",";
        item "    " "admins" "[" "";
        listed (map admin_lines (tr_admins r));
        "    ]"; NLs; "  },"; NLs;
        item "  " "miui_surface" "{" "";
        item "    " "selinux_mode" (quoted (mi_selinux_mode (tr_miui r))) ",";
        item "    " "verified_boot" (quoted (mi_verified_boot (tr_miui r))) ",";
        item "    " "miui_optimization" (bool_str (mi_optimization (tr_miui r))) ",";
        item "    " "shizuku_bound" (bool_str (mi_shizuku_bound (tr_miui r))) ",";
        item "    " "kill_policies" "{" "";
        item "      " "count" (fmt_d (Z.of_nat (length (mi_kill_targets (tr_miui r))))) ",";
        item "      " "targets" "[" "";
        listed (map (λ t, "        " +:+ quoted t) (mi_kill_targets (tr_miui r)));
        "      ]"; NLs; "    }"; NLs; "  },"; NLs].

Definition json_tail (r : tigerclaw_report_t) : string :=
  scat [item "  " "anomalies" "[" ""; listed (map anomaly_lines (tr_anomalies r)); "  ]"; NLs; "}"; NLs].

(** The text [write_json] puts into the file. *)
Definition tiger_write_json (r : tigerclaw_report_t) : string :=
  json_head r +:+ item "  " "trust_score" (fmt_d (tr_trust r)) "," +:+ json_tail r.

(** ** The loop *)

Definition drift_message (drift base now : Z) : string :=
  snprintf 128 (scat ["Binder drift: "; (if drift <? 0 then "" else "+"); fmt_d drift; " services (baseline ";
                      fmt_d base; ", now "; fmt_d now; ")"]).

(** The difference of the numbers of services. *)
Definition check_drift (svc_count : Z) : TG Z :=
  b ← gets tg_baseline;
  if bl_established b && (0 <? svc_count) then
    let drift := svc_count - bl_svc b in
    _ ← mwhen (5 <? Z.abs drift)
          (add_anomaly "WARNING" "BINDER_TOPOLOGY_DRIFT" (drift_message drift (bl_svc b) svc_count));
    mret drift
  else mret 0.

Definition check_prop_hash : TG bool :=
  b ← gets tg_baseline;
  if bl_established b then
    ph ← get_prop_hash;
    if negb (ph =? bl_prop_hash b) && negb (bl_prop_hash b =? 0) then
      _ ← add_anomaly "WARNING" "PROP_HASH_DRIFT" "Read-only property set changed";
      mret true
    else mret false
  else mret false.

(** What the poll subtracts from the score of [calc_trust_score]. *)
Definition final_trust (score : Z) (selinux debug_clean sc_running dev_opts adb_net : bool) : Z :=
  let minus (b : bool) n := if b then n else 0 in
  Z.max 0 (score - minus (negb selinux) 25 - minus (negb debug_clean) 20 - minus (negb sc_running) 15
           - minus dev_opts 10 - minus adb_net 10).

Definition poll : TG unit :=
  _ ← modify (λ s, with_sequence (to_u64 (tg_sequence s + 1)) s);
  _ ← modify (with_anomalies []);
  _ ← load_probe_data;
  device ← get_device_info;
  services ← probe_section "SVCLIST";
  let svc_count := count_lines (default "" services) in
  suspicious ← check_suspicious_services services;
  selinux ← check_selinux;
  debug_clean ← check_debug_props;
  sc_running ← check_security_center;
  '(dev_opts, _, adb_net) ← check_dev_state;
  drift ← check_drift svc_count;
  prop_drift ← check_prop_hash;
  certs ← probe_certs;
  admins ← probe_admins;
  miui ← probe_miui_surface;
  '(certs, admins, cert_new, cert_removed, admin_new) ← compute_delta certs admins;
  let trust := final_trust (calc_trust_score (mi_selinux_mode miui) suspicious cert_new cert_removed admin_new)
                 selinux debug_clean sc_running dev_opts adb_net in
  b ← gets tg_baseline;
  _ ← mwhen (negb (bl_established b) && (10 <? svc_count)) (save_baseline svc_count certs admins);
  s ← gets id;
  mwhen dirs_ok
    (modify (with_report (sanitize_report_strings
       (Report device svc_count drift suspicious prop_drift trust (tg_anomalies s) certs cert_new cert_removed
               admins admin_new miui (tg_sequence s) (strftime (tg_now s)) (poll_ms (tg_sequence s))
               (bl_svc (tg_baseline s)))))).

(** The polls at [times]. *)
Definition watch (times : list Z) : TG unit := mfor times (λ now, _ ← modify (with_now now); poll).

(** [main], from [tiger_start]. *)
Definition tiger_main (times : list Z) : TG unit := _ ← load_baseline; watch times.

End tiger.
