(* ===== verification/Claw.v ===== *)
(** * tigerclawd over a run

    What the anomalies of a poll are worth: the sixteen places of a report, the
    score and its bounds, the baseline that no restart survives, and what a poll
    reports whose commands fail; then what is sent, and what a report hides. *)

From S2P Require Import Prelude CString Double Krang Nulld Conv Tiger.
From Stdlib Require Import Ascii.

(** ** Anomalies *)

Definition announce (x : string * string * string) : list tiger_output :=
  [ToGaveld x.1.2 (d_of_Z 1) x.2; ToSplinter x.1.2 x.2].

Definition entry (x : string * string * string) : anomaly_t :=
  Anomaly (strncpy 16 x.1.1) (strncpy 32 x.1.2) (strncpy 256 x.2).

(** The places that are left in the report. *)
Definition room (s : tiger) : nat := MAX_ANOMALIES - length (tg_anomalies s).

(** The state with the anomalies of [l] that have a place. *)
Definition noted (l : list (string * string * string)) (s : tiger) : tiger :=
  Tiger (tg_now s) (tg_asked s) (tg_file s) (tg_probe s) (tg_baseline s) (tg_sequence s)
    (tg_anomalies s ++ map entry (take (room s) l)) (tg_out s ++ flat_map announce (take (room s) l)) (tg_reports s).

Lemma noted_nil s : noted [] s = s.
Proof. destruct s. unfold noted. cbn. by rewrite !take_nil, !app_nil_r. Qed.

Lemma room_noted l s : room (noted l s) = (room s - length l)%nat.
Proof. unfold room, noted. cbn [tg_anomalies]. rewrite length_app, length_map, length_take. unfold room. lia. Qed.

Lemma noted_app l1 l2 s : noted l2 (noted l1 s) = noted (l1 ++ l2) s.
Proof.
  unfold noted at 1. rewrite room_noted. destruct s as [? ? ? ? ? ? a o ?]. unfold noted. cbn -[room take].
  by rewrite take_app, map_app, flat_map_app, !app_assoc.
Qed.

Lemma add_anomaly_noted type code detail s :
  exec (add_anomaly type code detail) s = noted [(type, code, detail)] s.
Proof.
  unfold add_anomaly. autorewrite with monad. unfold noted, room.
  destruct (Nat.leb_spec MAX_ANOMALIES (length (tg_anomalies s))) as [H|H].
  - replace (MAX_ANOMALIES - length (tg_anomalies s))%nat with 0%nat by lia.
    autorewrite with monad. destruct s. cbn. by rewrite !app_nil_r.
  - destruct (MAX_ANOMALIES - length (tg_anomalies s))%nat eqn:Hn; [lia|].
    autorewrite with monad. unfold with_out. cbn. by rewrite take_nil, <-app_assoc.
Qed.

Lemma mfor_noted {A} (f : A → string * string * string) (l : list A) s :
  exec (mfor l (λ x, add_anomaly (f x).1.1 (f x).1.2 (f x).2)) s = noted (map f l) s.
Proof.
  revert s. induction l as [|x l IH]; intros s; cbn [mfor map]; [by rewrite noted_nil|].
  autorewrite with monad. rewrite IH, add_anomaly_noted, noted_app. by destruct (f x) as [[? ?] ?].
Qed.

(** ** The delta *)

Definition new_cert (c : cert_entry_t) := ("WARNING", "CERT_STORE_DELTA", cert_message "New" c).
Definition removed_cert (c : cert_entry_t) := ("WARNING", "CERT_STORE_DELTA", cert_message "Removed" c).
Definition new_admin (a : admin_entry_t) := ("URGENT", "DEVICE_ADMIN_NEW", admin_message a).

Section delta.
Context (b : baseline) (certs : list cert_entry_t) (admins : list admin_entry_t).

Definition delta_certs : list (string * string * string) :=
  map new_cert (List.filter (unknown_cert (baseline_certs b)) certs) ++
  map removed_cert (List.filter (unknown_cert certs) (baseline_certs b)).

Definition delta_admins : list (string * string * string) :=
  map new_admin (List.filter (unknown_admin (baseline_admins b)) admins).

Lemma delta_exec s :
  tg_baseline s = b → bl_established b = true →
  exec (compute_delta certs admins) s = noted (delta_certs ++ delta_admins) s.
Proof.
  intros Hb He. unfold compute_delta. autorewrite with monad. rewrite Hb, He. cbn [negb].
  cbv zeta. autorewrite with monad.
  unfold delta_certs, delta_admins. rewrite <-!noted_app.
  rewrite <-(mfor_noted new_cert), <-(mfor_noted removed_cert), <-(mfor_noted new_admin). done.
Qed.

End delta.

(** ** A poll *)

(** The codes of the checks that need no baseline, and of the others. *)
Definition STANDING_CODES : list string :=
  ["SUSPICIOUS_BINDER_SERVICE"; "SELINUX_PERMISSIVE"; "DEBUG_PROP_ANOMALY"; "SECURITY_CENTER_MISSING";
   "SECURITY_CENTER_DOWN"; "DEV_OPTIONS_ENABLED"; "ADB_OVER_NETWORK"].

Definition DRIFT_CODES : list string :=
  ["BINDER_TOPOLOGY_DRIFT"; "PROP_HASH_DRIFT"; "CERT_STORE_DELTA"; "DEVICE_ADMIN_NEW"].

(** The codes a poll can use with the baseline [b]. *)
Definition codes (b : baseline) : list string :=
  STANDING_CODES ++ if bl_established b then DRIFT_CODES else [].

(** What a check leaves alone. *)
Definition kept (s : tiger) := (tg_now s, tg_file s, tg_probe s, tg_baseline s, tg_sequence s, tg_reports s).

(** Between [s] and [s'] nothing happened but probing and anomalies with codes of [C]. *)
Definition tells (C : list string) (s s' : tiger) : Prop :=
  kept s' = kept s ∧
  ∃ l, Forall (λ x, x.1.2 ∈ C) l ∧ tg_anomalies s' = tg_anomalies (noted l s) ∧ tg_out s' = tg_out (noted l s).

Lemma noted_eq l s s' :
  tg_anomalies s' = tg_anomalies s → tg_out s' = tg_out s →
  tg_anomalies (noted l s') = tg_anomalies (noted l s) ∧ tg_out (noted l s') = tg_out (noted l s).
Proof. unfold noted, room. cbn [tg_anomalies tg_out]. by intros -> ->. Qed.

#[export] Instance tells_preorder C : PreOrder (tells C).
Proof.
  split.
  - intros s. split; [done|]. exists []. rewrite noted_nil. by split.
  - intros s1 s2 s3 (H1 & l1 & Hl1 & Ha1 & Ho1) (H2 & l2 & Hl2 & Ha2 & Ho2).
    split; [congruence|]. exists (l1 ++ l2). split; [by apply Forall_app|].
    rewrite <-noted_app, Ha2, Ho2. by apply noted_eq.
Qed.

Section poll.
Context (reply : nat → string → option string) (strftime : Z → string) (poll_ms : Z → Z) (dirs_ok : bool).
Context (C : list string).

Lemma tells_quiet (f : tiger → tiger) :
  (∀ s, kept (f s) = kept s ∧ tg_anomalies (f s) = tg_anomalies s ∧ tg_out (f s) = tg_out s) →
  ∀ s, tells C s (f s).
Proof.
  intros Hf s. destruct (Hf s) as (Hk & Ha & Ho). split; [done|].
  exists []. by rewrite noted_nil.
Qed.

Lemma tells_bexec cmd : keeps (tells C) (bexec reply cmd).
Proof. intros s. by apply (tells_quiet asking). Qed.

Lemma tells_section tag : keeps (tells C) (probe_section tag).
Proof. unfold probe_section. keeps_tac. Qed.

Lemma tells_add type code detail : code ∈ C → keeps (tells C) (add_anomaly type code detail).
Proof.
  intros Hc s. rewrite add_anomaly_noted. split; [done|].
  exists [(type, code, detail)]. split; [|done]. by apply Forall_singleton.
Qed.

Hint Resolve tells_bexec tells_section : mp.

Lemma tells_device : keeps (tells C) get_device_info.
Proof. unfold get_device_info. keeps_tac. Qed.

Lemma tells_surface : keeps (tells C) probe_miui_surface.
Proof. unfold probe_miui_surface. keeps_tac. Qed.

Lemma tells_certs : keeps (tells C) probe_certs.
Proof. unfold probe_certs. keeps_tac. Qed.

Lemma tells_admins : keeps (tells C) probe_admins.
Proof. unfold probe_admins. keeps_tac. Qed.

Lemma tells_hash : keeps (tells C) (get_prop_hash reply).
Proof. unfold get_prop_hash. keeps_tac. Qed.

Section standing.
Context (HC : STANDING_CODES ⊆ C).

Lemma tells_standing type code detail : bool_decide (code ∈ STANDING_CODES) = true → keeps (tells C) (add_anomaly type code detail).
Proof. intros Hc%bool_decide_eq_true. by apply tells_add, HC. Qed.

Hint Extern 1 (keeps _ (add_anomaly _ _ _)) => apply tells_standing; reflexivity : mp.

Lemma tells_suspicious services : keeps (tells C) (check_suspicious_services services).
Proof. unfold check_suspicious_services. keeps_tac. Qed.

Lemma tells_selinux : keeps (tells C) check_selinux.
Proof. unfold check_selinux. keeps_tac. Qed.

Lemma tells_props l : ∀ clean, keeps (tells C) (check_props l clean).
Proof. induction l as [|[[tag prop] safe] l IH]; intros clean; cbn [check_props]; keeps_tac; apply IH. Qed.

Lemma tells_center : keeps (tells C) check_security_center.
Proof. unfold check_security_center. keeps_tac. Qed.

Lemma tells_dev : keeps (tells C) check_dev_state.
Proof. unfold check_dev_state. keeps_tac. Qed.

End standing.
End poll.

#[export] Hint Resolve tells_device tells_surface tells_certs tells_admins tells_hash : mp.

(** *** Bounds of what is found *)

Lemma parse_certs_bound sys lines : ∀ certs,
  (length certs ≤ MAX_CERTS)%nat → (length (parse_certs sys lines certs) ≤ MAX_CERTS)%nat.
Proof.
  induction lines as [|line lines IH]; intros certs Hc; cbn [parse_certs]; [done|].
  destruct (Nat.leb_spec MAX_CERTS (length certs)); [done|]. apply IH.
  destruct (cert_of sys line); rewrite ?length_app; cbn [length]; lia.
Qed.

Lemma parse_section_bound raw sys certs :
  (length certs ≤ MAX_CERTS)%nat → (length (parse_cert_section raw sys certs) ≤ MAX_CERTS)%nat.
Proof. intros Hc. unfold parse_cert_section. repeat split_match; [by apply parse_certs_bound|done..]. Qed.

Lemma certs_bound : returns (λ certs, (length certs ≤ MAX_CERTS)%nat) probe_certs.
Proof.
  unfold probe_certs. apply returns_any. intros sys. cbv zeta. apply returns_any. intros user.
  apply returns_mret, parse_section_bound, parse_section_bound. cbn. lia.
Qed.

Lemma policy_line_bound p line :
  (length (po_admins p) ≤ MAX_ADMINS)%nat → (length (po_admins (policy_line p line)) ≤ MAX_ADMINS)%nat.
Proof.
  intros Hp. unfold policy_line. cbv zeta. repeat (split_match; cbn [enter po_admins]; try done).
  all: rewrite length_app; cbn [length];
    match goal with H : (_ <? _)%nat = true |- _ => apply Nat.ltb_lt in H end; lia.
Qed.

Lemma policy_bound lines : ∀ p,
  (length (po_admins p) ≤ MAX_ADMINS)%nat → (length (po_admins (foldl policy_line p lines)) ≤ MAX_ADMINS)%nat.
Proof. induction lines as [|line lines IH]; intros p Hp; [done|]. by apply IH, policy_line_bound. Qed.

Lemma admins_bound : returns (λ admins, (length admins ≤ MAX_ADMINS)%nat) probe_admins.
Proof.
  unfold probe_admins. apply returns_any. intros [text|]; apply returns_mret; [|cbn; lia].
  apply policy_bound. cbn. lia.
Qed.

Lemma surface_bound : returns (λ m, (length (mi_kill_targets m) ≤ MAX_KILL_POLICIES)%nat) probe_miui_surface.
Proof.
  unfold probe_miui_surface. do 5 (apply returns_any; intros ?). apply returns_mret.
  cbn [mi_kill_targets]. split_match; [rewrite length_take|cbn]; lia.
Qed.

Lemma suspicious_bound services : returns (λ n, 0 <= n) (check_suspicious_services services).
Proof. unfold check_suspicious_services. cbv zeta. apply returns_any. intros _. apply returns_mret. lia. Qed.

Lemma trust_bound mode a b c d : 0 <= a → 0 <= b → 0 <= c → 0 <= d → 0 <= calc_trust_score mode a b c d <= 100.
Proof. unfold calc_trust_score. destruct (enforcing mode); lia. Qed.

Lemma final_bound score b1 b2 b3 b4 b5 : score <= 100 → 0 <= final_trust score b1 b2 b3 b4 b5 <= 100.
Proof. unfold final_trust. cbv zeta. repeat case_match; lia. Qed.

(** ** What a poll leaves *)

(** The sizes of a report's parts. *)
Definition bounded (r : tigerclaw_report_t) : Prop :=
  0 <= tr_trust r <= 100 ∧ (length (tr_certs r) ≤ MAX_CERTS)%nat ∧ (length (tr_admins r) ≤ MAX_ADMINS)%nat ∧
  (length (mi_kill_targets (tr_miui r)) ≤ MAX_KILL_POLICIES)%nat.

(** A report that sees no change. *)
Definition undrifted (r : tigerclaw_report_t) : Prop :=
  tr_svc_drift r = 0 ∧ tr_prop_drift r = false ∧ tr_cert_new r = 0 ∧ tr_cert_removed r = 0 ∧ tr_admin_new r = 0.

(** The anomalies that have a place in a report. *)
Definition placed {A} (l : list A) : list A := take MAX_ANOMALIES l.

Section watching.
Context (reply : nat → string → option string) (strftime : Z → string) (poll_ms : Z → Z) (dirs_ok : bool).

(** What loading the sections leaves alone. *)
Definition unloaded (s : tiger) :=
  (tg_now s, tg_file s, tg_baseline s, tg_sequence s, tg_reports s, tg_anomalies s, tg_out s).

Lemma load_leaves : keeps (λ s s', unloaded s' = unloaded s) (load_probe_data reply).
Proof.
  assert (∀ cmd, keeps (λ s s', unloaded s' = unloaded s) (bexec reply cmd)) by done.
  assert (∀ x, keeps (λ s s', unloaded s' = unloaded s) (modify (with_probe x))) by done.
  unfold load_probe_data, append_probe_chunk. keeps_tac.
Qed.

(** The poll begins with [s]; [begun] is the state with the sections loaded. *)
Context (s : tiger).

Definition begun : tiger :=
  exec (load_probe_data reply) (with_anomalies [] (with_sequence (to_u64 (tg_sequence s + 1)) s)).

Lemma begun_leaves :
  tg_now begun = tg_now s ∧ tg_file begun = tg_file s ∧ tg_baseline begun = tg_baseline s ∧
  tg_reports begun = tg_reports s ∧ tg_anomalies begun = [] ∧ tg_out begun = tg_out s.
Proof. unfold begun. set (t := with_anomalies _ _). pose proof (load_leaves t) as H. injection H. by intros -> -> -> _ -> -> ->. Qed.

Abbreviation telling := (tells (codes (tg_baseline s)) begun).
Abbreviation est := (bl_established (tg_baseline s)).

Lemma standing_codes : STANDING_CODES ⊆ codes (tg_baseline s).
Proof. intros x Hx. apply elem_of_app. by left. Qed.

Lemma drift_code type code detail :
  est = true → bool_decide (code ∈ DRIFT_CODES) = true → keeps (tells (codes (tg_baseline s))) (add_anomaly type code detail).
Proof. intros He Hc%bool_decide_eq_true. apply tells_add. unfold codes. rewrite He. apply elem_of_app. by right. Qed.

Lemma keeps_telling {A} (c : M tiger A) : keeps (tells (codes (tg_baseline s))) c → preserves telling c.
Proof. intros Hc s' Hs. etrans; [exact Hs|apply Hc]. Qed.

Lemma telling_baseline s' : telling s' → tg_baseline s' = tg_baseline s.
Proof. intros [H _]. injection H. intros. etrans; [done|apply begun_leaves]. Qed.

(** A step that is a check. *)
Lemma drift_checked svc :
  preserves telling (check_drift svc) ∧ ∀ s', telling s' → est = false → result (check_drift svc) s' = 0.
Proof.
  split.
  - intros s' Hs. pose proof (telling_baseline s' Hs) as Hb. unfold check_drift. autorewrite with monad. rewrite Hb.
    destruct (est && (0 <? svc)) eqn:He; [|done]. apply andb_prop in He as [He _]. cbv zeta. autorewrite with monad.
    destruct (5 <? _); [|done]. etrans; [exact Hs|]. by apply drift_code.
  - intros s' Hs He. unfold check_drift. autorewrite with monad. rewrite (telling_baseline s' Hs), He. done.
Qed.

Lemma prop_checked :
  preserves telling (check_prop_hash reply) ∧ ∀ s', telling s' → est = false → result (check_prop_hash reply) s' = false.
Proof.
  split.
  - intros s' Hs. pose proof (telling_baseline s' Hs) as Hb. unfold check_prop_hash. autorewrite with monad. rewrite Hb.
    destruct est eqn:He; [|done]. autorewrite with monad.
    assert (telling (exec (get_prop_hash reply) s')) as Hs'.
    { etrans; [exact Hs|]. apply tells_hash. }
    split_match; autorewrite with monad; [|done]. etrans; [exact Hs'|]. by apply drift_code.
  - intros s' Hs He. unfold check_prop_hash. autorewrite with monad. rewrite (telling_baseline s' Hs), He. done.
Qed.

(** What the delta of [certs] and [admins] can be. *)
Definition delta_fine certs admins (x : list cert_entry_t * list admin_entry_t * Z * Z * Z) : Prop :=
  let '(certs', admins', new, removed, joined) := x in
  length certs' = length (certs : list cert_entry_t) ∧ length admins' = length (admins : list admin_entry_t) ∧
  0 <= new ∧ 0 <= removed ∧ 0 <= joined ∧ (est = false → new = 0 ∧ removed = 0 ∧ joined = 0).

Lemma delta_checked certs admins :
  preserves telling (compute_delta certs admins) ∧
  ∀ s', telling s' → delta_fine certs admins (result (compute_delta certs admins) s').
Proof.
  split; intros s' Hs; pose proof (telling_baseline s' Hs) as Hb.
  - destruct est eqn:He.
    + rewrite (delta_exec (tg_baseline s)) by done. etrans; [exact Hs|]. split; [done|].
      eexists. split; [|by split]. unfold delta_certs, delta_admins, codes. rewrite He.
      rewrite !Forall_app, !Forall_map. split; [split|]; apply Forall_forall; intros x _; apply elem_of_app; right; unfold DRIFT_CODES; cbn; rewrite !elem_of_cons; tauto.
    + unfold compute_delta. autorewrite with monad. by rewrite Hb, He.
  - unfold compute_delta, delta_fine. autorewrite with monad. rewrite Hb. destruct est; cbn [negb]; autorewrite with monad; [|split_and!; done].
    cbv zeta. autorewrite with monad. rewrite !length_map. split_and!; done || lia.
Qed.

(** What a finished poll leaves, with the anomalies [l] it came upon and a report
    that satisfies [P]. *)
Definition finished (P : tigerclaw_report_t → Prop) (l : list (string * string * string)) (s' : tiger) : Prop :=
  Forall (λ x, x.1.2 ∈ codes (tg_baseline s)) l ∧
  tg_out s' = tg_out s ++ flat_map announce (placed l) ∧ tg_now s' = tg_now s ∧
  (tg_file s' = tg_file s ∨ ∃ a b c d e, tg_file s' = Some (baseline_text a b c d e)) ∧
  if dirs_ok then
    ∃ r, tg_reports s' = tg_reports s ++ [r] ∧ tr_anomalies r = map sanitize_anomaly (map entry (placed l)) ∧ P r
  else tg_reports s' = tg_reports s.

Lemma save_leaves svc certs admins s' :
  let t := exec (save_baseline reply dirs_ok svc certs admins) s' in
  tg_now t = tg_now s' ∧ tg_reports t = tg_reports s' ∧ tg_anomalies t = tg_anomalies s' ∧ tg_out t = tg_out s' ∧
  (tg_file t = tg_file s' ∨ ∃ a b c d e, tg_file t = Some (baseline_text a b c d e)).
Proof.
  unfold save_baseline. destruct dirs_ok; cbn [negb]; [|by auto 6].
  autorewrite with monad. split_and!; try done. right. by do 5 eexists.
Qed.

Lemma telling_finished l s' :
  Forall (λ x, x.1.2 ∈ codes (tg_baseline s)) l →
  tg_anomalies s' = tg_anomalies (noted l begun) → tg_out s' = tg_out (noted l begun) →
  tg_anomalies s' = map entry (placed l) ∧ tg_out s' = tg_out s ++ flat_map announce (placed l).
Proof.
  intros _ -> ->. unfold noted, room. cbn [tg_anomalies tg_out].
  destruct begun_leaves as (_ & _ & _ & _ & -> & ->). done.
Qed.

(** The end of the poll: the baseline is saved, the report written. *)
Lemma poll_ends device svc sus drift prop trust certs new removed admins joined miui (P : tigerclaw_report_t → Prop) :
  let r a s0 := sanitize_report_strings (Report device svc drift sus prop trust a certs new removed admins joined miui
        (tg_sequence s0) (strftime (tg_now s0)) (poll_ms (tg_sequence s0)) (bl_svc (tg_baseline s0))) in
  (∀ a s0, P (r a s0)) →
  triple telling
    (b ← gets tg_baseline;
     _ ← mwhen (negb (bl_established b) && (10 <? svc)) (save_baseline reply dirs_ok svc certs admins);
     s ← gets id;
     mwhen dirs_ok (modify (with_report (r (tg_anomalies s) s))))
    (λ _ s', ∃ l, finished P l s').
Proof.
  intros r Hr s' (Hk & l & Hl & Ha & Ho). injection Hk as Hnow Hfile _ Hbase Hseq Hreps.
  destruct begun_leaves as (Hbn & Hbf & Hbb & Hbr & _).
  destruct (telling_finished l s' Hl Ha Ho) as [Ha' Ho']. exists l. unfold finished.
  autorewrite with monad.
  set (saved := if negb (bl_established (tg_baseline s')) && (10 <? svc) then _ else s').
  assert (tg_now saved = tg_now s' ∧ tg_reports saved = tg_reports s' ∧ tg_anomalies saved = tg_anomalies s' ∧
    tg_out saved = tg_out s' ∧ (tg_file saved = tg_file s' ∨ ∃ a b c d e, tg_file saved = Some (baseline_text a b c d e)))
    as (H1 & H2 & H3 & H4 & H5).
  { unfold saved. split_match; [apply save_leaves|by auto 6]. }
  change (id saved) with saved. rewrite H3, Ha'. pose proof (Hr (map entry (placed l)) saved) as HP.
  destruct dirs_ok; cbn [with_report tg_out tg_now tg_file tg_reports];
    (split_and!; [done|congruence|congruence|rewrite <-Hbf, <-Hfile; exact H5|]); [|congruence].
  exists (r (map entry (placed l)) saved). split_and!; [by rewrite H2, Hreps, Hbr|done|done].
Qed.

(** The poll after the sections are loaded. *)
Ltac apply_poll :=
  unfold poll; do 2 (rewrite exec_bind, exec_modify); rewrite exec_bind;
  change (exec (load_probe_data reply) _) with begun;
  match goal with |- ∃ l, finished ?P l (exec ?c _) =>
    let H := fresh in
    assert (triple telling c (λ _ s', ∃ l, finished P l s')) as H; [|apply H; reflexivity]
  end.

Lemma poll_finishes :
  ∃ l, finished (λ r, bounded r ∧ (est = false → undrifted r)) l (exec (poll reply strftime poll_ms dirs_ok) s).
Proof.
  pose proof standing_codes as HC. apply_poll.
  apply triple_skip; [apply keeps_telling, tells_device|intros device].
  apply triple_skip; [apply keeps_telling, tells_section|intros services]. cbv zeta.
  apply (triple_step _ (λ n, 0 <= n)); [by apply keeps_telling, tells_suspicious|intros; apply suspicious_bound|intros sus Hsus].
  apply triple_skip; [by apply keeps_telling, tells_selinux|intros selinux].
  apply triple_skip; [by apply keeps_telling, tells_props|intros debug].
  apply triple_skip; [by apply keeps_telling, tells_center|intros center].
  apply triple_skip; [by apply keeps_telling, tells_dev|intros [[dev adb] net]].
  apply (triple_step _ (λ d, est = false → d = 0)); [apply drift_checked|apply drift_checked|intros drift Hdrift].
  apply (triple_step _ (λ d, est = false → d = false)); [apply prop_checked|apply prop_checked|intros prop Hprop].
  apply (triple_step _ _ _ _ _ (keeps_telling _ (tells_certs _)) (λ s _, certs_bound s)). intros certs Hcerts.
  apply (triple_step _ _ _ _ _ (keeps_telling _ (tells_admins _)) (λ s _, admins_bound s)). intros admins Hadmins.
  apply (triple_step _ _ _ _ _ (keeps_telling _ (tells_surface _)) (λ s _, surface_bound s)). intros miui Hmiui.
  apply (triple_step _ (delta_fine certs admins)); [apply delta_checked..|].
  intros [[[[certs' admins'] new] removed] joined] (Hlc & Hla & Hn & Hr & Hj & Hz).
  apply poll_ends. intros a s0. split.
  - unfold bounded. cbn. rewrite !length_map, Hlc, Hla. split_and!; try done; [|].
    all: apply final_bound, trust_bound; done.
  - intros He. destruct (Hz He) as (-> & -> & ->). unfold undrifted. cbn. split_and!; auto.
Qed.

(** ** A poll without answers *)

(** The first command of the poll fails: there are no sections. *)
Lemma unanswered : reply (tg_asked s) cmd_fast = None → tg_probe begun = None.
Proof.
  intros Hr. unfold begun, load_probe_data, append_probe_chunk. autorewrite with monad.
  change (TC_PROBE_CMD_BUDGET <? slen cmd_fast) with false. cbv iota. autorewrite with monad.
  unfold bexec. cbn [exec result fst snd with_probe with_anomalies with_sequence tg_asked]. unfold result, exec. cbn [fst snd tg_asked].
  rewrite Hr. done.
Qed.

Context (Hnone : tg_probe begun = None).

Lemma telling_none s' tag : telling s' → result (probe_section tag) s' = None.
Proof. intros [H _]. injection H as _ _ Hp _ _ _. unfold probe_section. autorewrite with monad. by rewrite Hp, Hnone. Qed.

Lemma none_props l clean s' : telling s' → result (check_props l clean) s' = clean.
Proof.
  intros Hs. induction l as [|[[tag prop] safe] l IH]; cbn [check_props]; [done|].
  autorewrite with monad. rewrite telling_none by done. change (exec (probe_section tag) s') with s'. exact IH.
Qed.

Lemma none_checks s' :
  telling s' →
  result check_selinux s' = true ∧ result check_security_center s' = false ∧
  result check_dev_state s' = (false, false, false) ∧ result probe_certs s' = [] ∧ result probe_admins s' = [] ∧
  mi_selinux_mode (result probe_miui_surface s') = "unknown".
Proof.
  intros Hs. unfold check_selinux, check_security_center, check_dev_state, probe_certs, probe_admins, probe_miui_surface.
  assert (∀ tag, exec (probe_section tag) s' = s') as Hx by done.
  split_and!; cbv zeta; autorewrite with monad; rewrite ?Hx, ?telling_none by done; cbn [has positive negb];
    autorewrite with monad; rewrite ?Hx, ?telling_none by done; reflexivity.
Qed.

Lemma none_delta s' :
  telling s' → est = true →
  result (compute_delta [] []) s' = ([], [], 0, Z.of_nat (length (baseline_certs (tg_baseline s))), 0).
Proof.
  intros Hs He. unfold compute_delta. autorewrite with monad. rewrite (telling_baseline s' Hs), He. cbn [negb].
  cbv zeta. autorewrite with monad. cbn [List.filter map length].
  assert (∀ l, List.filter (unknown_cert []) l = l) as -> by (induction l; cbn; by f_equal). done.
Qed.

Lemma failed_poll :
  est = true →
  let n := Z.of_nat (length (baseline_certs (tg_baseline s))) in
  ∃ l, finished (λ r, tr_certs r = [] ∧ tr_cert_removed r = n ∧ tr_trust r = Z.max 0 (60 - 3 * n)) l
         (exec (poll reply strftime poll_ms dirs_ok) s).
Proof.
  intros He n. pose proof standing_codes as HC. apply_poll.
  apply triple_skip; [apply keeps_telling, tells_device|intros device].
  apply (triple_step _ (λ v, v = None)); [apply keeps_telling, tells_section|intros; by apply telling_none|intros ? ->]. cbv zeta.
  apply (triple_step _ (λ v, v = 0)); [by apply keeps_telling, tells_suspicious|done|intros ? ->].
  apply (triple_step _ (λ v, v = true)); [by apply keeps_telling, tells_selinux|intros; by apply none_checks|intros ? ->].
  apply (triple_step _ (λ v, v = true)); [by apply keeps_telling, tells_props|intros; by apply none_props|intros ? ->].
  apply (triple_step _ (λ v, v = false)); [by apply keeps_telling, tells_center|intros; by apply none_checks|intros ? ->].
  apply (triple_step _ (λ v, v = (false, false, false)));
    [by apply keeps_telling, tells_dev|intros; by apply none_checks|intros ? ->].
  apply triple_skip; [apply drift_checked|intros drift]. apply triple_skip; [apply prop_checked|intros prop].
  apply (triple_step _ (λ v, v = [])); [apply keeps_telling, tells_certs|intros; by apply none_checks|intros ? ->].
  apply (triple_step _ (λ v, v = [])); [apply keeps_telling, tells_admins|intros; by apply none_checks|intros ? ->].
  apply (triple_step _ (λ m, mi_selinux_mode m = "unknown"));
    [apply keeps_telling, tells_surface|intros; by apply none_checks|intros miui Hmode].
  apply (triple_step _ (λ v, v = ([], [], 0, n, 0))); [apply delta_checked|intros; by apply none_delta|intros ? ->].
  apply poll_ends. intros a s0. cbn. rewrite Hmode. split_and!; [done|done|].
  unfold calc_trust_score, final_trust. change (enforcing "unknown") with false. cbn [negb]. lia.
Qed.

End watching.

(** ** tigerclawd's reports and what they are worth

    Over a run, what is sent is what is reported, at most sixteen anomalies a
    poll; a restart forgets the baseline; a poll whose first command fails reports
    every certificate as removed; and a store that changes enough hides a new
    administrator. *)

(** ** Runs *)

Section run.
Context (reply : nat → string → option string) (strftime : Z → string) (poll_ms : Z → Z).

(** The file of the baseline is missing, or as it was written. *)
Definition written (file : option string) : Prop :=
  file = None ∨ ∃ a b c d e, file = Some (baseline_text a b c d e).

Lemma watch_written dirs_ok times s :
  written (tg_file s) → written (tg_file (exec (watch reply strftime poll_ms dirs_ok times) s)).
Proof.
  apply (mfor_preserves (written ∘ tg_file)). intros t s' _ Hs. unfold compose in *. autorewrite with monad.
  destruct (poll_finishes reply strftime poll_ms dirs_ok (with_now t s')) as (l & _ & _ & _ & Hf & _).
  destruct Hf as [-> | H]; [done|by right].
Qed.

Lemma load_fields s : unloaded (with_baseline no_baseline (exec load_baseline s)) = unloaded (with_baseline no_baseline s).
Proof. unfold load_baseline. autorewrite with monad. destruct (tg_file s) as [text|]; [|done]. destruct (fgets 1024 text) as [[? ?]|]; done. Qed.

(** Only the first line of the file is read, and it is a brace. *)
Lemma load_nothing s : written (tg_file s) → tg_baseline s = no_baseline → tg_baseline (exec load_baseline s) = no_baseline.
Proof.
  unfold load_baseline. autorewrite with monad. intros [-> | (a & b & c & d & e & ->)] Hb; [done|].
  assert (fgets 1024 (baseline_text a b c d e) = Some ("{" +:+ NLs, sdrop 2 (baseline_text a b c d e))) as ->.
  { unfold baseline_text. cbn [scat]. rewrite !app_cons_str, !app_nil_l_str. reflexivity. }
  autorewrite with monad. cbn [with_baseline tg_baseline]. by rewrite Hb.
Qed.

(** What was found, poll by poll, against what was sent and reported. *)
Lemma watch_reports times : ∀ s,
  let s' := exec (watch reply strftime poll_ms true times) s in
  ∃ found rs, length found = length times ∧ tg_reports s' = tg_reports s ++ rs ∧ Forall bounded rs ∧
    map tr_anomalies rs = map (λ l, map sanitize_anomaly (map entry (placed l))) found ∧
    tg_out s' = tg_out s ++ flat_map (λ l, flat_map announce (placed l)) found.
Proof.
  induction times as [|t times IH]; intros s.
  - exists [], []. cbn. rewrite !app_nil_r. by repeat split.
  - cbn [watch mfor]. cbv zeta. rewrite exec_bind. autorewrite with monad.
    destruct (poll_finishes reply strftime poll_ms true (with_now t s)) as (l & _ & Ho & _ & _ & r & Hr & Ha & Hb & _).
    set (s1 := exec (poll _ _ _ _) _) in *. destruct (IH s1) as (found & rs & Hlen & Hrs & Hbs & Has & Hos).
    exists (l :: found), (r :: rs). unfold watch in *. rewrite Hrs, Hos, Hr, Ho. cbn [with_now tg_reports tg_out].
    cbn [length map flat_map]. rewrite Hlen, Ha, Has, <-!app_assoc. split_and!; try done. by constructor.
Qed.

(** C23. tigerclawd's reports over any run whose directories are there: one per
    poll, each with a score in [0, 100] and no more certificates, administrators
    and kill policies than the arrays hold; and what is sent to gaveld and
    splinterd is exactly, in order, the anomalies that found one of the sixteen
    places of the poll's report. *)
Theorem integrity_reports times now file :
  let s := exec (tiger_main reply strftime poll_ms true times) (tiger_start now file) in
  length (tg_reports s) = length times ∧ Forall bounded (tg_reports s) ∧
  ∃ found, tg_out s = flat_map (λ l, flat_map announce (placed l)) found ∧
    map tr_anomalies (tg_reports s) = map (λ l, map sanitize_anomaly (map entry (placed l))) found.
Proof.
  unfold tiger_main. cbv zeta. autorewrite with monad. set (s0 := exec load_baseline _).
  assert (tg_reports s0 = [] ∧ tg_out s0 = []) as [Hr0 Ho0].
  { pose proof (load_fields (tiger_start now file)) as H. injection H. fold s0. intros -> _ -> _ _ _. done. }
  destruct (watch_reports times s0) as (found & rs & Hlen & Hrs & Hbs & Has & Hos).
  rewrite Hrs, Hos, Hr0, Ho0. cbn [app]. split_and!; [|done|by exists found].
  by rewrite <-Hlen, <-(length_map tr_anomalies), Has, length_map.
Qed.

End run.

(** ** A restart *)

(** No baseline survives a restart: whatever an earlier process found and
    wrote, the first report of the next one has no drift, no new or removed
    certificate and no new administrator, and none of the anomalies that compare
    with a baseline; the changes of the time between are lost. *)
Theorem restart_forgets reply strftime poll_ms dirs_ok times now reply' strftime' poll_ms' t times' now' :
  let before := exec (tiger_main reply strftime poll_ms dirs_ok times) (tiger_start now None) in
  let after := exec (tiger_main reply' strftime' poll_ms' true (t :: times')) (tiger_start now' (tg_file before)) in
  ∃ r, tg_reports after !! 0%nat = Some r ∧ undrifted r ∧
    Forall (λ a, an_code a ∉ DRIFT_CODES) (tr_anomalies r).
Proof.
  intros before after.
  assert (written (tg_file before)) as Hw.
  { unfold before, tiger_main. autorewrite with monad. apply watch_written. by left. }
  unfold after, tiger_main. autorewrite with monad. set (s0 := exec load_baseline _).
  assert (tg_baseline s0 = no_baseline) as Hb by by apply load_nothing.
  assert (tg_reports s0 = []) as Hr0.
  { pose proof (load_fields (tiger_start now' (tg_file before))) as H. injection H. fold s0. by intros _ _ -> _ _ _. }
  unfold watch. cbn [mfor]. rewrite exec_bind. autorewrite with monad.
  destruct (poll_finishes reply' strftime' poll_ms' true (with_now t s0)) as (l & Hl & _ & _ & _ & r & Hr & Ha & _ & Hu).
  set (s1 := exec (poll _ _ _ _) _) in *.
  destruct (watch_reports reply' strftime' poll_ms' times' s1) as (_ & rs & _ & Hrs & _). unfold watch in Hrs.
  exists r. rewrite Hrs, Hr. cbn [with_now tg_reports tg_baseline] in *. rewrite Hr0. split_and!; [done|apply Hu; by rewrite Hb|].
  rewrite Ha, !Forall_map. unfold placed. apply Forall_take, (Forall_impl _ _ _ Hl).
  intros [[ty c] d]. unfold codes. rewrite Hb. cbn [no_baseline bl_established]. rewrite app_nil_r. cbn [compose fst snd].
  unfold STANDING_CODES. rewrite !elem_of_cons, elem_of_nil. intros Hc.
  repeat destruct Hc as [-> | Hc]; try done; unfold DRIFT_CODES; cbn; rewrite !elem_of_cons, elem_of_nil; intuition discriminate.
Qed.

(** ** A poll that fails *)

(** A poll without answers is taken for a purge: once the baseline is
    established, a poll whose first command fails reports every certificate of the
    baseline as removed, and its score is 60 less three for each of them, so 0 from
    twenty certificates on. *)
Theorem failed_poll_reads_as_removal reply strftime poll_ms s :
  reply (tg_asked s) cmd_fast = None → bl_established (tg_baseline s) = true →
  let n := Z.of_nat (length (baseline_certs (tg_baseline s))) in
  ∃ r, tg_reports (exec (poll reply strftime poll_ms true) s) = tg_reports s ++ [r] ∧
    tr_certs r = [] ∧ tr_cert_removed r = n ∧ tr_trust r = Z.max 0 (60 - 3 * n).
Proof.
  intros Hr He n.
  destruct (failed_poll reply strftime poll_ms true s) as (l & _ & _ & _ & _ & r & Hs & _ & Hc & Hn & Ht);
    [by apply unanswered|done|]. by exists r.
Qed.

Definition sample_cert : cert_entry_t := Cert "00aa" "ca.0" true false.

Definition settled : tiger :=
  Tiger 100 7 None None (Baseline true 200 77 1 [sample_cert] 0 []) 3 [] [] [].

Lemma failed_poll_reads_as_removal_witness :
  ∃ r, tg_reports (exec (poll (λ _ _, None) (λ _, "t") (λ _, 0) true) settled) = [r] ∧
    tr_certs r = [] ∧ tr_cert_removed r = 1 ∧ tr_trust r = 57.
Proof. exact (failed_poll_reads_as_removal (λ _ _, None) (λ _, "t") (λ _, 0) settled eq_refl eq_refl). Defined.

(** ** The sixteen places *)

(** Sixteen changes of the certificate store hide a new administrator: once
    the anomalies so far and the new and removed certificates fill the sixteen
    places, no [DEVICE_ADMIN_NEW] is sent, whatever administrators there are; they
    are only counted. *)
Theorem churn_hides_admins certs admins s :
  let base := baseline_certs (tg_baseline s) in
  let c := compute_delta certs admins in
  bl_established (tg_baseline s) = true →
  (16 ≤ length (tg_anomalies s) + length (List.filter (unknown_cert base) certs)
        + length (List.filter (unknown_cert certs) base))%nat →
  (result c s).2 = Z.of_nat (length (List.filter (unknown_admin (baseline_admins (tg_baseline s))) admins)) ∧
  ∃ sent, tg_out (exec c s) = tg_out s ++ sent ∧ ∀ w ctx, ToGaveld "DEVICE_ADMIN_NEW" w ctx ∉ sent.
Proof.
  intros base c He Hfull. split.
  - unfold c, compute_delta. autorewrite with monad. rewrite He. cbn [negb]. cbv zeta. by autorewrite with monad.
  - unfold c. rewrite (delta_exec (tg_baseline s)) by done. eexists. split; [reflexivity|].
    rewrite take_app_le.
    + intros w ctx. rewrite list_elem_of_In, in_flat_map. intros (x & Hx%list_elem_of_In & Hin%list_elem_of_In).
      apply elem_of_take in Hx as (k & Hx & _). apply list_elem_of_lookup_2 in Hx.
      unfold delta_certs in Hx. rewrite elem_of_app, !list_elem_of_fmap in Hx.
      destruct Hx as [(y & -> & _) | (y & -> & _)]; unfold announce in Hin; rewrite !elem_of_cons, elem_of_nil in Hin;
        destruct Hin as [Hin | [Hin | []]]; discriminate Hin.
    + unfold delta_certs, room, MAX_ANOMALIES. rewrite length_app, !length_map. fold base. lia.
Qed.

Definition other_certs : list cert_entry_t := map (λ n, Cert (fmt_d (Z.of_nat n)) "x" false false) (seq 0 16).

Definition intruder : admin_entry_t := Admin "evil" "Admin" false true true.

Lemma churn_hides_admins_witness :
  let c := compute_delta other_certs [intruder] in
  (result c settled).2 = 1 ∧
  ∃ sent, tg_out (exec c settled) = [] ++ sent ∧ ∀ w ctx, ToGaveld "DEVICE_ADMIN_NEW" w ctx ∉ sent.
Proof.
  exact (churn_hides_admins other_certs [intruder] settled eq_refl (proj1 (Nat.leb_le 16 17) eq_refl)).
Defined.
