(* ===== verification/Sections.v ===== *)
(** * tigerclawd's sections, and its score in overlordd

    The answer of a combined command is cut back into the texts of its parts: a
    part that printed something is read exactly, whatever was printed around it,
    and one that printed nothing is read as the part after it.  The second part
    follows the score into overlordd. *)

From S2P Require Import Prelude CString Double Wire Overlord Krang Digits Nulld Screen Numbers Lengths Reports.
From S2P Require Import Tiger.
From Stdlib Require Import Ascii.

Definition STOP : string := NLs +:+ "==".

(** What the shell prints for a part: its marker, and its lines. *)
Definition printed (tag body : string) : string := marker_of tag +:+ NLs +:+ body +:+ NLs.

(** Some text without blank lines around it and without a line that looks like a marker. *)
Definition tidy (body : string) : Prop :=
  body ≠ "" ∧ skip_while is_line_end body = body ∧ trim_end is_line_end body = body ∧
  strstr body STOP = None ∧ slen body < 65535.

(** The marker of [tag] comes first after [pre]. *)
Definition fresh (pre tag : string) : Prop := strstr (pre +:+ marker_of tag) (marker_of tag) = Some (marker_of tag).

(** ** Where a part ends *)

(** The end of a part: the next line starts like a marker, or there is none. *)
Definition ends_part (post : string) : Prop := post = "" ∨ ∃ t, post = "==" +:+ t.

Lemma stop_found body post :
  strstr body STOP = None → ends_part post →
  match strstr (body +:+ NLs +:+ post) STOP with
  | Some stop => stop = NLs +:+ post ∧ post ≠ ""
  | None => post = ""
  end.
Proof.
  intros Hb Hp. induction body as [|c body IH].
  - rewrite app_nil_l_str. destruct Hp as [-> | (t & ->)]; [done|]. by rewrite app_cons_str.
  - rewrite app_cons_str. cbn [strstr] in *. destruct (has_prefix STOP (String c body)) eqn:Hc; [done|].
    assert (has_prefix STOP (String c (body +:+ NLs +:+ post)) = false) as ->; [|by apply IH].
    change STOP with (String NL "==") in *. cbn [has_prefix] in *. destruct (Ascii.eqb NL c); [|done]. cbn [andb] in *.
    destruct body as [|d [|e body]]; rewrite ?app_nil_l_str, ?app_cons_str in *; cbn [has_prefix] in *; done.
Qed.

Lemma skip_while_past f s t : skip_while f s = "" → skip_while f (s +:+ t) = skip_while f t.
Proof.
  induction s as [|c s IH]; [done|]. rewrite app_cons_str. cbn [skip_while]. by destruct (f c).
Qed.

Lemma skip_while_stop f s t : s ≠ "" → skip_while f s = s → skip_while f (s +:+ t) = s +:+ t.
Proof.
  destruct s as [|c s]; [done|]. intros _. cbn [skip_while]. rewrite app_cons_str. cbn [skip_while].
  destruct (f c); [|done]. intros H. exfalso. destruct (skip_while_suffix f s) as [p Hp].
  rewrite H in Hp. apply (f_equal String.length) in Hp. rewrite length_app_str in Hp. cbn in Hp. lia.
Qed.

Lemma trim_end_blank f s t : trim_end f t = "" → trim_end f (s +:+ t) = trim_end f s.
Proof.
  intros Ht. induction s as [|c s IH]; [done|]. rewrite app_cons_str. cbn [trim_end]. by rewrite IH.
Qed.

(** The text from the marker on, when blank lines follow it and then [body]. *)
Lemma section_text pre tag blank body post :
  fresh pre tag → skip_while is_line_end blank = "" → tidy body → ends_part post →
  section_of (pre +:+ marker_of tag +:+ blank +:+ body +:+ NLs +:+ post) tag = Some body.
Proof.
  intros Hf Hblank (Hne & Hskip & Htrim & Hstop & Hlen) Hpost. unfold section_of.
  rewrite <-app_assoc_str, (strstr_app _ _ (marker_of tag) (marker_of tag)) by done.
  cbn [mbind option_bind]. rewrite sdrop_app, skip_while_past, skip_while_stop by done. cbv zeta.
  pose proof (stop_found body post Hstop Hpost) as Hs. change (NLs +:+ "==") with STOP.
  destruct (strstr (body +:+ NLs +:+ post) STOP) as [stop|].
  - destruct Hs as [-> _]. rewrite length_app_str.
    replace (String.length body + _ - _)%nat with (String.length body) by lia.
    rewrite stake_app_all, stake_all by (unfold slen in Hlen; unfold TC_SECTION_SCRATCH_SIZE; lia). by rewrite Htrim.
  - subst post. rewrite app_nil_r_str, stake_all by
      (rewrite length_app_str; unfold slen in Hlen; unfold TC_SECTION_SCRATCH_SIZE; change (String.length NLs) with 1%nat; lia).
    by rewrite trim_end_blank, Htrim.
Qed.

(** A part that printed something is read exactly: whatever was printed before
    it without its marker, and whatever parts follow. *)
Theorem section_read pre tag body post :
  fresh pre tag → tidy body → ends_part post →
  section_of (pre +:+ printed tag body +:+ post) tag = Some body.
Proof.
  intros Hf Hb Hp. unfold printed. rewrite !app_assoc_str. by apply (section_text pre tag NLs).
Qed.

(** The check of [SECURE] after the one of [DEBUGGABLE]. *)
Definition shell_answer : string := printed "DEBUGGABLE" "0" +:+ printed "SECURE" "1" +:+ printed "BUILDTYPE" "user".

Lemma section_read_witness : section_of shell_answer "SECURE" = Some "1".
Proof.
  apply (section_read (printed "DEBUGGABLE" "0") "SECURE" "1" (printed "BUILDTYPE" "user")).
  - reflexivity.
  - split_and!; [discriminate|reflexivity..].
  - right. by eexists.
Defined.

(** A part that printed nothing, or an empty line, is not read as empty: the
    line ends are skipped up to the next marker, and the marker and the text of the
    next part are read in its place. *)
Theorem empty_section_runs_on pre tag blank next body post :
  fresh pre tag → skip_while is_line_end blank = "" →
  tidy (marker_of next +:+ NLs +:+ body) → ends_part post →
  section_of (pre +:+ marker_of tag +:+ blank +:+ printed next body +:+ post) tag =
  Some (marker_of next +:+ NLs +:+ body).
Proof.
  intros Hf Hb Hn Hp. unfold printed. rewrite <-(section_text pre tag blank (marker_of next +:+ NLs +:+ body) post) by done.
  by rewrite !app_assoc_str.
Qed.

(** With [ro.debuggable] unset the section reads as that of [ro.secure], which is
    not ["0"]. *)
Lemma empty_section_runs_on_witness :
  section_of ("" +:+ marker_of "DEBUGGABLE" +:+ (NLs +:+ NLs) +:+ printed "SECURE" "1" +:+ "") "DEBUGGABLE" =
  Some (marker_of "SECURE" +:+ NLs +:+ "1").
Proof.
  apply (empty_section_runs_on "" "DEBUGGABLE" (NLs +:+ NLs) "SECURE" "1" "").
  - reflexivity.
  - reflexivity.
  - split_and!; [discriminate|reflexivity..].
  - by left.
Defined.

(** ** tigerclawd's score in overlordd

    overlordd reads the score from the result file exactly, as long as the score is
    within the bytes it reads; the certificates come first in the file, and enough
    of them push it out.  (tigerclawd writes below pipes/, overlordd
    reads below Registry/; both theorems are about the file where overlordd looks
    for it.) *)

(** ** Texts without quotes *)

Lemma unsafe_quote c : Ascii.eqb quote (if unsafe_char c then "_"%char else c) = false.
Proof.
  destruct (unsafe_char c) eqn:Hc; [done|]. unfold unsafe_char in Hc. rewrite Ascii.eqb_sym.
  repeat apply orb_false_elim in Hc as [Hc ?]. exact Hc.
Qed.

Lemma sanitized s : no_quotes (sanitize_field s).
Proof.
  unfold no_quotes. induction s as [|c s IH]; [done|]. cbn [sanitize_field].
  by rewrite none_of_cons, unsafe_quote, IH.
Qed.

Lemma length_sanitized s : String.length (sanitize_field s) = String.length s.
Proof. induction s as [|c s IH]; [done|]. cbn. by rewrite IH. Qed.

(** ** The members before the score *)

Abbreviation key := "trust_score".

Lemma key_fine : key_ok key.
Proof. key_tac. Qed.

Hint Resolve key_fine sanitized number_no_quotes bool_no_quotes : mp.

Lemma passes_free s : no_quotes s → passes key s.
Proof. apply passes_plain. Qed.

Lemma passes_cat l : Forall (passes key) l → passes key (scat l).
Proof. intros Hl t. by apply passes_scat. Qed.

Lemma passes_item indent name value ending :
  no_quotes indent → no_quotes name → name ≠ key → no_quotes (value +:+ ending) →
  passes key (item indent name value ending).
Proof. intros. unfold item. apply passes_line; auto with mp. by apply passes_free. Qed.

(** A string as a member, with a comma. *)
Lemma passes_text indent name value :
  no_quotes indent → no_quotes name → name ≠ key → no_quotes value →
  passes key (item indent name (quoted value) ",").
Proof. intros. unfold item. apply passes_line; auto with mp. apply passes_string; auto with mp. Qed.

(** A quoted string at the end of a line. *)
Lemma passes_end s : no_quotes s → passes key (quoted s +:+ NLs).
Proof.
  intros Hs t. unfold quoted. rewrite !app_assoc_str. rewrite passes_quote.
  - rewrite (passes_free s Hs). rewrite passes_quote by reflexivity. by apply passes_free.
  - destruct (has_prefix _ _) eqn:Hp; [|done]. exfalso.
    apply quoted_prefix in Hp as [_ Hcolon]; [discriminate Hcolon|done|done].
Qed.

(** The entries of an array, each of which may be followed by a comma. *)
Lemma passes_listed l :
  Forall (λ e, passes key (e +:+ NLs) ∧ passes key (e +:+ ",")) l → passes key (listed l).
Proof.
  induction 1 as [|e l [He1 He2] _ IH]; [by apply passes_free|]. cbn [listed].
  destruct l; [done|]. rewrite <-(app_assoc_str e). apply passes_app; [done|].
  apply passes_app; [by apply passes_free|done].
Qed.

(** An entry that ends with a closing brace. *)
Lemma passes_entry e : passes key e → passes key (e +:+ NLs) ∧ passes key (e +:+ ",").
Proof. intros He. split; apply passes_app; try done; by apply passes_free. Qed.

Lemma no_quotes_app s t : no_quotes s → no_quotes t → no_quotes (s +:+ t).
Proof. unfold no_quotes. intros Hs Ht. by rewrite none_of_app, Hs, Ht. Qed.

(** Discharge a list of members. *)
Ltac members_tac :=
  repeat apply Forall_cons_2; try apply Forall_nil_2;
  first [ by apply passes_free
        | apply passes_text; [done|done|discriminate|solve [auto with mp | done]]
        | apply passes_item; [done|done|discriminate|]; first [done | apply no_quotes_app; solve [auto with mp | done]]
        | idtac ].

Lemma passes_cert c : passes key (cert_lines (sanitize_cert c)).
Proof. unfold cert_lines. apply passes_cat. cbn [sanitize_cert ce_fingerprint ce_subject]. members_tac. Qed.

Lemma passes_admin a : passes key (admin_lines (sanitize_admin a)).
Proof. unfold admin_lines. apply passes_cat. cbn [sanitize_admin ad_package ad_class]. members_tac. Qed.

(** The report [r] as it is written. *)
Lemma passes_head r :
  no_quotes (tr_timestamp r) → passes key (json_head (sanitize_report_strings r)).
Proof.
  intros Ht. unfold json_head. apply passes_cat. cbn [sanitize_report_strings tr_device tr_miui tr_certs tr_admins
    sanitize_device sanitize_surface dv_codename dv_board dv_hardware dv_hyperos dv_sec_patch dv_bootloader
    mi_selinux_mode mi_verified_boot mi_kill_targets tr_timestamp].
  members_tac; apply passes_listed; rewrite !Forall_map; apply Forall_true; intros x; unfold compose.
  - apply passes_entry, passes_cert.
  - apply passes_entry, passes_admin.
  - rewrite !app_assoc_str. split; (apply passes_app; [by apply passes_free|]); [apply passes_end|apply passes_string];
      auto with mp.
Qed.

(** ** The score *)

Lemma tiger_text r :
  tiger_write_json r = scat [json_head r; json_line "  " key (fmt_d (tr_trust r) +:+ ","); json_tail r].
Proof. unfold tiger_write_json, item. cbn [scat]. by rewrite app_nil_r_str. Qed.

Definition score_line (r : tigerclaw_report_t) : string := json_line "  " key (fmt_d (tr_trust r) +:+ ",").

Lemma read_tiger files r :
  files "tigerclawd" = Some (tiger_write_json r) →
  read_daemon files "tigerclawd" = Some (stake (Z.to_nat 65535) (tiger_write_json r)).
Proof. unfold read_daemon. by intros ->. Qed.

(** The score reaches overlordd: from every sanitized report whose score is
    written within the 65535 bytes that are read, and whose time stamp holds no
    quotes, overlordd reads the score exactly, whatever the device, its
    certificates and its administrators are called. *)
Theorem score_read files r d :
  let r' := sanitize_report_strings r in
  files "tigerclawd" = Some (tiger_write_json r') → no_quotes (tr_timestamp r) → 0 <= tr_trust r <= 100 →
  slen (json_head r') + slen (score_line r') <= 65535 →
  int_or_file (read_daemon files "tigerclawd") key d = tr_trust r.
Proof.
  intros r' Hf Ht Hs Hlen. rewrite (read_tiger files r' Hf), tiger_text. cbn [int_or_file].
  assert (stake (Z.to_nat 65535) (scat [json_head r'; score_line r'; json_tail r']) =
    scat ([json_head r'] ++ score_line r' ::
          [stake (Z.to_nat 65535 - String.length (json_head r') - String.length (score_line r')) (json_tail r')])) as Hx.
  { cbn [scat app]. rewrite !app_nil_r_str. unfold slen in Hlen.
    rewrite stake_app, (stake_all _ (json_head r')) by lia. by rewrite stake_app, (stake_all _ (score_line r')) by lia. }
  unfold score_line in Hx. unfold int_or. rewrite Hx. rewrite (read_member key key_fine); [done| | |split; unfold INT_MIN, INT_MAX|].
  - apply Forall_singleton. by apply passes_head.
  - done.
  - cbn. lia.
  - cbn. lia.
  - right. do 2 eexists. split; [reflexivity|by left].
Qed.

(** ** The crowd *)

Lemma length_item indent name value ending :
  String.length (item indent name value ending) =
  (String.length indent + String.length name + String.length value + String.length ending + 5)%nat.
Proof.
  unfold item, json_line. rewrite !length_app_str. change (String.length QUOTE) with 1%nat.
  change (String.length ": ") with 2%nat. change (String.length NLs) with 1%nat. lia.
Qed.

Lemma length_quoted s : String.length (quoted s) = (String.length s + 2)%nat.
Proof. unfold quoted. rewrite !length_app_str. change (String.length QUOTE) with 1%nat. lia. Qed.

(** The bytes that one certificate takes at least, with its comma and line end. *)
Lemma length_cert c : String.length (ce_fingerprint c) = 64%nat → (173 ≤ String.length (cert_lines (sanitize_cert c)))%nat.
Proof.
  intros Hc. unfold cert_lines. cbn [scat sanitize_cert ce_fingerprint ce_subject ce_is_system ce_is_new].
  rewrite !length_app_str, !length_item, !length_quoted, !length_sanitized, Hc. cbn.
  destruct (ce_is_system c), (ce_is_new c); cbn; lia.
Qed.

Lemma length_listed k l :
  Forall (λ e, (k ≤ String.length e)%nat) l → ((k + 2) * length l ≤ String.length (listed l) + 1)%nat.
Proof.
  induction 1 as [|e l He _ IH]; [cbn; lia|]. cbn [listed length].
  destruct l as [|e' l']; rewrite !length_app_str; change (String.length NLs) with 1%nat; [cbn; lia|].
  change (String.length ",") with 1%nat. lia.
Qed.

Lemma length_scat_elem x l : x ∈ l → (String.length x ≤ String.length (scat l))%nat.
Proof.
  induction l as [|y l IH]; rewrite ?elem_of_nil, ?elem_of_cons; [done|]. cbn [scat]. rewrite length_app_str.
  intros [-> | Hx]; [lia|]. apply IH in Hx. lia.
Qed.

Lemma length_head r :
  (String.length (listed (map cert_lines (tr_certs r))) ≤ String.length (json_head r))%nat.
Proof. apply length_scat_elem. unfold json_head. repeat (apply elem_of_cons; first [by left|right]). Qed.

(** A crowded store hides the score: from 375 certificates on, whose
    fingerprints are SHA-256 sums, the score is behind the bytes that overlordd
    reads, and overlordd goes on with its default, 100 in the patterns that ask
    for distrust. *)
Theorem crowded_store_hides_score files r d :
  let r' := sanitize_report_strings r in
  files "tigerclawd" = Some (tiger_write_json r') → no_quotes (tr_timestamp r) →
  Forall (λ c, String.length (ce_fingerprint c) = 64%nat) (tr_certs r) → (375 ≤ length (tr_certs r))%nat →
  int_or_file (read_daemon files "tigerclawd") key d = d.
Proof.
  intros r' Hf Ht Hfp Hn. rewrite (read_tiger files r' Hf). cbn [int_or_file]. unfold int_or, json_get_int, json_get_double, find_after.
  assert (Z.to_nat 65535 ≤ String.length (json_head r'))%nat as Hlen.
  { pose proof (length_head r') as H. change (tr_certs r') with (map sanitize_cert (tr_certs r)) in H.
    assert (Forall (λ e, (173 ≤ String.length e)%nat) (map cert_lines (map sanitize_cert (tr_certs r)))) as H173.
    { rewrite !Forall_map. apply (Forall_impl _ _ _ Hfp). intros c Hc. by apply length_cert. }
    apply length_listed in H173. rewrite !length_map in H173. lia. }
  rewrite json_needle_full by apply key_fine. unfold tiger_write_json. rewrite stake_app.
  replace (Z.to_nat 65535 - String.length (json_head r'))%nat with 0%nat by lia.
  rewrite (strstr_prefix _ (sdrop (Z.to_nat 65535) (json_head r'))); [done|done|].
  rewrite app_nil_r_str, stake_sdrop. rewrite <-(app_nil_r_str (json_head r')).
  by rewrite (passes_head r Ht).
Qed.

Definition plain_report (certs : list cert_entry_t) : tigerclaw_report_t :=
  Report (Device "a" "b" "c" "d" "e" "green") 200 0 0 false 72 [] certs 0 0 [] 0
    (Surface "Enforcing" "green" false false []) 1 "12:00" 9 200.

Definition sum_64 : string := scat (replicate 8 "0123abcd").

Definition plain_files (certs : list cert_entry_t) (name : string) : option string :=
  Some (tiger_write_json (sanitize_report_strings (plain_report certs))).

Lemma score_read_witness :
  int_or_file (read_daemon (plain_files [Cert sum_64 "ca.0" true false]) "tigerclawd") key 100 = 72.
Proof.
  apply (score_read _ (plain_report [Cert sum_64 "ca.0" true false]) 100); [reflexivity|reflexivity|split; discriminate|].
  vm_compute. discriminate.
Defined.

Lemma crowded_store_hides_score_witness :
  int_or_file (read_daemon (plain_files (replicate 375 (Cert sum_64 "ca.0" true false))) "tigerclawd") key 100 = 100.
Proof.
  apply (crowded_store_hides_score _ (plain_report (replicate 375 (Cert sum_64 "ca.0" true false))) 100);
    [reflexivity|reflexivity| |apply Nat.leb_le; reflexivity].
  by apply Forall_replicate.
Defined.
