(* ===== verification/Shred.v ===== *)
(** * shredderd: kernel modules and drift ([src/daemon/shredderd.c])

    Every half minute shredderd runs four combined commands, compares the number of
    kernel modules with a baseline that is kept in a file, and scores what it found.
    [reply] is what [bexec] returns, indexed by the number of commands run before. *)

From S2P Require Import Prelude CString Double Krang Conv Nulld.
From Stdlib Require Import Ascii.

Definition VERSION : string := "2.3".
Definition POLL_SEC : Z := 30.
Definition MAX_MODULES : nat := 512.
Definition DRIFT_CONFIRM : Z := 2.
Definition SD_PROBE_BUF_SIZE : Z := 131072.
Definition SD_PROBE_CMD_BUDGET : Z := 1450.
Definition SD_SECTION_SCRATCH_SIZE : Z := 65536.

Record mod_baseline_t := ModBaseline {
  mb_name : string; mb_hash_sha256 : string; mb_size : Z; mb_path : string; mb_first_seen : Z }.

(** [last_nmod], [drift_polls], [confirmed_drift]. *)
Record drift_t := Drift { dr_last_nmod : Z; dr_polls : Z; dr_confirmed : bool }.

(** [last_oom_kill], [last_allocstall], [last_pgsteal]. *)
Record vm_t := Vm { vm_oom_kill : Z; vm_allocstall : Z; vm_pgsteal : Z }.

(** The arguments of [write_json], with the globals it reads. *)
Record shredder_report := Report {
  sr_ts : string; sr_score : Z; sr_established : bool; sr_mod_count : Z;
  sr_su_found : bool; sr_magisk : bool; sr_kernelsu : bool; sr_vb_state : string; sr_vb_mode : string;
  sr_nmod : Z; sr_debugfs : bool; sr_root_procs : Z; sr_selinux : string; sr_suspicious_mod : string;
  sr_confirmed : bool; sr_new_mods : string; sr_removed_mods : string; sr_kernel_events : string;
  sr_fs_events : string; sr_threat : string; sr_module_surface : string; sr_hardening : string;
  sr_build : string; sr_build_integrity : string; sr_adb_state : string; sr_config : string;
  sr_vm_trends : string; sr_load_pressure : string; sr_nmi_watchdog : string; sr_reasons : string;
  sr_raw_reads : string }.

Inductive shred_output :=
| ToGaveld (signal : string) (weight : double) (ctx : string)
| ToSplinter (type payload : string).

Record shred := Shred {
  sd_now : Z;
  sd_asked : nat;                          (* commands run *)
  sd_file : option string;                 (* BASELINE_FILE *)
  sd_probe : option string;                (* g_probe_buf, when g_probe_loaded *)
  sd_mods : list mod_baseline_t;           (* baseline_mods *)
  sd_established : bool;
  sd_drift : drift_t;
  sd_vm : vm_t;
  sd_load : double;                        (* last_load_1min *)
  sd_btime : double;                       (* last_btime *)
  sd_config : option string;               (* kernel_config_cache, once parsed *)
  sd_out : list shred_output;
  sd_reports : list shredder_report        (* the calls of write_json *) }.

Definition ask (s : shred) : shred :=
  Shred (sd_now s) (S (sd_asked s)) (sd_file s) (sd_probe s) (sd_mods s) (sd_established s) (sd_drift s)
    (sd_vm s) (sd_load s) (sd_btime s) (sd_config s) (sd_out s) (sd_reports s).
Definition set_now (x : Z) (s : shred) : shred :=
  Shred x (sd_asked s) (sd_file s) (sd_probe s) (sd_mods s) (sd_established s) (sd_drift s)
    (sd_vm s) (sd_load s) (sd_btime s) (sd_config s) (sd_out s) (sd_reports s).
Definition set_file (x : option string) (s : shred) : shred :=
  Shred (sd_now s) (sd_asked s) x (sd_probe s) (sd_mods s) (sd_established s) (sd_drift s)
    (sd_vm s) (sd_load s) (sd_btime s) (sd_config s) (sd_out s) (sd_reports s).
Definition set_probe (x : option string) (s : shred) : shred :=
  Shred (sd_now s) (sd_asked s) (sd_file s) x (sd_mods s) (sd_established s) (sd_drift s)
    (sd_vm s) (sd_load s) (sd_btime s) (sd_config s) (sd_out s) (sd_reports s).
Definition set_mods (mods : list mod_baseline_t) (established : bool) (s : shred) : shred :=
  Shred (sd_now s) (sd_asked s) (sd_file s) (sd_probe s) mods established (sd_drift s)
    (sd_vm s) (sd_load s) (sd_btime s) (sd_config s) (sd_out s) (sd_reports s).
Definition set_drift (x : drift_t) (s : shred) : shred :=
  Shred (sd_now s) (sd_asked s) (sd_file s) (sd_probe s) (sd_mods s) (sd_established s) x
    (sd_vm s) (sd_load s) (sd_btime s) (sd_config s) (sd_out s) (sd_reports s).
Definition set_vm (x : vm_t) (s : shred) : shred :=
  Shred (sd_now s) (sd_asked s) (sd_file s) (sd_probe s) (sd_mods s) (sd_established s) (sd_drift s)
    x (sd_load s) (sd_btime s) (sd_config s) (sd_out s) (sd_reports s).
Definition set_load (x : double) (s : shred) : shred :=
  Shred (sd_now s) (sd_asked s) (sd_file s) (sd_probe s) (sd_mods s) (sd_established s) (sd_drift s)
    (sd_vm s) x (sd_btime s) (sd_config s) (sd_out s) (sd_reports s).
Definition set_btime (x : double) (s : shred) : shred :=
  Shred (sd_now s) (sd_asked s) (sd_file s) (sd_probe s) (sd_mods s) (sd_established s) (sd_drift s)
    (sd_vm s) (sd_load s) x (sd_config s) (sd_out s) (sd_reports s).
Definition set_config (x : string) (s : shred) : shred :=
  Shred (sd_now s) (sd_asked s) (sd_file s) (sd_probe s) (sd_mods s) (sd_established s) (sd_drift s)
    (sd_vm s) (sd_load s) (sd_btime s) (Some x) (sd_out s) (sd_reports s).
Definition add_out (x : shred_output) (s : shred) : shred :=
  Shred (sd_now s) (sd_asked s) (sd_file s) (sd_probe s) (sd_mods s) (sd_established s) (sd_drift s)
    (sd_vm s) (sd_load s) (sd_btime s) (sd_config s) (sd_out s ++ [x]) (sd_reports s).
Definition add_report (x : shredder_report) (s : shred) : shred :=
  Shred (sd_now s) (sd_asked s) (sd_file s) (sd_probe s) (sd_mods s) (sd_established s) (sd_drift s)
    (sd_vm s) (sd_load s) (sd_btime s) (sd_config s) (sd_out s) (sd_reports s ++ [x]).

(** The process starts; the file may be there from an earlier run. *)
Definition shred_start (now : Z) (file : option string) : shred :=
  Shred now 0 file None [] false (Drift 0 0 false) (Vm 0 0 0) (d_of_Z 0) (d_of_Z 0) None [] [].

Abbreviation SD := (M shred).

(** ** Texts *)

Definition unsafe_char (c : ascii) : bool :=
  (code c <? 32) || Ascii.eqb c (chr 34) || Ascii.eqb c "|" || Ascii.eqb c BACKSLASH.

Fixpoint sanitize_field (s : string) : string :=
  match s with
  | EmptyString => EmptyString
  | String c s' => String (if unsafe_char c then "_"%char else c) (sanitize_field s')
  end.

Fixpoint strip_trailing_comma (s : string) : string :=
  match s with
  | EmptyString => EmptyString
  | String c s' =>
      match s' with
      | EmptyString => if Ascii.eqb c "," then EmptyString else s
      | _ => String c (strip_trailing_comma s')
      end
  end.

(** [if (strlen(buf) + strlen(entry) < size - 1) strncat(buf, entry, ..)]. *)
Definition append_entry (size : nat) (buf entry : string) : string :=
  if (String.length buf + String.length entry <? size - 1)%nat then buf +:+ entry else buf.

Definition marker_of (tag : string) : string := snprintf 64 (scat ["=="; tag; "=="]).

(** The text between the marker of [tag] and the next line that starts with [==];
    empty when the next marker follows at once. *)
Definition section_of (buf tag : string) : option string :=
  at_marker ← strstr buf (marker_of tag);
  let start := skip_while is_line_end (sdrop (String.length (marker_of tag)) at_marker) in
  if has_prefix "==" start then Some ""
  else
    let text := match strstr start (NLs +:+ "==") with
                | Some stop => stake (String.length start - String.length stop) start
                | None => start
                end in
    Some (trim_end is_line_end (stake (Z.to_nat (SD_SECTION_SCRATCH_SIZE - 1)) text)).

(** ** The baseline file *)

Definition baseline_line (line : string) : option mod_baseline_t :=
  '(name, r) ← scan_s 63 line;
  '(hash, r) ← scan_s 64 r;
  '(size, r) ← scan_lu r;
  '(path, r) ← scan_s 255 r;
  '(ts, _) ← scan_ld r;
  Some (ModBaseline name hash size path ts).

Definition baseline_text (m : mod_baseline_t) : string :=
  scat [mb_name m; " "; mb_hash_sha256 m; " "; fmt_d (mb_size m); " "; mb_path m; " "; fmt_d (mb_first_seen m); NLs].

(** The lines that are read while there is room. *)
Definition read_mods (text : string) : list mod_baseline_t :=
  take MAX_MODULES (omap baseline_line (read_lines 512 text)).

Definition load_baseline : SD unit :=
  file ← gets sd_file;
  match file with
  | None => mret tt
  | Some text =>
      let mods := read_mods text in
      modify (set_mods mods (0 <? Z.of_nat (length mods)))
  end.

(** The module of a line of the list, at [now]. *)
Definition module_of (now : Z) (line : string) : option mod_baseline_t :=
  '(name, _) ← scan_s 63 line;
  if longer 1 name then Some (ModBaseline (strncpy 64 name) "UNKNOWN" 0 "UNKNOWN" now) else None.

Definition known (mods : list mod_baseline_t) (name : string) : bool :=
  existsb (λ m, String.eqb (mb_name m) name) mods.

Section shred.
Context (reply : nat → string → option string).
Context (strftime : Z → string).
Context (data_ok results_ok : bool) (* the files can be written *).

Definition bexec (cmd : string) : SD (option string) := λ s, (reply (sd_asked s) cmd, ask s).

Definition rish_read (cmd : string) (bufsize : nat) : SD string :=
  result ← bexec cmd;
  mret (match result with Some r => trim_end is_line_end (strncpy bufsize r) | None => "" end).

Definition emit (signal type payload : string) : SD unit :=
  _ ← modify (add_out (ToGaveld signal (d_of_Z 0) payload));
  modify (add_out (ToSplinter type payload)).

(** ** The probe *)

Definition probe_section_raw (tag : string) : SD (option string) :=
  probe ← gets sd_probe;
  mret (buf ← probe; section_of buf tag).

Definition probe_copy (tag : string) (bufsize : nat) : SD string :=
  v ← probe_section_raw tag;
  mret (match v with Some v => strncpy bufsize v | None => "" end).

(** [None] where the function fails, otherwise the buffer afterwards. *)
Definition append_probe_chunk (cmd buf : string) : SD (option string) :=
  if SD_PROBE_CMD_BUDGET <? slen cmd then mret None
  else
    raw ← bexec cmd;
    mret ((λ raw, buf +:+ stake (Z.to_nat (SD_PROBE_BUF_SIZE - slen buf - 1)) raw) <$> raw).

(** [echo ==TAG==; cmd;] *)
Definition probe_line (tag cmd : string) : string := scat ["echo =="; tag; "==; "; cmd; ";"].

Definition cmd_fast : string :=
  scat [probe_line "SUCHECK" "test -e /sbin/su -o -e /system/bin/su -o -e /system/xbin/su -o -e /su/bin/su -o -e /magisk/.core/bin/su && echo yes";
        probe_line "MAGISK" "test -d /data/adb/magisk && echo yes";
        probe_line "KSU" "test -e /sys/kernel/ksu && echo yes";
        probe_line "VBSTATE" "getprop ro.boot.verifiedbootstate 2>/dev/null";
        probe_line "VBMODE" "getprop ro.boot.flash.locked 2>/dev/null";
        probe_line "GETENFORCE" "getenforce 2>/dev/null";
        probe_line "DEBUGFS" "mount 2>/dev/null | grep -c debugfs";
        probe_line "ROOTPROCS" "ps -A -o USER,CMD 2>/dev/null | grep -c '^root'";
        probe_line "ADBD" "getprop init.svc.adbd 2>/dev/null";
        probe_line "USBCFG" "getprop persist.sys.usb.config 2>/dev/null";
        probe_line "BUILDTAGS" "getprop ro.build.tags 2>/dev/null";
        probe_line "BUILDTYPE" "getprop ro.build.type 2>/dev/null";
        probe_line "BUILDFP" "getprop ro.build.fingerprint 2>/dev/null"].

Definition cmd_modules : string :=
  scat [probe_line "SUSPMOD" "cat /proc/modules 2>/dev/null | awk '{print $1}' | grep -iE 'frida|hook|inject|rootkit|backdoor' | head -1";
        probe_line "LSMOD" "lsmod 2>/dev/null";
        probe_line "MODCOUNT" "cat /proc/modules 2>/dev/null | wc -l"].

Definition cmd_kernel : string :=
  scat [probe_line "PROCVERSION" "cat /proc/version 2>/dev/null";
        probe_line "VMSTAT" "cat /proc/vmstat 2>/dev/null | grep -E '^oom_kill|^allocstall|^pgsteal_kswapd'";
        probe_line "LOADAVG" "cat /proc/loadavg 2>/dev/null | awk '{print $1}'";
        probe_line "BTIME" "cat /proc/stat 2>/dev/null | grep '^btime'";
        probe_line "NMI" "cat /proc/interrupts 2>/dev/null | grep -i nmi | wc -l";
        probe_line "UPTIME" "cat /proc/uptime 2>/dev/null | awk '{print $1}'"].

Definition cmd_heavy : string :=
  scat [probe_line "SYSDM" "cat /proc/mounts 2>/dev/null | grep ' /system ' | grep -c '^/dev/block/dm-'";
        probe_line "VENDORDM" "cat /proc/mounts 2>/dev/null | grep ' /vendor ' | grep -c '^/dev/block/dm-'";
        probe_line "SYSRW" "cat /proc/mounts 2>/dev/null | grep ' /system ' | grep -v ' ro ' | wc -l";
        probe_line "DMESG" "dmesg 2>/dev/null | tail -20 | grep -E 'module|Oops|avc|verity' | head -5"].

(** The chunks are appended until one fails. *)
Fixpoint append_chunks (cmds : list string) (buf : string) : SD unit :=
  match cmds with
  | [] => modify (set_probe (Some buf))
  | cmd :: cmds' =>
      r ← append_probe_chunk cmd buf;
      match r with Some buf' => append_chunks cmds' buf' | None => mret tt end
  end.

Definition load_probe_data : SD unit :=
  _ ← modify (set_probe None);
  append_chunks [cmd_fast; cmd_modules; cmd_kernel; cmd_heavy] "".

(** ** The baseline *)

Definition save_baseline : SD unit :=
  mods ← gets sd_mods;
  mwhen data_ok (modify (set_file (Some (scat (map baseline_text mods))))).

Definition establish_baseline : SD unit :=
  established ← gets sd_established;
  _ ← modify (set_mods [] established);
  mods ← rish_read "cat /proc/modules | awk '{print $1}'" (Z.to_nat 65536);
  if longer 0 mods then
    now ← gets sd_now;
    _ ← modify (set_mods (take MAX_MODULES (omap (module_of now) (token_lines mods))) true);
    save_baseline
  else mret tt.

Definition find_in_baseline (name : string) : SD bool :=
  mods ← gets sd_mods;
  mret (known mods name).

(** ** Drift *)

Definition drift_entry (name key : string) (now : Z) : string :=
  snprintf 512 (scat [dq "{'name':'"; name; dq "','"; key; dq "':'"; fmt_d now; dq "'},"]).

(** The difference that is confirmed, and the new and the removed modules as JSON. *)
Definition detect_drift (current_nmod : Z) : SD (Z * string * string) :=
  mods ← gets sd_mods;
  dr ← gets sd_drift;
  let count := Z.of_nat (length mods) in
  let delta := current_nmod - count in
  if delta =? 0 then
    _ ← modify (set_drift (Drift (dr_last_nmod dr) 0 false));
    mret (0, "", "")
  else
    let polls := if delta =? dr_last_nmod dr - count then dr_polls dr + 1 else 1 in
    if polls <? DRIFT_CONFIRM then
      _ ← modify (set_drift (Drift current_nmod polls (dr_confirmed dr)));
      mret (0, "", "")
    else
      _ ← modify (set_drift (Drift current_nmod polls true));
      names ← rish_read "cat /proc/modules 2>/dev/null | awk '{print $1}'" (Z.to_nat 8192);
      if negb (longer 0 names) then mret (0, "", "")
      else
        now ← gets sd_now;
        let current := map (strncpy 64) (take MAX_MODULES (token_lines names)) in
        let new := List.filter (λ n, negb (known mods n)) current in
        let removed := List.filter (λ m, negb (existsb (String.eqb (mb_name m)) current)) mods in
        mret (delta,
              foldl (λ buf n, append_entry (Z.to_nat 4096) buf (drift_entry n "detected_at" now)) "" new,
              foldl (λ buf m, append_entry (Z.to_nat 4096) buf (drift_entry (mb_name m) "removed_at" now)) "" removed).

(** ** Checks *)

Definition get_selinux_state : SD string :=
  se ← probe_copy "GETENFORCE" 256;
  if longer 0 se && negb (contains se "Permission denied") then mret (strncpy 32 se)
  else
    prop ← rish_read "getprop ro.boot.selinux 2>/dev/null" 256;
    if longer 0 prop then mret (strncpy 32 prop)
    else
      enforce ← rish_read "cat /sys/fs/selinux/enforce 2>/dev/null" 256;
      mret (if String.eqb enforce "1" then "enforcing"
            else if String.eqb enforce "0" then "permissive" else "unknown").

Definition reason_entry (reason : string) (points : Z) : string :=
  snprintf 256 (scat [dq "{'reason':'"; reason; dq "','points':-"; fmt_d points; "},"]).

Definition add_reason (buf reason : string) (points : Z) : string :=
  append_entry (Z.to_nat 3072) buf (reason_entry reason points).

Definition check_filesystem_integrity : SD string :=
  system_dm ← probe_copy "SYSDM" 64;
  vendor_dm ← probe_copy "VENDORDM" 64;
  system_rw ← probe_copy "SYSRW" 64;
  let system_on_dm := String.eqb system_dm "1" in
  let vendor_on_dm := String.eqb vendor_dm "1" in
  let system_not_ro := negb (String.eqb system_rw "0") in
  mret (if negb system_on_dm || negb vendor_on_dm || system_not_ro then
          snprintf 512 (scat [dq "{'type':'verity_anomaly','system_on_dm':"; bool_str system_on_dm;
                              dq ",'vendor_on_dm':"; bool_str vendor_on_dm;
                              dq ",'system_not_ro':"; bool_str system_not_ro; "},"])
        else "").

(** The options of the kernel's configuration: member name and text. *)
Definition CONFIG_FLAGS : list (string * string) :=
  [("lockdown_lsm", "CONFIG_LOCK_DOWN_KERNEL=y"); ("module_sig_force", "CONFIG_MODULE_SIG_FORCE=y");
   ("module_sig_sha1", dq "CONFIG_MODULE_SIG_HASH='sha1'"); ("bpf", "CONFIG_BPF_SYSCALL=y");
   ("kprobes", "CONFIG_KPROBES=y"); ("uprobes", "CONFIG_UPROBES=y"); ("ftrace", "CONFIG_FTRACE=y");
   ("livepatch", "CONFIG_LIVEPATCH=y"); ("kexec", "CONFIG_KEXEC=y");
   ("selinux_devel", "CONFIG_SECURITY_SELINUX_DEVELOP=y"); ("cfi", "CONFIG_CFI_CLANG=y");
   ("shadow_call_stack", "CONFIG_SHADOW_CALL_STACK=y"); ("ptr_auth", "CONFIG_ARM64_PTR_AUTH=y");
   ("bti_userspace", "CONFIG_ARM64_BTI=y"); ("bti_kernel", "CONFIG_ARM64_BTI_KERNEL=y");
   ("kasan", "CONFIG_KASAN=y"); ("kasan_hw_tags", "CONFIG_KASAN_HW_TAGS=y")].

Definition LATER_FLAGS : list (string * string) :=
  [("kfence", "CONFIG_KFENCE=y"); ("spectre_bhb", "CONFIG_MITIGATE_SPECTRE_BRANCH_HISTORY=y");
   ("hardlockup_detector", "CONFIG_HARDLOCKUP_DETECTOR=y"); ("hungtask_detector", "CONFIG_HUNG_TASK_DETECTOR=y");
   ("kaslr", "CONFIG_RANDOMIZE_BASE=y"); ("strict_kernel_rwx", "CONFIG_STRICT_KERNEL_RWX=y");
   ("strict_module_rwx", "CONFIG_STRICT_MODULE_RWX=y"); ("init_stack_zero", "CONFIG_INIT_STACK_ALL_ZERO=y");
   ("slub_debug", "CONFIG_SLUB_DEBUG=y"); ("sw_ttbr0_pan", "CONFIG_ARM64_SW_TTBR0_PAN=y")].

Definition CONFIG_CMD : string :=
  "zcat /proc/config.gz 2>/dev/null | grep -E '^CONFIG_(LOCK_DOWN_KERNEL|MODULE_SIG_FORCE|MODULE_SIG_HASH|BPF_SYSCALL|BPF_JIT|KPROBES|UPROBES|FTRACE|LIVEPATCH|KEXEC|SECURITY_SELINUX|SECURITY_SELINUX_DEVELOP|CFI_CLANG|SHADOW_CALL_STACK|ARM64_PTR_AUTH|ARM64_BTI|ARM64_BTI_KERNEL|KASAN|KASAN_HW_TAGS|KFENCE|RETPOLINE|RANDOMIZE_BASE|STRICT_DEVMEM|STRICT_KERNEL_RWX|STRICT_MODULE_RWX|MITIGATE_SPECTRE_BRANCH_HISTORY|HARDLOCKUP_DETECTOR|HUNG_TASK_DETECTOR|WATCHDOG|INIT_STACK_ALL_ZERO|SLUB_DEBUG|RANDOMIZE_MEMORY|CPU_SW_DOMAIN_PAN|ARM64_SW_TTBR0_PAN)'".

Definition flag_member (name : string) (b : bool) : string := scat [quoted name; ":"; bool_str b; ","].

Definition config_json (cfg : string) (has_mte : bool) : string :=
  let member f := flag_member f.1 (contains cfg f.2) in
  let gap b name := if b : bool then "," +:+ quoted name else "" in
  snprintf (Z.to_nat 4096)
    (scat ["{"; scat (map member CONFIG_FLAGS); flag_member "cpu_has_mte" has_mte; scat (map member LATER_FLAGS);
           dq "'gaps':['no_lockdown_lsm'";
           gap (negb (contains cfg "CONFIG_MODULE_SIG_FORCE=y")) "module_sig_not_forced";
           gap (contains cfg (dq "CONFIG_MODULE_SIG_HASH='sha1'")) "sha1_weak_hash";
           gap (negb (contains cfg "CONFIG_HARDLOCKUP_DETECTOR=y")) "no_hardlockup_detector";
           gap (negb (contains cfg "CONFIG_HUNG_TASK_DETECTOR=y")) "no_hungtask_detector";
           gap (contains cfg "CONFIG_KPROBES=y") "kprobes_compiled"; "]}"]).

Definition check_kernel_config : SD string :=
  cache ← gets sd_config;
  match cache with
  | Some json => mret json
  | None =>
      cfg ← rish_read CONFIG_CMD (Z.to_nat 8192);
      mte ← rish_read "cat /proc/cpuinfo 2>/dev/null | grep -c ' mte '" 64;
      let json := config_json cfg (negb (String.eqb mte "0")) in
      _ ← modify (set_config json);
      mret json
  end.

(** The key and the value of a line of vmstat. *)
Definition vm_fields (line : string) : option (string * Z) :=
  '(key, r) ← scan_s 63 line;
  '(val, _) ← scan_lu r;
  Some (key, val).

Definition vm_line (vm : vm_t) (line : string) : vm_t :=
  match vm_fields line with
  | Some (key, val) =>
      if String.eqb key "oom_kill" then Vm val (vm_allocstall vm) (vm_pgsteal vm)
      else if has_prefix "allocstall" key then Vm (vm_oom_kill vm) (to_u64 (vm_allocstall vm + val)) (vm_pgsteal vm)
      else if String.eqb key "pgsteal_kswapd" then Vm (vm_oom_kill vm) (vm_allocstall vm) val
      else vm
  | None => vm
  end.

Definition trending (oom_delta alloc_delta : Z) : string :=
  if 0 <? oom_delta then "OOM_KILL_DETECTED"
  else if 1000 <? alloc_delta then "HIGH_MEMORY_PRESSURE" else "stable".

Definition check_vm_trends : SD string :=
  vmstat ← probe_copy "VMSTAT" 1024;
  last ← gets sd_vm;
  let vm := foldl vm_line (Vm 0 0 0) (token_lines vmstat) in
  let delta (last now : Z) := if 0 <? last then to_i32 (now - last) else 0 in
  let oom_delta := delta (vm_oom_kill last) (vm_oom_kill vm) in
  let alloc_delta := delta (vm_allocstall last) (vm_allocstall vm) in
  _ ← modify (set_vm vm);
  mret (snprintf 512 (scat [dq "{'oom_kill_total':"; fmt_d (vm_oom_kill vm); dq ",'oom_kill_delta':"; fmt_d oom_delta;
          dq ",'allocstall_total':"; fmt_d (vm_allocstall vm); dq ",'allocstall_delta':"; fmt_d alloc_delta;
          dq ",'pgsteal_kswapd':"; fmt_d (vm_pgsteal vm); dq ",'trending':'"; trending oom_delta alloc_delta; dq "'}"])).

Definition ZERO : double := d_of_Z 0.

Definition check_load_pressure : SD string :=
  load ← probe_copy "LOADAVG" 128;
  last ← gets sd_load;
  let load_1min := if longer 0 load then atof load else d_of_Z (-1) in
  let delta := if (ZERO <? last)%D then (load_1min - last)%D else ZERO in
  _ ← modify (set_load load_1min);
  mret (snprintf 256 (scat [dq "{'load_1min':"; fmt_f 2 load_1min; dq ",'load_delta':"; fmt_f 2 delta; dq ",'anomaly':'";
          (if (d_of_Z 10 <? delta)%D then "SPIKE" else if (d_of_Z 20 <? load_1min)%D then "HIGH"
           else if (d_of_Z 10 <? load_1min)%D then "ELEVATED" else "normal"); dq "'}"])).

(** [sscanf(stat, "btime %lf", &btime) == 1]. *)
Definition scan_btime (stat : string) : option double :=
  if has_prefix "btime" stat then fst <$> strtod (skip_while is_space (sdrop 5 stat)) else None.

Definition check_reboot : SD bool :=
  stat ← probe_copy "BTIME" 256;
  last ← gets sd_btime;
  match scan_btime stat with
  | Some btime =>
      _ ← modify (set_btime btime);
      mret ((ZERO <? last)%D && negb (SFeqb btime last))
  | None => mret false
  end.

Definition check_nmi_watchdog : SD string :=
  nmi ← probe_copy "NMI" 256;
  let nmi_present := negb (String.eqb nmi "0") in
  mret (snprintf 256 (scat [dq "{'nmi_watchdog_active':"; bool_str nmi_present; dq ",'assessment':'";
          (if nmi_present then "hardlockup detector active" else "hardlockup detector disabled or not configured"); dq "'}"])).

(** The module names of lsmod, after its heading; one that cannot be read is empty. *)
Definition lsmod_name (line : string) : string :=
  sanitize_field (match scan_s 63 line with Some (name, _) => name | None => "" end).

Definition untracked (established : bool) (mods : list mod_baseline_t) (name : string) : bool :=
  longer 0 name && established && negb (known mods name).

(** The JSON and the number of modules that are not in the baseline. *)
Definition check_module_surface (nmod : Z) : SD (string * Z) :=
  lsmod_out ← probe_copy "LSMOD" (Z.to_nat 16384);
  mods ← gets sd_mods;
  established ← gets sd_established;
  let lines := tl (token_lines lsmod_out) in
  let names := map lsmod_name lines in
  let new := List.filter (untracked established mods) names in
  let untracked_buf := foldl (λ buf n, append_entry 1024 buf (snprintf 80 (quoted n +:+ ","))) "" new in
  mret (snprintf 2048 (scat [dq "{'sys_module_readable':false,'proc_modules_count':"; fmt_d nmod;
          dq ",'permanent_module_count':"; fmt_d (Z.of_nat (length (List.filter (λ l, contains l "[permanent]") lines)));
          dq ",'sample_module_present':"; bool_str (existsb (String.eqb "sample_module") names);
          dq ",'untracked_modules':["; strip_trailing_comma untracked_buf; "]}"]),
        Z.of_nat (length new)).

Definition check_kernel_hardening_gaps : SD string :=
  uptime ← probe_copy "UPTIME" 256;
  mret (snprintf 512 (scat [dq "{'kernel_sysctls_blocked':true,'uptime_sec':";
          fmt_f 2 (if longer 0 uptime then atof uptime else d_of_Z (-1));
          dq ",'assessment':'proc sys kernel blocked by SELinux -- expected on hardened builds'}"])).

(** [sscanf(s, "Linux version %63s", kernel_ver)] with [kernel_ver] set before. *)
Definition scan_version (s : string) : option string :=
  if has_prefix "Linux" s then
    let s := skip_while is_space (sdrop 5 s) in
    if has_prefix "version" s then fst <$> scan_s 63 (sdrop 7 s) else None
  else None.

Definition check_kernel_build : SD string :=
  ver ← probe_copy "PROCVERSION" 1024;
  let kernel_ver := default "unknown" (scan_version ver) in
  let clang_ver := default "unknown" (clang ← strstr ver "clang version "; fst <$> scan_s 31 (sdrop 14 clang)) in
  let build_info := match after_last "#" ver with Some r => strncpy 64 ("#" +:+ r) | None => "unknown" end in
  mret (snprintf 512 (scat [dq "{'kernel_version':'"; stake 63 (sanitize_field kernel_ver);
          dq "','clang_version':'"; stake 31 (sanitize_field clang_ver);
          dq "','build_info':'"; stake 63 (sanitize_field build_info);
          dq "','lto':"; bool_str (contains ver "+lto"); dq ",'bolt':"; bool_str (contains ver "+bolt");
          dq ",'pgo':"; bool_str (contains ver "+pgo"); dq ",'mlgo':"; bool_str (contains ver "+mlgo"); "}"])).

Definition or_unknown (size : nat) (s : string) : string := strncpy size (if longer 0 s then s else "unknown").

(** The JSON, and whether tags and fingerprint disagree. *)
Definition check_build_integrity : SD (string * bool) :=
  tags ← probe_copy "BUILDTAGS" 256;
  type ← probe_copy "BUILDTYPE" 256;
  fp ← probe_copy "BUILDFP" 512;
  let tags := or_unknown 64 tags in
  let type := or_unknown 32 type in
  let fp := or_unknown 300 fp in
  let consistent := negb (String.eqb tags "unknown") && contains fp tags in
  let prod_build := String.eqb type "user" && String.eqb tags "release-keys" in
  mret (snprintf 768 (scat [dq "{'tags':'"; stake 63 (sanitize_field tags); dq "','type':'"; stake 31 (sanitize_field type);
          dq "','fingerprint':'"; stake 255 (sanitize_field fp); dq "','consistent':"; bool_str consistent;
          dq ",'production_build':"; bool_str prod_build; "}"]),
        negb consistent).

Definition check_avc_denials : Z := -1.

Definition check_adb_state : SD string :=
  adbd ← probe_copy "ADBD" 128;
  usbcfg ← probe_copy "USBCFG" 128;
  let usbcfg := sanitize_field usbcfg in
  mret (snprintf 512 (scat [dq "{'adbd_running':"; bool_str (contains adbd "running"); dq ",'usb_config':'";
          stake 63 (if longer 0 usbcfg then usbcfg else "unknown");
          dq "','note':'informational only -- not scored, expected on dev devices'}"])).

(** ** The score *)

Definition enforcing (selinux : string) : bool := contains selinux "enforcing" || contains selinux "Enforcing".

(** The rules: score, confidence and description. *)
Definition correlation (magisk kernelsu debugfs drift_confirmed : bool) (drift_delta root_procs : Z) (selinux : string)
  : Z * Z * string :=
  if magisk && drift_confirmed && (0 <? drift_delta) && debugfs then
    (15, 95, "Persistence + new kernel code + debug interface = likely active rootkit")
  else if kernelsu && drift_confirmed && negb (drift_delta =? 0) then
    (20, 90, "KernelSU + module drift = kernel tampering detected")
  else if drift_confirmed && (0 <? drift_delta) && negb magisk && negb kernelsu then
    (60, 70, "New kernel module without known root manager -- investigate")
  else if debugfs && (5 <? root_procs) then
    (40, 80, "debugfs mounted with multiple root processes -- attack surface active")
  else if negb (enforcing selinux) then
    (30, 85, "SELinux not enforcing -- MAC bypass possible")
  else (100, 0, "").

(** The score and the JSON. *)
Definition correlate_threats (magisk kernelsu debugfs drift_confirmed : bool) (drift_delta root_procs : Z) (selinux : string)
  : Z * string :=
  let '(score, confidence, description) :=
    correlation magisk kernelsu debugfs drift_confirmed drift_delta root_procs selinux in
  (score,
   if 0 <? confidence then
     snprintf 512 (scat [dq "{'type':'correlated','confidence':"; fmt_d confidence; dq ",'score':"; fmt_d score;
                         dq ",'description':'"; description; dq "'}"])
   else "").

(** A list of reasons: the condition, the text and the points. *)
Definition deductions : Type := list (bool * string * Z).

Definition deduct (l : deductions) (score : Z) : Z :=
  foldl (λ score '(b, _, points), if b : bool then score - points else score) score l.

Definition reasons (l : deductions) (buf : string) : string :=
  foldl (λ buf '(b, reason, points), if b : bool then add_reason buf reason points else buf) buf l.

(** What costs points before the correlation. *)
Definition early (vb_state suspicious_mod : string) (debugfs : bool) (selinux : string) : deductions :=
  [(negb (contains vb_state "green" || contains vb_state "yellow"), "verified_boot_state not green/yellow", 10);
   (longer 0 suspicious_mod, "suspicious module name matched frida/hook/inject/rootkit/backdoor pattern", 20);
   (debugfs, "debugfs mounted", 5);
   (negb (enforcing selinux), "SELinux not enforcing", 15)].

(** And after it. *)
Definition late (untracked_count : Z) (build_inconsistent rebooted : bool) (config : string) : deductions :=
  let says name b := contains config (dq (scat ["'"; name; "':"; bool_str b])) in
  [(0 <? untracked_count, "untracked kernel modules present (loaded but not in baseline)", 10);
   (build_inconsistent, "build fingerprint/tags inconsistent", 25);
   (rebooted, "kernel reboot detected (btime changed)", 20);
   (says "lockdown_lsm" false, "kernel lockdown LSM not enabled", 10);
   (says "module_sig_force" false, "module signature enforcement not forced", 10);
   (says "module_sig_sha1" true, "module signature hash uses weak SHA1", 5);
   (says "hardlockup_detector" false, "hardlockup detector not present in kernel config", 5);
   (says "hungtask_detector" false, "hung-task detector not present in kernel config", 5);
   (says "kprobes" true, "kprobes compiled into kernel (function-hooking capability present)", 5);
   (says "uprobes" true, "uprobes compiled into kernel (userspace-hooking capability present)", 5)].

Definition grade_of (score : Z) : string :=
  if 90 <=? score then "INTACT" else if 70 <=? score then "DEGRADED"
  else if 50 <=? score then "AT_RISK" else "CRITICAL".

(** ** The result file *)

Definition section_line (name value ending : string) : string := scat ["  "; quoted name; ": "; value; ending; NLs].

(** An array that was built with a comma after every entry. *)
Definition array (entries : string) : string := scat ["["; strip_trailing_comma entries; "]"].

Definition shredder_write_json (r : shredder_report) : string :=
  let l := json_line "    " in
  let part name value := section_line name value ("," +:+ NLs) in
  let num b := if b : bool then "1" else "0" in
  scat ["{"; NLs;
        json_line "  " "daemon" (quoted "shredderd" +:+ ",");
        json_line "  " "version" (quoted VERSION +:+ ",");
        json_line "  " "timestamp" (quoted (sr_ts r) +:+ ",");
        part "poll_interval_sec" (fmt_d POLL_SEC);
        json_line "  " "baseline" "{";
        l "established" (bool_str (sr_established r) +:+ ",");
        l "module_count" (fmt_d (sr_mod_count r));
        "  },"; NLs; NLs;
        json_line "  " "integrity" "{";
        l "score" (fmt_d (sr_score r) +:+ ",");
        l "grade" (quoted (grade_of (sr_score r)) +:+ ",");
        l "root_present" (bool_str (sr_su_found r || sr_magisk r || sr_kernelsu r) +:+ ",");
        l "su_found" (num (sr_su_found r) +:+ ",");
        l "magisk" (num (sr_magisk r) +:+ ",");
        l "kernelsu" (num (sr_kernelsu r) +:+ ",");
        l "verified_boot_state" (quoted (sr_vb_state r) +:+ ",");
        l "verified_boot_mode" (quoted (sr_vb_mode r) +:+ ",");
        l "selinux" (quoted (sr_selinux r));
        "  },"; NLs; NLs;
        json_line "  " "drift" "{";
        l "detected" (bool_str (longer 0 (strip_trailing_comma (sr_new_mods r))
                                || longer 0 (strip_trailing_comma (sr_removed_mods r))) +:+ ",");
        l "confirmed" (bool_str (sr_confirmed r) +:+ ",");
        l "delta" (fmt_d (sr_nmod r - sr_mod_count r) +:+ ",");
        l "new_modules" (array (sr_new_mods r) +:+ ",");
        l "removed_modules" (array (sr_removed_mods r));
        "  },"; NLs; NLs;
        part "kernel_events" (array (strncpy (Z.to_nat 4096) (sr_kernel_events r)));
        part "filesystem_integrity" (array (sr_fs_events r));
        part "threat_indicators" (scat ["["; sr_threat r; "]"]);
        part "score_reasons" (array (sr_reasons r));
        part "raw_reads" (sr_raw_reads r);
        part "module_surface" (sr_module_surface r);
        part "kernel_hardening_gaps" (sr_hardening r);
        part "kernel_build" (sr_build r);
        part "build_integrity" (sr_build_integrity r);
        part "selinux_avc_denials" (fmt_d check_avc_denials);
        part "adb_state" (sr_adb_state r);
        part "kernel_config" (sr_config r);
        part "vm_trends" (sr_vm_trends r);
        part "load_pressure" (sr_load_pressure r);
        part "nmi_watchdog" (sr_nmi_watchdog r);
        json_line "  " "surface" "{";
        l "debugfs_mounted" (bool_str (sr_debugfs r) +:+ ",");
        l "root_processes" (fmt_d (sr_root_procs r) +:+ ",");
        l "unknown_modules" (fmt_d (sr_nmod r) +:+ ",");
        l "suspicious_module" (quoted (sr_suspicious_mod r));
        "  }"; NLs; "}"; NLs].

(** ** The poll *)

(** [strncat] without a bound: the command prints five lines at most, which fit. *)
Definition dmesg_events (text : string) : string :=
  scat (map (λ line, snprintf 512 (scat [dq "{'type':'dmesg','msg':'"; sanitize_field line; dq "'},"])) (token_lines text)).

Definition raw_reads (vb_state vb_mode selinux magisk ksu dfs rp : string) : string :=
  snprintf 1024 (scat [dq "{'verifiedbootstate':'"; vb_state; dq "','flash_locked':'"; vb_mode;
                       dq "','selinux_getenforce':'"; selinux; dq "','magisk_dir_check':'"; magisk;
                       dq "','kernelsu_check':'"; ksu; dq "','debugfs_grep_count':'"; dfs;
                       dq "','root_proc_grep_count':'"; rp; dq "'}"]).

Definition REBOOT_TEXT : string := "Kernel reboot detected via btime change".

(** What is sent at the end of a poll. *)
Definition raise (score drift_delta : Z) (confirmed : bool) (threat new_mods : string) : SD unit :=
  mwhen ((score <? 50) || (confirmed && (0 <? drift_delta)))
    (_ ← emit "KERNEL_THREAT" "kernel_threat" threat;
     mwhen (confirmed && (0 <? drift_delta)) (emit "NEW_KERNEL_MODULE" "new_kernel_module" new_mods)).

(** What a poll has read before the drift. *)
Record probes := Probes {
  pb_su : string; pb_magisk : string; pb_ksu : string; pb_vb_state : string; pb_vb_mode : string;
  pb_nmod : Z; pb_susp : string; pb_dfs : string; pb_rp : string; pb_selinux : string }.

(** The checks after the drift, the score, the messages and the result file. *)
Definition assess (p : probes) (drift_delta : Z) (new_mods removed_mods : string) : SD unit :=
  let magisk := contains (pb_magisk p) "yes" in
  let kernelsu := contains (pb_ksu p) "yes" in
  let debugfs := contains (pb_dfs p) "1" in
  let root_procs := if longer 0 (pb_rp p) then atoi (pb_rp p) else 0 in
  dmesg ← probe_copy "DMESG" (Z.to_nat 4096);
  fs ← check_filesystem_integrity;
  confirmed ← gets (λ s, dr_confirmed (sd_drift s));
  let '(correlated_score, threat) :=
    correlate_threats magisk kernelsu debugfs confirmed drift_delta root_procs (pb_selinux p) in
  '(surface, untracked_count) ← check_module_surface (pb_nmod p);
  hardening ← check_kernel_hardening_gaps;
  build ← check_kernel_build;
  '(integrity, build_inconsistent) ← check_build_integrity;
  config ← check_kernel_config;
  vm ← check_vm_trends;
  load ← check_load_pressure;
  nmi ← check_nmi_watchdog;
  rebooted ← check_reboot;
  _ ← mwhen rebooted (emit "REBOOT_DETECTED" "reboot_detected" REBOOT_TEXT);
  adb ← check_adb_state;
  let before := early (pb_vb_state p) (pb_susp p) debugfs (pb_selinux p) in
  let after := late untracked_count build_inconsistent rebooted config in
  let score := Z.max 0 (deduct after (Z.min correlated_score (deduct before 100))) in
  _ ← raise score drift_delta confirmed threat new_mods;
  s ← gets id;
  mwhen results_ok (modify (add_report
    (Report (strftime (sd_now s)) score (sd_established s) (Z.of_nat (length (sd_mods s)))
       (contains (pb_su p) "yes") magisk kernelsu (pb_vb_state p) (pb_vb_mode p) (pb_nmod p) debugfs root_procs
       (pb_selinux p) (pb_susp p) confirmed new_mods removed_mods (dmesg_events dmesg) fs threat surface hardening
       build integrity adb config vm load nmi (reasons after (reasons before ""))
       (raw_reads (pb_vb_state p) (pb_vb_mode p) (pb_selinux p) (pb_magisk p) (pb_ksu p) (pb_dfs p) (pb_rp p))))).

Definition poll_integrity : SD unit :=
  _ ← load_probe_data;
  su ← probe_copy "SUCHECK" 16;
  magisk ← probe_copy "MAGISK" 32;
  ksu ← probe_copy "KSU" 32;
  vb_state ← probe_copy "VBSTATE" 128;
  vb_mode ← probe_copy "VBMODE" 128;
  modcount ← probe_copy "MODCOUNT" 32;
  let nmod := if longer 0 modcount then atoi modcount else 0 in
  if nmod <=? 0 then mret tt
  else
    susp ← probe_copy "SUSPMOD" 256;
    dfs ← probe_copy "DEBUGFS" 32;
    rp ← probe_copy "ROOTPROCS" 32;
    selinux ← get_selinux_state;
    established ← gets sd_established;
    '(drift_delta, new_mods, removed_mods) ← (if established : bool then detect_drift nmod else mret (0, "", ""));
    assess (Probes su magisk ksu vb_state vb_mode nmod (strncpy 64 susp) dfs rp selinux) drift_delta new_mods removed_mods.

(** The polls at [times]. *)
Definition integrity_polls (times : list Z) : SD unit :=
  mfor times (λ now, _ ← modify (set_now now); poll_integrity).

(** [main], from [shred_start]. *)
Definition shred_main (times : list Z) : SD unit :=
  _ ← load_baseline;
  established ← gets sd_established;
  _ ← (if established : bool then mret tt else establish_baseline);
  integrity_polls times.

End shred.
