(* ===== verification/Drift.v ===== *)
(** * shredderd over a run

    The drift that shredderd reports is a function of the numbers of modules it has
    counted; its score is explained by its reasons and rules; and a configuration
    that could not be read once counts against the phone for ever. *)

From S2P Require Import Prelude CString Double Krang Nulld Conv Shred.
From Stdlib Require Import Ascii.

(** ** The history of the counts *)

(** How often in a row the newest count has been seen, 0 for that of the baseline;
    newest first. *)
Fixpoint streak (base : Z) (h : list Z) : Z :=
  match h with
  | [] => 0
  | n :: h' =>
      if n =? base then 0
      else match h' with
           | m :: _ => if n =? m then 1 + streak base h' else 1
           | [] => 1
           end
  end.

(** A count was seen twice in a row since the baseline's was seen last. *)
Fixpoint confirmed (base : Z) (h : list Z) : bool :=
  match h with
  | [] => false
  | n :: h' => if n =? base then false else (2 <=? streak base h) || confirmed base h'
  end.

(** The drift agrees with the counts so far. *)
Definition follows (base : Z) (h : list Z) (d : drift_t) : Prop :=
  dr_polls d = streak base h ∧ dr_confirmed d = confirmed base h ∧
  (0 < streak base h → dr_last_nmod d = hd 0 h) ∧ (h = [] → dr_last_nmod d = 0).

Lemma streak_nonneg base h : 0 <= streak base h.
Proof. induction h as [|n [|m h] IH]; cbn [streak] in *; repeat case_match; lia. Qed.

Lemma follows_start base : follows base [] (Drift 0 0 false).
Proof. done. Qed.

(** ** What the checks leave alone *)

(** Walk through the body of a check. *)
Ltac walk_tac :=
  unfold load_probe_data, probe_copy, probe_section_raw, rish_read, get_selinux_state, check_filesystem_integrity,
    check_module_surface, check_kernel_hardening_gaps, check_kernel_build, check_build_integrity, check_vm_trends,
    check_load_pressure, check_nmi_watchdog, check_reboot, check_adb_state, detect_drift, raise, emit,
    probe_copy, probe_section_raw, rish_read; keeps_tac.

Section run.
Context (reply : nat → string → option string) (strftime : Z → string) (data_ok results_ok : bool).

Definition calm (s : shred) :=
  (sd_now s, sd_file s, sd_mods s, sd_established s, sd_drift s, sd_out s, sd_reports s).
Abbreviation same_calm := (λ s s', calm s' = calm s).

Lemma calm_bexec cmd : keeps same_calm (bexec reply cmd).
Proof. by intros s. Qed.

Lemma calm_modify f : (∀ s, calm (f s) = calm s) → keeps same_calm (modify f).
Proof. intros Hf s. apply Hf. Qed.

Hint Resolve calm_bexec : mp.
Hint Extern 1 (keeps _ (modify _)) => apply calm_modify; by intros [] : mp.

Lemma calm_rish cmd n : keeps same_calm (rish_read reply cmd n).
Proof. unfold rish_read. keeps_tac. Qed.

Lemma calm_copy tag n : keeps same_calm (probe_copy tag n).
Proof. unfold probe_copy, probe_section_raw. keeps_tac. Qed.

Hint Resolve calm_rish calm_copy : mp.

Lemma calm_chunks l : ∀ buf, keeps same_calm (append_chunks reply l buf).
Proof. induction l as [|c l IH]; intros buf; cbn [append_chunks]; unfold append_probe_chunk; keeps_tac; apply IH. Qed.

Lemma calm_load : keeps same_calm (load_probe_data reply).
Proof. unfold load_probe_data. keeps_tac. apply calm_chunks. Qed.

Lemma calm_selinux : keeps same_calm (get_selinux_state reply).
Proof. unfold get_selinux_state. keeps_tac. Qed.

Lemma calm_fs : keeps same_calm check_filesystem_integrity.
Proof. unfold check_filesystem_integrity. keeps_tac. Qed.

Lemma calm_surface n : keeps same_calm (check_module_surface n).
Proof. unfold check_module_surface. keeps_tac. Qed.

Lemma calm_hardening : keeps same_calm check_kernel_hardening_gaps.
Proof. unfold check_kernel_hardening_gaps. keeps_tac. Qed.

Lemma calm_build : keeps same_calm check_kernel_build.
Proof. unfold check_kernel_build. keeps_tac. Qed.

Lemma calm_integrity : keeps same_calm check_build_integrity.
Proof. unfold check_build_integrity. keeps_tac. Qed.

Lemma calm_config : keeps same_calm (check_kernel_config reply).
Proof. unfold check_kernel_config. keeps_tac. Qed.

Lemma calm_vm : keeps same_calm check_vm_trends.
Proof. unfold check_vm_trends. keeps_tac. Qed.

Lemma calm_pressure : keeps same_calm check_load_pressure.
Proof. unfold check_load_pressure. keeps_tac. Qed.

Lemma calm_nmi : keeps same_calm check_nmi_watchdog.
Proof. unfold check_nmi_watchdog. keeps_tac. Qed.

Lemma calm_reboot : keeps same_calm check_reboot.
Proof. unfold check_reboot. keeps_tac. Qed.

Lemma calm_adb : keeps same_calm check_adb_state.
Proof. unfold check_adb_state. keeps_tac. Qed.

(** ** Drift *)

(** What [detect_drift] answers after the counts [n :: h]. *)
Definition answers (base : Z) (h : list Z) (n : Z) (x : Z * string * string) : Prop :=
  let '(delta, new, removed) := x in
  (delta = n - base ∧ 2 <= streak base (n :: h)) ∨ (delta = 0 ∧ new = "" ∧ removed = "").

Lemma detect_follows h n s :
  let base := Z.of_nat (length (sd_mods s)) in
  let c := detect_drift reply n in
  0 < n → follows base h (sd_drift s) →
  follows base (n :: h) (sd_drift (exec c s)) ∧ answers base h n (result c s) ∧
  calm (exec c s) = calm (set_drift (sd_drift (exec c s)) s).
Proof.
  intros base c Hn (Hp & Hc & Hl & H0). unfold c, detect_drift. autorewrite with monad. cbv zeta. fold base.
  pose proof (streak_nonneg base h) as Hs.
  assert (streak base (n :: h) =
    if n - base =? 0 then 0 else if n - base =? dr_last_nmod (sd_drift s) - base then dr_polls (sd_drift s) + 1 else 1) as Hstreak.
  { cbn [streak]. destruct (Z.eqb_spec n base), (Z.eqb_spec (n - base) 0); try lia.
    destruct h as [|m h']; [rewrite H0 by done|].
    - destruct (Z.eqb_spec (n - base) (0 - base)); [lia|done].
    - rewrite Hp. destruct (Z.eqb_spec m base) as [->|Hm].
      + assert (streak base (base :: h') = 0) as -> by (cbn [streak]; by rewrite Z.eqb_refl).
        destruct (Z.eqb_spec n base); [done|]. by destruct (_ =? _).
      + assert (0 < streak base (m :: h')) as Hpos.
        { pose proof (streak_nonneg base h'). cbn [streak] in *. destruct (Z.eqb_spec m base); [done|].
          destruct h'; repeat case_match; lia. }
        rewrite (Hl Hpos). cbn [hd]. destruct (Z.eqb_spec n m), (Z.eqb_spec (n - base) (m - base)); lia. }
  assert (confirmed base (n :: h) =
    if n - base =? 0 then false else (2 <=? streak base (n :: h)) || confirmed base h) as Hconf.
  { cbn [confirmed]. by destruct (Z.eqb_spec n base), (Z.eqb_spec (n - base) 0); try lia. }
  unfold follows, answers. rewrite Hconf, Hstreak in *. clear Hconf. cbn [hd].
  destruct (n - base =? 0); [autorewrite with monad; cbn; naive_solver lia|].
  set (polls := if n - base =? _ then _ else 1) in *. change DRIFT_CONFIRM with 2.
  destruct (Z.ltb_spec polls 2) as [Hlt|Hge].
  - autorewrite with monad. cbn. rewrite (proj2 (Z.leb_gt 2 polls)) by lia. naive_solver lia.
  - rewrite (proj2 (Z.leb_le 2 polls)) by lia. cbn [orb]. autorewrite with monad. cbv zeta.
    set (names := result (rish_read _ _ _) _).
    change (exec (rish_read _ _ _) ?x) with (ask x).
    destruct (negb (longer 0 names)); autorewrite with monad; cbn; naive_solver lia.
Qed.

(** ** A poll *)

(** The messages of a poll. *)
Definition reboot_out (rebooted : bool) : list shred_output :=
  if rebooted then [ToGaveld "REBOOT_DETECTED" (d_of_Z 0) REBOOT_TEXT; ToSplinter "reboot_detected" REBOOT_TEXT] else [].

Definition raise_out (score delta : Z) (confirmed : bool) (threat new_mods : string) : list shred_output :=
  if (score <? 50) || (confirmed && (0 <? delta)) then
    [ToGaveld "KERNEL_THREAT" (d_of_Z 0) threat; ToSplinter "kernel_threat" threat] ++
    (if confirmed && (0 <? delta) then
       [ToGaveld "NEW_KERNEL_MODULE" (d_of_Z 0) new_mods; ToSplinter "new_kernel_module" new_mods] else [])
  else [].

(** How the score of a report comes about, and its reasons and its threat. *)
Definition explained (r : shredder_report) (delta untracked : Z) (inconsistent rebooted : bool) : Prop :=
  let before := early (sr_vb_state r) (sr_suspicious_mod r) (sr_debugfs r) (sr_selinux r) in
  let after := late untracked inconsistent rebooted (sr_config r) in
  let correlated := correlate_threats (sr_magisk r) (sr_kernelsu r) (sr_debugfs r) (sr_confirmed r) delta
                      (sr_root_procs r) (sr_selinux r) in
  sr_score r = Z.max 0 (deduct after (Z.min correlated.1 (deduct before 100))) ∧
  sr_threat r = correlated.2 ∧ sr_reasons r = reasons after (reasons before "").

(** The end of a poll that began the assessment in [s]. *)
Definition assessed (s : shred) (p : probes) (delta : Z) (new removed : string) (s' : shred) : Prop :=
  ∃ r untracked inconsistent rebooted,
    explained r delta untracked inconsistent rebooted ∧
    sr_nmod r = pb_nmod p ∧ sr_new_mods r = new ∧ sr_removed_mods r = removed ∧
    sr_confirmed r = dr_confirmed (sd_drift s) ∧ sr_established r = sd_established s ∧
    sr_mod_count r = Z.of_nat (length (sd_mods s)) ∧
    calm s' = (sd_now s, sd_file s, sd_mods s, sd_established s, sd_drift s,
               sd_out s ++ reboot_out rebooted ++ raise_out (sr_score r) delta (sr_confirmed r) (sr_threat r) new,
               sd_reports s ++ if results_ok then [r] else []).

Lemma exec_raise score delta conf threat new s :
  exec (raise score delta conf threat new) s =
  Shred (sd_now s) (sd_asked s) (sd_file s) (sd_probe s) (sd_mods s) (sd_established s) (sd_drift s)
    (sd_vm s) (sd_load s) (sd_btime s) (sd_config s) (sd_out s ++ raise_out score delta conf threat new) (sd_reports s).
Proof.
  unfold raise, raise_out. rewrite exec_mwhen. destruct s as [x1 x2 x3 x4 x5 x6 x7 x8 x9 y1 y2 o y4].
  destruct ((score <? 50) || (conf && (0 <? delta))); [|by rewrite app_nil_r].
  rewrite exec_bind, exec_mwhen. destruct (conf && (0 <? delta)); unfold emit; rewrite !exec_bind, !exec_modify;
    unfold add_out; cbn [sd_now sd_asked sd_file sd_probe sd_mods sd_established sd_drift sd_vm sd_load sd_btime
      sd_config sd_out sd_reports]; by rewrite <-!app_assoc.
Qed.

Hint Resolve calm_load calm_selinux calm_fs calm_surface calm_hardening calm_build calm_integrity calm_config
  calm_vm calm_pressure calm_nmi calm_reboot calm_adb : mp.

Lemma keeps_calm {A} (c : M shred A) t : keeps same_calm c → preserves (λ s', calm s' = t) c.
Proof. intros Hc s' <-. apply Hc. Qed.

Lemma assess_spec s p delta new removed :
  triple (λ s', calm s' = calm s) (assess reply strftime results_ok p delta new removed)
    (λ _, assessed s p delta new removed).
Proof.
  unfold assess. cbv zeta.
  apply triple_skip; [apply keeps_calm; auto with mp|intros dmesg].
  apply triple_skip; [apply keeps_calm; auto with mp|intros fs].
  apply (triple_step _ (λ b, b = dr_confirmed (sd_drift s)));
    [apply keeps_calm; keeps_tac|intros s' Hs; injection Hs; intros; autorewrite with monad; congruence|intros ? ->].
  destruct (correlate_threats _ _ _ _ _ _ _) as [corr threat] eqn:Hcorr.
  apply triple_skip; [apply keeps_calm; auto with mp|intros [surface untracked]].
  apply triple_skip; [apply keeps_calm; auto with mp|intros hardening].
  apply triple_skip; [apply keeps_calm; auto with mp|intros build].
  apply triple_skip; [apply keeps_calm; auto with mp|intros [integrity inconsistent]].
  apply triple_skip; [apply keeps_calm; auto with mp|intros config].
  apply triple_skip; [apply keeps_calm; auto with mp|intros vm].
  apply triple_skip; [apply keeps_calm; auto with mp|intros load].
  apply triple_skip; [apply keeps_calm; auto with mp|intros nmi].
  apply triple_skip; [apply keeps_calm; auto with mp|intros rebooted].
  set (t := calm (Shred (sd_now s) 0 (sd_file s) None (sd_mods s) (sd_established s) (sd_drift s) (sd_vm s) (sd_load s)
    (sd_btime s) None (sd_out s ++ reboot_out rebooted) (sd_reports s))).
  apply (triple_bind _ (λ _ s', calm s' = t)).
  { intros s' Hs. rewrite exec_mwhen. unfold t, reboot_out, emit. injection Hs as H1 H2 H3 H4 H5 H6 H7.
    destruct rebooted; autorewrite with monad; unfold calm; cbn; rewrite H1, H2, H3, H4, H5, H6, H7, ?app_nil_r, <-?app_assoc; done. }
  intros _. apply triple_skip; [apply keeps_calm; auto with mp|intros adb].
  intros s' Hs. autorewrite with monad. rewrite exec_raise. unfold t, calm in Hs. cbn in Hs.
  injection Hs as H1 H2 H3 H4 H5 H6 H7.
  match goal with |- context [add_report ?r _] => exists r, untracked, inconsistent, rebooted end.
  split.
  { unfold explained. cbn [sr_score sr_vb_state sr_suspicious_mod sr_debugfs sr_selinux sr_config sr_magisk sr_kernelsu
      sr_confirmed sr_root_procs sr_threat sr_reasons]. rewrite Hcorr. by split_and!. }
  do 4 (split; [done|]). split; [exact H4|]. split; [cbn [sr_mod_count]; by rewrite H3|].
  cbn [id sr_score sr_confirmed sr_threat]. change (id ?x) with x. destruct results_ok; unfold calm; cbn [add_report sd_now sd_file sd_mods sd_established sd_drift sd_out sd_reports];
    rewrite H1, H2, H3, H4, H5, H6, H7, ?app_nil_r, <-?app_assoc; done.
Qed.

Lemma assessed_calm s t p delta new removed s' :
  calm s = calm t → assessed s p delta new removed s' → assessed t p delta new removed s'.
Proof. unfold calm, assessed. intros H. injection H as -> -> -> -> -> -> ->. done. Qed.

(** A poll after the counts [h]: it could not count the modules and did nothing, or
    the drift was assessed. *)
Definition polled (h : list Z) (s s' : shred) : Prop :=
  calm s' = calm s ∨
  ∃ p delta new removed d,
    0 < pb_nmod p ∧ assessed (set_drift d s) p delta new removed s' ∧
    if sd_established s then
      follows (Z.of_nat (length (sd_mods s))) (pb_nmod p :: h) d ∧
      answers (Z.of_nat (length (sd_mods s))) h (pb_nmod p) (delta, new, removed)
    else d = sd_drift s ∧ delta = 0 ∧ new = "" ∧ removed = "".

(** The part of the poll that reads. *)
Ltac reads_tac := apply triple_skip; [apply keeps_calm; auto with mp|].

Lemma poll_polled h s :
  (sd_established s = true → follows (Z.of_nat (length (sd_mods s))) h (sd_drift s)) →
  polled h s (exec (poll_integrity reply strftime results_ok) s).
Proof.
  intros Hf. cut (triple (λ s', calm s' = calm s) (poll_integrity reply strftime results_ok) (λ _, polled h s)); [by auto|].
  unfold poll_integrity. reads_tac; intros _. reads_tac; intros su. reads_tac; intros magisk. reads_tac; intros ksu.
  reads_tac; intros vb. reads_tac; intros vbm. reads_tac; intros modcount. cbv zeta.
  set (nmod := if longer 0 modcount then _ else _).
  destruct (Z.leb_spec nmod 0) as [|Hn]; [by left|].
  reads_tac; intros susp. reads_tac; intros dfs. reads_tac; intros rp. reads_tac; intros selinux.
  apply (triple_step _ (λ b, b = sd_established s));
    [apply keeps_calm; keeps_tac|intros s' Hs; injection Hs; intros; autorewrite with monad; congruence|intros ? ->].
  intros s1 Hs1. rewrite exec_bind. pose proof Hs1 as Hc. unfold calm in Hc. injection Hc as _ _ Hm _ Hd _ _.
  set (step := if sd_established s then _ else _).
  assert (∃ d delta new removed, result step s1 = (delta, new, removed) ∧ calm (exec step s1) = calm (set_drift d s) ∧
    if sd_established s then
      follows (Z.of_nat (length (sd_mods s))) (nmod :: h) d ∧ answers (Z.of_nat (length (sd_mods s))) h nmod (delta, new, removed)
    else d = sd_drift s ∧ delta = 0 ∧ new = "" ∧ removed = "") as (d & delta & new & removed & Hres & Hcalm & Hgood).
  { unfold step. destruct (sd_established s).
    - destruct (detect_follows h nmod s1 Hn) as (H1 & H2 & H3); [rewrite Hm, Hd; by apply Hf|].
      destruct (result (detect_drift reply nmod) s1) as [[delta new] removed].
      exists (sd_drift (exec (detect_drift reply nmod) s1)), delta, new, removed. rewrite <-Hm.
      split; [done|]. split; [|by split]. rewrite H3. unfold calm in *. cbn. injection Hs1. by intros -> -> _ -> -> -> ->.
    - exists (sd_drift s), 0, "", "". split; [done|]. split; [|done]. rewrite exec_mret, Hs1. by destruct s. }
  rewrite Hres. right.
  exists (Probes su magisk ksu vb vbm nmod (strncpy 64 susp) dfs rp selinux), delta, new, removed, d. split; [exact Hn|]. split; [|exact Hgood].
  apply (assessed_calm (exec step s1)); [done|]. by apply assess_spec.
Qed.


(** ** Runs *)

(** The messages of a poll with the report [x.1.1], the drift [x.1.2] and, if the
    kernel was started again, [x.2]. *)
Definition messages (x : shredder_report * Z * bool) : list shred_output :=
  let r := x.1.1 in
  reboot_out x.2 ++ raise_out (sr_score r) x.1.2 (sr_confirmed r) (sr_threat r) (sr_new_mods r).

Definition reported (x : shredder_report * Z * bool) : shredder_report := x.1.1.

(** The report [x] after the counts [h]. *)
Definition sound (mods : list mod_baseline_t) (established : bool) (h : list Z) (x : shredder_report * Z * bool) : Prop :=
  let r := reported x in
  let base := Z.of_nat (length mods) in
  (∃ untracked inconsistent, explained r x.1.2 untracked inconsistent x.2) ∧
  sr_established r = established ∧ sr_mod_count r = base ∧ 0 < sr_nmod r ∧
  if established then
    sr_confirmed r = confirmed base (sr_nmod r :: h) ∧ answers base h (sr_nmod r) (x.1.2, sr_new_mods r, sr_removed_mods r)
  else sr_confirmed r = false ∧ x.1.2 = 0 ∧ sr_new_mods r = "" ∧ sr_removed_mods r = "".

(** The drift before a poll. *)
Definition ready (h : list Z) (s : shred) : Prop :=
  if sd_established s then follows (Z.of_nat (length (sd_mods s))) h (sd_drift s)
  else dr_confirmed (sd_drift s) = false.

Lemma poll_sound h s :
  ready h s → results_ok = true →
  let s' := exec (poll_integrity reply strftime results_ok) s in
  sd_mods s' = sd_mods s ∧ sd_established s' = sd_established s ∧
  (ready h s' ∧ sd_reports s' = sd_reports s ∧ sd_out s' = sd_out s ∨
   ∃ x, ready (sr_nmod (reported x) :: h) s' ∧ sd_reports s' = sd_reports s ++ [reported x] ∧
     sd_out s' = sd_out s ++ messages x ∧ sound (sd_mods s) (sd_established s) h x).
Proof.
  intros Hr Hok s'. assert (sd_established s = true → follows (Z.of_nat (length (sd_mods s))) h (sd_drift s)) as Hf.
  { unfold ready in Hr. by intros He; rewrite He in Hr. }
  destruct (poll_polled h s Hf) as [Hc | (p & delta & new & removed & d & Hn & Ha & Hgood)]; fold s' in Hc || fold s' in Ha.
  - injection Hc as H1 H2 H3 H4 H5 H6 H7. split_and!; [done|done|]. left. unfold ready in *. by rewrite H3, H4, H5.
  - destruct Ha as (r & untracked & inconsistent & rebooted & He & Hnm & Hnew & Hrem & Hcf & Hest & Hmc & Hc).
    cbn [set_drift sd_now sd_file sd_mods sd_established sd_drift sd_out sd_reports] in *. rewrite Hok in Hc.
    injection Hc as H1 H2 H3 H4 H5 H6 H7. split_and!; [done|done|]. right. exists (r, delta, rebooted).
    unfold ready, sound, messages, reported in *. cbn [fst snd]. rewrite H3, H4, H5, Hnm, Hcf, Hest, Hmc, Hnew, Hrem.
    destruct (sd_established s).
    + destruct Hgood as [Hfo Han]. split; [done|]. split; [done|]. split; [by rewrite <-Hcf|].
      split; [by do 2 eexists|]. split_and!; try done. apply Hfo.
    + destruct Hgood as (-> & -> & -> & ->). split; [done|]. split; [done|]. split; [by rewrite <-Hcf|].
      split; [by do 2 eexists|]. by split_and!.
Qed.

Lemma polls_sound times : ∀ h s,
  ready h s → results_ok = true →
  let s' := exec (integrity_polls reply strftime results_ok times) s in
  ∃ xs, sd_mods s' = sd_mods s ∧ sd_established s' = sd_established s ∧
    sd_reports s' = sd_reports s ++ map reported xs ∧ sd_out s' = sd_out s ++ flat_map messages xs ∧
    ∀ i x, xs !! i = Some x → sound (sd_mods s) (sd_established s) (rev (map (sr_nmod ∘ reported) (take i xs)) ++ h) x.
Proof.
  induction times as [|t times IH]; intros h s Hr Hok; cbv zeta.
  - exists []. cbn. rewrite !app_nil_r. by split_and!.
  - unfold integrity_polls in *. cbn [mfor]. rewrite !exec_bind, exec_modify.
    destruct (poll_sound h (set_now t s) Hr Hok) as (Hm & He & Hcase). set (s1 := exec (poll_integrity _ _ _) _) in *.
    cbn [set_now sd_mods sd_established sd_reports sd_out] in *.
    destruct Hcase as [(Hr1 & Hrs & Hos) | (x & Hr1 & Hrs & Hos & Hx)].
    + destruct (IH h s1 Hr1 Hok) as (xs & H1 & H2 & H3 & H4 & H5). exists xs. rewrite H1, H2, H3, H4, Hrs, Hos, Hm, He in *.
      by split_and!.
    + destruct (IH _ s1 Hr1 Hok) as (xs & H1 & H2 & H3 & H4 & H5). exists (x :: xs).
      rewrite H1, H2, H3, H4, Hrs, Hos, Hm, He in *. cbn [map flat_map]. rewrite <-!app_assoc. do 4 (split; [done|]).
      intros [|i] y; cbn [lookup list_lookup]; [intros [= <-]; exact Hx|]. intros Hy%H5. cbn [take map rev].
      by rewrite <-app_assoc.
Qed.

End run.

(** ** The start *)

Section start.
Context (reply : nat → string → option string) (strftime : Z → string) (data_ok : bool).

(** What the start leaves alone. *)
Definition untouched (s : shred) := (sd_drift s, sd_out s, sd_reports s).

Lemma load_untouched : keeps (λ s s', untouched s' = untouched s) load_baseline.
Proof.
  assert (∀ m e, keeps (λ s s', untouched s' = untouched s) (modify (set_mods m e))) by done.
  unfold load_baseline. keeps_tac.
Qed.

Lemma establish_untouched : keeps (λ s s', untouched s' = untouched s) (establish_baseline reply data_ok).
Proof.
  assert (∀ m e, keeps (λ s s', untouched s' = untouched s) (modify (set_mods m e))) by done.
  assert (∀ x, keeps (λ s s', untouched s' = untouched s) (modify (set_file x))) by done.
  assert (∀ cmd n, keeps (λ s s', untouched s' = untouched s) (rish_read reply cmd n)) by done.
  unfold establish_baseline, save_baseline. keeps_tac.
Qed.

(** What a run reports and sends, against what each report should say. *)
Lemma main_sound times now file :
  let s := exec (shred_main reply strftime data_ok true times) (shred_start now file) in
  ∃ xs, sd_reports s = map reported xs ∧ sd_out s = flat_map messages xs ∧
    ∀ i x, xs !! i = Some x →
      sound (sd_mods s) (sd_established s) (rev (map (sr_nmod ∘ reported) (take i xs))) x.
Proof.
  unfold shred_main. cbv zeta. rewrite !exec_bind.
  set (s1 := exec load_baseline _). change (exec (gets sd_established) s1) with s1.
  set (s2 := exec (if result (gets sd_established) s1 then _ else _) s1).
  assert (untouched s2 = (Drift 0 0 false, [], [])) as H.
  { assert (untouched s1 = (Drift 0 0 false, [], [])) as <- by apply load_untouched.
    unfold s2. destruct (result (gets sd_established) s1); [done|apply establish_untouched]. }
  injection H as Hd Ho Hr.
  assert (ready [] s2) as Hready by (unfold ready; rewrite Hd; by destruct (sd_established s2)).
  destruct (polls_sound reply strftime true times [] s2 Hready eq_refl) as (xs & H1 & H2 & H3 & H4 & H5).
  exists xs. rewrite H1, H2, H3, H4, Ho, Hr. split_and!; [done|done|]. intros i x Hx%H5. by rewrite app_nil_r in Hx.
Qed.

(** C22. The drift shredderd reports, over any run: every report compares with the
    same baseline; the drift is confirmed exactly when, since the baseline's number
    of modules was counted last, some other number was counted twice in a row; and
    no module is reported as new or removed before that.  So a module that takes
    the place of another is never reported. *)
Theorem drift_history times now file i r :
  let s := exec (shred_main reply strftime data_ok true times) (shred_start now file) in
  let base := Z.of_nat (length (sd_mods s)) in
  let counts := rev (map sr_nmod (take (S i) (sd_reports s))) in
  sd_reports s !! i = Some r →
  sr_established r = sd_established s ∧ sr_mod_count r = base ∧ 0 < sr_nmod r ∧
  sr_confirmed r = sd_established s && confirmed base counts ∧
  (sd_established s = false ∨ streak base counts < 2 → sr_new_mods r = "" ∧ sr_removed_mods r = "").
Proof.
  intros s base counts Hi. destruct (main_sound times now file) as (xs & Hrs & _ & Hall). fold s in Hrs, Hall.
  rewrite Hrs in Hi. rewrite list_lookup_fmap in Hi. destruct (xs !! i) as [x|] eqn:Hx; [|done].
  injection Hi as <-. specialize (Hall i x Hx) as (_ & He & Hm & Hn & Hgood). fold base in Hm, Hgood.
  assert (counts = sr_nmod (reported x) :: rev (map (sr_nmod ∘ reported) (take i xs))) as ->.
  { unfold counts. rewrite Hrs. change (map reported xs) with (reported <$> xs). rewrite <-fmap_take.
    erewrite take_S_r by done. rewrite fmap_app, map_app, rev_app_distr. cbn [map fmap list_fmap rev app]. by rewrite map_map. }
  split_and!; [done|done|done|..]; destruct (sd_established s).
  - apply Hgood.
  - by destruct Hgood.
  - destruct Hgood as [_ [[_ H]|(_ & -> & ->)]]; [|done]. intros [|Hlt]; [done|lia].
  - by destruct Hgood as (_ & _ & -> & ->).
Qed.

End start.

(** ** A phone that loads a third module *)

Definition lines_of (l : list string) : string := scat (map (λ x, x +:+ NLs) l).

(** Two modules at first, and from the second poll on three. *)
Definition third_module (k : nat) (cmd : string) : option string :=
  let n := if (k <=? 2)%nat then 2 else 3 in
  if String.eqb cmd cmd_modules then Some (lines_of ["==MODCOUNT=="; fmt_d n])
  else if has_prefix "cat /proc/modules" cmd then
    Some (lines_of (["wlan"; "touch"] ++ if (k <=? 2)%nat then [] else ["rootkit"]))
  else Some "".

Definition third_run : shred :=
  exec (shred_main third_module (λ _, "t") true true [30; 60; 90]) (shred_start 0 None).

Lemma third_run_run :
  exec (shred_main third_module (λ _, "t") true true [30; 60; 90]) (shred_start 0 None) = third_run.
Proof. unfold third_run. exact eq_refl. Qed.

(** The second report only counts it; the third one names it. *)
Lemma drift_history_witness :
  match sd_reports third_run !! 1%nat, sd_reports third_run !! 2%nat with
  | Some r1, Some r2 =>
      sr_confirmed r1 = false ∧ sr_new_mods r1 = "" ∧
      sr_confirmed r2 = true ∧ sr_new_mods r2 = drift_entry "rootkit" "detected_at" 90
  | _, _ => False
  end.
Proof.
  pose proof (drift_history third_module (λ _, "t") true [30; 60; 90] 0 None) as H. cbv zeta in H. rewrite third_run_run in H.
  destruct (sd_reports third_run !! 1%nat) as [r1|] eqn:H1; [|vm_compute in H1; discriminate].
  destruct (sd_reports third_run !! 2%nat) as [r2|] eqn:H2; [|vm_compute in H2; discriminate].
  destruct (H _ _ H1) as (_ & _ & _ & C1 & N1), (H _ _ H2) as (_ & _ & _ & C2 & _).
  split_and!; [rewrite C1; vm_compute; reflexivity|apply N1; right; vm_compute; reflexivity|rewrite C2; vm_compute; reflexivity|].
  apply (f_equal (λ o, match o with Some r => sr_new_mods r | None => "" end)) in H2. cbv beta iota in H2. rewrite <-H2.
  vm_compute. reflexivity.
Defined.

(** ** shredderd's score, its messages and its cache

    The reasons of a report add up to its score; a module that takes the place of
    another is never announced; and a kernel configuration that could not be read
    costs thirty points in every later poll. *)

(** ** Reasons *)

(** The reasons of a list that apply. *)
Definition given (l : deductions) : list (string * Z) :=
  omap (λ '(b, reason, points), if b : bool then Some (reason, points) else None) l.

Definition total (l : list (string * Z)) : Z := foldr (λ x acc, x.2 + acc) 0 l.

Lemma deduct_total l : ∀ score, deduct l score = score - total (given l).
Proof.
  unfold deduct. induction l as [|[[b reason] points] l IH]; intros score; cbn [foldl]; [cbn; lia|]. rewrite IH.
  unfold given. cbn [omap list_omap]. destruct b; cbn [total foldr snd]; unfold given, total; cbn; lia.
Qed.

Definition fits (x : bool * string * Z) : bool := (String.length (reason_entry x.1.2 x.2) <=? 120)%nat.

Lemma reasons_all l : ∀ buf,
  forallb fits l = true → (String.length buf + 120 * length l < 3071)%nat →
  reasons l buf = buf +:+ scat (map (λ x, reason_entry x.1 x.2) (given l)).
Proof.
  unfold reasons. induction l as [|[[b reason] points] l IH]; intros buf Hl Hb; [by rewrite app_nil_r_str|].
  cbn [forallb] in Hl. apply andb_prop in Hl as [Hx Hl]. unfold fits in Hx. cbn [fst snd] in Hx. apply Nat.leb_le in Hx.
  cbn [foldl length] in *. unfold given. cbn [omap list_omap]. destruct b; [|apply IH; [done|lia]].
  unfold add_reason, append_entry. rewrite (proj2 (Nat.ltb_lt _ _)) by lia.
  rewrite IH by (done || (rewrite length_app_str; lia)). cbn [map scat fst snd]. by rewrite app_assoc_str.
Qed.

Lemma early_fits vb susp dfs se : forallb fits (early vb susp dfs se) = true.
Proof. reflexivity. Qed.

Lemma late_fits n b1 b2 c : forallb fits (late n b1 b2 c) = true.
Proof. reflexivity. Qed.

Lemma total_nonneg l : forallb (λ x, 0 <=? x.2) l = true → 0 <= total (given l).
Proof.
  induction l as [|[[b reason] points] l IH]; [done|]. cbn [forallb snd]. intros [Hp%Z.leb_le Hl]%andb_prop.
  apply IH in Hl. unfold given. cbn [omap list_omap]. destruct b; cbn [total foldr snd]; unfold total, given in *; cbn in *; lia.
Qed.

Lemma given_app l1 l2 : given (l1 ++ l2) = given l1 ++ given l2.
Proof. apply omap_app. Qed.

Lemma total_app l1 l2 : total (l1 ++ l2) = total l1 + total l2.
Proof. induction l1 as [|x l1 IH]; [done|]. cbn [app total foldr]. unfold total in *. rewrite IH. lia. Qed.

(** A correlation is either none, with the full score, or comes with a text. *)
Lemma correlate_cases m k d c delta n se :
  let x := correlate_threats m k d c delta n se in
  (x = (100, "") ∨ x.2 ≠ "") ∧ 0 <= x.1 <= 100.
Proof.
  unfold correlate_threats, correlation. cbv zeta.
  repeat (split_match; [|]); cbn [fst snd]; (split; [|lia]); try (by left); right; change (0 <? _) with true; cbv iota; intros H;
    apply (f_equal (String.length)) in H; revert H; vm_compute; discriminate.
Qed.

(** The first rule that applies decides: on a phone that does not enforce SELinux
    a confirmed new module scores better than none. *)
Lemma confirmed_module_scores_better debugfs delta root_procs selinux :
  enforcing selinux = false → 0 < delta →
  (correlate_threats false false debugfs false delta root_procs selinux).1 <= 40 ∧
  (correlate_threats false false debugfs true delta root_procs selinux).1 = 60.
Proof.
  intros He Hd%Z.ltb_lt. unfold correlate_threats, correlation. rewrite He, Hd. cbn [andb negb].
  split; [|reflexivity]. by destruct (debugfs && (5 <? root_procs)).
Qed.

(** The reasons of a report with the points that they cost. *)
Definition accounted (r : shredder_report) : Prop :=
  ∃ l1 l2 : list (string * Z),
    sr_reasons r = scat (map (λ x, reason_entry x.1 x.2) (l1 ++ l2)) ∧ 0 <= total l1 ∧ 0 <= total l2 ∧
    0 <= sr_score r <= 100 ∧ sr_score r <= Z.max 0 (100 - total (l1 ++ l2)) ∧
    (sr_threat r = "" → sr_score r = Z.max 0 (100 - total (l1 ++ l2))).

Lemma explained_accounted r delta untracked inconsistent rebooted :
  explained r delta untracked inconsistent rebooted → accounted r.
Proof.
  intros (Hs & Ht & Hr). set (before := early _ _ _ _) in *. set (after := late _ _ _ _) in *.
  exists (given before), (given after).
  assert (0 <= total (given before)) as Hb by by apply total_nonneg.
  assert (0 <= total (given after)) as Ha by by apply total_nonneg.
  assert (length before = 4%nat ∧ length after = 10%nat) as [Hlb Hla] by done.
  destruct (correlate_cases (sr_magisk r) (sr_kernelsu r) (sr_debugfs r) (sr_confirmed r) delta (sr_root_procs r) (sr_selinux r))
    as [Hcase Hrange].
  set (corr := correlate_threats _ _ _ _ _ _ _) in *. rewrite !deduct_total in Hs. rewrite total_app.
  split_and!; try lia.
  - rewrite Hr. unfold reasons at 1 2. rewrite <-foldl_app. fold (reasons (before ++ after) "").
    rewrite (reasons_all (before ++ after)).
    + by rewrite given_app.
    + rewrite forallb_app. unfold before, after. by rewrite early_fits, late_fits.
    + rewrite length_app, Hlb, Hla. cbn. lia.
  - intros H. destruct Hcase as [Hcase|Hcase]; [|congruence]. rewrite Hcase in Hs. cbn [fst] in Hs. lia.
Qed.

Section run.
Context (reply : nat → string → option string) (strftime : Z → string) (data_ok : bool).

(** shredderd's scores, over any run: every score is in [0, 100]; the reasons
    of a report are written out in full; and where no rule of the correlation
    applies, the score is exactly 100 less their points, but not less than 0. *)
Theorem scores_accounted times now file :
  Forall accounted (sd_reports (exec (shred_main reply strftime data_ok true times) (shred_start now file))).
Proof.
  destruct (main_sound reply strftime data_ok times now file) as (xs & Hrs & _ & Hall). rewrite Hrs.
  apply Forall_map, Forall_lookup. intros i x Hx. destruct (Hall i x Hx) as ((untracked & inconsistent & He) & _).
  by eapply explained_accounted.
Qed.

(** A module that takes the place of another is never announced: as long as
    the number of modules does not exceed that of the baseline, no run sends
    [NEW_KERNEL_MODULE], whichever modules are loaded. *)
Theorem replaced_modules_unannounced times now file w ctx :
  let s := exec (shred_main reply strftime data_ok true times) (shred_start now file) in
  Forall (λ r, sr_nmod r <= sr_mod_count r) (sd_reports s) →
  ToGaveld "NEW_KERNEL_MODULE" w ctx ∉ sd_out s.
Proof.
  intros s Hfew Hin. destruct (main_sound reply strftime data_ok times now file) as (xs & Hrs & Hos & Hall). fold s in Hrs, Hos, Hall.
  rewrite Hos, list_elem_of_In, in_flat_map in Hin. destruct Hin as (x & Hx%list_elem_of_In & Hin%list_elem_of_In).
  rewrite Hrs, Forall_map, Forall_forall in Hfew. specialize (Hfew x Hx). unfold compose in Hfew.
  apply list_elem_of_lookup in Hx as [i Hx]. destruct (Hall i x Hx) as (_ & _ & Hm & _ & Hgood).
  assert (x.1.2 <= 0) as Hd.
  { destruct (sd_established s); [|lia]. destruct Hgood as [_ [[H _]|[H _]]]; lia. }
  unfold messages, reboot_out, raise_out in Hin. rewrite (proj2 (Z.ltb_ge 0 x.1.2)), andb_false_r, orb_false_r in Hin by done.
  destruct x.2, (sr_score x.1.1 <? 50); cbn [app] in Hin; rewrite ?elem_of_cons, ?elem_of_nil in Hin;
    repeat destruct Hin as [Hin|Hin]; done.
Qed.

(** ** The configuration that was not read *)

(** What is made of an empty answer. *)
Definition unread (mte : bool) : string := config_json "" mte.

Lemma unread_costs mte n b1 b2 : 30 <= total (given (late n b1 b2 (unread mte))).
Proof.
  change (late n b1 b2 (unread mte)) with (take 3 (late n b1 b2 "") ++ drop 3 (late 0 false false (unread mte))).
  rewrite given_app, total_app.
  assert (0 <= total (given (take 3 (late n b1 b2 "")))) by by apply total_nonneg.
  assert (total (given (drop 3 (late 0 false false (unread mte)))) = 30) by (destruct mte; vm_compute; reflexivity). lia.
Qed.

(** The configuration stays, and nothing is reported. *)
Definition stays (s s' : shred) : Prop :=
  (∀ c, sd_config s = Some c → sd_config s' = Some c) ∧ sd_reports s' = sd_reports s.

Instance stays_preorder : PreOrder stays.
Proof.
  split; [by intros s|]. intros s1 s2 s3 [H1 E1] [H2 E2]. split; [auto|congruence].
Qed.

Lemma stays_bexec cmd : keeps stays (bexec reply cmd).
Proof. by intros s. Qed.

Lemma stays_modify f : (∀ s, stays s (f s)) → keeps stays (modify f).
Proof. intros Hf s. apply Hf. Qed.

Lemma stays_config : keeps stays (check_kernel_config reply).
Proof.
  intros s. unfold check_kernel_config. autorewrite with monad. destruct (sd_config s) as [c|] eqn:Hc; [by autorewrite with monad|].
  autorewrite with monad. split; [by rewrite Hc|done].
Qed.

Hint Resolve stays_bexec stays_config : mp.
Hint Extern 1 (keeps stays (modify _)) => apply stays_modify; by intros [] : mp.

Lemma stays_chunks l : ∀ buf, keeps stays (append_chunks reply l buf).
Proof. induction l as [|c l IH]; intros buf; cbn [append_chunks]; unfold append_probe_chunk; keeps_tac; apply IH. Qed.

Hint Resolve stays_chunks : mp.

(** The configuration is [c], and the reports so far are [R]. *)
Definition stuck (c : string) (R : list shredder_report) (s : shred) : Prop := sd_config s = Some c ∧ sd_reports s = R.

Lemma keeps_stuck {A} (k : M shred A) c R : keeps stays k → preserves (stuck c R) k.
Proof. intros Hk s [Hc HR]. destruct (Hk s) as [H1 H2]. split; [by apply H1|congruence]. Qed.

Ltac stuck_tac := apply triple_skip; [apply keeps_stuck; walk_tac|].

Lemma assess_capped mte R p delta new removed :
  triple (stuck (unread mte) R) (assess reply strftime true p delta new removed)
    (λ _ s', sd_config s' = Some (unread mte) ∧ ∃ r, sd_reports s' = R ++ [r] ∧ sr_score r <= 70).
Proof.
  unfold assess. cbv zeta. stuck_tac; intros dmesg. stuck_tac; intros fs. stuck_tac; intros conf.
  destruct (correlate_threats _ _ _ _ _ _ _) as [corr threat] eqn:Hcorr.
  stuck_tac; intros [surface untracked]. stuck_tac; intros hardening. stuck_tac; intros build.
  stuck_tac; intros [integrity inconsistent].
  apply (triple_step _ (λ c, c = unread mte)); [apply keeps_stuck; auto with mp| |intros ? ->].
  { intros s [Hc _]. unfold check_kernel_config. autorewrite with monad. by rewrite Hc. }
  stuck_tac; intros vm. stuck_tac; intros load. stuck_tac; intros nmi. stuck_tac; intros rebooted.
  stuck_tac; intros _. stuck_tac; intros adb. stuck_tac; intros _.
  intros s' [Hc HR]. autorewrite with monad. split; [exact Hc|]. eexists. split; [cbn [add_report sd_reports]; by rewrite HR|].
  cbn [sr_score]. rewrite !deduct_total. set (before := early _ _ _ _).
  pose proof (unread_costs mte untracked inconsistent rebooted).
  assert (0 <= total (given before)) by by apply total_nonneg. lia.
Qed.

Lemma poll_capped mte R :
  triple (stuck (unread mte) R) (poll_integrity reply strftime true)
    (λ _ s', sd_config s' = Some (unread mte) ∧ ∃ rs, sd_reports s' = R ++ rs ∧ Forall (λ r, sr_score r <= 70) rs).
Proof.
  unfold poll_integrity. do 7 (stuck_tac; intros ?). cbv zeta.
  destruct (_ <=? 0).
  - intros s [Hc HR]. split; [done|]. exists []. by rewrite app_nil_r.
  - do 5 (stuck_tac; intros ?).
    apply triple_skip; [apply keeps_stuck; destruct (_ : bool); walk_tac|intros [[delta new] removed]].
    intros s Hs. match goal with |- context [assess _ _ _ ?p _ _ _] =>
      destruct (assess_capped mte R p delta new removed s Hs) as (Hc & r & Hr & Hle) end.
    split; [exact Hc|]. exists [r]. split; [exact Hr|by constructor].
Qed.

(** A kernel configuration that could not be read costs thirty points for
    ever: what [check_kernel_config] makes of a failed command is kept like an
    answer, and no report after it has a score above 70. *)
Theorem failed_config_sticks times s :
  sd_config s = None → reply (sd_asked s) CONFIG_CMD = None →
  let s1 := exec (check_kernel_config reply) s in
  let s2 := exec (integrity_polls reply strftime true times) s1 in
  ∃ rs, sd_reports s2 = sd_reports s ++ rs ∧ Forall (λ r, sr_score r <= 70) rs.
Proof.
  intros Hc Hr s1. assert (∃ mte, stuck (unread mte) (sd_reports s) s1) as [mte Hs1].
  { unfold s1, check_kernel_config. autorewrite with monad. rewrite Hc. autorewrite with monad. cbv zeta. autorewrite with monad.
    unfold rish_read at 1. autorewrite with monad. change (result (bexec reply CONFIG_CMD) s) with (reply (sd_asked s) CONFIG_CMD).
    rewrite Hr. match goal with |- context [config_json "" ?m] => exists m; unfold unread; generalize (config_json "" m) end.
    intros j. by split. }
  clearbody s1. revert s1 Hs1. generalize (sd_reports s). induction times as [|t times IH]; intros R s1 Hs1; cbv zeta.
  - exists []. rewrite app_nil_r. split; [apply Hs1|constructor].
  - unfold integrity_polls in *. cbn [mfor]. rewrite !exec_bind, exec_modify.
    destruct (poll_capped mte R (set_now t s1) Hs1) as (Hc' & rs & Hrs & Hle).
    destruct (IH (R ++ rs) _ (conj Hc' Hrs)) as (rs' & Hrs' & Hle').
    exists (rs ++ rs'). rewrite app_assoc. split; [exact Hrs'|by apply Forall_app].
Qed.

End run.

(** ** Runs *)

(** [touch] is replaced by [rootkit] after the start. *)
Definition replaced (k : nat) (cmd : string) : option string :=
  if String.eqb cmd cmd_modules then Some (lines_of ["==MODCOUNT=="; "2"])
  else if has_prefix "cat /proc/modules" cmd then Some (lines_of ["wlan"; if (k <=? 2)%nat then "touch" else "rootkit"])
  else Some "".

Lemma replaced_modules_unannounced_witness :
  let s := exec (shred_main replaced (λ _, "t") true true [30; 60; 90]) (shred_start 0 None) in
  length (sd_reports s) = 3%nat ∧ ∀ w ctx, ToGaveld "NEW_KERNEL_MODULE" w ctx ∉ sd_out s.
Proof.
  split; [vm_compute; reflexivity|]. intros w ctx.
  apply (replaced_modules_unannounced replaced (λ _, "t") true [30; 60; 90] 0 None w ctx).
  match goal with |- Forall _ ?l =>
    assert (forallb (λ r, sr_nmod r <=? sr_mod_count r) l = true) as H by (vm_compute; reflexivity) end.
  rewrite forallb_forall in H. apply Forall_forall. intros r Hr%list_elem_of_In. by apply Z.leb_le, H.
Defined.

(** The first command for the configuration fails, the others succeed. *)
Definition fails_once (k : nat) (cmd : string) : option string :=
  if (k =? 0)%nat then None
  else if String.eqb cmd CONFIG_CMD then Some (lines_of ["CONFIG_LOCK_DOWN_KERNEL=y"; "CONFIG_MODULE_SIG_FORCE=y"])
  else if String.eqb cmd cmd_modules then Some (lines_of ["==MODCOUNT=="; "2"])
  else Some "".

Lemma failed_config_sticks_witness :
  let s1 := exec (check_kernel_config fails_once) (shred_start 0 None) in
  let s2 := exec (integrity_polls fails_once (λ _, "t") true [30; 60]) s1 in
  ∃ rs, sd_reports s2 = [] ++ rs ∧ Forall (λ r, sr_score r <= 70) rs.
Proof. exact (failed_config_sticks fails_once (λ _, "t") [30; 60] (shred_start 0 None) eq_refl eq_refl). Defined.
