(* ===== verification/Restart.v ===== *)
(** * shredderd's baseline over a restart

    What shredderd writes into its baseline file it reads back exactly, so a later
    process goes on with the same modules. *)

From S2P Require Import Prelude CString Double Wire Krang Digits Attribution Lengths Conv Nulld Shred Drift.
From Stdlib Require Import Ascii.

(** ** A line *)

(** What a line of the file can hold. *)
Definition mod_ok (m : mod_baseline_t) : Prop :=
  none_of is_space (mb_name m) = true ∧ mb_name m ≠ "" ∧ (String.length (mb_name m) ≤ 63)%nat ∧
  mb_hash_sha256 m = "UNKNOWN" ∧ mb_size m = 0 ∧ mb_path m = "UNKNOWN" ∧ 0 <= mb_first_seen m < 2 ^ 62.

Definition line_text (m : mod_baseline_t) : string :=
  scat [mb_name m; " "; mb_hash_sha256 m; " "; fmt_d (mb_size m); " "; mb_path m; " "; fmt_d (mb_first_seen m)].

Lemma text_line m : baseline_text m = line_text m +:+ NLs.
Proof. unfold baseline_text, line_text. cbn [scat]. by rewrite !app_assoc_str, !app_nil_r_str. Qed.

(** A word, at the beginning or after a blank, and a number after a blank. *)
Lemma scan_word n tok r :
  tok ≠ "" → (String.length tok ≤ n)%nat → none_of is_space tok = true →
  scan_s n (tok +:+ " " +:+ r) = Some (tok, " " +:+ r).
Proof. intros Hne Hlen Htok. exact (scan_s_token n tok r Hne Hlen Htok). Qed.

Lemma scan_next n tok r :
  tok ≠ "" → (String.length tok ≤ n)%nat → none_of is_space tok = true →
  scan_s n (" " +:+ tok +:+ " " +:+ r) = Some (tok, " " +:+ r).
Proof. intros Hne Hlen Htok. exact (scan_s_token n tok r Hne Hlen Htok). Qed.

Lemma scan_number z r : 0 <= z → stops 10 r → scan_int 10 (" " +:+ fmt_d z +:+ r) = Some (z, r).
Proof. intros Hz Hr. exact (scan_decimal 1 z r Hz Hr). Qed.

Lemma baseline_line_read m : mod_ok m → baseline_line (baseline_text m) = Some m.
Proof.
  destruct m as [name hash size path ts]. intros (Hsp & Hne & Hlen & Hh & Hs & Hp & Hts).
  cbn [mb_name mb_hash_sha256 mb_size mb_path mb_first_seen] in *. subst.
  unfold baseline_line, baseline_text. cbn [mb_name mb_hash_sha256 mb_size mb_path mb_first_seen scat].
  rewrite app_nil_r_str, scan_word by done. cbn [mbind option_bind].
  rewrite scan_next by (done || (cbn; lia)). cbn [mbind option_bind].
  unfold scan_lu. rewrite scan_number by done. cbn [mbind option_bind]. change (Z.abs 0 <? 2 ^ 64) with true. cbv iota.
  rewrite scan_next by (done || (cbn; lia)). cbn [mbind option_bind].
  unfold scan_ld. rewrite scan_number by (lia || done). cbn [mbind option_bind].
  rewrite Z.min_r, Z.max_r by (unfold LONG_MAX, LONG_MIN; lia). done.
Qed.

(** ** The file *)

Lemma space_newline s : none_of is_space s = true → none_of (char_in NLs) s = true.
Proof.
  apply none_of_weaken. intros c. destruct c as [[] [] [] [] [] [] [] []]; vm_compute; congruence.
Qed.

Lemma fmt_d_lines z : none_of (char_in NLs) (fmt_d z) = true.
Proof.
  apply (numeric_none _ _) with (2 := fmt_d_numeric z).
  intros c. destruct c as [[] [] [] [] [] [] [] []]; vm_compute; congruence.
Qed.

Lemma line_text_shape m :
  mod_ok m → none_of (char_in NLs) (line_text m) = true ∧ (String.length (line_text m) + 1 < 512)%nat.
Proof.
  destruct m as [name hash size path ts]. intros (Hsp & Hne & Hlen & Hh & Hs & Hp & Hts).
  cbn [mb_name mb_hash_sha256 mb_size mb_path mb_first_seen] in *. subst.
  unfold line_text. cbn [mb_name mb_hash_sha256 mb_size mb_path mb_first_seen scat]. split.
  - rewrite !none_of_app, (space_newline name Hsp), !fmt_d_lines. done.
  - rewrite !length_app_str. pose proof (length_fmt_d ts 19 ltac:(lia) ltac:(lia)). cbn [String.length fmt_d] in *.
    change (String.length (fmt_d 0)) with 1%nat. lia.
Qed.

(** The baseline file is read back exactly: the modules that are written are
    those that are read, in order, as long as they fit into the array. *)
Lemma baseline_file_read mods :
  Forall mod_ok mods → (length mods ≤ MAX_MODULES)%nat → read_mods (scat (map baseline_text mods)) = mods.
Proof.
  intros Hok Hlen. unfold read_mods. transitivity (take MAX_MODULES mods); [|by apply take_ge]. f_equal. clear Hlen.
  induction Hok as [|m mods Hm _ IH]; [done|]. cbn [map scat]. rewrite text_line, app_assoc_str.
  destruct (line_text_shape m Hm) as [Hl Hs]. rewrite read_lines_cons by done. cbn [omap list_omap].
  rewrite <-text_line, baseline_line_read by done. by f_equal.
Qed.

(** ** A later process *)

Section restart.
Context (reply : nat → string → option string) (strftime : Z → string) (data_ok : bool).

(** A poll keeps the modules and the file. *)
Definition base_of (s : shred) := (sd_mods s, sd_established s, sd_file s).
Abbreviation same_base := (λ s s', base_of s' = base_of s).

Lemma base_bexec cmd : keeps same_base (bexec reply cmd).
Proof. by intros s. Qed.

Lemma base_modify f : (∀ s, base_of (f s) = base_of s) → keeps same_base (modify f).
Proof. intros Hf s. apply Hf. Qed.

Hint Resolve base_bexec : mp.
Hint Extern 1 (keeps _ (modify _)) => apply base_modify; by intros [] : mp.

Lemma base_chunks l : ∀ buf, keeps same_base (append_chunks reply l buf).
Proof. induction l as [|c l IH]; intros buf; cbn [append_chunks]; unfold append_probe_chunk; keeps_tac; apply IH. Qed.

Hint Resolve base_chunks : mp.

Lemma base_poll results_ok : keeps same_base (poll_integrity reply strftime results_ok).
Proof. unfold poll_integrity, assess, check_kernel_config. walk_tac. Qed.

Lemma base_polls results_ok times : keeps same_base (integrity_polls reply strftime results_ok times).
Proof. unfold integrity_polls. keeps_tac. apply base_poll. Qed.

(** The names of the list are words. *)
Lemma module_ok now line m : 0 <= now < 2 ^ 62 → module_of now line = Some m → mod_ok m.
Proof.
  unfold module_of. intros Hnow. destruct (scan_s 63 line) as [[name r]|] eqn:Hs; [|done]. cbn [mbind option_bind].
  destruct (longer 1 name) eqn:Hl; [|done]. intros H%(inj Some). subst m.
  unfold scan_s in Hs. destruct (String.eqb _ _) eqn:He; [done|]. 
  set (tok := stake 63 _) in *. assert (String.length tok ≤ 63)%nat as Hlen by (unfold tok; rewrite length_stake; lia).
  assert (none_of is_space tok = true) as Htok by apply none_of_stake, break_at_prefix.
  clearbody tok. injection Hs as <- _.
  rewrite (strncpy_id 64 tok) by lia. unfold mod_ok. cbn [mb_name mb_hash_sha256 mb_size mb_path mb_first_seen]. split_and!; done || lia || idtac.
  by apply String.eqb_neq in He.
Qed.

(** What an established baseline is in the file. *)
Lemma establish_file s :
  data_ok = true → 0 <= sd_now s < 2 ^ 62 → sd_established s = false →
  let s' := exec (establish_baseline reply data_ok) s in
  sd_established s' = true →
  sd_file s' = Some (scat (map baseline_text (sd_mods s'))) ∧ Forall mod_ok (sd_mods s') ∧ (length (sd_mods s') ≤ MAX_MODULES)%nat.
Proof.
  intros -> Hnow He. unfold establish_baseline. autorewrite with monad.
  rewrite He. destruct (longer 0 _); autorewrite with monad; [|done]. intros _. unfold save_baseline. autorewrite with monad.
  cbn [set_file set_mods sd_file sd_mods]. split; [done|]. split; [|rewrite length_take; lia].
  apply Forall_take, Forall_forall. intros m (line & _ & Hm)%list_elem_of_omap. eapply module_ok; [|exact Hm]. exact Hnow.
Qed.

End restart.

(** The baseline of shredderd survives a restart: a process that starts with
    the file that an earlier one wrote, when it could list the modules, goes on
    with exactly its modules, whatever the shell answers it. *)
Theorem baseline_survives_restart reply strftime results_ok times now reply' strftime' data_ok' results_ok' times' now' :
  let before := exec (shred_main reply strftime true results_ok times) (shred_start now None) in
  let after := exec (shred_main reply' strftime' data_ok' results_ok' times') (shred_start now' (sd_file before)) in
  0 <= now < 2 ^ 62 → sd_established before = true → sd_mods before ≠ [] →
  sd_mods after = sd_mods before ∧ sd_established after = true.
Proof.
  intros before after Hnow He Hne.
  assert (sd_file before = Some (scat (map baseline_text (sd_mods before))) ∧ Forall mod_ok (sd_mods before) ∧
    (length (sd_mods before) ≤ MAX_MODULES)%nat) as (Hf & Hok & Hlen).
  { revert He. unfold before, shred_main. rewrite !exec_bind.
    change (exec load_baseline (shred_start now None)) with (shred_start now None).
    change (result (gets sd_established) (shred_start now None)) with false. cbv iota.
    change (exec (gets sd_established) ?x) with x. set (s1 := exec (establish_baseline _ _) _).
    pose proof (base_polls reply strftime results_ok times s1) as Hb. injection Hb as -> -> ->. by apply establish_file. }
  unfold after, shred_main. rewrite !exec_bind. set (s0 := shred_start now' (sd_file before)).
  assert (exec load_baseline s0 = set_mods (sd_mods before) true s0) as ->.
  { unfold load_baseline. autorewrite with monad. change (sd_file s0) with (sd_file before). rewrite Hf. autorewrite with monad.
    rewrite baseline_file_read by done. by destruct (sd_mods before). }
  change (result (gets sd_established) _) with true. cbv iota. rewrite exec_mret.
  change (exec (gets sd_established) ?x) with x.
  pose proof (base_polls reply' strftime' results_ok' times' (set_mods (sd_mods before) true s0)) as Hb.
  by injection Hb as -> -> _.
Qed.

(** ** A run *)

(** The process that learnt two modules is restarted when there are three. *)
Lemma baseline_survives_restart_witness :
  let after := exec (shred_main third_module (λ _, "t") true true [120; 150])
                 (shred_start 100 (sd_file third_run)) in
  sd_mods after = sd_mods third_run ∧ sd_established after = true.
Proof.
  pose proof (baseline_survives_restart third_module (λ _, "t") true [30; 60; 90] 0
                third_module (λ _, "t") true true [120; 150] 100) as H.
  cbv zeta in H. rewrite third_run_run in H. apply H.
  - lia.
  - vm_compute. reflexivity.
  - intros Hm. apply (f_equal length) in Hm. vm_compute in Hm. discriminate.
Defined.
