(* ===== verification/Float.v ===== *)
(** * Binary32 numbers

    [float] of the C code: the operations of [SpecFloat] at 24 bits of precision,
    the conversions from [long] and to [double], and [strtof].  Integers below
    [2^24] are exact, and so is their order. *)

From S2P Require Import Prelude CString Double.
From Stdlib Require Import Ascii.

Abbreviation float := spec_float (only parsing).

Definition fprec : Z := 24.
Definition femax : Z := 128.

Definition fsub : float → float → float := SFsub fprec femax.
Definition fmul : float → float → float := SFmul fprec femax.
Definition fdiv : float → float → float := SFdiv fprec femax.
Definition flt : float → float → bool := SFltb.
Definition fle : float → float → bool := SFleb.

Declare Scope float_scope.
Delimit Scope float_scope with F.
Infix "-" := fsub : float_scope.
Infix "*" := fmul : float_scope.
Infix "/" := fdiv : float_scope.
Infix "<?" := flt : float_scope.
Infix "<=?" := fle : float_scope.

(** [(float)z]. *)
Definition f_of_Z (z : Z) : float := binary_normalize fprec femax z 0 false.

(** The conversion to [double], which is exact. *)
Definition d_of_f (f : float) : double :=
  match f with
  | S754_finite s m e => binary_normalize dprec demax (cond_Zopp s (Zpos m)) e s
  | _ => f
  end.

(** ** [strtof] *)

(** [m * 10^k], correctly rounded. *)
Definition fscale10 (m k : Z) : float :=
  match m with
  | Zpos p =>
      if 0 <=? k then binary_normalize fprec femax (m * 10 ^ k) 0 false
      else fdiv (S754_finite false p 0) (S754_finite false (Z.to_pos (10 ^ (- k))) 0)
  | _ => S754_zero false
  end.

Definition strtof_dec (s : string) : option float :=
  let '(m, nfrac, n, r) := read_mantissa 10 s in
  if Nat.eqb n 0 then None
  else let '(e, _) := read_exponent "e" "E" r in Some (fscale10 m (e - Z.of_nat nfrac)).

Definition strtof_hex (s : string) : option float :=
  let '(m, nfrac, n, r) := read_mantissa 16 s in
  if Nat.eqb n 0 then None
  else let '(e, _) := read_exponent "p" "P" r in
       Some (binary_normalize fprec femax m (e - 4 * Z.of_nat nfrac) false).

Definition strtof_unsigned (s : string) : option float :=
  if has_prefix_ci "inf" s then Some (S754_infinity false)
  else if has_prefix_ci "nan" s then Some S754_nan
  else if has_prefix_ci "0x" s then
    match strtof_hex (sdrop 2 s) with Some f => Some f | None => strtof_dec s end
  else strtof_dec s.

(** [strtof(s, NULL)]. *)
Definition strtof (s : string) : float :=
  let '(neg, s') := read_sign (skip_while is_space s) in
  match strtof_unsigned s' with
  | Some f => if neg then SFopp f else f
  | None => S754_zero false
  end.

(** ** Exact results

    A normal number: 24 bits, [q * 2^e]. *)
Definition normal (q e : Z) : Prop := 2 ^ 23 <= q < 2 ^ 24 ∧ -149 <= e <= 104.

Lemma normal_digits p e : normal (Zpos p) e → Zpos (digits2_pos p) = 24.
Proof. intros [H _]. apply digits2_unique; lia. Qed.

(** What is representable is not rounded. *)
Lemma bra_exact s q e n :
  normal (Zpos q) (e + n) → 0 <= n →
  binary_round_aux fprec femax s (Zpos q * 2 ^ n) e loc_Exact = S754_finite s q (e + n).
Proof.
  intros Hq Hn. pose proof (normal_digits q _ Hq) as Hd. destruct Hq as [Hq He].
  assert (Zdigits2 (Zpos q * 2 ^ n) = 24 + n) as Hdig.
  { destruct (Zpos q * 2 ^ n) as [|p|p] eqn:Hp; [nia| |nia]. cbn [Zdigits2]. apply digits2_unique; [lia|].
    rewrite <-Hp. replace (24 + n - 1) with (23 + n) by lia. rewrite !Z.pow_add_r by lia.
    assert (0 < 2 ^ n) by lia. nia. }
  unfold binary_round_aux.
  assert (shr_fexp fprec femax (Zpos q * 2 ^ n) e loc_Exact =
    ((shr (Build_shr_record (Zpos q * 2 ^ n) false false) 0 n).1, e + n)) as ->.
  { unfold shr_fexp. cbn [shr_record_of_loc]. rewrite Hdig.
    replace (fexp fprec femax (24 + n + e) - e) with n by (unfold fexp, fprec, femax, emin; lia).
    unfold shr. destruct n; cbn [fst]; f_equal; lia. }
  destruct (shr_spec (Zpos q * 2 ^ n) n) as (Hm & Hloc & _); [nia|lia|].
  set (mrs := (shr _ 0 n).1) in *. rewrite Z.div_mul in Hm by lia.
  destruct (round_even_spec mrs) as [_ Hex]. rewrite Hex, Hm by (apply Hloc, Z.mod_mul; lia).
  unfold shr_fexp. cbn [Zdigits2 shr_record_of_loc]. rewrite Hd.
  replace (fexp fprec femax (24 + (e + n)) - (e + n)) with 0 by (unfold fexp, fprec, femax, emin; lia).
  cbn [shr shr_m]. by rewrite (proj2 (Z.leb_le _ _)) by (unfold fprec, femax; lia).
Qed.

(** A positive integer of [d] bits as a normal number. *)
Lemma f_of_small p :
  Zpos p < 2 ^ 24 →
  let k := 24 - Zpos (digits2_pos p) in
  0 <= k <= 23 ∧ normal (Zpos p * 2 ^ k) (- k) ∧ f_of_Z (Zpos p) = S754_finite false (Z.to_pos (Zpos p * 2 ^ k)) (- k).
Proof.
  intros Hp k. pose proof (digits2_bounds p) as [Hlo Hhi]. set (d := Zpos (digits2_pos p)) in *.
  assert (1 <= d) by lia. assert (d - 1 < 24) by (apply (Z.pow_lt_mono_r_iff 2); lia).
  assert (normal (Zpos p * 2 ^ k) (- k)) as Hn.
  { split; [|lia]. replace 23 with (d - 1 + k) by lia. replace 24 with (d + k) by lia.
    rewrite !Z.pow_add_r by lia. assert (0 < 2 ^ k) by lia. nia. }
  split_and!; [lia|lia|done|]. unfold f_of_Z, binary_normalize, binary_round. fold d.
  replace (fexp fprec femax (d + 0)) with (- k) by (unfold fexp, fprec, femax, emin; lia).
  pose proof (shl_align_value p 0 (- k) ltac:(lia)) as Hv. replace (0 - - k) with k in Hv by lia.
  assert ((shl_align p 0 (- k)).2 = - k) as He by (unfold shl_align; destruct (- k - 0) eqn:?; cbn [snd]; lia).
  destruct (shl_align p 0 (- k)) as [mz ez]. cbn [fst snd] in *. rewrite He, <-Hv.
  pose proof (bra_exact false mz (- k) 0) as Hb. rewrite Z.mul_1_r, Z.add_0_r in Hb. apply Hb; [|done].
  by rewrite Hv.
Qed.

Definition THREE_QUARTERS : float := (f_of_Z 3 / f_of_Z 4)%F.

(** A product with three quarters that needs no more than 24 bits. *)
Lemma three_quarters p :
  Zpos p < 2 ^ 22 →
  ∃ q e, (f_of_Z (Zpos p) * THREE_QUARTERS)%F = S754_finite false q e ∧ normal (Zpos q) e ∧
    -25 <= e <= 0 ∧ Zpos q * 2 ^ (e + 25) = 3 * Zpos p * 2 ^ 23.
Proof.
  intros Hp. destruct (f_of_small p ltac:(lia)) as (Hk & [Hq _] & ->). set (k := 24 - _) in *.
  pose proof (digits2_bounds (3 * p)) as [Hlo Hhi]. set (d := Zpos (digits2_pos (3 * p))) in *.
  change (Zpos (3 * p)) with (3 * Zpos p) in *.
  assert (2 <= d) by (assert (1 < d); [|lia]; apply (Z.pow_lt_mono_r_iff 2); lia).
  assert (d - 1 < 24) by (apply (Z.pow_lt_mono_r_iff 2); lia).
  set (q := 3 * Zpos p * 2 ^ (24 - d)). set (e := d - 26).
  assert (normal q e) as Hn.
  { split; [|unfold e; lia]. unfold q. replace 23 with (d - 1 + (24 - d)) at 1 by lia.
    replace (2 ^ 24) with (2 ^ (d + (24 - d))) by (f_equal; lia). rewrite !Z.pow_add_r by lia.
    assert (0 < 2 ^ (24 - d)) by lia. nia. }
  exists (Z.to_pos q), e. assert (0 < q) as Hpos by (destruct Hn; lia). rewrite Z2Pos.id by done.
  split_and!; [|done|unfold e; lia|unfold e; lia|].
  - change THREE_QUARTERS with (S754_finite false 12582912 (-24)). unfold fmul, SFmul. cbn [xorb].
    rewrite Pos2Z.inj_mul, Z2Pos.id by lia. change (Zpos 12582912) with (3 * 2 ^ 22).
    replace e with (- k + -24 + (k + d - 2)) by (unfold e; lia).
    rewrite <-(bra_exact false (Z.to_pos q) (- k + -24) (k + d - 2)).
    + f_equal. rewrite Z2Pos.id by done. unfold q.
      transitivity (3 * Zpos p * 2 ^ (k + 22)); [rewrite Z.pow_add_r by lia; ring|].
      replace (k + 22) with (24 - d + (k + d - 2)) by lia. rewrite (Z.pow_add_r 2 (24 - d)) by lia. ring.
    + rewrite Z2Pos.id by done. by replace (- k + -24 + (k + d - 2)) with e by (unfold e; lia).
    + lia.
  - unfold q, e. rewrite <-Z.mul_assoc, <-Z.pow_add_r by lia. do 2 f_equal. lia.
Qed.

(** The order of normal numbers is that of their values. *)
Lemma larger_exponent a b x y : 2 ^ 23 <= a → b < 2 ^ 24 → 0 <= y < x → b * 2 ^ y < a * 2 ^ x.
Proof.
  intros Ha Hb Hxy. replace x with (x - 1 - y + 1 + y) by lia. rewrite !Z.pow_add_r by lia.
  assert (0 < 2 ^ (x - 1 - y)) as Hu by lia. assert (0 < 2 ^ y) as Hv by lia.
  generalize dependent (2 ^ (x - 1 - y)). generalize dependent (2 ^ y). intros v Hv u Hu.
  rewrite Z.mul_assoc. apply Z.mul_lt_mono_pos_r; nia.
Qed.

Lemma flt_normal q1 e1 q2 e2 :
  normal (Zpos q1) e1 → normal (Zpos q2) e2 → -25 <= e1 → -25 <= e2 →
  (S754_finite false q1 e1 <? S754_finite false q2 e2)%F = (Zpos q1 * 2 ^ (e1 + 25) <? Zpos q2 * 2 ^ (e2 + 25)).
Proof.
  intros [H1 _] [H2 _] He1 He2. unfold flt, SFltb, SFcompare. symmetry.
  destruct (Z.compare_spec e1 e2) as [->|Hlt|Hgt].
  - assert (0 < 2 ^ (e2 + 25)) by lia. change (Pos.compare_cont Eq q1 q2) with (q1 ?= q2)%positive.
    destruct (Pos.compare_spec q1 q2) as [->|Hc|Hc]; [apply Z.ltb_ge|apply Z.ltb_lt|apply Z.ltb_ge]; nia.
  - apply Z.ltb_lt, larger_exponent; lia.
  - apply Z.ltb_ge, Z.lt_le_incl, larger_exponent; lia.
Qed.

(** [(float)a < (float)b * 0.75f], on numbers below [2^22], is exact. *)
Lemma below_three_quarters a b :
  0 <= a < 2 ^ 24 → 0 < b < 2 ^ 22 → (f_of_Z a <? f_of_Z b * THREE_QUARTERS)%F = (4 * a <? 3 * b).
Proof.
  intros Ha Hb. destruct b as [|b|b]; [lia| |lia].
  destruct (three_quarters b ltac:(lia)) as (q & e & -> & Hq & He & Hval).
  destruct a as [|a|a]; [| |lia].
  - symmetry. apply Z.ltb_lt. lia.
  - destruct (f_of_small a ltac:(lia)) as (Hk & Hn & ->).
    assert (0 < Zpos a * 2 ^ (24 - Zpos (digits2_pos a))) as Hpos by (destruct Hn; lia).
    rewrite flt_normal by (rewrite ?Z2Pos.id by done; done || lia). rewrite Hval, Z2Pos.id by done.
    rewrite <-Z.mul_assoc, <-Z.pow_add_r by lia. 
    replace (_ + (- _ + 25)) with 25 by lia. apply eq_true_iff_eq. rewrite !Z.ltb_lt. lia.
Qed.
