(* ===== verification/Escape.v ===== *)
(** * JSON escaping

    The sensor daemons share one [json_escape], copied from file to file.  What it
    writes between two quotes is one JSON string, which reads back as the text
    without its control characters. *)

From S2P Require Import Prelude CString.
From Stdlib Require Import Ascii.

(** [json_escape] with [j] bytes written. *)
Fixpoint json_escape (out_size j : nat) (s : string) : string :=
  match s with
  | EmptyString => EmptyString
  | String c s' =>
      if (out_size <=? j + 1)%nat then EmptyString
      else
        let pair c := if (out_size <=? j + 2)%nat then EmptyString
                      else String BACKSLASH (String c (json_escape out_size (j + 2) s')) in
        if Ascii.eqb c (chr 34) || Ascii.eqb c BACKSLASH then pair c
        else if Ascii.eqb c NL then pair "n"%char
        else if Ascii.eqb c (chr 13) then pair "r"%char
        else if Ascii.eqb c (chr 9) then pair "t"%char
        else if code c <? 32 then json_escape out_size j s'
        else String c (json_escape out_size (j + 1) s')
  end.

(** ** What a JSON reader makes of it *)

Definition unescape (c : ascii) : option ascii :=
  if Ascii.eqb c (chr 34) || Ascii.eqb c BACKSLASH then Some c
  else if Ascii.eqb c "n" then Some NL
  else if Ascii.eqb c "r" then Some (chr 13)
  else if Ascii.eqb c "t" then Some (chr 9)
  else None.

(** A string of a JSON text, from behind its opening quote: its value and the text
    behind its closing quote. *)
Fixpoint json_string (s : string) : option (string * string) :=
  match s with
  | EmptyString => None
  | String c s' =>
      if Ascii.eqb c (chr 34) then Some (EmptyString, s')
      else if Ascii.eqb c BACKSLASH then
        match s' with
        | String d s'' =>
            e ← unescape d;
            '(t, r) ← json_string s'';
            Some (String e t, r)
        | EmptyString => None
        end
      else if code c <? 32 then None
      else '(t, r) ← json_string s'; Some (String c t, r)
  end.

(** The characters that JSON can carry: all but the control characters that have
    no escape here. *)
Definition carried (c : ascii) : bool :=
  (32 <=? code c) || Ascii.eqb c NL || Ascii.eqb c (chr 13) || Ascii.eqb c (chr 9).

Fixpoint kept (s : string) : string :=
  match s with
  | EmptyString => EmptyString
  | String c s' => if carried c then String c (kept s') else kept s'
  end.

(** What a character becomes. *)
Inductive escape_case (c : ascii) : Type :=
| EscapePair d : carried c = true → unescape d = Some c →
    (∀ size j s, (j + 1 < size)%nat → json_escape size j (String c s) =
      if (size <=? j + 2)%nat then EmptyString else String BACKSLASH (String d (json_escape size (j + 2) s))) →
    escape_case c
| EscapeDrop : carried c = false →
    (∀ size j s, (j + 1 < size)%nat → json_escape size j (String c s) = json_escape size j s) → escape_case c
| EscapeCopy : carried c = true → Ascii.eqb c (chr 34) = false → Ascii.eqb c BACKSLASH = false → (code c <? 32) = false →
    (∀ size j s, (j + 1 < size)%nat → json_escape size j (String c s) = String c (json_escape size (j + 1) s)) →
    escape_case c.

Lemma escape_cases c : escape_case c.
Proof.
  destruct (Ascii.eqb c (chr 34) || Ascii.eqb c BACKSLASH) eqn:H1.
  { apply (EscapePair c c).
    - apply orb_prop in H1 as [->%Ascii.eqb_eq | ->%Ascii.eqb_eq]; reflexivity.
    - unfold unescape. by rewrite H1.
    - intros size j s Hj. cbn [json_escape]. by rewrite (proj2 (Nat.leb_gt _ _)), H1 by lia. }
  destruct (Ascii.eqb c NL) eqn:H2; [apply Ascii.eqb_eq in H2 as ->|].
  { apply (EscapePair NL "n"%char); [done..|]. intros size j s Hj. cbn [json_escape]. by rewrite (proj2 (Nat.leb_gt _ _)) by lia. }
  destruct (Ascii.eqb c (chr 13)) eqn:H3; [apply Ascii.eqb_eq in H3 as ->|].
  { apply (EscapePair (chr 13) "r"%char); [done..|]. intros size j s Hj. cbn [json_escape]. by rewrite (proj2 (Nat.leb_gt _ _)) by lia. }
  destruct (Ascii.eqb c (chr 9)) eqn:H4; [apply Ascii.eqb_eq in H4 as ->|].
  { apply (EscapePair (chr 9) "t"%char); [done..|]. intros size j s Hj. cbn [json_escape]. by rewrite (proj2 (Nat.leb_gt _ _)) by lia. }
  pose proof H1 as [H5 H6]%orb_false_elim. destruct (code c <? 32) eqn:H7.
  - apply EscapeDrop.
    + unfold carried. rewrite H2, H3, H4, !orb_false_r. apply Z.leb_gt. by apply Z.ltb_lt.
    + intros size j s Hj. cbn [json_escape]. by rewrite (proj2 (Nat.leb_gt _ _)), H1, H2, H3, H4, H7 by lia.
  - apply EscapeCopy; [|done..|].
    + unfold carried. apply Z.ltb_ge in H7. by rewrite (proj2 (Z.leb_le _ _)).
    + intros size j s Hj. cbn [json_escape]. by rewrite (proj2 (Nat.leb_gt _ _)), H1, H2, H3, H4, H7 by lia.
Qed.

(** The buffer holds the text and its terminator. *)
Lemma length_escape size s : ∀ j, (j < size)%nat → (j + String.length (json_escape size j s) < size)%nat.
Proof.
  induction s as [|c s IH]; intros j Hj; [cbn; lia|].
  destruct (decide (j + 1 < size)%nat) as [Hj1|Hj1].
  2:{ cbn [json_escape]. rewrite (proj2 (Nat.leb_le _ _)) by lia. cbn. lia. }
  destruct (escape_cases c) as [d _ _ He|_ He|_ _ _ _ He]; rewrite He by done.
  - destruct (Nat.leb_spec size (j + 2)); [cbn; lia|]. cbn [String.length]. specialize (IH (j + 2)%nat). lia.
  - by apply IH.
  - cbn [String.length]. specialize (IH (j + 1)%nat). lia.
Qed.

Lemma escape_reads size r s : ∀ j,
  ∃ t, json_string (json_escape size j s +:+ QUOTE +:+ r) = Some (t, r) ∧ has_prefix t (kept s) = true ∧
    ((j + 2 * String.length s < size)%nat → t = kept s).
Proof.
  assert (json_string (QUOTE +:+ r) = Some ("", r)) as Hend by reflexivity.
  induction s as [|c s IH]; intros j; [by exists ""|].
  destruct (decide (j + 1 < size)%nat) as [Hj|Hj].
  2:{ exists "". cbn [json_escape]. rewrite (proj2 (Nat.leb_le _ _)) by lia. split_and!; [done|done|cbn; lia]. }
  destruct (escape_cases c) as [d Hk Hd He|Hk He|Hk H1 H2 H3 He]; rewrite He by done; cbn [kept String.length]; rewrite Hk.
  - destruct (Nat.leb_spec size (j + 2)); [exists ""; split_and!; [done|done|lia]|].
    destruct (IH (j + 2)%nat) as (t & Ht & Hp & Hall). exists (String c t). rewrite !app_cons_str. cbn [json_string].
    change (Ascii.eqb BACKSLASH (chr 34)) with false. rewrite Ascii.eqb_refl, Hd. cbn [mbind option_bind]. rewrite Ht.
    split_and!; [done|cbn; by rewrite Ascii.eqb_refl|intros; f_equal; apply Hall; lia].
  - destruct (IH j) as (t & Ht & Hp & Hall). exists t. split_and!; [done|done|intros; apply Hall; lia].
  - destruct (IH (j + 1)%nat) as (t & Ht & Hp & Hall). exists (String c t). rewrite app_cons_str. cbn [json_string].
    rewrite H1, H2, H3, Ht. split_and!; [done|cbn; by rewrite Ascii.eqb_refl|intros; f_equal; apply Hall; lia].
Qed.

(** C34. Whatever text json_escape is given, what it writes between two quotes
    is one JSON string: a reader gets a beginning of the text without its control
    characters that have no escape, which are dropped, and goes on behind the closing
    quote; the written text fits its buffer; and in a buffer of more than two bytes per
    character nothing but those control characters is lost. *)
Theorem escape_read_back size s r :
  (0 < size)%nat →
  slen (json_escape size 0 s) < Z.of_nat size ∧
  ∃ t, json_string (json_escape size 0 s +:+ QUOTE +:+ r) = Some (t, r) ∧ has_prefix t (kept s) = true ∧
    (2 * slen s < Z.of_nat size → t = kept s).
Proof.
  intros Hsize. split; [pose proof (length_escape size s 0 Hsize); unfold slen; lia|].
  destruct (escape_reads size r s 0) as (t & Ht & Hp & Hall). exists t. split_and!; [done..|].
  unfold slen. intros. apply Hall. lia.
Qed.

(** A name with a quote, a line end and a bell; the bell is lost. *)
Lemma escape_read_back_witness :
  json_string (json_escape 64 0 (String "a" (String (chr 34) (String NL (String (chr 7) "b")))) +:+ QUOTE +:+ ",") =
  Some (String "a" (String (chr 34) (String NL "b")), ",").
Proof.
  destruct (escape_read_back 64 (String "a" (String (chr 34) (String NL (String (chr 7) "b")))) ",") as (_ & t & -> & _ & ->);
    [lia|vm_compute; reflexivity|reflexivity].
Defined.
