(* ===== verification/Scan.v ===== *)
(** * The scanning daemons

    rocksteadyd, bebopd, leatherheadd, fugitoidd, metalheadd and burned
    ([src/daemon/]) have one frame, and ratkingd its alarms and reports: at the
    beginning of every turn they read their settings, scan, raise alarms that
    cost points, and write a report; they end when they are disabled or after
    [scan_count] scans.  This file has that frame.  [P] is what a daemon keeps
    from scan to scan, [R] its report, [F] what a scan reads. *)

From S2P Require Import Prelude CString Double Krang Conv.

Inductive sensor_output :=
| ToGaveld (signal : string) (weight : double) (ctx : string)
| ToSplinter (type payload : string).

Record desk (P R : Type) := Desk {
  dk_own : P;
  dk_out : list sensor_output;
  dk_results : list R                      (* the calls of write_results *) }.

Arguments Desk {P R}.
Arguments dk_own {P R}.
Arguments dk_out {P R}.
Arguments dk_results {P R}.

(** A call of [gaveld_emit] with the [splinterd_emit] that follows it, and the
    points that are taken off. *)
Record alarm := Alarm { al_signal : string; al_weight : double; al_ctx : string; al_points : Z }.

Definition messages (a : alarm) : list sensor_output :=
  [ToGaveld (al_signal a) (al_weight a) (al_ctx a); ToSplinter (al_signal a) (al_ctx a)].

Definition points (l : list alarm) : Z := foldr (λ a acc, al_points a + acc) 0 l.

(** [if (score < 0) score = 0] after the alarms. *)
Definition score_after (l : list alarm) : Z := Z.max 0 (100 - points l).

(** [gaveld_emit(.., 0.0, ..)]. *)
Definition plain (signal ctx : string) (p : Z) : alarm := Alarm signal (d_of_Z 0) ctx p.

(** An alarm that depends on a condition. *)
Definition when (b : bool) (a : alarm) : list alarm := if b then [a] else [].

Section desk.
Context {P R : Type}.

Definition set_own (x : P) (s : desk P R) : desk P R := Desk x (dk_out s) (dk_results s).
Definition put (l : list sensor_output) (s : desk P R) : desk P R := Desk (dk_own s) (dk_out s ++ l) (dk_results s).
Definition file_result (r : R) (s : desk P R) : desk P R := Desk (dk_own s) (dk_out s) (dk_results s ++ [r]).

Definition raise (a : alarm) : M (desk P R) unit := modify (put (messages a)).

(** The process starts. *)
Definition desk_start (x : P) : desk P R := Desk x [] [].

(** ** The loop *)

Section loop.
Context {F : Type} (poll : Z → F → M (desk P R) unit).

(** A turn of the loop: the settings that are read and what the scan finds.  The
    interval only decides when the next turn comes. *)
Record turn := Turn { tn_enabled : Z; tn_scan_count : Z; tn_facts : F }.

(** The loop from [scan_num]; the result says whether it has ended. *)
Fixpoint scans (scan_num : Z) (turns : list turn) : M (desk P R) bool :=
  match turns with
  | [] => mret false
  | t :: turns' =>
      if tn_enabled t =? 0 then mret true
      else
        let scan_num := scan_num + 1 in
        _ ← poll scan_num (tn_facts t);
        if (0 <? tn_scan_count t) && (tn_scan_count t <=? scan_num) then mret true else scans scan_num turns'
  end.

(** [main]: [enabled] is read once before the loop. *)
Definition scan_main (enabled : Z) (turns : list turn) : M (desk P R) bool :=
  if enabled =? 0 then mret true else scans 0 turns.

(** The scans that are made, with their numbers. *)
Fixpoint made (scan_num : Z) (turns : list turn) : list (Z * F) :=
  match turns with
  | [] => []
  | t :: turns' =>
      if tn_enabled t =? 0 then []
      else (scan_num + 1, tn_facts t) ::
           (if (0 <? tn_scan_count t) && (tn_scan_count t <=? scan_num + 1) then [] else made (scan_num + 1) turns')
  end.

Definition scans_made (enabled : Z) (turns : list turn) : list (Z * F) :=
  if enabled =? 0 then [] else made 0 turns.

Lemma exec_scans turns : ∀ n s,
  exec (scans n turns) s = exec (mfor (made n turns) (λ x, poll x.1 x.2)) s.
Proof.
  induction turns as [|t turns IH]; intros n s; [done|]. cbn [scans made].
  destruct (tn_enabled t =? 0); [done|]. cbn [mfor fst snd]. rewrite !exec_bind.
  destruct (_ && _); [done|]. apply IH.
Qed.

Lemma exec_scan_main enabled turns s :
  exec (scan_main enabled turns) s = exec (mfor (scans_made enabled turns) (λ x, poll x.1 x.2)) s.
Proof. unfold scan_main, scans_made. destruct (enabled =? 0); [done|]. apply exec_scans. Qed.

(** The scans are numbered from one. *)
Lemma made_numbers turns : ∀ n i x, made n turns !! i = Some x → x.1 = n + 1 + Z.of_nat i.
Proof.
  induction turns as [|t turns IH]; intros n i x; [done|]. cbn [made]. destruct (tn_enabled t =? 0); [done|].
  destruct i as [|i]; [intros [= <-]; cbn; lia|]. cbn. destruct (_ && _); [done|]. intros ->%IH. lia.
Qed.

Lemma made_seq turns : ∀ n, map fst (made n turns) = seqZ (n + 1) (Z.of_nat (length (made n turns))).
Proof.
  intros n. apply list_eq. intros i. rewrite list_lookup_fmap. destruct (made n turns !! i) as [x|] eqn:Hx.
  - pose proof (lookup_lt_Some _ _ _ Hx). apply made_numbers in Hx. cbn. rewrite Hx. symmetry. apply lookup_seqZ. lia.
  - apply lookup_ge_None in Hx. symmetry. apply lookup_seqZ_ge. lia.
Qed.

(** A loop with a scan count ends with that scan. *)
Lemma made_ends c turns : ∀ n s,
  0 <= n < c → (Z.to_nat (c - n) ≤ length turns)%nat →
  Forall (λ t, tn_enabled t ≠ 0 ∧ tn_scan_count t = c) (take (Z.to_nat (c - n)) turns) →
  result (scans n turns) s = true ∧ length (made n turns) = Z.to_nat (c - n) ∧
  map snd (made n turns) = map tn_facts (take (Z.to_nat (c - n)) turns).
Proof.
  induction turns as [|t turns IH]; intros n s Hn Hlen Hall; cbn [length] in Hlen; [lia|].
  destruct (Z.to_nat (c - n)) as [|k] eqn:Hk; [lia|]. cbn [firstn] in Hall.
  apply Forall_cons in Hall as [[He%Z.eqb_neq Hc] Hall]. cbn [scans made]. rewrite He, Hc, result_bind.
  destruct (Z.leb_spec c (n + 1)) as [Hle|Hlt].
  - rewrite (proj2 (Z.ltb_lt 0 c)) by lia. cbn [andb length map snd take]. assert (k = 0%nat) as -> by lia. split_and!; [done|lia|done].
  - rewrite andb_false_r. cbn [length map snd take]. replace k with (Z.to_nat (c - (n + 1))) in * by lia.
    destruct (IH (n + 1) (exec (poll (n + 1) (tn_facts t)) s)) as (H1 & H2 & ->); [lia|lia|done|]. split_and!; [done|lia|done].
Qed.

End loop.

End desk.

Arguments turn F : clear implicits.
Arguments Turn {F}.

(** ** The reports of a run

    A poll that sends its messages and files its report, if any: the messages and
    the reports of a run are those of its scans, one after the other. *)
Definition tells {P R F} (outs : P → F → list sensor_output) (report : Z → P → F → list R) (next : P → F → P)
    (poll : Z → F → M (desk P R) unit) : Prop :=
  ∀ n f s, exec (poll n f) s =
    Desk (next (dk_own s) f) (dk_out s ++ outs (dk_own s) f) (dk_results s ++ report n (dk_own s) f).

(** The same for a poll whose messages are those of alarms. *)
Definition says {P R F} (alarms : P → F → list alarm) : (Z → P → F → list R) → (P → F → P) →
    (Z → F → M (desk P R) unit) → Prop :=
  tells (λ x f, flat_map messages (alarms x f)).

Section run.
Context {P R F : Type} (outs : P → F → list sensor_output) (report : Z → P → F → list R) (next : P → F → P).
Context (poll : Z → F → M (desk P R) unit).

(** What is kept before each scan. *)
Fixpoint owned (x : P) (l : list (Z * F)) : list (Z * P * F) :=
  match l with
  | [] => []
  | (n, f) :: l' => (n, x, f) :: owned (next x f) l'
  end.

Lemma run_tells l : tells outs report next poll → ∀ s,
  let s' := exec (mfor l (λ x, poll x.1 x.2)) s in
  dk_out s' = dk_out s ++ flat_map (λ y, outs y.1.2 y.2) (owned (dk_own s) l) ∧
  dk_results s' = dk_results s ++ flat_map (λ y, report y.1.1 y.1.2 y.2) (owned (dk_own s) l).
Proof.
  intros Hp. induction l as [|[n f] l IH]; intros s s'; [by rewrite !app_nil_r|].
  unfold s'. cbn [mfor fst snd owned flat_map map]. rewrite exec_bind, Hp.
  match goal with |- context [exec (mfor l _) ?s1] => destruct (IH s1) as [-> ->] end.
  cbn [dk_own dk_out dk_results]. by rewrite <-!app_assoc.
Qed.

Lemma owned_numbers l : ∀ x, map (λ y, y.1.1) (owned x l) = map fst l.
Proof. induction l as [|[n f] l IH]; intros x; [done|]. cbn. by rewrite IH. Qed.

End run.

Lemma run_says {P R F} (alarms : P → F → list alarm) (report : Z → P → F → list R) next poll l :
  says alarms report next poll → ∀ s,
  let s' := exec (mfor l (λ x, poll x.1 x.2)) s in
  dk_out s' = dk_out s ++ flat_map (λ y, flat_map messages (alarms y.1.2 y.2)) (owned next (dk_own s) l) ∧
  dk_results s' = dk_results s ++ flat_map (λ y, report y.1.1 y.1.2 y.2) (owned next (dk_own s) l).
Proof. intros Hp. apply (run_tells _ _ _ _ l Hp). Qed.
