(* ===== verification/Rocky.v ===== *)
(** * rocksteadyd: processor load and clusters ([src/daemon/rocksteadyd.c])

    Every turn rocksteadyd reads the frequencies of the cores, groups them into
    clusters by their highest frequency, reads the processor time of the system
    and of every process, and raises alarms that cost points.  What a scan reads
    is [rocky_facts]; the loop is that of [Scan].  The second part proves what a run
    says and how the clusters are numbered. *)

From stdpp Require Import sorting.
From S2P Require Import Prelude CString Double Krang Conv Nulld Float Scan.
From Stdlib Require Import Ascii.

Definition DEFAULT_INTERVAL : Z := 15.
Definition MAX_CORES : nat := 16.
Definition MAX_PROCS : nat := 1024.
Definition HOG_PCT : Z := 40.
Definition HOG_CRITICAL_PCT : Z := 70.
Definition THROTTLE_RATIO : float := THREE_QUARTERS.
Definition TOP_N : nat := 5.
Definition MAX_CLUSTERS : nat := 4.

Record cpu_core_t := Core {
  co_core : Z; co_cur : Z; co_max : Z; co_min : Z; co_governor : string;
  co_throttled : bool; co_at_max : bool; co_cluster : Z }.

Record cpu_stat_t := CpuStat {
  st_user : Z; st_nice : Z; st_system : Z; st_idle : Z; st_iowait : Z; st_irq : Z; st_softirq : Z }.

Record proc_t := Proc { pr_pid : Z; pr_name : string; pr_cpu_time : Z; pr_cpu_pct : Z }.

(** [g_prev_stat], [g_prev_procs] and [g_first]. *)
Record rocky := Rocky { rk_prev_stat : cpu_stat_t; rk_prev_procs : list proc_t; rk_first : bool }.

Definition zero_stat : cpu_stat_t := CpuStat 0 0 0 0 0 0 0.

Definition rocky_start : rocky := Rocky zero_stat [] true.

(** The arguments of [write_results]. *)
Record rocky_report := RockyReport {
  rr_ts : string; rr_score : Z; rr_scan_num : Z; rr_sigs : Z; rr_sys_pct : Z; rr_ncores : Z; rr_throttled : Z }.

(** What a scan reads: the answers of the two commands, the files of sysfs, the
    time; and whether the result file can be written. *)
Record rocky_facts := RockyFacts {
  rf_stat : option string; rf_procs : option string; rf_sysfs : string → option string;
  rf_ts : string; rf_results_ok : bool }.

(** ** Settings *)

(** [config_get_int] on the text of the state file. *)
Definition config_get_int (file : option string) (key : string) (def : Z) : Z :=
  default def
    (text ← file;
     let buf := stake 4095 text in
     section ← strstr buf (quoted "rocksteadyd");
     field ← strstr section (quoted key);
     let inside := match strchr "}" section with
                   | Some section_end => (String.length section_end <=? String.length field)%nat
                   | None => true
                   end in
     if inside then
       value ← strchr ":" field;
       let value := skip_while (Ascii.eqb " ") (sdrop 1 value) in
       if has_prefix "null" value then None else Some (atoi value)
     else None).

Definition is_enabled (file : option string) : Z := config_get_int file "enabled" 1.
Definition get_interval (file : option string) : Z := config_get_int file "interval" DEFAULT_INTERVAL.
Definition get_max_scans (file : option string) : Z := config_get_int file "scan_count" 0.

(** ** Cores *)

Section sysfs.
Context (sysfs : string → option string).

Definition read_long_sysfs (path : string) : Z :=
  match sysfs path with
  | Some text => match scan_ld text with Some (v, _) => v | None => -1 end
  | None => -1
  end.

Definition core_path (i : Z) (file : string) : string :=
  snprintf 256 (scat ["/sys/devices/system/cpu/cpu"; fmt_d i; "/cpufreq/"; file]).

(** An empty governor file leaves the field as it was; here it reads as empty. *)
Definition read_governor (path : string) : string :=
  match sysfs path with
  | Some text => match fgets 32 text with Some (line, _) => first_line line | None => "" end
  | None => "unknown"
  end.

Definition read_core (i cur : Z) : cpu_core_t :=
  let max := read_long_sysfs (core_path i "cpuinfo_max_freq") in
  Core i cur max (read_long_sysfs (core_path i "cpuinfo_min_freq"))
    (read_governor (core_path i "scaling_governor"))
    ((0 <? max) && (f_of_Z cur <? f_of_Z max * THROTTLE_RATIO)%F) ((0 <? max) && (max <=? cur)) (-1).

(** The cores from [i] on, at most [n], up to the first that cannot be read. *)
Fixpoint read_cores (n : nat) (i : Z) : list cpu_core_t :=
  match n with
  | O => []
  | S n' =>
      let cur := read_long_sysfs (core_path i "scaling_cur_freq") in
      if cur <? 0 then [] else read_core i cur :: read_cores n' (i + 1)
  end.

End sysfs.

(** ** Clusters *)

(** The inner loop of an insertion sort: the elements before, last one first, are
    moved while [moves] says so, and the key takes the place that is left. *)
Fixpoint make_room {A} (moves : A → A → bool) (key : A) (before : list A) : list A :=
  match before with
  | x :: before' => if moves x key then x :: make_room moves key before' else key :: before
  | [] => [key]
  end.

Definition insertion_sort {A} (moves : A → A → bool) (l : list A) : list A :=
  rev (foldl (λ before key, make_room moves key before) [] l).

Definition distinct_freqs (cores : list cpu_core_t) : list Z :=
  foldl (λ found c,
    let f := co_max c in
    if (f <=? 0) || existsb (Z.eqb f) found || (MAX_CLUSTERS <=? length found)%nat then found
    else found ++ [f]) [] cores.

(** The first index of [f]. *)
Fixpoint index_of (f : Z) (l : list Z) : option Z :=
  match l with
  | [] => None
  | x :: l' => if x =? f then Some 0 else Z.succ <$> index_of f l'
  end.

Definition set_cluster (freqs : list Z) (c : cpu_core_t) : cpu_core_t :=
  if co_max c <=? 0 then c
  else match index_of (co_max c) freqs with
       | Some j => Core (co_core c) (co_cur c) (co_max c) (co_min c) (co_governor c) (co_throttled c) (co_at_max c) j
       | None => c
       end.

(** The cores and [*out_nclusters]. *)
Definition enumerate_cpus (sysfs : string → option string) (max_cores : nat) : list cpu_core_t * Z :=
  let cores := read_cores sysfs max_cores 0 in
  let freqs := insertion_sort (λ x key, key <? x) (distinct_freqs cores) in
  (map (set_cluster freqs) cores, Z.of_nat (length freqs)).

(** ** Processor time *)

(** The [%llu]s up to the first that fails. *)
Fixpoint scan_ulongs (n : nat) (s : string) : list Z :=
  match n with
  | O => []
  | S n' => match scan_lu s with Some (v, r) => v :: scan_ulongs n' r | None => [] end
  end.

Definition read_proc_stat (data : option string) : option cpu_stat_t :=
  data ← data;
  line ← List.find (has_prefix "cpu ") (split_lines data);
  let v := scan_ulongs 7 (sdrop 4 line) in
  Some (CpuStat (nth 0 v 0) (nth 1 v 0) (nth 2 v 0) (nth 3 v 0) (nth 4 v 0) (nth 5 v 0) (nth 6 v 0)).

Definition stat_total (st : cpu_stat_t) : Z :=
  to_u64 (st_user st + st_nice st + st_system st + st_idle st + st_iowait st + st_irq st + st_softirq st).

Definition compute_cpu_pct (prev cur : cpu_stat_t) : Z :=
  let dtotal := to_u64 (stat_total cur - stat_total prev) in
  if dtotal =? 0 then 0
  else
    let didle := to_u64 (st_idle cur - st_idle prev) in
    to_i32 (to_u64 (100 * to_u64 (dtotal - didle)) / dtotal).

(** ** Processes *)

Definition unsafe_char (c : ascii) : bool :=
  Ascii.eqb c "|" || Ascii.eqb c (chr 34) || (code c <? 32).

Fixpoint sanitize_field (s : string) : string :=
  match s with
  | EmptyString => EmptyString
  | String c s' => String (if unsafe_char c then "_"%char else c) (sanitize_field s')
  end.

(** The name between the first parenthesis that opens and the last that closes. *)
Definition stat_name (line : string) : string :=
  match strchr "(" line, after_last ")" line with
  | Some nb, Some after =>
      let rest := S (String.length after) in       (* the text from [ne] on *)
      if (rest <? String.length nb)%nat
      then sanitize_field (stake (Nat.min 31 (String.length nb - rest - 1)) (sdrop 1 nb))
      else ""
  | _, _ => ""
  end.

(** Integers that are read and dropped. *)
Fixpoint skip_ints (n : nat) (s : string) : option string :=
  match n with
  | O => Some s
  | S n' => '(_, r) ← scan_int 10 s; skip_ints n' r
  end.

(** [utime] and [stime]; [s] is the text two characters after the parenthesis.
    A line that ends with the parenthesis, which the kernel does not write, is
    read past its end by the code and as empty here. *)
Definition stat_times (s : string) : option (Z * Z) :=
  match s with
  | EmptyString => None
  | String _ r =>
      r ← skip_ints 10 r;
      '(utime, r) ← scan_lu r;
      '(stime, _) ← scan_lu r;
      Some (utime, stime)
  end.

Definition stat_proc (line : string) : option proc_t :=
  let pid := atoi line in
  if String.eqb line "" || (pid <=? 0) then None
  else
    let times := after ← after_last ")" line; stat_times (sdrop 1 after) in
    Some (Proc pid (stat_name line) (match times with Some (u, s) => to_u64 (u + s) | None => 0 end) 0).

Definition read_proc_procs (data : option string) (max_procs : nat) : list proc_t :=
  match data with
  | Some data => take max_procs (omap stat_proc (split_lines data))
  | None => []
  end.

Definition set_pct (total_delta : Z) (prev : list proc_t) (p : proc_t) : proc_t :=
  match List.find (λ q, pr_pid q =? pr_pid p) prev with
  | Some q => Proc (pr_pid p) (pr_name p) (pr_cpu_time p)
                (to_i32 (to_u64 (100 * to_u64 (pr_cpu_time p - pr_cpu_time q)) / total_delta))
  | None => p
  end.

Definition compute_proc_pcts (first : bool) (prev procs : list proc_t) (total_delta : Z) : list proc_t :=
  if (total_delta =? 0) || first then procs else map (set_pct total_delta prev) procs.

Definition sort_top_n (procs : list proc_t) : list proc_t :=
  insertion_sort (λ p key, pr_cpu_pct p <? pr_cpu_pct key) procs.

(** ** Alarms *)

Definition in_cluster (cores : list cpu_core_t) (j : nat) : list cpu_core_t :=
  List.filter (λ c, co_cluster c =? Z.of_nat j) cores.

Definition sum_of (f : cpu_core_t → Z) (cores : list cpu_core_t) : Z := foldr (λ c acc, f c + acc) 0 cores.

Definition clus_util (cores : list cpu_core_t) (j : nat) : float :=
  let l := in_cluster cores j in
  if (0 <? Z.of_nat (length l)) && (0 <? sum_of co_max l)
  then (f_of_Z 100 * f_of_Z (sum_of co_cur l) / f_of_Z (sum_of co_max l))%F
  else f_of_Z 0.

(** [lo < hi < n], in the order of the loops. *)
Definition pairs (n : nat) : list (nat * nat) :=
  flat_map (λ lo, map (λ hi, (lo, hi)) (seq (S lo) (n - S lo))) (seq 0 n).

(** [worst_lo], [worst_hi] and [worst_delta]. *)
Definition worst_pair (cores : list cpu_core_t) (n : nat) : option (nat * nat) * float :=
  foldl (λ worst '(lo, hi),
    if (length (in_cluster cores lo) =? 0)%nat || (length (in_cluster cores hi) =? 0)%nat then worst
    else
      let delta := (clus_util cores lo - clus_util cores hi)%F in
      if (worst.2 <? delta)%F then (Some (lo, hi), delta) else worst)
    (None, f_of_Z 0) (pairs n).

Definition percent (f : float) : string := fmt_f 0 (d_of_f f) +:+ "%".

Definition cluster_alarms (cores : list cpu_core_t) (nclusters : Z) : list alarm :=
  if 1 <? nclusters then
    match worst_pair cores (Z.to_nat nclusters) with
    | (Some (lo, hi), delta) =>
        when (f_of_Z 20 <? delta)%F
          (Alarm "CPU_CLUSTER_IMBALANCE" (d_of_f delta)
             (snprintf 96 (scat ["c"; fmt_d (Z.of_nat lo); "="; percent (clus_util cores lo);
                                 " c"; fmt_d (Z.of_nat hi); "="; percent (clus_util cores hi);
                                 " delta="; percent delta])) 12)
    | (None, _) => []
    end
  else [].

Definition count_of (f : cpu_core_t → bool) (cores : list cpu_core_t) : Z :=
  Z.of_nat (length (List.filter f cores)).

Definition throttled_count (cores : list cpu_core_t) : Z := count_of co_throttled cores.
Definition maxed_count (cores : list cpu_core_t) : Z := count_of co_at_max cores.
Definition perf_gov_count (cores : list cpu_core_t) : Z :=
  count_of (λ c, String.eqb (co_governor c) "performance") cores.

Definition core_alarms (cores : list cpu_core_t) : list alarm :=
  let ncores := Z.of_nat (length cores) in
  when (0 <? throttled_count cores)
    (plain "CPU_THROTTLING" (snprintf 48 (scat ["throttled="; fmt_d (throttled_count cores); "/"; fmt_d ncores]))
       (8 * throttled_count cores)) ++
  when ((0 <? ncores) && (maxed_count cores =? ncores))
    (plain "ALL_CORES_MAXED" (snprintf 32 (scat ["cores="; fmt_d ncores])) 15) ++
  when (0 <? perf_gov_count cores)
    (plain "GOVERNOR_PERFORMANCE" (snprintf 32 (scat ["cores="; fmt_d (perf_gov_count cores)])) 8).

Definition hog_ctx (p : proc_t) : string :=
  snprintf 80 (scat ["pid="; fmt_d (pr_pid p); " name="; stake 24 (pr_name p); " pct="; fmt_d (pr_cpu_pct p)]).

(** The loop over the top processes ends at the first that was idle. *)
Fixpoint hog_alarms (top : list proc_t) : list alarm :=
  match top with
  | [] => []
  | p :: top' =>
      if pr_cpu_pct p <=? 0 then []
      else
        (if HOG_CRITICAL_PCT <=? pr_cpu_pct p then [plain "CPU_HOG_CRITICAL" (hog_ctx p) 25]
         else if HOG_PCT <=? pr_cpu_pct p then [plain "CPU_HOG" (hog_ctx p) 15] else []) ++ hog_alarms top'
  end.

(** ** A scan *)

Definition grade_of (score : Z) : string :=
  if 85 <=? score then "HEALTHY" else if 65 <=? score then "BUSY"
  else if 45 <=? score then "STRESSED" else "OVERLOADED".

Definition write_results (r : rocky_report) : string :=
  let l := json_line "  " in
  scat ["{"; NLs;
        l "daemon" (quoted "rocksteadyd" +:+ ","); l "timestamp" (quoted (rr_ts r) +:+ ",");
        l "scan_number" (fmt_d (rr_scan_num r) +:+ ","); l "signals_fired" (fmt_d (rr_sigs r) +:+ ",");
        l "cpu_score" (fmt_d (rr_score r) +:+ ","); l "grade" (quoted (grade_of (rr_score r)) +:+ ",");
        l "system_cpu_pct" (fmt_d (rr_sys_pct r) +:+ ","); l "total_cores" (fmt_d (rr_ncores r) +:+ ",");
        l "throttled_cores" (fmt_d (rr_throttled r)); "}"; NLs].

(** [if (read_proc_stat(&cur_stat)) ..]: [g_prev_stat] and [cur_stat] afterwards,
    and the load of the system. *)
Definition take_stat (rk : rocky) (data : option string) : cpu_stat_t * cpu_stat_t * Z :=
  match read_proc_stat data with
  | Some cur => (cur, cur, if rk_first rk then 0 else compute_cpu_pct (rk_prev_stat rk) cur)
  | None => (rk_prev_stat rk, zero_stat, 0)
  end.

Definition total_delta (prev cur : cpu_stat_t) : Z :=
  if stat_total prev <? stat_total cur then to_u64 (stat_total cur - stat_total prev) else 0.

Definition poll (scan_num : Z) (f : rocky_facts) : M (desk rocky rocky_report) unit :=
  rk ← gets dk_own;
  let '(prev_stat, cur_stat, sys_pct) := take_stat rk (rf_stat f) in
  _ ← modify (set_own (Rocky prev_stat (rk_prev_procs rk) (rk_first rk)));
  let '(cores, nclusters) := enumerate_cpus (rf_sysfs f) MAX_CORES in
  let hardware := cluster_alarms cores nclusters ++ core_alarms cores in
  _ ← mfor hardware raise;
  let procs := read_proc_procs (rf_procs f) MAX_PROCS in
  rk ← gets dk_own;
  let procs := sort_top_n
    (compute_proc_pcts (rk_first rk) (rk_prev_procs rk) procs (total_delta (rk_prev_stat rk) cur_stat)) in
  let hogs := if negb (rk_first rk) then hog_alarms (take TOP_N procs) else [] in
  _ ← mfor hogs raise;
  _ ← modify (set_own (Rocky (rk_prev_stat rk) procs false));
  let alarms := hardware ++ hogs in
  mwhen (rf_results_ok f)
    (modify (file_result (RockyReport (rf_ts f) (score_after alarms) scan_num (Z.of_nat (length alarms)) sys_pct
                            (Z.of_nat (length cores)) (throttled_count cores)))).

(** [main]: [file] is the state file before the loop; a turn reads it again. *)
Definition rocky_turn (x : option string * rocky_facts) : turn rocky_facts :=
  Turn (is_enabled x.1) (get_max_scans x.1) x.2.

Definition rocky_main (file : option string) (turns : list (option string * rocky_facts)) : M (desk rocky rocky_report) bool :=
  scan_main poll (is_enabled file) (map rocky_turn turns).

(** ** rocksteadyd over a run

    What rocksteadyd sends and reports is a function of what each scan reads; no
    scan ever names a process; the clusters are ranked by their frequency; and the
    throttling test measures idleness. *)

(** ** Insertion sort *)

Section sort.
Context {A : Type} (key_of : A → Z) (moves : A → A → bool).

Lemma make_room_permutation key (l : list A) : make_room moves key l ≡ₚ key :: l.
Proof.
  induction l as [|x l IH]; [done|]. cbn [make_room]. destruct (moves x key); [|done]. rewrite IH. apply Permutation_swap.
Qed.

Lemma sort_from_permutation (l before : list A) :
  foldl (λ before key, make_room moves key before) before l ≡ₚ l ++ before.
Proof.
  revert before. induction l as [|x l IH]; intros before; [done|]. cbn [foldl]. rewrite IH, make_room_permutation.
  by rewrite <-Permutation_middle.
Qed.

Lemma insertion_sort_permutation (l : list A) : insertion_sort moves l ≡ₚ l.
Proof. unfold insertion_sort. rewrite <-Permutation_rev, sort_from_permutation. by rewrite app_nil_r. Qed.

End sort.

(** ** No process is ever named *)

(** The time of the system is compared with itself: [g_prev_stat] has been
    overwritten before. *)
Lemma no_total_delta rk data :
  total_delta (take_stat rk data).1.1 (take_stat rk data).1.2 = 0.
Proof.
  unfold take_stat. destruct (read_proc_stat data) as [cur|]; cbn [fst snd]; unfold total_delta.
  - by rewrite Z.ltb_irrefl.
  - rewrite (proj2 (Z.ltb_ge _ _)); [done|]. change (stat_total zero_stat) with 0.
    unfold stat_total, to_u64. pose proof (Z.mod_pos_bound (st_user (rk_prev_stat rk) + st_nice (rk_prev_stat rk) +
      st_system (rk_prev_stat rk) + st_idle (rk_prev_stat rk) + st_iowait (rk_prev_stat rk) + st_irq (rk_prev_stat rk) +
      st_softirq (rk_prev_stat rk)) (2 ^ 64)). lia.
Qed.

Lemma idle_procs data n : Forall (λ p, pr_cpu_pct p = 0) (read_proc_procs data n).
Proof.
  unfold read_proc_procs. destruct data as [data|]; [|constructor]. apply Forall_take, Forall_forall.
  intros p (line & _ & Hp)%list_elem_of_omap. unfold stat_proc in Hp. destruct (_ || _); [done|]. by injection Hp as <-.
Qed.

Lemma hog_alarms_idle l : Forall (λ p, pr_cpu_pct p = 0) l → hog_alarms l = [].
Proof. intros Hl. destruct Hl as [|p l Hp]; [done|]. cbn [hog_alarms]. by rewrite Hp. Qed.

(** ** What a scan says *)

(** The alarms about cores and clusters. *)
Definition hardware (f : rocky_facts) : list alarm :=
  let '(cores, nclusters) := enumerate_cpus (rf_sysfs f) MAX_CORES in
  cluster_alarms cores nclusters ++ core_alarms cores.

Definition cores_of (f : rocky_facts) : list cpu_core_t := (enumerate_cpus (rf_sysfs f) MAX_CORES).1.

Definition scan_report (n : Z) (rk : rocky) (f : rocky_facts) : list rocky_report :=
  if rf_results_ok f then
    [RockyReport (rf_ts f) (score_after (hardware f)) n (Z.of_nat (length (hardware f))) (take_stat rk (rf_stat f)).2
       (Z.of_nat (length (cores_of f))) (throttled_count (cores_of f))]
  else [].

Definition scan_next (rk : rocky) (f : rocky_facts) : rocky :=
  Rocky (take_stat rk (rf_stat f)).1.1 (sort_top_n (read_proc_procs (rf_procs f) MAX_PROCS)) false.

Lemma exec_raises {P R} (l : list alarm) : ∀ s : desk P R,
  exec (mfor l raise) s = Desk (dk_own s) (dk_out s ++ flat_map messages l) (dk_results s).
Proof.
  induction l as [|a l IH]; intros [x o r]; cbn [mfor flat_map].
  - by rewrite app_nil_r.
  - rewrite exec_bind, IH. cbn. by rewrite <-app_assoc.
Qed.

Lemma poll_says : says (λ _, hardware) scan_report scan_next poll.
Proof.
  intros n f [rk o res]. unfold poll, scan_report, scan_next, cores_of, hardware.
  pose proof (no_total_delta rk (rf_stat f)) as Hd.
  destruct (take_stat rk (rf_stat f)) as [[prev cur] pct] eqn:Ht. cbn [fst snd] in Hd.
  autorewrite with monad. cbn [dk_own]. rewrite Ht. autorewrite with monad.
  destruct (enumerate_cpus (rf_sysfs f) MAX_CORES) as [cores ncl]. cbv zeta. autorewrite with monad. rewrite !exec_raises.
  cbn [set_own dk_own rk_prev_stat rk_prev_procs rk_first]. rewrite Hd.
  unfold compute_proc_pcts. rewrite Z.eqb_refl. cbn [orb].
  set (hogs := if negb _ then _ else _). assert (hogs = []) as ->.
  { unfold hogs. destruct (negb _); [|done]. apply hog_alarms_idle, Forall_take.
    unfold sort_top_n. rewrite insertion_sort_permutation. apply idle_procs. }
  destruct (rf_results_ok f); cbn [flat_map file_result set_own dk_own dk_out dk_results fst snd]; by rewrite ?app_nil_r.
Qed.

(** ** The load *)

(** The load of each scan: [last] is the time at the scan before, if any. *)
Fixpoint loads (last : option cpu_stat_t) (l : list rocky_facts) : list Z :=
  match l with
  | [] => []
  | f :: l' =>
      match read_proc_stat (rf_stat f) with
      | Some cur => (match last with Some prev => compute_cpu_pct prev cur | None => 0 end) :: loads (Some cur) l'
      | None => 0 :: loads (Some (default zero_stat last)) l'
      end
  end.

Definition last_of (rk : rocky) : option cpu_stat_t := if rk_first rk then None else Some (rk_prev_stat rk).

Lemma owned_loads l : ∀ rk,
  (rk_first rk = true → rk_prev_stat rk = zero_stat) →
  map (λ y, (take_stat y.1.2 (rf_stat y.2)).2) (owned scan_next rk l) = loads (last_of rk) (map snd l).
Proof.
  induction l as [|[n f] l IH]; intros rk Hrk; [done|]. cbn [owned map fst snd loads]. rewrite IH by done.
  assert (last_of (scan_next rk f) = Some (take_stat rk (rf_stat f)).1.1) as -> by done.
  unfold take_stat, last_of. destruct (read_proc_stat (rf_stat f)) as [cur|]; cbn [fst snd];
    destruct (rk_first rk) eqn:He; try done. by rewrite Hrk.
Qed.

(** ** The score *)

(** A cluster is more than twenty points busier than a faster one. *)
Definition imbalanced (f : rocky_facts) : bool :=
  let '(cores, nclusters) := enumerate_cpus (rf_sysfs f) MAX_CORES in
  match cluster_alarms cores nclusters with [] => false | _ => true end.

Definition all_maxed (cores : list cpu_core_t) : bool :=
  (0 <? Z.of_nat (length cores)) && (maxed_count cores =? Z.of_nat (length cores)).

(** The score as the documentation has it: what each fault costs. *)
Definition cpu_score (f : rocky_facts) : Z :=
  let cores := cores_of f in
  Z.max 0 (100 - (if imbalanced f then 12 else 0) - 8 * throttled_count cores -
           (if all_maxed cores then 15 else 0) - (if 0 <? perf_gov_count cores then 8 else 0)).

Lemma points_app l1 l2 : points (l1 ++ l2) = points l1 + points l2.
Proof. induction l1 as [|a l1 IH]; [done|]. cbn. unfold points in *. lia. Qed.

Lemma points_when b a : points (when b a) = if b then al_points a else 0.
Proof. destruct b; cbn; lia. Qed.

Lemma count_nonneg p cores : 0 <= count_of p cores.
Proof. unfold count_of. lia. Qed.

Lemma cluster_points cores n :
  points (cluster_alarms cores n) = match cluster_alarms cores n with [] => 0 | _ => 12 end.
Proof.
  unfold cluster_alarms. destruct (1 <? n); [|done]. destruct (worst_pair _ _) as [[[lo hi]|] delta]; [|done].
  by destruct (f_of_Z 20 <? delta)%F.
Qed.

Lemma hardware_score f : score_after (hardware f) = cpu_score f.
Proof.
  unfold score_after, hardware, cpu_score, imbalanced, cores_of.
  destruct (enumerate_cpus (rf_sysfs f) MAX_CORES) as [cores n]. cbn [fst].
  rewrite points_app, cluster_points. unfold core_alarms. rewrite !points_app, !points_when. cbn [plain al_points].
  fold (all_maxed cores). pose proof (count_nonneg co_throttled cores). unfold throttled_count in *.
  destruct (Z.ltb_spec 0 (count_of co_throttled cores)); destruct (cluster_alarms cores n), (all_maxed cores),
    (0 <? perf_gov_count cores); lia.
Qed.

(** The signals that are left. *)
Definition HARDWARE_SIGNALS : list string :=
  ["CPU_CLUSTER_IMBALANCE"; "CPU_THROTTLING"; "ALL_CORES_MAXED"; "GOVERNOR_PERFORMANCE"].

Lemma Forall_when (Q : alarm → Prop) b a : Q a → Forall Q (when b a).
Proof. intros H. destruct b; repeat constructor; done. Qed.

Lemma hardware_signals a f : a ∈ hardware f → al_signal a ∈ HARDWARE_SIGNALS.
Proof.
  revert a. apply Forall_forall. unfold hardware, cluster_alarms, core_alarms.
  destruct (enumerate_cpus _ _) as [cores n]. rewrite !Forall_app.
  split_and!; try (apply Forall_when; cbn; set_solver).
  destruct (1 <? n); [|constructor]. destruct (worst_pair _ _) as [[[lo hi]|] delta]; [|constructor].
  apply Forall_when. cbn. set_solver.
Qed.

(** ** The run *)

(** What a run sends and reports. *)
Lemma rocky_run file turns :
  let s := exec (rocky_main file turns) (desk_start rocky_start) in
  let made := scans_made (is_enabled file) (map rocky_turn turns) in
  (dk_out s = flat_map (λ x, flat_map messages (hardware x.2)) made) ∧
  dk_results s =
    flat_map (λ '(n, f, pct),
      if rf_results_ok f then
        [RockyReport (rf_ts f) (cpu_score f) n (Z.of_nat (length (hardware f))) pct
           (Z.of_nat (length (cores_of f))) (throttled_count (cores_of f))]
      else []) (zip made (loads None (map snd made))).
Proof.
  intros s made. unfold s, rocky_main. rewrite exec_scan_main. fold made.
  destruct (run_says _ _ _ _ made poll_says (desk_start rocky_start)) as [-> ->]. cbn [desk_start dk_own dk_out dk_results app].
  change (loads None) with (loads (last_of rocky_start)). rewrite <-owned_loads by done.
  generalize rocky_start. split.
  - revert r. induction made as [|[n f] l IH]; intros r; [done|]. cbn. by rewrite IH.
  - revert r. induction made as [|[n f] l IH]; intros r; [done|]. cbn [owned map zip zip_with flat_map fst snd]. rewrite IH.
    unfold scan_report. by rewrite hardware_score.
Qed.

(** Everything rocksteadyd sends and reports, over any run: the messages are
    those of the alarms about cores and clusters of each scan, in order; and there
    is a report for each scan whose file could be written, with the number of the
    scan, the number of the alarms, the score that the faults cost, and the load
    since the scan before. *)
Theorem rocky_reports file turns :
  let s := exec (rocky_main file turns) (desk_start rocky_start) in
  let made := scans_made (is_enabled file) (map rocky_turn turns) in
  (dk_out s = flat_map (λ x, flat_map messages (hardware x.2)) made) ∧
  dk_results s =
    flat_map (λ '(n, f, pct),
      if rf_results_ok f then
        [RockyReport (rf_ts f) (cpu_score f) n (Z.of_nat (length (hardware f))) pct
           (Z.of_nat (length (cores_of f))) (throttled_count (cores_of f))]
      else []) (zip made (loads None (map snd made))).
Proof. apply rocky_run. Qed.

(** C39. rocksteadyd never names a process, over any run, whatever the processes
    do: the time that a process used is divided by the time since the scan before,
    which is taken after the old time has been overwritten and is always zero. *)
Theorem hogs_never_reported file turns w ctx :
  let s := exec (rocky_main file turns) (desk_start rocky_start) in
  (ToGaveld "CPU_HOG" w ctx ∉ dk_out s) ∧ (ToGaveld "CPU_HOG_CRITICAL" w ctx ∉ dk_out s) ∧
  (ToSplinter "CPU_HOG" ctx ∉ dk_out s) ∧ (ToSplinter "CPU_HOG_CRITICAL" ctx ∉ dk_out s).
Proof.
  intros s. assert (∀ o, o ∈ dk_out s → ∃ a f, a ∈ hardware f ∧ o ∈ messages a) as Hs.
  { unfold s, rocky_main. rewrite exec_scan_main.
    destruct (run_says _ _ _ _ (scans_made (is_enabled file) (map rocky_turn turns)) poll_says (desk_start rocky_start)) as [-> _].
    intros o Ho%list_elem_of_In. cbn [desk_start dk_out app] in Ho. apply in_flat_map in Ho as ([[n x] f] & _ & Ho).
    apply in_flat_map in Ho as (a & Ha & Ho). exists a, f. by rewrite !list_elem_of_In. }
  split_and!; intros (a & f & Hin%hardware_signals & Hm)%Hs; unfold messages in Hm; rewrite !elem_of_cons, elem_of_nil in Hm;
    destruct Hm as [Hm|[Hm|[]]]; try discriminate Hm; injection Hm as Hm; rewrite <-?Hm in Hin;
    unfold HARDWARE_SIGNALS in Hin; rewrite !elem_of_cons, elem_of_nil in Hin; repeat destruct Hin as [Hin|Hin]; done.
Qed.

(** A rocksteadyd with a scan count ends: when it is enabled and every state
    file that it reads asks for [c] scans, it makes exactly [c] of them, which are
    numbered from one, and stops. *)
Theorem scan_count_ends c file turns :
  let first := take (Z.to_nat c) turns in
  0 < c → (Z.to_nat c ≤ length turns)%nat → is_enabled file ≠ 0 →
  Forall (λ x, is_enabled x.1 ≠ 0 ∧ get_max_scans x.1 = c ∧ rf_results_ok x.2 = true) first →
  let m := rocky_main file turns in
  result m (desk_start rocky_start) = true ∧
  map rr_scan_num (dk_results (exec m (desk_start rocky_start))) = seqZ 1 c.
Proof.
  intros first Hc Hlen He%Z.eqb_neq Hall m. pose proof (rocky_run file turns) as [_ Hr]. fold m in Hr.
  destruct (made_ends poll c (map rocky_turn turns) 0 (desk_start rocky_start)) as (Hend & Hn & Hf).
  - lia.
  - rewrite length_map. lia.
  - rewrite Z.sub_0_r, firstn_map. apply Forall_map. eapply Forall_impl; [exact Hall|]. by intros x (H1 & H2 & _).
  - unfold scans_made in Hr. rewrite He in Hr. rewrite Z.sub_0_r in *. split; [unfold m, rocky_main, scan_main; by rewrite He|].
    change 1 with (0 + 1). rewrite Hr. clear Hr Hend.
    pose proof (made_seq (map rocky_turn turns) 0) as Hseq. rewrite Hn, Z2Nat.id in Hseq by lia. rewrite <-Hseq.
    assert (Forall (λ x, rf_results_ok x.2 = true) (made 0 (map rocky_turn turns))) as Hok.
    { assert (Forall (λ f, rf_results_ok f = true) (map snd (made 0 (map rocky_turn turns)))) as H; [|by apply Forall_map in H].
      rewrite Hf, firstn_map, map_map. apply Forall_map. eapply Forall_impl; [exact Hall|]. by intros x (_ & _ & H3). }
    clear -Hok. revert Hok. generalize (made 0 (map rocky_turn turns)) (@None cpu_stat_t).
    induction l as [|[n f] l IH]; intros o Hok; [done|]. apply Forall_cons in Hok as [Hf Hok]. cbn [map snd loads].
    destruct (read_proc_stat (rf_stat f)); cbn [zip zip_with flat_map]; cbn in Hf; rewrite Hf; cbn; f_equal; by apply IH.
Qed.

(** ** The clusters of rocksteadyd

    The distinct frequencies, sorted by insertion, number the clusters: a core's
    cluster is the rank of its highest frequency.  And the throttling test, exact
    on the frequencies of real cores, counts every core that is not busy. *)

(** ** The sort sorts *)

Section sorted.
Context {A : Type} (R : relation A) `{!Transitive R} (moves : A → A → bool).
Context (Hmoves : ∀ x key, if moves x key then R key x else R x key).

Lemma make_room_sorted key (l : list A) :
  StronglySorted (flip R) l → StronglySorted (flip R) (make_room moves key l).
Proof.
  induction 1 as [|x l Hl IH Hx]; cbn [make_room]; [repeat constructor|].
  pose proof (Hmoves x key) as Hm. destruct (moves x key).
  - constructor; [done|]. rewrite (make_room_permutation moves key l). by constructor.
  - constructor; [by constructor|]. constructor; [done|]. eapply Forall_impl; [exact Hx|]. intros y Hy. by etrans.
Qed.

Lemma rev_sorted (l : list A) : StronglySorted (flip R) l → StronglySorted R (rev l).
Proof.
  induction 1 as [|x l Hl IH Hx]; [constructor|]. cbn [rev]. apply StronglySorted_app. split_and!; [|done|repeat constructor].
  intros y z Hy Hz. rewrite list_elem_of_singleton in Hz. subst z. rewrite Forall_forall in Hx. apply Hx.
  rewrite list_elem_of_In, <-in_rev, <-list_elem_of_In in Hy. done.
Qed.

Lemma insertion_sort_sorted (l : list A) : StronglySorted R (insertion_sort moves l).
Proof.
  unfold insertion_sort. apply rev_sorted. assert (StronglySorted (flip R) (@nil A)) as Hb by constructor. revert Hb.
  generalize (@nil A). induction l as [|x l IH]; intros b Hb; [done|]. cbn [foldl]. by apply IH, make_room_sorted.
Qed.

End sorted.

(** ** Ranks *)

(** The highest frequencies of the cores that have one. *)
Definition freqs_of (cores : list cpu_core_t) : gset Z :=
  list_to_set (List.filter (λ f, 0 <? f) (map co_max cores)).

(** The number of slower frequencies. *)
Definition rank (freqs : gset Z) (f : Z) : Z := Z.of_nat (size (filter (λ g, g < f) freqs)).

Lemma elem_of_freqs cores f : f ∈ freqs_of cores ↔ 0 < f ∧ ∃ c, c ∈ cores ∧ co_max c = f.
Proof.
  unfold freqs_of. rewrite elem_of_list_to_set, list_elem_of_In, filter_In, in_map_iff, Z.ltb_lt.
  setoid_rewrite list_elem_of_In. split; [intros [(c & <- & Hc) Hp]|intros [Hp (c & Hc & <-)]]; eauto 6.
Qed.

Lemma rank_list (l : list Z) f : NoDup l → rank (list_to_set l) f = Z.of_nat (length (filter (λ g, g < f) l)).
Proof.
  intros Hl. unfold rank. rewrite <-(size_list_to_set (C:=gset Z)) by by apply NoDup_filter. do 2 f_equal.
  apply set_eq. intros x. rewrite elem_of_filter, !elem_of_list_to_set, list_elem_of_filter. done.
Qed.

Lemma index_rank (l : list Z) f :
  StronglySorted Z.lt l → f ∈ l → index_of f l = Some (Z.of_nat (length (filter (λ g, g < f) l))).
Proof.
  induction 1 as [|x l Hl IH Hx]; intros Hf; [by apply elem_of_nil in Hf|]. cbn [index_of].
  rewrite Forall_forall in Hx. rewrite filter_cons. destruct (Z.eqb_spec x f) as [->|Hne].
  - rewrite decide_False by lia. assert (filter (λ g, g < f) l = []) as ->; [|done].
    clear -Hx. induction l as [|y l IH]; [done|].
    rewrite filter_cons, decide_False by (specialize (Hx y (list_elem_of_here _ _)); lia).
    apply IH. intros g Hg. by apply Hx, list_elem_of_further.
  - apply elem_of_cons in Hf as [->|Hf]; [done|]. rewrite decide_True by by apply Hx. rewrite IH by done.
    cbn. f_equal. lia.
Qed.

(** ** The distinct frequencies *)

Definition found_ok (cores : list cpu_core_t) (found : list Z) : Prop :=
  NoDup found ∧ (∀ f, f ∈ found → f ∈ freqs_of cores) ∧ (length found ≤ 4)%nat ∧
  ((length found < 4)%nat → ∀ f, f ∈ freqs_of cores → f ∈ found).

Lemma freqs_snoc cores c f : f ∈ freqs_of (cores ++ [c]) ↔ f ∈ freqs_of cores ∨ (f = co_max c ∧ 0 < f).
Proof.
  rewrite !elem_of_freqs. setoid_rewrite elem_of_app. setoid_rewrite list_elem_of_singleton. split.
  - intros [Hp (d & [Hd| ->] & <-)]; [left|right]; eauto.
  - intros [[Hp (d & Hd & <-)]|[-> Hp]]; eauto 6.
Qed.

Lemma found_step before c found :
  found_ok before found →
  found_ok (before ++ [c])
    (if (co_max c <=? 0) || existsb (Z.eqb (co_max c)) found || (MAX_CLUSTERS <=? length found)%nat then found
     else found ++ [co_max c]).
Proof.
  intros (Hnd & Hin & Hlen & Hall). assert (existsb (Z.eqb (co_max c)) found = true ↔ co_max c ∈ found) as Hex.
  { rewrite existsb_exists, list_elem_of_In. setoid_rewrite Z.eqb_eq.
    split; [intros (x & Hx & ->); done|intros Hx; by exists (co_max c)]. }
  destruct (Z.leb_spec (co_max c) 0); cbn [orb].
  { split_and!; [done|intros f Hf; apply freqs_snoc; auto|done|]. intros Hl f [?|[-> ?]]%freqs_snoc; [auto|lia]. }
  destruct (existsb _ found); cbn [orb].
  { split_and!; [done|intros f Hf; apply freqs_snoc; auto|done|]. intros Hl f [?|[-> ?]]%freqs_snoc; [auto|by apply Hex]. }
  unfold MAX_CLUSTERS. destruct (Nat.leb_spec 4 (length found)).
  { split_and!; [done|intros f Hf; apply freqs_snoc; auto|done|lia]. }
  assert (co_max c ∉ found) as Hnew by (intros ?%Hex; done). split_and!.
  - apply NoDup_app. split_and!; [done|intros f Hf ->%list_elem_of_singleton; done|apply NoDup_singleton].
  - intros f [Hf| ->%list_elem_of_singleton]%elem_of_app; apply freqs_snoc; auto.
  - rewrite length_app. cbn. lia.
  - intros _ f [Hf|[-> _]]%freqs_snoc; apply elem_of_app; [left; by apply Hall|right; by apply list_elem_of_singleton].
Qed.

Lemma distinct_ok cores : found_ok cores (distinct_freqs cores).
Proof.
  unfold distinct_freqs. set (step := λ (found : list Z) (c : cpu_core_t), _).
  cut (∀ before found, found_ok before found → found_ok (before ++ cores) (foldl step found cores)).
  { intros H. apply (H [] []). split_and!; [constructor|set_solver|cbn; lia|set_solver]. }
  induction cores as [|c cores IH]; intros before found Hf; cbn [foldl]; [by rewrite app_nil_r|].
  replace (before ++ c :: cores) with ((before ++ [c]) ++ cores) by by rewrite <-app_assoc.
  by apply IH, found_step.
Qed.

Lemma distinct_all cores :
  (size (freqs_of cores) ≤ 4)%nat → list_to_set (distinct_freqs cores) = freqs_of cores.
Proof.
  intros Hs. destruct (distinct_ok cores) as (Hnd & Hin & Hlen & Hall).
  apply set_subseteq_size_eq; [set_solver|]. rewrite size_list_to_set by done.
  destruct (decide (length (distinct_freqs cores) < 4)%nat) as [Hl|]; [|lia].
  rewrite <-(size_list_to_set (C:=gset Z)) by done. apply subseteq_size. intros f Hf. apply elem_of_list_to_set. auto.
Qed.

(** ** The numbers of the clusters *)

(** What every core has that is read. *)
Lemma Forall_read_cores (Q : cpu_core_t → Prop) sysfs n :
  (∀ i cur, Q (read_core sysfs i cur)) → ∀ i, Forall Q (read_cores sysfs n i).
Proof.
  intros HQ. induction n as [|n IH]; intros i; cbn [read_cores]; [constructor|]. destruct (_ <? 0); constructor; auto.
Qed.

Section ranked.
Context (sysfs : string → option string) (max_cores : nat).

(** The clusters are ranked: as long as the cores have no more than four
    different highest frequencies, their number is the number of clusters, and
    the cluster of a core is the number of frequencies below its own, or -1 for a
    core whose frequency cannot be read. *)
Theorem clusters_ranked :
  let cores := read_cores sysfs max_cores 0 in
  (size (freqs_of cores) ≤ 4)%nat →
  let '(found, nclusters) := enumerate_cpus sysfs max_cores in
  nclusters = Z.of_nat (size (freqs_of cores)) ∧
  map co_max found = map co_max cores ∧
  Forall (λ c, co_cluster c = if co_max c <=? 0 then -1 else rank (freqs_of cores) (co_max c)) found.
Proof.
  intros cores Hs. unfold enumerate_cpus. fold cores.
  set (l := insertion_sort _ _). pose proof (distinct_ok cores) as (Hnd & _).
  assert (l ≡ₚ distinct_freqs cores) as Hp by apply insertion_sort_permutation.
  assert (NoDup l) as Hl by by rewrite Hp.
  assert (list_to_set l = freqs_of cores) as Hset by (rewrite <-distinct_all by done; apply set_eq; intros x; rewrite !elem_of_list_to_set, Hp; done).
  assert (StronglySorted Z.lt l) as Hsort.
  { assert (StronglySorted Z.le l) as Hle.
    { apply insertion_sort_sorted; [intros x y z; lia|]. intros x key. destruct (Z.ltb_spec key x); lia. }
    clear -Hl Hle. induction Hle as [|x l Hle IH Hx]; [constructor|]. apply NoDup_cons in Hl as [Hnew Hl].
    constructor; [by apply IH|]. rewrite Forall_forall in *. intros y Hy. specialize (Hx y Hy).
    assert (x ≠ y) by congruence. lia. }
  split_and!.
  - by rewrite <-Hset, size_list_to_set.
  - rewrite map_map. apply map_ext. intros c. unfold set_cluster. destruct (co_max c <=? 0); [done|]. by destruct (index_of _ _).
  - apply Forall_map, Forall_forall. intros c Hc. unfold compose, set_cluster.
    assert (co_cluster c = -1) as Hnone.
    { revert c Hc. apply Forall_forall. by apply (Forall_read_cores (λ c, co_cluster c = -1)). }
    destruct (Z.leb_spec (co_max c) 0) as [Hle|Hgt]; [by rewrite (proj2 (Z.leb_le _ _))|].
    assert (co_max c ∈ l) as Hin.
    { rewrite <-(elem_of_list_to_set (C:=gset Z)), Hset, elem_of_freqs. eauto. }
    rewrite (index_rank l) by done. cbn [co_max co_cluster]. rewrite (proj2 (Z.leb_gt _ _)) by done.
    by rewrite <-Hset, rank_list.
Qed.

End ranked.

(** ** Slow cores *)

Definition tested (c : cpu_core_t) : Prop :=
  co_throttled c = (0 <? co_max c) && (f_of_Z (co_cur c) <? f_of_Z (co_max c) * THROTTLE_RATIO)%F.

Lemma throttled_test f : Forall tested (cores_of f).
Proof.
  unfold cores_of, enumerate_cpus. cbn [fst]. apply Forall_map.
  eapply Forall_impl; [by apply (Forall_read_cores tested)|].
  intros c Hc. unfold compose, set_cluster. destruct (co_max c <=? 0); [exact Hc|]. destruct (index_of _ _); exact Hc.
Qed.

(** A core with frequencies of real cores that runs below three quarters. *)
Definition slow (c : cpu_core_t) : Prop :=
  0 <= co_cur c < 2 ^ 24 ∧ 0 < co_max c < 2 ^ 22 ∧ 4 * co_cur c < 3 * co_max c.

(** An idle phone reads as an overloaded one: every core below three quarters
    of its highest frequency counts as throttled, so a phone of seven cores or more
    that all have nothing to do is reported as OVERLOADED, whatever its load. *)
Theorem slow_cores_read_as_load f :
  let cores := cores_of f in
  Forall slow cores → (7 ≤ length cores)%nat →
  throttled_count cores = Z.of_nat (length cores) ∧
  cpu_score f <= Z.max 0 (100 - 8 * Z.of_nat (length cores)) ∧ grade_of (cpu_score f) = "OVERLOADED".
Proof.
  intros cores Hslow Hlen. assert (throttled_count cores = Z.of_nat (length cores)) as Ht.
  { unfold throttled_count, count_of. f_equal. f_equal. pose proof (throttled_test f) as Hall. fold cores in Hall. clear Hlen.
    induction Hall as [|c l Hc Hall IH]; [done|]. apply Forall_cons in Hslow as [(Hcur & Hmax & Hq) Hslow].
    cbn [List.filter]. rewrite Hc. unfold THROTTLE_RATIO. rewrite below_three_quarters, (proj2 (Z.ltb_lt _ _)), (proj2 (Z.ltb_lt _ _)) by lia.
    cbn [andb]. f_equal. by apply IH. }
  pose proof (count_nonneg (λ c, String.eqb (co_governor c) "performance") cores) as Hg. fold (perf_gov_count cores) in Hg.
  assert (cpu_score f <= Z.max 0 (100 - 8 * Z.of_nat (length cores))) as Hs.
  { unfold cpu_score. fold cores. rewrite Ht. repeat case_match; lia. }
  split_and!; [done|done|]. unfold grade_of. rewrite !(proj2 (Z.leb_gt _ _)) by lia. done.
Qed.

(** ** A phone of eight cores *)

(** Six cores of 2 GHz and two of 2.4 GHz, all at 500 MHz. *)
Definition idle_sysfs (path : string) : option string :=
  if has_prefix "/sys/devices/system/cpu/cpu8" path then None
  else if contains path "scaling_cur_freq" then Some "500000"
  else if contains path "cpuinfo_max_freq" then
    Some (if has_prefix "/sys/devices/system/cpu/cpu6" path || has_prefix "/sys/devices/system/cpu/cpu7" path then "2400000" else "2000000")
  else if contains path "scaling_governor" then Some "schedutil"
  else None.

Definition idle_facts : rocky_facts := RockyFacts (Some ("cpu  1 2 3 4" +:+ NLs)) None idle_sysfs "t" true.

Lemma clusters_ranked_witness :
  let '(found, nclusters) := enumerate_cpus idle_sysfs MAX_CORES in
  nclusters = 2 ∧ map co_cluster found = [0; 0; 0; 0; 0; 0; 1; 1] ∧
  Forall (λ c, co_cluster c = if co_max c <=? 0 then -1 else rank {[ 2000000; 2400000 ]} (co_max c)) found.
Proof.
  assert (freqs_of (read_cores idle_sysfs MAX_CORES 0) = {[ 2000000; 2400000 ]}) as Hf by (vm_compute; reflexivity).
  pose proof (clusters_ranked idle_sysfs MAX_CORES) as H. cbv zeta in H. rewrite Hf in H.
  assert (map co_cluster (enumerate_cpus idle_sysfs MAX_CORES).1 = [0; 0; 0; 0; 0; 0; 1; 1]) as Hc by (vm_compute; reflexivity).
  destruct (enumerate_cpus idle_sysfs MAX_CORES) as [found n]. cbn [fst] in Hc.
  destruct H as (Hn & _ & Hall); [vm_compute; lia|]. split_and!; [rewrite Hn; reflexivity|exact Hc|exact Hall].
Defined.

Lemma slow_cores_read_as_load_witness :
  throttled_count (cores_of idle_facts) = 8 ∧ cpu_score idle_facts <= 36 ∧ grade_of (cpu_score idle_facts) = "OVERLOADED".
Proof.
  apply (slow_cores_read_as_load idle_facts).
  - assert (forallb (λ c, (0 <=? co_cur c) && (co_cur c <? 2 ^ 24) && (0 <? co_max c) && (co_max c <? 2 ^ 22)
      && (4 * co_cur c <? 3 * co_max c)) (cores_of idle_facts) = true) as H by (vm_compute; reflexivity).
    rewrite forallb_forall in H. apply Forall_forall. intros c Hc%list_elem_of_In%H. bool_hyps. done.
  - vm_compute. lia.
Defined.

(** The state file asks for two scans; there would be three turns. *)
Definition two_scans : option string :=
  Some (dq "{'bebopd': {'enabled': 0}, 'rocksteadyd': {'enabled': 1, 'interval': null, 'scan_count': 2}}").

Lemma scan_count_ends_witness :
  let m := rocky_main two_scans (repeat (two_scans, idle_facts) 3) in
  result m (desk_start rocky_start) = true ∧
  map rr_scan_num (dk_results (exec m (desk_start rocky_start))) = [1; 2].
Proof.
  apply (scan_count_ends 2 two_scans (repeat (two_scans, idle_facts) 3)); [lia|cbn; lia|vm_compute; discriminate|].
  change (Forall (λ x : option string * rocky_facts, is_enabled x.1 ≠ 0 ∧ get_max_scans x.1 = 2 ∧ rf_results_ok x.2 = true)
    [(two_scans, idle_facts); (two_scans, idle_facts)]).
  repeat constructor; vm_compute; discriminate || reflexivity.
Defined.
