(* ===== verification/Bebop.v ===== *)
(** * bebopd: wake locks and battery drain ([src/daemon/bebopd.c])

    Every turn bebopd reads three dumps, the state of the battery, the wake locks
    and the drain, and raises alarms that cost points; the loop is that of [Scan]. *)

From S2P Require Import Prelude CString Double Krang Conv Nulld Float Scan.
From Stdlib Require Import Ascii.

Definition DRAIN_WARN_MAH_H : float := f_of_Z 400.
Definition FULL_WAKELOCK_WARN : Z := 2.
Definition BATTERY_CRITICAL : Z := 10.
Definition SYSTEM_UID_MAX : Z := 9999.
Definition DEFAULT_INTERVAL : Z := 30.

Record wakelock_t := Wakelock {
  wl_tag : string; wl_uid : Z; wl_type : string; wl_is_system : bool; wl_is_full : bool }.

(** The answers of the three commands, what the line buffer of the parser holds
    behind the end of each line of the wake lock section, the time, and whether the
    result file can be written. *)
Record bebop_facts := BebopFacts {
  bf_power : option string; bf_behind : nat → string; bf_stats : option string; bf_battery : option string;
  bf_ts : string; bf_results_ok : bool }.

(** The arguments of [write_results]. *)
Record bebop_report := BebopReport {
  br_ts : string; br_score : Z; br_scan_num : Z; br_sigs : Z; br_battery : Z; br_drain : float;
  br_wl_count : Z; br_full_nonsys : Z }.

(** [config_get_int] on what jq prints; [None] where it cannot be run. *)
Definition config_get_int (answer : option string) (def : Z) : Z :=
  match answer with
  | Some out =>
      match fgets 32 out with
      | Some (buf, _) => if has_prefix "n" buf then def else atoi buf
      | None => def
      end
  | None => def
  end.

Definition is_enabled (answer : option string) : Z := config_get_int answer 1.
Definition get_interval (answer : option string) : Z := config_get_int answer DEFAULT_INTERVAL.
Definition get_max_scans (answer : option string) : Z := config_get_int answer 0.

Definition unsafe_char (c : ascii) : bool :=
  (code c <? 32) || Ascii.eqb c (chr 34) || Ascii.eqb c "|" || Ascii.eqb c BACKSLASH.

Fixpoint sanitize_field (s : string) : string :=
  match s with
  | EmptyString => EmptyString
  | String c s' => String (if unsafe_char c then "_"%char else c) (sanitize_field s')
  end.

(** ** Wake locks *)

(** The lines that end with a newline. *)
Fixpoint ended_lines (s : string) : list string :=
  match s with
  | EmptyString => []
  | String c s' =>
      if Ascii.eqb c NL then EmptyString :: ended_lines s'
      else match ended_lines s' with
           | [] => []
           | l :: ls => String c l :: ls
           end
  end.

(** [atoi] after the first [uid=]. *)
Definition uid_in (line : string) : option Z := (λ p, atoi (sdrop 4 p)) <$> strstr line "uid=".

Definition wl_delims : string := String " " (String (chr 9) "").

(** Where the code looks for the tag: behind the byte that ends the first token.
    After a token that ends the line that is behind the end of the line, in what the
    buffer held before: the bytes [behind]. *)
Definition after_token (lbuf tok r behind : string) : string :=
  if String.eqb (skip_while (char_in wl_delims) lbuf) tok then behind else r.

(** The text between single quotes. *)
Definition tag_in (r : string) : string :=
  match strchr "'" r with
  | Some tq => stake 79 (break_at (Ascii.eqb "'") (sdrop 1 tq)).1
  | None => ""
  end.

Definition wakelock_of (line tok r : string) (next : option string) : wakelock_t :=
  let uid := match uid_in line with
             | Some uid => uid
             | None => default 0 (next ← next; uid_in (stake 255 next))
             end in
  let type := strncpy 16 tok in
  Wakelock (tag_in r) uid type (uid <=? SYSTEM_UID_MAX) (contains type "FULL" || contains type "PARTIAL").

(** [behind i]: the buffer behind the end of the [i]-th line of the section. *)
Fixpoint wakelocks (behind : nat → string) (i : nat) (lines : list string) : list wakelock_t :=
  match lines with
  | [] => []
  | line :: rest =>
      let lbuf := stake 511 line in
      if negb (contains lbuf "WAKE_LOCK") && negb (contains lbuf "ACQ=") then wakelocks behind (S i) rest
      else if contains lbuf "Suspend Blockers:" || contains lbuf "Battery saving" then []
      else if negb (contains lbuf "WAKE_LOCK") then wakelocks behind (S i) rest
      else match strtok wl_delims lbuf with
           | Some (tok, r) =>
               wakelock_of lbuf tok (after_token lbuf tok r (behind i)) (head rest) :: wakelocks behind (S i) rest
           | None => wakelocks behind (S i) rest
           end
  end.

Definition parse_wakelocks (behind : nat → string) (dump : string) (max_wls : nat) : list wakelock_t :=
  match strstr dump "Wake Locks:" with
  | Some section => take max_wls (wakelocks behind 0 (ended_lines section))
  | None => []
  end.

(** ** Battery *)

Definition parse_battery_level (dump : string) : Z :=
  match strstr dump "level:" with
  | Some p => atoi (skip_while (Ascii.eqb " ") (sdrop 6 p))
  | None => -1
  end.

Definition parse_battery_low (dump : string) : bool :=
  match strstr dump "mBatteryLevelLow=" with Some p => has_prefix "true" (sdrop 17 p) | None => false end.

Definition parse_battery_saver (dump : string) : bool :=
  match strstr dump "Battery Saver is currently:" with
  | Some p => has_prefix "ON" (skip_while (Ascii.eqb " ") (sdrop 27 p))
  | None => false
  end.

Definition parse_drain_mah_h (dump : string) : float :=
  match strstr dump "Computed drain:" with
  | Some cd => strtof (skip_while (Ascii.eqb " ") (sdrop 15 cd))
  | None =>
      match strstr dump "Screen off discharge:" with
      | Some sd => strtof (skip_while (Ascii.eqb " ") (sdrop 21 sd))
      | None => f_of_Z 0
      end
  end.

(** The number of places where [needle] is found. *)
Fixpoint occurrences (needle s : string) : Z :=
  match s with
  | EmptyString => 0
  | String _ s' => (if has_prefix needle s then 1 else 0) + occurrences needle s'
  end.

Definition count_doze_interrupted (dump : string) : Z :=
  let count := occurrences "Intr:" dump in
  if 1 <? count then count - 1 else 0.

(** ** Alarms *)

Definition battery_alarms (battery : Z) (battery_low saver_on : bool) : list alarm :=
  when ((0 <=? battery) && (battery <=? BATTERY_CRITICAL))
    (plain "BATTERY_LEVEL_CRITICAL" (snprintf 32 (scat ["level="; fmt_d battery; "%"])) 15) ++
  when (battery_low && negb saver_on) (plain "BATTERY_SAVER_OFF_LOW" "saver=off" 8).

Definition drain_alarms (drain : float) : list alarm :=
  when (DRAIN_WARN_MAH_H <=? drain)%F
    (Alarm "WAKELOCK_DRAIN_HIGH" (d_of_f drain)
       (snprintf 48 (scat ["drain="; fmt_f 1 (d_of_f drain); "_mAh_h threshold="; fmt_f 0 (d_of_f DRAIN_WARN_MAH_H)])) 18).

Definition sanitize_lock (wl : wakelock_t) : wakelock_t :=
  Wakelock (sanitize_field (wl_tag wl)) (wl_uid wl) (sanitize_field (wl_type wl)) (wl_is_system wl) (wl_is_full wl).

(** A full wake lock of an app. *)
Definition app_lock (wl : wakelock_t) : bool := negb (wl_is_system wl) && wl_is_full wl.

Definition lock_alarm (wl : wakelock_t) : alarm :=
  Alarm "WAKELOCK_FULL_HELD" (d_of_Z 1)
    (snprintf 128 (scat ["tag="; stake 48 (wl_tag wl); " uid="; fmt_d (wl_uid wl); " type="; stake 12 (wl_type wl)])) 20.

Definition in_call (wl : wakelock_t) : bool := contains (wl_tag wl) "InCall" || contains (wl_tag wl) "incall".

Definition lock_alarms (wls : list wakelock_t) : list alarm :=
  let full := List.filter app_lock wls in
  let full_nonsys := Z.of_nat (length full) in
  map lock_alarm full ++
  when (existsb in_call wls) (Alarm "INCALL_WAKELOCK_ORPHAN" (d_of_Z 1) "tag=InCallWakeLockController" 20) ++
  when (FULL_WAKELOCK_WARN <=? full_nonsys)
    (plain "WAKELOCK_ANOMALY" (snprintf 32 (scat ["count="; fmt_d full_nonsys])) 10).

Definition doze_alarms (doze_intr : Z) : list alarm :=
  when (2 <? doze_intr) (plain "DOZE_INTERRUPTED" (snprintf 32 (scat ["interruptions="; fmt_d doze_intr])) 10).

(** ** A scan *)

Definition grade_of (score : Z) : string :=
  if 85 <=? score then "CLEAN" else if 65 <=? score then "ACTIVE"
  else if 45 <=? score then "DRAINING" else "CRITICAL".

Definition write_results (r : bebop_report) : string :=
  let l := json_line "  " in
  scat ["{"; NLs;
        l "daemon" (quoted "bebopd" +:+ ","); l "timestamp" (quoted (br_ts r) +:+ ",");
        l "scan_number" (fmt_d (br_scan_num r) +:+ ","); l "signals_fired" (fmt_d (br_sigs r) +:+ ",");
        l "power_score" (fmt_d (br_score r) +:+ ","); l "grade" (quoted (grade_of (br_score r)) +:+ ",");
        l "battery_pct" (fmt_d (br_battery r) +:+ ","); l "drain_mah_h" (fmt_f 1 (d_of_f (br_drain r)) +:+ ",");
        l "active_wakelocks" (fmt_d (br_wl_count r) +:+ ",");
        l "full_nonsystem_wakelocks" (fmt_d (br_full_nonsys r)); "}"; NLs].

(** bebopd keeps nothing from scan to scan. *)
Definition poll (scan_num : Z) (f : bebop_facts) : M (desk unit bebop_report) unit :=
  match bf_power f with
  | None => mret tt
  | Some dump =>
      let battery := parse_battery_level (default dump (bf_battery f)) in
      let drain := parse_drain_mah_h (default dump (bf_stats f)) in
      let state := battery_alarms battery (parse_battery_low dump) (parse_battery_saver dump) ++ drain_alarms drain in
      _ ← mfor state raise;
      let wls := map sanitize_lock (parse_wakelocks (bf_behind f) dump 32) in
      let locks := lock_alarms wls ++ doze_alarms (count_doze_interrupted dump) in
      _ ← mfor locks raise;
      let alarms := state ++ locks in
      mwhen (bf_results_ok f)
        (modify (file_result (BebopReport (bf_ts f) (score_after alarms) scan_num (Z.of_nat (length alarms)) battery drain
                                (Z.of_nat (length wls)) (Z.of_nat (length (List.filter app_lock wls))))))
  end.

(** [main]: a turn reads the settings [enabled] and [scan_count]. *)
Definition bebop_turn (x : option string * option string * bebop_facts) : turn bebop_facts :=
  Turn (is_enabled x.1.1) (get_max_scans x.1.2) x.2.

Definition bebop_main (enabled : option string) (turns : list (option string * option string * bebop_facts)) :
    M (desk unit bebop_report) bool :=
  scan_main poll (is_enabled enabled) (map bebop_turn turns).
