(* ===== verification/Heat.v ===== *)
(** * leatherheadd: temperatures and throttling ([src/daemon/leatherheadd.c])

    Every turn leatherheadd compares the temperatures that Android has cached with
    those of the hardware layer, reads the frequencies of the cores, and raises
    alarms that cost points; the loop is that of [Scan].  The settings are read as
    in [Bebop], the files of the cores as in [Rocky]. *)

From S2P Require Import Prelude CString Double Krang Conv Nulld Float Escape Scan.
From S2P Require Rocky Bebop.
From Stdlib Require Import Ascii.

Definition DEFAULT_INTERVAL : Z := 30.
Definition MISMATCH_THRESHOLD : float := f_of_Z 5.
Definition SKIN_WARN_C : float := f_of_Z 42.
Definition SKIN_CRITICAL_C : float := f_of_Z 48.
Definition BATTERY_WARN_C : float := f_of_Z 40.
Definition MAX_TEMP_TYPES : nat := 16.
Definition MAX_CPU_CORES : nat := 16.
Definition THROTTLE_RATIO : float := THREE_QUARTERS.

Record temp_t := Temp {
  tp_name : string; tp_type : Z; tp_cached : float; tp_hal : float; tp_delta : float; tp_status : Z }.

Record heat_core := HeatCore {
  hc_core : Z; hc_cur : Z; hc_max : Z; hc_min : Z; hc_governor : string; hc_throttled : bool }.

(** The answer of dumpsys, the files of sysfs, the time, and whether the result
    file can be written. *)
Record heat_facts := HeatFacts {
  hf_dump : option string; hf_sysfs : string → option string; hf_ts : string; hf_results_ok : bool }.

(** The arguments of [write_results]. *)
Record heat_report := HeatReport {
  hr_ts : string; hr_score : Z; hr_scan_num : Z; hr_sigs : Z; hr_temps : list temp_t;
  hr_throttled : Z; hr_ncores : Z }.

(** ** Temperatures *)

(** The text after the first [key]. *)
Definition after (rec key : string) : option string := sdrop (String.length key) <$> strstr rec key.

Definition ends_name (c : ascii) : bool := Ascii.eqb c "," || Ascii.eqb c "}".

Definition name_in (rec : string) : string :=
  match after rec "mName=" with Some mn => stake 31 (break_at ends_name mn).1 | None => "" end.

Definition value_in (rec : string) : float :=
  match after rec "mValue=" with Some mv => strtof mv | None => f_of_Z 0 end.

Definition int_in (rec key : string) : Z := match after rec key with Some p => atoi p | None => 0 end.

Definition cached_temp (rec : string) : temp_t :=
  Temp (name_in rec) (int_in rec "mType=") (value_in rec) (f_of_Z 0) (f_of_Z 0) (int_in rec "mStatus=").

(** [hal_start == NULL || p < hal_start], for two places of one text. *)
Definition before (p : string) (hal_start : option string) : bool :=
  match hal_start with Some h => (String.length h <? String.length p)%nat | None => true end.

(** The first pass, with room for [n] records. *)
Fixpoint cached_temps (n : nat) (hal_start : option string) (p : string) : list temp_t :=
  match n with
  | O => []
  | S n' =>
      if before p hal_start then
        match strstr p "Temperature{" with
        | Some rec => if before rec hal_start then cached_temp rec :: cached_temps n' hal_start (sdrop 1 rec) else []
        | None => []
        end
      else []
  end.

(** The first entry with the name gets the value. *)
Fixpoint set_hal (temps : list temp_t) (name : string) (hal : float) : list temp_t :=
  match temps with
  | [] => []
  | t :: temps' =>
      if String.eqb (tp_name t) name
      then Temp (tp_name t) (tp_type t) (tp_cached t) hal (hal - tp_cached t)%F (tp_status t) :: temps'
      else t :: set_hal temps' name hal
  end.

(** The second pass; every record consumes a character. *)
Fixpoint hal_temps (fuel : nat) (p : string) (temps : list temp_t) : list temp_t :=
  match fuel with
  | O => temps
  | S fuel' =>
      match strstr p "Temperature{" with
      | Some rec => hal_temps fuel' (sdrop 1 rec) (set_hal temps (name_in rec) (value_in rec))
      | None => temps
      end
  end.

Definition parse_thermalservice (dump : option string) (max_temps : nat) : list temp_t :=
  match dump with
  | None => []
  | Some dump =>
      let cached_start := default dump (strstr dump "Cached temperatures:") in
      let hal_start := strstr dump "Current temperatures from HAL:" in
      let temps := cached_temps max_temps hal_start cached_start in
      match hal_start with
      | Some p => hal_temps (String.length p) p temps
      | None => temps
      end
  end.

Definition parse_thermal_status (dump : option string) : Z :=
  match (dump ← dump; strstr dump "Thermal Status:") with
  | Some p => atoi (skip_while (Ascii.eqb " ") (sdrop 15 p))
  | None => 0
  end.

(** ** Cores *)

Definition read_core (sysfs : string → option string) (i cur : Z) : heat_core :=
  let max := Rocky.read_long_sysfs sysfs (Rocky.core_path i "cpuinfo_max_freq") in
  HeatCore i cur max (Rocky.read_long_sysfs sysfs (Rocky.core_path i "cpuinfo_min_freq"))
    (Rocky.read_governor sysfs (Rocky.core_path i "scaling_governor"))
    ((0 <? max) && (f_of_Z cur <? f_of_Z max * THROTTLE_RATIO)%F).

Fixpoint read_cores (sysfs : string → option string) (n : nat) (i : Z) : list heat_core :=
  match n with
  | O => []
  | S n' =>
      let cur := Rocky.read_long_sysfs sysfs (Rocky.core_path i "scaling_cur_freq") in
      if cur <? 0 then [] else read_core sysfs i cur :: read_cores sysfs n' (i + 1)
  end.

Definition enumerate_cpus (sysfs : string → option string) (max_cores : nat) : list heat_core :=
  read_cores sysfs max_cores 0.

(** ** Alarms *)

Definition delta_abs (t : temp_t) : float := if (tp_delta t <? f_of_Z 0)%F then SFopp (tp_delta t) else tp_delta t.

Definition mismatch (t : temp_t) : bool := (MISMATCH_THRESHOLD <=? delta_abs t)%F.

(** Only the first mismatch of a scan is reported. *)
Definition mismatch_alarms (temps : list temp_t) : list alarm :=
  match List.find mismatch temps with
  | Some t =>
      [Alarm "THERMAL_HAL_MISMATCH" (d_of_f (delta_abs t))
         (snprintf 128 (scat ["sensor="; stake 12 (tp_name t); " cached="; fmt_f 1 (d_of_f (tp_cached t));
                              " hal="; fmt_f 1 (d_of_f (tp_hal t)); " delta="; fmt_f 1 (d_of_f (tp_delta t))])) 15]
  | None => []
  end.

Fixpoint lower_all (s : string) : string :=
  match s with EmptyString => EmptyString | String c s' => String (lower c) (lower_all s') end.

(** [strcasecmp(a, b) == 0]. *)
Definition same_word (a b : string) : bool := String.eqb (lower_all a) (lower_all b).

(** The last temperature with the name: that of the hardware, or the cached one
    where that is not positive; -1 when there is none. *)
Definition temp_of (name : string) (temps : list temp_t) : float :=
  foldl (λ x t, if same_word (tp_name t) name then (if (f_of_Z 0 <? tp_hal t)%F then tp_hal t else tp_cached t) else x)
    (f_of_Z (-1)) temps.

(** The product wraps beyond a status of 2^31 / 10 in the code, not here. *)
Definition status_alarms (tstatus : Z) : list alarm :=
  when (0 <? tstatus) (plain "THERMAL_STATUS_NONZERO" (snprintf 32 (scat ["status="; fmt_d tstatus])) (tstatus * 10)).

Definition temp_ctx (label : string) (temp : float) : string := snprintf 48 (scat [label; "="; fmt_f 1 (d_of_f temp)]).

Definition skin_alarms (skin : float) : list alarm :=
  if (f_of_Z 0 <? skin)%F then
    if (SKIN_CRITICAL_C <=? skin)%F then [Alarm "THERMAL_CRITICAL" (d_of_f skin) (temp_ctx "skin_temp" skin) 25]
    else when (SKIN_WARN_C <=? skin)%F (Alarm "THERMAL_WARN" (d_of_f skin) (temp_ctx "skin_temp" skin) 12)
  else [].

Definition battery_alarms (battery : float) : list alarm :=
  when (BATTERY_WARN_C <=? battery)%F (Alarm "BATTERY_TEMP_HIGH" (d_of_f battery) (temp_ctx "battery_temp" battery) 15).

Definition throttled_count (cores : list heat_core) : Z := Z.of_nat (length (List.filter hc_throttled cores)).

Definition maxed_count (cores : list heat_core) : Z :=
  Z.of_nat (length (List.filter (λ c, (0 <? hc_max c) && (hc_max c <=? hc_cur c)) cores)).

Definition core_alarms (cores : list heat_core) : list alarm :=
  let ncores := Z.of_nat (length cores) in
  when (0 <? throttled_count cores)
    (plain "CPU_THROTTLING" (snprintf 64 (scat ["throttled="; fmt_d (throttled_count cores); " total="; fmt_d ncores]))
       (8 * throttled_count cores)) ++
  when ((0 <? ncores) && (maxed_count cores =? ncores))
    (plain "ALL_CORES_MAXED" (snprintf 32 (scat ["cores="; fmt_d ncores])) 15).

(** ** A scan *)

Definition grade_of (score : Z) : string :=
  if 85 <=? score then "NOMINAL" else if 65 <=? score then "WARM"
  else if 45 <=? score then "HOT" else "CRITICAL".

Definition temp_line (t : temp_t) : string :=
  scat [dq "    {'name':'"; json_escape 64 0 (tp_name t); dq "','type':"; fmt_d (tp_type t);
        dq ",'cached':"; fmt_f 1 (d_of_f (tp_cached t)); dq ",'hal':"; fmt_f 1 (d_of_f (tp_hal t));
        dq ",'delta':"; fmt_f 1 (d_of_f (tp_delta t)); "}"].

Fixpoint temp_lines (l : list temp_t) : string :=
  match l with
  | [] => ""
  | [t] => temp_line t +:+ NLs
  | t :: l' => temp_line t +:+ "," +:+ NLs +:+ temp_lines l'
  end.

Definition write_results (r : heat_report) : string :=
  let l := json_line "  " in
  scat ["{"; NLs;
        l "daemon" (quoted "leatherheadd" +:+ ","); l "timestamp" (quoted (hr_ts r) +:+ ",");
        l "scan_number" (fmt_d (hr_scan_num r) +:+ ","); l "signals_fired" (fmt_d (hr_sigs r) +:+ ",");
        l "thermal_score" (fmt_d (hr_score r) +:+ ","); l "grade" (quoted (grade_of (hr_score r)) +:+ ",");
        l "throttled_cores" (fmt_d (hr_throttled r) +:+ ","); l "total_cores" (fmt_d (hr_ncores r) +:+ ",");
        l "temperatures" "["; temp_lines (hr_temps r); "  ]"; NLs; "}"; NLs].

(** leatherheadd keeps nothing from scan to scan. *)
Definition poll (scan_num : Z) (f : heat_facts) : M (desk unit heat_report) unit :=
  let temps := parse_thermalservice (hf_dump f) MAX_TEMP_TYPES in
  let tstatus := parse_thermal_status (hf_dump f) in
  let heat := mismatch_alarms temps ++ status_alarms tstatus ++ skin_alarms (temp_of "SKIN" temps) ++
              battery_alarms (temp_of "BATTERY" temps) in
  _ ← mfor heat raise;
  let cores := enumerate_cpus (hf_sysfs f) MAX_CPU_CORES in
  _ ← mfor (core_alarms cores) raise;
  let alarms := heat ++ core_alarms cores in
  mwhen (hf_results_ok f)
    (modify (file_result (HeatReport (hf_ts f) (score_after alarms) scan_num (Z.of_nat (length alarms)) temps
                            (throttled_count cores) (Z.of_nat (length cores))))).

(** [main], as that of bebopd. *)
Definition heat_turn (x : option string * option string * heat_facts) : turn heat_facts :=
  Turn (Bebop.is_enabled x.1.1) (Bebop.get_max_scans x.1.2) x.2.

Definition heat_main (enabled : option string) (turns : list (option string * option string * heat_facts)) :
    M (desk unit heat_report) bool :=
  scan_main poll (Bebop.is_enabled enabled) (map heat_turn turns).
