(* ===== verification/Sensors.v ===== *)
(** * bebopd and leatherheadd over a run

    Neither keeps anything from scan to scan: what a run sends and reports is, scan
    by scan, a function of what the scan reads, with the score that the faults
    cost.  The second part is what overlordd makes of their reports together. *)

From S2P Require Import Prelude CString Double Overlord Krang Digits Nulld Screen Numbers Reports Conv Float.
From S2P Require Import Scan Rocky.
From S2P Require Bebop Heat.
From Stdlib Require Import Ascii.

(** What a poll without memory says. *)
Section memoryless.
Context {R F : Type} (poll : Z → F → M (desk unit R) unit).
Context (alarms : F → list alarm) (report : Z → F → list R).

Lemma run_memoryless enabled turns :
  says (λ _, alarms) (λ n _, report n) (λ x _, x) poll →
  let s := exec (scan_main poll enabled turns) (desk_start tt) in
  let made := scans_made enabled turns in
  dk_out s = flat_map (λ x, flat_map messages (alarms x.2)) made ∧
  dk_results s = flat_map (λ x, report x.1 x.2) made.
Proof.
  intros Hp s made. unfold s. rewrite exec_scan_main. fold made.
  destruct (run_says _ _ _ _ made Hp (desk_start tt)) as [-> ->]. cbn [desk_start dk_own dk_out dk_results app].
  split; induction made as [|[n f] l IH]; cbn; by rewrite ?IH.
Qed.

End memoryless.

(** ** bebopd *)

Module Power.
Import Bebop.

Section scan.
Context (f : bebop_facts) (dump : string).

Definition battery : Z := parse_battery_level (default dump (bf_battery f)).
Definition drain : float := parse_drain_mah_h (default dump (bf_stats f)).
Definition locks : list wakelock_t := parse_wakelocks (bf_behind f) dump 32.

(** A lock that keeps the phone awake, held by an app: its user is above those of
    the system and its type says FULL or PARTIAL. *)
Definition app_full (wl : wakelock_t) : bool :=
  (9999 <? wl_uid wl) && (contains (wl_type wl) "FULL" || contains (wl_type wl) "PARTIAL").

Definition held_alarm (wl : wakelock_t) : alarm :=
  Alarm "WAKELOCK_FULL_HELD" (d_of_Z 1)
    (snprintf 128 (scat ["tag="; stake 48 (sanitize_field (wl_tag wl)); " uid="; fmt_d (wl_uid wl);
       " type="; stake 12 (sanitize_field (wl_type wl))])) 20.

(** A lock of the telephone, whether or not there is a call. *)
Definition telephone (wl : wakelock_t) : bool :=
  contains (sanitize_field (wl_tag wl)) "InCall" || contains (sanitize_field (wl_tag wl)) "incall".

Definition held : Z := Z.of_nat (length (List.filter app_full locks)).
Definition interruptions : Z := Z.max 0 (occurrences "Intr:" dump - 1).

(** The alarms of a scan, in order. *)
Definition scan_alarms : list alarm :=
  when ((0 <=? battery) && (battery <=? 10))
    (Alarm "BATTERY_LEVEL_CRITICAL" (d_of_Z 0) (snprintf 32 (scat ["level="; fmt_d battery; "%"])) 15) ++
  when (parse_battery_low dump && negb (parse_battery_saver dump))
    (Alarm "BATTERY_SAVER_OFF_LOW" (d_of_Z 0) "saver=off" 8) ++
  when (f_of_Z 400 <=? drain)%F
    (Alarm "WAKELOCK_DRAIN_HIGH" (d_of_f drain)
       (snprintf 48 (scat ["drain="; fmt_f 1 (d_of_f drain); "_mAh_h threshold=400"])) 18) ++
  map held_alarm (List.filter app_full locks) ++
  when (existsb telephone locks) (Alarm "INCALL_WAKELOCK_ORPHAN" (d_of_Z 1) "tag=InCallWakeLockController" 20) ++
  when (2 <=? held) (Alarm "WAKELOCK_ANOMALY" (d_of_Z 0) (snprintf 32 (scat ["count="; fmt_d held])) 10) ++
  when (2 <? interruptions)
    (Alarm "DOZE_INTERRUPTED" (d_of_Z 0) (snprintf 32 (scat ["interruptions="; fmt_d interruptions])) 10).

(** What each fault costs. *)
Definition power_score : Z :=
  Z.max 0 (100 - (if (0 <=? battery) && (battery <=? 10) then 15 else 0)
    - (if parse_battery_low dump && negb (parse_battery_saver dump) then 8 else 0)
    - (if (f_of_Z 400 <=? drain)%F then 18 else 0) - 20 * held - (if existsb telephone locks then 20 else 0)
    - (if 2 <=? held then 10 else 0) - (if 2 <? interruptions then 10 else 0)).

End scan.

Definition alarms_of (f : bebop_facts) : list alarm :=
  match bf_power f with Some dump => scan_alarms f dump | None => [] end.

Definition report_of (n : Z) (f : bebop_facts) : list bebop_report :=
  match bf_power f with
  | Some dump =>
      if bf_results_ok f then
        [BebopReport (bf_ts f) (power_score f dump) n (Z.of_nat (length (scan_alarms f dump))) (battery f dump) (drain f dump)
           (Z.of_nat (length (locks f dump))) (held f dump)]
      else []
  | None => []
  end.

Lemma held_points l : points (map held_alarm l) = 20 * Z.of_nat (length l).
Proof. induction l as [|wl l IH]; [done|]. cbn [map points foldr length held_alarm al_points]. unfold points in IH. lia. Qed.

Lemma bebop_score f dump : score_after (scan_alarms f dump) = power_score f dump.
Proof. unfold score_after, scan_alarms. rewrite !points_app, held_points, !points_when. cbn [al_points]. unfold power_score, held. lia. Qed.

(** The fields of a parsed lock that say whose it is and what it keeps awake. *)
Definition typed (wl : wakelock_t) : Prop :=
  wl_is_system wl = (wl_uid wl <=? 9999) ∧ wl_is_full wl = contains (wl_type wl) "FULL" || contains (wl_type wl) "PARTIAL".

Lemma locks_typed f dump : Forall typed (locks f dump).
Proof.
  unfold locks, parse_wakelocks. destruct (strstr dump _) as [section|]; [|constructor]. apply Forall_take.
  generalize 0%nat. induction (ended_lines section) as [|line lines IH]; intros i; cbn [wakelocks]; [constructor|]. cbv zeta.
  destruct (_ && _); [apply IH|]. destruct (_ || _); [constructor|]. destruct (negb _); [apply IH|].
  destruct (strtok _ _) as [[tok r]|]; [|apply IH]. constructor; [done|apply IH].
Qed.

Lemma app_lock_full wl : typed wl → app_lock (sanitize_lock wl) = app_full wl.
Proof.
  intros [Hs Hf]. unfold app_lock, app_full. cbn [sanitize_lock wl_is_system wl_is_full]. rewrite Hs, Hf. f_equal.
  destruct (Z.leb_spec (wl_uid wl) 9999), (Z.ltb_spec 9999 (wl_uid wl)); lia || done.
Qed.

Lemma app_locks f dump :
  List.filter app_lock (map sanitize_lock (locks f dump)) = map sanitize_lock (List.filter app_full (locks f dump)).
Proof.
  induction (locks_typed f dump) as [|wl l Hwl _ IH]; [done|]. cbn [map List.filter]. rewrite (app_lock_full wl Hwl), IH.
  by destruct (app_full wl).
Qed.

Lemma doze_count dump : count_doze_interrupted dump = interruptions dump.
Proof.
  unfold count_doze_interrupted, interruptions. cbv zeta.
  destruct (Z.ltb_spec 1 (occurrences "Intr:" dump)); lia.
Qed.

(** The alarms that a poll raises, state first, are these. *)
Lemma bebop_alarms f dump :
  (battery_alarms (battery f dump) (parse_battery_low dump) (parse_battery_saver dump) ++ drain_alarms (drain f dump)) ++
  lock_alarms (map sanitize_lock (locks f dump)) ++ doze_alarms (count_doze_interrupted dump) = scan_alarms f dump.
Proof.
  unfold battery_alarms, drain_alarms, lock_alarms, doze_alarms. cbv zeta.
  rewrite app_locks, length_map, List.map_map, doze_count.
  assert (existsb in_call (map sanitize_lock (locks f dump)) = existsb telephone (locks f dump)) as ->.
  { induction (locks f dump) as [|wl l IH]; [done|]. cbn [map existsb]. by rewrite IH. }
  unfold scan_alarms, held. rewrite <-!app_assoc. reflexivity.
Qed.

Lemma bebop_says : says (λ _, alarms_of) (λ n _, report_of n) (λ x _, x) poll.
Proof.
  intros n f [x o res]. unfold poll, alarms_of, report_of. destruct (bf_power f) as [dump|]; [|cbn; by rewrite !app_nil_r].
  cbv zeta. autorewrite with monad. rewrite !exec_raises. cbn [dk_own dk_out dk_results].
  change (parse_wakelocks (bf_behind f) dump 32) with (locks f dump).
  change (parse_battery_level (default dump (bf_battery f))) with (battery f dump).
  change (parse_drain_mah_h (default dump (bf_stats f))) with (drain f dump).
  rewrite bebop_alarms, app_locks, !length_map, <-bebop_score, <-app_assoc, <-flat_map_app, bebop_alarms.
  destruct (bf_results_ok f); cbn [file_result dk_own dk_out dk_results]; by rewrite ?app_nil_r.
Qed.

End Power.

(** C37. Everything bebopd sends and reports, over any run: the alarms of each scan
    in order, one for each full wake lock that a user above 9999 holds, one for any
    lock of the telephone, and a report for each scan that could read the power dump
    and write its file, with the score that the faults cost and the number of such
    locks.  It is a function of what the scan reads: the three dumps and, for a lock
    whose line ends behind its type, what the line buffer holds there. *)
Theorem bebop_reports enabled turns :
  let s := exec (Bebop.bebop_main enabled turns) (desk_start tt) in
  let made := scans_made (Bebop.is_enabled enabled) (map Bebop.bebop_turn turns) in
  dk_out s = flat_map (λ x, flat_map messages (Power.alarms_of x.2)) made ∧
  dk_results s = flat_map (λ x, Power.report_of x.1 x.2) made.
Proof. apply run_memoryless, Power.bebop_says. Qed.

(** ** leatherheadd *)

Module Thermal.
Import Heat.

Section scan.
Context (f : heat_facts).

Definition temps : list temp_t := parse_thermalservice (hf_dump f) MAX_TEMP_TYPES.
Definition cores : list heat_core := enumerate_cpus (hf_sysfs f) MAX_CPU_CORES.
Definition status : Z := parse_thermal_status (hf_dump f).

Definition scan_alarms : list alarm :=
  mismatch_alarms temps ++ status_alarms status ++ skin_alarms (temp_of "SKIN" temps) ++
  battery_alarms (temp_of "BATTERY" temps) ++ core_alarms cores.

(** What each fault costs. *)
Definition thermal_score : Z :=
  let skin := temp_of "SKIN" temps in
  Z.max 0 (100 - (if existsb mismatch temps then 15 else 0) - 10 * Z.max 0 status
    - (if (f_of_Z 0 <? skin)%F then
         if (f_of_Z 48 <=? skin)%F then 25 else if (f_of_Z 42 <=? skin)%F then 12 else 0
       else 0)
    - (if (f_of_Z 40 <=? temp_of "BATTERY" temps)%F then 15 else 0)
    - 8 * throttled_count cores
    - (if (0 <? Z.of_nat (length cores)) && (maxed_count cores =? Z.of_nat (length cores)) then 15 else 0)).

End scan.

Definition report_of (n : Z) (f : heat_facts) : list heat_report :=
  if hf_results_ok f then
    [HeatReport (hf_ts f) (thermal_score f) n (Z.of_nat (length (scan_alarms f))) (temps f)
       (throttled_count (cores f)) (Z.of_nat (length (cores f)))]
  else [].

Lemma find_exists (l : list temp_t) : existsb mismatch l = match List.find mismatch l with Some _ => true | None => false end.
Proof. induction l as [|t l IH]; [done|]. cbn. by destruct (mismatch t). Qed.

Lemma mismatch_points l : points (mismatch_alarms l) = if existsb mismatch l then 15 else 0.
Proof. rewrite find_exists. unfold mismatch_alarms. by destruct (List.find mismatch l). Qed.

Lemma skin_points skin :
  points (skin_alarms skin) =
  if (f_of_Z 0 <? skin)%F then if (f_of_Z 48 <=? skin)%F then 25 else if (f_of_Z 42 <=? skin)%F then 12 else 0 else 0.
Proof.
  unfold skin_alarms. change SKIN_CRITICAL_C with (f_of_Z 48). change SKIN_WARN_C with (f_of_Z 42).
  destruct (f_of_Z 0 <? skin)%F; [|done]. destruct (f_of_Z 48 <=? skin)%F; [done|]. by destruct (f_of_Z 42 <=? skin)%F.
Qed.

Lemma heat_score f : score_after (scan_alarms f) = thermal_score f.
Proof.
  unfold score_after, scan_alarms, status_alarms, battery_alarms, core_alarms. rewrite !points_app, mismatch_points, skin_points, !points_when.
  cbn [plain al_points]. unfold thermal_score. cbv zeta. change BATTERY_WARN_C with (f_of_Z 40).
  assert (0 <= throttled_count (cores f)) by (unfold throttled_count; lia).
  generalize (if existsb mismatch (temps f) then 15 else 0).
  generalize (if (f_of_Z 0 <? temp_of "SKIN" (temps f))%F then
    if (f_of_Z 48 <=? temp_of "SKIN" (temps f))%F then 25 else if (f_of_Z 42 <=? temp_of "SKIN" (temps f))%F then 12 else 0 else 0).
  generalize (if (f_of_Z 40 <=? temp_of "BATTERY" (temps f))%F then 15 else 0).
  generalize (if (0 <? Z.of_nat (length (cores f))) && (maxed_count (cores f) =? Z.of_nat (length (cores f))) then 15 else 0).
  intros a b c d. destruct (Z.ltb_spec 0 (status f)), (Z.ltb_spec 0 (throttled_count (cores f))); lia.
Qed.

Lemma heat_says : says (λ _, scan_alarms) (λ n _, report_of n) (λ x _, x) poll.
Proof.
  intros n f [x o res]. unfold poll, report_of. cbv zeta. autorewrite with monad. rewrite !exec_raises.
  cbn [dk_own dk_out dk_results]. rewrite <-heat_score. unfold scan_alarms, temps, cores, status.
  rewrite !flat_map_app, <-!app_assoc.
  destruct (hf_results_ok f); cbn [file_result dk_own dk_out dk_results]; by rewrite ?app_nil_r.
Qed.

End Thermal.

(** Everything leatherheadd sends and reports, over any run: the alarms of each
    scan in order, and a report for each scan whose file could be written, with
    the score that the faults cost. *)
Theorem heat_reports enabled turns :
  let s := exec (Heat.heat_main enabled turns) (desk_start tt) in
  let made := scans_made (Bebop.is_enabled enabled) (map Heat.heat_turn turns) in
  dk_out s = flat_map (λ x, flat_map messages (Thermal.scan_alarms x.2)) made ∧
  dk_results s = flat_map (λ x, Thermal.report_of x.1 x.2) made.
Proof. apply run_memoryless, Thermal.heat_says. Qed.

(** ** The thermal deception pattern

    Pattern 6 of overlordd puts the reports of leatherheadd, rocksteadyd and bebopd
    together: the phone is warm and drains its battery, and no core is throttled.
    The counts reach overlordd exactly; but both daemons count a core that has
    nothing to do as throttled, and one such core rules the pattern out. *)

(** A report that overlordd reads whole. *)
Definition whole (text : string) : Prop := slen text <= 65535.

Lemma read_whole files name text : files name = Some text → whole text → read_daemon files name = Some text.
Proof.
  intros Hf Hlen. unfold read_daemon. rewrite Hf. f_equal. apply stake_all.
  unfold whole, slen in Hlen. lia.
Qed.

(** ** The counts *)

Definition int_ok (z : Z) : Prop := INT_MIN <= z <= INT_MAX.

Lemma rocky_grade_clean z : no_quotes (grade_of z).
Proof. unfold grade_of. by repeat case_match. Qed.

Lemma heat_grade_clean z : no_quotes (Heat.grade_of z).
Proof. unfold Heat.grade_of. by repeat case_match. Qed.

Hint Resolve rocky_grade_clean heat_grade_clean : mp.

Lemma rocky_throttled r :
  no_quotes (rr_ts r) → int_ok (rr_throttled r) →
  json_get_int (write_results r) "throttled_cores" = Some (rr_throttled r).
Proof.
  intros Ht Hn. unfold write_results. cbv zeta. pose proof (rocky_grade_clean (rr_score r)).
  rewrite <-(app_nil_r_str (fmt_d (rr_throttled r))).
  match goal with |- json_get_int (scat (?a1 :: ?a2 :: ?a3 :: ?a4 :: ?a5 :: ?a6 :: ?a7 :: ?a8 :: ?a9 :: ?b1 :: _ :: ?l)) _ = _ =>
    apply (read_member "throttled_cores") with (pre := [a1; a2; a3; a4; a5; a6; a7; a8; a9; b1]) (tail := "") (post := l) end;
    [key_tac|passes_tac|reflexivity|done|right; do 2 eexists; split; [reflexivity|right; by left]].
Qed.

Lemma heat_numbers r :
  no_quotes (Heat.hr_ts r) → int_ok (Heat.hr_score r) → int_ok (Heat.hr_throttled r) →
  json_get_int (Heat.write_results r) "thermal_score" = Some (Heat.hr_score r) ∧
  json_get_int (Heat.write_results r) "throttled_cores" = Some (Heat.hr_throttled r).
Proof.
  intros Ht Hs Hn. unfold Heat.write_results. cbv zeta. pose proof (heat_grade_clean (Heat.hr_score r)). split.
  - match goal with |- json_get_int (scat (?a1 :: ?a2 :: ?a3 :: ?a4 :: ?a5 :: ?a6 :: _ :: ?l)) _ = _ =>
      apply (read_member "thermal_score") with (pre := [a1; a2; a3; a4; a5; a6]) (tail := ",") (post := l) end;
      [key_tac|passes_tac|reflexivity|done|right; do 2 eexists; split; [reflexivity|by left]].
  - match goal with |- json_get_int (scat (?a1 :: ?a2 :: ?a3 :: ?a4 :: ?a5 :: ?a6 :: ?a7 :: ?a8 :: _ :: ?l)) _ = _ =>
      apply (read_member "throttled_cores") with (pre := [a1; a2; a3; a4; a5; a6; a7; a8]) (tail := ",") (post := l) end;
      [key_tac|passes_tac|reflexivity|done|right; do 2 eexists; split; [reflexivity|by left]].
Qed.

(** ** The decision *)

(** The text of the pattern. *)
Definition deception_detail (score : Z) (drain : double) : string :=
  snprintf 512 (scat
    ["Thermal score "; fmt_d score;
     "/100 but ZERO throttled cores — HyperOS underreporting temps to Android framework. Drain "; fmt_f 1 drain;
     " mAh/hr while system believes device is cool. Confirmed 18C HAL vs cached delta on this device."]).

(** C38. What the thermal deception pattern decides on: from the reports that
    leatherheadd and rocksteadyd write, overlordd adds the pattern exactly when
    leatherheadd's score is from 1 to 74, neither of the two counted a throttled
    core, and the drain that bebopd reports is above 150. *)
Theorem deception_decided files h r s :
  files "leatherheadd" = Some (Heat.write_results h) → files "rocksteadyd" = Some (write_results r) →
  whole (Heat.write_results h) → whole (write_results r) →
  no_quotes (Heat.hr_ts h) → no_quotes (rr_ts r) →
  int_ok (Heat.hr_score h) → int_ok (Heat.hr_throttled h) → int_ok (rr_throttled r) →
  let drain := double_or_file (read_daemon files "bebopd") "drain_mah_h" (S754_zero false) in
  exec (detect_thermal_deception files) s =
  if (0 <? Heat.hr_score h) && (Heat.hr_score h <? 75) && (Heat.hr_throttled h =? 0) && (rr_throttled r =? 0) && above drain 150
  then exec (add_pattern "THERMAL_DECEPTION_CYCLE" "CRITICAL" (deception_detail (Heat.hr_score h) drain) "T1481" (lit "0.85")) s
  else s.
Proof.
  intros Hh Hr Hwh Hwr Hth Htr Hs Hnh Hnr drain. unfold detect_thermal_deception.
  rewrite (read_whole files _ _ Hh Hwh), (read_whole files _ _ Hr Hwr).
  destruct (heat_numbers h Hth Hs Hnh) as [Hscore Hthr]. cbv zeta. fold drain.
  unfold int_or_file, int_or. rewrite Hscore, Hthr, (rocky_throttled r Htr Hnr). cbn [default id read_and].
  fold (deception_detail (Heat.hr_score h) drain). by destruct (_ && _ && _ && _ && _).
Qed.

(** ** One slow core *)

Lemma slow_throttled f c : c ∈ cores_of f → slow c → 0 < throttled_count (cores_of f).
Proof.
  intros Hc (Hcur & Hmax & Hq). unfold throttled_count, count_of.
  assert (c ∈ List.filter co_throttled (cores_of f)) as Hin.
  { apply list_elem_of_In, filter_In. split; [by apply list_elem_of_In|].
    pose proof (throttled_test f) as Hall. rewrite Forall_forall in Hall. rewrite (Hall c Hc). unfold THROTTLE_RATIO.
    by rewrite below_three_quarters, (proj2 (Z.ltb_lt _ _)), (proj2 (Z.ltb_lt _ _)) by lia. }
  destruct (List.filter _ _); [by apply elem_of_nil in Hin|cbn; lia].
Qed.

Lemma length_read_cores sysfs n : ∀ i, (length (read_cores sysfs n i) ≤ n)%nat.
Proof. induction n as [|n IH]; intros i; [done|]. cbn [read_cores]. destruct (_ <? 0); cbn; [lia|]. specialize (IH (i + 1)). lia. Qed.

Lemma throttled_few f : throttled_count (cores_of f) <= 16.
Proof.
  unfold throttled_count, count_of, cores_of, enumerate_cpus. cbn [fst].
  pose proof (length_read_cores (rf_sysfs f) MAX_CORES 0) as Hn. rewrite <-(length_map (set_cluster
    (insertion_sort (λ x key, key <? x) (distinct_freqs (read_cores (rf_sysfs f) MAX_CORES 0))))) in Hn.
  pose proof (filter_length_le co_throttled (map (set_cluster (insertion_sort (λ x key, key <? x)
    (distinct_freqs (read_cores (rf_sysfs f) MAX_CORES 0)))) (read_cores (rf_sysfs f) MAX_CORES 0))) as Hf.
  change MAX_CORES with 16%nat in *. lia.
Qed.

(** One idle core hides a deception: as soon as one core ran below three
    quarters of its highest frequency when rocksteadyd looked, overlordd never
    adds the pattern from that report, whatever leatherheadd and bebopd say. *)
Theorem slow_core_hides_deception files n rk f r c s :
  r ∈ scan_report n rk f → files "rocksteadyd" = Some (write_results r) → whole (write_results r) → no_quotes (rf_ts f) →
  c ∈ cores_of f → slow c →
  exec (detect_thermal_deception files) s = s.
Proof.
  intros Hr Hf Hw Ht Hc Hslow. pose proof (slow_throttled f c Hc Hslow) as Hpos. pose proof (throttled_few f) as Hfew.
  unfold scan_report in Hr. destruct (rf_results_ok f); [|by apply elem_of_nil in Hr]. apply list_elem_of_singleton in Hr.
  assert (json_get_int (write_results r) "throttled_cores" = Some (throttled_count (cores_of f))) as Hread.
  { assert (rr_throttled r = throttled_count (cores_of f)) as Hn by by rewrite Hr.
    rewrite rocky_throttled; [by rewrite Hn|by rewrite Hr|rewrite Hn; unfold int_ok, INT_MIN, INT_MAX; lia]. }
  unfold detect_thermal_deception. destruct (read_daemon files "leatherheadd") as [leather|]; [|done]. cbv zeta.
  rewrite (read_whole files _ _ Hf Hw). unfold int_or_file, int_or. rewrite Hread. cbn [default id].
  rewrite (proj2 (Z.eqb_neq (throttled_count (cores_of f)) 0)) by lia. by rewrite andb_false_r.
Qed.

(** ** A warm phone *)

(** The phone of [Rocky], with its cores at half their frequency. *)
Definition warm_rocky : rocky_report := RockyReport "12:00:00" 36 1 1 0 8 8.

Definition warm_heat (throttled : Z) : Heat.heat_report := Heat.HeatReport "12:00:00" 48 1 2 [] throttled 8.

Definition warm_bebop : Bebop.bebop_report := Bebop.BebopReport "12:00:00" 62 1 1 80 (f_of_Z 420) 0 0.

Definition warm_files (h : Heat.heat_report) (r : rocky_report) (name : string) : option string :=
  if String.eqb name "leatherheadd" then Some (Heat.write_results h)
  else if String.eqb name "rocksteadyd" then Some (write_results r)
  else if String.eqb name "bebopd" then Some (Bebop.write_results warm_bebop)
  else None.

(** No core throttled: the pattern is added, with the drain. *)
Lemma deception_decided_witness :
  let r := RockyReport "12:00:00" 100 1 0 0 8 0 in
  let o := exec (detect_thermal_deception (warm_files (warm_heat 0) r)) overlord_init in
  map pt_name (o_patterns o) = ["THERMAL_DECEPTION_CYCLE"] ∧
  contains (deception_detail 48 (d_of_Z 420)) "Drain 420.0 mAh/hr" = true.
Proof.
  cbv zeta. split; [|vm_compute; reflexivity].
  pose proof (deception_decided (warm_files (warm_heat 0) (RockyReport "12:00:00" 100 1 0 0 8 0)) (warm_heat 0)
    (RockyReport "12:00:00" 100 1 0 0 8 0) overlord_init) as H. cbv zeta in H. rewrite H;
    [vm_compute; reflexivity|reflexivity|reflexivity|vm_compute; discriminate|vm_compute; discriminate|reflexivity|reflexivity|split; vm_compute; discriminate|split; vm_compute; discriminate|split; vm_compute; discriminate].
Defined.

Lemma slow_core_hides_deception_witness :
  let r := RockyReport "t" (score_after (hardware idle_facts)) 1 (Z.of_nat (length (hardware idle_facts))) 0 8 8 in
  exec (detect_thermal_deception (warm_files (warm_heat 0) r)) overlord_init = overlord_init.
Proof.
  intros r. apply (slow_core_hides_deception _ 1 rocky_start idle_facts r (nth 0 (cores_of idle_facts) (Core 0 0 0 0 "" false false 0)) overlord_init).
  - apply list_elem_of_singleton. vm_compute. reflexivity.
  - reflexivity.
  - vm_compute. discriminate.
  - reflexivity.
  - apply list_elem_of_lookup_2 with 0%nat. vm_compute. reflexivity.
  - vm_compute. split_and!; congruence.
Defined.
