(* ===== verification/Members.v ===== *)
(** * Escaped texts among the members

    overlordd finds a member of a result file by its quoted name.  No text that
    [json_escape] wrote between two quotes can stand for one. *)

From S2P Require Import Prelude CString Double Strtod Wire Krang Digits Numbers.
From S2P Require Import Ring World Ingest Queues Overlord Nulld Fleet Screen Reports Escape.
From Stdlib Require Import Ascii.

(** Every quote follows a backslash. *)
Fixpoint escaped (s : string) : bool :=
  match s with
  | EmptyString => true
  | String c s' =>
      if Ascii.eqb c BACKSLASH then match s' with String _ s'' => escaped s'' | EmptyString => false end
      else negb (Ascii.eqb quote c) && escaped s'
  end.

Lemma escape_escaped size s : ∀ j, escaped (json_escape size j s) = true.
Proof.
  induction s as [|c s IH]; intros j; [done|].
  destruct (decide (j + 1 < size)%nat) as [Hj|Hj].
  2:{ cbn [json_escape]. by rewrite (proj2 (Nat.leb_le _ _)) by lia. }
  destruct (escape_cases c) as [d _ _ He|_ He|_ H1 H2 _ He]; rewrite He by done.
  - destruct (_ <=? _)%nat; [done|]. cbn [escaped]. rewrite Ascii.eqb_refl. apply IH.
  - apply IH.
  - cbn [escaped]. rewrite H2.
    replace (Ascii.eqb quote c) with false by (symmetry; rewrite Ascii.eqb_sym; exact H1). apply IH.
Qed.

(** Induction over an escaped text, character by character or pair by pair. *)
Lemma escaped_ind (Q : string → Prop) :
  Q "" → (∀ c s, Ascii.eqb c BACKSLASH = false → Ascii.eqb quote c = false → escaped s = true → Q s → Q (String c s)) →
  (∀ d s, escaped s = true → Q s → Q (String BACKSLASH (String d s))) → ∀ s, escaped s = true → Q s.
Proof.
  intros H0 Hc Hp s. remember (String.length s) as n eqn:Hn.
  revert s Hn. induction (lt_wf n) as [n _ IH]. intros [|c s] Hn; [done|]. cbn [escaped].
  destruct (Ascii.eqb c BACKSLASH) eqn:Hb.
  - apply Ascii.eqb_eq in Hb as ->. destruct s as [|d s]; [done|]. intros Hs. apply Hp; [done|].
    apply (IH (String.length s)); [cbn in Hn; lia|done|done].
  - intros [Hq%negb_true_iff Hs]%andb_prop. apply Hc; [done..|]. apply (IH (String.length s)); [cbn in Hn; lia|done|done].
Qed.

Definition plain_key (key : string) : Prop := key_ok key ∧ none_of (Ascii.eqb BACKSLASH) key = true.

(** A key and its closing quote are not found in an escaped text: the text would
    have to end with the key. *)
Lemma key_in_escaped e c t : escaped e = true → ∀ k,
  none_of (Ascii.eqb BACKSLASH) k = true → none_of (Ascii.eqb quote) k = true →
  has_prefix (k +:+ QUOTE +:+ ":") (e +:+ QUOTE +:+ String c t) = true → c = ":"%char.
Proof.
  intros He. pattern e. revert e He. apply escaped_ind.
  - intros k _ Hk. change ("" +:+ QUOTE +:+ String c t) with (String quote (String c t)).
    destruct k as [|a k].
    + change ("" +:+ QUOTE +:+ ":") with (String quote ":"). cbn [has_prefix].
      rewrite Ascii.eqb_refl, andb_true_r. by intros [_ <-%Ascii.eqb_eq]%andb_prop.
    + rewrite none_of_cons in Hk. apply andb_prop in Hk as [Ha _]. rewrite app_cons_str. cbn [has_prefix].
      rewrite Ascii.eqb_sym. by apply negb_true_iff in Ha as ->.
  - intros b s _ Hb _ IH k Hbs Hk. rewrite app_cons_str. destruct k as [|a k].
    + change ("" +:+ QUOTE +:+ ":") with (String quote ":"). cbn [has_prefix]. by rewrite Hb.
    + rewrite none_of_cons in Hk, Hbs. apply andb_prop in Hk as [_ Hk], Hbs as [_ Hbs]. rewrite app_cons_str. cbn [has_prefix].
      intros [_ Hp]%andb_prop. by apply (IH k).
  - intros d s _ _ k Hbs _. rewrite !app_cons_str. destruct k as [|a k].
    + change ("" +:+ QUOTE +:+ ":") with (String quote ":"). done.
    + rewrite none_of_cons in Hbs. apply andb_prop in Hbs as [Ha _]. rewrite app_cons_str. cbn [has_prefix].
      rewrite Ascii.eqb_sym. by apply negb_true_iff in Ha as ->.
Qed.

(** An escaped string that another member or the end of the object follows. *)
Lemma passes_escaped key e c t :
  plain_key key → escaped e = true → c ≠ ":"%char →
  strstr (e +:+ QUOTE +:+ String c t) (needle_of key) = strstr (QUOTE +:+ String c t) (needle_of key).
Proof.
  intros [(Hk & _ & _) Hbs] He Hc. revert e He. apply escaped_ind.
  - done.
  - intros b s _ Hb _ IH. rewrite app_cons_str. cbn [strstr].
    replace (has_prefix (needle_of key) (String b (s +:+ QUOTE +:+ String c t))) with false; [exact IH|].
    unfold needle_of. change (QUOTE +:+ key +:+ QUOTE +:+ ":") with (String quote (key +:+ QUOTE +:+ ":")). cbn [has_prefix]. by rewrite Hb.
  - intros d s Hs IH. rewrite !app_cons_str. cbn [strstr].
    replace (has_prefix (needle_of key) (String BACKSLASH (String d (s +:+ QUOTE +:+ String c t)))) with false by reflexivity.
    destruct (has_prefix (needle_of key) (String d (s +:+ QUOTE +:+ String c t))) eqn:Hp; [|exact IH].
    exfalso. apply Hc. unfold needle_of in Hp.
    change (QUOTE +:+ key +:+ QUOTE +:+ ":") with (String quote (key +:+ QUOTE +:+ ":")) in Hp. cbn [has_prefix] in Hp.
    apply andb_prop in Hp as [_ Hp]. by apply (key_in_escaped s c t Hs key).
Qed.

(** ** A member at its place *)

(** A number, which a comma or the line end follows. *)
Definition number_line (l : list string) (n : nat) (indent key : string) (z : Z) : Prop :=
  l !! n = Some (json_line indent key (fmt_d z +:+ ",")) ∨ l !! n = Some (json_line indent key (fmt_d z)).

Lemma read_number_at key n l indent z :
  number_line l n indent key z → key_ok key → Forall (passes key) (take n l) → no_quotes indent → INT_MIN <= z <= INT_MAX →
  json_get_int (scat l) key = Some z.
Proof.
  intros Hl Hk Hp Hi Hz. assert (∃ tail, l !! n = Some (json_line indent key (fmt_d z +:+ tail)) ∧
    ∀ r, number_ends (tail +:+ NLs +:+ r)) as (tail & Hn & He).
  { destruct Hl as [Hl|Hl].
    - exists ",". split; [done|]. intros r. right. do 2 eexists. split; [reflexivity|by left].
    - exists "". rewrite app_nil_r_str. split; [done|]. intros r. right. do 2 eexists. split; [reflexivity|right; by left]. }
  rewrite <-(take_drop_middle l n _ Hn). by apply (read_member key Hk).
Qed.

(** Prove that the number at place [n] of a written report is read back. *)
Ltac number_at n ind :=
  eapply (read_number_at _ n) with (indent := ind); [first [left; reflexivity | right; reflexivity]|key_tac|cbn [firstn]; passes_tac|reflexivity|assumption].
