(* ===== verification/Fugitoid.v ===== *)
(** * fugitoidd: the foreground app and the log ([src/daemon/fugitoidd.c])

    Every turn fugitoidd runs one command with four parts, cuts its output at the
    tags between them in place, and reports switches of the foreground app,
    crashes, hanging apps and kills for memory.  The loop is that of [Scan].  The
    second part proves what a run reports and what overlordd reads of it. *)

From S2P Require Import Prelude CString Double Wire Overlord Krang Digits Nulld Screen Numbers Reports Conv.
From S2P Require Import Scan Members.
From S2P Require Bebop.
From Stdlib Require Import Ascii.

Definition DEFAULT_INTERVAL : Z := 20.

(** The output of the command, the time, and whether the result file can be
    written. *)
Record fugi_facts := FugiFacts { ff_raw : option string; ff_ts : string; ff_results_ok : bool }.

(** The arguments of [write_results]. *)
Record fugi_report := FugiReport {
  fr_ts : string; fr_scan_num : Z; fr_crashes : Z; fr_anrs : Z; fr_ooms : Z; fr_app : string }.

(** [config_get_int] on the text of the state file. *)
Definition config_get_int (file : option string) (key : string) (def : Z) : Z :=
  default def
    (text ← file;
     s ← strstr (stake 4095 text) (quoted "fugitoidd");
     p ← strstr s (quoted key +:+ ":");
     Some (atoi (skip_while (char_in (String " " (String (chr 9) ""))) (sdrop (String.length key + 3) p)))).

Definition is_enabled (file : option string) : Z := config_get_int file "enabled" 1.
Definition get_interval (file : option string) : Z := config_get_int file "interval" DEFAULT_INTERVAL.
Definition get_max_scans (file : option string) : Z := config_get_int file "scan_count" 0.

Definition count_substr (hay needle : string) : Z := Bebop.occurrences needle hay.

(** fugitoidd neutralises the same characters as bebopd. *)
Definition sanitize_field (s : string) : string := Bebop.sanitize_field s.

(** ** Parts of a buffer

    The buffer [raw] is cut by writing NULs into it; a place is an offset. *)

(** The C string at an offset. *)
Definition text_at (buf : string) (i : nat) : string := c_str (sdrop i buf).

(** [strstr] from an offset. *)
Definition find_at (buf : string) (i : nat) (tag : string) : option nat :=
  (λ r, (i + (String.length (text_at buf i) - String.length r))%nat) <$> strstr (text_at buf i) tag.

(** [buf[i] = '\0']. *)
Definition poke (buf : string) (i : nat) : string := stake i buf +:+ String NUL (sdrop (S i) buf).

(** [char *e = strstr(sec, tag); if (e) *e = 0], where [sec] is [i] and the code
    does so only if the tag was found at first. *)
Definition cut_section (buf : string) (i : nat) (found : option nat) (tag : string) : string :=
  match found with
  | Some _ => match find_at buf i tag with Some e => poke buf e | None => buf end
  | None => buf
  end.

(** The texts of the four parts: foreground, main log, crash log and log of
    hanging apps; [None] and the empty text when the tag is missing. *)
Definition sections (raw : string) : option string * string * string * string :=
  let fg_sec := find_at raw 0 "==FG==" in
  let main_sec := find_at raw 0 "==MAIN==" in
  let crash_sec := find_at raw 0 "==CRASH==" in
  let anr_sec := find_at raw 0 "==ANR==" in
  let raw := match fg_sec with Some i => cut_section raw (i + 6) main_sec "==MAIN==" | None => raw end in
  let fg := (λ i, text_at raw (i + 6)%nat) <$> fg_sec in
  let raw := match main_sec with Some i => cut_section raw (i + 8) crash_sec "==CRASH==" | None => raw end in
  let raw := match crash_sec with Some i => cut_section raw (i + 9) anr_sec "==ANR==" | None => raw end in
  let log sec n := match sec with Some i => text_at raw (i + n)%nat | None => "" end in
  (fg, log main_sec 8%nat, log crash_sec 9%nat, log anr_sec 7%nat).

(** ** What the parts say *)

Definition ends_word (c : ascii) : bool := Ascii.eqb c " " || Ascii.eqb c "}".

Definition foreground (fg : option string) : string :=
  default "unknown"
    (fg ← fg;
     p ← strstr fg "ActivityRecord{";
     u0 ← strstr p " u0 ";
     let tmp := cut_at "/" (stake 127 (break_at ends_word (sdrop 4 u0)).1) in
     Some (sanitize_field (if String.eqb tmp "" then "unknown" else tmp))).

Definition crash_count (main_log crash_log : string) : Z :=
  count_substr crash_log "FATAL EXCEPTION" + count_substr main_log "crashed service".

Definition anr_count (anr_log : string) : Z := count_substr anr_log "ANR in" + count_substr anr_log "ANR Warning".

Definition oom_count (main_log : string) : Z :=
  count_substr main_log "lowmemorykiller" + count_substr main_log "OOM killer" +
  count_substr main_log "mem-pressure-event".

Definition ends_target (c d : ascii) : bool := Ascii.eqb c NL || Ascii.eqb c d.

Definition anr_target (anr_log : string) : string :=
  sanitize_field
    (match strstr anr_log "ANR in " with
     | Some p => stake 63 (break_at (ends_target " ") (sdrop 7 p)).1
     | None => "unknown"
     end).

Definition crash_target (crash_log : string) : string :=
  sanitize_field
    (default "unknown"
      (p ← strstr crash_log "FATAL EXCEPTION:";
       p ← strstr p "Process: ";
       Some (stake 63 (break_at (ends_target ",") (sdrop 9 p)).1))).

(** [gaveld_emit(.., 0.0, ev)] with the [splinterd_emit] that follows it. *)
Definition note (signal type ev : string) : list sensor_output := [ToGaveld signal (d_of_Z 0) ev; ToSplinter type ev].

Definition app_switch (prev app : string) : list sensor_output :=
  if negb (String.eqb app "unknown") && negb (String.eqb app prev) && negb (String.eqb prev "")
  then note "APP_SWITCH_ANOMALY" "app_switch"
         (snprintf 256 (scat ["from="; stake 48 prev; " to="; stake 48 app]))
  else [].

Definition anr_note (anr_log : string) : list sensor_output :=
  if 0 <? anr_count anr_log
  then note "ANR_DETECTED" "anr_detected"
         (snprintf 256 (scat ["count="; fmt_d (anr_count anr_log); " target="; stake 48 (anr_target anr_log)]))
  else [].

Definition crash_note (main_log crash_log : string) : list sensor_output :=
  if 0 <? crash_count main_log crash_log
  then note "CRASH_DETECTED" "crash_detected"
         (snprintf 256 (scat ["count="; fmt_d (crash_count main_log crash_log); " process="; stake 48 (crash_target crash_log)]))
  else [].

Definition oom_note (main_log : string) : list sensor_output :=
  if 0 <? oom_count main_log
  then note "OOM_KILL_EVENT" "oom_kill" (snprintf 64 (scat ["oom_events="; fmt_d (oom_count main_log)]))
  else [].

(** ** A scan *)

Definition write_results (r : fugi_report) : string :=
  let l := json_line "  " in
  scat ["{"; NLs;
        l "daemon" (quoted "fugitoidd" +:+ ","); l "timestamp" (quoted (fr_ts r) +:+ ",");
        l "scan_number" (fmt_d (fr_scan_num r) +:+ ","); l "foreground_app" (quoted (stake 64 (fr_app r)) +:+ ",");
        l "crashes" (fmt_d (fr_crashes r) +:+ ","); l "anrs" (fmt_d (fr_anrs r) +:+ ",");
        l "oom_events" (fmt_d (fr_ooms r)); "}"; NLs].

Definition emit_all {R} (l : list sensor_output) : M (desk string R) unit := modify (put l).

(** [g_prev_app] is what fugitoidd keeps. *)
Definition poll (scan_num : Z) (f : fugi_facts) : M (desk string fugi_report) unit :=
  match ff_raw f with
  | None => mret tt
  | Some raw =>
      let '(fg, main_log, crash_log, anr_log) := sections raw in
      let app := foreground fg in
      prev ← gets dk_own;
      _ ← emit_all (app_switch prev app);
      _ ← mwhen (negb (String.eqb app "unknown")) (modify (set_own (stake 127 app)));
      _ ← emit_all (anr_note anr_log);
      _ ← emit_all (crash_note main_log crash_log);
      _ ← emit_all (oom_note main_log);
      mwhen (ff_results_ok f)
        (modify (file_result (FugiReport (ff_ts f) scan_num (crash_count main_log crash_log) (anr_count anr_log)
                                (oom_count main_log) app)))
  end.

(** [main]: a turn reads the state file again. *)
Definition fugi_turn (x : option string * fugi_facts) : turn fugi_facts :=
  Turn (is_enabled x.1) (get_max_scans x.1) x.2.

Definition fugi_main (file : option string) (turns : list (option string * fugi_facts)) : M (desk string fugi_report) bool :=
  scan_main poll (is_enabled file) (map fugi_turn turns).

(** ** fugitoidd over a run

    The parts of the output are split where the tags are; the switches that are
    reported are the changes of the known foreground app; and overlordd reads the
    counts exactly. *)

(** ** What a scan says *)

Definition parts (raw : string) : string * string * string * string :=
  let '(fg, main_log, crash_log, anr_log) := sections raw in (foreground fg, main_log, crash_log, anr_log).

Definition scan_outs (prev : string) (f : fugi_facts) : list sensor_output :=
  match ff_raw f with
  | Some raw =>
      let '(app, main_log, crash_log, anr_log) := parts raw in
      app_switch prev app ++ anr_note anr_log ++ crash_note main_log crash_log ++ oom_note main_log
  | None => []
  end.

(** The foreground app of a scan, if it is known. *)
Definition known_app (f : fugi_facts) : option string :=
  raw ← ff_raw f;
  let app := foreground (sections raw).1.1.1 in
  if String.eqb app "unknown" then None else Some app.

Definition scan_next (prev : string) (f : fugi_facts) : string := default prev (stake 127 <$> known_app f).

Definition scan_report (n : Z) (_ : string) (f : fugi_facts) : list fugi_report :=
  match ff_raw f with
  | Some raw =>
      let '(app, main_log, crash_log, anr_log) := parts raw in
      if ff_results_ok f
      then [FugiReport (ff_ts f) n (crash_count main_log crash_log) (anr_count anr_log) (oom_count main_log) app]
      else []
  | None => []
  end.

Lemma poll_tells : tells scan_outs scan_report scan_next poll.
Proof.
  intros n f [prev o res]. unfold poll, scan_outs, scan_report, scan_next, known_app, parts.
  destruct (ff_raw f) as [raw|]; [|cbn; by rewrite !app_nil_r].
  cbn [mbind option_bind]. destruct (sections raw) as [[[fg main_log] crash_log] anr_log]. cbn [fst].
  unfold emit_all. autorewrite with monad. cbn [dk_own].
  destruct (String.eqb (foreground fg) "unknown"), (ff_results_ok f); cbn;
    unfold file_result, put, set_own; cbn; by rewrite ?app_nil_r, <-?app_assoc.
Qed.

(** Everything fugitoidd sends and reports, over any run: scan by scan, the
    switch of the foreground app against the last known one, then what the logs
    count, and a report with the counts for each scan whose command ran. *)
Theorem fugi_reports file turns :
  let s := exec (fugi_main file turns) (desk_start "") in
  let made := scans_made (is_enabled file) (map fugi_turn turns) in
  dk_out s = flat_map (λ y, scan_outs y.1.2 y.2) (owned scan_next "" made) ∧
  dk_results s = flat_map (λ x, scan_report x.1 "" x.2) made.
Proof.
  intros s made. unfold s, fugi_main. rewrite exec_scan_main. fold made.
  destruct (run_tells _ _ _ _ made poll_tells (desk_start "")) as [-> ->]. split; [done|].
  cbn [desk_start dk_own dk_results app]. generalize "". induction made as [|[n f] l IH]; intros x; [done|].
  cbn [owned flat_map fst snd]. by rewrite IH.
Qed.

(** ** Switches *)

Lemma sanitized_length s : String.length (Bebop.sanitize_field s) = String.length s.
Proof. induction s as [|c s IH]; [done|]. cbn. by rewrite IH. Qed.

Lemma length_cut_at c s : (String.length (cut_at c s) ≤ String.length s)%nat.
Proof.
  unfold cut_at. induction s as [|a s IH]; [done|]. cbn [break_at]. destruct (Ascii.eqb c a); [cbn; lia|].
  destruct (break_at _ s) as [x y]. cbn in *. lia.
Qed.

Lemma foreground_bounds fg : foreground fg ≠ "" ∧ (String.length (foreground fg) ≤ 127)%nat.
Proof.
  unfold foreground. destruct (fg ← fg; _) as [app|] eqn:H; [|by cbn; split; [|lia]]. cbn [default].
  destruct fg as [fg|]; [|done]. cbn [mbind option_bind] in H. destruct (strstr fg "ActivityRecord{") as [p|]; [|done]. cbn [mbind option_bind] in H.
  destruct (strstr p " u0 ") as [u0|]; [|done]. cbn [mbind option_bind] in H. apply (inj Some) in H. subst app.
  set (tmp := cut_at "/" _). assert (String.length tmp ≤ 127)%nat.
  { unfold tmp. etrans; [apply length_cut_at|]. rewrite length_stake. lia. }
  unfold sanitize_field. destruct (String.eqb_spec tmp "") as [_|Hne].
  - cbn. split; [done|lia].
  - split; [|by cbn; rewrite sanitized_length]. intros Hs. apply Hne. cbn in Hs.
    destruct tmp; [done|]. discriminate Hs.
Qed.

Definition is_switch (o : sensor_output) : bool :=
  match o with
  | ToGaveld signal _ _ => String.eqb signal "APP_SWITCH_ANOMALY"
  | ToSplinter type _ => String.eqb type "app_switch"
  end.

(** The changes in a list of apps after [prev], which is empty at the start. *)
Fixpoint changes (prev : string) (apps : list string) : list (string * string) :=
  match apps with
  | [] => []
  | a :: apps' => (if String.eqb prev "" || String.eqb a prev then [] else [(prev, a)]) ++ changes a apps'
  end.

Definition switch_text (x : string * string) : string :=
  snprintf 256 (scat ["from="; stake 48 x.1; " to="; stake 48 x.2]).

Definition switch_note (x : string * string) : list sensor_output :=
  note "APP_SWITCH_ANOMALY" "app_switch" (switch_text x).

Lemma other_notes main_log crash_log anr_log :
  List.filter is_switch (anr_note anr_log ++ crash_note main_log crash_log ++ oom_note main_log) = [].
Proof. unfold anr_note, crash_note, oom_note. by repeat case_match. Qed.

Lemma scan_switch prev f :
  List.filter is_switch (scan_outs prev f) =
  flat_map switch_note (changes prev (option_list (known_app f))).
Proof.
  unfold scan_outs, known_app, parts. destruct (ff_raw f) as [raw|]; [|done]. cbn [mbind option_bind].
  destruct (sections raw) as [[[fg main_log] crash_log] anr_log]. cbn [fst].
  rewrite List.filter_app, other_notes, app_nil_r. unfold app_switch.
  destruct (String.eqb (foreground fg) "unknown"); [done|]. generalize (foreground fg). intros app.
  change (option_list (Some app)) with [app]. cbn [changes].
  destruct (String.eqb prev ""), (String.eqb app prev); reflexivity.
Qed.

Lemma run_switches (l : list (Z * fugi_facts)) : ∀ prev,
  List.filter is_switch (flat_map (λ y, scan_outs y.1.2 y.2) (owned scan_next prev l)) =
  flat_map switch_note (changes prev (omap (λ x, known_app x.2) l)).
Proof.
  induction l as [|[n f] l IH]; intros prev; [done|].
  cbn [owned flat_map fst snd]. rewrite List.filter_app, IH, scan_switch. unfold scan_next.
  cbn [omap list_omap snd]. destruct (known_app f) as [app|] eqn:Hk; [|done].
  cbn [fmap option_fmap option_map default from_option id].
  assert (stake 127 app = app) as ->.
  { unfold known_app in Hk. destruct (ff_raw f) as [raw|]; [|done]. cbn [mbind option_bind] in Hk.
    destruct (String.eqb _ _); [done|]. apply (inj Some) in Hk. subst app. apply stake_all, foreground_bounds. }
  change (option_list (Some app)) with [app]. cbn [changes]. by rewrite app_nil_r, flat_map_app.
Qed.

(** C35. The switches of the foreground app that fugitoidd reports over a run are
    exactly the changes in the sequence of the known apps of its scans, in order:
    none is missed and none is reported twice; a scan whose app is unknown does not
    count, and the first known app is no switch. *)
Theorem switches_are_changes file turns :
  let s := exec (fugi_main file turns) (desk_start "") in
  let made := scans_made (is_enabled file) (map fugi_turn turns) in
  List.filter is_switch (dk_out s) = flat_map switch_note (changes "" (omap (λ x, known_app x.2) made)).
Proof.
  intros s made. unfold s, fugi_main. rewrite exec_scan_main. fold made.
  destruct (run_tells _ _ _ _ made poll_tells (desk_start "")) as [-> _]. apply run_switches.
Qed.

(** ** The parts *)

(** No pair of equal signs, none at the end, and no NUL. *)
Fixpoint clear (s : string) : bool :=
  match s with
  | EmptyString => true
  | String c s' =>
      negb (Ascii.eqb "=" c && match s' with EmptyString => true | String d _ => Ascii.eqb "=" d end)
      && negb (Ascii.eqb NUL c) && clear s'
  end.

Lemma clear_nul s : clear s = true → none_of (Ascii.eqb NUL) s = true.
Proof.
  induction s as [|c s IH]; [done|]. cbn [clear]. intros [[_ Hn]%andb_prop Hs]%andb_prop.
  by rewrite none_of_cons, Hn, IH.
Qed.

Lemma strstr_clear s t tag : clear s = true → strstr (s +:+ t) ("==" +:+ tag) = strstr t ("==" +:+ tag).
Proof.
  induction s as [|c s IH]; [done|]. cbn [clear]. intros [[Hc%negb_true_iff _]%andb_prop Hs]%andb_prop.
  rewrite app_cons_str. cbn [strstr]. rewrite IH by done.
  replace (has_prefix ("==" +:+ tag) (String c (s +:+ t))) with false; [done|]. rewrite !app_cons_str. cbn [has_prefix].
  destruct (Ascii.eqb "=" c); [|done]. cbn [andb] in *. destruct s as [|d s]; [done|]. rewrite app_cons_str. cbn [has_prefix]. by rewrite Hc.
Qed.

Lemma strstr_tag tag t : strstr (String "=" tag +:+ t) (String "=" tag) = Some (String "=" tag +:+ t).
Proof. rewrite app_cons_str. cbn [strstr]. by rewrite <-app_cons_str, has_prefix_app. Qed.

Lemma sdrop_plus p n q : sdrop (String.length p + n) (p +:+ q) = sdrop n q.
Proof. induction p as [|c p IH]; [done|]. exact IH. Qed.

(** The operations at a place between [p] and the rest. *)
Lemma find_from buf i p u tag v :
  buf = p +:+ u +:+ tag +:+ v → i = String.length p →
  strstr (u +:+ tag +:+ v) tag = Some (tag +:+ v) → c_str (u +:+ tag +:+ v) = u +:+ tag +:+ v →
  find_at buf i tag = Some (i + String.length u)%nat.
Proof.
  intros -> -> Hs Hn. unfold find_at, text_at. rewrite sdrop_app, Hn, Hs. cbn [fmap option_fmap option_map]. f_equal.
  rewrite (length_app_str u). lia.
Qed.

Lemma poke_app buf i p c q : buf = p +:+ String c q → i = String.length p → poke buf i = p +:+ String NUL q.
Proof.
  intros -> ->. unfold poke. rewrite stake_app_all. f_equal. f_equal. rewrite <-Nat.add_1_r, sdrop_plus. done.
Qed.

Lemma cut_found buf i p u tag v found :
  buf = p +:+ u +:+ String "=" tag +:+ v → i = String.length p →
  strstr (u +:+ String "=" tag +:+ v) (String "=" tag) = Some (String "=" tag +:+ v) →
  c_str (u +:+ String "=" tag +:+ v) = u +:+ String "=" tag +:+ v →
  cut_section buf i (Some found) (String "=" tag) = p +:+ u +:+ String NUL (tag +:+ v).
Proof.
  intros Hb Hi Hs Hn. unfold cut_section. rewrite (find_from buf i p u (String "=" tag) v) by done.
  rewrite (poke_app buf _ (p +:+ u) "=" (tag +:+ v)); [by rewrite app_assoc_str| |].
  - by rewrite Hb, app_assoc_str.
  - by rewrite Hi, length_app_str.
Qed.

Lemma text_before buf i p u v :
  buf = p +:+ u +:+ String NUL v → i = String.length p → none_of (Ascii.eqb NUL) u = true → text_at buf i = u.
Proof. intros -> -> Hu. unfold text_at, c_str, cut_at. rewrite sdrop_app. by rewrite break_at_stop. Qed.

Lemma text_end buf i p u :
  buf = p +:+ u → i = String.length p → none_of (Ascii.eqb NUL) u = true → text_at buf i = u.
Proof. intros -> -> Hu. unfold text_at. rewrite sdrop_app. by apply c_str_id. Qed.

(** What the command prints: each part begins with the line end of its echo. *)
Definition printed (fg main_log crash_log anr_log : string) : string :=
  "==FG==" +:+ (NLs +:+ fg) +:+ "==MAIN==" +:+ (NLs +:+ main_log) +:+ "==CRASH==" +:+ (NLs +:+ crash_log) +:+
  "==ANR==" +:+ (NLs +:+ anr_log).

Lemma clear_part s : clear s = true → clear (NLs +:+ s) = true.
Proof. intros Hs. change (NLs +:+ s) with (String NL s). cbn [clear]. by rewrite Hs. Qed.

Ltac no_nul := apply c_str_id; rewrite ?none_of_app; repeat (apply andb_true_intro; split);
  first [by apply clear_nul | reflexivity].

(** The parts of the command's output are split exactly where the tags are, for
    all parts without a pair of equal signs: the foreground app and the three logs
    are read from their own parts, and the NULs that the code writes between them
    cut nothing off. *)
Theorem sections_split fg main_log crash_log anr_log :
  clear fg = true → clear main_log = true → clear crash_log = true → clear anr_log = true →
  sections (printed fg main_log crash_log anr_log) =
  (Some (NLs +:+ fg), NLs +:+ main_log, NLs +:+ crash_log, NLs +:+ anr_log).
Proof.
  intros Ha%clear_part Hb%clear_part Hc%clear_part Hd%clear_part. unfold printed.
  assert (∀ x t, strstr ("==FG==" +:+ (NLs +:+ x) +:+ t) "==MAIN==" = strstr ((NLs +:+ x) +:+ t) "==MAIN==") as E1 by reflexivity.
  assert (∀ x t, strstr ("==FG==" +:+ (NLs +:+ x) +:+ t) "==CRASH==" = strstr ((NLs +:+ x) +:+ t) "==CRASH==") as E2 by reflexivity.
  assert (∀ x t, strstr ("==FG==" +:+ (NLs +:+ x) +:+ t) "==ANR==" = strstr ((NLs +:+ x) +:+ t) "==ANR==") as E3 by reflexivity.
  assert (∀ x t, strstr ("==MAIN==" +:+ (NLs +:+ x) +:+ t) "==CRASH==" = strstr ((NLs +:+ x) +:+ t) "==CRASH==") as E4 by reflexivity.
  assert (∀ x t, strstr ("==MAIN==" +:+ (NLs +:+ x) +:+ t) "==ANR==" = strstr ((NLs +:+ x) +:+ t) "==ANR==") as E5 by reflexivity.
  assert (∀ x t, strstr ("==CRASH==" +:+ (NLs +:+ x) +:+ t) "==ANR==" = strstr ((NLs +:+ x) +:+ t) "==ANR==") as E6 by reflexivity.
  specialize (E1 fg). specialize (E2 fg). specialize (E3 fg). specialize (E4 main_log). specialize (E5 main_log). specialize (E6 crash_log).
  revert Ha Hb Hc Hd E1 E2 E3 E4 E5 E6. generalize (NLs +:+ fg) (NLs +:+ main_log) (NLs +:+ crash_log) (NLs +:+ anr_log).
  intros a b c d Ha Hb Hc Hd E1 E2 E3 E4 E5 E6. unfold sections.
  set (raw := "==FG==" +:+ _).
  rewrite (find_from raw 0 "" "" "==FG==" (a +:+ "==MAIN==" +:+ b +:+ "==CRASH==" +:+ c +:+ "==ANR==" +:+ d)).
  rewrite (find_from raw 0 "" ("==FG==" +:+ a) "==MAIN==" (b +:+ "==CRASH==" +:+ c +:+ "==ANR==" +:+ d)).
  rewrite (find_from raw 0 "" ("==FG==" +:+ a +:+ "==MAIN==" +:+ b) "==CRASH==" (c +:+ "==ANR==" +:+ d)).
  rewrite (find_from raw 0 "" ("==FG==" +:+ a +:+ "==MAIN==" +:+ b +:+ "==CRASH==" +:+ c) "==ANR==" d).
  rewrite (cut_found raw _ "==FG==" a "=MAIN==" (b +:+ "==CRASH==" +:+ c +:+ "==ANR==" +:+ d)).
  set (raw1 := "==FG==" +:+ a +:+ String NUL _).
  rewrite (cut_found raw1 _ ("==FG==" +:+ a +:+ String NUL "=MAIN==") b "=CRASH==" (c +:+ "==ANR==" +:+ d)).
  set (raw2 := _ +:+ b +:+ String NUL _).
  rewrite (cut_found raw2 _ ("==FG==" +:+ a +:+ String NUL "=MAIN==" +:+ b +:+ String NUL "=CRASH==") c "=ANR==" d).
  set (raw3 := _ +:+ c +:+ String NUL _). cbn [fmap option_fmap option_map].
  1: rewrite (text_before raw1 _ "==FG==" a ("=MAIN==" +:+ b +:+ "==CRASH==" +:+ c +:+ "==ANR==" +:+ d)).
  1: rewrite (text_before raw3 _ ("==FG==" +:+ a +:+ String NUL "=MAIN==") b ("=CRASH==" +:+ c +:+ String NUL ("=ANR==" +:+ d))).
  1: rewrite (text_before raw3 _ ("==FG==" +:+ a +:+ String NUL "=MAIN==" +:+ b +:+ String NUL "=CRASH==") c ("=ANR==" +:+ d)).
  1: rewrite (text_end raw3 _ ("==FG==" +:+ a +:+ String NUL "=MAIN==" +:+ b +:+ String NUL "=CRASH==" +:+ c +:+ String NUL "=ANR==") d).
  1: reflexivity.
  all: repeat match goal with x := _ |- _ => subst x end.
  all: match goal with
    | |- none_of _ _ = _ => by apply clear_nul
    | |- c_str _ = _ => no_nul
    | |- strstr _ _ = _ => rewrite ?app_assoc_str; repeat first
        [ apply strstr_tag | rewrite E1 | rewrite E2 | rewrite E3 | rewrite E4 | rewrite E5 | rewrite E6
        | match goal with |- strstr (?x +:+ ?t) (String "=" (String "=" ?tag)) = _ =>
            transitivity (strstr t (String "=" (String "=" tag))); [by apply (strstr_clear x t tag)|] end ]
    | |- _ = String.length _ => rewrite ?length_app_str; cbn [String.length]; lia
    | |- _ => by rewrite ?app_assoc_str
    end.
Qed.

Lemma sections_split_witness :
  sections (printed "  topResumedActivity=ActivityRecord{1 u0 com.a/.B t1}" "lowmemorykiller" "" "ANR in com.b") =
  (Some (NLs +:+ "  topResumedActivity=ActivityRecord{1 u0 com.a/.B t1}"), NLs +:+ "lowmemorykiller", NLs +:+ "", NLs +:+ "ANR in com.b").
Proof.
  apply (sections_split "  topResumedActivity=ActivityRecord{1 u0 com.a/.B t1}" "lowmemorykiller" "" "ANR in com.b"); reflexivity.
Defined.

(** ** The counts in overlordd *)

Lemma sanitized_clean s : no_quotes (Bebop.sanitize_field s).
Proof.
  unfold no_quotes. induction s as [|c s IH]; [done|]. cbn [Bebop.sanitize_field]. rewrite none_of_cons, IH, andb_true_r.
  destruct (Bebop.unsafe_char c) eqn:Hc; [done|]. unfold Bebop.unsafe_char in Hc. rewrite !orb_false_iff in Hc.
  apply negb_true_iff. rewrite Ascii.eqb_sym. apply Hc.
Qed.

Lemma foreground_clean fg : no_quotes (foreground fg).
Proof.
  unfold foreground. destruct (fg ← fg; _) as [app|] eqn:H; [|done]. cbn [default from_option id].
  destruct fg as [fg|]; [|done]. cbn [mbind option_bind] in H.
  destruct (strstr fg "ActivityRecord{") as [p|]; [|done]. cbn [mbind option_bind] in H.
  destruct (strstr p " u0 ") as [u0|]; [|done]. cbn [mbind option_bind] in H. apply (inj Some) in H. subst app. apply sanitized_clean.
Qed.

(** The counts reach overlordd: from every report of a scan whose time stamp
    holds no quotes, whatever the foreground app is called, overlordd reads the
    crashes, the hanging apps and the kills for memory exactly. *)
Theorem counts_read n f r :
  r ∈ scan_report n "" f → no_quotes (ff_ts f) →
  INT_MIN <= fr_crashes r <= INT_MAX → INT_MIN <= fr_anrs r <= INT_MAX → INT_MIN <= fr_ooms r <= INT_MAX →
  json_get_int (write_results r) "crashes" = Some (fr_crashes r) ∧
  json_get_int (write_results r) "anrs" = Some (fr_anrs r) ∧
  json_get_int (write_results r) "oom_events" = Some (fr_ooms r).
Proof.
  intros Hr Ht Hc Ha Ho. assert (no_quotes (fr_ts r) ∧ no_quotes (stake 64 (fr_app r))) as [Hts Happ].
  { unfold scan_report, parts in Hr. destruct (ff_raw f) as [raw|]; [|by apply elem_of_nil in Hr].
    destruct (sections raw) as [[[fg ml] cl] al]. destruct (ff_results_ok f); [|by apply elem_of_nil in Hr].
    apply list_elem_of_singleton in Hr as ->. split; [done|]. apply none_of_stake, foreground_clean. }
  unfold write_results. cbv zeta. split_and!.
  - number_at 6%nat "  ".
  - number_at 7%nat "  ".
  - number_at 8%nat "  ".
Qed.

Definition busy_scan : fugi_facts :=
  FugiFacts (Some (printed "ActivityRecord{1 u0 com.a/.B t1}" ("lowmemorykiller" +:+ NLs) ("FATAL EXCEPTION: main" +:+ NLs) "")) "t" true.

Lemma counts_read_witness :
  map (λ r, (json_get_int (write_results r) "crashes", json_get_int (write_results r) "anrs",
             json_get_int (write_results r) "oom_events")) (scan_report 1 "" busy_scan) = [(Some 1, Some 0, Some 1)].
Proof.
  assert (∃ r, scan_report 1 "" busy_scan = [r] ∧ fr_crashes r = 1 ∧ fr_anrs r = 0 ∧ fr_ooms r = 1) as (r & Hr & H1 & H2 & H3)
    by (vm_compute; by eexists).
  rewrite Hr. destruct (counts_read 1 busy_scan r) as (E1 & E2 & E3);
    [rewrite Hr; by left|reflexivity|rewrite H1; vm_compute; split; discriminate|rewrite H2; vm_compute; split; discriminate
    |rewrite H3; vm_compute; split; discriminate|].
  cbn [map]. by rewrite E1, E2, E3, H1, H2, H3.
Defined.
