(* ===== verification/Metal.v ===== *)
(** * metalheadd: the registry of sensors ([src/daemon/metalheadd.c])

    Every turn metalheadd parses the list of sensors and raises an alarm for each
    sensitive one from the second on.  The settings are read as in [Bebop]; the loop
    is that of [Scan].  The second part proves what its alarms and counts say. *)

From S2P Require Import Prelude CString Double Overlord Krang Digits Nulld Screen Numbers Reports Conv Scan.
From S2P Require Import Rocky Sensors Members.
From S2P Require Bebop.
From Stdlib Require Import Ascii.

Definition DEFAULT_INTERVAL : Z := 30.
Definition MAX_SENSORS : nat := 64.
Definition CLIENT_SENSITIVE : Z := 2.

(** [clients] is never set. *)
Record sensor_t := Sensor {
  sn_name : string; sn_vendor : string; sn_type_str : string; sn_type_id : Z; sn_is_sensitive : bool }.

(** The answer of the command, the time, and whether the result file can be written. *)
Record metal_facts := MetalFacts { mf_dump : option string; mf_ts : string; mf_results_ok : bool }.

(** The two files that are written. *)
Inductive metal_report :=
| NoData (ts : string) (scan_num : Z)
| Scanned (ts : string) (score scan_num sigs nsensors sensitive_active flood : Z).

Definition sanitize_field (s : string) : string := Bebop.sanitize_field s.

Definition type_name (id : Z) : string :=
  match id with
  | 1 => "Accelerometer" | 2 => "Magnetic Field" | 3 => "Orientation" | 4 => "Gyroscope"
  | 5 => "Light" | 6 => "Pressure" | 8 => "Proximity" | 9 => "Gravity" | 10 => "Linear Accel"
  | 11 => "Rotation Vector" | 14 => "Mag Uncal" | 15 => "Game Rotation" | 16 => "Gyro Uncal"
  | 17 => "Sig Motion" | 18 => "Step Detector" | 19 => "Step Counter" | 28 => "Heart Rate"
  | 65536 => "Fingerprint" | _ => "Other"
  end.

Definition is_sensitive_type (id : Z) : bool :=
  (id =? 1) || (id =? 2) || (id =? 3) || (id =? 4) || (id =? 10) || (id =? 16) || (id =? 28) || (id =? 65536).

(** ** The list of sensors *)

Definition is_blank (c : ascii) : bool := Ascii.eqb c " ".

(** Between the first bar and the second; empty when there is no second one or the
    text is too long. *)
Definition vendor_in (pipe1 : string) : string :=
  let vstart := skip_while is_blank (sdrop 1 pipe1) in
  match strchr "|" vstart with
  | Some _ => let v := trim_end is_blank (cut_at "|" vstart) in if (String.length v <? 48)%nat then v else ""
  | None => ""
  end.

Definition type_in (line : string) : Z :=
  default 0 (tp ← strstr line "type:"; paren ← strchr "(" tp; Some (atoi (sdrop 1 paren))).

Definition sensor_line (line : string) : option sensor_t :=
  let line := stake 511 line in
  if negb (contains line "|") || contains line "active-count" then None
  else
    name_start ← strstr line ") ";
    let name_start := sdrop 2 name_start in
    pipe1 ← strchr "|" name_start;
    let name := trim_end is_blank (cut_at "|" name_start) in
    if String.eqb name "" || (80 <=? String.length name)%nat then None
    else
      let id := type_in line in
      Some (Sensor name (vendor_in pipe1) (strncpy 48 (type_name id)) id (is_sensitive_type id)).

Definition parse_sensors (dump : option string) : list sensor_t :=
  match dump with
  | Some dump => take MAX_SENSORS (omap sensor_line (split_lines dump))
  | None => []
  end.

(** ** A scan *)

Definition sensor_alarm (s : sensor_t) : alarm :=
  plain "SENSITIVE_SENSOR_ACTIVE"
    (sanitize_field (snprintf 128 (scat ["sensor="; stake 32 (sn_name s); " type="; stake 16 (sn_type_str s)]))) 10.

(** The loop over the sensors; [active] sensitive ones have been seen. *)
Fixpoint sensor_alarms (active : Z) (sensors : list sensor_t) : list alarm :=
  match sensors with
  | [] => []
  | s :: sensors' =>
      if sn_is_sensitive s
      then when (CLIENT_SENSITIVE <=? active + 1) (sensor_alarm s) ++ sensor_alarms (active + 1) sensors'
      else sensor_alarms active sensors'
  end.

Definition sensitive_count (sensors : list sensor_t) : Z := Z.of_nat (length (List.filter sn_is_sensitive sensors)).

Definition grade_of (score : Z) : string :=
  if 85 <=? score then "CLEAN" else if 65 <=? score then "ACTIVE"
  else if 45 <=? score then "SUSPICIOUS" else "COMPROMISED".

Definition write_results (r : metal_report) : string :=
  let l := json_line "  " in
  match r with
  | NoData ts scan_num =>
      scat ["{"; NLs;
            l "daemon" (quoted "metalheadd" +:+ ","); l "timestamp" (quoted ts +:+ ",");
            l "scan_number" (fmt_d scan_num +:+ ","); l "signals_fired" "0,"; l "sensor_score" "null,";
            l "grade" (quoted "NO_DATA" +:+ ","); l "total_sensors" "0,"; l "sensitive_active" "0,";
            l "flood_sensors" "0"; "}"; NLs]
  | Scanned ts score scan_num sigs nsensors sensitive_active flood =>
      scat ["{"; NLs;
            l "daemon" (quoted "metalheadd" +:+ ","); l "timestamp" (quoted ts +:+ ",");
            l "scan_number" (fmt_d scan_num +:+ ","); l "signals_fired" (fmt_d sigs +:+ ",");
            l "sensor_score" (fmt_d score +:+ ","); l "grade" (quoted (grade_of score) +:+ ",");
            l "total_sensors" (fmt_d nsensors +:+ ","); l "sensitive_active" (fmt_d sensitive_active +:+ ",");
            l "flood_sensors" (fmt_d flood); "}"; NLs]
  end.

(** The table of sensors is filled anew by every scan. *)
Definition poll (scan_num : Z) (f : metal_facts) : M (desk unit metal_report) unit :=
  match parse_sensors (mf_dump f) with
  | [] => mwhen (mf_results_ok f) (modify (file_result (NoData (mf_ts f) scan_num)))
  | sensors =>
      let alarms := sensor_alarms 0 sensors in
      _ ← mfor alarms raise;
      mwhen (mf_results_ok f)
        (modify (file_result (Scanned (mf_ts f) (score_after alarms) scan_num (Z.of_nat (length alarms))
                                (Z.of_nat (length sensors)) (sensitive_count sensors) 0)))
  end.

(** [main], as that of bebopd. *)
Definition metal_turn (x : option string * option string * metal_facts) : turn metal_facts :=
  Turn (Bebop.is_enabled x.1.1) (Bebop.get_max_scans x.1.2) x.2.

Definition metal_main (enabled : option string) (turns : list (option string * option string * metal_facts)) :
    M (desk unit metal_report) bool :=
  scan_main poll (Bebop.is_enabled enabled) (map metal_turn turns).

(** ** metalheadd over a run

    A sensor line is read back, the alarms are those of the sensitive sensors but
    the first, and overlordd reads how many there are. *)

Definition sensors_of (f : metal_facts) : list sensor_t := parse_sensors (mf_dump f).

(** The sensitive sensors after the first. *)
Definition extra (sensors : list sensor_t) : list sensor_t := drop 1 (List.filter sn_is_sensitive sensors).

Definition scan_alarms (f : metal_facts) : list alarm := map sensor_alarm (extra (sensors_of f)).

(** Ten points for each sensitive sensor after the first. *)
Definition sensor_score (sensors : list sensor_t) : Z := Z.max 0 (100 - 10 * Z.max 0 (sensitive_count sensors - 1)).

Definition scan_report (n : Z) (f : metal_facts) : list metal_report :=
  if mf_results_ok f then
    match sensors_of f with
    | [] => [NoData (mf_ts f) n]
    | sensors => [Scanned (mf_ts f) (sensor_score sensors) n (Z.of_nat (length (extra sensors))) (Z.of_nat (length sensors))
                    (sensitive_count sensors) 0]
    end
  else [].

Lemma alarms_from sensors : ∀ active, 0 <= active →
  sensor_alarms active sensors =
  map sensor_alarm (drop (if active =? 0 then 1 else 0) (List.filter sn_is_sensitive sensors)).
Proof.
  induction sensors as [|s l IH]; intros active Ha; [by destruct (active =? 0)|]. cbn [sensor_alarms List.filter].
  destruct (sn_is_sensitive s); [|by apply IH]. rewrite IH by lia. change CLIENT_SENSITIVE with 2.
  rewrite (proj2 (Z.eqb_neq (active + 1) 0)) by lia.
  destruct (Z.eqb_spec active 0) as [->|Hne]; [by rewrite drop_0|].
  rewrite (proj2 (Z.leb_le _ _)) by lia. by rewrite !drop_0.
Qed.

Lemma alarms_all sensors : sensor_alarms 0 sensors = map sensor_alarm (extra sensors).
Proof. by rewrite alarms_from. Qed.

Lemma sensor_points l : points (map sensor_alarm l) = 10 * Z.of_nat (length l).
Proof. induction l as [|s l IH]; [done|]. cbn [map points foldr length sensor_alarm plain al_points]. unfold points in IH. lia. Qed.

Lemma score_of_alarms sensors : score_after (sensor_alarms 0 sensors) = sensor_score sensors.
Proof.
  rewrite alarms_all. unfold score_after, sensor_score, sensitive_count, extra. rewrite sensor_points, length_drop. lia.
Qed.

Lemma metal_says : says (λ _, scan_alarms) (λ n _, scan_report n) (λ x _, x) poll.
Proof.
  intros n f [x o res]. unfold poll, scan_alarms, scan_report, sensors_of.
  destruct (parse_sensors (mf_dump f)) as [|s l] eqn:Hs.
  - destruct (mf_results_ok f); cbn; by rewrite ?app_nil_r.
  - cbv zeta. autorewrite with monad. rewrite exec_raises, score_of_alarms, alarms_all, length_map.
    destruct (mf_results_ok f); cbn [file_result dk_own dk_out dk_results]; by rewrite ?app_nil_r.
Qed.

(** C36. Everything metalheadd sends and reports, over any run: an alarm for each
    sensitive sensor of each scan but the first one, in order; and a report for
    each scan whose file could be written, which costs ten points per alarm and
    says NO_DATA exactly when no sensor was parsed. *)
Theorem metal_reports enabled turns :
  let s := exec (metal_main enabled turns) (desk_start tt) in
  let made := scans_made (Bebop.is_enabled enabled) (map metal_turn turns) in
  dk_out s = flat_map (λ x, flat_map messages (scan_alarms x.2)) made ∧
  dk_results s = flat_map (λ x, scan_report x.1 x.2) made.
Proof. apply run_memoryless, metal_says. Qed.

(** ** The count in overlordd *)

Lemma grade_clean z : no_quotes (grade_of z).
Proof. unfold grade_of. by repeat case_match. Qed.

Lemma sensors_few f : 0 <= sensitive_count (sensors_of f) <= 64.
Proof.
  unfold sensitive_count, sensors_of, parse_sensors. destruct (mf_dump f) as [dump|]; [|by cbn].
  pose proof (filter_length_le sn_is_sensitive (take MAX_SENSORS (omap sensor_line (split_lines dump)))) as H.
  rewrite length_take in H. change MAX_SENSORS with 64%nat in *. lia.
Qed.

(** The sensitive sensors reach overlordd: from every report of metalheadd
    overlordd reads the number of sensitive sensors exactly, and the score exactly
    when a sensor was parsed; the score null of an empty registry is no number. *)
Theorem sensitive_read n f r :
  r ∈ scan_report n f → no_quotes (mf_ts f) →
  json_get_int (write_results r) "sensitive_active" = Some (sensitive_count (sensors_of f)) ∧
  json_get_int (write_results r) "sensor_score" =
    match sensors_of f with [] => None | sensors => Some (sensor_score sensors) end.
Proof.
  intros Hr Ht. unfold scan_report in Hr. destruct (mf_results_ok f); [|by apply elem_of_nil in Hr].
  pose proof (sensors_few f) as Hf. destruct (sensors_of f) as [|s l] eqn:Hs; apply list_elem_of_singleton in Hr as ->; cbn [write_results]; cbv zeta.
  - split.
    + change "0," with (fmt_d 0 +:+ ","). change "0" with (fmt_d 0).
      assert (INT_MIN <= 0 <= INT_MAX) by (unfold INT_MIN, INT_MAX; lia). change (sensitive_count []) with 0.
      number_at 9%nat "  ".
    + unfold json_get_int, json_get_double.
      match goal with |- context [find_after (scat (?a1 :: ?a2 :: ?a3 :: ?a4 :: ?a5 :: ?a6 :: _ :: ?l)) _] =>
        assert (find_after (scat ([a1; a2; a3; a4; a5; a6] ++ json_line "  " "sensor_score" "null," :: l)) (json_needle "sensor_score") =
          Some (" " +:+ "null," +:+ NLs +:+ scat l)) as H;
        [apply find_member; [key_tac|passes_tac|reflexivity]|cbn [app] in H; rewrite H; reflexivity] end.
  - pose proof (grade_clean (sensor_score (s :: l))).
    assert (INT_MIN <= sensor_score (s :: l) <= INT_MAX) by (unfold sensor_score, INT_MIN, INT_MAX; lia).
    assert (INT_MIN <= sensitive_count (s :: l) <= INT_MAX) by (unfold INT_MIN, INT_MAX; lia).
    split; [number_at 9%nat "  "|number_at 6%nat "  "].
Qed.

(** Three accelerometers, as dumpsys prints them. *)
Definition sensor_text (handle name : string) : string :=
  scat [handle; ") "; name; " | BOSCH | ver: 1 | type: android.sensor.accelerometer(1) | perm: n/a"; NLs].

Definition three_sensors : metal_facts :=
  MetalFacts (Some (scat [sensor_text "0x01" "bmi260"; sensor_text "0x02" "bmi261"; sensor_text "0x03" "bmi262"])) "t" true.

Lemma sensitive_read_witness :
  map (λ r, (json_get_int (write_results r) "sensitive_active", json_get_int (write_results r) "sensor_score"))
    (scan_report 1 three_sensors) = [(Some 3, Some 80)].
Proof.
  assert (∃ r, scan_report 1 three_sensors = [r]) as (r & Hr) by (vm_compute; by eexists).
  rewrite Hr. destruct (sensitive_read 1 three_sensors r) as (E1 & E2); [rewrite Hr; by left|reflexivity|].
  cbn [map]. rewrite E1, E2. vm_compute. reflexivity.
Defined.
