(* ===== verification/Burned.v ===== *)
(** * burned: MIUI policy and privacy properties ([src/daemon/burned.c])

    Every turn burned reads three tables of system properties, two that are compiled
    in and one of partner signals that it loads for the phone's region, and sends a
    signal for each property that fires.  The settings are read as in [Bebop]; the
    loop is that of [Scan].  The second part proves what a run sends and reports. *)

From S2P Require Import Prelude CString Double Overlord Krang Digits Nulld Screen Numbers Reports Conv Escape.
From S2P Require Import Scan Members.
From S2P Require Rocky Bebop Heat.
From Stdlib Require Import Ascii.

Definition DEFAULT_INTERVAL : Z := 60.
Definition MAX_DB_PPROPS : nat := 64.

(** ** Properties *)

(** What getprop prints for a property; [None] where it cannot be run. *)
Definition getprops : Type := string → option string.

(** [getprop_val] with a buffer of 80 bytes. *)
Definition getprop_val (props : getprops) (key : string) : string :=
  match props key with
  | None => "(err)"
  | Some out =>
      let line := match fgets 80 out with Some (line, _) => line | None => "" end in
      let line := (break_at is_line_end line).1 in
      if String.eqb line "" then "(unset)" else line
  end.

Definition prop_is_true (v : string) : bool := String.eqb v "1" || Heat.same_word v "true".
Definition prop_is_false (v : string) : bool := String.eqb v "0" || Heat.same_word v "false".

Definition unread (v : string) : bool := String.eqb v "(unset)" || String.eqb v "(err)".

(** ** Region *)

Definition region_of (v : string) : string :=
  let lv := Heat.lower_all (strncpy 80 v) in
  if contains lv "cn" then "China"
  else if contains lv "eea" || contains lv "eu" then "EEA"
  else if contains lv "global" then "Global"
  else if contains lv "in" then "India"
  else "Unknown".

Definition detect_region (props : getprops) : string :=
  let v := getprop_val props "ro.miui.build.region" in
  let v := if unread v then getprop_val props "ro.rom.zone" else v in
  let v := if unread v then getprop_val props "ro.product.mod_device" else v in
  region_of v.

(** ** Partner signals *)

(** A row of the table [partners]; [None] is NULL. *)
Record partner := Partner {
  pa_signal : option string; pa_key : option string; pa_value : option string;
  pa_region : option string; pa_priority : Z }.

(** SQL's LIKE. *)
Fixpoint like (pattern s : string) : bool :=
  match pattern with
  | EmptyString => String.eqb s ""
  | String c p =>
      if Ascii.eqb c "%" then
        (fix any s := like p s || match s with String _ s' => any s' | EmptyString => false end) s
      else match s with
           | String d s' => (Ascii.eqb c "_" || Ascii.eqb (lower c) (lower d)) && like p s'
           | EmptyString => false
           end
  end.

(** The WHERE clause; a NULL makes it fail. *)
Definition selected (region : string) (row : partner) : bool :=
  match pa_region row, pa_signal row with
  | Some r, Some sig =>
      (String.eqb r region || String.eqb r "Global" || like ("%" +:+ region +:+ "%") r)
      && negb (like "REGION_MARKER%" sig) && negb (String.eqb sig "MIUI_BUILD_REGION")
  | _, _ => false
  end.

(** [cur] is set by each scan. *)
Record db_pprop_t := DbProp { dp_signal : string; dp_key : string; dp_expect : string; dp_priority : Z }.

Definition db_prop_of (row : partner) : db_pprop_t :=
  DbProp (strncpy 64 (default "" (pa_signal row))) (strncpy 80 (default "" (pa_key row)))
    (strncpy 160 (default "" (pa_value row))) (pa_priority row).

(** ORDER BY priority; rows of one priority stay in the order of the table.  [None]
    is a database that cannot be opened or queried. *)
Definition load_partner_db (region : string) (db : option (list partner)) : list db_pprop_t :=
  match db with
  | Some rows =>
      take MAX_DB_PPROPS
        (map db_prop_of
          (Rocky.insertion_sort (λ x key, pa_priority key <? pa_priority x) (List.filter (selected region) rows)))
  | None => []
  end.

(** Every token of [strtok(.., ",")]. *)
Fixpoint tokens (fuel : nat) (s : string) : list string :=
  match fuel with
  | O => []
  | S fuel' => match strtok "," s with Some (tok, r) => tok :: tokens fuel' r | None => [] end
  end.

Definition db_pprop_fires (p : db_pprop_t) (cur : string) : bool :=
  if String.eqb (dp_key p) "" || String.eqb (dp_expect p) "" then false
  else if unread cur || String.eqb cur "" then false
  else
    match strchr "," (dp_expect p) with
    | None => contains cur (dp_expect p)
    | Some _ => existsb (contains cur) (tokens (String.length (dp_expect p)) (strncpy 160 (dp_expect p)))
    end.

(** ** The tables that are compiled in *)

(** [cur] and [prev] are kept apart. *)
Record bprop_t := BProp { bp_key : string; bp_label : string; bp_signal : option string; bp_invasive_if_1 : Z }.

Definition g_bprops : list bprop_t :=
  [BProp "persist.sys.miui_optimization" "MIUI Optimisation" (Some "MIUI_OPTIMIZATION_OFF") (-1);
   BProp "persist.sys.miui_restricted_mode" "Restricted Mode" (Some "MIUI_RESTRICTED_MODE") 1;
   BProp "persist.sys.powerkeeper" "PowerKeeper" (Some "POWERKEEPER_ACTIVE") 1;
   BProp "persist.sys.game_turbo_enabled" "Game Turbo" (Some "GAME_TURBO_ACTIVE") 1;
   BProp "persist.sys.memory_extension_enabled" "RAM Extension" (Some "RAM_EXTENSION_ACTIVE") 1;
   BProp "persist.sys.miui.turbosched" "TurboSched" None 1;
   BProp "persist.sys.perfshielder" "PerfShielder" None 1;
   BProp "miui.whetstone.power" "Whetstone Power" None 1;
   BProp "persist.sys.miui.msa.consent" "MSA Telemetry" (Some "MSA_TELEMETRY_ACTIVE") 1;
   BProp "persist.sys.background_data" "Background Data" None 1;
   BProp "persist.sys.miuibooster.rtmode" "Booster RTMode" (Some "MIUI_BOOSTER_RTMODE") 1;
   BProp "persist.sys.miui_scout_binder_full_kill_process" "Binder Full Kill" (Some "PROCESS_KILL_AGGRESSIVE") 1;
   BProp "persist.sys.smart_gc.enable" "Smart GC" (Some "SMART_GC_AGGRESSIVE") 1;
   BProp "persist.sys.lmk.reportkills" "LMK Kill Report" None 1;
   BProp "persist.sys.perf_scenario_recognition.enable" "Perf Scenario" None 1;
   BProp "persist.sys.enable_rtmode_uclamp" "RT Uclamp" None 1;
   BProp "persist.sys.stability.window_monitor.kill_when_leak" "Kill On Leak" None 1;
   BProp "persist.sys.disable_restart_threshold" "Restart Threshold" None 1;
   BProp "persist.sys.autostart" "Autostart Control" None 0;
   BProp "persist.sys.performance_mode" "Perf Mode" None 1].

Record pprop_t := PProp {
  pp_key : string; pp_label : string; pp_signal : option string; pp_match : option string; pp_negate : bool }.

Definition g_pprops : list pprop_t :=
  [PProp "persist.sys.miui.sno" "Device SNO" (Some "DEVICE_SERIAL_EXPOSED") None false;
   PProp "ro.ril.miui.imei0" "IMEI0 (ro)" (Some "IMEI_EXPOSED") None false;
   PProp "ro.ril.miui.imei1" "IMEI1 (ro)" (Some "IMEI_EXPOSED") None false;
   PProp "persist.sys.misight.ue_mode" "MiSight UE Mode" (Some "MISIGHT_ANALYTICS_ON") (Some "off") true;
   PProp "persist.sys.downgrade_after_inactive_days" "App Downgrade Days" (Some "APP_DOWNGRADE_ACTIVE") (Some "(unset)") true;
   PProp "persist.sys.cleaner_level" "Cleaner Level" (Some "CLEANER_AGGRESSIVE") None false;
   PProp "persist.sys.mms.bg_apps_limit" "BG App Limit" None None false;
   PProp "persist.sys.perf_turbo_type" "Perf Turbo Type" None None false;
   PProp "persist.sys.stability.reboot_days" "Forced Reboot Days" (Some "FORCED_REBOOT_POLICY") (Some "(unset)") true;
   PProp "ro.mi.os.version.name" "OS Version" (Some "HYPEROS_DETECTED") (Some "OS") false].

Definition invasive (p : bprop_t) (cur : string) : bool :=
  ((bp_invasive_if_1 p =? 1) && prop_is_true cur) || ((bp_invasive_if_1 p =? -1) && prop_is_false cur).

Definition pprop_fires (p : pprop_t) (v : string) : bool :=
  if String.eqb v "(err)" then false
  else
    match pp_match p with
    | None => let set := negb (String.eqb v "(unset)") in if pp_negate p then negb set else set
    | Some m => let found := contains v m in if pp_negate p then negb found else found
    end.

(** ** Signals of a scan *)

(** What burned keeps: the region and the partner signals, which are loaded once,
    the values of the first table, and [g_first]. *)
Record burn := Burn { bu_region : string; bu_dbprops : list db_pprop_t; bu_cur : list string; bu_first : bool }.

(** What a scan reads, the time, and whether the result file can be written. *)
Record burn_facts := BurnFacts { uf_props : getprops; uf_ts : string; uf_results_ok : bool }.

(** The arguments of [write_results], and the values of the tables at the call. *)
Record burn_report := BurnReport {
  ur_ts : string; ur_scan_num : Z; ur_region : string; ur_invasive : Z; ur_privacy : Z; ur_change : Z;
  ur_inv_list : string; ur_priv_list : string;
  ur_bvals : list (bprop_t * string); ur_pvals : list (pprop_t * string); ur_dbvals : list (db_pprop_t * string) }.

(** [strncat(buf, s, sizeof(buf) - strlen(buf) - 2)] for a buffer of 512 bytes; when
    511 are used the count wraps, and the code appends without bound. *)
Definition dedup_cat (buf s : string) : string :=
  if longer 510 buf then buf +:+ s else buf +:+ stake (510 - String.length buf) s.

Definition dedup_add (buf sig : string) : string := strncat 512 (dedup_cat buf sig) ",".

(** [emit_signal] for one signal after the other; [dedup] is [g_deduped_signals]. *)
Fixpoint emit_signals (dedup : string) (l : list (string * string)) : list sensor_output :=
  match l with
  | [] => []
  | (sig, detail) :: l' =>
      if String.eqb sig "" || contains dedup sig then emit_signals dedup l'
      else
        ToGaveld sig (d_of_Z 0) detail ::
        ToSplinter "miui_signal" (snprintf 256 (scat ["signal="; sig; " detail="; stake 200 detail])) ::
        emit_signals (dedup_add dedup sig) l'
  end.

(** A list of names in a buffer of 256 bytes. *)
Definition name_list (names : list string) : string :=
  foldl (λ buf name, strncat 256 (if String.eqb buf "" then buf else strncat 256 buf ",") name) "" names.

Section scan.
Context (props : getprops).

Definition bvals : list (bprop_t * string) := map (λ p, (p, getprop_val props (bp_key p))) g_bprops.
Definition pvals : list (pprop_t * string) := map (λ p, (p, getprop_val props (pp_key p))) g_pprops.
Definition dbvals (dbprops : list db_pprop_t) : list (db_pprop_t * string) :=
  map (λ p, (p, getprop_val props (dp_key p))) dbprops.

(** The signals of the three passes with their details. *)
Definition policy_signals : list (string * string) :=
  omap (λ x, if invasive x.1 x.2 then (λ sig, (sig, bp_label x.1)) <$> bp_signal x.1 else None) bvals.
Definition privacy_signals : list (string * string) :=
  omap (λ x, if pprop_fires x.1 x.2 then (λ sig, (sig, pp_label x.1)) <$> pp_signal x.1 else None) pvals.
Definition partner_signals (dbprops : list db_pprop_t) : list (string * string) :=
  omap (λ x, if db_pprop_fires x.1 x.2 then Some (dp_signal x.1, dp_key x.1) else None) (dbvals dbprops).

End scan.

(** The values of the first table that changed since the scan before. *)
Definition change_count (first : bool) (prev cur : list string) : Z :=
  if first then 0 else Z.of_nat (length (List.filter (λ x, negb (String.eqb x.1 x.2)) (combine cur prev))).

Definition policy_note (region : string) (n_invasive n_privacy : Z) (inv_list priv_list : string) : list sensor_output :=
  if (0 <? n_invasive) || (0 <? n_privacy) then
    let ctx := snprintf 512 (scat ["region="; region; " policy="; fmt_d n_invasive; " privacy="; fmt_d n_privacy;
                                   " policy_list="; stake 80 inv_list; " privacy_list="; stake 80 priv_list]) in
    [ToGaveld "MIUI_POLICY_ACTIVE" (d_of_Z (n_invasive + n_privacy)) ctx; ToSplinter "miui_policy" ctx]
  else [].

Definition change_note (n_change : Z) : list sensor_output :=
  if 0 <? n_change then
    let ctx := snprintf 128 (scat ["count="; fmt_d n_change]) in
    [ToGaveld "MIUI_PROPERTY_CHANGED" (d_of_Z 0) ctx; ToSplinter "miui_change" ctx]
  else [].

(** ** The result file *)

Fixpoint listed (lines : list string) : string :=
  match lines with
  | [] => ""
  | [l] => l +:+ NLs
  | l :: lines' => l +:+ "," +:+ NLs +:+ listed lines'
  end.

Definition prop_line (first second : string) (a b value extra : string) : string :=
  scat [dq "    {'"; first; dq "':'"; json_escape 128 0 a; dq "','"; second; dq "':'"; json_escape 128 0 b;
        dq "','value':'"; json_escape 512 0 value; dq "',"; extra; "}"].

Definition fired_text (fired : bool) : string := dq "'fired':" +:+ bool_str fired.

Definition write_results (r : burn_report) : string :=
  let l := json_line "  " in
  scat ["{"; NLs;
        l "daemon" (quoted "burned" +:+ ","); l "timestamp" (quoted (ur_ts r) +:+ ",");
        l "scan_number" (fmt_d (ur_scan_num r) +:+ ","); l "region" (quoted (json_escape 64 0 (ur_region r)) +:+ ",");
        l "invasive_policy_count" (fmt_d (ur_invasive r) +:+ ","); l "privacy_signal_count" (fmt_d (ur_privacy r) +:+ ",");
        l "change_count" (fmt_d (ur_change r) +:+ ",");
        l "invasive_list" (quoted (json_escape 512 0 (ur_inv_list r)) +:+ ",");
        l "privacy_list" (quoted (json_escape 512 0 (ur_priv_list r)) +:+ ",");
        l "binary_props" "[";
        listed (map (λ x, prop_line "key" "label" (bp_key x.1) (bp_label x.1) x.2 (fired_text (invasive x.1 x.2))) (ur_bvals r));
        "  ],"; NLs; l "privacy_props" "[";
        listed (map (λ x, prop_line "key" "label" (pp_key x.1) (pp_label x.1) x.2 (fired_text (pprop_fires x.1 x.2))) (ur_pvals r));
        "  ],"; NLs; l "partner_props" "[";
        listed (map (λ x, prop_line "signal" "key" (dp_signal x.1) (dp_key x.1) x.2
                            (scat [dq "'priority':"; fmt_d (dp_priority x.1); ","; fired_text (db_pprop_fires x.1 x.2)])) (ur_dbvals r));
        "  ]"; NLs; "}"; NLs].

(** ** A scan *)

Definition poll_burned (scan_num : Z) (f : burn_facts) : M (desk burn burn_report) unit :=
  u ← gets dk_own;
  let props := uf_props f in
  let cur := map snd (bvals props) in
  let fired1 := policy_signals props in
  let fired2 := privacy_signals props ++ partner_signals props (bu_dbprops u) in
  let n_invasive := Z.of_nat (length fired1) in
  let n_privacy := Z.of_nat (length fired2) in
  let n_change := change_count (bu_first u) (bu_cur u) cur in
  let inv_list := name_list (map fst fired1) in
  let priv_list := name_list (map fst fired2) in
  _ ← modify (put (emit_signals "" (fired1 ++ fired2)));
  _ ← modify (put (policy_note (bu_region u) n_invasive n_privacy inv_list priv_list));
  _ ← modify (put (change_note n_change));
  _ ← mwhen (uf_results_ok f)
    (modify (file_result (BurnReport (uf_ts f) scan_num (bu_region u) n_invasive n_privacy n_change inv_list priv_list
                            (bvals props) (pvals props) (dbvals props (bu_dbprops u)))));
  modify (set_own (Burn (bu_region u) (bu_dbprops u) cur false)).

(** The start: the region and the partner signals are read. *)
Definition burn_start (props : getprops) (db : option (list partner)) : burn :=
  let region := detect_region props in
  Burn region (load_partner_db region db) (replicate 20 "") true.

(** [main], as that of bebopd. *)
Definition burn_turn (x : option string * option string * burn_facts) : turn burn_facts :=
  Turn (Bebop.is_enabled x.1.1) (Bebop.get_max_scans x.1.2) x.2.

Definition burned_main (enabled : option string) (turns : list (option string * option string * burn_facts)) :
    M (desk burn burn_report) bool :=
  scan_main poll_burned (Bebop.is_enabled enabled) (map burn_turn turns).

(** ** burned over a run

    What burned sends and reports is a function of the properties of each scan and
    of the scan before; each signal of its own tables is sent once per scan; and
    overlordd reads the number of privacy signals. *)

(** ** What a scan says *)

Definition fired (u : burn) (f : burn_facts) : list (string * string) :=
  policy_signals (uf_props f) ++ privacy_signals (uf_props f) ++ partner_signals (uf_props f) (bu_dbprops u).

Definition report_of (n : Z) (u : burn) (f : burn_facts) : burn_report :=
  let policy := policy_signals (uf_props f) in
  let privacy := privacy_signals (uf_props f) ++ partner_signals (uf_props f) (bu_dbprops u) in
  BurnReport (uf_ts f) n (bu_region u) (Z.of_nat (length policy)) (Z.of_nat (length privacy))
    (change_count (bu_first u) (bu_cur u) (map snd (bvals (uf_props f))))
    (name_list (map fst policy)) (name_list (map fst privacy))
    (bvals (uf_props f)) (pvals (uf_props f)) (dbvals (uf_props f) (bu_dbprops u)).

(** The signals of the scan, then the sum of them, then the changes. *)
Definition scan_outs (u : burn) (f : burn_facts) : list sensor_output :=
  let r := report_of 0 u f in
  emit_signals "" (fired u f) ++ policy_note (bu_region u) (ur_invasive r) (ur_privacy r) (ur_inv_list r) (ur_priv_list r) ++
  change_note (ur_change r).

Definition scan_report (n : Z) (u : burn) (f : burn_facts) : list burn_report :=
  if uf_results_ok f then [report_of n u f] else [].

Definition scan_next (u : burn) (f : burn_facts) : burn :=
  Burn (bu_region u) (bu_dbprops u) (map snd (bvals (uf_props f))) false.

Lemma burned_tells : tells scan_outs scan_report scan_next poll_burned.
Proof.
  intros n f [u o res]. unfold poll_burned, scan_outs, scan_report, scan_next, report_of, fired.
  autorewrite with monad. cbv zeta. autorewrite with monad.
  destruct (uf_results_ok f); unfold file_result, put, set_own;
    cbn [dk_own dk_out dk_results ur_invasive ur_privacy ur_inv_list ur_priv_list ur_change];
    by rewrite ?app_nil_r, <-?app_assoc.
Qed.

(** The scans with the values of the first table at the scan before, if any. *)
Fixpoint with_last (last : option (list string)) (l : list (Z * burn_facts)) : list (Z * option (list string) * burn_facts) :=
  match l with
  | [] => []
  | (n, f) :: l' => (n, last, f) :: with_last (Some (map snd (bvals (uf_props f)))) l'
  end.

(** The state before a scan, from what was loaded at the start. *)
Definition before_scan (region : string) (dbprops : list db_pprop_t) (last : option (list string)) : burn :=
  match last with
  | Some cur => Burn region dbprops cur false
  | None => Burn region dbprops (replicate 20 "") true
  end.

Lemma owned_last region dbprops l : ∀ last,
  owned scan_next (before_scan region dbprops last) l =
  map (λ y, (y.1.1, before_scan region dbprops y.1.2, y.2)) (with_last last l).
Proof.
  induction l as [|[n f] l IH]; intros last; [done|]. cbn [owned with_last map fst snd]. f_equal.
  rewrite <-IH. f_equal. by destruct last.
Qed.

(** Everything burned sends and reports, over any run: region and partner
    signals are those read at the start, and each scan is a function of its own
    properties and, for the number of changed values, of those of the scan before;
    the first scan sees no change. *)
Theorem burned_reports enabled props db turns :
  let start := burn_start props db in
  let s := exec (burned_main enabled turns) (desk_start start) in
  let made := with_last None (scans_made (Bebop.is_enabled enabled) (map burn_turn turns)) in
  let before last := before_scan (bu_region start) (bu_dbprops start) last in
  dk_out s = flat_map (λ y, scan_outs (before y.1.2) y.2) made ∧
  dk_results s = flat_map (λ y, scan_report y.1.1 (before y.1.2) y.2) made.
Proof.
  intros start s made before. unfold s, burned_main. rewrite exec_scan_main.
  destruct (run_tells _ _ _ _ (scans_made (Bebop.is_enabled enabled) (map burn_turn turns)) burned_tells (desk_start start)) as [-> ->].
  change (dk_own (desk_start start)) with (before_scan (bu_region start) (bu_dbprops start) None).
  rewrite owned_last. fold made. cbn [desk_start dk_out dk_results app].
  split; induction made as [|y l IH]; [done| |done|]; cbn [map flat_map fst snd]; by rewrite IH.
Qed.

(** ** Signals once *)

Definition signal_note (x : string * string) : list sensor_output :=
  [ToGaveld x.1 (d_of_Z 0) x.2;
   ToSplinter "miui_signal" (snprintf 256 (scat ["signal="; x.1; " detail="; stake 200 x.2]))].

(** The signals that are sent when those in [seen] have been: the ones that are no
    part of one of them. *)
Fixpoint sent (seen : list string) (l : list (string * string)) : list (string * string) :=
  match l with
  | [] => []
  | x :: l' =>
      if String.eqb x.1 "" || existsb (λ k, contains k x.1) seen then sent seen l'
      else x :: sent (seen ++ [x.1]) l'
  end.

Definition no_comma (s : string) : Prop := none_of (Ascii.eqb ",") s = true.

Lemma prefix_comma n : no_comma n → ∀ a b, has_prefix n (a +:+ "," +:+ b) = has_prefix n a.
Proof.
  unfold no_comma. induction n as [|c n IH]; intros Hn a b; [done|]. rewrite none_of_cons in Hn.
  apply andb_prop in Hn as [Hc%negb_true_iff Hn]. destruct a as [|d a].
  - change ("" +:+ "," +:+ b) with (String "," b). cbn [has_prefix]. rewrite Ascii.eqb_sym, Hc. done.
  - rewrite app_cons_str. cbn [has_prefix]. by rewrite IH.
Qed.

Lemma contains_comma n a b : no_comma n → n ≠ "" → contains (a +:+ "," +:+ b) n = contains a n || contains b n.
Proof.
  intros Hn Hne. assert (contains "" n = false) as H0 by by destruct n.
  assert (∀ c s, contains (String c s) n = has_prefix n (String c s) || contains s n) as Hc.
  { intros c s. unfold contains. cbn [strstr]. by destruct (has_prefix n (String c s)). }
  induction a as [|c a IH].
  - change ("" +:+ "," +:+ b) with (String "," b). rewrite Hc, H0. cbn [orb].
    assert (has_prefix n (String "," b) = false) as ->; [|done]. change (String "," b) with ("" +:+ "," +:+ b). rewrite prefix_comma by done. by destruct n.
  - rewrite app_cons_str, !Hc, IH, <-app_cons_str, prefix_comma by done. by rewrite orb_assoc.
Qed.

(** The buffer of the signals that have been sent. *)
Definition seen_text (seen : list string) : string := scat (map (λ k, k +:+ ",") seen).

Lemma contains_seen n seen : no_comma n → n ≠ "" → contains (seen_text seen) n = existsb (λ k, contains k n) seen.
Proof.
  intros Hn Hne. induction seen as [|k seen IH]; [by destruct n|]. unfold seen_text in *. cbn [map scat existsb].
  by rewrite app_assoc_str, contains_comma, IH.
Qed.

Definition name_room (l : list string) : Z := foldr (λ k acc, slen k + 1 + acc) 0 l.

Lemma name_room_nonneg l : 0 <= name_room l.
Proof. unfold name_room, slen. induction l as [|k l IH]; cbn [foldr]; lia. Qed.

Lemma seen_length seen : slen (seen_text seen) = name_room seen.
Proof.
  unfold seen_text, name_room, slen. induction seen as [|k seen IH]; [done|]. cbn [map scat foldr].
  rewrite !length_app_str. change (String.length ",") with 1%nat. lia.
Qed.

Lemma seen_app seen k : seen_text (seen ++ [k]) = seen_text seen +:+ k +:+ ",".
Proof.
  unfold seen_text. induction seen as [|x seen IH]; cbn [app map scat].
  - by rewrite app_nil_r_str.
  - by rewrite IH, !app_assoc_str.
Qed.

Lemma dedup_room buf k : slen buf + slen k + 1 <= 511 → dedup_add buf k = buf +:+ k +:+ ",".
Proof.
  unfold slen. intros H. unfold dedup_add, dedup_cat, longer. rewrite (proj2 (Nat.ltb_ge _ _)) by lia.
  rewrite (stake_all _ k) by lia. unfold strncat. rewrite length_app_str.
  rewrite stake_all by (change (String.length ",") with 1%nat; lia). by rewrite app_assoc_str.
Qed.

Lemma emit_sent l : ∀ seen,
  Forall (λ x, no_comma x.1) l → name_room seen + name_room (map fst l) <= 511 →
  emit_signals (seen_text seen) l = flat_map signal_note (sent seen l).
Proof.
  induction l as [|[sig d] l IH]; intros seen Hl Hroom; [done|]. apply Forall_cons in Hl as [Hc Hl].
  cbn [map name_room foldr fst] in Hroom. fold (name_room (map fst l)) in Hroom. cbn [emit_signals sent fst].
  assert (0 <= slen sig) by (unfold slen; lia). pose proof (name_room_nonneg (map fst l)) as Hnn.
  destruct (String.eqb_spec sig "") as [|Hne]; cbn [orb].
  { apply IH; [done|lia]. }
  rewrite contains_seen by done. destruct (existsb _ seen); [apply IH; [done|lia]|].
  cbn [flat_map signal_note app fst snd]. do 2 f_equal.
  rewrite dedup_room, <-seen_app by (rewrite seen_length; lia). apply IH; [done|].
  rewrite <-(seen_length (seen ++ [sig])), seen_app. rewrite <-seen_length in Hroom. unfold slen in *.
  rewrite !length_app_str. change (String.length ",") with 1%nat. lia.
Qed.

(** ** The compiled tables *)

Definition table_names : list string := omap bp_signal g_bprops ++ omap pp_signal g_pprops.

Lemma policy_sublist props : map fst (policy_signals props) `sublist_of` omap bp_signal g_bprops.
Proof.
  unfold policy_signals, bvals. induction g_bprops as [|p l IH]; [done|]. cbn [map omap list_omap fst snd].
  destruct (invasive p _), (bp_signal p) as [sig|]; cbn [fmap option_fmap option_map map fst]; by constructor || apply IH.
Qed.

Lemma privacy_sublist props : map fst (privacy_signals props) `sublist_of` omap pp_signal g_pprops.
Proof.
  unfold privacy_signals, pvals. induction g_pprops as [|p l IH]; [done|]. cbn [map omap list_omap fst snd].
  destruct (pprop_fires p _), (pp_signal p) as [sig|]; cbn [fmap option_fmap option_map map fst]; by constructor || apply IH.
Qed.

Lemma room_sublist l k : l `sublist_of` k → name_room l <= name_room k.
Proof. unfold name_room, slen. induction 1; cbn [foldr]; lia. Qed.

(** Names that contain each other only when they are the same. *)
Definition apart (names : list string) : Prop :=
  ∀ a b, a ∈ names → b ∈ names → b ≠ "" ∧ (contains a b = true → a = b).

Lemma table_apart : apart table_names.
Proof.
  assert (forallb (λ a, forallb (λ b, negb (String.eqb b "") && (negb (contains a b) || String.eqb a b)) table_names) table_names = true)
    as H by (vm_compute; reflexivity).
  intros a b Ha Hb. rewrite forallb_forall in H. specialize (H a (proj1 (list_elem_of_In _ _) Ha)). rewrite forallb_forall in H.
  specialize (H b (proj1 (list_elem_of_In _ _) Hb)). apply andb_prop in H as [H1 H2]. split.
  - intros ->. discriminate H1.
  - intros Hc. rewrite Hc in H2. by apply String.eqb_eq.
Qed.

(** The first of the pairs with a name. *)
Definition first_with (l : list (string * string)) (sig : string) : option (string * string) :=
  List.find (λ y, String.eqb y.1 sig) l.

(** Among such names, the ones that are sent are the first of each name. *)
Lemma sent_apart names l : apart names → ∀ seen,
  Forall (λ x, x.1 ∈ names) l → (∀ k, k ∈ seen → k ∈ names) → NoDup seen →
  sent seen l `sublist_of` l ∧ NoDup (seen ++ map fst (sent seen l)) ∧
  (∀ k, k ∈ seen ++ map fst (sent seen l) ↔ k ∈ seen ++ map fst l) ∧
  (∀ x, x ∈ sent seen l ↔ ((x.1 ∉ seen) ∧ first_with l x.1 = Some x)).
Proof.
  intros Hap. induction l as [|[sig d] l IH]; intros seen Hl Hs Hnd; cbn [sent map fst].
  { split_and!; [done|by rewrite app_nil_r|done|]. intros x. by rewrite elem_of_nil; split; [|intros []]. }
  apply Forall_cons in Hl as [Hsig Hl]. cbn [fst] in Hsig. destruct (Hap sig sig Hsig Hsig) as [Hne _].
  rewrite (proj2 (String.eqb_neq _ _) Hne). cbn [orb].
  assert (existsb (λ k, contains k sig) seen = true ↔ sig ∈ seen) as Hex.
  { rewrite existsb_exists. split.
    - intros (k & Hk%list_elem_of_In & Hc). by rewrite <-(proj2 (Hap k sig (Hs k Hk) Hsig) Hc).
    - intros Hin. exists sig. split; [by apply list_elem_of_In|]. unfold contains. pose proof (has_prefix_app sig "") as Hp.
      rewrite app_nil_r_str in Hp. destruct sig; [done|]. cbn [strstr]. by rewrite Hp. }
  destruct (existsb _ seen).
  - destruct (IH seen Hl Hs Hnd) as (H1 & H2 & H3 & H4). apply proj1 in Hex. specialize (Hex eq_refl).
    split_and!; [by constructor|done| |].
    + intros k. rewrite H3. rewrite !elem_of_app, elem_of_cons. split; [tauto|]. intros [?|[->|?]]; tauto.
    + intros x. rewrite H4. unfold first_with. cbn [List.find fst]. destruct (String.eqb_spec sig x.1) as [E|]; [|done].
      rewrite <-E. split; intros []; done.
  - assert (sig ∉ seen) as Hnew by (intros Hin%Hex; done).
    destruct (IH (seen ++ [sig]) Hl) as (H1 & H2 & H3 & H4).
    + intros k [Hk| ->%list_elem_of_singleton]%elem_of_app; [by apply Hs|done].
    + apply NoDup_app. split_and!; [done| |apply NoDup_singleton]. intros k Hk ->%list_elem_of_singleton. done.
    + cbn [map fst]. rewrite <-app_assoc in H2, H3. cbn [app] in H2, H3. split_and!; [by constructor|done| |].
      * intros k. rewrite H3, <-app_assoc. done.
      * intros x. rewrite elem_of_cons, H4, elem_of_app, list_elem_of_singleton. unfold first_with. cbn [List.find fst].
        destruct (String.eqb_spec sig x.1) as [E|E].
        2: { split; [intros [->|[Hn F]]; [by destruct E|split; [tauto|done]]|].
             intros [Hn F]. right. split; [intros [|Hx]; [done|by destruct E]|done]. }
        rewrite <-E. split; [intros [->|[Hn _]]; [done|tauto]|]. intros [_ [= <-]]. by left.
Qed.

Lemma sent_once names l : apart names → (∀ x, x ∈ l → x.1 ∈ names) →
  sent [] l `sublist_of` l ∧ NoDup (map fst (sent [] l)) ∧ (∀ sig, sig ∈ map fst (sent [] l) ↔ sig ∈ map fst l) ∧
  (∀ x, x ∈ sent [] l ↔ first_with l x.1 = Some x).
Proof.
  intros Hap Hin. destruct (sent_apart names l Hap []) as (H1 & H2 & H3 & H4);
    [by apply Forall_forall|by intros k ?%elem_of_nil|constructor|].
  split_and!; [done..|]. intros x. rewrite H4, elem_of_nil. tauto.
Qed.

Lemma once_of names l :
  apart names → Forall no_comma names → name_room names <= 511 → map fst l `sublist_of` names →
  ∃ s, emit_signals "" l = flat_map signal_note s ∧ s `sublist_of` l ∧ NoDup (map fst s) ∧
    (∀ sig, sig ∈ map fst s ↔ sig ∈ map fst l) ∧ (∀ x, x ∈ s ↔ first_with l x.1 = Some x).
Proof.
  intros Hap Hc Hroom Hsub. assert (∀ x, x ∈ l → x.1 ∈ names) as Hin.
  { intros x Hx. eapply elem_of_sublist; [|exact Hsub]. by apply list_elem_of_fmap_2. }
  exists (sent [] l). split; [|by apply (sent_once names)]. change "" with (seen_text []). apply emit_sent.
  - apply Forall_forall. intros x Hx. rewrite Forall_forall in Hc. by apply Hc, Hin.
  - etrans; [apply Z.add_le_mono_l, (room_sublist _ _ Hsub)|]. exact Hroom.
Qed.

Lemma table_commas : Forall no_comma table_names.
Proof.
  assert (forallb (λ k, none_of (Ascii.eqb ",") k) table_names = true) as H by (vm_compute; reflexivity).
  rewrite forallb_forall in H. apply Forall_forall. intros k Hk%list_elem_of_In. by apply H.
Qed.

Lemma table_room : name_room table_names <= 511.
Proof. vm_compute. discriminate. Qed.

(** C33. A phone without partner signals: in every scan, whatever the properties,
    burned sends each signal of its tables that fires exactly once, in the order
    of the tables, with the label of the first property that fires it: what is sent
    are the pairs of a signal and a label that are the first with their signal. *)
Theorem table_signals_once props :
  let l := policy_signals props ++ privacy_signals props in
  ∃ s, emit_signals "" l = flat_map signal_note s ∧ s `sublist_of` l ∧ NoDup (map fst s) ∧
    (∀ sig, sig ∈ map fst s ↔ sig ∈ map fst l) ∧ (∀ x, x ∈ s ↔ first_with l x.1 = Some x).
Proof.
  apply (once_of table_names); [exact table_apart|exact table_commas|exact table_room|].
  rewrite map_app. apply sublist_app; [apply policy_sublist|apply privacy_sublist].
Qed.

(** ** The count in overlordd *)

Lemma region_clean v : no_quotes (json_escape 64 0 (region_of v)).
Proof. unfold region_of. by repeat case_match. Qed.

Lemma length_omap {A B} (g : A → option B) l : (length (omap g l) ≤ length l)%nat.
Proof. induction l as [|x l IH]; [done|]. cbn [omap list_omap length]. destruct (g x); cbn [length]; lia. Qed.

Lemma privacy_few props region db :
  0 <= Z.of_nat (length (privacy_signals props ++ partner_signals props (load_partner_db region db))) <= 74.
Proof.
  rewrite length_app. assert (length (privacy_signals props) ≤ 10)%nat.
  { unfold privacy_signals, pvals. etrans; [apply length_omap|]. by rewrite length_map. }
  assert (length (partner_signals props (load_partner_db region db)) ≤ 64)%nat; [|lia].
  unfold partner_signals, dbvals, load_partner_db. etrans; [apply length_omap|]. rewrite length_map.
  destruct db as [rows|]; [rewrite length_take; change MAX_DB_PPROPS with 64%nat|cbn]; lia.
Qed.

(** The privacy signals reach overlordd: from every report of a run of burned,
    whatever the partner database and the properties hold, overlordd reads the
    number of privacy signals exactly. *)
Theorem privacy_read props db last n f r :
  let start := burn_start props db in
  let u := before_scan (bu_region start) (bu_dbprops start) last in
  r ∈ scan_report n u f → no_quotes (uf_ts f) →
  json_get_int (write_results r) "privacy_signal_count" =
  Some (Z.of_nat (length (privacy_signals (uf_props f) ++ partner_signals (uf_props f) (bu_dbprops start)))).
Proof.
  intros start u Hr Ht. unfold scan_report in Hr. destruct (uf_results_ok f); [|by apply elem_of_nil in Hr].
  apply list_elem_of_singleton in Hr as ->.
  assert (bu_region u = detect_region props ∧ bu_dbprops u = bu_dbprops start) as [Hreg Hdb] by by destruct last.
  unfold write_results, report_of. cbv zeta. cbn [ur_ts ur_scan_num ur_region ur_invasive ur_privacy]. rewrite Hreg, Hdb.
  pose proof (privacy_few (uf_props f) (detect_region props) db) as Hn.
  assert (no_quotes (json_escape 64 0 (detect_region props))) as Hrc by apply region_clean.
  change (bu_dbprops start) with (load_partner_db (detect_region props) db).
  set (count := Z.of_nat (length (privacy_signals _ ++ _))) in *. clearbody count.
  assert (INT_MIN <= count <= INT_MAX) by (unfold INT_MIN, INT_MAX; lia).
  number_at 7%nat "  ".
Qed.

(** A European phone with one partner signal, and the serial number. *)
Definition eea_props (key : string) : option string :=
  if String.eqb key "ro.miui.build.region" then Some ("eea" +:+ NLs)
  else if String.eqb key "persist.sys.miui.sno" then Some ("12/34" +:+ NLs)
  else if String.eqb key "ro.appsflyer.preinstall.path" then Some ("/data/af" +:+ NLs)
  else Some NLs.

Definition eea_db : list partner :=
  [Partner (Some "APPSFLYER_PREINSTALL") (Some "ro.appsflyer.preinstall.path") (Some "af,appsflyer") (Some "EEA") 2;
   Partner (Some "REGION_MARKER_EEA") (Some "ro.miui.build.region") (Some "eea") (Some "EEA") 1].

(** The serial number, the partner, and MiSight, whose property is not set. *)
Lemma privacy_read_witness :
  map (λ r, json_get_int (write_results r) "privacy_signal_count")
    (scan_report 1 (before_scan "EEA" (load_partner_db "EEA" (Some eea_db)) None) (BurnFacts eea_props "t" true)) = [Some 3].
Proof.
  assert (∃ r, scan_report 1 (before_scan "EEA" (load_partner_db "EEA" (Some eea_db)) None) (BurnFacts eea_props "t" true) = [r])
    as (r & Hr) by (unfold scan_report; by eexists).
  rewrite Hr. cbn [map].
  rewrite (privacy_read eea_props (Some eea_db) None 1 (BurnFacts eea_props "t" true) r); [vm_compute; reflexivity| |reflexivity].
  change (bu_region (burn_start eea_props (Some eea_db))) with (detect_region eea_props).
  replace (detect_region eea_props) with "EEA" by (vm_compute; reflexivity).
  change (bu_dbprops (burn_start eea_props (Some eea_db))) with (load_partner_db (detect_region eea_props) (Some eea_db)).
  replace (detect_region eea_props) with "EEA" by (vm_compute; reflexivity). rewrite Hr. by left.
Defined.

(** A phone that has no MiSight reads as one that analyses its user: the property
    is not set, and its value does not contain off. *)
Lemma unset_reads_as_analytics props :
  props "persist.sys.misight.ue_mode" = Some NLs →
  ("MISIGHT_ANALYTICS_ON", "MiSight UE Mode") ∈ privacy_signals props.
Proof.
  intros Hp. unfold privacy_signals, pvals. apply list_elem_of_omap.
  exists (PProp "persist.sys.misight.ue_mode" "MiSight UE Mode" (Some "MISIGHT_ANALYTICS_ON") (Some "off") true, "(unset)").
  split; [|reflexivity]. apply list_elem_of_fmap. eexists. split; [|do 3 right; by left].
  unfold getprop_val. cbn [pp_key]. by rewrite Hp.
Qed.
