(* ===== verification/King.v ===== *)
(** * ratkingd: processes against a learned baseline ([src/daemon/ratkingd.c])

    Every twelve seconds ratkingd reads all processes of /proc, learns how much
    processor time and memory the busiest ones use, asks the system about kill
    storms, the periodic cleaner and its own protection, and reports zombies, hogs,
    short-lived processes and memory pressure.  The second part follows the lives of
    processes and the baseline over a run. *)

From S2P Require Import Prelude CString Double Overlord Krang Digits Nulld Screen Numbers Reports Conv Escape.
From S2P Require Import Scan Rocky Members.
From S2P Require Bebop.
From Stdlib Require Import Ascii Sorting.
From Stdlib Require Import Ascii.

Abbreviation lit := Overlord.lit.

Definition POLL_SEC : Z := 12.
Definition TOP_N : nat := 6.
Definition HOG_PCT_COOL : Z := 40.
Definition MEM_LOW_MB : Z := 200.
Definition MAX_PROCS : nat := 512.
Definition MAX_BASELINE : nat := 128.
Definition LEARN_POLLS : Z := 20.
Definition FLASH_LIFETIME : Z := 5.
Definition ANOMALY_SIGMA : double := d_of_Z 3.

Record proc_t := Proc {
  pr_pid : Z; pr_name : string; pr_state : ascii; pr_uid : Z; pr_ppid : Z; pr_vmrss : Z; pr_cpu_time : Z;
  pr_cpu_pct : Z; pr_first_seen : Z; pr_last_seen : Z; pr_polls_alive : Z; pr_fd_count : Z; pr_tx : Z; pr_rx : Z }.

Record baseline_t := Baseline {
  ba_name : string; ba_cpu_mean : double; ba_cpu_stddev : double; ba_rss_mean : double; ba_rss_stddev : double;
  ba_samples : Z; ba_max_cpu : Z; ba_max_rss : Z }.

(** The order of elements that compare equal is not specified by C. *)
Class QSort := qsort : (proc_t → proc_t → Z) → list proc_t → list proc_t.

(** What a poll finds: the entries of /proc, the files of each process, the times
    at which it is read; the other files; the answers of the commands. *)
Record king_facts := KingFacts {
  kf_entries : option (list string); kf_stat : option string;
  kf_status : Z → option string; kf_pidstat : Z → option string; kf_fds : Z → option Z; kf_netdev : Z → option string;
  kf_seen : Z → Z;
  kf_pm : option string; kf_periodic : option string; kf_millet : option string; kf_now : Z;
  kf_oom : option string; kf_cgroup : option string; kf_meminfo : option string; kf_temp : option string;
  kf_ts : string; kf_results_ok : bool }.

(** The arguments of [write_json], and the globals it prints. *)
Record king_report := KingReport {
  kr_ts : string; kr_temp : Z; kr_hog_pct : Z; kr_total : Z; kr_zombies : Z; kr_orphans : Z; kr_flash : Z;
  kr_top_cpu : string; kr_top_mem : string; kr_anomalies : string; kr_pressure : string; kr_network : string;
  kr_ready : bool; kr_learn : Z; kr_tracked : Z }.

(** The globals of the file. *)
Record king := King {
  kg_prev : list proc_t; kg_first : bool; kg_prev_total : Z;
  kg_baselines : list baseline_t; kg_learn : Z; kg_ready : bool;
  kg_pm_prev : Z; kg_pm_last : Z; kg_periodic_prev : Z }.

Definition king_start : king := King [] true 0 [] 0 false (-1) 0 (-1).

(** ** Baseline *)

(** [sqrt]. *)
Definition dsqrt : double → double := SFsqrt dprec demax.

Definition find_baseline (name : string) (bs : list baseline_t) : option baseline_t :=
  List.find (λ b, String.eqb (ba_name b) name) bs.

(** Welford's step for the mean and the deviation of [n] samples. *)
Definition welford (mean sd : double) (n x : Z) : double * double :=
  let delta := (d_of_Z x - mean)%D in
  let mean' := (mean + delta / d_of_Z n)%D in
  (mean', dsqrt ((sd * sd * d_of_Z (n - 1) + delta * (d_of_Z x - mean')) / d_of_Z n)%D).

Definition add_sample (b : baseline_t) (cpu rss : Z) : baseline_t :=
  let n := ba_samples b + 1 in
  let '(cm, cs) := welford (ba_cpu_mean b) (ba_cpu_stddev b) n cpu in
  let '(rm, rs) := welford (ba_rss_mean b) (ba_rss_stddev b) n rss in
  Baseline (ba_name b) cm cs rm rs n
    (if ba_max_cpu b <? cpu then cpu else ba_max_cpu b) (if ba_max_rss b <? rss then rss else ba_max_rss b).

Fixpoint change_baseline (name : string) (cpu rss : Z) (bs : list baseline_t) : list baseline_t :=
  match bs with
  | [] => []
  | b :: bs' => if String.eqb (ba_name b) name then add_sample b cpu rss :: bs' else b :: change_baseline name cpu rss bs'
  end.

Definition update_baseline (name : string) (cpu rss : Z) (bs : list baseline_t) : list baseline_t :=
  match find_baseline name bs with
  | Some _ => change_baseline name cpu rss bs
  | None =>
      if (length bs <? MAX_BASELINE)%nat
      then bs ++ [Baseline name (d_of_Z cpu) (d_of_Z 0) (d_of_Z rss) (d_of_Z 0) 1 cpu rss]
      else bs
  end.

Definition is_anomaly (mean sd : baseline_t → double) (name : string) (x : Z) (bs : list baseline_t) : bool :=
  match find_baseline name bs with
  | Some b => if ba_samples b <? 5 then false else (mean b + ANOMALY_SIGMA * sd b <? d_of_Z x)%D
  | None => false
  end.

Definition is_anomaly_cpu : string → Z → list baseline_t → bool := is_anomaly ba_cpu_mean ba_cpu_stddev.
Definition is_anomaly_rss : string → Z → list baseline_t → bool := is_anomaly ba_rss_mean ba_rss_stddev.

(** ** /proc *)

(** [%d]. *)
Definition scan_d (s : string) : option (Z * string) := (λ x, (to_i32 x.1, x.2)) <$> scan_ld s.

(** [%Ns]: a word of at most [n] characters. *)
Definition scan_word (n : nat) (s : string) : option (string * string) :=
  match skip_while is_space s with
  | EmptyString => None
  | s' => let w := stake n (break_at is_space s').1 in Some (w, sdrop (String.length w) s')
  end.

(** [ %c]. *)
Definition scan_char (s : string) : option (ascii * string) :=
  match skip_while is_space s with String c r => Some (c, r) | EmptyString => None end.

(** The fields that [read_status] fills. *)
Record status_t := Status { ss_name : string; ss_state : ascii; ss_uid : Z; ss_ppid : Z; ss_vmrss : Z }.

Definition status_line (st : status_t) (line : string) : status_t :=
  let '(Status name state uid ppid rss) := st in
  if has_prefix "Name:" line then
    match scan_word 31 (sdrop 5 line) with Some (w, _) => Status w state uid ppid rss | None => st end
  else if has_prefix "State:" line then
    match scan_char (sdrop 6 line) with Some (c, _) => Status name c uid ppid rss | None => st end
  else if has_prefix "Uid:" line then
    match scan_d (sdrop 4 line) with Some (v, _) => Status name state v ppid rss | None => st end
  else if has_prefix "PPid:" line then
    match scan_d (sdrop 5 line) with Some (v, _) => Status name state uid v rss | None => st end
  else if has_prefix "VmRSS:" line then
    match scan_ld (sdrop 6 line) with Some (v, _) => Status name state uid ppid v | None => st end
  else st.

Definition read_status (text : string) : status_t :=
  foldl status_line (Status "" "?" (-1) (-1) 0) (read_lines 256 text).

(** The name of a process with a blank takes two words, and the rest of the line
    does not scan. *)
Definition read_cputime (file : option string) : Z :=
  default 0
    (text ← file;
     r ← Rocky.skip_ints 1 text;
     '(_, r) ← scan_word 63 r;
     '(_, r) ← scan_char r;
     r ← Rocky.skip_ints 10 r;
     '(utime, r) ← scan_lu r;
     Some (to_u64 (utime + match scan_lu r with Some (stime, _) => stime | None => 0 end))).

(** [count - 2]: the entries of a directory without the first two. *)
Definition read_fd_count (entries : option Z) : Z := match entries with Some n => n - 2 | None => 0 end.

(** The interface and the two counters of a line.  On a line with a colon that does
    not scan, the code adds numbers that it has not set; here it adds none. *)
Definition netdev_line (line : string) : option (string * Z * Z) :=
  let s := skip_while is_space line in
  let '(iface, r) := break_at (Ascii.eqb ":") s in
  if String.eqb iface "" || longer 31 iface || negb (has_prefix ":" r) then None
  else
    '(rbytes, r) ← scan_ld (sdrop 1 r);
    r ← Rocky.skip_ints 7 r;
    '(tbytes, _) ← scan_ld r;
    Some (iface, rbytes, tbytes).

(** [*tx] and [*rx]. *)
Definition read_network (file : option string) : Z * Z :=
  match file with
  | Some text =>
      foldl (λ acc line,
        match netdev_line line with
        | Some (iface, rbytes, tbytes) =>
            if String.eqb iface "lo" then acc else (acc.1 + Z.quot tbytes 1024, acc.2 + Z.quot rbytes 1024)
        | None => acc
        end) (0, 0) (List.filter (λ l, contains l ":") (read_lines 256 text))
  | None => (0, 0)
  end.

(** The [%lld]s up to the first that fails. *)
Fixpoint scan_longs (n : nat) (s : string) : list Z :=
  match n with
  | O => []
  | S n' => match scan_ld s with Some (v, r) => v :: scan_longs n' r | None => [] end
  end.

Definition total_jiffies (file : option string) : Z :=
  match file with
  | Some text =>
      let line := match fgets 256 text with Some (line, _) => line | None => "" end in
      if has_prefix "cpu" line then foldr Z.add 0 (scan_longs 7 (sdrop 3 line)) else 0
  | None => 0
  end.

(** [*total_kb] is not used; this is [*avail_kb]. *)
Definition read_meminfo (file : option string) : Z :=
  match file with
  | Some text =>
      foldl (λ acc line,
        if has_prefix "MemAvailable:" line
        then match scan_ld (sdrop 13 line) with Some (v, _) => v | None => acc end
        else acc) 0 (read_lines 128 text)
  | None => 0
  end.

(** Degrees from thousandths; a text that is no number reads as 0. *)
Definition get_thermal_temp (file : option string) : Z :=
  match file with
  | Some text => Z.quot (match scan_d text with Some (v, _) => v | None => -1 end) 1000
  | None => -1
  end.

Definition get_adjusted_hog_pct (_ : Z) : Z := HOG_PCT_COOL.

(** ** The processes of a poll *)

Definition find_proc (pid : Z) (l : list proc_t) : option proc_t := List.find (λ q, pr_pid q =? pid) l.

Definition is_pid (name : string) : bool := none_of (λ c, negb (is_digit c)) name.

Section procs.
Context (k : king) (f : king_facts) (delta_j : Z).

(** One entry of /proc. *)
Definition read_proc (name : string) : option proc_t :=
  if is_pid name then
    let pid := atoi name in
    text ← kf_status f pid;
    let st := read_status text in
    let cpu_time := read_cputime (kf_pidstat f pid) in
    let '(tx, rx) := read_network (kf_netdev f pid) in
    let prev := if kg_first k then None else find_proc pid (kg_prev k) in
    let cpu_pct :=
      match prev with
      | Some q =>
          let dt := if pr_cpu_time q <? cpu_time then cpu_time - pr_cpu_time q else 0 in
          to_i32 (to_u64 (dt * 100) / to_u64 delta_j)
      | None => 0
      end in
    let '(first_seen, polls_alive) :=
      match prev with Some q => (pr_first_seen q, pr_polls_alive q + 1) | None => (kf_seen f pid, 1) end in
    Some (Proc pid (ss_name st) (ss_state st) (ss_uid st) (ss_ppid st) (ss_vmrss st) cpu_time cpu_pct
            first_seen (kf_seen f pid) polls_alive (read_fd_count (kf_fds f pid)) tx rx)
  else None.

Definition read_procs (entries : list string) : list proc_t := take MAX_PROCS (omap read_proc entries).

End procs.

Definition is_flash (p : proc_t) : bool :=
  let lifetime := to_i32 (pr_last_seen p - pr_first_seen p) in
  (0 <? lifetime) && (lifetime <? FLASH_LIFETIME) && (10 <? pr_cpu_pct p).

Definition is_orphan (p : proc_t) : bool := (pr_ppid p =? 1) && (100 <? pr_pid p) && (1000 <? pr_uid p).

Definition is_zombie (p : proc_t) : bool := Ascii.eqb (pr_state p) "Z".

Definition count_of (test : proc_t → bool) (l : list proc_t) : Z := Z.of_nat (length (List.filter test l)).

Definition cmp_cpu (a b : proc_t) : Z := pr_cpu_pct b - pr_cpu_pct a.
Definition cmp_mem (a b : proc_t) : Z := to_i32 (pr_vmrss b - pr_vmrss a).

(** ** The system's own answers *)

(** The places of the word, each search going on twenty characters behind a place;
    the word has nineteen. *)
Fixpoint kill_maps (fuel : nat) (p : string) : Z :=
  match fuel with
  | O => 0
  | S fuel' => match strstr p "mKillingPackageMaps" with Some q => 1 + kill_maps fuel' (sdrop 20 q) | None => 0 end
  end.

Definition storm_json (count : Z) (storm recent : bool) : string :=
  snprintf 512 (scat [dq "{'type':'pm_kill_storm','count':"; fmt_d count; dq ",'storm_active':"; bool_str storm;
                      dq ",'recent':"; bool_str recent; "}"]).

(** The new count and time of the last storm, and the text when there is a storm. *)
Definition check_pm_kill_storm (k : king) (dump : option string) (now : Z) : Z * Z * option string :=
  match dump with
  | None => (kg_pm_prev k, kg_pm_last k, None)
  | Some dump =>
      let count := kill_maps (String.length dump) dump in
      let storm := (0 <=? kg_pm_prev k) && (kg_pm_prev k + 10 <? count) in
      let last := if storm then now else kg_pm_last k in
      (count, last, if storm then Some (storm_json count storm (now - last <? 300)) else None)
  end.

Definition rearm_json (enabled rearmed : bool) : string :=
  snprintf 512 (scat [dq "{'type':'periodic_rearm','enabled':"; bool_str enabled; dq ",'rearmed':"; bool_str rearmed; "}"]).

(** The new state of the cleaner, and the text when it has been armed again. *)
Definition check_periodic_rearm (k : king) (dump : option string) : Z * option string :=
  match dump with
  | None => (kg_periodic_prev k, None)
  | Some dump =>
      let enabled := contains dump "Enable=true" in
      let rearmed := (kg_periodic_prev k =? 0) && enabled in
      (if enabled then 1 else 0, if rearmed then Some (rearm_json enabled rearmed) else None)
  end.

Definition check_millet_health (mods : option string) : option string :=
  match mods with
  | None => None
  | Some mods =>
      let count := atoi mods in
      if count <? 5
      then Some (snprintf 512 (scat [dq "{'type':'millet_health','module_count':"; fmt_d count; dq ",'degraded':true}"]))
      else None
  end.

Definition check_self_protection (oom cgroup : option string) : option string :=
  let oom_adj := match oom with Some text => match scan_d text with Some (v, _) => v | None => 0 end | None => 0 end in
  let line := match cgroup with Some text => match fgets 256 text with Some (l, _) => l | None => "" end | None => "" end in
  if -900 <? oom_adj
  then Some (snprintf 512 (scat [dq "{'type':'self_protection','oom_score_adj':"; fmt_d oom_adj; dq ",'cgroup':'";
                                 stake 300 (json_escape 400 0 (first_line line)); dq "','unprotected':true}"]))
  else None.

(** A signal with its weight and the text, when there is one. *)
Definition note (signal : string) (weight : double) (text : option string) : list alarm :=
  match text with Some t => [Alarm signal weight t 0] | None => [] end.

(** ** The parts of the report *)

(** [x / 1024.0]. *)
Definition in_mb (kb : Z) : double := (d_of_Z kb / d_of_Z 1024)%D.

Definition esc_name (name : string) : string := json_escape 80 0 name.

Definition cpu_entry (p : proc_t) (mean : double) (anomaly : bool) : string :=
  snprintf 512 (scat [dq "{'pid':"; fmt_d (pr_pid p); dq ",'name':'"; esc_name (pr_name p); dq "','cpu_pct':"; fmt_d (pr_cpu_pct p);
                      dq ",'baseline_mean':"; fmt_f 1 mean; dq ",'anomaly':"; bool_str anomaly; "},"]).

Definition thermal_word (temp : Z) : string := if 60 <? temp then "HOT" else if 45 <? temp then "WARM" else "COOL".

Definition anomaly_entry (p : proc_t) (cpu : bool) (temp : Z) : string :=
  snprintf 512 (scat [dq "{'type':'"; if cpu then "cpu_spike" else "rss_spike"; dq "','pid':"; fmt_d (pr_pid p); dq ",'name':'";
                      esc_name (pr_name p); dq "','cpu_pct':"; fmt_d (pr_cpu_pct p); dq ",'rss_mb':"; fmt_f 1 (in_mb (pr_vmrss p));
                      dq ",'confidence':90,'thermal':'"; thermal_word temp; dq "'},"]).

(** The loop over the busiest: the baselines afterwards, the text of [top_cpu_json]
    and that of [anomalies_json].  [learn] says whether samples are taken. *)
Fixpoint top_cpu (learn : bool) (temp : Z) (shown : nat) (bs : list baseline_t) (l : list proc_t) :
    list baseline_t * string * string :=
  match l with
  | [] => (bs, "", "")
  | p :: l' =>
      if (TOP_N <=? shown)%nat || ((pr_cpu_pct p <=? 0) && (0 <? shown)%nat) then (bs, "", "")
      else
        let bs := if learn then update_baseline (pr_name p) (pr_cpu_pct p) (pr_vmrss p) bs else bs in
        let cpu := is_anomaly_cpu (pr_name p) (pr_cpu_pct p) bs in
        let mean := match find_baseline (pr_name p) bs with Some b => ba_cpu_mean b | None => d_of_Z 0 end in
        let spike := cpu || is_anomaly_rss (pr_name p) (pr_vmrss p) bs in
        let '(bs', top, anomalies) := top_cpu learn temp (S shown) bs l' in
        (bs', cpu_entry p mean cpu +:+ top, (if spike then anomaly_entry p cpu temp else "") +:+ anomalies)
  end.

Definition mem_entry (bs : list baseline_t) (p : proc_t) : string :=
  snprintf 512 (scat [dq "{'pid':"; fmt_d (pr_pid p); dq ",'name':'"; esc_name (pr_name p); dq "','rss_mb':"; fmt_f 1 (in_mb (pr_vmrss p));
                      dq ",'anomaly':"; bool_str (is_anomaly_rss (pr_name p) (pr_vmrss p) bs); "},"]).

Fixpoint top_mem (bs : list baseline_t) (shown : nat) (l : list proc_t) : string :=
  match l with
  | [] => ""
  | p :: l' => if (TOP_N <=? shown)%nat || (pr_vmrss p <=? 0) then "" else mem_entry bs p +:+ top_mem bs (S shown) l'
  end.

Definition correlated (p : proc_t) : bool := (20 <? pr_cpu_pct p) && ((1024 <? pr_tx p) || (1024 <? pr_rx p)).

Definition network_entry (p : proc_t) : string :=
  snprintf 512 (scat [dq "{'pid':"; fmt_d (pr_pid p); dq ",'name':'"; esc_name (pr_name p); dq "','cpu_pct':"; fmt_d (pr_cpu_pct p);
                      dq ",'tx_kb':"; fmt_d (pr_tx p); dq ",'rx_kb':"; fmt_d (pr_rx p); dq ",'correlation':'high'},"]).

(** [strncat(network_json, entry, sizeof - 1)] does not bound the sum: the text
    grows past the 4096 bytes of its array. *)
Definition network_json (procs : list proc_t) : string := scat (map network_entry (List.filter correlated procs)).

(** The largest growth of memory and the process it is attributed to. *)
Definition largest_grower (prev procs : list proc_t) : Z * string :=
  foldl (λ acc p,
    match find_proc (pr_pid p) prev with
    | Some q => let delta := pr_vmrss p - pr_vmrss q in if acc.1 <? delta then (delta, pr_name p) else acc
    | None => acc
    end) (0, "unknown") procs.

Definition low_json (avail_mb : Z) (grower : Z * string) : string :=
  snprintf 512 (scat [dq "{'memory_low':true,'avail_mb':"; fmt_d avail_mb; dq ",'attributed_to':'"; esc_name grower.2; " (+";
                      fmt_f 1 (in_mb grower.1); dq "MB in last poll)'}"]).

Definition high_json (avail_mb : Z) : string :=
  snprintf 512 (scat [dq "{'memory_low':false,'avail_mb':"; fmt_d avail_mb; dq ",'attributed_to':''}"]).

Definition memory_low (avail_mb : Z) : bool := (avail_mb <? MEM_LOW_MB) && (0 <? avail_mb).

Definition count_note (signal label : string) (n : Z) : list alarm :=
  when (0 <? n) (plain signal (snprintf 256 (scat [label; fmt_d n])) 0).

(** The busiest process; without any, the code looks at an array element it has not
    set. *)
Definition hog_note (sorted : list proc_t) (hog_pct temp : Z) : list alarm :=
  match sorted with
  | p :: _ =>
      when (hog_pct <=? pr_cpu_pct p)
        (plain "CPU_HOG" (snprintf 256 (scat ["pid="; fmt_d (pr_pid p); " name="; pr_name p; " cpu_pct="; fmt_d (pr_cpu_pct p);
                                              " temp="; fmt_d temp])) 0)
  | [] => []
  end.

(** ** The result file *)

Definition strip_trailing_comma (s : string) : string :=
  let n := String.length s in
  if (0 <? n)%nat && String.eqb (sdrop (n - 1) s) "," then stake (n - 1) s else s.

(** [strncpy] into 4096 bytes, and the comma. *)
Definition part (s : string) : string := strip_trailing_comma (strncpy 4096 s).

Definition write_json (r : king_report) : string :=
  let l := json_line "  " in
  let m := json_line "    " in
  scat ["{"; NLs;
        l "daemon" (quoted "ratkingd" +:+ ","); l "version" (quoted "2.0" +:+ ","); l "timestamp" (quoted (kr_ts r) +:+ ",");
        l "poll_interval_sec" (fmt_d POLL_SEC +:+ ","); NLs;
        l "baseline" "{"; m "established" (bool_str (kr_ready r) +:+ ","); m "polls_learned" (fmt_d (kr_learn r) +:+ ",");
        m "process_types_tracked" (fmt_d (kr_tracked r)); "  },"; NLs; NLs;
        l "thermal" "{"; m "zone_temp_c" (fmt_d (kr_temp r) +:+ ","); m "adjusted_hog_pct" (fmt_d (kr_hog_pct r)); "  },"; NLs; NLs;
        l "processes" "{"; m "total" (fmt_d (kr_total r) +:+ ","); m "zombies" (fmt_d (kr_zombies r) +:+ ",");
        m "orphans" (fmt_d (kr_orphans r) +:+ ","); m "flash_processes" (fmt_d (kr_flash r)); "  },"; NLs; NLs;
        l "top_cpu" ("[" +:+ part (kr_top_cpu r) +:+ "],"); NLs; l "top_memory" ("[" +:+ part (kr_top_mem r) +:+ "],"); NLs;
        l "anomalies" ("[" +:+ part (kr_anomalies r) +:+ "],"); NLs; l "pressure" (part (kr_pressure r) +:+ ","); NLs;
        l "network_correlation" ("[" +:+ part (kr_network r) +:+ "]"); "}"; NLs].

(** ** A poll *)

Section polls.
Context {Q : QSort}.

Definition poll_procs (_ : Z) (f : king_facts) : M (desk king king_report) unit :=
  match kf_entries f with
  | None => mret tt
  | Some entries =>
      k ← gets dk_own;
      let cur_total := total_jiffies (kf_stat f) in
      let delta_j := if kg_prev_total k <? cur_total then cur_total - kg_prev_total k else 1 in
      let procs := read_procs k f delta_j entries in
      let '(pm_prev, pm_last, pm_storm) := check_pm_kill_storm k (kf_pm f) (kf_now f) in
      let '(periodic_prev, rearmed) := check_periodic_rearm k (kf_periodic f) in
      _ ← mfor (note "PM_KILL_STORM" (lit "0.85") pm_storm ++ note "PERIODIC_REARM_NEEDED" (lit "0.7") rearmed ++
                note "MILLET_DEGRADED" (lit "0.75") (check_millet_health (kf_millet f)) ++
                note "SELF_UNPROTECTED" (lit "0.8") (check_self_protection (kf_oom f) (kf_cgroup f))) raise;
      _ ← modify (set_own (King procs false cur_total (kg_baselines k) (kg_learn k) (kg_ready k) pm_prev pm_last periodic_prev));
      let avail_mb := Z.quot (read_meminfo (kf_meminfo f)) 1024 in
      let temp := get_thermal_temp (kf_temp f) in
      let hog_pct := get_adjusted_hog_pct temp in
      let sorted_cpu := qsort cmp_cpu procs in
      let sorted_mem := qsort cmp_mem procs in
      let '(bs, top, anomalies) := top_cpu (kg_learn k <? LEARN_POLLS) temp 0 (kg_baselines k) sorted_cpu in
      k ← gets dk_own;
      let low := memory_low avail_mb in
      let pressure := if low then low_json avail_mb (largest_grower (kg_prev k) procs) else high_json avail_mb in
      _ ← mfor (when low (plain "MEM_PRESSURE" pressure 0) ++
                count_note "ZOMBIE_DETECTED" "zombie_count=" (count_of is_zombie procs) ++
                hog_note sorted_cpu hog_pct temp ++
                count_note "FLASH_PROCESS" "flash_count=" (count_of is_flash procs)) raise;
      _ ← mwhen (kf_results_ok f)
        (modify (file_result
          (KingReport (kf_ts f) temp hog_pct (Z.of_nat (length procs)) (count_of is_zombie procs) (count_of is_orphan procs)
             (count_of is_flash procs) top (top_mem bs 0 sorted_mem) anomalies pressure (network_json procs)
             (kg_ready k) (kg_learn k) (Z.of_nat (length bs)))));
      let learn := kg_learn k + 1 in
      modify (set_own (King (kg_prev k) (kg_first k) (kg_prev_total k) bs learn (kg_ready k || (LEARN_POLLS <=? learn))
                         (kg_pm_prev k) (kg_pm_last k) (kg_periodic_prev k)))
  end.

(** The first polls of [main]. *)
Definition king_main (polls : list king_facts) : M (desk king king_report) unit := mfor polls (poll_procs 0).

End polls.

(** ** ratkingd over a run

    What ratkingd says is a function of its polls; the life of a process is counted
    right, yet no short-lived process is ever reported; the baseline is well formed
    and frozen after twenty polls; memory pressure is never attributed. *)

(** ** Sorting *)

(** [cmp] compares keys, the larger first. *)
Definition by_key (cmp : proc_t → proc_t → Z) (key : proc_t → Z) : Prop := ∀ x y, cmp x y <= 0 ↔ key y <= key x.

Class QSortLaws (Q : QSort) : Prop := {
  qsort_permutation cmp l : qsort cmp l ≡ₚ l;
  qsort_sorted cmp key l : by_key cmp key → StronglySorted (λ x y, key y <= key x) (qsort cmp l) }.

(** Insertion sort is one. *)
#[export] Instance stable_sort : QSort := λ cmp l, Rocky.insertion_sort (λ x y, 0 <? cmp x y) l.

#[export] Instance stable_sort_laws : QSortLaws stable_sort.
Proof.
  split; [intros cmp l; apply Rocky.insertion_sort_permutation|]. intros cmp key l Hk.
  apply Rocky.insertion_sort_sorted; [intros x y z; lia|]. intros x y. specialize (Hk x y).
  destruct (Z.ltb_spec 0 (cmp x y)); lia.
Qed.

Section polls.
Context {Q : QSort}.

(** ** What a poll says *)

Section poll.
Context (k : king) (f : king_facts) (entries : list string).

Definition jiffies : Z := total_jiffies (kf_stat f).
Definition procs_of : list proc_t :=
  read_procs k f (if kg_prev_total k <? jiffies then jiffies - kg_prev_total k else 1) entries.
Definition storm : Z * Z * option string := check_pm_kill_storm k (kf_pm f) (kf_now f).
Definition rearm : Z * option string := check_periodic_rearm k (kf_periodic f).
Definition avail : Z := Z.quot (read_meminfo (kf_meminfo f)) 1024.
Definition temp_of : Z := get_thermal_temp (kf_temp f).
Definition top_of : list baseline_t * string * string :=
  top_cpu (kg_learn k <? LEARN_POLLS) temp_of 0 (kg_baselines k) (qsort cmp_cpu procs_of).
Definition pressure_of : string :=
  if memory_low avail then low_json avail (largest_grower procs_of procs_of) else high_json avail.

Definition system_notes : list alarm :=
  note "PM_KILL_STORM" (lit "0.85") storm.2 ++ note "PERIODIC_REARM_NEEDED" (lit "0.7") rearm.2 ++
  note "MILLET_DEGRADED" (lit "0.75") (check_millet_health (kf_millet f)) ++
  note "SELF_UNPROTECTED" (lit "0.8") (check_self_protection (kf_oom f) (kf_cgroup f)).

Definition proc_notes : list alarm :=
  when (memory_low avail) (plain "MEM_PRESSURE" pressure_of 0) ++
  count_note "ZOMBIE_DETECTED" "zombie_count=" (count_of is_zombie procs_of) ++
  hog_note (qsort cmp_cpu procs_of) (get_adjusted_hog_pct temp_of) temp_of ++
  count_note "FLASH_PROCESS" "flash_count=" (count_of is_flash procs_of).

Definition report : king_report :=
  KingReport (kf_ts f) temp_of (get_adjusted_hog_pct temp_of) (Z.of_nat (length procs_of)) (count_of is_zombie procs_of)
    (count_of is_orphan procs_of) (count_of is_flash procs_of) top_of.1.2 (top_mem top_of.1.1 0 (qsort cmp_mem procs_of))
    top_of.2 pressure_of (network_json procs_of) (kg_ready k) (kg_learn k) (Z.of_nat (length top_of.1.1)).

Definition after : king :=
  King procs_of false jiffies top_of.1.1 (kg_learn k + 1) (kg_ready k || (LEARN_POLLS <=? kg_learn k + 1))
    storm.1.1 storm.1.2 rearm.1.

End poll.

Definition poll_alarms (k : king) (f : king_facts) : list alarm :=
  match kf_entries f with Some e => system_notes k f ++ proc_notes k f e | None => [] end.

Definition poll_report (_ : Z) (k : king) (f : king_facts) : list king_report :=
  match kf_entries f with Some e => if kf_results_ok f then [report k f e] else [] | None => [] end.

Definition poll_next (k : king) (f : king_facts) : king :=
  match kf_entries f with Some e => after k f e | None => k end.

Lemma king_says : says poll_alarms poll_report poll_next poll_procs.
Proof.
  intros n f [k o res]. unfold poll_procs, poll_alarms, poll_report, poll_next.
  destruct (kf_entries f) as [e|]; [|cbn; by rewrite !app_nil_r].
  autorewrite with monad. cbn [dk_own].
  unfold report, after, system_notes, proc_notes, pressure_of, top_of, storm, rearm, procs_of, jiffies, avail, temp_of.
  destruct (check_pm_kill_storm k (kf_pm f) (kf_now f)) as [[c t] st].
  destruct (check_periodic_rearm k (kf_periodic f)) as [pp re]. cbv zeta. cbn [fst snd].
  destruct (top_cpu _ _ _ _ _) as [[bs top] an] eqn:Htop. autorewrite with monad. rewrite !exec_raises.
  cbn [set_own dk_own dk_out dk_results kg_prev kg_first kg_prev_total kg_learn kg_ready kg_pm_prev kg_pm_last kg_periodic_prev fst snd].
  rewrite !flat_map_app.
  destruct (kf_results_ok f); cbn [file_result set_own dk_own dk_out dk_results]; by rewrite ?app_nil_r, <-?app_assoc.
Qed.

(** ** The run *)

(** The state before each poll. *)
Fixpoint before (k : king) (fs : list king_facts) : list (king * king_facts) :=
  match fs with [] => [] | f :: fs' => (k, f) :: before (poll_next k f) fs' end.

Definition king_after (fs : list king_facts) : king := foldl poll_next king_start fs.

Lemma run_king fs : ∀ s,
  exec (king_main fs) s = Desk (foldl poll_next (dk_own s) fs)
    (dk_out s ++ flat_map (λ x, flat_map messages (poll_alarms x.1 x.2)) (before (dk_own s) fs))
    (dk_results s ++ flat_map (λ x, poll_report 0 x.1 x.2) (before (dk_own s) fs)).
Proof.
  unfold king_main. induction fs as [|f fs IH]; intros s.
  - cbn. rewrite !app_nil_r. by destruct s.
  - cbn [mfor before flat_map foldl fst snd]. rewrite exec_bind, king_says, IH. cbn [dk_own dk_out dk_results].
    by rewrite <-!app_assoc.
Qed.

(** Everything ratkingd sends and reports over a run is, poll by poll, a
    function of what the poll reads and of the state that the polls before it left:
    the answers of the system first, then memory, zombies, the busiest process and
    short-lived processes; and a report for each poll that could open /proc and
    write its file. *)
Theorem king_reports fs :
  let s := exec (king_main fs) (desk_start king_start) in
  dk_own s = king_after fs ∧
  dk_out s = flat_map (λ x, flat_map messages (poll_alarms x.1 x.2)) (before king_start fs) ∧
  dk_results s = flat_map (λ x, poll_report 0 x.1 x.2) (before king_start fs).
Proof. intros s. unfold s. by rewrite run_king. Qed.

(** ** The life of a process *)

(** The processes that a poll reads do not depend on the state. *)
Definition pids_of (f : king_facts) : list Z :=
  match kf_entries f with
  | Some entries =>
      take MAX_PROCS (omap (λ name, if is_pid name then (λ _, atoi name) <$> kf_status f (atoi name) else None) entries)
  | None => []
  end.

Lemma map_omap {A B C} (g : B → C) (h : A → option B) l : map g (omap h l) = omap (λ x, g <$> h x) l.
Proof. induction l as [|x l IH]; [done|]. cbn [omap list_omap]. destruct (h x); cbn [fmap option_fmap option_map map]; by rewrite IH. Qed.

Lemma procs_pids k f e d : kf_entries f = Some e → map pr_pid (read_procs k f d e) = pids_of f.
Proof.
  intros He. unfold read_procs, pids_of. rewrite He, <-firstn_map. f_equal. rewrite map_omap. clear He.
  induction e as [|name e IH]; [done|]. cbn [omap list_omap]. rewrite IH. unfold read_proc. destruct (is_pid name); [|done]. destruct (kf_status f (atoi name)) as [text|]; [|done].
  cbn [mbind option_bind fmap option_fmap option_map]. destruct (read_network _) as [tx rx].
  by destruct (if kg_first k then _ else _) as [q|].
Qed.

(** The polls that could open /proc, the last one first. *)
Definition opened (fs : list king_facts) : list king_facts :=
  rev (List.filter (λ f, match kf_entries f with Some _ => true | None => false end) fs).

(** In how many polls in a row, counted from the last, the process was read. *)
Fixpoint streak (pid : Z) (hist : list king_facts) : Z :=
  match hist with
  | f :: hist' => if bool_decide (pid ∈ pids_of f) then 1 + streak pid hist' else 0
  | [] => 0
  end.

(** When it was read at the first of them. *)
Fixpoint since (pid : Z) (hist : list king_facts) (last : Z) : Z :=
  match hist with
  | f :: hist' => if bool_decide (pid ∈ pids_of f) then since pid hist' (kf_seen f pid) else last
  | [] => last
  end.

Definition tracked (hist : list king_facts) (p : proc_t) : Prop :=
  pr_polls_alive p = streak (pr_pid p) hist ∧ pr_first_seen p = since (pr_pid p) hist 0 ∧
  match hist with f :: _ => pr_last_seen p = kf_seen f (pr_pid p) ∧ pr_pid p ∈ pids_of f | [] => False end.

Definition track_ok (hist : list king_facts) (k : king) : Prop :=
  Forall (tracked hist) (kg_prev k) ∧
  match hist with [] => kg_first k = true ∧ kg_prev k = [] | f :: _ => kg_first k = false ∧ map pr_pid (kg_prev k) = pids_of f end.

Lemma find_proc_some pid l q : find_proc pid l = Some q → q ∈ l ∧ pr_pid q = pid.
Proof.
  unfold find_proc. intros H. apply find_some in H as [Hin Heq%Z.eqb_eq]. split; [by apply list_elem_of_In|done].
Qed.

Lemma find_proc_none pid l : find_proc pid l = None → pid ∉ map pr_pid l.
Proof.
  unfold find_proc. intros H Hin. apply list_elem_of_fmap in Hin as (q & -> & Hq%list_elem_of_In).
  pose proof (find_none _ _ H q Hq) as Hf. cbv beta in Hf. by rewrite Z.eqb_refl in Hf.
Qed.

Lemma since_last pid hist last : ∀ last', match hist with f :: _ => pid ∈ pids_of f | [] => False end → since pid hist last = since pid hist last'.
Proof. destruct hist as [|f hist]; [done|]. intros last' Hin. cbn [since]. by rewrite bool_decide_true. Qed.

Lemma track_step hist k f e : kf_entries f = Some e → track_ok hist k → track_ok (f :: hist) (after k f e).
Proof.
  intros He [Hall Hk]. split; [|by split; [|apply procs_pids]].
  cbn [after kg_prev]. apply Forall_forall. intros p Hp.
  assert (pr_pid p ∈ pids_of f) as Hpid.
  { unfold procs_of in Hp. erewrite <-procs_pids by done. by eapply list_elem_of_fmap_2. }
  unfold procs_of, read_procs in Hp. apply elem_of_take in Hp as (i & Hp & _). apply list_elem_of_lookup_2 in Hp.
  apply list_elem_of_omap in Hp as (name & _ & Hp). unfold read_proc in Hp. destruct (is_pid name); [|done].
  destruct (kf_status f (atoi name)) as [text|]; [|done]. cbn [mbind option_bind] in Hp.
  destruct (read_network _) as [tx rx].
  unfold tracked. cbn [streak since]. rewrite (bool_decide_true (pr_pid p ∈ pids_of f)) by done.
  destruct (if kg_first k then None else find_proc (atoi name) (kg_prev k)) as [q|] eqn:Hq.
  - apply (inj Some) in Hp. assert (find_proc (atoi name) (kg_prev k) = Some q) as Hq' by by destruct (kg_first k).
    apply find_proc_some in Hq' as [Hin Hqp]. rewrite Forall_forall in Hall. destruct (Hall q Hin) as (Ha & Hf & Hl).
    subst p. cbn [pr_pid pr_polls_alive pr_first_seen pr_last_seen] in *. rewrite Hqp in *. split_and!; [lia| |done|done].
    rewrite Hf. apply since_last. destruct hist; [done|apply Hl].
  - apply (inj Some) in Hp. subst p. cbn [pr_pid pr_polls_alive pr_first_seen pr_last_seen] in *.
    assert (match hist with h :: _ => atoi name ∉ pids_of h | [] => True end) as Hno.
    { destruct hist as [|h hist]; [done|]. destruct Hk as [Hfst <-]. rewrite Hfst in Hq. by apply find_proc_none. }
    destruct hist as [|h hist]; [done|]. cbn [streak since]. rewrite (bool_decide_false _ Hno). done.
Qed.

Lemma king_snoc fs f : king_after (fs ++ [f]) = poll_next (king_after fs) f.
Proof. unfold king_after. by rewrite foldl_app. Qed.

Lemma opened_snoc fs f :
  opened (fs ++ [f]) = match kf_entries f with Some _ => f :: opened fs | None => opened fs end.
Proof. unfold opened. rewrite List.filter_app, rev_app_distr. cbn [List.filter]. by destruct (kf_entries f). Qed.

Lemma track_run fs : track_ok (opened fs) (king_after fs).
Proof.
  induction fs as [|f fs IH] using rev_ind; [done|]. rewrite king_snoc, opened_snoc. unfold poll_next.
  destruct (kf_entries f) as [e|] eqn:He; [by apply track_step|done].
Qed.

(** C30. The life of every process is counted right, over any run: a process of the
    last poll has been alive for as many polls in a row as it was read in, it was
    first seen at the first of them, and last at the last one. *)
Theorem lifetimes_tracked fs p :
  p ∈ kg_prev (king_after fs) →
  pr_polls_alive p = streak (pr_pid p) (opened fs) ∧ pr_first_seen p = since (pr_pid p) (opened fs) 0 ∧
  1 <= pr_polls_alive p.
Proof.
  intros Hp. destruct (track_run fs) as [Hall _]. rewrite Forall_forall in Hall. destruct (Hall p Hp) as (H1 & H2 & H3).
  split_and!; [done|done|]. rewrite H1. destruct (opened fs) as [|f hist]; [done|]. cbn [streak].
  rewrite bool_decide_true by apply H3. assert (∀ h, 0 <= streak (pr_pid p) h) as Hnn; [|specialize (Hnn hist); lia].
  induction h as [|x h IH]; cbn [streak]; [lia|]. case_bool_decide; lia.
Qed.

(** ** Short-lived processes *)

(** The polls lie apart, newest first, and their times are of this century. *)
Fixpoint spaced (hist : list king_facts) : Prop :=
  match hist with
  | f :: hist' =>
      (∀ pid, 0 <= kf_seen f pid < 2 ^ 31) ∧
      match hist' with h :: _ => ∀ pid, kf_seen h pid + FLASH_LIFETIME <= kf_seen f pid | [] => True end ∧ spaced hist'
  | [] => True
  end.

Lemma since_between pid hist last :
  spaced hist → 0 <= last → match hist with f :: _ => kf_seen f pid <= last | [] => True end →
  0 <= since pid hist last <= last.
Proof.
  revert last. induction hist as [|f hist IH]; intros last Hs Hl Hle; cbn [since]; [lia|].
  destruct Hs as (Hf & Hgap & Hs). case_bool_decide; [|lia]. specialize (Hf pid).
  assert (0 <= since pid hist (kf_seen f pid) <= kf_seen f pid); [|lia].
  apply IH; [done|lia|]. destruct hist as [|h hist]; [done|]. specialize (Hgap pid). unfold FLASH_LIFETIME in Hgap. lia.
Qed.

Lemma tracked_no_flash hist p : spaced hist → tracked hist p → is_flash p = false.
Proof.
  intros Hs (_ & Hfirst & Hl). destruct hist as [|f hist]; [done|]. destruct Hl as [Hlast Hin], Hs as (Hf & Hgap & Hs).
  cbn [since] in Hfirst. rewrite bool_decide_true in Hfirst by done. specialize (Hf (pr_pid p)).
  unfold is_flash. rewrite Hlast, Hfirst.
  assert (since (pr_pid p) hist (kf_seen f (pr_pid p)) = kf_seen f (pr_pid p) ∨
    0 <= since (pr_pid p) hist (kf_seen f (pr_pid p)) <= kf_seen f (pr_pid p) - FLASH_LIFETIME) as [-> |Hsince].
  - destruct hist as [|h hist]; [by left|]. specialize (Hgap (pr_pid p)). cbn [since]. case_bool_decide; [right|by left].
    destruct Hs as (Hh & Hgap' & Hs). specialize (Hh (pr_pid p)).
    assert (0 <= since (pr_pid p) hist (kf_seen h (pr_pid p)) <= kf_seen h (pr_pid p)); [|lia].
    apply since_between; [done|lia|]. destruct hist as [|g hist]; [done|]. specialize (Hgap' (pr_pid p)). unfold FLASH_LIFETIME in Hgap'. lia.
  - by rewrite Z.sub_diag.
  - assert (FLASH_LIFETIME = 5) by done. set (d := kf_seen f (pr_pid p) - _). assert (to_i32 d = d) as ->.
    { unfold to_i32. rewrite Z.mod_small by lia. lia. }
    assert (FLASH_LIFETIME <= d) by lia. by rewrite (proj2 (Z.ltb_ge d FLASH_LIFETIME)), andb_false_r.
Qed.

(** Each poll of a run starts from the state after those before it. *)
Lemma before_prefix fs : ∀ k0 k f, (k, f) ∈ before k0 fs → ∃ pre suf, fs = pre ++ f :: suf ∧ k = foldl poll_next k0 pre.
Proof.
  induction fs as [|f' fs IH]; intros k0 k f; cbn [before]; [by intros ?%elem_of_nil|].
  intros [Heq|H]%elem_of_cons; [injection Heq as -> ->; by exists [], fs|].
  destruct (IH _ _ _ H) as (pre & suf & -> & ->). by exists (f' :: pre), suf.
Qed.

Lemma spaced_prefix pre f suf : spaced (opened (pre ++ f :: suf)) → spaced (opened (pre ++ [f])).
Proof.
  replace (pre ++ f :: suf) with ((pre ++ [f]) ++ suf) by by rewrite <-app_assoc.
  induction suf as [|g suf IH] using rev_ind; [by rewrite app_nil_r|]. rewrite app_assoc, opened_snoc.
  destruct (kf_entries g); [|done]. intros (_ & _ & H). by apply IH.
Qed.

Lemma no_flash_notes pre f e suf :
  spaced (opened (pre ++ f :: suf)) → kf_entries f = Some e → count_of is_flash (procs_of (king_after pre) f e) = 0.
Proof.
  intros Hs%spaced_prefix He. pose proof (track_run (pre ++ [f])) as [Hall _]. rewrite opened_snoc, He in Hs.
  rewrite king_snoc, opened_snoc, He in Hall. unfold poll_next in Hall. rewrite He in Hall. cbn [after kg_prev] in Hall.
  unfold count_of. induction Hall as [|p l Hp Hl IH]; [done|]. cbn [List.filter]. by rewrite (tracked_no_flash _ p Hs Hp).
Qed.

Definition not_flash (a : alarm) : Prop := al_signal a ≠ "FLASH_PROCESS".

Lemma other_signals k f e :
  Forall not_flash (system_notes k f ++ when (memory_low (avail f)) (plain "MEM_PRESSURE" (pressure_of k f e) 0) ++
    count_note "ZOMBIE_DETECTED" "zombie_count=" (count_of is_zombie (procs_of k f e)) ++
    hog_note (qsort cmp_cpu (procs_of k f e)) (get_adjusted_hog_pct (temp_of f)) (temp_of f)).
Proof.
  unfold system_notes, note, when, count_note, hog_note, when.
  rewrite !Forall_app. split_and!; repeat case_match; repeat constructor; discriminate.
Qed.

(** Where a message of a run comes from. *)
Lemma run_alarm fs o :
  o ∈ dk_out (exec (king_main fs) (desk_start king_start)) →
  ∃ pre f suf a, fs = pre ++ f :: suf ∧ a ∈ poll_alarms (king_after pre) f ∧ o ∈ messages a.
Proof.
  rewrite run_king. cbn [desk_start dk_own dk_out app]. intros Ho%list_elem_of_In.
  apply in_flat_map in Ho as ([k f] & Hkf%list_elem_of_In & Ho). apply before_prefix in Hkf as (pre & suf & -> & ->).
  apply in_flat_map in Ho as (a & Ha%list_elem_of_In & Ho%list_elem_of_In). by exists pre, f, suf, a.
Qed.

(** C31. FLASH_PROCESS is never raised: when two polls lie at least five seconds
    apart, as the twelve seconds of sleep between them ensure, no run ever reports
    a short-lived process, whatever the processes do: the life of a process is
    measured between polls, where it is zero or at least those five seconds. *)
Theorem flashes_never_reported fs w type ctx :
  spaced (opened fs) →
  let s := exec (king_main fs) (desk_start king_start) in
  (ToGaveld "FLASH_PROCESS" w ctx ∉ dk_out s) ∧ (type = "FLASH_PROCESS" → ToSplinter type ctx ∉ dk_out s).
Proof.
  intros Hs s. assert (∀ o, o ∈ dk_out s → ∃ a, not_flash a ∧ o ∈ messages a) as Hall.
  { intros o Ho. apply run_alarm in Ho as (pre & f & suf & a & -> & Ha & Ho). exists a. split; [|done].
    unfold poll_alarms in Ha. destruct (kf_entries f) as [e|] eqn:He; [|by apply elem_of_nil in Ha].
    pose proof (other_signals (king_after pre) f e) as Hother. rewrite Forall_forall in Hother. apply Hother.
    unfold proc_notes in Ha. rewrite (no_flash_notes pre f e suf Hs He) in Ha.
    change (count_note "FLASH_PROCESS" "flash_count=" 0) with (@nil alarm) in Ha. by rewrite app_nil_r in Ha. }
  split; [|intros ->]; intros (a & Ha & Hm)%Hall; apply Ha; unfold messages in Hm; rewrite !elem_of_cons, elem_of_nil in Hm;
    destruct Hm as [Hm|[Hm|[]]]; try discriminate Hm; by injection Hm.
Qed.

(** ** Memory pressure *)

Lemma find_self l p : NoDup (map pr_pid l) → p ∈ l → find_proc (pr_pid p) l = Some p.
Proof.
  induction l as [|q l IH]; intros Hn Hp; [by apply elem_of_nil in Hp|]. cbn [map] in Hn. apply NoDup_cons in Hn as [Hq Hn].
  unfold find_proc. cbn [List.find]. apply elem_of_cons in Hp as [->|Hp]; [by rewrite Z.eqb_refl|].
  destruct (Z.eqb_spec (pr_pid q) (pr_pid p)) as [He|_]; [|by apply IH]. destruct Hq. rewrite He. by apply list_elem_of_fmap_2.
Qed.

Lemma no_grower l : NoDup (map pr_pid l) → largest_grower l l = (0, "unknown").
Proof.
  intros Hn. unfold largest_grower. assert (∀ l', (∀ p, p ∈ l' → p ∈ l) →
    foldl (λ acc p, match find_proc (pr_pid p) l with
      | Some q => let delta := pr_vmrss p - pr_vmrss q in if acc.1 <? delta then (delta, pr_name p) else acc
      | None => acc end) (0, "unknown") l' = (0, "unknown")) as H; [|by apply H].
  induction l' as [|p l' IH]; intros Hl; [done|]. cbn [foldl]. rewrite (find_self l p) by (try done; apply Hl; by left).
  rewrite Z.sub_diag. cbn [fst Z.ltb]. apply IH. intros q Hq. apply Hl. by right.
Qed.

Lemma quiet_system k f : Forall (λ a, al_signal a ≠ "MEM_PRESSURE") (system_notes k f).
Proof. unfold system_notes, note. rewrite !Forall_app. split_and!; repeat case_match; repeat constructor; discriminate. Qed.

Lemma quiet_procs k f e : Forall (λ a, al_signal a ≠ "MEM_PRESSURE")
  (count_note "ZOMBIE_DETECTED" "zombie_count=" (count_of is_zombie (procs_of k f e)) ++
   hog_note (qsort cmp_cpu (procs_of k f e)) (get_adjusted_hog_pct (temp_of f)) (temp_of f) ++
   count_note "FLASH_PROCESS" "flash_count=" (count_of is_flash (procs_of k f e))).
Proof. unfold count_note, hog_note, when. rewrite !Forall_app. split_and!; repeat case_match; repeat constructor; discriminate. Qed.

(** Memory pressure is never attributed: as long as /proc lists every process
    once, every MEM_PRESSURE of a run names an unknown process that grew by nothing,
    because the processes are compared with those of the same poll. *)
Theorem pressure_unattributed fs w ctx :
  (∀ f, f ∈ fs → NoDup (pids_of f)) →
  ToGaveld "MEM_PRESSURE" w ctx ∈ dk_out (exec (king_main fs) (desk_start king_start)) →
  ∃ f, f ∈ fs ∧ memory_low (avail f) = true ∧ ctx = low_json (avail f) (0, "unknown").
Proof.
  intros Hn Ho. apply run_alarm in Ho as (pre & f & suf & a & -> & Ha & Hm).
  assert (f ∈ pre ++ f :: suf) as Hin by (apply elem_of_app; right; by left). exists f. split; [done|].
  assert (al_signal a = "MEM_PRESSURE" ∧ al_ctx a = ctx) as [Hsig <-].
  { unfold messages in Hm. rewrite !elem_of_cons, elem_of_nil in Hm. destruct Hm as [Hm|[Hm|[]]]; [|done].
    injection Hm as H1 H2 H3. by split. }
  unfold poll_alarms in Ha. destruct (kf_entries f) as [e|] eqn:He; [|by apply elem_of_nil in Ha].
  assert (pressure_of (king_after pre) f e =
    if memory_low (avail f) then low_json (avail f) (0, "unknown") else high_json (avail f)) as Hp.
  { unfold pressure_of. rewrite no_grower; [done|]. unfold procs_of. erewrite procs_pids by done. by apply Hn. }
  unfold proc_notes in Ha. rewrite Hp in Ha. clear Hp.
  rewrite (elem_of_app (system_notes _ _)), (elem_of_app (when _ _)) in Ha. destruct Ha as [Ha|[Ha|Ha]].
  - exfalso. pose proof (quiet_system (king_after pre) f) as Hq. rewrite Forall_forall in Hq. by apply (Hq a).
  - destruct (memory_low (avail f)); [|by apply elem_of_nil in Ha]. by apply list_elem_of_singleton in Ha as ->.
  - exfalso. pose proof (quiet_procs (king_after pre) f e) as Hq. rewrite Forall_forall in Hq. by apply (Hq a).
Qed.

(** ** Hogs *)

Lemma cpu_by_key : by_key cmp_cpu pr_cpu_pct.
Proof. intros x y. unfold cmp_cpu. lia. Qed.

(** CPU_HOG is raised exactly when some process of the poll used at least forty
    percent of the processor time since the poll before, and it names one of the
    processes that used most, whatever the sort does with equal ones. *)
Theorem hog_is_busiest `{!QSortLaws Q} procs temp :
  (hog_note (qsort cmp_cpu procs) HOG_PCT_COOL temp = [] ↔ ∀ p, p ∈ procs → pr_cpu_pct p < HOG_PCT_COOL) ∧
  ∀ a, a ∈ hog_note (qsort cmp_cpu procs) HOG_PCT_COOL temp →
    ∃ p, p ∈ procs ∧ (∀ q, q ∈ procs → pr_cpu_pct q <= pr_cpu_pct p) ∧ HOG_PCT_COOL <= pr_cpu_pct p ∧ [a] = hog_note [p] HOG_PCT_COOL temp.
Proof.
  pose proof (qsort_permutation cmp_cpu procs) as Hp. pose proof (qsort_sorted cmp_cpu pr_cpu_pct procs cpu_by_key) as Hs.
  destruct (qsort cmp_cpu procs) as [|p l] eqn:Hq.
  { apply Permutation_nil_l in Hp as <-. split; [split; [by intros _ q ?%elem_of_nil|done]|by intros a ?%elem_of_nil]. }
  assert (p ∈ procs) as Hin by (rewrite <-Hp; by left).
  assert (∀ q, q ∈ procs → pr_cpu_pct q <= pr_cpu_pct p) as Hmax.
  { intros q Hq'. rewrite <-Hp in Hq'. apply elem_of_cons in Hq' as [->|Hq']; [lia|].
    apply StronglySorted_inv in Hs as [_ Hs]. rewrite Forall_forall in Hs. by apply Hs. }
  unfold hog_note, when. destruct (Z.leb_spec HOG_PCT_COOL (pr_cpu_pct p)) as [Hle|Hlt].
  - split.
    + split; [done|]. intros H. specialize (H p Hin). lia.
    + intros a ->%list_elem_of_singleton. exists p. by rewrite (proj2 (Z.leb_le _ _)).
  - split; [|by intros a ?%elem_of_nil]. split; [|done]. intros _ q Hq'. specialize (Hmax q Hq'). lia.
Qed.

(** ** The baseline *)

Definition base_ok (bs : list baseline_t) : Prop :=
  NoDup (map ba_name bs) ∧ (length bs ≤ MAX_BASELINE)%nat ∧ Forall (λ b, 1 <= ba_samples b) bs.

Lemma change_names name cpu rss bs : map ba_name (change_baseline name cpu rss bs) = map ba_name bs.
Proof.
  induction bs as [|b bs IH]; [done|]. cbn [change_baseline]. destruct (String.eqb _ _); cbn [map]; [|by rewrite IH].
  unfold add_sample. destruct (welford _ _ _ _), (welford _ _ _ _). done.
Qed.

Lemma change_samples name cpu rss bs :
  Forall (λ b, 1 <= ba_samples b) bs → Forall (λ b, 1 <= ba_samples b) (change_baseline name cpu rss bs).
Proof.
  induction 1 as [|b bs Hb Hbs IH]; [constructor|]. cbn [change_baseline]. destruct (String.eqb _ _); constructor; try done.
  unfold add_sample. destruct (welford _ _ _ _), (welford _ _ _ _). cbn. lia.
Qed.

Lemma update_ok name cpu rss bs : base_ok bs → base_ok (update_baseline name cpu rss bs).
Proof.
  intros (Hn & Hl & Hs). unfold update_baseline. destruct (find_baseline name bs) eqn:Hf.
  - split_and!; [by rewrite change_names| |by apply change_samples].
    rewrite <-(length_map ba_name), change_names, length_map. done.
  - destruct (Nat.ltb_spec (length bs) MAX_BASELINE) as [Hlt|]; [|done]. split_and!.
    + rewrite map_app. apply NoDup_app. split_and!; [done| |apply NoDup_singleton]. cbn [map ba_name].
      intros n (b & -> & Hb%list_elem_of_In)%list_elem_of_fmap Heq%list_elem_of_singleton.
      pose proof (find_none _ _ Hf b Hb) as Hne. cbv beta in Hne. by rewrite Heq, String.eqb_refl in Hne.
    + rewrite length_app. cbn [length]. lia.
    + apply Forall_app. split; [done|]. by repeat constructor.
Qed.

Lemma top_ok learn temp l : ∀ shown bs, base_ok bs → base_ok (top_cpu learn temp shown bs l).1.1.
Proof.
  induction l as [|p l IH]; intros shown bs Hb; [done|]. cbn [top_cpu]. destruct (_ || _); [done|].
  assert (base_ok (if learn then update_baseline (pr_name p) (pr_cpu_pct p) (pr_vmrss p) bs else bs)) as Hb'
    by (destruct learn; [by apply update_ok|done]).
  specialize (IH (S shown) _ Hb'). by destruct (top_cpu _ _ _ _ l) as [[bs' top] an].
Qed.

Lemma top_frozen temp l : ∀ shown bs, (top_cpu false temp shown bs l).1.1 = bs.
Proof.
  induction l as [|p l IH]; intros shown bs; [done|]. cbn [top_cpu]. destruct (_ || _); [done|].
  specialize (IH (S shown) bs). by destruct (top_cpu _ _ _ _ l) as [[bs' top] an].
Qed.

Definition is_open (f : king_facts) : bool := match kf_entries f with Some _ => true | None => false end.

Lemma king_opened fs : king_after fs = king_after (List.filter is_open fs).
Proof.
  induction fs as [|f fs IH] using rev_ind; [done|]. rewrite List.filter_app, king_snoc, IH. unfold is_open, poll_next. cbn [List.filter].
  destruct (kf_entries f) as [e|] eqn:He; [|by rewrite app_nil_r]. rewrite king_snoc. unfold poll_next. by rewrite He.
Qed.

Lemma learn_count fs : forallb is_open fs = true → kg_learn (king_after fs) = Z.of_nat (length fs).
Proof.
  induction fs as [|f fs IH] using rev_ind; [done|]. rewrite forallb_app, king_snoc, length_app. intros [Hfs Hf]%andb_prop.
  cbn [forallb] in Hf. unfold is_open in Hf. unfold poll_next. destruct (kf_entries f); [|done]. cbn [after kg_learn length]. rewrite IH by done. lia.
Qed.

Lemma frozen_from fs gs : forallb is_open (fs ++ gs) = true → (20 ≤ length fs)%nat →
  kg_baselines (king_after (fs ++ gs)) = kg_baselines (king_after fs).
Proof.
  intros Hall Hl. induction gs as [|g gs IH] using rev_ind; [by rewrite app_nil_r|].
  rewrite app_assoc in *. rewrite forallb_app in Hall. apply andb_prop in Hall as [Hall Hg]. rewrite king_snoc, <-IH by done.
  unfold poll_next. destruct (kf_entries g) as [e|]; [|done]. cbn [after kg_baselines]. unfold top_of.
  rewrite (learn_count (fs ++ gs)), length_app by done. change LEARN_POLLS with 20.
  rewrite (proj2 (Z.ltb_ge _ _)) by lia. apply top_frozen.
Qed.

Lemma filter_open fs : forallb is_open (List.filter is_open fs) = true.
Proof. induction fs as [|f fs IH]; [done|]. cbn [List.filter]. destruct (is_open f) eqn:Hf; [|done]. cbn [forallb]. by rewrite Hf. Qed.

(** C32. The learned baseline, after any run: one entry for each name, at most 128
    of them, each from at least one sample; and it is that of the first twenty
    polls that could open /proc, whatever came after. *)
Theorem baseline_typed fs :
  base_ok (kg_baselines (king_after fs)) ∧
  kg_baselines (king_after fs) = kg_baselines (king_after (take (Z.to_nat LEARN_POLLS) (List.filter is_open fs))).
Proof.
  split.
  - induction fs as [|f fs IH] using rev_ind; [split_and!; [constructor|cbn; lia|constructor]|].
    rewrite king_snoc. unfold poll_next. destruct (kf_entries f) as [e|]; [|done]. cbn [after kg_baselines]. by apply top_ok.
  - rewrite king_opened. pose proof (filter_open fs) as Hall. revert Hall. generalize (List.filter is_open fs). intros gs Hall.
    change (Z.to_nat LEARN_POLLS) with 20%nat. destruct (Nat.le_gt_cases 20 (length gs)) as [Hge|Hlt].
    + rewrite <-(take_drop 20 gs) at 1. apply frozen_from; [by rewrite take_drop|]. rewrite length_take. lia.
    + by rewrite take_ge by lia.
Qed.

End polls.

(** ** Two polls *)

(** One app, which has used [cpu] of [total] ticks when it is read at [t]; 100 MB of
    memory are left. *)
Definition one_app (t cpu total : Z) : king_facts :=
  KingFacts (Some ["self"; "1234"]) (Some (scat ["cpu  "; fmt_d total; " 0 0 0 0 0 0"; NLs]))
    (λ pid, if pid =? 1234 then
       Some (scat ["Name:  app"; NLs; "State:  R (running)"; NLs; "PPid:  900"; NLs; "Uid:  10100 10100"; NLs; "VmRSS:  2048 kB"; NLs])
     else None)
    (λ _, Some (scat ["1234 (app) R 900 900 0 0 -1 0 0 0 0 0 "; fmt_d cpu; " 0"; NLs]))
    (λ _, Some 5) (λ _, None) (λ _, t)
    (Some "") (Some "Enable=true") (Some "7") t (Some "-950") (Some "0::/") (Some ("MemAvailable: 102400 kB" +:+ NLs)) (Some "41000")
    "12:00:00" true.

Definition two_polls : list king_facts := [one_app 1000 100 1000; one_app 1012 900 2000].

Lemma lifetimes_tracked_witness :
  map (λ p, (pr_pid p, pr_cpu_pct p, pr_polls_alive p, pr_first_seen p)) (kg_prev (king_after two_polls)) = [(1234, 80, 2, 1000)] ∧
  Forall (λ p, pr_polls_alive p = streak (pr_pid p) (opened two_polls)) (kg_prev (king_after two_polls)).
Proof.
  split; [vm_compute; reflexivity|]. apply Forall_forall. intros p Hp. by destruct (lifetimes_tracked two_polls p Hp) as (H & _ & _).
Defined.

Lemma flashes_never_reported_witness :
  (ToGaveld "FLASH_PROCESS" (d_of_Z 0) "flash_count=1" ∉ dk_out (exec (king_main two_polls) (desk_start king_start))) ∧
  0 < Z.of_nat (length (dk_out (exec (king_main two_polls) (desk_start king_start)))).
Proof.
  split; [|vm_compute; reflexivity].
  refine (proj1 (flashes_never_reported two_polls (d_of_Z 0) "" "flash_count=1" _)).
  split; [intros pid; vm_compute; split; congruence|]. split; [intros pid; vm_compute; congruence|].
  split; [intros pid; vm_compute; split; congruence|done].
Defined.

(** The phone is low on memory, and the app grew by nothing. *)
Lemma pressure_unattributed_witness :
  ∃ f, f ∈ two_polls ∧ memory_low (avail f) = true ∧
    snprintf 512 (dq "{'memory_low':true,'avail_mb':100,'attributed_to':'unknown (+0.0MB in last poll)'}") = low_json (avail f) (0, "unknown").
Proof.
  apply (pressure_unattributed two_polls (d_of_Z 0)).
  - intros f Hf. unfold two_polls in Hf. rewrite !elem_of_cons, elem_of_nil in Hf.
    destruct Hf as [->|[->|[]]]; (replace (pids_of _) with [1234] by (vm_compute; reflexivity)); apply NoDup_singleton.
  - apply list_elem_of_In. vm_compute. tauto.
Defined.

Lemma hog_is_busiest_witness :
  let procs := procs_of (king_after [one_app 1000 100 1000]) (one_app 1012 900 2000) ["self"; "1234"] in
  map al_ctx (hog_note (qsort cmp_cpu procs) HOG_PCT_COOL 41) = ["pid=1234 name=app cpu_pct=80 temp=41"] ∧
  ∃ p, p ∈ procs ∧ ∀ q, q ∈ procs → pr_cpu_pct q <= pr_cpu_pct p.
Proof.
  intros procs. assert (map al_ctx (hog_note (qsort cmp_cpu procs) HOG_PCT_COOL 41) = ["pid=1234 name=app cpu_pct=80 temp=41"]) as H
    by (vm_compute; reflexivity).
  split; [exact H|]. destruct (hog_is_busiest procs 41) as [_ Hb].
  destruct (hog_note (qsort cmp_cpu procs) HOG_PCT_COOL 41) as [|a l]; [discriminate H|].
  destruct (Hb a) as (p & Hp & Hmax & _); [by left|]. by exists p.
Defined.
