(* ===== verification/Rahzar.v ===== *)
(** * rahzerd: the radios and the network ([src/daemon/rahzerd.c], [rahzerd.h])

    Every poll rahzerd runs a script that leaves the state of the phone in two
    files, takes a snapshot of fifteen layers out of them, compares it with the
    snapshot before, and reports.  The records keep the fields whose value varies;
    -1 is the code's "unknown".  The number of the poll is only logged.
    The second part proves what a run says and what its parsers read. *)

From S2P Require Import Prelude CString Double Overlord Krang Digits Nulld Screen Numbers Reports Conv Float.
From S2P Require Import Scan Members.
From S2P Require Bebop Heat Fugitoid.
From Stdlib Require Import Ascii.

Definition DEFAULT_POLL_SEC : Z := 15.
Definition DNS_TIMEOUT_SEC : Z := 5.
Definition RZ_MAX_OPEN_PORTS : nat := 64.
Definition RZ_MAX_OVERFLOW_FLAG : Z := -1.

Inductive rz_backend_t := RZ_BACKEND_RISH | RZ_BACKEND_DUMPSYS | RZ_BACKEND_SYSFS | RZ_BACKEND_NONE.

Definition RZ_BACKEND_NAMES (b : rz_backend_t) : string :=
  match b with
  | RZ_BACKEND_RISH => "rish" | RZ_BACKEND_DUMPSYS => "dumpsys" | RZ_BACKEND_SYSFS => "sysfs" | RZ_BACKEND_NONE => "none"
  end.

Inductive rz_confidence_t := RZ_CONF_MEASURED | RZ_CONF_INFERRED | RZ_CONF_FALLBACK | RZ_CONF_ABSENT.

(** What was measured and how sure it is; [memset] leaves the first backend. *)
Record rz_source := Source { so_backend : rz_backend_t; so_confidence : rz_confidence_t }.

Record rz_wifi_t := Wifi {
  wf_connected : Z; wf_ssid : string; wf_bssid : string; wf_rssi : Z; wf_tx : Z; wf_rx : Z; wf_source : rz_source }.

Record rz_mobile_t := Mobile {
  mo_sim_present : Z; mo_data_active : Z; mo_roaming : Z; mo_operator : string; mo_rat : string; mo_dual_sim : Z;
  mo_source : rz_source }.

Record rz_dns_t := Dns {
  dn_resolves : Z; dn_latency : Z; dn_primary : string; dn_secondary : string; dn_test_host : string;
  dn_private_active : Z; dn_private_host : string; dn_source : rz_source }.

Record rz_telephone_t := Telephone {
  te_active : Z; te_ringing : Z; te_holding : Z; te_state : string; te_direction : string; te_emergency : Z;
  te_network : string; te_source : rz_source }.

Record rz_sms_t := Sms { sm_available : Z; sm_capable : Z; sm_blocked : Z; sm_state : string; sm_source : rz_source }.

Record rz_mms_t := Mms {
  mm_capable : Z; mm_apn : string; mm_mmsc : string; mm_proxy : string; mm_port : Z; mm_apn_active : Z; mm_source : rz_source }.

Record rz_ports_t := Ports {
  po_smtp_25 : Z; po_smtp_465 : Z; po_smtp_587 : Z; po_imap_143 : Z; po_imap_993 : Z; po_pop3_110 : Z; po_pop3_995 : Z;
  po_listen : list Z; po_listen_count : Z; po_tcp4 : Z; po_tcp6 : Z; po_suspicious : Z; po_source : rz_source }.

Record rz_ethernet_t := Ethernet {
  et_present : Z; et_connected : Z; et_mac : string; et_tx : Z; et_rx : Z; et_speed : Z; et_source : rz_source }.

Record rz_uwb_t := Uwb { uw_supported : Z; uw_enabled : Z; uw_ranging : Z; uw_state : string; uw_source : rz_source }.

Record rz_fm_t := Fm { fm_supported : Z; fm_enabled : Z; fm_frequency : double; fm_stereo : Z; fm_source : rz_source }.

Record rz_usb_t := Usb { us_connected : Z; us_mode : string; us_adb : Z; us_tethering : Z; us_source : rz_source }.

Record rz_infrared_t := Infrared { ir_supported : Z; ir_transmitting : Z; ir_path : string; ir_source : rz_source }.

Record rz_bluetooth_t := Bluetooth {
  bt_enabled : Z; bt_scanning : Z; bt_advertising : Z; bt_name : string; bt_mac : string; bt_le : Z; bt_source : rz_source }.

Record rz_nfc_t := Nfc {
  nf_supported : Z; nf_enabled : Z; nf_tag : Z; nf_beam : Z; nf_hce : Z; nf_state : string; nf_source : rz_source }.

Record rz_xiaomi_t := Xiaomi {
  xi_jx_policy : Z; xi_aml_conn : Z; xi_miui_wifi : Z; xi_powerkeeper : Z; xi_turbosched : Z; xi_perfshielder : Z;
  xi_miuibooster : Z; xi_whetstone : Z; xi_smartpower : Z; xi_interface : string; xi_aosp : Z; xi_xiaomi : Z;
  xi_kernel : Z; xi_divergence : Z; xi_reason : string; xi_source : rz_source }.

Record rz_snapshot_t := Snapshot {
  ss_timestamp : Z; ss_wifi : rz_wifi_t; ss_mobile : rz_mobile_t; ss_dns : rz_dns_t; ss_telephone : rz_telephone_t;
  ss_sms : rz_sms_t; ss_mms : rz_mms_t; ss_ports : rz_ports_t; ss_ethernet : rz_ethernet_t; ss_uwb : rz_uwb_t;
  ss_fm : rz_fm_t; ss_usb : rz_usb_t; ss_infrared : rz_infrared_t; ss_bluetooth : rz_bluetooth_t; ss_nfc : rz_nfc_t;
  ss_xiaomi : rz_xiaomi_t; ss_duration : Z }.

(** [getaddrinfo]: whether it found an address, whether the alarm went off first,
    and the milliseconds it took. *)
Record dns_answer := DnsAnswer { da_found : bool; da_timed_out : bool; da_ms : Z }.

(** What a poll reads: the two files that the script writes, the answer of
    [getaddrinfo], the tables of the kernel, the paths there are, the clock, how
    long the snapshot took, and whether the result file can be written. *)
Record rz_facts := RzFacts {
  rf_all : option string; rf_mobile : option string; rf_dns : dns_answer; rf_tcp : option string; rf_tcp6 : option string;
  rf_exists : string → bool; rf_now : Z; rf_duration : Z; rf_ts : string; rf_results_ok : bool }.

(** ** Reading the script's files *)

(** [rz_has(h, n) ? 1 : 0]. *)
Definition flag (b : bool) : Z := if b then 1 else 0.

Definition UNKNOWN : Z := -1.

Definition is_blank (c : ascii) : bool := Ascii.eqb c " " || Ascii.eqb c (chr 9).

(** [*a == '=' || *a == ':' || *a == ' ' || *a == '\t']. *)
Definition is_separator (c : ascii) : bool := Ascii.eqb c "=" || Ascii.eqb c ":" || is_blank c.

Definition nonempty (s : string) : option string := if String.eqb s "" then None else Some s.

(** A field of a line, behind its key. *)
Definition field_of (key : string) (outlen : nat) (line : string) : option string :=
  let p := skip_while is_blank line in
  if has_prefix_ci (Heat.lower_all key) p
  then nonempty (trim_end is_blank
         (stake (outlen - 1) (break_at is_line_end (skip_while is_separator (sdrop (String.length key) p))).1))
  else None.

Definition rz_extract_field (hay key : string) (outlen : nat) : option string :=
  head (omap (field_of key outlen) (split_lines hay)).

(** The value ends at a comma, a line end, or the quote that closes it. *)
Definition rz_extract_field_csv (hay key : string) (outlen : nat) : option string :=
  p ← strstr hay key;
  let a := skip_while is_separator (sdrop (String.length key) p) in
  let is_quoted := has_prefix QUOTE a in
  let a := if is_quoted then sdrop 1 a else a in
  let ends c := Ascii.eqb c "," || is_line_end c || (is_quoted && Ascii.eqb c (chr 34)) in
  nonempty (trim_end is_blank (stake (outlen - 1) (break_at ends a).1)).

Definition sanitize_field (s : string) : string := Bebop.sanitize_field s.

(** [rz_load_probe_data]: the text that is kept, if the file is there. *)
Definition rz_load_probe_data (file : option string) : option string := (λ t, c_str (stake 131071 t)) <$> file.

(** The lines between line ends of either kind. *)
Fixpoint pieces (s : string) : list string :=
  match s with
  | EmptyString => []
  | String c s' =>
      if is_line_end c then EmptyString :: pieces s'
      else match pieces s' with
           | [] => [String c EmptyString]
           | l :: ls => String c l :: ls
           end
  end.

Definition upper (c : ascii) : ascii :=
  if (97 <=? code c) && (code c <=? 122) then chr (Z.to_nat (code c - 32)) else c.

Fixpoint upper_all (s : string) : string :=
  match s with EmptyString => EmptyString | String c s' => String (upper c) (upper_all s') end.

(** The value on a line [key=value]. *)
Definition value_of (key line : string) : option string :=
  if has_prefix (key +:+ "=") line then nonempty (sdrop (String.length key + 1) line) else None.

Section probes.
Context (data : option string).   (* g_probe_data, if g_probe_loaded *)

(** A section of the data, from its heading to the next. *)
Definition ds (svc : string) : option string :=
  data ← data;
  start ← strstr data (upper_all (snprintf 32 (scat ["==="; svc; "==="])));
  start ← strchr NL start;
  let start := sdrop 1 start in
  Some (match strstr start (NLs +:+ "===") with
        | Some rest => stake (String.length start - String.length rest) start
        | None => start
        end).

(** The first line with the key and a value; [p[klen] == '=']. *)
Definition rz_prebaked_get (key : string) : option string :=
  data ← data; head (omap (value_of key) (pieces data)).

(** The value of a key in a field that is zero or empty without it. *)
Definition long_at (key : string) : Z := match rz_prebaked_get key with Some v => atol v | None => 0 end.
Definition text_at (size : nat) (key : string) : string := match rz_prebaked_get key with Some v => strncpy size v | None => "" end.

(** A switch that is on for the value 1; unknown without a value. *)
Definition switch_at (key : string) : Z :=
  match rz_prebaked_get key with Some v => flag (String.eqb v "1") | None => UNKNOWN end.

Definition rz_probe_wifi : rz_wifi_t :=
  let tx := long_at "/sys/class/net/wlan0/statistics/tx_bytes" in
  let rx := long_at "/sys/class/net/wlan0/statistics/rx_bytes" in
  match rz_prebaked_get "mwifiinfo" with
  | Some wi =>
      let wi := sanitize_field wi in
      let known skip x := match x with Some t => if String.eqb t skip then "" else t | None => "" end in
      Wifi (flag (contains wi "Supplicant state: COMPLETED"))
        (strncpy 64 (known "<unknown ssid>" (rz_extract_field_csv wi "SSID" 64)))
        (strncpy 24 (known "<none>" (rz_extract_field_csv wi "BSSID" 64)))
        (match rz_extract_field_csv wi "RSSI" 64 with Some t => atoi t | None => 0 end)
        tx rx (Source RZ_BACKEND_RISH RZ_CONF_MEASURED)
  | None => Wifi UNKNOWN "" "" 0 tx rx (Source RZ_BACKEND_RISH RZ_CONF_ABSENT)
  end.

(** Behind [mOperatorAlphaLongRaw=]. *)
Definition operator_in (raw : string) : string :=
  match strstr raw "mOperatorAlphaLongRaw=" with
  | Some op =>
      let op := sdrop 22 op in
      if has_prefix "null" op then ""
      else stake 63 (break_at (λ c, Ascii.eqb c "," || Ascii.eqb c "}" || Ascii.eqb c NL) op).1
  | None => ""
  end.

Definition rat_in (raw : string) : string :=
  if contains raw "getRilDataRadioTechnology=14" then "LTE"
  else if contains raw "getRilDataRadioTechnology=20" then "NR"
  else if contains raw "getRilDataRadioTechnology=11" then "HSPA+" else "UNKNOWN".

Definition rz_probe_mobile (file : option string) : rz_mobile_t :=
  match file with
  | Some text =>
      let raw := c_str (stake 8191 text) in
      Mobile (flag (contains raw "LOADED")) (flag (contains raw "domain=PS transportType=WWAN registrationState=HOME"))
        (flag (contains raw "roamingType=ROAMING")) (operator_in raw) (rat_in raw)
        (flag (contains raw "ABSENT,LOADED" || contains raw "LOADED,LOADED")) (Source RZ_BACKEND_RISH RZ_CONF_INFERRED)
  | None => Mobile UNKNOWN UNKNOWN UNKNOWN "" "UNKNOWN" UNKNOWN (Source RZ_BACKEND_RISH RZ_CONF_ABSENT)
  end.

Definition rz_probe_dns (host : string) (answer : dns_answer) : rz_dns_t :=
  Dns (if da_timed_out answer then 0 else flag (da_found answer))
    (if da_timed_out answer then DNS_TIMEOUT_SEC * 1000 else to_i32 (da_ms answer))
    (text_at 64 "net.dns1") (text_at 64 "net.dns2") (strncpy 128 host)
    (match rz_prebaked_get "persist.private_dns_mode" with
     | Some v => flag (String.eqb v "opportunistic" || String.eqb v "hostname")
     | None => UNKNOWN
     end)
    (text_at 128 "persist.dns.mode.hostname") (Source RZ_BACKEND_SYSFS RZ_CONF_MEASURED).

Definition rz_probe_telephone (g_backend : rz_backend_t) : rz_telephone_t :=
  let tel := ds "telephony.registry" in
  let emergency := match tel with Some t => flag (contains t "EMERGENCY_ONLY") | None => 0 end in
  let network := match tel with
    | Some t => if contains t "IN_SERVICE" then "IN_SERVICE" else if contains t "EMERGENCY_ONLY" then "EMERGENCY"
                else if contains t "OUT_OF_SERVICE" then "OOS" else "UNKNOWN"
    | None => "UNKNOWN" end in
  match ds "telecom" with
  | Some raw =>
      Telephone (flag (contains raw "ACTIVE")) (flag (contains raw "RINGING")) (flag (contains raw "HOLDING"))
        (if contains raw "RINGING" then "RINGING" else if contains raw "ACTIVE" then "OFFHOOK" else "IDLE")
        (if contains raw "INCOMING" then "IN" else if contains raw "OUTGOING" then "OUT" else "NONE")
        emergency network (Source g_backend RZ_CONF_INFERRED)
  | None => Telephone UNKNOWN UNKNOWN UNKNOWN "UNKNOWN" "UNKNOWN" emergency network (Source RZ_BACKEND_RISH RZ_CONF_ABSENT)
  end.

Definition rz_probe_sms : rz_sms_t :=
  let blocked := match ds "isms" with
    | Some raw => flag (contains raw "blocked" || contains raw "BLOCKED") | None => UNKNOWN end in
  match rz_prebaked_get "gsm.sim.state" with
  | Some sim =>
      let ready := flag (contains sim "READY") in
      Sms ready ready blocked
        (if contains sim "READY" then "IN_SERVICE" else if contains sim "ABSENT" then "NO_SIM" else "UNKNOWN")
        (Source RZ_BACKEND_SYSFS RZ_CONF_INFERRED)
  | None => Sms UNKNOWN UNKNOWN blocked "UNKNOWN" (Source RZ_BACKEND_RISH RZ_CONF_ABSENT)
  end.

(** [if (!raw) raw = ds(..)]. *)
Definition ds_or (a b : string) : option string := match ds a with Some raw => Some raw | None => ds b end.

(** A text field taken from a section. *)
Definition field_at (size tmp : nat) (raw key : string) : string :=
  match rz_extract_field raw key tmp with Some t => strncpy size t | None => "" end.

Definition rz_probe_mms (g_backend : rz_backend_t) : rz_mms_t :=
  match ds_or "imms" "telephony" with
  | Some raw =>
      Mms (flag (contains raw "mms" || contains raw "MMS")) (field_at 64 256 raw "apn") (field_at 256 256 raw "mmsc")
        (field_at 64 256 raw "mmsProxy")
        (match rz_extract_field raw "mmsPort" 256 with Some t => atoi t | None => 0 end)
        (flag (contains raw "APN_TYPE_MMS" || contains raw "mms connected")) (Source g_backend RZ_CONF_INFERRED)
  | None => Mms UNKNOWN "" "" "" 0 UNKNOWN (Source RZ_BACKEND_RISH RZ_CONF_ABSENT)
  end.

End probes.

(** ** Ports *)

(** [sscanf(s, "%X", &v)] into an [unsigned int] that is zero before. *)
Definition scan_X (s : string) : Z :=
  match scan_int 16 s with
  | Some (v, _) => to_u32 (if Z.abs v <? 2 ^ 64 then to_u64 v else 2 ^ 64 - 1)
  | None => 0
  end.

Definition port_from_hex (hex : string) : Z := to_i32 (scan_X hex).

(** A line of the table: local port, remote port and state. *)
Definition tcp_line (line : string) : option (Z * Z * Z) :=
  '(_, r) ← scan_int 10 line;
  r ← scan_char ":" r;
  '(local, r) ← scan_s 71 r;
  '(rem, r) ← scan_s 71 r;
  '(shex, _) ← scan_s 3 r;
  cl ← after_last ":" local;
  cr ← after_last ":" rem;
  Some (port_from_hex cl, port_from_hex cr, scan_X shex).

Definition suspicious_port (lport : Z) : bool := (1024 <? lport) && negb (lport =? 8080) && negb (lport =? 8443).

Definition add_listener (lport : Z) (p : rz_ports_t) : rz_ports_t :=
  let n := po_listen_count p in
  let room := (0 <=? n) && (n <? Z.of_nat RZ_MAX_OPEN_PORTS) in
  Ports (po_smtp_25 p) (po_smtp_465 p) (po_smtp_587 p) (po_imap_143 p) (po_imap_993 p) (po_pop3_110 p) (po_pop3_995 p)
    (if room then <[Z.to_nat n := lport]> (po_listen p) else po_listen p)
    (if room then n + 1 else if n =? Z.of_nat RZ_MAX_OPEN_PORTS then RZ_MAX_OVERFLOW_FLAG else n)
    (po_tcp4 p) (po_tcp6 p) (po_suspicious p + flag (suspicious_port lport)) (po_source p).

Definition add_established (is_v6 : bool) (rport : Z) (p : rz_ports_t) : rz_ports_t :=
  let mail n old := if rport =? n then 1 else old in
  Ports (mail 25 (po_smtp_25 p)) (mail 465 (po_smtp_465 p)) (mail 587 (po_smtp_587 p)) (mail 143 (po_imap_143 p))
    (mail 993 (po_imap_993 p)) (mail 110 (po_pop3_110 p)) (mail 995 (po_pop3_995 p)) (po_listen p) (po_listen_count p)
    (if is_v6 then po_tcp4 p else po_tcp4 p + 1) (if is_v6 then po_tcp6 p + 1 else po_tcp6 p) (po_suspicious p) (po_source p).

Definition tcp_entry (is_v6 : bool) (p : rz_ports_t) (e : Z * Z * Z) : rz_ports_t :=
  let '(lport, rport, state) := e in
  if state =? 10 then add_listener lport p
  else if state =? 1 then add_established is_v6 rport p
  else p.

(** The lines of a table behind its heading. *)
Definition tcp_entries (file : option string) : list (Z * Z * Z) :=
  match file with
  | Some text => omap tcp_line (drop 1 (read_lines 512 text))
  | None => []
  end.

Definition probe_tcp_file (file : option string) (p : rz_ports_t) (is_v6 : bool) : rz_ports_t :=
  foldl (tcp_entry is_v6) p (tcp_entries file).

(** The two counts of the section PORTS. *)
Definition ports_section (raw : option string) : rz_ports_t :=
  let less n := if 1 <? n then n - 1 else 0 in
  let start n4 n6 c := Ports 0 0 0 0 0 0 0 (replicate RZ_MAX_OPEN_PORTS 0) (n4 + n6) n4 n6 0 (Source RZ_BACKEND_SYSFS c) in
  match raw with
  | Some ports_raw =>
      start (less (atoi ports_raw))
        (less (match strchr NL ports_raw with Some nl => atoi (sdrop 1 nl) | None => 0 end)) RZ_CONF_MEASURED
  | None => start 0 0 RZ_CONF_ABSENT
  end.

Definition rz_probe_ports (data tcp tcp6 : option string) : rz_ports_t :=
  probe_tcp_file tcp6 (probe_tcp_file tcp (ports_section (ds data "PORTS")) false) true.

(** ** The other layers *)

Section layers.
Context (data : option string) (g_backend : rz_backend_t) (sysfs_exists : string → bool).

Abbreviation get := (rz_prebaked_get data).

Definition rz_probe_ethernet : rz_ethernet_t :=
  if negb (sysfs_exists "/sys/class/net/eth0")
  then Ethernet 0 UNKNOWN "" 0 0 UNKNOWN (Source RZ_BACKEND_RISH RZ_CONF_ABSENT)
  else
    Ethernet 1 (match get "/sys/class/net/eth0/operstate" with Some op => flag (contains op "up") | None => UNKNOWN end)
      (text_at data 24 "/sys/class/net/eth0/address") (long_at data "/sys/class/net/eth0/statistics/tx_bytes")
      (long_at data "/sys/class/net/eth0/statistics/rx_bytes")
      (match get "/sys/class/net/eth0/speed" with Some v => atoi v | None => UNKNOWN end)
      (Source RZ_BACKEND_SYSFS RZ_CONF_MEASURED).

Definition rz_probe_uwb : rz_uwb_t :=
  match ds data "uwb" with
  | Some raw =>
      Uwb 1 (flag (contains raw "enabled=true")) (flag (contains raw "RANGING_ACTIVE"))
        (if contains raw "ACTIVE" then "ACTIVE" else if contains raw "IDLE" then "IDLE" else "UNKNOWN")
        (Source g_backend RZ_CONF_INFERRED)
  | None => Uwb 0 UNKNOWN UNKNOWN "UNKNOWN" (Source RZ_BACKEND_RISH RZ_CONF_ABSENT)
  end.

(** [(float)x]. *)
Definition to_float (x : double) : float :=
  match x with
  | S754_finite s m e => binary_normalize fprec femax (if s then Zneg m else Zpos m) e s
  | _ => x
  end.

Definition rz_probe_fm : rz_fm_t :=
  let supported := match get "ro.fm.type" with Some v => flag (negb (String.eqb v "") && negb (String.eqb v "0")) | None => 0 end in
  match ds_or data "radio.fm" "fm" with
  | Some raw =>
      Fm supported (flag (contains raw "enabled=true"))
        (match rz_extract_field raw "frequency" 32 with Some t => to_float (atof t) | None => S754_zero false end)
        (flag (contains raw "stereo=true")) (Source g_backend RZ_CONF_INFERRED)
  | None => Fm supported UNKNOWN (S754_zero false) 0 (Source RZ_BACKEND_RISH RZ_CONF_ABSENT)
  end.

Definition usb_mode (raw : string) : string :=
  if contains raw "mtp" then "MTP" else if contains raw "ptp" then "PTP"
  else if contains raw "rndis" then "RNDIS" else if contains raw "charging" then "CHARGING" else "UNKNOWN".

Definition rz_probe_usb : rz_usb_t :=
  match ds data "usb" with
  | Some raw =>
      Usb (flag (contains raw "connected=true")) (usb_mode raw) (flag (contains raw "adb"))
        (flag (contains raw "tethering=true")) (Source g_backend RZ_CONF_INFERRED)
  | None =>
      match get "/sys/class/android_usb/android0/state" with
      | Some st => Usb (flag (contains st "CONFIGURED")) "UNKNOWN" UNKNOWN UNKNOWN (Source RZ_BACKEND_SYSFS RZ_CONF_FALLBACK)
      | None => Usb UNKNOWN "UNKNOWN" UNKNOWN UNKNOWN (Source RZ_BACKEND_RISH RZ_CONF_ABSENT)
      end
  end.

Definition IR_PATHS : list string := ["/dev/lirc0"; "/dev/ir_spi"; "/dev/ttyS1"; "/sys/class/misc/ir_hal0"].

Definition rz_probe_infrared : rz_infrared_t :=
  match List.find sysfs_exists IR_PATHS with
  | Some path => Infrared 1 0 (strncpy 128 path) (Source RZ_BACKEND_SYSFS RZ_CONF_INFERRED)
  | None => Infrared 0 0 "" (Source RZ_BACKEND_SYSFS RZ_CONF_INFERRED)
  end.

Definition rz_probe_bluetooth : rz_bluetooth_t :=
  match ds_or data "bluetooth_manager" "bluetooth" with
  | Some raw =>
      Bluetooth (flag (contains raw "enabled=true" || contains raw "STATE_ON")) (flag (contains raw "isDiscovering=true"))
        (flag (contains raw "isAdvertising=true")) (field_at 64 64 raw "name") (field_at 24 64 raw "address")
        (flag (contains raw "isLeEnabled=true")) (Source g_backend RZ_CONF_INFERRED)
  | None =>
      match get "/sys/class/bluetooth/hci0/type" with
      | Some _ => Bluetooth 1 UNKNOWN UNKNOWN "" "" 0 (Source RZ_BACKEND_SYSFS RZ_CONF_FALLBACK)
      | None => Bluetooth 0 UNKNOWN UNKNOWN "" "" 0 (Source RZ_BACKEND_RISH RZ_CONF_ABSENT)
      end
  end.

Definition rz_probe_nfc : rz_nfc_t :=
  match ds data "nfc" with
  | Some raw =>
      let enabled := contains raw "mState=on" || contains raw "enabled=true" in
      Nfc 1 (flag enabled) (flag (contains raw "tag=")) (flag (contains raw "beam=true")) (flag (contains raw "hce=active"))
        (if enabled then "ON" else "OFF") (Source g_backend RZ_CONF_INFERRED)
  | None => Nfc (flag (sysfs_exists "/dev/nfc0")) UNKNOWN UNKNOWN 0 0 "UNKNOWN" (Source RZ_BACKEND_RISH RZ_CONF_ABSENT)
  end.

(** [v && rz_has(v, ": found")]. *)
Definition found_at (key : string) : Z := match get key with Some v => flag (contains v ": found") | None => 0 end.

Definition kernel_connected : Z := match get "/proc/net/route" with Some route => flag (contains route "00000000") | None => 0 end.

Definition aosp_connected : Z :=
  match get "activedefaultnetwork" with
  | Some adn =>
      match rz_extract_field adn "Active default network" 16 with Some t => flag (negb (String.eqb t "-1")) | None => 0 end
  | None => 0
  end.

Definition rz_probe_xiaomi : rz_xiaomi_t :=
  let aml_conn := found_at "amlconnsvc" in
  let miui_wifi := found_at "amlwifisvc" in
  let listed name := match ds data "activity" with Some svc => flag (contains svc name) | None => UNKNOWN end in
  let aosp := aosp_connected in
  let xiaomi := flag ((miui_wifi =? 1) || (aml_conn =? 1)) in
  let kernel := kernel_connected in
  let diverges := negb (aosp =? kernel) || negb (xiaomi =? kernel) in
  Xiaomi (listed "JXNetworkPolicyService") aml_conn miui_wifi (switch_at data "persist.sys.powerkeeper")
    (switch_at data "persist.sys.miui.turbosched") (switch_at data "persist.sys.perfshielder") (listed "MiuiBoosterService")
    (match get "miui.whetstone.power" with Some v => flag (negb (String.eqb v "")) | None => UNKNOWN end)
    (switch_at data "persist.sys.smartpower")
    (match get "/proc/net/route" with Some route => field_at 32 32 route "Iface" | None => "" end)
    aosp xiaomi kernel (flag diverges)
    (if diverges then snprintf 128 (scat ["aosp="; fmt_d aosp; " xiaomi="; fmt_d xiaomi; " kernel="; fmt_d kernel]) else "")
    (Source g_backend RZ_CONF_INFERRED).

End layers.

(** ** Snapshots *)

(** [rz_detect_backend]; what follows its first return is never reached. *)
Definition rz_detect_backend : rz_backend_t := RZ_BACKEND_RISH.

Definition rz_snapshot (host : string) (f : rz_facts) : rz_snapshot_t :=
  let b := rz_detect_backend in
  let data := rz_load_probe_data (rf_all f) in
  Snapshot (rf_now f) (rz_probe_wifi data) (rz_probe_mobile (rf_mobile f)) (rz_probe_dns data host (rf_dns f))
    (rz_probe_telephone data b) (rz_probe_sms data) (rz_probe_mms data b) (rz_probe_ports data (rf_tcp f) (rf_tcp6 f))
    (rz_probe_ethernet data (rf_exists f)) (rz_probe_uwb data b) (rz_probe_fm data b) (rz_probe_usb data b)
    (rz_probe_infrared (rf_exists f)) (rz_probe_bluetooth data b) (rz_probe_nfc data b (rf_exists f))
    (rz_probe_xiaomi data b) (to_i32 (rf_duration f)).

(** ** The state and what is sent

    [curr] and [prev] of the code are the snapshots of this poll and of the poll
    before; there is no snapshot before the first poll. *)
Record rz_state_t := RzState {
  rs_curr : option rz_snapshot_t; rs_wifi_since : Z; rs_mobile_since : Z; rs_dns_failing_since : Z; rs_flaps : Z; rs_spikes : Z;
  rs_bssid : string; rs_dns_ms : Z; rs_established : bool (* the baseline *) }.

Definition rz_start : rz_state_t := RzState None 0 0 0 0 0 "" 0 false.

(** The lines of splinterd: [APRIL|rahzerd|type|payload]. *)
Definition rz_emit_delta (layer detail_json : string) : list sensor_output :=
  [ToSplinter "delta" (scat ["layer="; layer; " detail="; detail_json])].

Definition rz_emit_anomaly (type detail_json : string) : list sensor_output :=
  [ToSplinter "anomaly" (scat ["type="; type; " detail="; detail_json])].

Definition rz_emit_lifecycle (poll_sec : Z) (event_type : string) : list sensor_output :=
  [ToSplinter event_type (scat ["poll_sec="; fmt_d poll_sec; " backend="; RZ_BACKEND_NAMES rz_detect_backend])].

(** [gaveld_emit(.., 1.0, ..)]. *)
Definition signal (name ctx : string) : list sensor_output := [ToGaveld name (d_of_Z 1) ctx].

(** [if (b) c;] for what is sent. *)
Definition send_if (b : bool) (l : list sensor_output) : list sensor_output := if b then l else [].

Definition wifi_lost (prev curr : rz_snapshot_t) : bool := (wf_connected (ss_wifi prev) =? 1) && (wf_connected (ss_wifi curr) =? 0).
Definition wifi_back (prev curr : rz_snapshot_t) : bool := (wf_connected (ss_wifi prev) =? 0) && (wf_connected (ss_wifi curr) =? 1).
Definition data_changed (prev curr : rz_snapshot_t) : bool :=
  negb (mo_data_active (ss_mobile prev) =? mo_data_active (ss_mobile curr)).
Definition dns_lost (prev curr : rz_snapshot_t) : bool := (dn_resolves (ss_dns prev) =? 1) && (dn_resolves (ss_dns curr) =? 0).
Definition dns_slow (curr : rz_snapshot_t) : bool := 2000 <? dn_latency (ss_dns curr).
Definition diverged (prev curr : rz_snapshot_t) : bool :=
  negb (xi_divergence (ss_xiaomi curr) =? 0) && (xi_divergence (ss_xiaomi prev) =? 0).
Definition more_listeners (prev curr : rz_snapshot_t) : bool := po_suspicious (ss_ports prev) <? po_suspicious (ss_ports curr).

(** What [rz_state_update] sends. *)
Definition deltas (prev curr : rz_snapshot_t) : list sensor_output :=
  (if wifi_lost prev curr then rz_emit_delta "wifi" (dq "{'event':'disconnected'}")
   else send_if (wifi_back prev curr) (rz_emit_delta "wifi" (dq "{'event':'connected'}"))) ++
  send_if (data_changed prev curr) (rz_emit_delta "mobile" (dq "{'event':'data_state_change'}")) ++
  send_if (dns_lost prev curr)
    (signal "NO_DNS_RESOLUTION" "host=dns.google" ++ rz_emit_anomaly "dns_failure" (dq "{'host':'dns.google'}")) ++
  send_if (dns_slow curr)
    (signal "DNS_ANOMALY" "latency=high" ++ rz_emit_anomaly "dns_latency_spike" (dq "{'latency_ms':'high'}")) ++
  send_if (diverged prev curr)
    (signal "XIAOMI_DIVERGENCE" (xi_reason (ss_xiaomi curr)) ++ rz_emit_anomaly "xiaomi_divergence" (xi_reason (ss_xiaomi curr))) ++
  send_if (more_listeners prev curr)
    (signal "PORT_ANOMALY" "suspicious_listener_detected" ++ rz_emit_anomaly "suspicious_listener" (dq "{'layer':'ports'}")).

(** The counters and times of [rz_state_update]. *)
Definition rz_state_update (curr : rz_snapshot_t) (s : rz_state_t) : rz_state_t :=
  match rs_curr s with
  | None => RzState (Some curr) (rs_wifi_since s) (rs_mobile_since s) (rs_dns_failing_since s) (rs_flaps s) (rs_spikes s)
              (rs_bssid s) (rs_dns_ms s) (rs_established s)
  | Some prev =>
      let now := ss_timestamp curr in
      RzState (Some curr)
        (if wifi_lost prev curr then 0 else if wifi_back prev curr then now else rs_wifi_since s)
        (if data_changed prev curr && (mo_data_active (ss_mobile curr) =? 1) then now else rs_mobile_since s)
        (if dns_lost prev curr then now else if dn_resolves (ss_dns curr) =? 1 then 0 else rs_dns_failing_since s)
        (rs_flaps s + flag (wifi_lost prev curr)) (rs_spikes s + flag (dns_slow curr))
        (rs_bssid s) (rs_dns_ms s) (rs_established s)
  end.

Definition rz_establish_baseline (curr : rz_snapshot_t) (s : rz_state_t) : rz_state_t :=
  if rs_established s then s
  else if wf_connected (ss_wifi curr) =? 0 then s
  else RzState (rs_curr s) (rs_wifi_since s) (rs_mobile_since s) (rs_dns_failing_since s) (rs_flaps s) (rs_spikes s)
         (strncpy 18 (wf_bssid (ss_wifi curr))) (dn_latency (ss_dns curr)) true.

(** The signals come before the line. *)
Definition rz_emit_netstate (snap : rz_snapshot_t) : list sensor_output :=
  let w := ss_wifi snap in let m := ss_mobile snap in let d := ss_dns snap in let p := ss_ports snap in
  send_if (mo_roaming m =? 1) (signal "ROAMING_DATA_ACTIVE" "") ++
  send_if (mo_dual_sim m =? 1) (signal "DUAL_SIM_ACTIVE" "") ++
  send_if (dn_private_active d =? 0) (signal "PRIVATE_DNS_INACTIVE" "") ++
  send_if (20 <? po_listen_count p) [ToGaveld "EXCESSIVE_CONNECTIONS" (d_of_Z (po_listen_count p)) ""] ++
  [ToSplinter "netstate" (scat
     ["wifi="; fmt_d (wf_connected w); " ssid="; stake 32 (wf_ssid w); " rssi="; fmt_d (wf_rssi w);
      " mobile="; fmt_d (mo_data_active m); " rat="; stake 16 (mo_rat m); " roaming="; fmt_d (mo_roaming m);
      " dns="; fmt_d (dn_resolves d); " latency="; fmt_d (dn_latency d);
      " bt="; fmt_d (bt_enabled (ss_bluetooth snap)); " nfc="; fmt_d (nf_enabled (ss_nfc snap)); " usb="; fmt_d (us_connected (ss_usb snap));
      " ports_listen="; fmt_d (po_listen_count p); " suspicious="; fmt_d (po_suspicious p);
      " divergence="; fmt_d (xi_divergence (ss_xiaomi snap)); " poll_ms="; fmt_d (ss_duration snap)])].

(** ** The result file *)

Record rz_report := RzReport {
  rr_ts : string; rr_poll_sec : Z; rr_snap : rz_snapshot_t; rr_established : bool; rr_bssid : string; rr_dns_ms : Z }.

Definition rz_write_json (r : rz_report) : string :=
  let snap := rr_snap r in
  let w := ss_wifi snap in let m := ss_mobile snap in let d := ss_dns snap in let p := ss_ports snap in
  let l := json_line "  " in let i := json_line "    " in
  scat ["{"; NLs;
        l "daemon" (quoted "rahzerd" +:+ ","); l "version" (quoted "2.0" +:+ ","); l "timestamp" (quoted (rr_ts r) +:+ ",");
        l "poll_interval_sec" (fmt_d (rr_poll_sec r) +:+ ",");
        l "wifi" "{"; i "connected" (fmt_d (wf_connected w) +:+ ","); i "ssid" (quoted (wf_ssid w) +:+ ",");
        i "bssid" (quoted (wf_bssid w) +:+ ","); i "rssi_dbm" (fmt_d (wf_rssi w) +:+ ",");
        i "tx_bytes" (fmt_d (wf_tx w) +:+ ","); i "rx_bytes" (fmt_d (wf_rx w)); "  },"; NLs;
        l "mobile" "{"; i "rat" (quoted (mo_rat m) +:+ ","); i "roaming" (fmt_d (mo_roaming m) +:+ ",");
        i "signal_dbm" (fmt_d 0 +:+ ","); i "data_active" (fmt_d (mo_data_active m)); "  },"; NLs;
        l "dns" "{"; i "resolves" (fmt_d (dn_resolves d) +:+ ","); i "latency_ms" (fmt_d (dn_latency d) +:+ ",");
        i "private_dns" (fmt_d (dn_private_active d)); "  },"; NLs;
        l "ports" "{"; i "established_tcp4" (fmt_d (po_tcp4 p) +:+ ","); i "established_tcp6" (fmt_d (po_tcp6 p) +:+ ",");
        i "suspicious_listeners" (fmt_d (po_suspicious p)); "  },"; NLs;
        l "baseline" "{"; i "established" (bool_str (rr_established r) +:+ ","); i "wifi_bssid" (quoted (rr_bssid r) +:+ ",");
        i "dns_latency_ms" (fmt_d (rr_dns_ms r)); "  },"; NLs;
        l "xiaomi_divergence" (fmt_d (xi_divergence (ss_xiaomi snap)) +:+ ",");
        l "poll_duration_ms" (fmt_d (ss_duration snap)); "}"; NLs].

(** ** The loop *)

Definition poll_seconds (env : option string) : Z :=
  match env with Some v => let v := atoi v in if 5 <=? v then v else DEFAULT_POLL_SEC | None => DEFAULT_POLL_SEC end.

Section main.
Context (poll_sec : Z) (host : string).

(** A turn of the loop; [first_poll] is cleared by the first update, so the line of
    the net state follows every poll. *)
Definition rz_poll (f : rz_facts) : M (desk rz_state_t rz_report) unit :=
  prev ← gets (λ s, rs_curr (dk_own s));
  let curr := rz_snapshot host f in
  _ ← modify (λ s, set_own (rz_state_update curr (dk_own s)) s);
  _ ← modify (put (match prev with Some prev => deltas prev curr | None => [] end));
  _ ← modify (λ s, set_own (rz_establish_baseline curr (dk_own s)) s);
  s ← gets dk_own;
  _ ← mwhen (rf_results_ok f) (modify (file_result (RzReport (rf_ts f) poll_sec curr (rs_established s) (rs_bssid s) (rs_dns_ms s))));
  modify (put (rz_emit_netstate curr)).

(** [main], until a signal ends it. *)
Definition rahz_main (polls : list rz_facts) : M (desk rz_state_t rz_report) unit :=
  _ ← modify (put (rz_emit_lifecycle poll_sec "online"));
  _ ← mfor polls rz_poll;
  modify (put (rz_emit_lifecycle poll_sec "offline")).

End main.

(** ** rahzerd over a run

    What rahzerd sends and reports is a function of its snapshots; outages, wifi
    losses and the baseline are those of the history; the sockets are counted right
    up to the room of a table, beyond which it is silent; what the script's file
    says is read back, what it does not say stays unknown for ever; and overlordd
    reads the counts. *)

Section run.
Context (poll_sec : Z) (host : string).

Abbreviation snap := (rz_snapshot host).

(** ** The history

    The snapshots before a poll, the oldest first. *)
Fixpoint prefixes (pre l : list rz_facts) : list (list rz_facts * rz_facts) :=
  match l with
  | [] => []
  | f :: l' => (pre, f) :: prefixes (pre ++ [f]) l'
  end.

(** The baseline: the first snapshot whose wifi is not known to be off. *)
Definition baseline (hist : list rz_snapshot_t) : bool * string * Z :=
  match List.find (λ c, negb (wf_connected (ss_wifi c) =? 0)) hist with
  | Some c => (true, strncpy 18 (wf_bssid (ss_wifi c)), dn_latency (ss_dns c))
  | None => (false, "", 0)
  end.

Definition poll_outs (pre : list rz_facts) (f : rz_facts) : list sensor_output :=
  match last (map snap pre) with Some prev => deltas prev (snap f) | None => [] end ++ rz_emit_netstate (snap f).

Definition poll_report (pre : list rz_facts) (f : rz_facts) : list rz_report :=
  if rf_results_ok f then
    let '(established, bssid, ms) := baseline (map snap (pre ++ [f])) in [RzReport (rf_ts f) poll_sec (snap f) established bssid ms]
  else [].

(** The state after some polls. *)
Definition next (s : rz_state_t) (f : rz_facts) : rz_state_t := rz_establish_baseline (snap f) (rz_state_update (snap f) s).
Definition state_after (fs : list rz_facts) : rz_state_t := foldl next rz_start fs.

Lemma state_snoc fs f : state_after (fs ++ [f]) = next (state_after fs) f.
Proof. unfold state_after. by rewrite foldl_app. Qed.

Lemma curr_of fs : rs_curr (state_after fs) = last (map snap fs).
Proof.
  induction fs as [|f fs _] using rev_ind; [done|]. rewrite state_snoc, map_app. cbn [map]. rewrite last_snoc. unfold next.
  assert (∀ s, rs_curr (rz_establish_baseline (snap f) s) = rs_curr s) as ->.
  { intros s. unfold rz_establish_baseline. by destruct (rs_established s), (wf_connected (ss_wifi (snap f)) =? 0). }
  unfold rz_state_update. by destruct (rs_curr (state_after fs)).
Qed.

Definition own_baseline (s : rz_state_t) : bool * string * Z := (rs_established s, rs_bssid s, rs_dns_ms s).

Lemma find_snoc {A} (p : A → bool) l x :
  List.find p (l ++ [x]) = match List.find p l with Some y => Some y | None => if p x then Some x else None end.
Proof. induction l as [|y l IH]; [done|]. cbn. by destruct (p y). Qed.

Lemma own_update c s : own_baseline (rz_state_update c s) = own_baseline s.
Proof. unfold rz_state_update. by destruct (rs_curr s). Qed.

Lemma own_establish c s :
  own_baseline (rz_establish_baseline c s) =
  if rs_established s then own_baseline s
  else if wf_connected (ss_wifi c) =? 0 then own_baseline s
  else (true, strncpy 18 (wf_bssid (ss_wifi c)), dn_latency (ss_dns c)).
Proof. unfold rz_establish_baseline. by destruct (rs_established s), (wf_connected (ss_wifi c) =? 0). Qed.

Lemma established_of s : rs_established s = (own_baseline s).1.1.
Proof. done. Qed.

Lemma baseline_of fs : own_baseline (state_after fs) = baseline (map snap fs).
Proof.
  induction fs as [|f fs IH] using rev_ind; [done|]. rewrite state_snoc, map_app. unfold baseline, next. cbn [map].
  rewrite find_snoc, own_establish, established_of, own_update, IH. unfold baseline.
  destruct (List.find _ (map snap fs)); [done|]. cbn [fst]. by destruct (wf_connected (ss_wifi (snap f)) =? 0).
Qed.

Lemma rz_poll_says :
  tells (λ s f, match rs_curr s with Some prev => deltas prev (snap f) | None => [] end ++ rz_emit_netstate (snap f))
    (λ _ s f, if rf_results_ok f then
       [RzReport (rf_ts f) poll_sec (snap f) (rs_established (next s f)) (rs_bssid (next s f)) (rs_dns_ms (next s f))] else [])
    next (λ _, rz_poll poll_sec host).
Proof.
  intros n f [s o r]. unfold rz_poll, next. autorewrite with monad. cbv zeta.
  unfold set_own, put, file_result. destruct (rf_results_ok f); cbn [dk_own dk_out dk_results]; by rewrite <-?app_assoc, ?app_nil_r.
Qed.

Lemma owned_prefixes l : ∀ pre,
  owned next (state_after pre) (map (pair 0) l) = map (λ x, (0, state_after x.1, x.2)) (prefixes pre l).
Proof.
  induction l as [|f l IH]; intros pre; [done|]. cbn [map owned prefixes fst snd]. f_equal. rewrite <-state_snoc. apply IH.
Qed.

Lemma flat_map_map {A B C} (g : A → B) (h : B → list C) l : flat_map h (map g l) = flat_map (λ a, h (g a)) l.
Proof. induction l as [|a l IH]; [done|]. cbn. by rewrite IH. Qed.

Lemma run_rahz fs :
  exec (rahz_main poll_sec host fs) (desk_start rz_start) =
  Desk (dk_own (exec (mfor fs (rz_poll poll_sec host)) (put (rz_emit_lifecycle poll_sec "online") (desk_start rz_start))))
    (rz_emit_lifecycle poll_sec "online" ++ flat_map (λ x, poll_outs x.1 x.2) (prefixes [] fs) ++ rz_emit_lifecycle poll_sec "offline")
    (flat_map (λ x, poll_report x.1 x.2) (prefixes [] fs)).
Proof.
  unfold rahz_main. autorewrite with monad.
  destruct (run_tells _ _ _ _ (map (pair 0) fs) rz_poll_says (put (rz_emit_lifecycle poll_sec "online") (desk_start rz_start))) as [Ho Hr].
  rewrite mfor_map in Ho, Hr. change (λ a, rz_poll poll_sec host (0, a).2) with (rz_poll poll_sec host) in Ho, Hr. revert Ho Hr.
  generalize (exec (mfor fs (rz_poll poll_sec host)) (put (rz_emit_lifecycle poll_sec "online") (desk_start rz_start))).
  intros s Ho Hr. unfold put. rewrite Ho, Hr. cbn [put desk_start dk_own dk_out dk_results app].
  change rz_start with (state_after []). rewrite owned_prefixes, !flat_map_map, <-app_assoc. f_equal.
  - do 2 f_equal. apply flat_map_ext. intros [pre f]. cbn [fst snd]. unfold poll_outs. by rewrite curr_of.
  - apply flat_map_ext. intros [pre f]. cbn [fst snd]. unfold poll_report. rewrite <-baseline_of, <-state_snoc. done.
Qed.

(** Everything rahzerd sends and reports, over any run: between the two lines
    of its life, for each poll the changes against the snapshot before, if there is
    one, and the state of the net; and a report with the baseline, which is that of
    the first poll whose wifi was not known to be off. *)
Theorem rahzerd_reports fs :
  let s := exec (rahz_main poll_sec host fs) (desk_start rz_start) in
  dk_out s = rz_emit_lifecycle poll_sec "online" ++ flat_map (λ x, poll_outs x.1 x.2) (prefixes [] fs) ++
    rz_emit_lifecycle poll_sec "offline" ∧
  dk_results s = flat_map (λ x, poll_report x.1 x.2) (prefixes [] fs).
Proof. intros s. unfold s. by rewrite run_rahz. Qed.

End run.

(** ** Outages *)

Section outages.
Context (host : string).

Abbreviation snap := (rz_snapshot host).
Abbreviation state_after := (state_after host).

Definition resolves (f : rz_facts) : bool := dn_resolves (ss_dns (snap f)) =? 1.

(** A snapshot resolves or it does not. *)
Lemma resolves_flag f : dn_resolves (ss_dns (snap f)) = flag (resolves f).
Proof. unfold resolves. cbn [rz_snapshot ss_dns rz_probe_dns dn_resolves]. by destruct (da_timed_out (rf_dns f)), (da_found (rf_dns f)). Qed.

Lemma dns_lost_of f g : dns_lost (snap f) (snap g) = resolves f && negb (resolves g).
Proof. unfold dns_lost. rewrite !resolves_flag. by destruct (resolves f), (resolves g). Qed.

(** A step of the counters, with the poll before. *)
Lemma update_of fs f :
  let s := state_after fs in let s' := state_after (fs ++ [f]) in
  rs_dns_failing_since s' =
    match last fs with
    | Some g => if resolves f then 0 else if resolves g then rf_now f else rs_dns_failing_since s
    | None => rs_dns_failing_since s
    end ∧
  rs_flaps s' = rs_flaps s + match last fs with Some g => flag (wifi_lost (snap g) (snap f)) | None => 0 end.
Proof.
  intros s s'. unfold s', s. rewrite state_snoc. unfold next.
  assert (∀ c st, rs_dns_failing_since (rz_establish_baseline c st) = rs_dns_failing_since st ∧
    rs_flaps (rz_establish_baseline c st) = rs_flaps st) as E.
  { intros c st. unfold rz_establish_baseline. by destruct (rs_established st), (wf_connected (ss_wifi c) =? 0). }
  destruct (E (snap f) (rz_state_update (snap f) (state_after fs))) as [-> ->].
  unfold rz_state_update. rewrite curr_of, fmap_last. destruct (last fs) as [g|]; cbn [fmap option_map option_fmap].
  - cbn [rs_dns_failing_since rs_flaps]. rewrite dns_lost_of, resolves_flag. split; [|done].
    by destruct (resolves f), (resolves g).
  - cbn. split; [done|lia].
Qed.

Lemma none_yet fs : Forall (λ f, resolves f = false) fs → rs_dns_failing_since (state_after fs) = 0.
Proof.
  induction fs as [|f fs IH] using rev_ind; [done|]. intros [Hfs Hf]%Forall_app. destruct (update_of fs f) as [-> _].
  destruct (last fs) as [g|] eqn:Hg; [|by apply IH]. apply last_Some in Hg as [l ->]. apply Forall_app in Hfs as Hg.
  destruct Hg as [_ Hg]. rewrite (Forall_inv Hf).
  rewrite (Forall_inv Hg). by apply IH.
Qed.

(** C27. The time of an outage, over any run: while names resolve it is zero; when
    they no longer do it is the time of the first poll that failed since a poll that
    did not; and when they never did it stays zero, so an outage from the start has
    no beginning. *)
Theorem outages_tracked fs :
  (∀ pre ok, fs = pre ++ [ok] → resolves ok = true → rs_dns_failing_since (state_after fs) = 0) ∧
  (∀ pre ok bad fails, fs = pre ++ ok :: bad :: fails → resolves ok = true → Forall (λ f, resolves f = false) (bad :: fails) →
     rs_dns_failing_since (state_after fs) = rf_now bad) ∧
  (Forall (λ f, resolves f = false) fs → rs_dns_failing_since (state_after fs) = 0).
Proof.
  split_and!; [| |apply none_yet].
  - intros pre ok -> Hok. destruct (update_of pre ok) as [-> _]. destruct (last pre) eqn:Hl; [by rewrite Hok|].
    by apply last_None in Hl as ->.
  - intros pre ok bad fails -> Hok. induction fails as [|f fails IH] using rev_ind; intros Hall.
    + rewrite (app_assoc pre [ok] [bad] : pre ++ [ok; bad] = (pre ++ [ok]) ++ [bad]).
      destruct (update_of (pre ++ [ok]) bad) as [-> _]. rewrite last_snoc, Hok. by rewrite (Forall_inv Hall).
    + rewrite !app_comm_cons, app_assoc. rewrite !app_comm_cons in Hall. apply Forall_app in Hall as [Hall Hf].
      destruct (update_of (pre ++ ok :: bad :: fails) f) as [-> _].
      assert (∃ g, last (pre ++ ok :: bad :: fails) = Some g ∧ resolves g = false) as (g & -> & Hg).
      { rewrite last_app_cons, last_cons_cons. destruct (last (bad :: fails)) as [g|] eqn:Hg; [|by apply last_None in Hg].
        exists g. split; [done|]. rewrite Forall_forall in Hall. apply Hall. by apply last_Some_elem_of. }
      rewrite (Forall_inv Hf), Hg. by apply IH.
Qed.

End outages.

(** A poll that is offline, and one that is not. *)
Definition test_poll (all tcp : option string) (found : bool) (now : Z) : rz_facts :=
  RzFacts all None (DnsAnswer found false 20) tcp None (λ _, false) now 5 "2026-01-01T00:00:00" true.

Lemma outages_tracked_witness :
  rs_dns_failing_since (state_after "dns.google" [test_poll None None true 10; test_poll None None false 25; test_poll None None false 40]) = 25.
Proof.
  apply (proj1 (proj2 (outages_tracked "dns.google" _)) [] (test_poll None None true 10) (test_poll None None false 25)
           [test_poll None None false 40]); [reflexivity|reflexivity|]. by repeat constructor.
Defined.

(** ** Sockets *)

Definition listening (l : list (Z * Z * Z)) : list Z := map (λ e, e.1.1) (List.filter (λ e, e.2 =? 10) l).
Definition established (l : list (Z * Z * Z)) : Z := Z.of_nat (length (List.filter (λ e, e.2 =? 1) l)).

(** The table of ports with the count of the listeners [l] so far. *)
Definition table_ok (l : list Z) (p : rz_ports_t) : Prop :=
  po_listen_count p = (if Z.of_nat (length l) <=? 64 then Z.of_nat (length l) else -1) ∧
  length (po_listen p) = 64%nat ∧ take (Nat.min (length l) 64) (po_listen p) = take 64 l ∧
  po_suspicious p = Z.of_nat (length (List.filter suspicious_port l)).

Lemma table_add l n p : table_ok l p → table_ok (l ++ [n]) (add_listener n p).
Proof.
  intros (Hc & Hlen & Ht & Hs). unfold table_ok, add_listener. cbn [po_listen_count po_listen po_suspicious].
  change (Z.of_nat RZ_MAX_OPEN_PORTS) with 64. change RZ_MAX_OVERFLOW_FLAG with (-1).
  split_and!; [| | |rewrite Hs, List.filter_app, length_app, Nat2Z.inj_add; cbn [List.filter]; by destruct (suspicious_port n)];
    rewrite ?length_app; cbn [length].
  - rewrite Hc. destruct (Z.leb_spec (Z.of_nat (length l)) 64) as [Hle|Hgt].
    + destruct (Z.ltb_spec (Z.of_nat (length l)) 64).
      * rewrite (proj2 (Z.leb_le 0 _)), (proj2 (Z.leb_le _ 64)) by lia. cbn [andb]. lia.
      * rewrite andb_false_r, (proj2 (Z.eqb_eq _ 64)), (proj2 (Z.leb_gt _ 64)) by lia. done.
    + rewrite (proj2 (Z.leb_gt _ 64)) by lia. done.
  - destruct (_ && _); [by rewrite length_insert|done].
  - rewrite Hc. destruct (Z.leb_spec (Z.of_nat (length l)) 64) as [Hle|Hgt]; [destruct (Z.ltb_spec (Z.of_nat (length l)) 64)|].
    + rewrite (proj2 (Z.leb_le 0 _)), Nat2Z.id by lia. cbn [andb].
      rewrite (Nat.min_l (length l + 1)), (take_ge (l ++ [n])) by (rewrite ?length_app; cbn; lia).
      rewrite Nat.min_l, (take_ge l) in Ht by lia. replace (length l + 1)%nat with (S (length l)) by lia.
      rewrite (take_S_r _ _ n) by (apply list_lookup_insert_eq; lia). by rewrite take_insert_ge, Ht.
    + rewrite andb_false_r. rewrite take_app_le by lia. rewrite <-Ht. f_equal. lia.
    + rewrite take_app_le by lia. rewrite <-Ht. cbn [Z.leb andb]. f_equal. lia.
Qed.

Lemma table_entries v6 l : ∀ done p, table_ok done p → table_ok (done ++ listening l) (foldl (tcp_entry v6) p l).
Proof.
  induction l as [|[[lport rport] state] l IH]; intros done p Hp; [by rewrite app_nil_r|].
  cbn [foldl]. unfold listening. cbn [List.filter snd]. unfold tcp_entry at 2.
  destruct (state =? 10) eqn:Hs; cbn [map fst].
  - rewrite (app_assoc done [lport] _ : done ++ lport :: _ = _). apply IH. by apply table_add.
  - apply IH. destruct (state =? 1); [|done]. done.
Qed.

Lemma counts_of v6 l : ∀ p, let p' := foldl (tcp_entry v6) p l in
  po_tcp4 p' = po_tcp4 p + (if v6 then 0 else established l) ∧ po_tcp6 p' = po_tcp6 p + (if v6 then established l else 0).
Proof.
  induction l as [|[[lport rport] state] l IH]; intros p p'; [unfold p', established; destruct v6; cbn; split; lia|].
  unfold p'. cbn [foldl]. destruct (IH (tcp_entry v6 p (lport, rport, state))) as [-> ->].
  unfold established. cbn [List.filter snd]. unfold tcp_entry.
  destruct (Z.eqb_spec state 10) as [->|_]; [done|]. destruct (state =? 1); [|done].
  destruct v6; cbn [add_established po_tcp4 po_tcp6 length]; lia.
Qed.

(** All sockets of the two tables. *)
Definition sockets (f : rz_facts) : list (Z * Z * Z) := tcp_entries (rf_tcp f) ++ tcp_entries (rf_tcp6 f).

Lemma ports_of f data : ds data "PORTS" = None →
  let p := rz_probe_ports data (rf_tcp f) (rf_tcp6 f) in
  table_ok (listening (sockets f)) p ∧ po_tcp4 p = established (tcp_entries (rf_tcp f)) ∧ po_tcp6 p = established (tcp_entries (rf_tcp6 f)).
Proof.
  intros Hd p. unfold p, rz_probe_ports, probe_tcp_file. rewrite Hd. unfold sockets, listening. rewrite List.filter_app, map_app.
  destruct (counts_of true (tcp_entries (rf_tcp6 f)) (foldl (tcp_entry false) (ports_section None) (tcp_entries (rf_tcp f)))) as [-> ->].
  destruct (counts_of false (tcp_entries (rf_tcp f)) (ports_section None)) as [-> ->].
  cbn [ports_section po_tcp4 po_tcp6]. split_and!; [|lia|lia].
  apply table_entries, (table_entries false _ [] (ports_section None)). done.
Qed.

(** ** What the script does not write *)

Lemma has_prefix_shorter n q : ∀ s, has_prefix (n +:+ q) s = true → has_prefix n s = true.
Proof.
  induction n as [|c n IH]; intros [|d s]; [done|done|done|]. cbn. intros [-> H]%andb_prop. by apply IH.
Qed.

Lemma strstr_longer n q s : strstr s n = None → strstr s (n +:+ q) = None.
Proof.
  induction s as [|c s IH]; cbn [strstr]; intros Hs.
  all: destruct (has_prefix (n +:+ q) _) eqn:Hq; [apply has_prefix_shorter in Hq; by rewrite Hq in Hs|].
  - done.
  - destruct (has_prefix n (String c s)); [done|]. by apply IH.
Qed.

(** No heading of a section in the file, as in every file of the script
    ([scripts/dump_rahzerd.sh]). *)
Definition sectionless (f : rz_facts) : bool :=
  match rz_load_probe_data (rf_all f) with Some t => negb (contains t "===") | None => true end.

Lemma no_section f svc : sectionless f = true → ds (rz_load_probe_data (rf_all f)) svc = None.
Proof.
  unfold sectionless. destruct (rz_load_probe_data (rf_all f)) as [t|]; [|done]. unfold contains.
  destruct (strstr t "===") eqn:Ht; [done|]. intros _. cbn [ds mbind option_bind].
  change (upper_all (snprintf 32 (scat ["==="; svc; "==="]))) with ("===" +:+ upper_all (stake 28 (svc +:+ "==="))).
  by rewrite strstr_longer.
Qed.

(** The script that rahzerd runs writes no sections, and without them in
    every snapshot calls, multimedia messages, ranging, radio, near field, adb,
    tethering and the scans of bluetooth are unknown, whatever the phone does, and
    the sockets are those of the kernel's tables. *)
Theorem sections_never_read host f :
  sectionless f = true →
  let s := rz_snapshot host f in let absent := Source RZ_BACKEND_RISH RZ_CONF_ABSENT in
  ss_telephone s = Telephone (-1) (-1) (-1) "UNKNOWN" "UNKNOWN" 0 "UNKNOWN" absent ∧
  ss_mms s = Mms (-1) "" "" "" 0 (-1) absent ∧ sm_blocked (ss_sms s) = -1 ∧
  ss_uwb s = Uwb 0 (-1) (-1) "UNKNOWN" absent ∧ fm_enabled (ss_fm s) = -1 ∧ nf_enabled (ss_nfc s) = -1 ∧
  (us_adb (ss_usb s) = -1 ∧ us_tethering (ss_usb s) = -1) ∧
  (bt_scanning (ss_bluetooth s) = -1 ∧ bt_advertising (ss_bluetooth s) = -1) ∧
  (xi_jx_policy (ss_xiaomi s) = -1 ∧ xi_miuibooster (ss_xiaomi s) = -1) ∧
  po_tcp4 (ss_ports s) = established (tcp_entries (rf_tcp f)) ∧ po_tcp6 (ss_ports s) = established (tcp_entries (rf_tcp6 f)).
Proof.
  intros Hf s absent. pose proof (λ svc, no_section f svc Hf) as Hds.
  destruct (ports_of f _ (Hds "PORTS")) as (_ & H4 & H6). unfold s, rz_snapshot.
  cbn [ss_telephone ss_mms ss_sms ss_uwb ss_fm ss_nfc ss_usb ss_bluetooth ss_xiaomi ss_ports].
  unfold rz_probe_telephone, rz_probe_mms, rz_probe_sms, rz_probe_uwb, rz_probe_fm, rz_probe_nfc, rz_probe_usb,
    rz_probe_bluetooth, rz_probe_xiaomi, ds_or. rewrite !Hds.
  split_and!; try done; cbn [sm_blocked us_adb us_tethering bt_scanning bt_advertising fm_enabled nf_enabled]; by case_match.
Qed.

Lemma sections_never_read_witness :
  nf_enabled (ss_nfc (rz_snapshot "dns.google" (test_poll (Some ("net.dns1=8.8.8.8" +:+ NLs +:+ "gsm.sim.state=READY" +:+ NLs)) None true 10))) = -1.
Proof. apply (sections_never_read "dns.google"). reflexivity. Defined.

(** ** Too many listeners *)

Lemma prefixes_polls l : ∀ pre, map snd (prefixes pre l) = l.
Proof. induction l as [|f l IH]; intros pre; [done|]. cbn. by rewrite IH. Qed.

Lemma elem_of_flat_map {A B} (g : A → list B) l y : y ∈ flat_map g l ↔ ∃ x, x ∈ l ∧ y ∈ g x.
Proof. rewrite list_elem_of_In, in_flat_map. by setoid_rewrite <-list_elem_of_In. Qed.

Lemma in_outs sec host fs o :
  (∀ t p, o ≠ ToSplinter t p) →
  o ∈ dk_out (exec (rahz_main sec host fs) (desk_start rz_start)) ↔ ∃ x, x ∈ prefixes [] fs ∧ o ∈ poll_outs host x.1 x.2.
Proof.
  intros Ho. rewrite run_rahz. cbn [dk_out]. unfold rz_emit_lifecycle. cbn [app].
  rewrite elem_of_cons, elem_of_app, list_elem_of_singleton, elem_of_flat_map. split; [|by right; left].
  intros [H|[H|H]]; [by apply Ho in H|done|by apply Ho in H].
Qed.

Lemma send_if_in b l o : o ∈ send_if b l ↔ b = true ∧ o ∈ l.
Proof. destruct b; cbn [send_if]; [split; [by split|by intros []]|]. split; [by intros ?%elem_of_nil|by intros []]. Qed.

(** The changes between two snapshots never complain about the number of ports. *)
Lemma deltas_other prev curr w ctx : ToGaveld "EXCESSIVE_CONNECTIONS" w ctx ∉ deltas prev curr.
Proof.
  unfold deltas, rz_emit_delta, rz_emit_anomaly, signal. rewrite !elem_of_app, !send_if_in, !elem_of_app, !list_elem_of_singleton.
  intros [H|[[_ H]|[[_ [H|H]]|[[_ [H|H]]|[[_ [H|H]]|[_ [H|H]]]]]]]; try done.
  destruct (wifi_lost prev curr); [by apply list_elem_of_singleton in H|]. apply send_if_in in H as [_ H].
  by apply list_elem_of_singleton in H.
Qed.

Lemma excess_of snap w ctx :
  ToGaveld "EXCESSIVE_CONNECTIONS" w ctx ∈ rz_emit_netstate snap ↔
  20 < po_listen_count (ss_ports snap) ∧ w = d_of_Z (po_listen_count (ss_ports snap)) ∧ ctx = "".
Proof.
  unfold rz_emit_netstate, signal. cbv zeta. rewrite !elem_of_app, !send_if_in, !list_elem_of_singleton, Z.ltb_lt. split.
  - intros [[_ H]|[[_ H]|[[_ H]|[[H0 H]|H]]]]; try done. by injection H as -> ->.
  - intros (H & -> & ->). by right; right; right; left.
Qed.

(** C26. EXCESSIVE_CONNECTIONS is sent exactly by the polls that find from 21 to 64
    listening sockets, with their number; a phone with more than 64, which the table
    has no room for, is reported as one with fewer than none. *)
Theorem excess_window sec host fs w ctx :
  Forall (λ f, sectionless f = true) fs →
  ToGaveld "EXCESSIVE_CONNECTIONS" w ctx ∈ dk_out (exec (rahz_main sec host fs) (desk_start rz_start)) ↔
  ∃ f, f ∈ fs ∧ let n := Z.of_nat (length (listening (sockets f))) in 20 < n <= 64 ∧ w = d_of_Z n ∧ ctx = "".
Proof.
  intros Hfs. rewrite Forall_forall in Hfs. rewrite in_outs by done.
  assert (∀ x, x ∈ prefixes [] fs → x.2 ∈ fs ∧ po_listen_count (ss_ports (rz_snapshot host x.2)) =
    (if Z.of_nat (length (listening (sockets x.2))) <=? 64 then Z.of_nat (length (listening (sockets x.2))) else -1)) as Hx.
  { intros x Hin. assert (x.2 ∈ fs) as Hf by (rewrite <-(prefixes_polls fs []); by apply list_elem_of_fmap_2).
    split; [done|]. apply ports_of, no_section, Hfs, Hf. }
  split.
  - intros (x & Hin & Ho). destruct (Hx x Hin) as [Hf Hn]. exists x.2. split; [done|]. unfold poll_outs in Ho.
    apply elem_of_app in Ho as [Ho|Ho]; [destruct (last _); [by apply deltas_other in Ho|by apply elem_of_nil in Ho]|].
    apply excess_of in Ho. rewrite Hn in Ho. cbv zeta. revert Ho.
    destruct (Z.leb_spec (Z.of_nat (length (listening (sockets x.2)))) 64); [|intros [? _]; lia]. intros (? & ? & ?). split_and!; [lia|lia|done|done].
  - intros (f & Hf & Hn & -> & ->). rewrite <-(prefixes_polls fs []) in Hf. apply list_elem_of_fmap in Hf as (x & -> & Hin).
    exists x. split; [done|]. apply elem_of_app. right. apply excess_of. destruct (Hx x Hin) as [_ ->].
    rewrite (proj2 (Z.leb_le _ 64)) by lia. by split_and!; [lia|..].
Qed.

(** A table with [n] listening sockets. *)
Definition test_tcp (n : nat) : string :=
  "  sl  local_address rem_address   st" +:+ NLs +:+
  scat (replicate n ("   0: 0100007F:1F90 00000000:0000 0A 00000000:00000000" +:+ NLs)).

Lemma excess_window_witness :
  ToGaveld "EXCESSIVE_CONNECTIONS" (d_of_Z 25) "" ∈
    dk_out (exec (rahz_main 15 "dns.google" [test_poll None (Some (test_tcp 70)) true 10; test_poll None (Some (test_tcp 25)) true 25]) (desk_start rz_start)).
Proof.
  apply excess_window; [by repeat constructor|]. exists (test_poll None (Some (test_tcp 25)) true 25).
  split; [by right; left|]. vm_compute. by split_and!.
Defined.

(** ** Reading the script's file back *)

(** What the script writes for keys and values. *)
Definition script_text (kvs : list (string * string)) : string := scat (map (λ kv, kv.1 +:+ "=" +:+ kv.2 +:+ NLs) kvs).

Definition entry_ok (kv : string * string) : bool :=
  none_of is_line_end kv.1 && none_of (Ascii.eqb "=") kv.1 && none_of is_line_end kv.2.

Lemma pieces_line l t : none_of is_line_end l = true → pieces (l +:+ NLs +:+ t) = l :: pieces t.
Proof.
  induction l as [|c l IH]; [done|]. rewrite none_of_cons, app_cons_str. intros [Hc%negb_true_iff Hl]%andb_prop.
  cbn [pieces]. rewrite Hc, IH by done. done.
Qed.

Lemma key_prefix key v : ∀ k, none_of (Ascii.eqb "=") key = true → none_of (Ascii.eqb "=") k = true →
  has_prefix (key +:+ "=") (k +:+ "=" +:+ v) = String.eqb key k.
Proof.
  induction key as [|c key IH]; intros [|d k].
  - done.
  - rewrite none_of_cons. intros _ [Hd%negb_true_iff _]%andb_prop. rewrite app_cons_str, app_nil_l_str. cbn [has_prefix]. by rewrite Hd.
  - rewrite none_of_cons. intros [Hc%negb_true_iff _]%andb_prop _. rewrite app_cons_str, app_nil_l_str.
    change ("=" +:+ v) with (String "=" v). cbn [has_prefix]. by rewrite Ascii.eqb_sym, Hc.
  - rewrite !none_of_cons. intros [_ Hk]%andb_prop [_ Hk']%andb_prop. rewrite !app_cons_str. cbn [has_prefix String.eqb]. destruct (Ascii.eqb_spec c d); [by apply IH|done].
Qed.

Lemma value_of_line key k v : none_of (Ascii.eqb "=") key = true → none_of (Ascii.eqb "=") k = true →
  value_of key (k +:+ "=" +:+ v) = if String.eqb key k then nonempty v else None.
Proof.
  intros Hkey Hk. unfold value_of. rewrite key_prefix by done. destruct (String.eqb_spec key k) as [->|]; [|done].
  f_equal. replace (String.length k + 1)%nat with (String.length (k +:+ "=")) by by rewrite length_app_str.
  by rewrite <-app_assoc_str, sdrop_app.
Qed.

(** The script's file is read back: the value of a key is that of the first of
    its lines with a value, whatever the other keys and the values hold. *)
Theorem prebaked_read kvs key :
  forallb entry_ok kvs = true → none_of (Ascii.eqb "=") key = true →
  rz_prebaked_get (Some (script_text kvs)) key =
  head (omap (λ kv, if String.eqb key kv.1 then nonempty kv.2 else None) kvs).
Proof.
  intros Hok Hkey. cbn [rz_prebaked_get mbind option_bind]. f_equal. induction kvs as [|[k v] kvs IH]; [done|].
  cbn [forallb] in Hok. apply andb_prop in Hok as [[[Hk1 Hk2]%andb_prop Hv]%andb_prop Hok]. cbn [fst snd] in *.
  unfold script_text. cbn [map scat fst snd].
  replace ((k +:+ "=" +:+ v +:+ NLs) +:+ scat _) with ((k +:+ "=" +:+ v) +:+ NLs +:+ script_text kvs) by by rewrite !app_assoc_str.
  rewrite pieces_line by by rewrite !none_of_app, Hk1, Hv. cbn [omap list_omap]. rewrite value_of_line by done.
  destruct (if String.eqb key k then _ else _); by rewrite IH.
Qed.

Lemma prebaked_read_witness :
  rz_prebaked_get (Some (script_text [("net.dns1", "8.8.8.8"); ("net.dns2", ""); ("net.dns2", "a=b"); ("net.dns2", "c")])) "net.dns2" = Some "a=b".
Proof. rewrite prebaked_read; reflexivity. Defined.

(** ** The counts in overlordd *)

Section clean.
Context (g : ascii → bool).

Lemma none_of_sdrop n s : none_of g s = true → none_of g (sdrop n s) = true.
Proof. destruct (sdrop_suffix n s) as [p Hp]. rewrite Hp at 1. apply none_of_suffix. Qed.

Lemma none_of_skip f s : none_of g s = true → none_of g (skip_while f s) = true.
Proof. destruct (skip_while_suffix f s) as [p Hp]. rewrite Hp at 1. apply none_of_suffix. Qed.

Lemma none_of_break f s : none_of g s = true → none_of g (break_at f s).1 = true.
Proof. rewrite (break_at_app f s) at 1. rewrite none_of_app. by intros [? _]%andb_prop. Qed.

Lemma none_of_strstr n s t : strstr s n = Some t → none_of g s = true → none_of g t = true.
Proof.
  induction s as [|c s IH]; cbn [strstr].
  - destruct (has_prefix n ""); [|done]. by intros [= <-].
  - destruct (has_prefix n (String c s)); [by intros [= <-]|]. rewrite none_of_cons. intros Ht [_ Hs]%andb_prop. by apply IH.
Qed.

(** A field holds only characters of the text. *)
Lemma none_of_csv hay key n v : rz_extract_field_csv hay key n = Some v → none_of g hay = true → none_of g v = true.
Proof.
  unfold rz_extract_field_csv. destruct (strstr hay key) as [p|] eqn:Hp; [|done]. cbn [mbind option_bind]. cbv zeta.
  intros Hv Hh. pose proof (none_of_strstr _ _ _ Hp Hh) as Hc.
  apply (none_of_sdrop (String.length key)), (none_of_skip is_separator) in Hc. revert Hv Hc.
  generalize (skip_while is_separator (sdrop (String.length key) p)). intros a Hv Ha.
  assert (none_of g (if has_prefix QUOTE a then sdrop 1 a else a) = true) as Hb by (destruct (has_prefix QUOTE a); [by apply none_of_sdrop|done]).
  revert Hv Hb. generalize (if has_prefix QUOTE a then sdrop 1 a else a). intros b. unfold nonempty.
  destruct (String.eqb _ "") eqn:He; [done|]. intros [= <-] Hb. by apply trim_end_none_of, none_of_stake, none_of_break.
Qed.

End clean.

(** No text of the wifi ends the string it is written in. *)
Lemma wifi_clean data : no_quotes (wf_ssid (rz_probe_wifi data)) ∧ no_quotes (wf_bssid (rz_probe_wifi data)).
Proof.
  unfold rz_probe_wifi. destruct (rz_prebaked_get data "mwifiinfo") as [wi|]; [|done]. cbv zeta. cbn [wf_ssid wf_bssid].
  pose proof (Fugitoid.sanitized_clean wi) as Hc. change (Bebop.sanitize_field wi) with (sanitize_field wi) in Hc.
  split; apply none_of_stake.
  - destruct (rz_extract_field_csv _ "SSID" 64) as [t|] eqn:Ht; [|done]. destruct (String.eqb t "<unknown ssid>"); [done|]. by apply (none_of_csv _ _ _ _ _ Ht).
  - destruct (rz_extract_field_csv _ "BSSID" 64) as [t|] eqn:Ht; [|done]. destruct (String.eqb t "<none>"); [done|]. by apply (none_of_csv _ _ _ _ _ Ht).
Qed.

Lemma rat_clean file : no_quotes (mo_rat (rz_probe_mobile file)).
Proof. destruct file as [t|]; [|done]. cbn [rz_probe_mobile mo_rat]. unfold rat_in. by repeat case_match. Qed.

Lemma baseline_clean host fs : no_quotes (baseline (map (rz_snapshot host) fs)).1.2.
Proof.
  unfold baseline. destruct (List.find _ _) as [c|] eqn:Hc; [|done]. cbn [fst snd].
  apply find_some in Hc as [Hc _]. apply in_map_iff in Hc as (f & <- & _). apply none_of_stake, wifi_clean.
Qed.

(** The connections reach overlordd: from every report of rahzerd, whatever the
    access points are called, overlordd reads the numbers of established
    connections of the kernel's two tables exactly. *)
Theorem tcp_counts_read sec host pre f r :
  r ∈ poll_report sec host pre f → sectionless f = true → no_quotes (rf_ts f) →
  established (tcp_entries (rf_tcp f)) <= INT_MAX → established (tcp_entries (rf_tcp6 f)) <= INT_MAX →
  json_get_int (rz_write_json r) "established_tcp4" = Some (established (tcp_entries (rf_tcp f))) ∧
  json_get_int (rz_write_json r) "established_tcp6" = Some (established (tcp_entries (rf_tcp6 f))).
Proof.
  intros Hr Hf Ht H4 H6. unfold poll_report in Hr. destruct (rf_results_ok f); [|by apply elem_of_nil in Hr].
  pose proof (baseline_clean host (pre ++ [f])) as Hb.
  destruct (baseline (map (rz_snapshot host) (pre ++ [f]))) as [[est bssid] ms]. apply list_elem_of_singleton in Hr as ->.
  cbn [fst snd] in Hb. destruct (ports_of f _ (no_section f "PORTS" Hf)) as (_ & E4 & E6).
  assert (INT_MIN <= established (tcp_entries (rf_tcp f)) <= INT_MAX) by (unfold established, INT_MIN in *; lia).
  assert (INT_MIN <= established (tcp_entries (rf_tcp6 f)) <= INT_MAX) by (unfold established, INT_MIN in *; lia).
  destruct (wifi_clean (rz_load_probe_data (rf_all f))) as [Hs Hbs]. pose proof (rat_clean (rf_mobile f)).
  unfold rz_write_json. cbv zeta. cbn [rr_snap rr_ts rr_poll_sec rz_snapshot ss_wifi ss_mobile ss_dns ss_ports ss_xiaomi ss_duration].
  rewrite E4, E6. split; [number_at 29%nat "    "|number_at 30%nat "    "].
Qed.

Definition two_connections : string :=
  "  sl  local_address rem_address   st" +:+ NLs +:+
  "   0: 0100007F:1F90 0A00007F:01BB 01 0" +:+ NLs +:+ "   1: 0100007F:1F91 0A00007F:01BB 01 0" +:+ NLs.

Lemma tcp_counts_read_witness :
  map (λ r, (json_get_int (rz_write_json r) "established_tcp4", json_get_int (rz_write_json r) "established_tcp6"))
    (poll_report 15 "dns.google" [] (test_poll None (Some two_connections) true 10)) = [(Some 2, Some 0)].
Proof.
  assert (∃ r, poll_report 15 "dns.google" [] (test_poll None (Some two_connections) true 10) = [r]) as (r & Hr) by (vm_compute; by eexists).
  rewrite Hr. destruct (tcp_counts_read 15 "dns.google" [] (test_poll None (Some two_connections) true 10) r) as (E1 & E2);
    [rewrite Hr; by left|reflexivity|reflexivity|vm_compute; discriminate|vm_compute; discriminate|].
  cbn [map]. rewrite E1, E2. vm_compute. reflexivity.
Defined.

(** ** The name of an access point *)

Lemma sanitize_app s t : sanitize_field (s +:+ t) = sanitize_field s +:+ sanitize_field t.
Proof.
  unfold sanitize_field. induction s as [|c s IH]; [done|]. rewrite app_cons_str. cbn [Bebop.sanitize_field]. by rewrite IH.
Qed.

Lemma sanitize_clean s : none_of Bebop.unsafe_char s = true → sanitize_field s = s.
Proof.
  unfold sanitize_field. induction s as [|c s IH]; [done|]. rewrite none_of_cons. intros [Hc%negb_true_iff Hs]%andb_prop.
  cbn [Bebop.sanitize_field]. by rewrite Hc, IH.
Qed.

(** The address of an access point. *)
Definition mac_char (c : ascii) : bool := is_hex c || Ascii.eqb c ":".
Definition mac (s : string) : bool :=
  (String.length s =? 17)%nat && none_of (λ c, negb (mac_char c)) s && match s with String c _ => is_hex c | _ => false end.

Lemma mac_none (f : ascii → bool) s : (∀ c, mac_char c = true → f c = false) → none_of (λ c, negb (mac_char c)) s = true → none_of f s = true.
Proof.
  intros Hf. apply none_of_weaken. intros c Hc. destruct (mac_char c) eqn:Hm; [|done]. by rewrite Hf in Hc.
Qed.

Lemma mac_safe c : mac_char c = true → Bebop.unsafe_char c = false ∧ Ascii.eqb c "," = false ∧ is_line_end c = false ∧ is_blank c = false.
Proof. destruct c as [[] [] [] [] [] [] [] []]; vm_compute; intros H; try discriminate H; by split_and!. Qed.

Lemma mac_start c : is_hex c = true → is_separator c = false ∧ Ascii.eqb (chr 34) c = false.
Proof. destruct c as [[] [] [] [] [] [] [] []]; vm_compute; intros H; try discriminate H; by split_and!. Qed.

(** A field whose value is an address. *)
Lemma mac_field hay key fake t :
  strstr hay key = Some (key +:+ ": " +:+ fake +:+ "," +:+ t) → mac fake = true →
  rz_extract_field_csv hay key 64 = Some fake.
Proof.
  intros Hp Hf. unfold mac in Hf. apply andb_prop in Hf as [[Hlen%Nat.eqb_eq Hm]%andb_prop Hh].
  destruct fake as [|c fake]; [done|]. destruct (mac_start c Hh) as [Hsep Hq].
  unfold rz_extract_field_csv. rewrite Hp. cbn [mbind option_bind]. cbv zeta. rewrite sdrop_app.
  assert (skip_while is_separator (": " +:+ String c fake +:+ "," +:+ t) = String c fake +:+ "," +:+ t) as ->.
  { change (skip_while is_separator (": " +:+ String c fake +:+ "," +:+ t)) with (skip_while is_separator (String c (fake +:+ "," +:+ t))).
    by rewrite skip_while_none. }
  assert (has_prefix QUOTE (String c fake +:+ "," +:+ t) = false) as ->.
  { rewrite app_cons_str. unfold QUOTE. cbn [has_prefix]. by rewrite Hq. }
  change ("," +:+ t) with (String "," t). rewrite break_at_stop; [|apply (mac_none _ _) with (2 := Hm)|done].
  2: { intros d Hd. destruct (mac_safe d Hd) as (_ & -> & -> & _). done. }
  cbn [fst]. rewrite stake_all, trim_end_none; [by cbn| |lia].
  apply (mac_none _ _) with (2 := Hm). intros d Hd. apply (mac_safe d Hd).
Qed.

(** C25. An access point chooses the address that rahzerd reports for it: when its
    name holds a field BSSID, the text of that field is reported, and kept as the
    baseline, whatever the address that the phone prints behind the name. *)
Theorem access_point_names_bssid data x fake rest :
  rz_prebaked_get data "mwifiinfo" =
    Some ("mWifiInfo SSID: " +:+ QUOTE +:+ x +:+ ", BSSID: " +:+ fake +:+ "," +:+ QUOTE +:+ ", BSSID: " +:+ rest) →
  none_of (Ascii.eqb "B") x = true → mac fake = true →
  wf_bssid (rz_probe_wifi data) = fake.
Proof.
  intros Hw Hx Hf. pose proof Hf as Hm. unfold mac in Hm. apply andb_prop in Hm as [[Hlen%Nat.eqb_eq Hm]%andb_prop _].
  unfold rz_probe_wifi. rewrite Hw. cbv zeta. cbn [wf_bssid].
  assert (none_of (Ascii.eqb "B") (sanitize_field x) = true) as Hx'.
  { clear -Hx. unfold sanitize_field. induction x as [|c x IH]; [done|]. rewrite none_of_cons in Hx. apply andb_prop in Hx as [Hc Hx].
    cbn [Bebop.sanitize_field]. rewrite none_of_cons, IH by done. by destruct (Bebop.unsafe_char c); [|rewrite Hc]. }
  rewrite !sanitize_app, (sanitize_clean fake) by (apply (mac_none _ _ (λ c H, proj1 (mac_safe c H))); done).
  change (sanitize_field "mWifiInfo SSID: ") with "mWifiInfo SSID: ". change (sanitize_field QUOTE) with "_".
  change (sanitize_field ", BSSID: ") with (", " +:+ "BSSID" +:+ ": "). change (sanitize_field ",") with ",".
  rewrite (mac_field _ "BSSID" fake ("_" +:+ (", " +:+ "BSSID" +:+ ": ") +:+ sanitize_field rest)); [| |done].
  - destruct (String.eqb_spec fake "<none>") as [->|_]; [done|]. apply strncpy_id. lia.
  - rewrite (strstr_skip "B" "SSID" "mWifiInfo SSID: ") by reflexivity. rewrite (strstr_skip "B" "SSID" "_") by reflexivity.
    rewrite (strstr_skip "B" "SSID") by done. rewrite !app_assoc_str. by rewrite (strstr_skip "B" "SSID" ", ").
Qed.

Lemma access_point_names_bssid_witness :
  wf_bssid (rz_probe_wifi (Some ("mwifiinfo=mWifiInfo SSID: " +:+ QUOTE +:+ "x, BSSID: 02:00:00:00:00:01," +:+ QUOTE +:+ ", BSSID: a4:2b:b0:11:22:33, RSSI: -40" +:+ NLs))) =
  "02:00:00:00:00:01".
Proof. apply (access_point_names_bssid _ "x" "02:00:00:00:00:01" "a4:2b:b0:11:22:33, RSSI: -40"); reflexivity. Defined.

(** ** A baseline of nothing *)

Lemma prefixes_start {f l} : ∀ x, x ∈ prefixes [] (f :: l) → ∃ hist, x.1 ++ [x.2] = f :: hist.
Proof.
  cbn [prefixes app]. assert (∀ l pre x, x ∈ prefixes (f :: pre) l → ∃ hist, x.1 ++ [x.2] = f :: hist) as H.
  { clear l. intros l. induction l as [|g l IH]; intros pre x; [by intros ?%elem_of_nil|]. cbn [prefixes app].
    rewrite elem_of_cons. intros [->|Hx]; [by eexists|]. by apply IH in Hx. }
  intros x. rewrite elem_of_cons. intros [->|Hx]; [by exists []|]. by apply H in Hx.
Qed.

(** A first poll that cannot read the wifi makes the baseline, as if it were
    connected: every report of the run then has an established baseline without an
    address, whatever is read later. *)
Theorem unread_wifi_is_baseline sec host f fs r :
  rz_prebaked_get (rz_load_probe_data (rf_all f)) "mwifiinfo" = None →
  r ∈ dk_results (exec (rahz_main sec host (f :: fs)) (desk_start rz_start)) →
  rr_established r = true ∧ rr_bssid r = "".
Proof.
  intros Hw. rewrite run_rahz. cbn [dk_results]. rewrite elem_of_flat_map. intros (x & Hx & Hr).
  apply prefixes_start in Hx as (hist & Hx). unfold poll_report in Hr. rewrite Hx in Hr.
  destruct (rf_results_ok x.2); [|by apply elem_of_nil in Hr]. revert Hr. cbn [map]. unfold baseline. cbn [List.find].
  assert (ss_wifi (rz_snapshot host f) = Wifi (-1) "" "" 0 (wf_tx (ss_wifi (rz_snapshot host f)))
    (wf_rx (ss_wifi (rz_snapshot host f))) (Source RZ_BACKEND_RISH RZ_CONF_ABSENT)) as Ew.
  { cbn [rz_snapshot ss_wifi]. unfold rz_probe_wifi. by rewrite Hw. }
  rewrite Ew. cbn [wf_connected]. change (negb (-1 =? 0)) with true. cbv iota. rewrite Ew. intros ->%list_elem_of_singleton. by split.
Qed.

Lemma unread_wifi_is_baseline_witness :
  map rr_bssid (dk_results (exec (rahz_main 15 "dns.google" [test_poll None None true 10]) (desk_start rz_start))) = [""].
Proof.
  assert (∃ r, dk_results (exec (rahz_main 15 "dns.google" [test_poll None None true 10]) (desk_start rz_start)) = [r]) as (r & Hr)
    by (vm_compute; by eexists).
  rewrite Hr. cbn [map]. destruct (unread_wifi_is_baseline 15 "dns.google" (test_poll None None true 10) [] r) as [_ E];
    [reflexivity|rewrite Hr; by left|]. by rewrite E.
Defined.
