(* ===== verification/Sar.v ===== *)
(** * The subject access request engine ([src/gdpr/sar_engine.c])

    A command line tool over the data that the project keeps about its phone: what
    there is, an archive of it, its removal, and the consents.  The files are a map
    from paths; what is printed is kept as a list of answers.  The second part proves
    what a purge and a revocation remove. *)

From stdpp Require Import gmap strings.
From S2P Require Import Prelude CString Double.
From S2P Require Dojo Hero HeroData.
From Stdlib Require Import Ascii.

Definition BASE : string := "/data/data/com.termux/files/home/MiuiserPeruser".

(** A file with its contents, or a directory with the size [stat] tells. *)
Inductive node :=
| File (content : string) (mtime : Z)
| Dir (size mtime : Z).

Definition node_size (n : node) : Z := match n with File content _ => slen content | Dir size _ => size end.
Definition node_mtime (n : node) : Z := match n with File _ mtime => mtime | Dir _ mtime => mtime end.

Abbreviation files := (gmap string node).

Record DataStore := Store { st_path : string; st_category : string; st_description : string }.

Definition STORES : list DataStore := map (λ x, Store (BASE +:+ x.1.1) x.1.2 x.2)
  [("/Registry/daemon_results", "daemon_results", "Real-time daemon scan results (JSON)");
   ("/Registry/daemon_state.json", "registry", "Daemon state registry");
   ("/Registry/daemon_allowlist.json", "registry", "Daemon allowlist configuration");
   ("/Registry/system_registry.json", "registry", "System registry");
   ("/data/granitord_baseline.json", "baseline", "Security posture baseline");
   ("/data/shredderd_baseline.json", "baseline", "Kernel integrity baseline");
   ("/data/tigerclawd_baseline.json", "baseline", "HyperOS binder topology baseline");
   ("/data/nulld_baseline.json", "baseline", "Idle transmission baseline");
   ("/data/rahzerd_baseline.json", "baseline", "Network connectivity baseline");
   ("/data/syndicate_config.json", "config", "Syndicate daemon configuration");
   ("/data/last_scan.json", "config", "Last scan metadata");
   ("/data/profiles/peruse_profile.json", "profile", "Device profile data");
   ("/data/exodus_trackers.csv", "reference", "Exodus tracker database (reference data)");
   ("/data/ssl_ja3.csv", "reference", "SSL JA3 fingerprint database (reference data)");
   ("/data/.syndicate_consent.lock", "consent", "Syndicate scan consent record");
   ("/data/.sensei_consent.lock", "consent", "Superhero scan consent record");
   ("/data/training_complete.lock", "consent", "Training completion record");
   ("/logs", "logs", "Daemon operation logs");
   ("/data/april.bin", "database", "April detection database");
   ("/data/superhero.db", "database", "Superhero scan database")].

(** ** Files *)

(** The name of [path] in the directory [dir]. *)
Definition child (dir path : string) : option string :=
  if has_prefix (dir +:+ "/") path then
    let name := sdrop (String.length dir + 1) path in
    if String.eqb name "" || contains name "/" then None else Some name
  else None.

(** The entries of a directory but [.] and [..]; [None] where [opendir] fails. *)
Definition readdir (fs : files) (dir : string) : option (list string) :=
  match fs !! dir with
  | Some (Dir _ _) => Some (omap (child dir) (map fst (map_to_list fs)))
  | _ => None
  end.

(** [e->d_name[0] == '.']. *)
Definition hidden (name : string) : bool := has_prefix "." name.

(** The entries that are not skipped. *)
Definition visible (fs : files) (dir : string) : list string :=
  List.filter (λ name, negb (hidden name)) (default [] (readdir fs dir)).

Definition full (dir name : string) : string := snprintf 512 (scat [dir; "/"; name]).

Definition file_size (fs : files) (path : string) : Z := match fs !! path with Some n => node_size n | None => -1 end.
Definition file_mtime (fs : files) (path : string) : Z := match fs !! path with Some n => node_mtime n | None => 0 end.

Definition dir_size (fs : files) (path : string) : Z :=
  foldl (λ total name, match fs !! full path name with Some n => total + node_size n | None => total end) 0 (visible fs path).

Definition dir_count (fs : files) (path : string) : Z := Z.of_nat (length (visible fs path)).

(** [unlink]: a directory stays. *)
Definition unlink (path : string) (fs : files) : files :=
  match fs !! path with Some (File _ _) => delete path fs | _ => fs end.

Definition human_size (bytes : Z) : string :=
  if bytes <? 1024 then fmt_d bytes +:+ "B"
  else if bytes <? 1048576 then fmt_f 1 (d_of_Z bytes / d_of_Z 1024)%D +:+ "KB"
  else fmt_f 1 (d_of_Z bytes / d_of_Z 1048576)%D +:+ "MB".

(** ** Answers *)

Record row := Row { rw_category : string; rw_size : string; rw_time : string; rw_description : string }.

Inductive answer :=
| Usage
| Unknown (cmd : string)
| Inventory (rows : list row) (total : string) (syndicate superhero : bool)
| Exported (path : string) (size : option string)         (* None: the archive failed *)
| PurgeCancelled
| Purged (what : list string) (categories : Z)
| Consents (rows : list (string * bool * string))
| RevokeCancelled
| Revoked (what : list string).

Record sar := Sar { sa_files : files; sa_commands : list string; sa_answers : list answer }.

Definition set_files (fs : files) (s : sar) : sar := Sar fs (sa_commands s) (sa_answers s).
Definition run_command (cmd : string) (s : sar) : sar := Sar (sa_files s) (sa_commands s ++ [cmd]) (sa_answers s).
Definition tell (a : answer) (s : sar) : sar := Sar (sa_files s) (sa_commands s) (sa_answers s ++ [a]).

Definition SYNDICATE_LOCK : string := BASE +:+ "/data/.syndicate_consent.lock".
Definition SUPERHERO_LOCK : string := BASE +:+ "/data/.sensei_consent.lock".
Definition TRAINING_LOCK : string := BASE +:+ "/data/training_complete.lock".

(** [access(path, F_OK) == 0]. *)
Definition exists_at (fs : files) (path : string) : bool := match fs !! path with Some _ => true | None => false end.

(** What the user types, as [fgets] finds it; what [strftime] prints for a time and
    for the name of an archive; and what the shell makes of a command: the files
    after it and whether it returned 0. *)
Record sar_io := SarIO {
  io_stdin : string; io_time : Z → string; io_stamp : string; io_system : string → files → files * bool }.

Section sar.
Context (io : sar_io).

Definition format_time (t : Z) : string := if t =? 0 then "never" else io_time io t.

(** ** Inventory *)

Definition store_row (fs : files) (d : DataStore) : option (row * Z) :=
  match fs !! st_path d with
  | None => None
  | Some (Dir size mtime) =>
      let sz := dir_size fs (st_path d) in
      Some (Row (st_category d) (snprintf 64 (scat [human_size sz; " ("; fmt_d (dir_count fs (st_path d)); " files)"]))
              (format_time mtime) (st_description d), sz)
  | Some (File content mtime) =>
      let sz := file_size fs (st_path d) in
      Some (Row (st_category d) (human_size sz) (format_time (file_mtime fs (st_path d))) (st_description d), sz)
  end.

Definition total_of (l : list (row * Z)) : Z := foldl (λ total x, if 0 <? x.2 then total + x.2 else total) 0 l.

Definition cmd_inventory : M sar unit :=
  fs ← gets sa_files;
  let rows := omap (store_row fs) STORES in
  modify (tell (Inventory (map fst rows) (human_size (total_of rows)) (exists_at fs SYNDICATE_LOCK) (exists_at fs SUPERHERO_LOCK))).

(** ** Export *)

Definition export_command (out_path : string) : string :=
  snprintf 1024 (scat
    ["cd '"; BASE; "' && tar czf '"; out_path; "' ";
     "Registry/daemon_results/*.json "; "Registry/daemon_state.json "; "data/syndicate_config.json ";
     "data/granitord_baseline.json "; "data/shredderd_baseline.json "; "data/last_scan.json "; "logs/*.log "; "2>/dev/null"]).

Definition cmd_export (out_path : option string) : M sar unit :=
  let out_path := match out_path with
    | Some p => p
    | None => snprintf 256 (scat ["/sdcard/MiuiserPeruser_SAR_"; io_stamp io; ".tar.gz"]) end in
  fs ← gets sa_files;
  let '(fs', ok) := io_system io (export_command out_path) fs in
  _ ← modify (run_command (export_command out_path));
  _ ← modify (set_files fs');
  modify (tell (Exported out_path (if ok then Some (human_size (file_size fs' out_path)) else None))).

(** ** Purge *)

Definition purge_dir (path : string) (fs : files) : files :=
  foldl (λ acc name, unlink (full path name) acc) fs (visible fs path).

Definition unlink_all (paths : list string) (fs : files) : files := foldl (λ acc p, unlink p acc) fs paths.

Definition BASELINES : list string := map (String.append BASE)
  ["/data/granitord_baseline.json"; "/data/shredderd_baseline.json"; "/data/tigerclawd_baseline.json";
   "/data/nulld_baseline.json"; "/data/rahzerd_baseline.json"].
Definition CONSENTS : list string := [SYNDICATE_LOCK; SUPERHERO_LOCK; TRAINING_LOCK].

(** A missing category is all of them. *)
Definition is_all (x : option string) : bool := match x with Some c => String.eqb c "all" | None => true end.
Definition wants (category : option string) (name : string) : bool :=
  is_all category || match category with Some c => String.eqb c name | None => false end.

(** The parts of a purge: when they are wanted, what they do, and their message. *)
Definition purge_parts (category : option string) : list (bool * (files → files) * string) :=
  [(wants category "daemon_results", purge_dir (BASE +:+ "/Registry/daemon_results"), "Daemon results");
   (wants category "logs", purge_dir (BASE +:+ "/logs"), "Logs");
   (wants category "baselines", unlink_all BASELINES, "Baselines");
   (wants category "consent", unlink_all CONSENTS, "Consent records");
   (is_all category, unlink (BASE +:+ "/data/last_scan.json"), "Scan metadata")].

Definition purge_files (category : option string) (fs : files) : files :=
  foldl (λ acc (p : bool * (files → files) * string), if p.1.1 then p.1.2 acc else acc) fs (purge_parts category).

(** The line that is typed, in a buffer of 32 bytes. *)
Definition confirmation : option string := (λ x, first_line x.1) <$> fgets 32 (io_stdin io).

Definition cmd_purge (category : option string) : M sar unit :=
  match confirmation with
  | None => mret tt
  | Some confirm =>
      if negb (String.eqb confirm "DELETE") then modify (tell PurgeCancelled)
      else
        let done := List.filter (λ p : bool * (files → files) * string, p.1.1) (purge_parts category) in
        _ ← modify (λ s, set_files (purge_files category (sa_files s)) s);
        modify (tell (Purged (map snd done) (Z.of_nat (length done))))
  end.

(** ** Consent *)

Definition cmd_consent_list : M sar unit :=
  fs ← gets sa_files;
  let line name lock := (name, exists_at fs lock, if exists_at fs lock then format_time (file_mtime fs lock) else "") in
  modify (tell (Consents [line "Syndicate scan" SYNDICATE_LOCK; line "Superhero scan" SUPERHERO_LOCK; line "Training" TRAINING_LOCK])).

Definition revokes (subsystem : option string) (name : string) : bool :=
  is_all subsystem || match subsystem with Some s => contains s name | None => false end.

Definition revoke_files (subsystem : option string) (fs : files) : files :=
  let fs := if revokes subsystem "syndicate" then unlink SYNDICATE_LOCK fs else fs in
  if revokes subsystem "superhero" then unlink SUPERHERO_LOCK fs else fs.

Definition cmd_consent_revoke (subsystem : option string) : M sar unit :=
  match confirmation with
  | None => mret tt
  | Some confirm =>
      if negb (String.eqb confirm "REVOKE") then modify (tell RevokeCancelled)
      else
        _ ← modify (λ s, set_files (revoke_files subsystem (sa_files s)) s);
        modify (tell (Revoked ((if revokes subsystem "syndicate" then ["Syndicate"] else []) ++
                               (if revokes subsystem "superhero" then ["Superhero"] else []))))
  end.

(** ** The command line *)

Record options := Options { op_out : option string; op_category : option string; op_subsystem : option string }.

Definition no_options : options := Options None None None.

(** The arguments behind the command. *)
Fixpoint parse_args (args : list string) (o : options) : options :=
  match args with
  | [] => o
  | a :: args' =>
      if String.eqb a "--revoke" then
        match args' with
        | v :: args'' =>
            if has_prefix "-" v then parse_args args' (Options (op_out o) (op_category o) (Some "all"))
            else parse_args args'' (Options (op_out o) (op_category o) (Some v))
        | [] => Options (op_out o) (op_category o) (Some "all")
        end
      else if String.eqb a "--list" then parse_args args' (Options (op_out o) (Some "list") (op_subsystem o))
      else
        match args' with
        | v :: args'' =>
            if String.eqb a "--out" then parse_args args'' (Options (Some v) (op_category o) (op_subsystem o))
            else if String.eqb a "--category" then parse_args args'' (Options (op_out o) (Some v) (op_subsystem o))
            else parse_args args' o
        | [] => o
        end
  end.

(** [main] behind the name of the program; the result is the exit status. *)
Definition sar_main (args : list string) : M sar Z :=
  match args with
  | [] => _ ← modify (tell Usage); mret 0
  | cmd :: args' =>
      let o := parse_args args' no_options in
      if String.eqb cmd "--inventory" then _ ← cmd_inventory; mret 0
      else if String.eqb cmd "--export" then _ ← cmd_export (op_out o); mret 0
      else if String.eqb cmd "--purge" then _ ← cmd_purge (op_category o); mret 0
      else if String.eqb cmd "--consent" then
        _ ← (match op_category o, op_subsystem o with
             | Some "list", _ => cmd_consent_list
             | _, Some s => cmd_consent_revoke (Some s)
             | _, None => cmd_consent_list
             end);
        mret 0
      else _ ← modify (tell (Unknown cmd)); mret 1
  end.

End sar.

(** ** What the subject access request engine removes

    Exactly the files of the chosen categories go, and only after the word that
    confirms it; a revoked consent stops the front end; and what a purge of
    everything keeps. *)

(** ** Files that go *)

(** A file that is removed is no longer there; nothing else changes. *)
Definition after (gone : bool) (n : option node) : option node :=
  match n with Some (File _ _) => if gone then None else n | _ => n end.

Definition is_dir (fs : files) (dir : string) : bool := match fs !! dir with Some (Dir _ _) => true | _ => false end.

Definition short (fs : files) : Prop := ∀ p, is_Some (fs !! p) → (String.length p < 512)%nat.

(** [f] removes exactly the files that [T] names. *)
Definition erases (f : files → files) (T : files → string → bool) : Prop :=
  ∀ fs, short fs → ∀ p, f fs !! p = after (T fs p) (fs !! p).

(** [T] depends on the directories only. *)
Definition by_dirs (T : files → string → bool) : Prop :=
  ∀ fs fs', (∀ d, is_dir fs' d = is_dir fs d) → ∀ p, T fs' p = T fs p.

Lemma after_after b c n : after c (after b n) = after (b || c) n.
Proof. destruct n as [[]|]; [|done..]. by destruct b, c. Qed.

Lemma after_dir b n : (match after b n with Some (Dir _ _) => true | _ => false end) = (match n with Some (Dir _ _) => true | _ => false end).
Proof. destruct n as [[]|]; [|done..]. by destruct b. Qed.

Lemma erases_short f T fs : erases f T → short fs → short (f fs).
Proof.
  intros Hf Hs p [n Hn]. rewrite Hf in Hn by done. apply Hs. destruct (fs !! p) as [[]|]; [by eexists..|done].
Qed.

Lemma erases_dirs f T fs : erases f T → short fs → ∀ d, is_dir (f fs) d = is_dir fs d.
Proof. intros Hf Hs d. unfold is_dir. rewrite Hf by done. apply after_dir. Qed.

Lemma erases_both f g T U : erases f T → erases g U → by_dirs U → erases (λ fs, g (f fs)) (λ fs p, T fs p || U fs p).
Proof.
  intros Hf Hg Hu fs Hs p. rewrite Hg by by apply (erases_short f T). rewrite Hf by done.
  rewrite (Hu fs (f fs)) by by apply (erases_dirs f T). apply after_after.
Qed.

Lemma erases_if (b : bool) f T : erases f T → erases (λ fs, if b then f fs else fs) (λ fs p, b && T fs p).
Proof. intros Hf fs Hs p. destruct b; [by apply Hf|]. by destruct (fs !! p) as [[]|]. Qed.

Lemma lookup_unlink q fs p : unlink q fs !! p = after (bool_decide (p = q)) (fs !! p).
Proof.
  unfold unlink. case_bool_decide as Hpq.
  - subst. destruct (fs !! q) as [[]|] eqn:Hq; [by rewrite lookup_delete_eq|by rewrite Hq..].
  - assert (after false (fs !! p) = fs !! p) as -> by (by destruct (fs !! p) as [[]|]).
    destruct (fs !! q) as [[]|]; [by rewrite lookup_delete_ne|done..].
Qed.

Lemma lookup_unlinks l : ∀ fs p, foldl (λ acc q, unlink q acc) fs l !! p = after (bool_decide (p ∈ l)) (fs !! p).
Proof.
  induction l as [|q l IH]; intros fs p; cbn [foldl].
  - rewrite bool_decide_false by apply not_elem_of_nil. by destruct (fs !! p) as [[]|].
  - rewrite IH, lookup_unlink, after_after. f_equal. rewrite <-bool_decide_or. apply bool_decide_ext. by rewrite elem_of_cons.
Qed.

Lemma erases_list l : erases (unlink_all l) (λ _ p, bool_decide (p ∈ l)).
Proof. intros fs _ p. apply lookup_unlinks. Qed.

Lemma erases_one q : erases (unlink q) (λ _ p, bool_decide (p = q)).
Proof. intros fs _ p. apply lookup_unlink. Qed.

(** ** The files of a directory *)

Lemma child_path dir p n : child dir p = Some n → p = dir +:+ "/" +:+ n.
Proof.
  unfold child. destruct (has_prefix (dir +:+ "/") p) eqn:Hp; [|done]. destruct (_ || _); [done|]. intros [= <-].
  apply has_prefix_split in Hp as [r ->]. rewrite app_assoc_str. do 2 f_equal.
  replace (String.length dir + 1)%nat with (String.length (dir +:+ "/")) by by rewrite length_app_str. by rewrite <-app_assoc_str, sdrop_app.
Qed.

(** A file of the directory that is not hidden. *)
Definition seen_in (dir : string) (fs : files) (p : string) : bool :=
  is_dir fs dir && match child dir p with Some name => negb (hidden name) | None => false end.

Lemma seen_by_dirs dir : by_dirs (seen_in dir).
Proof. intros fs fs' H p. unfold seen_in. by rewrite H. Qed.

Lemma full_short fs dir p n : short fs → is_Some (fs !! p) → child dir p = Some n → full dir n = p.
Proof.
  intros Hs Hp Hc. apply child_path in Hc as ->. apply Hs in Hp. unfold full. cbn [scat]. rewrite app_nil_r_str.
  by apply snprintf_id.
Qed.

Lemma visible_in fs dir name : name ∈ visible fs dir ↔ is_dir fs dir = true ∧ hidden name = false ∧ ∃ q, is_Some (fs !! q) ∧ child dir q = Some name.
Proof.
  unfold visible. rewrite list_elem_of_In, filter_In, <-list_elem_of_In, negb_true_iff. unfold readdir, is_dir.
  destruct (fs !! dir) as [[]|]; cbn [default from_option id].
  - split; [by intros [?%elem_of_nil _]|by intros []].
  - rewrite list_elem_of_omap. split.
    + intros [(q & Hq & Hc) Hh]. split_and!; [done|done|]. exists q. split; [|done].
      apply list_elem_of_fmap in Hq as ([q' n] & -> & Hq). apply elem_of_map_to_list in Hq. by exists n.
    + intros (_ & Hh & q & [n Hq] & Hc). split; [|done]. exists q. split; [|done].
      apply list_elem_of_fmap. exists (q, n). split; [done|]. by apply elem_of_map_to_list.
  - split; [by intros [?%elem_of_nil _]|by intros []].
Qed.

Lemma erases_dir dir : erases (purge_dir dir) (seen_in dir).
Proof.
  intros fs Hs p. unfold purge_dir.
  assert (∀ l acc, foldl (λ acc name, unlink (full dir name) acc) acc l = foldl (λ acc q, unlink q acc) acc (map (full dir) l)) as ->.
  { intros l. induction l as [|x l IH]; intros acc; [done|]. apply IH. }
  rewrite lookup_unlinks. destruct (fs !! p) as [n|] eqn:Hp; [|done]. f_equal.
  apply eq_bool_prop_intro. rewrite bool_decide_spec. unfold seen_in. split.
  - intros (name & -> & Hn)%list_elem_of_fmap. apply visible_in in Hn as (-> & Hh & q & Hq & Hc).
    rewrite (full_short fs dir q name) in * by done. rewrite Hc, Hh. done.
  - intros [Hd Hc]%andb_True. destruct (child dir p) as [name|] eqn:Hch; [|done]. apply list_elem_of_fmap. exists name.
    split; [symmetry; apply (full_short fs); [done|by eexists|done]|]. apply visible_in. split_and!; [by apply Is_true_true|by apply negb_true_iff, Is_true_true|].
    exists p. split; [by eexists|done].
Qed.

(** ** A purge *)

Definition RESULTS : string := BASE +:+ "/Registry/daemon_results".
Definition LOGS : string := BASE +:+ "/logs".
Definition LAST_SCAN : string := BASE +:+ "/data/last_scan.json".

(** The files that a purge of a category removes. *)
Definition purge_target (category : option string) (fs : files) (p : string) : bool :=
  (wants category "daemon_results" && seen_in RESULTS fs p) || (wants category "logs" && seen_in LOGS fs p) ||
  (wants category "baselines" && bool_decide (p ∈ BASELINES)) || (wants category "consent" && bool_decide (p ∈ CONSENTS)) ||
  (is_all category && bool_decide (p = LAST_SCAN)).

Lemma by_dirs_const T : by_dirs (λ _, T).
Proof. by intros fs fs' _ p. Qed.

Lemma by_dirs_if b T : by_dirs T → by_dirs (λ fs p, b && T fs p).
Proof. intros HT fs fs' H p. by rewrite (HT fs fs' H). Qed.

Lemma purge_erases category : erases (purge_files category) (purge_target category).
Proof.
  unfold purge_target. change (erases (λ fs, purge_files category fs) (purge_target category)). unfold purge_files, purge_target. cbn [foldl purge_parts fst snd].
  apply (erases_both _ (λ fs, if is_all category then unlink LAST_SCAN fs else fs)); [| |apply by_dirs_const].
  2: apply erases_if, erases_one.
  apply (erases_both _ (λ fs, if wants category "consent" then unlink_all CONSENTS fs else fs)); [| |apply by_dirs_const].
  2: apply erases_if, erases_list.
  apply (erases_both _ (λ fs, if wants category "baselines" then unlink_all BASELINES fs else fs)); [| |apply by_dirs_const].
  2: apply erases_if, erases_list.
  apply (erases_both _ (λ fs, if wants category "logs" then purge_dir LOGS fs else fs)); [| |apply by_dirs_if, seen_by_dirs].
  - apply erases_if, erases_dir.
  - apply erases_if, erases_dir.
Qed.

Section rights.
Context (io : sar_io).

Lemma purge_run args s :
  exec (sar_main io ("--purge" :: args)) s =
  match confirmation io with
  | Some c =>
      if String.eqb c "DELETE" then
        let category := op_category (parse_args args no_options) in
        let done := List.filter (λ p : bool * (files → files) * string, p.1.1) (purge_parts category) in
        Sar (purge_files category (sa_files s)) (sa_commands s) (sa_answers s ++ [Purged (map snd done) (Z.of_nat (length done))])
      else tell PurgeCancelled s
  | None => s
  end.
Proof.
  unfold sar_main. cbv zeta. change (String.eqb "--purge" "--inventory") with false. change (String.eqb "--purge" "--export") with false.
  change (String.eqb "--purge" "--purge") with true. cbv iota. unfold cmd_purge. autorewrite with monad.
  destruct (confirmation io) as [c|]; [|done]. by destruct (String.eqb c "DELETE"); cbn [negb]; autorewrite with monad.
Qed.

(** C5. A purge removes exactly the files of the chosen categories, after the word
    DELETE: the files of the result and log directories that are not hidden, the
    five baselines, the three consents, and for everything the metadata of the last
    scan; every other file, and every directory, stays as it is, and without that
    word nothing is touched. *)
Theorem purge_exact args s p :
  short (sa_files s) →
  let category := op_category (parse_args args no_options) in
  sa_files (exec (sar_main io ("--purge" :: args)) s) !! p =
    after (bool_decide (confirmation io = Some "DELETE") && purge_target category (sa_files s) p) (sa_files s !! p).
Proof.
  intros Hs category. rewrite purge_run. case_bool_decide as Hc.
  - rewrite Hc. cbn [sa_files]. by apply purge_erases.
  - assert (after false (sa_files s !! p) = sa_files s !! p) as E by (by destruct (sa_files s !! p) as [[]|]).
    cbn [andb]. rewrite E. destruct (confirmation io) as [c|]; [|done]. destruct (String.eqb_spec c "DELETE"); [|done]. by subst.
Qed.

(** ** Consent *)

Lemma revoke_erases subsystem : erases (revoke_files subsystem)
  (λ _ p, (revokes subsystem "syndicate" && bool_decide (p = SYNDICATE_LOCK)) || (revokes subsystem "superhero" && bool_decide (p = SUPERHERO_LOCK))).
Proof.
  apply (erases_both (λ fs, if revokes subsystem "syndicate" then unlink SYNDICATE_LOCK fs else fs)
           (λ fs, if revokes subsystem "superhero" then unlink SUPERHERO_LOCK fs else fs)); [| |apply by_dirs_const].
  all: apply erases_if, erases_one.
Qed.

Lemma revoke_run sub s : has_prefix "-" sub = false → confirmation io = Some "REVOKE" →
  sa_files (exec (sar_main io ["--consent"; "--revoke"; sub]) s) = revoke_files (Some sub) (sa_files s).
Proof.
  intros Hs Hc. unfold sar_main. cbn [parse_args].
  change (String.eqb "--consent" "--inventory") with false. change (String.eqb "--consent" "--export") with false.
  change (String.eqb "--consent" "--purge") with false. change (String.eqb "--consent" "--consent") with true. change (String.eqb "--revoke" "--revoke") with true.
  cbv iota. rewrite Hs. cbn [op_category op_subsystem no_options]. unfold cmd_consent_revoke. rewrite Hc.
  change (String.eqb "REVOKE" "REVOKE") with true. cbn [negb]. by autorewrite with monad.
Qed.

(** The recorded consent that the front end finds. *)
Definition consent_of (fs : files) : option string :=
  match fs !! SUPERHERO_LOCK with Some (File content _) => Some content | Some (Dir _ _) => Some "" | None => None end.

(** C4. A revoked consent stops the front end: after the consent of superhero, or
    all consents, were revoked with the word REVOKE, a run of the front end that is
    neither an export nor a purge (these ask for none) consumes standard input,
    leaves with [--bg] the two files of its background process, and does nothing
    else, until the user types the consent again. *)
Theorem revoked_stops_scans reply read_file count_fds front args sub s h :
  short (sa_files s) → is_dir (sa_files s) SUPERHERO_LOCK = false →
  has_prefix "-" sub = false → revokes (Some sub) "superhero" = true → confirmation io = Some "REVOKE" →
  Dojo.h_lock h = consent_of (sa_files (exec (sar_main io ["--consent"; "--revoke"; sub]) s)) →
  Hero.first_input h ≠ Some "I CONSENT" →
  existsb (String.eqb "--export-sar") args = false → existsb (String.eqb "--purge") args = false →
  ∃ rest, exec (Dojo.hero_main reply read_file count_fds front args) h = Dojo.set_stdin rest (Hero.left_behind front args h).
Proof.
  intros Hs Hd Hsub Hr Hc Hl. apply Hero.gate_closed. rewrite Hl, revoke_run by done. unfold consent_of.
  rewrite revoke_erases by done. rewrite Hr, (bool_decide_true (SUPERHERO_LOCK = SUPERHERO_LOCK)), orb_true_r by done.
  unfold is_dir in Hd. by destruct (sa_files s !! SUPERHERO_LOCK) as [[]|].
Qed.

End rights.

(** ** What a purge of everything keeps *)

(** The stores of the inventory that no purge removes. *)
Definition KEPT : list string := map (String.append BASE)
  ["/Registry/daemon_state.json"; "/Registry/daemon_allowlist.json"; "/Registry/system_registry.json"; "/data/syndicate_config.json";
   "/data/profiles/peruse_profile.json"; "/data/exodus_trackers.csv"; "/data/ssl_ja3.csv"; "/data/april.bin"; "/data/superhero.db"].

(** No purge, not even of everything, removes nine of the twenty stores of the
    inventory, among them both databases with the findings. *)
Theorem purge_all_keeps io args s p :
  short (sa_files s) → p ∈ KEPT → sa_files (exec (sar_main io ("--purge" :: args)) s) !! p = sa_files s !! p.
Proof.
  intros Hs Hp. rewrite purge_run. destruct (confirmation io) as [c|]; [|done]. destruct (String.eqb c "DELETE"); [|done].
  cbn [sa_files]. cbv zeta. rewrite purge_erases by done.
  assert (∀ category fs, purge_target category fs p = false) as ->; [|by destruct (sa_files s !! p) as [[]|]].
  intros category fs. unfold KEPT in Hp. cbn [map] in Hp. rewrite !elem_of_cons, elem_of_nil in Hp.
  unfold purge_target, seen_in.
  repeat destruct Hp as [->|Hp]; try done; by rewrite ?andb_false_r.
Qed.

(** ** Examples *)

Lemma short_list fs : forallb (λ x, (String.length x.1 <? 512)%nat) (map_to_list fs) = true → short fs.
Proof.
  rewrite forallb_forall. intros H p [n Hn%elem_of_map_to_list%list_elem_of_In]. by apply H, Nat.ltb_lt in Hn.
Qed.

Definition sample_files : files :=
  list_to_map [(RESULTS, Dir 4096 1); (RESULTS +:+ "/nulld.json", File "{}" 2); (RESULTS +:+ "/.keep", File "" 2); (LOGS, Dir 4096 1);
    (LOGS +:+ "/gaveld.log", File "started" 3); (SUPERHERO_LOCK, File ("deep" +:+ NLs) 4); (BASE +:+ "/data/superhero.db", File "SQLite" 5)].

Lemma sample_short : short sample_files.
Proof. apply short_list. vm_compute. reflexivity. Qed.

Definition typing (line : string) : sar_io := SarIO (line +:+ NLs) (λ _, "2026-01-01 00:00") "20260101_000000" (λ _ fs, (fs, true)).

Lemma purge_exact_witness :
  sa_files (exec (sar_main (typing "DELETE") ["--purge"; "--category"; "logs"]) (Sar sample_files [] [])) !! (LOGS +:+ "/gaveld.log") = None.
Proof. rewrite (purge_exact (typing "DELETE") ["--category"; "logs"] (Sar sample_files [] [])); [vm_compute; reflexivity|exact sample_short]. Defined.

Lemma purge_all_keeps_witness :
  sa_files (exec (sar_main (typing "DELETE") ["--purge"]) (Sar sample_files [] [])) !! (BASE +:+ "/data/superhero.db") = Some (File "SQLite" 5).
Proof.
  rewrite (purge_all_keeps (typing "DELETE") [] (Sar sample_files [] [])); [vm_compute; reflexivity|exact sample_short|].
  unfold KEPT. cbn [map]. rewrite !elem_of_cons. tauto.
Defined.

Lemma revoked_stops_scans_witness :
  ∃ rest, exec (Dojo.hero_main HeroData.sample_reply HeroData.sample_file HeroData.sample_fds HeroData.sample_io ["--deep"])
    (HeroData.hero_start ("no" +:+ NLs) None) =
    Dojo.set_stdin rest (HeroData.hero_start ("no" +:+ NLs) None).
Proof.
  refine (revoked_stops_scans (typing "REVOKE") HeroData.sample_reply HeroData.sample_file HeroData.sample_fds HeroData.sample_io ["--deep"]
    "superhero" (Sar sample_files [] []) (HeroData.hero_start ("no" +:+ NLs) None) _ _ _ _ _ _ _ _ _).
  - exact sample_short.
  - vm_compute; reflexivity.
  - vm_compute; reflexivity.
  - vm_compute; reflexivity.
  - vm_compute; reflexivity.
  - vm_compute; reflexivity.
  - vm_compute. congruence.
  - vm_compute; reflexivity.
  - vm_compute; reflexivity.
Defined.

(** A category whose value is missing is every category. *)
Lemma missing_category : is_all (op_category (parse_args ["--category"] no_options)) = true.
Proof. reflexivity. Qed.
