(* ===== verification/Platform.v ===== *)
(** * The platform layer of April
    ([src/core/platform/april_linux.c], the process and memory lists of
     [src/core/platform/april_common.c], [src/core/include/sensei_types.h])

    Processes and memory regions: the lists, the parsers of what [ps] prints and of
    /proc/PID/maps.  A chain of heap nodes is the list of its records; [calloc]
    succeeds or fails as [alloc] says for each call in turn.  What the shell prints
    and the files of /proc are parameters.  The second part proves that both tables
    are read back exactly. *)

From S2P Require Import Prelude CString Double Wire April Krang Digits Numbers Conv.
From S2P Require Attribution Sightings.
From Stdlib Require Import Ascii.

Definition SENSEI_MAX_PATH : nat := 512.
Definition SENSEI_MAX_PROCESS_NAME : nat := 128.

Record SENSEI_PROCESS_INFO := ProcessInfo {
  pi_pid : Z; pi_ppid : Z; pi_name : string; pi_path : string; pi_cmdline : string; pi_uid : Z }.

Record process_list := ProcessList { pl_nodes : list SENSEI_PROCESS_INFO; pl_count : Z }.

Record SENSEI_MEMORY_REGION := Region {
  mr_base : Z; mr_size : Z; mr_mapped_file : string; mr_executable : bool; mr_writable : bool }.

Definition april_process_list_append (alloc : bool) (info : SENSEI_PROCESS_INFO) : M process_list SENSEI_STATUS := λ l,
  if alloc then (STATUS_OK, ProcessList (pl_nodes l ++ [info]) ((pl_count l + 1) mod 2 ^ 32)) else (STATUS_NO_MEMORY, l).

Definition april_process_list_free : M process_list unit := λ _, (tt, ProcessList [] 0).

Definition april_memory_region_list_free (regions : list SENSEI_MEMORY_REGION) : list SENSEI_MEMORY_REGION := [].

(** [SENSEI_PROCESS_INFO info = {0}] with a pid and a name. *)
Definition process (pid : Z) (name : string) : SENSEI_PROCESS_INFO := ProcessInfo pid 0 name "" "" 0.

(** ** Initialisation *)

Definition april_platform_init : M bool SENSEI_STATUS := λ _, (STATUS_OK, true).
Definition april_platform_cleanup : M bool unit := λ _, (tt, false).
Definition april_elevate_privileges (euid : Z) : SENSEI_STATUS := if euid =? 0 then STATUS_OK else STATUS_ACCESS_DENIED.

(** ** Processes *)

Definition is_blank (c : ascii) : bool := Ascii.eqb c " ".

(** A line of [ps]: [None] ends the loop, [Some None] is skipped. *)
Definition process_line (line : string) : option (option SENSEI_PROCESS_INFO) :=
  let '(pid_str, rest) := break_at is_space (skip_while is_blank line) in
  match rest with
  | EmptyString => None
  | String _ rest =>
      let pid := to_u32 (atoi pid_str) in
      Some (if pid =? 0 then None else Some (process pid (strncpy SENSEI_MAX_PROCESS_NAME (skip_while is_blank rest))))
  end.

(** The lines behind the heading; [n] nodes have been asked for.  The status of an
    append is not looked at. *)
Fixpoint process_lines (alloc : nat → bool) (n : nat) (lines : list string) : M process_list unit :=
  match lines with
  | [] => mret tt
  | line :: lines' =>
      match process_line line with
      | None => mret tt
      | Some None => process_lines alloc n lines'
      | Some (Some info) =>
          _ ← april_process_list_append (alloc n) info;
          process_lines alloc (S n) lines'
      end
  end.

Section shell.
Context (shell : string → option string) (alloc : nat → bool).

Definition april_enum_processes : M process_list SENSEI_STATUS :=
  _ ← april_process_list_free;
  match shell "ps -A -o pid,comm" with
  | None => mret STATUS_ERROR
  | Some output =>
      _ ← process_lines alloc 0 (drop 1 (token_lines output));
      mret STATUS_OK
  end.

Definition april_get_process_info (pid : Z) : SENSEI_STATUS * SENSEI_PROCESS_INFO :=
  (STATUS_OK,
   process pid (match shell (snprintf 64 (scat ["ps -p "; fmt_d pid; " -o comm="])) with
                | Some output => strncpy SENSEI_MAX_PROCESS_NAME (first_line output)
                | None => ""
                end)).

End shell.

(** ** Memory regions *)

(** [%llx] and [%lu]. *)
Definition scan_u64 (base : Z) (s : string) : option (Z * string) :=
  '(v, r) ← scan_int base s; Some (if Z.abs v <? 2 ^ 64 then to_u64 v else 2 ^ 64 - 1, r).

(** A character of a buffer. *)
Definition char_at (n : nat) (c : ascii) (s : string) : bool :=
  match sdrop n s with String d _ => Ascii.eqb d c | EmptyString => false end.

(** A line of the table, if its first six fields are there; [mapped_path] is the
    rest of the line, at most 511 characters. *)
Definition maps_line (line : string) : option SENSEI_MEMORY_REGION :=
  '(start, r) ← scan_u64 16 line;
  r ← scan_char "-" r;
  '(stop, r) ← scan_u64 16 r;
  '(perms, r) ← scan_s 4 r;
  '(_, r) ← scan_u64 16 r;
  '(_, r) ← scan_s 15 r;
  '(_, r) ← scan_u64 10 r;
  let mapped_path := stake 511 (break_at (Ascii.eqb NL) (skip_while is_space r)).1 in
  Some (Region start (to_u64 (stop - start)) (strncpy SENSEI_MAX_PATH (skip_while is_blank mapped_path))
          (char_at 2 "x" perms) (char_at 1 "w" perms)).

(** The loop over the lines: a node is asked for before a line is read. *)
Fixpoint regions (alloc : nat → bool) (n : nat) (lines : list string) : option (list SENSEI_MEMORY_REGION) :=
  match lines with
  | [] => Some []
  | line :: lines' =>
      if alloc n then
        match regions alloc (S n) lines' with
        | Some rs => Some (match maps_line line with Some r => r :: rs | None => rs end)
        | None => None
        end
      else None
  end.

(** The status and [*regions]. *)
Definition april_enum_memory_regions (alloc : nat → bool) (maps : option string) : SENSEI_STATUS * list SENSEI_MEMORY_REGION :=
  match maps with
  | None => (STATUS_ACCESS_DENIED, [])
  | Some text =>
      match regions alloc 0 (read_lines 1024 text) with
      | Some rs => (STATUS_OK, rs)
      | None => (STATUS_NO_MEMORY, [])
      end
  end.

(** [pread] on /proc/PID/mem: [None] where the file cannot be opened, a negative
    number where it cannot be read; the status and [*bytes_read]. *)
Definition april_read_process_memory (pread : option Z) : SENSEI_STATUS * Z :=
  match pread with
  | None => (STATUS_ACCESS_DENIED, 0)
  | Some n => if n <? 0 then (STATUS_ERROR, 0) else (STATUS_OK, n)
  end.

Definition april_check_syscall_table : SENSEI_STATUS := STATUS_UNSUPPORTED.
Definition april_check_idt : SENSEI_STATUS := STATUS_UNSUPPORTED.

(** [(uint32_t)n] processors, at least one. *)
Definition april_get_cpu_count (n : Z) : Z := if 0 <? n then to_u32 n else 1.
Definition april_get_total_memory (info : option (Z * Z)) : Z :=
  match info with Some (totalram, mem_unit) => to_u64 (totalram * mem_unit) | None => 0 end.
Definition april_get_timestamp_ns (sec nsec : Z) : Z := to_u64 (to_u64 sec * 1000000000 + to_u64 nsec).

(** ** What the platform layer reads

    The table of [ps] and the table of memory regions are read back exactly, and
    no region is handed out when memory runs out. *)

(** ** Lines *)

Lemma lines_go_line l t n :
  none_of (char_in NLs) l = true → l ≠ "" → lines_go (S n) (l +:+ NLs +:+ t) = l :: lines_go n t.
Proof.
  intros Hl Hne. cbn [lines_go]. destruct l as [|c l]; [done|].
  assert (strtok NLs (String c l +:+ NLs +:+ t) = Some (String c l, t)) as ->; [|done].
  change (NLs +:+ t) with (String NL t). by apply strtok_token.
Qed.

(** The text of nonempty lines. *)
Definition text_of (lines : list string) : string := scat (map (λ l, l +:+ NLs) lines).

Lemma token_lines_text lines :
  Forall (λ l, none_of (char_in NLs) l = true ∧ l ≠ "") lines → token_lines (text_of lines) = lines.
Proof.
  intros Hall. unfold token_lines.
  assert (∀ n, (String.length (text_of lines) ≤ n)%nat → lines_go n (text_of lines) = lines) as H; [|by apply H].
  induction Hall as [|l lines [Hl Hne] Hall IH]; intros n Hn.
  - by destruct n.
  - unfold text_of in *. cbn [map scat] in *. rewrite app_assoc_str in *. rewrite !length_app_str in Hn.
    change (String.length NLs) with 1%nat in Hn. destruct n as [|n]; [lia|]. rewrite lines_go_line by done.
    f_equal. apply IH. lia.
Qed.

(** ** Processes *)

(** A line of [ps -o pid,comm] with the pid in a column. *)
Definition ps_line (x : nat * Z * string) : string := blanks x.1.1 +:+ fmt_d x.1.2 +:+ " " +:+ x.2.

Definition ps_ok (x : nat * Z * string) : Prop :=
  0 < x.1.2 < 2 ^ 31 ∧ none_of (char_in NLs) x.2 = true ∧ skip_while is_blank x.2 = x.2.

Lemma blanks_none f n : f " "%char = false → none_of f (blanks n) = true.
Proof. intros Hf. induction n as [|n IH]; [done|]. cbn [blanks]. by rewrite none_of_cons, Hf. Qed.

Lemma skip_blanks_of n s : skip_while is_blank (blanks n +:+ s) = skip_while is_blank s.
Proof. induction n as [|n IH]; [done|]. cbn [blanks]. by rewrite app_cons_str. Qed.

Lemma atoi_fmt_d z : 0 <= z < 2 ^ 31 → atoi (fmt_d z) = z.
Proof.
  intros Hz. unfold atoi, atol, strtol. pose proof (scan_decimal 0 z "" (proj1 Hz) I) as Hs.
  cbn [blanks] in Hs. rewrite app_nil_l_str, app_nil_r_str in Hs. rewrite Hs. unfold to_i32, LONG_MIN, LONG_MAX.
  rewrite Z.max_r, Z.min_r by lia. rewrite Z.mod_small; lia.
Qed.

Lemma process_of x : ps_ok x → process_line (ps_line x) = Some (Some (process x.1.2 (strncpy SENSEI_MAX_PROCESS_NAME x.2))).
Proof.
  intros (Hp & _ & Hb). unfold process_line, ps_line. rewrite skip_blanks_of.
  destruct (fmt_d_first x.1.2) as (d & s & Hd & Hs); [lia|].
  assert (skip_while is_blank (fmt_d x.1.2 +:+ " " +:+ x.2) = fmt_d x.1.2 +:+ String " " x.2) as ->.
  { rewrite Hs, app_cons_str. apply skip_while_none. pose proof (hexd_space d ltac:(lia)) as H. revert H.
    unfold is_space, is_blank. destruct (Ascii.eqb_spec (hexd d) " ") as [->|]; [done|done]. }
  rewrite break_at_stop by (apply Sightings.fmt_d_nonspace || done). cbv zeta. rewrite atoi_fmt_d by lia.
  unfold to_u32. rewrite Z.mod_small by lia. rewrite (proj2 (Z.eqb_neq _ 0)) by lia. by rewrite Hb.
Qed.

(** April lists exactly the processes that [ps] prints, in order, each with the
    first 127 characters of its name, however the column of numbers is padded. *)
Theorem ps_read shell header procs l :
  shell "ps -A -o pid,comm" = Some (text_of (header :: map ps_line procs)) →
  none_of (char_in NLs) header = true → header ≠ "" → Forall ps_ok procs →
  april_enum_processes shell (λ _, true) l =
  (STATUS_OK, ProcessList (map (λ x, process x.1.2 (strncpy SENSEI_MAX_PROCESS_NAME x.2)) procs) (Z.of_nat (length procs) mod 2 ^ 32)).
Proof.
  intros Hsh Hh Hne Hall. unfold april_enum_processes. rewrite Hsh, token_lines_text.
  2: { constructor; [done|]. apply Forall_fmap. eapply Forall_impl; [exact Hall|]. intros x (Hp & Hc & _). split.
    - unfold ps_line. rewrite !none_of_app, Hc, blanks_none by done. change (none_of (char_in NLs) " ") with true. cbn [andb]. rewrite andb_true_r.
      apply (none_of_weaken is_space); [|apply Sightings.fmt_d_nonspace].
      intros c. destruct c as [[] [] [] [] [] [] [] []]; vm_compute; congruence.
    - unfold ps_line. intros Heq. apply (f_equal String.length) in Heq. rewrite !length_app_str in Heq. cbn in Heq. lia. }
  cbn [drop]. unmonad. cbn [april_process_list_free].
  assert (∀ n done c, process_lines (λ _, true) n (map ps_line procs) (ProcessList done (c mod 2 ^ 32)) =
    (tt, ProcessList (done ++ map (λ x, process x.1.2 (strncpy SENSEI_MAX_PROCESS_NAME x.2)) procs) ((c + Z.of_nat (length procs)) mod 2 ^ 32))) as H.
  { clear Hsh. induction Hall as [|x procs Hx Hall IH]; intros n dn c; [by rewrite app_nil_r, Z.add_0_r|].
    cbn [map process_lines]. rewrite process_of by done. unmonad. unfold april_process_list_append. cbn [pl_nodes pl_count].
    rewrite Z.add_mod_idemp_l by done. unmonad. rewrite IH, <-app_assoc. cbn [length app]. do 3 f_equal. lia. }
  change (ProcessList [] 0) with (ProcessList [] (0 mod 2 ^ 32)). by rewrite H.
Qed.

Lemma ps_read_witness :
  (april_enum_processes (λ _, Some (text_of ["  PID CMD"; "    1 init"; " 4711 sh"])) (λ _, true) (ProcessList [] 0)).2 =
  ProcessList [process 1 "init"; process 4711 "sh"] 2.
Proof.
  rewrite (ps_read _ "  PID CMD" [(4%nat, 1, "init"); (1%nat, 4711, "sh")]); [reflexivity|reflexivity|reflexivity|discriminate|].
  repeat constructor.
Defined.

(** ** Memory regions *)

(** A line of /proc/PID/maps: the two addresses and the offset with their numbers
    of digits, and the path behind its blanks, if there is one. *)
Record maps_entry := MapsEntry {
  me_start : nat * Z; me_stop : nat * Z; me_perms : string; me_offset : nat * Z; me_dev : string; me_inode : Z;
  me_path : option (nat * string) }.

(** The kernel prints hexadecimal in lower case. *)
Fixpoint lowercase (s : string) : string :=
  match s with EmptyString => EmptyString | String c s' => String (lower c) (lowercase s') end.

Definition address (x : nat * Z) : string := lowercase (hexN (S (S x.1)) x.2).
Definition path_text (x : option (nat * string)) : string := match x with Some (n, path) => blanks (S n) +:+ path | None => "" end.

Definition entry_text (m : maps_entry) : string :=
  scat [address (me_start m); "-"; address (me_stop m); " "; me_perms m; " "; address (me_offset m); " "; me_dev m; " ";
        fmt_d (me_inode m); path_text (me_path m)].

Definition address_ok (x : nat * Z) : Prop := 0 <= x.2 < 16 ^ Z.of_nat (S (S x.1)) ∧ x.2 < 2 ^ 64.

Definition word_ok (n : nat) (s : string) : Prop := s ≠ "" ∧ (String.length s ≤ n)%nat ∧ none_of is_space s = true.

Definition path_ok (x : option (nat * string)) : Prop :=
  match x with Some (_, path) => none_of (Ascii.eqb NL) path = true ∧ skip_while is_space path = path | None => True end.

Definition entry_ok (m : maps_entry) : Prop :=
  address_ok (me_start m) ∧ address_ok (me_stop m) ∧ address_ok (me_offset m) ∧ word_ok 4 (me_perms m) ∧ word_ok 15 (me_dev m) ∧
  0 <= me_inode m < 2 ^ 64 ∧ path_ok (me_path m).

Definition path_of (x : option (nat * string)) : string := match x with Some (_, path) => stake 511 path | None => "" end.

Definition region_of (m : maps_entry) : SENSEI_MEMORY_REGION :=
  Region (me_start m).2 (to_u64 ((me_stop m).2 - (me_start m).2)) (path_of (me_path m)) (char_at 2 "x" (me_perms m)) (char_at 1 "w" (me_perms m)).

Lemma lowercase_app s t : lowercase (s +:+ t) = lowercase s +:+ lowercase t.
Proof. induction s as [|c s IH]; [done|]. rewrite !app_cons_str. cbn [lowercase]. by rewrite IH, app_cons_str. Qed.

(** A lower-case digit reads as the upper-case one does. *)
Lemma lower_digit d : 0 <= d < 16 →
  digit_val 16 (lower (hexd d)) = Some d ∧ is_space (lower (hexd d)) = false ∧
  (∀ s, read_sign (String (lower (hexd d)) s) = (false, String (lower (hexd d)) s)) ∧ Ascii.eqb "x" (lower (lower (hexd d))) = false.
Proof.
  intros Hd. apply (hexd_case (λ d, digit_val 16 (lower (hexd d)) = Some d ∧ is_space (lower (hexd d)) = false ∧
    (∀ s, read_sign (String (lower (hexd d)) s) = (false, String (lower (hexd d)) s)) ∧ Ascii.eqb "x" (lower (lower (hexd d))) = false));
    [exact Hd|by split_and!..].
Qed.

Lemma read_lowercase k : ∀ v acc n r,
  0 <= v < 16 ^ Z.of_nat k →
  read_digits 16 acc n (lowercase (hexN k v) +:+ r) = read_digits 16 acc n (hexN k v +:+ r).
Proof.
  induction k as [|k IH]; intros v acc n r Hv; [done|].
  rewrite Nat2Z.inj_succ, Z.pow_succ_r in Hv by lia.
  assert (0 <= v / 16 < 16 ^ Z.of_nat k) as Hd by (split; [apply Z.div_pos; lia|apply Z.div_lt_upper_bound; lia]).
  assert (0 <= v mod 16 < 16) as Hm by (apply Z.mod_pos_bound; lia).
  cbn [hexN]. rewrite lowercase_app, !app_assoc_str, IH, !read_hexN by done. cbn [lowercase].
  rewrite !app_cons_str. cbn [read_digits]. rewrite (proj1 (lower_digit _ Hm)). unfold digit_val. rewrite hexd_value by done.
  by rewrite (proj2 (Z.ltb_lt _ _)) by lia.
Qed.

Lemma skip_blanks_to pad c s : is_space c = false → skip_while is_space (blanks pad +:+ String c s) = String c s.
Proof. intros Hc. induction pad as [|n IH]; [by apply skip_while_none|]. cbn [blanks]. by rewrite app_cons_str. Qed.

Lemma scan_lowercase pad k v r :
  0 <= v < 16 ^ Z.of_nat (S (S k)) → stops 16 r →
  scan_int 16 (blanks pad +:+ lowercase (hexN (S (S k)) v) +:+ r) = Some (v, r).
Proof.
  intros Hv Hr. unfold scan_int. pose proof (read_lowercase (S (S k)) v 0 0 r Hv) as Hl. rewrite (read_hexN (S (S k)) v 0 0 r Hv) in Hl.
  destruct (hexN_first k v) as (a & b & s & Ha & Hb & Hs). rewrite Hs in Hl |- *. cbn [lowercase] in Hl |- *.
  rewrite !app_cons_str in Hl |- *. destruct (lower_digit a Ha) as (_ & Hsp & Hsg & _). destruct (lower_digit b Hb) as (_ & _ & _ & Hx).
  rewrite skip_blanks_to, Hsg by done. cbv zeta. cbn [has_prefix_ci]. change (lower "x") with "x"%char. rewrite Hx.
  rewrite ?andb_false_l, ?andb_false_r, Hl, read_stops by done. cbn [Nat.add Nat.eqb]. do 2 f_equal.
Qed.

Lemma scan_address pad x r : address_ok x → stops 16 r → scan_u64 16 (blanks pad +:+ address x +:+ r) = Some (x.2, r).
Proof.
  intros [Hx Hm] Hr. unfold scan_u64, address. rewrite scan_lowercase by done. cbn [mbind option_bind].
  rewrite Z.abs_eq, (proj2 (Z.ltb_lt _ _)) by lia. unfold to_u64. by rewrite Z.mod_small by lia.
Qed.

Lemma skip_spaces_of n s : skip_while is_space (blanks n +:+ s) = skip_while is_space s.
Proof. induction n as [|n IH]; [done|]. cbn [blanks]. by rewrite app_cons_str. Qed.

(** Behind the inode. *)
Lemma path_read x : path_ok x → stops 10 (path_text x +:+ NLs) ∧
  strncpy SENSEI_MAX_PATH (skip_while is_blank (stake 511 (break_at (Ascii.eqb NL) (skip_while is_space (path_text x +:+ NLs))).1)) = path_of x.
Proof.
  destruct x as [[n path]|]; [|done]. cbn [path_ok path_text path_of]. intros [Hn Hs]. split; [done|].
  rewrite app_assoc_str, skip_spaces_of. destruct path as [|c path]; [done|].
  assert (is_space c = false) as Hc.
  { cbn [skip_while] in Hs. destruct (is_space c); [|done]. exfalso.
    destruct (skip_while_suffix is_space path) as [p Hp]. rewrite Hs in Hp. apply (f_equal String.length) in Hp.
    rewrite length_app_str in Hp. cbn in Hp. lia. }
  rewrite app_cons_str, skip_while_none, <-app_cons_str by done. change NLs with (String NL ""). rewrite break_at_stop by done.
  cbn [fst]. assert (skip_while is_blank (stake 511 (String c path)) = stake 511 (String c path)) as ->.
  { change (stake 511 (String c path)) with (String c (stake 510 path)). apply skip_while_none. revert Hc. unfold is_space, is_blank.
    destruct (Ascii.eqb_spec c " ") as [->|]; done. }
  unfold strncpy, SENSEI_MAX_PATH. change (512 - 1)%nat with 511%nat. by rewrite stake_stake.
Qed.

Lemma maps_line_read m : entry_ok m → maps_line (entry_text m +:+ NLs) = Some (region_of m).
Proof.
  intros (Ha & Hb & Ho & (Hp1 & Hp2 & Hp3) & (Hd1 & Hd2 & Hd3) & Hi & Hpath). destruct (path_read _ Hpath) as [Hstop Hpt].
  unfold maps_line, entry_text. cbn [scat]. rewrite app_nil_r_str, !app_assoc_str.
  pose proof (scan_address 0 (me_start m)) as H1. cbn [blanks] in H1. setoid_rewrite app_nil_l_str in H1. rewrite H1 by done.
  cbn [mbind option_bind]. rewrite app_cons_str, app_nil_l_str. cbn [scan_char mbind option_bind].
  change (Ascii.eqb "-" "-") with true. cbv iota. cbn [mbind option_bind].
  pose proof (scan_address 0 (me_stop m)) as H2. cbn [blanks] in H2. setoid_rewrite app_nil_l_str in H2. rewrite H2 by done.
  cbn [mbind option_bind].
  change (" " +:+ address ?x +:+ ?r) with (String " " (address x +:+ r)).
  rewrite (Attribution.scan_s_token 4 (me_perms m)) by done. cbn [mbind option_bind].
  change (String " " (address (me_offset m) +:+ ?r)) with (blanks 1 +:+ address (me_offset m) +:+ r).
  rewrite scan_address by done. cbn [mbind option_bind].
  change (" " +:+ fmt_d ?x +:+ ?r) with (String " " (fmt_d x +:+ r)).
  rewrite (Attribution.scan_s_token 15 (me_dev m)) by done. cbn [mbind option_bind]. unfold scan_u64 at 1.
  change (String " " (fmt_d ?x +:+ ?r)) with (blanks 1 +:+ fmt_d x +:+ r).
  rewrite scan_decimal by (done || lia). cbn [mbind option_bind]. by rewrite Hpt.
Qed.

(** C28. April reads back the regions of a table as the kernel prints it, in order,
    with the size of each modulo 2^64 and the first 511 characters of its path. *)
Theorem maps_read entries :
  Forall (λ m, entry_ok m ∧ none_of (char_in NLs) (entry_text m) = true ∧ (String.length (entry_text m) < 1023)%nat) entries →
  april_enum_memory_regions (λ _, true) (Some (text_of (map entry_text entries))) = (STATUS_OK, map region_of entries).
Proof.
  intros Hall. unfold april_enum_memory_regions.
  assert (read_lines 1024 (text_of (map entry_text entries)) = map (λ m, entry_text m +:+ NLs) entries) as ->.
  { induction Hall as [|m entries (_ & Hn & Hl) Hall IH]; [done|]. unfold text_of in *. cbn [map scat] in *.
    rewrite app_assoc_str, read_lines_cons by (done || lia). by rewrite IH. }
  assert (∀ n, regions (λ _, true) n (map (λ m, entry_text m +:+ NLs) entries) = Some (map region_of entries)) as ->; [|done].
  induction Hall as [|m entries (Hm & _ & _) Hall IH]; intros n; [done|]. cbn [map regions]. by rewrite IH, maps_line_read.
Qed.

Definition sample_entry : maps_entry :=
  MapsEntry (10%nat, 139889704898560) (10%nat, 139889705021440) "r-xp" (6%nat, 774144) "fd:0a" 1234 (Some (3%nat, "/system/lib64/libc.so")).

Lemma maps_read_witness :
  april_enum_memory_regions (λ _, true) (Some ("7f3a9c2b1000-7f3a9c2cf000 r-xp 000bd000 fd:0a 1234    /system/lib64/libc.so" +:+ NLs)) =
  (STATUS_OK, [Region 139889704898560 122880 "/system/lib64/libc.so" true false]).
Proof.
  pose proof (maps_read [sample_entry]) as H. apply H. constructor; [|done].
  split; [|split; [reflexivity|apply Nat.ltb_lt; vm_compute; reflexivity]].
  unfold entry_ok, address_ok, word_ok, path_ok, sample_entry. cbn [me_start me_stop me_offset me_perms me_dev me_inode me_path fst snd].
  split_and!; lazymatch goal with
  | |- (_ <= _)%Z => apply Z.leb_le; vm_compute; reflexivity
  | |- (_ < _)%Z => apply Z.ltb_lt; vm_compute; reflexivity
  | |- (_ ≤ _)%nat => apply Nat.leb_le; vm_compute; reflexivity
  | |- _ ≠ _ => discriminate
  | |- _ = _ => vm_compute; reflexivity
  end.
Defined.

(** When memory runs out while a table is read, no region is handed out. *)
Theorem no_memory_no_regions alloc text n :
  (n < length (read_lines 1024 text))%nat → alloc n = false →
  april_enum_memory_regions alloc (Some text) = (STATUS_NO_MEMORY, []).
Proof.
  intros Hn Ha. unfold april_enum_memory_regions. generalize dependent (read_lines 1024 text). intros lines.
  assert (∀ k, (k <= n < k + length lines)%nat → regions alloc k lines = None) as H; [|intros Hl; by rewrite H by lia].
  induction lines as [|l lines IH]; intros k Hk; cbn [length] in Hk; [lia|]. cbn [regions].
  destruct (Nat.eq_dec k n) as [->|Hne]; [by rewrite Ha|]. rewrite IH by lia. by destruct (alloc k).
Qed.

Lemma no_memory_no_regions_witness :
  april_enum_memory_regions (λ n, (n =? 0)%nat) (Some ("x" +:+ NLs +:+ "y" +:+ NLs)) = (STATUS_NO_MEMORY, []).
Proof. apply (no_memory_no_regions _ _ 1); [vm_compute; lia|reflexivity]. Defined.
