(* ===== verification/Turtlecom.v ===== *)
(** * turtlecomd: a socket with a fallback ([src/daemon/turtlecomd.c])

    turtlecomd listens on a unix socket, or when that cannot be had on a TCP port
    that it publishes in a file, and then tries the unix socket again every thirty
    seconds.  The answers of the system calls are parameters of each step. *)

From S2P Require Import Prelude CString.

Definition UNIX_RETRY_INTERVAL_SEC : Z := 30.

Inductive transport_t := TRANSPORT_UNIX | TRANSPORT_TCP.

#[export] Instance transport_eq_dec : EqDecision transport_t.
Proof. solve_decision. Defined.

(** The files of the daemon, the sockets it has open, what it logged as received,
    and its globals. *)
Record tc := Tc {
  tc_socket : bool;                     (* TURTLE_SOCKET is there *)
  tc_discovery : option string;         (* TURTLE_TCP_DISCOVERY *)
  tc_pid : option string;               (* TURTLE_PID_PATH *)
  tc_open : list transport_t;           (* open server sockets *)
  tc_received : list string;
  tc_transport : transport_t;           (* g_transport *)
  tc_last_retry : Z }.

Definition set_socket (x : bool) (s : tc) : tc := Tc x (tc_discovery s) (tc_pid s) (tc_open s) (tc_received s) (tc_transport s) (tc_last_retry s).
Definition set_discovery (x : option string) (s : tc) : tc := Tc (tc_socket s) x (tc_pid s) (tc_open s) (tc_received s) (tc_transport s) (tc_last_retry s).
Definition set_pid (x : option string) (s : tc) : tc := Tc (tc_socket s) (tc_discovery s) x (tc_open s) (tc_received s) (tc_transport s) (tc_last_retry s).
Definition set_open (x : list transport_t) (s : tc) : tc := Tc (tc_socket s) (tc_discovery s) (tc_pid s) x (tc_received s) (tc_transport s) (tc_last_retry s).
Definition add_received (x : string) (s : tc) : tc := Tc (tc_socket s) (tc_discovery s) (tc_pid s) (tc_open s) (tc_received s ++ [x]) (tc_transport s) (tc_last_retry s).
Definition set_transport (x : transport_t) (s : tc) : tc := Tc (tc_socket s) (tc_discovery s) (tc_pid s) (tc_open s) (tc_received s) x (tc_last_retry s).
Definition set_last_retry (x : Z) (s : tc) : tc := Tc (tc_socket s) (tc_discovery s) (tc_pid s) (tc_open s) (tc_received s) (tc_transport s) x.

(** [close] of a server socket. *)
Definition close_one (t : transport_t) (s : tc) : tc :=
  set_open (match list_find (eq t) (tc_open s) with Some (i, _) => delete i (tc_open s) | None => tc_open s end) s.

(** Whether the calls succeed. *)
Record unix_calls := UnixCalls { un_socket : bool; un_bind : bool; un_listen : bool }.
Record tcp_calls := TcpCalls { tp_socket : bool; tp_bind : bool; tp_port : option Z; tp_file : bool; tp_listen : bool }.

Definition bind_unix_socket (a : unix_calls) : M tc bool :=
  _ ← modify (set_socket false);
  if negb (un_socket a) then mret false
  else
    _ ← modify (λ s, set_open (tc_open s ++ [TRANSPORT_UNIX]) s);
    if negb (un_bind a) then _ ← modify (close_one TRANSPORT_UNIX); mret false
    else
      _ ← modify (set_socket true);
      if negb (un_listen a) then
        _ ← modify (close_one TRANSPORT_UNIX);
        _ ← modify (set_socket false);
        mret false
      else mret true.

Definition bind_tcp_fallback (a : tcp_calls) : M tc bool :=
  if negb (tp_socket a) then mret false
  else
    _ ← modify (λ s, set_open (tc_open s ++ [TRANSPORT_TCP]) s);
    match (if tp_bind a then tp_port a else None) with
    | None => _ ← modify (close_one TRANSPORT_TCP); mret false
    | Some port =>
        if negb (tp_file a) then _ ← modify (close_one TRANSPORT_TCP); mret false
        else
          _ ← modify (set_discovery (Some (fmt_d port +:+ NLs)));
          if negb (tp_listen a) then
            _ ← modify (close_one TRANSPORT_TCP);
            _ ← modify (set_discovery None);
            mret false
          else mret true
    end.

(** The pid file is opened, locked, and overwritten. *)
Definition acquire_singleton_lock (opens locks : bool) (pid : Z) : M tc bool :=
  if negb opens then mret false
  else
    _ ← modify (λ s, set_pid (Some (default "" (tc_pid s))) s);
    if negb locks then mret false
    else _ ← modify (set_pid (Some (fmt_d pid +:+ NLs))); mret true.

(** What [select] finds, and what is read from a connection, if one is accepted. *)
Inductive wait := Interrupted | Failed | TimedOut | Ready (conn : option string).

(** A turn of the loop, with the time and the calls of a retry. *)
Record tc_turn := TcTurn { tt_wait : wait; tt_now : Z; tt_unix : unix_calls }.

(** The part behind [select], only while degraded to TCP. *)
Definition reconcile (now : Z) (a : unix_calls) : M tc unit :=
  s ← gets id;
  match tc_transport s with
  | TRANSPORT_UNIX => mret tt
  | TRANSPORT_TCP =>
      if UNIX_RETRY_INTERVAL_SEC <=? now - tc_last_retry s then
        _ ← modify (set_last_retry now);
        ok ← bind_unix_socket a;
        if (ok : bool) then
          _ ← modify (close_one TRANSPORT_TCP);
          _ ← modify (set_discovery None);
          modify (set_transport TRANSPORT_UNIX)
        else mret tt
      else mret tt
  end.

(** The loop, until a signal or an error of [select]. *)
Fixpoint serve (turns : list tc_turn) : M tc unit :=
  match turns with
  | [] => mret tt
  | t :: turns' =>
      match tt_wait t with
      | Failed => mret tt
      | Interrupted => serve turns'
      | w =>
          _ ← (match w with
               | Ready (Some text) => if String.eqb text "" then mret tt else modify (add_received (c_str (stake 1023 text)))
               | _ => mret tt
               end);
          _ ← reconcile (tt_now t) (tt_unix t);
          serve turns'
      end
  end.

Definition sign_off : M tc unit :=
  s ← gets id;
  _ ← modify (close_one (tc_transport s));
  _ ← modify (match tc_transport s with TRANSPORT_UNIX => set_socket false | TRANSPORT_TCP => set_discovery None end);
  modify (set_pid None).

(** What the start asks of the system. *)
Record tc_start := TcStart {
  tb_opens : bool; tb_locks : bool; tb_pid : Z; tb_unix : unix_calls; tb_tcp : tcp_calls; tb_now : Z }.

(** [main] before the loop: whether it goes on the air. *)
Definition on_the_air (b : tc_start) : M tc bool :=
  locked ← acquire_singleton_lock (tb_opens b) (tb_locks b) (tb_pid b);
  if negb locked then mret false
  else
    ok ← bind_unix_socket (tb_unix b);
    if (ok : bool) then
      _ ← modify (set_transport TRANSPORT_UNIX);
      _ ← modify (set_last_retry (tb_now b));
      mret true
    else
      ok ← bind_tcp_fallback (tb_tcp b);
      if negb ok then mret false
      else
        _ ← modify (set_transport TRANSPORT_TCP);
        _ ← modify (set_last_retry (tb_now b));
        mret true.

(** [main]; the result is the exit status. *)
Definition turtle_main (b : tc_start) (turns : list tc_turn) : M tc Z :=
  up ← on_the_air b;
  if negb up then mret 1
  else
    _ ← serve turns;
    _ ← sign_off;
    mret 0.

(** The process before its start. *)
Definition tc_before (socket : bool) (discovery pid : option string) : tc := Tc socket discovery pid [] [] TRANSPORT_UNIX 0.

(** ** On the air *)

(** One server socket is open, of the transport in use, and the file by which
    clients find that transport is there.  [stale] is what the discovery file held
    before the start. *)
Definition on_air (stale : option string) (s : tc) : Prop :=
  tc_open s = [tc_transport s] ∧
  match tc_transport s with
  | TRANSPORT_UNIX => tc_socket s = true ∧ (tc_discovery s = None ∨ tc_discovery s = stale)
  | TRANSPORT_TCP => tc_socket s = false ∧ ∃ port, tc_discovery s = Some (fmt_d port +:+ NLs)
  end.

(** Expose the fields of a step. *)
Ltac run_calls :=
  unmonad; unfold close_one, set_socket, set_discovery, set_pid, set_open, set_transport, set_last_retry, add_received;
  cbn -[fmt_d].

Lemma unix_bound a s : tc_open s = [] ∨ tc_open s = [TRANSPORT_TCP] →
  bind_unix_socket a s =
  let ok := un_socket a && un_bind a && un_listen a in
  (ok, set_socket ok (if ok then set_open (tc_open s ++ [TRANSPORT_UNIX]) s else s)).
Proof.
  destruct s as [so di pi op re tr la]. cbn [tc_open]. intros Ho. unfold bind_unix_socket.
  destruct Ho as [->| ->]; destruct a as [[] [] []]; run_calls; reflexivity.
Qed.

Lemma tcp_bound a s : tc_open s = [] →
  let '(ok, s') := bind_tcp_fallback a s in
  if ok then ∃ port, s' = set_discovery (Some (fmt_d port +:+ NLs)) (set_open [TRANSPORT_TCP] s) else tc_open s' = [].
Proof.
  destruct s as [so di pi op re tr la]. cbn [tc_open]. intros ->. unfold bind_tcp_fallback.
  destruct a as [[] [] [port|] [] []]; run_calls; by eauto.
Qed.

Lemma lock_taken o l p s :
  let '(ok, s') := acquire_singleton_lock o l p s in tc_open s' = tc_open s ∧ tc_discovery s' = tc_discovery s.
Proof. destruct s as [so di pi op re tr la]. unfold acquire_singleton_lock. destruct o, l; run_calls; done. Qed.

Lemma start_on_air b socket stale pid :
  let '(up, s) := on_the_air b (tc_before socket stale pid) in
  if up then on_air stale s else tc_open s = [].
Proof.
  unfold on_the_air. unmonad. pose proof (lock_taken (tb_opens b) (tb_locks b) (tb_pid b) (tc_before socket stale pid)) as Hl.
  destruct (acquire_singleton_lock _ _ _ _) as [[] s]; cbn [negb]; [|by destruct Hl]. destruct Hl as [Ho Hd].
  cbn [tc_before tc_open tc_discovery] in Ho, Hd. rewrite unix_bound by by left. cbv zeta.
  destruct (_ && _ && _).
  - rewrite Ho. split; [done|]. split; [done|]. right. exact Hd.
  - pose proof (tcp_bound (tb_tcp b) (set_socket false s) Ho) as Ht.
    destruct (bind_tcp_fallback _ _) as [[] s']; cbn [negb]; [|exact Ht]. destruct Ht as [port ->].
    split; [done|]. split; [done|]. by exists port.
Qed.

Lemma reconcile_on_air stale now a s : on_air stale s → on_air stale (exec (reconcile now a) s).
Proof.
  intros Hs. unfold reconcile. unmonad. unfold id. destruct (tc_transport s) eqn:Ht; [done|]. destruct Hs as [Ho H]. rewrite Ht in Ho, H.
  destruct (_ <=? _); [|unfold on_air; cbn; rewrite Ht; by split]. rewrite unix_bound by by right. cbv zeta.
  cbn [set_last_retry tc_open]. rewrite Ho. destruct (_ && _ && _).
  - split; [done|]. split; [done|]. by left.
  - unfold on_air. cbn. rewrite Ht. split; [exact Ho|]. split; [done|]. apply H.
Qed.

Lemma serve_on_air stale turns : ∀ s, on_air stale s → on_air stale (exec (serve turns) s).
Proof.
  induction turns as [|[w now a] turns IH]; intros s Hs; [done|]. cbn [serve tt_wait tt_now tt_unix].
  assert (∀ s', on_air stale s' → on_air stale (exec (_ ← reconcile now a; serve turns) s')) as Hrest.
  { intros s' Hs'. rewrite exec_bind. by apply IH, reconcile_on_air. }
  destruct w as [| | |[text|]]; [by apply IH|done|by apply Hrest| |by apply Hrest].
  rewrite exec_bind. apply Hrest. destruct (String.eqb text ""); [done|]. by destruct s.
Qed.

Lemma off_air stale s : on_air stale s →
  let s' := exec sign_off s in tc_open s' = [] ∧ tc_socket s' = false ∧ tc_pid s' = None ∧
  (tc_discovery s' = None ∨ tc_discovery s' = stale).
Proof.
  destruct s as [so di pi op re tr la]. unfold on_air, sign_off. cbn [tc_open tc_transport tc_socket tc_discovery].
  intros [-> H]. destruct tr; run_calls; destruct H as [-> H]; split_and!; eauto.
Qed.

(** C6. turtlecomd leaves nothing behind: however the calls of the system go and
    whatever the clients send, at its end no server socket is open; and when it was
    on the air, neither its socket nor its pid file is left, nor a discovery file,
    but for one that was there before the start. *)
Theorem nothing_left b turns socket stale pid :
  let '(status, s) := turtle_main b turns (tc_before socket stale pid) in
  tc_open s = [] ∧
  (status = 0 → tc_socket s = false ∧ tc_pid s = None ∧ (tc_discovery s = None ∨ tc_discovery s = stale)).
Proof.
  unfold turtle_main. pose proof (start_on_air b socket stale pid) as Hup. unmonad.
  destruct (on_the_air b (tc_before socket stale pid)) as [[] s]; cbn [negb]; [|split; [done|discriminate]].
  apply (serve_on_air stale turns), off_air in Hup as (H1 & H2 & H3 & H4). unfold exec in *.
  destruct (serve turns s) as [[] s']. cbn [snd] in *. destruct (sign_off s') as [[] s'']. done.
Qed.

(** C29. On TCP, the first turn that comes thirty seconds after the last try and
    finds the unix socket free again brings it back, and takes the published port
    away. *)
Theorem unix_recovered stale w now s :
  on_air stale s → tc_transport s = TRANSPORT_TCP → w ≠ Failed → w ≠ Interrupted →
  UNIX_RETRY_INTERVAL_SEC <= now - tc_last_retry s →
  let s' := exec (serve [TcTurn w now (UnixCalls true true true)]) s in
  tc_transport s' = TRANSPORT_UNIX ∧ tc_open s' = [TRANSPORT_UNIX] ∧ tc_socket s' = true ∧ tc_discovery s' = None.
Proof.
  intros [Ho H] Ht Hf Hi Hn s'. unfold s'. cbn [serve tt_wait tt_now tt_unix].
  assert (∀ s1, tc_transport s1 = TRANSPORT_TCP → tc_open s1 = [TRANSPORT_TCP] → UNIX_RETRY_INTERVAL_SEC <= now - tc_last_retry s1 →
    let s2 := exec (_ ← reconcile now (UnixCalls true true true); mret tt) s1 in
    tc_transport s2 = TRANSPORT_UNIX ∧ tc_open s2 = [TRANSPORT_UNIX] ∧ tc_socket s2 = true ∧ tc_discovery s2 = None) as Hrec.
  { intros [so di pi op re tr la] Htr Hop Hla. cbn in Htr, Hop, Hla. subst. unfold reconcile, bind_unix_socket. run_calls.
    rewrite (proj2 (Z.leb_le _ _)) by done. by run_calls. }
  rewrite Ht in Ho. destruct w as [| | |[text|]]; [done|done|by apply Hrec| |by apply Hrec].
  rewrite exec_bind. apply Hrec; destruct (String.eqb text ""); done.
Qed.

Lemma unix_recovered_witness :
  tc_transport (exec (serve [TcTurn TimedOut 40 (UnixCalls true true true)])
    (Tc false (Some ("40123" +:+ NLs)) None [TRANSPORT_TCP] [] TRANSPORT_TCP 10)) = TRANSPORT_UNIX.
Proof.
  apply (unix_recovered None TimedOut 40 (Tc false (Some ("40123" +:+ NLs)) None [TRANSPORT_TCP] [] TRANSPORT_TCP 10));
    [|reflexivity|discriminate|discriminate|vm_compute; discriminate].
  split; [reflexivity|]. split; [reflexivity|]. by exists 40123.
Defined.

(** A port that an earlier run published is never taken back by a run that gets its
    unix socket at once. *)
Lemma stale_port_kept b turns socket stale pid :
  tb_opens b = true → tb_locks b = true → tb_unix b = UnixCalls true true true →
  tc_discovery (exec (turtle_main b turns) (tc_before socket stale pid)) = stale.
Proof.
  destruct b as [o lk p u t now]. cbn [tb_opens tb_locks tb_unix]. intros -> -> ->. unfold turtle_main.
  assert (∀ s, tc_transport s = TRANSPORT_UNIX → tc_transport (exec (serve turns) s) = TRANSPORT_UNIX ∧
    tc_discovery (exec (serve turns) s) = tc_discovery s) as Hs.
  { induction turns as [|[w n a] turns IH]; intros s Hs; [done|]. cbn [serve tt_wait tt_now tt_unix].
    assert (∀ s', tc_transport s' = TRANSPORT_UNIX → exec (_ ← reconcile n a; serve turns) s' = exec (serve turns) s') as Hr.
    { intros s' Hs'. rewrite exec_bind. unfold reconcile. unmonad. unfold id. by rewrite Hs'. }
    destruct w as [| | |[text|]]; [by apply IH|done|by rewrite Hr; [apply IH|]| |by rewrite Hr; [apply IH|]].
    rewrite exec_bind.
    assert (∃ s2, exec (if String.eqb text "" then mret tt else modify (add_received (c_str (stake 1023 text)))) s = s2 ∧
      tc_transport s2 = TRANSPORT_UNIX ∧ tc_discovery s2 = tc_discovery s) as (s2 & -> & Ht & <-) by (destruct (String.eqb text ""); by eexists).
    rewrite Hr by done. by apply IH. }
  rewrite exec_bind. unfold on_the_air, acquire_singleton_lock, bind_unix_socket, tc_before. run_calls.
  match goal with |- context [serve turns ?s0] => destruct (Hs s0) as [H1 H2]; [done|]; unfold exec in H1, H2; destruct (serve turns s0) as [[] s1] end.
  cbn in *. destruct s1 as [so di pi op re tr la]. cbn in *. by subst.
Qed.
